(* ===== verification/_CoqProject ===== *)
-Q . S2P
Prelude.v
Lists.v
Frames.v
ByteBuffer.v
Util.v
MovementElements.v
MovementTables.v
MovementInfo.v
MovementFields.v
MovementWrite.v
MovementRead.v
MovementDecode.v
Rbac.v
Channel.v
ChannelOwner.v
ChannelRules.v
ChannelMgr.v
MotionMaster.v
Timers.v
EventProcessor.v
Grids.v
Group.v
GroupSlots.v
GroupLinks.v
GroupMembers.v
GroupRoster.v
GroupWorld.v
GroupLife.v
GroupRoll.v
GroupRollRun.v
LfgRoles.v
LfgQueue.v
LfgParties.v
LfgMgr.v
LfgJoin.v
LfgSafe.v
LfgLife.v
LfgVotes.v
LfgFlow.v
LfgRuns.v
Mail.v
MailMoney.v
MailRuns.v
Float.v
Auction.v
AuctionMoney.v
AuctionRuns.v
Guild.v
GuildBank.v
GuildSteps.v
GuildMoney.v
GuildLimits.v
GuildRoster.v
GuildQuiet.v
GuildRefines.v
GuildRanks.v
GuildRuns.v
Reputation.v
ReputationRules.v
ReputationSpread.v
ReputationLoad.v
ReputationPackets.v
ReputationRuns.v
BigNumber.v
AuthSocket.v
AuthLogin.v
AuthRules.v
AuthWays.v
AuthNet.v
AuthTokens.v
WorldSocket.v
WorldLogin.v
AuthRuns.v
