(* ===== verification/Prelude.v ===== *)
(** * World server verification library

    A Rocq model of core parts of the game server of this repository (the
    C++ sources under src/src/server), with the theorems that make them
    correct.  The sources are named relative to that directory.

    ** The program and its parts

    Two programs share a library.  [authserver] logs accounts in;
    [worldserver] runs the game: it receives packets on sockets, hands each
    to the handler of its opcode, keeps maps of objects up to date on a timer
    and sends packets back.  They meet in the login database: the session key
    that the first stores for an account is what the second asks of a client
    (authserver/Server/AuthSocket, game/Server/WorldSocket).  Packets are built and read with [ByteBuffer]
    (shared/Packets).  Movement is relayed between clients by table-driven
    packets (game/Movement/MovementStructures, Player::ReadMovementInfo,
    Unit::WriteMovementInfo) and planned for a unit by its stack of movement
    generators (game/Movement/MotionMaster).  What an account may do is
    decided by role based access control (game/Accounts), which most handlers
    ask; chat channels (game/Chat/Channels, game/Handlers/ChannelHandler) are
    one of its clients.  Players form groups (game/Groups, GroupHandler), which
    share loot by rolls and are matched up for dungeons by the dungeon finder
    (game/DungeonFinding).  They send each other mail (game/Mails) and sell in
    auction houses, which answer by mail (game/AuctionHouse), and belong to
    guilds with ranks, logs and a bank (game/Guilds).  What factions think of a
    player is his reputation (game/Reputation).  Maps load and unload their
    grids by timers and the state machine of game/Grids, and delayed actions are events of an
    [EventProcessor] (shared/Utilities).

    ** Files

    - Prelude.v: outcomes and the state-and-exception monad [ST] in which
      member functions that can throw are written, fixed-width integers, flag
      words, little-endian bytes, list lemmas and tactics.
    - ByteBuffer.v: shared/Packets/ByteBuffer.h.  The record [ByteBuffer] has
      the members of the class; every read and write of bytes, bits, strings,
      packed GUIDs is one definition, with the two exceptions and the failed
      [ASSERT] as errors.  The reference view is a [wire] of bytes and pending
      bits; [emits] and [reads_ops] are the specifications of writers and
      readers that the movement files build on.
    - Util.v: shared/Utilities/Util (Tokenizer, case of wide characters) and
      the decimal conversions used with it.
    - MovementElements.v, MovementTables.v: the alphabet of the movement
      layouts and all the layout arrays of MovementStructures.cpp, with
      [GetMovementStatusElementsSequence].
    - MovementInfo.v: [MovementInfo], the GUID bytes, and the rules by which
      Player::ReadMovementInfo strikes flags a client may not set.
    - MovementFields.v: the extra elements, and the abstract contents of a
      movement packet with their encoding along a layout.
    - MovementWrite.v: Unit::WriteMovementInfo and
      Movement::PacketSender::Send; they implement the encoding.
    - MovementRead.v, MovementDecode.v: Player::ReadMovementInfo; it decodes
      the encoding, on every layout a client opcode selects.
    - Rbac.v: RBAC.cpp, RBAC.h, AccountMgr.cpp.  [AccountMgr] has the tables,
      [RBACData] one account; the class [Permissions] is what other parts see
      of an account.
    - Channel.v: Channel.cpp and Channel.h, one definition per member function;
      proved against [Permissions] alone.  ChannelOwner.v: the commands as
      steps, and the invariants.  ChannelRules.v: authority, admission,
      packets, the stored row.
    - ChannelMgr.v: ChannelMgr.cpp, the channel requests of ChannelHandler.cpp,
      and the channel lists of Player.cpp.
    - MotionMaster.v: MotionMaster.cpp and MotionMaster.h.
    - Lists.v: sorted lists, maps and sets in key order.
    - Timers.v: shared/Utilities/Timer.h.  EventProcessor.v: the events of an
      object, with the heap they live in.
    - Grids.v: GridStates.cpp, NGrid.h and the part of Map.cpp that loads and
      unloads grids.
    - Group.v: Group.cpp, GroupMgr.cpp, the requests of GroupHandler.cpp and
      the group references of Player.cpp, in a world of objects that point to
      each other.  GroupSlots.v: one group and its counters.  GroupLinks.v:
      when the objects agree, and a calculus of postconditions [wp];
      GroupMembers.v: changes of membership; GroupRoster.v: the member
      functions; GroupWorld.v: the requests, and [reachable]; GroupLife.v:
      what requests do.
    - GroupRoll.v, GroupRollRun.v: the loot rolls of Group.cpp, with the loots
      they are linked to.
    - LfgRoles.v: LFGMgr::CheckGroupRoles.  LfgQueue.v: LFGQueue.cpp with its
      cache of compatible combinations; LfgParties.v: what the search finds.
      LfgMgr.v, LfgJoin.v: LFGMgr.cpp, the group and player data, and the calls
      of LFGScripts.cpp; what the manager asks of players, groups and
      configuration is the class [LfgWorld].  LfgSafe.v: the invariant and that
      every operation keeps it; LfgLife.v: sequences of operations; LfgVotes.v,
      LfgFlow.v: votes to kick, role checks and declined proposals; LfgRuns.v:
      a concrete server, and runs on it.
    - Mail.v: Mail.cpp, the mail part of Player.cpp and the requests of
      MailHandler.cpp; [Post] has the players, the items and the tables, and
      [MailWorld] what other parts answer.  MailMoney.v: the invariant and that
      every operation keeps it and makes no money; MailRuns.v: sequences of
      operations, and runs on a concrete server.
    - Auction.v: AuctionHouseMgr.cpp and the requests of
      AuctionHouseHandler.cpp, on top of [Post]; AuctionMoney.v, AuctionRuns.v:
      the same for the houses.
    - Guild.v: Guild.cpp without the bank, GuildMgr.cpp, the requests of
      GuildHandler.cpp and PetitionsHandler.cpp, logins and logouts and the
      commands of cs_guild.cpp; [Guilds] has the objects and the tables, on top
      of [Post], and [GuildWorld] what other parts answer.  GuildBank.v: tabs,
      daily limits, money, and items that move between the slots of a bank.
      GuildSteps.v: sequences of operations.  Frames.v: [Keeps], the interface
      by which operations say what they leave alone, and its automation, used
      by GuildMoney.v (the balance of purses, mails and banks), GuildLimits.v
      (what a member takes in a day) and GuildQuiet.v (what leaves the roster
      alone).  GuildRoster.v: the abstract machine of who is in which guild;
      GuildRefines.v: guilds refine it.  GuildRanks.v: rights, ranks, levels
      and logs.  GuildRuns.v: runs on a concrete server.
    - Float.v: single precision, for auctions and reputations.
    - Reputation.v: ReputationMgr.cpp, ReputationMgr.h and the requests of
      CharacterHandler.cpp; [ReputationMgr] has the states and the player's rows
      in character_reputation, [RepWorld] the data files.  ReputationRules.v:
      the invariant and that every operation keeps it; ReputationSpread.v: who is
      given what by a change; ReputationLoad.v: loading, saving and sequences of
      requests; ReputationPackets.v: packets; ReputationRuns.v: a concrete server.
    - BigNumber.v: shared/Cryptography/BigNumber and SHA1 and the tokens of
      authserver/Authentication/TOTP, over the class [OpenSSL] with its laws
      [OpenSSLLaws].  AuthSocket.v: AuthSocket.cpp, the input of
      RealmSocket.cpp, RealmList.cpp, AuthCodes.cpp and the statements of the
      login database; a connection is an [AuthSocket], [Realmd] is what they
      share, [AuthWorld] the rest.  AuthLogin.v: the two sides of a login.
      AuthRules.v: what commands do to a connection; AuthWays.v: the ways in
      without a password, tokens, bans, reconnecting; AuthNet.v: all
      connections in any order; AuthTokens.v: tokens.
    - WorldSocket.v: WorldSocket.cpp, AuthCrypt.cpp and ARC4.cpp, with the
      configuration and the opcode table as [WorldConf].  WorldLogin.v: the
      stream of a client, and who gets a session.  AuthRuns.v: logins on
      concrete servers.

    ** State and effects

    An object is a record of its members; a member function returns the
    object it leaves.  What it causes outside (packets, calls on other
    objects, statements for the database) is a list of events in order.
    Integers are [Z] with their wrap-around written out ([u8] to [u64]);
    bytes and text are lists of [Z]; a std::map is a [gmap] and a std::set a
    [gset], visited in key order where the code iterates; a pointer is an
    [option], or a key with a store where aliasing matters ([m_channels]).
    Floats of packets are their 32-bit patterns, and the operations on them a
    class; the deposits and cuts of auctions and the shares of reputations are
    computed in the standard library's executable model of single precision.

    ** What the theorems show

    - Packets: bytes, bits, strings and packed GUIDs are read back as written;
      PutBits changes exactly the bits it addresses; two disciplines the
      callers rely on are made explicit (a string written behind pending bits
      overtakes them, the reader never realigns).
    - Movement: WriteMovementInfo implements the encoding and
      ReadMovementInfo inverts it for every well-formed packet of every
      client opcode; on arbitrary bytes it returns or raises the position
      exception; the flags it lets through obey every rule; Send emits the
      specified packets.
    - Permissions: expanding links terminates and yields exactly the
      reachable permissions; a loaded account has what is reached from its
      grants and not from its denials; the tables are what the rows describe;
      result codes and round trips of the commands.
    - Channels: in every reachable state each player holds exactly the
      channels he is a member of and no pointer dangles; a channel has at most
      one owner, and one of its members; nobody unauthorised changes a channel
      or touches its owner; who is admitted, who hears what, what the list
      packet contains; the stored row restores the channel; logging out
      completes.
    - Motion: whatever the requests and updates, the slots are never read out
      of bounds, no NULL generator is called, and an initialised generator is
      in control; clearing ends every other generator.
    - Timers and events: timers do not drift; an update calls every due event
      once, in order; additions, aborts and kills leave no freed event in the
      queue, and the destructor frees them all.
    - Grids: a grid somebody is near stays loaded and active, an abandoned one
      is unloaded in time, and only when nobody needs it.
    - Groups: after any sequence of requests players, rosters, invitations,
      the store of groups and the member table agree, and no freed object is
      used; who joins where, who leads next, when a group ends, who may
      command.  Rolls end, serve the best vote, and follow no dead link.
    - Dungeon finder: after any sequence of requests, calls of groups and
      updates queues, role checks, proposals, votes and data agree and no lookup
      fails; a proposal is a full party whose roles can be filled, with a
      dungeon in common and nobody ignored; the role check in place is the
      search for an assignment; votes end with the majority; what answering and
      declining lead to.
    - Mail and auctions: after any sequence of requests, logins and updates
      the mailboxes in memory agree with the tables, and purses, mails and what
      the houses hold never grow in sum; money in a mail arrives once; an
      outbid bidder gets back what he bid; a saved auction is loaded again.
    - Guilds: requests change the roster by the steps of an abstract machine,
      in which guilds, characters and the member table agree; purses, mails and
      banks never grow in sum, and nobody takes more than his rank may in a
      day; who is granted a right, whose rank can be changed; a log and its
      table have the same last entries; gaining levels ends.
    - Logins: a client with the password agrees with the server on a key and
      is let in, to the world as well; the stored verifiers stay those of the
      passwords; a connection that is logged in has shown a proof, and the
      realm list is for those; reading commands ends; wrong passwords are
      counted and end in a ban; a session starts exactly when key, address,
      bans and level are right; how a stream is cut into pieces does not
      matter; what is sent can be decoded; tokens are those of RFC 4226.
    - Reputations: after any sequence of requests standings are within their
      bounds, flags keep their rules and the counters of ranks are right; a change
      gives every faction exactly its share; what is saved is loaded again.
    - Defects found: the theorems on UpdateAccountAccess, offline permission
      tests, LoadRBAC without links, channel owners who kick themselves,
      MotionMaster::Initialize on a stack in use, the running generator that
      Mutate deletes, players who invite themselves, leaders who accept their
      own invitation, repeated votes, players in two proposals, parties the
      search misses, proposals nobody is told of, votes that keep their
      victim, sums and prices beyond their width, items sold twice, auctions
      settled before their items are loaded, members of two guilds, officers
      who make masters, removed ranks that may do everything, logins by a
      multiple of the modulus and after a refused challenge, locked accounts
      and tokens that do not protect, challenges that arrive in pieces, an
      opcode behind the table, counts written over a bit and reputations that
      undo each other state what the code does where that is not what
      it means to do.

    ** Fuel

    Recursion that is not structural carries fuel and a proof that it is
    enough: [ExpandPermissions] takes the measure of its loop (permissions not
    yet taken, then pending ones), [get_string] the size of the buffer,
    [CleanupChannels] the length of the list, [pop] and the clearing loops of
    MotionMaster.v a constant above the number of slots, [decimal] the twenty
    digits of a uint64, [find_free] the length of the store, [EndRoll_loop]
    the square of the number of rolls, [check_roles] the roles still open,
    [FindNewGroups] and [try_all] the length of their lists, [find_groups] that
    of the new queue, [level_loop] the number of values of a byte, [OnRead_loop] and [receive_loop]
    one more than the bytes received; the loops of EventProcessor.v take it
    from the theorem, which gives a sufficient amount.  A theorem that the result is produced goes with each.

    ** What is not modelled

    Sockets, threads, the database client, logging, file formats of client
    data, geometry and cryptography are input and output or third-party code;
    of OpenSSL the model has the documented laws it needs, digests are any
    twenty bytes.
    UTF-8 conversion (a vendored library), the object accessor, the name cache
    and the configuration are parameters.  ChatHandler::BuildChatPacket is
    kept as its arguments.  Calls from a generator back into its motion master
    are modelled from Update only.  In Group.v a player's address is his guid
    (one object per character), groups of battlegrounds and of the dungeon
    finder are handled by the definitions but excluded from the theorems, and
    instance binds, ready checks and roster packets are left out.
    Movement handlers, update fields and instances are not modelled either.  Of
    logins the files of patches (no command reaches them), the output queue of world sockets, what a new session loads and the
    processing of queued packets are left out; one thread works on the
    database, and during one call of HandleAuthSession the tables stay.  Of the dungeon finder the
    teleports, the rewards, loading and saving and the packets' bytes are left
    out; of mail and auctions the reading of packets, the lists sent to clients,
    the items of mail templates and the merging of stacks; of guilds the moves
    of items between bags and bank, loading, rosters and other packets,
    achievements and the guild finder. *)
From stdpp Require Export base list numbers strings gmap fin_maps.
From Stdlib Require Export ZArith Lia Bool.

(** ** Outcomes and the state-and-exception monad *)

(** A C++ call either returns or leaves by an exception (or a failed
    [ASSERT], which is an error of its own kind in each component). *)
Inductive outcome (E A : Type) : Type :=
| Ok (a : A)
| Err (e : E).
Arguments Ok {E A} a.
Arguments Err {E A} e.

(** Stateful member functions that can throw.  The object's state after a
    throw is not part of the outcome: the callers drop the object. *)
Definition ST (S E A : Type) : Type := S -> outcome E (A * S).

#[export] Instance st_ret {S E} : MRet (ST S E) := fun A a s => Ok (a, s).
#[export] Instance st_bind {S E} : MBind (ST S E) := fun A B f m s =>
  match m s with
  | Ok (a, s') => f a s'
  | Err e => Err e
  end.

Definition st_get {S E} : ST S E S := fun s => Ok (s, s).
Definition st_put {S E} (s : S) : ST S E unit := fun _ => Ok (tt, s).
Definition st_modify {S E} (f : S -> S) : ST S E unit := fun s => Ok (tt, f s).
Definition st_throw {S E A} (e : E) : ST S E A := fun _ => Err e.
(** [if (c) m;] *)
Definition st_when {S E} (c : bool) (m : ST S E unit) : ST S E unit :=
  if c then m else mret tt.

Lemma st_bind_Ok {S E A B} (m : ST S E A) (f : A -> ST S E B) s a s' :
  m s = Ok (a, s') -> (m ≫= f) s = f a s'.
Proof. unfold mbind, st_bind. by intros ->. Qed.

Lemma st_bind_Err {S E A B} (m : ST S E A) (f : A -> ST S E B) s e :
  m s = Err e -> (m ≫= f) s = Err e.
Proof. unfold mbind, st_bind. by intros ->. Qed.

Lemma st_bind_inv {S E A B} (m : ST S E A) (f : A -> ST S E B) s b s'' :
  (m ≫= f) s = Ok (b, s'') -> exists a s', m s = Ok (a, s') /\ f a s' = Ok (b, s'').
Proof.
  unfold mbind, st_bind. destruct (m s) as [[a s']|e]; [|discriminate].
  intros H. by exists a, s'.
Qed.

(** ** Fixed-width integers *)

Definition u8 (z : Z) : Z := z `mod` 2 ^ 8.
Definition u16 (z : Z) : Z := z `mod` 2 ^ 16.
Definition u32 (z : Z) : Z := z `mod` 2 ^ 32.
Definition u64 (z : Z) : Z := z `mod` 2 ^ 64.
(** Two's complement reading of an 8-bit pattern ([int8]). *)
Definition s8 (z : Z) : Z := (z + 2 ^ 7) `mod` 2 ^ 8 - 2 ^ 7.
(** Conversion to [int32]. *)
Definition s32 (z : Z) : Z := (z + 2 ^ 31) `mod` 2 ^ 32 - 2 ^ 31.

Definition is_byte (z : Z) : Prop := (0 <= z < 256)%Z.
Definition is_u32 (z : Z) : Prop := (0 <= z < 2 ^ 32)%Z.
Definition is_u64 (z : Z) : Prop := (0 <= z < 2 ^ 64)%Z.
#[export] Instance is_u32_dec z : Decision (is_u32 z) := decide (0 <= z < _)%Z.
#[export] Instance is_u64_dec z : Decision (is_u64 z) := decide (0 <= z < _)%Z.

Section Words.
Local Open Scope Z_scope.

Lemma u8_small z : is_byte z -> u8 z = z.
Proof. unfold u8, is_byte. intros. by rewrite Z.mod_small. Qed.

Lemma u32_small z : is_u32 z -> u32 z = z.
Proof. unfold u32, is_u32. intros. by rewrite Z.mod_small. Qed.

Lemma u64_small z : is_u64 z -> u64 z = z.
Proof. unfold u64, is_u64. intros. by rewrite Z.mod_small. Qed.

Lemma u8_byte z : is_byte (u8 z).
Proof. unfold u8, is_byte. apply Z.mod_pos_bound. lia. Qed.

Lemma s8_u8 z : -128 <= z < 128 -> s8 (u8 z) = z.
Proof.
  intros H. unfold s8, u8. rewrite Z.add_mod_idemp_l by lia.
  rewrite Z.mod_small; lia.
Qed.

Lemma s8_byte_range z : -128 <= s8 z < 128.
Proof. unfold s8. pose proof (Z.mod_pos_bound (z + 2 ^ 7) (2 ^ 8)). lia. Qed.

Lemma s32_small z : - 2 ^ 31 <= z < 2 ^ 31 -> s32 z = z.
Proof. intros H. unfold s32. rewrite Z.mod_small; lia. Qed.

Lemma s32_range z : - 2 ^ 31 <= s32 z < 2 ^ 31.
Proof. unfold s32. pose proof (Z.mod_pos_bound (z + 2 ^ 31) (2 ^ 32)). lia. Qed.

(** The conversion sees its argument modulo [2 ^ 32]. *)
Lemma s32_u32 z : s32 (u32 z) = s32 z.
Proof. unfold s32, u32. by rewrite Z.add_mod_idemp_l by lia. Qed.

Lemma u32_add_u32 a b : u32 (a + u32 b) = u32 (a + b).
Proof. unfold u32. by rewrite Z.add_mod_idemp_r by lia. Qed.

Lemma u32_range z : is_u32 (u32 z).
Proof. unfold u32, is_u32. apply Z.mod_pos_bound. lia. Qed.

Lemma lxor_1_twice z : Z.lxor (Z.lxor z 1) 1 = z.
Proof. by rewrite Z.lxor_assoc, Z.lxor_nilpotent, Z.lxor_0_r. Qed.

(** Bounds from bits: a non-negative number with no bit from [n] on is
    below [2 ^ n]. *)
Lemma bits_bound z n :
  0 <= n -> 0 <= z -> (forall i, n <= i -> Z.testbit z i = false) -> z < 2 ^ n.
Proof.
  intros Hn Hz Hb.
  assert (z = z `mod` 2 ^ n) as ->; [|apply Z.mod_pos_bound; lia].
  apply Z.bits_inj'. intros i Hi. rewrite Z.testbit_mod_pow2 by lia.
  destruct (Z.ltb_spec i n); [done|]. by apply Hb.
Qed.

Lemma bound_bits z n i : 0 <= z < 2 ^ n -> n <= i -> Z.testbit z i = false.
Proof.
  intros Hz Hi. destruct (Z.lt_ge_cases n 0) as [Hn|Hn].
  { rewrite Z.pow_neg_r in Hz by done. lia. }
  assert (z = z `mod` 2 ^ n) as -> by (by rewrite Z.mod_small).
  rewrite Z.testbit_mod_pow2 by lia. by destruct (Z.ltb_spec i n); [lia|].
Qed.

Lemma lor_bound a b n : 0 <= n ->
  0 <= a < 2 ^ n -> 0 <= b < 2 ^ n -> 0 <= Z.lor a b < 2 ^ n.
Proof.
  intros Hn Ha Hb. split; [apply Z.lor_nonneg; lia|].
  apply bits_bound; [done|apply Z.lor_nonneg; lia|].
  intros i Hi. rewrite Z.lor_spec, (bound_bits a n i), (bound_bits b n i) by lia. done.
Qed.

Lemma lxor_bound a b n : 0 <= n ->
  0 <= a < 2 ^ n -> 0 <= b < 2 ^ n -> 0 <= Z.lxor a b < 2 ^ n.
Proof.
  intros Hn Ha Hb. split; [apply Z.lxor_nonneg; lia|].
  apply bits_bound; [done|apply Z.lxor_nonneg; lia|].
  intros i Hi. rewrite Z.lxor_spec, (bound_bits a n i), (bound_bits b n i) by lia. done.
Qed.
End Words.

(** ** Flag words: [flags & mask], [flags |= mask], [flags &= ~mask] *)

Definition has_flag (flags mask : Z) : bool := negb (Z.land flags mask =? 0)%Z.
Definition add_flag (flags mask : Z) : Z := Z.lor flags mask.
Definition remove_flag (flags mask : Z) : Z := Z.ldiff flags mask.

Section Flags.
Local Open Scope Z_scope.

Lemma has_flag_spec f m :
  has_flag f m = true <-> exists i, 0 <= i /\ Z.testbit f i = true /\ Z.testbit m i = true.
Proof.
  unfold has_flag. rewrite negb_true_iff, Z.eqb_neq. split.
  - intros Hne.
    destruct (Z.eq_dec (Z.land f m) 0) as [|_]; [done|].
    destruct (Z.lt_trichotomy (Z.land f m) 0) as [Hneg|[?|Hpos]]; [|done|].
    + set (n := Z.max (Z.log2 (Z.pred (- Z.land f m)) + 1) 0).
      exists n. split; [lia|].
      rewrite <- andb_true_iff, <- Z.land_spec.
      apply Z.bits_above_log2_neg; lia.
    + exists (Z.log2 (Z.land f m)). split; [apply Z.log2_nonneg|].
      rewrite <- andb_true_iff, <- Z.land_spec. by apply Z.bit_log2.
  - intros (i & Hi & H1 & H2) H0.
    assert (Z.testbit (Z.land f m) i = true) as Ht by (by rewrite Z.land_spec, H1, H2).
    by rewrite H0, Z.bits_0 in Ht.
Qed.

Lemma has_flag_pow2 f k : 0 <= k -> has_flag f (2 ^ k) = Z.testbit f k.
Proof.
  intros Hk. apply eq_true_iff_eq. rewrite has_flag_spec. split.
  - intros (i & Hi & H1 & H2). rewrite Z.pow2_bits_eqb in H2 by done.
    apply Z.eqb_eq in H2. by subst.
  - intros H. exists k. by rewrite Z.pow2_bits_true.
Qed.

Lemma has_flag_lor f a b : has_flag f (Z.lor a b) = has_flag f a || has_flag f b.
Proof.
  apply eq_true_iff_eq. rewrite orb_true_iff, !has_flag_spec. split.
  - intros (i & Hi & H1 & H2). rewrite Z.lor_spec, orb_true_iff in H2.
    destruct H2; [left|right]; eauto.
  - intros [(i & ? & ? & H2)|(i & ? & ? & H2)]; exists i;
      rewrite Z.lor_spec, H2, ?orb_true_r; auto.
Qed.

Lemma testbit_add_flag f m k :
  Z.testbit (add_flag f m) k = Z.testbit f k || Z.testbit m k.
Proof. apply Z.lor_spec. Qed.

Lemma testbit_remove_flag f m k :
  Z.testbit (remove_flag f m) k = Z.testbit f k && negb (Z.testbit m k).
Proof. apply Z.ldiff_spec. Qed.
End Flags.

Create Rewrite HintDb flags.
#[export] Hint Rewrite testbit_add_flag testbit_remove_flag : flags.

(** ** Little-endian byte strings *)

(** [le_bytes n z]: the [n] bytes a little-endian host stores for [z]. *)
Fixpoint le_bytes (n : nat) (z : Z) : list Z :=
  match n with
  | O => []
  | S n => u8 z :: le_bytes n (z / 256)%Z
  end.

(** [le_value bs]: the unsigned integer whose representation is [bs]. *)
Fixpoint le_value (bs : list Z) : Z :=
  match bs with
  | [] => 0
  | b :: bs => b + 256 * le_value bs
  end%Z.

Section LittleEndian.
Local Open Scope Z_scope.

Lemma le_value_1 z : le_value [z] = z.
Proof. cbn [le_value]. lia. Qed.

Lemma length_le_bytes n z : length (le_bytes n z) = n.
Proof. revert z. induction n; intros z; simpl; [done|]. by rewrite IHn. Qed.

Lemma le_bytes_bytes n z : Forall is_byte (le_bytes n z).
Proof. revert z. induction n; intros z; constructor; auto using u8_byte. Qed.

Lemma le_value_le_bytes n z : le_value (le_bytes n z) = z `mod` 2 ^ (8 * Z.of_nat n).
Proof.
  revert z. induction n as [|n IH]; intros z; cbn [le_bytes le_value].
  { by rewrite Z.mod_1_r. }
  rewrite IH. replace (8 * Z.of_nat (S n)) with (8 + 8 * Z.of_nat n) by lia.
  rewrite Z.pow_add_r by lia. rewrite Z.mul_comm with (m := 2 ^ (8 * _)).
  rewrite (Z.mul_comm _ (2 ^ 8)), Z.rem_mul_r by lia.
  unfold u8. change (2 ^ 8) with 256. lia.
Qed.

Lemma le_bytes_le_value bs :
  Forall is_byte bs -> le_bytes (length bs) (le_value bs) = bs.
Proof.
  unfold is_byte. induction 1 as [|b bs Hb _ IH]; [done|].
  cbn [length le_bytes le_value]. f_equal.
  - unfold u8. change (2 ^ 8) with 256.
    rewrite Z.mul_comm, Z.mod_add, Z.mod_small by lia. done.
  - rewrite Z.mul_comm, Z.div_add, Z.div_small, Z.add_0_l by lia. done.
Qed.
End LittleEndian.

(** ** Lists *)

Lemma drop_app_prefix {A} (l k : list A) n : n = length l -> drop n (l ++ k) = k.
Proof. intros ->. apply drop_app_length. Qed.

Lemma lookup_drop_head {A} (l : list A) n x k : drop n l = x :: k -> l !! n = Some x.
Proof.
  intros H. replace n with (n + 0) by lia. rewrite <- lookup_drop. by rewrite H.
Qed.

Lemma drop_next {A} (l : list A) n x k : drop n l = x :: k -> drop (S n) l = k.
Proof.
  intros H. replace (S n) with (n + 1) by lia. rewrite <- drop_drop. by rewrite H.
Qed.

Lemma drop_cons_lt {A} (l : list A) n x k : drop n l = x :: k -> n < length l.
Proof. intros H%lookup_drop_head%lookup_lt_Some. done. Qed.

(** ** Shared tactics *)

(** Evaluate the monadic prefix of a computation once its first step is
    known to be [Ok]. *)
Ltac st_step H := rewrite (st_bind_Ok _ _ _ _ _ H); cbn beta iota.

(** Split on every [match] and boolean test of the goal. *)
Ltac case_all := repeat (case_match; simplify_eq/=; try done).

(** Boolean comparisons by [lia]. *)
Ltac bdec :=
  lazymatch goal with
  | |- true = _ => symmetry
  | |- false = _ => symmetry
  | _ => idtac
  end;
  lazymatch goal with
  | |- (_ =? _)%Z = true => apply Z.eqb_eq
  | |- (_ =? _)%Z = false => apply Z.eqb_neq
  | |- (_ <=? _)%Z = true => apply Z.leb_le
  | |- (_ <=? _)%Z = false => apply Z.leb_gt
  | |- (_ <? _)%Z = true => apply Z.ltb_lt
  | |- (_ <? _)%Z = false => apply Z.ltb_ge
  | |- (_ =? _)%nat = true => apply Nat.eqb_eq
  | |- (_ =? _)%nat = false => apply Nat.eqb_neq
  | |- (_ <=? _)%nat = true => apply Nat.leb_le
  | |- (_ <=? _)%nat = false => apply Nat.leb_gt
  | |- (_ <? _)%nat = true => apply Nat.ltb_lt
  | |- (_ <? _)%nat = false => apply Nat.ltb_ge
  | _ => idtac
  end; first [lia | simpl; lia].
