(* ===== verification/Lists.v ===== *)
(** * Generic lemmas on lists, and ordered containers *)
From Stdlib Require Export Sorting.Sorted.
From stdpp Require Export sorting.
From S2P Require Import Prelude.

Lemma sublist_Forall {A} (P : A -> Prop) l k : sublist l k -> Forall P k -> Forall P l.
Proof. induction 1; rewrite ?Forall_cons; naive_solver. Qed.

Lemma sublist_StronglySorted {A} (R : A -> A -> Prop) l k :
  sublist l k -> StronglySorted R k -> StronglySorted R l.
Proof.
  induction 1 as [|x l k Hl IH|x l k Hl IH]; [done|..];
    intros [Hk Hx]%StronglySorted_inv; auto.
  constructor; [auto|]. eauto using sublist_Forall.
Qed.

Lemma filter_perm {A} (f : A -> bool) l k :
  Permutation l k -> Permutation (List.filter f l) (List.filter f k).
Proof.
  induction 1; cbn; repeat case_match; eauto using Permutation_swap, perm_skip, perm_trans.
Qed.

Lemma sublist_filter_length {A} (f : A -> bool) l k :
  sublist l k -> length (List.filter f l) <= length (List.filter f k).
Proof. induction 1 as [|x l k _ IH|x l k _ IH]; cbn; repeat case_match; cbn; lia. Qed.

Lemma filter_all {A} (P : A -> Prop) `{forall x, Decision (P x)} l :
  Forall P l -> filter P l = l.
Proof.
  induction 1 as [|x l Hx _ IH]; [done|]. by rewrite filter_cons_True, IH.
Qed.

Lemma StronglySorted_app_inv {A} (R : A -> A -> Prop) l x k :
  StronglySorted R (l ++ x :: k) -> StronglySorted R (x :: k).
Proof. induction l as [|y l IH]; [done|]. intros [? _]%StronglySorted_inv. auto. Qed.

Local Open Scope Z_scope.

(** ** Ordered containers *)

(** The entries of a [std::map] and the elements of a [std::set] in the
    order an iterator visits them. *)
Definition key_le {A} (x y : Z * A) : Prop := x.1 <= y.1.
#[export] Instance key_le_dec {A} : RelDecision (@key_le A) := fun x y => Z.le_dec x.1 y.1.
Definition map_ordered {A} (m : gmap Z A) : list (Z * A) := merge_sort key_le (map_to_list m).
Definition set_ordered (s : gset Z) : list Z := merge_sort Z.le (elements s).

Lemma elem_of_map_ordered {A} (m : gmap Z A) k x : (k, x) ∈ map_ordered m <-> m !! k = Some x.
Proof.
  unfold map_ordered. rewrite merge_sort_Permutation. apply elem_of_map_to_list.
Qed.

Lemma elem_of_set_ordered s x : x ∈ set_ordered s <-> x ∈ s.
Proof. unfold set_ordered. rewrite merge_sort_Permutation. apply elem_of_elements. Qed.

Lemma length_map_ordered {A} (m : gmap Z A) : length (map_ordered m) = base.size m.
Proof.
  unfold map_ordered. rewrite (Permutation_length (merge_sort_Permutation _ _)).
  apply length_map_to_list.
Qed.

Lemma map_ordered_nil {A} (m : gmap Z A) : map_ordered m = [] <-> m = ∅.
Proof.
  unfold map_ordered. split; [|intros ->; by rewrite map_to_list_empty].
  intros H. apply map_to_list_empty_iff, Permutation_nil. rewrite <- H.
  apply merge_sort_Permutation.
Qed.

Lemma NoDup_map_ordered {A} (m : gmap Z A) : NoDup (map_ordered m).*1.
Proof.
  unfold map_ordered.
  assert (Hp : Permutation (merge_sort key_le (map_to_list m)).*1 (map_to_list m).*1)
    by (apply fmap_Permutation, merge_sort_Permutation).
  rewrite Hp. apply NoDup_fst_map_to_list.
Qed.

#[export] Instance key_le_total {A} : Total (@key_le A).
Proof. intros x y. unfold key_le. lia. Qed.
#[export] Instance key_le_trans {A} : Transitive (@key_le A).
Proof. intros x y z. unfold key_le. lia. Qed.

Lemma map_ordered_sorted {A} (m : gmap Z A) : StronglySorted key_le (map_ordered m).
Proof. apply StronglySorted_merge_sort; apply _. Qed.

(** The keys alone. *)
Lemma map_keys_sorted {A} (m : gmap Z A) : StronglySorted Z.le (map_ordered m).*1.
Proof.
  pose proof (map_ordered_sorted m) as Hs. induction Hs as [|x l Hs IH Hx]; cbn; constructor; [done|].
  apply Forall_fmap. eapply Forall_impl; [exact Hx|]. intros y Hy. exact Hy.
Qed.
Lemma map_keys_in {A} (m : gmap Z A) k : k ∈ (map_ordered m).*1 <-> k ∈ dom m.
Proof.
  rewrite list_elem_of_fmap, elem_of_dom. split.
  - intros ([k' x] & -> & Hin%elem_of_map_ordered). by eexists.
  - intros [x Hx]. exists (k, x). split; [done|]. by apply elem_of_map_ordered.
Qed.
(** The keys do not depend on the values. *)
Lemma map_keys_fmap {A B} (f : A -> B) (m : gmap Z A) : (map_ordered (f <$> m)).*1 = (map_ordered m).*1.
Proof.
  apply (StronglySorted_unique Z.le); [apply map_keys_sorted..|]. apply NoDup_Permutation; [apply NoDup_map_ordered..|].
  intros k. by rewrite !map_keys_in, dom_fmap_L.
Qed.

(** ** Sums over maps *)

Definition map_sum {A} (f : A -> Z) (m : gmap Z A) : Z := map_fold (fun _ x a => f x + a) 0 m.

Section Sums.
Context {A : Type} (f : A -> Z).
Implicit Types m : gmap Z A.

Lemma map_sum_empty : map_sum f ∅ = 0.
Proof. done. Qed.
Lemma map_sum_insert m k x : m !! k = None -> map_sum f (<[k := x]> m) = f x + map_sum f m.
Proof. intros Hk. unfold map_sum. rewrite (map_fold_insert_L (fun _ x a => f x + a)); [done| |done]. intros. lia. Qed.
Lemma map_sum_delete m k x : m !! k = Some x -> map_sum f m = f x + map_sum f (delete k m).
Proof. intros Hk. by rewrite <- (map_sum_insert (delete k m) k x), insert_delete_id by (done || apply lookup_delete_eq). Qed.
Lemma map_sum_change m k x y : m !! k = Some x -> map_sum f (<[k := y]> m) = map_sum f m - f x + f y.
Proof.
  intros Hk. rewrite (map_sum_delete m k x Hk), <- insert_delete_eq, (map_sum_insert (delete k m) k y) by apply lookup_delete_eq. lia.
Qed.
Lemma map_sum_alter m k x (g : A -> A) : m !! k = Some x -> map_sum f (alter g k m) = map_sum f m - f x + f (g x).
Proof.
  intros Hk. rewrite <- (map_sum_change m k x (g x) Hk). f_equal. apply map_eq. intros j.
  destruct (decide (j = k)) as [->|Hj]; [by rewrite lookup_alter_eq, lookup_insert_eq, Hk|].
  by rewrite lookup_alter_ne, lookup_insert_ne.
Qed.
Lemma map_sum_alter_same m k (g : A -> A) : (forall x, f (g x) = f x) -> map_sum f (alter g k m) = map_sum f m.
Proof.
  intros Hg. destruct (m !! k) as [x|] eqn:Hk; [rewrite (map_sum_alter m k x g Hk), Hg; lia|].
  f_equal. apply map_eq. intros j. destruct (decide (j = k)) as [->|Hj]; [by rewrite lookup_alter_eq, Hk|by rewrite lookup_alter_ne].
Qed.
Lemma map_sum_nonneg m : (forall k x, m !! k = Some x -> 0 <= f x) -> 0 <= map_sum f m.
Proof.
  induction m as [|k x m Hk IH] using map_ind; intros Hf; [done|]. rewrite (map_sum_insert m k x Hk).
  pose proof (Hf k x (lookup_insert_eq m k x)).
  assert (0 <= map_sum f m); [|lia]. apply IH. intros j y Hj. apply (Hf j). rewrite lookup_insert_ne; [done|]. by intros ->; rewrite Hk in Hj.
Qed.
(** A map with fewer keys and smaller values has a smaller sum. *)
Lemma map_sum_mono m m' : (forall k x, m !! k = Some x -> 0 <= f x) ->
  (forall k y, m' !! k = Some y -> exists x, m !! k = Some x /\ f y <= f x) -> map_sum f m' <= map_sum f m.
Proof.
  revert m. induction m' as [|k y m' Hk IH] using map_ind; intros m Hf Hle; [by apply map_sum_nonneg|].
  destruct (Hle k y (lookup_insert_eq _ _ _)) as (x & Hx & Hxy).
  rewrite (map_sum_insert m' k y), (map_sum_delete m k x) by done.
  assert (map_sum f m' <= map_sum f (delete k m)); [|lia]. apply IH.
  - intros j z [_ Hj]%lookup_delete_Some. by apply (Hf j).
  - intros j z Hj. assert (j <> k) by (intros ->; by rewrite Hk in Hj). rewrite lookup_delete_ne by done. apply Hle.
    by rewrite lookup_insert_ne.
Qed.
Lemma map_sum_ext m m' : (forall k, f <$> m !! k = f <$> m' !! k) -> map_sum f m = map_sum f m'.
Proof.
  revert m'. induction m as [|k x m Hk IH] using map_ind; intros m' Heq.
  - assert (m' = ∅) as ->; [|done]. apply map_empty. intros k. specialize (Heq k). rewrite lookup_empty in Heq. by destruct (m' !! k).
  - pose proof (Heq k) as Hx. rewrite lookup_insert_eq in Hx. destruct (m' !! k) as [y|] eqn:Hy; [|done]. injection Hx as Hx.
    rewrite (map_sum_insert m k x), (map_sum_delete m' k y), Hx by done. f_equal. apply IH. intros j. specialize (Heq j).
    destruct (decide (j = k)) as [->|Hj]; [by rewrite Hk, lookup_delete_eq|]. by rewrite lookup_insert_ne in Heq; [rewrite lookup_delete_ne|].
Qed.
End Sums.
