(* ===== verification/Frames.v ===== *)
(** * Frames

    What an operation leaves alone, as an interface: [Keeps R f] says that [f]
    takes a state to one that the preorder [R] relates to it.  A component
    gives instances for its primitive steps, and [keeping] composes them along
    the text of an operation. *)
From S2P Require Import Prelude.
From Stdlib Require Import RelationClasses.

Class Keeps {S} (R : S -> S -> Prop) (f : S -> S) : Prop := keeps : forall s, R s (f s).
#[export] Hint Mode Keeps - - ! : typeclass_instances.

Section Keeps.
Context {S : Type} (R : S -> S -> Prop) `{!PreOrder R}.

Lemma keeps_id : Keeps R (fun s => s).
Proof. intros s. reflexivity. Qed.
Lemma keeps_compose f g : Keeps R f -> Keeps R g -> Keeps R (fun s => f (g s)).
Proof. intros Hf Hg s. transitivity (g s); [apply Hg|apply Hf]. Qed.
Lemma keeps_foldl {A} (f : S -> A -> S) l s : (forall a s, R s (f s a)) -> R s (foldl f s l).
Proof. intros Hf. revert s. induction l as [|a l IH]; intros s; [reflexivity|]. cbn. transitivity (f s a); [apply Hf|apply IH]. Qed.
Lemma keeps_foldl_in {A} (f : S -> A -> S) l s : (forall a s, a ∈ l -> R s (f s a)) -> R s (foldl f s l).
Proof.
  revert s. induction l as [|a l IH]; intros s Hf; [reflexivity|]. cbn. transitivity (f s a); [apply Hf; set_solver|apply IH; set_solver].
Qed.
(** An operation with a result *)
Lemma keeps_snd {A} (f : S -> A * S) s a t : R s (f s).2 -> f s = (a, t) -> R s t.
Proof. intros H He. by rewrite He in H. Qed.
End Keeps.

(** What a component adds: its steps that have a side condition *)
Ltac keep_base := fail.
Ltac keep1 :=
  match goal with
  | |- ?R ?s ?s => reflexivity
  | |- ?R _ (if ?b then _ else _) => destruct b
  | |- ?R _ (match ?x with _ => _ end) => destruct x eqn:?
  | |- _ => keep_base
  | |- ?R _ (snd (?F ?t)) => transitivity t; [|apply (keeps (f := fun s => snd (F s)))]
  | |- ?R _ (?F ?t) => transitivity t; [|apply (keeps (f := F))]
  end.
Ltac keeping := intros; cbv zeta; repeat keep1.
