(* ===== verification/ByteBuffer.v ===== *)
(** * ByteBuffer: the packet buffer of src/server/shared/Packets/ByteBuffer.h

    The record is the object's protected members.  Positions are [nat]
    because every access is bounds-checked against the storage; [_bitpos]
    stays a wrapped [size_t] because [--_bitpos] and [++_bitpos] are not.
    Multi-byte values are stored little-endian ([EndianConvert] makes the
    wire order little-endian on every host). *)
From S2P Require Import Prelude.
Local Open Scope Z_scope.

(** ** State and errors *)

Inductive BBError :=
| PositionException      (* ByteBufferPositionException *)
| SourceException        (* ByteBufferSourceException *)
| AssertFailed           (* ASSERT(size() < 10000000) and the callers' ASSERTs *)
| NullPointer            (* a caller dereferences a null pointer *)
| OutOfBounds.           (* a caller indexes past the end of an array *)

Record ByteBuffer := mkByteBuffer {
  _rpos : nat;
  _wpos : nat;
  _bitpos : Z;
  _curbitval : Z;
  _storage : list Z
}.

#[export] Instance BBError_eq_dec : EqDecision BBError.
Proof. solve_decision. Defined.
#[export] Instance ByteBuffer_eq_dec : EqDecision ByteBuffer.
Proof. solve_decision. Defined.

Definition BB (A : Type) : Type := ST ByteBuffer BBError A.

Definition set_rpos (r : nat) (b : ByteBuffer) : ByteBuffer :=
  mkByteBuffer r (_wpos b) (_bitpos b) (_curbitval b) (_storage b).
Definition set_bits (pos val : Z) (b : ByteBuffer) : ByteBuffer :=
  mkByteBuffer (_rpos b) (_wpos b) pos val (_storage b).
Definition set_storage (w : nat) (st : list Z) (b : ByteBuffer) : ByteBuffer :=
  mkByteBuffer (_rpos b) w (_bitpos b) (_curbitval b) st.

(** [ByteBuffer()] and [ByteBuffer(size_t reserve)]: reserving changes no
    observable member. *)
Definition new_ByteBuffer : ByteBuffer := mkByteBuffer 0 0 8 0 [].

(** [clear()]: note that the pending bits are left alone. *)
Definition clear (b : ByteBuffer) : ByteBuffer :=
  mkByteBuffer 0 0 (_bitpos b) (_curbitval b) [].

Definition size (b : ByteBuffer) : nat := length (_storage b).

(** [resize(newsize)] *)
Definition resize (newsize : nat) (b : ByteBuffer) : ByteBuffer :=
  mkByteBuffer 0 newsize (_bitpos b) (_curbitval b)
    (take newsize (_storage b) ++ replicate (newsize - size b) 0).

(** [rfinish()] *)
Definition rfinish (b : ByteBuffer) : ByteBuffer := set_rpos (_wpos b) b.

(** [bitwpos()] and [bitwpos(newPos)] *)
Definition bitwpos (b : ByteBuffer) : Z := Z.of_nat (_wpos b) * 8 + 8 - _bitpos b.
Definition set_bitwpos (newPos : Z) (b : ByteBuffer) : ByteBuffer :=
  mkByteBuffer (_rpos b) (Z.to_nat (newPos / 8)) (8 - newPos `mod` 8)
    (_curbitval b) (_storage b).

(** ** Writing bytes *)

(** [std::memcpy(&_storage[pos], src, src.size())] inside the storage. *)
Definition overwrite (pos : nat) (src st : list Z) : list Z :=
  take pos st ++ src ++ drop (pos + length src) st.

(** The storage after [append(src, cnt)]: grown with zeroes up to
    [_wpos + cnt] when too short, then overwritten at [_wpos]. *)
Definition write_at (pos : nat) (src st : list Z) : list Z :=
  overwrite pos src (st ++ replicate (pos + length src - length st) 0).

(** [append(uint8 const* src, size_t cnt)] for a non-null [src]. *)
Definition append (src : list Z) : BB unit := fun b =>
  if (length src =? 0)%nat then Err SourceException
  else if negb (Z.of_nat (size b) <? 10000000) then Err AssertFailed
  else Ok (tt, set_storage (_wpos b + length src) (write_at (_wpos b) src (_storage b)) b).

(** [FlushBits()] *)
Definition FlushBits : BB unit := fun b =>
  if _bitpos b =? 8 then Ok (tt, b)
  else match append [_curbitval b] b with
       | Ok (_, b) => Ok (tt, set_bits 8 0 b)
       | Err e => Err e
       end.

(** [append<T>(T value)] with [sizeof(T) = n] *)
Definition append_T (n : nat) (value : Z) : BB unit :=
  FlushBits;; append (le_bytes n value).

(** [WriteBit(uint32 bit)] *)
Definition WriteBit (bit : Z) : BB bool := fun b =>
  let pos := u64 (_bitpos b - 1) in
  let cur := if negb (bit =? 0) then u8 (Z.lor (_curbitval b) (Z.shiftl 1 pos))
             else _curbitval b in
  if pos =? 0 then
    match append [cur] (set_bits 8 cur b) with
    | Ok (_, b) => Ok (negb (bit =? 0), set_bits 8 0 b)
    | Err e => Err e
    end
  else Ok (negb (bit =? 0), set_bits pos cur b).

(** [WriteBits(T value, size_t bits)]: from bit [bits-1] down to 0. *)
Fixpoint WriteBits (value : Z) (bits : nat) : BB unit :=
  match bits with
  | O => mret tt
  | S i => _ ← WriteBit (Z.land (Z.shiftr value (Z.of_nat i)) 1); WriteBits value i
  end.

(** [WriteByteSeq(uint8 b)] *)
Definition WriteByteSeq (x : Z) : BB unit :=
  if negb (x =? 0) then append_T 1 (Z.lxor x 1) else mret tt.

(** [WriteString(str)]: no terminator, raw [append]. *)
Definition WriteString (str : list Z) : BB unit :=
  if (length str =? 0)%nat then mret tt else append str.

(** [operator<<(std::string const&)]: raw [append], then the terminator. *)
Definition put_string (str : list Z) : BB unit :=
  (if (length str =? 0)%nat then mret tt else append str);; append_T 1 0.

(** [put(size_t pos, uint8 const* src, size_t cnt)] for a non-null [src]. *)
Definition put (pos : nat) (src : list Z) : BB unit := fun b =>
  if (size b <? pos + length src)%nat then Err PositionException
  else Ok (tt, set_storage (_wpos b) (overwrite pos src (_storage b)) b).

(** [PutBits(pos, value, bitCount)]: one loop iteration, then the loop. *)
Definition PutBit (pos : nat) (bit : bool) (st : list Z) : list Z :=
  let wp := (pos / 8)%nat in
  let m := Z.shiftl 1 (7 - Z.of_nat (pos mod 8)) in
  alter (fun x => if bit then Z.lor x m else Z.ldiff x m) wp st.

Fixpoint PutBits_loop (pos : nat) (value : Z) (bitCount todo : nat) (st : list Z) : list Z :=
  match todo with
  | O => st
  | S todo' =>
      let i := (bitCount - todo)%nat in
      PutBits_loop pos value bitCount todo'
        (PutBit (pos + i) (Z.testbit value (Z.of_nat (bitCount - i - 1))) st)
  end.

Definition PutBits (pos : nat) (value : Z) (bitCount : nat) : BB unit := fun b =>
  if (bitCount =? 0)%nat then Err SourceException
  else if (size b * 8 <? pos + bitCount)%nat then Err PositionException
  else Ok (tt, set_storage (_wpos b) (PutBits_loop pos value bitCount bitCount (_storage b)) b).

(** [appendPackGUID(uint64 guid)]: the mask byte and the non-zero bytes. *)
Fixpoint packGUID (fuel : nat) (i : Z) (guid : Z) : Z * list Z :=
  match fuel with
  | O => (0, [])
  | S fuel =>
      if guid =? 0 then (0, [])
      else let '(mask, bytes) := packGUID fuel (i + 1) (Z.shiftr guid 8) in
           if negb (Z.land guid 255 =? 0)
           then (Z.lor (u8 (Z.shiftl 1 i)) mask, Z.land guid 255 :: bytes)
           else (mask, bytes)
  end.

Definition appendPackGUID (guid : Z) : BB unit :=
  let '(mask, bytes) := packGUID 8 0 guid in append (mask :: bytes).

(** ** Reading *)

(** [read<T>(size_t pos)] with [sizeof(T) = n], unsigned. *)
Definition read_at (n pos : nat) (b : ByteBuffer) : outcome BBError Z :=
  if (size b <? pos + n)%nat then Err PositionException
  else Ok (le_value (take n (drop pos (_storage b)))).

(** [read<T>()] *)
Definition read (n : nat) : BB Z := fun b =>
  match read_at n (_rpos b) b with
  | Ok r => Ok (r, set_rpos (_rpos b + n) b)
  | Err e => Err e
  end.

(** [read(uint8* dest, size_t len)] *)
Definition read_bytes (len : nat) : BB (list Z) := fun b =>
  if (size b <? _rpos b + len)%nat then Err PositionException
  else Ok (take len (drop (_rpos b) (_storage b)), set_rpos (_rpos b + len) b).

(** [read_skip(size_t skip)] *)
Definition read_skip (skip : nat) : BB unit := fun b =>
  if (size b <? _rpos b + skip)%nat then Err PositionException
  else Ok (tt, set_rpos (_rpos b + skip) b).

(** [ReadBit()] *)
Definition ReadBit : BB bool := fun b =>
  let pos := u64 (_bitpos b + 1) in
  if 7 <? pos then
    match read 1 (set_bits 0 (_curbitval b) b) with
    | Ok (v, b) => Ok (Z.testbit v 7, set_bits 0 v b)
    | Err e => Err e
    end
  else Ok (Z.testbit (_curbitval b) (7 - pos), set_bits pos (_curbitval b) b).

(** [ReadBits(size_t bits)] *)
Fixpoint ReadBits_loop (bits : nat) (value : Z) : BB Z :=
  match bits with
  | O => mret value
  | S i => x ← ReadBit;
           ReadBits_loop i (if x : bool then u32 (Z.lor value (Z.shiftl 1 (Z.of_nat i))) else value)
  end.
Definition ReadBits (bits : nat) : BB Z := ReadBits_loop bits 0.

(** [ReadByteSeq(uint8& b)]: returns the new value of the reference. *)
Definition ReadByteSeq (x : Z) : BB Z :=
  if negb (x =? 0) then y ← read 1; mret (Z.lxor x y) else mret x.

(** [operator>>(std::string&)]: bytes up to a NUL or the end. *)
Fixpoint get_string_loop (fuel : nat) : BB (list Z) := fun b =>
  match fuel with
  | O => Ok ([], b)
  | S fuel =>
      if (_rpos b <? size b)%nat then
        (c ← read 1;
         if c =? 0 then mret [] else (s ← get_string_loop fuel; mret (c :: s))) b
      else Ok ([], b)
  end.
Definition get_string : BB (list Z) := fun b => get_string_loop (S (size b)) b.

(** [ReadString(length)]: the C string at the start of the bytes read. *)
Fixpoint c_string (bs : list Z) : list Z :=
  match bs with
  | [] => []
  | c :: bs => if c =? 0 then [] else c :: c_string bs
  end.
Definition ReadString (len : nat) : BB (list Z) :=
  if (len =? 0)%nat then mret [] else bs ← read_bytes len; mret (c_string bs).

(** [readPackGUID(uint64& guid)] *)
Fixpoint readPackGUID_loop (n : nat) (i guidmark guid : Z) : BB Z :=
  match n with
  | O => mret guid
  | S n =>
      if negb (Z.land guidmark (u8 (Z.shiftl 1 i)) =? 0) then
        bit ← read 1; readPackGUID_loop n (i + 1) guidmark (Z.lor guid (Z.shiftl bit (i * 8)))
      else readPackGUID_loop n (i + 1) guidmark guid
  end.
Definition readPackGUID : BB Z :=
  guidmark ← read 1; readPackGUID_loop 8 0 guidmark 0.

(** ** Reference view of the writer: a wire of bytes and pending bits *)

(** Up to eight bits, most significant first, in one byte. *)
Fixpoint pack_from (k : Z) (l : list bool) : Z :=
  match l with
  | [] => 0
  | x :: l => Z.lor (if x then Z.shiftl 1 k else 0) (pack_from (k - 1) l)
  end.
Definition pack (l : list bool) : Z := pack_from 7 l.

(** The bits of a byte, most significant first. *)
Definition byte_bits (z : Z) : list bool := (fun i => Z.testbit z (7 - Z.of_nat i)) <$> seq 0 8.
Definition all_bits (bs : list Z) : list bool := concat (byte_bits <$> bs).

Record wire := mkWire { w_out : list Z; w_pend : list bool }.

Definition wire_flush (w : wire) : wire :=
  match w_pend w with
  | [] => w
  | p => mkWire (w_out w ++ [pack p]) []
  end.
Definition wire_bit (x : bool) (w : wire) : wire :=
  if (length (w_pend w) =? 7)%nat
  then mkWire (w_out w ++ [pack (w_pend w ++ [x])]) []
  else mkWire (w_out w) (w_pend w ++ [x]).
Definition wire_bytes (bs : list Z) (w : wire) : wire :=
  mkWire (w_out (wire_flush w) ++ bs) [].

(** The buffer [b], used as a writer, holds exactly the wire [w]. *)
Record writes (b : ByteBuffer) (w : wire) : Prop := {
  wr_out : _storage b = w_out w;
  wr_pos : _wpos b = length (w_out w);
  wr_pend : (length (w_pend w) < 8)%nat;
  wr_bitpos : _bitpos b = 8 - Z.of_nat (length (w_pend w));
  wr_cur : _curbitval b = pack (w_pend w);
  wr_bytes : Forall is_byte (w_out w)
}.

Lemma pack_from_testbit l k j :
  -1 <= k -> Z.of_nat (length l) <= k + 1 -> 0 <= j ->
  Z.testbit (pack_from k l) j = (j <=? k) && default false (l !! Z.to_nat (k - j)).
Proof.
  revert k. induction l as [|x l IH]; intros k Hk Hl Hj; cbn [pack_from length] in *.
  { by rewrite Z.bits_0, lookup_nil, andb_false_r. }
  rewrite Z.lor_spec, IH by lia.
  assert (Z.testbit (if x then Z.shiftl 1 k else 0) j = x && (j =? k)) as ->.
  { destruct x; [|apply Z.bits_0]. rewrite Z.shiftl_1_l, Z.pow2_bits_eqb by lia.
    by rewrite Z.eqb_sym. }
  destruct (Z.eqb_spec j k) as [->|Hne].
  - rewrite Z.sub_diag, andb_true_r, Z.leb_refl. replace (k <=? k - 1) with false by bdec.
    by rewrite orb_false_r.
  - rewrite andb_false_r, orb_false_l.
    destruct (Z.leb_spec j k) as [Hjk|Hjk].
    + replace (j <=? k - 1) with true by bdec. rewrite !andb_true_l.
      by replace (Z.to_nat (k - j)) with (S (Z.to_nat (k - 1 - j))) by lia.
    + by replace (j <=? k - 1) with false by bdec.
Qed.

Lemma pack_testbit l j : (length l <= 8)%nat -> 0 <= j ->
  Z.testbit (pack l) j = (j <=? 7) && default false (l !! Z.to_nat (7 - j)).
Proof. intros. apply pack_from_testbit; lia. Qed.

Lemma pack_from_nonneg k l : 0 <= pack_from k l.
Proof.
  revert k. induction l as [|x l IH]; intros k; cbn; [done|].
  apply Z.lor_nonneg. split; [|done]. destruct x; [|done]. apply Z.shiftl_nonneg. lia.
Qed.

Lemma pack_byte l : (length l <= 8)%nat -> is_byte (pack l).
Proof.
  intros Hl. split; [apply pack_from_nonneg|].
  apply (bits_bound _ 8); [lia|apply pack_from_nonneg|].
  intros i Hi. rewrite pack_testbit by lia. by replace (i <=? 7) with false by bdec.
Qed.

(** Setting the next bit of the byte under construction. *)
Lemma pack_snoc l (x : bool) : (length l < 8)%nat ->
  pack (l ++ [x]) = if x then Z.lor (pack l) (Z.shiftl 1 (7 - Z.of_nat (length l))) else pack l.
Proof.
  intros Hl. apply Z.bits_inj'. intros j Hj.
  rewrite pack_testbit by (rewrite ?length_app; simpl; lia).
  assert (Z.testbit (if x then Z.lor (pack l) (Z.shiftl 1 (7 - Z.of_nat (length l))) else pack l) j
          = Z.testbit (pack l) j || x && (j =? 7 - Z.of_nat (length l))) as ->.
  { destruct x; [|by rewrite orb_false_r].
    rewrite Z.lor_spec, Z.shiftl_1_l, Z.pow2_bits_eqb by lia. by rewrite Z.eqb_sym. }
  rewrite pack_testbit by lia.
  destruct (Z.leb_spec j 7) as [Hj7|Hj7]; cbn [andb orb].
  2: by replace (j =? _) with false by bdec; rewrite andb_false_r.
  destruct (lt_eq_lt_dec (Z.to_nat (7 - j)) (length l)) as [[H|H]|H].
  - rewrite lookup_app_l by done. replace (j =? _) with false by bdec.
    by rewrite andb_false_r, orb_false_r.
  - rewrite lookup_app_r, (lookup_ge_None_2 l) by lia. rewrite H, Nat.sub_diag.
    replace (j =? _) with true by bdec. by rewrite andb_true_r.
  - rewrite (lookup_ge_None_2 l), lookup_ge_None_2 by (rewrite ?length_app; simpl; lia).
    replace (j =? _) with false by bdec. by rewrite andb_false_r.
Qed.

Lemma length_byte_bits z : length (byte_bits z) = 8%nat.
Proof. done. Qed.

Lemma byte_bits_pack l : (length l <= 8)%nat ->
  byte_bits (pack l) = l ++ replicate (8 - length l) false.
Proof.
  intros Hl. apply list_eq. intros i. unfold byte_bits. rewrite list_lookup_fmap.
  destruct (decide (i < 8)%nat) as [Hi|Hi].
  - rewrite lookup_seq_lt by done. simpl.
    rewrite pack_testbit by lia. replace (7 - Z.of_nat i <=? 7) with true by bdec.
    replace (Z.to_nat (7 - (7 - Z.of_nat i))) with i by lia. cbn [andb].
    destruct (decide (i < length l)%nat) as [Hil|Hil].
    + rewrite lookup_app_l by done. destruct (lookup_lt_is_Some_2 l i Hil) as [x ->]. done.
    + rewrite (lookup_ge_None_2 l) by lia. rewrite lookup_app_r by lia.
      by rewrite lookup_replicate_2 by lia.
  - rewrite lookup_seq_ge, lookup_ge_None_2 by (rewrite ?length_app, ?length_replicate; lia).
    done.
Qed.

Lemma all_bits_app l k : all_bits (l ++ k) = all_bits l ++ all_bits k.
Proof. unfold all_bits. by rewrite fmap_app, concat_app. Qed.

Lemma all_bits_cons z l : all_bits (z :: l) = byte_bits z ++ all_bits l.
Proof. done. Qed.

(** ** Wire operations: what a sequence of writes puts in the packet *)

Inductive op :=
| OBit (x : bool)
| OBytes (bs : list Z).

Definition wire_op (o : op) (w : wire) : wire :=
  match o with
  | OBit x => wire_bit x w
  | OBytes bs => wire_bytes bs w
  end.
Definition wire_ops (os : list op) (w : wire) : wire := foldl (fun w o => wire_op o w) w os.

Definition op_size (o : op) : nat := match o with OBit _ => 1 | OBytes bs => 1 + length bs end.
Fixpoint ops_size (os : list op) : nat :=
  match os with
  | [] => 0
  | o :: os => op_size o + ops_size os
  end.

Definition op_bytes_ok (o : op) : Prop :=
  match o with OBit _ => True | OBytes bs => bs <> [] /\ Forall is_byte bs end.

(** Room left before [ASSERT(size() < 10000000)] can fail. *)
Definition room (n : nat) (w : wire) : Prop := Z.of_nat (length (w_out w) + n) < 10000000.

(** The bits [WriteBits(value, n)] emits. *)
Definition value_bits (value : Z) (n : nat) : list bool :=
  (fun i => Z.testbit value (Z.of_nat i)) <$> rev (seq 0 n).

Lemma write_at_end src st : write_at (length st) src st = st ++ src.
Proof.
  unfold write_at, overwrite.
  replace (length st + length src - length st)%nat with (length src) by lia.
  rewrite take_app_length, (drop_ge (st ++ _)), app_nil_r; [done|].
  rewrite length_app, length_replicate. lia.
Qed.

Lemma writes_new : writes new_ByteBuffer (mkWire [] []).
Proof. by split; simpl; auto with lia. Qed.

Lemma append_exec b src :
  _wpos b = length (_storage b) -> src <> [] -> Z.of_nat (size b) < 10000000 ->
  append src b = Ok (tt, set_storage (_wpos b + length src) (_storage b ++ src) b).
Proof.
  intros Hp Hsrc Hroom. unfold append.
  replace (length src =? 0)%nat with false by (by destruct src).
  replace (Z.of_nat (size b) <? 10000000) with true by bdec.
  cbn [negb]. by rewrite Hp at 2; rewrite write_at_end.
Qed.

Lemma writes_append b out pend src :
  writes b (mkWire out pend) -> Forall is_byte src ->
  writes (set_storage (_wpos b + length src) (_storage b ++ src) b) (mkWire (out ++ src) pend).
Proof.
  intros [Ho Hp Hl Hb Hc Hbs] Hok. simpl in *. subst out.
  split; simpl; auto; [rewrite length_app; lia|by apply Forall_app].
Qed.

Lemma FlushBits_writes b w :
  writes b w -> room 0 w ->
  exists b', FlushBits b = Ok (tt, b') /\ writes b' (wire_flush w) /\ _rpos b' = _rpos b.
Proof.
  intros Hw Hroom. pose proof Hw as [Ho Hp Hl Hb Hc Hbs]. destruct w as [out pend].
  unfold FlushBits, wire_flush, room in *. cbn [w_out w_pend] in *.
  destruct pend as [|x pend].
  { exists b. by rewrite Hb. }
  replace (_bitpos b =? 8) with false by (rewrite Hb; bdec).
  rewrite append_exec by (unfold size; try congruence; rewrite ?Ho; lia || done).
  assert (Forall is_byte [_curbitval b]) as Hcb.
  { rewrite Hc. constructor; [|done]. apply pack_byte. lia. }
  destruct (writes_append _ _ _ _ Hw Hcb) as [Ho' Hp' _ _ _ Hbs'].
  eexists. split; [done|]. split; [|done].
  split; simpl in *; rewrite <- ?Hc; auto with lia.
Qed.

Lemma WriteBit_writes b w z :
  writes b w -> room 0 w ->
  exists b', WriteBit z b = Ok (negb (z =? 0), b') /\
             writes b' (wire_bit (negb (z =? 0)) w) /\ _rpos b' = _rpos b.
Proof.
  intros Hw Hroom. pose proof Hw as [Ho Hp Hl Hb Hc Hbs]. destruct w as [out pend].
  unfold WriteBit, wire_bit, room in *. cbn [w_out w_pend] in *.
  set (x := negb (z =? 0)).
  assert (u64 (_bitpos b - 1) = 7 - Z.of_nat (length pend)) as ->.
  { rewrite Hb, u64_small; unfold is_u64; lia. }
  assert (Hlx : (length (pend ++ [x]) <= 8)%nat) by (rewrite length_app; simpl; lia).
  assert ((if x then u8 (Z.lor (_curbitval b) (Z.shiftl 1 (7 - Z.of_nat (length pend))))
           else _curbitval b) = pack (pend ++ [x])) as ->.
  { rewrite Hc, pack_snoc by lia. destruct x; [|done].
    rewrite <- (pack_snoc pend true) by lia. by apply u8_small, pack_byte. }
  pose proof (pack_byte _ Hlx) as Hpk.
  destruct (Nat.eqb_spec (length pend) 7) as [H7|H7].
  - replace (7 - Z.of_nat (length pend) =? 0) with true by bdec.
    rewrite append_exec by (unfold size; simpl; try congruence; rewrite ?Ho; lia || done).
    eexists. split; [done|]. split; [|done].
    assert (Forall is_byte [pack (pend ++ [x])]) as Hcb by (by constructor).
    destruct (writes_append _ _ _ _ Hw Hcb) as [Ho' Hp' _ _ _ Hbs'].
    split; simpl in *; auto with lia.
  - replace (7 - Z.of_nat (length pend) =? 0) with false by bdec.
    eexists. split; [done|]. split; [|done].
    split; simpl; rewrite ?length_app in *; simpl in *; auto with lia.
Qed.

Lemma append_writes_flushed b out src :
  writes b (mkWire out []) -> src <> [] -> Forall is_byte src -> room 0 (mkWire out []) ->
  exists b', append src b = Ok (tt, b') /\ writes b' (mkWire (out ++ src) []) /\
             _rpos b' = _rpos b.
Proof.
  intros Hw Hsrc Hok Hroom. pose proof Hw as [Ho Hp _ _ _ _].
  unfold room in *. simpl in *.
  rewrite append_exec by (unfold size; try congruence; rewrite ?Ho; lia || done).
  eexists. split; [done|]. split; [|done]. by apply writes_append.
Qed.

Lemma room_flush n w : room (S n) w -> room n (wire_flush w).
Proof.
  unfold room, wire_flush. destruct w as [out [|x p]]; simpl; rewrite ?length_app; simpl; lia.
Qed.

Lemma room_weaken n m w : room m w -> (n <= m)%nat -> room n w.
Proof. unfold room. lia. Qed.

(** [FlushBits(); append(src)], the body of [append<T>]. *)
Lemma flush_append_writes b w src :
  writes b w -> src <> [] -> Forall is_byte src -> room 1 w ->
  exists b', (FlushBits;; append src) b = Ok (tt, b') /\ writes b' (wire_bytes src w) /\
             _rpos b' = _rpos b.
Proof.
  intros Hw Hsrc Hok Hroom.
  destruct (FlushBits_writes b w Hw) as (b1 & H1 & Hw1 & Hr1); [eapply room_weaken; [done|lia]|].
  st_step H1. apply room_flush in Hroom.
  assert (wire_flush w = mkWire (w_out (wire_flush w)) []) as He
    by (unfold wire_flush; by destruct w as [? [|? ?]]).
  rewrite He in Hw1, Hroom.
  destruct (append_writes_flushed b1 _ src Hw1) as (b2 & H2 & Hw2 & Hr2); auto.
  exists b2. rewrite H2, Hr2. done.
Qed.

Lemma append_T_writes b w n v :
  writes b w -> n <> 0%nat -> room 1 w ->
  exists b', append_T n v b = Ok (tt, b') /\ writes b' (wire_bytes (le_bytes n v) w) /\
             _rpos b' = _rpos b.
Proof.
  intros Hw Hn Hroom. apply flush_append_writes; auto using le_bytes_bytes.
  by destruct n.
Qed.

(** ** The effect of a sequence of writes *)

(** [emits m os]: from any writer state the member-function call [m] puts
    exactly the operations [os] on the wire and cannot throw while there is
    room. *)
Definition emits {A} (m : BB A) (os : list op) : Prop :=
  forall b w, writes b w -> room (ops_size os) w ->
  exists a b', m b = Ok (a, b') /\ writes b' (wire_ops os w) /\ _rpos b' = _rpos b.

Lemma wire_ops_app os os' w : wire_ops (os ++ os') w = wire_ops os' (wire_ops os w).
Proof. apply foldl_app. Qed.

Lemma ops_size_app os os' : ops_size (os ++ os') = (ops_size os + ops_size os')%nat.
Proof. induction os as [|o os IH]; simpl; [done|]. rewrite IH. lia. Qed.

Lemma room_op n o w : room (op_size o + n) w -> room n (wire_op o w).
Proof.
  unfold room. destruct o as [x|bs], w as [out pend]; simpl.
  - unfold wire_bit; simpl. case_match; simpl; rewrite ?length_app; simpl; lia.
  - unfold wire_bytes, wire_flush; destruct pend; simpl; rewrite ?length_app; simpl; lia.
Qed.

Lemma room_ops n os w : room (ops_size os + n) w -> room n (wire_ops os w).
Proof.
  revert w. induction os as [|o os IH]; intros w Hr; [done|].
  simpl. apply IH, room_op. eapply room_weaken; [done|]. simpl. lia.
Qed.

Lemma emits_ret {A} (a : A) : emits (mret a) [].
Proof. intros b w Hw _. by exists a, b. Qed.

Lemma emits_bind {A B} (m : BB A) (f : A -> BB B) os os' :
  emits m os -> (forall a, emits (f a) os') -> emits (m ≫= f) (os ++ os').
Proof.
  intros Hm Hf b w Hw Hr. rewrite ops_size_app in Hr.
  destruct (Hm b w Hw) as (a & b1 & H1 & Hw1 & Hr1); [eapply room_weaken; [done|lia]|].
  destruct (Hf a b1 _ Hw1) as (a2 & b2 & H2 & Hw2 & Hr2); [by apply room_ops|].
  exists a2, b2. rewrite (st_bind_Ok _ _ _ _ _ H1), wire_ops_app, Hr2. done.
Qed.

Lemma emits_WriteBit z : emits (WriteBit z) [OBit (negb (z =? 0))].
Proof.
  intros b w Hw Hr. destruct (WriteBit_writes b w z Hw) as (b' & H & Hw' & Hr').
  { eapply room_weaken; [done|lia]. }
  by eexists _, b'.
Qed.

Lemma emits_append_T n v : n <> 0%nat -> emits (append_T n v) [OBytes (le_bytes n v)].
Proof.
  intros Hn b w Hw Hr. destruct (append_T_writes b w n v Hw Hn) as (b' & H & Hw' & Hr').
  { eapply room_weaken; [done|]. simpl. lia. }
  by eexists _, b'.
Qed.

Lemma land_1_testbit value i : 0 <= i ->
  negb (Z.land (Z.shiftr value i) 1 =? 0) = Z.testbit value i.
Proof.
  intros Hi.
  change 1 with (Z.ones 1). rewrite Z.land_ones by lia.
  change (2 ^ 1) with 2. rewrite <- Z.bit0_mod.
  replace (Z.testbit value i) with (Z.testbit (Z.shiftr value i) 0)
    by (rewrite Z.shiftr_spec; [f_equal; lia|lia]).
  by destruct (Z.testbit _ 0).
Qed.

Lemma value_bits_S value n :
  value_bits value (S n) = Z.testbit value (Z.of_nat n) :: value_bits value n.
Proof. unfold value_bits. by rewrite seq_S, rev_app_distr. Qed.

Lemma length_value_bits value n : length (value_bits value n) = n.
Proof. unfold value_bits. by rewrite length_fmap, length_rev, length_seq. Qed.

Lemma emits_WriteBits value n : emits (WriteBits value n) (OBit <$> value_bits value n).
Proof.
  induction n as [|n IH]; [apply emits_ret|].
  rewrite value_bits_S. cbn [WriteBits fmap list_fmap].
  apply (emits_bind _ _ [_]); [|auto].
  rewrite <- (land_1_testbit value (Z.of_nat n)) by lia. apply emits_WriteBit.
Qed.

(** What [WriteByteSeq(x)] puts on the wire. *)
Definition byte_seq_ops (x : Z) : list op :=
  if negb (x =? 0) then [OBytes [Z.lxor x 1]] else [].

Lemma emits_WriteByteSeq x : is_byte x -> emits (WriteByteSeq x) (byte_seq_ops x).
Proof.
  intros Hx. unfold WriteByteSeq, byte_seq_ops. destruct (negb (x =? 0)); [|apply emits_ret].
  assert (is_byte (Z.lxor x 1)) as Hb
    by (destruct Hx; apply (lxor_bound x 1 8); [lia|lia|lia]).
  pose proof (emits_append_T 1 (Z.lxor x 1)) as H. cbn [le_bytes] in H.
  rewrite u8_small in H by done. by apply H.
Qed.

Lemma emits_when {A} (c : bool) (m : BB A) (m' : BB A) os os' :
  emits m os -> emits m' os' -> emits (if c then m else m') (if c then os else os').
Proof. by destruct c. Qed.

(** ** Reference view of the reader *)

Lemma byte_bits_drop z i : (i < 8)%nat ->
  drop i (byte_bits z) = Z.testbit z (7 - Z.of_nat i) :: drop (S i) (byte_bits z).
Proof.
  intros Hi. apply drop_S. unfold byte_bits. rewrite list_lookup_fmap.
  by rewrite lookup_seq_lt.
Qed.

#[global] Opaque byte_bits.

(** The bits of [_curbitval] that [ReadBit] has still to deliver. *)
Definition bits_left (b : ByteBuffer) : list bool :=
  if 7 <=? _bitpos b then [] else drop (Z.to_nat (_bitpos b + 1)) (byte_bits (_curbitval b)).

Definition rest (b : ByteBuffer) : list Z := drop (_rpos b) (_storage b).

(** The reader still has to deliver the byte strings [pre], then [bits],
    then the byte strings [post].  Bytes read before or after the bits do
    not disturb the bit cursor: [read] never realigns it. *)
Record reads (b : ByteBuffer) (pre : list (list Z)) (bits : list bool)
    (post : list (list Z)) (packed : list Z) (pad : list bool) : Prop := {
  rd_rest : rest b = concat pre ++ packed ++ concat post;
  rd_bits : bits_left b ++ all_bits packed = bits ++ pad;
  rd_pad : (length pad < 8)%nat;
  rd_bitpos : 0 <= _bitpos b <= 8
}.

Definition shaped (pre : list (list Z)) (bits : list bool) (post : list (list Z)) : list op :=
  (OBytes <$> pre) ++ (OBit <$> bits) ++ (OBytes <$> post).

(** The reader will deliver the operations [os]. *)
Definition reads_ops (b : ByteBuffer) (os : list op) : Prop :=
  exists pre bits post packed pad, os = shaped pre bits post /\ reads b pre bits post packed pad.

(** A packet just received: whole contents, nothing read yet. *)
Definition received (bytes : list Z) : ByteBuffer :=
  mkByteBuffer 0 (length bytes) 8 0 bytes.

Lemma rest_size b xs : rest b = xs -> (length xs + _rpos b <= size b)%nat \/ xs = [].
Proof.
  intros <-. unfold rest, size. destruct (decide (_rpos b <= length (_storage b))%nat).
  - left. rewrite length_drop. lia.
  - right. apply drop_ge. lia.
Qed.

Lemma read_exec n b x k :
  rest b = x ++ k -> length x = n -> n <> 0%nat ->
  read n b = Ok (le_value x, set_rpos (_rpos b + n) b) /\
  rest (set_rpos (_rpos b + n) b) = k.
Proof.
  intros Hr <- Hn. unfold read, read_at.
  destruct (rest_size b _ Hr) as [Hs|Hs]; [|by destruct x].
  rewrite length_app in Hs.
  replace (size b <? _rpos b + length x)%nat with false by bdec.
  unfold rest in *. rewrite Hr, take_app_length. split; [done|].
  cbn [_storage _rpos set_rpos]. by rewrite <- drop_drop, Hr, drop_app_length.
Qed.

Lemma read_skip_exec n b x k :
  rest b = x ++ k -> length x = n -> n <> 0%nat ->
  read_skip n b = Ok (tt, set_rpos (_rpos b + n) b).
Proof.
  intros Hr <- Hn. unfold read_skip.
  destruct (rest_size b _ Hr) as [Hs|Hs]; [|by destruct x].
  rewrite length_app in Hs. by replace (size b <? _rpos b + length x)%nat with false by bdec.
Qed.

(** Reading too far raises [ByteBufferPositionException]. *)
Lemma read_past_end n b : (size b < _rpos b + n)%nat -> read n b = Err PositionException.
Proof.
  intros H. unfold read, read_at. by replace (size b <? _rpos b + n)%nat with true by bdec.
Qed.

Lemma reads_ReadBit b x bits post packed pad :
  reads b [] (x :: bits) post packed pad ->
  exists b' packed', ReadBit b = Ok (x, b') /\ reads b' [] bits post packed' pad.
Proof.
  intros [Hrest Hbits Hpad Hpos]. unfold ReadBit.
  rewrite u64_small by (unfold is_u64; lia). unfold bits_left in Hbits.
  destruct (Z.leb_spec 7 (_bitpos b)) as [H7|H7].
  - replace (7 <? _bitpos b + 1) with true by bdec.
    destruct packed as [|z packed]; [done|]. cbn [concat app] in Hrest.
    destruct (read_exec 1 (set_bits 0 (_curbitval b) b) [z] (packed ++ concat post))
      as [Hread Hrest']; [exact Hrest|done|done|].
    rewrite le_value_1 in Hread. rewrite Hread, all_bits_cons in *. cbn [app] in Hbits.
    rewrite <- (drop_0 (byte_bits z)), (byte_bits_drop z 0) in Hbits by lia.
    cbn [app] in Hbits. injection Hbits as Hx Hbits.
    eexists _, packed. split; [by rewrite <- Hx|].
    split; [exact Hrest'| |done|cbn; lia]. exact Hbits.
  - replace (7 <? _bitpos b + 1) with false by bdec.
    rewrite byte_bits_drop in Hbits by lia. cbn [app] in Hbits.
    injection Hbits as Hx Hbits. rewrite Z2Nat.id in Hx by lia.
    exists (set_bits (_bitpos b + 1) (_curbitval b) b), packed. split; [by rewrite <- Hx|].
    split; [exact Hrest| |done|cbn; lia].
    rewrite <- Hbits. f_equal. unfold bits_left. cbn [_bitpos set_bits _curbitval].
    destruct (Z.leb_spec 7 (_bitpos b + 1)).
    + rewrite drop_ge; [done|]. rewrite length_byte_bits. lia.
    + f_equal. lia.
Qed.

Lemma reads_bits_done b post packed pad :
  reads b [] [] post packed pad -> packed = [].
Proof.
  intros [_ Hbits Hpad _]. destruct packed as [|z packed]; [done|].
  apply (f_equal length) in Hbits. rewrite all_bits_cons, !length_app, length_byte_bits in Hbits.
  simpl in Hbits. lia.
Qed.

Lemma reads_ops_bytes b bs os n :
  reads_ops b (OBytes bs :: os) -> length bs = n -> n <> 0%nat ->
  read n b = Ok (le_value bs, set_rpos (_rpos b + n) b) /\
  read_skip n b = Ok (tt, set_rpos (_rpos b + n) b) /\
  reads_ops (set_rpos (_rpos b + n) b) os.
Proof.
  intros (pre & bits & post & packed & pad & Hos & Hrd) Hlen Hn.
  assert (exists k, rest b = bs ++ k /\
    (rest (set_rpos (_rpos b + n) b) = k -> reads_ops (set_rpos (_rpos b + n) b) os))
    as (k & Hk & Hnext).
  { destruct pre as [|bs' pre].
    - destruct bits as [|y bits]; [|done]. destruct post as [|bs' post]; [done|].
      injection Hos as <- Hos. pose proof (reads_bits_done _ _ _ _ Hrd) as ->.
      destruct Hrd as [Hr Hb Hp Hpos]. exists (concat post). split; [exact Hr|].
      intros Hr'. exists [], [], post, [], pad. split; [exact Hos|]. by split.
    - injection Hos as <- Hos. destruct Hrd as [Hr Hb Hp Hpos].
      exists (concat pre ++ packed ++ concat post). split; [by rewrite app_assoc|].
      intros Hr'. exists pre, bits, post, packed, pad. split; [exact Hos|]. by split. }
  destruct (read_exec n b bs k Hk Hlen Hn) as [H1 H2].
  rewrite (read_skip_exec n b bs k Hk Hlen Hn). auto.
Qed.

Lemma reads_ops_bit b x os :
  reads_ops b (OBit x :: os) -> exists b', ReadBit b = Ok (x, b') /\ reads_ops b' os.
Proof.
  intros (pre & bits & post & packed & pad & Hos & Hrd).
  destruct pre; [|done]. destruct bits as [|y bits]; [by destruct post|].
  injection Hos as <- Hos.
  destruct (reads_ReadBit _ _ _ _ _ _ Hrd) as (b' & packed' & H & Hrd').
  exists b'. split; [done|]. by exists [], bits, post, packed', pad.
Qed.

(** ** From the writer's wire to the reader *)

Lemma wire_ops_bits bits o pend :
  (length pend < 8)%nat ->
  exists packed pend', wire_ops (OBit <$> bits) (mkWire o pend) = mkWire (o ++ packed) pend' /\
    all_bits packed ++ pend' = pend ++ bits /\ (length pend' < 8)%nat.
Proof.
  revert o pend. induction bits as [|x bits IH]; intros o pend Hp.
  { exists [], pend. by rewrite !app_nil_r. }
  cbn [fmap list_fmap wire_ops foldl wire_op]. unfold wire_bit. cbn [w_out w_pend].
  destruct (Nat.eqb_spec (length pend) 7) as [H7|H7].
  - destruct (IH (o ++ [pack (pend ++ [x])]) []) as (packed & pend' & Hw & Hb & Hl); [simpl; lia|].
    exists (pack (pend ++ [x]) :: packed), pend'.
    unfold wire_ops in Hw. rewrite Hw, all_bits_cons, <- !app_assoc, Hb.
    rewrite byte_bits_pack by (rewrite length_app; simpl; lia).
    rewrite length_app, H7. simpl. by rewrite app_nil_r, <- !app_assoc.
  - destruct (IH o (pend ++ [x])) as (packed & pend' & Hw & Hb & Hl);
      [rewrite length_app; simpl; lia|].
    exists packed, pend'. rewrite Hb, <- app_assoc. done.
Qed.

Lemma wire_ops_bytes post o : wire_ops (OBytes <$> post) (mkWire o []) = mkWire (o ++ concat post) [].
Proof.
  revert o. induction post as [|bs post IH]; intros o; [by rewrite app_nil_r|].
  change (wire_ops (OBytes <$> post) (mkWire (o ++ bs) []) = mkWire (o ++ bs ++ concat post) []).
  by rewrite IH, <- app_assoc.
Qed.

Lemma wire_flush_pend w : wire_flush w = mkWire (w_out (wire_flush w)) [].
Proof. unfold wire_flush. by destruct w as [? [|? ?]]. Qed.

Lemma wire_ops_bytes_flush post w :
  wire_flush (wire_ops (OBytes <$> post) w) = wire_ops (OBytes <$> post) (wire_flush w).
Proof.
  destruct post as [|bs post]; [done|].
  change (wire_flush (wire_ops (OBytes <$> post) (wire_bytes bs w))
          = wire_ops (OBytes <$> post) (wire_bytes bs (wire_flush w))).
  assert (wire_bytes bs (wire_flush w) = wire_bytes bs w) as ->.
  { unfold wire_bytes. by rewrite (wire_flush_pend w). }
  unfold wire_bytes. by rewrite (wire_ops_bytes post).
Qed.

(** A flushed packet with a single run of bits is delivered in order. *)
Lemma shaped_reads pre bits post :
  reads_ops (received (w_out (wire_flush (wire_ops (shaped pre bits post) (mkWire [] [])))))
    (shaped pre bits post).
Proof.
  unfold shaped at 1. rewrite !wire_ops_app, wire_ops_bytes, wire_ops_bytes_flush.
  destruct (wire_ops_bits bits ([] ++ concat pre) []) as (packed & pend & -> & Hb & Hl);
    [simpl; lia|].
  assert (exists packed' pad, wire_flush (mkWire (([] ++ concat pre) ++ packed) pend)
            = mkWire (concat pre ++ packed') [] /\
            all_bits packed' = bits ++ pad /\ (length pad < 8)%nat)
    as (packed' & pad & -> & Hb' & Hl').
  { destruct pend as [|x pend].
    - exists packed, []. rewrite app_nil_r in *. simpl. auto with lia.
    - exists (packed ++ [pack (x :: pend)]), (replicate (8 - length (x :: pend)) false).
      unfold wire_flush. cbn [w_pend w_out app]. split; [by rewrite app_assoc|].
      rewrite length_replicate. split; [|simpl; lia].
      rewrite all_bits_app, all_bits_cons, byte_bits_pack by lia.
      change (all_bits []) with (@nil bool). by rewrite app_nil_r, (app_assoc (all_bits packed)), Hb. }
  rewrite wire_ops_bytes. exists pre, bits, post, packed', pad. split; [done|].
  split; cbn; [by rewrite drop_0, app_assoc|done|done|lia].
Qed.

Lemma lor_mod_S v n acc : 0 <= n ->
  Z.lor (if Z.testbit v n then Z.lor acc (Z.shiftl 1 n) else acc) (v `mod` 2 ^ n)
  = Z.lor acc (v `mod` 2 ^ (n + 1)).
Proof.
  intros Hn. apply Z.bits_inj'. intros i Hi.
  rewrite !Z.lor_spec, !Z.testbit_mod_pow2 by lia.
  assert (Z.testbit (if Z.testbit v n then Z.lor acc (Z.shiftl 1 n) else acc) i
          = Z.testbit acc i || (i =? n) && Z.testbit v n) as ->.
  { destruct (Z.testbit v n); rewrite ?andb_true_r, ?andb_false_r, ?orb_false_r; [|done].
    rewrite Z.lor_spec, Z.shiftl_1_l, Z.pow2_bits_eqb by lia. by rewrite Z.eqb_sym. }
  destruct (Z.eqb_spec i n) as [->|Hne].
  - rewrite Z.ltb_irrefl. replace (n <? n + 1) with true by bdec. simpl.
    by rewrite orb_false_r.
  - rewrite orb_false_r. f_equal. f_equal. destruct (Z.ltb_spec i n); bdec.
Qed.

Lemma reads_ReadBits_loop n v acc b os :
  (n <= 32)%nat -> is_u32 acc ->
  reads_ops b ((OBit <$> value_bits v n) ++ os) ->
  exists b', ReadBits_loop n acc b = Ok (Z.lor acc (v `mod` 2 ^ Z.of_nat n), b') /\
             reads_ops b' os.
Proof.
  revert acc b. induction n as [|n IH]; intros acc b Hn Hacc Hrd.
  { exists b. by rewrite Z.mod_1_r, Z.lor_0_r. }
  rewrite value_bits_S in Hrd. cbn [fmap list_fmap app] in Hrd.
  destruct (reads_ops_bit _ _ _ Hrd) as (b1 & H1 & Hrd1).
  cbn [ReadBits_loop]. st_step H1.
  assert (is_u32 (Z.lor acc (Z.shiftl 1 (Z.of_nat n)))) as Hlor.
  { apply (lor_bound _ _ 32); [lia|done|]. rewrite Z.shiftl_1_l.
    split; [lia|]. apply Z.pow_lt_mono_r; lia. }
  destruct (IH (if Z.testbit v (Z.of_nat n)
                then Z.lor acc (Z.shiftl 1 (Z.of_nat n)) else acc) b1) as (b2 & H2 & Hrd2);
    [lia|by destruct (Z.testbit v _)|done|].
  exists b2. split; [|done]. rewrite lor_mod_S in H2 by lia.
  replace (Z.of_nat n + 1) with (Z.of_nat (S n)) in H2 by lia.
  destruct (Z.testbit v (Z.of_nat n)); [|done]. by rewrite u32_small.
Qed.

Lemma reads_ReadBits n v b os :
  (n <= 32)%nat -> reads_ops b ((OBit <$> value_bits v n) ++ os) ->
  exists b', ReadBits n b = Ok (v `mod` 2 ^ Z.of_nat n, b') /\ reads_ops b' os.
Proof.
  intros Hn Hrd. destruct (reads_ReadBits_loop n v 0 b os Hn) as (b' & H & Hrd');
    [by unfold is_u32|done|]. by exists b'.
Qed.

(** [ReadByteSeq] undoes [WriteByteSeq] once the presence bit is known. *)
Lemma reads_ReadByteSeq x b os :
  reads_ops b (byte_seq_ops x ++ os) ->
  exists b', ReadByteSeq (if negb (x =? 0) then 1 else 0) b = Ok (x, b') /\ reads_ops b' os.
Proof.
  unfold byte_seq_ops, ReadByteSeq. destruct (Z.eqb_spec x 0) as [->|Hx]; cbn [negb app].
  - intros Hrd. by exists b.
  - intros Hrd. destruct (reads_ops_bytes _ _ _ 1 Hrd) as (H & _ & Hrd'); [done|done|].
    rewrite le_value_1 in H. cbn [Z.eqb negb]. st_step H.
    eexists. split; [|done]. by rewrite (Z.lxor_comm 1), lxor_1_twice.
Qed.

(** ** Packed GUIDs *)

Lemma land_255 z : Z.land z 255 = z `mod` 256.
Proof. change 255 with (Z.ones 8). by rewrite Z.land_ones. Qed.

Lemma packGUID_mask_low n i guid j :
  0 <= i -> 0 <= j < i -> Z.testbit (packGUID n i guid).1 j = false.
Proof.
  revert i guid. induction n as [|n IH]; intros i guid Hi Hj; cbn [packGUID]; [apply Z.bits_0|].
  destruct (guid =? 0); [apply Z.bits_0|].
  specialize (IH (i + 1) (Z.shiftr guid 8)).
  destruct (packGUID n (i + 1) (Z.shiftr guid 8)) as [mask bytes].
  cbn in IH |- *. destruct (negb (Z.land guid 255 =? 0)); cbn; [|apply IH; lia].
  rewrite Z.lor_spec, IH by lia. unfold u8. rewrite Z.testbit_mod_pow2 by lia.
  rewrite Z.shiftl_1_l, Z.pow2_bits_eqb by lia.
  replace (i =? j) with false by bdec. by rewrite andb_false_r.
Qed.

Lemma packGUID_mask_bit n i guid :
  0 <= i < 8 -> Z.testbit (packGUID (S n) i guid).1 i = negb (Z.land guid 255 =? 0).
Proof.
  intros Hi. cbn [packGUID]. destruct (Z.eqb_spec guid 0) as [->|_].
  { by rewrite Z.land_0_l, Z.bits_0. }
  pose proof (packGUID_mask_low n (i + 1) (Z.shiftr guid 8) i) as Hlow.
  destruct (packGUID n (i + 1) (Z.shiftr guid 8)) as [mask bytes]. cbn in Hlow |- *.
  destruct (negb (Z.land guid 255 =? 0)); cbn; [|apply Hlow; lia].
  rewrite Z.lor_spec, Hlow by lia. rewrite orb_false_r. unfold u8.
  rewrite Z.testbit_mod_pow2, Z.shiftl_1_l, Z.pow2_bits_true by lia.
  rewrite andb_true_r. bdec.
Qed.

Lemma packGUID_mask_high n i guid j :
  0 <= i -> i < j -> Z.testbit (packGUID (S n) i guid).1 j
                     = Z.testbit (packGUID n (i + 1) (Z.shiftr guid 8)).1 j.
Proof.
  intros Hi Hj. cbn [packGUID]. destruct (Z.eqb_spec guid 0) as [->|_].
  { rewrite Z.shiftr_0_l. by destruct n. }
  destruct (packGUID n (i + 1) (Z.shiftr guid 8)) as [mask bytes]. cbn.
  destruct (negb (Z.land guid 255 =? 0)); cbn; [|done].
  rewrite Z.lor_spec. unfold u8. rewrite Z.testbit_mod_pow2, Z.shiftl_1_l, Z.pow2_bits_eqb by lia.
  replace (i =? j) with false by bdec. by rewrite andb_false_r.
Qed.

Lemma packGUID_bytes n i guid :
  (packGUID (S n) i guid).2 =
  (if negb (Z.land guid 255 =? 0) then [Z.land guid 255] else [])
    ++ (packGUID n (i + 1) (Z.shiftr guid 8)).2.
Proof.
  cbn [packGUID]. destruct (Z.eqb_spec guid 0) as [->|_].
  { rewrite Z.shiftr_0_l, Z.land_0_l. by destruct n. }
  destruct (packGUID n (i + 1) (Z.shiftr guid 8)) as [mask bytes]. cbn.
  by destruct (negb (Z.land guid 255 =? 0)).
Qed.

Lemma shiftl_split guid i acc : 0 <= i ->
  Z.lor (Z.lor acc (Z.shiftl (Z.land guid 255) (i * 8))) (Z.shiftl (Z.shiftr guid 8) ((i + 1) * 8))
  = Z.lor acc (Z.shiftl guid (i * 8)).
Proof.
  intros Hi. apply Z.bits_inj'. intros j Hj.
  rewrite !Z.lor_spec, <- orb_assoc. f_equal.
  rewrite !Z.shiftl_spec by done. rewrite land_255.
  destruct (Z.lt_ge_cases (j - i * 8) 0) as [Hn|Hn].
  { by rewrite !Z.testbit_neg_r by lia. }
  change 256 with (2 ^ 8). rewrite Z.testbit_mod_pow2 by lia.
  destruct (Z.ltb_spec (j - i * 8) 8) as [H8|H8]; simpl.
  - rewrite (Z.testbit_neg_r _ (j - (i + 1) * 8)) by lia. by rewrite orb_false_r.
  - rewrite Z.shiftr_spec by lia. f_equal. lia.
Qed.

(** The reader's loop from byte [i] on delivers the remaining bytes. *)
Lemma readPackGUID_loop_spec n i guid mark acc b k :
  i = 8 - Z.of_nat n -> 0 <= i -> 0 <= guid < 2 ^ (8 * Z.of_nat n) ->
  (forall j, i <= j < 8 -> Z.testbit mark j = Z.testbit (packGUID n i guid).1 j) ->
  rest b = (packGUID n i guid).2 ++ k ->
  exists b', readPackGUID_loop n i mark acc b = Ok (Z.lor acc (Z.shiftl guid (i * 8)), b') /\
             rest b' = k.
Proof.
  revert i guid acc b. induction n as [|n IH]; intros i guid acc b Hin Hi Hguid Hmark Hrest.
  { exists b. replace guid with 0 by (cbn in Hguid; lia).
    by rewrite Z.shiftl_0_l, Z.lor_0_r. }
  assert (0 <= i < 8) as Hi8 by lia.
  cbn [readPackGUID_loop].
  assert (negb (Z.land mark (u8 (Z.shiftl 1 i)) =? 0) = negb (Z.land guid 255 =? 0)) as ->.
  { unfold u8. rewrite Z.shiftl_1_l, Z.mod_small by (split; [lia|apply Z.pow_lt_mono_r; lia]).
    fold (has_flag mark (2 ^ i)). rewrite has_flag_pow2 by lia.
    rewrite (Hmark i) by lia. by apply packGUID_mask_bit. }
  rewrite packGUID_bytes in Hrest.
  assert (0 <= Z.shiftr guid 8 < 2 ^ (8 * Z.of_nat n)) as Hg.
  { rewrite Z.shiftr_div_pow2 by lia.
    replace (8 * Z.of_nat (S n)) with (8 + 8 * Z.of_nat n) in Hguid by lia.
    rewrite Z.pow_add_r in Hguid by lia.
    split; [apply Z.div_pos; lia|apply Z.div_lt_upper_bound; lia]. }
  assert (forall j, i + 1 <= j < 8 ->
    Z.testbit mark j = Z.testbit (packGUID n (i + 1) (Z.shiftr guid 8)).1 j) as Hm.
  { intros j Hj. rewrite Hmark by lia. apply packGUID_mask_high; lia. }
  destruct (Z.eqb_spec (Z.land guid 255) 0) as [Hz|Hz]; cbn [negb app] in *.
  - destruct (IH (i + 1) (Z.shiftr guid 8) acc b) as (b' & H & Hr); auto; try lia.
    exists b'. rewrite H, <- (shiftl_split guid i acc) by lia.
    by rewrite Hz, Z.shiftl_0_l, Z.lor_0_r.
  - destruct (read_exec 1 b [Z.land guid 255] _ Hrest) as [Hread Hrest']; [done|done|].
    rewrite le_value_1 in Hread. st_step Hread.
    destruct (IH (i + 1) (Z.shiftr guid 8)
      (Z.lor acc (Z.shiftl (Z.land guid 255) (i * 8))) (set_rpos (_rpos b + 1) b))
      as (b' & H & Hr); auto; try lia.
    exists b'. by rewrite H, shiftl_split.
Qed.

Lemma packGUID_bounds n i guid :
  0 <= i -> 0 <= (packGUID n i guid).1 < 256 /\ Forall is_byte (packGUID n i guid).2 /\
            (length (packGUID n i guid).2 <= n)%nat.
Proof.
  revert i guid. induction n as [|n IH]; intros i guid Hi; cbn [packGUID].
  { simpl. auto with lia. }
  destruct (guid =? 0); [simpl; auto with lia|].
  specialize (IH (i + 1) (Z.shiftr guid 8)).
  destruct (packGUID n (i + 1) (Z.shiftr guid 8)) as [mask bytes]. cbn in IH.
  destruct IH as (Hm & Hb & Hl); [lia|].
  destruct (negb (Z.land guid 255 =? 0)); cbn; [|auto with lia].
  split; [apply (lor_bound _ _ 8); [lia|apply u8_byte|done]|].
  split; [|lia]. constructor; [|done]. rewrite land_255. unfold is_byte.
  apply Z.mod_pos_bound. lia.
Qed.

(** ** Packets as scripts of writes and reads *)

(** A script of writes; [OBytes] is the body of [append<T>]. *)
Fixpoint write_ops (os : list op) : BB unit :=
  match os with
  | [] => mret tt
  | OBit x :: os => _ ← WriteBit (if x then 1 else 0); write_ops os
  | OBytes bs :: os => (FlushBits;; append bs);; write_ops os
  end.

(** The reader's script for the same layout. *)
Inductive layout := LBit | LBytes (n : nat).
Definition layout_of (o : op) : layout :=
  match o with OBit _ => LBit | OBytes bs => LBytes (length bs) end.
Fixpoint read_ops (ls : list layout) : BB (list op) :=
  match ls with
  | [] => mret []
  | LBit :: ls => x ← ReadBit; os ← read_ops ls; mret (OBit x :: os)
  | LBytes n :: ls => bs ← read_bytes n; os ← read_ops ls; mret (OBytes bs :: os)
  end.

Lemma emits_write_ops os : Forall op_bytes_ok os -> emits (write_ops os) os.
Proof.
  induction 1 as [|o os Ho _ IH]; [apply emits_ret|].
  destruct o as [x|bs]; cbn [write_ops].
  - apply (emits_bind _ _ [OBit x] os); [|done].
    pose proof (emits_WriteBit (if x then 1 else 0)) as H. by destruct x.
  - destruct Ho as [Hne Hok]. apply (emits_bind _ _ [OBytes bs] os); [|done].
    intros b w Hw Hr. destruct (flush_append_writes b w bs) as (b' & H & Hw' & Hr'); auto.
    { eapply room_weaken; [done|]. simpl. lia. }
    by exists tt, b'.
Qed.

Lemma read_bytes_exec b bs os :
  reads_ops b (OBytes bs :: os) -> bs <> [] ->
  exists b', read_bytes (length bs) b = Ok (bs, b') /\ reads_ops b' os.
Proof.
  intros Hrd Hne.
  destruct (reads_ops_bytes b bs os (length bs) Hrd) as (Hr & Hs & Hrd'); [done|by destruct bs|].
  exists (set_rpos (_rpos b + length bs) b). split; [|done].
  unfold read_bytes. unfold read_skip in Hs. case_match; [done|].
  destruct Hrd as (pre & bits & post & packed & pad & Hos & Hrd).
  assert (exists k, rest b = bs ++ k) as [k Hk].
  { destruct Hrd as [Hr' Hb Hp Hpos]. destruct pre as [|bs' pre].
    - destruct bits; [|done]. destruct post as [|bs' post]; [done|].
      injection Hos as <- _. exists (concat post). rewrite Hr'.
      by rewrite (reads_bits_done b (bs :: post) packed pad) by (by split).
    - injection Hos as <- _. exists (concat pre ++ packed ++ concat post).
      by rewrite app_assoc. }
  unfold rest in Hk. by rewrite Hk, take_app_length.
Qed.

Lemma read_ops_exec os b :
  Forall op_bytes_ok os -> reads_ops b os -> exists b', read_ops (layout_of <$> os) b = Ok (os, b').
Proof.
  intros Hos. revert b. induction Hos as [|o os Ho _ IH]; intros b Hrd; [by exists b|].
  destruct o as [x|bs]; cbn [fmap list_fmap layout_of read_ops].
  - destruct (reads_ops_bit _ _ _ Hrd) as (b1 & H1 & Hrd1). st_step H1.
    destruct (IH b1 Hrd1) as (b2 & H2). st_step H2. by exists b2.
  - destruct Ho as [Hne _].
    destruct (read_bytes_exec _ _ _ Hrd Hne) as (b1 & H1 & Hrd1). st_step H1.
    destruct (IH b1 Hrd1) as (b2 & H2). st_step H2. by exists b2.
Qed.

(** ** Properties *)

(** C40: a packet made of whole values, then one run of bits, then whole
    values is read back exactly as written: the writer cannot throw, and
    the reader's [ReadBit] and byte reads return the written operations in
    order, for every number of bits and every value. *)
Theorem packet_roundtrip pre bits post :
  Forall op_bytes_ok (shaped pre bits post) ->
  Z.of_nat (S (ops_size (shaped pre bits post))) < 10000000 ->
  exists b b',
    (write_ops (shaped pre bits post);; FlushBits) new_ByteBuffer = Ok (tt, b) /\
    read_ops (layout_of <$> shaped pre bits post) (received (_storage b))
      = Ok (shaped pre bits post, b').
Proof.
  intros Hok Hsz. set (os := shaped pre bits post) in *.
  destruct (emits_write_ops os Hok new_ByteBuffer (mkWire [] []) writes_new)
    as ([] & b1 & H1 & Hw1 & _).
  { unfold room. simpl. lia. }
  destruct (FlushBits_writes b1 _ Hw1) as (b2 & H2 & Hw2 & _).
  { apply room_ops. unfold room. simpl. lia. }
  pose proof (shaped_reads pre bits post) as Hrd. fold os in Hrd.
  rewrite <- (wr_out _ _ Hw2) in Hrd.
  destruct (read_ops_exec os _ Hok Hrd) as (b3 & H3).
  exists b2, b3. split; [by st_step H1|done].
Qed.

Lemma packet_roundtrip_witness :
  let os := shaped [[7; 1]] [true; false; true] [[9]] in
  Forall op_bytes_ok os /\ Z.of_nat (S (ops_size os)) < 10000000 /\
  exists b b', (write_ops os;; FlushBits) new_ByteBuffer = Ok (tt, b) /\
               read_ops (layout_of <$> os) (received (_storage b)) = Ok (os, b').
Proof.
  cbv zeta. split; [|split; [|apply (packet_roundtrip [[7; 1]] [true; false; true] [[9]])]];
    try (vm_compute; reflexivity);
    repeat constructor; try discriminate; unfold is_byte; lia.
Defined.

(** The writer flushes its pending bits before a value but the reader
    never realigns: after one bit and one byte, the next [ReadBit] returns
    the padding of the first bit byte, whatever bit was written. *)
Lemma reader_keeps_bit_cursor (x y : bool) z :
  exists b b',
    (write_ops [OBit x; OBytes [z]; OBit y];; FlushBits) new_ByteBuffer = Ok (tt, b) /\
    read_ops [LBit; LBytes 1; LBit] (received (_storage b))
      = Ok ([OBit x; OBytes [z]; OBit false], b').
Proof. destruct x, y; eexists _, _; split; reflexivity. Qed.

(** [WriteBits(value, n)] followed by a flush is undone by
    [ReadBits(n)] up to truncation to [n] bits, for every [n] up to 32 and
    behind any number of bits already pending. *)
Theorem WriteBits_ReadBits value n (before : list bool) :
  (n <= 32)%nat -> (length before < 1000)%nat ->
  exists b b1 b2,
    (write_ops (OBit <$> before);; WriteBits value n;; FlushBits) new_ByteBuffer = Ok (tt, b) /\
    read_ops (layout_of <$> (OBit <$> before)) (received (_storage b))
      = Ok (OBit <$> before, b1) /\
    ReadBits n b1 = Ok (value `mod` 2 ^ Z.of_nat n, b2).
Proof.
  intros Hn Hlen.
  set (bits := before ++ value_bits value n).
  assert (forall l : list bool, ops_size (OBit <$> l) = length l) as Hsz.
  { induction l as [|? ? IH]; [done|]. cbn. by rewrite <- IH. }
  assert (emits (write_ops (OBit <$> before);; WriteBits value n) (OBit <$> bits)) as Hem.
  { unfold bits. rewrite fmap_app. apply emits_bind; [|intros; apply emits_WriteBits].
    apply emits_write_ops. apply Forall_fmap, Forall_true. done. }
  destruct (Hem new_ByteBuffer (mkWire [] []) writes_new) as ([] & b1 & H1 & Hw1 & _).
  { unfold room, bits. rewrite Hsz, length_app, length_value_bits. simpl. lia. }
  destruct (FlushBits_writes b1 _ Hw1) as (b2 & H2 & Hw2 & _).
  { apply room_ops. unfold room, bits. rewrite Hsz, length_app, length_value_bits. simpl. lia. }
  pose proof (shaped_reads [] bits []) as Hrd.
  unfold shaped in Hrd. cbn [fmap list_fmap app] in Hrd. rewrite app_nil_r in Hrd.
  rewrite <- (wr_out _ _ Hw2) in Hrd. unfold bits in Hrd. rewrite fmap_app in Hrd.
  assert (exists b3, read_ops (layout_of <$> (OBit <$> before)) (received (_storage b2))
            = Ok (OBit <$> before, b3) /\ reads_ops b3 (OBit <$> value_bits value n))
    as (b3 & H3 & Hrd3).
  { revert Hrd. generalize (received (_storage b2)). clear. intros b Hrd. revert b Hrd.
    induction before as [|x before IH]; intros b Hrd; [by exists b|].
    destruct (reads_ops_bit _ _ _ Hrd) as (b' & H & Hrd').
    destruct (IH b' Hrd') as (b3 & H3 & Hrd3). exists b3. split; [|done].
    cbn [fmap list_fmap layout_of read_ops]. st_step H. by st_step H3. }
  rewrite <- (app_nil_r (OBit <$> value_bits value n)) in Hrd3.
  destruct (reads_ReadBits n value b3 [] Hn Hrd3) as (b4 & H4 & _).
  exists b2, b3, b4. split; [|done].
  revert H1. unfold mbind, st_bind. case_match; [|done]. case_match. intros ->. exact H2.
Qed.

Lemma WriteBits_ReadBits_witness :
  (22 <= 32)%nat /\ (length [true; false; true] < 1000)%nat /\
  exists b b1 b2,
    (write_ops (OBit <$> [true; false; true]);; WriteBits 5000000 22;; FlushBits) new_ByteBuffer
      = Ok (tt, b) /\
    read_ops (layout_of <$> (OBit <$> [true; false; true])) (received (_storage b))
      = Ok (OBit <$> [true; false; true], b1) /\
    ReadBits 22 b1 = Ok (5000000 `mod` 2 ^ Z.of_nat 22, b2).
Proof.
  split; [lia|]. split; [simpl; lia|]. apply WriteBits_ReadBits; simpl; lia.
Defined.

(** [readPackGUID] recovers every 64-bit GUID from what
    [appendPackGUID] appends, consumes exactly those bytes and leaves the
    rest of the packet; the packed form is at most nine bytes. *)
Theorem packGUID_roundtrip guid tail :
  is_u64 guid ->
  exists b b',
    appendPackGUID guid new_ByteBuffer = Ok (tt, b) /\ (1 <= size b <= 9)%nat /\
    readPackGUID (received (_storage b ++ tail)) = Ok (guid, b') /\ rest b' = tail.
Proof.
  intros Hg. unfold appendPackGUID.
  destruct (packGUID_bounds 8 0 guid) as (Hm & Hb & Hl); [lia|].
  destruct (packGUID 8 0 guid) as [mask bytes] eqn:Hpk. cbn [fst snd] in *.
  set (b0 := received (mask :: bytes ++ tail)).
  destruct (read_exec 1 b0 [mask] (bytes ++ tail)) as [H1 H2]; [done|done|done|].
  rewrite le_value_1 in H1.
  destruct (readPackGUID_loop_spec 8 0 guid mask 0 (set_rpos (_rpos b0 + 1) b0) tail)
    as (b' & H & Hr); [done|done|exact Hg|by rewrite Hpk|by rewrite H2, Hpk|].
  rewrite Z.shiftl_0_r, Z.lor_0_l in H.
  eexists _, b'. split; [apply append_exec; done|].
  split; [unfold size; simpl; lia|]. split; [|done].
  unfold readPackGUID. cbn [set_storage _storage new_ByteBuffer app]. fold b0.
  by st_step H1.
Qed.

Lemma packGUID_roundtrip_witness :
  is_u64 0x0000F1300000ABCD /\
  exists b b',
    appendPackGUID 0x0000F1300000ABCD new_ByteBuffer = Ok (tt, b) /\ (1 <= size b <= 9)%nat /\
    readPackGUID (received (_storage b ++ [1; 2])) = Ok (0x0000F1300000ABCD, b') /\
    rest b' = [1; 2].
Proof.
  split; [unfold is_u64; lia|]. apply packGUID_roundtrip. unfold is_u64; lia.
Defined.

(** ** Strings *)

Lemma get_string_loop_spec fuel s tail b :
  Forall (fun c => c <> 0) s -> rest b = s ++ 0 :: tail -> (length s < fuel)%nat ->
  exists b', get_string_loop fuel b = Ok (s, b') /\ rest b' = tail.
Proof.
  revert fuel b. induction s as [|c s IH]; intros fuel b Hs Hrest Hfuel;
    (destruct fuel as [|fuel]; [simpl in Hfuel; lia|]); cbn [get_string_loop];
    cbn [app] in Hrest; unfold rest in Hrest; pose proof (drop_cons_lt _ _ _ _ Hrest) as Hlt.
  - replace (_rpos b <? size b)%nat with true by (unfold size; bdec).
    destruct (read_exec 1 b [0] tail) as [H1 H2]; [done|done|done|].
    rewrite le_value_1 in H1. st_step H1. by eexists.
  - replace (_rpos b <? size b)%nat with true by (unfold size; bdec).
    apply Forall_cons in Hs as [Hc Hs].
    destruct (read_exec 1 b [c] (s ++ 0 :: tail)) as [H1 H2]; [done|done|done|].
    rewrite le_value_1 in H1. st_step H1.
    destruct (IH fuel _ Hs H2) as (b' & H3 & H4); [simpl in Hfuel; lia|].
    replace (c =? 0) with false by bdec. st_step H3. by exists b'.
Qed.

Lemma get_string_spec s tail b :
  Forall (fun c => c <> 0) s -> rest b = s ++ 0 :: tail ->
  exists b', get_string b = Ok (s, b') /\ rest b' = tail.
Proof.
  intros Hs Hrest. apply get_string_loop_spec; [done|done|].
  destruct (rest_size b _ Hrest) as [H|H]; [|by destruct s].
  rewrite length_app in H. simpl in H. lia.
Qed.

(** [operator>>(std::string&)] reads back every NUL-free string written
    by [operator<<(std::string const&)], stops after the terminator and
    leaves the rest of the packet, provided no bits are pending. *)
Theorem string_roundtrip s tail b out :
  writes b (mkWire out []) -> Forall (fun c => c <> 0) s -> Forall is_byte s ->
  Z.of_nat (length out + length s + 1) < 10000000 ->
  exists b1 b2,
    put_string s b = Ok (tt, b1) /\ _storage b1 = out ++ s ++ [0] /\
    get_string (mkByteBuffer (length out) 0 8 0 (_storage b1 ++ tail)) = Ok (s, b2) /\
    rest b2 = tail.
Proof.
  intros Hw Hs Hb Hsz.
  assert (exists b', (if (length s =? 0)%nat then mret tt else append s) b = Ok (tt, b') /\
            writes b' (mkWire (out ++ s) [])) as (b' & H1 & Hw').
  { destruct (Nat.eqb_spec (length s) 0) as [Hl|Hl].
    - destruct s; [|done]. exists b. by rewrite app_nil_r.
    - destruct (append_writes_flushed b out s Hw) as (b' & ? & ? & _); eauto.
      + by destruct s.
      + unfold room. simpl. lia. }
  destruct (append_T_writes b' _ 1 0 Hw') as (b1 & H2 & Hw1 & _); [done| |].
  { unfold room. simpl. rewrite length_app. lia. }
  assert (_storage b1 = out ++ s ++ [0]) as Hst by (rewrite (wr_out _ _ Hw1), app_assoc; done).
  destruct (get_string_spec s tail (mkByteBuffer (length out) 0 8 0 (_storage b1 ++ tail)))
    as (b2 & H3 & Hr); [done| |].
  { unfold rest. cbn [_rpos _storage]. rewrite Hst, <- !app_assoc. by rewrite drop_app_length. }
  exists b1, b2. unfold put_string. by rewrite (st_bind_Ok _ _ _ _ _ H1).
Qed.

Lemma string_roundtrip_witness :
  writes new_ByteBuffer (mkWire [] []) /\
  exists b1 b2,
    put_string [71; 77] new_ByteBuffer = Ok (tt, b1) /\ _storage b1 = [] ++ [71; 77] ++ [0] /\
    get_string (mkByteBuffer (length (@nil Z)) 0 8 0 (_storage b1 ++ [5])) = Ok ([71; 77], b2) /\
    rest b2 = [5].
Proof.
  split; [apply writes_new|].
  apply (string_roundtrip [71; 77] [5] new_ByteBuffer []); [apply writes_new| | |simpl; lia];
    repeat constructor; unfold is_byte; lia.
Defined.

(** A raw [append] (as [WriteString] and [operator<<(std::string)] use)
    does not flush: bits pending before a string leave the buffer after the
    string's characters, in the byte that the terminator's [append<T>]
    flushes. *)
Theorem raw_append_overtakes_bits x s :
  s <> [] -> Forall is_byte s -> Z.of_nat (length s) < 10000000 - 2 ->
  exists b, (_ ← WriteBit (if x : bool then 1 else 0); put_string s) new_ByteBuffer = Ok (tt, b) /\
            _storage b = s ++ [if x then 128 else 0; 0].
Proof.
  intros Hne Hb Hsz.
  assert (forall o, Z.of_nat (length (o : list Z)) < 10000000 -> forall r w p c src, src <> [] ->
    w = length o ->
    append src (mkByteBuffer r w p c o) = Ok (tt, mkByteBuffer r (w + length src) p c (o ++ src)))
    as Happ.
  { intros o Ho r w p c src Hsrc ->. by rewrite append_exec. }
  unfold put_string. replace (length s =? 0)%nat with false by (by destruct s).
  assert (WriteBit (if x then 1 else 0) new_ByteBuffer
          = Ok (x, mkByteBuffer 0 0 7 (if x then 128 else 0) [])) as H1 by (by destruct x).
  st_step H1.
  rewrite (st_bind_Ok _ _ _ _ _ (Happ [] ltac:(simpl; lia) 0%nat 0%nat 7 _ s Hne eq_refl)).
  cbn [app Nat.add].
  unfold append_T, FlushBits. unfold mbind at 1, st_bind at 1. cbn [_bitpos _curbitval].
  change (7 =? 8) with false. cbn iota.
  rewrite Happ by (done || lia). unfold set_bits; cbn [_rpos _wpos _bitpos _curbitval _storage].
    rewrite Happ; [|rewrite length_app; simpl; lia|done|by rewrite length_app].
  eexists. split; [done|]. cbn [_storage]. rewrite <- app_assoc. by destruct x.
Qed.

Lemma raw_append_overtakes_bits_witness :
  exists b, (_ ← WriteBit 1; put_string [65]) new_ByteBuffer = Ok (tt, b) /\
            _storage b = [65] ++ [128; 0].
Proof.
  apply (raw_append_overtakes_bits true [65]); [done| |simpl; lia].
  repeat constructor; unfold is_byte; lia.
Defined.

(** [clear()] (and with it [WorldPacket::Initialize]) empties the
    storage but keeps a partial bit byte: the first value appended to the
    reused packet is preceded by the stale byte. *)
Lemma clear_keeps_pending_bits x v :
  exists b0 b, WriteBit (if x : bool then 1 else 0) new_ByteBuffer = Ok (x, b0) /\
               size (clear b0) = 0%nat /\
               append_T 1 v (clear b0) = Ok (tt, b) /\
               _storage b = [if x then 128 else 0; u8 v].
Proof. destruct x; eexists _, _; repeat split; reflexivity. Qed.

(** ** In-place bits *)

Lemma all_bits_lookup st i :
  all_bits st !! i = (fun z => Z.testbit z (7 - Z.of_nat (i mod 8))) <$> st !! (i / 8)%nat.
Proof.
  revert i. induction st as [|z st IH]; intros i; [done|].
  rewrite all_bits_cons. destruct (decide (i < 8)%nat) as [Hi|Hi].
  - rewrite lookup_app_l by (by rewrite length_byte_bits).
    rewrite Nat.div_small, Nat.mod_small by done.
    rewrite <- (Nat.add_0_r i) at 1. rewrite <- lookup_drop, byte_bits_drop by done. done.
  - rewrite lookup_app_r by (rewrite length_byte_bits; lia).
    rewrite length_byte_bits, IH.
    assert (i = i - 8 + 1 * 8)%nat as Hsplit by lia.
    assert (i / 8 = S ((i - 8) / 8))%nat as ->.
    { rewrite Hsplit at 1. rewrite Nat.div_add by done. lia. }
    assert (i mod 8 = (i - 8) mod 8)%nat as ->; [|done].
    rewrite Hsplit at 1. by rewrite Nat.Div0.mod_add.
Qed.

Lemma length_all_bits st : length (all_bits st) = (length st * 8)%nat.
Proof.
  induction st as [|z st IH]; [done|].
  rewrite all_bits_cons, length_app, IH, length_byte_bits. simpl. lia.
Qed.

Lemma PutBit_all_bits pos x st :
  (pos < length st * 8)%nat -> all_bits (PutBit pos x st) = <[pos:=x]> (all_bits st).
Proof.
  intros Hpos. apply list_eq. intros i. unfold PutBit.
  set (m := Z.shiftl 1 (7 - Z.of_nat (pos mod 8))).
  pose proof (Nat.mod_upper_bound pos 8 ltac:(lia)) as Hpm.
  pose proof (Nat.mod_upper_bound i 8 ltac:(lia)) as Him.
  assert (forall z, Z.testbit (if x then Z.lor z m else Z.ldiff z m) (7 - Z.of_nat (i mod 8))
            = if decide (i mod 8 = pos mod 8)%nat then x
              else Z.testbit z (7 - Z.of_nat (i mod 8))) as Hbit.
  { intros z. unfold m. rewrite Z.shiftl_1_l.
    destruct x; rewrite ?Z.lor_spec, ?Z.ldiff_spec, Z.pow2_bits_eqb by lia; case_decide as Hd.
    - replace (_ =? _) with true by bdec. by rewrite orb_true_r.
    - replace (_ =? _) with false by bdec. by rewrite orb_false_r.
    - replace (_ =? _) with true by bdec. by rewrite andb_false_r.
    - replace (_ =? _) with false by bdec. by rewrite andb_true_r. }
  pose proof (Nat.div_mod_eq i 8). pose proof (Nat.div_mod_eq pos 8).
  rewrite all_bits_lookup, list_lookup_alter.
  destruct (decide (i = pos)) as [->|Hne].
  - rewrite list_lookup_insert_eq by (by rewrite length_all_bits).
    rewrite decide_True by done.
    destruct (lookup_lt_is_Some_2 st (pos / 8)%nat) as [z ->]; [lia|].
    cbn [fmap option_fmap option_map]. by rewrite Hbit, decide_True.
  - rewrite list_lookup_insert_ne, all_bits_lookup by done.
    destruct (decide (pos / 8 = i / 8)%nat) as [Hd|Hd]; [|done]. rewrite Hd.
    destruct (st !! (i / 8)%nat) as [z|]; [|done].
    cbn [fmap option_fmap option_map]. by rewrite Hbit, decide_False by lia.
Qed.

Lemma length_PutBit pos x st : length (PutBit pos x st) = length st.
Proof. apply length_alter. Qed.

Lemma PutBits_loop_all_bits pos value n todo st :
  (todo <= n)%nat -> (pos + n <= length st * 8)%nat ->
  length (PutBits_loop pos value n todo st) = length st /\
  all_bits (PutBits_loop pos value n todo st)
  = take (pos + (n - todo)) (all_bits st) ++ value_bits value todo ++ drop (pos + n) (all_bits st).
Proof.
  revert st. induction todo as [|todo IH]; intros st Htodo Hlen; cbn [PutBits_loop].
  { split; [done|]. rewrite Nat.sub_0_r. cbn. by rewrite take_drop. }
  set (i := (n - S todo)%nat).
  replace (n - i - 1)%nat with todo by lia.
  destruct (IH (PutBit (pos + i) (Z.testbit value (Z.of_nat todo)) st)) as [IHl IHb];
    [lia|by rewrite length_PutBit|].
  rewrite IHl, IHb, length_PutBit, PutBit_all_bits by lia. split; [done|].
  replace (n - todo)%nat with (S i) by lia. rewrite value_bits_S.
  rewrite drop_insert_lt by lia. rewrite Nat.add_succ_r.
  rewrite (take_S_r _ _ (Z.testbit value (Z.of_nat todo))).
  - rewrite take_insert_ge by lia. by rewrite <- app_assoc.
  - apply list_lookup_insert_eq. rewrite length_all_bits. lia.
Qed.

(** [PutBits(pos, value, bitCount)] either raises the documented
    exception or changes exactly the [bitCount] bits at [pos] to the low
    bits of [value], most significant first, and nothing else. *)
Theorem PutBits_correct pos value n b :
  match PutBits pos value n b with
  | Ok (_, b') =>
      (0 < n)%nat /\ (pos + n <= size b * 8)%nat /\
      (_rpos b', _wpos b', _bitpos b', _curbitval b')
      = (_rpos b, _wpos b, _bitpos b, _curbitval b) /\
      all_bits (_storage b')
      = take pos (all_bits (_storage b)) ++ value_bits value n
        ++ drop (pos + n) (all_bits (_storage b))
  | Err SourceException => n = 0%nat
  | Err PositionException => (0 < n)%nat /\ (size b * 8 < pos + n)%nat
  | Err _ => False
  end.
Proof.
  unfold PutBits. destruct (Nat.eqb_spec n 0) as [|Hn]; [done|].
  destruct (Nat.ltb_spec (size b * 8) (pos + n)) as [H|H]; [split; [lia|done]|].
  repeat split; [lia|done|].
  destruct (PutBits_loop_all_bits pos value n n (_storage b)) as [_ Hb]; [done|done|].
  by rewrite Nat.sub_diag, Nat.add_0_r in Hb.
Qed.
