(* ===== verification/Util.v ===== *)
(** * Text utilities (src/server/shared/Utilities/Util.cpp)

    [Tokenizer], which splits the space-separated lists the server keeps in
    text columns, and the two C++ library conversions such columns are
    written and read with: [ostream << uint64] and [atol].  Text is a list of
    bytes. *)
From S2P Require Import Prelude.
Local Open Scope Z_scope.

Abbreviation text := (list Z) (only parsing).
Definition SPACE : Z := 32.

(** ** [Tokenizer] *)

(** The scan of the constructor; [cur] is the text between [posold] and
    [posnew]. *)
Fixpoint Tokenizer_loop (sep : Z) (cur : text) (src : text) : list text :=
  match src with
  | [] => if (length cur =? 0)%nat then [] else [cur]
  | c :: src =>
      if c =? sep then cur :: Tokenizer_loop sep [] src
      else if c =? 0 then (if (length cur =? 0)%nat then [] else [cur])
      else Tokenizer_loop sep (cur ++ [c]) src
  end.

(** [Tokenizer(src, sep)] *)
Definition Tokenizer (src : text) (sep : Z) : list text := Tokenizer_loop sep [] src.

(** ** Decimal numbers *)

(** [std::ostream << uint64]: at most twenty digits. *)
Fixpoint decimal_loop (fuel : nat) (z : Z) (acc : text) : text :=
  match fuel with
  | O => acc
  | S fuel =>
      let acc := 48 + z `mod` 10 :: acc in
      if z <? 10 then acc else decimal_loop fuel (z / 10) acc
  end.
Definition decimal (z : Z) : text := decimal_loop 20 z [].

Definition isspace (c : Z) : bool := (c =? 32) || ((9 <=? c) && (c <=? 13)).
Definition isdigit (c : Z) : bool := (48 <=? c) && (c <=? 57).
Definition LONG_MAX : Z := 2 ^ 63 - 1.

Fixpoint digits_value (acc : Z) (s : text) : Z :=
  match s with
  | c :: s => if isdigit c then digits_value (10 * acc + (c - 48)) s else acc
  | [] => acc
  end.

Fixpoint skip_space (s : text) : text :=
  match s with
  | c :: s' => if isspace c then skip_space s' else s
  | [] => []
  end.

(** [atol(s)] with a 64-bit [long], saturating as [strtol] does. *)
Definition atol (s : text) : Z :=
  let s := skip_space s in
  let '(neg, s) :=
    match s with
    | 45 :: s => (true, s)
    | 43 :: s => (false, s)
    | _ => (false, s)
    end in
  let v := digits_value 0 s in
  if neg then Z.max (- v) (- LONG_MAX - 1) else Z.min v LONG_MAX.

(** ** Case of wide characters *)

Definition between (lo hi wchar : Z) : bool := (lo <=? wchar) && (wchar <=? hi).

(** [wcharToUpper(wchar)] *)
Definition wcharToUpper (wchar : Z) : Z :=
  if between 0x61 0x7A wchar then u16 wchar - 0x0020
  else if wchar =? 0x00DF then 0x1E9E
  else if between 0x00E0 0x00F6 wchar then u16 wchar - 0x0020
  else if between 0x00F8 0x00FE wchar then u16 wchar - 0x0020
  else if between 0x0101 0x012F wchar && (wchar `mod` 2 =? 1) then u16 wchar - 0x0001
  else if between 0x0430 0x044F wchar then u16 wchar - 0x0020
  else if wchar =? 0x0451 then 0x0401
  else wchar.

(** [wcharToLower(wchar)] *)
Definition wcharToLower (wchar : Z) : Z :=
  if between 0x41 0x5A wchar then u16 wchar + 0x0020
  else if between 0x00C0 0x00D6 wchar then u16 wchar + 0x0020
  else if between 0x00D8 0x00DE wchar then u16 wchar + 0x0020
  else if between 0x0100 0x012E wchar && (wchar `mod` 2 =? 0) then u16 wchar + 0x0001
  else if wchar =? 0x1E9E then 0x00DF
  else if wchar =? 0x0401 then 0x0451
  else if between 0x0410 0x042F wchar then u16 wchar + 0x0020
  else wchar.

(** [wstrToLower(str)] *)
Definition wstrToLower (str : list Z) : list Z := wcharToLower <$> str.

(** ** Splitting undoes joining *)

(** A token that survives: it has neither the separator nor a NUL. *)
Definition plain (sep : Z) (t : text) : Prop := Forall (fun c => c <> sep /\ c <> 0) t.

Lemma Tokenizer_loop_plain sep cur t src :
  plain sep t -> Tokenizer_loop sep cur (t ++ src) = Tokenizer_loop sep (cur ++ t) src.
Proof.
  intros Ht. revert cur. induction Ht as [|c t [Hs H0] _ IH]; intros cur; cbn.
  - by rewrite app_nil_r.
  - destruct (Z.eqb_spec c sep); [done|]. destruct (Z.eqb_spec c 0); [done|].
    by rewrite IH, <- app_assoc.
Qed.

Lemma Tokenizer_separated sep (ts : list text) src :
  Forall (plain sep) ts ->
  Tokenizer (concat ((fun t => t ++ [sep]) <$> ts) ++ src) sep = ts ++ Tokenizer src sep.
Proof.
  unfold Tokenizer. induction 1 as [|t ts Ht _ IH]; [done|]. cbn.
  rewrite <- !app_assoc. rewrite Tokenizer_loop_plain by done. cbn.
  by rewrite Z.eqb_refl, IH.
Qed.

Lemma Tokenizer_last sep t : plain sep t -> t <> [] -> Tokenizer t sep = [t].
Proof.
  intros Ht Hne. unfold Tokenizer. rewrite <- (app_nil_r t) at 1.
  rewrite Tokenizer_loop_plain by done. by destruct t.
Qed.

(** ** Reading a number back *)

Lemma decimal_loop_acc fuel z acc : decimal_loop fuel z acc = decimal_loop fuel z [] ++ acc.
Proof.
  revert z acc. induction fuel as [|fuel IH]; intros z acc; [done|]. cbn.
  case_match; [done|]. rewrite IH, (IH _ [_]), <- app_assoc. done.
Qed.

Lemma decimal_loop_digits fuel z : 0 <= z -> Forall (fun c => isdigit c = true) (decimal_loop fuel z []).
Proof.
  revert z. induction fuel as [|fuel IH]; intros z Hz; [constructor|]. cbn.
  assert (isdigit (48 + z `mod` 10) = true) as Hd.
  { unfold isdigit. pose proof (Z.mod_pos_bound z 10). apply andb_true_iff. split; bdec. }
  case_match; [by constructor|].
  rewrite decimal_loop_acc. apply Forall_app. split; [|by constructor].
  apply IH, Z.div_pos; lia.
Qed.

Lemma digits_value_snoc acc s c :
  Forall (fun c => isdigit c = true) s -> isdigit c = true ->
  digits_value acc (s ++ [c]) = 10 * digits_value acc s + (c - 48).
Proof.
  intros Hs Hc. revert acc. induction Hs as [|x s Hx _ IH]; intros acc; cbn; [by rewrite Hc|].
  by rewrite Hx, IH.
Qed.

Lemma digits_value_decimal fuel z :
  0 <= z < 10 ^ Z.of_nat fuel -> digits_value 0 (decimal_loop fuel z []) = z.
Proof.
  revert z. induction fuel as [|fuel IH]; intros z Hz; [cbn in *; lia|].
  pose proof (Z.mod_pos_bound z 10) as Hm.
  assert (isdigit (48 + z `mod` 10) = true) as Hd.
  { unfold isdigit. apply andb_true_iff. split; bdec. }
  cbn [decimal_loop]. destruct (Z.ltb_spec z 10) as [Hlt|Hge].
  - cbn [digits_value]. rewrite Hd, Z.mod_small by lia. lia.
  - rewrite decimal_loop_acc, digits_value_snoc;
      [|apply decimal_loop_digits, Z.div_pos; lia|done].
    rewrite IH; [rewrite (Z.div_mod z 10) at 3; lia|].
    rewrite Nat2Z.inj_succ, Z.pow_succ_r in Hz by lia.
    split; [apply Z.div_pos; lia|apply Z.div_lt_upper_bound; lia].
Qed.

Lemma decimal_loop_nonempty fuel z : decimal_loop (S fuel) z [] <> [].
Proof.
  cbn. case_match; [done|]. rewrite decimal_loop_acc. by destruct (decimal_loop _ _ _).
Qed.

Lemma decimal_nonempty z : decimal z <> [].
Proof. apply decimal_loop_nonempty. Qed.

Lemma decimal_digits z : 0 <= z -> Forall (fun c => isdigit c = true) (decimal z).
Proof. apply decimal_loop_digits. Qed.

Lemma decimal_plain z : 0 <= z -> plain SPACE (decimal z).
Proof.
  intros Hz. eapply Forall_impl; [by apply decimal_digits|]. cbn. unfold isdigit, SPACE.
  intros c [H1%Z.leb_le H2%Z.leb_le]%andb_true_iff. lia.
Qed.

Lemma atol_digits s :
  Forall (fun c => isdigit c = true) s -> atol s = Z.min (digits_value 0 s) LONG_MAX.
Proof.
  intros Hs. unfold atol. destruct Hs as [|c s Hc Hs]; [done|].
  assert (48 <= c <= 57) as Hr.
  { unfold isdigit in Hc. apply andb_true_iff in Hc as [?%Z.leb_le ?%Z.leb_le]. lia. }
  assert (skip_space (c :: s) = c :: s) as ->.
  { cbn. replace (isspace c) with false; [done|]. unfold isspace. symmetry.
    apply orb_false_iff. split; [bdec|]. apply andb_false_iff. right. bdec. }
  assert (exists d, 0 <= d < 10 /\ c = 48 + d) as (d & Hd & ->) by (exists (c - 48); lia).
  assert (d = 0 \/ d = 1 \/ d = 2 \/ d = 3 \/ d = 4 \/ d = 5 \/ d = 6 \/ d = 7 \/ d = 8 \/ d = 9)
    as Hcases by lia.
  by repeat destruct Hcases as [->|Hcases]; [..|subst d].
Qed.

Lemma atol_decimal z : 0 <= z <= LONG_MAX -> atol (decimal z) = z.
Proof.
  intros Hz. rewrite atol_digits by (apply decimal_digits; lia).
  unfold decimal. rewrite digits_value_decimal; unfold LONG_MAX in *; lia.
Qed.

(** A column of numbers written one after the other, each followed by a
    space, is split by [Tokenizer] and read by [atol] into the same numbers,
    in order: the format the server stores lists of identifiers in. *)
Lemma number_list_roundtrip (zs : list Z) :
  Forall (fun z => 0 <= z <= LONG_MAX) zs ->
  atol <$> Tokenizer (concat ((fun z => decimal z ++ [SPACE]) <$> zs)) SPACE = zs.
Proof.
  intros Hzs.
  replace ((fun z => decimal z ++ [SPACE]) <$> zs)
    with ((fun t => t ++ [SPACE]) <$> (decimal <$> zs)) by (by rewrite <- list_fmap_compose).
  rewrite <- (app_nil_r (concat _)), Tokenizer_separated.
  - cbn. rewrite app_nil_r, <- list_fmap_compose.
    induction Hzs as [|z zs Hz _ IH]; [done|].
    rewrite fmap_cons, IH. f_equal. by apply atol_decimal.
  - apply Forall_fmap. eapply Forall_impl; [done|]. intros z Hz. apply decimal_plain. cbn in Hz. lia.
Qed.
