(* ===== verification/MovementElements.v ===== *)
(** * Movement status elements (src/server/game/Movement/MovementStructures.h)

    The alphabet of the movement packet layouts, with the enumerators'
    order, the opcodes that select a layout, and the small decidable facts
    the readers' and writers' proofs use. *)
From S2P Require Import Prelude.

(** [enum MovementStatusElements] *)
Inductive MovementStatusElements :=
  | MSEForcesCount | MSEHasCounter | MSEHasGuidByte0 | MSEHasGuidByte1 | MSEHasGuidByte2
  | MSEHasGuidByte3 | MSEHasGuidByte4 | MSEHasGuidByte5 | MSEHasGuidByte6 |
  MSEHasGuidByte7 | MSEHasMovementFlags | MSEHasMovementFlags2 | MSEHasTimestamp |
  MSEHasOrientation | MSEHasTransportData | MSEHasTransportGuidByte0 |
  MSEHasTransportGuidByte1 | MSEHasTransportGuidByte2 | MSEHasTransportGuidByte3 |
  MSEHasTransportGuidByte4 | MSEHasTransportGuidByte5 | MSEHasTransportGuidByte6 |
  MSEHasTransportGuidByte7 | MSEHasTransportTime2 | MSEHasTransportTime3 | MSEHasPitch |
  MSEHasFallData | MSEHasFallDirection | MSEHasSplineElevation | MSEHasSpline |
  MSEForces | MSECounter | MSEGuidByte0 | MSEGuidByte1 | MSEGuidByte2 | MSEGuidByte3 |
  MSEGuidByte4 | MSEGuidByte5 | MSEGuidByte6 | MSEGuidByte7 | MSEMovementFlags |
  MSEMovementFlags2 | MSETimestamp | MSEPositionX | MSEPositionY | MSEPositionZ |
  MSEOrientation | MSETransportGuidByte0 | MSETransportGuidByte1 | MSETransportGuidByte2
  | MSETransportGuidByte3 | MSETransportGuidByte4 | MSETransportGuidByte5 |
  MSETransportGuidByte6 | MSETransportGuidByte7 | MSETransportPositionX |
  MSETransportPositionY | MSETransportPositionZ | MSETransportOrientation |
  MSETransportSeat | MSETransportTime | MSETransportTime2 | MSETransportTime3 | MSEPitch
  | MSEFallTime | MSEFallVerticalSpeed | MSEFallCosAngle | MSEFallSinAngle |
  MSEFallHorizontalSpeed | MSESplineElevation | MSEUintCount | MSEZeroBit | MSEOneBit |
  MSEEnd | MSEExtraElement | MSEExtraFloat | MSEExtraInt8.

(** The enumerators' values, in declaration order. *)
Definition mse_code (e : MovementStatusElements) : nat :=
  match e with
  | MSEForcesCount => 0 | MSEHasCounter => 1 | MSEHasGuidByte0 => 2 | MSEHasGuidByte1 =>
  3 | MSEHasGuidByte2 => 4 | MSEHasGuidByte3 => 5 | MSEHasGuidByte4 => 6 |
  MSEHasGuidByte5 => 7 | MSEHasGuidByte6 => 8 | MSEHasGuidByte7 => 9 |
  MSEHasMovementFlags => 10 | MSEHasMovementFlags2 => 11 | MSEHasTimestamp => 12 |
  MSEHasOrientation => 13 | MSEHasTransportData => 14 | MSEHasTransportGuidByte0 => 15 |
  MSEHasTransportGuidByte1 => 16 | MSEHasTransportGuidByte2 => 17 |
  MSEHasTransportGuidByte3 => 18 | MSEHasTransportGuidByte4 => 19 |
  MSEHasTransportGuidByte5 => 20 | MSEHasTransportGuidByte6 => 21 |
  MSEHasTransportGuidByte7 => 22 | MSEHasTransportTime2 => 23 | MSEHasTransportTime3 =>
  24 | MSEHasPitch => 25 | MSEHasFallData => 26 | MSEHasFallDirection => 27 |
  MSEHasSplineElevation => 28 | MSEHasSpline => 29 | MSEForces => 30 | MSECounter => 31
  | MSEGuidByte0 => 32 | MSEGuidByte1 => 33 | MSEGuidByte2 => 34 | MSEGuidByte3 => 35 |
  MSEGuidByte4 => 36 | MSEGuidByte5 => 37 | MSEGuidByte6 => 38 | MSEGuidByte7 => 39 |
  MSEMovementFlags => 40 | MSEMovementFlags2 => 41 | MSETimestamp => 42 | MSEPositionX
  => 43 | MSEPositionY => 44 | MSEPositionZ => 45 | MSEOrientation => 46 |
  MSETransportGuidByte0 => 47 | MSETransportGuidByte1 => 48 | MSETransportGuidByte2 =>
  49 | MSETransportGuidByte3 => 50 | MSETransportGuidByte4 => 51 | MSETransportGuidByte5
  => 52 | MSETransportGuidByte6 => 53 | MSETransportGuidByte7 => 54 |
  MSETransportPositionX => 55 | MSETransportPositionY => 56 | MSETransportPositionZ =>
  57 | MSETransportOrientation => 58 | MSETransportSeat => 59 | MSETransportTime => 60 |
  MSETransportTime2 => 61 | MSETransportTime3 => 62 | MSEPitch => 63 | MSEFallTime => 64
  | MSEFallVerticalSpeed => 65 | MSEFallCosAngle => 66 | MSEFallSinAngle => 67 |
  MSEFallHorizontalSpeed => 68 | MSESplineElevation => 69 | MSEUintCount => 70 |
  MSEZeroBit => 71 | MSEOneBit => 72 | MSEEnd => 73 | MSEExtraElement => 74 |
  MSEExtraFloat => 75 | MSEExtraInt8 => 76
  end.

(** [element - base] *)
Definition mse_index (e base : MovementStatusElements) : nat := mse_code e - mse_code base.

#[export] Instance mse_eq_dec : EqDecision MovementStatusElements.
Proof. solve_decision. Defined.

Definition mse_eqb (a b : MovementStatusElements) : bool := (mse_code a =? mse_code b)%nat.

Lemma mse_eqb_eq a b : mse_eqb a b = true <-> a = b.
Proof.
  unfold mse_eqb. rewrite Nat.eqb_eq. split; [|by intros ->].
  intros H. destruct (decide (a = b)) as [|Hne]; [done|exfalso].
  revert H. destruct a; destruct b; cbn; first [discriminate | intros _; by apply Hne].
Qed.

(** Membership in a layout, by evaluation. *)
Definition mem (e : MovementStatusElements) (l : list MovementStatusElements) : bool :=
  existsb (mse_eqb e) l.

Lemma mem_cons e a l : mem e (a :: l) = mse_eqb e a || mem e l.
Proof. done. Qed.

(** The enumerators of [enum Opcodes] (src/server/game/Server/Protocol/Opcodes.h)
    that name a layout or are handed to a [PacketSender]; every other
    enumerator is [OtherOpcode] of its name. *)
Inductive Opcodes :=
  | MSG_MOVE_FALL_LAND | MSG_MOVE_HEARTBEAT | MSG_MOVE_JUMP | MSG_MOVE_SET_FACING |
  MSG_MOVE_SET_PITCH | MSG_MOVE_START_ASCEND | MSG_MOVE_START_BACKWARD |
  MSG_MOVE_START_DESCEND | MSG_MOVE_START_FORWARD | MSG_MOVE_START_PITCH_DOWN |
  MSG_MOVE_START_PITCH_UP | MSG_MOVE_START_STRAFE_LEFT | MSG_MOVE_START_STRAFE_RIGHT |
  MSG_MOVE_START_SWIM | MSG_MOVE_START_TURN_LEFT | MSG_MOVE_START_TURN_RIGHT |
  MSG_MOVE_STOP | MSG_MOVE_STOP_ASCEND | MSG_MOVE_STOP_PITCH | MSG_MOVE_STOP_STRAFE |
  MSG_MOVE_STOP_SWIM | MSG_MOVE_STOP_TURN | SMSG_PLAYER_MOVE | CMSG_MOVE_CHNG_TRANSPORT
  | CMSG_MOVE_SPLINE_DONE | CMSG_FORCE_MOVE_ROOT_ACK | CMSG_FORCE_MOVE_UNROOT_ACK |
  SMSG_MOVE_SET_COLLISION_HEIGHT | SMSG_SPLINE_MOVE_SET_WALK_SPEED |
  SMSG_SPLINE_MOVE_SET_RUN_SPEED | SMSG_SPLINE_MOVE_SET_RUN_BACK_SPEED |
  SMSG_SPLINE_MOVE_SET_SWIM_SPEED | SMSG_SPLINE_MOVE_SET_SWIM_BACK_SPEED |
  SMSG_SPLINE_MOVE_SET_TURN_RATE | SMSG_SPLINE_MOVE_SET_FLIGHT_SPEED |
  SMSG_SPLINE_MOVE_SET_FLIGHT_BACK_SPEED | SMSG_SPLINE_MOVE_SET_PITCH_RATE |
  SMSG_MOVE_SET_WALK_SPEED | SMSG_MOVE_SET_RUN_SPEED | SMSG_MOVE_SET_RUN_BACK_SPEED |
  SMSG_MOVE_SET_SWIM_SPEED | SMSG_MOVE_SET_SWIM_BACK_SPEED | SMSG_MOVE_SET_TURN_RATE |
  SMSG_MOVE_SET_FLIGHT_SPEED | SMSG_MOVE_SET_FLIGHT_BACK_SPEED |
  SMSG_MOVE_SET_PITCH_RATE | SMSG_SPLINE_MOVE_SET_WALK_MODE |
  SMSG_SPLINE_MOVE_SET_RUN_MODE | SMSG_SPLINE_MOVE_GRAVITY_DISABLE |
  SMSG_SPLINE_MOVE_GRAVITY_ENABLE | SMSG_SPLINE_MOVE_SET_HOVER |
  SMSG_SPLINE_MOVE_UNSET_HOVER | SMSG_SPLINE_MOVE_START_SWIM |
  SMSG_SPLINE_MOVE_STOP_SWIM | SMSG_SPLINE_MOVE_SET_FLYING |
  SMSG_SPLINE_MOVE_UNSET_FLYING | SMSG_SPLINE_MOVE_SET_WATER_WALK |
  SMSG_SPLINE_MOVE_SET_LAND_WALK | SMSG_SPLINE_MOVE_SET_FEATHER_FALL |
  SMSG_SPLINE_MOVE_SET_NORMAL_FALL | SMSG_SPLINE_MOVE_ROOT | SMSG_SPLINE_MOVE_UNROOT |
  SMSG_MOVE_SET_CAN_FLY | SMSG_MOVE_UNSET_CAN_FLY | SMSG_MOVE_SET_HOVER |
  SMSG_MOVE_UNSET_HOVER | SMSG_MOVE_WATER_WALK | SMSG_MOVE_LAND_WALK |
  SMSG_MOVE_FEATHER_FALL | SMSG_MOVE_NORMAL_FALL | SMSG_MOVE_ROOT | SMSG_MOVE_UNROOT |
  NULL_OPCODE | SMSG_MOVE_GRAVITY_DISABLE | SMSG_MOVE_GRAVITY_ENABLE |
  SMSG_MOVE_SET_CAN_TRANSITION_BETWEEN_SWIM_AND_FLY |
  SMSG_MOVE_UNSET_CAN_TRANSITION_BETWEEN_SWIM_AND_FLY |
  SMSG_MOVE_UPDATE_COLLISION_HEIGHT | SMSG_MOVE_UPDATE_WALK_SPEED |
  SMSG_MOVE_UPDATE_RUN_SPEED | SMSG_MOVE_UPDATE_RUN_BACK_SPEED |
  SMSG_MOVE_UPDATE_SWIM_SPEED | SMSG_MOVE_UPDATE_SWIM_BACK_SPEED |
  SMSG_MOVE_UPDATE_TURN_RATE | SMSG_MOVE_UPDATE_FLIGHT_SPEED |
  SMSG_MOVE_UPDATE_FLIGHT_BACK_SPEED | SMSG_MOVE_UPDATE_PITCH_RATE
  | OtherOpcode (name : string).

Definition is_NULL_OPCODE (o : Opcodes) : bool :=
  match o with NULL_OPCODE => true | _ => false end.
