(* ===== verification/MovementTables.v ===== *)
(** * Movement packet layouts (src/server/game/Movement/MovementStructures.cpp)

    One definition per [MovementStatusElements const Name[]] array, element
    for element, and [GetMovementStatusElementsSequence].  The lists at the
    end group the layouts by use. *)
From S2P Require Import Prelude.
From S2P Require Import MovementElements.

Definition PlayerMove : list MovementStatusElements :=
  [MSEHasPitch; MSEHasGuidByte2; MSEZeroBit; MSEZeroBit; MSEHasGuidByte0;
   MSEHasOrientation; MSEHasFallData; MSEHasCounter; MSEHasGuidByte3; MSEHasFallDirection;
   MSEHasTransportData; MSEHasGuidByte4; MSEHasTransportGuidByte5;
   MSEHasTransportGuidByte4; MSEHasTransportGuidByte7; MSEHasTransportGuidByte2;
   MSEHasTransportGuidByte6; MSEHasTransportTime2; MSEHasTransportGuidByte3;
   MSEHasTransportGuidByte1; MSEHasTransportTime3; MSEHasTransportGuidByte0;
   MSEHasSplineElevation; MSEHasMovementFlags; MSEZeroBit; MSEMovementFlags;
   MSEHasMovementFlags2; MSEHasGuidByte7; MSEHasGuidByte1; MSEHasTimestamp;
   MSEMovementFlags2; MSEHasGuidByte5; MSEForcesCount; MSEHasGuidByte6; MSEPositionY;
   MSETransportGuidByte7; MSETransportTime2; MSETransportPositionX; MSETransportGuidByte5;
   MSETransportSeat; MSETransportGuidByte2; MSETransportGuidByte0; MSETransportGuidByte3;
   MSETransportTime; MSETransportGuidByte4; MSETransportPositionZ; MSETransportGuidByte1;
   MSETransportPositionY; MSETransportOrientation; MSETransportGuidByte6;
   MSETransportTime3; MSEGuidByte5; MSEGuidByte1; MSEPositionZ; MSETimestamp;
   MSEOrientation; MSEGuidByte3; MSEFallSinAngle; MSEFallHorizontalSpeed; MSEFallCosAngle;
   MSEFallVerticalSpeed; MSEFallTime; MSEGuidByte0; MSEPitch; MSEGuidByte2; MSEGuidByte6;
   MSESplineElevation; MSECounter; MSEPositionX; MSEGuidByte4; MSEGuidByte7; MSEEnd].

Definition MovementFallLand : list MovementStatusElements :=
  [MSEPositionY; MSEPositionZ; MSEPositionX; MSEHasFallData; MSEZeroBit; MSEZeroBit;
   MSEHasTimestamp; MSEHasGuidByte7; MSEZeroBit; MSEHasSplineElevation; MSEHasGuidByte5;
   MSEHasPitch; MSEHasMovementFlags2; MSEHasGuidByte2; MSEHasGuidByte3; MSEHasGuidByte0;
   MSEHasOrientation; MSEForcesCount; MSEHasMovementFlags; MSEHasCounter; MSEHasGuidByte1;
   MSEHasTransportData; MSEHasGuidByte6; MSEHasGuidByte4; MSEHasTransportGuidByte0;
   MSEHasTransportTime2; MSEHasTransportGuidByte3; MSEHasTransportGuidByte5;
   MSEHasTransportGuidByte1; MSEHasTransportGuidByte7; MSEHasTransportGuidByte4;
   MSEHasTransportGuidByte2; MSEHasTransportGuidByte6; MSEHasTransportTime3;
   MSEMovementFlags2; MSEHasFallDirection; MSEMovementFlags; MSEGuidByte4; MSEGuidByte3;
   MSEGuidByte7; MSEGuidByte0; MSEGuidByte2; MSEGuidByte5; MSEGuidByte1; MSEGuidByte6;
   MSEForces; MSEFallSinAngle; MSEFallHorizontalSpeed; MSEFallCosAngle; MSEFallTime;
   MSEFallVerticalSpeed; MSETransportGuidByte4; MSETransportPositionY;
   MSETransportOrientation; MSETransportPositionZ; MSETransportSeat;
   MSETransportGuidByte3; MSETransportGuidByte6; MSETransportTime2; MSETransportGuidByte2;
   MSETransportGuidByte1; MSETransportGuidByte5; MSETransportTime3; MSETransportTime;
   MSETransportPositionX; MSETransportGuidByte7; MSETransportGuidByte0; MSECounter;
   MSETimestamp; MSESplineElevation; MSEPitch; MSEOrientation; MSEEnd].

Definition MovementHeartBeat : list MovementStatusElements :=
  [MSEPositionZ; MSEPositionX; MSEPositionY; MSEForcesCount; MSEHasMovementFlags;
   MSEZeroBit; MSEHasCounter; MSEHasGuidByte3; MSEHasGuidByte6; MSEHasPitch; MSEZeroBit;
   MSEZeroBit; MSEHasGuidByte7; MSEHasGuidByte2; MSEHasGuidByte4; MSEHasMovementFlags2;
   MSEHasOrientation; MSEHasTimestamp; MSEHasTransportData; MSEHasFallData;
   MSEHasGuidByte5; MSEHasSplineElevation; MSEHasGuidByte1; MSEHasGuidByte0;
   MSEHasTransportGuidByte5; MSEHasTransportGuidByte3; MSEHasTransportGuidByte6;
   MSEHasTransportGuidByte0; MSEHasTransportGuidByte7; MSEHasTransportTime3;
   MSEHasTransportGuidByte1; MSEHasTransportGuidByte2; MSEHasTransportGuidByte4;
   MSEHasTransportTime2; MSEMovementFlags; MSEHasFallDirection; MSEMovementFlags2;
   MSEGuidByte2; MSEGuidByte3; MSEGuidByte6; MSEGuidByte1; MSEGuidByte4; MSEGuidByte7;
   MSEForces; MSEGuidByte5; MSEGuidByte0; MSEFallSinAngle; MSEFallCosAngle;
   MSEFallHorizontalSpeed; MSEFallVerticalSpeed; MSEFallTime; MSETransportGuidByte1;
   MSETransportGuidByte3; MSETransportGuidByte2; MSETransportGuidByte0; MSETransportTime3;
   MSETransportSeat; MSETransportGuidByte7; MSETransportPositionX; MSETransportGuidByte4;
   MSETransportTime2; MSETransportPositionY; MSETransportGuidByte6; MSETransportGuidByte5;
   MSETransportPositionZ; MSETransportTime; MSETransportOrientation; MSECounter;
   MSEOrientation; MSEPitch; MSETimestamp; MSESplineElevation; MSEEnd].

Definition MovementJump : list MovementStatusElements :=
  [MSEPositionY; MSEPositionX; MSEPositionZ; MSEHasGuidByte1; MSEHasGuidByte7;
   MSEHasMovementFlags2; MSEHasGuidByte5; MSEHasSplineElevation; MSEHasOrientation;
   MSEHasGuidByte6; MSEHasGuidByte4; MSEZeroBit; MSEHasTransportData; MSEZeroBit;
   MSEForcesCount; MSEHasPitch; MSEHasMovementFlags; MSEHasTimestamp; MSEHasCounter;
   MSEHasGuidByte3; MSEZeroBit; MSEHasFallData; MSEHasGuidByte2; MSEHasGuidByte0;
   MSEHasTransportGuidByte2; MSEHasTransportGuidByte3; MSEHasTransportGuidByte1;
   MSEHasTransportGuidByte4; MSEHasTransportTime2; MSEHasTransportGuidByte5;
   MSEHasTransportGuidByte6; MSEHasTransportGuidByte0; MSEHasTransportGuidByte7;
   MSEHasTransportTime3; MSEMovementFlags; MSEMovementFlags2; MSEHasFallDirection;
   MSEGuidByte7; MSEGuidByte1; MSEGuidByte0; MSEForces; MSEGuidByte2; MSEGuidByte6;
   MSEGuidByte3; MSEGuidByte4; MSEGuidByte5; MSEFallVerticalSpeed; MSEFallSinAngle;
   MSEFallCosAngle; MSEFallHorizontalSpeed; MSEFallTime; MSETransportGuidByte5;
   MSETransportGuidByte7; MSETransportSeat; MSETransportGuidByte4; MSETransportGuidByte0;
   MSETransportPositionZ; MSETransportGuidByte6; MSETransportGuidByte2;
   MSETransportPositionY; MSETransportTime; MSETransportPositionX; MSETransportTime2;
   MSETransportGuidByte1; MSETransportGuidByte3; MSETransportTime3;
   MSETransportOrientation; MSESplineElevation; MSEOrientation; MSEPitch; MSECounter;
   MSETimestamp; MSEEnd].

Definition MovementSetFacing : list MovementStatusElements :=
  [MSEPositionY; MSEPositionX; MSEPositionZ; MSEHasGuidByte5; MSEHasMovementFlags2;
   MSEHasGuidByte3; MSEHasGuidByte2; MSEForcesCount; MSEZeroBit; MSEHasPitch;
   MSEHasGuidByte0; MSEHasOrientation; MSEHasTimestamp; MSEZeroBit; MSEHasCounter;
   MSEHasGuidByte4; MSEZeroBit; MSEHasGuidByte1; MSEHasGuidByte6; MSEHasFallData;
   MSEHasMovementFlags; MSEHasSplineElevation; MSEHasTransportData; MSEHasGuidByte7;
   MSEHasTransportGuidByte7; MSEHasTransportGuidByte0; MSEHasTransportTime2;
   MSEHasTransportGuidByte3; MSEHasTransportGuidByte6; MSEHasTransportTime3;
   MSEHasTransportGuidByte2; MSEHasTransportGuidByte5; MSEHasTransportGuidByte1;
   MSEHasTransportGuidByte4; MSEHasFallDirection; MSEMovementFlags2; MSEMovementFlags;
   MSEForces; MSEGuidByte0; MSEGuidByte6; MSEGuidByte3; MSEGuidByte1; MSEGuidByte2;
   MSEGuidByte7; MSEGuidByte4; MSEGuidByte5; MSETransportGuidByte0; MSETransportGuidByte2;
   MSETransportOrientation; MSETransportGuidByte7; MSETransportTime3;
   MSETransportGuidByte5; MSETransportTime; MSETransportPositionX; MSETransportTime2;
   MSETransportPositionZ; MSETransportSeat; MSETransportPositionY; MSETransportGuidByte4;
   MSETransportGuidByte3; MSETransportGuidByte6; MSETransportGuidByte1; MSEFallTime;
   MSEFallVerticalSpeed; MSEFallHorizontalSpeed; MSEFallSinAngle; MSEFallCosAngle;
   MSECounter; MSETimestamp; MSESplineElevation; MSEOrientation; MSEPitch; MSEEnd].

Definition MovementSetPitch : list MovementStatusElements :=
  [MSEPositionZ; MSEPositionX; MSEPositionY; MSEHasMovementFlags; MSEZeroBit;
   MSEHasGuidByte4; MSEHasTransportData; MSEHasGuidByte7; MSEHasTimestamp;
   MSEHasGuidByte0; MSEHasMovementFlags2; MSEHasGuidByte5; MSEHasCounter; MSEZeroBit;
   MSEHasGuidByte2; MSEForcesCount; MSEHasOrientation; MSEHasPitch; MSEHasSplineElevation;
   MSEHasGuidByte6; MSEHasGuidByte1; MSEZeroBit; MSEHasFallData; MSEHasGuidByte3;
   MSEHasTransportGuidByte1; MSEHasTransportGuidByte3; MSEHasTransportGuidByte5;
   MSEHasTransportGuidByte7; MSEHasTransportGuidByte6; MSEHasTransportTime2;
   MSEHasTransportGuidByte2; MSEHasTransportTime3; MSEHasTransportGuidByte4;
   MSEHasTransportGuidByte0; MSEHasFallDirection; MSEMovementFlags; MSEMovementFlags2;
   MSEGuidByte2; MSEGuidByte4; MSEGuidByte5; MSEGuidByte6; MSEGuidByte0; MSEForces;
   MSEGuidByte3; MSEGuidByte7; MSEGuidByte1; MSESplineElevation; MSETransportPositionZ;
   MSETransportGuidByte3; MSETransportGuidByte2; MSETransportTime3; MSETransportGuidByte5;
   MSETransportTime2; MSETransportGuidByte6; MSETransportTime; MSETransportGuidByte4;
   MSETransportSeat; MSETransportOrientation; MSETransportPositionY;
   MSETransportGuidByte1; MSETransportGuidByte7; MSETransportPositionX;
   MSETransportGuidByte0; MSEFallHorizontalSpeed; MSEFallSinAngle; MSEFallCosAngle;
   MSEFallTime; MSEFallVerticalSpeed; MSECounter; MSETimestamp; MSEOrientation; MSEPitch;
   MSEEnd].

Definition MovementStartBackward : list MovementStatusElements :=
  [MSEPositionY; MSEPositionZ; MSEPositionX; MSEHasTimestamp; MSEHasOrientation;
   MSEHasGuidByte7; MSEHasGuidByte2; MSEForcesCount; MSEHasFallData; MSEZeroBit;
   MSEHasGuidByte5; MSEHasGuidByte3; MSEHasGuidByte6; MSEHasSplineElevation;
   MSEHasGuidByte4; MSEHasTransportData; MSEHasGuidByte0; MSEHasMovementFlags;
   MSEHasPitch; MSEHasCounter; MSEHasMovementFlags2; MSEZeroBit; MSEHasGuidByte1;
   MSEZeroBit; MSEHasTransportGuidByte1; MSEHasTransportTime2; MSEHasTransportGuidByte0;
   MSEHasTransportGuidByte7; MSEHasTransportTime3; MSEHasTransportGuidByte3;
   MSEHasTransportGuidByte5; MSEHasTransportGuidByte6; MSEHasTransportGuidByte2;
   MSEHasTransportGuidByte4; MSEMovementFlags2; MSEMovementFlags; MSEHasFallDirection;
   MSEForces; MSEGuidByte1; MSEGuidByte3; MSEGuidByte5; MSEGuidByte2; MSEGuidByte0;
   MSEGuidByte4; MSEGuidByte7; MSEGuidByte6; MSECounter; MSETransportTime;
   MSETransportGuidByte4; MSETransportGuidByte1; MSETransportGuidByte5;
   MSETransportGuidByte3; MSETransportGuidByte6; MSETransportSeat;
   MSETransportOrientation; MSETransportPositionX; MSETransportGuidByte0;
   MSETransportPositionY; MSETransportTime3; MSETransportGuidByte7; MSETransportTime2;
   MSETransportPositionZ; MSETransportGuidByte2; MSEOrientation; MSEFallTime;
   MSEFallSinAngle; MSEFallCosAngle; MSEFallHorizontalSpeed; MSEFallVerticalSpeed;
   MSEPitch; MSETimestamp; MSESplineElevation; MSEEnd].

Definition MovementStartForward : list MovementStatusElements :=
  [MSEPositionZ; MSEPositionX; MSEPositionY; MSEHasMovementFlags2; MSEZeroBit;
   MSEHasCounter; MSEZeroBit; MSEHasGuidByte0; MSEHasOrientation; MSEHasFallData;
   MSEForcesCount; MSEHasGuidByte4; MSEHasGuidByte1; MSEHasTimestamp; MSEHasGuidByte7;
   MSEHasPitch; MSEHasTransportData; MSEHasGuidByte5; MSEHasMovementFlags;
   MSEHasGuidByte3; MSEHasSplineElevation; MSEHasGuidByte2; MSEHasGuidByte6; MSEZeroBit;
   MSEHasTransportGuidByte1; MSEHasTransportTime3; MSEHasTransportGuidByte3;
   MSEHasTransportGuidByte4; MSEHasTransportGuidByte2; MSEHasTransportGuidByte5;
   MSEHasTransportGuidByte0; MSEHasTransportGuidByte7; MSEHasTransportGuidByte6;
   MSEHasTransportTime2; MSEHasFallDirection; MSEMovementFlags2; MSEMovementFlags;
   MSEGuidByte1; MSEGuidByte6; MSEGuidByte7; MSEForces; MSEGuidByte5; MSEGuidByte0;
   MSEGuidByte3; MSEGuidByte2; MSEGuidByte4; MSETransportGuidByte3; MSETransportGuidByte1;
   MSETransportGuidByte6; MSETransportPositionZ; MSETransportGuidByte4; MSETransportTime3;
   MSETransportSeat; MSETransportGuidByte7; MSETransportOrientation; MSETransportTime2;
   MSETransportGuidByte5; MSETransportGuidByte2; MSETransportPositionX;
   MSETransportGuidByte0; MSETransportPositionY; MSETransportTime; MSEFallCosAngle;
   MSEFallSinAngle; MSEFallHorizontalSpeed; MSEFallTime; MSEFallVerticalSpeed;
   MSETimestamp; MSEPitch; MSESplineElevation; MSEOrientation; MSECounter; MSEEnd].

Definition MovementStartStrafeLeft : list MovementStatusElements :=
  [MSEPositionY; MSEPositionZ; MSEPositionX; MSEHasGuidByte0; MSEHasTimestamp;
   MSEHasGuidByte3; MSEHasMovementFlags2; MSEHasPitch; MSEZeroBit; MSEHasGuidByte2;
   MSEZeroBit; MSEHasTransportData; MSEHasFallData; MSEHasGuidByte5; MSEForcesCount;
   MSEZeroBit; MSEHasGuidByte4; MSEHasOrientation; MSEHasSplineElevation; MSEHasGuidByte7;
   MSEHasCounter; MSEHasGuidByte1; MSEHasGuidByte6; MSEHasMovementFlags;
   MSEHasTransportGuidByte0; MSEHasTransportGuidByte2; MSEHasTransportGuidByte1;
   MSEHasTransportGuidByte6; MSEHasTransportGuidByte7; MSEHasTransportGuidByte3;
   MSEHasTransportGuidByte5; MSEHasTransportTime3; MSEHasTransportTime2;
   MSEHasTransportGuidByte4; MSEMovementFlags; MSEHasFallDirection; MSEMovementFlags2;
   MSEGuidByte0; MSEGuidByte2; MSEForces; MSEGuidByte3; MSEGuidByte5; MSEGuidByte1;
   MSEGuidByte7; MSEGuidByte4; MSEGuidByte6; MSETransportGuidByte2; MSETransportPositionZ;
   MSETransportTime3; MSETransportGuidByte6; MSETransportGuidByte3;
   MSETransportOrientation; MSETransportGuidByte5; MSETransportTime2;
   MSETransportGuidByte1; MSETransportPositionY; MSETransportGuidByte4; MSETransportTime;
   MSETransportSeat; MSETransportPositionX; MSETransportGuidByte0; MSETransportGuidByte7;
   MSEPitch; MSETimestamp; MSEFallTime; MSEFallCosAngle; MSEFallHorizontalSpeed;
   MSEFallSinAngle; MSEFallVerticalSpeed; MSECounter; MSESplineElevation; MSEOrientation;
   MSEEnd].

Definition MovementStartStrafeRight : list MovementStatusElements :=
  [MSEPositionY; MSEPositionX; MSEPositionZ; MSEHasGuidByte0; MSEHasFallData;
   MSEForcesCount; MSEHasGuidByte7; MSEHasGuidByte6; MSEHasGuidByte4; MSEHasMovementFlags;
   MSEHasGuidByte5; MSEHasSplineElevation; MSEHasGuidByte3; MSEZeroBit;
   MSEHasTransportData; MSEHasCounter; MSEHasGuidByte1; MSEZeroBit; MSEHasGuidByte2;
   MSEHasPitch; MSEHasMovementFlags2; MSEHasOrientation; MSEZeroBit; MSEHasTimestamp;
   MSEHasFallDirection; MSEHasTransportGuidByte1; MSEHasTransportGuidByte6;
   MSEHasTransportGuidByte3; MSEHasTransportGuidByte5; MSEHasTransportGuidByte2;
   MSEHasTransportGuidByte0; MSEHasTransportGuidByte4; MSEHasTransportTime3;
   MSEHasTransportGuidByte7; MSEHasTransportTime2; MSEMovementFlags; MSEMovementFlags2;
   MSEGuidByte6; MSEGuidByte7; MSEGuidByte0; MSEGuidByte4; MSEGuidByte1; MSEForces;
   MSEGuidByte2; MSEGuidByte3; MSEGuidByte5; MSEPitch; MSETransportGuidByte1;
   MSETransportSeat; MSETransportGuidByte3; MSETransportTime2; MSETransportGuidByte7;
   MSETransportTime3; MSETransportGuidByte5; MSETransportGuidByte6; MSETransportGuidByte2;
   MSETransportGuidByte0; MSETransportTime; MSETransportOrientation;
   MSETransportPositionY; MSETransportPositionZ; MSETransportGuidByte4;
   MSETransportPositionX; MSETimestamp; MSEFallVerticalSpeed; MSEFallCosAngle;
   MSEFallHorizontalSpeed; MSEFallSinAngle; MSEFallTime; MSEOrientation; MSECounter;
   MSESplineElevation; MSEEnd].

Definition MovementStartTurnLeft : list MovementStatusElements :=
  [MSEPositionZ; MSEPositionX; MSEPositionY; MSEHasOrientation; MSEHasGuidByte4;
   MSEHasGuidByte5; MSEZeroBit; MSEHasTimestamp; MSEZeroBit; MSEZeroBit; MSEHasCounter;
   MSEHasGuidByte3; MSEHasGuidByte1; MSEHasMovementFlags2; MSEHasMovementFlags;
   MSEHasGuidByte0; MSEHasGuidByte2; MSEForcesCount; MSEHasTransportData; MSEHasGuidByte7;
   MSEHasPitch; MSEHasSplineElevation; MSEHasFallData; MSEHasGuidByte6;
   MSEHasTransportTime3; MSEHasTransportGuidByte5; MSEHasTransportGuidByte6;
   MSEHasTransportGuidByte2; MSEHasTransportGuidByte3; MSEHasTransportGuidByte4;
   MSEHasTransportGuidByte7; MSEHasTransportTime2; MSEHasTransportGuidByte0;
   MSEHasTransportGuidByte1; MSEMovementFlags; MSEMovementFlags2; MSEHasFallDirection;
   MSEGuidByte7; MSEGuidByte3; MSEGuidByte6; MSEGuidByte4; MSEGuidByte1; MSEForces;
   MSEGuidByte5; MSEGuidByte0; MSEGuidByte2; MSEFallTime; MSEFallHorizontalSpeed;
   MSEFallCosAngle; MSEFallSinAngle; MSEFallVerticalSpeed; MSEPitch;
   MSETransportPositionY; MSETransportGuidByte3; MSETransportPositionX;
   MSETransportOrientation; MSETransportGuidByte5; MSETransportTime2;
   MSETransportPositionZ; MSETransportGuidByte2; MSETransportGuidByte1;
   MSETransportGuidByte7; MSETransportGuidByte4; MSETransportGuidByte0; MSETransportTime3;
   MSETransportSeat; MSETransportGuidByte6; MSETransportTime; MSEOrientation;
   MSESplineElevation; MSECounter; MSETimestamp; MSEEnd].

Definition MovementStartTurnRight : list MovementStatusElements :=
  [MSEPositionX; MSEPositionZ; MSEPositionY; MSEZeroBit; MSEZeroBit; MSEHasGuidByte1;
   MSEHasGuidByte0; MSEHasMovementFlags; MSEHasFallData; MSEHasPitch; MSEHasCounter;
   MSEForcesCount; MSEHasSplineElevation; MSEHasMovementFlags2; MSEHasOrientation;
   MSEHasGuidByte2; MSEHasTimestamp; MSEHasGuidByte4; MSEHasGuidByte6; MSEHasGuidByte5;
   MSEHasGuidByte3; MSEZeroBit; MSEHasTransportData; MSEHasGuidByte7;
   MSEHasTransportGuidByte2; MSEHasTransportTime2; MSEHasTransportGuidByte6;
   MSEHasTransportGuidByte5; MSEHasTransportGuidByte3; MSEHasTransportGuidByte7;
   MSEHasTransportGuidByte4; MSEHasTransportTime3; MSEHasTransportGuidByte0;
   MSEHasTransportGuidByte1; MSEMovementFlags; MSEMovementFlags2; MSEHasFallDirection;
   MSEGuidByte5; MSEGuidByte1; MSEGuidByte3; MSEGuidByte0; MSEGuidByte4; MSEGuidByte2;
   MSEGuidByte6; MSEForces; MSEGuidByte7; MSEFallSinAngle; MSEFallHorizontalSpeed;
   MSEFallCosAngle; MSEFallVerticalSpeed; MSEFallTime; MSEPitch; MSETransportTime3;
   MSETransportGuidByte3; MSETransportTime2; MSETransportGuidByte7; MSETransportGuidByte1;
   MSETransportPositionX; MSETransportSeat; MSETransportGuidByte5; MSETransportGuidByte4;
   MSETransportGuidByte2; MSETransportGuidByte0; MSETransportPositionZ; MSETransportTime;
   MSETransportPositionY; MSETransportGuidByte6; MSETransportOrientation; MSEOrientation;
   MSETimestamp; MSESplineElevation; MSECounter; MSEEnd].

Definition MovementStop : list MovementStatusElements :=
  [MSEPositionX; MSEPositionY; MSEPositionZ; MSEHasGuidByte5; MSEHasGuidByte2;
   MSEHasFallData; MSEHasGuidByte0; MSEZeroBit; MSEZeroBit; MSEHasCounter;
   MSEHasGuidByte1; MSEForcesCount; MSEHasPitch; MSEHasGuidByte3; MSEHasGuidByte4;
   MSEHasTransportData; MSEZeroBit; MSEHasGuidByte6; MSEHasMovementFlags; MSEHasTimestamp;
   MSEHasMovementFlags2; MSEHasOrientation; MSEHasSplineElevation; MSEHasGuidByte7;
   MSEHasTransportTime2; MSEHasTransportGuidByte7; MSEHasTransportGuidByte4;
   MSEHasTransportGuidByte1; MSEHasTransportGuidByte0; MSEHasTransportGuidByte5;
   MSEHasTransportGuidByte2; MSEHasTransportGuidByte3; MSEHasTransportTime3;
   MSEHasTransportGuidByte6; MSEHasFallDirection; MSEMovementFlags2; MSEMovementFlags;
   MSEGuidByte0; MSEGuidByte3; MSEForces; MSEGuidByte6; MSEGuidByte1; MSEGuidByte4;
   MSEGuidByte2; MSEGuidByte5; MSEGuidByte7; MSEOrientation; MSEFallVerticalSpeed;
   MSEFallHorizontalSpeed; MSEFallSinAngle; MSEFallCosAngle; MSEFallTime;
   MSESplineElevation; MSETransportPositionX; MSETransportTime; MSETransportGuidByte3;
   MSETransportOrientation; MSETransportPositionY; MSETransportGuidByte2;
   MSETransportGuidByte6; MSETransportGuidByte7; MSETransportGuidByte1;
   MSETransportGuidByte4; MSETransportTime3; MSETransportGuidByte0; MSETransportSeat;
   MSETransportPositionZ; MSETransportGuidByte5; MSETransportTime2; MSECounter; MSEPitch;
   MSETimestamp; MSEEnd].

Definition MovementStopStrafe : list MovementStatusElements :=
  [MSEPositionZ; MSEPositionX; MSEPositionY; MSEHasFallData; MSEHasOrientation;
   MSEHasSplineElevation; MSEHasTimestamp; MSEHasMovementFlags; MSEHasCounter;
   MSEHasGuidByte6; MSEHasTransportData; MSEZeroBit; MSEHasMovementFlags2;
   MSEHasGuidByte4; MSEHasPitch; MSEHasGuidByte5; MSEHasGuidByte3; MSEHasGuidByte2;
   MSEForcesCount; MSEZeroBit; MSEHasGuidByte7; MSEHasGuidByte0; MSEZeroBit;
   MSEHasGuidByte1; MSEHasTransportGuidByte7; MSEHasTransportTime3;
   MSEHasTransportGuidByte3; MSEHasTransportGuidByte1; MSEHasTransportGuidByte6;
   MSEHasTransportTime2; MSEHasTransportGuidByte2; MSEHasTransportGuidByte5;
   MSEHasTransportGuidByte4; MSEHasTransportGuidByte0; MSEMovementFlags2;
   MSEHasFallDirection; MSEMovementFlags; MSEGuidByte5; MSEGuidByte3; MSEForces;
   MSEGuidByte2; MSEGuidByte0; MSEGuidByte1; MSEGuidByte6; MSEGuidByte4; MSEGuidByte7;
   MSETransportGuidByte0; MSETransportTime3; MSETransportGuidByte1; MSETransportGuidByte6;
   MSETransportTime; MSETransportPositionY; MSETransportPositionZ; MSETransportGuidByte4;
   MSETransportTime2; MSETransportGuidByte3; MSETransportSeat; MSETransportPositionX;
   MSETransportGuidByte2; MSETransportGuidByte7; MSETransportGuidByte5;
   MSETransportOrientation; MSEOrientation; MSESplineElevation; MSETimestamp;
   MSEFallCosAngle; MSEFallSinAngle; MSEFallHorizontalSpeed; MSEFallTime;
   MSEFallVerticalSpeed; MSEPitch; MSECounter; MSEEnd].

Definition MovementStopTurn : list MovementStatusElements :=
  [MSEPositionX; MSEPositionZ; MSEPositionY; MSEHasTransportData; MSEForcesCount;
   MSEZeroBit; MSEHasGuidByte4; MSEHasGuidByte5; MSEHasCounter; MSEHasGuidByte3;
   MSEZeroBit; MSEHasFallData; MSEHasGuidByte0; MSEHasGuidByte1; MSEHasPitch;
   MSEHasGuidByte6; MSEHasMovementFlags; MSEHasGuidByte2; MSEZeroBit;
   MSEHasMovementFlags2; MSEHasSplineElevation; MSEHasOrientation; MSEHasGuidByte7;
   MSEHasTimestamp; MSEMovementFlags2; MSEHasTransportGuidByte1; MSEHasTransportTime3;
   MSEHasTransportTime2; MSEHasTransportGuidByte3; MSEHasTransportGuidByte6;
   MSEHasTransportGuidByte2; MSEHasTransportGuidByte0; MSEHasTransportGuidByte5;
   MSEHasTransportGuidByte7; MSEHasTransportGuidByte4; MSEMovementFlags;
   MSEHasFallDirection; MSEGuidByte2; MSEGuidByte3; MSEGuidByte6; MSEForces; MSEGuidByte0;
   MSEGuidByte5; MSEGuidByte4; MSEGuidByte7; MSEGuidByte1; MSETransportTime;
   MSETransportTime3; MSETransportSeat; MSETransportPositionY; MSETransportPositionX;
   MSETransportTime2; MSETransportGuidByte4; MSETransportGuidByte3;
   MSETransportOrientation; MSETransportGuidByte0; MSETransportPositionZ;
   MSETransportGuidByte6; MSETransportGuidByte7; MSETransportGuidByte5;
   MSETransportGuidByte1; MSETransportGuidByte2; MSEOrientation; MSETimestamp;
   MSEFallSinAngle; MSEFallCosAngle; MSEFallHorizontalSpeed; MSEFallVerticalSpeed;
   MSEFallTime; MSECounter; MSESplineElevation; MSEPitch; MSEEnd].

Definition MovementStartAscend : list MovementStatusElements :=
  [MSEPositionY; MSEPositionX; MSEPositionZ; MSEHasOrientation; MSEHasGuidByte3;
   MSEHasTransportData; MSEHasMovementFlags; MSEZeroBit; MSEHasGuidByte0; MSEHasGuidByte4;
   MSEHasTimestamp; MSEHasGuidByte7; MSEZeroBit; MSEHasPitch; MSEHasGuidByte5;
   MSEHasMovementFlags2; MSEZeroBit; MSEHasGuidByte6; MSEHasGuidByte2; MSEHasCounter;
   MSEForcesCount; MSEHasGuidByte1; MSEHasSplineElevation; MSEHasFallData;
   MSEHasTransportGuidByte4; MSEHasTransportGuidByte0; MSEHasTransportGuidByte3;
   MSEHasTransportGuidByte5; MSEHasTransportTime2; MSEHasTransportGuidByte1;
   MSEHasTransportTime3; MSEHasTransportGuidByte6; MSEHasTransportGuidByte2;
   MSEHasTransportGuidByte7; MSEHasFallDirection; MSEMovementFlags2; MSEMovementFlags;
   MSEGuidByte2; MSEGuidByte5; MSEForces; MSEGuidByte1; MSEGuidByte0; MSEGuidByte4;
   MSEGuidByte7; MSEGuidByte6; MSEGuidByte3; MSEOrientation; MSETimestamp;
   MSETransportGuidByte3; MSETransportTime; MSETransportPositionY;
   MSETransportOrientation; MSETransportGuidByte6; MSETransportTime3;
   MSETransportPositionX; MSETransportGuidByte2; MSETransportTime2; MSETransportGuidByte1;
   MSETransportGuidByte7; MSETransportPositionZ; MSETransportSeat; MSETransportGuidByte0;
   MSETransportGuidByte4; MSETransportGuidByte5; MSESplineElevation; MSEFallVerticalSpeed;
   MSEFallSinAngle; MSEFallCosAngle; MSEFallHorizontalSpeed; MSEFallTime; MSEPitch;
   MSECounter; MSEEnd].

Definition MovementStartDescend : list MovementStatusElements :=
  [MSEPositionX; MSEPositionY; MSEPositionZ; MSEHasFallData; MSEHasMovementFlags;
   MSEHasGuidByte7; MSEHasGuidByte0; MSEHasGuidByte4; MSEHasMovementFlags2; MSEHasPitch;
   MSEHasGuidByte6; MSEHasGuidByte2; MSEZeroBit; MSEHasCounter; MSEForcesCount;
   MSEHasTransportData; MSEHasOrientation; MSEHasGuidByte1; MSEZeroBit; MSEZeroBit;
   MSEHasGuidByte3; MSEHasGuidByte5; MSEHasSplineElevation; MSEHasTimestamp;
   MSEHasTransportGuidByte0; MSEHasTransportTime3; MSEHasTransportGuidByte7;
   MSEHasTransportTime2; MSEHasTransportGuidByte1; MSEHasTransportGuidByte4;
   MSEHasTransportGuidByte5; MSEHasTransportGuidByte3; MSEHasTransportGuidByte6;
   MSEHasTransportGuidByte2; MSEMovementFlags2; MSEMovementFlags; MSEHasFallDirection;
   MSEGuidByte4; MSEGuidByte7; MSEGuidByte1; MSEGuidByte3; MSEForces; MSEGuidByte2;
   MSEGuidByte6; MSEGuidByte0; MSEGuidByte5; MSETransportPositionX; MSETransportGuidByte0;
   MSETransportGuidByte3; MSETransportGuidByte7; MSETransportSeat; MSETransportGuidByte5;
   MSETransportGuidByte1; MSETransportPositionY; MSETransportTime3; MSETransportTime;
   MSETransportGuidByte4; MSETransportTime2; MSETransportOrientation;
   MSETransportPositionZ; MSETransportGuidByte2; MSETransportGuidByte6; MSEFallTime;
   MSEFallCosAngle; MSEFallHorizontalSpeed; MSEFallSinAngle; MSEFallVerticalSpeed;
   MSEPitch; MSECounter; MSESplineElevation; MSEOrientation; MSETimestamp; MSEEnd].

Definition MovementStartSwim : list MovementStatusElements :=
  [MSEPositionX; MSEPositionY; MSEPositionZ; MSEHasSplineElevation; MSEHasTransportData;
   MSEHasGuidByte2; MSEZeroBit; MSEHasMovementFlags2; MSEForcesCount; MSEHasPitch;
   MSEHasTimestamp; MSEHasGuidByte3; MSEZeroBit; MSEHasGuidByte6; MSEHasGuidByte1;
   MSEHasFallData; MSEHasCounter; MSEZeroBit; MSEHasGuidByte7; MSEHasGuidByte0;
   MSEHasOrientation; MSEHasGuidByte5; MSEHasMovementFlags; MSEHasGuidByte4;
   MSEHasTransportTime2; MSEHasTransportGuidByte2; MSEHasTransportGuidByte7;
   MSEHasTransportGuidByte6; MSEHasTransportGuidByte5; MSEHasTransportGuidByte1;
   MSEHasTransportGuidByte4; MSEHasTransportTime3; MSEHasTransportGuidByte0;
   MSEHasTransportGuidByte3; MSEMovementFlags; MSEHasFallDirection; MSEMovementFlags2;
   MSEGuidByte5; MSEGuidByte0; MSEForces; MSEGuidByte7; MSEGuidByte3; MSEGuidByte4;
   MSEGuidByte1; MSEGuidByte6; MSEGuidByte2; MSETransportGuidByte3; MSETransportPositionX;
   MSETransportGuidByte7; MSETransportGuidByte0; MSETransportPositionY; MSETransportSeat;
   MSETransportTime2; MSETransportGuidByte6; MSETransportGuidByte4; MSETransportGuidByte1;
   MSETransportGuidByte2; MSETransportPositionZ; MSETransportTime;
   MSETransportOrientation; MSETransportTime3; MSETransportGuidByte5; MSEFallCosAngle;
   MSEFallSinAngle; MSEFallHorizontalSpeed; MSEFallTime; MSEFallVerticalSpeed;
   MSETimestamp; MSESplineElevation; MSEOrientation; MSECounter; MSEPitch; MSEEnd].

Definition MovementStopSwim : list MovementStatusElements :=
  [MSEPositionX; MSEPositionZ; MSEPositionY; MSEHasPitch; MSEHasGuidByte6;
   MSEHasOrientation; MSEZeroBit; MSEZeroBit; MSEZeroBit; MSEHasCounter; MSEHasGuidByte4;
   MSEHasMovementFlags2; MSEHasTransportData; MSEHasFallData; MSEHasGuidByte1;
   MSEForcesCount; MSEHasMovementFlags; MSEHasGuidByte7; MSEHasGuidByte0; MSEHasTimestamp;
   MSEHasGuidByte3; MSEHasGuidByte5; MSEHasSplineElevation; MSEHasGuidByte2;
   MSEHasTransportGuidByte1; MSEHasTransportTime2; MSEHasTransportGuidByte5;
   MSEHasTransportGuidByte2; MSEHasTransportGuidByte4; MSEHasTransportGuidByte6;
   MSEHasTransportGuidByte7; MSEHasTransportGuidByte3; MSEHasTransportTime3;
   MSEHasTransportGuidByte0; MSEHasFallDirection; MSEMovementFlags; MSEMovementFlags2;
   MSEGuidByte7; MSEGuidByte6; MSEGuidByte1; MSEGuidByte5; MSEGuidByte4; MSEGuidByte3;
   MSEForces; MSEGuidByte0; MSEGuidByte2; MSETransportTime; MSETransportGuidByte1;
   MSETransportGuidByte2; MSETransportPositionZ; MSETransportPositionX;
   MSETransportPositionY; MSETransportGuidByte0; MSETransportGuidByte6;
   MSETransportGuidByte3; MSETransportSeat; MSETransportOrientation;
   MSETransportGuidByte7; MSETransportGuidByte4; MSETransportGuidByte5; MSETransportTime2;
   MSETransportTime3; MSEFallCosAngle; MSEFallHorizontalSpeed; MSEFallSinAngle;
   MSEFallVerticalSpeed; MSEFallTime; MSESplineElevation; MSEPitch; MSETimestamp;
   MSECounter; MSEOrientation; MSEEnd].

Definition MovementStopAscend : list MovementStatusElements :=
  [MSEPositionZ; MSEPositionX; MSEPositionY; MSEHasOrientation; MSEHasGuidByte0;
   MSEHasGuidByte3; MSEHasGuidByte7; MSEHasGuidByte2; MSEHasGuidByte6;
   MSEHasMovementFlags2; MSEHasTimestamp; MSEHasCounter; MSEHasTransportData; MSEHasPitch;
   MSEZeroBit; MSEZeroBit; MSEHasGuidByte4; MSEZeroBit; MSEHasGuidByte5; MSEForcesCount;
   MSEHasFallData; MSEHasMovementFlags; MSEHasGuidByte1; MSEHasSplineElevation;
   MSEHasTransportTime2; MSEHasTransportGuidByte0; MSEHasTransportGuidByte5;
   MSEHasTransportGuidByte4; MSEHasTransportGuidByte6; MSEHasTransportGuidByte2;
   MSEHasTransportGuidByte1; MSEHasTransportTime3; MSEHasTransportGuidByte3;
   MSEHasTransportGuidByte7; MSEMovementFlags2; MSEMovementFlags; MSEHasFallDirection;
   MSEGuidByte0; MSEForces; MSEGuidByte4; MSEGuidByte5; MSEGuidByte1; MSEGuidByte7;
   MSEGuidByte6; MSEGuidByte3; MSEGuidByte2; MSETransportGuidByte5; MSETransportPositionY;
   MSETransportGuidByte4; MSETransportGuidByte7; MSETransportGuidByte1;
   MSETransportGuidByte3; MSETransportTime2; MSETransportPositionX;
   MSETransportOrientation; MSETransportGuidByte0; MSETransportGuidByte2;
   MSETransportPositionZ; MSETransportTime3; MSETransportTime; MSETransportSeat;
   MSETransportGuidByte6; MSEFallCosAngle; MSEFallHorizontalSpeed; MSEFallSinAngle;
   MSEFallTime; MSEFallVerticalSpeed; MSETimestamp; MSESplineElevation; MSEPitch;
   MSECounter; MSEOrientation; MSEEnd].

Definition MovementStopPitch : list MovementStatusElements :=
  [MSEPositionY; MSEPositionX; MSEPositionZ; MSEHasFallData; MSEHasSplineElevation;
   MSEHasGuidByte0; MSEHasTimestamp; MSEZeroBit; MSEHasGuidByte2; MSEForcesCount;
   MSEHasOrientation; MSEHasMovementFlags; MSEHasPitch; MSEHasGuidByte3; MSEHasGuidByte7;
   MSEHasGuidByte5; MSEHasMovementFlags2; MSEZeroBit; MSEHasCounter; MSEHasTransportData;
   MSEHasGuidByte6; MSEHasGuidByte4; MSEZeroBit; MSEHasGuidByte1;
   MSEHasTransportGuidByte4; MSEHasTransportGuidByte5; MSEHasTransportTime3;
   MSEHasTransportGuidByte6; MSEHasTransportGuidByte3; MSEHasTransportGuidByte0;
   MSEHasTransportGuidByte7; MSEHasTransportGuidByte1; MSEHasTransportTime2;
   MSEHasTransportGuidByte2; MSEMovementFlags2; MSEMovementFlags; MSEHasFallDirection;
   MSEGuidByte0; MSEGuidByte6; MSEGuidByte7; MSEGuidByte1; MSEForces; MSEGuidByte5;
   MSEGuidByte3; MSEGuidByte4; MSEGuidByte2; MSEFallSinAngle; MSEFallHorizontalSpeed;
   MSEFallCosAngle; MSEFallTime; MSEFallVerticalSpeed; MSETransportGuidByte1;
   MSETransportPositionX; MSETransportPositionZ; MSETransportPositionY;
   MSETransportGuidByte5; MSETransportGuidByte0; MSETransportTime2; MSETransportGuidByte6;
   MSETransportGuidByte2; MSETransportGuidByte3; MSETransportSeat; MSETransportTime3;
   MSETransportTime; MSETransportGuidByte4; MSETransportGuidByte7;
   MSETransportOrientation; MSEPitch; MSETimestamp; MSESplineElevation; MSEOrientation;
   MSECounter; MSEEnd].

Definition MovementStartPitchDown : list MovementStatusElements :=
  [MSEPositionZ; MSEPositionY; MSEPositionX; MSEHasGuidByte2; MSEHasGuidByte7;
   MSEHasGuidByte3; MSEHasOrientation; MSEHasGuidByte5; MSEZeroBit; MSEHasCounter;
   MSEZeroBit; MSEHasMovementFlags; MSEHasGuidByte4; MSEHasGuidByte1;
   MSEHasSplineElevation; MSEHasFallData; MSEZeroBit; MSEHasTransportData;
   MSEHasTimestamp; MSEHasMovementFlags2; MSEForcesCount; MSEHasGuidByte6;
   MSEHasGuidByte0; MSEHasPitch; MSEHasTransportTime2; MSEHasTransportGuidByte2;
   MSEHasTransportGuidByte6; MSEHasTransportGuidByte3; MSEHasTransportGuidByte7;
   MSEHasTransportGuidByte5; MSEHasTransportGuidByte4; MSEHasTransportTime3;
   MSEHasTransportGuidByte1; MSEHasTransportGuidByte0; MSEMovementFlags;
   MSEMovementFlags2; MSEHasFallDirection; MSEGuidByte6; MSEGuidByte3; MSEGuidByte5;
   MSEGuidByte0; MSEGuidByte4; MSEForces; MSEGuidByte7; MSEGuidByte2; MSEGuidByte1;
   MSEFallHorizontalSpeed; MSEFallCosAngle; MSEFallSinAngle; MSEFallTime;
   MSEFallVerticalSpeed; MSETransportOrientation; MSETransportGuidByte4;
   MSETransportGuidByte7; MSETransportPositionZ; MSETransportGuidByte0; MSETransportTime;
   MSETransportGuidByte6; MSETransportGuidByte1; MSETransportSeat; MSETransportGuidByte2;
   MSETransportGuidByte5; MSETransportPositionX; MSETransportTime3; MSETransportPositionY;
   MSETransportGuidByte3; MSETransportTime2; MSEOrientation; MSETimestamp;
   MSESplineElevation; MSECounter; MSEPitch; MSEEnd].

Definition MovementStartPitchUp : list MovementStatusElements :=
  [MSEPositionY; MSEPositionZ; MSEPositionX; MSEHasGuidByte0; MSEHasPitch;
   MSEHasGuidByte3; MSEZeroBit; MSEHasOrientation; MSEHasGuidByte5; MSEZeroBit;
   MSEHasGuidByte2; MSEHasGuidByte7; MSEHasGuidByte1; MSEHasFallData;
   MSEHasMovementFlags2; MSEHasTransportData; MSEHasCounter; MSEHasMovementFlags;
   MSEHasGuidByte6; MSEForcesCount; MSEHasTimestamp; MSEHasGuidByte4; MSEZeroBit;
   MSEHasSplineElevation; MSEHasTransportGuidByte5; MSEHasTransportGuidByte1;
   MSEHasTransportTime2; MSEHasTransportGuidByte4; MSEHasTransportGuidByte2;
   MSEHasTransportGuidByte6; MSEHasTransportGuidByte0; MSEHasTransportTime3;
   MSEHasTransportGuidByte7; MSEHasTransportGuidByte3; MSEMovementFlags2;
   MSEMovementFlags; MSEHasFallDirection; MSEGuidByte6; MSEForces; MSEGuidByte0;
   MSEGuidByte5; MSEGuidByte7; MSEGuidByte1; MSEGuidByte3; MSEGuidByte4; MSEGuidByte2;
   MSETransportSeat; MSETransportGuidByte3; MSETransportTime3; MSETransportGuidByte2;
   MSETransportGuidByte7; MSETransportGuidByte0; MSETransportPositionY;
   MSETransportGuidByte4; MSETransportGuidByte5; MSETransportTime2; MSETransportGuidByte1;
   MSETransportPositionX; MSETransportOrientation; MSETransportGuidByte6;
   MSETransportTime; MSETransportPositionZ; MSEPitch; MSEOrientation; MSESplineElevation;
   MSEFallVerticalSpeed; MSEFallHorizontalSpeed; MSEFallSinAngle; MSEFallCosAngle;
   MSEFallTime; MSECounter; MSETimestamp; MSEEnd].

Definition MoveChngTransport : list MovementStatusElements :=
  [MSEPositionX; MSEPositionY; MSEPositionZ; MSEHasGuidByte1; MSEHasPitch;
   MSEHasSplineElevation; MSEHasGuidByte4; MSEHasCounter; MSEHasGuidByte5; MSEForcesCount;
   MSEZeroBit; MSEHasGuidByte6; MSEZeroBit; MSEHasGuidByte7; MSEHasGuidByte0;
   MSEHasTransportData; MSEHasMovementFlags; MSEZeroBit; MSEHasMovementFlags2;
   MSEHasGuidByte2; MSEHasGuidByte3; MSEHasTimestamp; MSEHasFallData; MSEHasOrientation;
   MSEHasTransportTime3; MSEHasTransportGuidByte5; MSEHasTransportGuidByte6;
   MSEHasTransportGuidByte3; MSEHasTransportGuidByte2; MSEHasTransportGuidByte4;
   MSEHasTransportTime2; MSEHasTransportGuidByte1; MSEHasTransportGuidByte7;
   MSEHasTransportGuidByte0; MSEMovementFlags; MSEHasFallDirection; MSEMovementFlags2;
   MSEGuidByte5; MSEGuidByte2; MSEForces; MSEGuidByte6; MSEGuidByte3; MSEGuidByte0;
   MSEGuidByte4; MSEGuidByte7; MSEGuidByte1; MSEFallVerticalSpeed; MSEFallSinAngle;
   MSEFallHorizontalSpeed; MSEFallCosAngle; MSEFallTime; MSETransportGuidByte6;
   MSETransportPositionZ; MSETransportGuidByte5; MSETransportGuidByte4; MSETransportTime3;
   MSETransportGuidByte3; MSETransportTime; MSETransportGuidByte2; MSETransportTime2;
   MSETransportGuidByte0; MSETransportPositionY; MSETransportGuidByte1; MSETransportSeat;
   MSETransportOrientation; MSETransportGuidByte7; MSETransportPositionX; MSEOrientation;
   MSESplineElevation; MSECounter; MSEPitch; MSETimestamp; MSEEnd].

Definition MoveSplineDone : list MovementStatusElements :=
  [MSECounter; MSEPositionZ; MSEPositionY; MSEPositionX; MSEHasGuidByte7;
   MSEHasMovementFlags2; MSEHasSplineElevation; MSEHasMovementFlags; MSEHasGuidByte3;
   MSEZeroBit; MSEHasGuidByte0; MSEHasPitch; MSEZeroBit; MSEHasGuidByte1; MSEZeroBit;
   MSEHasGuidByte2; MSEHasCounter; MSEHasGuidByte4; MSEHasTransportData; MSEHasGuidByte6;
   MSEHasGuidByte5; MSEForcesCount; MSEHasOrientation; MSEHasTimestamp; MSEHasFallData;
   MSEHasTransportGuidByte2; MSEHasTransportTime3; MSEHasTransportTime2;
   MSEHasTransportGuidByte1; MSEHasTransportGuidByte4; MSEHasTransportGuidByte3;
   MSEHasTransportGuidByte7; MSEHasTransportGuidByte5; MSEHasTransportGuidByte0;
   MSEHasTransportGuidByte6; MSEMovementFlags2; MSEMovementFlags; MSEHasFallDirection;
   MSEGuidByte6; MSEForces; MSEGuidByte1; MSEGuidByte5; MSEGuidByte0; MSEGuidByte7;
   MSEGuidByte4; MSEGuidByte2; MSEGuidByte3; MSESplineElevation; MSETransportGuidByte3;
   MSETransportOrientation; MSETransportGuidByte2; MSETransportGuidByte5;
   MSETransportGuidByte1; MSETransportPositionX; MSETransportGuidByte6; MSETransportSeat;
   MSETransportTime3; MSETransportGuidByte4; MSETransportGuidByte7; MSETransportGuidByte0;
   MSETransportPositionY; MSETransportTime2; MSETransportPositionZ; MSETransportTime;
   MSEFallSinAngle; MSEFallCosAngle; MSEFallHorizontalSpeed; MSEFallVerticalSpeed;
   MSEFallTime; MSECounter; MSEOrientation; MSETimestamp; MSEPitch; MSEEnd].

Definition MoveNotActiveMover : list MovementStatusElements :=
  [MSEPositionZ; MSEPositionX; MSEPositionY; MSEHasMovementFlags2; MSEHasTransportData;
   MSEHasGuidByte6; MSEHasSplineElevation; MSEHasGuidByte3; MSEZeroBit; MSEHasTimestamp;
   MSEHasGuidByte0; MSEHasOrientation; MSEHasGuidByte5; MSEHasPitch; MSEHasGuidByte1;
   MSEHasGuidByte4; MSEHasGuidByte7; MSEHasSpline; MSEHasGuidByte2; MSEHasFallData;
   MSEHasMovementFlags; MSEHasTransportGuidByte4; MSEHasTransportGuidByte0;
   MSEHasTransportGuidByte1; MSEHasTransportGuidByte6; MSEHasTransportGuidByte2;
   MSEHasTransportTime3; MSEHasTransportGuidByte5; MSEHasTransportGuidByte7;
   MSEHasTransportTime2; MSEHasTransportGuidByte3; MSEHasFallDirection; MSEMovementFlags;
   MSEMovementFlags2; MSEGuidByte1; MSEGuidByte0; MSEGuidByte4; MSEGuidByte2;
   MSEGuidByte7; MSEGuidByte5; MSEGuidByte6; MSEGuidByte3; MSEFallVerticalSpeed;
   MSEFallSinAngle; MSEFallCosAngle; MSEFallHorizontalSpeed; MSEFallTime;
   MSETransportTime3; MSETransportGuidByte1; MSETransportTime2; MSETransportOrientation;
   MSETransportGuidByte0; MSETransportSeat; MSETransportGuidByte4; MSETransportGuidByte6;
   MSETransportGuidByte3; MSETransportGuidByte5; MSETransportPositionY;
   MSETransportPositionX; MSETransportGuidByte2; MSETransportPositionZ;
   MSETransportGuidByte7; MSETransportTime; MSETimestamp; MSESplineElevation; MSEPitch;
   MSEOrientation; MSEEnd].

Definition DismissControlledVehicle : list MovementStatusElements :=
  [MSEPositionY; MSEPositionZ; MSEPositionX; MSEHasSplineElevation; MSEHasFallData;
   MSEHasTransportData; MSEHasGuidByte4; MSEHasGuidByte7; MSEHasMovementFlags2;
   MSEHasGuidByte2; MSEHasOrientation; MSEHasGuidByte0; MSEHasGuidByte6; MSEHasPitch;
   MSEHasTimestamp; MSEHasGuidByte1; MSEZeroBit; MSEHasSpline; MSEHasGuidByte3;
   MSEHasMovementFlags; MSEHasGuidByte5; MSEHasTransportGuidByte5; MSEHasTransportTime3;
   MSEHasTransportGuidByte2; MSEHasTransportGuidByte0; MSEHasTransportGuidByte7;
   MSEHasTransportGuidByte3; MSEHasTransportGuidByte4; MSEHasTransportGuidByte1;
   MSEHasTransportGuidByte6; MSEHasTransportTime2; MSEMovementFlags2; MSEHasFallDirection;
   MSEMovementFlags; MSEGuidByte6; MSEGuidByte3; MSEGuidByte1; MSEGuidByte5; MSEGuidByte2;
   MSEGuidByte4; MSEGuidByte7; MSEGuidByte0; MSETimestamp; MSETransportTime3;
   MSETransportGuidByte4; MSETransportGuidByte7; MSETransportTime2; MSETransportGuidByte6;
   MSETransportTime; MSETransportPositionZ; MSETransportGuidByte0; MSETransportPositionX;
   MSETransportGuidByte3; MSETransportSeat; MSETransportPositionY;
   MSETransportOrientation; MSETransportGuidByte1; MSETransportGuidByte5;
   MSETransportGuidByte2; MSEFallTime; MSEFallHorizontalSpeed; MSEFallCosAngle;
   MSEFallSinAngle; MSEFallVerticalSpeed; MSEOrientation; MSESplineElevation; MSEPitch;
   MSEEnd].

Definition MoveUpdateTeleport : list MovementStatusElements :=
  [MSEPositionZ; MSEPositionY; MSEPositionX; MSEHasOrientation; MSEHasSpline;
   MSEHasMovementFlags; MSEHasGuidByte2; MSEHasGuidByte4; MSEHasGuidByte6; MSEHasFallData;
   MSEHasGuidByte0; MSEHasTransportData; MSEHasGuidByte5; MSEHasTransportGuidByte1;
   MSEHasTransportGuidByte4; MSEHasTransportGuidByte5; MSEHasTransportGuidByte3;
   MSEHasTransportGuidByte0; MSEHasTransportTime2; MSEHasTransportGuidByte7;
   MSEHasTransportGuidByte6; MSEHasTransportTime3; MSEHasTransportGuidByte2; MSEZeroBit;
   MSEHasGuidByte7; MSEHasGuidByte3; MSEHasPitch; MSEHasMovementFlags2; MSEHasTimestamp;
   MSEHasFallDirection; MSEMovementFlags2; MSEHasSplineElevation; MSEMovementFlags;
   MSEHasGuidByte1; MSEGuidByte7; MSETransportGuidByte3; MSETransportGuidByte4;
   MSETransportOrientation; MSETransportTime3; MSETransportGuidByte1; MSETransportTime2;
   MSETransportPositionZ; MSETransportGuidByte7; MSETransportGuidByte0;
   MSETransportGuidByte6; MSETransportGuidByte5; MSETransportGuidByte2; MSETransportSeat;
   MSETransportTime; MSETransportPositionY; MSETransportPositionX; MSEGuidByte6; MSEPitch;
   MSESplineElevation; MSEOrientation; MSEGuidByte2; MSEGuidByte3; MSEGuidByte1;
   MSEFallTime; MSEFallHorizontalSpeed; MSEFallCosAngle; MSEFallSinAngle;
   MSEFallVerticalSpeed; MSEGuidByte5; MSEGuidByte4; MSETimestamp; MSEGuidByte0; MSEEnd].

Definition MovementSetRunMode : list MovementStatusElements :=
  [MSEPositionY; MSEPositionX; MSEPositionZ; MSEHasGuidByte1; MSEHasMovementFlags2;
   MSEHasGuidByte2; MSEZeroBit; MSEHasTransportData; MSEZeroBit; MSEHasGuidByte5;
   MSEHasGuidByte6; MSEHasMovementFlags; MSEHasGuidByte7; MSEHasGuidByte0;
   MSEHasTimestamp; MSEForcesCount; MSEHasPitch; MSEHasCounter; MSEZeroBit;
   MSEHasOrientation; MSEHasFallData; MSEHasGuidByte3; MSEHasSplineElevation;
   MSEHasGuidByte4; MSEHasTransportGuidByte7; MSEHasTransportGuidByte1;
   MSEHasTransportGuidByte4; MSEHasTransportGuidByte5; MSEHasTransportGuidByte6;
   MSEHasTransportTime3; MSEHasTransportGuidByte2; MSEHasTransportGuidByte3;
   MSEHasTransportGuidByte0; MSEHasTransportTime2; MSEMovementFlags; MSEMovementFlags2;
   MSEHasFallDirection; MSEGuidByte1; MSEGuidByte2; MSEGuidByte3; MSEGuidByte5;
   MSEGuidByte7; MSEGuidByte6; MSEForces; MSEGuidByte4; MSEGuidByte0; MSEPitch;
   MSETimestamp; MSETransportGuidByte3; MSETransportGuidByte7; MSETransportGuidByte5;
   MSETransportOrientation; MSETransportGuidByte2; MSETransportPositionY;
   MSETransportPositionX; MSETransportGuidByte1; MSETransportTime; MSETransportTime3;
   MSETransportPositionZ; MSETransportTime2; MSETransportSeat; MSETransportGuidByte0;
   MSETransportGuidByte4; MSETransportGuidByte6; MSEFallSinAngle; MSEFallHorizontalSpeed;
   MSEFallCosAngle; MSEFallVerticalSpeed; MSEFallTime; MSECounter; MSEOrientation;
   MSESplineElevation; MSEEnd].

Definition MovementSetWalkMode : list MovementStatusElements :=
  [MSEPositionZ; MSEPositionY; MSEPositionX; MSEHasTimestamp; MSEHasGuidByte5;
   MSEHasMovementFlags; MSEZeroBit; MSEHasGuidByte0; MSEZeroBit; MSEHasPitch;
   MSEHasTransportData; MSEForcesCount; MSEHasGuidByte4; MSEHasGuidByte7; MSEHasGuidByte3;
   MSEHasOrientation; MSEHasGuidByte1; MSEHasCounter; MSEHasGuidByte6;
   MSEHasSplineElevation; MSEZeroBit; MSEHasMovementFlags2; MSEHasGuidByte2;
   MSEHasFallData; MSEHasTransportGuidByte4; MSEHasTransportGuidByte0;
   MSEHasTransportGuidByte7; MSEHasTransportGuidByte5; MSEHasTransportGuidByte1;
   MSEHasTransportGuidByte3; MSEHasTransportGuidByte6; MSEHasTransportTime2;
   MSEHasTransportGuidByte2; MSEHasTransportTime3; MSEHasFallDirection; MSEMovementFlags;
   MSEMovementFlags2; MSEGuidByte0; MSEGuidByte5; MSEGuidByte3; MSEGuidByte2;
   MSEGuidByte1; MSEGuidByte4; MSEForces; MSEGuidByte6; MSEGuidByte7;
   MSEFallVerticalSpeed; MSEFallHorizontalSpeed; MSEFallCosAngle; MSEFallSinAngle;
   MSEFallTime; MSEPitch; MSETransportGuidByte0; MSETransportGuidByte5;
   MSETransportGuidByte7; MSETransportPositionZ; MSETransportGuidByte2;
   MSETransportGuidByte4; MSETransportPositionX; MSETransportGuidByte1; MSETransportTime3;
   MSETransportSeat; MSETransportPositionY; MSETransportGuidByte6; MSETransportTime;
   MSETransportGuidByte3; MSETransportTime2; MSETransportOrientation; MSESplineElevation;
   MSETimestamp; MSEOrientation; MSECounter; MSEEnd].

Definition MovementSetCanFly : list MovementStatusElements :=
  [MSEPositionY; MSEPositionX; MSEPositionZ; MSEHasFallData; MSEHasGuidByte0;
   MSEHasMovementFlags2; MSEHasGuidByte6; MSEHasMovementFlags; MSEZeroBit;
   MSEHasGuidByte2; MSEHasOrientation; MSEHasCounter; MSEHasSplineElevation;
   MSEHasTransportData; MSEHasGuidByte1; MSEHasGuidByte5; MSEHasPitch; MSEZeroBit;
   MSEHasGuidByte4; MSEHasTimestamp; MSEForcesCount; MSEZeroBit; MSEHasGuidByte7;
   MSEHasGuidByte3; MSEHasTransportGuidByte2; MSEHasTransportTime3;
   MSEHasTransportGuidByte7; MSEHasTransportGuidByte5; MSEHasTransportGuidByte3;
   MSEHasTransportGuidByte1; MSEHasTransportGuidByte4; MSEHasTransportGuidByte0;
   MSEHasTransportGuidByte6; MSEHasTransportTime2; MSEHasFallDirection; MSEMovementFlags;
   MSEMovementFlags2; MSEForces; MSEGuidByte4; MSEGuidByte2; MSEGuidByte6; MSEGuidByte3;
   MSEGuidByte0; MSEGuidByte7; MSEGuidByte1; MSEGuidByte5; MSECounter;
   MSETransportGuidByte7; MSETransportGuidByte4; MSETransportTime; MSETransportGuidByte3;
   MSETransportGuidByte6; MSETransportOrientation; MSETransportGuidByte0;
   MSETransportPositionZ; MSETransportPositionX; MSETransportSeat; MSETransportPositionY;
   MSETransportTime2; MSETransportGuidByte1; MSETransportGuidByte5; MSETransportGuidByte2;
   MSETransportTime3; MSEFallCosAngle; MSEFallHorizontalSpeed; MSEFallSinAngle;
   MSEFallTime; MSEFallVerticalSpeed; MSESplineElevation; MSEOrientation; MSETimestamp;
   MSEPitch; MSEEnd].

Definition MovementSetCanTransitionBetweenSwimAndFlyAck : list MovementStatusElements :=
  [MSEPositionZ; MSEPositionY; MSECounter; MSEPositionX; MSEHasGuidByte3;
   MSEHasOrientation; MSEHasTransportData; MSEHasMovementFlags; MSEHasMovementFlags2;
   MSEHasSplineElevation; MSEHasTimestamp; MSEHasSpline; MSEZeroBit; MSEHasFallData;
   MSEHasGuidByte5; MSEHasGuidByte0; MSEHasGuidByte1; MSEHasGuidByte4; MSEHasGuidByte6;
   MSEHasGuidByte2; MSEHasPitch; MSEHasGuidByte7; MSEHasTransportGuidByte4;
   MSEHasTransportGuidByte2; MSEHasTransportTime2; MSEHasTransportGuidByte0;
   MSEHasTransportGuidByte3; MSEHasTransportGuidByte6; MSEHasTransportGuidByte5;
   MSEHasTransportTime3; MSEHasTransportGuidByte7; MSEHasTransportGuidByte1;
   MSEMovementFlags2; MSEHasFallDirection; MSEMovementFlags; MSEGuidByte3; MSEGuidByte2;
   MSEGuidByte0; MSEGuidByte4; MSEGuidByte1; MSEGuidByte5; MSEGuidByte7; MSEGuidByte6;
   MSEFallTime; MSEFallHorizontalSpeed; MSEFallCosAngle; MSEFallSinAngle;
   MSEFallVerticalSpeed; MSETransportPositionY; MSETransportPositionZ;
   MSETransportGuidByte5; MSETransportGuidByte1; MSETransportGuidByte4; MSETransportTime;
   MSETransportSeat; MSETransportGuidByte3; MSETransportGuidByte0; MSETransportGuidByte2;
   MSETransportGuidByte7; MSETransportPositionX; MSETransportTime2; MSETransportGuidByte6;
   MSETransportOrientation; MSETransportTime3; MSEPitch; MSEOrientation; MSETimestamp;
   MSESplineElevation; MSEEnd].

Definition MovementUpdateSwimSpeed : list MovementStatusElements :=
  [MSEHasMovementFlags; MSEHasGuidByte2; MSEMovementFlags; MSEHasGuidByte3; MSEZeroBit;
   MSEHasGuidByte7; MSEHasFallDirection; MSEHasTransportGuidByte4;
   MSEHasTransportGuidByte5; MSEHasTransportGuidByte3; MSEHasTransportGuidByte2;
   MSEHasTransportGuidByte0; MSEHasTransportGuidByte1; MSEHasTransportGuidByte6;
   MSEHasTransportGuidByte7; MSEHasGuidByte6; MSEHasGuidByte0; MSEHasGuidByte4;
   MSEHasGuidByte5; MSEHasOrientation; MSEHasGuidByte1; MSETransportGuidByte2;
   MSETransportPositionX; MSETransportGuidByte6; MSETransportOrientation;
   MSETransportGuidByte0; MSETransportGuidByte4; MSETransportPositionY; MSETransportTime;
   MSETransportGuidByte1; MSETransportGuidByte7; MSETransportPositionZ; MSETransportSeat;
   MSETransportGuidByte3; MSETransportGuidByte5; MSEPositionX; MSEFallSinAngle;
   MSEFallHorizontalSpeed; MSEFallCosAngle; MSEFallTime; MSEFallVerticalSpeed;
   MSEGuidByte7; MSETimestamp; MSEPositionY; MSEPositionZ; MSEExtraElement; MSEGuidByte4;
   MSEOrientation; MSEGuidByte2; MSEGuidByte3; MSEGuidByte0; MSEGuidByte6; MSEGuidByte1;
   MSEGuidByte5; MSEPitch; MSEEnd].

Definition MovementUpdateRunSpeed : list MovementStatusElements :=
  [MSEPositionZ; MSEPositionX; MSEPositionY; MSEExtraElement; MSEHasGuidByte6;
   MSEHasMovementFlags2; MSEHasPitch; MSEHasGuidByte2; MSEHasGuidByte5;
   MSEHasSplineElevation; MSEHasSpline; MSEHasMovementFlags; MSEHasTimestamp;
   MSEHasGuidByte1; MSEMovementFlags2; MSEHasGuidByte3; MSEMovementFlags; MSEHasGuidByte7;
   MSEHasGuidByte0; MSEHasOrientation; MSEHasTransportData; MSEHasTransportGuidByte5;
   MSEHasTransportTime2; MSEHasTransportTime3; MSEHasTransportGuidByte7;
   MSEHasTransportGuidByte4; MSEHasTransportGuidByte2; MSEHasTransportGuidByte3;
   MSEHasTransportGuidByte6; MSEHasTransportGuidByte1; MSEHasTransportGuidByte0;
   MSEHasFallData; MSEHasFallDirection; MSEHasGuidByte4; MSEZeroBit;
   MSETransportGuidByte4; MSETransportGuidByte5; MSETransportPositionX;
   MSETransportOrientation; MSETransportGuidByte1; MSETransportGuidByte0;
   MSETransportGuidByte6; MSETransportTime; MSETransportGuidByte7; MSETransportSeat;
   MSETransportTime2; MSETransportPositionY; MSETransportGuidByte3; MSETransportGuidByte2;
   MSETransportTime3; MSETransportPositionZ; MSETimestamp; MSEFallCosAngle;
   MSEFallHorizontalSpeed; MSEFallSinAngle; MSEFallVerticalSpeed; MSEFallTime; MSEPitch;
   MSEGuidByte6; MSESplineElevation; MSEGuidByte5; MSEGuidByte7; MSEGuidByte4;
   MSEOrientation; MSEGuidByte0; MSEGuidByte3; MSEGuidByte2; MSEGuidByte1; MSEEnd].

Definition MovementUpdateFlightSpeed : list MovementStatusElements :=
  [MSEPositionY; MSEExtraElement; MSEPositionX; MSEPositionZ; MSEHasMovementFlags;
   MSEHasGuidByte4; MSEZeroBit; MSEHasGuidByte5; MSEHasGuidByte1; MSEMovementFlags;
   MSEHasGuidByte2; MSEHasOrientation; MSEHasGuidByte7; MSEHasTransportGuidByte3;
   MSEHasTransportGuidByte5; MSEHasTransportGuidByte1; MSEHasTransportGuidByte0;
   MSEHasTransportGuidByte6; MSEHasTransportGuidByte4; MSEHasTransportGuidByte2;
   MSEHasTransportGuidByte7; MSEHasGuidByte6; MSEHasGuidByte3; MSEHasFallDirection;
   MSEHasGuidByte0; MSEPitch; MSEGuidByte0; MSEGuidByte5; MSETransportOrientation;
   MSETransportTime; MSETransportGuidByte5; MSETransportGuidByte4; MSETransportGuidByte6;
   MSETransportPositionZ; MSETransportGuidByte7; MSETransportGuidByte0;
   MSETransportGuidByte2; MSETransportGuidByte3; MSETransportPositionY;
   MSETransportGuidByte1; MSETransportSeat; MSETransportPositionX; MSEFallSinAngle;
   MSEFallHorizontalSpeed; MSEFallCosAngle; MSEFallVerticalSpeed; MSEFallTime;
   MSEGuidByte1; MSEGuidByte6; MSETimestamp; MSEGuidByte7; MSEGuidByte2; MSEGuidByte4;
   MSEOrientation; MSEGuidByte3; MSEEnd].

Definition MovementUpdateCollisionHeight : list MovementStatusElements :=
  [MSEPositionZ; MSEExtraElement; MSEPositionX; MSEPositionY; MSEHasGuidByte6;
   MSEHasGuidByte7; MSEHasTransportGuidByte6; MSEHasTransportGuidByte4;
   MSEHasTransportGuidByte3; MSEHasTransportGuidByte7; MSEHasTransportGuidByte5;
   MSEHasTransportGuidByte1; MSEHasTransportGuidByte0; MSEHasTransportGuidByte2;
   MSEHasGuidByte3; MSEHasOrientation; MSEHasGuidByte4; MSEHasGuidByte5; MSEHasGuidByte0;
   MSEZeroBit; MSEHasGuidByte2; MSEHasMovementFlags; MSEHasFallDirection; MSEHasGuidByte1;
   MSEMovementFlags; MSEGuidByte3; MSETransportGuidByte7; MSETransportTime;
   MSETransportGuidByte4; MSETransportGuidByte5; MSETransportOrientation;
   MSETransportPositionX; MSETransportGuidByte6; MSETransportGuidByte0;
   MSETransportPositionY; MSETransportGuidByte2; MSETransportPositionZ;
   MSETransportGuidByte3; MSETransportGuidByte1; MSETransportSeat; MSEPitch; MSEGuidByte6;
   MSEFallSinAngle; MSEFallCosAngle; MSEFallHorizontalSpeed; MSEFallVerticalSpeed;
   MSEFallTime; MSEGuidByte7; MSEOrientation; MSEGuidByte0; MSEGuidByte5; MSEGuidByte4;
   MSETimestamp; MSEGuidByte2; MSEGuidByte1; MSEEnd].

Definition MovementForceRunSpeedChangeAck : list MovementStatusElements :=
  [MSECounter; MSEPositionX; MSEExtraElement; MSEPositionZ; MSEPositionY; MSEHasGuidByte2;
   MSEHasGuidByte4; MSEHasGuidByte1; MSEHasGuidByte7; MSEHasOrientation; MSEHasFallData;
   MSEHasGuidByte0; MSEHasSpline; MSEHasTransportData; MSEHasTimestamp;
   MSEHasMovementFlags2; MSEHasGuidByte6; MSEZeroBit; MSEHasSplineElevation; MSEHasPitch;
   MSEHasGuidByte5; MSEHasMovementFlags; MSEHasGuidByte3; MSEHasTransportTime3;
   MSEHasTransportGuidByte5; MSEHasTransportTime2; MSEHasTransportGuidByte3;
   MSEHasTransportGuidByte2; MSEHasTransportGuidByte0; MSEHasTransportGuidByte7;
   MSEHasTransportGuidByte6; MSEHasTransportGuidByte1; MSEHasTransportGuidByte4;
   MSEMovementFlags; MSEHasFallDirection; MSEMovementFlags2; MSEGuidByte6; MSEGuidByte4;
   MSEGuidByte1; MSEGuidByte3; MSEGuidByte5; MSEGuidByte2; MSEGuidByte7; MSEGuidByte0;
   MSETransportPositionZ; MSETransportGuidByte6; MSETransportGuidByte1;
   MSETransportPositionY; MSETransportGuidByte0; MSETransportGuidByte5; MSETransportTime2;
   MSETransportPositionX; MSETransportTime; MSETransportGuidByte7;
   MSETransportOrientation; MSETransportGuidByte3; MSETransportTime3;
   MSETransportGuidByte2; MSETransportSeat; MSETransportGuidByte4; MSEFallVerticalSpeed;
   MSEFallHorizontalSpeed; MSEFallSinAngle; MSEFallCosAngle; MSEFallTime;
   MSESplineElevation; MSEPitch; MSETimestamp; MSEOrientation; MSEEnd].

Definition MovementSetCollisionHeightAck : list MovementStatusElements :=
  [MSEExtraElement; MSEPositionX; MSEPositionZ; MSECounter; MSEPositionY; MSEHasGuidByte6;
   MSEHasGuidByte4; MSEZeroBit; MSEZeroBit; MSEHasPitch; MSEHasGuidByte5; MSEZeroBit;
   MSEHasGuidByte2; MSEHasGuidByte1; MSEHasFallData; MSEHasGuidByte3; MSEHasSpline;
   MSEHasGuidByte7; MSEHasMovementFlags; MSEHasTransportData; MSEHasTimestamp;
   MSEHasSplineElevation; MSEHasMovementFlags2; MSEHasOrientation; MSEHasGuidByte0;
   MSEHasTransportGuidByte4; MSEHasTransportGuidByte3; MSEHasTransportTime2;
   MSEHasTransportTime3; MSEHasTransportGuidByte5; MSEHasTransportGuidByte1;
   MSEHasTransportGuidByte7; MSEHasTransportGuidByte2; MSEHasTransportGuidByte6;
   MSEHasTransportGuidByte0; MSEMovementFlags2; MSEMovementFlags; MSEHasFallDirection;
   MSEGuidByte0; MSEGuidByte3; MSEGuidByte1; MSEGuidByte5; MSEGuidByte7; MSEGuidByte6;
   MSEGuidByte2; MSEGuidByte4; MSETransportPositionX; MSETransportGuidByte4;
   MSETransportTime2; MSETransportGuidByte0; MSETransportOrientation;
   MSETransportPositionY; MSETransportGuidByte7; MSETransportSeat; MSETransportGuidByte5;
   MSETransportGuidByte2; MSETransportTime; MSETransportGuidByte6; MSETransportGuidByte3;
   MSETransportGuidByte1; MSETransportTime3; MSETransportPositionZ; MSEFallVerticalSpeed;
   MSEFallTime; MSEFallCosAngle; MSEFallSinAngle; MSEFallHorizontalSpeed; MSETimestamp;
   MSESplineElevation; MSEOrientation; MSEPitch; MSEEnd].

Definition MovementForceFlightSpeedChangeAck : list MovementStatusElements :=
  [MSECounter; MSEPositionZ; MSEPositionX; MSEPositionY; MSEExtraElement; MSEHasGuidByte4;
   MSEHasGuidByte5; MSEZeroBit; MSEHasMovementFlags; MSEHasSplineElevation;
   MSEHasGuidByte3; MSEHasMovementFlags2; MSEHasGuidByte7; MSEHasTransportData;
   MSEHasGuidByte0; MSEHasFallData; MSEHasTimestamp; MSEHasPitch; MSEHasSpline;
   MSEHasOrientation; MSEHasGuidByte6; MSEHasGuidByte2; MSEHasGuidByte1;
   MSEHasTransportGuidByte6; MSEHasTransportGuidByte1; MSEHasTransportGuidByte7;
   MSEHasTransportTime2; MSEHasTransportGuidByte0; MSEHasTransportTime3;
   MSEHasTransportGuidByte3; MSEHasTransportGuidByte2; MSEHasTransportGuidByte5;
   MSEHasTransportGuidByte4; MSEHasFallDirection; MSEMovementFlags2; MSEMovementFlags;
   MSEGuidByte5; MSEGuidByte6; MSEGuidByte1; MSEGuidByte7; MSEGuidByte3; MSEGuidByte0;
   MSEGuidByte2; MSEGuidByte4; MSETransportGuidByte6; MSETransportGuidByte0;
   MSETransportSeat; MSETransportTime2; MSETransportOrientation; MSETransportGuidByte1;
   MSETransportGuidByte5; MSETransportTime3; MSETransportGuidByte2; MSETransportPositionZ;
   MSETransportGuidByte7; MSETransportGuidByte3; MSETransportGuidByte4;
   MSETransportPositionX; MSETransportTime; MSETransportPositionY; MSETimestamp;
   MSESplineElevation; MSEFallSinAngle; MSEFallCosAngle; MSEFallHorizontalSpeed;
   MSEFallTime; MSEFallVerticalSpeed; MSEPitch; MSEOrientation; MSEEnd].

Definition MovementSetCanFlyAck : list MovementStatusElements :=
  [MSEPositionY; MSECounter; MSEPositionX; MSEPositionZ; MSEHasGuidByte3; MSEHasTimestamp;
   MSEHasGuidByte4; MSEHasGuidByte0; MSEHasOrientation; MSEHasFallData; MSEHasGuidByte2;
   MSEHasGuidByte5; MSEHasSplineElevation; MSEHasMovementFlags2; MSEZeroBit;
   MSEHasGuidByte7; MSEHasSpline; MSEHasGuidByte6; MSEHasGuidByte1; MSEHasMovementFlags;
   MSEHasTransportData; MSEHasPitch; MSEHasTransportGuidByte3; MSEHasTransportGuidByte1;
   MSEHasTransportGuidByte2; MSEHasTransportTime3; MSEHasTransportTime2;
   MSEHasTransportGuidByte0; MSEHasTransportGuidByte5; MSEHasTransportGuidByte7;
   MSEHasTransportGuidByte4; MSEHasTransportGuidByte6; MSEMovementFlags2;
   MSEMovementFlags; MSEHasFallDirection; MSEGuidByte1; MSEGuidByte0; MSEGuidByte2;
   MSEGuidByte3; MSEGuidByte7; MSEGuidByte6; MSEGuidByte4; MSEGuidByte5;
   MSETransportTime2; MSETransportGuidByte6; MSETransportTime; MSETransportTime3;
   MSETransportGuidByte7; MSETransportPositionZ; MSETransportGuidByte3;
   MSETransportPositionY; MSETransportGuidByte5; MSETransportPositionX;
   MSETransportGuidByte2; MSETransportOrientation; MSETransportSeat;
   MSETransportGuidByte1; MSETransportGuidByte0; MSETransportGuidByte4; MSEFallTime;
   MSEFallSinAngle; MSEFallHorizontalSpeed; MSEFallCosAngle; MSEFallVerticalSpeed;
   MSEPitch; MSEOrientation; MSETimestamp; MSESplineElevation; MSEEnd].

Definition MovementForceSwimSpeedChangeAck : list MovementStatusElements :=
  [MSEPositionX; MSECounter; MSEExtraElement; MSEPositionY; MSEPositionZ; MSEHasGuidByte4;
   MSEHasOrientation; MSEHasPitch; MSEHasTransportData; MSEHasMovementFlags;
   MSEHasMovementFlags2; MSEHasGuidByte1; MSEHasGuidByte3; MSEHasFallData;
   MSEHasGuidByte2; MSEHasGuidByte7; MSEHasTimestamp; MSEZeroBit; MSEHasGuidByte5;
   MSEHasGuidByte6; MSEHasSplineElevation; MSEHasSpline; MSEHasGuidByte0;
   MSEHasTransportGuidByte1; MSEHasTransportGuidByte4; MSEHasTransportGuidByte0;
   MSEHasTransportGuidByte5; MSEHasTransportGuidByte7; MSEHasTransportGuidByte3;
   MSEHasTransportTime2; MSEHasTransportTime3; MSEHasTransportGuidByte6;
   MSEHasTransportGuidByte2; MSEMovementFlags2; MSEHasFallDirection; MSEMovementFlags;
   MSEGuidByte2; MSEGuidByte0; MSEGuidByte6; MSEGuidByte5; MSEGuidByte1; MSEGuidByte3;
   MSEGuidByte4; MSEGuidByte7; MSETransportGuidByte0; MSETransportTime3;
   MSETransportTime2; MSETransportPositionX; MSETransportGuidByte7; MSETransportSeat;
   MSETransportPositionY; MSETransportGuidByte5; MSETransportPositionZ;
   MSETransportOrientation; MSETransportTime; MSETransportGuidByte2;
   MSETransportGuidByte6; MSETransportGuidByte3; MSETransportGuidByte1;
   MSETransportGuidByte4; MSEFallTime; MSEFallSinAngle; MSEFallCosAngle;
   MSEFallHorizontalSpeed; MSEFallVerticalSpeed; MSEOrientation; MSEPitch;
   MSESplineElevation; MSETimestamp; MSEEnd].

Definition MovementForceWalkSpeedChangeAck : list MovementStatusElements :=
  [MSEPositionZ; MSEPositionY; MSEExtraElement; MSEPositionX; MSECounter; MSEHasGuidByte0;
   MSEHasMovementFlags2; MSEHasTimestamp; MSEHasGuidByte4; MSEHasGuidByte5;
   MSEHasGuidByte2; MSEHasMovementFlags; MSEHasFallData; MSEHasOrientation; MSEHasSpline;
   MSEZeroBit; MSEHasGuidByte3; MSEHasGuidByte1; MSEHasSplineElevation;
   MSEHasTransportData; MSEHasGuidByte7; MSEHasGuidByte6; MSEHasPitch;
   MSEHasTransportTime2; MSEHasTransportGuidByte5; MSEHasTransportGuidByte1;
   MSEHasTransportGuidByte6; MSEHasTransportTime3; MSEHasTransportGuidByte2;
   MSEHasTransportGuidByte0; MSEHasTransportGuidByte4; MSEHasTransportGuidByte7;
   MSEHasTransportGuidByte3; MSEMovementFlags; MSEMovementFlags2; MSEHasFallDirection;
   MSEGuidByte5; MSEGuidByte6; MSEGuidByte7; MSEGuidByte2; MSEGuidByte1; MSEGuidByte3;
   MSEGuidByte4; MSEGuidByte0; MSEFallVerticalSpeed; MSEFallCosAngle;
   MSEFallHorizontalSpeed; MSEFallSinAngle; MSEFallTime; MSETransportPositionZ;
   MSETransportGuidByte7; MSETransportGuidByte5; MSETransportPositionX;
   MSETransportGuidByte0; MSETransportTime; MSETransportTime3; MSETransportPositionY;
   MSETransportGuidByte2; MSETransportGuidByte4; MSETransportGuidByte1;
   MSETransportGuidByte3; MSETransportOrientation; MSETransportSeat;
   MSETransportGuidByte6; MSETransportTime2; MSESplineElevation; MSETimestamp;
   MSEOrientation; MSEPitch; MSEEnd].

Definition MovementForceRunBackSpeedChangeAck : list MovementStatusElements :=
  [MSEExtraElement; MSECounter; MSEPositionX; MSEPositionZ; MSEPositionY; MSEHasGuidByte2;
   MSEHasGuidByte4; MSEHasTimestamp; MSEHasTransportData; MSEHasGuidByte1;
   MSEHasGuidByte0; MSEHasGuidByte5; MSEHasGuidByte3; MSEHasOrientation; MSEHasFallData;
   MSEHasMovementFlags2; MSEHasMovementFlags; MSEHasGuidByte7; MSEHasSpline; MSEHasPitch;
   MSEHasGuidByte6; MSEHasSplineElevation; MSEZeroBit; MSEHasTransportGuidByte3;
   MSEHasTransportTime2; MSEHasTransportGuidByte7; MSEHasTransportGuidByte0;
   MSEHasTransportGuidByte2; MSEHasTransportGuidByte1; MSEHasTransportTime3;
   MSEHasTransportGuidByte4; MSEHasTransportGuidByte6; MSEHasTransportGuidByte5;
   MSEMovementFlags; MSEMovementFlags2; MSEHasFallDirection; MSEGuidByte0; MSEGuidByte7;
   MSEGuidByte2; MSEGuidByte4; MSEGuidByte3; MSEGuidByte6; MSEGuidByte5; MSEGuidByte1;
   MSEFallTime; MSEFallHorizontalSpeed; MSEFallSinAngle; MSEFallCosAngle;
   MSEFallVerticalSpeed; MSETransportGuidByte5; MSETransportSeat; MSETransportGuidByte6;
   MSETransportGuidByte1; MSETransportGuidByte0; MSETransportGuidByte2;
   MSETransportPositionY; MSETransportTime3; MSETransportPositionX;
   MSETransportOrientation; MSETransportGuidByte3; MSETransportTime; MSETransportTime2;
   MSETransportGuidByte4; MSETransportPositionZ; MSETransportGuidByte7; MSETimestamp;
   MSESplineElevation; MSEOrientation; MSEPitch; MSEEnd].

Definition MovementUpdateRunBackSpeed : list MovementStatusElements :=
  [MSEHasGuidByte1; MSEHasGuidByte2; MSEHasGuidByte4; MSEHasGuidByte3; MSEHasGuidByte6;
   MSEHasGuidByte0; MSEZeroBit; MSEHasMovementFlags; MSEHasGuidByte5; MSEHasOrientation;
   MSEMovementFlags; MSEHasFallDirection; MSEHasTransportGuidByte5;
   MSEHasTransportGuidByte3; MSEHasTransportGuidByte1; MSEHasTransportGuidByte6;
   MSEHasTransportGuidByte7; MSEHasTransportGuidByte2; MSEHasTransportGuidByte4;
   MSEHasTransportGuidByte0; MSEHasGuidByte7; MSETransportPositionX;
   MSETransportGuidByte2; MSETransportGuidByte5; MSETransportGuidByte4;
   MSETransportGuidByte6; MSETransportGuidByte0; MSETransportGuidByte3;
   MSETransportPositionY; MSETransportGuidByte7; MSETransportPositionZ; MSETransportTime;
   MSETransportSeat; MSETransportGuidByte1; MSETransportOrientation; MSEGuidByte4;
   MSEFallTime; MSEFallHorizontalSpeed; MSEFallSinAngle; MSEFallCosAngle;
   MSEFallVerticalSpeed; MSETimestamp; MSEGuidByte1; MSEOrientation; MSEGuidByte0;
   MSEGuidByte5; MSEGuidByte3; MSEPositionX; MSEPositionY; MSEPitch; MSEGuidByte7;
   MSEExtraElement; MSEGuidByte2; MSEGuidByte6; MSEPositionZ; MSEEnd].

Definition MovementUpdateWalkSpeed : list MovementStatusElements :=
  [MSEHasOrientation; MSEZeroBit; MSEHasGuidByte3; MSEHasGuidByte2;
   MSEHasTransportGuidByte6; MSEHasTransportGuidByte3; MSEHasTransportGuidByte2;
   MSEHasTransportGuidByte0; MSEHasTransportGuidByte4; MSEHasTransportGuidByte7;
   MSEHasTransportGuidByte1; MSEHasTransportGuidByte5; MSEHasGuidByte7; MSEHasGuidByte5;
   MSEHasGuidByte1; MSEHasGuidByte0; MSEHasMovementFlags; MSEHasGuidByte6;
   MSEHasFallDirection; MSEMovementFlags; MSEHasGuidByte4; MSEPitch;
   MSETransportGuidByte6; MSETransportGuidByte0; MSETransportGuidByte4;
   MSETransportGuidByte2; MSETransportPositionX; MSETransportGuidByte7; MSETransportTime;
   MSETransportPositionZ; MSETransportSeat; MSETransportGuidByte5;
   MSETransportOrientation; MSETransportGuidByte1; MSETransportPositionY;
   MSETransportGuidByte3; MSEFallVerticalSpeed; MSEFallHorizontalSpeed; MSEFallSinAngle;
   MSEFallCosAngle; MSEFallTime; MSEGuidByte1; MSEGuidByte4; MSEGuidByte2; MSEGuidByte6;
   MSEGuidByte7; MSETimestamp; MSEOrientation; MSEPositionY; MSEGuidByte0; MSEPositionZ;
   MSEPositionX; MSEGuidByte3; MSEGuidByte5; MSEExtraElement; MSEEnd].

Definition ForceMoveRootAck : list MovementStatusElements :=
  [MSEPositionX; MSECounter; MSEPositionY; MSEPositionZ; MSEZeroBit; MSEHasTimestamp;
   MSEHasSplineElevation; MSEZeroBit; MSEHasGuidByte3; MSEZeroBit; MSEHasGuidByte4;
   MSEHasMovementFlags2; MSEHasGuidByte6; MSEHasCounter; MSEHasPitch; MSEHasFallData;
   MSEHasGuidByte2; MSEHasGuidByte1; MSEHasGuidByte7; MSEHasTransportData; MSEForcesCount;
   MSEHasMovementFlags; MSEHasGuidByte0; MSEHasOrientation; MSEHasGuidByte5;
   MSEHasTransportGuidByte1; MSEHasTransportTime3; MSEHasTransportTime2;
   MSEHasTransportGuidByte2; MSEHasTransportGuidByte6; MSEHasTransportGuidByte3;
   MSEHasTransportGuidByte0; MSEHasTransportGuidByte4; MSEHasTransportGuidByte7;
   MSEHasTransportGuidByte5; MSEMovementFlags; MSEHasFallDirection; MSEMovementFlags2;
   MSEGuidByte1; MSEGuidByte0; MSEGuidByte5; MSEGuidByte7; MSEGuidByte3; MSEGuidByte4;
   MSEGuidByte2; MSEGuidByte6; MSEForces; MSECounter; MSEFallCosAngle; MSEFallSinAngle;
   MSEFallHorizontalSpeed; MSEFallTime; MSEFallVerticalSpeed; MSETransportGuidByte5;
   MSETransportGuidByte0; MSETransportGuidByte3; MSETransportGuidByte2;
   MSETransportPositionX; MSETransportGuidByte6; MSETransportPositionY; MSETransportTime2;
   MSETransportTime; MSETransportPositionZ; MSETransportGuidByte7;
   MSETransportOrientation; MSETransportGuidByte1; MSETransportSeat; MSETransportTime3;
   MSETransportGuidByte4; MSEPitch; MSETimestamp; MSEOrientation; MSESplineElevation;
   MSEEnd].

Definition ForceMoveUnrootAck : list MovementStatusElements :=
  [MSEPositionX; MSEPositionY; MSECounter; MSEPositionZ; MSEHasGuidByte0; MSEHasPitch;
   MSEHasFallData; MSEHasSplineElevation; MSEZeroBit; MSEHasGuidByte6; MSEHasGuidByte4;
   MSEHasGuidByte1; MSEHasGuidByte3; MSEZeroBit; MSEHasGuidByte7; MSEHasGuidByte5;
   MSEZeroBit; MSEHasTimestamp; MSEHasCounter; MSEHasMovementFlags; MSEHasTransportData;
   MSEHasGuidByte2; MSEForcesCount; MSEHasMovementFlags2; MSEHasOrientation;
   MSEHasTransportTime3; MSEHasTransportGuidByte0; MSEHasTransportGuidByte2;
   MSEHasTransportTime2; MSEHasTransportGuidByte6; MSEHasTransportGuidByte4;
   MSEHasTransportGuidByte1; MSEHasTransportGuidByte7; MSEHasTransportGuidByte5;
   MSEHasTransportGuidByte3; MSEMovementFlags2; MSEHasFallDirection; MSEMovementFlags;
   MSEGuidByte1; MSEGuidByte0; MSEForces; MSEGuidByte6; MSEGuidByte2; MSEGuidByte5;
   MSEGuidByte3; MSEGuidByte4; MSEGuidByte7; MSECounter; MSETransportSeat;
   MSETransportGuidByte7; MSETransportGuidByte4; MSETransportTime; MSETransportGuidByte1;
   MSETransportTime2; MSETransportPositionZ; MSETransportTime3; MSETransportGuidByte5;
   MSETransportPositionY; MSETransportGuidByte6; MSETransportGuidByte2;
   MSETransportPositionX; MSETransportGuidByte0; MSETransportGuidByte3;
   MSETransportOrientation; MSEFallCosAngle; MSEFallHorizontalSpeed; MSEFallSinAngle;
   MSEFallTime; MSEFallVerticalSpeed; MSETimestamp; MSESplineElevation; MSEOrientation;
   MSEPitch; MSEEnd].

Definition MovementFallReset : list MovementStatusElements :=
  [MSEPositionY; MSEPositionZ; MSEPositionX; MSEHasGuidByte1; MSEHasGuidByte6; MSEZeroBit;
   MSEHasOrientation; MSEHasMovementFlags; MSEHasPitch; MSEHasMovementFlags2;
   MSEForcesCount; MSEHasTimestamp; MSEZeroBit; MSEZeroBit; MSEHasCounter;
   MSEHasGuidByte0; MSEHasGuidByte7; MSEHasGuidByte2; MSEHasGuidByte4;
   MSEHasSplineElevation; MSEHasFallData; MSEHasGuidByte5; MSEHasTransportData;
   MSEHasGuidByte3; MSEHasTransportTime3; MSEHasTransportGuidByte6;
   MSEHasTransportGuidByte2; MSEHasTransportGuidByte1; MSEHasTransportGuidByte0;
   MSEHasTransportTime2; MSEHasTransportGuidByte7; MSEHasTransportGuidByte4;
   MSEHasTransportGuidByte5; MSEHasTransportGuidByte3; MSEHasFallDirection;
   MSEMovementFlags2; MSEMovementFlags; MSEGuidByte4; MSEGuidByte6; MSEGuidByte1;
   MSEForces; MSEGuidByte7; MSEGuidByte5; MSEGuidByte3; MSEGuidByte0; MSEGuidByte2;
   MSEFallTime; MSEFallSinAngle; MSEFallCosAngle; MSEFallHorizontalSpeed;
   MSEFallVerticalSpeed; MSETransportTime3; MSETransportGuidByte0;
   MSETransportOrientation; MSETransportGuidByte7; MSETransportGuidByte3;
   MSETransportPositionX; MSETransportTime2; MSETransportGuidByte2; MSETransportPositionZ;
   MSETransportGuidByte6; MSETransportSeat; MSETransportPositionY; MSETransportGuidByte5;
   MSETransportGuidByte4; MSETransportTime; MSETransportGuidByte1; MSETimestamp;
   MSECounter; MSEPitch; MSESplineElevation; MSEOrientation; MSEEnd].

Definition MovementFeatherFallAck : list MovementStatusElements :=
  [MSEPositionZ; MSECounter; MSEPositionY; MSEPositionX; MSEZeroBit; MSEHasGuidByte3;
   MSEHasSplineElevation; MSEHasGuidByte1; MSEHasPitch; MSEHasGuidByte2; MSEHasSpline;
   MSEHasTimestamp; MSEHasGuidByte5; MSEHasFallData; MSEHasOrientation;
   MSEHasTransportData; MSEHasGuidByte7; MSEHasMovementFlags2; MSEHasGuidByte6;
   MSEHasMovementFlags; MSEHasGuidByte0; MSEHasGuidByte4; MSEHasTransportGuidByte6;
   MSEHasTransportTime3; MSEHasTransportGuidByte2; MSEHasTransportGuidByte4;
   MSEHasTransportGuidByte7; MSEHasTransportGuidByte3; MSEHasTransportGuidByte5;
   MSEHasTransportTime2; MSEHasTransportGuidByte1; MSEHasTransportGuidByte0;
   MSEHasFallDirection; MSEMovementFlags2; MSEMovementFlags; MSEGuidByte6; MSEGuidByte1;
   MSEGuidByte7; MSEGuidByte0; MSEGuidByte5; MSEGuidByte4; MSEGuidByte3; MSEGuidByte2;
   MSETransportTime3; MSETransportOrientation; MSETransportPositionZ;
   MSETransportGuidByte7; MSETransportGuidByte5; MSETransportGuidByte2;
   MSETransportPositionX; MSETransportGuidByte1; MSETransportGuidByte6; MSETransportTime2;
   MSETransportTime; MSETransportPositionY; MSETransportGuidByte4; MSETransportGuidByte0;
   MSETransportSeat; MSETransportGuidByte3; MSETimestamp; MSESplineElevation;
   MSEOrientation; MSEFallVerticalSpeed; MSEFallSinAngle; MSEFallHorizontalSpeed;
   MSEFallCosAngle; MSEFallTime; MSEPitch; MSEEnd].

Definition MovementGravityDisableAck : list MovementStatusElements :=
  [MSEPositionZ; MSEPositionY; MSECounter; MSEPositionX; MSEHasGuidByte3;
   MSEHasTransportData; MSEHasGuidByte4; MSEHasGuidByte5; MSEHasMovementFlags;
   MSEHasOrientation; MSEHasSpline; MSEHasGuidByte6; MSEHasGuidByte0; MSEHasGuidByte7;
   MSEHasSplineElevation; MSEHasTimestamp; MSEHasPitch; MSEHasMovementFlags2; MSEZeroBit;
   MSEHasGuidByte2; MSEHasFallData; MSEHasGuidByte1; MSEHasTransportGuidByte2;
   MSEHasTransportTime3; MSEHasTransportGuidByte0; MSEHasTransportGuidByte1;
   MSEHasTransportGuidByte5; MSEHasTransportGuidByte3; MSEHasTransportGuidByte7;
   MSEHasTransportGuidByte6; MSEHasTransportGuidByte4; MSEHasTransportTime2;
   MSEMovementFlags; MSEMovementFlags2; MSEHasFallDirection; MSEGuidByte0; MSEGuidByte2;
   MSEGuidByte1; MSEGuidByte3; MSEGuidByte5; MSEGuidByte7; MSEGuidByte4; MSEGuidByte6;
   MSETransportPositionZ; MSETransportGuidByte2; MSETransportGuidByte5;
   MSETransportGuidByte3; MSETransportGuidByte4; MSETransportPositionY; MSETransportTime;
   MSETransportSeat; MSETransportGuidByte6; MSETransportGuidByte1; MSETransportGuidByte0;
   MSETransportOrientation; MSETransportTime2; MSETransportPositionX;
   MSETransportGuidByte7; MSETransportTime3; MSEFallSinAngle; MSEFallCosAngle;
   MSEFallHorizontalSpeed; MSEFallTime; MSEFallVerticalSpeed; MSEOrientation;
   MSESplineElevation; MSETimestamp; MSEPitch; MSEEnd].

Definition MovementGravityEnableAck : list MovementStatusElements :=
  [MSEPositionZ; MSEPositionX; MSECounter; MSEPositionY; MSEHasSplineElevation;
   MSEHasMovementFlags2; MSEHasGuidByte6; MSEHasOrientation; MSEZeroBit; MSEHasGuidByte5;
   MSEHasSpline; MSEHasGuidByte3; MSEHasTransportData; MSEHasPitch; MSEHasGuidByte1;
   MSEHasTimestamp; MSEHasGuidByte2; MSEHasGuidByte4; MSEHasGuidByte7;
   MSEHasMovementFlags; MSEHasFallData; MSEHasGuidByte0; MSEHasTransportTime3;
   MSEHasTransportGuidByte0; MSEHasTransportGuidByte1; MSEHasTransportGuidByte3;
   MSEHasTransportGuidByte7; MSEHasTransportGuidByte2; MSEHasTransportGuidByte5;
   MSEHasTransportTime2; MSEHasTransportGuidByte4; MSEHasTransportGuidByte6;
   MSEHasFallDirection; MSEMovementFlags; MSEMovementFlags2; MSEGuidByte5; MSEGuidByte4;
   MSEGuidByte1; MSEGuidByte7; MSEGuidByte0; MSEGuidByte2; MSEGuidByte3; MSEGuidByte6;
   MSEFallTime; MSEFallHorizontalSpeed; MSEFallCosAngle; MSEFallSinAngle;
   MSEFallVerticalSpeed; MSETransportGuidByte1; MSETransportPositionX; MSETransportTime3;
   MSETransportOrientation; MSETransportGuidByte2; MSETransportGuidByte0;
   MSETransportGuidByte7; MSETransportGuidByte6; MSETransportSeat; MSETransportGuidByte3;
   MSETransportGuidByte4; MSETransportPositionZ; MSETransportTime2; MSETransportGuidByte5;
   MSETransportTime; MSETransportPositionY; MSESplineElevation; MSEOrientation; MSEPitch;
   MSETimestamp; MSEEnd].

Definition MovementHoverAck : list MovementStatusElements :=
  [MSECounter; MSEPositionZ; MSEPositionY; MSEPositionX; MSEHasGuidByte4;
   MSEHasTransportData; MSEHasGuidByte2; MSEHasTimestamp; MSEHasSpline;
   MSEHasMovementFlags; MSEHasGuidByte1; MSEHasPitch; MSEHasGuidByte0; MSEHasGuidByte6;
   MSEHasGuidByte7; MSEHasGuidByte5; MSEZeroBit; MSEHasFallData; MSEHasMovementFlags2;
   MSEHasSplineElevation; MSEHasOrientation; MSEHasGuidByte3; MSEHasTransportGuidByte4;
   MSEHasTransportGuidByte6; MSEHasTransportTime3; MSEHasTransportGuidByte1;
   MSEHasTransportGuidByte0; MSEHasTransportGuidByte3; MSEHasTransportGuidByte2;
   MSEHasTransportGuidByte5; MSEHasTransportGuidByte7; MSEHasTransportTime2;
   MSEMovementFlags; MSEMovementFlags2; MSEHasFallDirection; MSEGuidByte1; MSEGuidByte4;
   MSEGuidByte7; MSEGuidByte2; MSEGuidByte5; MSEGuidByte6; MSEGuidByte3; MSEGuidByte0;
   MSETimestamp; MSEFallSinAngle; MSEFallCosAngle; MSEFallHorizontalSpeed; MSEFallTime;
   MSEFallVerticalSpeed; MSEOrientation; MSETransportGuidByte1; MSETransportTime3;
   MSETransportGuidByte2; MSETransportGuidByte7; MSETransportGuidByte3;
   MSETransportGuidByte4; MSETransportSeat; MSETransportPositionX; MSETransportPositionZ;
   MSETransportOrientation; MSETransportTime; MSETransportGuidByte0;
   MSETransportPositionY; MSETransportGuidByte5; MSETransportTime2; MSETransportGuidByte6;
   MSESplineElevation; MSEPitch; MSEEnd].

Definition MovementKnockBackAck : list MovementStatusElements :=
  [MSEPositionY; MSEPositionZ; MSECounter; MSEPositionX; MSEHasGuidByte6;
   MSEHasOrientation; MSEHasPitch; MSEHasSplineElevation; MSEHasGuidByte3;
   MSEHasGuidByte4; MSEHasGuidByte1; MSEHasGuidByte2; MSEHasSpline; MSEHasGuidByte7;
   MSEZeroBit; MSEHasMovementFlags2; MSEHasTimestamp; MSEHasGuidByte0;
   MSEHasMovementFlags; MSEHasTransportData; MSEHasGuidByte5; MSEHasFallData;
   MSEMovementFlags; MSEHasTransportGuidByte4; MSEHasTransportGuidByte1;
   MSEHasTransportTime2; MSEHasTransportGuidByte0; MSEHasTransportTime3;
   MSEHasTransportGuidByte6; MSEHasTransportGuidByte2; MSEHasTransportGuidByte3;
   MSEHasTransportGuidByte5; MSEHasTransportGuidByte7; MSEMovementFlags2;
   MSEHasFallDirection; MSEGuidByte4; MSEGuidByte5; MSEGuidByte1; MSEGuidByte6;
   MSEGuidByte0; MSEGuidByte3; MSEGuidByte2; MSEGuidByte7; MSEFallSinAngle;
   MSEFallHorizontalSpeed; MSEFallCosAngle; MSEFallTime; MSEFallVerticalSpeed;
   MSETimestamp; MSETransportPositionY; MSETransportGuidByte4; MSETransportTime2;
   MSETransportGuidByte7; MSETransportOrientation; MSETransportGuidByte6;
   MSETransportTime; MSETransportGuidByte3; MSETransportGuidByte1; MSETransportTime3;
   MSETransportGuidByte2; MSETransportPositionZ; MSETransportGuidByte0;
   MSETransportGuidByte5; MSETransportPositionX; MSETransportSeat; MSEPitch;
   MSESplineElevation; MSEOrientation; MSEEnd].

Definition MovementWaterWalkAck : list MovementStatusElements :=
  [MSEPositionY; MSEPositionZ; MSECounter; MSEPositionX; MSEHasTimestamp; MSEHasPitch;
   MSEHasGuidByte5; MSEHasGuidByte0; MSEHasGuidByte7; MSEHasOrientation; MSEHasGuidByte1;
   MSEHasMovementFlags2; MSEHasGuidByte2; MSEHasMovementFlags; MSEHasGuidByte3;
   MSEHasTransportData; MSEHasGuidByte6; MSEHasFallData; MSEHasGuidByte4; MSEZeroBit;
   MSEHasSplineElevation; MSEHasSpline; MSEHasTransportGuidByte0;
   MSEHasTransportGuidByte1; MSEHasTransportGuidByte6; MSEHasTransportGuidByte2;
   MSEHasTransportGuidByte7; MSEHasTransportGuidByte5; MSEHasTransportTime2;
   MSEHasTransportGuidByte3; MSEHasTransportTime3; MSEHasTransportGuidByte4;
   MSEMovementFlags; MSEHasFallDirection; MSEMovementFlags2; MSEGuidByte2; MSEGuidByte7;
   MSEGuidByte3; MSEGuidByte5; MSEGuidByte6; MSEGuidByte0; MSEGuidByte4; MSEGuidByte1;
   MSETransportPositionX; MSETransportGuidByte1; MSETransportTime3; MSETransportGuidByte0;
   MSETransportOrientation; MSETransportGuidByte7; MSETransportPositionY;
   MSETransportTime2; MSETransportTime; MSETransportGuidByte5; MSETransportSeat;
   MSETransportPositionZ; MSETransportGuidByte3; MSETransportGuidByte2;
   MSETransportGuidByte6; MSETransportGuidByte4; MSESplineElevation; MSEFallSinAngle;
   MSEFallHorizontalSpeed; MSEFallCosAngle; MSEFallVerticalSpeed; MSEFallTime;
   MSEOrientation; MSETimestamp; MSEPitch; MSEEnd].

Definition MovementUpdateKnockBack : list MovementStatusElements :=
  [MSEZeroBit; MSEHasGuidByte4; MSEHasMovementFlags; MSEHasGuidByte1; MSEHasGuidByte0;
   MSEHasGuidByte3; MSEHasGuidByte2; MSEHasGuidByte7; MSEHasTransportGuidByte7;
   MSEHasTransportGuidByte5; MSEHasTransportGuidByte1; MSEHasTransportGuidByte6;
   MSEHasTransportGuidByte2; MSEHasTransportGuidByte4; MSEHasTransportGuidByte0;
   MSEHasTransportGuidByte3; MSEHasGuidByte5; MSEHasGuidByte6; MSEMovementFlags;
   MSEHasFallDirection; MSEHasOrientation; MSEOrientation; MSEFallSinAngle;
   MSEFallHorizontalSpeed; MSEFallCosAngle; MSEFallTime; MSEFallVerticalSpeed;
   MSEGuidByte3; MSETransportGuidByte5; MSETransportGuidByte7; MSETransportSeat;
   MSETransportGuidByte3; MSETransportGuidByte6; MSETransportPositionZ;
   MSETransportGuidByte1; MSETransportPositionY; MSETransportPositionX;
   MSETransportGuidByte2; MSETransportGuidByte0; MSETransportOrientation;
   MSETransportTime; MSETransportGuidByte4; MSEPitch; MSEPositionZ; MSETimestamp;
   MSEPositionX; MSEGuidByte4; MSEGuidByte6; MSEGuidByte7; MSEGuidByte2; MSEGuidByte1;
   MSEPositionY; MSEGuidByte0; MSEGuidByte5; MSEEnd].

Definition SplineMoveSetWalkSpeed : list MovementStatusElements :=
  [MSEHasGuidByte4; MSEHasGuidByte1; MSEHasGuidByte7; MSEHasGuidByte6; MSEHasGuidByte3;
   MSEHasGuidByte2; MSEHasGuidByte5; MSEHasGuidByte0; MSEGuidByte2; MSEGuidByte3;
   MSEGuidByte1; MSEGuidByte0; MSEGuidByte6; MSEGuidByte5; MSEGuidByte4; MSEGuidByte7;
   MSEExtraElement; MSEEnd].

Definition SplineMoveSetRunSpeed : list MovementStatusElements :=
  [MSEHasGuidByte3; MSEHasGuidByte0; MSEHasGuidByte1; MSEHasGuidByte4; MSEHasGuidByte7;
   MSEHasGuidByte5; MSEHasGuidByte6; MSEHasGuidByte2; MSEGuidByte4; MSEExtraElement;
   MSEGuidByte1; MSEGuidByte5; MSEGuidByte3; MSEGuidByte7; MSEGuidByte6; MSEGuidByte2;
   MSEGuidByte0; MSEEnd].

Definition SplineMoveSetRunBackSpeed : list MovementStatusElements :=
  [MSEHasGuidByte7; MSEHasGuidByte4; MSEHasGuidByte0; MSEHasGuidByte3; MSEHasGuidByte2;
   MSEHasGuidByte5; MSEHasGuidByte6; MSEHasGuidByte1; MSEGuidByte6; MSEGuidByte4;
   MSEGuidByte1; MSEGuidByte5; MSEGuidByte2; MSEGuidByte3; MSEGuidByte7; MSEExtraElement;
   MSEGuidByte0; MSEEnd].

Definition SplineMoveSetSwimSpeed : list MovementStatusElements :=
  [MSEHasGuidByte5; MSEHasGuidByte6; MSEHasGuidByte7; MSEHasGuidByte3; MSEHasGuidByte4;
   MSEHasGuidByte2; MSEHasGuidByte1; MSEHasGuidByte0; MSEGuidByte4; MSEGuidByte1;
   MSEGuidByte6; MSEGuidByte7; MSEGuidByte3; MSEExtraElement; MSEGuidByte5; MSEGuidByte0;
   MSEGuidByte2; MSEEnd].

Definition SplineMoveSetSwimBackSpeed : list MovementStatusElements :=
  [MSEHasGuidByte2; MSEHasGuidByte6; MSEHasGuidByte5; MSEHasGuidByte0; MSEHasGuidByte4;
   MSEHasGuidByte3; MSEHasGuidByte1; MSEHasGuidByte7; MSEGuidByte7; MSEGuidByte6;
   MSEGuidByte5; MSEGuidByte3; MSEGuidByte2; MSEGuidByte4; MSEGuidByte1; MSEGuidByte0;
   MSEExtraElement; MSEEnd].

Definition SplineMoveSetTurnRate : list MovementStatusElements :=
  [MSEHasGuidByte5; MSEHasGuidByte7; MSEHasGuidByte4; MSEHasGuidByte0; MSEHasGuidByte1;
   MSEHasGuidByte6; MSEHasGuidByte3; MSEHasGuidByte2; MSEGuidByte1; MSEGuidByte7;
   MSEExtraElement; MSEGuidByte6; MSEGuidByte0; MSEGuidByte4; MSEGuidByte2; MSEGuidByte5;
   MSEGuidByte3; MSEEnd].

Definition SplineMoveSetFlightSpeed : list MovementStatusElements :=
  [MSEExtraElement; MSEHasGuidByte1; MSEHasGuidByte4; MSEHasGuidByte7; MSEHasGuidByte3;
   MSEHasGuidByte2; MSEHasGuidByte6; MSEHasGuidByte5; MSEHasGuidByte0; MSEGuidByte5;
   MSEGuidByte1; MSEGuidByte0; MSEGuidByte6; MSEGuidByte2; MSEGuidByte4; MSEGuidByte7;
   MSEGuidByte3; MSEEnd].

Definition SplineMoveSetFlightBackSpeed : list MovementStatusElements :=
  [MSEHasGuidByte6; MSEHasGuidByte0; MSEHasGuidByte2; MSEHasGuidByte7; MSEHasGuidByte5;
   MSEHasGuidByte4; MSEHasGuidByte3; MSEHasGuidByte1; MSEGuidByte7; MSEGuidByte6;
   MSEGuidByte4; MSEExtraElement; MSEGuidByte1; MSEGuidByte3; MSEGuidByte2; MSEGuidByte0;
   MSEGuidByte5; MSEEnd].

Definition SplineMoveSetPitchRate : list MovementStatusElements :=
  [MSEHasGuidByte2; MSEHasGuidByte6; MSEHasGuidByte0; MSEHasGuidByte5; MSEHasGuidByte1;
   MSEHasGuidByte3; MSEHasGuidByte7; MSEHasGuidByte4; MSEGuidByte5; MSEExtraElement;
   MSEGuidByte4; MSEGuidByte0; MSEGuidByte3; MSEGuidByte6; MSEGuidByte1; MSEGuidByte2;
   MSEGuidByte7; MSEEnd].

Definition MoveSetWalkSpeed : list MovementStatusElements :=
  [MSEHasGuidByte6; MSEHasGuidByte7; MSEHasGuidByte3; MSEHasGuidByte1; MSEHasGuidByte2;
   MSEHasGuidByte0; MSEHasGuidByte4; MSEHasGuidByte5; MSEGuidByte5; MSEGuidByte6;
   MSECounter; MSEGuidByte4; MSEExtraElement; MSEGuidByte2; MSEGuidByte3; MSEGuidByte0;
   MSEGuidByte1; MSEGuidByte7; MSEEnd].

Definition MoveSetRunSpeed : list MovementStatusElements :=
  [MSEHasGuidByte1; MSEHasGuidByte7; MSEHasGuidByte4; MSEHasGuidByte2; MSEHasGuidByte5;
   MSEHasGuidByte3; MSEHasGuidByte6; MSEHasGuidByte0; MSEGuidByte1; MSECounter;
   MSEGuidByte7; MSEGuidByte3; MSEGuidByte0; MSEExtraElement; MSEGuidByte2; MSEGuidByte4;
   MSEGuidByte6; MSEGuidByte5; MSEEnd].

Definition MoveSetRunBackSpeed : list MovementStatusElements :=
  [MSEHasGuidByte7; MSEHasGuidByte1; MSEHasGuidByte0; MSEHasGuidByte2; MSEHasGuidByte4;
   MSEHasGuidByte3; MSEHasGuidByte6; MSEHasGuidByte5; MSECounter; MSEGuidByte0;
   MSEGuidByte3; MSEGuidByte7; MSEGuidByte5; MSEGuidByte2; MSEGuidByte4; MSEGuidByte1;
   MSEExtraElement; MSEGuidByte6; MSEEnd].

Definition MoveSetSwimSpeed : list MovementStatusElements :=
  [MSEHasGuidByte5; MSEHasGuidByte0; MSEHasGuidByte6; MSEHasGuidByte3; MSEHasGuidByte7;
   MSEHasGuidByte2; MSEHasGuidByte4; MSEHasGuidByte1; MSECounter; MSEGuidByte1;
   MSEGuidByte3; MSEExtraElement; MSEGuidByte6; MSEGuidByte7; MSEGuidByte0; MSEGuidByte5;
   MSEGuidByte2; MSEGuidByte4; MSEEnd].

Definition MoveSetSwimBackSpeed : list MovementStatusElements :=
  [MSEHasGuidByte5; MSEHasGuidByte0; MSEHasGuidByte4; MSEHasGuidByte2; MSEHasGuidByte1;
   MSEHasGuidByte3; MSEHasGuidByte6; MSEHasGuidByte7; MSEGuidByte5; MSEGuidByte6;
   MSEGuidByte0; MSEGuidByte4; MSECounter; MSEExtraElement; MSEGuidByte1; MSEGuidByte7;
   MSEGuidByte2; MSEGuidByte3; MSEEnd].

Definition MoveSetTurnRate : list MovementStatusElements :=
  [MSEHasGuidByte6; MSEHasGuidByte5; MSEHasGuidByte1; MSEHasGuidByte4; MSEHasGuidByte0;
   MSEHasGuidByte7; MSEHasGuidByte3; MSEHasGuidByte2; MSEExtraElement; MSEGuidByte7;
   MSEGuidByte3; MSEGuidByte5; MSEGuidByte0; MSEGuidByte4; MSEGuidByte6; MSEGuidByte2;
   MSECounter; MSEGuidByte1; MSEEnd].

Definition MoveSetFlightSpeed : list MovementStatusElements :=
  [MSEExtraElement; MSEUintCount; MSEHasGuidByte6; MSEHasGuidByte5; MSEHasGuidByte0;
   MSEHasGuidByte4; MSEHasGuidByte1; MSEHasGuidByte7; MSEHasGuidByte3; MSEHasGuidByte2;
   MSEGuidByte0; MSEGuidByte7; MSEGuidByte4; MSEGuidByte5; MSEGuidByte6; MSEGuidByte2;
   MSEGuidByte3; MSEGuidByte1; MSEEnd].

Definition MoveSetFlightBackSpeed : list MovementStatusElements :=
  [MSEHasGuidByte2; MSEHasGuidByte7; MSEHasGuidByte6; MSEHasGuidByte4; MSEHasGuidByte0;
   MSEHasGuidByte1; MSEHasGuidByte5; MSEHasGuidByte3; MSEGuidByte4; MSEGuidByte1;
   MSEGuidByte6; MSEGuidByte0; MSEGuidByte2; MSECounter; MSEGuidByte7; MSEGuidByte3;
   MSEGuidByte5; MSEExtraElement; MSEEnd].

Definition MoveSetPitchRate : list MovementStatusElements :=
  [MSEHasGuidByte7; MSEHasGuidByte5; MSEHasGuidByte4; MSEHasGuidByte1; MSEHasGuidByte6;
   MSEHasGuidByte3; MSEHasGuidByte2; MSEHasGuidByte0; MSEGuidByte4; MSECounter;
   MSEGuidByte2; MSEGuidByte5; MSEGuidByte6; MSEGuidByte1; MSEExtraElement; MSEGuidByte7;
   MSEGuidByte3; MSEGuidByte0; MSEEnd].

Definition MoveSetCollisionHeight : list MovementStatusElements :=
  [MSEHasGuidByte7; MSEHasGuidByte0; MSEHasGuidByte1; MSEZeroBit; MSEHasGuidByte3;
   MSEZeroBit; MSEHasGuidByte2; MSEHasGuidByte6; MSEHasGuidByte5; MSEHasGuidByte4;
   MSEZeroBit; MSEZeroBit; MSEGuidByte3; MSEGuidByte2; MSEGuidByte5; MSEGuidByte6;
   MSECounter; MSEExtraElement; MSEGuidByte7; MSEGuidByte1; MSEGuidByte4; MSEGuidByte0;
   MSEEnd].

Definition SplineMoveSetWalkMode : list MovementStatusElements :=
  [MSEHasGuidByte4; MSEHasGuidByte3; MSEHasGuidByte0; MSEHasGuidByte2; MSEHasGuidByte1;
   MSEHasGuidByte6; MSEHasGuidByte5; MSEHasGuidByte7; MSEGuidByte1; MSEGuidByte4;
   MSEGuidByte5; MSEGuidByte6; MSEGuidByte2; MSEGuidByte0; MSEGuidByte3; MSEGuidByte7;
   MSEEnd].

Definition SplineMoveSetRunMode : list MovementStatusElements :=
  [MSEHasGuidByte5; MSEHasGuidByte6; MSEHasGuidByte2; MSEHasGuidByte4; MSEHasGuidByte7;
   MSEHasGuidByte1; MSEHasGuidByte3; MSEHasGuidByte0; MSEGuidByte5; MSEGuidByte1;
   MSEGuidByte4; MSEGuidByte0; MSEGuidByte7; MSEGuidByte3; MSEGuidByte6; MSEGuidByte2;
   MSEEnd].

Definition SplineMoveGravityDisable : list MovementStatusElements :=
  [MSEHasGuidByte1; MSEHasGuidByte7; MSEHasGuidByte4; MSEHasGuidByte5; MSEHasGuidByte6;
   MSEHasGuidByte0; MSEHasGuidByte2; MSEHasGuidByte3; MSEGuidByte3; MSEGuidByte4;
   MSEGuidByte5; MSEGuidByte6; MSEGuidByte0; MSEGuidByte1; MSEGuidByte2; MSEGuidByte7;
   MSEEnd].

Definition SplineMoveGravityEnable : list MovementStatusElements :=
  [MSEHasGuidByte5; MSEHasGuidByte7; MSEHasGuidByte4; MSEHasGuidByte2; MSEHasGuidByte3;
   MSEHasGuidByte6; MSEHasGuidByte1; MSEHasGuidByte0; MSEGuidByte6; MSEGuidByte3;
   MSEGuidByte2; MSEGuidByte4; MSEGuidByte1; MSEGuidByte5; MSEGuidByte7; MSEGuidByte0;
   MSEEnd].

Definition SplineMoveSetHover : list MovementStatusElements :=
  [MSEHasGuidByte6; MSEHasGuidByte5; MSEHasGuidByte1; MSEHasGuidByte3; MSEHasGuidByte0;
   MSEHasGuidByte4; MSEHasGuidByte7; MSEHasGuidByte2; MSEGuidByte7; MSEGuidByte1;
   MSEGuidByte0; MSEGuidByte6; MSEGuidByte3; MSEGuidByte2; MSEGuidByte5; MSEGuidByte4;
   MSEEnd].

Definition SplineMoveUnsetHover : list MovementStatusElements :=
  [MSEHasGuidByte3; MSEHasGuidByte1; MSEHasGuidByte5; MSEHasGuidByte7; MSEHasGuidByte4;
   MSEHasGuidByte6; MSEHasGuidByte2; MSEHasGuidByte0; MSEGuidByte3; MSEGuidByte5;
   MSEGuidByte2; MSEGuidByte1; MSEGuidByte6; MSEGuidByte7; MSEGuidByte4; MSEGuidByte0;
   MSEEnd].

Definition SplineMoveStartSwim : list MovementStatusElements :=
  [MSEHasGuidByte7; MSEHasGuidByte4; MSEHasGuidByte2; MSEHasGuidByte6; MSEHasGuidByte5;
   MSEHasGuidByte3; MSEHasGuidByte1; MSEHasGuidByte0; MSEGuidByte4; MSEGuidByte0;
   MSEGuidByte6; MSEGuidByte7; MSEGuidByte1; MSEGuidByte2; MSEGuidByte3; MSEGuidByte5;
   MSEEnd].

Definition SplineMoveStopSwim : list MovementStatusElements :=
  [MSEHasGuidByte3; MSEHasGuidByte7; MSEHasGuidByte4; MSEHasGuidByte2; MSEHasGuidByte1;
   MSEHasGuidByte0; MSEHasGuidByte5; MSEHasGuidByte6; MSEGuidByte0; MSEGuidByte5;
   MSEGuidByte1; MSEGuidByte7; MSEGuidByte3; MSEGuidByte2; MSEGuidByte6; MSEGuidByte4;
   MSEEnd].

Definition SplineMoveSetFlying : list MovementStatusElements :=
  [MSEHasGuidByte4; MSEHasGuidByte1; MSEHasGuidByte2; MSEHasGuidByte0; MSEHasGuidByte7;
   MSEHasGuidByte5; MSEHasGuidByte3; MSEHasGuidByte6; MSEGuidByte4; MSEGuidByte7;
   MSEGuidByte1; MSEGuidByte0; MSEGuidByte3; MSEGuidByte5; MSEGuidByte6; MSEGuidByte2;
   MSEEnd].

Definition SplineMoveUnsetFlying : list MovementStatusElements :=
  [MSEHasGuidByte1; MSEHasGuidByte5; MSEHasGuidByte7; MSEHasGuidByte2; MSEHasGuidByte6;
   MSEHasGuidByte3; MSEHasGuidByte0; MSEHasGuidByte4; MSEGuidByte2; MSEGuidByte5;
   MSEGuidByte4; MSEGuidByte6; MSEGuidByte1; MSEGuidByte0; MSEGuidByte7; MSEGuidByte3;
   MSEEnd].

Definition SplineMoveSetWaterWalk : list MovementStatusElements :=
  [MSEHasGuidByte3; MSEHasGuidByte1; MSEHasGuidByte5; MSEHasGuidByte6; MSEHasGuidByte4;
   MSEHasGuidByte0; MSEHasGuidByte7; MSEHasGuidByte2; MSEGuidByte4; MSEGuidByte3;
   MSEGuidByte6; MSEGuidByte2; MSEGuidByte1; MSEGuidByte5; MSEGuidByte7; MSEGuidByte0;
   MSEEnd].

Definition SplineMoveSetLandWalk : list MovementStatusElements :=
  [MSEHasGuidByte1; MSEHasGuidByte5; MSEHasGuidByte6; MSEHasGuidByte0; MSEHasGuidByte7;
   MSEHasGuidByte2; MSEHasGuidByte3; MSEHasGuidByte4; MSEGuidByte1; MSEGuidByte6;
   MSEGuidByte4; MSEGuidByte3; MSEGuidByte7; MSEGuidByte0; MSEGuidByte2; MSEGuidByte5;
   MSEEnd].

Definition SplineMoveSetFeatherFall : list MovementStatusElements :=
  [MSEHasGuidByte1; MSEHasGuidByte5; MSEHasGuidByte6; MSEHasGuidByte3; MSEHasGuidByte7;
   MSEHasGuidByte2; MSEHasGuidByte4; MSEHasGuidByte0; MSEGuidByte7; MSEGuidByte1;
   MSEGuidByte6; MSEGuidByte4; MSEGuidByte5; MSEGuidByte3; MSEGuidByte2; MSEGuidByte0;
   MSEEnd].

Definition SplineMoveSetNormalFall : list MovementStatusElements :=
  [MSEHasGuidByte6; MSEHasGuidByte1; MSEHasGuidByte4; MSEHasGuidByte5; MSEHasGuidByte2;
   MSEHasGuidByte7; MSEHasGuidByte0; MSEHasGuidByte3; MSEGuidByte7; MSEGuidByte5;
   MSEGuidByte1; MSEGuidByte0; MSEGuidByte6; MSEGuidByte4; MSEGuidByte2; MSEGuidByte3;
   MSEEnd].

Definition SplineMoveRoot : list MovementStatusElements :=
  [MSEHasGuidByte3; MSEHasGuidByte7; MSEHasGuidByte2; MSEHasGuidByte4; MSEHasGuidByte5;
   MSEHasGuidByte6; MSEHasGuidByte0; MSEHasGuidByte1; MSEGuidByte2; MSEGuidByte4;
   MSEGuidByte5; MSEGuidByte7; MSEGuidByte1; MSEGuidByte0; MSEGuidByte3; MSEGuidByte6;
   MSEEnd].

Definition SplineMoveUnroot : list MovementStatusElements :=
  [MSEHasGuidByte1; MSEHasGuidByte5; MSEHasGuidByte2; MSEHasGuidByte0; MSEHasGuidByte3;
   MSEHasGuidByte6; MSEHasGuidByte4; MSEHasGuidByte7; MSEGuidByte2; MSEGuidByte7;
   MSEGuidByte1; MSEGuidByte3; MSEGuidByte5; MSEGuidByte0; MSEGuidByte4; MSEGuidByte6;
   MSEEnd].

Definition MoveSetCanFly : list MovementStatusElements :=
  [MSEHasGuidByte6; MSEHasGuidByte1; MSEHasGuidByte4; MSEHasGuidByte0; MSEHasGuidByte3;
   MSEHasGuidByte7; MSEHasGuidByte5; MSEHasGuidByte2; MSEGuidByte4; MSEGuidByte2;
   MSEUintCount; MSEGuidByte6; MSEGuidByte3; MSEGuidByte1; MSEGuidByte0; MSEGuidByte7;
   MSEGuidByte5; MSEEnd].

Definition MoveUnsetCanFly : list MovementStatusElements :=
  [MSEHasGuidByte6; MSEHasGuidByte5; MSEHasGuidByte0; MSEHasGuidByte4; MSEHasGuidByte3;
   MSEHasGuidByte7; MSEHasGuidByte2; MSEHasGuidByte1; MSEGuidByte4; MSEGuidByte5;
   MSEGuidByte7; MSECounter; MSEGuidByte6; MSEGuidByte2; MSEGuidByte3; MSEGuidByte1;
   MSEGuidByte0; MSEEnd].

Definition MoveSetHover : list MovementStatusElements :=
  [MSEHasGuidByte7; MSEHasGuidByte1; MSEHasGuidByte0; MSEHasGuidByte4; MSEHasGuidByte2;
   MSEHasGuidByte5; MSEHasGuidByte6; MSEHasGuidByte3; MSEGuidByte1; MSEGuidByte6;
   MSECounter; MSEGuidByte2; MSEGuidByte4; MSEGuidByte3; MSEGuidByte5; MSEGuidByte0;
   MSEGuidByte7; MSEEnd].

Definition MoveUnsetHover : list MovementStatusElements :=
  [MSEHasGuidByte3; MSEHasGuidByte5; MSEHasGuidByte6; MSEHasGuidByte0; MSEHasGuidByte1;
   MSEHasGuidByte2; MSEHasGuidByte7; MSEHasGuidByte4; MSEGuidByte6; MSEGuidByte4;
   MSEGuidByte5; MSEGuidByte3; MSEGuidByte2; MSEGuidByte1; MSEGuidByte0; MSECounter;
   MSEGuidByte7; MSEEnd].

Definition MoveWaterWalk : list MovementStatusElements :=
  [MSEHasGuidByte2; MSEHasGuidByte0; MSEHasGuidByte4; MSEHasGuidByte5; MSEHasGuidByte3;
   MSEHasGuidByte7; MSEHasGuidByte1; MSEHasGuidByte6; MSEGuidByte4; MSEGuidByte7;
   MSEGuidByte0; MSEGuidByte1; MSEGuidByte6; MSEGuidByte2; MSEGuidByte3; MSEGuidByte5;
   MSECounter; MSEEnd].

Definition MoveLandWalk : list MovementStatusElements :=
  [MSEHasGuidByte0; MSEHasGuidByte7; MSEHasGuidByte3; MSEHasGuidByte1; MSEHasGuidByte6;
   MSEHasGuidByte5; MSEHasGuidByte2; MSEHasGuidByte4; MSEGuidByte7; MSEGuidByte6;
   MSEGuidByte4; MSEGuidByte3; MSEGuidByte2; MSEGuidByte0; MSEGuidByte1; MSECounter;
   MSEGuidByte5; MSEEnd].

Definition MoveFeatherFall : list MovementStatusElements :=
  [MSEHasGuidByte4; MSEHasGuidByte1; MSEHasGuidByte7; MSEHasGuidByte3; MSEHasGuidByte0;
   MSEHasGuidByte5; MSEHasGuidByte2; MSEHasGuidByte6; MSECounter; MSEGuidByte1;
   MSEGuidByte0; MSEGuidByte5; MSEGuidByte4; MSEGuidByte6; MSEGuidByte3; MSEGuidByte2;
   MSEGuidByte7; MSEEnd].

Definition MoveNormalFall : list MovementStatusElements :=
  [MSEHasGuidByte3; MSEHasGuidByte1; MSEHasGuidByte6; MSEHasGuidByte0; MSEHasGuidByte4;
   MSEHasGuidByte7; MSEHasGuidByte2; MSEHasGuidByte5; MSEGuidByte3; MSEGuidByte2;
   MSECounter; MSEGuidByte1; MSEGuidByte5; MSEGuidByte4; MSEGuidByte7; MSEGuidByte0;
   MSEGuidByte6; MSEEnd].

Definition MoveRoot : list MovementStatusElements :=
  [MSEHasGuidByte0; MSEHasGuidByte3; MSEHasGuidByte4; MSEHasGuidByte1; MSEHasGuidByte5;
   MSEHasGuidByte2; MSEHasGuidByte6; MSEHasGuidByte7; MSEGuidByte4; MSEGuidByte7;
   MSEGuidByte1; MSEGuidByte2; MSEGuidByte6; MSEGuidByte5; MSECounter; MSEGuidByte0;
   MSEGuidByte3; MSEEnd].

Definition MoveUnroot : list MovementStatusElements :=
  [MSEHasGuidByte3; MSEHasGuidByte5; MSEHasGuidByte7; MSEHasGuidByte1; MSEHasGuidByte0;
   MSEHasGuidByte2; MSEHasGuidByte4; MSEHasGuidByte6; MSEGuidByte0; MSEGuidByte7;
   MSECounter; MSEGuidByte5; MSEGuidByte4; MSEGuidByte2; MSEGuidByte1; MSEGuidByte3;
   MSEGuidByte6; MSEEnd].

Definition ChangeSeatsOnControlledVehicle : list MovementStatusElements :=
  [MSEPositionY; MSEPositionX; MSEPositionZ; MSEExtraElement; MSEHasMovementFlags;
   MSEHasTransportData; MSEHasGuidByte2; MSEHasGuidByte6; MSEHasGuidByte4;
   MSEExtraElement; MSEExtraElement; MSEHasOrientation; MSEZeroBit; MSEExtraElement;
   MSEHasGuidByte7; MSEExtraElement; MSEHasTimestamp; MSEHasSplineElevation;
   MSEHasGuidByte5; MSEExtraElement; MSEHasMovementFlags2; MSEHasPitch; MSEExtraElement;
   MSEHasGuidByte0; MSEExtraElement; MSEHasFallData; MSEHasGuidByte1; MSEHasSpline;
   MSEMovementFlags; MSEExtraElement; MSEHasGuidByte3; MSEHasTransportGuidByte3;
   MSEHasTransportGuidByte0; MSEHasTransportGuidByte7; MSEHasTransportGuidByte5;
   MSEHasTransportTime3; MSEHasTransportGuidByte1; MSEHasTransportGuidByte2;
   MSEHasTransportTime2; MSEHasTransportGuidByte4; MSEHasTransportGuidByte6;
   MSEMovementFlags2; MSEHasFallDirection; MSEExtraElement; MSEGuidByte7; MSEGuidByte5;
   MSEExtraElement; MSEExtraElement; MSEGuidByte6; MSEExtraElement; MSEExtraElement;
   MSEGuidByte3; MSEExtraElement; MSEGuidByte0; MSEExtraElement; MSEGuidByte4;
   MSEGuidByte1; MSEExtraElement; MSEGuidByte2; MSEPitch; MSEFallCosAngle;
   MSEFallSinAngle; MSEFallHorizontalSpeed; MSEFallTime; MSEFallVerticalSpeed;
   MSETransportGuidByte2; MSETransportTime2; MSETransportTime3; MSETransportGuidByte0;
   MSETransportTime; MSETransportSeat; MSETransportPositionX; MSETransportOrientation;
   MSETransportGuidByte7; MSETransportGuidByte4; MSETransportGuidByte3;
   MSETransportGuidByte5; MSETransportPositionZ; MSETransportGuidByte1;
   MSETransportGuidByte6; MSETransportPositionY; MSESplineElevation; MSEOrientation;
   MSETimestamp; MSEEnd].

Definition CastSpellEmbeddedMovement : list MovementStatusElements :=
  [MSEPositionZ; MSEPositionY; MSEPositionX; MSEHasFallData; MSEHasTimestamp;
   MSEHasOrientation; MSEZeroBit; MSEHasSpline; MSEHasGuidByte6; MSEHasGuidByte4;
   MSEHasMovementFlags2; MSEHasGuidByte3; MSEHasGuidByte5; MSEHasSplineElevation;
   MSEHasPitch; MSEHasGuidByte7; MSEHasTransportData; MSEHasGuidByte2;
   MSEHasMovementFlags; MSEHasGuidByte1; MSEHasGuidByte0; MSEHasTransportGuidByte6;
   MSEHasTransportGuidByte2; MSEHasTransportGuidByte5; MSEHasTransportTime2;
   MSEHasTransportGuidByte7; MSEHasTransportGuidByte4; MSEHasTransportTime3;
   MSEHasTransportGuidByte0; MSEHasTransportGuidByte1; MSEHasTransportGuidByte3;
   MSEMovementFlags2; MSEMovementFlags; MSEHasFallDirection; MSEGuidByte1; MSEGuidByte4;
   MSEGuidByte7; MSEGuidByte3; MSEGuidByte0; MSEGuidByte2; MSEGuidByte5; MSEGuidByte6;
   MSETransportSeat; MSETransportOrientation; MSETransportTime; MSETransportGuidByte6;
   MSETransportGuidByte5; MSETransportTime3; MSETransportPositionX; MSETransportGuidByte4;
   MSETransportPositionZ; MSETransportGuidByte2; MSETransportGuidByte0; MSETransportTime2;
   MSETransportGuidByte1; MSETransportGuidByte3; MSETransportPositionY;
   MSETransportGuidByte7; MSEOrientation; MSESplineElevation; MSEFallTime;
   MSEFallHorizontalSpeed; MSEFallSinAngle; MSEFallCosAngle; MSEFallVerticalSpeed;
   MSETimestamp; MSEPitch; MSEEnd].

(** [GetMovementStatusElementsSequence(opcode)]; [None] is [NULL]. *)
Definition GetMovementStatusElementsSequence (opcode : Opcodes)
    : option (list MovementStatusElements) :=
  match opcode with
  | MSG_MOVE_FALL_LAND => Some MovementFallLand
  | MSG_MOVE_HEARTBEAT => Some MovementHeartBeat
  | MSG_MOVE_JUMP => Some MovementJump
  | MSG_MOVE_SET_FACING => Some MovementSetFacing
  | MSG_MOVE_SET_PITCH => Some MovementSetPitch
  | MSG_MOVE_START_ASCEND => Some MovementStartAscend
  | MSG_MOVE_START_BACKWARD => Some MovementStartBackward
  | MSG_MOVE_START_DESCEND => Some MovementStartDescend
  | MSG_MOVE_START_FORWARD => Some MovementStartForward
  | MSG_MOVE_START_PITCH_DOWN => Some MovementStartPitchDown
  | MSG_MOVE_START_PITCH_UP => Some MovementStartPitchUp
  | MSG_MOVE_START_STRAFE_LEFT => Some MovementStartStrafeLeft
  | MSG_MOVE_START_STRAFE_RIGHT => Some MovementStartStrafeRight
  | MSG_MOVE_START_SWIM => Some MovementStartSwim
  | MSG_MOVE_START_TURN_LEFT => Some MovementStartTurnLeft
  | MSG_MOVE_START_TURN_RIGHT => Some MovementStartTurnRight
  | MSG_MOVE_STOP => Some MovementStop
  | MSG_MOVE_STOP_ASCEND => Some MovementStopAscend
  | MSG_MOVE_STOP_PITCH => Some MovementStopPitch
  | MSG_MOVE_STOP_STRAFE => Some MovementStopStrafe
  | MSG_MOVE_STOP_SWIM => Some MovementStopSwim
  | MSG_MOVE_STOP_TURN => Some MovementStopTurn
  | SMSG_PLAYER_MOVE => Some PlayerMove
  | CMSG_MOVE_CHNG_TRANSPORT => Some MoveChngTransport
  | CMSG_MOVE_SPLINE_DONE => Some MoveSplineDone
  | CMSG_FORCE_MOVE_ROOT_ACK => Some ForceMoveRootAck
  | CMSG_FORCE_MOVE_UNROOT_ACK => Some ForceMoveUnrootAck
  | SMSG_MOVE_SET_COLLISION_HEIGHT => Some MoveSetCollisionHeight
  | SMSG_SPLINE_MOVE_SET_WALK_SPEED => Some SplineMoveSetWalkSpeed
  | SMSG_SPLINE_MOVE_SET_RUN_SPEED => Some SplineMoveSetRunSpeed
  | SMSG_SPLINE_MOVE_SET_RUN_BACK_SPEED => Some SplineMoveSetRunBackSpeed
  | SMSG_SPLINE_MOVE_SET_SWIM_SPEED => Some SplineMoveSetSwimSpeed
  | SMSG_SPLINE_MOVE_SET_SWIM_BACK_SPEED => Some SplineMoveSetSwimBackSpeed
  | SMSG_SPLINE_MOVE_SET_TURN_RATE => Some SplineMoveSetTurnRate
  | SMSG_SPLINE_MOVE_SET_FLIGHT_SPEED => Some SplineMoveSetFlightSpeed
  | SMSG_SPLINE_MOVE_SET_FLIGHT_BACK_SPEED => Some SplineMoveSetFlightBackSpeed
  | SMSG_SPLINE_MOVE_SET_PITCH_RATE => Some SplineMoveSetPitchRate
  | SMSG_MOVE_SET_WALK_SPEED => Some MoveSetWalkSpeed
  | SMSG_MOVE_SET_RUN_SPEED => Some MoveSetRunSpeed
  | SMSG_MOVE_SET_RUN_BACK_SPEED => Some MoveSetRunBackSpeed
  | SMSG_MOVE_SET_SWIM_SPEED => Some MoveSetSwimSpeed
  | SMSG_MOVE_SET_SWIM_BACK_SPEED => Some MoveSetSwimBackSpeed
  | SMSG_MOVE_SET_TURN_RATE => Some MoveSetTurnRate
  | SMSG_MOVE_SET_FLIGHT_SPEED => Some MoveSetFlightSpeed
  | SMSG_MOVE_SET_FLIGHT_BACK_SPEED => Some MoveSetFlightBackSpeed
  | SMSG_MOVE_SET_PITCH_RATE => Some MoveSetPitchRate
  | SMSG_SPLINE_MOVE_SET_WALK_MODE => Some SplineMoveSetWalkMode
  | SMSG_SPLINE_MOVE_SET_RUN_MODE => Some SplineMoveSetRunMode
  | SMSG_SPLINE_MOVE_GRAVITY_DISABLE => Some SplineMoveGravityDisable
  | SMSG_SPLINE_MOVE_GRAVITY_ENABLE => Some SplineMoveGravityEnable
  | SMSG_SPLINE_MOVE_SET_HOVER => Some SplineMoveSetHover
  | SMSG_SPLINE_MOVE_UNSET_HOVER => Some SplineMoveUnsetHover
  | SMSG_SPLINE_MOVE_START_SWIM => Some SplineMoveStartSwim
  | SMSG_SPLINE_MOVE_STOP_SWIM => Some SplineMoveStopSwim
  | SMSG_SPLINE_MOVE_SET_FLYING => Some SplineMoveSetFlying
  | SMSG_SPLINE_MOVE_UNSET_FLYING => Some SplineMoveUnsetFlying
  | SMSG_SPLINE_MOVE_SET_WATER_WALK => Some SplineMoveSetWaterWalk
  | SMSG_SPLINE_MOVE_SET_LAND_WALK => Some SplineMoveSetLandWalk
  | SMSG_SPLINE_MOVE_SET_FEATHER_FALL => Some SplineMoveSetFeatherFall
  | SMSG_SPLINE_MOVE_SET_NORMAL_FALL => Some SplineMoveSetNormalFall
  | SMSG_SPLINE_MOVE_ROOT => Some SplineMoveRoot
  | SMSG_SPLINE_MOVE_UNROOT => Some SplineMoveUnroot
  | SMSG_MOVE_SET_CAN_FLY => Some MoveSetCanFly
  | SMSG_MOVE_UNSET_CAN_FLY => Some MoveUnsetCanFly
  | SMSG_MOVE_SET_HOVER => Some MoveSetHover
  | SMSG_MOVE_UNSET_HOVER => Some MoveUnsetHover
  | SMSG_MOVE_WATER_WALK => Some MoveWaterWalk
  | SMSG_MOVE_LAND_WALK => Some MoveLandWalk
  | SMSG_MOVE_FEATHER_FALL => Some MoveFeatherFall
  | SMSG_MOVE_NORMAL_FALL => Some MoveNormalFall
  | SMSG_MOVE_ROOT => Some MoveRoot
  | SMSG_MOVE_UNROOT => Some MoveUnroot
  | _ => None
  end.

(** The opcodes whose packets a client sends. *)
Definition client_opcodes : list Opcodes :=
  [MSG_MOVE_FALL_LAND; MSG_MOVE_HEARTBEAT; MSG_MOVE_JUMP; MSG_MOVE_SET_FACING;
   MSG_MOVE_SET_PITCH; MSG_MOVE_START_ASCEND; MSG_MOVE_START_BACKWARD;
   MSG_MOVE_START_DESCEND; MSG_MOVE_START_FORWARD; MSG_MOVE_START_PITCH_DOWN;
   MSG_MOVE_START_PITCH_UP; MSG_MOVE_START_STRAFE_LEFT; MSG_MOVE_START_STRAFE_RIGHT;
   MSG_MOVE_START_SWIM; MSG_MOVE_START_TURN_LEFT; MSG_MOVE_START_TURN_RIGHT;
   MSG_MOVE_STOP; MSG_MOVE_STOP_ASCEND; MSG_MOVE_STOP_PITCH; MSG_MOVE_STOP_STRAFE;
   MSG_MOVE_STOP_SWIM; MSG_MOVE_STOP_TURN; CMSG_MOVE_CHNG_TRANSPORT;
   CMSG_MOVE_SPLINE_DONE; CMSG_FORCE_MOVE_ROOT_ACK; CMSG_FORCE_MOVE_UNROOT_ACK].

(** The opcodes whose packets the server sends. *)
Definition server_opcodes : list Opcodes :=
  [SMSG_PLAYER_MOVE; SMSG_MOVE_SET_COLLISION_HEIGHT; SMSG_SPLINE_MOVE_SET_WALK_SPEED;
   SMSG_SPLINE_MOVE_SET_RUN_SPEED; SMSG_SPLINE_MOVE_SET_RUN_BACK_SPEED;
   SMSG_SPLINE_MOVE_SET_SWIM_SPEED; SMSG_SPLINE_MOVE_SET_SWIM_BACK_SPEED;
   SMSG_SPLINE_MOVE_SET_TURN_RATE; SMSG_SPLINE_MOVE_SET_FLIGHT_SPEED;
   SMSG_SPLINE_MOVE_SET_FLIGHT_BACK_SPEED; SMSG_SPLINE_MOVE_SET_PITCH_RATE;
   SMSG_MOVE_SET_WALK_SPEED; SMSG_MOVE_SET_RUN_SPEED; SMSG_MOVE_SET_RUN_BACK_SPEED;
   SMSG_MOVE_SET_SWIM_SPEED; SMSG_MOVE_SET_SWIM_BACK_SPEED; SMSG_MOVE_SET_TURN_RATE;
   SMSG_MOVE_SET_FLIGHT_SPEED; SMSG_MOVE_SET_FLIGHT_BACK_SPEED; SMSG_MOVE_SET_PITCH_RATE;
   SMSG_SPLINE_MOVE_SET_WALK_MODE; SMSG_SPLINE_MOVE_SET_RUN_MODE;
   SMSG_SPLINE_MOVE_GRAVITY_DISABLE; SMSG_SPLINE_MOVE_GRAVITY_ENABLE;
   SMSG_SPLINE_MOVE_SET_HOVER; SMSG_SPLINE_MOVE_UNSET_HOVER; SMSG_SPLINE_MOVE_START_SWIM;
   SMSG_SPLINE_MOVE_STOP_SWIM; SMSG_SPLINE_MOVE_SET_FLYING; SMSG_SPLINE_MOVE_UNSET_FLYING;
   SMSG_SPLINE_MOVE_SET_WATER_WALK; SMSG_SPLINE_MOVE_SET_LAND_WALK;
   SMSG_SPLINE_MOVE_SET_FEATHER_FALL; SMSG_SPLINE_MOVE_SET_NORMAL_FALL;
   SMSG_SPLINE_MOVE_ROOT; SMSG_SPLINE_MOVE_UNROOT; SMSG_MOVE_SET_CAN_FLY;
   SMSG_MOVE_UNSET_CAN_FLY; SMSG_MOVE_SET_HOVER; SMSG_MOVE_UNSET_HOVER;
   SMSG_MOVE_WATER_WALK; SMSG_MOVE_LAND_WALK; SMSG_MOVE_FEATHER_FALL;
   SMSG_MOVE_NORMAL_FALL; SMSG_MOVE_ROOT; SMSG_MOVE_UNROOT].

(** The arrays of the file that no opcode selects. *)
Definition unselected_layouts : list (list MovementStatusElements) :=
  [MoveNotActiveMover; DismissControlledVehicle; MoveUpdateTeleport; MovementSetRunMode;
   MovementSetWalkMode; MovementSetCanFly; MovementSetCanTransitionBetweenSwimAndFlyAck;
   MovementUpdateSwimSpeed; MovementUpdateRunSpeed; MovementUpdateFlightSpeed;
   MovementUpdateCollisionHeight; MovementForceRunSpeedChangeAck;
   MovementSetCollisionHeightAck; MovementForceFlightSpeedChangeAck; MovementSetCanFlyAck;
   MovementForceSwimSpeedChangeAck; MovementForceWalkSpeedChangeAck;
   MovementForceRunBackSpeedChangeAck; MovementUpdateRunBackSpeed;
   MovementUpdateWalkSpeed; MovementFallReset; MovementFeatherFallAck;
   MovementGravityDisableAck; MovementGravityEnableAck; MovementHoverAck;
   MovementKnockBackAck; MovementWaterWalkAck; MovementUpdateKnockBack;
   ChangeSeatsOnControlledVehicle; CastSpellEmbeddedMovement].
