(* ===== verification/MovementInfo.v ===== *)
(** * MovementInfo: movement state, movement flags and object GUIDs

    The plain data of src/server/game/Entities/Object/Object.h
    ([ObjectGuid], [Position], [MovementInfo]) and the flag constants of
    src/server/game/Entities/Unit/Unit.h, with the flag clean-up that
    [Player::ReadMovementInfo] applies to what a client sent.  A [float] is
    its 32-bit pattern; the floating-point functions the code calls are the
    operations of the class [FloatOps]. *)
From S2P Require Import Prelude.
Local Open Scope Z_scope.

(** ** Floats *)

Definition f32 : Type := Z.

Class FloatOps := {
  (** [G3D::fuzzyEq(a, b)] *)
  fuzzyEq : f32 -> f32 -> bool;
  (** [G3D::wrap(t, float(-M_PI), float(M_PI))] *)
  wrap_pi : f32 -> f32;
  (** [Position::NormalizeOrientation(o)], an [fmod] by two pi *)
  NormalizeOrientation : f32 -> f32
}.

(** ** [ObjectGuid]: the [byte[8]] view of the union *)

Definition ObjectGuid : Type := list Z.
(** [ObjectGuid()] and [ObjectGuid(uint64 guid)] *)
Definition ObjectGuid_of (guid : Z) : ObjectGuid := le_bytes 8 guid.
Definition ObjectGuid_empty : ObjectGuid := ObjectGuid_of 0.
(** [operator uint64()] *)
Definition guid_u64 (g : ObjectGuid) : Z := le_value g.
(** [guid[index]] on the right and on the left of an assignment; every index
    the code uses is below 8. *)
Definition guid_get (g : ObjectGuid) (index : nat) : Z := nth index g 0.
Definition guid_set (g : ObjectGuid) (index : nat) (x : Z) : ObjectGuid := <[index:=x]> g.

Lemma guid_u64_of g : guid_u64 (ObjectGuid_of g) = u64 g.
Proof. apply le_value_le_bytes. Qed.

Lemma guid_get_byte g i : is_byte (guid_get (ObjectGuid_of g) i).
Proof.
  unfold guid_get. destruct (nth_in_or_default i (ObjectGuid_of g) 0) as [Hin| ->]; [|done].
  apply (proj1 (List.Forall_forall _ _) (le_bytes_bytes 8 g)). exact Hin.
Qed.

(** ** Positions and movement info *)

Record Position := mkPosition {
  m_positionX : f32;
  m_positionY : f32;
  m_positionZ : f32;
  m_orientation : f32
}.

(** [MovementInfo::TransportInfo] *)
Record TransportInfo := mkTransportInfo {
  tr_guid : Z;
  tr_pos : Position;
  seat : Z;
  tr_time : Z;
  time2 : Z;
  time3 : Z
}.

(** [MovementInfo::JumpInfo] *)
Record JumpInfo := mkJumpInfo {
  fallTime : Z;
  zspeed : f32;
  sinAngle : f32;
  cosAngle : f32;
  xyspeed : f32
}.

Record MovementInfo := mkMovementInfo {
  mi_guid : Z;
  flags : Z;
  flags2 : Z;
  pos : Position;
  time : Z;
  transport : TransportInfo;
  pitch : f32;
  jump : JumpInfo;
  splineElevation : f32
}.

(** Assignments to single members. *)
Definition set_m_positionX x (r : Position) : Position :=
  mkPosition x (m_positionY r) (m_positionZ r) (m_orientation r).
Definition set_m_positionY x (r : Position) : Position :=
  mkPosition (m_positionX r) x (m_positionZ r) (m_orientation r).
Definition set_m_positionZ x (r : Position) : Position :=
  mkPosition (m_positionX r) (m_positionY r) x (m_orientation r).
Definition set_m_orientation x (r : Position) : Position :=
  mkPosition (m_positionX r) (m_positionY r) (m_positionZ r) x.
Definition set_tr_guid x (r : TransportInfo) : TransportInfo :=
  mkTransportInfo x (tr_pos r) (seat r) (tr_time r) (time2 r) (time3 r).
Definition set_tr_pos x (r : TransportInfo) : TransportInfo :=
  mkTransportInfo (tr_guid r) x (seat r) (tr_time r) (time2 r) (time3 r).
Definition set_seat x (r : TransportInfo) : TransportInfo :=
  mkTransportInfo (tr_guid r) (tr_pos r) x (tr_time r) (time2 r) (time3 r).
Definition set_tr_time x (r : TransportInfo) : TransportInfo :=
  mkTransportInfo (tr_guid r) (tr_pos r) (seat r) x (time2 r) (time3 r).
Definition set_time2 x (r : TransportInfo) : TransportInfo :=
  mkTransportInfo (tr_guid r) (tr_pos r) (seat r) (tr_time r) x (time3 r).
Definition set_time3 x (r : TransportInfo) : TransportInfo :=
  mkTransportInfo (tr_guid r) (tr_pos r) (seat r) (tr_time r) (time2 r) x.
Definition set_fallTime x (r : JumpInfo) : JumpInfo :=
  mkJumpInfo x (zspeed r) (sinAngle r) (cosAngle r) (xyspeed r).
Definition set_zspeed x (r : JumpInfo) : JumpInfo :=
  mkJumpInfo (fallTime r) x (sinAngle r) (cosAngle r) (xyspeed r).
Definition set_sinAngle x (r : JumpInfo) : JumpInfo :=
  mkJumpInfo (fallTime r) (zspeed r) x (cosAngle r) (xyspeed r).
Definition set_cosAngle x (r : JumpInfo) : JumpInfo :=
  mkJumpInfo (fallTime r) (zspeed r) (sinAngle r) x (xyspeed r).
Definition set_xyspeed x (r : JumpInfo) : JumpInfo :=
  mkJumpInfo (fallTime r) (zspeed r) (sinAngle r) (cosAngle r) x.
Definition set_mi_guid x (r : MovementInfo) : MovementInfo :=
  mkMovementInfo x (flags r) (flags2 r) (pos r) (time r) (transport r) (pitch r) (jump r)
    (splineElevation r).
Definition set_flags x (r : MovementInfo) : MovementInfo :=
  mkMovementInfo (mi_guid r) x (flags2 r) (pos r) (time r) (transport r) (pitch r) (jump r)
    (splineElevation r).
Definition set_flags2 x (r : MovementInfo) : MovementInfo :=
  mkMovementInfo (mi_guid r) (flags r) x (pos r) (time r) (transport r) (pitch r) (jump r)
    (splineElevation r).
Definition set_pos x (r : MovementInfo) : MovementInfo :=
  mkMovementInfo (mi_guid r) (flags r) (flags2 r) x (time r) (transport r) (pitch r) (jump
    r) (splineElevation r).
Definition set_time x (r : MovementInfo) : MovementInfo :=
  mkMovementInfo (mi_guid r) (flags r) (flags2 r) (pos r) x (transport r) (pitch r) (jump r)
    (splineElevation r).
Definition set_transport x (r : MovementInfo) : MovementInfo :=
  mkMovementInfo (mi_guid r) (flags r) (flags2 r) (pos r) (time r) x (pitch r) (jump r)
    (splineElevation r).
Definition set_pitch x (r : MovementInfo) : MovementInfo :=
  mkMovementInfo (mi_guid r) (flags r) (flags2 r) (pos r) (time r) (transport r) x (jump r)
    (splineElevation r).
Definition set_jump x (r : MovementInfo) : MovementInfo :=
  mkMovementInfo (mi_guid r) (flags r) (flags2 r) (pos r) (time r) (transport r) (pitch r) x
    (splineElevation r).
Definition set_splineElevation x (r : MovementInfo) : MovementInfo :=
  mkMovementInfo (mi_guid r) (flags r) (flags2 r) (pos r) (time r) (transport r) (pitch r)
    (jump r) x.

Section Info.
Context {FO : FloatOps}.

(** [Position::SetOrientation] *)
Definition SetOrientation (o : f32) (p : Position) : Position :=
  set_m_orientation (NormalizeOrientation o) p.

(** [Position::Relocate(x, y, z, orientation)] *)
Definition Relocate (x y z o : f32) : Position :=
  SetOrientation o (mkPosition x y z 0).

(** [TransportInfo::Reset()] and [JumpInfo::Reset()] *)
Definition TransportInfo_Reset : TransportInfo := mkTransportInfo 0 (Relocate 0 0 0 0) (-1) 0 0 0.
Definition JumpInfo_Reset : JumpInfo := mkJumpInfo 0 0 0 0 0.

(** [MovementInfo()] *)
Definition new_MovementInfo : MovementInfo :=
  mkMovementInfo 0 0 0 (Relocate 0 0 0 0) 0 TransportInfo_Reset 0 JumpInfo_Reset 0.

(** [HasMovementFlag], [AddMovementFlag], [RemoveMovementFlag] *)
Definition HasMovementFlag (mi : MovementInfo) (flag : Z) : bool := has_flag (flags mi) flag.
Definition AddMovementFlag (flag : Z) (mi : MovementInfo) : MovementInfo :=
  set_flags (add_flag (flags mi) flag) mi.
Definition RemoveMovementFlag (flag : Z) (mi : MovementInfo) : MovementInfo :=
  set_flags (remove_flag (flags mi) flag) mi.
Definition HasExtraMovementFlag (mi : MovementInfo) (flag : Z) : bool := has_flag (flags2 mi) flag.

End Info.

(** ** [enum MovementFlags] and the one [MovementFlags2] the code tests *)

Definition MOVEMENTFLAG_NONE : Z := 0x00000000.
Definition MOVEMENTFLAG_FORWARD : Z := 0x00000001.
Definition MOVEMENTFLAG_BACKWARD : Z := 0x00000002.
Definition MOVEMENTFLAG_STRAFE_LEFT : Z := 0x00000004.
Definition MOVEMENTFLAG_STRAFE_RIGHT : Z := 0x00000008.
Definition MOVEMENTFLAG_LEFT : Z := 0x00000010.
Definition MOVEMENTFLAG_RIGHT : Z := 0x00000020.
Definition MOVEMENTFLAG_PITCH_UP : Z := 0x00000040.
Definition MOVEMENTFLAG_PITCH_DOWN : Z := 0x00000080.
Definition MOVEMENTFLAG_WALKING : Z := 0x00000100.
Definition MOVEMENTFLAG_DISABLE_GRAVITY : Z := 0x00000200.
Definition MOVEMENTFLAG_ROOT : Z := 0x00000400.
Definition MOVEMENTFLAG_FALLING : Z := 0x00000800.
Definition MOVEMENTFLAG_FALLING_FAR : Z := 0x00001000.
Definition MOVEMENTFLAG_PENDING_STOP : Z := 0x00002000.
Definition MOVEMENTFLAG_PENDING_STRAFE_STOP : Z := 0x00004000.
Definition MOVEMENTFLAG_PENDING_FORWARD : Z := 0x00008000.
Definition MOVEMENTFLAG_PENDING_BACKWARD : Z := 0x00010000.
Definition MOVEMENTFLAG_PENDING_STRAFE_LEFT : Z := 0x00020000.
Definition MOVEMENTFLAG_PENDING_STRAFE_RIGHT : Z := 0x00040000.
Definition MOVEMENTFLAG_PENDING_ROOT : Z := 0x00080000.
Definition MOVEMENTFLAG_SWIMMING : Z := 0x00100000.
Definition MOVEMENTFLAG_ASCENDING : Z := 0x00200000.
Definition MOVEMENTFLAG_DESCENDING : Z := 0x00400000.
Definition MOVEMENTFLAG_CAN_FLY : Z := 0x00800000.
Definition MOVEMENTFLAG_FLYING : Z := 0x01000000.
Definition MOVEMENTFLAG_SPLINE_ELEVATION : Z := 0x02000000.
Definition MOVEMENTFLAG_WATERWALKING : Z := 0x04000000.
Definition MOVEMENTFLAG_FALLING_SLOW : Z := 0x08000000.
Definition MOVEMENTFLAG_HOVER : Z := 0x10000000.
Definition MOVEMENTFLAG_DISABLE_COLLISION : Z := 0x20000000.
Definition MOVEMENTFLAG2_ALWAYS_ALLOW_PITCHING : Z := 0x10.

(** ** The anti-cheat pass of [Player::ReadMovementInfo] *)

(** What the pass asks the player object: its auras, the mover's auras and
    the account's security level. *)
Inductive AuraType :=
| SPELL_AURA_HOVER
| SPELL_AURA_WATER_WALK
| SPELL_AURA_FEATHER_FALL
| SPELL_AURA_FLY
| SPELL_AURA_MOD_INCREASE_MOUNTED_FLIGHT_SPEED.

Record PlayerView := mkPlayerView {
  HasAuraType : AuraType -> bool;
  m_mover_HasAuraType : AuraType -> bool;
  GetSecurity : Z
}.

Definition SEC_PLAYER : Z := 0.

(** [REMOVE_VIOLATING_FLAGS(check, maskToRemove)] *)
Definition REMOVE_VIOLATING_FLAGS (check : MovementInfo -> bool) (maskToRemove : Z)
    (mi : MovementInfo) : MovementInfo :=
  if check mi then RemoveMovementFlag maskToRemove mi else mi.

Section AntiCheat.
Context {FO : FloatOps}.
Variable pl : PlayerView.
(** The locals of [ReadMovementInfo] the pass looks at. *)
Variables hasFallData hasFallDirection hasSplineElevation : bool.

Definition both (a b : Z) (mi : MovementInfo) : bool := HasMovementFlag mi a && HasMovementFlag mi b.

(** The thirteen checks, in the order of the source. *)
Definition violations : list ((MovementInfo -> bool) * Z) :=
  [ (fun mi => HasMovementFlag mi MOVEMENTFLAG_ROOT, MOVEMENTFLAG_ROOT);
    (fun mi => HasMovementFlag mi MOVEMENTFLAG_HOVER && negb (HasAuraType pl SPELL_AURA_HOVER),
     MOVEMENTFLAG_HOVER);
    (both MOVEMENTFLAG_ASCENDING MOVEMENTFLAG_DESCENDING,
     Z.lor MOVEMENTFLAG_ASCENDING MOVEMENTFLAG_DESCENDING);
    (both MOVEMENTFLAG_LEFT MOVEMENTFLAG_RIGHT, Z.lor MOVEMENTFLAG_LEFT MOVEMENTFLAG_RIGHT);
    (both MOVEMENTFLAG_STRAFE_LEFT MOVEMENTFLAG_STRAFE_RIGHT,
     Z.lor MOVEMENTFLAG_STRAFE_LEFT MOVEMENTFLAG_STRAFE_RIGHT);
    (both MOVEMENTFLAG_PITCH_UP MOVEMENTFLAG_PITCH_DOWN,
     Z.lor MOVEMENTFLAG_PITCH_UP MOVEMENTFLAG_PITCH_DOWN);
    (both MOVEMENTFLAG_FORWARD MOVEMENTFLAG_BACKWARD,
     Z.lor MOVEMENTFLAG_FORWARD MOVEMENTFLAG_BACKWARD);
    (fun mi => HasMovementFlag mi MOVEMENTFLAG_WATERWALKING
               && negb (HasAuraType pl SPELL_AURA_WATER_WALK),
     MOVEMENTFLAG_WATERWALKING);
    (fun mi => HasMovementFlag mi MOVEMENTFLAG_FALLING_SLOW
               && negb (HasAuraType pl SPELL_AURA_FEATHER_FALL),
     MOVEMENTFLAG_FALLING_SLOW);
    (fun mi => HasMovementFlag mi (Z.lor MOVEMENTFLAG_FLYING MOVEMENTFLAG_CAN_FLY)
               && (GetSecurity pl =? SEC_PLAYER)
               && negb (m_mover_HasAuraType pl SPELL_AURA_FLY)
               && negb (m_mover_HasAuraType pl SPELL_AURA_MOD_INCREASE_MOUNTED_FLIGHT_SPEED),
     Z.lor MOVEMENTFLAG_FLYING MOVEMENTFLAG_CAN_FLY);
    (fun mi => HasMovementFlag mi (Z.lor MOVEMENTFLAG_DISABLE_GRAVITY MOVEMENTFLAG_CAN_FLY)
               && HasMovementFlag mi MOVEMENTFLAG_FALLING,
     MOVEMENTFLAG_FALLING);
    (fun mi => HasMovementFlag mi MOVEMENTFLAG_FALLING
               && (negb hasFallData || negb hasFallDirection),
     MOVEMENTFLAG_FALLING);
    (fun mi => HasMovementFlag mi MOVEMENTFLAG_SPLINE_ELEVATION
               && (negb hasSplineElevation || fuzzyEq (splineElevation mi) 0),
     MOVEMENTFLAG_SPLINE_ELEVATION) ].

Definition run_violations (vs : list ((MovementInfo -> bool) * Z)) (mi : MovementInfo)
    : MovementInfo :=
  foldl (fun mi v => REMOVE_VIOLATING_FLAGS v.1 v.2 mi) mi vs.

Definition remove_violating_flags (mi : MovementInfo) : MovementInfo :=
  let mi := run_violations violations mi in
  if hasSplineElevation then AddMovementFlag MOVEMENTFLAG_SPLINE_ELEVATION mi else mi.

End AntiCheat.

(** ** Why the pass works: every check is monotone and defeats itself *)

(** [mi'] is [mi] with some movement flags removed. *)
Definition fewer_flags (mi' mi : MovementInfo) : Prop :=
  exists f, mi' = set_flags f mi /\
            forall k, 0 <= k -> Z.testbit f k = true -> Z.testbit (flags mi) k = true.

Lemma set_flags_set_flags f g mi : set_flags f (set_flags g mi) = set_flags f mi.
Proof. done. Qed.

Lemma set_flags_id mi : set_flags (flags mi) mi = mi.
Proof. by destruct mi. Qed.

#[export] Instance fewer_flags_preorder : PreOrder fewer_flags.
Proof.
  split.
  - intros mi. exists (flags mi). by rewrite set_flags_id.
  - intros x y z (f & -> & Hf) (g & -> & Hg). exists f. split; [done|].
    intros k Hk H. apply Hg, Hf; done.
Qed.

Lemma RemoveMovementFlag_fewer m mi : fewer_flags (RemoveMovementFlag m mi) mi.
Proof.
  eexists. split; [done|]. intros k _. rewrite testbit_remove_flag, andb_true_iff. by intros [].
Qed.

Lemma REMOVE_fewer c m mi : fewer_flags (REMOVE_VIOLATING_FLAGS c m mi) mi.
Proof.
  unfold REMOVE_VIOLATING_FLAGS. destruct (c mi); [apply RemoveMovementFlag_fewer|reflexivity].
Qed.

Lemma run_violations_fewer vs mi : fewer_flags (run_violations vs mi) mi.
Proof.
  revert mi. induction vs as [|v vs IH]; intros mi; cbn; [reflexivity|].
  etransitivity; [apply IH|apply REMOVE_fewer].
Qed.

Lemma fewer_HasMovementFlag mi' mi m :
  fewer_flags mi' mi -> HasMovementFlag mi' m = true -> HasMovementFlag mi m = true.
Proof.
  unfold HasMovementFlag. intros (f & -> & Hf). rewrite !has_flag_spec.
  intros (i & Hi & H1 & H2). exists i. auto.
Qed.

(** A check that can only become false when flags are removed. *)
Definition monotone (c : MovementInfo -> bool) : Prop :=
  forall mi' mi, fewer_flags mi' mi -> c mi' = true -> c mi = true.

Lemma monotone_flag m : monotone (fun mi => HasMovementFlag mi m).
Proof. intros mi' mi. apply fewer_HasMovementFlag. Qed.

Lemma monotone_and c c' : monotone c -> monotone c' -> monotone (fun mi => c mi && c' mi).
Proof. intros Hc Hc' mi' mi Hf. rewrite !andb_true_iff. intros []. split; eauto. Qed.

Lemma monotone_const (b : bool) : monotone (fun _ => b).
Proof. by intros mi' mi _. Qed.

Lemma removed_flag m m' mi :
  Z.land m m' = m -> HasMovementFlag (RemoveMovementFlag m' mi) m = false.
Proof.
  intros Hm. unfold HasMovementFlag. apply not_true_iff_false. rewrite has_flag_spec.
  intros (i & Hi & H1 & H2). cbn in H1. rewrite testbit_remove_flag in H1.
  rewrite <- Hm, Z.land_spec in H2. apply andb_true_iff in H1 as [_ H1], H2 as [_ H2].
  by rewrite H2 in H1.
Qed.

(** After the run no check is violated any more. *)
Lemma run_violations_clean vs mi :
  Forall (fun v => monotone v.1 /\ forall mi, v.1 (RemoveMovementFlag v.2 mi) = false) vs ->
  Forall (fun v => v.1 (run_violations vs mi) = false) vs.
Proof.
  intros Hvs. revert mi. induction Hvs as [|[c m] vs [Hmono Hself] _ IH]; intros mi; [done|].
  cbn in Hmono, Hself |- *. constructor; [|apply IH].
  apply not_true_iff_false. cbn. intros H.
  eapply Hmono in H; [|apply run_violations_fewer].
  unfold REMOVE_VIOLATING_FLAGS in H. destruct (c mi) eqn:Hc; congruence.
Qed.

(** A packet no check objects to is left as it is. *)
Lemma run_violations_id vs mi :
  Forall (fun v => v.1 mi = false) vs -> run_violations vs mi = mi.
Proof.
  induction 1 as [|v vs Hv _ IH]; [done|].
  change (run_violations vs (REMOVE_VIOLATING_FLAGS v.1 v.2 mi) = mi).
  unfold REMOVE_VIOLATING_FLAGS. by rewrite Hv.
Qed.

Create HintDb anticheat.
#[export] Hint Resolve monotone_flag monotone_and monotone_const : anticheat.

Section AntiCheatProps.
Context {FO : FloatOps}.
Variable pl : PlayerView.
Variables fallData fallDir splineElev : bool.

Lemma monotone_fuzzy b : monotone (fun mi => b || fuzzyEq (splineElevation mi) 0).
Proof. intros mi' mi (f & -> & _). done. Qed.

Lemma violations_ok :
  Forall (fun v => monotone v.1 /\ forall mi, v.1 (RemoveMovementFlag v.2 mi) = false)
         (violations pl fallData fallDir splineElev).
Proof.
  unfold violations, both.
  repeat constructor; cbn [fst snd];
    try (intros mi; rewrite removed_flag by reflexivity; by rewrite ?andb_false_r);
    auto 10 using monotone_fuzzy with anticheat.
  intros mi. rewrite (removed_flag MOVEMENTFLAG_FALLING) by reflexivity. apply andb_false_r.
Qed.

Lemma HasMovementFlag_lor mi a b :
  HasMovementFlag mi (Z.lor a b) = HasMovementFlag mi a || HasMovementFlag mi b.
Proof. apply has_flag_lor. Qed.

Lemma AddMovementFlag_has m m' mi :
  HasMovementFlag (AddMovementFlag m mi) m'
  = HasMovementFlag mi m' || negb (Z.land m m' =? 0).
Proof.
  unfold HasMovementFlag, AddMovementFlag, add_flag. cbn [flags set_flags].
  unfold has_flag at 1. rewrite Z.land_comm. fold (has_flag m' (Z.lor (flags mi) m)).
  rewrite has_flag_lor. unfold has_flag. by rewrite (Z.land_comm m'), (Z.land_comm m').
Qed.

(** The clean-up adds at most the spline-elevation flag to a subset of the
    client's flags and touches nothing else. *)
Lemma remove_violating_flags_frame mi :
  exists f, remove_violating_flags pl fallData fallDir splineElev mi = set_flags f mi /\
    forall k, 0 <= k -> Z.testbit f k = true ->
      Z.testbit (flags mi) k = true
      \/ splineElev = true /\ Z.testbit MOVEMENTFLAG_SPLINE_ELEVATION k = true.
Proof.
  unfold remove_violating_flags.
  destruct (run_violations_fewer (violations pl fallData fallDir splineElev) mi) as (f & -> & Hf).
  destruct splineElev; [|exists f; split; [done|]; intros k Hk H; left; auto].
  unfold AddMovementFlag. rewrite set_flags_set_flags. eexists. split; [done|].
  intros k Hk. cbn. rewrite testbit_add_flag, orb_true_iff. intros [H|H]; auto.
Qed.

(** No check of the pass objects to [mi]: what that says, flag by flag. *)
Lemma violations_clean_flags mi :
  Forall (fun v => v.1 mi = false) (violations pl fallData fallDir splineElev) ->
  let has := HasMovementFlag mi in
  has MOVEMENTFLAG_ROOT = false /\
  (has MOVEMENTFLAG_HOVER && negb (HasAuraType pl SPELL_AURA_HOVER) = false) /\
  (has MOVEMENTFLAG_ASCENDING && has MOVEMENTFLAG_DESCENDING = false) /\
  (has MOVEMENTFLAG_LEFT && has MOVEMENTFLAG_RIGHT = false) /\
  (has MOVEMENTFLAG_STRAFE_LEFT && has MOVEMENTFLAG_STRAFE_RIGHT = false) /\
  (has MOVEMENTFLAG_PITCH_UP && has MOVEMENTFLAG_PITCH_DOWN = false) /\
  (has MOVEMENTFLAG_FORWARD && has MOVEMENTFLAG_BACKWARD = false) /\
  (has MOVEMENTFLAG_WATERWALKING && negb (HasAuraType pl SPELL_AURA_WATER_WALK) = false) /\
  (has MOVEMENTFLAG_FALLING_SLOW && negb (HasAuraType pl SPELL_AURA_FEATHER_FALL) = false) /\
  ((has MOVEMENTFLAG_FLYING || has MOVEMENTFLAG_CAN_FLY)
   && (GetSecurity pl =? SEC_PLAYER) && negb (m_mover_HasAuraType pl SPELL_AURA_FLY)
   && negb (m_mover_HasAuraType pl SPELL_AURA_MOD_INCREASE_MOUNTED_FLIGHT_SPEED) = false) /\
  ((has MOVEMENTFLAG_DISABLE_GRAVITY || has MOVEMENTFLAG_CAN_FLY)
   && has MOVEMENTFLAG_FALLING = false) /\
  (has MOVEMENTFLAG_FALLING && (negb fallData || negb fallDir) = false) /\
  (has MOVEMENTFLAG_SPLINE_ELEVATION
   && (negb splineElev || fuzzyEq (splineElevation mi) 0) = false).
Proof.
  intros Hc. cbv zeta. rewrite <- !HasMovementFlag_lor.
  unfold violations, both in Hc. rewrite !Forall_cons in Hc. cbn [fst snd] in Hc.
  destruct Hc as (? & ? & ? & ? & ? & ? & ? & ? & ? & ? & ? & ? & ? & _).
  auto 20.
Qed.

(** The last step of the pass, flag by flag. *)
Lemma after_spline mi m :
  Z.land MOVEMENTFLAG_SPLINE_ELEVATION m = 0 ->
  HasMovementFlag
    (if splineElev then AddMovementFlag MOVEMENTFLAG_SPLINE_ELEVATION mi else mi) m
  = HasMovementFlag mi m.
Proof.
  intros Hm. destruct splineElev; [|done]. rewrite AddMovementFlag_has, Hm. apply orb_false_r.
Qed.

Lemma after_spline_has mi :
  HasMovementFlag mi MOVEMENTFLAG_SPLINE_ELEVATION
    && (negb splineElev || fuzzyEq (splineElevation mi) 0) = false ->
  HasMovementFlag
    (if splineElev then AddMovementFlag MOVEMENTFLAG_SPLINE_ELEVATION mi else mi)
    MOVEMENTFLAG_SPLINE_ELEVATION = splineElev.
Proof.
  destruct splineElev; [intros _; rewrite AddMovementFlag_has; apply orb_true_r|].
  by rewrite andb_true_r.
Qed.

(** What a client can no longer claim after [ReadMovementInfo]'s
    anti-cheat pass, whatever flag word it sent: never rooted; hovering,
    walking on water and slow falling only with the aura; flying only for
    staff or with a flight aura; never two opposite directions; falling only
    with complete fall data and neither flying-capable nor gravity-free; and
    the spline-elevation flag is set exactly when the elevation was sent. *)
Theorem anticheat_flags mi :
  let mi' := remove_violating_flags pl fallData fallDir splineElev mi in
  let has := HasMovementFlag mi' in
  has MOVEMENTFLAG_ROOT = false /\
  (has MOVEMENTFLAG_HOVER = true -> HasAuraType pl SPELL_AURA_HOVER = true) /\
  (has MOVEMENTFLAG_WATERWALKING = true -> HasAuraType pl SPELL_AURA_WATER_WALK = true) /\
  (has MOVEMENTFLAG_FALLING_SLOW = true -> HasAuraType pl SPELL_AURA_FEATHER_FALL = true) /\
  (has MOVEMENTFLAG_FLYING || has MOVEMENTFLAG_CAN_FLY = true ->
   GetSecurity pl <> SEC_PLAYER \/ m_mover_HasAuraType pl SPELL_AURA_FLY = true \/
   m_mover_HasAuraType pl SPELL_AURA_MOD_INCREASE_MOUNTED_FLIGHT_SPEED = true) /\
  (has MOVEMENTFLAG_ASCENDING && has MOVEMENTFLAG_DESCENDING = false) /\
  (has MOVEMENTFLAG_LEFT && has MOVEMENTFLAG_RIGHT = false) /\
  (has MOVEMENTFLAG_STRAFE_LEFT && has MOVEMENTFLAG_STRAFE_RIGHT = false) /\
  (has MOVEMENTFLAG_PITCH_UP && has MOVEMENTFLAG_PITCH_DOWN = false) /\
  (has MOVEMENTFLAG_FORWARD && has MOVEMENTFLAG_BACKWARD = false) /\
  (has MOVEMENTFLAG_FALLING = true ->
   has MOVEMENTFLAG_DISABLE_GRAVITY = false /\ has MOVEMENTFLAG_CAN_FLY = false /\
   fallData = true /\ fallDir = true) /\
  has MOVEMENTFLAG_SPLINE_ELEVATION = splineElev.
Proof.
  intros mi'. subst mi'. unfold remove_violating_flags.
  destruct (violations_clean_flags _ (run_violations_clean _ mi violations_ok))
    as (H1 & H2 & H3 & H4 & H5 & H6 & H7 & H8 & H9 & H10 & H11 & H12 & H13).
  generalize dependent (run_violations (violations pl fallData fallDir splineElev) mi).
  intros m1 H1 H2 H3 H4 H5 H6 H7 H8 H9 H10 H11 H12 H13.
  cbv zeta. rewrite !after_spline by (vm_compute; reflexivity). rewrite (after_spline_has _ H13).
  clear H13. revert H1 H2 H3 H4 H5 H6 H7 H8 H9 H10 H11 H12.
  repeat match goal with
  | |- context [HasMovementFlag m1 ?x] => generalize (HasMovementFlag m1 x)
  end.
  clear. intros. split_and!; try done; try (intros ->; by apply negb_false_iff).
  - intros H. rewrite H in H10. destruct (Z.eqb_spec (GetSecurity pl) SEC_PLAYER); [right|by left].
    destruct (m_mover_HasAuraType pl SPELL_AURA_FLY); [by left|right].
    by destruct (m_mover_HasAuraType _ _).
  - intros ->. rewrite andb_true_r in H11. apply orb_false_iff in H11 as [-> ->].
    by destruct fallData, fallDir.
Qed.

(** The spline-elevation check is void: its [fuzzyEq] test never changes
    the outcome, because the flag is set again right after it. *)
Theorem spline_elevation_check_void (fuzzy : f32 -> f32 -> bool) wrap norm mi :
  @remove_violating_flags (Build_FloatOps fuzzy wrap norm) pl fallData fallDir splineElev mi
  = remove_violating_flags pl fallData fallDir splineElev mi.
Proof.
  unfold remove_violating_flags, run_violations, violations. cbn [foldl fst snd].
  set (m := REMOVE_VIOLATING_FLAGS _ MOVEMENTFLAG_FALLING _). clearbody m.
  destruct splineElev; cbn [negb orb]; [|by unfold REMOVE_VIOLATING_FLAGS; cbn].
  assert (forall c, AddMovementFlag MOVEMENTFLAG_SPLINE_ELEVATION
    (REMOVE_VIOLATING_FLAGS c MOVEMENTFLAG_SPLINE_ELEVATION m)
    = AddMovementFlag MOVEMENTFLAG_SPLINE_ELEVATION m) as Hadd; [|by rewrite !Hadd].
  intros c. unfold REMOVE_VIOLATING_FLAGS. destruct (c m); [|done].
  unfold AddMovementFlag, RemoveMovementFlag. rewrite set_flags_set_flags. f_equal.
  apply Z.bits_inj'. intros k Hk. cbn [flags set_flags]. autorewrite with flags.
  by destruct (Z.testbit _ k), (Z.testbit MOVEMENTFLAG_SPLINE_ELEVATION k).
Qed.

End AntiCheatProps.
