(* ===== verification/MovementFields.v ===== *)
(** * Extra elements, and what a movement packet carries

    [Movement::ExtraMovementStatusElement] (its two operations are those of
    MovementStructures.cpp), and the abstract contents of a movement packet
    with their encoding along a layout.  The encoding is the specification
    that MovementWrite.v and MovementRead.v relate the two directions to; an
    optional part of a packet is an [option], so that the conditions the code
    spreads over its [has...] locals hold by construction. *)
From S2P Require Import Prelude.
From S2P Require Import ByteBuffer.
From S2P Require Import MovementElements.
From S2P Require Import MovementInfo.
Local Open Scope Z_scope.

(** ** [Movement::ExtraMovementStatusElement] *)

Record Extra := mkExtra {
  _elements : list MovementStatusElements;
  _index : nat;
  Data_guid : ObjectGuid;
  floatData : f32;
  byteData : Z
}.

(** [ExtraMovementStatusElement(elements)]; [Data] is uninitialised in the
    code, here zero except for the GUID, which is constructed. *)
Definition new_Extra (elements : list MovementStatusElements) : Extra :=
  mkExtra elements 0 ObjectGuid_empty 0 0.

Definition set_index (i : nat) (x : Extra) : Extra :=
  mkExtra (_elements x) i (Data_guid x) (floatData x) (byteData x).
Definition set_Data_guid (g : ObjectGuid) (x : Extra) : Extra :=
  mkExtra (_elements x) (_index x) g (floatData x) (byteData x).
Definition set_floatData (v : f32) (x : Extra) : Extra :=
  mkExtra (_elements x) (_index x) (Data_guid x) v (byteData x).
Definition set_byteData (v : Z) (x : Extra) : Extra :=
  mkExtra (_elements x) (_index x) (Data_guid x) (floatData x) v.

(** [ResetIndex()] *)
Definition ResetIndex (x : Extra) : Extra := set_index 0 x.

(** [_elements[_index++]] *)
Definition next_element (x : Extra) : option (MovementStatusElements * Extra) :=
  match _elements x !! _index x with
  | Some e => Some (e, set_index (S (_index x)) x)
  | None => None
  end.

(** [ReadNextElement(packet)] *)
Definition ReadNextElement (x : Extra) : BB Extra :=
  match next_element x with
  | None => st_throw OutOfBounds
  | Some (e, x) =>
      match e with
      | MSEHasGuidByte0 | MSEHasGuidByte1 | MSEHasGuidByte2 | MSEHasGuidByte3
      | MSEHasGuidByte4 | MSEHasGuidByte5 | MSEHasGuidByte6 | MSEHasGuidByte7 =>
          bit ← ReadBit;
          mret (set_Data_guid
                  (guid_set (Data_guid x) (mse_index e MSEHasGuidByte0) (Z.b2z bit)) x)
      | MSEGuidByte0 | MSEGuidByte1 | MSEGuidByte2 | MSEGuidByte3
      | MSEGuidByte4 | MSEGuidByte5 | MSEGuidByte6 | MSEGuidByte7 =>
          let i := mse_index e MSEGuidByte0 in
          byte ← ReadByteSeq (guid_get (Data_guid x) i);
          mret (set_Data_guid (guid_set (Data_guid x) i byte) x)
      | MSEExtraFloat => v ← read 4; mret (set_floatData v x)
      | MSEExtraInt8 => v ← read 1; mret (set_byteData (s8 v) x)
      | _ => st_throw AssertFailed
      end
  end.

(** [WriteNextElement(packet)] *)
Definition WriteNextElement (x : Extra) : BB Extra :=
  match next_element x with
  | None => st_throw OutOfBounds
  | Some (e, x) =>
      match e with
      | MSEHasGuidByte0 | MSEHasGuidByte1 | MSEHasGuidByte2 | MSEHasGuidByte3
      | MSEHasGuidByte4 | MSEHasGuidByte5 | MSEHasGuidByte6 | MSEHasGuidByte7 =>
          WriteBit (guid_get (Data_guid x) (mse_index e MSEHasGuidByte0));; mret x
      | MSEGuidByte0 | MSEGuidByte1 | MSEGuidByte2 | MSEGuidByte3
      | MSEGuidByte4 | MSEGuidByte5 | MSEGuidByte6 | MSEGuidByte7 =>
          WriteByteSeq (guid_get (Data_guid x) (mse_index e MSEGuidByte0));; mret x
      | MSEExtraFloat => append_T 4 (floatData x);; mret x
      | MSEExtraInt8 => append_T 1 (byteData x);; mret x
      | _ => st_throw AssertFailed
      end
  end.

(** ** The abstract contents of a movement packet *)

Record FallFields := mkFallFields {
  ff_fallTime : Z;
  ff_zspeed : f32;
  ff_direction : option (f32 * f32 * f32)     (* sine, cosine, xy speed *)
}.

Record TransportFields := mkTransportFields {
  tf_guid : Z;
  tf_x : f32; tf_y : f32; tf_z : f32; tf_o : f32;
  tf_seat : Z;
  tf_time : Z;
  tf_time2 : option Z;
  tf_time3 : option Z
}.

Record MoveFields := mkMoveFields {
  mf_guid : Z;
  mf_flags : option Z;
  mf_flags2 : option Z;
  mf_time : option Z;
  mf_x : f32; mf_y : f32; mf_z : f32;
  mf_o : option f32;
  mf_transport : option TransportFields;
  mf_pitch : option f32;
  mf_fall : option FallFields;
  mf_elevation : option f32;
  mf_spline : bool;
  mf_counter : option Z;
  mf_forces : list Z
}.

Definition present {A} (o : option A) : bool := match o with Some _ => true | None => false end.

(** A value of [n] bytes, a value that may be absent, a presence bit that
    is sent inverted, and a bit inside an optional part. *)
Definition val_ops (n : nat) (v : Z) : list op := [OBytes (le_bytes n v)].
Definition opt_ops (n : nat) (o : option Z) : list op :=
  match o with Some v => val_ops n v | None => [] end.
Definition absent_bit {A} (o : option A) : list op := [OBit (negb (present o))].
Definition within {A} (o : option A) (k : A -> list op) : list op :=
  match o with Some a => k a | None => [] end.

Definition guid_bit_ops (g : Z) (i : nat) : list op :=
  [OBit (negb (guid_get (ObjectGuid_of g) i =? 0))].
Definition guid_byte_ops (g : Z) (i : nat) : list op :=
  byte_seq_ops (guid_get (ObjectGuid_of g) i).
Definition bits_ops (v : Z) (n : nat) : list op := OBit <$> value_bits v n.

(** ** The encoding of one element *)

Definition encode (f : MoveFields) (e : MovementStatusElements) : list op :=
  match e with
  | MSEHasGuidByte0 | MSEHasGuidByte1 | MSEHasGuidByte2 | MSEHasGuidByte3
  | MSEHasGuidByte4 | MSEHasGuidByte5 | MSEHasGuidByte6 | MSEHasGuidByte7 =>
      guid_bit_ops (mf_guid f) (mse_index e MSEHasGuidByte0)
  | MSEHasTransportGuidByte0 | MSEHasTransportGuidByte1 | MSEHasTransportGuidByte2
  | MSEHasTransportGuidByte3 | MSEHasTransportGuidByte4 | MSEHasTransportGuidByte5
  | MSEHasTransportGuidByte6 | MSEHasTransportGuidByte7 =>
      within (mf_transport f)
        (fun t => guid_bit_ops (tf_guid t) (mse_index e MSEHasTransportGuidByte0))
  | MSEGuidByte0 | MSEGuidByte1 | MSEGuidByte2 | MSEGuidByte3
  | MSEGuidByte4 | MSEGuidByte5 | MSEGuidByte6 | MSEGuidByte7 =>
      guid_byte_ops (mf_guid f) (mse_index e MSEGuidByte0)
  | MSETransportGuidByte0 | MSETransportGuidByte1 | MSETransportGuidByte2
  | MSETransportGuidByte3 | MSETransportGuidByte4 | MSETransportGuidByte5
  | MSETransportGuidByte6 | MSETransportGuidByte7 =>
      within (mf_transport f)
        (fun t => guid_byte_ops (tf_guid t) (mse_index e MSETransportGuidByte0))
  | MSEHasCounter => absent_bit (mf_counter f)
  | MSEHasMovementFlags => absent_bit (mf_flags f)
  | MSEHasMovementFlags2 => absent_bit (mf_flags2 f)
  | MSEHasTimestamp => absent_bit (mf_time f)
  | MSEHasOrientation => absent_bit (mf_o f)
  | MSEHasTransportData => [OBit (present (mf_transport f))]
  | MSEHasTransportTime2 => within (mf_transport f) (fun t => [OBit (present (tf_time2 t))])
  | MSEHasTransportTime3 => within (mf_transport f) (fun t => [OBit (present (tf_time3 t))])
  | MSEHasPitch => absent_bit (mf_pitch f)
  | MSEHasFallData => [OBit (present (mf_fall f))]
  | MSEHasFallDirection => within (mf_fall f) (fun j => [OBit (present (ff_direction j))])
  | MSEHasSplineElevation => absent_bit (mf_elevation f)
  | MSEHasSpline => [OBit (mf_spline f)]
  | MSEMovementFlags => within (mf_flags f) (fun v => bits_ops v 30)
  | MSEMovementFlags2 => within (mf_flags2 f) (fun v => bits_ops v 13)
  | MSETimestamp => opt_ops 4 (mf_time f)
  | MSEPositionX => val_ops 4 (mf_x f)
  | MSEPositionY => val_ops 4 (mf_y f)
  | MSEPositionZ => val_ops 4 (mf_z f)
  | MSEOrientation => opt_ops 4 (mf_o f)
  | MSETransportPositionX => within (mf_transport f) (fun t => val_ops 4 (tf_x t))
  | MSETransportPositionY => within (mf_transport f) (fun t => val_ops 4 (tf_y t))
  | MSETransportPositionZ => within (mf_transport f) (fun t => val_ops 4 (tf_z t))
  | MSETransportOrientation => within (mf_transport f) (fun t => val_ops 4 (tf_o t))
  | MSETransportSeat => within (mf_transport f) (fun t => val_ops 1 (tf_seat t))
  | MSETransportTime => within (mf_transport f) (fun t => val_ops 4 (tf_time t))
  | MSETransportTime2 => within (mf_transport f) (fun t => opt_ops 4 (tf_time2 t))
  | MSETransportTime3 => within (mf_transport f) (fun t => opt_ops 4 (tf_time3 t))
  | MSEPitch => opt_ops 4 (mf_pitch f)
  | MSEFallTime => within (mf_fall f) (fun j => val_ops 4 (ff_fallTime j))
  | MSEFallVerticalSpeed => within (mf_fall f) (fun j => val_ops 4 (ff_zspeed j))
  | MSEFallSinAngle =>
      within (mf_fall f) (fun j => within (ff_direction j) (fun d => val_ops 4 d.1.1))
  | MSEFallCosAngle =>
      within (mf_fall f) (fun j => within (ff_direction j) (fun d => val_ops 4 d.1.2))
  | MSEFallHorizontalSpeed =>
      within (mf_fall f) (fun j => within (ff_direction j) (fun d => val_ops 4 d.2))
  | MSESplineElevation => opt_ops 4 (mf_elevation f)
  | MSEForcesCount => bits_ops (Z.of_nat (length (mf_forces f))) 22
  | MSEForces => (fun v => OBytes (le_bytes 4 v)) <$> mf_forces f
  | MSECounter => opt_ops 4 (mf_counter f)
  | MSEZeroBit => [OBit false]
  | MSEOneBit => [OBit true]
  | MSEUintCount => val_ops 4 0
  | MSEEnd | MSEExtraElement | MSEExtraFloat | MSEExtraInt8 => []
  end.

(** The encoding of an extra element. *)
Definition encode_extra (x : Extra) (e : MovementStatusElements) : list op :=
  match e with
  | MSEHasGuidByte0 | MSEHasGuidByte1 | MSEHasGuidByte2 | MSEHasGuidByte3
  | MSEHasGuidByte4 | MSEHasGuidByte5 | MSEHasGuidByte6 | MSEHasGuidByte7 =>
      [OBit (negb (guid_get (Data_guid x) (mse_index e MSEHasGuidByte0) =? 0))]
  | MSEGuidByte0 | MSEGuidByte1 | MSEGuidByte2 | MSEGuidByte3
  | MSEGuidByte4 | MSEGuidByte5 | MSEGuidByte6 | MSEGuidByte7 =>
      byte_seq_ops (guid_get (Data_guid x) (mse_index e MSEGuidByte0))
  | MSEExtraFloat => val_ops 4 (floatData x)
  | MSEExtraInt8 => val_ops 1 (byteData x)
  | _ => []
  end.

(** An element [ReadNextElement] and [WriteNextElement] accept. *)
Definition extra_ok (e : MovementStatusElements) : bool :=
  match e with
  | MSEHasGuidByte0 | MSEHasGuidByte1 | MSEHasGuidByte2 | MSEHasGuidByte3
  | MSEHasGuidByte4 | MSEHasGuidByte5 | MSEHasGuidByte6 | MSEHasGuidByte7
  | MSEGuidByte0 | MSEGuidByte1 | MSEGuidByte2 | MSEGuidByte3
  | MSEGuidByte4 | MSEGuidByte5 | MSEGuidByte6 | MSEGuidByte7
  | MSEExtraFloat | MSEExtraInt8 => true
  | _ => false
  end.

(** ** The encoding of a layout *)

(** [xs] are the extra elements still to be used. *)
Fixpoint encode_seq (f : MoveFields) (x : Extra) (xs seq : list MovementStatusElements)
    : list op :=
  match seq with
  | [] | MSEEnd :: _ => []
  | MSEExtraElement :: seq =>
      match xs with
      | [] => []
      | e :: xs => encode_extra x e ++ encode_seq f x xs seq
      end
  | e :: seq => encode f e ++ encode_seq f x xs seq
  end.

(** ** Shape: whole bytes, one run of bits, whole bytes *)

Inductive shape := ShapeBits | ShapeBytes | ShapeOther.

Definition element_shape (e : MovementStatusElements) : shape :=
  match e with
  | MSEForcesCount | MSEHasCounter
  | MSEHasGuidByte0 | MSEHasGuidByte1 | MSEHasGuidByte2 | MSEHasGuidByte3
  | MSEHasGuidByte4 | MSEHasGuidByte5 | MSEHasGuidByte6 | MSEHasGuidByte7
  | MSEHasMovementFlags | MSEHasMovementFlags2 | MSEHasTimestamp | MSEHasOrientation
  | MSEHasTransportData
  | MSEHasTransportGuidByte0 | MSEHasTransportGuidByte1 | MSEHasTransportGuidByte2
  | MSEHasTransportGuidByte3 | MSEHasTransportGuidByte4 | MSEHasTransportGuidByte5
  | MSEHasTransportGuidByte6 | MSEHasTransportGuidByte7
  | MSEHasTransportTime2 | MSEHasTransportTime3 | MSEHasPitch | MSEHasFallData
  | MSEHasFallDirection | MSEHasSplineElevation | MSEHasSpline
  | MSEMovementFlags | MSEMovementFlags2 | MSEZeroBit | MSEOneBit => ShapeBits
  | MSEEnd | MSEExtraElement | MSEExtraFloat | MSEExtraInt8 => ShapeOther
  | _ => ShapeBytes
  end.

(** [phase] 0: leading bytes; 1: bits; 2: trailing bytes. *)
Fixpoint shape_ok (phase : nat) (seq : list MovementStatusElements) : bool :=
  match seq with
  | [] => false
  | MSEEnd :: _ => true
  | e :: seq =>
      match element_shape e with
      | ShapeBits => (phase <? 2)%nat && shape_ok 1 seq
      | ShapeBytes => shape_ok (match phase with O => 0 | _ => 2 end)%nat seq
      | ShapeOther => false
      end
  end.

(** ** Facts about the encoding *)

Lemma shape_bytes_ops f e :
  element_shape e = ShapeBytes -> exists bss, encode f e = OBytes <$> bss.
Proof.
  intros He.
  assert (forall n (o : option Z), exists bss, opt_ops n o = OBytes <$> bss) as Hopt.
  { intros n [v|]; [by exists [le_bytes n v]|by exists []]. }
  assert (forall n v, exists bss, val_ops n v = OBytes <$> bss) as Hval.
  { intros n v. by exists [le_bytes n v]. }
  assert (forall A (o : option A) k, (forall a, exists bss, k a = OBytes <$> bss) ->
          exists bss, within o k = OBytes <$> bss) as Hwithin.
  { intros A [a|] k Hk; [apply Hk|by exists []]. }
  assert (forall g i, exists bss, guid_byte_ops g i = OBytes <$> bss) as Hguid.
  { intros g i. unfold guid_byte_ops, byte_seq_ops. case_match; [by eexists [_]|by exists []]. }
  destruct e; try discriminate He; cbn [encode]; auto 10.
  exists (le_bytes 4 <$> mf_forces f). by rewrite <- list_fmap_compose.
Qed.

Lemma shape_bits_ops f e :
  element_shape e = ShapeBits -> exists bits, encode f e = OBit <$> bits.
Proof.
  intros He.
  assert (forall x, exists bits, [OBit x] = OBit <$> bits) as Hbit by (intros x; by exists [x]).
  assert (forall v n, exists bits, bits_ops v n = OBit <$> bits) as Hbits by (intros; by eexists).
  assert (forall A (o : option A) k, (forall a, exists bits, k a = OBit <$> bits) ->
          exists bits, within o k = OBit <$> bits) as Hwithin.
  { intros A [a|] k Hk; [apply Hk|by exists []]. }
  destruct e; try discriminate He; cbn [encode]; unfold absent_bit, guid_bit_ops; auto 10.
Qed.

(** The trailing phase of a well-shaped layout is whole bytes, the bit phase
    bits and then bytes. *)
Lemma shape_ok_ops f x seq phase :
  shape_ok phase seq = true ->
  exists pre bits post, encode_seq f x [] seq = shaped pre bits post /\
    (phase <> 0%nat -> pre = []) /\ (phase = 2%nat -> bits = []).
Proof.
  revert phase. induction seq as [|e seq IH]; intros phase Hs; [done|].
  destruct (element_shape e) eqn:He.
  - assert (shape_ok phase (e :: seq) = (phase <? 2)%nat && shape_ok 1 seq) as Hs'
      by (by destruct e).
    rewrite Hs', andb_true_iff, Nat.ltb_lt in Hs. destruct Hs as [Hp Hs].
    destruct (IH 1%nat Hs) as (pre & bits & post & Hseq & Hpre & _).
    destruct (shape_bits_ops f e He) as [bs Hbs].
    assert (encode_seq f x [] (e :: seq) = encode f e ++ encode_seq f x [] seq) as ->
      by (by destruct e).
    rewrite Hpre in Hseq by done. exists [], (bs ++ bits), post.
    rewrite Hbs, Hseq. split; [|split; [done|lia]].
    unfold shaped. by rewrite fmap_app, <- app_assoc.
  - assert (shape_ok phase (e :: seq) = shape_ok (match phase with O => 0 | _ => 2 end)%nat seq)
      as Hs' by (by destruct e).
    rewrite Hs' in Hs. destruct (IH _ Hs) as (pre & bits & post & Hseq & Hpre & Hbits).
    destruct (shape_bytes_ops f e He) as [bss Hbss].
    assert (encode_seq f x [] (e :: seq) = encode f e ++ encode_seq f x [] seq) as ->
      by (by destruct e).
    rewrite Hbss, Hseq. destruct phase as [|phase].
    + exists (bss ++ pre), bits, post. split; [|done].
      unfold shaped. by rewrite fmap_app, <- !app_assoc.
    + rewrite Hpre, Hbits by done. exists [], [], (bss ++ post). split; [|done].
      unfold shaped. by rewrite fmap_app.
  - destruct e; try discriminate. by exists [], [], [].
Qed.
