(* ===== verification/MovementWrite.v ===== *)
(** * Writing movement packets

    [Unit::WriteMovementInfo] (Unit.cpp) and [Movement::PacketSender]
    (MovementStructures.cpp).  The first half translates the code; the
    second proves that it implements the encoding of MovementFields.v, that
    the layouts the server uses keep it away from every failure, and that
    the packets carry all their bits. *)
From S2P Require Import Prelude.
From S2P Require Import ByteBuffer.
From S2P Require Import MovementElements.
From S2P Require Import MovementTables.
From S2P Require Import MovementInfo.
From S2P Require Import MovementFields.
Local Open Scope Z_scope.

Section Write.
Context {FO : FloatOps}.

(** ** The unit, as [WriteMovementInfo] sees it *)

Record UnitView := mkUnitView {
  GetGUID : Z;
  GetPosition : Position;              (* the [Position] base of the unit *)
  m_movementInfo : MovementInfo;
  GetTransGUID : Z;                    (* of the vehicle base or the transport *)
  IsSplineEnabled : bool;
  getMSTime : Z
}.

(** The [has...] locals, computed before the loop. *)
Record WriteLocals := mkWriteLocals {
  w_hasMovementFlags : bool;
  w_hasMovementFlags2 : bool;
  w_hasTimestamp : bool;
  w_hasOrientation : bool;
  w_hasTransportData : bool;
  w_hasSpline : bool;
  w_hasTransportTime2 : bool;
  w_hasTransportTime3 : bool;
  w_hasPitch : bool;
  w_hasFallDirection : bool;
  w_hasFallData : bool;
  w_hasSplineElevation : bool
}.

Definition write_locals (u : UnitView) : WriteLocals :=
  let mi := m_movementInfo u in
  let hasTransportData := negb (GetTransGUID u =? 0) in
  let hasFallDirection := HasMovementFlag mi MOVEMENTFLAG_FALLING in
  {| w_hasMovementFlags := negb (flags mi =? 0);
     w_hasMovementFlags2 := negb (flags2 mi =? 0);
     w_hasTimestamp := true;
     w_hasOrientation := negb (fuzzyEq (m_orientation (GetPosition u)) 0);
     w_hasTransportData := hasTransportData;
     w_hasSpline := IsSplineEnabled u;
     w_hasTransportTime2 := hasTransportData && negb (time2 (transport mi) =? 0);
     w_hasTransportTime3 := false;
     w_hasPitch :=
       HasMovementFlag mi (Z.lor MOVEMENTFLAG_SWIMMING MOVEMENTFLAG_FLYING)
       || HasExtraMovementFlag mi MOVEMENTFLAG2_ALWAYS_ALLOW_PITCHING;
     w_hasFallDirection := hasFallDirection;
     w_hasFallData := hasFallDirection || negb (fallTime (jump mi) =? 0);
     w_hasSplineElevation := HasMovementFlag mi MOVEMENTFLAG_SPLINE_ELEVATION |}.

(** ** State of the loop: the packet, the unit's counter, the extras *)

Record WState := mkWState {
  w_packet : ByteBuffer;
  m_movementCounter : Z;
  w_extras : option Extra
}.
Definition W (A : Type) : Type := ST WState BBError A.

Definition on_packet {A} (m : BB A) : W A := fun s =>
  match m (w_packet s) with
  | Ok (a, b) => Ok (a, mkWState b (m_movementCounter s) (w_extras s))
  | Err e => Err e
  end.
Definition set_counter (c : Z) (s : WState) : WState := mkWState (w_packet s) c (w_extras s).
Definition set_extras (x : option Extra) (s : WState) : WState :=
  mkWState (w_packet s) (m_movementCounter s) x.

(** [data << value] of a [sizeof(value) = n] integer or float. *)
Definition put_if (c : bool) (n : nat) (v : Z) : BB unit := st_when c (append_T n v).
Definition bit (x : bool) : BB unit := WriteBit (Z.b2z x);; mret tt.

(** The cases of the switch that only write to the packet. *)
Definition write_field (u : UnitView) (counter : Z) (element : MovementStatusElements) : BB unit :=
  let mi := m_movementInfo u in
  let l := write_locals u in
  let guid := ObjectGuid_of (GetGUID u) in
  let tguid := ObjectGuid_of (if w_hasTransportData l then GetTransGUID u else 0) in
  match element with
  | MSEHasGuidByte0 | MSEHasGuidByte1 | MSEHasGuidByte2 | MSEHasGuidByte3
  | MSEHasGuidByte4 | MSEHasGuidByte5 | MSEHasGuidByte6 | MSEHasGuidByte7 =>
      WriteBit (guid_get guid (mse_index element MSEHasGuidByte0));; mret tt
  | MSEHasTransportGuidByte0 | MSEHasTransportGuidByte1 | MSEHasTransportGuidByte2
  | MSEHasTransportGuidByte3 | MSEHasTransportGuidByte4 | MSEHasTransportGuidByte5
  | MSEHasTransportGuidByte6 | MSEHasTransportGuidByte7 =>
      st_when (w_hasTransportData l)
        (WriteBit (guid_get tguid (mse_index element MSEHasTransportGuidByte0));; mret tt)
  | MSEGuidByte0 | MSEGuidByte1 | MSEGuidByte2 | MSEGuidByte3
  | MSEGuidByte4 | MSEGuidByte5 | MSEGuidByte6 | MSEGuidByte7 =>
      WriteByteSeq (guid_get guid (mse_index element MSEGuidByte0))
  | MSETransportGuidByte0 | MSETransportGuidByte1 | MSETransportGuidByte2
  | MSETransportGuidByte3 | MSETransportGuidByte4 | MSETransportGuidByte5
  | MSETransportGuidByte6 | MSETransportGuidByte7 =>
      st_when (w_hasTransportData l)
        (WriteByteSeq (guid_get tguid (mse_index element MSETransportGuidByte0)))
  | MSEHasCounter => bit (counter =? 0)
  | MSEHasMovementFlags => bit (negb (w_hasMovementFlags l))
  | MSEHasMovementFlags2 => bit (negb (w_hasMovementFlags2 l))
  | MSEHasTimestamp => bit (negb (w_hasTimestamp l))
  | MSEHasOrientation => bit (negb (w_hasOrientation l))
  | MSEHasTransportData => bit (w_hasTransportData l)
  | MSEHasTransportTime2 => st_when (w_hasTransportData l) (bit (w_hasTransportTime2 l))
  | MSEHasTransportTime3 => st_when (w_hasTransportData l) (bit (w_hasTransportTime3 l))
  | MSEHasPitch => bit (negb (w_hasPitch l))
  | MSEHasFallData => bit (w_hasFallData l)
  | MSEHasFallDirection => st_when (w_hasFallData l) (bit (w_hasFallDirection l))
  | MSEHasSplineElevation => bit (negb (w_hasSplineElevation l))
  | MSEHasSpline => bit (w_hasSpline l)
  | MSEMovementFlags => st_when (w_hasMovementFlags l) (WriteBits (flags mi) 30)
  | MSEMovementFlags2 => st_when (w_hasMovementFlags2 l) (WriteBits (flags2 mi) 13)
  | MSETimestamp => put_if (w_hasTimestamp l) 4 (getMSTime u)
  | MSEPositionX => append_T 4 (m_positionX (GetPosition u))
  | MSEPositionY => append_T 4 (m_positionY (GetPosition u))
  | MSEPositionZ => append_T 4 (m_positionZ (GetPosition u))
  | MSEOrientation => put_if (w_hasOrientation l) 4 (m_orientation (GetPosition u))
  | MSETransportPositionX =>
      put_if (w_hasTransportData l) 4 (m_positionX (tr_pos (transport mi)))
  | MSETransportPositionY =>
      put_if (w_hasTransportData l) 4 (m_positionY (tr_pos (transport mi)))
  | MSETransportPositionZ =>
      put_if (w_hasTransportData l) 4 (m_positionZ (tr_pos (transport mi)))
  | MSETransportOrientation =>
      put_if (w_hasTransportData l) 4 (m_orientation (tr_pos (transport mi)))
  | MSETransportSeat => put_if (w_hasTransportData l) 1 (seat (transport mi))
  | MSETransportTime => put_if (w_hasTransportData l) 4 (tr_time (transport mi))
  | MSETransportTime2 =>
      put_if (w_hasTransportData l && w_hasTransportTime2 l) 4 (time2 (transport mi))
  | MSETransportTime3 =>
      put_if (w_hasTransportData l && w_hasTransportTime3 l) 4 (time3 (transport mi))
  | MSEPitch => put_if (w_hasPitch l) 4 (pitch mi)
  | MSEFallTime => put_if (w_hasFallData l) 4 (fallTime (jump mi))
  | MSEFallVerticalSpeed => put_if (w_hasFallData l) 4 (zspeed (jump mi))
  | MSEFallCosAngle => put_if (w_hasFallData l && w_hasFallDirection l) 4 (cosAngle (jump mi))
  | MSEFallSinAngle => put_if (w_hasFallData l && w_hasFallDirection l) 4 (sinAngle (jump mi))
  | MSEFallHorizontalSpeed => put_if (w_hasFallData l && w_hasFallDirection l) 4 (xyspeed (jump mi))
  | MSESplineElevation => put_if (w_hasSplineElevation l) 4 (splineElevation mi)
  | MSEForcesCount => WriteBits 0 22
  | MSEZeroBit => bit false
  | MSEOneBit => bit true
  | MSEUintCount => append_T 4 0
  | _ => st_throw AssertFailed
  end.

(** One iteration of the loop. *)
Definition WriteElement (u : UnitView) (element : MovementStatusElements) : W unit :=
  match element with
  | MSECounter =>
      s ← st_get;
      on_packet (put_if (negb (m_movementCounter s =? 0)) 4 (m_movementCounter s));;
      st_modify (fun s => set_counter (u32 (m_movementCounter s + 1)) s)
  | MSEExtraElement =>
      s ← st_get;
      match w_extras s with
      | None => st_throw NullPointer
      | Some x => x ← on_packet (WriteNextElement x); st_modify (set_extras (Some x))
      end
  | _ => s ← st_get; on_packet (write_field u (m_movementCounter s) element)
  end.

(** [for (; *sequence != MSEEnd; ++sequence)] *)
Fixpoint WriteElements (u : UnitView) (sequence : list MovementStatusElements) : W unit :=
  match sequence with
  | [] => st_throw OutOfBounds
  | MSEEnd :: _ => mret tt
  | element :: sequence => WriteElement u element;; WriteElements u sequence
  end.

(** [WriteMovementInfo(data, extras)] for a packet with opcode [opcode]; a
    missing layout is logged and leaves the packet alone. *)
Definition WriteMovementInfo (u : UnitView) (opcode : Opcodes) : W unit :=
  match GetMovementStatusElementsSequence opcode with
  | None => mret tt
  | Some sequence => WriteElements u sequence
  end.

(** ** [Movement::PacketSender] *)

(** The unit's type and, for a player, the type of [m_mover]. *)
Inductive UnitKind := NotPlayer | PlayerUnit (mover_is_player : bool).

Record PacketSender := mkPacketSender {
  _extraElements : option Extra;
  _selfOpcode : Opcodes;
  _broadcast : Opcodes
}.

(** The constructor. *)
Definition new_PacketSender (kind : UnitKind) (serverControl playerControl broadcast : Opcodes)
    (extras : option Extra) : PacketSender :=
  match kind with
  | PlayerUnit true => mkPacketSender extras playerControl broadcast
  | _ => mkPacketSender extras NULL_OPCODE serverControl
  end.

(** What is handed to the network layer: [SendDirectMessage(&data)] to the
    player's own client, and [SendMessageToSet(&data, self)]. *)
Inductive Message :=
| SendDirectMessage (opcode : Opcodes) (data : ByteBuffer)
| SendMessageToSet (opcode : Opcodes) (data : ByteBuffer) (self : bool).

(** One packet: [WorldPacket data(opcode); WriteMovementInfo(data, extras)]. *)
Definition build_packet (u : UnitView) (opcode : Opcodes) (counter : Z) (extras : option Extra)
    : outcome BBError WState :=
  match WriteMovementInfo u opcode (mkWState new_ByteBuffer counter extras) with
  | Ok (_, s) => Ok s
  | Err e => Err e
  end.

(** [Send()]: the messages, the counter and the extras afterwards. *)
Definition Send (u : UnitView) (kind : UnitKind) (ps : PacketSender) (counter : Z)
    : outcome BBError (list Message * Z * option Extra) :=
  let isPlayerMovement := match kind with PlayerUnit m => m | NotPlayer => false end in
  let first :=
    if isPlayerMovement && negb (is_NULL_OPCODE (_selfOpcode ps)) then
      match build_packet u (_selfOpcode ps) counter (_extraElements ps) with
      | Ok s => Ok ([SendDirectMessage (_selfOpcode ps) (w_packet s)],
                    m_movementCounter s, w_extras s)
      | Err e => Err e
      end
    else Ok ([], counter, _extraElements ps) in
  match first with
  | Err e => Err e
  | Ok (msgs, counter, extras) =>
      if negb (is_NULL_OPCODE (_broadcast ps)) then
        match build_packet u (_broadcast ps) counter (ResetIndex <$> extras) with
        | Ok s => Ok (msgs ++ [SendMessageToSet (_broadcast ps) (w_packet s)
                                 (negb isPlayerMovement)],
                      m_movementCounter s, w_extras s)
        | Err e => Err e
        end
      else Ok (msgs, counter, extras)
  end.

(** ** The contents the unit's packets carry *)

Definition opt_if {A} (c : bool) (a : A) : option A := if c then Some a else None.

Definition fields_of (u : UnitView) (counter : Z) : MoveFields :=
  let mi := m_movementInfo u in
  let l := write_locals u in
  {| mf_guid := GetGUID u;
     mf_flags := opt_if (w_hasMovementFlags l) (flags mi);
     mf_flags2 := opt_if (w_hasMovementFlags2 l) (flags2 mi);
     mf_time := Some (getMSTime u);
     mf_x := m_positionX (GetPosition u);
     mf_y := m_positionY (GetPosition u);
     mf_z := m_positionZ (GetPosition u);
     mf_o := opt_if (w_hasOrientation l) (m_orientation (GetPosition u));
     mf_transport := opt_if (w_hasTransportData l)
       {| tf_guid := GetTransGUID u;
          tf_x := m_positionX (tr_pos (transport mi));
          tf_y := m_positionY (tr_pos (transport mi));
          tf_z := m_positionZ (tr_pos (transport mi));
          tf_o := m_orientation (tr_pos (transport mi));
          tf_seat := seat (transport mi);
          tf_time := tr_time (transport mi);
          tf_time2 := opt_if (w_hasTransportTime2 l) (time2 (transport mi));
          tf_time3 := None |};
     mf_pitch := opt_if (w_hasPitch l) (pitch mi);
     mf_fall := opt_if (w_hasFallData l)
       {| ff_fallTime := fallTime (jump mi);
          ff_zspeed := zspeed (jump mi);
          ff_direction := opt_if (w_hasFallDirection l)
            (sinAngle (jump mi), cosAngle (jump mi), xyspeed (jump mi)) |};
     mf_elevation := opt_if (w_hasSplineElevation l) (splineElevation mi);
     mf_spline := w_hasSpline l;
     mf_counter := opt_if (negb (counter =? 0)) counter;
     mf_forces := [] |}.

(** ** Layouts the writer accepts *)

(** [MSEForces] and the inner elements of extras reach the [default] case. *)
Definition field_ok (e : MovementStatusElements) : bool :=
  match e with
  | MSEForces | MSEExtraFloat | MSEExtraInt8 | MSEEnd => false
  | _ => true
  end.

(** The counter is sent once, and its presence bit, if any, before it. *)
Fixpoint writer_ok (seq : list MovementStatusElements) : bool :=
  match seq with
  | [] => false
  | MSEEnd :: seq => match seq with [] => true | _ => false end
  | MSECounter :: seq => negb (mem MSECounter seq) && negb (mem MSEHasCounter seq) && writer_ok seq
  | e :: seq => field_ok e && writer_ok seq
  end.

Fixpoint count_extras (seq : list MovementStatusElements) : nat :=
  match seq with
  | [] => 0
  | e :: seq => (if mse_eqb e MSEExtraElement then 1 else 0) + count_extras seq
  end.

Definition extra_rest (x : Extra) : list MovementStatusElements := drop (_index x) (_elements x).

(** The caller supplies [n] extra elements of the kinds the code knows. *)
Definition extra_wf (n : nat) (o : option Extra) : Prop :=
  match o with
  | None => n = 0%nat
  | Some x => (n <= length (extra_rest x))%nat /\ forallb extra_ok (extra_rest x) = true /\
              Forall is_byte (Data_guid x)
  end.
Definition extra_of (o : option Extra) : Extra := default (new_Extra []) o.

(** The operations of a whole packet. *)
Definition packet_ops (u : UnitView) (seq : list MovementStatusElements) (counter : Z)
    (o : option Extra) : list op :=
  encode_seq (fields_of u counter) (extra_of o) (extra_rest (extra_of o)) seq.

(** ** The writer implements the encoding *)

Lemma emits_bit x : emits (bit x) [OBit x].
Proof.
  unfold bit. apply (emits_bind _ _ [OBit x] []); [|intros; apply emits_ret].
  pose proof (emits_WriteBit (Z.b2z x)) as H. by destruct x.
Qed.

Lemma emits_WriteBit_unit z : emits (WriteBit z;; mret tt) [OBit (negb (z =? 0))].
Proof. apply (emits_bind _ _ [_] []); [apply emits_WriteBit|intros; apply emits_ret]. Qed.

Lemma emits_put_if c n v :
  n <> 0%nat -> emits (put_if c n v) (opt_ops n (opt_if c v)).
Proof.
  intros Hn. destruct c; [by apply emits_append_T|apply emits_ret].
Qed.

Lemma emits_st_when {A} c m (a : A) k :
  (c = true -> emits m (k a)) -> emits (st_when c m) (within (opt_if c a) k).
Proof. destruct c; intros H; [by apply H|apply emits_ret]. Qed.

Lemma present_opt_if {A} c (a : A) : present (opt_if c a) = c.
Proof. by destruct c. Qed.

Lemma emits_put_within {A} c n v (a : A) k :
  n <> 0%nat -> k a = val_ops n v -> emits (put_if c n v) (within (opt_if c a) k).
Proof. intros Hn Hk. apply emits_st_when. intros _. rewrite Hk. by apply emits_append_T. Qed.

Lemma emits_put_nested {A} c c' n v (a : A) k :
  n <> 0%nat -> k a = opt_ops n (opt_if c' v) ->
  emits (put_if (c && c') n v) (within (opt_if c a) k).
Proof.
  intros Hn Hk. destruct c; [|apply emits_ret]. cbn [within opt_if andb]. rewrite Hk.
  by apply emits_put_if.
Qed.

Lemma emits_WriteByteSeq_guid g i : emits (WriteByteSeq (guid_get (ObjectGuid_of g) i))
                                          (guid_byte_ops g i).
Proof. apply emits_WriteByteSeq, guid_get_byte. Qed.

(** Every case of the switch that only writes puts the specified
    operations on the wire. *)
Lemma emits_write_field u c e :
  field_ok e = true -> e <> MSECounter -> e <> MSEExtraElement ->
  emits (write_field u c e) (encode (fields_of u c) e).
Proof.
  intros He Hc Hx.
  destruct e; try discriminate He; try done; cbn [write_field encode];
    unfold fields_of, absent_bit; cbv zeta; cbn [mf_transport mf_fall mf_flags mf_flags2 mf_time
      mf_o mf_pitch mf_elevation mf_guid mf_x mf_y mf_z mf_counter mf_forces mf_spline];
    rewrite ?present_opt_if, ?negb_involutive;
    first
      [ apply emits_bit | apply emits_WriteBit_unit | apply emits_WriteByteSeq_guid
      | by apply emits_append_T | by apply emits_put_if | apply emits_WriteBits
      | apply emits_st_when; intros _; apply emits_WriteBits
      | apply emits_st_when; intros ->; first [apply emits_WriteBit_unit
          | apply emits_WriteByteSeq_guid ]
      | apply emits_st_when; intros _; cbn [tf_time2 tf_time3 ff_direction];
        rewrite ?present_opt_if; apply emits_bit
      | by apply emits_put_within
      | by apply emits_put_nested
      | apply emits_put_nested; [done|]; cbn [ff_direction];
        by destruct (w_hasFallDirection _) ].
Qed.


Lemma on_packet_emits {A} (m : BB A) os s w :
  emits m os -> writes (w_packet s) w -> room (ops_size os) w ->
  exists a b, on_packet m s = Ok (a, mkWState b (m_movementCounter s) (w_extras s)) /\
              m (w_packet s) = Ok (a, b) /\ writes b (wire_ops os w).
Proof.
  intros Hm Hw Hr. destruct (Hm _ _ Hw Hr) as (a & b & H & Hb & _).
  exists a, b. unfold on_packet. by rewrite H.
Qed.

Lemma WriteNextElement_result x e x' b r b' :
  next_element x = Some (e, x') -> WriteNextElement x b = Ok (r, b') -> r = x'.
Proof.
  unfold WriteNextElement. intros ->.
  destruct e; intros H; try discriminate H;
    apply st_bind_inv in H as (? & ? & _ & H); injection H as <- _; done.
Qed.

Lemma emits_WriteNextElement x e x' :
  next_element x = Some (e, x') -> extra_ok e = true -> Forall is_byte (Data_guid x) ->
  emits (WriteNextElement x) (encode_extra x e).
Proof.
  intros Hx He Hb. unfold WriteNextElement. rewrite Hx.
  assert (Data_guid x' = Data_guid x /\ floatData x' = floatData x /\ byteData x' = byteData x)
    as (Hg & Hf & Hd) by (unfold next_element in Hx; case_match; by simplify_eq).
  assert (forall i, is_byte (guid_get (Data_guid x) i)) as Hbyte.
  { intros i. unfold guid_get. destruct (nth_in_or_default i (Data_guid x) 0) as [Hin| ->]; [|done].
    exact (proj1 (List.Forall_forall _ _) Hb _ Hin). }
  destruct e; try discriminate He; cbn [encode_extra]; rewrite ?Hg, ?Hf, ?Hd, <- app_nil_r;
    (apply emits_bind; [|intros; apply emits_ret]);
    first [apply emits_WriteBit | by apply emits_WriteByteSeq | by apply emits_append_T].
Qed.

Lemma encode_seq_set_index f x i xs seq :
  encode_seq f (set_index i x) xs seq = encode_seq f x xs seq.
Proof.
  revert xs. induction seq as [|e seq IH]; intros xs; [done|].
  destruct e; cbn [encode_seq]; rewrite ?IH; try done. destruct xs as [|e' xs]; [done|].
  rewrite IH. f_equal.
Qed.

Lemma next_element_cons x e xs :
  extra_rest x = e :: xs ->
  next_element x = Some (e, set_index (S (_index x)) x) /\
  extra_rest (set_index (S (_index x)) x) = xs.
Proof.
  unfold extra_rest, next_element. cbn. intros H.
  by rewrite (lookup_drop_head _ _ _ _ H), (drop_next _ _ _ _ H).
Qed.

(** The counter and the extras after a layout. *)
Definition counter_after (seq : list MovementStatusElements) (c : Z) : Z :=
  if mem MSECounter seq then u32 (c + 1) else c.
Definition extras_after (n : nat) (o : option Extra) : option Extra :=
  match o with
  | Some x => Some (set_index (n + _index x) x)
  | None => None
  end.

(** What the loop does from the state [s] and the wire [w] on. *)
Definition loop_spec (u : UnitView) (c0 : Z) (seq : list MovementStatusElements)
    (s : WState) (w : wire) : Prop :=
  writer_ok seq = true -> extra_wf (count_extras seq) (w_extras s) ->
  (mem MSECounter seq || mem MSEHasCounter seq = true -> m_movementCounter s = c0) ->
  writes (w_packet s) w -> room (ops_size (packet_ops u seq c0 (w_extras s))) w ->
  exists b, WriteElements u seq s
            = Ok (tt, mkWState b (counter_after seq (m_movementCounter s))
                        (extras_after (count_extras seq) (w_extras s))) /\
            writes b (wire_ops (packet_ops u seq c0 (w_extras s)) w).

Lemma loop_extra u c0 seq s w :
  (forall s w, loop_spec u c0 seq s w) -> loop_spec u c0 (MSEExtraElement :: seq) s w.
Proof.
  intros IH Hok Hx Hc Hw Hr. destruct (w_extras s) as [x|] eqn:Hxs; [|done].
  destruct Hx as (Hn & Hall & Hbytes). cbn [count_extras] in Hn.
  destruct (extra_rest x) as [|e xs] eqn:Hrest; [cbn in Hn; lia|].
  cbn [forallb] in Hall. apply andb_true_iff in Hall as [He Hall].
  destruct (next_element_cons _ _ _ Hrest) as [Hnext Hrest'].
  unfold packet_ops in Hr |- *. change (extra_of (Some x)) with x in Hr |- *.
  rewrite Hrest in Hr |- *. cbn [encode_seq] in Hr |- *. rewrite ops_size_app in Hr.
  destruct (on_packet_emits _ _ s w (emits_WriteNextElement _ _ _ Hnext He Hbytes) Hw)
    as (x' & b1 & H1 & Hres & Hw1); [eapply room_weaken; [exact Hr|lia]|].
  apply (WriteNextElement_result _ _ _ _ _ _ Hnext) in Hres as ->.
  cbn [WriteElements WriteElement]. rewrite wire_ops_app.
  set (x' := set_index (S (_index x)) x) in *.
  assert (packet_ops u seq c0 (Some x') = encode_seq (fields_of u c0) x xs seq) as Hops.
  { unfold packet_ops. change (extra_of (Some x')) with x'. rewrite Hrest'.
    apply encode_seq_set_index. }
  destruct (IH (mkWState b1 (m_movementCounter s) (Some x')) (wire_ops (encode_extra x e) w))
    as (b2 & H2 & Hw2); cbn [w_extras w_packet m_movementCounter]; try done.
  - split; [|by rewrite Hrest']. rewrite Hrest'. cbn in Hn |- *. lia.
  - rewrite Hops. by apply room_ops.
  - exists b2. cbn [w_extras m_movementCounter] in H2, Hw2. rewrite Hops in Hw2.
    split; [|done].
    unfold mbind at 1, st_bind at 1. unfold mbind at 1, st_bind at 1, st_get.
    rewrite Hxs. st_step H1. unfold st_modify, set_extras.
    cbn [w_packet m_movementCounter w_extras]. rewrite H2.
    unfold extras_after, x'. cbn [set_index _index].
    by replace (count_extras seq + S (_index x))%nat with (S (count_extras seq + _index x)) by lia.
Qed.

Lemma packet_ops_cons u e seq c0 o :
  e <> MSEEnd -> e <> MSEExtraElement ->
  packet_ops u (e :: seq) c0 o = encode (fields_of u c0) e ++ packet_ops u seq c0 o /\
  count_extras (e :: seq) = count_extras seq.
Proof. intros. by destruct e. Qed.

Lemma loop_counter u c0 seq s w :
  (forall s w, loop_spec u c0 seq s w) -> loop_spec u c0 (MSECounter :: seq) s w.
Proof.
  intros IH Hok Hx Hc Hw Hr.
  destruct (packet_ops_cons u MSECounter seq c0 (w_extras s)) as [Hops Hcnt]; [done|done|].
  rewrite Hops, Hcnt in *. rewrite ops_size_app in Hr. rewrite wire_ops_app.
  cbn [writer_ok] in Hok. rewrite !andb_true_iff, !negb_true_iff in Hok.
  destruct Hok as [[Hm1 Hm2] Hok]. assert (m_movementCounter s = c0) as Hc0 by (by apply Hc).
  destruct (on_packet_emits _ _ s w
    (emits_put_if (negb (m_movementCounter s =? 0)) 4 (m_movementCounter s) ltac:(done)) Hw)
    as ([] & b1 & H1 & _ & Hw1); [rewrite Hc0; eapply room_weaken; [exact Hr|cbn; lia]|].
  rewrite Hc0 in Hw1.
  destruct (IH (mkWState b1 (u32 (m_movementCounter s + 1)) (w_extras s))
               (wire_ops (encode (fields_of u c0) MSECounter) w)) as (b2 & H2 & Hw2);
    cbn [w_extras w_packet m_movementCounter]; try done.
  - by rewrite Hm1, Hm2.
  - by apply room_ops.
  - exists b2. split; [|done]. cbn [WriteElements WriteElement].
    unfold mbind at 1, st_bind at 1. unfold mbind at 1, st_bind at 1, st_get.
    st_step H1. unfold st_modify, set_counter. cbn [w_packet m_movementCounter w_extras].
    rewrite H2. unfold counter_after. by rewrite Hm1.
Qed.

Lemma loop_field u c0 e seq s w :
  e <> MSEEnd -> e <> MSEExtraElement -> e <> MSECounter ->
  (forall s w, loop_spec u c0 seq s w) -> loop_spec u c0 (e :: seq) s w.
Proof.
  intros Hend Hextra Hcounter IH Hok Hx Hc Hw Hr.
  destruct (packet_ops_cons u e seq c0 (w_extras s)) as [Hops Hcnt]; [done|done|].
  rewrite Hops, Hcnt in *. rewrite ops_size_app in Hr. rewrite wire_ops_app.
  assert (writer_ok (e :: seq) = field_ok e && writer_ok seq) as Hok' by (by destruct e).
  rewrite Hok', andb_true_iff in Hok. destruct Hok as [He Hok].
  assert (encode (fields_of u (m_movementCounter s)) e = encode (fields_of u c0) e) as Henc.
  { destruct (decide (e = MSEHasCounter)) as [->|Hh]; [|by destruct e].
    by rewrite Hc by apply orb_true_r. }
  destruct (on_packet_emits _ _ s w
    (emits_write_field u (m_movementCounter s) e He Hcounter Hextra) Hw)
    as ([] & b1 & H1 & _ & Hw1); [rewrite Henc; eapply room_weaken; [exact Hr|lia]|].
  rewrite Henc in Hw1.
  destruct (IH (mkWState b1 (m_movementCounter s) (w_extras s))
               (wire_ops (encode (fields_of u c0) e) w)) as (b2 & H2 & Hw2);
    cbn [w_extras w_packet m_movementCounter]; try done.
  - intros H. apply Hc. rewrite !mem_cons.
    destruct (mem MSECounter seq); [by rewrite orb_true_r|].
    cbn in H. by rewrite H, !orb_true_r.
  - by apply room_ops.
  - exists b2. split; [|done].
    assert (WriteElements u (e :: seq) = (WriteElement u e;; WriteElements u seq)) as ->
      by (by destruct e).
    assert (WriteElement u e s = on_packet (write_field u (m_movementCounter s) e) s) as Hel
      by (by destruct e).
    rewrite H1 in Hel. st_step Hel. rewrite H2. cbn [m_movementCounter].
    unfold counter_after. rewrite mem_cons.
    replace (mse_eqb MSECounter e) with false by (by destruct e). done.
Qed.

(** The loop, from any point of the layout. *)
Lemma WriteElements_encodes u c0 seq s w : loop_spec u c0 seq s w.
Proof.
  revert s w. induction seq as [|e seq IH]; intros s w; [by intros ?|].
  destruct (decide (e = MSEEnd)) as [->|Hend].
  { intros Hok Hx Hc Hw Hr. destruct seq; [|done]. exists (w_packet s).
    destruct s as [p c [x|]]; [|done]. by destruct x. }
  destruct (decide (e = MSEExtraElement)) as [->|Hextra]; [by apply loop_extra|].
  destruct (decide (e = MSECounter)) as [->|Hcounter]; [by apply loop_counter|].
  by apply loop_field.
Qed.

(** ** The bits are flushed by the GUID bytes that follow them *)

Definition is_bits (e : MovementStatusElements) : bool :=
  match element_shape e with ShapeBits => true | _ => false end.
Definition guid_byte_elements : list MovementStatusElements :=
  [MSEGuidByte0; MSEGuidByte1; MSEGuidByte2; MSEGuidByte3;
   MSEGuidByte4; MSEGuidByte5; MSEGuidByte6; MSEGuidByte7].

(** The element [g] occurs with no bit element behind it. *)
Fixpoint bits_before (g : MovementStatusElements) (seq : list MovementStatusElements) : bool :=
  match seq with
  | [] | MSEEnd :: _ => false
  | e :: seq => mse_eqb e g && forallb (fun e => negb (is_bits e)) seq || bits_before g seq
  end.

Lemma wire_bytes_pend bss w :
  w_pend w = [] \/ bss <> [] -> w_pend (wire_ops (OBytes <$> bss) w) = [].
Proof.
  revert w. induction bss as [|bs bss IH]; intros w Hw; [by destruct Hw|]. cbn. apply IH. by left.
Qed.

Lemma encode_nonbits f e : is_bits e = false -> exists bss, encode f e = OBytes <$> bss.
Proof.
  intros He. destruct (element_shape e) eqn:Hs.
  - unfold is_bits in He. by rewrite Hs in He.
  - by apply shape_bytes_ops.
  - exists []. by destruct e.
Qed.

Lemma nonbits_pend f x xs seq w :
  forallb (fun e => negb (is_bits e)) seq = true -> forallb (fun e => negb (is_bits e)) xs = true ->
  w_pend w = [] -> w_pend (wire_ops (encode_seq f x xs seq) w) = [].
Proof.
  revert xs w. induction seq as [|e seq IH]; intros xs w Hseq Hxs Hw; [done|].
  cbn [forallb] in Hseq. apply andb_true_iff in Hseq as [He Hseq]. apply negb_true_iff in He.
  destruct (decide (e = MSEEnd)) as [->|Hend]; [done|].
  destruct (decide (e = MSEExtraElement)) as [->|Hextra].
  - destruct xs as [|e' xs]; [done|]. cbn [encode_seq forallb] in *. rewrite wire_ops_app.
    apply andb_true_iff in Hxs as [He' Hxs]. apply negb_true_iff in He'. apply IH; [done|done|].
    assert (exists bss, encode_extra x e' = OBytes <$> bss) as [bss ->].
    { destruct e'; try discriminate He'; try (by exists []); try (by eexists [_]);
        cbn; unfold byte_seq_ops; case_match; (by eexists [_]) || (by exists []). }
    apply wire_bytes_pend. by left.
  - assert (encode_seq f x xs (e :: seq) = encode f e ++ encode_seq f x xs seq) as ->
      by (by destruct e).
    rewrite wire_ops_app. apply IH; [done|done|].
    destruct (encode_nonbits f e He) as [bss ->]. apply wire_bytes_pend. by left.
Qed.

Lemma bits_before_pend f x xs seq w i g :
  guid_byte_elements !! i = Some g -> bits_before g seq = true ->
  guid_get (ObjectGuid_of (mf_guid f)) i <> 0 ->
  (count_extras seq <= length xs)%nat -> forallb (fun e => negb (is_bits e)) xs = true ->
  w_pend (wire_ops (encode_seq f x xs seq) w) = [].
Proof.
  intros Hg Hseq Hbyte. revert xs w. induction seq as [|e seq IH]; intros xs w Hn Hxs; [done|].
  destruct (decide (e = MSEEnd)) as [->|Hend]; [done|].
  assert (mse_eqb e g && forallb (fun e => negb (is_bits e)) seq || bits_before g seq = true) as Hs
    by (by destruct e).
  destruct (mse_eqb e g) eqn:Heq; cbn [andb orb] in Hs.
  - apply mse_eqb_eq in Heq as ->.
    assert (encode_seq f x xs (g :: seq) = guid_byte_ops (mf_guid f) i ++ encode_seq f x xs seq)
      as -> by (do 8 (destruct i as [|i]; [by injection Hg as <-|]); discriminate Hg).
    rewrite wire_ops_app. apply orb_true_iff in Hs as [Hs|Hs];
      [|apply IH; [done|cbn in Hn; lia|done]].
    apply nonbits_pend; [done|done|]. unfold guid_byte_ops, byte_seq_ops.
    destruct (Z.eqb_spec (guid_get (ObjectGuid_of (mf_guid f)) i) 0); [done|]. cbn.
    done.
  - destruct (decide (e = MSEExtraElement)) as [->|Hextra].
    + destruct xs as [|e' xs]; cbn in Hn, Hxs; [lia|]. cbn [encode_seq].
      apply andb_true_iff in Hxs as [_ Hxs]. rewrite wire_ops_app. apply IH; [done|lia|done].
    + assert (encode_seq f x xs (e :: seq) = encode f e ++ encode_seq f x xs seq) as ->
        by (by destruct e).
      rewrite wire_ops_app. apply IH; [done|cbn in Hn; lia|done].
Qed.

(** A non-zero GUID has a non-zero byte. *)
Lemma guid_nonzero_byte g :
  u64 g <> 0 -> exists i e, guid_byte_elements !! i = Some e /\ guid_get (ObjectGuid_of g) i <> 0.
Proof.
  intros Hg. destruct (decide (Exists (fun i => guid_get (ObjectGuid_of g) i <> 0) (seq 0 8)))
    as [He|He].
  - apply Exists_exists in He as (i & Hi & Hb). apply elem_of_seq in Hi.
    destruct (lookup_lt_is_Some_2 guid_byte_elements i) as [e He]; [cbn; lia|]. by exists i, e.
  - exfalso. apply Hg. rewrite <- guid_u64_of.
    apply not_Exists_Forall in He; [|intros ?; apply not_dec, _].
    unfold guid_u64, ObjectGuid_of, guid_get, compose in *. cbn [le_bytes seq] in *.
    repeat rewrite Forall_cons in He. cbn [nth] in He.
    destruct He as (H0 & H1 & H2 & H3 & H4 & H5 & H6 & H7 & _).
    cbn [le_value]. lia.
Qed.

(** ** Size *)

Lemma ops_size_bits v n : ops_size (bits_ops v n) = n.
Proof.
  rewrite <- (length_value_bits v n) at 2. unfold bits_ops.
  induction (value_bits v n) as [|y l IH]; [done|]. cbn. by rewrite <- IH.
Qed.

Lemma encode_size u c e : (ops_size (encode (fields_of u c) e) <= 60)%nat.
Proof.
  destruct e; cbn [encode]; unfold fields_of; cbv zeta;
    cbn [mf_transport mf_fall mf_flags mf_flags2 mf_time mf_o mf_pitch mf_elevation mf_guid mf_x
      mf_y mf_z mf_counter mf_forces mf_spline];
    unfold guid_byte_ops, byte_seq_ops, opt_if;
    repeat case_match; cbn -[bits_ops]; rewrite ?ops_size_bits; repeat case_match; cbn; lia.
Qed.

Lemma encode_extra_size x e : (ops_size (encode_extra x e) <= 60)%nat.
Proof. destruct e; cbn [encode_extra]; unfold byte_seq_ops; try case_match; cbn; lia. Qed.

Lemma encode_seq_size u c x xs seq :
  (ops_size (encode_seq (fields_of u c) x xs seq) <= 60 * length seq)%nat.
Proof.
  revert xs. induction seq as [|e seq IH]; intros xs; [done|].
  destruct (decide (e = MSEEnd)) as [->|Hend]; [cbn; lia|].
  destruct (decide (e = MSEExtraElement)) as [->|Hextra].
  - destruct xs as [|e' xs]; cbn [encode_seq]; [cbn; lia|]. rewrite ops_size_app.
    pose proof (encode_extra_size x e'). specialize (IH xs). cbn [length]. lia.
  - assert (encode_seq (fields_of u c) x xs (e :: seq)
            = encode (fields_of u c) e ++ encode_seq (fields_of u c) x xs seq) as ->
      by (by destruct e).
    rewrite ops_size_app. pose proof (encode_size u c e). specialize (IH xs). cbn [length]. lia.
Qed.

(** ** The layouts the server sends *)

Definition layout_of_opcode (o : Opcodes) : list MovementStatusElements :=
  default [] (GetMovementStatusElementsSequence o).

(** Accepted by the writer, short, and ending with the GUID bytes. *)
Definition server_layout_ok (o : Opcodes) : bool :=
  writer_ok (layout_of_opcode o) && (length (layout_of_opcode o) <=? 100)%nat
  && forallb (fun g => bits_before g (layout_of_opcode o)) guid_byte_elements.

Lemma server_layouts_ok : forallb server_layout_ok server_opcodes = true.
Proof. vm_compute. reflexivity. Qed.

Lemma server_layout_found o : In o server_opcodes ->
  GetMovementStatusElementsSequence o = Some (layout_of_opcode o).
Proof. cbn [server_opcodes In]. intros H. by repeat destruct H as [<-|H]. Qed.

Lemma server_layout o : In o server_opcodes ->
  writer_ok (layout_of_opcode o) = true /\ (length (layout_of_opcode o) <= 100)%nat /\
  forall g, In g guid_byte_elements -> bits_before g (layout_of_opcode o) = true.
Proof.
  intros Ho. pose proof (proj1 (forallb_forall _ _) server_layouts_ok o Ho) as H.
  unfold server_layout_ok in H. rewrite !andb_true_iff, Nat.leb_le in H.
  destruct H as [[H1 H2] H3]. split; [done|]. split; [done|].
  intros g Hg. exact (proj1 (forallb_forall _ _) H3 g Hg).
Qed.

(** The caller's extras hold floats and bytes only, as at every call site. *)
Definition extra_plain (n : nat) (o : option Extra) : Prop :=
  extra_wf n o /\
  forallb (fun e => negb (is_bits e)) (extra_rest (extra_of o)) = true.

(** The bytes of the packet the specification asks for. *)
Definition packet_spec (u : UnitView) (o : Opcodes) (counter : Z) (x : option Extra) : list Z :=
  w_out (wire_flush (wire_ops (packet_ops u (layout_of_opcode o) counter x) (mkWire [] []))).

(** A built packet is what the specification says, without pending bits. *)
Lemma build_packet_spec u o c x :
  In o server_opcodes -> u64 (GetGUID u) <> 0 ->
  extra_plain (count_extras (layout_of_opcode o)) x ->
  exists b, build_packet u o c x
            = Ok (mkWState b (counter_after (layout_of_opcode o) c)
                    (extras_after (count_extras (layout_of_opcode o)) x)) /\
            _storage b = packet_spec u o c x /\ _bitpos b = 8.
Proof.
  intros Ho Hg [Hx Hplain]. destruct (server_layout o Ho) as (Hok & Hlen & Hbits).
  destruct (WriteElements_encodes u c _ (mkWState new_ByteBuffer c x) (mkWire [] []) Hok)
    as (b & Hb & Hw); cbn [w_extras w_packet m_movementCounter] in *; auto using writes_new.
  { unfold room, packet_ops. pose proof (encode_seq_size u c (extra_of x)
      (extra_rest (extra_of x)) (layout_of_opcode o)). cbn [w_out length]. lia. }
  assert (w_pend (wire_ops (packet_ops u (layout_of_opcode o) c x) (mkWire [] [])) = []) as Hp.
  { destruct (guid_nonzero_byte (GetGUID u) Hg) as (i & g & Hi & Hbyte).
    apply (bits_before_pend _ _ _ _ _ i g); [done|..|done].
    - apply Hbits. apply list_elem_of_In. by eapply list_elem_of_lookup_2.
    - exact Hbyte.
    - destruct x as [x|]; [by destruct Hx|]. by rewrite Hx. }
  exists b. unfold build_packet, WriteMovementInfo. rewrite (server_layout_found o Ho), Hb.
  split; [done|]. destruct Hw as [Ho' _ _ Hbp _ _]. rewrite Hp in Hbp.
  split; [|by rewrite Hbp]. unfold packet_spec, wire_flush. by rewrite Hp.
Qed.

(** ** Properties *)

(** C2: for every opcode the server sends with a movement layout and every
    unit with a GUID, [WriteMovementInfo] on a fresh packet terminates
    without failing an [ASSERT], the bytes of the packet are exactly the
    encoding of the unit's movement state along the opcode's layout, no bit
    is left behind in the buffer, and the movement counter is advanced
    (modulo 2^32) exactly when the layout carries it. *)
Theorem WriteMovementInfo_refines u o c x :
  In o server_opcodes -> u64 (GetGUID u) <> 0 ->
  extra_plain (count_extras (layout_of_opcode o)) x ->
  exists b, WriteMovementInfo u o (mkWState new_ByteBuffer c x)
            = Ok (tt, mkWState b (if mem MSECounter (layout_of_opcode o) then u32 (c + 1) else c)
                        (extras_after (count_extras (layout_of_opcode o)) x)) /\
            _storage b = packet_spec u o c x /\ _bitpos b = 8.
Proof.
  intros Ho Hg Hx. destruct (build_packet_spec u o c x Ho Hg Hx) as (b & Hb & Hs).
  exists b. split; [|done]. unfold build_packet in Hb.
  destruct (WriteMovementInfo _ _ _) as [[[] s]|]; [|done]. by injection Hb as ->.
Qed.

(** Whatever its layout asks of the extras, [Send] for a player under
    his own control delivers the first packet to his client and the second
    to everybody else, and both carry the same extra elements from the
    start ([ResetIndex]); the counter of the second is the one the first
    left. *)
Theorem Send_player_packets u server self bcast c x :
  In self server_opcodes -> In bcast server_opcodes -> u64 (GetGUID u) <> 0 ->
  extra_plain (count_extras (layout_of_opcode self)) (ResetIndex <$> x) ->
  extra_plain (count_extras (layout_of_opcode bcast)) (ResetIndex <$> x) ->
  exists b1 b2 x',
    Send u (PlayerUnit true)
      (new_PacketSender (PlayerUnit true) server self bcast (ResetIndex <$> x)) c
    = Ok ([SendDirectMessage self b1; SendMessageToSet bcast b2 false],
          counter_after (layout_of_opcode bcast) (counter_after (layout_of_opcode self) c), x') /\
    _storage b1 = packet_spec u self c (ResetIndex <$> x) /\
    _storage b2 = packet_spec u bcast (counter_after (layout_of_opcode self) c) (ResetIndex <$> x).
Proof.
  intros Hs Hb Hg Hx1 Hx2.
  assert (forall o, In o server_opcodes -> is_NULL_OPCODE o = false) as Hnull
    by (cbn [server_opcodes In]; intros o H; by repeat destruct H as [<-|H]).
  destruct (build_packet_spec u self c _ Hs Hg Hx1) as (b1 & H1 & Hs1 & _).
  destruct (build_packet_spec u bcast (counter_after (layout_of_opcode self) c) _ Hb Hg Hx2)
    as (b2 & H2 & Hs2 & _).
  unfold Send. cbn [new_PacketSender _selfOpcode _broadcast _extraElements].
  rewrite !Hnull by done. cbn [negb andb]. rewrite H1. cbn [w_packet m_movementCounter w_extras].
  assert (ResetIndex <$> extras_after (count_extras (layout_of_opcode self)) (ResetIndex <$> x)
          = ResetIndex <$> x) as -> by (by destruct x).
  rewrite H2. by exists b1, b2, (extras_after (count_extras (layout_of_opcode bcast)) (ResetIndex <$> x)).
Qed.

(** An opcode without a layout is still sent: [Send] delivers an empty
    packet for it (this is the case of every broadcast of a player's speed,
    collision height or gravity change, whose SMSG_MOVE_UPDATE_... and
    SMSG_MOVE_GRAVITY_... opcodes have none). *)
Theorem Send_without_layout_is_empty u server self bcast c x :
  In self server_opcodes -> u64 (GetGUID u) <> 0 ->
  extra_plain (count_extras (layout_of_opcode self)) x ->
  GetMovementStatusElementsSequence bcast = None -> is_NULL_OPCODE bcast = false ->
  exists b1 c' x',
    Send u (PlayerUnit true) (new_PacketSender (PlayerUnit true) server self bcast x) c
    = Ok ([SendDirectMessage self b1; SendMessageToSet bcast new_ByteBuffer false], c', x') /\
    _storage b1 = packet_spec u self c x.
Proof.
  intros Hs Hg Hx Hseq Hnull.
  assert (forall o, In o server_opcodes -> is_NULL_OPCODE o = false) as Hnull'
    by (cbn [server_opcodes In]; intros o H; by repeat destruct H as [<-|H]).
  destruct (build_packet_spec u self c _ Hs Hg Hx) as (b1 & H1 & Hs1 & _).
  unfold Send. cbn [new_PacketSender _selfOpcode _broadcast _extraElements].
  rewrite Hnull, Hnull' by done. cbn [negb andb]. rewrite H1.
  unfold build_packet, WriteMovementInfo. rewrite Hseq. by eexists b1, _, _.
Qed.

End Write.

(** ** Witnesses *)

(** Any float operations will do; these compare patterns. *)
Definition witness_floats : FloatOps :=
  {| fuzzyEq := Z.eqb; wrap_pi := fun x => x; NormalizeOrientation := fun x => x |}.

Definition witness_unit : UnitView :=
  let F := witness_floats in
  mkUnitView 0x0600000000000003 (mkPosition 0x44fa0000 0xc2c80000 0x42000000 0x3f800000)
    (set_flags (Z.lor MOVEMENTFLAG_FORWARD MOVEMENTFLAG_FALLING) new_MovementInfo) 0 false 1000.

Definition witness_extra : Extra := set_floatData 0x40e00000 (new_Extra [MSEExtraFloat]).

Lemma witness_extra_plain n : (n <= 1)%nat -> extra_plain n (Some witness_extra).
Proof.
  intros Hn. split; [|done]. split; [exact Hn|]. split; [done|].
  apply (le_bytes_bytes 8 0).
Qed.

Lemma WriteMovementInfo_refines_witness :
  exists b, @WriteMovementInfo witness_floats witness_unit SMSG_MOVE_SET_RUN_SPEED
              (mkWState new_ByteBuffer 7 (Some witness_extra))
            = Ok (tt, mkWState b 8 (Some (set_index 1 witness_extra))) /\
            _storage b = @packet_spec witness_floats witness_unit SMSG_MOVE_SET_RUN_SPEED 7
                           (Some witness_extra) /\ _bitpos b = 8.
Proof.
  apply (@WriteMovementInfo_refines witness_floats witness_unit SMSG_MOVE_SET_RUN_SPEED 7
           (Some witness_extra)).
  - cbn. tauto.
  - vm_compute. discriminate.
  - apply witness_extra_plain. vm_compute. lia.
Defined.

Lemma Send_player_packets_witness :
  exists b1 b2 x',
    @Send witness_floats witness_unit (PlayerUnit true)
      (new_PacketSender (PlayerUnit true) SMSG_SPLINE_MOVE_ROOT SMSG_MOVE_ROOT SMSG_MOVE_ROOT None) 5
    = Ok ([SendDirectMessage SMSG_MOVE_ROOT b1; SendMessageToSet SMSG_MOVE_ROOT b2 false], 7, x') /\
    _storage b1 = @packet_spec witness_floats witness_unit SMSG_MOVE_ROOT 5 None /\
    _storage b2 = @packet_spec witness_floats witness_unit SMSG_MOVE_ROOT 6 None.
Proof.
  apply (@Send_player_packets witness_floats witness_unit SMSG_SPLINE_MOVE_ROOT SMSG_MOVE_ROOT
           SMSG_MOVE_ROOT 5 None);
    [cbn; tauto|cbn; tauto|vm_compute; discriminate|by split|by split].
Defined.

Lemma Send_without_layout_is_empty_witness :
  exists b1 c' x',
    @Send witness_floats witness_unit (PlayerUnit true)
      (new_PacketSender (PlayerUnit true) SMSG_SPLINE_MOVE_SET_RUN_SPEED SMSG_MOVE_SET_RUN_SPEED
         SMSG_MOVE_UPDATE_RUN_SPEED (Some witness_extra)) 0
    = Ok ([SendDirectMessage SMSG_MOVE_SET_RUN_SPEED b1;
           SendMessageToSet SMSG_MOVE_UPDATE_RUN_SPEED new_ByteBuffer false], c', x') /\
    _storage b1
    = @packet_spec witness_floats witness_unit SMSG_MOVE_SET_RUN_SPEED 0 (Some witness_extra).
Proof.
  apply (@Send_without_layout_is_empty witness_floats witness_unit SMSG_SPLINE_MOVE_SET_RUN_SPEED
           SMSG_MOVE_SET_RUN_SPEED SMSG_MOVE_UPDATE_RUN_SPEED 0 (Some witness_extra));
    [cbn; tauto|vm_compute; discriminate| |done|done].
  apply witness_extra_plain. vm_compute. lia.
Defined.

(** A unit's first root packet is four bytes shorter than all later ones:
    the layout sends the counter without a presence bit. *)
Example counter_zero_shortens_packet :
  (length (@packet_spec witness_floats witness_unit SMSG_MOVE_ROOT 0 None) + 4)%nat
  = length (@packet_spec witness_floats witness_unit SMSG_MOVE_ROOT 1 None).
Proof. vm_compute. reflexivity. Qed.
