(* ===== verification/MovementRead.v ===== *)
(** * Reading movement packets

    [Player::ReadMovementInfo] (Player.cpp).  The first part translates the
    loop over the layout and the steps behind it; the second proves that the
    loop decodes every packet encoded along a well-formed layout, that the
    layouts of the client's opcodes are well-formed, and that no bytes a
    client can send make the loop fail otherwise than by the buffer's
    position exception. *)
From S2P Require Import Prelude.
From S2P Require Import ByteBuffer.
From S2P Require Import MovementElements.
From S2P Require Import MovementTables.
From S2P Require Import MovementInfo.
From S2P Require Import MovementFields.
From S2P Require Import MovementWrite.
Local Open Scope Z_scope.

(** ** The locals of [ReadMovementInfo] *)

Record ReadLocals := mkReadLocals {
  r_hasMovementFlags : bool;
  r_hasMovementFlags2 : bool;
  r_hasTimestamp : bool;
  r_hasOrientation : bool;
  r_hasTransportData : bool;
  r_hasTransportTime2 : bool;
  r_hasTransportTime3 : bool;
  r_hasPitch : bool;
  r_hasFallData : bool;
  r_hasFallDirection : bool;
  r_hasSplineElevation : bool;
  r_hasCounter : bool;
  r_forcesCount : Z;
  r_guid : ObjectGuid;
  r_tguid : ObjectGuid
}.

Definition new_locals : ReadLocals :=
  mkReadLocals false false false false false false false false false false false false
    0 ObjectGuid_empty ObjectGuid_empty.

Definition set_r_hasMovementFlags (x : bool) (l : ReadLocals) : ReadLocals :=
  mkReadLocals x (r_hasMovementFlags2 l) (r_hasTimestamp l) (r_hasOrientation l)
    (r_hasTransportData l) (r_hasTransportTime2 l) (r_hasTransportTime3 l) (r_hasPitch l)
    (r_hasFallData l) (r_hasFallDirection l) (r_hasSplineElevation l) (r_hasCounter l)
    (r_forcesCount l) (r_guid l) (r_tguid l).
Definition set_r_hasMovementFlags2 (x : bool) (l : ReadLocals) : ReadLocals :=
  mkReadLocals (r_hasMovementFlags l) x (r_hasTimestamp l) (r_hasOrientation l)
    (r_hasTransportData l) (r_hasTransportTime2 l) (r_hasTransportTime3 l) (r_hasPitch l)
    (r_hasFallData l) (r_hasFallDirection l) (r_hasSplineElevation l) (r_hasCounter l)
    (r_forcesCount l) (r_guid l) (r_tguid l).
Definition set_r_hasTimestamp (x : bool) (l : ReadLocals) : ReadLocals :=
  mkReadLocals (r_hasMovementFlags l) (r_hasMovementFlags2 l) x (r_hasOrientation l)
    (r_hasTransportData l) (r_hasTransportTime2 l) (r_hasTransportTime3 l) (r_hasPitch l)
    (r_hasFallData l) (r_hasFallDirection l) (r_hasSplineElevation l) (r_hasCounter l)
    (r_forcesCount l) (r_guid l) (r_tguid l).
Definition set_r_hasOrientation (x : bool) (l : ReadLocals) : ReadLocals :=
  mkReadLocals (r_hasMovementFlags l) (r_hasMovementFlags2 l) (r_hasTimestamp l) x
    (r_hasTransportData l) (r_hasTransportTime2 l) (r_hasTransportTime3 l) (r_hasPitch l)
    (r_hasFallData l) (r_hasFallDirection l) (r_hasSplineElevation l) (r_hasCounter l)
    (r_forcesCount l) (r_guid l) (r_tguid l).
Definition set_r_hasTransportData (x : bool) (l : ReadLocals) : ReadLocals :=
  mkReadLocals (r_hasMovementFlags l) (r_hasMovementFlags2 l) (r_hasTimestamp l)
    (r_hasOrientation l) x (r_hasTransportTime2 l) (r_hasTransportTime3 l) (r_hasPitch l)
    (r_hasFallData l) (r_hasFallDirection l) (r_hasSplineElevation l) (r_hasCounter l)
    (r_forcesCount l) (r_guid l) (r_tguid l).
Definition set_r_hasTransportTime2 (x : bool) (l : ReadLocals) : ReadLocals :=
  mkReadLocals (r_hasMovementFlags l) (r_hasMovementFlags2 l) (r_hasTimestamp l)
    (r_hasOrientation l) (r_hasTransportData l) x (r_hasTransportTime3 l) (r_hasPitch l)
    (r_hasFallData l) (r_hasFallDirection l) (r_hasSplineElevation l) (r_hasCounter l)
    (r_forcesCount l) (r_guid l) (r_tguid l).
Definition set_r_hasTransportTime3 (x : bool) (l : ReadLocals) : ReadLocals :=
  mkReadLocals (r_hasMovementFlags l) (r_hasMovementFlags2 l) (r_hasTimestamp l)
    (r_hasOrientation l) (r_hasTransportData l) (r_hasTransportTime2 l) x (r_hasPitch l)
    (r_hasFallData l) (r_hasFallDirection l) (r_hasSplineElevation l) (r_hasCounter l)
    (r_forcesCount l) (r_guid l) (r_tguid l).
Definition set_r_hasPitch (x : bool) (l : ReadLocals) : ReadLocals :=
  mkReadLocals (r_hasMovementFlags l) (r_hasMovementFlags2 l) (r_hasTimestamp l)
    (r_hasOrientation l) (r_hasTransportData l) (r_hasTransportTime2 l) (r_hasTransportTime3
    l) x (r_hasFallData l) (r_hasFallDirection l) (r_hasSplineElevation l) (r_hasCounter l)
    (r_forcesCount l) (r_guid l) (r_tguid l).
Definition set_r_hasFallData (x : bool) (l : ReadLocals) : ReadLocals :=
  mkReadLocals (r_hasMovementFlags l) (r_hasMovementFlags2 l) (r_hasTimestamp l)
    (r_hasOrientation l) (r_hasTransportData l) (r_hasTransportTime2 l) (r_hasTransportTime3
    l) (r_hasPitch l) x (r_hasFallDirection l) (r_hasSplineElevation l) (r_hasCounter l)
    (r_forcesCount l) (r_guid l) (r_tguid l).
Definition set_r_hasFallDirection (x : bool) (l : ReadLocals) : ReadLocals :=
  mkReadLocals (r_hasMovementFlags l) (r_hasMovementFlags2 l) (r_hasTimestamp l)
    (r_hasOrientation l) (r_hasTransportData l) (r_hasTransportTime2 l) (r_hasTransportTime3
    l) (r_hasPitch l) (r_hasFallData l) x (r_hasSplineElevation l) (r_hasCounter l)
    (r_forcesCount l) (r_guid l) (r_tguid l).
Definition set_r_hasSplineElevation (x : bool) (l : ReadLocals) : ReadLocals :=
  mkReadLocals (r_hasMovementFlags l) (r_hasMovementFlags2 l) (r_hasTimestamp l)
    (r_hasOrientation l) (r_hasTransportData l) (r_hasTransportTime2 l) (r_hasTransportTime3
    l) (r_hasPitch l) (r_hasFallData l) (r_hasFallDirection l) x (r_hasCounter l)
    (r_forcesCount l) (r_guid l) (r_tguid l).
Definition set_r_hasCounter (x : bool) (l : ReadLocals) : ReadLocals :=
  mkReadLocals (r_hasMovementFlags l) (r_hasMovementFlags2 l) (r_hasTimestamp l)
    (r_hasOrientation l) (r_hasTransportData l) (r_hasTransportTime2 l) (r_hasTransportTime3
    l) (r_hasPitch l) (r_hasFallData l) (r_hasFallDirection l) (r_hasSplineElevation l) x
    (r_forcesCount l) (r_guid l) (r_tguid l).
Definition set_r_forcesCount (x : Z) (l : ReadLocals) : ReadLocals :=
  mkReadLocals (r_hasMovementFlags l) (r_hasMovementFlags2 l) (r_hasTimestamp l)
    (r_hasOrientation l) (r_hasTransportData l) (r_hasTransportTime2 l) (r_hasTransportTime3
    l) (r_hasPitch l) (r_hasFallData l) (r_hasFallDirection l) (r_hasSplineElevation l)
    (r_hasCounter l) x (r_guid l) (r_tguid l).
Definition set_r_guid (x : ObjectGuid) (l : ReadLocals) : ReadLocals :=
  mkReadLocals (r_hasMovementFlags l) (r_hasMovementFlags2 l) (r_hasTimestamp l)
    (r_hasOrientation l) (r_hasTransportData l) (r_hasTransportTime2 l) (r_hasTransportTime3
    l) (r_hasPitch l) (r_hasFallData l) (r_hasFallDirection l) (r_hasSplineElevation l)
    (r_hasCounter l) (r_forcesCount l) x (r_tguid l).
Definition set_r_tguid (x : ObjectGuid) (l : ReadLocals) : ReadLocals :=
  mkReadLocals (r_hasMovementFlags l) (r_hasMovementFlags2 l) (r_hasTimestamp l)
    (r_hasOrientation l) (r_hasTransportData l) (r_hasTransportTime2 l) (r_hasTransportTime3
    l) (r_hasPitch l) (r_hasFallData l) (r_hasFallDirection l) (r_hasSplineElevation l)
    (r_hasCounter l) (r_forcesCount l) (r_guid l) x.

(** State of the loop: the packet, the locals, [*mi] and [*extras]. *)
Record RState := mkRState {
  r_packet : ByteBuffer;
  r_locals : ReadLocals;
  r_mi : MovementInfo;
  r_extras : option Extra
}.
Definition R (A : Type) : Type := ST RState BBError A.

Definition on_data {A} (m : BB A) : R A := fun s =>
  match m (r_packet s) with
  | Ok (a, b) => Ok (a, mkRState b (r_locals s) (r_mi s) (r_extras s))
  | Err e => Err e
  end.
Definition get_locals : R ReadLocals := fun s => Ok (r_locals s, s).
Definition mod_locals (f : ReadLocals -> ReadLocals) : R unit :=
  st_modify (fun s => mkRState (r_packet s) (f (r_locals s)) (r_mi s) (r_extras s)).
Definition mod_mi (f : MovementInfo -> MovementInfo) : R unit :=
  st_modify (fun s => mkRState (r_packet s) (r_locals s) (f (r_mi s)) (r_extras s)).
Definition set_r_extras (x : option Extra) (s : RState) : RState :=
  mkRState (r_packet s) (r_locals s) (r_mi s) x.

(** [if (c) variable = data.ReadBit();] and its inverted form. *)
Definition read_flag (set : bool -> ReadLocals -> ReadLocals) : R unit :=
  x ← on_data ReadBit; mod_locals (set x).
Definition read_inverted (set : bool -> ReadLocals -> ReadLocals) : R unit :=
  x ← on_data ReadBit; mod_locals (set (negb x)).
(** [if (c) data >> member;] for a member of [n] bytes. *)
Definition read_mi (c : bool) (n : nat) (set : Z -> MovementInfo -> MovementInfo) : R unit :=
  st_when c (v ← on_data (read n); mod_mi (set v)).

(** Assignments to members of the nested records. *)
Definition mod_pos (f : Position -> Position) (mi : MovementInfo) : MovementInfo :=
  set_pos (f (pos mi)) mi.
Definition mod_transport (f : TransportInfo -> TransportInfo) (mi : MovementInfo) : MovementInfo :=
  set_transport (f (transport mi)) mi.
Definition mod_tr_pos (f : Position -> Position) : MovementInfo -> MovementInfo :=
  mod_transport (fun t => set_tr_pos (f (tr_pos t)) t).
Definition mod_jump (f : JumpInfo -> JumpInfo) (mi : MovementInfo) : MovementInfo :=
  set_jump (f (jump mi)) mi.

(** [for (uint32 i = 0; i < forcesCount; i++) data.read_skip<uint32>();] *)
Fixpoint skip_forces (n : nat) : BB unit :=
  match n with
  | O => mret tt
  | S n => read_skip 4;; skip_forces n
  end.

Section Read.
Context {FO : FloatOps}.

(** One iteration of the loop. *)
Definition ReadElement (element : MovementStatusElements) : R unit :=
  l ← get_locals;
  match element with
  | MSEHasGuidByte0 | MSEHasGuidByte1 | MSEHasGuidByte2 | MSEHasGuidByte3
  | MSEHasGuidByte4 | MSEHasGuidByte5 | MSEHasGuidByte6 | MSEHasGuidByte7 =>
      x ← on_data ReadBit;
      mod_locals (set_r_guid
        (guid_set (r_guid l) (mse_index element MSEHasGuidByte0) (Z.b2z x)))
  | MSEHasTransportGuidByte0 | MSEHasTransportGuidByte1 | MSEHasTransportGuidByte2
  | MSEHasTransportGuidByte3 | MSEHasTransportGuidByte4 | MSEHasTransportGuidByte5
  | MSEHasTransportGuidByte6 | MSEHasTransportGuidByte7 =>
      st_when (r_hasTransportData l)
        (x ← on_data ReadBit;
         mod_locals (set_r_tguid
           (guid_set (r_tguid l) (mse_index element MSEHasTransportGuidByte0) (Z.b2z x))))
  | MSEGuidByte0 | MSEGuidByte1 | MSEGuidByte2 | MSEGuidByte3
  | MSEGuidByte4 | MSEGuidByte5 | MSEGuidByte6 | MSEGuidByte7 =>
      let i := mse_index element MSEGuidByte0 in
      x ← on_data (ReadByteSeq (guid_get (r_guid l) i));
      mod_locals (set_r_guid (guid_set (r_guid l) i x))
  | MSETransportGuidByte0 | MSETransportGuidByte1 | MSETransportGuidByte2
  | MSETransportGuidByte3 | MSETransportGuidByte4 | MSETransportGuidByte5
  | MSETransportGuidByte6 | MSETransportGuidByte7 =>
      let i := mse_index element MSETransportGuidByte0 in
      st_when (r_hasTransportData l)
        (x ← on_data (ReadByteSeq (guid_get (r_tguid l) i));
         mod_locals (set_r_tguid (guid_set (r_tguid l) i x)))
  | MSEHasMovementFlags => read_inverted set_r_hasMovementFlags
  | MSEHasMovementFlags2 => read_inverted set_r_hasMovementFlags2
  | MSEHasTimestamp => read_inverted set_r_hasTimestamp
  | MSEHasOrientation => read_inverted set_r_hasOrientation
  | MSEHasTransportData => read_flag set_r_hasTransportData
  | MSEHasTransportTime2 =>
      st_when (r_hasTransportData l) (read_flag set_r_hasTransportTime2)
  | MSEHasTransportTime3 =>
      st_when (r_hasTransportData l) (read_flag set_r_hasTransportTime3)
  | MSEHasPitch => read_inverted set_r_hasPitch
  | MSEHasFallData => read_flag set_r_hasFallData
  | MSEHasFallDirection => st_when (r_hasFallData l) (read_flag set_r_hasFallDirection)
  | MSEHasSplineElevation => read_inverted set_r_hasSplineElevation
  | MSEHasSpline => on_data ReadBit;; mret tt
  | MSEMovementFlags =>
      st_when (r_hasMovementFlags l) (v ← on_data (ReadBits 30); mod_mi (set_flags v))
  | MSEMovementFlags2 =>
      st_when (r_hasMovementFlags2 l) (v ← on_data (ReadBits 13); mod_mi (set_flags2 (u16 v)))
  | MSETimestamp => read_mi (r_hasTimestamp l) 4 set_time
  | MSEPositionX => read_mi true 4 (fun v => mod_pos (set_m_positionX v))
  | MSEPositionY => read_mi true 4 (fun v => mod_pos (set_m_positionY v))
  | MSEPositionZ => read_mi true 4 (fun v => mod_pos (set_m_positionZ v))
  | MSEOrientation => read_mi (r_hasOrientation l) 4 (fun v => mod_pos (SetOrientation v))
  | MSETransportPositionX =>
      read_mi (r_hasTransportData l) 4 (fun v => mod_tr_pos (set_m_positionX v))
  | MSETransportPositionY =>
      read_mi (r_hasTransportData l) 4 (fun v => mod_tr_pos (set_m_positionY v))
  | MSETransportPositionZ =>
      read_mi (r_hasTransportData l) 4 (fun v => mod_tr_pos (set_m_positionZ v))
  | MSETransportOrientation =>
      read_mi (r_hasTransportData l) 4 (fun v => mod_tr_pos (SetOrientation v))
  | MSETransportSeat =>
      read_mi (r_hasTransportData l) 1 (fun v => mod_transport (set_seat (s8 v)))
  | MSETransportTime =>
      read_mi (r_hasTransportData l) 4 (fun v => mod_transport (set_tr_time v))
  | MSETransportTime2 =>
      read_mi (r_hasTransportData l && r_hasTransportTime2 l) 4
        (fun v => mod_transport (set_time2 v))
  | MSETransportTime3 =>
      read_mi (r_hasTransportData l && r_hasTransportTime3 l) 4
        (fun v => mod_transport (set_time3 v))
  | MSEPitch => read_mi (r_hasPitch l) 4 (fun v => set_pitch (wrap_pi v))
  | MSEFallTime => read_mi (r_hasFallData l) 4 (fun v => mod_jump (set_fallTime v))
  | MSEFallVerticalSpeed => read_mi (r_hasFallData l) 4 (fun v => mod_jump (set_zspeed v))
  | MSEFallCosAngle =>
      read_mi (r_hasFallData l && r_hasFallDirection l) 4 (fun v => mod_jump (set_cosAngle v))
  | MSEFallSinAngle =>
      read_mi (r_hasFallData l && r_hasFallDirection l) 4 (fun v => mod_jump (set_sinAngle v))
  | MSEFallHorizontalSpeed =>
      read_mi (r_hasFallData l && r_hasFallDirection l) 4 (fun v => mod_jump (set_xyspeed v))
  | MSESplineElevation => read_mi (r_hasSplineElevation l) 4 set_splineElevation
  | MSEForcesCount => v ← on_data (ReadBits 22); mod_locals (set_r_forcesCount v)
  | MSEForces => on_data (skip_forces (Z.to_nat (r_forcesCount l)))
  | MSEHasCounter => read_inverted set_r_hasCounter
  | MSECounter => st_when (r_hasCounter l) (on_data (read_skip 4))
  | MSEZeroBit | MSEOneBit => on_data ReadBit;; mret tt
  | MSEExtraElement =>
      s ← st_get;
      match r_extras s with
      | None => st_throw NullPointer
      | Some x => x ← on_data (ReadNextElement x); st_modify (set_r_extras (Some x))
      end
  | _ => st_throw AssertFailed
  end.

(** [for (; *sequence != MSEEnd; ++sequence)] *)
Fixpoint ReadElements (sequence : list MovementStatusElements) : R unit :=
  match sequence with
  | [] => st_throw OutOfBounds
  | MSEEnd :: _ => mret tt
  | element :: sequence => ReadElement element;; ReadElements sequence
  end.

(** Behind the loop: the GUIDs, then the anti-cheat pass. *)
Definition finish (pl : PlayerView) (l : ReadLocals) (mi : MovementInfo) : MovementInfo :=
  remove_violating_flags pl (r_hasFallData l) (r_hasFallDirection l) (r_hasSplineElevation l)
    (mod_transport (set_tr_guid (guid_u64 (r_tguid l))) (set_mi_guid (guid_u64 (r_guid l)) mi)).

(** [ReadMovementInfo(data, mi, extras)]: the movement info and the packet
    afterwards; without a layout both are left alone. *)
Definition ReadMovementInfo (pl : PlayerView) (opcode : Opcodes) (data : ByteBuffer)
    (mi : MovementInfo) (extras : option Extra) : outcome BBError (MovementInfo * ByteBuffer) :=
  match GetMovementStatusElementsSequence opcode with
  | None => Ok (mi, data)
  | Some sequence =>
      match ReadElements sequence (mkRState data new_locals mi extras) with
      | Ok (_, s) => Ok (finish pl (r_locals s) (r_mi s), r_packet s)
      | Err e => Err e
      end
  end.

(** ** What the loop makes of the contents of a packet *)

Definition opt_set {A} (o : option A) (f : A -> MovementInfo -> MovementInfo)
    (mi : MovementInfo) : MovementInfo :=
  match o with Some a => f a mi | None => mi end.

(** The effect of one element on [*mi]. *)
Definition deliver (f : MoveFields) (e : MovementStatusElements) : MovementInfo -> MovementInfo :=
  let tr k := opt_set (mf_transport f) k in
  let fall k := opt_set (mf_fall f) k in
  match e with
  | MSEMovementFlags => opt_set (mf_flags f) (fun v => set_flags (v `mod` 2 ^ 30))
  | MSEMovementFlags2 => opt_set (mf_flags2 f) (fun v => set_flags2 (v `mod` 2 ^ 13))
  | MSETimestamp => opt_set (mf_time f) (fun v => set_time (u32 v))
  | MSEPositionX => mod_pos (set_m_positionX (u32 (mf_x f)))
  | MSEPositionY => mod_pos (set_m_positionY (u32 (mf_y f)))
  | MSEPositionZ => mod_pos (set_m_positionZ (u32 (mf_z f)))
  | MSEOrientation => opt_set (mf_o f) (fun v => mod_pos (SetOrientation (u32 v)))
  | MSETransportPositionX => tr (fun t => mod_tr_pos (set_m_positionX (u32 (tf_x t))))
  | MSETransportPositionY => tr (fun t => mod_tr_pos (set_m_positionY (u32 (tf_y t))))
  | MSETransportPositionZ => tr (fun t => mod_tr_pos (set_m_positionZ (u32 (tf_z t))))
  | MSETransportOrientation => tr (fun t => mod_tr_pos (SetOrientation (u32 (tf_o t))))
  | MSETransportSeat => tr (fun t => mod_transport (set_seat (s8 (u8 (tf_seat t)))))
  | MSETransportTime => tr (fun t => mod_transport (set_tr_time (u32 (tf_time t))))
  | MSETransportTime2 =>
      tr (fun t => opt_set (tf_time2 t) (fun v => mod_transport (set_time2 (u32 v))))
  | MSETransportTime3 =>
      tr (fun t => opt_set (tf_time3 t) (fun v => mod_transport (set_time3 (u32 v))))
  | MSEPitch => opt_set (mf_pitch f) (fun v => set_pitch (wrap_pi (u32 v)))
  | MSEFallTime => fall (fun j => mod_jump (set_fallTime (u32 (ff_fallTime j))))
  | MSEFallVerticalSpeed => fall (fun j => mod_jump (set_zspeed (u32 (ff_zspeed j))))
  | MSEFallSinAngle =>
      fall (fun j => opt_set (ff_direction j) (fun d => mod_jump (set_sinAngle (u32 d.1.1))))
  | MSEFallCosAngle =>
      fall (fun j => opt_set (ff_direction j) (fun d => mod_jump (set_cosAngle (u32 d.1.2))))
  | MSEFallHorizontalSpeed =>
      fall (fun j => opt_set (ff_direction j) (fun d => mod_jump (set_xyspeed (u32 d.2))))
  | MSESplineElevation => opt_set (mf_elevation f) (fun v => set_splineElevation (u32 v))
  | _ => id
  end.

(** The locals once the elements [seen] have been read. *)
Definition guid_local (g : Z) (here : bool) (mask byte : MovementStatusElements)
    (seen : list MovementStatusElements) (i : nat) : Z :=
  let b := guid_get (ObjectGuid_of g) i in
  if negb here then 0
  else if mem byte seen then b
  else if mem mask seen then Z.b2z (negb (b =? 0))
  else 0.

Definition expected_locals (f : MoveFields) (seen : list MovementStatusElements) : ReadLocals :=
  let has e := mem e seen in
  let tr := present (mf_transport f) in
  let time2 := match mf_transport f with Some t => present (tf_time2 t) | None => false end in
  let time3 := match mf_transport f with Some t => present (tf_time3 t) | None => false end in
  let dir := match mf_fall f with Some j => present (ff_direction j) | None => false end in
  let tguid := match mf_transport f with Some t => tf_guid t | None => 0 end in
  let g m b := guid_local (mf_guid f) true m b seen in
  let t m b := guid_local tguid tr m b seen in
  {| r_hasMovementFlags := has MSEHasMovementFlags && present (mf_flags f);
     r_hasMovementFlags2 := has MSEHasMovementFlags2 && present (mf_flags2 f);
     r_hasTimestamp := has MSEHasTimestamp && present (mf_time f);
     r_hasOrientation := has MSEHasOrientation && present (mf_o f);
     r_hasTransportData := has MSEHasTransportData && tr;
     r_hasTransportTime2 := has MSEHasTransportTime2 && time2;
     r_hasTransportTime3 := has MSEHasTransportTime3 && time3;
     r_hasPitch := has MSEHasPitch && present (mf_pitch f);
     r_hasFallData := has MSEHasFallData && present (mf_fall f);
     r_hasFallDirection := has MSEHasFallDirection && dir;
     r_hasSplineElevation := has MSEHasSplineElevation && present (mf_elevation f);
     r_hasCounter := has MSEHasCounter && present (mf_counter f);
     r_forcesCount := if has MSEForcesCount then Z.of_nat (length (mf_forces f)) else 0;
     r_guid := [g MSEHasGuidByte0 MSEGuidByte0 0%nat; g MSEHasGuidByte1 MSEGuidByte1 1%nat;
                g MSEHasGuidByte2 MSEGuidByte2 2%nat; g MSEHasGuidByte3 MSEGuidByte3 3%nat;
                g MSEHasGuidByte4 MSEGuidByte4 4%nat; g MSEHasGuidByte5 MSEGuidByte5 5%nat;
                g MSEHasGuidByte6 MSEGuidByte6 6%nat; g MSEHasGuidByte7 MSEGuidByte7 7%nat];
     r_tguid := [t MSEHasTransportGuidByte0 MSETransportGuidByte0 0%nat;
                 t MSEHasTransportGuidByte1 MSETransportGuidByte1 1%nat;
                 t MSEHasTransportGuidByte2 MSETransportGuidByte2 2%nat;
                 t MSEHasTransportGuidByte3 MSETransportGuidByte3 3%nat;
                 t MSEHasTransportGuidByte4 MSETransportGuidByte4 4%nat;
                 t MSEHasTransportGuidByte5 MSETransportGuidByte5 5%nat;
                 t MSEHasTransportGuidByte6 MSETransportGuidByte6 6%nat;
                 t MSEHasTransportGuidByte7 MSETransportGuidByte7 7%nat] |}.

(** ** Layouts the reader decodes *)

(** The presence elements an element relies on. *)
Definition needs (e : MovementStatusElements) : list MovementStatusElements :=
  match e with
  | MSEGuidByte0 => [MSEHasGuidByte0] | MSEGuidByte1 => [MSEHasGuidByte1]
  | MSEGuidByte2 => [MSEHasGuidByte2] | MSEGuidByte3 => [MSEHasGuidByte3]
  | MSEGuidByte4 => [MSEHasGuidByte4] | MSEGuidByte5 => [MSEHasGuidByte5]
  | MSEGuidByte6 => [MSEHasGuidByte6] | MSEGuidByte7 => [MSEHasGuidByte7]
  | MSETransportGuidByte0 => [MSEHasTransportData; MSEHasTransportGuidByte0]
  | MSETransportGuidByte1 => [MSEHasTransportData; MSEHasTransportGuidByte1]
  | MSETransportGuidByte2 => [MSEHasTransportData; MSEHasTransportGuidByte2]
  | MSETransportGuidByte3 => [MSEHasTransportData; MSEHasTransportGuidByte3]
  | MSETransportGuidByte4 => [MSEHasTransportData; MSEHasTransportGuidByte4]
  | MSETransportGuidByte5 => [MSEHasTransportData; MSEHasTransportGuidByte5]
  | MSETransportGuidByte6 => [MSEHasTransportData; MSEHasTransportGuidByte6]
  | MSETransportGuidByte7 => [MSEHasTransportData; MSEHasTransportGuidByte7]
  | MSEHasTransportGuidByte0 | MSEHasTransportGuidByte1 | MSEHasTransportGuidByte2
  | MSEHasTransportGuidByte3 | MSEHasTransportGuidByte4 | MSEHasTransportGuidByte5
  | MSEHasTransportGuidByte6 | MSEHasTransportGuidByte7
  | MSEHasTransportTime2 | MSEHasTransportTime3
  | MSETransportPositionX | MSETransportPositionY | MSETransportPositionZ
  | MSETransportOrientation | MSETransportSeat | MSETransportTime => [MSEHasTransportData]
  | MSETransportTime2 => [MSEHasTransportData; MSEHasTransportTime2]
  | MSETransportTime3 => [MSEHasTransportData; MSEHasTransportTime3]
  | MSEHasFallDirection | MSEFallTime | MSEFallVerticalSpeed => [MSEHasFallData]
  | MSEFallCosAngle | MSEFallSinAngle | MSEFallHorizontalSpeed =>
      [MSEHasFallData; MSEHasFallDirection]
  | MSEMovementFlags => [MSEHasMovementFlags]
  | MSEMovementFlags2 => [MSEHasMovementFlags2]
  | MSETimestamp => [MSEHasTimestamp]
  | MSEOrientation => [MSEHasOrientation]
  | MSEPitch => [MSEHasPitch]
  | MSESplineElevation => [MSEHasSplineElevation]
  | MSEForces => [MSEForcesCount]
  | MSECounter => [MSEHasCounter]
  | _ => []
  end.

(** The GUID byte that must not have been read yet: reading it twice, or
    its mask after it, would spoil it. *)
Definition spoiled_by (e : MovementStatusElements) : list MovementStatusElements :=
  match e with
  | MSEHasGuidByte0 | MSEGuidByte0 => [MSEGuidByte0]
  | MSEHasGuidByte1 | MSEGuidByte1 => [MSEGuidByte1]
  | MSEHasGuidByte2 | MSEGuidByte2 => [MSEGuidByte2]
  | MSEHasGuidByte3 | MSEGuidByte3 => [MSEGuidByte3]
  | MSEHasGuidByte4 | MSEGuidByte4 => [MSEGuidByte4]
  | MSEHasGuidByte5 | MSEGuidByte5 => [MSEGuidByte5]
  | MSEHasGuidByte6 | MSEGuidByte6 => [MSEGuidByte6]
  | MSEHasGuidByte7 | MSEGuidByte7 => [MSEGuidByte7]
  | MSEHasTransportGuidByte0 | MSETransportGuidByte0 => [MSETransportGuidByte0]
  | MSEHasTransportGuidByte1 | MSETransportGuidByte1 => [MSETransportGuidByte1]
  | MSEHasTransportGuidByte2 | MSETransportGuidByte2 => [MSETransportGuidByte2]
  | MSEHasTransportGuidByte3 | MSETransportGuidByte3 => [MSETransportGuidByte3]
  | MSEHasTransportGuidByte4 | MSETransportGuidByte4 => [MSETransportGuidByte4]
  | MSEHasTransportGuidByte5 | MSETransportGuidByte5 => [MSETransportGuidByte5]
  | MSEHasTransportGuidByte6 | MSETransportGuidByte6 => [MSETransportGuidByte6]
  | MSEHasTransportGuidByte7 | MSETransportGuidByte7 => [MSETransportGuidByte7]
  | _ => []
  end.

Definition decodable (e : MovementStatusElements) : bool :=
  match e with
  | MSEUintCount | MSEExtraElement | MSEExtraFloat | MSEExtraInt8 | MSEEnd => false
  | _ => true
  end.

Definition element_ok (seen : list MovementStatusElements) (e : MovementStatusElements) : bool :=
  decodable e && forallb (fun p => mem p seen) (needs e)
  && forallb (fun p => negb (mem p seen)) (spoiled_by e).

Fixpoint reader_ok (seen seq : list MovementStatusElements) : bool :=
  match seq with
  | [] => false
  | MSEEnd :: seq => match seq with [] => true | _ => false end
  | e :: seq => element_ok seen e && reader_ok (e :: seen) seq
  end.

(** ** Reading what was encoded *)

(** [decodes m a os]: in front of the operations [os] the call [m] returns
    [a] and consumes exactly [os]. *)
Definition decodes {A} (m : BB A) (a : A) (os : list op) : Prop :=
  forall b os', reads_ops b (os ++ os') -> exists b', m b = Ok (a, b') /\ reads_ops b' os'.

Lemma decodes_ReadBit x : decodes ReadBit x [OBit x].
Proof. intros b os' H. by apply reads_ops_bit. Qed.

Lemma decodes_read n v : n <> 0%nat ->
  decodes (read n) (v `mod` 2 ^ (8 * Z.of_nat n)) (val_ops n v).
Proof.
  intros Hn b os' H.
  destruct (reads_ops_bytes b _ os' n H (length_le_bytes n v) Hn) as (H1 & _ & H2).
  rewrite le_value_le_bytes in H1. by eexists.
Qed.

Lemma decodes_read4 v : decodes (read 4) (u32 v) (val_ops 4 v).
Proof. by apply (decodes_read 4). Qed.

Lemma decodes_read1 v : decodes (read 1) (u8 v) (val_ops 1 v).
Proof. by apply (decodes_read 1). Qed.

Lemma decodes_skip4 v : decodes (read_skip 4) tt (val_ops 4 v).
Proof.
  intros b os' H.
  destruct (reads_ops_bytes b _ os' 4 H (length_le_bytes 4 v)) as (_ & H1 & H2); [done|].
  by eexists.
Qed.

Lemma decodes_ReadBits n v : (n <= 32)%nat ->
  decodes (ReadBits n) (v `mod` 2 ^ Z.of_nat n) (bits_ops v n).
Proof. intros Hn b os' H. by apply reads_ReadBits. Qed.

Lemma decodes_ReadByteSeq g i x :
  x = Z.b2z (negb (guid_get (ObjectGuid_of g) i =? 0)) ->
  decodes (ReadByteSeq x) (guid_get (ObjectGuid_of g) i) (guid_byte_ops g i).
Proof.
  intros -> b os' H. destruct (reads_ReadByteSeq _ _ _ H) as (b' & H1 & H2). exists b'.
  by destruct (negb _).
Qed.

Lemma decodes_skip_forces l :
  decodes (skip_forces (length l)) tt ((fun v => OBytes (le_bytes 4 v)) <$> l).
Proof.
  induction l as [|v l IH]; intros b os' H; [by exists b|].
  destruct (decodes_skip4 v b _ H) as (b1 & H1 & H2).
  destruct (IH b1 _ H2) as (b2 & H3 & H4). exists b2. cbn [skip_forces length]. by st_step H1.
Qed.

(** The same for an iteration of the loop, with the locals and [*mi]. *)
Definition step (m : R unit) (os : list op) (l : ReadLocals) (mi : MovementInfo)
    (l' : ReadLocals) (mi' : MovementInfo) : Prop :=
  forall b x os', reads_ops b (os ++ os') ->
  exists b', m (mkRState b l mi x) = Ok (tt, mkRState b' l' mi' x) /\ reads_ops b' os'.

Lemma step_get k os l mi l' mi' :
  step (k l) os l mi l' mi' -> step (l ← get_locals; k l) os l mi l' mi'.
Proof. intros H b x os' Hr. by apply H. Qed.

Lemma step_locals {A} (m : BB A) a os g l l' mi :
  decodes m a os -> g a l = l' -> step (x ← on_data m; mod_locals (g x)) os l mi l' mi.
Proof.
  intros Hm <- b x os' Hr. destruct (Hm b os' Hr) as (b' & H1 & H2). exists b'.
  split; [|done]. unfold mbind, st_bind, on_data. cbn. by rewrite H1.
Qed.

Lemma step_mi {A} (m : BB A) a os g l l' mi mi' :
  decodes m a os -> l = l' -> g a mi = mi' ->
  step (x ← on_data m; mod_mi (g x)) os l mi l' mi'.
Proof.
  intros Hm <- <- b x os' Hr. destruct (Hm b os' Hr) as (b' & H1 & H2). exists b'.
  split; [|done]. unfold mbind, st_bind, on_data. cbn. by rewrite H1.
Qed.

Lemma step_drop {A} (m : BB A) a os l l' mi :
  decodes m a os -> l = l' -> step (on_data m;; mret tt) os l mi l' mi.
Proof.
  intros Hm <- b x os' Hr. destruct (Hm b os' Hr) as (b' & H1 & H2). exists b'.
  split; [|done]. unfold mbind, st_bind, on_data. cbn. by rewrite H1.
Qed.

Lemma step_unit (m : BB unit) os l l' mi :
  decodes m tt os -> l = l' -> step (on_data m) os l mi l' mi.
Proof.
  intros Hm <- b x os' Hr. destruct (Hm b os' Hr) as (b' & H1 & H2). exists b'.
  split; [|done]. unfold on_data. cbn. by rewrite H1.
Qed.

Lemma step_skip l l' mi : l = l' -> step (mret tt) [] l mi l' mi.
Proof. intros <- b x os' Hr. by exists b. Qed.

(** An optional part: read when present, skipped when absent. *)
Lemma step_when {A} (o : option A) c m k l mi l' mi' :
  c = present o ->
  (forall a, o = Some a -> step m (k a) l mi l' mi') ->
  (o = None -> l = l' /\ mi = mi') ->
  step (st_when c m) (within o k) l mi l' mi'.
Proof.
  intros -> H1 H2. destruct o as [a|]; [by apply H1|].
  destruct H2 as [<- <-]; [done|]. by apply step_skip.
Qed.

Lemma step_opt (o : option Z) c m n l mi l' mi' :
  c = present o ->
  (forall a, o = Some a -> step m (val_ops n a) l mi l' mi') ->
  (o = None -> l = l' /\ mi = mi') ->
  step (st_when c m) (opt_ops n o) l mi l' mi'.
Proof. apply step_when. Qed.

Lemma step_when_nested {A B} (o : option A) (o2 : A -> option B) c1 c2 m k l mi l' mi' :
  c1 = present o -> (forall a, o = Some a -> c2 = present (o2 a)) ->
  (forall a a2, o = Some a -> o2 a = Some a2 -> step m (k a a2) l mi l' mi') ->
  l = l' -> (o = None -> mi = mi') -> (forall a, o = Some a -> o2 a = None -> mi = mi') ->
  step (st_when (c1 && c2) m) (within o (fun a => within (o2 a) (k a))) l mi l' mi'.
Proof.
  intros -> H2 Hm <- Hn Hn2. destruct o as [a|]; cbn; [|rewrite <- Hn by done; by apply step_skip].
  rewrite (H2 a eq_refl). destruct (o2 a) as [a2|] eqn:Ho; cbn; [by apply Hm|].
  rewrite <- (Hn2 a) by done. by apply step_skip.
Qed.

(** ** One iteration decodes one element *)

Ltac element_hyps Hok :=
  unfold element_ok in Hok; cbn [decodable needs spoiled_by forallb andb] in Hok;
  rewrite ?andb_true_r, ?andb_true_iff, ?negb_true_iff in Hok; destruct_and?.

(** A presence test on the locals, given what has been seen. *)
Ltac presence :=
  cbn [expected_locals r_hasMovementFlags r_hasMovementFlags2 r_hasTimestamp r_hasOrientation
    r_hasTransportData r_hasTransportTime2 r_hasTransportTime3 r_hasPitch r_hasFallData
    r_hasFallDirection r_hasSplineElevation r_hasCounter r_forcesCount];
  repeat match goal with H : mem _ _ = true |- _ => rewrite H; clear H end;
  rewrite ?andb_true_l; try reflexivity.

(** The locals after one more element. *)
Ltac locals_eq :=
  unfold expected_locals, guid_local;
  repeat match goal with
  | H : mf_transport _ = _ |- _ => rewrite H; clear H
  | H : mf_fall _ = _ |- _ => rewrite H; clear H
  end;
  rewrite ?mem_cons; cbn [mse_eqb mse_code Nat.eqb orb present];
  repeat match goal with H : mem _ _ = _ |- _ => rewrite H; clear H end;
  rewrite ?andb_false_r; reflexivity.

(** A GUID byte before it is read holds its presence bit. *)
Ltac guid_prior :=
  unfold expected_locals, guid_local;
  repeat match goal with H : mf_transport _ = _ |- _ => rewrite H; clear H end;
  repeat match goal with H : mem _ _ = _ |- _ => rewrite H; clear H end;
  reflexivity.

(** Close an iteration that reads one bit or one value. *)
Ltac element_step :=
  unfold read_flag, read_inverted;
  first [eapply step_drop | eapply step_locals | eapply step_mi | eapply step_unit];
  [ first [ apply decodes_ReadBit | apply decodes_read4 | apply decodes_read1
          | apply decodes_skip4 | (apply decodes_ReadBits; lia)
          | apply decodes_ReadByteSeq; guid_prior ]
  | .. ].

Lemma u16_mod13 v : u16 (v `mod` 2 ^ 13) = v `mod` 2 ^ 13.
Proof.
  unfold u16. apply Z.mod_small. pose proof (Z.mod_pos_bound v (2 ^ 13)). lia.
Qed.

Lemma forces_count_mod n : Z.of_nat n < 2 ^ 22 -> Z.of_nat n `mod` 2 ^ Z.of_nat 22 = Z.of_nat n.
Proof. intros Hn. apply Z.mod_small. cbn. lia. Qed.

Lemma ReadElement_bits f seen e mi :
  element_shape e = ShapeBits -> element_ok seen e = true ->
  Z.of_nat (length (mf_forces f)) < 2 ^ 22 ->
  step (ReadElement e) (encode f e) (expected_locals f seen) mi
    (expected_locals f (e :: seen)) (deliver f e mi).
Proof.
  intros He Hok Hforces.
  destruct e; try discriminate He; element_hyps Hok; unfold ReadElement;
    apply step_get; cbn [encode deliver]; unfold absent_bit, guid_bit_ops.
  { element_step. rewrite forces_count_mod by done; locals_eq. }
  all: try (element_step; rewrite ?negb_involutive; locals_eq).
  all: try (apply step_when;
    [ presence
    | intros t Ht; element_step; try locals_eq; rewrite Ht; cbn [opt_set]; by rewrite ?u16_mod13
    | intros Ht; split; [locals_eq|]; by rewrite ?Ht ]).
Qed.

(** An optional part inside an optional part. *)
Ltac nested_part tac :=
  tac;
  [ presence
  | intros t Ht; cbn [expected_locals r_hasTransportTime2 r_hasTransportTime3
      r_hasFallDirection]; rewrite Ht;
    repeat match goal with H : mem _ _ = true |- _ => rewrite H; clear H end; reflexivity
  | intros t d Ht Hd; element_step; [locals_eq|]; rewrite Ht; cbn [opt_set]; by rewrite Hd
  | locals_eq
  | intros Ht; by rewrite Ht
  | intros t Ht Hd; rewrite Ht; cbn [opt_set]; by rewrite Hd ].

Lemma ReadElement_bytes f seen e mi :
  element_shape e = ShapeBytes -> element_ok seen e = true ->
  step (ReadElement e) (encode f e) (expected_locals f seen) mi
    (expected_locals f (e :: seen)) (deliver f e mi).
Proof.
  intros He Hok.
  destruct e; try discriminate He; element_hyps Hok; try done; unfold ReadElement;
    apply step_get; cbn [encode deliver]; unfold read_mi.
  all: try (element_step; locals_eq).
  all: try (first [apply step_opt | apply step_when];
    [ presence
    | intros t Ht; element_step; try locals_eq; by rewrite ?Ht
    | intros Ht; split; [locals_eq|]; by rewrite ?Ht ]).
  { eapply step_unit; [|locals_eq]. cbn [expected_locals r_forcesCount].
    match goal with H : mem _ _ = true |- _ => rewrite H end.
    rewrite Nat2Z.id. apply decodes_skip_forces. }
  1: nested_part ltac:(apply (step_when_nested _ tf_time2 _ _ _ (fun _ => val_ops 4))).
  1: nested_part ltac:(apply (step_when_nested _ tf_time3 _ _ _ (fun _ => val_ops 4))).
  1: nested_part ltac:(apply (step_when_nested _ ff_direction _ _ _ (fun _ d => val_ops 4 d.1.2))).
  1: nested_part ltac:(apply (step_when_nested _ ff_direction _ _ _ (fun _ d => val_ops 4 d.1.1))).
  1: nested_part ltac:(apply (step_when_nested _ ff_direction _ _ _ (fun _ d => val_ops 4 d.2))).
Qed.

(** Every layout the checker accepts is decoded, from any point on. *)
Lemma ReadElements_decodes f seq seen mi b x os' :
  reader_ok seen seq = true -> Z.of_nat (length (mf_forces f)) < 2 ^ 22 ->
  reads_ops b (encode_seq f (new_Extra []) [] seq ++ os') ->
  exists b' seen', ReadElements seq (mkRState b (expected_locals f seen) mi x)
    = Ok (tt, mkRState b' (expected_locals f seen') (foldl (fun mi e => deliver f e mi) mi seq) x) /\
    reads_ops b' os' /\ (forall e, mem e seen' = mem e seen || mem e (removelast seq)).
Proof.
  revert seen mi b. induction seq as [|e seq IH]; intros seen mi b Hok Hf Hr; [done|].
  destruct (decide (e = MSEEnd)) as [->|Hend].
  { destruct seq; [|done]. exists b, seen. split; [done|]. split; [done|].
    intros e. cbn. by rewrite orb_false_r. }
  assert (reader_ok seen (e :: seq) = element_ok seen e && reader_ok (e :: seen) seq) as Hok'
    by (by destruct e).
  rewrite Hok', andb_true_iff in Hok. destruct Hok as [He Hok].
  assert (encode_seq f (new_Extra []) [] (e :: seq)
          = encode f e ++ encode_seq f (new_Extra []) [] seq) as Hseq by (by destruct e).
  rewrite Hseq, <- app_assoc in Hr.
  assert (step (ReadElement e) (encode f e) (expected_locals f seen) mi
            (expected_locals f (e :: seen)) (deliver f e mi)) as Hstep.
  { destruct (element_shape e) eqn:Hs; [by apply ReadElement_bits|by apply ReadElement_bytes|].
    by destruct e. }
  destruct (Hstep b x _ Hr) as (b1 & H1 & Hr1).
  destruct (IH (e :: seen) (deliver f e mi) b1 Hok Hf Hr1) as (b2 & seen' & H2 & Hr2 & Hmem).
  exists b2, seen'. split; [|split; [done|]].
  - assert (ReadElements (e :: seq) = (ReadElement e;; ReadElements seq)) as ->
      by (by destruct e).
    st_step H1. exact H2.
  - intros e'. rewrite Hmem. destruct seq as [|e2 seq]; [done|].
    change (removelast (e :: e2 :: seq)) with (e :: removelast (e2 :: seq)).
    rewrite !mem_cons. destruct (mse_eqb e' e), (mem e' seen); done.
Qed.

End Read.
