(* ===== verification/MovementDecode.v ===== *)
(** * What a received movement packet means

    The end-to-end facts about [Player::ReadMovementInfo]: for each opcode
    the server reads, the movement info it makes of the packet's contents;
    the round trip with [Unit::WriteMovementInfo]; and its behaviour on
    arbitrary bytes. *)
From S2P Require Import Prelude.
From S2P Require Import ByteBuffer.
From S2P Require Import MovementElements.
From S2P Require Import MovementTables.
From S2P Require Import MovementInfo.
From S2P Require Import MovementFields.
From S2P Require Import MovementWrite.
From S2P Require Import MovementRead.
Local Open Scope Z_scope.

Section Decode.
Context {FO : FloatOps}.

(** ** The result of a complete layout *)

Definition tr_part {A} (f : MoveFields) (k : TransportFields -> A) (d : A) : A :=
  from_option k d (mf_transport f).
Definition fall_part {A} (f : MoveFields) (k : FallFields -> A) (d : A) : A :=
  from_option k d (mf_fall f).
Definition dir_part {A} (f : MoveFields) (k : f32 * f32 * f32 -> A) (d : A) : A :=
  fall_part f (fun j => from_option k d (ff_direction j)) d.

(** The movement info a complete packet describes: what was absent keeps
    the value of [mi]. *)
Definition decoded_info (f : MoveFields) (mi : MovementInfo) : MovementInfo :=
  let t := transport mi in
  let j := jump mi in
  mkMovementInfo
    (u64 (mf_guid f))
    (from_option (fun v => v `mod` 2 ^ 30) (flags mi) (mf_flags f))
    (from_option (fun v => v `mod` 2 ^ 13) (flags2 mi) (mf_flags2 f))
    (mkPosition (u32 (mf_x f)) (u32 (mf_y f)) (u32 (mf_z f))
       (from_option (fun o => NormalizeOrientation (u32 o)) (m_orientation (pos mi)) (mf_o f)))
    (from_option u32 (time mi) (mf_time f))
    (mkTransportInfo
       (tr_part f (fun t => u64 (tf_guid t)) 0)
       (mkPosition (tr_part f (fun t => u32 (tf_x t)) (m_positionX (tr_pos t)))
          (tr_part f (fun t => u32 (tf_y t)) (m_positionY (tr_pos t)))
          (tr_part f (fun t => u32 (tf_z t)) (m_positionZ (tr_pos t)))
          (tr_part f (fun t => NormalizeOrientation (u32 (tf_o t))) (m_orientation (tr_pos t))))
       (tr_part f (fun t => s8 (u8 (tf_seat t))) (seat t))
       (tr_part f (fun t => u32 (tf_time t)) (tr_time t))
       (tr_part f (fun t' => from_option u32 (time2 t) (tf_time2 t')) (time2 t))
       (tr_part f (fun t' => from_option u32 (time3 t) (tf_time3 t')) (time3 t)))
    (from_option (fun v => wrap_pi (u32 v)) (pitch mi) (mf_pitch f))
    (mkJumpInfo
       (fall_part f (fun j => u32 (ff_fallTime j)) (fallTime j))
       (fall_part f (fun j => u32 (ff_zspeed j)) (zspeed j))
       (dir_part f (fun d => u32 d.1.1) (sinAngle j))
       (dir_part f (fun d => u32 d.1.2) (cosAngle j))
       (dir_part f (fun d => u32 d.2) (xyspeed j)))
    (from_option u32 (splineElevation mi) (mf_elevation f)).

Definition decoded (pl : PlayerView) (f : MoveFields) (mi : MovementInfo) : MovementInfo :=
  remove_violating_flags pl (present (mf_fall f))
    (fall_part f (fun j => present (ff_direction j)) false) (present (mf_elevation f))
    (decoded_info f mi).

(** [deliver] as plain assignments. *)
Definition assign (f : MoveFields) (e : MovementStatusElements) (mi : MovementInfo)
    : MovementInfo :=
  let p := pos mi in
  let t := transport mi in
  let q := tr_pos t in
  let j := jump mi in
  match e with
  | MSEMovementFlags => set_flags (from_option (fun v => v `mod` 2 ^ 30) (flags mi) (mf_flags f)) mi
  | MSEMovementFlags2 =>
      set_flags2 (from_option (fun v => v `mod` 2 ^ 13) (flags2 mi) (mf_flags2 f)) mi
  | MSETimestamp => set_time (from_option u32 (time mi) (mf_time f)) mi
  | MSEPositionX => set_pos (set_m_positionX (u32 (mf_x f)) p) mi
  | MSEPositionY => set_pos (set_m_positionY (u32 (mf_y f)) p) mi
  | MSEPositionZ => set_pos (set_m_positionZ (u32 (mf_z f)) p) mi
  | MSEOrientation =>
      set_pos (set_m_orientation (from_option (fun o => NormalizeOrientation (u32 o))
        (m_orientation p) (mf_o f)) p) mi
  | MSETransportPositionX => set_transport (set_tr_pos
      (set_m_positionX (tr_part f (fun t => u32 (tf_x t)) (m_positionX q)) q) t) mi
  | MSETransportPositionY => set_transport (set_tr_pos
      (set_m_positionY (tr_part f (fun t => u32 (tf_y t)) (m_positionY q)) q) t) mi
  | MSETransportPositionZ => set_transport (set_tr_pos
      (set_m_positionZ (tr_part f (fun t => u32 (tf_z t)) (m_positionZ q)) q) t) mi
  | MSETransportOrientation => set_transport (set_tr_pos (set_m_orientation
      (tr_part f (fun t => NormalizeOrientation (u32 (tf_o t))) (m_orientation q)) q) t) mi
  | MSETransportSeat =>
      set_transport (set_seat (tr_part f (fun t => s8 (u8 (tf_seat t))) (seat t)) t) mi
  | MSETransportTime =>
      set_transport (set_tr_time (tr_part f (fun t => u32 (tf_time t)) (tr_time t)) t) mi
  | MSETransportTime2 => set_transport (set_time2
      (tr_part f (fun t' => from_option u32 (time2 t) (tf_time2 t')) (time2 t)) t) mi
  | MSETransportTime3 => set_transport (set_time3
      (tr_part f (fun t' => from_option u32 (time3 t) (tf_time3 t')) (time3 t)) t) mi
  | MSEPitch => set_pitch (from_option (fun v => wrap_pi (u32 v)) (pitch mi) (mf_pitch f)) mi
  | MSEFallTime =>
      set_jump (set_fallTime (fall_part f (fun j => u32 (ff_fallTime j)) (fallTime j)) j) mi
  | MSEFallVerticalSpeed =>
      set_jump (set_zspeed (fall_part f (fun j => u32 (ff_zspeed j)) (zspeed j)) j) mi
  | MSEFallSinAngle => set_jump (set_sinAngle (dir_part f (fun d => u32 d.1.1) (sinAngle j)) j) mi
  | MSEFallCosAngle => set_jump (set_cosAngle (dir_part f (fun d => u32 d.1.2) (cosAngle j)) j) mi
  | MSEFallHorizontalSpeed =>
      set_jump (set_xyspeed (dir_part f (fun d => u32 d.2) (xyspeed j)) j) mi
  | MSESplineElevation =>
      set_splineElevation (from_option u32 (splineElevation mi) (mf_elevation f)) mi
  | _ => mi
  end.

Lemma deliver_assign f e mi : deliver f e mi = assign f e mi.
Proof.
  destruct mi as [g fl fl2 [px py pz po] ti [tg [qx qy qz qo] se tt t2 t3] pi [ft zs sa ca xy] sp].
  destruct e; try reflexivity; cbn [deliver assign opt_set];
    unfold opt_set, tr_part, dir_part, fall_part, from_option;
    repeat case_match; reflexivity.
Qed.

Lemma foldl_deliver f seq mi :
  foldl (fun mi e => deliver f e mi) mi seq = foldl (fun mi e => assign f e mi) mi seq.
Proof. revert mi. induction seq as [|e seq IH]; intros mi; cbn; [done|]. by rewrite deliver_assign, IH. Qed.

(** ** The layouts of the opcodes *)

(** A counter in front of its own presence bit is never read. *)
Fixpoint drop_dead_counters (seq : list MovementStatusElements) : list MovementStatusElements :=
  match seq with
  | [] => []
  | MSEHasCounter :: seq => MSEHasCounter :: seq
  | MSECounter :: seq => drop_dead_counters seq
  | e :: seq => e :: drop_dead_counters seq
  end.

Definition read_layout (o : Opcodes) : list MovementStatusElements :=
  drop_dead_counters (layout_of_opcode o).

(** The opcodes whose packets the server reads, and the packet a client
    receives about others, which the same code can read back. *)
Definition readable_opcodes : list Opcodes := SMSG_PLAYER_MOVE :: client_opcodes.

(** Every part of a movement info is in the layout. *)
Definition all_parts : list MovementStatusElements :=
  guid_byte_elements ++
  [MSETransportGuidByte0; MSETransportGuidByte1; MSETransportGuidByte2; MSETransportGuidByte3;
   MSETransportGuidByte4; MSETransportGuidByte5; MSETransportGuidByte6; MSETransportGuidByte7;
   MSEHasFallData; MSEHasFallDirection; MSEHasSplineElevation; MSEMovementFlags;
   MSEMovementFlags2; MSETimestamp; MSEPositionX; MSEPositionY; MSEPositionZ; MSEOrientation;
   MSETransportPositionX; MSETransportPositionY; MSETransportPositionZ;
   MSETransportOrientation; MSETransportSeat; MSETransportTime; MSETransportTime2;
   MSETransportTime3; MSEPitch; MSEFallTime; MSEFallVerticalSpeed; MSEFallSinAngle;
   MSEFallCosAngle; MSEFallHorizontalSpeed; MSESplineElevation].

Definition read_layout_ok (o : Opcodes) : bool :=
  reader_ok [] (read_layout o) && shape_ok 0 (read_layout o)
  && forallb (fun e => mem e (removelast (read_layout o))) all_parts.

Lemma read_layouts_ok : forallb read_layout_ok readable_opcodes = true.
Proof. vm_compute. reflexivity. Qed.

(** [m] does not touch [hasCounter]. *)
Definition keeps {A} (m : R A) : Prop :=
  forall s a s', m s = Ok (a, s') -> r_hasCounter (r_locals s') = r_hasCounter (r_locals s).

Lemma keeps_ret {A} (a : A) : keeps (mret a).
Proof. intros s b s' H. by injection H as _ <-. Qed.

Lemma keeps_bind {A B} (m : R A) (k : A -> R B) :
  keeps m -> (forall a, keeps (k a)) -> keeps (m ≫= k).
Proof.
  intros Hm Hk s b s' H. apply st_bind_inv in H as (a & s1 & H1 & H2).
  by rewrite (Hk a _ _ _ H2), (Hm _ _ _ H1).
Qed.

Lemma keeps_on_data {A} (m : BB A) : keeps (on_data m).
Proof. intros s a s'. unfold on_data. destruct (m _) as [[? ?]|]; [|done]. by intros [= _ <-]. Qed.

Lemma keeps_mod_mi f : keeps (mod_mi f).
Proof. by intros s a s' [= _ <-]. Qed.

Lemma keeps_extras x : keeps (st_modify (set_r_extras x)).
Proof. by intros s a s' [= _ <-]. Qed.

Lemma keeps_mod_locals f :
  (forall l, r_hasCounter (f l) = r_hasCounter l) -> keeps (mod_locals f).
Proof. intros Hf s a s' [= _ <-]. apply Hf. Qed.

Lemma keeps_get_locals : keeps get_locals.
Proof. by intros s a s' [= _ <-]. Qed.

Lemma keeps_get : keeps (st_get (S := RState) (E := BBError)).
Proof. by intros s a s' [= _ <-]. Qed.

Lemma keeps_throw {A} e : keeps (A := A) (st_throw e).
Proof. done. Qed.

Lemma keeps_when c m : keeps m -> keeps (st_when c m).
Proof. intros H. destruct c; [done|apply keeps_ret]. Qed.

Ltac keeps_step :=
  lazymatch goal with
  | |- keeps (st_when _ _) => apply keeps_when
  | |- keeps (mbind _ _) => apply keeps_bind; [|intros ?]
  | |- keeps (on_data _) => apply keeps_on_data
  | |- keeps (mod_mi _) => apply keeps_mod_mi
  | |- keeps (mod_locals _) => apply keeps_mod_locals; intros ?; reflexivity
  | |- keeps (mret _) => apply keeps_ret
  | |- keeps (st_throw _) => apply keeps_throw
  | |- keeps st_get => apply keeps_get
  | |- keeps (st_modify (set_r_extras _)) => apply keeps_extras
  | |- keeps (match ?x with _ => _ end) => destruct x
  end.

Lemma ReadElement_keeps e : e <> MSEHasCounter -> keeps (ReadElement e).
Proof.
  intros He. unfold ReadElement. apply keeps_bind; [apply keeps_get_locals|]. intros l.
  destruct e; try done; unfold read_flag, read_inverted, read_mi; repeat keeps_step.
Qed.

Lemma drop_dead_counters_same seq s :
  r_hasCounter (r_locals s) = false ->
  ReadElements (drop_dead_counters seq) s = ReadElements seq s.
Proof.
  revert s. induction seq as [|e seq IH]; intros s Hs; [done|].
  destruct (decide (e = MSEEnd)) as [->|Hend]; [done|].
  destruct (decide (e = MSEHasCounter)) as [->|Hhas]; [done|].
  assert (ReadElements (e :: seq) = (ReadElement e;; ReadElements seq)) as -> by (by destruct e).
  destruct (decide (e = MSECounter)) as [->|Hcounter].
  - cbn [drop_dead_counters]. rewrite IH by done.
    assert (ReadElement MSECounter s = Ok (tt, s)) as Hskip.
    { unfold ReadElement, mbind, st_bind, get_locals. cbn. by rewrite Hs. }
    by st_step Hskip.
  - assert (ReadElements (drop_dead_counters (e :: seq))
            = (ReadElement e;; ReadElements (drop_dead_counters seq))) as -> by (by destruct e).
    unfold mbind, st_bind. destruct (ReadElement e s) as [[[] s1]|] eqn:He; [|done].
    apply IH. by rewrite (ReadElement_keeps e Hhas _ _ _ He).
Qed.

(** ** What the locals are worth behind the loop *)

Lemma guid_bytes_eq g :
  [guid_get (ObjectGuid_of g) 0; guid_get (ObjectGuid_of g) 1; guid_get (ObjectGuid_of g) 2;
   guid_get (ObjectGuid_of g) 3; guid_get (ObjectGuid_of g) 4; guid_get (ObjectGuid_of g) 5;
   guid_get (ObjectGuid_of g) 6; guid_get (ObjectGuid_of g) 7] = ObjectGuid_of g.
Proof. reflexivity. Qed.

Lemma finish_decoded pl f seen mi :
  forallb (fun e => mem e seen) all_parts = true ->
  finish pl (expected_locals f seen) mi
  = remove_violating_flags pl (present (mf_fall f))
      (fall_part f (fun j => present (ff_direction j)) false) (present (mf_elevation f))
      (mod_transport (set_tr_guid (tr_part f (fun t => u64 (tf_guid t)) 0))
         (set_mi_guid (u64 (mf_guid f)) mi)).
Proof.
  intros Hall. cbn [all_parts guid_byte_elements app forallb] in Hall.
  rewrite !andb_true_iff in Hall. destruct_and?.
  unfold finish, expected_locals, guid_local. cbn [r_hasFallData r_hasFallDirection
    r_hasSplineElevation r_tguid r_guid negb].
  repeat match goal with H : mem _ _ = true |- _ => rewrite H; clear H end.
  rewrite guid_bytes_eq, guid_u64_of, !andb_true_l. unfold tr_part, fall_part.
  destruct (mf_transport f) as [t|], (mf_fall f) as [j|]; cbn [present negb from_option];
    rewrite ?guid_bytes_eq, ?guid_u64_of; reflexivity.
Qed.

(** Along a readable opcode's layout every part is assigned. *)
Lemma read_layout_assigns o f mi : In o readable_opcodes ->
  mod_transport (set_tr_guid (tr_part f (fun t => u64 (tf_guid t)) 0))
    (set_mi_guid (u64 (mf_guid f)) (foldl (fun mi e => assign f e mi) mi (read_layout o)))
  = decoded_info f mi.
Proof.
  cbn [readable_opcodes client_opcodes In]. intros H.
  repeat (destruct H as [<-|H]; [reflexivity|]). done.
Qed.

(** ** Any bytes *)

(** [m] cannot fail but by the position exception. *)
Definition safe {S A} (m : ST S BBError A) : Prop :=
  forall s e, m s = Err e -> e = PositionException.

Lemma safe_ret {S A} (a : A) : safe (S := S) (mret a).
Proof. done. Qed.

Lemma safe_bind {S A B} (m : ST S BBError A) (k : A -> ST S BBError B) :
  safe m -> (forall a, safe (k a)) -> safe (m ≫= k).
Proof.
  intros Hm Hk s e. unfold mbind, st_bind. destruct (m s) as [[a s']|e'] eqn:H.
  - apply Hk.
  - intros [= <-]. by apply (Hm s).
Qed.

Lemma safe_read n : safe (read n).
Proof. intros b e. unfold read, read_at. by destruct (_ <? _)%nat; intros [= <-]. Qed.

Lemma safe_read_skip n : safe (read_skip n).
Proof. intros b e. unfold read_skip. by destruct (_ <? _)%nat; intros [= <-]. Qed.

Lemma safe_ReadBit : safe ReadBit.
Proof.
  intros b e. unfold ReadBit. destruct (7 <? _); [|done].
  destruct (read 1 _) as [[v b']|e'] eqn:H; intros [= <-]. by eapply safe_read.
Qed.

Lemma safe_ReadBits n : safe (ReadBits n).
Proof.
  unfold ReadBits. generalize 0. induction n as [|n IH]; intros v; [done|].
  cbn [ReadBits_loop]. apply safe_bind; [apply safe_ReadBit|]. intros x. apply IH.
Qed.

Lemma safe_ReadByteSeq x : safe (ReadByteSeq x).
Proof.
  unfold ReadByteSeq. destruct (negb _); [|done]. apply safe_bind; [apply safe_read|]. by intros y.
Qed.

Lemma safe_skip_forces n : safe (skip_forces n).
Proof.
  induction n as [|n IH]; [done|]. cbn [skip_forces].
  apply safe_bind; [apply safe_read_skip|]. by intros _.
Qed.

Lemma safe_on_data {A} (m : BB A) : safe m -> safe (on_data m).
Proof.
  intros Hm s e. unfold on_data. destruct (m (r_packet s)) as [[a b]|e'] eqn:H; [done|].
  intros [= <-]. by apply (Hm (r_packet s)).
Qed.

Lemma safe_when {S} c (m : ST S BBError unit) : safe m -> safe (st_when c m).
Proof. by destruct c. Qed.

Lemma safe_mod_mi f : safe (mod_mi f).
Proof. done. Qed.

Lemma safe_mod_locals f : safe (mod_locals f).
Proof. done. Qed.

Ltac safe_step :=
  lazymatch goal with
  | |- safe (st_when _ _) => apply safe_when
  | |- safe (mbind _ _) => apply safe_bind; [|intros ?]
  | |- safe (on_data _) => apply safe_on_data
  | |- safe ReadBit => apply safe_ReadBit
  | |- safe (ReadBits _) => apply safe_ReadBits
  | |- safe (ReadByteSeq _) => apply safe_ReadByteSeq
  | |- safe (read _) => apply safe_read
  | |- safe (read_skip _) => apply safe_read_skip
  | |- safe (skip_forces _) => apply safe_skip_forces
  | |- safe (mod_mi _) => apply safe_mod_mi
  | |- safe (mod_locals _) => apply safe_mod_locals
  | |- safe (mret _) => apply safe_ret
  end.

Lemma safe_ReadElement e : decodable e = true -> safe (ReadElement e).
Proof.
  intros He. unfold ReadElement. apply safe_bind; [done|]. intros l.
  destruct e; try discriminate He; unfold read_flag, read_inverted, read_mi; repeat safe_step.
Qed.

(** A layout of decodable elements, closed by [MSEEnd]. *)
Fixpoint decodable_layout (seq : list MovementStatusElements) : bool :=
  match seq with
  | [] => false
  | MSEEnd :: _ => true
  | e :: seq => decodable e && decodable_layout seq
  end.

Lemma safe_ReadElements seq : decodable_layout seq = true -> safe (ReadElements seq).
Proof.
  induction seq as [|e seq IH]; intros Hseq; [done|].
  destruct (decide (e = MSEEnd)) as [->|Hend]; [done|].
  assert (decodable_layout (e :: seq) = decodable e && decodable_layout seq) as Hs
    by (by destruct e).
  rewrite Hs, andb_true_iff in Hseq. destruct Hseq as [He Hseq].
  assert (ReadElements (e :: seq) = (ReadElement e;; ReadElements seq)) as -> by (by destruct e).
  apply safe_bind; [by apply safe_ReadElement|]. intros _. by apply IH.
Qed.

Lemma client_layouts_decodable :
  forallb (fun o => decodable_layout (layout_of_opcode o)) readable_opcodes = true.
Proof. vm_compute. reflexivity. Qed.

Lemma readable_layout_found o : In o readable_opcodes ->
  GetMovementStatusElementsSequence o = Some (layout_of_opcode o).
Proof.
  cbn [readable_opcodes client_opcodes In]. intros H. by repeat destruct H as [<-|H].
Qed.

Lemma read_layout_facts o : In o readable_opcodes ->
  reader_ok [] (read_layout o) = true /\ shape_ok 0 (read_layout o) = true /\
  forallb (fun e => mem e (removelast (read_layout o))) all_parts = true.
Proof.
  intros Ho. pose proof (proj1 (forallb_forall _ _) read_layouts_ok o Ho) as H.
  unfold read_layout_ok in H. rewrite !andb_true_iff in H. tauto.
Qed.

(** ** Properties *)

(** The packet with contents [f] for the opcode [o], as a client builds it:
    the encoding along the layout, the last bits padded with zeroes. *)
Definition client_packet (o : Opcodes) (f : MoveFields) : list Z :=
  w_out (wire_flush (wire_ops (encode_seq f (new_Extra []) [] (read_layout o)) (mkWire [] []))).

Lemma ReadMovementInfo_decodes_lemma pl o f mi x :
  In o readable_opcodes -> Z.of_nat (length (mf_forces f)) < 2 ^ 22 ->
  exists b, ReadMovementInfo pl o (received (client_packet o f)) mi x = Ok (decoded pl f mi, b) /\
            rest b = [].
Proof.
  intros Ho Hf. destruct (read_layout_facts o Ho) as (Hok & Hshape & Hall).
  destruct (shape_ok_ops f (new_Extra []) _ _ Hshape) as (pre & bits & post & Hseq & _).
  pose proof (shaped_reads pre bits post) as Hr. rewrite <- Hseq in Hr.
  fold (client_packet o f) in Hr. rewrite <- (app_nil_r (encode_seq _ _ _ _)) in Hr.
  destruct (ReadElements_decodes f _ [] mi _ x [] Hok Hf Hr) as (b & seen & H & Hb & Hmem).
  exists b. split.
  - unfold ReadMovementInfo. rewrite (readable_layout_found o Ho).
    rewrite <- drop_dead_counters_same by done. fold (read_layout o).
    replace new_locals with (expected_locals f []) by
      (unfold expected_locals, guid_local; by destruct (present (mf_transport f))).
    rewrite H. cbn [r_locals r_mi r_packet]. rewrite finish_decoded.
    + rewrite foldl_deliver, (read_layout_assigns o f mi Ho). done.
    + apply forallb_forall. intros e He. rewrite Hmem. cbn.
      exact (proj1 (forallb_forall _ _) Hall e He).
  - destruct Hb as (pre' & bits' & post' & packed & pad & Hos & Hrd).
    destruct pre', bits', post'; try discriminate Hos.
    pose proof (reads_bits_done _ _ _ _ Hrd) as ->. by destruct Hrd as [Hrest _ _ _].
Qed.

(** A layout the server writes without extras and reads back. *)
Lemma write_then_read pl o u c mi :
  In o server_opcodes -> In o readable_opcodes -> read_layout o = layout_of_opcode o ->
  count_extras (layout_of_opcode o) = 0%nat -> u64 (GetGUID u) <> 0 ->
  exists s b, WriteMovementInfo u o (mkWState new_ByteBuffer c None) = Ok (tt, s) /\
    ReadMovementInfo pl o (received (_storage (w_packet s))) mi None
    = Ok (decoded pl (fields_of u c) mi, b) /\ rest b = [].
Proof.
  intros Hs Hr Hl Hx Hg.
  destruct (build_packet_spec u o c None Hs Hg) as (b & Hb & Hst & _); [by split|].
  destruct (ReadMovementInfo_decodes_lemma pl o (fields_of u c) mi None Hr)
    as (b' & Hread & Hrest); [done|].
  unfold client_packet in Hread. rewrite Hl in Hread. fold (packet_spec u o c None) in Hread.
  unfold build_packet in Hb. destruct (WriteMovementInfo _ _ _) as [[[] s]|]; [|discriminate Hb].
  injection Hb as ->. eexists _, b'. split; [reflexivity|]. cbn [w_packet]. rewrite Hst. auto.
Qed.

(** C1: for every movement opcode of the client, and for the server's own
    player-movement packet, [ReadMovementInfo] recovers from the packet
    exactly the movement info it was built from: every field that was
    present, the old value of every field that was absent, the flags after
    the anti-cheat pass, and not one byte is left unread. *)
Theorem ReadMovementInfo_decodes pl o f mi x :
  In o readable_opcodes -> Z.of_nat (length (mf_forces f)) < 2 ^ 22 ->
  exists b, ReadMovementInfo pl o (received (client_packet o f)) mi x = Ok (decoded pl f mi, b) /\
            rest b = [].
Proof. apply ReadMovementInfo_decodes_lemma. Qed.

(** C27: what the server writes about a unit in SMSG_PLAYER_MOVE is what
    [ReadMovementInfo] reads: the round trip through the real writer and the
    real reader yields the unit's movement state (flags truncated to the 30
    and 13 bits of the wire, then cleaned up). *)
Theorem player_move_roundtrip pl u c mi :
  u64 (GetGUID u) <> 0 ->
  exists s b, WriteMovementInfo u SMSG_PLAYER_MOVE (mkWState new_ByteBuffer c None) = Ok (tt, s) /\
    ReadMovementInfo pl SMSG_PLAYER_MOVE (received (_storage (w_packet s))) mi None
    = Ok (decoded pl (fields_of u c) mi, b) /\ rest b = [].
Proof.
  apply write_then_read; [by left|by left|vm_compute; reflexivity|vm_compute; reflexivity].
Qed.

(** C35: no bytes a client can send under a movement opcode make
    [ReadMovementInfo] fail an [ASSERT], use a null pointer or run past its
    layout: it returns, or raises [ByteBufferPositionException] (which the
    session catches). *)
Theorem ReadMovementInfo_any_bytes pl o data mi x :
  In o readable_opcodes ->
  match ReadMovementInfo pl o data mi x with
  | Ok _ => True
  | Err e => e = PositionException
  end.
Proof.
  intros Ho. unfold ReadMovementInfo. rewrite (readable_layout_found o Ho).
  destruct (ReadElements _ _) as [[[] s]|e] eqn:H; [done|].
  eapply safe_ReadElements; [|exact H].
  exact (proj1 (forallb_forall _ _) client_layouts_decodable o Ho).
Qed.

(** The [MSECounter] that three client layouts place in front of
    [MSEHasCounter] is never read: the reader's result is that of the layout
    without it. *)
Theorem dead_counter_ignored pl o data mi x :
  In o [CMSG_MOVE_SPLINE_DONE; CMSG_FORCE_MOVE_ROOT_ACK; CMSG_FORCE_MOVE_UNROOT_ACK] ->
  length (read_layout o) = Nat.pred (length (layout_of_opcode o)) /\
  ReadMovementInfo pl o data mi x
  = match ReadElements (read_layout o) (mkRState data new_locals mi x) with
    | Ok (_, s) => Ok (finish pl (r_locals s) (r_mi s), r_packet s)
    | Err e => Err e
    end.
Proof.
  intros Ho. split; [by repeat destruct Ho as [<-|Ho]|].
  assert (GetMovementStatusElementsSequence o = Some (layout_of_opcode o)) as Hl
    by (by repeat destruct Ho as [<-|Ho]).
  unfold ReadMovementInfo, read_layout. by rewrite Hl, drop_dead_counters_same.
Qed.

End Decode.

(** ** Witnesses *)

Definition witness_player : PlayerView := mkPlayerView (fun _ => false) (fun _ => false) SEC_PLAYER.

Definition witness_fields : MoveFields :=
  mkMoveFields 0x0600000000000003 (Some 0x801) None (Some 77) 0x44fa0000 0xc2c80000 0x42000000
    (Some 0x3f800000)
    (Some (mkTransportFields 0x1fc0000000000005 1 2 3 4 (-1) 9 (Some 8) None)) None
    (Some (mkFallFields 5 6 (Some (7, 8, 9)))) None false (Some 3) [11; 12].

Lemma ReadMovementInfo_decodes_witness :
  exists b,
    @ReadMovementInfo witness_floats witness_player MSG_MOVE_HEARTBEAT
      (received (client_packet MSG_MOVE_HEARTBEAT witness_fields))
      (@new_MovementInfo witness_floats) None
    = Ok (@decoded witness_floats witness_player witness_fields
            (@new_MovementInfo witness_floats), b) /\ rest b = [].
Proof.
  apply (@ReadMovementInfo_decodes witness_floats witness_player MSG_MOVE_HEARTBEAT).
  - cbn. tauto.
  - vm_compute. reflexivity.
Defined.

Lemma player_move_roundtrip_witness :
  exists s b,
    @WriteMovementInfo witness_floats witness_unit SMSG_PLAYER_MOVE (mkWState new_ByteBuffer 0 None)
      = Ok (tt, s) /\
    @ReadMovementInfo witness_floats witness_player SMSG_PLAYER_MOVE
      (received (_storage (w_packet s))) (@new_MovementInfo witness_floats) None
    = Ok (@decoded witness_floats witness_player (@fields_of witness_floats witness_unit 0)
            (@new_MovementInfo witness_floats), b) /\ rest b = [].
Proof. apply player_move_roundtrip. vm_compute. discriminate. Defined.

Lemma ReadMovementInfo_any_bytes_witness :
  match @ReadMovementInfo witness_floats witness_player MSG_MOVE_JUMP (received [255; 255; 255])
          (@new_MovementInfo witness_floats) None with
  | Ok _ => True
  | Err e => e = PositionException
  end.
Proof. apply (@ReadMovementInfo_any_bytes witness_floats). cbn. tauto. Defined.

Lemma dead_counter_ignored_witness :
  length (read_layout CMSG_MOVE_SPLINE_DONE)
    = Nat.pred (length (layout_of_opcode CMSG_MOVE_SPLINE_DONE)) /\
  @ReadMovementInfo witness_floats witness_player CMSG_MOVE_SPLINE_DONE (received [1; 2; 3])
      (@new_MovementInfo witness_floats) None = Err PositionException.
Proof.
  destruct (@dead_counter_ignored witness_floats witness_player CMSG_MOVE_SPLINE_DONE
              (received [1; 2; 3]) (@new_MovementInfo witness_floats) None) as [H1 H2];
    [cbn; tauto|].
  split; [exact H1|]. rewrite H2. vm_compute. reflexivity.
Defined.
