(* ===== verification/Rbac.v ===== *)
(** * Role based access control (src/server/game/Accounts/RBAC.cpp, AccountMgr.cpp)

    The permission tables of [AccountMgr], the per-account [RBACData] with
    its operations, and the interface [Permissions] through which the rest of
    the server asks about an account.  Identifiers are [Z]; [std::set] is
    [gset Z], with [*begin()] the least element.  Statements sent to the
    database are the outputs of the operations. *)
From S2P Require Import Prelude.
Local Open Scope Z_scope.

(** ** What other components ask of an account *)

Class Permissions (A : Type) := HasPermission : A -> Z -> bool.

(** ** The tables of [AccountMgr] *)

Record RBACPermission := mkRBACPermission {
  perm_id : Z;
  perm_name : string;
  perm_linked : gset Z
}.

Record AccountMgr := mkAccountMgr {
  _permissions : gmap Z RBACPermission;
  _defaultPermissions : gmap Z (gset Z)
}.

(** [GetRBACPermission(permissionId)]; [None] is [NULL]. *)
Definition GetRBACPermission (mgr : AccountMgr) (permissionId : Z) : option RBACPermission :=
  _permissions mgr !! permissionId.

(** [GetRBACDefaultPermissions(secLevel)]: the [operator[]] of the map
    creates the missing set, which is empty. *)
Definition GetRBACDefaultPermissions (mgr : AccountMgr) (secLevel : Z) : gset Z :=
  default ∅ (_defaultPermissions mgr !! secLevel).

(** [RBACPermission::AddLinkedPermission(id)] *)
Definition AddLinkedPermission (id : Z) (p : RBACPermission) : RBACPermission :=
  mkRBACPermission (perm_id p) (perm_name p) ({[id]} ∪ perm_linked p).

(** ** [AccountMgr::LoadRBAC] *)

Inductive RbacError := NullDereference.

(** The first loop: [_permissions[id] = new RBACPermission(id, name)]. *)
Definition load_permissions (rows : list (Z * string)) : gmap Z RBACPermission :=
  foldl (fun m row => <[row.1 := mkRBACPermission row.1 row.2 ∅]> m) ∅ rows.

(** The second loop, with its locals [permissionId] and [permission] (the
    key of the object pointed to; [None] is [NULL], which is also what
    [_permissions[newId]] yields for an unknown identifier). *)
Fixpoint load_links (rows : list (Z * Z)) (permissionId : Z) (permission : option Z)
    (m : gmap Z RBACPermission) : outcome RbacError (gmap Z RBACPermission) :=
  match rows with
  | [] => Ok m
  | (newId, linked) :: rows =>
      let '(permissionId, permission) :=
        if negb (permissionId =? newId)
        then (newId, match m !! newId with Some _ => Some newId | None => None end)
        else (permissionId, permission) in
      if linked =? permissionId then load_links rows permissionId permission m
      else match permission with
           | None => Err NullDereference
           | Some k => load_links rows permissionId permission (alter (AddLinkedPermission linked) k m)
           end
  end.

(** The third loop, with its locals [secId] (a [uint8]) and [permissions]
    (the key of the set pointed to). *)
Fixpoint load_defaults (rows : list (Z * Z)) (secId : Z) (permissions : option Z)
    (m : gmap Z (gset Z)) : outcome RbacError (gmap Z (gset Z)) :=
  match rows with
  | [] => Ok m
  | (newId, perm) :: rows =>
      let '(secId, permissions) :=
        if negb (secId =? newId) then (u8 newId, Some (u8 newId)) else (secId, permissions) in
      match permissions with
      | None => Err NullDereference
      | Some k => load_defaults rows secId permissions (<[k := {[perm]} ∪ default ∅ (m !! k)]> m)
      end
  end.

(** [LoadRBAC()] on the rows of its three queries; an empty result makes it
    return at once. *)
Definition LoadRBAC (perms : list (Z * string)) (links defaults : list (Z * Z))
    : outcome RbacError AccountMgr :=
  match perms with
  | [] => Ok (mkAccountMgr ∅ ∅)
  | _ =>
      let m := load_permissions perms in
      match links with
      | [] => Ok (mkAccountMgr m ∅)
      | _ =>
          match load_links links 0 None m with
          | Err e => Err e
          | Ok m =>
              match load_defaults defaults 255 None ∅ with
              | Err e => Err e
              | Ok d => Ok (mkAccountMgr m d)
              end
          end
      end
  end.

(** ** [RBACData] *)

Inductive RBACCommandResult :=
| RBAC_OK
| RBAC_CANT_ADD_ALREADY_ADDED
| RBAC_CANT_REVOKE_NOT_IN_LIST
| RBAC_IN_GRANTED_LIST
| RBAC_IN_DENIED_LIST
| RBAC_ID_DOES_NOT_EXISTS.

#[export] Instance RBACCommandResult_eq_dec : EqDecision RBACCommandResult.
Proof. solve_decision. Defined.

Record RBACData := mkRBACData {
  _id : Z;
  _name : string;
  _realmId : Z;
  _secLevel : Z;
  _grantedPerms : gset Z;
  _deniedPerms : gset Z;
  _globalPerms : gset Z
}.

(** [RBACData(id, name, realmId, secLevel = 255)] *)
Definition new_RBACData (id : Z) (name : string) (realmId secLevel : Z) : RBACData :=
  mkRBACData id name realmId secLevel ∅ ∅ ∅.

Definition set_perms (granted denied global : gset Z) (d : RBACData) : RBACData :=
  mkRBACData (_id d) (_name d) (_realmId d) (_secLevel d) granted denied global.

(** Statements for the login database. *)
Inductive DbStatement :=
| InsertAccountPermission (account permission : Z) (granted : bool) (realm : Z)
| DeleteAccountPermission (account permission realm : Z)
| DeleteAccountAccess (account : Z)
| DeleteAccountAccessByRealm (account realm : Z)
| InsertAccountAccess (account secLevel realm : Z).

Section Account.
Variable mgr : AccountMgr.

(** [*container.begin()] of a [std::set<uint32>]: the least element. *)
Definition set_begin (s : gset Z) : option Z :=
  match elements s with
  | [] => None
  | x :: xs => Some (foldr Z.min x xs)
  end.

(** [AddPermissions(permsFrom, permsTo)], [RemovePermissions(permsFrom, permsTo)] *)
Definition AddPermissions (permsFrom permsTo : gset Z) : gset Z := permsTo ∪ permsFrom.
Definition RemovePermissions (permsFrom permsTo : gset Z) : gset Z := permsTo ∖ permsFrom.

(** The loop of [ExpandPermissions]; [None] when the fuel is used up. *)
Fixpoint ExpandPermissions_loop (fuel : nat) (toCheck permissions : gset Z) : option (gset Z) :=
  match fuel with
  | O => None
  | S fuel =>
      match set_begin toCheck with
      | None => Some permissions
      | Some permissionId =>
          let toCheck := toCheck ∖ {[permissionId]} in
          match GetRBACPermission mgr permissionId with
          | None => ExpandPermissions_loop fuel toCheck permissions
          | Some permission =>
              let permissions := {[permissionId]} ∪ permissions in
              ExpandPermissions_loop fuel
                (toCheck ∪ filter (fun p => p ∉ permissions) (perm_linked permission)) permissions
          end
      end
  end.

(** Every identifier the loop can meet, and the fuel it needs. *)
Definition all_linked : gset Z :=
  map_fold (fun _ p acc => perm_linked p ∪ acc) ∅ (_permissions mgr).
Definition universe (permissions : gset Z) : gset Z := permissions ∪ all_linked.
Definition expand_measure (bound : nat) (toCheck permissions : gset Z) : nat :=
  size (dom (_permissions mgr) ∖ permissions) * S bound + size toCheck.
Definition expand_fuel (permissions : gset Z) : nat :=
  S (expand_measure (size (universe permissions)) permissions ∅).

(** [ExpandPermissions(permissions)] *)
Definition ExpandPermissions (permissions : gset Z) : gset Z :=
  default ∅ (ExpandPermissions_loop (expand_fuel permissions) permissions ∅).

(** [CalculateNewPermissions()] *)
Definition CalculateNewPermissions (d : RBACData) : RBACData :=
  let global := ExpandPermissions (_grantedPerms d) in
  let revoked := ExpandPermissions (_deniedPerms d) in
  set_perms (_grantedPerms d) (_deniedPerms d) (RemovePermissions revoked global) d.

Definition HasGrantedPermission (permissionId : Z) (d : RBACData) : bool :=
  bool_decide (permissionId ∈ _grantedPerms d).
Definition HasDeniedPermission (permissionId : Z) (d : RBACData) : bool :=
  bool_decide (permissionId ∈ _deniedPerms d).
Definition AddGrantedPermission (permissionId : Z) (d : RBACData) : RBACData :=
  set_perms ({[permissionId]} ∪ _grantedPerms d) (_deniedPerms d) (_globalPerms d) d.
Definition AddDeniedPermission (permissionId : Z) (d : RBACData) : RBACData :=
  set_perms (_grantedPerms d) ({[permissionId]} ∪ _deniedPerms d) (_globalPerms d) d.
Definition RemoveGrantedPermission (permissionId : Z) (d : RBACData) : RBACData :=
  set_perms (_grantedPerms d ∖ {[permissionId]}) (_deniedPerms d) (_globalPerms d) d.
Definition RemoveDeniedPermission (permissionId : Z) (d : RBACData) : RBACData :=
  set_perms (_grantedPerms d) (_deniedPerms d ∖ {[permissionId]}) (_globalPerms d) d.

(** [GrantPermission(permissionId, realmId)] *)
Definition GrantPermission (permissionId realmId : Z) (d : RBACData)
    : RBACCommandResult * RBACData * list DbStatement :=
  match GetRBACPermission mgr permissionId with
  | None => (RBAC_ID_DOES_NOT_EXISTS, d, [])
  | Some _ =>
      if HasDeniedPermission permissionId d then (RBAC_IN_DENIED_LIST, d, [])
      else if HasGrantedPermission permissionId d then (RBAC_CANT_ADD_ALREADY_ADDED, d, [])
      else
        let d := AddGrantedPermission permissionId d in
        if negb (realmId =? 0) then
          (RBAC_OK, CalculateNewPermissions d,
           [InsertAccountPermission (_id d) permissionId true realmId])
        else (RBAC_OK, d, [])
  end.

(** [DenyPermission(permissionId, realmId)] *)
Definition DenyPermission (permissionId realmId : Z) (d : RBACData)
    : RBACCommandResult * RBACData * list DbStatement :=
  match GetRBACPermission mgr permissionId with
  | None => (RBAC_ID_DOES_NOT_EXISTS, d, [])
  | Some _ =>
      if HasGrantedPermission permissionId d then (RBAC_IN_GRANTED_LIST, d, [])
      else if HasDeniedPermission permissionId d then (RBAC_CANT_ADD_ALREADY_ADDED, d, [])
      else
        let d := AddDeniedPermission permissionId d in
        if negb (realmId =? 0) then
          (RBAC_OK, CalculateNewPermissions d,
           [InsertAccountPermission (_id d) permissionId false realmId])
        else (RBAC_OK, d, [])
  end.

(** [RevokePermission(permissionId, realmId)] *)
Definition RevokePermission (permissionId realmId : Z) (d : RBACData)
    : RBACCommandResult * RBACData * list DbStatement :=
  if negb (HasGrantedPermission permissionId d) && negb (HasDeniedPermission permissionId d)
  then (RBAC_CANT_REVOKE_NOT_IN_LIST, d, [])
  else
    let d := RemoveDeniedPermission permissionId (RemoveGrantedPermission permissionId d) in
    if negb (realmId =? 0) then
      (RBAC_OK, CalculateNewPermissions d, [DeleteAccountPermission (_id d) permissionId realmId])
    else (RBAC_OK, d, []).

(** [ClearData()] *)
Definition ClearData (d : RBACData) : RBACData := set_perms ∅ ∅ ∅ d.

(** The row loop of [LoadFromDB]: [(permissionId, granted)]. *)
Definition load_row (d : RBACData) (row : Z * bool) : RBACData :=
  if row.2 then (GrantPermission row.1 0 d).1.2 else (DenyPermission row.1 0 d).1.2.

(** [LoadFromDB()] on the rows of the account's query. *)
Definition LoadFromDB (rows : list (Z * bool)) (d : RBACData) : RBACData :=
  let d := foldl load_row (ClearData d) rows in
  let d := foldl (fun d p => (GrantPermission p 0 d).1.2) d
             (elements (GetRBACDefaultPermissions mgr (_secLevel d))) in
  CalculateNewPermissions d.

(** [SetSecurityLevel(id)] *)
Definition SetSecurityLevel (rows : list (Z * bool)) (id : Z) (d : RBACData) : RBACData :=
  LoadFromDB rows (mkRBACData (_id d) (_name d) (_realmId d) id
                     (_grantedPerms d) (_deniedPerms d) (_globalPerms d)).

(** [AccountMgr::UpdateAccountAccess(rbac, accountId, securityLevel, realmId)] *)
Definition UpdateAccountAccess (rows : list (Z * bool)) (rbac : option RBACData)
    (accountId securityLevel realmId : Z) : option RBACData * list DbStatement :=
  (match rbac with
   | Some d => if securityLevel =? _secLevel d then Some (SetSecurityLevel rows securityLevel d)
               else Some d
   | None => None
   end,
   (if realmId =? -1 then [DeleteAccountAccess accountId]
    else [DeleteAccountAccessByRealm accountId realmId])
   ++ (if negb (securityLevel =? 0) then [InsertAccountAccess accountId securityLevel realmId]
       else [])).

(** [RBACData::HasPermission(permission)]; [free] is the configuration
    option CONFIG_RBAC_FREE_PERMISSION_MODE. *)
Definition RBACData_HasPermission (free : bool) (d : RBACData) (permission : Z) : bool :=
  free || bool_decide (permission ∈ _globalPerms d).

(** [AccountMgr::HasPermission(accountId, permissionId, realmId)] *)
Definition AccountMgr_HasPermission (free : bool) (rows : list (Z * bool))
    (accountId permissionId realmId : Z) : bool :=
  if accountId =? 0 then false
  else RBACData_HasPermission free (LoadFromDB rows (new_RBACData accountId "" realmId 255))
         permissionId.

End Account.

#[export] Instance RBACData_Permissions : Permissions (bool * RBACData) :=
  fun fd p => RBACData_HasPermission fd.1 fd.2 p.

(** ** Reference: the permissions reachable through links *)

Section Reach.
Variable mgr : AccountMgr.

(** [p] is defined and in [s], or linked from a reached permission. *)
Inductive reach (s : gset Z) : Z -> Prop :=
| reach_base p perm : p ∈ s -> GetRBACPermission mgr p = Some perm -> reach s p
| reach_link q qperm p perm :
    reach s q -> GetRBACPermission mgr q = Some qperm -> p ∈ perm_linked qperm ->
    GetRBACPermission mgr p = Some perm -> reach s p.

Lemma reach_defined s p : reach s p -> exists perm, GetRBACPermission mgr p = Some perm.
Proof. intros [? perm|]; eauto. Qed.

Lemma reach_mono s s' p : s ⊆ s' -> reach s p -> reach s' p.
Proof.
  intros Hs. induction 1; [eapply reach_base|eapply reach_link]; eauto.
Qed.

Lemma set_begin_Some s p : set_begin s = Some p -> p ∈ s.
Proof.
  unfold set_begin. destruct (elements s) as [|x xs] eqn:He; [done|]. intros [= <-].
  apply elem_of_elements. rewrite He. clear He. induction xs as [|y xs IH]; cbn; [by left|].
  destruct (Z.min_dec y (foldr Z.min x xs)) as [->| ->]; [right; by left|].
  apply elem_of_cons in IH as [->|IH]; [by left|right; by right].
Qed.

Lemma set_begin_None s : set_begin s = None -> s = ∅.
Proof.
  unfold set_begin. destruct (elements s) as [|x xs] eqn:He; [|done]. intros _.
  by apply leibniz_equiv, elements_empty_iff.
Qed.

(** The loop invariant. *)
Record expand_inv (s toCheck permissions : gset Z) : Prop := {
  ei_reached : forall p, p ∈ permissions -> reach s p;
  ei_pending : forall p perm, p ∈ toCheck -> GetRBACPermission mgr p = Some perm -> reach s p;
  ei_start : forall p perm, p ∈ s -> GetRBACPermission mgr p = Some perm ->
             p ∈ permissions \/ p ∈ toCheck;
  ei_links : forall q qperm p perm, q ∈ permissions -> GetRBACPermission mgr q = Some qperm ->
             p ∈ perm_linked qperm -> GetRBACPermission mgr p = Some perm ->
             p ∈ permissions \/ p ∈ toCheck;
  ei_disjoint : forall p, p ∈ toCheck -> p ∈ permissions -> False
}.

Lemma expand_inv_init s : expand_inv s s ∅.
Proof.
  split; [set_solver|..|set_solver|set_solver].
  - intros p perm Hp Hd. by eapply reach_base.
  - intros p perm Hp _. by right.
Qed.

Lemma expand_inv_skip s toCheck permissions p :
  expand_inv s toCheck permissions -> GetRBACPermission mgr p = None ->
  expand_inv s (toCheck ∖ {[p]}) permissions.
Proof.
  intros [Hr Hp Hs Hl Hd] Hnone. split; [done|..].
  - intros q qperm Hq. apply (Hp q). set_solver.
  - intros q qperm Hq Hqp. destruct (Hs q qperm Hq Hqp); [by left|right].
    assert (q <> p) by congruence. set_solver.
  - intros q qperm r rperm Hq Hqp Hr' Hrp. destruct (Hl q qperm r rperm Hq Hqp Hr' Hrp); [by left|right].
    assert (r <> p) by congruence. set_solver.
  - intros q Hq. apply (Hd q). set_solver.
Qed.

Lemma expand_inv_step s toCheck permissions p perm :
  expand_inv s toCheck permissions -> p ∈ toCheck -> GetRBACPermission mgr p = Some perm ->
  expand_inv s
    ((toCheck ∖ {[p]}) ∪ filter (fun q => q ∉ {[p]} ∪ permissions) (perm_linked perm))
    ({[p]} ∪ permissions).
Proof.
  intros [Hr Hp Hs Hl Hd] Hin Hperm.
  assert (reach s p) as Hrp by eauto.
  split.
  - intros q Hq. apply elem_of_union in Hq as [->%elem_of_singleton|Hq]; auto.
  - intros q qperm Hq Hqp. apply elem_of_union in Hq as [Hq|Hq].
    + apply (Hp q qperm); [set_solver|done].
    + apply elem_of_filter in Hq as [_ Hq]. by eapply reach_link.
  - intros q qperm Hq Hqp. destruct (Hs q qperm Hq Hqp); [set_solver|].
    destruct (decide (q = p)); set_solver.
  - intros q qperm r rperm Hq Hqp Hr' Hrp'.
    destruct (decide (r ∈ {[p]} ∪ permissions)) as [|Hn]; [by left|].
    right. apply elem_of_union in Hq as [->%elem_of_singleton|Hq].
    + rewrite Hqp in Hperm. injection Hperm as ->. apply elem_of_union_r, elem_of_filter. done.
    + destruct (Hl q qperm r rperm Hq Hqp Hr' Hrp'); [set_solver|].
      assert (r <> p) by set_solver. set_solver.
  - intros q Hq Hq'. apply elem_of_union in Hq as [Hq|Hq].
    + apply (Hd q); set_solver.
    + apply elem_of_filter in Hq as [Hn _]. done.
Qed.

Lemma linked_in_universe p perm s :
  GetRBACPermission mgr p = Some perm -> perm_linked perm ⊆ universe mgr s.
Proof.
  unfold GetRBACPermission, universe, all_linked. generalize (_permissions mgr). intros m Hp.
  transitivity (map_fold (fun _ p acc => perm_linked p ∪ acc) ∅ m : gset Z); [|set_solver].
  revert Hp. induction m as [|k v m Hk Hfirst IH] using map_first_key_ind; [by rewrite lookup_empty|].
  rewrite map_fold_insert_first_key by done.
  destruct (decide (p = k)) as [->|Hne].
  - rewrite lookup_insert_eq. intros [= ->]. set_solver.
  - rewrite lookup_insert_ne by done. intros Hp. specialize (IH Hp). set_solver.
Qed.

Lemma measure_skip bound toCheck permissions p :
  p ∈ toCheck ->
  (expand_measure mgr bound (toCheck ∖ {[p]}) permissions < expand_measure mgr bound toCheck permissions)%nat.
Proof.
  intros Hp. unfold expand_measure. apply Nat.add_lt_mono_l.
  apply subset_size. set_solver.
Qed.

Lemma measure_step s toCheck toCheck' permissions p perm :
  GetRBACPermission mgr p = Some perm -> p ∉ permissions -> toCheck' ⊆ universe mgr s ->
  (expand_measure mgr (size (universe mgr s)) toCheck' ({[p]} ∪ permissions)
   < expand_measure mgr (size (universe mgr s)) toCheck permissions)%nat.
Proof.
  intros Hp Hn Hsub. unfold expand_measure.
  pose proof (subseteq_size _ _ Hsub) as Hsize.
  assert (size (dom (_permissions mgr) ∖ ({[p]} ∪ permissions))
          < size (dom (_permissions mgr) ∖ permissions))%nat as Hlt.
  { apply subset_size. unfold GetRBACPermission in Hp. apply elem_of_dom_2 in Hp. set_solver. }
  nia.
Qed.

(** The loop terminates within the measure and computes the reachable set. *)
Lemma ExpandPermissions_loop_spec s fuel toCheck permissions :
  expand_inv s toCheck permissions -> toCheck ⊆ universe mgr s ->
  (expand_measure mgr (size (universe mgr s)) toCheck permissions < fuel)%nat ->
  exists r, ExpandPermissions_loop mgr fuel toCheck permissions = Some r /\
            forall p, p ∈ r <-> reach s p.
Proof.
  revert toCheck permissions. induction fuel as [|fuel IH]; intros toCheck permissions Hinv Hsub Hm;
    [lia|].
  cbn [ExpandPermissions_loop]. destruct (set_begin toCheck) as [p|] eqn:Hb.
  - apply set_begin_Some in Hb. destruct (GetRBACPermission mgr p) as [perm|] eqn:Hp.
    + assert (p ∉ permissions) as Hn by (intros ?; by eapply (ei_disjoint _ _ _ Hinv)).
      assert ((toCheck ∖ {[p]}) ∪ filter (fun q => q ∉ {[p]} ∪ permissions) (perm_linked perm)
              ⊆ universe mgr s) as Hsub'
        by (pose proof (linked_in_universe p perm s Hp); set_solver).
      apply IH; [by apply expand_inv_step|done|].
      pose proof (measure_step s toCheck _ permissions p perm Hp Hn Hsub'). lia.
    + apply IH; [by apply expand_inv_skip|set_solver|].
      pose proof (measure_skip (size (universe mgr s)) toCheck permissions p Hb). lia.
  - apply set_begin_None in Hb as ->. exists permissions. split; [done|].
    destruct Hinv as [Hr _ Hs Hl _]. intros p. split; [apply Hr|].
    induction 1 as [p perm Hp Hd|q qperm p perm _ IHq Hq Hp Hd].
    + by destruct (Hs p perm Hp Hd) as [|?%elem_of_empty].
    + by destruct (Hl q qperm p perm IHq Hq Hp Hd) as [|?%elem_of_empty].
Qed.

Lemma ExpandPermissions_total s :
  exists r, ExpandPermissions_loop mgr (expand_fuel mgr s) s ∅ = Some r /\
            forall p, p ∈ r <-> reach s p.
Proof.
  apply ExpandPermissions_loop_spec; [apply expand_inv_init|unfold universe; set_solver|].
  unfold expand_fuel. lia.
Qed.

Lemma elem_of_ExpandPermissions s p : p ∈ ExpandPermissions mgr s <-> reach s p.
Proof.
  unfold ExpandPermissions. destruct (ExpandPermissions_total s) as (r & -> & Hr). apply Hr.
Qed.

End Reach.

(** ** The account's invariant *)

Section AccountProps.
Variable mgr : AccountMgr.

(** Granted and denied permissions are defined and exclude each other. *)
Record account_ok (d : RBACData) : Prop := {
  ok_disjoint : _grantedPerms d ## _deniedPerms d;
  ok_granted : forall p, p ∈ _grantedPerms d -> is_Some (GetRBACPermission mgr p);
  ok_denied : forall p, p ∈ _deniedPerms d -> is_Some (GetRBACPermission mgr p)
}.

(** The calculated set is up to date. *)
Definition calculated (d : RBACData) : Prop :=
  forall p, p ∈ _globalPerms d <->
            reach mgr (_grantedPerms d) p /\ ~ reach mgr (_deniedPerms d) p.

Lemma CalculateNewPermissions_calculated d : calculated (CalculateNewPermissions mgr d).
Proof.
  intros p. unfold CalculateNewPermissions, set_perms, RemovePermissions.
  cbn [_globalPerms _grantedPerms _deniedPerms].
  by rewrite elem_of_difference, !elem_of_ExpandPermissions.
Qed.

Lemma CalculateNewPermissions_ok d : account_ok d -> account_ok (CalculateNewPermissions mgr d).
Proof. by intros [H1 H2 H3]. Qed.

Lemma new_RBACData_ok id name realm sec : account_ok (new_RBACData id name realm sec).
Proof. split; cbn; set_solver. Qed.

Lemma ClearData_ok d : account_ok (ClearData d).
Proof. split; cbn; set_solver. Qed.

Lemma AddGranted_ok d p :
  account_ok d -> is_Some (GetRBACPermission mgr p) -> p ∉ _deniedPerms d ->
  account_ok (AddGrantedPermission p d).
Proof. intros [H1 H2 H3] Hp Hn. split; cbn; [set_solver| |done]. intros q. set_solver. Qed.

Lemma AddDenied_ok d p :
  account_ok d -> is_Some (GetRBACPermission mgr p) -> p ∉ _grantedPerms d ->
  account_ok (AddDeniedPermission p d).
Proof. intros [H1 H2 H3] Hp Hn. split; cbn; [set_solver|done|]. intros q. set_solver. Qed.

Lemma Remove_ok d p :
  account_ok d -> account_ok (RemoveDeniedPermission p (RemoveGrantedPermission p d)).
Proof. intros [H1 H2 H3]. split; cbn; set_solver. Qed.

Ltac rbac_cases :=
  unfold GrantPermission, DenyPermission, RevokePermission,
    HasGrantedPermission, HasDeniedPermission in *;
  repeat (case_match; simplify_eq/=; try done);
  repeat match goal with
  | H : bool_decide _ = true |- _ => apply bool_decide_eq_true in H
  | H : bool_decide _ = false |- _ => apply bool_decide_eq_false in H
  end.

Lemma Grant_ok p realm d : account_ok d -> account_ok (GrantPermission mgr p realm d).1.2.
Proof.
  intros Hd. rbac_cases; [apply CalculateNewPermissions_ok|]; apply AddGranted_ok; eauto.
Qed.

Lemma Deny_ok p realm d : account_ok d -> account_ok (DenyPermission mgr p realm d).1.2.
Proof.
  intros Hd. rbac_cases; [apply CalculateNewPermissions_ok|]; apply AddDenied_ok; eauto.
Qed.

Lemma Revoke_ok p realm d : account_ok d -> account_ok (RevokePermission mgr p realm d).1.2.
Proof.
  intros Hd. rbac_cases; [apply CalculateNewPermissions_ok|]; by apply Remove_ok.
Qed.

Lemma load_row_ok d row : account_ok d -> account_ok (load_row mgr d row).
Proof. unfold load_row. case_match; [apply Grant_ok|apply Deny_ok]. Qed.

Lemma foldl_ok {A} (f : RBACData -> A -> RBACData) l d :
  (forall d a, account_ok d -> account_ok (f d a)) -> account_ok d -> account_ok (foldl f d l).
Proof. intros Hf. revert d. induction l as [|a l IH]; intros d Hd; cbn; auto. Qed.

Lemma LoadFromDB_ok rows d : account_ok (LoadFromDB mgr rows d).
Proof.
  unfold LoadFromDB. apply CalculateNewPermissions_ok, foldl_ok; [intros; by apply Grant_ok|].
  apply foldl_ok; [intros; by apply load_row_ok|apply ClearData_ok].
Qed.

(** Accounts as the server handles them: loaded, then changed by commands
    that name a realm. *)
Inductive account_reachable : RBACData -> Prop :=
| ar_load rows d : account_reachable (LoadFromDB mgr rows d)
| ar_grant p realm d :
    account_reachable d -> realm <> 0 -> account_reachable (GrantPermission mgr p realm d).1.2
| ar_deny p realm d :
    account_reachable d -> realm <> 0 -> account_reachable (DenyPermission mgr p realm d).1.2
| ar_revoke p realm d :
    account_reachable d -> realm <> 0 -> account_reachable (RevokePermission mgr p realm d).1.2.

Lemma CalculateNewPermissions_idemp d :
  CalculateNewPermissions mgr (CalculateNewPermissions mgr d) = CalculateNewPermissions mgr d.
Proof. done. Qed.

Lemma account_reachable_inv d :
  account_reachable d -> account_ok d /\ CalculateNewPermissions mgr d = d.
Proof.
  induction 1 as [rows d|p realm d _ [Hok Hc] Hr|p realm d _ [Hok Hc] Hr|p realm d _ [Hok Hc] Hr].
  - split; [apply LoadFromDB_ok|done].
  - split; [by apply Grant_ok|]. apply Z.eqb_neq in Hr. unfold GrantPermission. rewrite Hr.
    by repeat case_match.
  - split; [by apply Deny_ok|]. apply Z.eqb_neq in Hr. unfold DenyPermission. rewrite Hr.
    by repeat case_match.
  - split; [by apply Revoke_ok|]. apply Z.eqb_neq in Hr. unfold RevokePermission. rewrite Hr.
    by repeat case_match.
Qed.

(** The row that decides about a permission: the first one. *)
Fixpoint first_row (rows : list (Z * bool)) (p : Z) : option bool :=
  match rows with
  | [] => None
  | row :: rows => if row.1 =? p then Some row.2 else first_row rows p
  end.

Lemma first_row_app rows row p :
  first_row (rows ++ [row]) p
  = match first_row rows p with
    | Some g => Some g
    | None => if row.1 =? p then Some row.2 else None
    end.
Proof.
  induction rows as [|r rows IH]; cbn; [done|]. rewrite IH. by destruct (r.1 =? p).
Qed.

(** The sets after the row loop. *)
Definition rows_loaded (rows : list (Z * bool)) (d : RBACData) : Prop :=
  forall p, (p ∈ _grantedPerms d <->
             is_Some (GetRBACPermission mgr p) /\ first_row rows p = Some true) /\
            (p ∈ _deniedPerms d <->
             is_Some (GetRBACPermission mgr p) /\ first_row rows p = Some false).

Lemma load_row_loaded rows row d :
  rows_loaded rows d -> rows_loaded (rows ++ [row]) (load_row mgr d row).
Proof.
  intros Hd p. rewrite first_row_app. destruct (Hd p) as [Hg Hn]. destruct (Hd row.1) as [Hg1 Hn1].
  unfold load_row, GrantPermission, DenyPermission, HasGrantedPermission, HasDeniedPermission.
  destruct row as [q g]. cbn [fst snd] in *.
  destruct (GetRBACPermission mgr q) as [perm|] eqn:Hq.
  - destruct (Z.eqb_spec q p) as [->|Hne].
    + destruct (first_row rows p) as [[]|] eqn:Hf.
      * assert (p ∈ _grantedPerms d) as Hpg by (apply Hg; eauto).
        assert (p ∉ _deniedPerms d) as Hpd by (rewrite Hn; intros []; congruence).
        destruct g; rewrite ?(bool_decide_false _ Hpd), ?(bool_decide_true _ Hpg);
          cbn; rewrite Hg, Hn, Hq; naive_solver.
      * assert (p ∈ _deniedPerms d) as Hpd by (apply Hn; eauto).
        assert (p ∉ _grantedPerms d) as Hpg by (rewrite Hg; intros []; congruence).
        destruct g; rewrite ?(bool_decide_true _ Hpd), ?(bool_decide_false _ Hpg);
          cbn; rewrite Hg, Hn, Hq; naive_solver.
      * assert (p ∉ _deniedPerms d) as Hpd by (rewrite Hn; intros []; congruence).
        assert (p ∉ _grantedPerms d) as Hpg by (rewrite Hg; intros []; congruence).
        destruct g; rewrite ?(bool_decide_false _ Hpd), ?(bool_decide_false _ Hpg);
          cbn; rewrite ?elem_of_union, ?elem_of_singleton; split; split; naive_solver.
    + assert (match first_row rows p with Some g0 => Some g0 | None => None end
              = first_row rows p) as -> by (by destruct (first_row rows p)).
      destruct g; repeat case_match; cbn; rewrite ?elem_of_union, ?elem_of_singleton;
        split; rewrite <- ?Hg, <- ?Hn; naive_solver.
  - assert (p = q -> GetRBACPermission mgr p = None) as Hnone by congruence.
    destruct g; cbn; rewrite Hg, Hn; destruct (Z.eqb_spec q p) as [->|Hne];
      rewrite ?Hq; destruct (first_row rows p) as [[]|]; split; split; try tauto;
      intros [[? ?] ?]; done.
Qed.

Lemma load_rows_loaded rows d : rows_loaded rows (foldl (load_row mgr) (ClearData d) rows).
Proof.
  induction rows as [|row rows IH] using rev_ind.
  - intros p. cbn. set_solver.
  - rewrite foldl_app. by apply load_row_loaded.
Qed.

(** Granting a list: what is defined and not denied is added. *)
Lemma grant_list l d p :
  let d' := foldl (fun d p => (GrantPermission mgr p 0 d).1.2) d l in
  (p ∈ _grantedPerms d' <-> p ∈ _grantedPerms d \/
     (p ∈ l /\ is_Some (GetRBACPermission mgr p) /\ p ∉ _deniedPerms d)) /\
  _deniedPerms d' = _deniedPerms d /\ _secLevel d' = _secLevel d.
Proof.
  cbv zeta. revert d. induction l as [|q l IH]; intros d; cbn [foldl]; [set_solver|].
  destruct (IH (GrantPermission mgr q 0 d).1.2) as (IHg & IHd & IHs).
  assert (_deniedPerms (GrantPermission mgr q 0 d).1.2 = _deniedPerms d /\
          _secLevel (GrantPermission mgr q 0 d).1.2 = _secLevel d /\
          (p ∈ _grantedPerms (GrantPermission mgr q 0 d).1.2 <->
           p ∈ _grantedPerms d \/
           (p = q /\ is_Some (GetRBACPermission mgr p) /\ p ∉ _deniedPerms d))) as (Hd & Hs & Hg).
  { unfold GrantPermission. destruct (GetRBACPermission mgr q) as [perm|] eqn:Hq.
    - unfold HasDeniedPermission, HasGrantedPermission. repeat case_bool_decide; cbn;
        (split; [done|split; [done|]]); rewrite ?elem_of_union, ?elem_of_singleton; naive_solver.
    - cbn. split; [done|split; [done|]]. split; [auto|]. intros [|(-> & Hsome & _)]; [done|].
      rewrite Hq in Hsome. by destruct Hsome. }
  rewrite IHd, IHs, Hd, Hs, IHg, Hd, Hg, elem_of_cons. split; [tauto|done].
Qed.

Lemma load_rows_secLevel rows d :
  _secLevel (foldl (load_row mgr) (ClearData d) rows) = _secLevel d.
Proof.
  induction rows as [|row rows IH] using rev_ind; [done|]. rewrite foldl_app. cbn.
  rewrite <- IH. unfold load_row, GrantPermission, DenyPermission. by repeat case_match.
Qed.

(** ** Properties *)

(** C37: [ExpandPermissions] terminates (its loop needs at most
    [expand_fuel] iterations, for cyclic links too) and returns exactly the
    defined permissions reachable from the given ones through links. *)
Theorem ExpandPermissions_closure s :
  exists r, ExpandPermissions_loop mgr (expand_fuel mgr s) s ∅ = Some r /\
            ExpandPermissions mgr s = r /\ forall p, p ∈ r <-> reach mgr s p.
Proof.
  destruct (ExpandPermissions_total mgr s) as (r & Hr & Hp). exists r. split; [done|].
  split; [|done]. unfold ExpandPermissions. by rewrite Hr.
Qed.


(** The three commands: which result code when, what an accepted command
    changes and stores, and that a refused one changes and stores nothing. *)
Theorem command_results p realm d :
  let defined := is_Some (GetRBACPermission mgr p) in
  let granted := p ∈ _grantedPerms d in
  let denied := p ∈ _deniedPerms d in
  (let '(r, d', out) := GrantPermission mgr p realm d in
   match r with
   | RBAC_OK => defined /\ ~ granted /\ ~ denied /\
       _grantedPerms d' = {[p]} ∪ _grantedPerms d /\ _deniedPerms d' = _deniedPerms d /\
       out = (if realm =? 0 then [] else [InsertAccountPermission (_id d) p true realm])
   | RBAC_ID_DOES_NOT_EXISTS => ~ defined /\ d' = d /\ out = []
   | RBAC_IN_DENIED_LIST => defined /\ denied /\ d' = d /\ out = []
   | RBAC_CANT_ADD_ALREADY_ADDED => defined /\ ~ denied /\ granted /\ d' = d /\ out = []
   | _ => False
   end) /\
  (let '(r, d', out) := DenyPermission mgr p realm d in
   match r with
   | RBAC_OK => defined /\ ~ granted /\ ~ denied /\
       _deniedPerms d' = {[p]} ∪ _deniedPerms d /\ _grantedPerms d' = _grantedPerms d /\
       out = (if realm =? 0 then [] else [InsertAccountPermission (_id d) p false realm])
   | RBAC_ID_DOES_NOT_EXISTS => ~ defined /\ d' = d /\ out = []
   | RBAC_IN_GRANTED_LIST => defined /\ granted /\ d' = d /\ out = []
   | RBAC_CANT_ADD_ALREADY_ADDED => defined /\ ~ granted /\ denied /\ d' = d /\ out = []
   | _ => False
   end) /\
  (let '(r, d', out) := RevokePermission mgr p realm d in
   match r with
   | RBAC_OK => (granted \/ denied) /\
       _grantedPerms d' = _grantedPerms d ∖ {[p]} /\ _deniedPerms d' = _deniedPerms d ∖ {[p]} /\
       out = (if realm =? 0 then [] else [DeleteAccountPermission (_id d) p realm])
   | RBAC_CANT_REVOKE_NOT_IN_LIST => ~ granted /\ ~ denied /\ d' = d /\ out = []
   | _ => False
   end).
Proof.
  cbv zeta.
  unfold GrantPermission, DenyPermission, RevokePermission, HasGrantedPermission,
    HasDeniedPermission.
  assert (~ is_Some (@None RBACPermission)) as Hnone by (by intros [? ?]).
  split_and!; destruct (GetRBACPermission mgr p); repeat case_bool_decide;
    destruct (realm =? 0); cbn; eauto 10; tauto.
Qed.

(** An accepted grant is undone by revoking the same permission, down to
    the calculated set. *)
Theorem grant_revoke_roundtrip p realm d out d' :
  account_reachable d -> realm <> 0 -> GrantPermission mgr p realm d = (RBAC_OK, d', out) ->
  RevokePermission mgr p realm d' = (RBAC_OK, d, [DeleteAccountPermission (_id d) p realm]).
Proof.
  intros Hd Hr HG. apply account_reachable_inv in Hd as [Hok Hc]. apply Z.eqb_neq in Hr.
  unfold GrantPermission, HasDeniedPermission, HasGrantedPermission in HG.
  destruct (GetRBACPermission mgr p) as [perm|]; [|done].
  repeat case_bool_decide; try done. rewrite Hr in HG. cbn [negb] in HG.
  injection HG as <- _. unfold RevokePermission, HasGrantedPermission, HasDeniedPermission.
  rewrite bool_decide_true by (cbn; set_solver). cbn [negb andb]. rewrite Hr. cbn [negb].
  rewrite <- Hc at 3. unfold CalculateNewPermissions, RemoveDeniedPermission,
    RemoveGrantedPermission, AddGrantedPermission, set_perms. cbn.
  replace (({[p]} ∪ _grantedPerms d) ∖ {[p]}) with (_grantedPerms d) by set_solver.
  by replace (_deniedPerms d ∖ {[p]}) with (_deniedPerms d) by set_solver.
Qed.

(** [LoadFromDB]: for each defined permission the first row of the
    query decides (rows for all realms come before the realm's own, so they
    win), and the defaults of the security level are granted unless the
    permission is denied. *)
Theorem LoadFromDB_first_row_wins rows d p :
  let d' := LoadFromDB mgr rows d in
  (p ∈ _grantedPerms d' <->
   is_Some (GetRBACPermission mgr p) /\
   (first_row rows p = Some true \/
    first_row rows p = None /\ p ∈ GetRBACDefaultPermissions mgr (_secLevel d))) /\
  (p ∈ _deniedPerms d' <->
   is_Some (GetRBACPermission mgr p) /\ first_row rows p = Some false).
Proof.
  cbv zeta. unfold LoadFromDB.
  set (d1 := foldl (load_row mgr) (ClearData d) rows).
  destruct (load_rows_loaded rows d p) as [Hg Hn]. fold d1 in Hg, Hn.
  pose proof (load_rows_secLevel rows d) as Hs. fold d1 in Hs.
  destruct (grant_list (elements (GetRBACDefaultPermissions mgr (_secLevel d1))) d1 p)
    as (Hg2 & Hd2 & _).
  unfold CalculateNewPermissions, set_perms. cbn [_grantedPerms _deniedPerms].
  rewrite Hd2, Hg2, Hg, Hn, Hs, elem_of_elements. clear. split; [|done].
  destruct (first_row rows p) as [[]|]; naive_solver.
Qed.

(** [UpdateAccountAccess] never changes the security level of the
    account in memory: it calls [SetSecurityLevel] only when the new level is
    the one already set. *)
Theorem UpdateAccountAccess_keeps_level rows d accountId securityLevel realmId d' :
  (UpdateAccountAccess mgr rows (Some d) accountId securityLevel realmId).1 = Some d' ->
  _secLevel d' = _secLevel d.
Proof.
  cbn. destruct (Z.eqb_spec securityLevel (_secLevel d)) as [->|]; intros [= <-]; [|done].
  unfold SetSecurityLevel, LoadFromDB, CalculateNewPermissions, set_perms. cbn [_secLevel].
  match goal with |- context [foldl _ (foldl _ (ClearData ?x) rows) ?l] =>
    destruct (grant_list l (foldl (load_row mgr) (ClearData x) rows) 0) as (_ & _ & ->);
    by rewrite load_rows_secLevel
  end.
Qed.

(** Asking about an account that is not online ignores its security
    level: without rows of its own it has no permission at all, whatever the
    defaults of the levels below 255 are. *)
Theorem offline_HasPermission_ignores_level free accountId permissionId realmId :
  _defaultPermissions mgr !! 255 = None -> accountId <> 0 ->
  AccountMgr_HasPermission mgr free [] accountId permissionId realmId = free.
Proof.
  intros Hd Ha. unfold AccountMgr_HasPermission. apply Z.eqb_neq in Ha as ->.
  unfold RBACData_HasPermission, LoadFromDB, GetRBACDefaultPermissions. cbn [foldl].
  change (_secLevel (ClearData _)) with 255. rewrite Hd.
  assert (elements (default ∅ (@None (gset Z))) = []) as -> by done. cbn [foldl].
  rewrite bool_decide_false; [by rewrite orb_false_r|].
  intros Hp. apply CalculateNewPermissions_calculated in Hp as [Hp _]. cbn in Hp.
  remember (∅ : gset Z) as s eqn:Hs. induction Hp; [subst; set_solver|done].
Qed.

End AccountProps.

(** ** [LoadRBAC] *)

Lemma load_permissions_dom (rows : list (Z * string)) (m : gmap Z RBACPermission) k :
  is_Some (foldl (fun m row => <[row.1 := mkRBACPermission row.1 row.2 ∅]> m) m rows !! k)
  <-> is_Some (m !! k) \/ k ∈ rows.*1.
Proof.
  revert m. induction rows as [|row rows IH]; intros m; cbn [foldl fmap list_fmap];
    [set_solver|].
  rewrite IH, elem_of_cons. destruct (decide (k = row.1)) as [->|Hne].
  - rewrite lookup_insert_eq. naive_solver.
  - rewrite lookup_insert_ne by done. naive_solver.
Qed.

Lemma load_permissions_linked (rows : list (Z * string)) (m : gmap Z RBACPermission) k perm :
  (forall k perm, m !! k = Some perm -> perm_linked perm = ∅) ->
  foldl (fun m row => <[row.1 := mkRBACPermission row.1 row.2 ∅]> m) m rows !! k = Some perm ->
  perm_linked perm = ∅.
Proof.
  revert m. induction rows as [|row rows IH]; intros m Hm; cbn [foldl]; [apply Hm|].
  apply IH. intros k' perm'. destruct (decide (k' = row.1)) as [->|Hne].
  - rewrite lookup_insert_eq. by intros [= <-].
  - rewrite lookup_insert_ne by done. apply Hm.
Qed.

Lemma load_links_spec rows permissionId permission m :
  (permission = None /\ permissionId = 0 \/ permission = Some permissionId) ->
  (forall a b, (a, b) ∈ rows -> a <> 0 /\ is_Some (m !! a)) ->
  exists m', load_links rows permissionId permission m = Ok m' /\
    forall k, match m !! k with
              | None => m' !! k = None
              | Some perm => exists perm', m' !! k = Some perm' /\
                  forall p, p ∈ perm_linked perm' <->
                            p ∈ perm_linked perm \/ ((k, p) ∈ rows /\ p <> k)
              end.
Proof.
  revert permissionId permission m.
  induction rows as [|[a b] rows IH]; intros permissionId permission m Hcur Hrows.
  { exists m. split; [done|]. intros k. destruct (m !! k) as [perm|]; [|done].
    exists perm. split; [done|]. intros p. set_solver. }
  destruct (Hrows a b) as [Ha [perma Hma]]; [by left|].
  cbn [load_links].
  assert ((if negb (permissionId =? a)
           then (a, match m !! a with Some _ => Some a | None => None end)
           else (permissionId, permission)) = (a, Some a)) as ->.
  { rewrite Hma. destruct (Z.eqb_spec permissionId a) as [->|]; [|done].
    by destruct Hcur as [[-> ->]| ->]. }
  destruct (Z.eqb_spec b a) as [->|Hne].
  - destruct (IH a (Some a) m) as (m' & -> & Hm'); [by right|set_solver|].
    exists m'. split; [done|]. intros k. specialize (Hm' k).
    destruct (m !! k) as [perm|]; [|done]. destruct Hm' as (perm' & Hk & Hp).
    exists perm'. split; [done|]. intros p. rewrite Hp, elem_of_cons. naive_solver.
  - destruct (IH a (Some a) (alter (AddLinkedPermission b) a m)) as (m' & -> & Hm'); [by right|..].
    { intros a' b' Hab. destruct (Hrows a' b') as [Ha' Hs]; [by right|]. split; [done|].
      rewrite lookup_alter_is_Some. done. }
    exists m'. split; [done|]. intros k. specialize (Hm' k).
    destruct (decide (k = a)) as [->|Hk].
    + rewrite lookup_alter_eq, Hma in Hm'. rewrite Hma. cbn in Hm'.
      destruct Hm' as (perm' & Hka & Hp). exists perm'. split; [done|]. intros p.
      rewrite Hp, elem_of_cons, elem_of_union, elem_of_singleton. naive_solver.
    + rewrite lookup_alter_ne in Hm' by done. destruct (m !! k) as [perm|]; [|done].
      destruct Hm' as (perm' & Hka & Hp). exists perm'. split; [done|]. intros p.
      rewrite Hp, elem_of_cons. naive_solver.
Qed.

Lemma load_defaults_spec rows secId permissions m :
  (permissions = None /\ secId = 255 \/ permissions = Some secId) ->
  (forall s p, (s, p) ∈ rows -> 0 <= s < 255) ->
  exists m', load_defaults rows secId permissions m = Ok m' /\
    forall s p, p ∈ default ∅ (m' !! s) <-> p ∈ default ∅ (m !! s) \/ (s, p) ∈ rows.
Proof.
  revert secId permissions m.
  induction rows as [|[a b] rows IH]; intros secId permissions m Hcur Hrows.
  { exists m. split; [done|]. set_solver. }
  pose proof (Hrows a b ltac:(by left)) as Ha. cbn [load_defaults].
  assert ((if negb (secId =? a) then (u8 a, Some (u8 a)) else (secId, permissions))
          = (a, Some a)) as ->.
  { destruct (Z.eqb_spec secId a) as [->|]; cbn [negb].
    - destruct Hcur as [[-> ->]| ->]; [lia|done].
    - by rewrite u8_small by (unfold is_byte; lia). }
  destruct (IH a (Some a) (<[a:={[b]} ∪ default ∅ (m !! a)]> m)) as (m' & -> & Hm');
    [by right|set_solver|].
  exists m'. split; [done|]. intros s p. rewrite Hm', elem_of_cons.
  destruct (decide (s = a)) as [->|Hne].
  - rewrite lookup_insert_eq. cbn. rewrite elem_of_union, elem_of_singleton. naive_solver.
  - rewrite lookup_insert_ne by done. naive_solver.
Qed.

(** [LoadRBAC] on consistent tables (every link starts from a defined
    permission other than 0, security levels below 255, and the link table
    not empty) succeeds and mirrors the tables: the permissions, their links
    except self-links, and the defaults of each level. *)
Theorem LoadRBAC_correct perms links defaults :
  links <> [] -> (forall a b, (a, b) ∈ links -> a <> 0 /\ a ∈ perms.*1) ->
  (forall s p, (s, p) ∈ defaults -> 0 <= s < 255) ->
  exists mgr, LoadRBAC perms links defaults = Ok mgr /\
    (forall k, is_Some (GetRBACPermission mgr k) <-> k ∈ perms.*1) /\
    (forall k perm p, GetRBACPermission mgr k = Some perm ->
       (p ∈ perm_linked perm <-> (k, p) ∈ links /\ p <> k)) /\
    (forall s p, p ∈ GetRBACDefaultPermissions mgr s <-> (s, p) ∈ defaults).
Proof.
  intros Hne Hlinks Hdef. unfold LoadRBAC.
  destruct perms as [|row perms]; [destruct links as [|[a b] ?]; [done|];
    destruct (Hlinks a b ltac:(by left)) as [_ Hin]; by apply elem_of_nil in Hin|].
  destruct links as [|link links]; [done|].
  set (rows := row :: perms) in *. set (lrows := link :: links) in *.
  assert (forall k, is_Some (load_permissions rows !! k) <-> k ∈ rows.*1) as Hdom.
  { intros k. unfold load_permissions. rewrite load_permissions_dom, lookup_empty. split; [|auto].
    intros [[? ?]|]; done. }
  destruct (load_links_spec lrows 0 None (load_permissions rows)) as (m & -> & Hm); [by left|..].
  { intros a b Hab. destruct (Hlinks a b Hab). by rewrite Hdom. }
  destruct (load_defaults_spec defaults 255 None ∅) as (dm & -> & Hdm); [by left|done|].
  eexists. split; [done|]. unfold GetRBACPermission, GetRBACDefaultPermissions.
  cbn [_permissions _defaultPermissions]. split; [|split].
  - intros k. specialize (Hm k). rewrite <- Hdom.
    destruct (load_permissions rows !! k) as [perm|].
    + destruct Hm as (perm' & -> & _). split; eauto.
    + rewrite Hm. done.
  - intros k perm p Hk. specialize (Hm k).
    destruct (load_permissions rows !! k) as [perm0|] eqn:H0; [|congruence].
    destruct Hm as (perm' & Hk' & Hp). rewrite Hk in Hk'. injection Hk' as <-. rewrite Hp.
    assert (perm_linked perm0 = ∅) as ->.
    { eapply load_permissions_linked; [|exact H0]. intros ? ?. by rewrite lookup_empty. }
    set_solver.
  - intros s p. rewrite Hdm, lookup_empty. set_solver.
Qed.

(** An empty link table makes [LoadRBAC] return before it reads the
    default permissions, so no security level has any. *)
Theorem LoadRBAC_without_links perms defaults s :
  exists mgr, LoadRBAC perms [] defaults = Ok mgr /\ GetRBACDefaultPermissions mgr s = ∅.
Proof. destruct perms; by eexists. Qed.

(** ** Witnesses *)

(** Three permissions, two of them linked in a circle. *)
Definition witness_mgr : AccountMgr :=
  mkAccountMgr
    (<[1 := mkRBACPermission 1 "a" {[2]}]> (<[2 := mkRBACPermission 2 "b" {[1; 3]}]>
     (<[3 := mkRBACPermission 3 "c" ∅]> ∅)))
    (<[0 := {[1]}]> ∅).

Definition witness_account : RBACData :=
  LoadFromDB witness_mgr [(3, false)] (new_RBACData 7 "player" 1 0).


Lemma grant_revoke_roundtrip_witness :
  let d := LoadFromDB witness_mgr [] (new_RBACData 7 "player" 1 5) in
  RevokePermission witness_mgr 2 1 (GrantPermission witness_mgr 2 1 d).1.2
  = (RBAC_OK, d, [DeleteAccountPermission 7 2 1]).
Proof.
  cbv zeta.
  apply (grant_revoke_roundtrip witness_mgr 2 1
           (LoadFromDB witness_mgr [] (new_RBACData 7 "player" 1 5))
           [InsertAccountPermission 7 2 true 1]).
  - apply ar_load.
  - discriminate.
  - vm_compute. reflexivity.
Defined.

Lemma UpdateAccountAccess_keeps_level_witness :
  exists d', (UpdateAccountAccess witness_mgr [] (Some witness_account) 7 3 (-1)).1 = Some d' /\
             _secLevel d' = 0.
Proof.
  exists witness_account. split; [reflexivity|].
  exact (UpdateAccountAccess_keeps_level witness_mgr [] witness_account 7 3 (-1) _ eq_refl).
Defined.

Lemma offline_HasPermission_ignores_level_witness :
  AccountMgr_HasPermission witness_mgr false [] 7 1 1 = false.
Proof. apply offline_HasPermission_ignores_level; [reflexivity|discriminate]. Defined.

Lemma LoadRBAC_correct_witness :
  exists mgr, LoadRBAC [(1, "a"); (2, "b")] [(1, 2); (1, 1)] [(0, 1)] = Ok mgr /\
              GetRBACDefaultPermissions mgr 0 ≡ {[1]}.
Proof.
  destruct (LoadRBAC_correct [(1, "a"); (2, "b")] [(1, 2); (1, 1)] [(0, 1)])
    as (mgr & Hm & _ & _ & Hd).
  - discriminate.
  - intros a b Hab. rewrite !elem_of_cons in Hab. cbn. set_solver.
  - intros s p Hs. apply list_elem_of_singleton in Hs. injection Hs as -> ->. lia.
  - exists mgr. split; [exact Hm|]. intros p. rewrite Hd. set_solver.
Defined.
