(* ===== verification/Channel.v ===== *)
(** * Chat channels (src/server/game/Chat/Channels/Channel.cpp, Channel.h)

    The members, bans and owner of one channel, and every command on it.  A
    command is a function from the channel to the channel it leaves and the
    list of what it causes outside, in order: packets to sessions, calls of
    [Player::JoinedChannel]/[LeftChannel], database statements.  Accounts are
    seen through the interface [Permissions] only. *)
From S2P Require Import Prelude.
From S2P Require Import Lists.
From S2P Require Import ByteBuffer.
From S2P Require Import Util.
From S2P Require Import Rbac.
Local Open Scope Z_scope.

(** ** Flags *)

Definition CHANNEL_FLAG_CUSTOM : Z := 0x01.
Definition CHANNEL_FLAG_TRADE : Z := 0x04.
Definition CHANNEL_FLAG_NOT_LFG : Z := 0x08.
Definition CHANNEL_FLAG_GENERAL : Z := 0x10.
Definition CHANNEL_FLAG_CITY : Z := 0x20.
Definition CHANNEL_FLAG_LFG : Z := 0x40.

Definition CHANNEL_DBC_FLAG_TRADE : Z := 0x00008.
Definition CHANNEL_DBC_FLAG_CITY_ONLY2 : Z := 0x00020.
Definition CHANNEL_DBC_FLAG_LFG : Z := 0x40000.

Definition MEMBER_FLAG_NONE : Z := 0x00.
Definition MEMBER_FLAG_OWNER : Z := 0x01.
Definition MEMBER_FLAG_MODERATOR : Z := 0x02.
Definition MEMBER_FLAG_MUTED : Z := 0x08.

Definition RBAC_PERM_TWO_SIDE_INTERACTION_CHANNEL : Z := 26.
Definition RBAC_PERM_WHO_SEE_ALL_SEC_LEVELS : Z := 35.
Definition RBAC_PERM_SILENTLY_JOIN_CHANNEL : Z := 45.
Definition RBAC_PERM_CHANGE_CHANNEL_NOT_MODERATOR : Z := 46.
Definition RBAC_PERM_COMMAND_GM_CHAT : Z := 372.
Definition SEC_PLAYER : Z := 0.
Definition LANG_UNIVERSAL : Z := 0.

(** ** Members *)

Record PlayerInfo := mkPlayerInfo { player : Z; flags : Z }.

Definition IsOwner (pi : PlayerInfo) : bool := has_flag (flags pi) MEMBER_FLAG_OWNER.
Definition IsModerator (pi : PlayerInfo) : bool := has_flag (flags pi) MEMBER_FLAG_MODERATOR.
Definition IsMuted (pi : PlayerInfo) : bool := has_flag (flags pi) MEMBER_FLAG_MUTED.

Definition set_member_flag (mask : Z) (state : bool) (pi : PlayerInfo) : PlayerInfo :=
  mkPlayerInfo (player pi) (if state then add_flag (flags pi) mask else remove_flag (flags pi) mask).
Definition PlayerInfo_SetOwner : bool -> PlayerInfo -> PlayerInfo := set_member_flag MEMBER_FLAG_OWNER.
Definition PlayerInfo_SetModerator : bool -> PlayerInfo -> PlayerInfo :=
  set_member_flag MEMBER_FLAG_MODERATOR.
Definition PlayerInfo_SetMuted : bool -> PlayerInfo -> PlayerInfo := set_member_flag MEMBER_FLAG_MUTED.

(** The channel's own data. *)
Record Channel := mkChannel {
  _announce : bool;
  _ownership : bool;
  _IsSaved : bool;
  _flags : Z;
  _channelId : Z;
  _Team : Z;
  _ownerGUID : Z;
  _name : text;
  _password : text;
  playersStore : gmap Z PlayerInfo;
  bannedStore : gset Z
}.

Definition set_announce (x : bool) (c : Channel) : Channel :=
  mkChannel x (_ownership c) (_IsSaved c) (_flags c) (_channelId c) (_Team c) (_ownerGUID c)
    (_name c) (_password c) (playersStore c) (bannedStore c).
Definition set_owner_guid (x : Z) (c : Channel) : Channel :=
  mkChannel (_announce c) (_ownership c) (_IsSaved c) (_flags c) (_channelId c) (_Team c) x
    (_name c) (_password c) (playersStore c) (bannedStore c).
Definition set_password (x : text) (c : Channel) : Channel :=
  mkChannel (_announce c) (_ownership c) (_IsSaved c) (_flags c) (_channelId c) (_Team c)
    (_ownerGUID c) (_name c) x (playersStore c) (bannedStore c).
Definition set_store (x : gmap Z PlayerInfo) (c : Channel) : Channel :=
  mkChannel (_announce c) (_ownership c) (_IsSaved c) (_flags c) (_channelId c) (_Team c)
    (_ownerGUID c) (_name c) (_password c) x (bannedStore c).
Definition set_banned (x : gset Z) (c : Channel) : Channel :=
  mkChannel (_announce c) (_ownership c) (_IsSaved c) (_flags c) (_channelId c) (_Team c)
    (_ownerGUID c) (_name c) (_password c) (playersStore c) x.
(** [SetOwnership(ownership)] *)
Definition SetOwnership (x : bool) (c : Channel) : Channel :=
  mkChannel (_announce c) x (_IsSaved c) (_flags c) (_channelId c) (_Team c) (_ownerGUID c)
    (_name c) (_password c) (playersStore c) (bannedStore c).

Definition IsConstant (c : Channel) : bool := negb (_channelId c =? 0).
Definition HasFlag (c : Channel) (flag : Z) : bool := has_flag (_flags c) flag.
Definition GetFlags (c : Channel) : Z := _flags c.
Definition GetNumPlayers (c : Channel) : Z := u32 (Z.of_nat (base.size (playersStore c))).
Definition IsOn (c : Channel) (who : Z) : bool := bool_decide (is_Some (playersStore c !! who)).
Definition IsBanned (c : Channel) (guid : Z) : bool := bool_decide (guid ∈ bannedStore c).
Definition GetPlayerFlags (c : Channel) (guid : Z) : Z :=
  match playersStore c !! guid with Some pi => flags pi | None => 0 end.

(** [playersStore[guid]]: [operator[]] value-initialises a missing entry. *)
Definition entry (c : Channel) (guid : Z) : PlayerInfo :=
  default (mkPlayerInfo 0 0) (playersStore c !! guid).
(** [playersStore[guid].f()] for a member function [f] that changes it; the
    entry is created if it is missing. *)
Definition at_entry (guid : Z) (f : PlayerInfo -> PlayerInfo) (c : Channel) : Channel :=
  set_store (<[guid := f (entry c guid)]> (playersStore c)) c.
(** [playersStore.erase(guid)] *)
Definition erase_member (guid : Z) (c : Channel) : Channel :=
  set_store (delete guid (playersStore c)) c.
(** [playersStore.begin()->second] *)
Definition first_entry (c : Channel) : option PlayerInfo := snd <$> head (map_ordered (playersStore c)).

(** ** Packets and effects *)

Inductive Opcode :=
| SMSG_CHANNEL_NOTIFY
| SMSG_CHANNEL_LIST
| SMSG_USERLIST_ADD
| SMSG_USERLIST_REMOVE
| SMSG_USERLIST_UPDATE.

#[export] Instance Opcode_eq_dec : EqDecision Opcode.
Proof. solve_decision. Defined.

(** A packet of this file's own making, with its bytes (an [Err] is a failed
    [ASSERT] of the buffer), or the arguments of [ChatHandler::BuildChatPacket]. *)
Inductive WorldPacket :=
| Packet (opcode : Opcode) (contents : outcome BBError (list Z))
| ChatPacket (language sender : Z) (message : text) (chatTag : Z) (gmMessage : bool)
    (channelName : text).

(** Statements for the character database. *)
Inductive Statement :=
| CHAR_INS_CHANNEL (name : text) (team : Z)
| CHAR_UPD_CHANNEL (announce ownership : bool) (password bannedList name : text) (team : Z)
| CHAR_UPD_CHANNEL_USAGE (name : text) (team : Z).

Inductive Event :=
| SendPacket (receiver : Z) (data : WorldPacket)
| JoinedChannel (guid : Z)
| LeftChannel (guid : Z)
| Execute (stmt : Statement).

(** [WorldPacket data(opcode)] filled by [m]. *)
Definition make_packet (opcode : Opcode) (m : BB unit) : WorldPacket :=
  Packet opcode (match m new_ByteBuffer with
                 | Ok (_, b) => Ok (_storage b)
                 | Err e => Err e
                 end).

Inductive ChatNotify :=
| CHAT_JOINED_NOTICE
| CHAT_LEFT_NOTICE
| CHAT_YOU_JOINED_NOTICE
| CHAT_YOU_LEFT_NOTICE
| CHAT_WRONG_PASSWORD_NOTICE
| CHAT_NOT_MEMBER_NOTICE
| CHAT_NOT_MODERATOR_NOTICE
| CHAT_PASSWORD_CHANGED_NOTICE
| CHAT_OWNER_CHANGED_NOTICE
| CHAT_PLAYER_NOT_FOUND_NOTICE
| CHAT_NOT_OWNER_NOTICE
| CHAT_CHANNEL_OWNER_NOTICE
| CHAT_MODE_CHANGE_NOTICE
| CHAT_ANNOUNCEMENTS_ON_NOTICE
| CHAT_ANNOUNCEMENTS_OFF_NOTICE
| CHAT_MUTED_NOTICE
| CHAT_PLAYER_KICKED_NOTICE
| CHAT_BANNED_NOTICE
| CHAT_PLAYER_BANNED_NOTICE
| CHAT_PLAYER_UNBANNED_NOTICE
| CHAT_PLAYER_ALREADY_MEMBER_NOTICE
| CHAT_INVITE_NOTICE
| CHAT_INVITE_WRONG_FACTION_NOTICE
| CHAT_PLAYER_INVITED_NOTICE
| CHAT_PLAYER_INVITE_BANNED_NOTICE
| CHAT_NOT_IN_LFG_NOTICE.

#[export] Instance ChatNotify_eq_dec : EqDecision ChatNotify.
Proof. solve_decision. Defined.

(** The value of the enumerator on the wire. *)
Definition notice_value (n : ChatNotify) : Z :=
  match n with
  | CHAT_JOINED_NOTICE => 0x00
  | CHAT_LEFT_NOTICE => 0x01
  | CHAT_YOU_JOINED_NOTICE => 0x02
  | CHAT_YOU_LEFT_NOTICE => 0x03
  | CHAT_WRONG_PASSWORD_NOTICE => 0x04
  | CHAT_NOT_MEMBER_NOTICE => 0x05
  | CHAT_NOT_MODERATOR_NOTICE => 0x06
  | CHAT_PASSWORD_CHANGED_NOTICE => 0x07
  | CHAT_OWNER_CHANGED_NOTICE => 0x08
  | CHAT_PLAYER_NOT_FOUND_NOTICE => 0x09
  | CHAT_NOT_OWNER_NOTICE => 0x0A
  | CHAT_CHANNEL_OWNER_NOTICE => 0x0B
  | CHAT_MODE_CHANGE_NOTICE => 0x0C
  | CHAT_ANNOUNCEMENTS_ON_NOTICE => 0x0D
  | CHAT_ANNOUNCEMENTS_OFF_NOTICE => 0x0E
  | CHAT_MUTED_NOTICE => 0x11
  | CHAT_PLAYER_KICKED_NOTICE => 0x12
  | CHAT_BANNED_NOTICE => 0x13
  | CHAT_PLAYER_BANNED_NOTICE => 0x14
  | CHAT_PLAYER_UNBANNED_NOTICE => 0x15
  | CHAT_PLAYER_ALREADY_MEMBER_NOTICE => 0x17
  | CHAT_INVITE_NOTICE => 0x18
  | CHAT_INVITE_WRONG_FACTION_NOTICE => 0x19
  | CHAT_PLAYER_INVITED_NOTICE => 0x1D
  | CHAT_PLAYER_INVITE_BANNED_NOTICE => 0x1E
  | CHAT_NOT_IN_LFG_NOTICE => 0x21
  end.

(** [MakeNotifyPacket(data, notify_type)] followed by the fields [rest]. *)
Definition MakeNotifyPacket (c : Channel) (notify_type : ChatNotify) (fields : BB unit) : WorldPacket :=
  make_packet SMSG_CHANNEL_NOTIFY
    (append_T 1 (notice_value notify_type);; put_string (_name c);; fields).

(** The notices without fields of their own, and those with one or two
    GUIDs or a name. *)
Definition Make_plain (n : ChatNotify) (c : Channel) : WorldPacket := MakeNotifyPacket c n (mret tt).
Definition Make_guid (n : ChatNotify) (c : Channel) (guid : Z) : WorldPacket :=
  MakeNotifyPacket c n (append_T 8 guid).
Definition Make_guids (n : ChatNotify) (c : Channel) (bad good : Z) : WorldPacket :=
  MakeNotifyPacket c n (append_T 8 bad;; append_T 8 good).
Definition Make_name (n : ChatNotify) (c : Channel) (name : text) : WorldPacket :=
  MakeNotifyPacket c n (put_string name).

Definition MakeJoined := Make_guid CHAT_JOINED_NOTICE.
Definition MakeLeft := Make_guid CHAT_LEFT_NOTICE.
Definition MakeYouJoined (c : Channel) : WorldPacket :=
  MakeNotifyPacket c CHAT_YOU_JOINED_NOTICE
    (append_T 1 (GetFlags c);; append_T 4 (_channelId c);; append_T 4 0).
Definition MakeYouLeft (c : Channel) : WorldPacket :=
  MakeNotifyPacket c CHAT_YOU_LEFT_NOTICE
    (append_T 4 (_channelId c);; append_T 1 (Z.b2z (IsConstant c))).
Definition MakeWrongPassword := Make_plain CHAT_WRONG_PASSWORD_NOTICE.
Definition MakeNotMember := Make_plain CHAT_NOT_MEMBER_NOTICE.
Definition MakeNotModerator := Make_plain CHAT_NOT_MODERATOR_NOTICE.
Definition MakePasswordChanged := Make_guid CHAT_PASSWORD_CHANGED_NOTICE.
Definition MakeOwnerChanged := Make_guid CHAT_OWNER_CHANGED_NOTICE.
Definition MakePlayerNotFound := Make_name CHAT_PLAYER_NOT_FOUND_NOTICE.
Definition MakeNotOwner := Make_plain CHAT_NOT_OWNER_NOTICE.
Definition MakeModeChange (c : Channel) (guid oldflags : Z) : WorldPacket :=
  MakeNotifyPacket c CHAT_MODE_CHANGE_NOTICE
    (append_T 8 guid;; append_T 1 oldflags;; append_T 1 (GetPlayerFlags c guid)).
Definition MakeAnnouncementsOn := Make_guid CHAT_ANNOUNCEMENTS_ON_NOTICE.
Definition MakeAnnouncementsOff := Make_guid CHAT_ANNOUNCEMENTS_OFF_NOTICE.
Definition MakeMuted := Make_plain CHAT_MUTED_NOTICE.
Definition MakePlayerKicked := Make_guids CHAT_PLAYER_KICKED_NOTICE.
Definition MakeBanned := Make_plain CHAT_BANNED_NOTICE.
Definition MakePlayerBanned := Make_guids CHAT_PLAYER_BANNED_NOTICE.
Definition MakePlayerUnbanned := Make_guids CHAT_PLAYER_UNBANNED_NOTICE.
Definition MakePlayerAlreadyMember := Make_guid CHAT_PLAYER_ALREADY_MEMBER_NOTICE.
Definition MakeInvite := Make_guid CHAT_INVITE_NOTICE.
Definition MakeInviteWrongFaction := Make_plain CHAT_INVITE_WRONG_FACTION_NOTICE.
Definition MakePlayerInvited := Make_name CHAT_PLAYER_INVITED_NOTICE.
Definition MakePlayerInviteBanned := Make_name CHAT_PLAYER_INVITE_BANNED_NOTICE.
Definition MakeNotInLfg := Make_plain CHAT_NOT_IN_LFG_NOTICE.

(** ASCII text of a literal. *)
Definition literal (s : string) : text :=
  (fun a => Z.of_N (Ascii.N_of_ascii a)) <$> String.list_ascii_of_string s.

(** ** The rest of the server, as a channel sees it *)

(** A player, with its session's account of type [A]. *)
Record Player (A : Type) := mkPlayer {
  GetGUID : Z;
  GetName : text;
  GetTeam : Z;
  GetSession : A;
  GetSecurity : Z;
  GetGroup : bool;
  isGMVisible : bool;
  GetChatTag : Z;
  HasIgnore : Z -> bool;
  IsVisibleGloballyFor : Z -> bool
}.
Arguments mkPlayer {A}.
Arguments GetGUID {A}.
Arguments GetName {A}.
Arguments GetTeam {A}.
Arguments GetSession {A}.
Arguments GetSecurity {A}.
Arguments GetGroup {A}.
Arguments isGMVisible {A}.
Arguments GetChatTag {A}.
Arguments HasIgnore {A}.
Arguments IsVisibleGloballyFor {A}.

(** The object accessor, the name cache, the client's channel table (the
    flags of an entry) and the configuration. *)
Record World (A : Type) := mkWorld {
  FindPlayer : Z -> option (Player A);
  FindPlayerByName : text -> option (Player A);
  GetPlayerNameByGUID : Z -> option text;
  sChatChannelsStore : Z -> option Z;
  CONFIG_PRESERVE_CUSTOM_CHANNELS : bool;
  CONFIG_RESTRICTED_LFG_CHANNEL : bool;
  CONFIG_ALLOW_TWO_SIDE_INTERACTION_CHANNEL : bool;
  CONFIG_GM_LEVEL_IN_WHO_LIST : Z
}.
Arguments mkWorld {A}.
Arguments FindPlayer {A}.
Arguments FindPlayerByName {A}.
Arguments GetPlayerNameByGUID {A}.
Arguments sChatChannelsStore {A}.
Arguments CONFIG_PRESERVE_CUSTOM_CHANNELS {A}.
Arguments CONFIG_RESTRICTED_LFG_CHANNEL {A}.
Arguments CONFIG_ALLOW_TWO_SIDE_INTERACTION_CHANNEL {A}.
Arguments CONFIG_GM_LEVEL_IN_WHO_LIST {A}.

Definition GUID_LOPART (x : Z) : Z := u32 x.

(** [!s.empty()] *)
Definition nonempty (s : text) : bool := negb (length s =? 0)%nat.

Section Commands.
Context {A : Type} `{!Permissions A}.
Variable w : World A.

Definition perm (p : Player A) (permission : Z) : bool := HasPermission (GetSession p) permission.

(** [SendToOne(data, who)] *)
Definition SendToOne (data : WorldPacket) (who : Z) : list Event :=
  match FindPlayer w who with Some _ => [SendPacket who data] | None => [] end.

(** [SendToAll(data, guid)]: [guid] is 0 for none. *)
Definition SendToAll (c : Channel) (data : WorldPacket) (guid : Z) : list Event :=
  concat ((fun i =>
    match FindPlayer w i.1 with
    | Some p =>
        if (guid =? 0) || negb (HasIgnore p (GUID_LOPART guid)) then [SendPacket i.1 data] else []
    | None => []
    end) <$> map_ordered (playersStore c)).

(** [SendToAllButOne(data, who)] *)
Definition SendToAllButOne (c : Channel) (data : WorldPacket) (who : Z) : list Event :=
  concat ((fun i =>
    if negb (i.1 =? who) then
      match FindPlayer w i.1 with Some _ => [SendPacket i.1 data] | None => [] end
    else []) <$> map_ordered (playersStore c)).

Definition MakeChannelOwner (c : Channel) : WorldPacket :=
  let name :=
    match GetPlayerNameByGUID w (_ownerGUID c) with
    | Some name => if nonempty name then name else literal "PLAYER_NOT_FOUND"
    | None => literal "PLAYER_NOT_FOUND"
    end in
  MakeNotifyPacket c CHAT_CHANNEL_OWNER_NOTICE
    (put_string (if IsConstant c || (_ownerGUID c =? 0) then literal "Nobody" else name)).

(** [JoinNotify(guid)], [LeaveNotify(guid)] *)
Definition JoinNotify (c : Channel) (guid : Z) : list Event :=
  let data := make_packet (if IsConstant c then SMSG_USERLIST_ADD else SMSG_USERLIST_UPDATE)
    (append_T 8 guid;; append_T 1 (GetPlayerFlags c guid);; append_T 1 (GetFlags c);;
     append_T 4 (GetNumPlayers c);; put_string (_name c)) in
  if IsConstant c then SendToAllButOne c data guid else SendToAll c data 0.

Definition LeaveNotify (c : Channel) (guid : Z) : list Event :=
  let data := make_packet SMSG_USERLIST_REMOVE
    (append_T 8 guid;; append_T 1 (GetFlags c);; append_T 4 (GetNumPlayers c);;
     put_string (_name c)) in
  if IsConstant c then SendToAllButOne c data guid else SendToAll c data 0.

(** [UpdateChannelInDB()] *)
Definition banlist (c : Channel) : text :=
  concat ((fun guid => decimal guid ++ [SPACE]) <$> set_ordered (bannedStore c)).
Definition UpdateChannelInDB (c : Channel) : list Event :=
  if _IsSaved c
  then [Execute (CHAR_UPD_CHANNEL (_announce c) (_ownership c) (_password c) (banlist c)
                   (_name c) (_Team c))]
  else [].

(** [UpdateChannelUseageInDB()] *)
Definition UpdateChannelUseageInDB (c : Channel) : list Event :=
  [Execute (CHAR_UPD_CHANNEL_USAGE (_name c) (_Team c))].

(** The flags of a built-in channel. *)
Definition constant_flags (dbc : Z) : Z :=
  let f := add_flag 0 CHANNEL_FLAG_GENERAL in
  let f := if has_flag dbc CHANNEL_DBC_FLAG_TRADE then add_flag f CHANNEL_FLAG_TRADE else f in
  let f := if has_flag dbc CHANNEL_DBC_FLAG_CITY_ONLY2 then add_flag f CHANNEL_FLAG_CITY else f in
  if has_flag dbc CHANNEL_DBC_FLAG_LFG then add_flag f CHANNEL_FLAG_LFG
  else add_flag f CHANNEL_FLAG_NOT_LFG.

(** The bans of a stored channel: the tokens that read as a number other
    than 0, as a [uint64]. *)
Definition load_bans (db_BannedList : option text) : gset Z :=
  match db_BannedList with
  | None => ∅
  | Some s =>
      foldl (fun banned t =>
               let banned_guid := u64 (atol t) in
               if banned_guid =? 0 then banned else {[banned_guid]} ∪ banned)
        ∅ (Tokenizer s SPACE)
  end.

(** [Channel(name, channelId, team)]; [row] is what the database answers to
    CHAR_SEL_CHANNEL: announce, ownership, password, bannedList. *)
Definition new_Channel (row : option (bool * bool * text * option text))
    (name : text) (channelId team : Z) : Channel * list Event :=
  match sChatChannelsStore w channelId with
  | Some dbc =>
      (mkChannel false false false (constant_flags dbc) channelId team 0 name [] ∅ ∅, [])
  | None =>
      let c := mkChannel true true false CHANNEL_FLAG_CUSTOM channelId team 0 name [] ∅ ∅ in
      if CONFIG_PRESERVE_CUSTOM_CHANNELS w then
        match row with
        | Some (announce, ownership, password, db_BannedList) =>
            (mkChannel announce ownership true CHANNEL_FLAG_CUSTOM channelId team 0 name password ∅
               (load_bans db_BannedList), [])
        | None =>
            (mkChannel true true true CHANNEL_FLAG_CUSTOM channelId team 0 name [] ∅ ∅,
             [Execute (CHAR_INS_CHANNEL name team)])
        end
      else (c, [])
  end.

(** [SetOwner(guid, exclaim)] *)
Definition SetOwner (guid : Z) (exclaim : bool) (c : Channel) : Channel * list Event :=
  let c :=
    if negb (_ownerGUID c =? 0) then
      match playersStore c !! _ownerGUID c with
      | Some _ => at_entry (_ownerGUID c) (PlayerInfo_SetOwner false) c
      | None => c
      end
    else c in
  let c := set_owner_guid guid c in
  if negb (_ownerGUID c =? 0) then
    let oldFlag := GetPlayerFlags c (_ownerGUID c) in
    let c := at_entry (_ownerGUID c) (PlayerInfo_SetModerator true) c in
    let c := at_entry (_ownerGUID c) (PlayerInfo_SetOwner true) c in
    (c,
     (if exclaim then
        SendToAll c (MakeModeChange c (_ownerGUID c) oldFlag) 0
        ++ SendToAll c (MakeOwnerChanged c (_ownerGUID c)) 0
      else [])
     ++ UpdateChannelInDB c)
  else (c, []).

(** [JoinChannel(player, pass)] *)
Definition JoinChannel (p : Player A) (pass : text) (c : Channel) : Channel * list Event :=
  let guid := GetGUID p in
  if IsOn c guid then
    (c, if negb (IsConstant c) then SendToOne (MakePlayerAlreadyMember c guid) guid else [])
  else if IsBanned c guid then (c, SendToOne (MakeBanned c) guid)
  else if nonempty (_password c) && negb (bool_decide (pass = _password c)) then
    (c, SendToOne (MakeWrongPassword c) guid)
  else if HasFlag c CHANNEL_FLAG_LFG && CONFIG_RESTRICTED_LFG_CHANNEL w
          && (GetSecurity p =? SEC_PLAYER) && GetGroup p then
    (c, SendToOne (MakeNotInLfg c) guid)
  else
    let joined :=
      JoinedChannel guid
      :: (if _announce c && negb (perm p RBAC_PERM_SILENTLY_JOIN_CHANNEL)
          then SendToAll c (MakeJoined c guid) 0 else []) in
    let c := set_store (<[guid := mkPlayerInfo guid MEMBER_FLAG_NONE]> (playersStore c)) c in
    let out := joined ++ SendToOne (MakeYouJoined c) guid ++ JoinNotify c guid in
    if negb (IsConstant c) then
      let out := out ++ (if negb (base.size (playersStore c) =? 0)%nat
                         then UpdateChannelUseageInDB c else []) in
      if (_ownerGUID c =? 0) && _ownership c then
        let '(c, owner) := SetOwner guid (1 <? base.size (playersStore c))%nat c in
        (at_entry guid (PlayerInfo_SetModerator true) c, out ++ owner)
      else (c, out)
    else (c, out).

(** [LeaveChannel(player, send)] *)
Definition LeaveChannel (p : Player A) (send : bool) (c : Channel) : Channel * list Event :=
  let guid := GetGUID p in
  if negb (IsOn c guid) then (c, if send then SendToOne (MakeNotMember c) guid else [])
  else
    let left := if send then SendToOne (MakeYouLeft c) guid ++ [LeftChannel guid] else [] in
    let changeowner := IsOwner (entry c guid) in
    let c := erase_member guid c in
    let out :=
      left
      ++ (if _announce c && negb (perm p RBAC_PERM_SILENTLY_JOIN_CHANNEL)
          then SendToAll c (MakeLeft c guid) 0 else [])
      ++ LeaveNotify c guid in
    if negb (IsConstant c) then
      let out := out ++ UpdateChannelUseageInDB c in
      if changeowner && _ownership c then
        match first_entry c with
        | None => (c, out)
        | Some pi =>
            let newowner := player pi in
            let c := at_entry newowner (PlayerInfo_SetModerator true) c in
            let '(c, owner) := SetOwner newowner true c in
            (c, out ++ owner)
        end
      else (c, out)
    else (c, out).

(** The two tests every moderator command starts with. *)
Definition as_member (p : Player A) (c : Channel) (body : Channel * list Event)
    : Channel * list Event :=
  if negb (IsOn c (GetGUID p)) then (c, SendToOne (MakeNotMember c) (GetGUID p)) else body.
Definition as_moderator (p : Player A) (c : Channel) (body : Channel * list Event)
    : Channel * list Event :=
  as_member p c
    (if negb (IsModerator (entry c (GetGUID p)))
        && negb (perm p RBAC_PERM_CHANGE_CHANNEL_NOT_MODERATOR)
     then (c, SendToOne (MakeNotModerator c) (GetGUID p)) else body).

(** [uint64 victim = bad ? bad->GetGUID() : 0] *)
Definition guid_of (p : option (Player A)) : Z :=
  match p with Some p => GetGUID p | None => 0 end.

(** [KickOrBan(player, badname, ban)] *)
Definition KickOrBan (p : Player A) (badname : text) (ban : bool) (c : Channel)
    : Channel * list Event :=
  let good := GetGUID p in
  as_moderator p c
    (let victim := guid_of (FindPlayerByName w badname) in
     if (victim =? 0) || negb (IsOn c victim)
     then (c, SendToOne (MakePlayerNotFound c badname) good)
     else
       let changeowner := _ownerGUID c =? victim in
       if negb (perm p RBAC_PERM_CHANGE_CHANNEL_NOT_MODERATOR) && changeowner
          && negb (good =? _ownerGUID c)
       then (c, SendToOne (MakeNotOwner c) good)
       else
         let '(c, out) :=
           if ban && negb (IsBanned c victim) then
             let c := set_banned ({[victim]} ∪ bannedStore c) c in
             (c, UpdateChannelInDB c
                 ++ (if negb (perm p RBAC_PERM_SILENTLY_JOIN_CHANNEL)
                     then SendToAll c (MakePlayerBanned c victim good) 0 else []))
           else (c, if negb (perm p RBAC_PERM_SILENTLY_JOIN_CHANNEL)
                    then SendToAll c (MakePlayerKicked c victim good) 0 else []) in
         let c := erase_member victim c in
         let out := out ++ [LeftChannel victim] in
         if changeowner && _ownership c && negb (base.size (playersStore c) =? 0)%nat then
           let newowner := good in
           let c := at_entry newowner (PlayerInfo_SetModerator true) c in
           let '(c, owner) := SetOwner newowner true c in
           (c, out ++ owner)
         else (c, out)).

(** [UnBan(player, badname)] *)
Definition UnBan (p : Player A) (badname : text) (c : Channel) : Channel * list Event :=
  let good := GetGUID p in
  as_moderator p c
    (let victim := guid_of (FindPlayerByName w badname) in
     if (victim =? 0) || negb (IsBanned c victim)
     then (c, SendToOne (MakePlayerNotFound c badname) good)
     else
       let c := set_banned (bannedStore c ∖ {[victim]}) c in
       (c, SendToAll c (MakePlayerUnbanned c victim good) 0 ++ UpdateChannelInDB c)).

(** [Password(player, pass)] *)
Definition Password (p : Player A) (pass : text) (c : Channel) : Channel * list Event :=
  as_moderator p c
    (let c := set_password pass c in
     (c, SendToAll c (MakePasswordChanged c (GetGUID p)) 0 ++ UpdateChannelInDB c)).

(** [SetModerator(guid, set)] and [SetMute(guid, set)]; reading
    [playersStore[guid]] creates a missing entry. *)
Definition SetModerator (guid : Z) (state : bool) (c : Channel) : Channel * list Event :=
  let c := at_entry guid (fun pi => pi) c in
  if negb (eqb (IsModerator (entry c guid)) state) then
    let oldFlag := GetPlayerFlags c guid in
    let c := at_entry guid (PlayerInfo_SetModerator state) c in
    (c, SendToAll c (MakeModeChange c guid oldFlag) 0)
  else (c, []).

Definition SetMute (guid : Z) (state : bool) (c : Channel) : Channel * list Event :=
  let c := at_entry guid (fun pi => pi) c in
  if negb (eqb (IsMuted (entry c guid)) state) then
    let oldFlag := GetPlayerFlags c guid in
    let c := at_entry guid (PlayerInfo_SetMuted state) c in
    (c, SendToAll c (MakeModeChange c guid oldFlag) 0)
  else (c, []).

(** The target of a command is out of reach: not found, not on the channel,
    or of the other team without both accounts' leave to interact. *)
Definition other_side (p : Player A) (newp : Player A) : bool :=
  negb (GetTeam p =? GetTeam newp)
  && (negb (perm p RBAC_PERM_TWO_SIDE_INTERACTION_CHANNEL)
      || negb (perm newp RBAC_PERM_TWO_SIDE_INTERACTION_CHANNEL)).
Definition unreachable (p : Player A) (newp : option (Player A)) (c : Channel) : bool :=
  match newp with
  | None => true
  | Some newp => (GetGUID newp =? 0) || negb (IsOn c (GetGUID newp)) || other_side p newp
  end.

(** [SetMode(player, p2n, mod, set)] *)
Definition SetMode (p : Player A) (p2n : text) (mod' set : bool) (c : Channel)
    : Channel * list Event :=
  let guid := GetGUID p in
  as_moderator p c
    (if (guid =? _ownerGUID c) && bool_decide (p2n = GetName p) && mod' then (c, [])
     else
       let newp := FindPlayerByName w p2n in
       let victim := guid_of newp in
       if unreachable p newp c then (c, SendToOne (MakePlayerNotFound c p2n) guid)
       else if (_ownerGUID c =? victim) && negb (_ownerGUID c =? guid)
       then (c, SendToOne (MakeNotOwner c) guid)
       else if mod' then SetModerator victim set c
       else SetMute victim set c).

(** [SetOwner(player, newname)] *)
Definition SetOwner_name (p : Player A) (newname : text) (c : Channel) : Channel * list Event :=
  let guid := GetGUID p in
  as_member p c
    (if negb (perm p RBAC_PERM_CHANGE_CHANNEL_NOT_MODERATOR) && negb (guid =? _ownerGUID c)
     then (c, SendToOne (MakeNotOwner c) guid)
     else
       let newp := FindPlayerByName w newname in
       let victim := guid_of newp in
       if unreachable p newp c then (c, SendToOne (MakePlayerNotFound c newname) guid)
       else SetOwner victim true (at_entry victim (PlayerInfo_SetModerator true) c)).

(** [SendWhoOwner(guid)] *)
Definition SendWhoOwner (guid : Z) (c : Channel) : list Event :=
  SendToOne (if IsOn c guid then MakeChannelOwner c else MakeNotMember c) guid.

(** The members [List] shows to [p], in order. *)
Definition listed (p : Player A) (c : Channel) : list (Z * PlayerInfo) :=
  filter (fun i =>
    match FindPlayer w i.1 with
    | Some member =>
        (perm p RBAC_PERM_WHO_SEE_ALL_SEC_LEVELS
         || (GetSecurity member <=? CONFIG_GM_LEVEL_IN_WHO_LIST w))
        && IsVisibleGloballyFor member (GetGUID p)
    | None => false
    end = true) (map_ordered (playersStore c)).

(** The loop of [List]: the fields of each member shown. *)
Fixpoint List_loop (members : list (Z * PlayerInfo)) : BB unit :=
  match members with
  | [] => mret tt
  | (guid, pi) :: members => append_T 8 guid;; append_T 1 (flags pi);; List_loop members
  end.

(** [List(player)] *)
Definition List_packet (p : Player A) (c : Channel) : BB unit :=
  append_T 1 1;; put_string (_name c);; append_T 1 (GetFlags c);;
  b ← st_get;
  append_T 4 0;;
  List_loop (listed p c);;
  put (_wpos b) (le_bytes 4 (u32 (Z.of_nat (length (listed p c))))).
Definition List (p : Player A) (c : Channel) : Channel * list Event :=
  as_member p c
    (c, SendToOne (make_packet SMSG_CHANNEL_LIST (List_packet p c)) (GetGUID p)).

(** [Announce(player)] *)
Definition Announce (p : Player A) (c : Channel) : Channel * list Event :=
  as_moderator p c
    (let c := set_announce (negb (_announce c)) c in
     (c, SendToAll c ((if _announce c then MakeAnnouncementsOn else MakeAnnouncementsOff) c (GetGUID p)) 0
         ++ UpdateChannelInDB c)).

(** [Say(guid, what, lang)] *)
Definition Say (guid : Z) (what : text) (lang : Z) (c : Channel) : list Event :=
  if negb (nonempty what) then []
  else
    let '(chatTag, isGM) :=
      match FindPlayer w guid with
      | Some p => (GetChatTag p, perm p RBAC_PERM_COMMAND_GM_CHAT)
      | None => (0, false)
      end in
    let lang := if CONFIG_ALLOW_TWO_SIDE_INTERACTION_CHANNEL w then LANG_UNIVERSAL else lang in
    if negb (IsOn c guid) then SendToOne (MakeNotMember c) guid
    else if IsMuted (entry c guid) then SendToOne (MakeMuted c) guid
    else SendToAll c (ChatPacket lang guid what chatTag isGM (_name c))
           (if negb (IsModerator (entry c guid)) then guid else 0).

(** [Invite(player, newname)] *)
Definition Invite (p : Player A) (newname : text) (c : Channel) : list Event :=
  let guid := GetGUID p in
  if negb (IsOn c guid) then SendToOne (MakeNotMember c) guid
  else
    match FindPlayerByName w newname with
    | None => SendToOne (MakePlayerNotFound c newname) guid
    | Some newp =>
        if negb (isGMVisible newp) then SendToOne (MakePlayerNotFound c newname) guid
        else if IsBanned c (GetGUID newp) then SendToOne (MakePlayerInviteBanned c newname) guid
        else if other_side p newp then SendToOne (MakeInviteWrongFaction c) guid
        else if IsOn c (GetGUID newp) then
          SendToOne (MakePlayerAlreadyMember c (GetGUID newp)) guid
        else
          (if negb (HasIgnore newp (GUID_LOPART guid))
           then SendToOne (MakeInvite c guid) (GetGUID newp) else [])
          ++ SendToOne (MakePlayerInvited c (GetName newp)) guid
    end.
End Commands.

(** ** Member flags *)

Lemma has_flag_set mask mask' state f k k' :
  0 <= k -> 0 <= k' -> mask = 2 ^ k -> mask' = 2 ^ k' ->
  has_flag (if state : bool then add_flag f mask else remove_flag f mask) mask'
  = if bool_decide (k = k') then state else has_flag f mask'.
Proof.
  intros Hk Hk' -> ->. rewrite !has_flag_pow2 by done.
  destruct state; [rewrite testbit_add_flag|rewrite testbit_remove_flag];
    rewrite Z.pow2_bits_eqb by done; case_bool_decide as Hd.
  - subst. by rewrite Z.eqb_refl, orb_true_r.
  - replace (k =? k') with false by bdec. by rewrite orb_false_r.
  - subst. by rewrite Z.eqb_refl, andb_false_r.
  - replace (k =? k') with false by bdec. by rewrite andb_true_r.
Qed.

Lemma IsOwner_SetOwner b pi : IsOwner (PlayerInfo_SetOwner b pi) = b.
Proof. unfold IsOwner. cbn. by rewrite (has_flag_set _ _ _ _ 0 0). Qed.
Lemma IsOwner_SetModerator b pi : IsOwner (PlayerInfo_SetModerator b pi) = IsOwner pi.
Proof. unfold IsOwner. cbn. by rewrite (has_flag_set _ _ _ _ 1 0). Qed.
Lemma IsOwner_SetMuted b pi : IsOwner (PlayerInfo_SetMuted b pi) = IsOwner pi.
Proof. unfold IsOwner. cbn. by rewrite (has_flag_set _ _ _ _ 3 0). Qed.
Lemma IsModerator_SetModerator b pi : IsModerator (PlayerInfo_SetModerator b pi) = b.
Proof. unfold IsModerator. cbn. by rewrite (has_flag_set _ _ _ _ 1 1). Qed.
Lemma IsModerator_SetOwner b pi : IsModerator (PlayerInfo_SetOwner b pi) = IsModerator pi.
Proof. unfold IsModerator. cbn. by rewrite (has_flag_set _ _ _ _ 0 1). Qed.

Create HintDb channel.
Create Rewrite HintDb member.
#[export] Hint Rewrite IsOwner_SetOwner IsOwner_SetModerator IsOwner_SetMuted
  IsModerator_SetModerator IsModerator_SetOwner : member.

(** ** Lookups after a change of one entry *)

Lemma IsOn_spec c k : IsOn c k = true <-> is_Some (playersStore c !! k).
Proof. unfold IsOn. apply bool_decide_eq_true. Qed.

Lemma IsOn_entry c k : IsOn c k = true -> playersStore c !! k = Some (entry c k).
Proof. intros [pi H]%IsOn_spec. unfold entry. by rewrite H. Qed.

Lemma not_IsOn c k : IsOn c k = false -> playersStore c !! k = None.
Proof. unfold IsOn. rewrite bool_decide_eq_false. apply eq_None_not_Some. Qed.

Lemma at_entry_lookup g f c k :
  playersStore (at_entry g f c) !! k
  = if bool_decide (g = k) then Some (f (entry c k)) else playersStore c !! k.
Proof.
  cbn. case_bool_decide; [subst; apply lookup_insert_eq|by apply lookup_insert_ne].
Qed.

Lemma at_entry_entry g f c k :
  entry (at_entry g f c) k = if bool_decide (g = k) then f (entry c k) else entry c k.
Proof. unfold entry at 1. rewrite at_entry_lookup. by case_bool_decide. Qed.

Lemma erase_lookup g c k :
  playersStore (erase_member g c) !! k
  = if bool_decide (g = k) then None else playersStore c !! k.
Proof.
  cbn. case_bool_decide; [subst; apply lookup_delete_eq|by apply lookup_delete_ne].
Qed.

(** [SetOwner(guid)] entry by entry. *)
Section SetOwnerSpec.
Context {A : Type}.
Variable w : World A.

(** The entries once the previous owner has lost the flag. *)
Definition disown (c : Channel) : Channel :=
  if negb (_ownerGUID c =? 0) then
    match playersStore c !! _ownerGUID c with
    | Some _ => at_entry (_ownerGUID c) (PlayerInfo_SetOwner false) c
    | None => c
    end
  else c.

Definition promote (pi : PlayerInfo) : PlayerInfo :=
  PlayerInfo_SetOwner true (PlayerInfo_SetModerator true pi).

Lemma disown_store_only c :
  disown c = set_store (playersStore (disown c)) c.
Proof. unfold disown, at_entry, set_store. destruct c. by repeat case_match. Qed.

Lemma disown_lookup c k :
  playersStore (disown c) !! k
  = (if negb (_ownerGUID c =? 0) && (_ownerGUID c =? k)
     then PlayerInfo_SetOwner false else fun pi => pi) <$> playersStore c !! k.
Proof.
  unfold disown. destruct (Z.eqb_spec (_ownerGUID c) 0) as [|Hn]; cbn -[Z.eqb].
  { by destruct (playersStore c !! k). }
  destruct (playersStore c !! _ownerGUID c) as [pi|] eqn:Ho.
  - rewrite at_entry_lookup. case_bool_decide as Hk.
    + subst k. rewrite Z.eqb_refl, Ho. unfold entry. by rewrite Ho.
    + replace (_ownerGUID c =? k) with false by bdec. by destruct (playersStore c !! k).
  - destruct (Z.eqb_spec (_ownerGUID c) k) as [<-|]; [by rewrite Ho|].
    by destruct (playersStore c !! k).
Qed.

Lemma SetOwner_lookup g ex c k :
  playersStore (SetOwner w g ex c).1 !! k
  = if negb (g =? 0) && (g =? k) then Some (promote (entry (disown c) k))
    else playersStore (disown c) !! k.
Proof.
  unfold SetOwner. fold (disown c). cbn -[Z.eqb at_entry].
  destruct (Z.eqb_spec g 0) as [|Hn]; [done|].
  cbn [negb andb]. cbn [fst]. rewrite !at_entry_lookup.
  destruct (Z.eqb_spec g k) as [->|Hk].
  - rewrite bool_decide_true by done. rewrite at_entry_entry, bool_decide_true by done. done.
  - rewrite !bool_decide_false by done. done.
Qed.

Lemma SetOwner_owner g ex c : _ownerGUID (SetOwner w g ex c).1 = g.
Proof. unfold SetOwner. fold (disown c). cbn. by case_match. Qed.

Lemma SetOwner_rest g ex c :
  (SetOwner w g ex c).1
  = set_owner_guid g (set_store (playersStore (SetOwner w g ex c).1) c).
Proof.
  unfold SetOwner. fold (disown c). rewrite disown_store_only. cbn. by case_match.
Qed.
End SetOwnerSpec.
