(* ===== verification/ChannelOwner.v ===== *)
(** * Chat channels: ownership

    The commands of Channel.v as steps, the invariants of a channel they keep
    (one owner, no banned members, an owner as long as there are members), and
    what goes wrong when an owner kicks himself. *)
From stdpp Require Import sorting.
From S2P Require Import Prelude.
From S2P Require Import Lists.
From S2P Require Import ByteBuffer.
From S2P Require Import Util.
From S2P Require Import Rbac.
From S2P Require Import Channel.
Local Open Scope Z_scope.

(** ** The commands, as steps *)

Inductive Command (A : Type) :=
| CJoin (p : Player A) (pass : text)
| CLeave (p : Player A) (send : bool)
| CKickOrBan (p : Player A) (badname : text) (ban : bool)
| CUnBan (p : Player A) (badname : text)
| CPassword (p : Player A) (pass : text)
| CSetMode (p : Player A) (name : text) (mod' set : bool)
| CSetOwner (p : Player A) (newname : text)
| CAnnounce (p : Player A)
| CList (p : Player A)
| CSetOwnership (ownership : bool).
Arguments CJoin {A}.
Arguments CLeave {A}.
Arguments CKickOrBan {A}.
Arguments CUnBan {A}.
Arguments CPassword {A}.
Arguments CSetMode {A}.
Arguments CSetOwner {A}.
Arguments CAnnounce {A}.
Arguments CList {A}.
Arguments CSetOwnership {A}.

Section Steps.
Context {A : Type} `{!Permissions A}.
Variable w : World A.

Definition run (cmd : Command A) (c : Channel) : Channel * list Event :=
  match cmd with
  | CJoin p pass => JoinChannel w p pass c
  | CLeave p send => LeaveChannel w p send c
  | CKickOrBan p badname ban => KickOrBan w p badname ban c
  | CUnBan p badname => UnBan w p badname c
  | CPassword p pass => Password w p pass c
  | CSetMode p name mod' set => SetMode w p name mod' set c
  | CSetOwner p newname => SetOwner_name w p newname c
  | CAnnounce p => Announce w p c
  | CList p => List w p c
  | CSetOwnership ownership => (SetOwnership ownership c, [])
  end.

Definition actor (cmd : Command A) : option (Player A) :=
  match cmd with
  | CJoin p _ | CLeave p _ | CKickOrBan p _ _ | CUnBan p _ | CPassword p _
  | CSetMode p _ _ _ | CSetOwner p _ | CAnnounce p | CList p => Some p
  | CSetOwnership _ => None
  end.

(** The commands reserved to moderators. *)
Definition moderator_command (cmd : Command A) : bool :=
  match cmd with
  | CKickOrBan _ _ _ | CUnBan _ _ | CPassword _ _ | CSetMode _ _ _ _ | CAnnounce _ => true
  | _ => false
  end.

(** The owner kicks or bans himself. *)
Definition owner_kicks_himself (cmd : Command A) (c : Channel) : Prop :=
  match cmd with
  | CKickOrBan p badname _ =>
      GetGUID p = _ownerGUID c /\ guid_of (FindPlayerByName w badname) = _ownerGUID c
  | _ => False
  end.

(** Players have a GUID. *)
Definition real_actor (cmd : Command A) : Prop :=
  match actor cmd with Some p => GetGUID p <> 0 | None => True end.

Inductive reachable : Channel -> Prop :=
| reachable_new row name id team : reachable (new_Channel w row name id team).1
| reachable_step c cmd : reachable c -> real_actor cmd -> reachable (run cmd c).1.

(** At most one member has the owner's flag, and it is [_ownerGUID]. *)
Definition one_owner (c : Channel) : Prop :=
  forall k pi, playersStore c !! k = Some pi -> IsOwner pi = true -> k = _ownerGUID c /\ k <> 0.

(** The entries are the players' own, no banned player is a member, and a
    custom channel that hands out ownership and is not empty has its owner
    inside. *)
Record entries_ok (c : Channel) : Prop := {
  inv_keys : forall k pi, playersStore c !! k = Some pi -> player pi = k /\ k <> 0;
  inv_one : one_owner c;
  inv_bans : forall k pi, playersStore c !! k = Some pi -> k ∉ bannedStore c
}.
Record inv (c : Channel) : Prop := {
  inv_entries : entries_ok c;
  inv_owned : IsConstant c = false -> _ownership c = true -> playersStore c <> ∅ ->
              exists pi, playersStore c !! _ownerGUID c = Some pi /\ IsOwner pi = true
}.
(** An empty channel waits for its first owner. *)
Definition awaits_owner (c : Channel) : Prop :=
  IsConstant c = false -> _ownership c = true -> playersStore c = ∅ -> _ownerGUID c = 0.

(** Changes that leave the owner alone. *)
Lemma one_owner_change c c' :
  one_owner c -> _ownerGUID c' = _ownerGUID c ->
  (forall k pi', playersStore c' !! k = Some pi' -> IsOwner pi' = true ->
     exists pi, playersStore c !! k = Some pi /\ IsOwner pi = true) ->
  one_owner c'.
Proof. intros H Ho Hk k pi' Hl Hi. rewrite Ho. destruct (Hk k pi' Hl Hi) as (pi & ? & ?). by eapply H. Qed.

Lemma one_owner_disown c k pi :
  one_owner c -> playersStore (disown c) !! k = Some pi -> IsOwner pi = false.
Proof.
  intros H. rewrite disown_lookup. intros (pi0 & Hk & Hpi)%fmap_Some. subst pi.
  destruct (IsOwner pi0) eqn:Ho.
  - destruct (H k pi0 Hk Ho) as [-> Hne].
    replace (_ownerGUID c =? 0) with false by bdec. rewrite Z.eqb_refl. cbn.
    apply IsOwner_SetOwner.
  - case_match; [apply IsOwner_SetOwner|done].
Qed.

Lemma SetOwner_one_owner g ex c : one_owner c -> one_owner (SetOwner w g ex c).1.
Proof.
  intros H k pi. rewrite SetOwner_lookup, SetOwner_owner.
  destruct (Z.eqb_spec g 0) as [->|Hg]; cbn -[Z.eqb].
  - intros Hk Ho. by rewrite (one_owner_disown c k pi) in Ho.
  - destruct (Z.eqb_spec g k) as [->|]; [done|].
    intros Hk Ho. by rewrite (one_owner_disown c k pi) in Ho.
Qed.

Lemma at_entry_one_owner g f c :
  (forall pi, IsOwner (f pi) = IsOwner pi) -> one_owner c -> one_owner (at_entry g f c).
Proof.
  intros Hf H. apply (one_owner_change c); [done|done|]. intros k pi'.
  rewrite at_entry_lookup. case_bool_decide as Hk; [|eauto].
  intros [= <-]. rewrite Hf. unfold entry.
  destruct (playersStore c !! k) as [pi|]; [eauto|done].
Qed.

Lemma erase_one_owner g c : one_owner c -> one_owner (erase_member g c).
Proof.
  intros H. apply (one_owner_change c); [done|done|]. intros k pi'.
  rewrite erase_lookup. case_bool_decide; [done|eauto].
Qed.

Lemma set_store_one_owner c g :
  one_owner c ->
  one_owner (set_store (<[g := mkPlayerInfo g MEMBER_FLAG_NONE]> (playersStore c)) c).
Proof.
  intros H. apply (one_owner_change c); [done|done|]. intros k pi'. cbn.
  destruct (decide (g = k)) as [->|].
  - rewrite lookup_insert_eq. by intros [= <-].
  - rewrite lookup_insert_ne by done. eauto.
Qed.
End Steps.

#[export] Hint Resolve SetOwner_one_owner at_entry_one_owner erase_one_owner set_store_one_owner
  IsOwner_SetModerator IsOwner_SetMuted : channel.

(** Split a command on its tests, naming the result of [SetOwner]. *)
Ltac split_SetOwner :=
  repeat match goal with
  | |- context [let '(_, _) := SetOwner ?w ?g ?e ?c in _] =>
      let c' := fresh "c'" in let out := fresh "out" in let E := fresh "E" in
      destruct (SetOwner w g e c) as [c' out] eqn:E; apply (f_equal fst) in E;
      cbn [fst] in E; subst c'
  end.

(** Split on the outermost test of a command. *)
Ltac branch :=
  match goal with |- _ (fst (if ?b then _ else _)) => destruct b eqn:? end.

Section OneOwner.
Context {A : Type} `{!Permissions A}.
Variable w : World A.

Lemma as_member_ind (P : Channel -> Prop) p c body :
  P c -> (IsOn c (GetGUID p) = true -> P body.1) -> P (as_member w p c body).1.
Proof. intros Hc Hb. unfold as_member. destruct (IsOn c (GetGUID p)) eqn:E; auto. Qed.

Lemma as_moderator_ind (P : Channel -> Prop) p c body :
  P c -> (IsOn c (GetGUID p) = true -> P body.1) -> P (as_moderator w p c body).1.
Proof.
  intros Hc Hb. apply (as_member_ind P); [done|]. intros Hon. case_match; auto.
Qed.

Lemma JoinChannel_one_owner p pass c :
  one_owner c -> one_owner (JoinChannel w p pass c).1.
Proof.
  intros H. unfold JoinChannel. cbv zeta.
  do 4 (case_match; [done|]).
  case_match; cbn [fst]; [|auto with channel].
  case_match; cbn [fst]; [|auto with channel].
  split_SetOwner. cbn [fst]. auto with channel.
Qed.

Lemma LeaveChannel_one_owner p send c :
  one_owner c -> one_owner (LeaveChannel w p send c).1.
Proof.
  intros H. unfold LeaveChannel. cbv zeta. case_match; [done|].
  case_match; cbn [fst]; [|auto with channel].
  case_match; cbn [fst]; [|auto with channel].
  case_match; cbn [fst]; [|auto with channel].
  split_SetOwner. cbn [fst]. auto with channel.
Qed.

Lemma KickOrBan_one_owner p badname ban c :
  one_owner c -> one_owner (KickOrBan w p badname ban c).1.
Proof.
  intros H. apply (as_moderator_ind one_owner); [done|]. intros _. cbv zeta.
  case_match; [done|]. case_match; [done|].
  match goal with |- context [let '(_, _) := ?x in _] => destruct x as [c0 out0] eqn:E end.
  assert (one_owner c0) as Hc0 by (case_match; by injection E as <- <-).
  branch; cbn [fst]; [|auto with channel].
  split_SetOwner. cbn [fst]. auto with channel.
Qed.

Lemma SetMode_one_owner p name m s c : one_owner c -> one_owner (SetMode w p name m s c).1.
Proof.
  intros H. apply (as_moderator_ind one_owner); [done|]. intros _. cbv zeta.
  case_match; [done|]. case_match; [done|]. case_match; [done|].
  case_match; unfold SetModerator, SetMute; cbv zeta; case_match; cbn [fst]; auto with channel.
Qed.

Lemma run_one_owner cmd c : one_owner c -> one_owner (run w cmd c).1.
Proof.
  intros H. destruct cmd; cbn [run].
  - by apply JoinChannel_one_owner.
  - by apply LeaveChannel_one_owner.
  - by apply KickOrBan_one_owner.
  - apply (as_moderator_ind one_owner); [done|]. intros _. cbv zeta. by case_match.
  - by apply (as_moderator_ind one_owner).
  - by apply SetMode_one_owner.
  - apply (as_member_ind one_owner); [done|]. intros _. cbv zeta. case_match; [done|]. case_match; [done|].
    auto with channel.
  - by apply (as_moderator_ind one_owner).
  - by apply (as_member_ind one_owner).
  - done.
Qed.

Lemma new_Channel_store row name id team :
  playersStore (new_Channel w row name id team).1 = ∅
  /\ _ownerGUID (new_Channel w row name id team).1 = 0.
Proof. unfold new_Channel. by repeat case_match. Qed.

(** Whatever commands run on a channel, in any order and with any
    configuration, self-kicks and changes of the ownership setting included,
    at most one member carries the owner's flag, and that member is the one
    [_ownerGUID] names. *)
Theorem reachable_one_owner c k pi :
  reachable w c -> playersStore c !! k = Some pi -> IsOwner pi = true ->
  k = _ownerGUID c /\ k <> 0.
Proof.
  intros Hr. assert (one_owner c) as H; [|by apply H].
  induction Hr as [row name id team|c cmd _ IH _]; [|by apply run_one_owner].
  intros k' pi'. destruct (new_Channel_store row name id team) as [-> _].
  by rewrite lookup_empty.
Qed.
End OneOwner.

(** ** The strong invariant *)

Section Invariant.
Context {A : Type} `{!Permissions A}.
Variable w : World A.

(** A change of one member's flags other than the owner's. *)
Definition flag_change (f : PlayerInfo -> PlayerInfo) : Prop :=
  forall pi, player (f pi) = player pi /\ IsOwner (f pi) = IsOwner pi.

Lemma flag_change_moderator b : flag_change (PlayerInfo_SetModerator b).
Proof. intros pi. by autorewrite with member. Qed.
Lemma flag_change_muted b : flag_change (PlayerInfo_SetMuted b).
Proof. intros pi. by autorewrite with member. Qed.
Lemma flag_change_id : flag_change (fun pi => pi).
Proof. done. Qed.

Lemma at_entry_entries_ok g f c :
  flag_change f -> IsOn c g = true -> entries_ok c -> entries_ok (at_entry g f c).
Proof.
  intros Hf Hon [Hk H1 Hb]. pose proof (IsOn_entry _ _ Hon) as Hg. split.
  - intros k pi. rewrite at_entry_lookup. case_bool_decide as Hd; [|by apply Hk].
    subst k. intros [= <-]. destruct (Hf (entry c g)) as [-> _]. by apply Hk.
  - apply at_entry_one_owner; [|done]. intros pi. apply Hf.
  - intros k pi. rewrite at_entry_lookup. case_bool_decide as Hd; [|by apply Hb].
    subst k. intros _. by eapply Hb.
Qed.

Lemma at_entry_inv g f c :
  flag_change f -> IsOn c g = true -> inv c -> inv (at_entry g f c).
Proof.
  intros Hf Hon [He Ho]. split; [by apply at_entry_entries_ok|].
  intros Hc Hs _. destruct Ho as (pi & Hpi & Hi); [done..| |].
  { intros E. apply IsOn_entry in Hon. by rewrite E, lookup_empty in Hon. }
  change (_ownerGUID (at_entry g f c)) with (_ownerGUID c).
  rewrite at_entry_lookup. case_bool_decide; [|eauto].
  exists (f (entry c (_ownerGUID c))). split; [done|].
  destruct (Hf (entry c (_ownerGUID c))) as [_ ->]. unfold entry. by rewrite Hpi.
Qed.

Lemma erase_entries_ok g c : entries_ok c -> entries_ok (erase_member g c).
Proof.
  intros [Hk H1 Hb]. split; [..|by apply erase_one_owner|];
    intros k pi; rewrite erase_lookup; case_bool_decide; by eauto.
Qed.

Lemma erase_IsOn g k c : g <> k -> IsOn (erase_member g c) k = IsOn c k.
Proof. intros Hn. unfold IsOn. rewrite erase_lookup. by rewrite (bool_decide_false (g = k)) by done. Qed.

Lemma at_entry_IsOn g f k c : IsOn (at_entry g f c) k = bool_decide (g = k) || IsOn c k.
Proof.
  unfold IsOn. rewrite at_entry_lookup. destruct (decide (g = k)) as [->|Hn].
  - rewrite (bool_decide_true (k = k)) by done. by apply bool_decide_true.
  - by rewrite (bool_decide_false (g = k)) by done.
Qed.

Lemma entries_ok_disown c : entries_ok c -> entries_ok (disown c).
Proof.
  intros [Hk H1 Hb].
  assert (forall k pi, playersStore (disown c) !! k = Some pi ->
          exists pi', playersStore c !! k = Some pi' /\ player pi = player pi') as Hd.
  { intros k pi. rewrite disown_lookup. intros (pi' & ? & ->)%fmap_Some.
    exists pi'. split; [done|]. by case_match. }
  rewrite disown_store_only in *. split; cbn in *.
  - intros k pi (pi' & Hp & ->)%Hd. by apply Hk.
  - intros k pi Hp Ho. rewrite (one_owner_disown c k pi) in Ho; [done|done|].
    by rewrite disown_store_only.
  - intros k pi (pi' & Hp & _)%Hd. by eapply Hb.
Qed.

(** Making a member the owner establishes the invariant. *)
Lemma SetOwner_inv g ex c : IsOn c g = true -> entries_ok c -> inv (SetOwner w g ex c).1.
Proof.
  intros Hon He. pose proof (entries_ok_disown _ He) as [Hk _ Hb].
  assert (exists pi, playersStore (disown c) !! g = Some pi) as [pi Hg].
  { apply IsOn_entry in Hon. rewrite disown_lookup, Hon. eauto. }
  destruct (Hk _ _ Hg) as [_ Hne].
  assert (forall k pi', playersStore (SetOwner w g ex c).1 !! k = Some pi' ->
          exists pi, playersStore (disown c) !! k = Some pi /\ player pi' = player pi) as Hs.
  { intros k pi'. rewrite SetOwner_lookup. replace (g =? 0) with false by bdec. cbn -[Z.eqb].
    destruct (Z.eqb_spec g k) as [<-|]; [|eauto]. intros [= <-]. unfold entry. rewrite Hg. eauto. }
  split; [split|].
  - intros k pi' (pi0 & Hp & ->)%Hs. by apply Hk.
  - apply SetOwner_one_owner, He.
  - rewrite SetOwner_rest. cbn. intros k pi' (pi0 & Hp & _)%Hs.
    rewrite disown_store_only in Hb. by eapply Hb.
  - intros _ _ _. rewrite SetOwner_owner, SetOwner_lookup.
    replace (g =? 0) with false by bdec. rewrite Z.eqb_refl. cbn.
    eexists. split; [done|]. apply IsOwner_SetOwner.
Qed.

Lemma SetOwner_IsOn g ex c k : IsOn c k = true -> IsOn (SetOwner w g ex c).1 k = true.
Proof.
  intros Hon%IsOn_entry. apply IsOn_spec. rewrite SetOwner_lookup. case_match; [eauto|].
  rewrite disown_lookup, Hon. eauto.
Qed.

Lemma IsOn_nonempty c k : IsOn c k = true -> playersStore c <> ∅.
Proof. intros Hon%IsOn_entry E. by rewrite E, lookup_empty in Hon. Qed.

Lemma inv_one_owner c : inv c -> one_owner c.
Proof. intros [[]]; done. Qed.

(** Changes of the channel's other data. *)
Lemma inv_same c c' :
  inv c -> playersStore c' = playersStore c -> _ownerGUID c' = _ownerGUID c ->
  bannedStore c' ⊆ bannedStore c -> IsConstant c' = IsConstant c ->
  (_ownership c' = true -> _ownership c = true) -> inv c'.
Proof.
  intros [[Hk H1 Hb] Ho] Es Eo Eb Ec Ew. unfold one_owner in *. split; [split|]; unfold one_owner; rewrite ?Es, ?Eo.
  - done.
  - done.
  - intros k pi Hp Hin. eapply Hb; eauto.
  - rewrite Ec. auto.
Qed.
End Invariant.

#[export] Hint Resolve flag_change_moderator flag_change_muted flag_change_id at_entry_inv
  at_entry_entries_ok erase_entries_ok SetOwner_inv SetOwner_IsOn inv_entries : channel.

Section InvariantSteps.
Context {A : Type} `{!Permissions A}.
Variable w : World A.

(** [kept]: the strong invariant, and an empty channel awaits an owner. *)
Record kept (c : Channel) : Prop := {
  kept_inv : inv c;
  kept_awaits : awaits_owner c
}.

Lemma kept_member c k : inv c -> IsOn c k = true -> kept c.
Proof. intros Hi Hon. split; [done|]. intros _ _ E. by destruct (IsOn_nonempty _ _ Hon). Qed.

Lemma kept_same c c' :
  kept c -> playersStore c' = playersStore c -> _ownerGUID c' = _ownerGUID c ->
  bannedStore c' ⊆ bannedStore c -> IsConstant c' = IsConstant c ->
  (_ownership c' = true -> _ownership c = true) -> kept c'.
Proof.
  intros [Hi Ha] Es Eo Eb Ec Ew. split; [by eapply inv_same|].
  unfold awaits_owner in *. rewrite Es, Eo, Ec. auto.
Qed.

Lemma insert_member_entries_ok c g :
  entries_ok c -> g <> 0 -> IsBanned c g = false ->
  entries_ok (set_store (<[g := mkPlayerInfo g MEMBER_FLAG_NONE]> (playersStore c)) c).
Proof.
  intros [Hk H1 Hb] Hg Hban%bool_decide_eq_false. split; [|by apply set_store_one_owner|]; cbn.
  - intros k pi [[<- <-]|[_ Hl]]%lookup_insert_Some; [done|by apply Hk].
  - intros k pi [[<- <-]|[_ Hl]]%lookup_insert_Some; [done|by eapply Hb].
Qed.

Lemma insert_member_IsOn c g pi : IsOn (set_store (<[g := pi]> (playersStore c)) c) g = true.
Proof. apply IsOn_spec. cbn. rewrite lookup_insert_eq. eauto. Qed.

Lemma owner_present c :
  kept c -> IsConstant c = false -> _ownership c = true -> _ownerGUID c <> 0 ->
  exists pi, playersStore c !! _ownerGUID c = Some pi /\ IsOwner pi = true.
Proof. intros [[_ Ho] Ha] Hc Hs Hn. apply Ho; [done..|]. intros E. by apply Hn, Ha. Qed.

Lemma JoinChannel_kept p pass c :
  kept c -> GetGUID p <> 0 -> kept (JoinChannel w p pass c).1.
Proof.
  intros Hk Hp. unfold JoinChannel. cbv zeta. branch; [done|]. branch; [done|].
  do 2 (branch; [done|]).
  set (c1 := set_store _ c).
  assert (entries_ok c1) as He by (apply insert_member_entries_ok; [apply Hk|done..]).
  assert (IsOn c1 (GetGUID p) = true) as Hon by apply insert_member_IsOn.
  branch; cbn [fst].
  - branch; cbn [fst].
    + split_SetOwner. cbn [fst]. apply (kept_member _ (GetGUID p)).
      * apply at_entry_inv; auto with channel.
      * rewrite at_entry_IsOn, bool_decide_true by done. done.
    + apply (kept_member _ (GetGUID p)); [|done]. split; [done|]. intros Hc Hs _.
      destruct (owner_present c Hk Hc Hs) as (pi & Hpi & Ho).
      { intros E. cbn in *. rewrite E, Hs in *. done. }
      exists pi. split; [|done]. cbn. rewrite lookup_insert_ne; [done|].
      intros E. apply not_IsOn in Heqb. congruence.
  - apply (kept_member _ (GetGUID p)); [|done]. split; [done|]. intros Hc.
    by rewrite Hc in *.
Qed.

Lemma first_entry_Some c pi : first_entry c = Some pi -> exists k, playersStore c !! k = Some pi.
Proof.
  unfold first_entry. intros ([k pi'] & Hh & ->)%fmap_Some. exists k.
  apply elem_of_map_ordered. by apply head_Some_elem_of.
Qed.

Lemma first_entry_None c : first_entry c = None -> playersStore c = ∅.
Proof.
  unfold first_entry. intros Hh%fmap_None. apply map_ordered_nil. by apply head_None.
Qed.

Lemma owner_stays c g :
  inv c -> IsConstant c = false -> _ownership c = true -> playersStore c <> ∅ ->
  g <> _ownerGUID c ->
  exists pi, playersStore (erase_member g c) !! _ownerGUID c = Some pi /\ IsOwner pi = true.
Proof.
  intros [_ Ho] Hc Hs Hn Hg. destruct Ho as (pi & Hpi & Hi); [done..|]. exists pi.
  rewrite erase_lookup. by rewrite bool_decide_false by done.
Qed.

Lemma LeaveChannel_inv p send c : inv c -> inv (LeaveChannel w p send c).1.
Proof.
  intros Hi. unfold LeaveChannel. cbv zeta. branch; [done|].
  apply negb_false_iff in Heqb. pose proof (IsOn_nonempty _ _ Heqb) as Hne.
  assert (entries_ok (erase_member (GetGUID p) c)) as He by auto with channel.
  branch; cbn [fst]; [branch; cbn [fst]|].
  - destruct (first_entry _) as [pi|] eqn:Hf; cbn [fst].
    + apply first_entry_Some in Hf as [k Hk].
      destruct (inv_keys _ He _ _ Hk) as [E _]. rewrite E. split_SetOwner. cbn [fst].
      assert (IsOn (erase_member (GetGUID p) c) k = true) by (apply IsOn_spec; eauto).
      apply SetOwner_inv; [|by auto with channel].
      rewrite at_entry_IsOn, bool_decide_true by done. done.
    + apply first_entry_None in Hf. split; [done|]. by intros.
  - split; [done|]. intros Hc Hs _. apply (owner_stays c _ Hi Hc Hs Hne).
    intros E. destruct (inv_owned c Hi Hc Hs Hne) as (pi & Hpi & Ho).
    rewrite <- E in Hpi. cbn in Heqb1, Hs. rewrite Hs in Heqb1.
    unfold entry in Heqb1. rewrite Hpi in Heqb1. cbn in Heqb1. by rewrite Ho in Heqb1.
  - split; [done|]. intros Hc. by rewrite Hc in *.
Qed.

Lemma KickOrBan_kept p badname ban c :
  kept c -> ~ owner_kicks_himself w (CKickOrBan p badname ban) c ->
  kept (KickOrBan w p badname ban c).1.
Proof.
  intros Hk Hself. apply (as_moderator_ind w kept); [done|]. intros Hon. cbv zeta. cbn in Hself.
  set (victim := guid_of _) in *. branch; [done|]. branch; [done|].
  apply orb_false_iff in Heqb as [Hv%Z.eqb_neq Hvon%negb_false_iff].
  match goal with |- context [let '(_, _) := ?x in _] => destruct x as [c0 out0] eqn:E end.
  assert (c0 = set_banned (bannedStore c0) c /\ bannedStore c0 ⊆ {[victim]} ∪ bannedStore c)
    as [E0 Hb0].
  { case_match; injection E as <- <-; cbn; [done|]. split; [by destruct c|set_solver]. }
  assert (entries_ok (erase_member victim c0)) as He.
  { destruct Hk as [[[Hkeys H1 Hb] _] _]. rewrite E0. split.
    - intros k pi. rewrite erase_lookup. case_bool_decide; [done|]. apply Hkeys.
    - apply erase_one_owner. exact H1.
    - intros k pi. rewrite erase_lookup. case_bool_decide; [done|]. cbn. intros Hl Hin.
      apply Hb0, elem_of_union in Hin as [Hin%elem_of_singleton|Hin]; [done|by eapply Hb]. }
  assert (forall k, k <> victim -> IsOn (erase_member victim c0) k = IsOn c k) as Hons.
  { intros k Hk'. rewrite erase_IsOn by done. by rewrite E0. }
  branch; cbn [fst].
  - apply andb_true_iff in Heqb as [[Hch%Z.eqb_eq _]%andb_true_iff _]. split_SetOwner. cbn [fst].
    assert (GetGUID p <> victim) as Hg by (intros E2; apply Hself; split; congruence).
    apply (kept_member _ (GetGUID p)).
    + apply SetOwner_inv; [by rewrite at_entry_IsOn, bool_decide_true by done|].
      apply at_entry_entries_ok; auto with channel. by rewrite Hons.
    + apply SetOwner_IsOn. by rewrite at_entry_IsOn, bool_decide_true by done.
  - assert (IsConstant c = false -> _ownership c = true -> victim <> _ownerGUID c) as Hvo.
    { intros Hc Hs E2. rewrite E0, E2, Z.eqb_refl in Heqb. cbn in Heqb. rewrite Hs in Heqb. cbn in Heqb.
      apply negb_false_iff, Nat.eqb_eq, map_size_empty_iff in Heqb.
      assert (IsOn (erase_member victim c0) (GetGUID p) = true) as Hst.
      { rewrite Hons; [done|]. intros E3. apply Hself. split; congruence. }
      apply IsOn_nonempty in Hst. rewrite E0, E2 in Hst. cbn in Hst. done. }
    destruct Hk as [Hi Ha]. split; [split; [done|]|].
    + rewrite E0. intros Hc Hs _. apply (owner_stays c victim Hi Hc Hs); [|by apply Hvo].
      by eapply IsOn_nonempty.
    + rewrite E0. intros Hc Hs Hempty.
      destruct (owner_stays c victim Hi Hc Hs) as (pi & Hpi & _); [by eapply IsOn_nonempty|by apply Hvo|].
      cbn in Hpi, Hempty. by rewrite Hempty, lookup_empty in Hpi.
Qed.

Lemma at_entry_kept g f c : flag_change f -> IsOn c g = true -> kept c -> kept (at_entry g f c).
Proof.
  intros Hf Hon [Hi _]. apply (kept_member _ g); [by apply at_entry_inv|].
  by rewrite at_entry_IsOn, bool_decide_true by done.
Qed.

Lemma SetModerator_kept g b c : IsOn c g = true -> kept c -> kept (SetModerator w g b c).1.
Proof.
  intros Hon Hk. unfold SetModerator. cbv zeta.
  assert (kept (at_entry g (fun pi => pi) c)) as Hk' by (apply at_entry_kept; auto with channel).
  branch; cbn [fst]; [|done]. apply at_entry_kept; [auto with channel| |done].
  by rewrite at_entry_IsOn, bool_decide_true by done.
Qed.

Lemma SetMute_kept g b c : IsOn c g = true -> kept c -> kept (SetMute w g b c).1.
Proof.
  intros Hon Hk. unfold SetMute. cbv zeta.
  assert (kept (at_entry g (fun pi => pi) c)) as Hk' by (apply at_entry_kept; auto with channel).
  branch; cbn [fst]; [|done]. apply at_entry_kept; [auto with channel| |done].
  by rewrite at_entry_IsOn, bool_decide_true by done.
Qed.

Lemma unreachable_IsOn (p : Player A) newp c : unreachable p newp c = false -> IsOn c (guid_of newp) = true.
Proof.
  destruct newp as [newp|]; [|done]. cbn.
  intros [[_ Hon%negb_false_iff]%orb_false_iff _]%orb_false_iff. done.
Qed.

Lemma SetMode_kept p name m s c : kept c -> kept (SetMode w p name m s c).1.
Proof.
  intros Hk. apply (as_moderator_ind w kept); [done|]. intros _. cbv zeta.
  branch; [done|]. branch; [done|]. apply unreachable_IsOn in Heqb0. branch; [done|].
  branch; [by apply SetModerator_kept|by apply SetMute_kept].
Qed.

Lemma SetOwner_name_kept p name c : kept c -> kept (SetOwner_name w p name c).1.
Proof.
  intros Hk. apply (as_member_ind w kept); [done|]. intros _. cbv zeta.
  branch; [done|]. branch; [done|]. apply unreachable_IsOn in Heqb0.
  apply (kept_member _ (guid_of (FindPlayerByName w name))).
  - apply SetOwner_inv; [by rewrite at_entry_IsOn, bool_decide_true by done|].
    apply at_entry_entries_ok; auto with channel. apply Hk.
  - apply SetOwner_IsOn. by rewrite at_entry_IsOn, bool_decide_true by done.
Qed.

Lemma UnBan_kept p name c : kept c -> kept (UnBan w p name c).1.
Proof.
  intros Hk. apply (as_moderator_ind w kept); [done|]. intros _. cbv zeta. branch; [done|].
  eapply kept_same; [done..| |done|done]. cbn. set_solver.
Qed.

Lemma kept_step cmd c :
  kept c -> real_actor cmd -> ~ owner_kicks_himself w cmd c -> cmd <> CSetOwnership true ->
  (forall p send, cmd <> CLeave p send) -> kept (run w cmd c).1.
Proof.
  intros Hk Hp Hs Ho Hl. destruct cmd; cbn [run].
  - by apply JoinChannel_kept.
  - by destruct (Hl p send).
  - by apply KickOrBan_kept.
  - by apply UnBan_kept.
  - apply (as_moderator_ind w kept); [done|]. intros _. by eapply kept_same.
  - by apply SetMode_kept.
  - by apply SetOwner_name_kept.
  - apply (as_moderator_ind w kept); [done|]. intros _. by eapply kept_same.
  - by apply (as_member_ind w kept).
  - destruct ownership; [done|]. by eapply kept_same.
Qed.

(** A custom channel never loses its owner.  Every command but a
    self-kick by the owner and the administrator's switching ownership back
    on keeps the channel well formed: each entry is its own player's, no
    banned player is a member, at most one member is the owner, and on a
    custom channel that hands out ownership the owner is among the members as
    long as there are any.  A channel only becomes empty by [LeaveChannel]
    (after which the manager deletes it); all other commands leave an empty
    channel waiting for its first owner. *)
Theorem run_keeps_invariant cmd c :
  inv c -> awaits_owner c -> real_actor cmd -> ~ owner_kicks_himself w cmd c ->
  cmd <> CSetOwnership true ->
  inv (run w cmd c).1
  /\ (playersStore (run w cmd c).1 <> ∅ \/ (forall p send, cmd <> CLeave p send) ->
      awaits_owner (run w cmd c).1).
Proof.
  intros Hi Ha Hp Hs Ho.
  assert ((forall p send, cmd <> CLeave p send) -> kept (run w cmd c).1) as Hstep
    by (intros; by apply kept_step).
  split.
  - destruct cmd; try (apply Hstep; done). by apply LeaveChannel_inv.
  - intros [Hne|Hl]; [by intros _ _|by apply Hstep].
Qed.
End InvariantSteps.

(** ** A small world for the examples *)

Definition ex_account : bool * RBACData := (false, new_RBACData 1 "" 1 0).
Definition ex_player (guid : Z) (name : string) : Player (bool * RBACData) :=
  mkPlayer guid (literal name) 469 ex_account 0 false true 0 (fun _ => false) (fun _ => true).
Definition ex_alice := ex_player 5 "Alice".
Definition ex_bob := ex_player 7 "Bob".
Definition ex_world : World (bool * RBACData) :=
  mkWorld
    (fun g => if g =? 5 then Some ex_alice else if g =? 7 then Some ex_bob else None)
    (fun n => if bool_decide (n = literal "Alice") then Some ex_alice
              else if bool_decide (n = literal "Bob") then Some ex_bob else None)
    (fun _ => None) (fun _ => None) true true false 0.
Definition ex_channel : Channel := (new_Channel ex_world None (literal "guildies") 0 469).1.
(** Alice created it and Bob joined. *)
Definition ex_two : Channel :=
  (JoinChannel ex_world ex_bob [] (JoinChannel ex_world ex_alice [] ex_channel).1).1.

Lemma ex_channel_kept : kept ex_channel.
Proof.
  split; [split; [split|]|].
  - intros k pi. change (playersStore ex_channel) with (∅ : gmap Z PlayerInfo).
    by rewrite lookup_empty.
  - intros k pi. change (playersStore ex_channel) with (∅ : gmap Z PlayerInfo).
    by rewrite lookup_empty.
  - intros k pi. change (playersStore ex_channel) with (∅ : gmap Z PlayerInfo).
    by rewrite lookup_empty.
  - by intros _ _ [].
  - done.
Defined.

Lemma ex_two_kept : kept ex_two.
Proof.
  apply JoinChannel_kept; [|done]. apply JoinChannel_kept; [|done]. apply ex_channel_kept.
Defined.

Lemma reachable_one_owner_witness :
  playersStore ex_two !! 5 = Some (mkPlayerInfo 5 3) /\ 5 = _ownerGUID ex_two /\ 5 <> 0.
Proof.
  assert (playersStore ex_two !! 5 = Some (mkPlayerInfo 5 3)) as H by (vm_compute; reflexivity).
  split; [exact H|]. apply (reachable_one_owner ex_world ex_two 5 (mkPlayerInfo 5 3)); [|exact H|reflexivity].
  apply (reachable_step ex_world _ (CJoin ex_bob [])); [|done].
  apply (reachable_step ex_world _ (CJoin ex_alice [])); [|done]. apply reachable_new.
Defined.

Lemma run_keeps_invariant_witness :
  inv (run ex_world (CKickOrBan ex_alice (literal "Bob") true) ex_two).1.
Proof.
  apply (run_keeps_invariant ex_world (CKickOrBan ex_alice (literal "Bob") true) ex_two);
    [apply ex_two_kept..|done| |done].
  intros [_ H]. vm_compute in H. discriminate H.
Defined.

(** ** The owner who kicks himself *)

Section SelfKick.
Context {A : Type} `{!Permissions A}.
Variable w : World A.

Lemma KickOrBan_self p badname ban c :
  IsOn c (GetGUID p) = true -> GetGUID p <> 0 -> IsModerator (entry c (GetGUID p)) = true ->
  _ownerGUID c = GetGUID p -> guid_of (FindPlayerByName w badname) = GetGUID p ->
  exists c0 out0,
    c0 = set_banned (bannedStore c0) c /\
    (forall k, k <> GetGUID p -> IsBanned c0 k = IsBanned c k) /\
    KickOrBan w p badname ban c =
    let c1 := erase_member (GetGUID p) c0 in
    if _ownership c && negb (base.size (playersStore c1) =? 0)%nat then
      let '(c2, owner) :=
        SetOwner w (GetGUID p) true (at_entry (GetGUID p) (PlayerInfo_SetModerator true) c1) in
      (c2, (out0 ++ [LeftChannel (GetGUID p)]) ++ owner)
    else (c1, out0 ++ [LeftChannel (GetGUID p)]).
Proof.
  intros Hon Hp Hm Ho Hv. unfold KickOrBan, as_moderator, as_member. rewrite Hon, Hm. cbn [negb andb].
  rewrite Hv, Hon, Ho, Z.eqb_refl. replace (GetGUID p =? 0) with false by bdec.
  cbn [negb andb orb]. rewrite andb_false_r.
  destruct (ban && negb (IsBanned c (GetGUID p))); eexists _, _;
    (split; [|split; [|reflexivity]]); [done| |by destruct c|done].
  intros k Hk. apply bool_decide_ext. cbn. set_solver.
Qed.

(** When the owner of a custom channel kicks or bans himself while other
    members are present, he is not removed: [playersStore[newowner]] creates a
    fresh entry for him, whose player is 0, and he stays the owner and a
    moderator, although [Player::LeftChannel] has dropped the channel from
    his own list (so that logging out will not remove him either). *)
Theorem owner_cannot_kick_himself p badname ban c q :
  IsOn c (GetGUID p) = true -> GetGUID p <> 0 -> IsModerator (entry c (GetGUID p)) = true ->
  _ownerGUID c = GetGUID p -> _ownership c = true ->
  guid_of (FindPlayerByName w badname) = GetGUID p ->
  q <> GetGUID p -> IsOn c q = true ->
  let '(c', out) := KickOrBan w p badname ban c in
  playersStore c' !! GetGUID p
  = Some (mkPlayerInfo 0 (Z.lor MEMBER_FLAG_OWNER MEMBER_FLAG_MODERATOR))
  /\ _ownerGUID c' = GetGUID p
  /\ LeftChannel (GetGUID p) ∈ out.
Proof.
  intros Hon Hp Hm Ho Hs Hv Hq Hqon.
  destruct (KickOrBan_self p badname ban c) as (c0 & out0 & E0 & _ & ->); [done..|].
  cbv zeta. set (c1 := erase_member _ c0).
  assert (IsOn c1 q = true) as Hq1 by (unfold c1; rewrite erase_IsOn, E0 by done; done).
  replace (base.size (playersStore c1) =? 0)%nat with false.
  2:{ symmetry. apply Nat.eqb_neq. intros E%map_size_empty_iff.
      by destruct (IsOn_nonempty _ _ Hq1). }
  rewrite Hs. cbn [negb andb].
  assert (_ownerGUID c1 = GetGUID p) as Ho1 by (unfold c1; rewrite E0; done).
  destruct (SetOwner w _ _ _) as [c2 owner] eqn:E. apply (f_equal fst) in E. cbn [fst] in E. subst c2.
  rewrite SetOwner_owner, SetOwner_lookup. replace (GetGUID p =? 0) with false by bdec.
  rewrite Z.eqb_refl. cbn [negb andb]. split; [|split; [done|set_solver]].
  f_equal. unfold entry at 1. rewrite disown_lookup.
  change (_ownerGUID (at_entry _ _ c1)) with (_ownerGUID c1). rewrite Ho1, Z.eqb_refl.
  replace (GetGUID p =? 0) with false by bdec. cbn [negb andb].
  rewrite at_entry_lookup, bool_decide_true by done. unfold entry, c1.
  rewrite erase_lookup, bool_decide_true by done. reflexivity.
Qed.

(** An owner who is alone and kicks himself leaves the channel empty,
    but its owner's GUID in place; whoever joins next is admitted as a plain
    member, neither owner nor moderator, so that no one can moderate the
    channel. *)
Theorem lone_owner_kick_orphans p badname ban c pi q pass :
  playersStore c = {[GetGUID p := pi]} -> GetGUID p <> 0 -> IsModerator pi = true ->
  _ownerGUID c = GetGUID p -> guid_of (FindPlayerByName w badname) = GetGUID p ->
  IsConstant c = false -> _password c = [] -> HasFlag c CHANNEL_FLAG_LFG = false ->
  GetGUID q <> GetGUID p -> IsBanned c (GetGUID q) = false ->
  let c1 := (KickOrBan w p badname ban c).1 in
  let c2 := (JoinChannel w q pass c1).1 in
  playersStore c1 = ∅ /\ _ownerGUID c1 = GetGUID p
  /\ playersStore c2 = {[GetGUID q := mkPlayerInfo (GetGUID q) MEMBER_FLAG_NONE]}
  /\ _ownerGUID c2 = GetGUID p.
Proof.
  intros Hst Hp Hm Ho Hv Hc Hpw Hlfg Hq Hqb.
  assert (playersStore c !! GetGUID p = Some pi) as Hl by (rewrite Hst; apply lookup_singleton_eq).
  destruct (KickOrBan_self p badname ban c) as (c0 & out0 & E0 & Hban & Hk); [|done|..|done|done|].
  { apply IsOn_spec. eauto. }
  { unfold entry. by rewrite Hl. }
  cbv zeta in Hk |- *.
  assert (playersStore (erase_member (GetGUID p) c0) = ∅) as He
    by (rewrite E0; cbn; by rewrite Hst, delete_singleton_eq).
  rewrite He in Hk. change (base.size (∅ : gmap Z PlayerInfo) =? 0)%nat with true in Hk.
  rewrite andb_false_r in Hk. rewrite Hk. cbn [fst].
  assert (IsBanned (erase_member (GetGUID p) c0) (GetGUID q) = false) as Hqb0.
  { change (IsBanned c0 (GetGUID q) = false). by rewrite Hban. }
  split; [done|]. split; [by rewrite E0|].
  unfold JoinChannel. rewrite Hqb0.
  assert (IsOn (erase_member (GetGUID p) c0) (GetGUID q) = false) as ->.
  { unfold IsOn. rewrite He, lookup_empty. by apply bool_decide_false, is_Some_None. }
  rewrite He, E0. cbn -[Z.eqb HasFlag IsConstant]. rewrite Hpw. cbn -[Z.eqb HasFlag IsConstant].
  change (HasFlag (erase_member _ _)) with (HasFlag c). rewrite Hlfg. cbn -[Z.eqb IsConstant].
  change (IsConstant (set_store _ _)) with (IsConstant c). rewrite Hc. cbn -[Z.eqb].
  rewrite Ho. replace (GetGUID p =? 0) with false by bdec. done.
Qed.

End SelfKick.

Lemma owner_cannot_kick_himself_witness :
  playersStore (KickOrBan ex_world ex_alice (literal "Alice") false ex_two).1 !! 5
  = Some (mkPlayerInfo 0 3).
Proof.
  pose proof (owner_cannot_kick_himself ex_world ex_alice (literal "Alice") false ex_two 7) as H.
  destruct (KickOrBan _ _ _ _ _) as [c' out] eqn:E.
  apply H; first [vm_compute; reflexivity | vm_compute; discriminate].
Defined.

Lemma lone_owner_kick_orphans_witness :
  let c := (JoinChannel ex_world ex_alice [] ex_channel).1 in
  _ownerGUID (JoinChannel ex_world ex_bob []
               (KickOrBan ex_world ex_alice (literal "Alice") false c).1).1 = 5.
Proof.
  apply (lone_owner_kick_orphans ex_world ex_alice (literal "Alice") false
           (JoinChannel ex_world ex_alice [] ex_channel).1 (mkPlayerInfo 5 3) ex_bob []);
    first [vm_compute; reflexivity | vm_compute; discriminate].
Defined.
