(* ===== verification/ChannelRules.v ===== *)
(** * Chat channels: authority, membership and traffic

    Who may change a channel and join it, how a channel's members and the
    players' own lists stay in step, what the packets contain and who
    receives them, and the row a custom channel is stored in. *)
From stdpp Require Import sorting.
From S2P Require Import Prelude.
From S2P Require Import Lists.
From S2P Require Import ByteBuffer.
From S2P Require Import Util.
From S2P Require Import Rbac.
From S2P Require Import Channel.
From S2P Require Import ChannelOwner.
Local Open Scope Z_scope.

(** ** Who may do what *)

Section Authority.
Context {A : Type} `{!Permissions A}.
Variable w : World A.

(** A moderator command (kick, ban, unban, password, moderator and mute
    flags, announcements) of a player who is neither a moderator of the
    channel nor allowed to change channels does nothing to the channel, and
    its only effect is one notice to that player: not a member, or not a
    moderator. *)
Theorem moderator_commands_refused cmd p c :
  actor cmd = Some p -> moderator_command cmd = true ->
  perm p RBAC_PERM_CHANGE_CHANNEL_NOT_MODERATOR = false ->
  IsModerator (entry c (GetGUID p)) = false ->
  run w cmd c
  = (c, SendToOne w (if IsOn c (GetGUID p) then MakeNotModerator c else MakeNotMember c)
          (GetGUID p)).
Proof.
  intros Ha Hm Hp Hmod.
  assert (forall body, as_moderator w p c body
          = (c, SendToOne w (if IsOn c (GetGUID p) then MakeNotModerator c else MakeNotMember c)
                  (GetGUID p))) as H.
  { intros body. unfold as_moderator, as_member. rewrite Hp, Hmod. by destruct (IsOn c _). }
  destruct cmd; try discriminate Hm; injection Ha as ->; apply H.
Qed.

(** What an outsider cannot touch: the owner's entry, the ownership, and the
    owner's not being banned. *)
Definition owner_untouched (c c' : Channel) : Prop :=
  _ownerGUID c' = _ownerGUID c
  /\ playersStore c' !! _ownerGUID c = playersStore c !! _ownerGUID c
  /\ (_ownerGUID c ∈ bannedStore c' -> _ownerGUID c ∈ bannedStore c).

Lemma owner_untouched_refl c : owner_untouched c c.
Proof. done. Qed.

Lemma at_entry_untouched g f c : g <> _ownerGUID c -> owner_untouched c (at_entry g f c).
Proof. intros Hg. split; [done|]. split; [|done]. by rewrite at_entry_lookup, bool_decide_false by done. Qed.

Lemma entry_id_untouched g c : IsOn c g = true -> owner_untouched c (at_entry g (fun pi => pi) c).
Proof.
  intros Hon%IsOn_entry. split; [done|]. split; [|done].
  rewrite at_entry_lookup. case_bool_decide; [subst; done|done].
Qed.

Lemma set_modes_untouched g b c (m : bool) :
  g <> _ownerGUID c -> IsOn c g = true ->
  owner_untouched c (if m then SetModerator w g b c else SetMute w g b c).1.
Proof.
  intros Hg Hon.
  assert (forall f, owner_untouched c (at_entry g f (at_entry g (fun pi => pi) c))) as H.
  { intros f. split; [done|]. split; [|done].
    by rewrite !at_entry_lookup, !bool_decide_false by done. }
  destruct m; unfold SetModerator, SetMute; cbv zeta; branch; cbn [fst];
    auto using entry_id_untouched.
Qed.

Lemma JoinChannel_untouched p pass c :
  _ownerGUID c <> 0 -> IsOn c (_ownerGUID c) = true -> owner_untouched c (JoinChannel w p pass c).1.
Proof.
  intros Ho Hon. unfold JoinChannel. cbv zeta. branch; [done|]. do 3 (branch; [done|]).
  set (c1 := set_store _ c).
  assert (owner_untouched c c1) as Hc1.
  { split; [done|]. split; [|done]. cbn. apply lookup_insert_ne. intros E. by rewrite E, Hon in Heqb. }
  branch; cbn [fst]; [|done]. change (_ownerGUID c1) with (_ownerGUID c).
  replace (_ownerGUID c =? 0) with false by bdec. done.
Qed.

Lemma KickOrBan_untouched p badname ban c :
  GetGUID p <> _ownerGUID c -> perm p RBAC_PERM_CHANGE_CHANNEL_NOT_MODERATOR = false ->
  owner_untouched c (KickOrBan w p badname ban c).1.
Proof.
  intros Hp Hperm. apply (as_moderator_ind w (owner_untouched c)); [done|]. intros _. cbv zeta.
  branch; [done|]. rewrite Hperm. replace (GetGUID p =? _ownerGUID c) with false by bdec.
  cbn [negb andb]. rewrite andb_true_r. branch; [done|].
  apply Z.eqb_neq in Heqb0.
  match goal with |- context [let '(_, _) := ?x in _] => destruct x as [c0 out0] eqn:E end.
  cbn [andb fst]. split; [|split].
  - case_match; by injection E as <- <-.
  - rewrite erase_lookup, bool_decide_false by done. case_match; by injection E as <- <-.
  - case_match; injection E as <- <-; cbn; set_solver.
Qed.

(** Nobody but the owner, without the permission to change channels, can
    take the owner's rights: whatever command another player runs while the
    owner is on the channel, the owner's entry with its flags stays, the
    ownership stays, and the owner does not become banned. *)
Theorem owner_is_protected cmd p c :
  actor cmd = Some p -> GetGUID p <> _ownerGUID c ->
  perm p RBAC_PERM_CHANGE_CHANNEL_NOT_MODERATOR = false ->
  entries_ok c -> IsOn c (_ownerGUID c) = true -> IsOwner (entry c (_ownerGUID c)) = true ->
  owner_untouched c (run w cmd c).1.
Proof.
  intros Ha Hp Hperm He Hon Hown.
  pose proof (IsOn_entry _ _ Hon) as Hent. destruct (inv_keys _ He _ _ Hent) as [_ Ho].
  destruct cmd; try discriminate Ha; injection Ha as ->; cbn [run].
  - by apply JoinChannel_untouched.
  - unfold LeaveChannel. cbv zeta. branch; [done|]. apply negb_false_iff in Heqb.
    assert (IsOwner (entry c (GetGUID p)) = false) as ->.
    { destruct (IsOwner (entry c (GetGUID p))) eqn:E; [|done].
      by destruct (inv_one _ He _ _ (IsOn_entry _ _ Heqb) E). }
    cbn [andb].
    assert (owner_untouched c (erase_member (GetGUID p) c)) as H.
    { split; [done|]. split; [|done]. by rewrite erase_lookup, bool_decide_false by done. }
    by branch.
  - by apply KickOrBan_untouched.
  - apply (as_moderator_ind w (owner_untouched c)); [done|]. intros _. cbv zeta. branch; [done|].
    split; [done|]. split; [done|]. cbn. set_solver.
  - by apply (as_moderator_ind w (owner_untouched c)).
  - apply (as_moderator_ind w (owner_untouched c)); [done|]. intros _. cbv zeta.
    branch; [done|]. branch; [done|]. apply unreachable_IsOn in Heqb0. branch; [done|].
    apply set_modes_untouched; [|done]. apply andb_false_iff in Heqb1 as [E%Z.eqb_neq|E]; [congruence|].
    by apply negb_false_iff, Z.eqb_eq in E.
  - apply (as_member_ind w (owner_untouched c)); [done|]. intros _. cbv zeta. rewrite Hperm.
    replace (GetGUID p =? _ownerGUID c) with false by bdec. done.
  - by apply (as_moderator_ind w (owner_untouched c)).
  - by apply (as_member_ind w (owner_untouched c)).
Qed.

(** ** Joining *)

(** What [JoinChannel] asks of a player who is not on the channel yet. *)
Definition admissible (p : Player A) (pass : text) (c : Channel) : bool :=
  negb (IsBanned c (GetGUID p))
  && (negb (nonempty (_password c)) || bool_decide (pass = _password c))
  && negb (HasFlag c CHANNEL_FLAG_LFG && CONFIG_RESTRICTED_LFG_CHANNEL w
           && (GetSecurity p =? SEC_PLAYER) && GetGroup p).

(** [JoinChannel] admits exactly the players that are not banned, know
    the password and are not barred from the looking-for-group channel.  An
    admitted player becomes a member (the first one of a custom channel with
    ownership its owner and moderator, any other a member without flags), his
    own channel list is told first and exactly once, and every other entry
    except the flags is as before; a refused player changes nothing and is
    told at most one notice. *)
Theorem JoinChannel_admission p pass c :
  GetGUID p <> 0 ->
  let '(c', out) := JoinChannel w p pass c in
  if negb (IsOn c (GetGUID p)) && admissible p pass c then
    playersStore c' !! GetGUID p
    = Some (mkPlayerInfo (GetGUID p)
        (if negb (IsConstant c) && (_ownerGUID c =? 0) && _ownership c
         then Z.lor MEMBER_FLAG_OWNER MEMBER_FLAG_MODERATOR else MEMBER_FLAG_NONE))
    /\ (forall k, k <> GetGUID p -> playersStore c' !! k = playersStore c !! k)
    /\ head out = Some (JoinedChannel (GetGUID p))
  else c' = c /\ exists data, out = [] \/ out = [SendPacket (GetGUID p) data].
Proof.
  intros Hp.
  assert (forall data, exists data', SendToOne w data (GetGUID p) = []
          \/ SendToOne w data (GetGUID p) = [SendPacket (GetGUID p) data']) as Hone.
  { intros data. exists data. unfold SendToOne. case_match; auto. }
  unfold JoinChannel, admissible. cbv zeta.
  destruct (IsOn c (GetGUID p)); cbn [negb andb].
  { split; [done|]. destruct (negb (IsConstant c)); [apply Hone|by exists (MakeBanned c); left]. }
  destruct (IsBanned c (GetGUID p)); cbn [negb andb]; [split; [done|apply Hone]|].
  destruct (nonempty (_password c) && negb (bool_decide (pass = _password c))) eqn:Hpw.
  { apply andb_true_iff in Hpw as [-> ->%negb_true_iff]. split; [done|apply Hone]. }
  replace (negb (nonempty (_password c)) || bool_decide (pass = _password c)) with true
    by (symmetry; apply andb_false_iff in Hpw as [-> | ->%negb_false_iff]; [done|apply orb_true_r]).
  cbn [andb].
  destruct (HasFlag c CHANNEL_FLAG_LFG && _ && _ && _); cbn [negb]; [split; [done|apply Hone]|].
  change (IsConstant (set_store _ c)) with (IsConstant c).
  change (_ownerGUID (set_store _ c)) with (_ownerGUID c).
  change (_ownership (set_store _ c)) with (_ownership c).
  set (c1 := set_store _ c).
  assert (playersStore c1 !! GetGUID p = Some (mkPlayerInfo (GetGUID p) MEMBER_FLAG_NONE)) as Hg
    by apply lookup_insert_eq.
  assert (forall k, k <> GetGUID p -> playersStore c1 !! k = playersStore c !! k) as Hk
    by (intros; by apply lookup_insert_ne).
  destruct (negb (IsConstant c)); cbn [andb]; [|done].
  destruct ((_ownerGUID c =? 0) && _ownership c) eqn:Ho; [|done].
  apply andb_true_iff in Ho as [Ho%Z.eqb_eq _].
  destruct (SetOwner w _ _ c1) as [c2 owner] eqn:E. apply (f_equal fst) in E. cbn [fst] in E. subst c2.
  assert (disown c1 = c1) as Hdis.
  { unfold disown. change (_ownerGUID c1) with (_ownerGUID c). by rewrite Ho. }
  split; [|split; [|done]].
  - rewrite at_entry_lookup, bool_decide_true by done. unfold entry. rewrite SetOwner_lookup, Hdis.
    replace (GetGUID p =? 0) with false by bdec. rewrite Z.eqb_refl. cbn [negb andb default].
    unfold entry. by rewrite Hg.
  - intros k Hne. rewrite at_entry_lookup, bool_decide_false by done. rewrite SetOwner_lookup, Hdis.
    replace (GetGUID p =? k) with false by bdec. rewrite andb_false_r. auto.
Qed.
End Authority.

(** ** The players' own channel lists *)

(** What the events of a command do to the set of players that have the
    channel in [m_channels]. *)
Definition track (s : gset Z) (e : Event) : gset Z :=
  match e with
  | JoinedChannel g => {[g]} ∪ s
  | LeftChannel g => s ∖ {[g]}
  | _ => s
  end.

Section Tracking.
Context {A : Type} `{!Permissions A}.
Variable w : World A.

(** Events that do not touch any player's list. *)
Definition quiet_event (e : Event) : Prop :=
  match e with JoinedChannel _ | LeftChannel _ => False | _ => True end.
Definition quiet (out : list Event) : Prop := Forall quiet_event out.

(** Nobody gets the channel a second time. *)
Fixpoint joins_fresh (s : gset Z) (out : list Event) : Prop :=
  match out with
  | [] => True
  | e :: out =>
      (match e with JoinedChannel g => g ∉ s | _ => True end) /\ joins_fresh (track s e) out
  end.

Lemma quiet_track out s : quiet out -> foldl track s out = s.
Proof. intros H. revert s. induction H as [|[] out He _ IH]; intros s; cbn; try done; apply IH. Qed.
Lemma joins_fresh_app s l k :
  joins_fresh s (l ++ k) <-> joins_fresh s l /\ joins_fresh (foldl track s l) k.
Proof. revert s. induction l as [|e l IH]; intros s; cbn; [tauto|]. rewrite IH. tauto. Qed.
Lemma quiet_joins_fresh out s : quiet out -> joins_fresh s out.
Proof. intros H. revert s. induction H as [|[] out He _ IH]; intros s; cbn; try done; auto. Qed.

Lemma quiet_nil : quiet [].
Proof. constructor. Qed.
Lemma quiet_app l k : quiet l -> quiet k -> quiet (l ++ k).
Proof. intros. by apply Forall_app. Qed.
Lemma quiet_Execute stmt : quiet [Execute stmt].
Proof. by repeat constructor. Qed.
Lemma quiet_SendToOne data who : quiet (SendToOne w data who).
Proof. unfold SendToOne. case_match; by repeat constructor. Qed.
Lemma quiet_concat {B} (f : B -> list Event) l : (forall x, quiet (f x)) -> quiet (concat (f <$> l)).
Proof. intros Hf. induction l as [|x l IH]; [constructor|]. by apply quiet_app. Qed.
Lemma quiet_SendToAll c data guid : quiet (SendToAll w c data guid).
Proof. apply quiet_concat. intros i. repeat case_match; by repeat constructor. Qed.
Lemma quiet_SendToAllButOne c data guid : quiet (SendToAllButOne w c data guid).
Proof. apply quiet_concat. intros i. repeat case_match; by repeat constructor. Qed.
Lemma quiet_UpdateChannelInDB c : quiet (UpdateChannelInDB c).
Proof. unfold UpdateChannelInDB. case_match; by repeat constructor. Qed.
Lemma quiet_UpdateChannelUseageInDB c : quiet (UpdateChannelUseageInDB c).
Proof. apply quiet_Execute. Qed.
Lemma quiet_if (b : bool) l k : quiet l -> quiet k -> quiet (if b then l else k).
Proof. by destruct b. Qed.
Lemma quiet_JoinNotify c g : quiet (JoinNotify w c g).
Proof. apply quiet_if; [apply quiet_SendToAllButOne|apply quiet_SendToAll]. Qed.
Lemma quiet_LeaveNotify c g : quiet (LeaveNotify w c g).
Proof. apply quiet_if; [apply quiet_SendToAllButOne|apply quiet_SendToAll]. Qed.
End Tracking.

#[export] Hint Resolve quiet_nil quiet_app quiet_Execute quiet_SendToOne quiet_SendToAll
  quiet_UpdateChannelInDB quiet_UpdateChannelUseageInDB quiet_if quiet_JoinNotify quiet_LeaveNotify : quiet.

Section Membership.
Context {A : Type} `{!Permissions A}.
Variable w : World A.

Definition members (c : Channel) : gset Z := dom (playersStore c).

Lemma SetOwner_quiet g ex c : quiet (SetOwner w g ex c).2.
Proof.
  unfold SetOwner. fold (disown c). cbv zeta. case_match; cbn [snd]; auto with quiet.
Qed.

Lemma at_entry_members g f c : IsOn c g = true -> members (at_entry g f c) = members c.
Proof.
  intros Hon%IsOn_entry%elem_of_dom_2. unfold members. cbn. rewrite dom_insert_L. set_solver.
Qed.

Lemma IsOn_members c g : IsOn c g = true <-> g ∈ members c.
Proof. unfold members. rewrite IsOn_spec, elem_of_dom. done. Qed.

Lemma SetOwner_members g ex c : IsOn c g = true -> members (SetOwner w g ex c).1 = members c.
Proof.
  intros Hon%IsOn_entry. apply set_eq. intros k. unfold members. rewrite !elem_of_dom, SetOwner_lookup.
  case_match eqn:E.
  - apply andb_true_iff in E as [_ <-%Z.eqb_eq]. rewrite Hon. split; eauto.
  - rewrite disown_lookup. destruct (playersStore c !! k); cbn; split; intros []; eauto; done.
Qed.

Lemma erase_members g c : members (erase_member g c) = members c ∖ {[g]}.
Proof. unfold members. cbn. by rewrite dom_delete_L. Qed.

(** The members change as the events say, and only new members join. *)
Definition tracked (c : Channel) (r : Channel * list Event) : Prop :=
  members r.1 = foldl track (members c) r.2 /\ joins_fresh (members c) r.2.

Lemma tracked_quiet c c' out : members c' = members c -> quiet out -> tracked c (c', out).
Proof. intros Hm Hq. split; cbn; [by rewrite quiet_track|by apply quiet_joins_fresh]. Qed.

Lemma as_moderator_tracked p c body :
  (IsOn c (GetGUID p) = true -> tracked c body) -> tracked c (as_moderator w p c body).
Proof.
  intros H. unfold as_moderator, as_member. destruct (IsOn c (GetGUID p)) eqn:E; cbn [negb].
  - case_match; [|auto]. apply tracked_quiet; auto with quiet.
  - apply tracked_quiet; auto with quiet.
Qed.

Lemma as_member_tracked p c body :
  (IsOn c (GetGUID p) = true -> tracked c body) -> tracked c (as_member w p c body).
Proof.
  intros H. unfold as_member. destruct (IsOn c (GetGUID p)) eqn:E; cbn [negb]; [auto|].
  apply tracked_quiet; auto with quiet.
Qed.

Ltac tbranch := match goal with |- tracked _ (if ?b then _ else _) => destruct b eqn:? end.

Lemma JoinChannel_tracked p pass c : tracked c (JoinChannel w p pass c).
Proof.
  unfold JoinChannel. cbv zeta.
  tbranch; [apply tracked_quiet; auto with quiet|].
  assert (GetGUID p ∉ members c) as Hnew by (rewrite <- IsOn_members; congruence).
  do 3 (tbranch; [apply tracked_quiet; auto with quiet|]).
  set (c1 := set_store _ c).
  assert (members c1 = {[GetGUID p]} ∪ members c) as Hm by (unfold members; cbn; by rewrite dom_insert_L).
  assert (IsOn c1 (GetGUID p) = true) as Hon by apply insert_member_IsOn.
  assert (forall out, quiet out -> forall c2, members c2 = members c1 ->
          tracked c (c2, JoinedChannel (GetGUID p) :: out)) as H.
  { intros out Hq c2 H2. split; cbn; [by rewrite quiet_track, H2|].
    split; [done|by apply quiet_joins_fresh]. }
  rewrite <- app_comm_cons. tbranch; [|apply H; auto 6 with quiet].
  rewrite <- app_comm_cons. tbranch; [|apply H; auto 7 with quiet].
  destruct (SetOwner w _ _ c1) as [c2 owner] eqn:E.
  pose proof (SetOwner_quiet (GetGUID p) (1 <? base.size (playersStore c1))%nat c1) as Hq.
  pose proof (SetOwner_members (GetGUID p) (1 <? base.size (playersStore c1))%nat c1 Hon) as Hm2.
  pose proof (SetOwner_IsOn w (GetGUID p) (1 <? base.size (playersStore c1))%nat c1 _ Hon) as Hon2.
  rewrite E in Hq, Hm2, Hon2. cbn [fst snd] in *.
  rewrite <- app_comm_cons. apply H; [auto 8 with quiet|]. by rewrite at_entry_members.
Qed.

Lemma new_owner_tracked c0 c1 g ex out :
  IsOn c1 g = true -> tracked c0 (c1, out) ->
  tracked c0 (let '(c2, owner) := SetOwner w g ex (at_entry g (PlayerInfo_SetModerator true) c1) in
              (c2, out ++ owner)).
Proof.
  intros Hon [Hm Hf]. cbn in Hm, Hf. set (c1' := at_entry _ _ c1).
  assert (IsOn c1' g = true) as Hon' by (unfold c1'; rewrite at_entry_IsOn, bool_decide_true; done).
  pose proof (SetOwner_quiet g ex c1') as Hq. pose proof (SetOwner_members g ex c1' Hon') as Hm2.
  destruct (SetOwner w g ex c1') as [c2 owner]. cbn [fst snd] in *. split; cbn.
  - rewrite foldl_app, quiet_track, Hm2 by done. unfold c1'. by rewrite at_entry_members.
  - apply joins_fresh_app. split; [done|by apply quiet_joins_fresh].
Qed.

Lemma LeaveChannel_members p send c :
  entries_ok c -> IsOn c (GetGUID p) = true ->
  exists out, quiet out /\ (LeaveChannel w p send c).2
    = (if send then SendToOne w (MakeYouLeft c) (GetGUID p) ++ [LeftChannel (GetGUID p)] else []) ++ out
    /\ members (LeaveChannel w p send c).1 = members c ∖ {[GetGUID p]}.
Proof.
  intros He Hon. unfold LeaveChannel. rewrite Hon. cbn [negb]. cbv zeta.
  set (c1 := erase_member (GetGUID p) c). set (rest := (if _announce c1 && _ then _ else _) ++ _).
  assert (quiet rest) as Hr by (unfold rest; auto with quiet).
  assert (members c1 = members c ∖ {[GetGUID p]}) as Hm by apply erase_members.
  destruct (negb (IsConstant c1)); [|eauto]. rewrite <- app_assoc.
  destruct (IsOwner (entry c (GetGUID p)) && _ownership c1); [|eexists; split; [|done]; auto with quiet].
  destruct (first_entry c1) as [pi|] eqn:Hf; [|eexists; split; [|done]; auto with quiet].
  apply first_entry_Some in Hf as [k Hk].
  destruct (inv_keys _ (erase_entries_ok (GetGUID p) c He) _ _ Hk) as [-> _].
  assert (IsOn c1 k = true) as Hk1 by (apply IsOn_spec; eauto).
  destruct (new_owner_tracked c1 c1 k true [] Hk1) as [Hm2 _]; [by apply tracked_quiet; auto with quiet|].
  pose proof (SetOwner_quiet k true (at_entry k (PlayerInfo_SetModerator true) c1)) as Hq.
  destruct (SetOwner w k true _) as [c2 owner]. cbn [fst snd app] in *.
  rewrite <- app_assoc. eexists. split; [|split; [reflexivity|]]; [auto with quiet|].
  by rewrite Hm2, quiet_track.
Qed.

Lemma LeaveChannel_tracked p c : entries_ok c -> tracked c (LeaveChannel w p true c).
Proof.
  intros He. destruct (IsOn c (GetGUID p)) eqn:Hon.
  - destruct (LeaveChannel_members p true c He Hon) as (out & Hq & E & Hm).
    split; rewrite E, ?Hm.
    + rewrite foldl_app, (quiet_track out) by done.
      rewrite foldl_app, (quiet_track (SendToOne w (MakeYouLeft c) (GetGUID p))) by auto with quiet.
      done.
    + apply joins_fresh_app. split; [|by apply quiet_joins_fresh].
      apply joins_fresh_app. split; [apply quiet_joins_fresh; auto with quiet|done].
  - unfold LeaveChannel. rewrite Hon. apply tracked_quiet; auto with quiet.
Qed.

Lemma KickOrBan_tracked p badname ban c :
  ~ owner_kicks_himself w (CKickOrBan p badname ban) c -> tracked c (KickOrBan w p badname ban c).
Proof.
  cbn. intros Hself. apply as_moderator_tracked. intros Hon. cbv zeta.
  set (victim := guid_of _) in *.
  tbranch; [apply tracked_quiet; auto with quiet|].
  tbranch; [apply tracked_quiet; auto with quiet|].
  match goal with |- context [let '(_, _) := ?x in _] => destruct x as [c0 out0] eqn:E end.
  assert (playersStore c0 = playersStore c /\ quiet out0) as [Hs0 Hq0].
  { case_match; injection E as <- <-; auto with quiet. }
  assert (tracked c (erase_member victim c0, out0 ++ [LeftChannel victim])) as H.
  { split; cbn [fst snd].
    - rewrite foldl_app, (quiet_track out0) by done. cbn [foldl track]. rewrite erase_members. unfold members. by rewrite Hs0.
    - apply joins_fresh_app. split; [by apply quiet_joins_fresh|done]. }
  tbranch; [|done]. apply andb_true_iff in Heqb1 as [[Hch%Z.eqb_eq _]%andb_true_iff _].
  apply new_owner_tracked; [|done]. rewrite erase_IsOn.
  - unfold IsOn. by rewrite Hs0.
  - intros E2. apply Hself. split; congruence.
Qed.

(** The channel's members and the players' own channel lists stay in step:
    for every command except the owner's self-kick (and the silent leave of a
    player who is logging out and clears his own list), the members
    afterwards are the members before, changed by exactly the [JoinedChannel]
    and [LeftChannel] calls the command makes. *)
Lemma run_tracked cmd c :
  entries_ok c -> ~ owner_kicks_himself w cmd c -> (forall p, cmd <> CLeave p false) ->
  tracked c (run w cmd c).
Proof.
  intros He Hs Hl. destruct cmd; cbn [run].
  - apply JoinChannel_tracked.
  - destruct send; [by apply LeaveChannel_tracked|by destruct (Hl p)].
  - by apply KickOrBan_tracked.
  - apply as_moderator_tracked. intros _. cbv zeta. tbranch; apply tracked_quiet; auto with quiet.
  - apply as_moderator_tracked. intros _. apply tracked_quiet; auto with quiet.
  - apply as_moderator_tracked. intros _. cbv zeta.
    tbranch; [apply tracked_quiet; auto with quiet|].
    tbranch; [apply tracked_quiet; auto with quiet|]. apply unreachable_IsOn in Heqb0.
    tbranch; [apply tracked_quiet; auto with quiet|].
    destruct mod'; unfold SetModerator, SetMute; cbv zeta;
      (tbranch; [|by apply tracked_quiet; [apply at_entry_members|auto with quiet]]);
      (apply tracked_quiet; [|auto with quiet]); rewrite at_entry_members;
      rewrite ?at_entry_IsOn, ?bool_decide_true by done; try done; by apply at_entry_members.
  - apply as_member_tracked. intros _. cbv zeta.
    tbranch; [apply tracked_quiet; auto with quiet|].
    tbranch; [apply tracked_quiet; auto with quiet|]. apply unreachable_IsOn in Heqb0.
    assert (tracked c (c, [])) as H0 by (apply tracked_quiet; auto with quiet).
    pose proof (new_owner_tracked c c _ true [] Heqb0 H0) as H. by destruct (SetOwner w _ _ _).
  - apply as_moderator_tracked. intros _. apply tracked_quiet; auto with quiet.
  - apply as_member_tracked. intros _. apply tracked_quiet; auto with quiet.
  - apply tracked_quiet; auto with quiet.
Qed.

End Membership.

(** ** The bytes of the packets *)

(** [m], started with no pending bits, writes exactly the bytes [bs]. *)
Definition appends (m : BB unit) (bs : list Z) : Prop :=
  forall b out, writes b (mkWire out []) -> Z.of_nat (length out + length bs) < 10000000 ->
  exists b', m b = Ok (tt, b') /\ writes b' (mkWire (out ++ bs) []).

Lemma appends_ret : appends (mret tt) [].
Proof. intros b out Hw _. exists b. by rewrite app_nil_r. Qed.

Lemma appends_bind m m' bs bs' : appends m bs -> appends m' bs' -> appends (m;; m') (bs ++ bs').
Proof.
  intros Hm Hm' b out Hw Hr. rewrite length_app in Hr.
  destruct (Hm b out Hw) as (b1 & E1 & Hw1); [lia|].
  destruct (Hm' b1 _ Hw1) as (b2 & E2 & Hw2); [rewrite length_app; lia|].
  exists b2. rewrite app_assoc. split; [|done]. by rewrite (st_bind_Ok _ _ _ _ _ E1).
Qed.

Lemma appends_append_T n v : n <> 0%nat -> appends (append_T n v) (le_bytes n v).
Proof.
  intros Hn b out Hw Hr.
  destruct (append_T_writes b (mkWire out []) n v Hw Hn) as (b' & E & Hw' & _).
  { unfold room. cbn. rewrite length_le_bytes in Hr. lia. }
  exists b'. split; [done|]. exact Hw'.
Qed.

Lemma appends_put_string s : Forall is_byte s -> appends (put_string s) (s ++ [0]).
Proof.
  intros Hs. apply appends_bind; [|by apply (appends_append_T 1 0)].
  destruct (Nat.eqb_spec (length s) 0) as [E|E].
  - apply nil_length_inv in E. subst. apply appends_ret.
  - intros b out Hw Hr. eexists. split; [apply append_exec|].
    + destruct Hw as [Ho Hp]. cbn in *. by rewrite Hp, Ho.
    + by intros ->.
    + destruct Hw as [Ho Hp]. cbn in *. unfold size. rewrite Ho. destruct s; cbn in *; lia.
    + by apply writes_append.
Qed.

Lemma make_packet_bytes op m bs :
  appends m bs -> Z.of_nat (length bs) < 10000000 -> make_packet op m = Packet op (Ok bs).
Proof.
  intros Hm Hr. destruct (Hm _ _ writes_new) as (b & E & Hw); [cbn; lia|].
  unfold make_packet. rewrite E. f_equal. f_equal. by destruct Hw.
Qed.

Definition list_entry (i : Z * PlayerInfo) : list Z := le_bytes 8 i.1 ++ le_bytes 1 (flags i.2).

Lemma appends_List_loop l : appends (List_loop l) (concat (list_entry <$> l)).
Proof.
  induction l as [|[g pi] l IH]; [apply appends_ret|]. cbn [List_loop fmap list_fmap concat].
  unfold list_entry at 1. rewrite <- app_assoc.
  apply appends_bind; [by apply appends_append_T|]. apply appends_bind; [by apply appends_append_T|done].
Qed.

(** [put] over four bytes written before. *)
Lemma overwrite_middle pre src src' post :
  length src = length src' -> overwrite (length pre) src' (pre ++ src ++ post) = pre ++ src' ++ post.
Proof.
  intros Hl. unfold overwrite. rewrite take_app_length. f_equal. f_equal.
  rewrite app_assoc, drop_app_prefix; [done|]. rewrite length_app. lia.
Qed.

Section Packets.
Context {A : Type} `{!Permissions A}.
Variable w : World A.

(** The member list a member receives: type 1, the channel's name and
    flags, the number of entries, patched in afterwards over its placeholder,
    and one entry of GUID and flags for each member the viewer may see
    (online, visible to him, and not above the configured security level
    unless he may see all), in increasing order of GUIDs. *)
Theorem List_packet_bytes p c :
  Forall is_byte (_name c) -> _flags c < 256 -> 0 <= _flags c ->
  Z.of_nat (length (_name c) + 9 * length (listed w p c)) < 9999990 ->
  make_packet SMSG_CHANNEL_LIST (List_packet w p c)
  = Packet SMSG_CHANNEL_LIST (Ok
      ([1] ++ _name c ++ [0] ++ [_flags c]
       ++ le_bytes 4 (Z.of_nat (length (listed w p c)))
       ++ concat (list_entry <$> listed w p c))).
Proof.
  intros Hn Hf1 Hf0 Hroom. set (l := listed w p c) in *.
  set (pre := [1] ++ (_name c ++ [0]) ++ [u8 (_flags c)]).
  assert (length (concat (list_entry <$> l)) = (9 * length l)%nat) as Hlen.
  { clear. induction l as [|x l IH]; [done|]. cbn [fmap list_fmap concat length].
    rewrite length_app, IH. cbn [list_entry length]. cbn. lia. }
  assert (appends (append_T 1 1;; put_string (_name c);; append_T 1 (GetFlags c)) pre) as H1.
  { apply appends_bind; [by apply (appends_append_T 1 1)|].
    apply appends_bind; [by apply appends_put_string|]. by apply (appends_append_T 1 (_flags c)). }
  assert (appends (append_T 4 0;; List_loop l) (le_bytes 4 0 ++ concat (list_entry <$> l))) as H2.
  { apply appends_bind; [by apply appends_append_T|apply appends_List_loop]. }
  assert (length pre = (length (_name c) + 3)%nat) as Hpre
    by (unfold pre; rewrite !length_app; cbn; lia).
  destruct (H1 _ _ writes_new) as (b1 & E1 & Hw1); [cbn [w_out length plus] in *; lia|].
  destruct (H2 _ _ Hw1) as (b2 & E2 & Hw2); [rewrite !length_app, Hlen; cbn [length le_bytes] in *; lia|].
  assert (_wpos b1 = length pre) as Hp1.
  { destruct Hw1 as [Ho Hp]. cbn in *. rewrite Hp. done. }
  assert (_storage b2 = pre ++ le_bytes 4 0 ++ concat (list_entry <$> l)) as Hs2 by (by destruct Hw2).
  unfold make_packet, List_packet. fold l.
  assert ((append_T 1 1;; put_string (_name c);; append_T 1 (GetFlags c);;
           b ← st_get; append_T 4 0;; List_loop l;;
           put (_wpos b) (le_bytes 4 (u32 (Z.of_nat (length l))))) new_ByteBuffer
          = put (_wpos b1) (le_bytes 4 (u32 (Z.of_nat (length l)))) b2) as ->.
  { apply st_bind_inv in E1 as ([] & s1 & F1 & E1). apply st_bind_inv in E1 as ([] & s2 & F2 & F3).
    apply st_bind_inv in E2 as ([] & s3 & G1 & G2).
    rewrite (st_bind_Ok _ _ _ _ _ F1), (st_bind_Ok _ _ _ _ _ F2), (st_bind_Ok _ _ _ _ _ F3).
    transitivity ((append_T 4 0;; List_loop l;;
                   put (_wpos b1) (le_bytes 4 (u32 (Z.of_nat (length l))))) b1); [done|].
    by rewrite (st_bind_Ok _ _ _ _ _ G1), (st_bind_Ok _ _ _ _ _ G2). }
  unfold put. rewrite Hp1, length_le_bytes.
  replace (size b2 <? length pre + 4)%nat with false.
  2:{ symmetry. apply Nat.ltb_ge. unfold size. rewrite Hs2, !length_app, length_le_bytes. lia. }
  cbn [_storage set_storage]. rewrite Hs2, (overwrite_middle pre (le_bytes 4 0)) by done.
  rewrite u32_small by (unfold is_u32; lia). unfold pre. rewrite u8_small by (unfold is_byte; lia).
  by rewrite <- !app_assoc.
Qed.

(** The notices start with their type and the channel's name. *)
Lemma notice_bytes c n fields bs :
  Forall is_byte (_name c) -> appends fields bs ->
  Z.of_nat (length (_name c) + length bs) < 9999990 ->
  MakeNotifyPacket c n fields
  = Packet SMSG_CHANNEL_NOTIFY (Ok ([notice_value n] ++ _name c ++ [0] ++ bs)).
Proof.
  intros Hn Hf Hr. unfold MakeNotifyPacket. rewrite (app_assoc (_name c)). apply make_packet_bytes.
  - apply appends_bind; [by destruct n; apply (appends_append_T 1)|].
    apply appends_bind; [by apply appends_put_string|done].
  - rewrite !length_app. cbn. lia.
Qed.

Lemma elem_of_concat {B} (x : B) ls : x ∈ concat ls <-> exists l, l ∈ ls /\ x ∈ l.
Proof.
  induction ls as [|l ls IH]; cbn.
  - rewrite elem_of_nil. split; [done|]. by intros (l & Hl%elem_of_nil & _).
  - rewrite elem_of_app, IH. setoid_rewrite elem_of_cons. naive_solver.
Qed.

Lemma SendToAll_spec c data guid k data' :
  SendPacket k data' ∈ SendToAll w c data guid <->
  data' = data /\ is_Some (playersStore c !! k)
  /\ exists p, FindPlayer w k = Some p
     /\ (guid = 0 \/ HasIgnore p (GUID_LOPART guid) = false).
Proof.
  unfold SendToAll. rewrite elem_of_concat. split.
  - intros (l & ([g pi] & -> & Hg%elem_of_map_ordered)%list_elem_of_fmap & Hl). cbn [fst] in Hl.
    destruct (FindPlayer w g) as [p|] eqn:Hp; [|by apply elem_of_nil in Hl].
    destruct ((guid =? 0) || negb (HasIgnore p (GUID_LOPART guid))) eqn:Hi; [|by apply elem_of_nil in Hl].
    apply list_elem_of_singleton in Hl as [= -> ->].
    split; [done|]. split; [eauto|]. exists p. split; [done|].
    apply orb_true_iff in Hi as [Hi%Z.eqb_eq|Hi%negb_true_iff]; auto.
  - intros (-> & [pi Hpi] & p & Hp & Hi). exists [SendPacket k data]. split; [|by left].
    apply list_elem_of_fmap. exists (k, pi). split; [|by apply elem_of_map_ordered]. cbn [fst].
    rewrite Hp. replace ((guid =? 0) || negb (HasIgnore p (GUID_LOPART guid))) with true; [done|].
    symmetry. apply orb_true_iff. destruct Hi as [->|Hi]; [by left|right]. by rewrite Hi.
Qed.

(** What is said on a channel reaches, through [SendToAll], exactly the
    members that are online and do not ignore the speaker; a moderator is
    heard even by those who ignore him.  A muted member and a player who is
    not a member reach no one but themselves, with a notice; an empty message
    is dropped without one. *)
Theorem Say_delivery guid what lang c k data :
  SendPacket k data ∈ Say w guid what lang c <->
  what <> nil /\
  (if negb (IsOn c guid) then k = guid /\ data = MakeNotMember c /\ is_Some (FindPlayer w guid)
   else if IsMuted (entry c guid) then k = guid /\ data = MakeMuted c /\ is_Some (FindPlayer w guid)
   else IsOn c k = true
        /\ data = ChatPacket (if CONFIG_ALLOW_TWO_SIDE_INTERACTION_CHANNEL w then LANG_UNIVERSAL else lang)
                    guid what
                    (match FindPlayer w guid with Some p => GetChatTag p | None => 0 end)
                    (match FindPlayer w guid with Some p => perm p RBAC_PERM_COMMAND_GM_CHAT | None => false end)
                    (_name c)
        /\ exists p, FindPlayer w k = Some p
           /\ (guid = 0 \/ IsModerator (entry c guid) = true \/ HasIgnore p (GUID_LOPART guid) = false)).
Proof.
  assert (forall data', SendPacket k data ∈ SendToOne w data' guid
          <-> k = guid /\ data = data' /\ is_Some (FindPlayer w guid)) as Hone.
  { intros data'. unfold SendToOne. destruct (FindPlayer w guid).
    - rewrite list_elem_of_singleton. split; [intros [= -> ->]; eauto|by intros (-> & -> & _)].
    - rewrite elem_of_nil. split; [done|]. by intros (_ & _ & []). }
  unfold Say, nonempty. destruct what as [|x what]; [cbn; rewrite elem_of_nil; tauto|].
  cbn [length Nat.eqb negb]. set (tag := match FindPlayer w guid with Some p => GetChatTag p | None => 0 end).
  set (gm := match FindPlayer w guid with Some p => perm p RBAC_PERM_COMMAND_GM_CHAT | None => false end).
  replace (match FindPlayer w guid with
           | Some p => (GetChatTag p, perm p RBAC_PERM_COMMAND_GM_CHAT)
           | None => (0, false) end) with (tag, gm) by (unfold tag, gm; by case_match).
  destruct (IsOn c guid); cbn [negb]; [|rewrite Hone; naive_solver].
  destruct (IsMuted (entry c guid)); [rewrite Hone; naive_solver|].
  rewrite SendToAll_spec, IsOn_spec. destruct (IsModerator (entry c guid)); cbn [negb].
  - naive_solver.
  - naive_solver.
Qed.

(** ** The stored channel *)

Lemma load_bans_tokens (l : list Z) (acc : gset Z) :
  Forall (fun g => 0 < g <= LONG_MAX) l ->
  foldl (fun banned t => let banned_guid := u64 (atol t) in
           if banned_guid =? 0 then banned else {[banned_guid]} ∪ banned) acc (decimal <$> l)
  = acc ∪ list_to_set l.
Proof.
  intros Hl. revert acc. induction Hl as [|g l Hg _ IH]; intros acc; [cbn; set_solver|].
  rewrite fmap_cons. cbn [foldl]. rewrite IH. cbv zeta. rewrite atol_decimal by lia.
  rewrite u64_small by (unfold is_u64, LONG_MAX in *; lia).
  replace (g =? 0) with false by bdec. set_solver.
Qed.

Lemma load_bans_banlist c :
  (forall g, g ∈ bannedStore c -> 0 < g <= LONG_MAX) -> load_bans (Some (banlist c)) = bannedStore c.
Proof.
  intros Hb.
  assert (Forall (fun g => 0 < g <= LONG_MAX) (set_ordered (bannedStore c))) as Hl.
  { apply Forall_forall. intros g Hg%elem_of_set_ordered. auto. }
  unfold load_bans, banlist.
  replace ((fun g => decimal g ++ [SPACE]) <$> set_ordered (bannedStore c))
    with ((fun t => t ++ [SPACE]) <$> (decimal <$> set_ordered (bannedStore c)))
    by (by rewrite <- list_fmap_compose).
  rewrite <- (app_nil_r (concat _)), Tokenizer_separated.
  - change (Tokenizer [] SPACE) with ([] : list (list Z)). rewrite app_nil_r, load_bans_tokens by done.
    apply set_eq. intros g. rewrite elem_of_union, elem_of_list_to_set, elem_of_set_ordered. set_solver.
  - apply Forall_fmap. eapply Forall_impl; [done|]. intros g Hg. apply decimal_plain. cbn in Hg. lia.
Qed.

(** What [UpdateChannelInDB] stores of a custom channel, the constructor
    restores: the announcement and ownership settings, the password, and
    exactly the bans, which go through a text column of decimal numbers. *)
Theorem channel_row_roundtrip c :
  _IsSaved c = true -> sChatChannelsStore w (_channelId c) = None ->
  CONFIG_PRESERVE_CUSTOM_CHANNELS w = true ->
  (forall g, g ∈ bannedStore c -> 0 < g <= LONG_MAX) ->
  exists announce ownership password bannedList name team,
    UpdateChannelInDB c
    = [Execute (CHAR_UPD_CHANNEL announce ownership password bannedList name team)]
    /\ let c' := (new_Channel w (Some (announce, ownership, password, Some bannedList))
                    name (_channelId c) team).1 in
       _announce c' = _announce c /\ _ownership c' = _ownership c /\ _password c' = _password c
       /\ bannedStore c' = bannedStore c /\ _name c' = _name c /\ _Team c' = _Team c
       /\ _IsSaved c' = true /\ playersStore c' = ∅.
Proof.
  intros Hs Hid Hcfg Hb. unfold UpdateChannelInDB. rewrite Hs.
  eexists _, _, _, _, _, _. split; [done|]. unfold new_Channel. rewrite Hid, Hcfg. cbn -[load_bans].
  by rewrite load_bans_banlist.
Qed.
End Packets.

Lemma moderator_commands_refused_witness :
  run ex_world (CKickOrBan ex_bob (literal "Alice") true) ex_two
  = (ex_two, [SendPacket 7 (MakeNotModerator ex_two)]).
Proof.
  apply (moderator_commands_refused ex_world (CKickOrBan ex_bob (literal "Alice") true) ex_bob ex_two);
    vm_compute; reflexivity.
Defined.

Lemma owner_is_protected_witness :
  owner_untouched ex_two (run ex_world (CSetMode ex_bob (literal "Alice") true false) ex_two).1.
Proof.
  apply (owner_is_protected ex_world (CSetMode ex_bob (literal "Alice") true false) ex_bob ex_two);
    [reflexivity|vm_compute; discriminate|vm_compute; reflexivity| |vm_compute; reflexivity..].
  apply ex_two_kept.
Defined.

Lemma JoinChannel_admission_witness :
  playersStore (JoinChannel ex_world ex_alice [] ex_channel).1 !! 5 = Some (mkPlayerInfo 5 3).
Proof.
  pose proof (JoinChannel_admission ex_world ex_alice [] ex_channel) as H.
  destruct (JoinChannel ex_world ex_alice [] ex_channel) as [c' out] eqn:E. cbn [fst].
  destruct H as [H _]; [vm_compute; discriminate|]. exact H.
Defined.

Lemma List_packet_bytes_witness :
  make_packet SMSG_CHANNEL_LIST (List_packet ex_world ex_bob ex_two)
  = Packet SMSG_CHANNEL_LIST (Ok
      ([1] ++ literal "guildies" ++ [0] ++ [1] ++ [2; 0; 0; 0]
       ++ [5; 0; 0; 0; 0; 0; 0; 0; 3] ++ [7; 0; 0; 0; 0; 0; 0; 0; 0])).
Proof.
  refine (List_packet_bytes ex_world ex_bob ex_two _ _ _ _); [|vm_compute; done..].
  repeat constructor; vm_compute; done.
Defined.

Definition ex_saved : Channel := set_banned {[7]} (set_password (literal "pw") ex_channel).

Lemma channel_row_roundtrip_witness :
  exists announce ownership password bannedList name team,
    UpdateChannelInDB ex_saved
    = [Execute (CHAR_UPD_CHANNEL announce ownership password bannedList name team)]
    /\ bannedStore (new_Channel ex_world (Some (announce, ownership, password, Some bannedList))
                      name 0 team).1 = {[7]}.
Proof.
  destruct (channel_row_roundtrip ex_world ex_saved) as (a & o & pw & bl & n & t & E & H).
  - reflexivity.
  - reflexivity.
  - reflexivity.
  - intros g Hg. change (g ∈ ({[7]} : gset Z)) in Hg. apply elem_of_singleton in Hg. subst.
    vm_compute. split; [reflexivity|discriminate].
  - exists a, o, pw, bl, n, t. split; [exact E|]. apply H.
Defined.
