(* ===== verification/ChannelMgr.v ===== *)
(** * The channel manager and the channel requests
    (src/server/game/Chat/Channels/ChannelMgr.cpp, Handlers/ChannelHandler.cpp,
    the channel lists of Entities/Player/Player.cpp)

    One manager's channels by lower-cased name, together with every player's
    [m_channels].  A pointer to a channel is its key; a pointer whose key is
    gone is dangling.  Requests are read from client packets and run on the
    manager. *)
From S2P Require Import Prelude.
From S2P Require Import Lists.
From S2P Require Import ByteBuffer.
From S2P Require Import Util.
From S2P Require Import Rbac.
From S2P Require Import Channel.
From S2P Require Import ChannelOwner.
From S2P Require Import ChannelRules.
Local Open Scope Z_scope.

Abbreviation wtext := (list Z) (only parsing).

Definition TEAM_ALLIANCE_ID : Z := 469.
Definition TEAM_HORDE_ID : Z := 67.
Definition MAX_INTERNAL_PLAYER_NAME : Z := 15.

(** ** State *)

Record ChannelMgr := mkChannelMgr {
  channels : gmap wtext Channel;
  team : Z
}.

Definition set_channels (m : gmap wtext Channel) (mgr : ChannelMgr) : ChannelMgr :=
  mkChannelMgr m (team mgr).
(** [setTeam(newTeam)] *)
Definition setTeam (newTeam : Z) (mgr : ChannelMgr) : ChannelMgr := mkChannelMgr (channels mgr) newTeam.

Record Chat := mkChat {
  mgr : ChannelMgr;
  m_channels : gmap Z (list wtext)
}.

(** A player's list of joined channels. *)
Definition joined (s : Chat) (guid : Z) : list wtext := default [] (m_channels s !! guid).

(** [m_channels.push_back(c)] and [m_channels.remove(c)] of the players the
    events of channel [key] name. *)
Definition list_event (key : wtext) (m : gmap Z (list wtext)) (e : Event) : gmap Z (list wtext) :=
  match e with
  | JoinedChannel g => <[g := default [] (m !! g) ++ [key]]> m
  | LeftChannel g => <[g := filter (fun k => k <> key) (default [] (m !! g))]> m
  | _ => m
  end.

(** The channel [key] has become [c] and has had the effects [out]. *)
Definition commit (key : wtext) (r : Channel * list Event) (s : Chat) : Chat :=
  mkChat (set_channels (<[key := r.1]> (channels (mgr s))) (mgr s))
    (foldl (list_event key) (m_channels s) r.2).

(** ** Built-in channels by zone *)

Definition CHANNEL_DBC_FLAG_ZONE_DEP : Z := 0x00002.
Definition CHANNEL_DBC_FLAG_CITY_ONLY : Z := 0x00010.
Definition CHANNEL_DBC_FLAG_GUILD_REQ : Z := 0x20000.
Definition AREA_FLAG_SLAVE_CAPITAL : Z := 0x00000008.
Definition AREA_FLAG_ARENA_INSTANCE : Z := 0x00010000.

(** [Player::CanJoinConstantChannelInZone(channel, zone)] *)
Definition CanJoinConstantChannelInZone (channel_flags zone_flags guildId : Z) : bool :=
  if has_flag channel_flags CHANNEL_DBC_FLAG_ZONE_DEP && has_flag zone_flags AREA_FLAG_ARENA_INSTANCE
  then false
  else if has_flag channel_flags CHANNEL_DBC_FLAG_CITY_ONLY
          && negb (has_flag zone_flags AREA_FLAG_SLAVE_CAPITAL)
  then true
  else if has_flag channel_flags CHANNEL_DBC_FLAG_GUILD_REQ && negb (guildId =? 0)
  then false
  else true.

Section Manager.
Context {A : Type} `{!Permissions A}.
Variable w : World A.
(** [Utf8toWStr] and [WStrToUtf8] (the vendored UTF-8 library; [None] is its
    exception), the rows of the [channels] table by name and team, and of a
    player the flags of the zone he is in ([None] for none) and his guild. *)
Variable utf8_to_16 : text -> option wtext.
Variable utf16_to_8 : wtext -> option text.
Variable stored_row : text -> Z -> option (bool * bool * text * option text).
Variable zone_flags : Player A -> option Z.
Variable GetGuildId : Player A -> Z.

(** ** [ChannelMgr] *)

(** [ChannelMgr::forTeam(team)]: which of the two managers, if any. *)
Inductive Manager := AllianceChannelMgr | HordeChannelMgr.
Definition forTeam (team : Z) : option Manager :=
  if CONFIG_ALLOW_TWO_SIDE_INTERACTION_CHANNEL w then Some AllianceChannelMgr
  else if team =? TEAM_ALLIANCE_ID then Some AllianceChannelMgr
  else if team =? TEAM_HORDE_ID then Some HordeChannelMgr
  else None.

(** The key of a name. *)
Definition wname (name : text) : option wtext := wstrToLower <$> utf8_to_16 name.

(** [GetJoinChannel(name, channelId)]: the channel, created when there is
    none; [None] is [NULL]. *)
Definition GetJoinChannel (name : text) (channelId : Z) (m : ChannelMgr)
    : option (wtext * Channel * ChannelMgr * list Event) :=
  match wname name with
  | None => None
  | Some key =>
      match channels m !! key with
      | Some c => Some (key, c, m, [])
      | None =>
          let '(nchan, out) := new_Channel w (stored_row name (team m)) name channelId (team m) in
          Some (key, nchan, set_channels (<[key := nchan]> (channels m)) m, out)
      end
  end.

(** [MakeNotOnPacket(data, name)] *)
Definition MakeNotOnPacket (name : text) : WorldPacket :=
  make_packet SMSG_CHANNEL_NOTIFY (append_T 1 5;; put_string name).

(** [GetChannel(name, player)] *)
Definition GetChannel (name : text) (p : Player A) (m : ChannelMgr)
    : option (wtext * Channel) * list Event :=
  match wname name with
  | None => (None, [])
  | Some key =>
      match channels m !! key with
      | Some c => (Some (key, c), [])
      | None => (None, [SendPacket (GetGUID p) (MakeNotOnPacket name)])
      end
  end.

(** [ChannelMgr::LeftChannel(name)]: delete the channel if it is custom and
    empty. *)
Definition Mgr_LeftChannel (name : text) (m : ChannelMgr) : ChannelMgr :=
  match wname name with
  | None => m
  | Some key =>
      match channels m !! key with
      | None => m
      | Some c =>
          if (GetNumPlayers c =? 0) && negb (IsConstant c)
          then set_channels (delete key (channels m)) m
          else m
      end
  end.

Definition on_mgr (f : ChannelMgr -> ChannelMgr) (s : Chat) : Chat :=
  mkChat (f (mgr s)) (m_channels s).

(** ** Requests *)

(** [normalizePlayerName(name)]; [None] is [false]. *)
Fixpoint before_dash (name : text) : text :=
  match name with
  | [] => []
  | c :: name => if c =? 45 then [] else c :: before_dash name
  end.
Definition normalizePlayerName (name : text) : option text :=
  if negb (nonempty name) then None
  else
    match utf8_to_16 (before_dash name) with
    | None => None
    | Some wstr =>
        if MAX_INTERNAL_PLAYER_NAME <? Z.of_nat (length wstr) then None
        else match wstr with
             | [] => Some []
             | c :: cs => utf16_to_8 (wcharToUpper c :: (wcharToLower <$> cs))
             end
    end.

Inductive Request :=
| RJoin (p : Player A) (channelId : Z) (channelName password : text)
| RLeave (p : Player A) (channelName : text)
| RCommand (p : Player A) (channelName : text) (cmd : Command A)
| RCleanup (p : Player A).

(** The opcodes of the handlers. *)
Inductive ChannelOpcode :=
| CMSG_JOIN_CHANNEL
| CMSG_LEAVE_CHANNEL
| CMSG_CHANNEL_LIST
| CMSG_CHANNEL_PASSWORD
| CMSG_CHANNEL_SET_OWNER
| CMSG_CHANNEL_MODERATOR
| CMSG_CHANNEL_UNMODERATOR
| CMSG_CHANNEL_MUTE
| CMSG_CHANNEL_UNMUTE
| CMSG_CHANNEL_KICK
| CMSG_CHANNEL_BAN
| CMSG_CHANNEL_UNBAN
| CMSG_CHANNEL_ANNOUNCEMENTS.

(** The two lengths of a packet with two strings, in the order sent. *)
Definition read_lengths (first second : nat) : BB (nat * nat) :=
  a ← ReadBits first; b ← ReadBits second; mret (Z.to_nat a, Z.to_nat b).
Definition read_strings (a b : nat) : BB (text * text) :=
  x ← ReadString a; y ← ReadString b; mret (x, y).

(** The command of a target, if the target's name is a name. *)
Definition targeted (p : Player A) (channelName targetName : text) (cmd : text -> Command A)
    : option Request :=
  match normalizePlayerName targetName with
  | None => None
  | Some name => Some (RCommand p channelName (cmd name))
  end.

(** What each handler reads from its packet; [None] is its early return. *)
Definition read_request (op : ChannelOpcode) (p : Player A) : BB (option Request) :=
  match op with
  | CMSG_JOIN_CHANNEL =>
      channelId ← read 4;
      _ ← ReadBit;
      '(channelLength, passLength) ← read_lengths 7 7;
      _ ← ReadBit;
      '(channelName, password) ← read_strings channelLength passLength;
      mret (Some (RJoin p channelId channelName password))
  | CMSG_LEAVE_CHANNEL =>
      _ ← read 4;
      length ← ReadBits 7;
      channelName ← ReadString (Z.to_nat length);
      mret (Some (RLeave p channelName))
  | CMSG_CHANNEL_LIST =>
      length ← ReadBits 7;
      channelName ← ReadString (Z.to_nat length);
      mret (Some (RCommand p channelName (CList p)))
  | CMSG_CHANNEL_PASSWORD =>
      '(nameLength, passLength) ← read_lengths 8 7;
      '(channelName, password) ← read_strings nameLength passLength;
      mret (Some (RCommand p channelName (CPassword p password)))
  | CMSG_CHANNEL_SET_OWNER =>
      '(channelLength, nameLength) ← read_lengths 8 7;
      '(targetName, channelName) ← read_strings nameLength channelLength;
      mret (targeted p channelName targetName (CSetOwner p))
  | CMSG_CHANNEL_MODERATOR =>
      '(channelLength, nameLength) ← read_lengths 8 7;
      '(targetName, channelName) ← read_strings nameLength channelLength;
      mret (targeted p channelName targetName (fun n => CSetMode p n true true))
  | CMSG_CHANNEL_UNMODERATOR =>
      '(nameLength, channelLength) ← read_lengths 7 8;
      '(channelName, targetName) ← read_strings channelLength nameLength;
      mret (targeted p channelName targetName (fun n => CSetMode p n true false))
  | CMSG_CHANNEL_MUTE =>
      '(channelLength, nameLength) ← read_lengths 8 7;
      '(channelName, targetName) ← read_strings channelLength nameLength;
      mret (targeted p channelName targetName (fun n => CSetMode p n false true))
  | CMSG_CHANNEL_UNMUTE =>
      '(nameLength, channelLength) ← read_lengths 8 7;
      '(targetName, channelName) ← read_strings nameLength channelLength;
      mret (targeted p channelName targetName (fun n => CSetMode p n false false))
  | CMSG_CHANNEL_KICK =>
      '(channelLength, nameLength) ← read_lengths 8 7;
      '(channelName, targetName) ← read_strings channelLength nameLength;
      mret (targeted p channelName targetName (fun n => CKickOrBan p n false))
  | CMSG_CHANNEL_BAN =>
      '(channelLength, nameLength) ← read_lengths 8 7;
      '(targetName, channelName) ← read_strings nameLength channelLength;
      mret (targeted p channelName targetName (fun n => CKickOrBan p n true))
  | CMSG_CHANNEL_UNBAN =>
      '(channelLength, nameLength) ← read_lengths 7 8;
      '(targetName, channelName) ← read_strings nameLength channelLength;
      mret (targeted p channelName targetName (CUnBan p))
  | CMSG_CHANNEL_ANNOUNCEMENTS =>
      length ← ReadBits 8;
      channelName ← ReadString (Z.to_nat length);
      mret (Some (RCommand p channelName (CAnnounce p)))
  end.

(** The tests of [HandleJoinChannel] on a built-in channel. *)
Definition may_join_here (p : Player A) (channelId : Z) : bool :=
  match sChatChannelsStore w channelId, zone_flags p with
  | Some flags, Some zone => CanJoinConstantChannelInZone flags zone (GetGuildId p)
  | _, _ => false
  end.

(** [HandleJoinChannel], once the packet is read. *)
Definition JoinRequest (p : Player A) (channelId : Z) (channelName password : text) (s : Chat)
    : Chat * list Event :=
  if negb (channelId =? 0) && negb (may_join_here p channelId) then (s, [])
  else if negb (nonempty channelName) then (s, [])
  else
    let s := on_mgr (setTeam (GetTeam p)) s in
    match GetJoinChannel channelName channelId (mgr s) with
    | None => (s, [])
    | Some (key, c, m, out) =>
        let r := JoinChannel w p password c in
        (commit key r (on_mgr (fun _ => m) s), out ++ r.2)
    end.

(** A command on a channel the player names. *)
Definition CommandRequest (p : Player A) (channelName : text) (f : Channel -> Channel * list Event)
    (s : Chat) : Chat * list Event :=
  match GetChannel channelName p (mgr s) with
  | (None, out) => (s, out)
  | (Some (key, c), out) => let r := f c in (commit key r s, out ++ r.2)
  end.

(** [HandleLeaveChannel], once the packet is read. *)
Definition LeaveRequest (p : Player A) (channelName : text) (s : Chat) : Chat * list Event :=
  if negb (nonempty channelName) then (s, [])
  else
    let '(s, out) := CommandRequest p channelName (LeaveChannel w p true) s in
    (on_mgr (Mgr_LeftChannel channelName) s, out).

(** [Player::CleanupChannels()]: one turn of its loop per channel of the
    list; [None] when a pointer dangles. *)
Fixpoint CleanupChannels_loop (fuel : nat) (p : Player A) (s : Chat) (out : list Event)
    : option (Chat * list Event) :=
  match joined s (GetGUID p) with
  | [] => Some (s, out)
  | key :: rest =>
      match fuel with
      | O => None
      | S fuel =>
          let s := mkChat (mgr s) (<[GetGUID p := rest]> (m_channels s)) in
          match channels (mgr s) !! key with
          | None => None
          | Some c =>
              let r := LeaveChannel w p false c in
              let s := on_mgr (Mgr_LeftChannel (_name c)) (commit key r s) in
              CleanupChannels_loop fuel p s (out ++ r.2)
          end
      end
  end.
Definition CleanupChannels (p : Player A) (s : Chat) : option (Chat * list Event) :=
  CleanupChannels_loop (length (joined s (GetGUID p))) p s [].

(** A request's effect; [None] only by a dangling pointer. *)
Definition handle (r : Request) (s : Chat) : option (Chat * list Event) :=
  match r with
  | RJoin p channelId name pass => Some (JoinRequest p channelId name pass s)
  | RLeave p name => Some (LeaveRequest p name s)
  | RCommand p name cmd => Some (CommandRequest p name (run w cmd) s)
  | RCleanup p => CleanupChannels p s
  end.
End Manager.

(** ** What a command leaves alone *)

Section Frame.
Context {A : Type} `{!Permissions A}.
Variable w : World A.

(** The name and the kind of the channel. *)
Definition same_channel (c c' : Channel) : Prop :=
  _name c' = _name c /\ _channelId c' = _channelId c.

Lemma same_refl c : same_channel c c.
Proof. done. Qed.
Lemma same_trans c c' c'' : same_channel c c' -> same_channel c' c'' -> same_channel c c''.
Proof. unfold same_channel. intros [-> ->] [-> ->]. done. Qed.
Lemma SetOwner_same g ex c : same_channel c (SetOwner w g ex c).1.
Proof. by rewrite SetOwner_rest. Qed.
Lemma at_entry_same g f c : same_channel c (at_entry g f c).
Proof. done. Qed.

Lemma JoinChannel_same p pass c : same_channel c (JoinChannel w p pass c).1.
Proof.
  unfold JoinChannel. cbv zeta. do 4 (branch; [done|]).
  branch; cbn [fst]; [|done]. branch; cbn [fst]; [|done].
  split_SetOwner. cbn [fst]. eapply same_trans; [|apply at_entry_same].
  eapply same_trans; [|apply SetOwner_same]. done.
Qed.

Lemma LeaveChannel_same p send c : same_channel c (LeaveChannel w p send c).1.
Proof.
  unfold LeaveChannel. cbv zeta. branch; [done|]. branch; cbn [fst]; [|done].
  branch; cbn [fst]; [|done]. case_match; cbn [fst]; [|done].
  split_SetOwner. cbn [fst]. eapply same_trans; [|apply SetOwner_same]. done.
Qed.

Lemma run_same cmd c : same_channel c (run w cmd c).1.
Proof.
  destruct cmd; cbn [run].
  - apply JoinChannel_same.
  - apply LeaveChannel_same.
  - apply (as_moderator_ind w (same_channel c)); [done|]. intros _. cbv zeta.
    branch; [done|]. branch; [done|].
    match goal with |- context [let '(_, _) := ?x in _] => destruct x as [c0 out0] eqn:E end.
    assert (same_channel c c0) as H by (case_match; by injection E as <- <-).
    branch; cbn [fst]; [|done]. split_SetOwner. cbn [fst].
    eapply same_trans; [|apply SetOwner_same]. done.
  - apply (as_moderator_ind w (same_channel c)); [done|]. intros _. cbv zeta. by branch.
  - by apply (as_moderator_ind w (same_channel c)).
  - apply (as_moderator_ind w (same_channel c)); [done|]. intros _. cbv zeta.
    branch; [done|]. branch; [done|]. branch; [done|].
    branch; unfold SetModerator, SetMute; cbv zeta; by branch.
  - apply (as_member_ind w (same_channel c)); [done|]. intros _. cbv zeta.
    branch; [done|]. branch; [done|]. eapply same_trans; [|apply SetOwner_same]. done.
  - by apply (as_moderator_ind w (same_channel c)).
  - by apply (as_member_ind w (same_channel c)).
  - done.
Qed.
End Frame.

(** ** The lists of one channel *)

Section Lists.
Implicit Types m : gmap Z (list wtext).

Definition holders_ok (key : wtext) m (s : gset Z) : Prop :=
  forall g, key ∈ default [] (m !! g) <-> g ∈ s.

Lemma list_event_holders key m s e :
  holders_ok key m s -> holders_ok key (list_event key m e) (track s e).
Proof.
  intros H g. pose proof (H g) as Hg.
  destruct e as [r d|g'|g'|st]; cbn; [apply H| | |apply H].
  - destruct (decide (g' = g)) as [->|Hn].
    + rewrite lookup_insert_eq. cbn. rewrite elem_of_app, list_elem_of_singleton. set_solver.
    + rewrite lookup_insert_ne by done. set_solver.
  - destruct (decide (g' = g)) as [->|Hn].
    + rewrite lookup_insert_eq. cbn. rewrite list_elem_of_filter. set_solver.
    + rewrite lookup_insert_ne by done. set_solver.
Qed.

Lemma list_events_holders key m s out :
  holders_ok key m s -> holders_ok key (foldl (list_event key) m out) (foldl track s out).
Proof.
  revert m s. induction out as [|e out IH]; intros m s H; [done|].
  cbn. by apply IH, list_event_holders.
Qed.

Lemma list_events_other key key' m out g :
  key' <> key -> key' ∈ default [] (foldl (list_event key) m out !! g) <-> key' ∈ default [] (m !! g).
Proof.
  intros Hk. revert m. induction out as [|e out IH]; intros m; [done|]. cbn [foldl]. rewrite IH.
  destruct e as [r d|g'|g'|st]; cbn; [done| | |done]; destruct (decide (g' = g)) as [->|Hn].
  - rewrite lookup_insert_eq. cbn. rewrite elem_of_app, list_elem_of_singleton. naive_solver.
  - by rewrite lookup_insert_ne by done.
  - rewrite lookup_insert_eq. cbn. rewrite list_elem_of_filter. naive_solver.
  - by rewrite lookup_insert_ne by done.
Qed.

Lemma list_events_nodup key m s out :
  holders_ok key m s -> joins_fresh s out -> (forall g, NoDup (default [] (m !! g))) ->
  forall g, NoDup (default [] (foldl (list_event key) m out !! g)).
Proof.
  revert m s. induction out as [|e out IH]; intros m s H Hf Hd; [done|].
  cbn [foldl]. destruct Hf as [He Hf].
  apply (IH _ (track s e)); [by apply list_event_holders|done|].
  intros g. destruct e as [r d|g'|g'|st]; cbn; [apply Hd| | |apply Hd];
    (destruct (decide (g' = g)) as [->|Hn]; [rewrite lookup_insert_eq|by rewrite lookup_insert_ne by done]).
  - cbn. apply NoDup_app. split; [apply Hd|]. split; [|apply NoDup_singleton].
    intros k Hk ->%list_elem_of_singleton. by apply He, H.
  - by apply NoDup_filter.
Qed.
End Lists.

(** ** The manager's invariant *)

Section Invariant.
Context {A : Type} `{!Permissions A}.
Variable w : World A.
Variable utf8_to_16 : text -> option wtext.
Variable stored_row : text -> Z -> option (bool * bool * text * option text).
Variable zone_flags : Player A -> option Z.
Variable GetGuildId : Player A -> Z.

Abbreviation wname := (wname utf8_to_16).
Abbreviation handle := (handle w utf8_to_16 stored_row zone_flags GetGuildId).
Abbreviation Mgr_LeftChannel := (Mgr_LeftChannel utf8_to_16).

(** A player's list holds exactly the channels he is a member of, once. *)
Record lists_ok (s : Chat) : Prop := {
  lo_member : forall g key,
    key ∈ joined s g <-> exists c, channels (mgr s) !! key = Some c /\ g ∈ members c;
  lo_nodup : forall g, NoDup (joined s g)
}.

(** Moreover each channel is well formed (Section Invariant of
    ChannelOwner.v), is filed under its own name, and has fewer members than
    [GetNumPlayers] can count. *)
Record chat_inv (s : Chat) : Prop := {
  ci_kept : forall key c, channels (mgr s) !! key = Some c -> kept c;
  ci_name : forall key c, channels (mgr s) !! key = Some c -> wname (_name c) = Some key;
  ci_lists : lists_ok s
}.

Definition fits (s : Chat) : Prop :=
  forall key c, channels (mgr s) !! key = Some c -> Z.of_nat (base.size (members c)) < 2 ^ 32.

(** The requests the invariant is about: a player with a GUID, and not an
    owner's self-kick. *)
Definition request_ok (r : Request) (s : Chat) : Prop :=
  match r with
  | RJoin p _ _ _ | RLeave p _ | RCleanup p => GetGUID p <> 0
  | RCommand p _ cmd =>
      real_actor cmd /\ actor cmd = Some p
      /\ (forall q pass, cmd <> CJoin q pass) /\ (forall q send, cmd <> CLeave q send)
      /\ forall key c, channels (mgr s) !! key = Some c -> ~ owner_kicks_himself w cmd c
  end.

Lemma commit_lookup key r s key' :
  channels (mgr (commit key r s)) !! key'
  = if bool_decide (key = key') then Some r.1 else channels (mgr s) !! key'.
Proof.
  cbn. case_bool_decide; [subst; apply lookup_insert_eq|by apply lookup_insert_ne].
Qed.

Lemma commit_lists key c r s :
  lists_ok s -> channels (mgr s) !! key = Some c -> tracked c r -> lists_ok (commit key r s).
Proof.
  intros [Hm Hd] Hc [Ht Hf].
  assert (holders_ok key (m_channels s) (members c)) as H.
  { intros g. rewrite (Hm g key). rewrite Hc. naive_solver. }
  split.
  - intros g key'. rewrite commit_lookup. case_bool_decide as Hk.
    + subst key'. rewrite (list_events_holders key _ (members c) r.2 H g), <- Ht. naive_solver.
    + unfold joined. cbn. rewrite list_events_other by done. apply Hm.
  - by apply (list_events_nodup key (m_channels s) (members c)).
Qed.

(** A change of the manager that keeps the members of every channel and only
    adds or removes channels without members. *)
Lemma lists_ok_mgr s f :
  lists_ok s ->
  (forall key c, channels (f (mgr s)) !! key = Some c ->
     channels (mgr s) !! key = Some c \/ (channels (mgr s) !! key = None /\ members c = ∅)) ->
  (forall key c, channels (mgr s) !! key = Some c ->
     channels (f (mgr s)) !! key = Some c \/ members c = ∅) ->
  lists_ok (on_mgr f s).
Proof.
  intros [Hm Hd] H1 H2. split; [|exact Hd].
  intros g key. change (joined (on_mgr f s) g) with (joined s g). rewrite (Hm g key).
  change (mgr (on_mgr f s)) with (f (mgr s)). split; intros (c & Hc & Hg).
  - destruct (H2 key c Hc) as [H|H]; [eauto|]. rewrite H in Hg. set_solver.
  - destruct (H1 key c Hc) as [H|[_ H]]; [eauto|]. rewrite H in Hg. set_solver.
Qed.

Lemma members_empty c : members c = ∅ <-> playersStore c = ∅.
Proof. unfold members. apply dom_empty_iff_L. Qed.

Lemma GetNumPlayers_0 c :
  Z.of_nat (base.size (members c)) < 2 ^ 32 -> (GetNumPlayers c =? 0) = true <-> members c = ∅.
Proof.
  intros Hs. unfold GetNumPlayers. unfold members in *. rewrite size_dom in Hs.
  rewrite u32_small by (unfold is_u32; lia).
  rewrite Z.eqb_eq, dom_empty_iff_L, <- map_size_empty_iff. lia.
Qed.

(** What [LeftChannel(name)] deletes. *)
Lemma Mgr_LeftChannel_lookup name key c m key' :
  wname name = Some key -> channels m !! key = Some c ->
  Z.of_nat (base.size (members c)) < 2 ^ 32 ->
  channels (Mgr_LeftChannel name m) !! key'
  = if bool_decide (key = key' /\ members c = ∅ /\ IsConstant c = false) then None
    else channels m !! key'.
Proof.
  intros Hn Hc Hs. unfold ChannelMgr.Mgr_LeftChannel. rewrite Hn, Hc.
  pose proof (GetNumPlayers_0 c Hs) as H0.
  destruct (GetNumPlayers c =? 0) eqn:E; cbn [andb].
  - assert (members c = ∅) as He by (by apply H0). destruct (IsConstant c) eqn:Ec; cbn [negb].
    + rewrite bool_decide_false; [done|]. naive_solver.
    + cbn. destruct (decide (key = key')) as [->|Hk].
      * rewrite lookup_delete_eq, bool_decide_true; done.
      * rewrite lookup_delete_ne, bool_decide_false; [done| |done]. naive_solver.
  - rewrite bool_decide_false; [done|]. intros (_ & He & _). apply H0 in He. done.
Qed.

(** Deleting an emptied channel restores the invariant that [LeaveChannel]
    may break: [s] is as it should be except that the channel [key], if it is
    empty, may still name its last owner. *)
Lemma left_channel_inv s name key c :
  channels (mgr s) !! key = Some c -> wname name = Some key ->
  (forall key' c', channels (mgr s) !! key' = Some c' -> key' <> key -> kept c') ->
  inv c ->
  (forall key' c', channels (mgr s) !! key' = Some c' -> wname (_name c') = Some key') ->
  lists_ok s -> Z.of_nat (base.size (members c)) < 2 ^ 32 ->
  chat_inv (on_mgr (Mgr_LeftChannel name) s).
Proof.
  intros Hc Hn Hk Hi Hnames Hl Hs.
  assert (forall key', channels (mgr (on_mgr (Mgr_LeftChannel name) s)) !! key'
          = if bool_decide (key = key' /\ members c = ∅ /\ IsConstant c = false) then None
            else channels (mgr s) !! key') as E by (intros; by apply Mgr_LeftChannel_lookup).
  split.
  - intros key' c'. rewrite E. case_bool_decide as Hd; [done|]. intros Hc'.
    destruct (decide (key' = key)) as [->|Hne]; [|by eapply Hk].
    rewrite Hc in Hc'. injection Hc' as <-. split; [done|]. intros Hcst _ He.
    exfalso. apply Hd. by rewrite members_empty.
  - intros key' c'. rewrite E. case_bool_decide; [done|]. apply Hnames.
  - apply lists_ok_mgr; [done|..]; intros key' c'.
    + intros H. left. pose proof (E key') as E'. cbn in E'. rewrite E' in H. by case_bool_decide.
    + intros H. pose proof (E key') as E'. cbn in E'. rewrite E'.
      case_bool_decide as Hd; [|by left]. destruct Hd as (<- & He & _). right. congruence.
Qed.

Lemma commit_inv key c r s :
  chat_inv s -> channels (mgr s) !! key = Some c -> kept r.1 -> same_channel c r.1 ->
  tracked c r -> chat_inv (commit key r s).
Proof.
  intros [Hk Hn Hl] Hc Hkr [Hsn _] Ht. split.
  - intros key' c'. rewrite commit_lookup. case_bool_decide; [by intros [= <-]|apply Hk].
  - intros key' c'. rewrite commit_lookup. case_bool_decide; [|apply Hn].
    intros [= <-]. rewrite Hsn. subst. by apply Hn.
  - by eapply commit_lists.
Qed.

Lemma kept_new row name id t : kept (new_Channel w row name id t).1.
Proof.
  destruct (new_Channel_store w row name id t) as [Hs Ho]. split; [split; [split|]|].
  - intros k pi. by rewrite Hs, lookup_empty.
  - intros k pi. by rewrite Hs, lookup_empty.
  - intros k pi. by rewrite Hs, lookup_empty.
  - intros _ _ Hne. by rewrite Hs in Hne.
  - by intros _ _ _.
Qed.

Lemma new_Channel_name row name id t : _name (new_Channel w row name id t).1 = name.
Proof. unfold new_Channel. by repeat case_match. Qed.

(** ** The requests keep the invariant *)

Lemma CommandRequest_inv (p : Player A) name f s :
  chat_inv s ->
  (forall key c, channels (mgr s) !! key = Some c ->
     kept (f c).1 /\ same_channel c (f c).1 /\ tracked c (f c)) ->
  chat_inv (CommandRequest utf8_to_16 p name f s).1.
Proof.
  intros Hi Hf. unfold CommandRequest, GetChannel. destruct (wname name) as [key|]; [|done].
  destruct (channels (mgr s) !! key) as [c|] eqn:Hc; [|done]. cbn [fst].
  destruct (Hf key c Hc) as (Hk & Hs & Ht). by apply (commit_inv key c).
Qed.

Lemma run_ok cmd c :
  kept c -> real_actor cmd -> ~ owner_kicks_himself w cmd c -> cmd <> CSetOwnership true ->
  (forall p send, cmd <> CLeave p send) ->
  kept (run w cmd c).1 /\ same_channel c (run w cmd c).1 /\ tracked c (run w cmd c).
Proof.
  intros Hk Ha Hs Ho Hl. split; [by apply kept_step|]. split; [apply run_same|].
  apply run_tracked; [apply Hk|done|auto].
Qed.

Lemma JoinRequest_inv p id name pass s :
  chat_inv s -> GetGUID p <> 0 ->
  chat_inv (JoinRequest w utf8_to_16 stored_row zone_flags GetGuildId p id name pass s).1.
Proof.
  intros Hi Hp. unfold JoinRequest. branch; [done|]. branch; [done|].
  set (s1 := on_mgr (setTeam (GetTeam p)) s).
  assert (chat_inv s1) as Hi1.
  { destruct Hi as [Hk Hn Hl]. split; [exact Hk|exact Hn|].
    apply lists_ok_mgr; [done|..]; by left. }
  assert (forall key c s2, chat_inv s2 -> channels (mgr s2) !! key = Some c ->
          chat_inv (commit key (JoinChannel w p pass c) s2)) as Hjoin.
  { intros key c s2 Hi2 Hc.
    destruct (run_ok (CJoin p pass) c) as (H1 & H2 & H3);
      [by eapply ci_kept|exact Hp|by intros []|discriminate|discriminate|].
    by apply (commit_inv key c). }
  unfold GetJoinChannel. destruct (wname name) as [key|] eqn:Hn; [|done].
  destruct (channels (mgr s1) !! key) as [c|] eqn:Hc; cbn [fst].
  - apply Hjoin; [|done]. by destruct s1 as [[]].
  - set (row := stored_row name _). destruct (new_Channel w row name id _) as [nchan out] eqn:E.
    cbn [fst]. pose proof (f_equal fst E) as En. cbn in En.
    apply Hjoin; [|cbn; apply lookup_insert_eq].
    destruct Hi1 as [Hk Hnm Hl]. split.
    + cbn. intros key' c' [[<- <-]|[_ H]]%lookup_insert_Some; [|by eapply Hk].
      rewrite <- En. apply kept_new.
    + cbn. intros key' c' [[<- <-]|[_ H]]%lookup_insert_Some; [|by eapply Hnm].
      by rewrite <- En, new_Channel_name.
    + apply lists_ok_mgr; [done|..]; cbn.
      * intros key' c' [[<- <-]|[_ H]]%lookup_insert_Some; [right|by left].
        split; [done|]. rewrite <- En. apply members_empty, new_Channel_store.
      * intros key' c' H. left. rewrite lookup_insert_ne; [done|]. intros <-.
        cbn in Hc, H. congruence.
Qed.

Lemma Leave_members_le p send c :
  entries_ok c -> (base.size (members (LeaveChannel w p send c).1) <= base.size (members c))%nat.
Proof.
  intros He. destruct (IsOn c (GetGUID p)) eqn:Hon.
  - destruct (LeaveChannel_members w p send c He Hon) as (_ & _ & _ & ->).
    apply subseteq_size. set_solver.
  - unfold LeaveChannel. by rewrite Hon.
Qed.

Lemma LeaveRequest_inv p name s :
  chat_inv s -> fits s -> chat_inv (LeaveRequest w utf8_to_16 p name s).1.
Proof.
  intros Hi Hf. unfold LeaveRequest. branch; [done|].
  unfold CommandRequest, GetChannel. destruct (wname name) as [key|] eqn:Hn; cbn [fst].
  2:{ destruct Hi as [Hk Hnm Hl]. unfold on_mgr, ChannelMgr.Mgr_LeftChannel. rewrite Hn.
      by destruct s. }
  destruct (channels (mgr s) !! key) as [c|] eqn:Hc; cbn [fst].
  2:{ unfold on_mgr, ChannelMgr.Mgr_LeftChannel. rewrite Hn, Hc. by destruct s. }
  pose proof (ci_kept _ Hi _ _ Hc) as Hkc.
  set (r := LeaveChannel w p true c).
  apply (left_channel_inv _ name key r.1).
  - by rewrite commit_lookup, bool_decide_true.
  - done.
  - intros key' c'. rewrite commit_lookup. case_bool_decide; [by intros _ []|].
    intros H' _. by eapply ci_kept.
  - apply LeaveChannel_inv, Hkc.
  - intros key' c'. rewrite commit_lookup. case_bool_decide as Hk; [|by eapply ci_name].
    intros [= <-]. subst key'. destruct (LeaveChannel_same w p true c) as [Hsn _].
    fold r in Hsn. rewrite Hsn. by eapply ci_name.
  - apply (commit_lists key c); [apply Hi|done|]. apply LeaveChannel_tracked, Hkc.
  - pose proof (Leave_members_le p true c (inv_entries _ (kept_inv _ Hkc))) as Hle. specialize (Hf _ _ Hc).
    fold r in Hle. lia.
Qed.

(** ** Logging out *)

Lemma list_events_quiet key m out : quiet out -> foldl (list_event key) m out = m.
Proof. intros H. revert m. by induction H as [|[] out He _ IH]; intros m; cbn; rewrite ?IH. Qed.

(** One turn of [CleanupChannels]. *)
Definition cleanup_turn (p : Player A) (key : wtext) (rest : list wtext) (c : Channel) (s : Chat) : Chat :=
  on_mgr (Mgr_LeftChannel (_name c))
    (commit key (LeaveChannel w p false c) (mkChat (mgr s) (<[GetGUID p := rest]> (m_channels s)))).

Lemma cleanup_turn_ok p key rest c s :
  chat_inv s -> fits s -> joined s (GetGUID p) = key :: rest -> channels (mgr s) !! key = Some c ->
  chat_inv (cleanup_turn p key rest c s) /\ fits (cleanup_turn p key rest c s)
  /\ joined (cleanup_turn p key rest c s) (GetGUID p) = rest.
Proof.
  intros Hi Hf Hj Hc. pose proof (ci_kept _ Hi _ _ Hc) as Hkc.
  destruct (ci_lists _ Hi) as [Hm Hd].
  assert (IsOn c (GetGUID p) = true) as Hon.
  { apply IsOn_members. destruct (Hm (GetGUID p) key) as [H _]. rewrite Hj in H.
    destruct H as (c' & Hc' & H); [by left|]. congruence. }
  destruct (LeaveChannel_members w p false c (inv_entries _ (kept_inv _ Hkc)) Hon) as (out & Hq & Eo & Emem).
  pose proof (Leave_members_le p false c (inv_entries _ (kept_inv _ Hkc))) as Hle.
  pose proof (Hd (GetGUID p)) as Hnd. rewrite Hj in Hnd. apply NoDup_cons in Hnd as [Hnew Hnd].
  unfold cleanup_turn. set (s1 := mkChat _ _). set (r := LeaveChannel w p false c) in *.
  assert (m_channels (commit key r s1) = <[GetGUID p := rest]> (m_channels s)) as Elist.
  { cbn. rewrite Eo. cbn. by apply list_events_quiet. }
  assert (lists_ok (commit key r s1)) as Hl.
  { split.
    - intros g key'. unfold joined. rewrite Elist, commit_lookup. specialize (Hm g key').
      unfold joined in Hm, Hj. destruct (decide (GetGUID p = g)) as [<-|Hg].
      + rewrite lookup_insert_eq. cbn. rewrite Hj in Hm. rewrite elem_of_cons in Hm.
        case_bool_decide as Hk; [subst key'; set_solver|]. naive_solver.
      + rewrite lookup_insert_ne by done. rewrite Hm. case_bool_decide as Hk; [|done].
        subst key'. rewrite Hc. set_solver.
    - intros g. unfold joined. rewrite Elist. destruct (decide (GetGUID p = g)) as [<-|Hg].
      + by rewrite lookup_insert_eq.
      + rewrite lookup_insert_ne by done. apply Hd. }
  assert (Z.of_nat (base.size (members r.1)) < 2 ^ 32) as Hsz by (specialize (Hf _ _ Hc); lia).
  assert (channels (mgr (commit key r s1)) !! key = Some r.1) as Hc1
    by (by rewrite commit_lookup, bool_decide_true).
  assert (wname (_name c) = Some key) as Hn by (by eapply ci_name).
  split; [|split].
  - apply (left_channel_inv _ (_name c) key r.1); [done|done|..|done|done].
    + intros key' c'. rewrite commit_lookup. case_bool_decide; [by intros _ []|].
      intros H' _. by eapply (ci_kept s).
    + apply LeaveChannel_inv, Hkc.
    + intros key' c'. rewrite commit_lookup. case_bool_decide as Hk; [|by eapply (ci_name s)].
      intros [= <-]. subst key'. destruct (LeaveChannel_same w p false c) as [Hsn _].
      fold r in Hsn. by rewrite Hsn.
  - intros key' c' H'.
    pose proof (Mgr_LeftChannel_lookup (_name c) key r.1 _ key' Hn Hc1 Hsz) as E'. cbn in E', H'.
    rewrite E' in H'. case_bool_decide; [done|].
    destruct (decide (key = key')) as [->|Hk].
    + rewrite lookup_insert_eq in H'. by injection H' as <-.
    + rewrite lookup_insert_ne in H' by done. by eapply Hf.
  - unfold joined, on_mgr. cbn [m_channels]. rewrite Elist. by rewrite lookup_insert_eq.
Qed.

Lemma CleanupChannels_loop_ok p fuel s out :
  chat_inv s -> fits s -> (length (joined s (GetGUID p)) <= fuel)%nat ->
  exists s' out', CleanupChannels_loop w utf8_to_16 fuel p s out = Some (s', out')
    /\ chat_inv s' /\ joined s' (GetGUID p) = [].
Proof.
  revert s out. induction fuel as [|fuel IH]; intros s out Hi Hf Hlen; cbn [CleanupChannels_loop].
  - destruct (joined s (GetGUID p)) eqn:Hj; [eauto|cbn in Hlen; lia].
  - destruct (joined s (GetGUID p)) as [|key rest] eqn:Hj; [eauto|].
    destruct (lo_member _ (ci_lists _ Hi) (GetGUID p) key) as [H _]. rewrite Hj in H.
    destruct H as (c & Hc & _); [by left|]. cbn [mgr]. rewrite Hc.
    destruct (cleanup_turn_ok p key rest c s Hi Hf Hj Hc) as (Hi' & Hf' & Hj').
    unfold cleanup_turn in *. apply IH; [done|done|]. rewrite Hj'. cbn in Hlen. lia.
Qed.

(** ** Everything that happens to a manager *)

Inductive chat_reachable : Chat -> Prop :=
| chat_start t : chat_reachable (mkChat (mkChannelMgr ∅ t) ∅)
| chat_step s r s' out :
    chat_reachable s -> fits s -> request_ok r s -> handle r s = Some (s', out) ->
    chat_reachable s'.

Lemma chat_start_inv t : chat_inv (mkChat (mkChannelMgr ∅ t) ∅).
Proof.
  split.
  - intros key c. cbn. by rewrite lookup_empty.
  - intros key c. cbn. by rewrite lookup_empty.
  - split; intros g; unfold joined; cbn; rewrite lookup_empty; [|constructor].
    intros key. cbn. rewrite elem_of_nil. split; [done|]. intros (c & Hc & _).
    by rewrite lookup_empty in Hc.
Qed.

Lemma handle_inv r s :
  chat_inv s -> fits s -> request_ok r s ->
  exists s' out, handle r s = Some (s', out) /\ chat_inv s'.
Proof.
  intros Hi Hf Hr. destruct r as [p id name pass|p name|p name cmd|p]; cbn [ChannelMgr.handle].
  - pose proof (JoinRequest_inv p id name pass s Hi Hr). destruct (JoinRequest _ _ _ _ _ _ _ _ _ _). eauto.
  - pose proof (LeaveRequest_inv p name s Hi Hf). destruct (LeaveRequest _ _ _ _ _). eauto.
  - destruct Hr as (Ha & Hp & Hj & Hl & Hs).
    assert (chat_inv (CommandRequest utf8_to_16 p name (run w cmd) s).1) as H.
    { apply CommandRequest_inv; [done|]. intros key c Hc.
      apply run_ok; [by eapply ci_kept|done|by eapply Hs| |done].
      intros ->. discriminate Hp. }
    destruct (CommandRequest _ _ _ _ _). eauto.
  - destruct (CleanupChannels_loop_ok p _ s [] Hi Hf (le_n _)) as (s' & out & E & H & _). eauto.
Qed.

Lemma chat_reachable_inv s : chat_reachable s -> chat_inv s.
Proof.
  induction 1 as [t|s r s' out _ IH Hf Hr Hh]; [apply chat_start_inv|].
  destruct (handle_inv r s IH Hf Hr) as (s1 & out1 & E & H). rewrite E in Hh. by injection Hh as <- <-.
Qed.


(** Logging out always works and leaves nothing behind.  In every
    reachable state [CleanupChannels] ends after one turn per channel without
    following a dangling pointer, and afterwards the player's list is empty
    and he is a member of no channel of the manager. *)
Theorem CleanupChannels_complete s p :
  chat_reachable s -> fits s ->
  exists s' out, CleanupChannels w utf8_to_16 p s = Some (s', out)
    /\ joined s' (GetGUID p) = []
    /\ forall key c, channels (mgr s') !! key = Some c -> IsOn c (GetGUID p) = false.
Proof.
  intros Hr%chat_reachable_inv Hf.
  destruct (CleanupChannels_loop_ok p _ s [] Hr Hf (le_n _)) as (s' & out & E & Hi & Hj).
  exists s', out. split; [done|]. split; [done|]. intros key c Hc.
  destruct (IsOn c (GetGUID p)) eqn:Hon; [|done]. apply IsOn_members in Hon.
  assert (key ∈ joined s' (GetGUID p)) as H by (apply (lo_member _ (ci_lists _ Hi)); eauto).
  rewrite Hj in H. by apply elem_of_nil in H.
Qed.
End Invariant.

(** ** A run on the small world of ChannelOwner.v *)

Definition ex_wide (t : text) : option wtext := Some t.
Definition ex_handle := handle ex_world ex_wide (fun _ _ => None) (fun _ => None) (fun _ => 0).
Definition ex_chat0 : Chat := mkChat (mkChannelMgr ∅ 0) ∅.
Definition ex_step (r : Request) (s : Chat) : Chat :=
  match ex_handle r s with Some (s', _) => s' | None => s end.
(** Alice opens "Guildies", Bob joins it as "GUILDIES". *)
Definition ex_chat1 : Chat := ex_step (RJoin ex_alice 0 (literal "Guildies") []) ex_chat0.
Definition ex_chat2 : Chat := ex_step (RJoin ex_bob 0 (literal "GUILDIES") []) ex_chat1.

(** A bound on every channel that computation can check. *)
Lemma fits_forall s : map_Forall (fun _ c => Z.of_nat (base.size (members c)) < 2 ^ 32)
  (channels (mgr s)) -> fits s.
Proof. done. Defined.

Lemma ex_chat2_reachable :
  chat_reachable ex_world ex_wide (fun _ _ => None) (fun _ => None) (fun _ => 0) ex_chat2.
Proof.
  apply (chat_step _ _ _ _ _ ex_chat1 (RJoin ex_bob 0 (literal "GUILDIES") []) ex_chat2
           (match ex_handle (RJoin ex_bob 0 (literal "GUILDIES") []) ex_chat1 with
            | Some (_, out) => out | None => [] end)).
  - apply (chat_step _ _ _ _ _ ex_chat0 (RJoin ex_alice 0 (literal "Guildies") []) ex_chat1
             (match ex_handle (RJoin ex_alice 0 (literal "Guildies") []) ex_chat0 with
              | Some (_, out) => out | None => [] end)).
    + apply chat_start.
    + apply fits_forall. apply map_Forall_empty.
    + change (5 <> 0). discriminate.
    + vm_compute. reflexivity.
  - apply fits_forall. apply (bool_decide_unpack _). vm_compute. exact I.
  - change (7 <> 0). discriminate.
  - vm_compute. reflexivity.
Defined.


Lemma CleanupChannels_complete_witness :
  exists s' out, CleanupChannels ex_world ex_wide ex_alice ex_chat2 = Some (s', out)
                 /\ joined s' 5 = [].
Proof.
  destruct (CleanupChannels_complete ex_world ex_wide (fun _ _ => None) (fun _ => None) (fun _ => 0)
              ex_chat2 ex_alice) as (s' & out & E & H & _).
  - apply ex_chat2_reachable.
  - apply fits_forall. apply (bool_decide_unpack _). vm_compute. exact I.
  - exists s', out. split; [exact E|exact H].
Defined.
