(* ===== verification/MotionMaster.v ===== *)
(** * The movement generators of a unit (src/server/game/Movement/MotionMaster.cpp, MotionMaster.h)

    Three slots of generators, of which the highest in use is active; the
    requests that install, clear and expire generators, at once or, when they
    come from inside the active generator's own [Update], after it.  A
    generator is an identity; what happens to it is recorded in order.
    Reading outside the slots and dereferencing [NULL] are errors. *)
From S2P Require Import Prelude.
Local Open Scope Z_scope.

(** ** State *)

(** A generator other than [NULL]; [si_idleMovement] is the shared static
    one. *)
Definition MovementGenerator : Type := Z.
Definition si_idleMovement : MovementGenerator := 0.
Definition isStatic (mv : MovementGenerator) : bool := mv =? si_idleMovement.

Inductive MovementSlot := MOTION_SLOT_IDLE | MOTION_SLOT_ACTIVE | MOTION_SLOT_CONTROLLED.
Definition slot_index (s : MovementSlot) : Z :=
  match s with MOTION_SLOT_IDLE => 0 | MOTION_SLOT_ACTIVE => 1 | MOTION_SLOT_CONTROLLED => 2 end.

Definition MMCF_NONE : Z := 0.
Definition MMCF_UPDATE : Z := 1.
Definition MMCF_RESET : Z := 2.

(** Calls on a generator, and its deletion; [Updated] is the return from
    [Update]. *)
Inductive Call :=
| Initialized (g : MovementGenerator)
| Finalized (g : MovementGenerator)
| Deleted (g : MovementGenerator)
| WasReset (g : MovementGenerator)
| Updating (g : MovementGenerator)
| Updated (g : MovementGenerator).

Inductive MMError := OutOfBounds | NullDereference | AssertFailed | OutOfFuel.

Record MotionMaster := mkMotionMaster {
  _expList : option (list MovementGenerator);
  Impl : list (option MovementGenerator);
  _top : Z;
  _needInit : list bool;
  _cleanFlag : Z;
  calls : list Call
}.

Definition MM (A : Type) : Type := ST MotionMaster MMError A.

(** [MotionMaster(unit)] *)
Definition new_MotionMaster : MotionMaster :=
  mkMotionMaster None [None; None; None] (-1) [true; true; true] MMCF_NONE [].

Definition set_expList (x : option (list MovementGenerator)) (s : MotionMaster) : MotionMaster :=
  mkMotionMaster x (Impl s) (_top s) (_needInit s) (_cleanFlag s) (calls s).
Definition set_Impl (x : list (option MovementGenerator)) (s : MotionMaster) : MotionMaster :=
  mkMotionMaster (_expList s) x (_top s) (_needInit s) (_cleanFlag s) (calls s).
Definition set_top (x : Z) (s : MotionMaster) : MotionMaster :=
  mkMotionMaster (_expList s) (Impl s) x (_needInit s) (_cleanFlag s) (calls s).
Definition set_needInit (x : list bool) (s : MotionMaster) : MotionMaster :=
  mkMotionMaster (_expList s) (Impl s) (_top s) x (_cleanFlag s) (calls s).
Definition set_cleanFlag (x : Z) (s : MotionMaster) : MotionMaster :=
  mkMotionMaster (_expList s) (Impl s) (_top s) (_needInit s) x (calls s).
Definition call (c : Call) : MM unit :=
  st_modify (fun s => mkMotionMaster (_expList s) (Impl s) (_top s) (_needInit s) (_cleanFlag s)
                        (calls s ++ [c])).

(** [Impl[i]] and [Impl[i] = g] *)
Definition get_slot (i : Z) : MM (option MovementGenerator) := fun s =>
  if i <? 0 then Err OutOfBounds
  else match Impl s !! Z.to_nat i with Some g => Ok (g, s) | None => Err OutOfBounds end.
Definition put_slot (i : Z) (g : option MovementGenerator) : MM unit := fun s =>
  if (i <? 0) || (Z.of_nat (length (Impl s)) <=? i) then Err OutOfBounds
  else Ok (tt, set_Impl (<[Z.to_nat i := g]> (Impl s)) s).
(** [_needInit[i]] and [_needInit[i] = b] *)
Definition get_needInit (i : Z) : MM bool := fun s =>
  if i <? 0 then Err OutOfBounds
  else match _needInit s !! Z.to_nat i with Some b => Ok (b, s) | None => Err OutOfBounds end.
Definition put_needInit (i : Z) (b : bool) : MM unit := fun s =>
  if (i <? 0) || (Z.of_nat (length (_needInit s)) <=? i) then Err OutOfBounds
  else Ok (tt, set_needInit (<[Z.to_nat i := b]> (_needInit s)) s).

(** [p->f()] *)
Definition deref (g : option MovementGenerator) : MM MovementGenerator :=
  match g with Some g => mret g | None => st_throw NullDereference end.

Definition empty (s : MotionMaster) : bool := _top s <? 0.
Definition size (s : MotionMaster) : Z := _top s + 1.
Definition top : MM (option MovementGenerator) := s ← st_get; get_slot (_top s).
Definition needInitTop : MM bool := s ← st_get; get_needInit (_top s).

(** ** Operations *)

(** [while (!top()) --_top;] *)
Fixpoint skip_null (fuel : nat) : MM unit :=
  match fuel with
  | O => st_throw OutOfFuel
  | S fuel =>
      g ← top;
      match g with
      | Some _ => mret tt
      | None => st_modify (fun s => set_top (_top s - 1) s);; skip_null fuel
      end
  end.
Definition skip_null_fuel : nat := 5.

(** [pop()] *)
Definition pop : MM unit :=
  s ← st_get; put_slot (_top s) None;; skip_null skip_null_fuel.

(** [InitTop()] *)
Definition InitTop : MM unit :=
  g ← top; g ← deref g; call (Initialized g);; s ← st_get; put_needInit (_top s) false.

(** [DirectDelete(curr)], [DelayedDelete(curr)] *)
Definition DirectDelete (curr : MovementGenerator) : MM unit :=
  if isStatic curr then mret tt else call (Finalized curr);; call (Deleted curr).
Definition DelayedDelete (curr : MovementGenerator) : MM unit :=
  if isStatic curr then mret tt
  else st_modify (fun s => set_expList (Some (default [] (_expList s) ++ [curr])) s).

(** [Mutate(m, slot)] *)
Definition Mutate (m : MovementGenerator) (slot : MovementSlot) : MM unit :=
  let slot := slot_index slot in
  curr ← get_slot slot;
  s ← st_get;
  match curr with
  | Some curr =>
      put_slot slot None;;
      (if (_top s =? slot) && has_flag (_cleanFlag s) MMCF_UPDATE then DelayedDelete curr
       else DirectDelete curr)
  | None => if _top s <? slot then st_modify (set_top slot) else mret tt
  end;;
  put_slot slot (Some m);;
  s ← st_get;
  (if slot <? _top s then put_needInit slot true
   else put_needInit slot false;; call (Initialized m)).

(** [while (size() > limit) { curr = top(); pop(); if (curr) del(curr); }] *)
Fixpoint pop_all (fuel : nat) (limit : Z) (del : MovementGenerator -> MM unit) : MM unit :=
  match fuel with
  | O => st_throw OutOfFuel
  | S fuel =>
      s ← st_get;
      if limit <? size s then
        curr ← top;
        pop;;
        match curr with Some curr => del curr | None => mret tt end;;
        pop_all fuel limit del
      else mret tt
  end.
Definition pop_all_fuel : nat := 5.

(** [InitDefault()]; [movement] is what the factory selects for a creature
    ([None] is [NULL], and the case of a player). *)
Definition InitDefault (movement : option MovementGenerator) : MM unit :=
  Mutate (default si_idleMovement movement) MOTION_SLOT_IDLE.

(** [Initialize()] *)
Definition Initialize (movement : option MovementGenerator) : MM unit :=
  pop_all pop_all_fuel 0 DirectDelete;; InitDefault movement.

(** [if (needInitTop()) InitTop(); else if (reset) top()->Reset(_owner);] *)
Definition init_or_reset (reset : bool) : MM unit :=
  b ← needInitTop;
  if b : bool then InitTop
  else if reset then g ← top; g ← deref g; call (WasReset g)
  else mret tt.

(** [DirectClean(reset)], [DelayedClean()] *)
Definition DirectClean (reset : bool) : MM unit :=
  pop_all pop_all_fuel 1 DirectDelete;; init_or_reset reset.
Definition DelayedClean : MM unit := pop_all pop_all_fuel 1 DelayedDelete.

(** The start of [DirectExpire] and [DelayedExpire]. *)
Definition pop_one (del : MovementGenerator -> MM unit) : MM unit :=
  s ← st_get;
  (if 1 <? size s then curr ← top; pop;; curr ← deref curr; del curr else mret tt);;
  skip_null skip_null_fuel.

(** [DirectExpire(reset)], [DelayedExpire()] *)
Definition DirectExpire (movement : option MovementGenerator) (reset : bool) : MM unit :=
  pop_one DirectDelete;;
  s ← st_get;
  if empty s then Initialize movement else init_or_reset reset.
Definition DelayedExpire : MM unit := pop_one DelayedDelete.

(** The flag [MMCF_RESET] of a delayed request. *)
Definition note_reset (reset : bool) : MM unit :=
  st_modify (fun s => set_cleanFlag
    (if reset then add_flag (_cleanFlag s) MMCF_RESET else remove_flag (_cleanFlag s) MMCF_RESET) s).

(** [Clear(reset)], [MovementExpired(reset)] *)
Definition Clear (reset : bool) : MM unit :=
  s ← st_get;
  if has_flag (_cleanFlag s) MMCF_UPDATE then note_reset reset;; DelayedClean
  else DirectClean reset.
Definition MovementExpired (movement : option MovementGenerator) (reset : bool) : MM unit :=
  s ← st_get;
  if has_flag (_cleanFlag s) MMCF_UPDATE then note_reset reset;; DelayedExpire
  else DirectExpire movement reset.

(** [MoveIdle()]; [MoveDistract(timer)] with the generator it makes. *)
Definition MoveIdle : MM unit :=
  s ← st_get;
  if empty s then Mutate si_idleMovement MOTION_SLOT_IDLE
  else g ← top; g ← deref g;
       if negb (isStatic g) then Mutate si_idleMovement MOTION_SLOT_IDLE else mret tt.
Definition MoveDistract (mgen : MovementGenerator) : MM unit :=
  g ← get_slot 2;
  match g with Some _ => mret tt | None => Mutate mgen MOTION_SLOT_CONTROLLED end.

(** Requests, of scripts and of the server. *)
Inductive Request :=
| RClear (reset : bool)
| RExpired (reset : bool)
| RMutate (m : MovementGenerator) (slot : MovementSlot)
| RIdle
| RDistract (m : MovementGenerator).

Definition request (movement : option MovementGenerator) (r : Request) : MM unit :=
  match r with
  | RClear reset => Clear reset
  | RExpired reset => MovementExpired movement reset
  | RMutate m slot => Mutate m slot
  | RIdle => MoveIdle
  | RDistract m => MoveDistract m
  end.
Fixpoint requests (movement : option MovementGenerator) (rs : list Request) : MM unit :=
  match rs with
  | [] => mret tt
  | r :: rs => request movement r;; requests movement rs
  end.

Fixpoint delete_all (gs : list MovementGenerator) : MM unit :=
  match gs with [] => mret tt | g :: gs => DirectDelete g;; delete_all gs end.

Definition clear_flag (mask : Z) : MM unit :=
  st_modify (fun s => set_cleanFlag (remove_flag (_cleanFlag s) mask) s).

(** [UpdateMotion(diff)]: [held] if the unit is rooted or stunned; the
    requests [script] come from inside the active generator's [Update], which
    returns [result]. *)
Definition UpdateMotion (movement : option MovementGenerator) (held : bool) (script : list Request)
    (result : bool) : MM unit :=
  if held then mret tt
  else
    s ← st_get;
    if empty s then st_throw AssertFailed
    else
      st_modify (fun s => set_cleanFlag (add_flag (_cleanFlag s) MMCF_UPDATE) s);;
      g ← top; g ← deref g;
      call (Updating g);; requests movement script;; call (Updated g);;
      clear_flag MMCF_UPDATE;;
      (if result then mret tt else MovementExpired movement true);;
      s ← st_get;
      match _expList s with
      | None => mret tt
      | Some gs =>
          delete_all gs;;
          st_modify (set_expList None);;
          s ← st_get;
          (if empty s then Initialize movement
           else b ← needInitTop;
                if b : bool then InitTop
                else if has_flag (_cleanFlag s) MMCF_RESET then g ← top; g ← deref g; call (WasReset g)
                else mret tt);;
          clear_flag MMCF_RESET
      end.

(** ** The stack of generators *)

(** A generator that is not the shared one, as the slots above the first
    hold. *)
Definition own (g : MovementGenerator) : Prop := isStatic g = false.

(** The shapes of the slots when a unit has a default generator: the highest
    used slot is [_top]. *)
Inductive stacked : Z -> list (option MovementGenerator) -> Prop :=
| stacked_idle a : stacked 0 [Some a; None; None]
| stacked_active a b : own b -> stacked 1 [Some a; Some b; None]
| stacked_controlled a c : own c -> stacked 2 [Some a; None; Some c]
| stacked_all a b c : own b -> own c -> stacked 2 [Some a; Some b; Some c].

Definition shaped (s : MotionMaster) : Prop :=
  stacked (_top s) (Impl s) /\ exists n0 n1 n2, _needInit s = [n0; n1; n2].

(** The generator in control. *)
Definition active (s : MotionMaster) : option MovementGenerator := mjoin (Impl s !! Z.to_nat (_top s)).
(** It has been initialised. *)
Definition top_ready (s : MotionMaster) : Prop := _needInit s !! Z.to_nat (_top s) = Some false.

(** Between two updates: nothing waits for deletion and the active generator
    is initialised. *)
Record settled (s : MotionMaster) : Prop := {
  st_shaped : shaped s;
  st_ready : top_ready s;
  st_nothing_pending : _expList s = None;
  st_flag : has_flag (_cleanFlag s) MMCF_UPDATE = false
}.
(** Inside an update: what has been expired waits, and if nothing waits the
    active generator is initialised. *)
Record updating (s : MotionMaster) : Prop := {
  up_shaped : shaped s;
  up_ready : _expList s = None -> top_ready s;
  up_flag : has_flag (_cleanFlag s) MMCF_UPDATE = true
}.

(** [m] succeeds from [s], and the state it leaves satisfies [Q]. *)
Definition runs_to {A} (m : MM A) (s : MotionMaster) (Q : MotionMaster -> Prop) : Prop :=
  match m s with Ok (_, s') => Q s' | Err _ => False end.

Lemma runs_to_bind {A B} (m : MM A) (f : A -> MM B) s (P Q : MotionMaster -> Prop) :
  runs_to m s P -> (forall a s', P s' -> runs_to (f a) s' Q) -> runs_to (m ≫= f) s Q.
Proof.
  unfold runs_to, mbind, st_bind. destruct (m s) as [[a s']|]; [|done]. intros HP Hf. by apply Hf.
Qed.

Lemma runs_to_weaken {A} (m : MM A) s (P Q : MotionMaster -> Prop) :
  runs_to m s P -> (forall s', P s' -> Q s') -> runs_to m s Q.
Proof. unfold runs_to. destruct (m s) as [[a s']|]; auto. Qed.

Lemma add_reset_update fl : has_flag (add_flag fl MMCF_RESET) MMCF_UPDATE = has_flag fl MMCF_UPDATE.
Proof.
  change MMCF_UPDATE with (2 ^ 0). rewrite !has_flag_pow2 by done. autorewrite with flags.
  change (Z.testbit MMCF_RESET 0) with false. apply orb_false_r.
Qed.
Lemma remove_reset_update fl :
  has_flag (remove_flag fl MMCF_RESET) MMCF_UPDATE = has_flag fl MMCF_UPDATE.
Proof.
  change MMCF_UPDATE with (2 ^ 0). rewrite !has_flag_pow2 by done. autorewrite with flags.
  change (Z.testbit MMCF_RESET 0) with false. apply andb_true_r.
Qed.
Lemma add_update fl : has_flag (add_flag fl MMCF_UPDATE) MMCF_UPDATE = true.
Proof.
  change MMCF_UPDATE with (2 ^ 0) at 2. rewrite has_flag_pow2 by done. autorewrite with flags.
  apply orb_true_r.
Qed.
Lemma remove_update fl : has_flag (remove_flag fl MMCF_UPDATE) MMCF_UPDATE = false.
Proof.
  change MMCF_UPDATE with (2 ^ 0) at 2. rewrite has_flag_pow2 by done. autorewrite with flags.
  apply andb_false_r.
Qed.
#[local] Hint Rewrite add_reset_update remove_reset_update add_update remove_update : mm_flags.

(** Open the state: one goal for each shape of the slots. *)
Ltac open_shape H :=
  let Hk := fresh "Hk" in let Hn := fresh "Hn" in
  destruct H as [Hk (? & ? & ? & Hn)];
  match type of Hk with
  | stacked (_top ?s) _ =>
      let e := fresh "e" in let impl := fresh "impl" in let t := fresh "t" in
      let ni := fresh "ni" in let fl := fresh "fl" in let tr := fresh "tr" in
      destruct s as [e impl t ni fl tr]; cbn in Hk, Hn; subst ni; destruct Hk
  end.

Ltac solve_stacked :=
  first [ exact (stacked_idle _)
        | simple refine (stacked_active _ _ _); [..|assumption]
        | simple refine (stacked_controlled _ _ _); [..|assumption]
        | simple refine (stacked_all _ _ _ _ _); [..|assumption|assumption] ].

(** [st_modify f;; k] *)
Ltac run_modify :=
  match goal with
  | |- context [(st_modify ?f ≫= ?k) ?s] => change ((st_modify f ≫= k) s) with (k tt (f s))
  end; cbv beta.

(** [s ← st_get; f s] *)
Ltac read_state :=
  match goal with |- context [(st_get ≫= ?f) ?s] => change ((st_get ≫= f) s) with (f s s) end;
  cbv beta.

(** Only the named parts of the state may differ. *)
Definition same_slots (s s' : MotionMaster) : Prop :=
  Impl s' = Impl s /\ _top s' = _top s /\ _needInit s' = _needInit s
  /\ _cleanFlag s' = _cleanFlag s.

Lemma same_slots_shaped s s' : same_slots s s' -> shaped s -> shaped s'.
Proof. unfold shaped. by intros (-> & -> & -> & _). Qed.

Lemma top_spec s : shaped s -> exists g, top s = Ok (Some g, s) /\ (0 < _top s -> own g).
Proof. intros Hs. open_shape Hs; eexists; (split; [reflexivity|]); cbn; done. Qed.

Lemma pop_spec s :
  shaped s -> 0 < _top s ->
  runs_to pop s (fun s' =>
    shaped s' /\ 0 <= _top s' < _top s /\ _expList s' = _expList s
    /\ _cleanFlag s' = _cleanFlag s /\ calls s' = calls s).
Proof.
  intros Hs Ht. open_shape Hs; [done|..]; unfold runs_to; cbn;
    (split; [split; cbn; [solve_stacked|eauto]|split; [by vm_compute|done]]).
Qed.

Lemma DirectDelete_spec g s :
  runs_to (DirectDelete g) s (fun s' => same_slots s s' /\ _expList s' = _expList s).
Proof. unfold DirectDelete, runs_to. by destruct (isStatic g). Qed.

Lemma DelayedDelete_spec g s :
  own g -> runs_to (DelayedDelete g) s (fun s' =>
    same_slots s s' /\ _expList s' <> None /\ calls s' = calls s).
Proof. unfold DelayedDelete, runs_to, own. by intros ->. Qed.

(** One turn of the clearing loops. *)
Definition turn (del : MovementGenerator -> MM unit) : MM unit :=
  curr ← top; pop;; match curr with Some curr => del curr | None => mret tt end.

Lemma turn_Direct s :
  shaped s -> 0 < _top s ->
  runs_to (turn DirectDelete) s (fun s' =>
    shaped s' /\ 0 <= _top s' < _top s /\ _expList s' = _expList s /\ _cleanFlag s' = _cleanFlag s).
Proof.
  intros Hs Ht. destruct (top_spec s Hs) as (g & Eg & Hown). unfold turn, runs_to.
  rewrite (st_bind_Ok _ _ _ _ _ Eg).
  eapply runs_to_bind; [by apply pop_spec|]. cbn beta. intros _ s1 (Hs1 & Ht1 & He1 & Hf1 & Hc1).
  eapply runs_to_weaken; [apply DirectDelete_spec|]. cbn beta. intros s2 (Hsame & He2).
  pose proof (same_slots_shaped _ _ Hsame Hs1). destruct Hsame as (_ & -> & _ & ->).
  rewrite He2, He1, Hf1. auto.
Qed.

Lemma turn_Delayed s :
  shaped s -> 0 < _top s ->
  runs_to (turn DelayedDelete) s (fun s' =>
    shaped s' /\ 0 <= _top s' < _top s /\ _expList s' <> None /\ _cleanFlag s' = _cleanFlag s
    /\ calls s' = calls s).
Proof.
  intros Hs Ht. destruct (top_spec s Hs) as (g & Eg & Hown). unfold turn, runs_to.
  rewrite (st_bind_Ok _ _ _ _ _ Eg).
  eapply runs_to_bind; [by apply pop_spec|]. cbn beta. intros _ s1 (Hs1 & Ht1 & He1 & Hf1 & Hc1).
  eapply runs_to_weaken; [by apply DelayedDelete_spec, Hown|]. cbn beta. intros s2 (Hsame & He2 & Hc2).
  pose proof (same_slots_shaped _ _ Hsame Hs1). destruct Hsame as (_ & -> & _ & ->).
  rewrite Hc2, Hc1, Hf1. auto.
Qed.

(** The loops end with the default generator alone. *)
Lemma pop_all_spec del (P : MotionMaster -> Prop) :
  (forall s, P s -> shaped s -> 0 < _top s ->
     runs_to (turn del) s (fun s' => P s' /\ shaped s' /\ 0 <= _top s' < _top s)) ->
  forall fuel s, P s -> shaped s -> _top s < Z.of_nat fuel ->
  runs_to (pop_all fuel 1 del) s (fun s' => P s' /\ shaped s' /\ _top s' = 0).
Proof.
  intros Hturn fuel. induction fuel as [|fuel IH]; intros s HP Hs Hfuel.
  { open_shape Hs; cbn in Hfuel; lia. }
  cbn [pop_all]. unfold runs_to. read_state. unfold size.
  assert (0 <= _top s) as H0 by (open_shape Hs; cbn; lia).
  destruct (Z.ltb_spec 1 (_top s + 1)) as [Ht|Ht].
  - assert (Hbody : runs_to (turn del ≫= fun _ => pop_all fuel 1 del) s
             (fun s' => P s' /\ shaped s' /\ _top s' = 0)).
    { eapply runs_to_bind; [apply Hturn; [done|done|lia]|]. cbn beta. intros _ s' (HP' & Hs' & Ht').
      apply IH; [done|done|lia]. }
    revert Hbody. unfold runs_to, turn. unfold mbind, st_bind.
    destruct (top s) as [[curr s1]|]; [|done]. by destruct (pop s1) as [[[] s2]|].
  - cbn. split; [done|]. split; [done|]. lia.
Qed.

Lemma shaped_fuel s : shaped s -> 0 <= _top s < Z.of_nat pop_all_fuel.
Proof. intros Hs. open_shape Hs; split; by vm_compute. Qed.

(** Nothing is skipped when the stack is in shape. *)
Lemma skip_null_spec fuel s : shaped s -> skip_null (S fuel) s = Ok (tt, s).
Proof.
  intros Hs. destruct (top_spec s Hs) as (g & Eg & _). cbn [skip_null].
  by rewrite (st_bind_Ok _ _ _ _ _ Eg).
Qed.

(** [init_or_reset] leaves an initialised generator in control. *)
Lemma init_or_reset_spec reset s :
  shaped s -> runs_to (init_or_reset reset) s (fun s' =>
    shaped s' /\ top_ready s' /\ _expList s' = _expList s /\ _cleanFlag s' = _cleanFlag s
    /\ _top s' = _top s /\ Impl s' = Impl s).
Proof.
  intros Hs. pose proof Hs as Hs0.
  open_shape Hs; destruct x, x0, x1, reset; unfold runs_to; cbn;
    (split; [split; cbn; [solve_stacked|eauto]|done]).
Qed.

(** What [Mutate] does to the generator it replaces. *)
Lemma replace_spec (delayed : bool) curr s :
  runs_to (if delayed then DelayedDelete curr else DirectDelete curr) s (fun s' =>
    same_slots s s' /\ (delayed = false -> _expList s' = _expList s)
    /\ (_expList s' = None -> _expList s = None /\ (delayed = true -> isStatic curr = true))).
Proof.
  destruct delayed; unfold DelayedDelete, DirectDelete, runs_to; destruct (isStatic curr); cbn;
    (split; [done|split; [done|intros; done || (split; [done|intros; done])]]).
Qed.

(** The end of [Mutate]: [m] goes into its slot. *)
Definition install (m : MovementGenerator) (slot : Z) : MM unit :=
  put_slot slot (Some m);;
  s ← st_get;
  (if slot <? _top s then put_needInit slot true
   else put_needInit slot false;; call (Initialized m)).

(** The slots once [slot] is free. *)
Definition freed (slot : MovementSlot) (s : MotionMaster) : MotionMaster :=
  set_top (Z.max (_top s) (slot_index slot)) (set_Impl (<[Z.to_nat (slot_index slot) := None]> (Impl s)) s).

(** [m] in the free slot: the slots are in shape, and the generator in
    control is the same as before, or a new one that is initialised. *)
Lemma install_spec m slot s s1 :
  shaped s -> (slot <> MOTION_SLOT_IDLE -> own m) -> same_slots (freed slot s) s1 ->
  runs_to (install m (slot_index slot)) s1 (fun s' =>
    shaped s' /\ (slot_index slot < _top s /\ (top_ready s -> top_ready s') \/ top_ready s')
    /\ _expList s' = _expList s1 /\ _cleanFlag s' = _cleanFlag s).
Proof.
  intros Hs Hm (Hi & Ht & Hn & Hf). destruct s1 as [e1 impl1 t1 ni1 fl1 tr1]. cbn in Hi, Ht, Hn, Hf.
  subst impl1 t1 ni1 fl1.
  open_shape Hs; destruct slot; cbn in Hm;
    (try assert (own m) by (apply Hm; discriminate)); unfold runs_to; cbn;
    (split; [split; cbn; [solve_stacked|eauto]|split; [|done]]);
    first [by right|left; split; [by vm_compute|done]].
Qed.

(** [Mutate] keeps the slots in shape and the generator in control
    initialised; it only holds a deletion back inside an update. *)
Lemma Mutate_spec m slot s :
  shaped s -> (slot <> MOTION_SLOT_IDLE -> own m) ->
  runs_to (Mutate m slot) s (fun s' =>
    shaped s' /\ (top_ready s -> top_ready s') /\ _cleanFlag s' = _cleanFlag s
    /\ (_expList s' = None -> _expList s = None)
    /\ (has_flag (_cleanFlag s) MMCF_UPDATE = false -> _expList s' = _expList s)).
Proof.
  intros Hs Hm.
  set (free := curr ← get_slot (slot_index slot); s ← st_get;
         match curr with
         | Some curr =>
             put_slot (slot_index slot) None;;
             (if (_top s =? slot_index slot) && has_flag (_cleanFlag s) MMCF_UPDATE
              then DelayedDelete curr else DirectDelete curr)
         | None => if _top s <? slot_index slot then st_modify (set_top (slot_index slot)) else mret tt
         end : MM unit).
  assert (runs_to free s (fun s1 => same_slots (freed slot s) s1
            /\ (_expList s1 = None -> _expList s = None)
            /\ (has_flag (_cleanFlag s) MMCF_UPDATE = false -> _expList s1 = _expList s))) as Hfree.
  { unfold free.
    assert (exists curr, get_slot (slot_index slot) s = Ok (curr, s)
              /\ (curr <> None -> slot_index slot <= _top s)) as (curr & Eg & Hcurr).
    { clear free. open_shape Hs; destruct slot; eexists; (split; [reflexivity|]); cbn; done. }
    unfold runs_to. rewrite (st_bind_Ok _ _ _ _ _ Eg). read_state.
    destruct curr as [curr|].
    - assert (put_slot (slot_index slot) None s = Ok (tt, freed slot s)) as Ep.
      { assert (Z.max (_top s) (slot_index slot) = _top s) as Emax by (apply Z.max_l; auto).
        unfold freed. rewrite Emax. clear -Hs. destruct s as [e impl t ni fl tr].
        destruct Hs as [Hk _]. cbn in Hk. destruct Hk, slot; reflexivity. }
      rewrite (st_bind_Ok _ _ _ _ _ Ep).
      pose proof (replace_spec ((_top s =? slot_index slot) && has_flag (_cleanFlag s) MMCF_UPDATE)
                    curr (freed slot s)) as H.
      revert H. unfold runs_to.
      match goal with |- (match ?o with _ => _ end) -> _ => destruct o as [[a s1]|] end; [|done].
      intros (Hsame & Hd & He). split; [done|]. split.
      + intros E. by apply He.
      + intros Hf. apply Hd. by rewrite Hf, andb_false_r.
    - destruct (Z.ltb_spec (_top s) (slot_index slot)) as [Hlt|Hge]; cbn.
      + split; [|done]. unfold freed. rewrite Z.max_r by lia. split; [|done].
        clear -Hs Hlt Eg. destruct s as [e impl t ni fl tr]. destruct Hs as [Hk _]. cbn in Hk, Hlt.
        destruct Hk, slot; first [reflexivity|cbn in Hlt; lia|discriminate Eg].
      + split; [|done]. unfold freed. rewrite Z.max_l by lia. split; [|done].
        clear -Hs Hge Eg. destruct s as [e impl t ni fl tr]. destruct Hs as [Hk _]. cbn in Hk, Hge.
        destruct Hk, slot; first [reflexivity|discriminate Eg|exfalso; cbn in Hge; lia]. }
  assert (Hall : runs_to (free ≫= fun _ => install m (slot_index slot)) s (fun s' =>
    shaped s' /\ (top_ready s -> top_ready s') /\ _cleanFlag s' = _cleanFlag s
    /\ (_expList s' = None -> _expList s = None)
    /\ (has_flag (_cleanFlag s) MMCF_UPDATE = false -> _expList s' = _expList s))).
  { eapply runs_to_bind; [exact Hfree|]. cbn beta. intros _ s1 (Hsame & He1 & He2).
    eapply runs_to_weaken; [by apply install_spec|]. cbn beta. intros s2 (Hs2 & Hr2 & He & Hf2).
    rewrite He. split; [done|]. split; [|done]. destruct Hr2 as [[_ Hr2]|Hr2]; auto. }
  revert Hall. unfold runs_to, Mutate, free. unfold mbind, st_bind, st_get.
  destruct (get_slot (slot_index slot) s) as [[[curr|] s0]|]; [..|done]; auto.
Qed.

Lemma Mutate_settled m slot s :
  settled s -> (slot <> MOTION_SLOT_IDLE -> own m) -> runs_to (Mutate m slot) s settled.
Proof.
  intros [Hs Hr He Hf] Hm. eapply runs_to_weaken; [by apply Mutate_spec|]. cbn beta.
  intros s' (Hs' & Hr' & Hf' & _ & He'). split; [done|auto| |by rewrite Hf'].
  rewrite <- He. auto.
Qed.

Lemma Mutate_updating m slot s :
  updating s -> (slot <> MOTION_SLOT_IDLE -> own m) -> runs_to (Mutate m slot) s updating.
Proof.
  intros [Hs Hr Hf] Hm. eapply runs_to_weaken; [by apply Mutate_spec|]. cbn beta.
  intros s' (Hs' & Hr' & Hf' & He' & _). split; [done|auto|by rewrite Hf'].
Qed.

(** ** Requests *)

(** The generators a request brings above the first slot are its own. *)
Definition request_ok (r : Request) : Prop :=
  match r with
  | RMutate m slot => slot <> MOTION_SLOT_IDLE -> own m
  | RDistract m => own m
  | _ => True
  end.

Lemma Clear_settled reset s : settled s -> runs_to (Clear reset) s (fun s' => settled s' /\ _top s' = 0).
Proof.
  intros [Hs Hr He Hf]. unfold Clear, runs_to. read_state. rewrite Hf.
  assert (H : runs_to (DirectClean reset) s (fun s' => settled s' /\ _top s' = 0)); [|exact H].
  unfold DirectClean. eapply runs_to_bind.
  - apply (pop_all_spec DirectDelete (fun s' => _expList s' = None /\ has_flag (_cleanFlag s') MMCF_UPDATE = false));
      [|done..|by apply shaped_fuel].
    intros s1 [He1 Hf1] Hs1 Ht1. eapply runs_to_weaken; [by apply turn_Direct|]. cbn beta.
    intros s2 (H1 & H2 & H3 & H4). rewrite H3, H4. auto.
  - cbn beta. intros _ s1 ([He1 Hf1] & Hs1 & Ht1).
    eapply runs_to_weaken; [by apply init_or_reset_spec|]. cbn beta.
    intros s2 (H1 & H2 & H3 & H4 & H5 & _). split; [|congruence]. split; [done..|congruence|congruence].
Qed.

Lemma note_reset_updating reset s : updating s -> runs_to (note_reset reset) s updating.
Proof.
  intros [Hs Hr Hf]. unfold note_reset, runs_to. destruct reset; cbn; (split; [exact Hs|exact Hr|]);
    cbn; by rewrite ?add_reset_update, ?remove_reset_update.
Qed.

Lemma Clear_updating reset s : updating s -> runs_to (Clear reset) s updating.
Proof.
  intros Hu. unfold Clear, runs_to. read_state. rewrite (up_flag s Hu).
  assert (H : runs_to (note_reset reset ≫= fun _ => DelayedClean) s updating); [|exact H].
  eapply runs_to_bind; [by apply note_reset_updating|]. clear. cbn beta. intros _ s Hu.
  unfold DelayedClean. eapply runs_to_weaken.
  - apply (pop_all_spec DelayedDelete updating); [|done|apply Hu|apply shaped_fuel, Hu].
    intros s1 Hu1 Hs1 Ht1. eapply runs_to_weaken; [by apply turn_Delayed|]. cbn beta.
    intros s2 (H1 & H2 & H3 & H4 & _). split; [|done]. split; [done|done|]. rewrite H4. apply Hu1.
  - cbn beta. by intros s' [H _].
Qed.

Lemma pop_one_Direct s :
  shaped s -> runs_to (pop_one DirectDelete) s (fun s' =>
    shaped s' /\ _expList s' = _expList s /\ _cleanFlag s' = _cleanFlag s /\ 0 <= _top s').
Proof.
  intros Hs. unfold pop_one, runs_to. read_state. unfold size.
  assert (0 <= _top s) as H0 by (open_shape Hs; by vm_compute).
  assert (H : runs_to ((if 1 <? _top s + 1 then curr ← top; pop;; curr ← deref curr; DirectDelete curr
              else mret tt);; skip_null skip_null_fuel) s (fun s' =>
    shaped s' /\ _expList s' = _expList s /\ _cleanFlag s' = _cleanFlag s /\ 0 <= _top s')); [|exact H].
  eapply (runs_to_bind _ _ _ (fun s' =>
    shaped s' /\ _expList s' = _expList s /\ _cleanFlag s' = _cleanFlag s /\ 0 <= _top s')).
  - destruct (Z.ltb_spec 1 (_top s + 1)); [|done].
    eapply runs_to_weaken.
    + pose proof (turn_Direct s Hs ltac:(lia)) as Ht. unfold turn in Ht. revert Ht.
      destruct (top_spec s Hs) as (g & Eg & _). unfold runs_to.
      rewrite !(st_bind_Ok _ _ _ _ _ Eg). intros Ht. exact Ht.
    + cbn beta. intros s' (? & ? & ? & ?). auto with lia.
  - cbn beta. intros _ s' (Hs' & H). unfold runs_to, skip_null_fuel. by rewrite skip_null_spec.
Qed.

Lemma pop_one_Delayed s :
  updating s -> runs_to (pop_one DelayedDelete) s updating.
Proof.
  intros Hu. pose proof (up_shaped s Hu) as Hs. unfold pop_one, runs_to. read_state. unfold size.
  assert (H : runs_to ((if 1 <? _top s + 1 then curr ← top; pop;; curr ← deref curr; DelayedDelete curr
              else mret tt);; skip_null skip_null_fuel) s updating); [|exact H].
  eapply (runs_to_bind _ _ _ updating).
  - destruct (Z.ltb_spec 1 (_top s + 1)); [|done].
    eapply runs_to_weaken.
    + pose proof (turn_Delayed s Hs ltac:(lia)) as Ht. unfold turn in Ht. revert Ht.
      destruct (top_spec s Hs) as (g & Eg & _). unfold runs_to.
      rewrite !(st_bind_Ok _ _ _ _ _ Eg). intros Ht. exact Ht.
    + cbn beta. intros s' (H1 & H2 & H3 & H4 & _). split; [done|done|]. rewrite H4. apply Hu.
  - cbn beta. intros _ s' Hu'. unfold runs_to, skip_null_fuel.
    by rewrite skip_null_spec by apply Hu'.
Qed.

Lemma MovementExpired_settled movement reset s :
  settled s -> runs_to (MovementExpired movement reset) s settled.
Proof.
  intros [Hs Hr He Hf]. unfold MovementExpired, runs_to. read_state. rewrite Hf.
  assert (H : runs_to (DirectExpire movement reset) s settled); [|exact H].
  unfold DirectExpire. eapply runs_to_bind; [by apply pop_one_Direct|]. cbn beta.
  intros _ s1 (Hs1 & He1 & Hf1 & Ht1). unfold runs_to. read_state. unfold empty.
  replace (_top s1 <? 0) with false by bdec.
  pose proof (init_or_reset_spec reset s1 Hs1) as H. revert H. unfold runs_to.
  destruct (init_or_reset reset s1) as [[a s2]|]; [|done].
  intros (H1 & H2 & H3 & H4 & H5 & _). split; [done|done|congruence|congruence].
Qed.

Lemma MovementExpired_updating movement reset s :
  updating s -> runs_to (MovementExpired movement reset) s updating.
Proof.
  intros Hu. unfold MovementExpired, runs_to. read_state. rewrite (up_flag s Hu).
  assert (H : runs_to (note_reset reset ≫= fun _ => DelayedExpire) s updating); [|exact H].
  eapply runs_to_bind; [by apply note_reset_updating|]. cbn beta. intros _ s' Hu'.
  by apply pop_one_Delayed.
Qed.

Lemma MoveIdle_runs s (P : MotionMaster -> Prop) :
  shaped s -> P s -> (forall m, runs_to (Mutate m MOTION_SLOT_IDLE) s P) -> runs_to MoveIdle s P.
Proof.
  intros Hs HP Hm. destruct (top_spec s Hs) as (g & Eg & _).
  unfold MoveIdle, runs_to. read_state. destruct (empty s); [apply Hm|].
  rewrite (st_bind_Ok _ _ _ _ _ Eg). rewrite (st_bind_Ok (deref (Some g)) _ s g s eq_refl).
  destruct (isStatic g); [exact HP|apply Hm].
Qed.

Lemma MoveDistract_runs m s (P : MotionMaster -> Prop) :
  shaped s -> P s -> runs_to (Mutate m MOTION_SLOT_CONTROLLED) s P -> runs_to (MoveDistract m) s P.
Proof.
  intros Hs HP Hm. assert (exists g, get_slot 2 s = Ok (g, s)) as [g Eg].
  { clear -Hs. destruct s as [e impl t ni fl tr]. destruct Hs as [Hk _]. cbn in Hk.
    destruct Hk; eexists; reflexivity. }
  unfold MoveDistract, runs_to. rewrite (st_bind_Ok _ _ _ _ _ Eg). by destruct g.
Qed.

Lemma request_settled movement r s :
  settled s -> request_ok r -> runs_to (request movement r) s settled.
Proof.
  intros Hs Hr. destruct r; cbn [request].
  - eapply runs_to_weaken; [by apply Clear_settled|]. by intros s' [].
  - by apply MovementExpired_settled.
  - by apply Mutate_settled.
  - apply MoveIdle_runs; [apply Hs|done|]. intros m. by apply Mutate_settled.
  - apply MoveDistract_runs; [apply Hs|done|]. by apply Mutate_settled.
Qed.

Lemma request_updating movement r s :
  updating s -> request_ok r -> runs_to (request movement r) s updating.
Proof.
  intros Hs Hr. destruct r; cbn [request].
  - by apply Clear_updating.
  - by apply MovementExpired_updating.
  - by apply Mutate_updating.
  - apply MoveIdle_runs; [apply Hs|done|]. intros m. by apply Mutate_updating.
  - apply MoveDistract_runs; [apply Hs|done|]. by apply Mutate_updating.
Qed.

Lemma requests_updating movement rs s :
  updating s -> Forall request_ok rs -> runs_to (requests movement rs) s updating.
Proof.
  intros Hs Hr. revert s Hs. induction Hr as [|r rs Hr _ IH]; intros s Hs; [done|].
  cbn [requests]. eapply runs_to_bind; [by apply request_updating|]. auto.
Qed.

(** ** Updates *)

Lemma delete_all_spec gs s :
  runs_to (delete_all gs) s (fun s' => same_slots s s' /\ _expList s' = _expList s).
Proof.
  revert s. induction gs as [|g gs IH]; intros s; [done|]. cbn [delete_all].
  eapply runs_to_bind; [apply DirectDelete_spec|]. cbn beta. intros _ s1 (Hs1 & He1).
  eapply runs_to_weaken; [apply IH|]. cbn beta. intros s2 (Hs2 & He2).
  split; [|congruence].
  unfold same_slots in *. destruct Hs1 as (? & ? & ? & ?), Hs2 as (? & ? & ? & ?).
  repeat split; congruence.
Qed.

(** The end of [UpdateMotion]: what was held back is deleted, and the
    generator left in control is initialised. *)
Definition flush_expired (movement : option MovementGenerator) : MM unit :=
  s ← st_get;
  match _expList s with
  | None => mret tt
  | Some gs =>
      delete_all gs;;
      st_modify (set_expList None);;
      s ← st_get;
      (if empty s then Initialize movement
       else b ← needInitTop;
            if b : bool then InitTop
            else if has_flag (_cleanFlag s) MMCF_RESET then g ← top; g ← deref g; call (WasReset g)
            else mret tt);;
      clear_flag MMCF_RESET
  end.

Lemma flush_expired_spec movement s :
  shaped s -> (_expList s = None -> top_ready s) -> has_flag (_cleanFlag s) MMCF_UPDATE = false ->
  runs_to (flush_expired movement) s settled.
Proof.
  intros Hs Hr Hf. unfold flush_expired, runs_to. read_state.
  destruct (_expList s) as [gs|] eqn:He; [|by split; auto].
  assert (H : runs_to (delete_all gs ≫= fun _ => st_modify (set_expList None) ≫= fun _ =>
    st_get ≫= fun s => (if empty s then Initialize movement
       else init_or_reset (has_flag (_cleanFlag s) MMCF_RESET)) ≫= fun _ => clear_flag MMCF_RESET) s settled);
    [|exact H].
  eapply runs_to_bind; [apply delete_all_spec|]. cbn beta. intros _ s1 (Hsame & _).
  pose proof (same_slots_shaped _ _ Hsame Hs) as Hs1.
  destruct Hsame as (_ & _ & _ & Hf1). clear Hr He.
  unfold runs_to. run_modify. set (s2 := set_expList None s1). read_state. assert (shaped s2) as Hs2 by exact Hs1.
  replace (empty s2) with false by (unfold empty; clear -Hs2; open_shape Hs2; reflexivity).
  assert (H : runs_to (init_or_reset (has_flag (_cleanFlag s2) MMCF_RESET) ≫= fun _ => clear_flag MMCF_RESET)
                s2 settled); [|exact H].
  eapply runs_to_bind; [by apply init_or_reset_spec|]. cbn beta. intros _ s3 (H1 & H2 & H3 & H4 & _).
  unfold clear_flag, runs_to. cbn. split; [exact H1|exact H2|change (_expList s3 = None); by rewrite H3|].
  cbn. rewrite remove_reset_update, H4. change (_cleanFlag s2) with (_cleanFlag s1). by rewrite Hf1.
Qed.

Lemma UpdateMotion_settled movement held script result s :
  settled s -> Forall request_ok script -> runs_to (UpdateMotion movement held script result) s settled.
Proof.
  intros Hst Hok. unfold UpdateMotion. destruct held; [done|].
  pose proof (st_shaped s Hst) as Hs. unfold runs_to. read_state.
  replace (empty s) with false by (unfold empty; clear -Hs; open_shape Hs; reflexivity).
  set (s1 := set_cleanFlag (add_flag (_cleanFlag s) MMCF_UPDATE) s).
  run_modify. fold s1.
  assert (updating s1) as Hu1.
  { split; [exact Hs|intros _; apply Hst|]. apply add_update. }
  destruct (top_spec s1 (up_shaped _ Hu1)) as (g & Eg & _). rewrite (st_bind_Ok _ _ _ _ _ Eg).
  rewrite (st_bind_Ok (deref (Some g)) _ s1 g s1 eq_refl).
  assert (H : runs_to (call (Updating g) ≫= fun _ => requests movement script ≫= fun _ =>
    call (Updated g) ≫= fun _ => clear_flag MMCF_UPDATE ≫= fun _ =>
    (if result then mret tt else MovementExpired movement true) ≫= fun _ => flush_expired movement)
    s1 settled); [|exact H].
  eapply (runs_to_bind _ _ _ updating); [split; apply Hu1|]. cbn beta. clear -Hok. intros _ s Hu.
  eapply runs_to_bind; [by apply requests_updating|]. cbn beta. clear. intros _ s Hu.
  eapply (runs_to_bind _ _ _ updating); [split; apply Hu|]. cbn beta. clear. intros _ s Hu.
  eapply (runs_to_bind _ _ _ (fun s => shaped s /\ (_expList s = None -> top_ready s)
            /\ has_flag (_cleanFlag s) MMCF_UPDATE = false)).
  { unfold clear_flag, runs_to. cbn. split; [apply Hu|]. split; [apply Hu|]. apply remove_update. }
  cbn beta. clear. intros _ s (Hs & Hr & Hf).
  eapply (runs_to_bind _ _ _ (fun s => shaped s /\ (_expList s = None -> top_ready s)
            /\ has_flag (_cleanFlag s) MMCF_UPDATE = false)).
  - destruct result; [done|]. unfold MovementExpired, runs_to. read_state. rewrite Hf.
    assert (H : runs_to (DirectExpire movement true) s (fun s => shaped s /\ (_expList s = None -> top_ready s)
            /\ has_flag (_cleanFlag s) MMCF_UPDATE = false)); [|exact H].
    unfold DirectExpire. eapply runs_to_bind; [by apply pop_one_Direct|]. cbn beta.
    intros _ s1 (Hs1 & He1 & Hf1 & Ht1). unfold runs_to. read_state. unfold empty.
    replace (_top s1 <? 0) with false by bdec.
    pose proof (init_or_reset_spec true s1 Hs1) as H. revert H. unfold runs_to.
    destruct (init_or_reset true s1) as [[a s2]|]; [|done].
    intros (H1 & H2 & H3 & H4 & _). split; [done|]. split; [done|]. congruence.
  - cbn beta. intros _ s' (Hs' & Hr' & Hf'). by apply flush_expired_spec.
Qed.

(** ** A unit's life *)

Inductive Step :=
| SRequest (r : Request)
| SUpdate (held : bool) (script : list Request) (result : bool).
Definition step (movement : option MovementGenerator) (st : Step) : MM unit :=
  match st with
  | SRequest r => request movement r
  | SUpdate held script result => UpdateMotion movement held script result
  end.
Definition step_ok (st : Step) : Prop :=
  match st with
  | SRequest r => request_ok r
  | SUpdate _ script _ => Forall request_ok script
  end.
Fixpoint steps (movement : option MovementGenerator) (sts : list Step) : MM unit :=
  match sts with
  | [] => mret tt
  | st :: sts => step movement st;; steps movement sts
  end.

Lemma steps_settled movement sts s :
  settled s -> Forall step_ok sts -> runs_to (steps movement sts) s settled.
Proof.
  intros Hs Hok. revert s Hs. induction Hok as [|st sts Hst _ IH]; intros s Hs; [done|].
  cbn [steps]. apply (runs_to_bind _ _ _ settled); [|auto].
  destruct st; [by apply request_settled|by apply UpdateMotion_settled].
Qed.

Lemma Initialize_new movement : runs_to (Initialize movement) new_MotionMaster settled.
Proof.
  unfold runs_to. cbn. split; [split; [exact (stacked_idle _)|cbn; eauto]|done|done|done].
Qed.



(** ** Clearing *)

(** The calls that end a generator. *)
Definition ended (g : option MovementGenerator) : list Call :=
  match g with Some g => [Finalized g; Deleted g] | None => [] end.

Lemma DirectDelete_own g s :
  own g -> DirectDelete g s
  = Ok (tt, mkMotionMaster (_expList s) (Impl s) (_top s) (_needInit s) (_cleanFlag s)
              (calls s ++ [Finalized g; Deleted g])).
Proof.
  unfold DirectDelete, own. intros ->.
  transitivity (Ok (tt, mkMotionMaster (_expList s) (Impl s) (_top s) (_needInit s) (_cleanFlag s)
    ((calls s ++ [Finalized g]) ++ [Deleted g])) : outcome MMError (unit * MotionMaster)); [done|].
  by rewrite <- app_assoc.
Qed.

(** The loop of the immediate clearing, slot by slot. *)
Lemma pop_all_Direct a b c t e ni fl cs :
  stacked t [Some a; b; c] ->
  pop_all pop_all_fuel 1 DirectDelete (mkMotionMaster e [Some a; b; c] t ni fl cs)
  = Ok (tt, mkMotionMaster e [Some a; None; None] 0 ni fl (cs ++ ended c ++ ended b)).
Proof.
  intros Hk. inversion Hk; subst; cbn [ended]; rewrite ?app_nil_r; try reflexivity.
  - transitivity ((DirectDelete b0 ≫= fun _ => pop_all 4 1 DirectDelete)
      (mkMotionMaster e [Some a; None; None] 0 ni fl cs)); [reflexivity|].
    rewrite (st_bind_Ok _ _ _ _ _ (DirectDelete_own b0 _ ltac:(assumption))). reflexivity.
  - transitivity ((DirectDelete c0 ≫= fun _ => pop_all 4 1 DirectDelete)
      (mkMotionMaster e [Some a; None; None] 0 ni fl cs)); [reflexivity|].
    rewrite (st_bind_Ok _ _ _ _ _ (DirectDelete_own c0 _ ltac:(assumption))). reflexivity.
  - transitivity ((DirectDelete c0 ≫= fun _ => pop_all 4 1 DirectDelete)
      (mkMotionMaster e [Some a; Some b0; None] 1 ni fl cs)); [reflexivity|].
    rewrite (st_bind_Ok _ _ _ _ _ (DirectDelete_own c0 _ ltac:(assumption))).
    transitivity ((DirectDelete b0 ≫= fun _ => pop_all 3 1 DirectDelete)
      (mkMotionMaster e [Some a; None; None] 0 ni fl (cs ++ [Finalized c0; Deleted c0]))); [reflexivity|].
    rewrite (st_bind_Ok _ _ _ _ _ (DirectDelete_own b0 _ ltac:(assumption))). cbn. by rewrite <- app_assoc.
Qed.

(** [Clear], outside an update, leaves the default generator alone in
    control and ends every other one exactly once, the highest slot first;
    the default generator is initialised if it had not been, or reset if that
    was asked for. *)
Theorem Clear_ends_others reset s a b c :
  settled s -> Impl s = [Some a; b; c] ->
  exists s', Clear reset s = Ok (tt, s')
    /\ Impl s' = [Some a; None; None] /\ _top s' = 0
    /\ calls s' = calls s ++ ended c ++ ended b
         ++ (if default false (_needInit s !! 0%nat) then [Initialized a]
             else if reset then [WasReset a] else []).
Proof.
  intros [[Hk (n0 & n1 & n2 & Hn)] _ _ Hf] Hi. destruct s as [e impl t ni fl cs]. cbn in *. subst impl ni.
  unfold Clear. read_state. cbn [_cleanFlag]. rewrite Hf.
  unfold DirectClean. rewrite (st_bind_Ok _ _ _ _ _ (pop_all_Direct a b c t e _ fl cs Hk)).
  destruct n0, reset; (eexists; split; [reflexivity|split; [reflexivity|split; [reflexivity|]]]);
    cbn; by rewrite <- ?app_assoc, ?app_nil_r.
Qed.

(** ** What goes wrong *)

(** Emptying the stack reads outside the slots.  When [pop] takes the
    last generator, its loop [while (!top()) --_top] goes on to [Impl[-1]];
    so every [Initialize] of a motion master that already has a generator
    (and its destructor) does. *)
Theorem Initialize_again_out_of_bounds movement s :
  shaped s -> Initialize movement s = Err OutOfBounds.
Proof.
  intros [Hk (n0 & n1 & n2 & Hn)]. destruct s as [e impl t ni fl cs]. cbn in *. subst ni.
  unfold Initialize. apply st_bind_Err.
  assert (forall fuel a e cs, pop_all (S fuel) 0 DirectDelete
            (mkMotionMaster e [Some a; None; None] 0 [n0; n1; n2] fl cs) = Err OutOfBounds) as H0
    by reflexivity.
  assert (forall fuel a b e cs, own b -> pop_all (S (S fuel)) 0 DirectDelete
            (mkMotionMaster e [Some a; Some b; None] 1 [n0; n1; n2] fl cs) = Err OutOfBounds) as H1.
  { intros fuel a b e' cs' Hb.
    transitivity ((DirectDelete b ≫= fun _ => pop_all (S fuel) 0 DirectDelete)
      (mkMotionMaster e' [Some a; None; None] 0 [n0; n1; n2] fl cs')); [reflexivity|].
    rewrite (st_bind_Ok _ _ _ _ _ (DirectDelete_own b _ Hb)). exact (H0 fuel a e' _). }
  destruct Hk as [a|a b Hb|a c Hc|a b c Hb Hc].
  - exact (H0 4%nat a e cs).
  - exact (H1 3%nat a b e cs Hb).
  - transitivity ((DirectDelete c ≫= fun _ => pop_all 4 0 DirectDelete)
      (mkMotionMaster e [Some a; None; None] 0 [n0; n1; n2] fl cs)); [reflexivity|].
    rewrite (st_bind_Ok _ _ _ _ _ (DirectDelete_own c _ Hc)). exact (H0 3%nat a e _).
  - transitivity ((DirectDelete c ≫= fun _ => pop_all 4 0 DirectDelete)
      (mkMotionMaster e [Some a; Some b; None] 1 [n0; n1; n2] fl cs)); [reflexivity|].
    rewrite (st_bind_Ok _ _ _ _ _ (DirectDelete_own c _ Hc)). exact (H1 2%nat a b e _ Hb).
Qed.

Lemma Initialize_again_out_of_bounds_witness :
  Initialize None (mkMotionMaster None [Some 7; None; None] 0 [false; true; true] 0 []) = Err OutOfBounds.
Proof.
  apply Initialize_again_out_of_bounds. split; [exact (stacked_idle 7)|exists false, true, true; reflexivity].
Defined.

Lemma Clear_ends_others_witness :
  exists s', Clear true (mkMotionMaster None [Some 7; Some 8; Some 9] 2 [true; true; false] 0 []) = Ok (tt, s')
    /\ calls s' = [Finalized 9; Deleted 9; Finalized 8; Deleted 8; Initialized 7].
Proof.
  destruct (Clear_ends_others true (mkMotionMaster None [Some 7; Some 8; Some 9] 2 [true; true; false] 0 [])
              7 (Some 8) (Some 9)) as (s' & E & _ & _ & H).
  - split; [split|..]; try reflexivity; [exact (stacked_all 7 8 9 eq_refl eq_refl)|].
    exists true, true, false. reflexivity.
  - reflexivity.
  - exists s'. split; [exact E|exact H].
Defined.

(** A generator can be destroyed inside its own [Update].  [Mutate] holds
    the deletion of the running generator back only while it is in the
    highest slot: when its script first starts a movement in the controlled
    slot and then a new one in the active slot, the running generator is
    finalised and deleted before its [Update] has returned. *)
Theorem Mutate_deletes_running_generator movement s a g x y :
  settled s -> Impl s = [Some a; Some g; None] -> own x ->
  exists s', UpdateMotion movement false
               [RMutate x MOTION_SLOT_CONTROLLED; RMutate y MOTION_SLOT_ACTIVE] true s = Ok (tt, s')
    /\ calls s' = calls s ++ [Updating g; Initialized x; Finalized g; Deleted g; Updated g].
Proof.
  intros [[Hk (n0 & n1 & n2 & Hn)] _ He _] Hi Hx. destruct s as [e impl t ni fl cs]. cbn in *.
  subst impl ni e. inversion Hk; subst.
  set (fl1 := add_flag fl MMCF_UPDATE).
  assert (Hr : requests movement [RMutate x MOTION_SLOT_CONTROLLED; RMutate y MOTION_SLOT_ACTIVE]
    (mkMotionMaster None [Some a; Some g; None] 1 [n0; n1; n2] fl1 (cs ++ [Updating g]))
    = Ok (tt, mkMotionMaster None [Some a; Some y; Some x] 2 [n0; true; false] fl1
        (((cs ++ [Updating g]) ++ [Initialized x]) ++ [Finalized g; Deleted g]))).
  { cbn [requests request].
    assert (Mutate x MOTION_SLOT_CONTROLLED
      (mkMotionMaster None [Some a; Some g; None] 1 [n0; n1; n2] fl1 (cs ++ [Updating g]))
      = Ok (tt, mkMotionMaster None [Some a; Some g; Some x] 2 [n0; n1; false] fl1
         ((cs ++ [Updating g]) ++ [Initialized x]))) as E1 by reflexivity.
    rewrite (st_bind_Ok _ _ _ _ _ E1).
    assert (Mutate y MOTION_SLOT_ACTIVE (mkMotionMaster None [Some a; Some g; Some x] 2
        [n0; n1; false] fl1 ((cs ++ [Updating g]) ++ [Initialized x]))
      = Ok (tt, mkMotionMaster None [Some a; Some y; Some x] 2 [n0; true; false] fl1
          (((cs ++ [Updating g]) ++ [Initialized x]) ++ [Finalized g; Deleted g]))) as E2.
    { transitivity ((DirectDelete g ≫= fun _ => install y 1)
        (mkMotionMaster None [Some a; None; Some x] 2 [n0; n1; false] fl1
           ((cs ++ [Updating g]) ++ [Initialized x]))); [reflexivity|].
      rewrite (st_bind_Ok _ _ _ _ _ (DirectDelete_own g _ ltac:(assumption))). reflexivity. }
    rewrite (st_bind_Ok _ _ _ _ _ E2). reflexivity. }
  eexists. split.
  - transitivity ((requests movement [RMutate x MOTION_SLOT_CONTROLLED; RMutate y MOTION_SLOT_ACTIVE]
      ≫= fun _ => call (Updated g) ≫= fun _ => clear_flag MMCF_UPDATE ≫= fun _ => flush_expired movement)
      (mkMotionMaster None [Some a; Some g; None] 1 [n0; n1; n2] fl1 (cs ++ [Updating g]))); [reflexivity|].
    rewrite (st_bind_Ok _ _ _ _ _ Hr). reflexivity.
  - cbn. by rewrite <- !app_assoc.
Qed.

Lemma Mutate_deletes_running_generator_witness :
  exists s', UpdateMotion None false [RMutate 9 MOTION_SLOT_CONTROLLED; RMutate 10 MOTION_SLOT_ACTIVE] true
      (mkMotionMaster None [Some 7; Some 8; None] 1 [true; false; true] 0 []) = Ok (tt, s')
    /\ calls s' = [Updating 8; Initialized 9; Finalized 8; Deleted 8; Updated 8].
Proof.
  apply (Mutate_deletes_running_generator None
           (mkMotionMaster None [Some 7; Some 8; None] 1 [true; false; true] 0 []) 7 8 9 10).
  - split; [split|..]; try reflexivity; [exact (stacked_active 7 8 eq_refl)|].
    exists true, false, true. reflexivity.
  - reflexivity.
  - reflexivity.
Defined.
