(* ===== verification/Timers.v ===== *)
(** * Timers (src/server/shared/Utilities/Timer.h)

    The millisecond clock and the four kinds of timers that the update loops
    carry.  [time_t] is taken as an unbounded integer (it has 64 bits and its
    overflow is undefined); the 32-bit members have their width. *)
From S2P Require Import Prelude.
Local Open Scope Z_scope.

(** ** The clock *)

Definition getMSTimeDiff (oldMSTime newMSTime : Z) : Z :=
  if newMSTime <? oldMSTime
  then u32 (u32 (0xFFFFFFFF - oldMSTime) + newMSTime)
  else u32 (newMSTime - oldMSTime).

(** ** IntervalTimer *)
Record IntervalTimer := mkInterval { _interval : Z; _current : Z }.

Definition IntervalTimer_Update (diff : Z) (t : IntervalTimer) : IntervalTimer :=
  let current := _current t + diff in
  mkInterval (_interval t) (if current <? 0 then 0 else current).

Definition IntervalTimer_Passed (t : IntervalTimer) : bool := _interval t <=? _current t.

(** [%] of C++ truncates towards zero. *)
Definition IntervalTimer_Reset (t : IntervalTimer) : IntervalTimer :=
  if _interval t <=? _current t
  then mkInterval (_interval t) (Z.rem (_current t) (_interval t)) else t.

(** How the owners of such a timer use it: [IntervalTimer_Update], and when it has passed,
    [IntervalTimer_Reset] and do the work. *)
Definition IntervalTimer_tick (diff : Z) (t : IntervalTimer) : IntervalTimer * bool :=
  let t := IntervalTimer_Update diff t in
  if IntervalTimer_Passed t then (IntervalTimer_Reset t, true) else (t, false).

Fixpoint IntervalTimer_ticks (diffs : list Z) (t : IntervalTimer) : IntervalTimer * Z :=
  match diffs with
  | [] => (t, 0)
  | d :: diffs =>
      let '(t, fired) := IntervalTimer_tick d t in
      let '(t, n) := IntervalTimer_ticks diffs t in (t, Z.b2z fired + n)
  end.

(** ** TimeTracker and TimeTrackerSmall *)
Record TimeTracker := mkTracker { i_expiryTime : Z }.

Definition TimeTracker_Update (diff : Z) (t : TimeTracker) : TimeTracker := mkTracker (i_expiryTime t - diff).
Definition TimeTracker_Passed (t : TimeTracker) : bool := i_expiryTime t <=? 0.
Definition TimeTracker_Reset (interval : Z) (t : TimeTracker) : TimeTracker := mkTracker interval.

(** ** PeriodicTimer *)
Record PeriodicTimer := mkPeriodic { i_period : Z; i_expireTime : Z }.

(** [i_expireTime -= diff] and the addition mix [int32] with [uint32]: they
    are done in [uint32] and converted back. *)
Definition PeriodicTimer_Update (diff : Z) (t : PeriodicTimer) : PeriodicTimer * bool :=
  let e := s32 (u32 (i_expireTime t - diff)) in
  if 0 <? e then (mkPeriodic (i_period t) e, false)
  else
    let add := if s32 diff <? i_period t then u32 (i_period t) else diff in
    (mkPeriodic (i_period t) (s32 (u32 (e + add))), true).

Definition PeriodicTimer_SetPeriodic (period start_time : Z) : PeriodicTimer := mkPeriodic period start_time.

Definition PeriodicTimer_TUpdate (diff : Z) (t : PeriodicTimer) : PeriodicTimer :=
  mkPeriodic (i_period t) (s32 (i_expireTime t - diff)).
Definition PeriodicTimer_TPassed (t : PeriodicTimer) : bool := i_expireTime t <=? 0.
Definition PeriodicTimer_TReset (diff period : Z) (t : PeriodicTimer) : PeriodicTimer :=
  mkPeriodic (i_period t) (s32 (i_expireTime t + (if diff <? period then period else diff))).

Fixpoint PeriodicTimer_Updates (diffs : list Z) (t : PeriodicTimer) : PeriodicTimer * Z :=
  match diffs with
  | [] => (t, 0)
  | d :: diffs =>
      let '(t, fired) := PeriodicTimer_Update d t in
      let '(t, n) := PeriodicTimer_Updates diffs t in (t, Z.b2z fired + n)
  end.

(** ** Theorems *)

Definition total (diffs : list Z) : Z := foldr Z.add 0 diffs.

(** The difference of two readings of the 32-bit millisecond clock that
    are less than [2 ^ 32] ms apart is the time between them when the clock
    did not wrap, and one millisecond too little when it did. *)
Theorem getMSTimeDiff_elapsed old d :
  is_u32 old -> 0 < d < 2 ^ 32 ->
  getMSTimeDiff old (u32 (old + d)) = if old + d <? 2 ^ 32 then d else d - 1.
Proof.
  unfold is_u32. intros Ho Hd. unfold getMSTimeDiff.
  destruct (Z.ltb_spec (old + d) (2 ^ 32)) as [H|H].
  - rewrite (u32_small (old + d)) by (unfold is_u32; lia).
    destruct (Z.ltb_spec (old + d) old); [lia|].
    rewrite u32_small by (unfold is_u32; lia). lia.
  - assert (u32 (old + d) = old + d - 2 ^ 32) as ->.
    { unfold u32. rewrite <- (Z.mod_small (old + d - 2 ^ 32) (2 ^ 32)) by lia.
      rewrite Zminus_mod, Z_mod_same_full, Z.sub_0_r, Z.mod_mod by lia. done. }
    destruct (Z.ltb_spec (old + d - 2 ^ 32) old); [|lia].
    rewrite !u32_small; unfold is_u32; rewrite ?(Z.mod_small (_ - old)); try lia.
    all: unfold u32; rewrite ?Z.mod_small by lia; lia.
Qed.

Lemma getMSTimeDiff_elapsed_witness :
  getMSTimeDiff 4294967290 (u32 (4294967290 + 10)) = 9.
Proof.
  rewrite (getMSTimeDiff_elapsed 4294967290 10);
    [reflexivity|unfold is_u32; lia|lia].
Defined.

Lemma tick_conserves d t :
  0 < _interval t -> 0 <= _current t < _interval t -> 0 <= d ->
  let '(t', fired) := IntervalTimer_tick d t in
  _interval t' = _interval t /\ 0 <= _current t' < _interval t /\
  (exists k, 0 <= k /\ _current t + d = k * _interval t + _current t' /\
             (fired = true <-> 0 < k)).
Proof.
  intros Hi Hc Hd. unfold IntervalTimer_tick, IntervalTimer_Passed, IntervalTimer_Reset, IntervalTimer_Update. cbn [_interval _current].
  destruct (Z.ltb_spec (_current t + d) 0); [lia|].
  destruct (Z.leb_spec (_interval t) (_current t + d)) as [H1|H1]; cbn [_interval _current].
  - rewrite Z.rem_mod_nonneg by lia.
    pose proof (Z.mod_pos_bound (_current t + d) (_interval t)).
    pose proof (Z.div_mod (_current t + d) (_interval t)).
    split_and!; [done|lia|lia|].
    exists ((_current t + d) / _interval t).
    assert (0 < (_current t + d) / _interval t) by (apply Z.div_str_pos; lia).
    split_and!; [lia|lia|done].
  - split_and!; [done|lia|lia|]. exists 0. split_and!; [lia|lia|split; [done|lia]].
Qed.

(** An [IntervalTimer] that is reset whenever it has passed loses no
    time: what it shows is the elapsed time modulo its interval; and when
    no step is longer than the interval it has fired exactly once for every
    full interval. *)
Theorem IntervalTimer_no_drift diffs t :
  0 < _interval t -> 0 <= _current t < _interval t -> Forall (fun d => 0 <= d) diffs ->
  let '(t', n) := IntervalTimer_ticks diffs t in
  _current t' = (_current t + total diffs) `mod` _interval t /\
  (Forall (fun d => d <= _interval t) diffs -> n = (_current t + total diffs) `div` _interval t).
Proof.
  intros Hi Hc Hd. revert t Hi Hc. induction Hd as [|d diffs Hd _ IH]; intros t Hi Hc.
  { cbn. rewrite Z.add_0_r, Z.mod_small, Z.div_small by lia. done. }
  cbn [IntervalTimer_ticks]. pose proof (tick_conserves d t Hi Hc Hd) as Ht.
  destruct (IntervalTimer_tick d t) as [t1 fired]. destruct Ht as (Hi1 & Hc1 & k & Hk & He & Hf).
  specialize (IH t1). rewrite Hi1 in IH. specialize (IH Hi Hc1).
  destruct (IntervalTimer_ticks diffs t1) as [t2 n]. destruct IH as [IHc IHn].
  assert (_current t + total (d :: diffs) = _current t1 + total diffs + k * _interval t) as ->
    by (cbn [total foldr]; fold (total diffs); lia).
  split.
  - by rewrite Z.mod_add by lia.
  - intros [Hle Hles]%Forall_cons. rewrite Z.div_add by lia. rewrite (IHn Hles).
    assert (k < 2) by nia.
    destruct fired; cbn [Z.b2z]; [assert (0 < k) by by apply Hf|]; [lia|].
    assert (~ 0 < k) by (intros ?%Hf; done). lia.
Qed.

Lemma IntervalTimer_no_drift_witness :
  let '(t', n) := IntervalTimer_ticks [40; 70; 100; 5] (mkInterval 100 0) in
  _current t' = 15 /\ n = 2.
Proof.
  pose proof (IntervalTimer_no_drift [40; 70; 100; 5] (mkInterval 100 0)) as H.
  destruct (IntervalTimer_ticks _ _) as [t' n].
  destruct H as [Hc Hn]; [cbn; lia|cbn; lia|repeat constructor; lia|].
  split; [rewrite Hc; reflexivity|rewrite Hn; [reflexivity|repeat constructor; cbn; lia]].
Defined.

(** What one [PeriodicTimer_Update] does when no step is longer than the period. *)
Lemma Update_step d t :
  0 < i_period t < 2 ^ 31 -> 0 <= i_expireTime t <= i_period t -> 0 <= d <= i_period t ->
  let '(t', fired) := PeriodicTimer_Update d t in
  i_period t' = i_period t /\ 0 <= i_expireTime t' <= i_period t /\
  i_expireTime t' = i_expireTime t - d + Z.b2z fired * i_period t /\
  (fired = true <-> i_expireTime t <= d).
Proof.
  intros Hp He Hd. unfold PeriodicTimer_Update. rewrite s32_u32, s32_small by lia.
  destruct (Z.ltb_spec 0 (i_expireTime t - d)) as [H|H]; cbn [i_period i_expireTime Z.b2z].
  { split_and!; [done|lia..|split; [done|lia]]. }
  rewrite (s32_small d) by lia.
  assert ((if d <? i_period t then u32 (i_period t) else d) = i_period t) as ->.
  { destruct (Z.ltb_spec d (i_period t)); [|lia]. apply u32_small. unfold is_u32. lia. }
  rewrite s32_u32, s32_small by lia. split_and!; [done|lia..|split; [lia|done]].
Qed.

(** A [PeriodicTimer] updated in steps no longer than its period does
    not drift: after any number of updates the time it has been given is the
    number of firings times the period, up to the one period it is waiting
    for. *)
Theorem PeriodicTimer_no_drift diffs t :
  0 < i_period t < 2 ^ 31 -> 0 <= i_expireTime t <= i_period t ->
  Forall (fun d => 0 <= d <= i_period t) diffs ->
  let '(t', n) := PeriodicTimer_Updates diffs t in
  n * i_period t = total diffs - i_expireTime t + i_expireTime t' /\
  0 <= i_expireTime t' <= i_period t.
Proof.
  intros Hp He Hd. revert t Hp He Hd. induction diffs as [|d diffs IH]; intros t Hp He Hd.
  { cbn. lia. }
  apply Forall_cons in Hd as [Hd Hds]. cbn [PeriodicTimer_Updates].
  pose proof (Update_step d t Hp He Hd) as Hu.
  destruct (PeriodicTimer_Update d t) as [t1 fired]. destruct Hu as (Hp1 & He1 & Heq & _).
  specialize (IH t1). rewrite Hp1 in IH. specialize (IH Hp He1 Hds).
  destruct (PeriodicTimer_Updates diffs t1) as [t2 n]. destruct IH as [IH1 IH2].
  split; [|done]. cbn [total foldr]. fold (total diffs). nia.
Qed.

Lemma PeriodicTimer_no_drift_witness :
  let '(t', n) := PeriodicTimer_Updates [40; 70; 100; 5] (mkPeriodic 100 30) in
  n * 100 = 215 - 30 + i_expireTime t' /\ 0 <= i_expireTime t' <= 100.
Proof.
  pose proof (PeriodicTimer_no_drift [40; 70; 100; 5] (mkPeriodic 100 30)) as H.
  destruct (PeriodicTimer_Updates _ _) as [t' n]. cbn in H.
  apply H; [lia|lia|repeat constructor; lia].
Defined.
