(* ===== verification/EventProcessor.v ===== *)
(** * The event queue (src/server/shared/Utilities/EventProcessor.cpp, EventProcessor.h)

    Every unit and the battleground queue carry an [EventProcessor]: a
    multimap from due time to [BasicEvent*].  Events are virtual; what their
    [Execute], [Abort] and [IsDeletable] do is a parameter, which may add
    events (the running one again, or new ones) and kill the queue from
    inside [Execute].  Events live on a heap, so that a dangling pointer is
    an error and a leaked event stays visible. *)
From S2P Require Import Prelude.
From S2P Require Import Lists.
Local Open Scope Z_scope.

(** ** State *)

Definition EventPtr : Type := Z.

Record BasicEvent := mkEvent { to_Abort : bool; m_addTime : Z; m_execTime : Z }.
Definition new_BasicEvent : BasicEvent := mkEvent false 0 0.

(** A node of the multimap; [id] is its address (what an iterator holds). *)
Record Node := mkNode { first : Z; second : EventPtr; id : Z }.

Inductive EPError := UseAfterFree | InvalidIterator | OutOfFuel.

(** What happened to events, in order. *)
Inductive Fate :=
| Executed (ev : EventPtr) (time : Z)
| WasAborted (ev : EventPtr) (time : Z)
| Freed (ev : EventPtr).

Section EventProcessor.
(** The world that events act on. *)
Context {W : Type}.

Record EventProcessor := mkProcessor {
  m_time : Z;
  m_events : list Node;
  m_aborting : bool;
  heap : gmap EventPtr BasicEvent;
  next_ptr : Z;
  next_id : Z;
  world : W;
  trace : list Fate
}.

Definition EP (A : Type) : Type := ST EventProcessor EPError A.

Definition new_EventProcessor (w : W) : EventProcessor := mkProcessor 0 [] false ∅ 0 0 w [].

Definition set_time (t : Z) (s : EventProcessor) : EventProcessor :=
  mkProcessor t (m_events s) (m_aborting s) (heap s) (next_ptr s) (next_id s) (world s) (trace s).
Definition set_events (l : list Node) (s : EventProcessor) : EventProcessor :=
  mkProcessor (m_time s) l (m_aborting s) (heap s) (next_ptr s) (next_id s) (world s) (trace s).
Definition set_aborting (b : bool) (s : EventProcessor) : EventProcessor :=
  mkProcessor (m_time s) (m_events s) b (heap s) (next_ptr s) (next_id s) (world s) (trace s).
Definition set_heap (h : gmap EventPtr BasicEvent) (s : EventProcessor) : EventProcessor :=
  mkProcessor (m_time s) (m_events s) (m_aborting s) h (next_ptr s) (next_id s) (world s) (trace s).
Definition set_world (w : W) (s : EventProcessor) : EventProcessor :=
  mkProcessor (m_time s) (m_events s) (m_aborting s) (heap s) (next_ptr s) (next_id s) w (trace s).
Definition note (f : Fate) (s : EventProcessor) : EventProcessor :=
  mkProcessor (m_time s) (m_events s) (m_aborting s) (heap s) (next_ptr s) (next_id s) (world s)
    (trace s ++ [f]).

(** Allocation of an event ([new SomeEvent(...)]) and of a node. *)
Definition new_event : EP EventPtr := fun s =>
  Ok (next_ptr s, mkProcessor (m_time s) (m_events s) (m_aborting s)
                    (<[next_ptr s := new_BasicEvent]> (heap s))
                    (next_ptr s + 1) (next_id s) (world s) (trace s)).
Definition new_node : EP Z := fun s =>
  Ok (next_id s, mkProcessor (m_time s) (m_events s) (m_aborting s) (heap s)
                   (next_ptr s) (next_id s + 1) (world s) (trace s)).

Definition deref (ev : EventPtr) : EP BasicEvent := fun s =>
  match heap s !! ev with Some e => Ok (e, s) | None => Err UseAfterFree end.
Definition store (ev : EventPtr) (e : BasicEvent) : EP unit :=
  deref ev;; st_modify (fun s => set_heap (<[ev := e]> (heap s)) s).
Definition delete_event (ev : EventPtr) : EP unit :=
  deref ev;; st_modify (fun s => note (Freed ev) (set_heap (delete ev (heap s)) s)).

(** ** The events' own code *)

Inductive Request :=
| AddThis (e_time : Z) (set_addtime : bool)
| AddNew (e_time : Z) (set_addtime : bool)
| Kill (force : bool).

Record EventCode := mkCode {
  Execute : EventPtr -> Z -> Z -> W -> W * list Request * bool;
  (** an abort may only add new events (at the times given) *)
  Abort : EventPtr -> Z -> W -> W * list Z;
  IsDeletable : EventPtr -> W -> bool
}.
Context (code : EventCode).

(** ** Operations *)

(** [std::multimap::insert]: behind the nodes with the same key. *)
Fixpoint insert_node (n : Node) (l : list Node) : list Node :=
  match l with
  | [] => [n]
  | x :: l => if first n <? first x then n :: x :: l else x :: insert_node n l
  end.

Definition AddEvent (Event : EventPtr) (e_time : Z) (set_addtime : bool) : EP unit :=
  e ← deref Event;
  s ← st_get;
  store Event (mkEvent (to_Abort e) (if set_addtime then m_time s else m_addTime e) e_time);;
  node ← new_node;
  st_modify (fun s => set_events (insert_node (mkNode e_time Event node) (m_events s)) s).

Definition CalculateTime (t_offset : Z) (s : EventProcessor) : Z := u64 (m_time s + t_offset).

Definition AddNewEvent (e_time : Z) (set_addtime : bool) : EP unit :=
  ev ← new_event; AddEvent ev e_time set_addtime.

Fixpoint add_all (times : list Z) : EP unit :=
  match times with
  | [] => mret tt
  | t :: times => AddNewEvent t true;; add_all times
  end.

(** [Event->Abort(m_time)] *)
Definition call_Abort (ev : EventPtr) : EP unit :=
  s ← st_get;
  let '(w, times) := Abort code ev (m_time s) (world s) in
  st_modify (fun s => note (WasAborted ev (m_time s)) (set_world w s));;
  add_all times.

(** The node at an iterator, and the iterator behind it. *)
Fixpoint find_node (i : Z) (l : list Node) : option (Node * option Z) :=
  match l with
  | [] => None
  | n :: l => if id n =? i then Some (n, option_map id (hd_error l)) else find_node i l
  end.

Definition erase_node (i : Z) (l : list Node) : list Node := filter (fun n => id n <> i) l.

(** The loop of [KillAllEvents]; an iterator is a node's address, [None] at
    the end. *)
Fixpoint kill_loop (fuel : nat) (force : bool) (i : option Z) : EP unit :=
  match i with
  | None => mret tt
  | Some i_old =>
      match fuel with
      | O => st_throw OutOfFuel
      | S fuel =>
          s ← st_get;
          match find_node i_old (m_events s) with
          | None => st_throw InvalidIterator
          | Some (n, next) =>
              e ← deref (second n);
              store (second n) (mkEvent true (m_addTime e) (m_execTime e));;
              call_Abort (second n);;
              s ← st_get;
              (if force || IsDeletable code (second n) (world s) then
                 delete_event (second n);;
                 (if negb force
                  then st_modify (fun s => set_events (erase_node i_old (m_events s)) s)
                  else mret tt)
               else mret tt);;
              kill_loop fuel force next
          end
      end
  end.

Definition KillAllEvents (fuel : nat) (force : bool) : EP unit :=
  st_modify (set_aborting true);;
  s ← st_get;
  kill_loop fuel force (option_map id (hd_error (m_events s)));;
  if force then st_modify (set_events []) else mret tt.

(** [~EventProcessor] *)
Definition destroy (fuel : nat) : EP unit := KillAllEvents fuel true.

Fixpoint do_requests (fuel : nat) (this : EventPtr) (rs : list Request) : EP unit :=
  match rs with
  | [] => mret tt
  | r :: rs =>
      match r with
      | AddThis t set => AddEvent this t set
      | AddNew t set => AddNewEvent t set
      | Kill force => KillAllEvents fuel force
      end;;
      do_requests fuel this rs
  end.

(** [Event->Execute(m_time, p_time)] *)
Definition call_Execute (fuel : nat) (ev : EventPtr) (p_time : Z) : EP bool :=
  s ← st_get;
  let '(w, rs, r) := Execute code ev (m_time s) p_time (world s) in
  st_modify (fun s => note (Executed ev (m_time s)) (set_world w s));;
  do_requests fuel ev rs;;
  mret r.

(** The main loop of [Update]; [fuel] bounds it, [kfuel] the loops inside. *)
Fixpoint update_loop (fuel kfuel : nat) (p_time : Z) : EP unit :=
  s ← st_get;
  match m_events s with
  | [] => mret tt
  | i :: rest =>
      if first i <=? m_time s then
        match fuel with
        | O => st_throw OutOfFuel
        | S fuel =>
            st_modify (set_events rest);;
            e ← deref (second i);
            (if negb (to_Abort e) then
               r ← call_Execute kfuel (second i) p_time;
               (if r : bool then delete_event (second i) else mret tt)
             else
               call_Abort (second i);;
               delete_event (second i));;
            update_loop fuel kfuel p_time
        end
      else mret tt
  end.

Definition Update (fuel : nat) (p_time : Z) : EP unit :=
  st_modify (fun s => set_time (u64 (m_time s + p_time)) s);;
  update_loop fuel fuel p_time.

(** [event->to_Abort = true] from outside. *)
Definition mark_aborted (ev : EventPtr) : EP unit :=
  e ← deref ev; store ev (mkEvent true (m_addTime e) (m_execTime e)).


(** What the clients of a processor do with it, one call at a time;
    [OMark k] aborts the [k]-th queued event. *)
Inductive Op :=
| OAdd (t_offset : Z) (set_addtime : bool)
| OMark (k : nat)
| OUpdate (p_time : Z)
| OKill (force : bool).

Definition do_op (fuel : nat) (o : Op) : EP unit :=
  s ← st_get;
  match o with
  | OAdd off set => AddNewEvent (CalculateTime off s) set
  | OMark k => match m_events s !! k with Some n => mark_aborted (second n) | None => mret tt end
  | OUpdate p => Update fuel p
  | OKill force => KillAllEvents fuel force
  end.

Fixpoint do_ops (fuel : nat) (os : list Op) : EP unit :=
  match os with
  | [] => mret tt
  | o :: os => do_op fuel o;; do_ops fuel os
  end.

(** ** The contract of events *)

Definition is_this (r : Request) : bool := match r with AddThis _ _ => true | _ => false end.
Definition is_kill (r : Request) : bool := match r with Kill _ => true | _ => false end.
Definition request_later (now : Z) (r : Request) : Prop :=
  match r with AddThis t _ | AddNew t _ => now < t | Kill _ => True end.

(** An event asks not to be deleted exactly when it has put itself back, it
    adds events only for later, and an abort adds none. *)
Class Disciplined : Prop := {
  this_once : forall ev t p w w' rs r, Execute code ev t p w = (w', rs, r) ->
    length (List.filter is_this rs) = if r then 0%nat else 1%nat;
  adds_later : forall ev t p w w' rs r, Execute code ev t p w = (w', rs, r) ->
    Forall (request_later t) rs;
  abort_quiet : forall ev t w, snd (Abort code ev t w) = []
}.

(** ** The invariant: the heap holds exactly the queued events and the ones
    in the caller's hands, [run] *)

Definition ptrs (s : EventProcessor) : list EventPtr := map second (m_events s).
Definition ordered (l : list Node) : Prop := StronglySorted (fun a b => first a <= first b) l.

Record wf (run : list EventPtr) (s : EventProcessor) : Prop := {
  wf_nodup : NoDup (run ++ ptrs s);
  wf_heap : forall ev, is_Some (heap s !! ev) <-> In ev (run ++ ptrs s);
  wf_fresh : forall ev, In ev (run ++ ptrs s) -> ev < next_ptr s;
  wf_ids : NoDup (map id (m_events s));
  wf_id_fresh : Forall (fun n => id n < next_id s) (m_events s);
  wf_sorted : ordered (m_events s)
}.

Lemma wf_new w : wf [] (new_EventProcessor w).
Proof.
  split; cbn; [constructor|..|constructor|constructor|constructor]; [|done].
  intros ev. rewrite lookup_empty. split; [intros [? ?]; done|done].
Qed.

Lemma insert_node_perm n l : Permutation (insert_node n l) (n :: l).
Proof.
  induction l as [|x l IH]; cbn; [done|]. destruct (first n <? first x); [done|].
  rewrite IH. apply Permutation_swap.
Qed.

Lemma insert_node_ordered n l : ordered l -> ordered (insert_node n l).
Proof.
  intros Hl. induction Hl as [|x l Hs IH Hx]; cbn; [repeat constructor|].
  destruct (Z.ltb_spec (first n) (first x)) as [H|H].
  - constructor; [by constructor|]. constructor; [lia|].
    eapply Forall_impl; [exact Hx|]. cbn. intros; lia.
  - constructor; [done|]. rewrite insert_node_perm. by constructor.
Qed.

Definition due (s : EventProcessor) : list Node :=
  List.filter (fun n => first n <=? m_time s) (m_events s).

Lemma insert_node_not_due t n l :
  t < first n ->
  List.filter (fun x => first x <=? t) (insert_node n l) = List.filter (fun x => first x <=? t) l.
Proof.
  intros Hn. induction l as [|x l IH]; cbn [insert_node List.filter].
  { destruct (Z.leb_spec (first n) t); [lia|done]. }
  destruct (first n <? first x); cbn [List.filter].
  - destruct (Z.leb_spec (first n) t); [lia|done].
  - by rewrite IH.
Qed.

(** Putting an event back that the caller holds. *)
Lemma AddEvent_spec ev run t set s :
  wf (ev :: run) s ->
  exists s', AddEvent ev t set s = Ok (tt, s') /\ wf run s' /\
    m_events s' = insert_node (mkNode t ev (next_id s)) (m_events s) /\
    m_time s' = m_time s /\ world s' = world s /\ trace s' = trace s /\
    (forall x e, heap s !! x = Some e ->
       exists e', heap s' !! x = Some e' /\ to_Abort e' = to_Abort e) /\
    next_ptr s' = next_ptr s.
Proof.
  intros [Hnd Hh Hf Hi Hif Hs].
  destruct (proj2 (Hh ev)) as [e He]; [by left|].
  unfold AddEvent, store, deref, new_node, st_modify, st_get.
  unfold mbind, st_bind. rewrite He. cbn. rewrite He. cbn. unfold set_heap. cbn.
  eexists. split; [reflexivity|]. cbn.
  assert (Hp : Permutation (map second (insert_node (mkNode t ev (next_id s)) (m_events s)))
                 (ev :: ptrs s)) by (rewrite insert_node_perm; done).
  split_and!; [|done|done|done|done| |done].
  - split; cbn; unfold ptrs; cbn.
    + rewrite Hp. rewrite <- Permutation_middle. done.
    + intros x. rewrite Hp, <- Permutation_middle. rewrite <- (Hh x).
      destruct (decide (x = ev)) as [->|]; [rewrite lookup_insert_eq, He|rewrite lookup_insert_ne by done];
        first [done|split; intros; eauto].
    + intros x. rewrite Hp, <- Permutation_middle. apply Hf.
    + rewrite insert_node_perm. cbn. constructor; [|done].
      rewrite list_elem_of_fmap. intros (n & Hn & Hin).
      apply (proj1 (Forall_forall _ _) Hif) in Hin. lia.
    + rewrite insert_node_perm. constructor; [cbn; lia|].
      eapply Forall_impl; [exact Hif|]. cbn. intros; lia.
    + by apply insert_node_ordered.
  - intros x e' Hx. destruct (decide (x = ev)) as [->|].
    + rewrite lookup_insert_eq. simplify_eq. eauto.
    + rewrite lookup_insert_ne by done. eauto.
Qed.

(** The invariant depends on four fields only. *)
Lemma wf_ext run s s' :
  wf run s -> m_events s' = m_events s -> (forall x, is_Some (heap s' !! x) <-> is_Some (heap s !! x)) ->
  next_ptr s' = next_ptr s -> next_id s' = next_id s -> wf run s'.
Proof.
  intros [] He Hh Hp Hi. split; unfold ptrs in *; rewrite ?He, ?Hp, ?Hi; [done|..|done|done|done|done].
  intros ev. by rewrite Hh.
Qed.

Lemma wf_shrink run run' s s' ev :
  wf run s -> Permutation (run ++ ptrs s) (ev :: run' ++ ptrs s') ->
  sublist (m_events s') (m_events s) -> heap s' = delete ev (heap s) ->
  next_ptr s' = next_ptr s -> next_id s' = next_id s -> wf run' s'.
Proof.
  intros [Hnd Hh Hf Hi Hif Hs] Hp Hsub Hhp Hnp Hni.
  rewrite Hp in Hnd. apply NoDup_cons in Hnd as [Hev Hnd].
  split; rewrite ?Hnp, ?Hni.
  - done.
  - intros x. rewrite Hhp, lookup_delete_is_Some, (Hh x), Hp. cbn. split.
    + intros [Hne [->|Hin]]; done.
    + intros Hin. split; [|auto]. intros ->. by apply Hev, list_elem_of_In.
  - intros x Hx. apply Hf. rewrite Hp. by right.
  - eapply sublist_NoDup; [exact Hi|]. by apply (fmap_sublist id).
  - eauto using sublist_Forall.
  - unfold ordered. eauto using sublist_StronglySorted.
Qed.

Lemma AddNewEvent_spec run t set s :
  wf run s ->
  exists s', AddNewEvent t set s = Ok (tt, s') /\ wf run s' /\
    m_events s' = insert_node (mkNode t (next_ptr s) (next_id s)) (m_events s) /\
    m_time s' = m_time s /\ world s' = world s /\ trace s' = trace s /\
    (forall x e, In x (ptrs s) -> heap s !! x = Some e ->
       exists e', heap s' !! x = Some e' /\ to_Abort e' = to_Abort e).
Proof.
  intros Hwf. unfold AddNewEvent, new_event.
  set (s1 := mkProcessor (m_time s) (m_events s) (m_aborting s)
               (<[next_ptr s := new_BasicEvent]> (heap s)) (next_ptr s + 1) (next_id s)
               (world s) (trace s)).
  assert (Hwf1 : wf (next_ptr s :: run) s1).
  { destruct Hwf as [Hnd Hh Hf Hi Hif Hs]. split; cbn; try done.
    - constructor; [|done]. intros Hin%list_elem_of_In%Hf. lia.
    - intros x. destruct (decide (x = next_ptr s)) as [->|].
      + rewrite lookup_insert_eq. split; eauto.
      + rewrite lookup_insert_ne by done. rewrite (Hh x). unfold ptrs. cbn.
        split; [by right|intros [|]; [congruence|done]].
    - intros x [<-|Hx]; [lia|]. specialize (Hf x Hx). lia. }
  destruct (AddEvent_spec _ _ t set _ Hwf1) as (s' & He & Hwf' & Hev & Ht & Hw & Htr & Ha & _).
  exists s'. split_and!; try done. intros x e Hx Hxe. apply Ha. cbn.
  rewrite lookup_insert_ne; [done|]. intros <-.
  assert (next_ptr s < next_ptr s) by (apply (wf_fresh _ _ Hwf), in_or_app; auto). lia.
Qed.

#[local] Arguments erase_node : simpl never.

Lemma find_node_mid pre n suf :
  NoDup (map id (pre ++ n :: suf)) ->
  find_node (id n) (pre ++ n :: suf) = Some (n, option_map id (hd_error suf)).
Proof.
  induction pre as [|x pre IH]; cbn.
  { by rewrite Z.eqb_refl. }
  intros [Hx Hnd]%NoDup_cons. destruct (Z.eqb_spec (id x) (id n)) as [He|]; [|auto].
  destruct Hx. rewrite He. apply list_elem_of_In, in_map, in_or_app. right. by left.
Qed.

Lemma erase_node_mid pre n suf :
  NoDup (map id (pre ++ n :: suf)) -> erase_node (id n) (pre ++ n :: suf) = pre ++ suf.
Proof.
  intros Hnd. unfold erase_node. rewrite filter_app, filter_cons_False by naive_solver.
  rewrite map_app in Hnd. cbn in Hnd.
  apply NoDup_app in Hnd as (_ & Hd & Hn). apply NoDup_cons in Hn as [Hn _].
  f_equal; apply filter_all, Forall_forall; intros x Hx%list_elem_of_In Hid.
  - apply (Hd (id n)); [|by left]. rewrite <- Hid. by apply list_elem_of_In, in_map.
  - destruct Hn. rewrite <- Hid. by apply list_elem_of_In, in_map.
Qed.

(** ** Killing the queue *)

Lemma call_Abort_quiet `{!Disciplined} ev s :
  call_Abort ev s
  = Ok (tt, note (WasAborted ev (m_time s)) (set_world (fst (Abort code ev (m_time s) (world s))) s)).
Proof.
  unfold call_Abort, st_get, st_modify, mbind, st_bind.
  pose proof (abort_quiet ev (m_time s) (world s)) as Hq.
  destruct (Abort code ev (m_time s) (world s)) as [w times]. cbn in *. by subst times.
Qed.

(** One round of the loop on the node [n]: its event is marked, aborted, and
    unless it declines, freed. *)
Definition kill_node (force : bool) (n : Node) (s : EventProcessor) : EventProcessor :=
  let e := default new_BasicEvent (heap s !! second n) in
  let s := set_heap (<[second n := mkEvent true (m_addTime e) (m_execTime e)]> (heap s)) s in
  let s := note (WasAborted (second n) (m_time s))
             (set_world (fst (Abort code (second n) (m_time s) (world s))) s) in
  if force || IsDeletable code (second n) (world s) then
    let s := note (Freed (second n)) (set_heap (delete (second n) (heap s)) s) in
    if force then s else set_events (erase_node (id n) (m_events s)) s
  else s.

Lemma kill_loop_step `{!Disciplined} fuel force pre n suf s :
  m_events s = pre ++ n :: suf -> NoDup (map id (m_events s)) -> is_Some (heap s !! second n) ->
  kill_loop (S fuel) force (Some (id n)) s
  = kill_loop fuel force (option_map id (hd_error suf)) (kill_node force n s).
Proof.
  intros He Hnd [e Hh]. cbn [kill_loop].
  unfold st_get, store, deref, delete_event, deref, st_modify, mbind, st_bind.
  cbv beta iota. rewrite He, find_node_mid by (by rewrite <- He).
  cbv beta iota. rewrite Hh. cbv beta iota. rewrite Hh. cbv beta iota.
  rewrite call_Abort_quiet. cbv beta iota. unfold kill_node. rewrite Hh. cbn [default].
  destruct (force || _) eqn:Hf; [|done].
  cbn. rewrite lookup_insert_eq. by destruct force.
Qed.

(** The nodes still to be dealt with, as the invariant sees them. *)
Definition live_nodes (force : bool) (pre suf : list Node) : list Node :=
  if force then suf else pre ++ suf.

Lemma kill_node_spec force pre n suf run s :
  m_events s = pre ++ n :: suf -> NoDup (map id (m_events s)) ->
  wf run (set_events (live_nodes force pre (n :: suf)) s) ->
  exists pre', m_events (kill_node force n s) = pre' ++ suf /\
    sublist (pre' ++ suf) (m_events s) /\
    m_time (kill_node force n s) = m_time s /\
    wf run (set_events (live_nodes force pre' suf) (kill_node force n s)).
Proof.
  intros He Hnd Hwf.
  assert (Hin : is_Some (heap s !! second n)).
  { apply (wf_heap _ _ Hwf). apply in_or_app. right. unfold ptrs, live_nodes. cbn.
    destruct force; [by left|]. rewrite map_app. apply in_or_app. right. by left. }
  unfold kill_node. set (ev := second n) in *. set (e := mkEvent true _ _).
  set (w := fst _).
  assert (Hext : forall l s0, m_events s0 = l -> heap s0 = <[ev := e]> (heap s) ->
             next_ptr s0 = next_ptr s -> next_id s0 = next_id s ->
             l = live_nodes force pre (n :: suf) -> wf run s0).
  { intros l s0 Hl Hh Hnp Hni ->. eapply wf_ext; [exact Hwf|done|..|done|done].
    intros x. rewrite Hh. cbn. destruct (decide (x = ev)) as [->|].
    - rewrite lookup_insert_eq. split; [done|eauto].
    - by rewrite lookup_insert_ne. }
  assert (Hshrink : forall s0 l, m_events s0 = l -> heap s0 = delete ev (<[ev := e]> (heap s)) ->
             next_ptr s0 = next_ptr s -> next_id s0 = next_id s ->
             l = live_nodes force pre suf -> wf run s0).
  { intros s0 l Hl Hh Hnp Hni ->. eapply (wf_shrink run run (set_events (live_nodes force pre (n :: suf))
      (set_heap (<[ev := e]> (heap s)) s)) s0 ev); [by eapply Hext|..]; try done.
    - unfold ptrs. cbn. rewrite Hl. unfold live_nodes. destruct force; cbn.
      + by rewrite <- Permutation_middle.
      + rewrite !map_app. cbn. by rewrite !app_assoc, <- !Permutation_middle.
    - cbn. rewrite Hl. unfold live_nodes. destruct force; [by constructor|].
      apply sublist_app; [done|by constructor]. }
  destruct force; cbn [orb live_nodes].
  - exists (pre ++ [n]). cbn. rewrite <- app_assoc. split_and!; [done|by rewrite He|done|].
    by eapply Hshrink.
  - match goal with |- context[if ?b then _ else _] => destruct b end; cbn.
    + assert (Her : erase_node (id n) (m_events s) = pre ++ suf)
        by (rewrite He; apply erase_node_mid; by rewrite <- He).
      exists pre. split_and!; [done| |done|by eapply Hshrink].
      rewrite He. apply sublist_app; [done|by constructor].
    + exists (pre ++ [n]). rewrite <- !app_assoc. cbn.
      split_and!; [done|by rewrite He|done|by eapply Hext].
Qed.

Lemma kill_loop_spec `{!Disciplined} force suf pre run s :
  m_events s = pre ++ suf -> NoDup (map id (m_events s)) ->
  wf run (set_events (live_nodes force pre suf) s) ->
  exists s',
    (forall fuel, (length suf <= fuel)%nat ->
       kill_loop fuel force (option_map id (hd_error suf)) s = Ok (tt, s')) /\
    sublist (m_events s') (m_events s) /\ m_time s' = m_time s /\
    wf run (if force then set_events [] s' else s').
Proof.
  revert pre s. induction suf as [|n suf IH]; intros pre s He Hnd Hwf.
  { exists s. split_and!; [by intros [|]|done|done|].
    unfold live_nodes in Hwf. destruct force; [done|].
    eapply wf_ext; [exact Hwf|cbn; by rewrite He|done..]. }
  assert (Hin : is_Some (heap s !! second n)).
  { apply (wf_heap _ _ Hwf). apply in_or_app. right. unfold ptrs, live_nodes. cbn.
    destruct force; [by left|]. rewrite map_app. apply in_or_app. right. by left. }
  destruct (kill_node_spec force pre n suf run s He Hnd Hwf) as (pre' & He' & Hsub & Ht & Hwf').
  destruct (IH pre' (kill_node force n s)) as (s' & Hk & Hs' & Ht' & Hw').
  { done. } { rewrite He'. eapply sublist_NoDup; [exact Hnd|by apply (fmap_sublist id)]. } { done. }
  exists s'. split_and!; [|by rewrite Hs', He'|by rewrite Ht'|done].
  intros [|fuel] Hf; cbn in Hf; [lia|]. cbn [hd_error option_map].
  erewrite kill_loop_step by done. apply Hk. lia.
Qed.

Lemma KillAllEvents_spec `{!Disciplined} force run s :
  wf run s ->
  exists s',
    (forall fuel, (length (m_events s) <= fuel)%nat -> KillAllEvents fuel force s = Ok (tt, s')) /\
    sublist (m_events s') (m_events s) /\ m_time s' = m_time s /\ wf run s' /\
    (force = true -> m_events s' = []).
Proof.
  intros Hwf. set (s0 := set_aborting true s).
  destruct (kill_loop_spec force (m_events s0) [] run s0) as (s' & Hk & Hs & Ht & Hw);
    [done|apply Hwf| |].
  { unfold live_nodes. eapply wf_ext; [exact Hwf|by destruct force|done..]. }
  exists (if force then set_events [] s' else s'). split_and!.
  - intros fuel Hf. unfold KillAllEvents, st_modify, st_get, mbind, st_bind.
    change (set_aborting true s) with s0.
    cbv beta iota. rewrite Hk by done. by destruct force.
  - destruct force; [apply sublist_nil_l|done].
  - destruct force; done.
  - done.
  - by destruct force.
Qed.

(** ** Running the queue *)

Definition due_count (s : EventProcessor) : nat := length (due s).

Lemma due_sublist s s' :
  sublist (m_events s') (m_events s) -> m_time s' = m_time s -> (due_count s' <= due_count s)%nat.
Proof. intros Hs Ht. unfold due_count, due. rewrite Ht. by apply sublist_filter_length. Qed.

Lemma due_insert s s' n :
  m_events s' = insert_node n (m_events s) -> m_time s' = m_time s -> m_time s < first n ->
  due s' = due s.
Proof. intros He Ht Hn. unfold due. rewrite He, Ht. by apply insert_node_not_due. Qed.

(** The events in the caller's hands while [rs] is still to be done: the
    running one until it is put back. *)
Definition held (ev : EventPtr) (rs : list Request) (keep : bool) : list EventPtr :=
  if keep || (0 <? length (List.filter is_this rs))%nat then [ev] else [].

(** What a run of requests cannot spoil. *)
Definition calm (s s' : EventProcessor) : Prop :=
  m_time s' = m_time s /\ (due_count s' <= due_count s)%nat.

Lemma calm_trans s1 s2 s3 : calm s1 s2 -> calm s2 s3 -> calm s1 s3.
Proof. unfold calm. intros [-> ?] [-> ?]. split; [done|lia]. Qed.

Lemma do_requests_spec `{!Disciplined} ev rs (keep : bool) s :
  (if keep then length (List.filter is_this rs) = 0
   else length (List.filter is_this rs) <= 1)%nat ->
  Forall (request_later (m_time s)) rs -> wf (held ev rs keep) s ->
  exists s' F0, (forall F, (F0 <= F)%nat -> do_requests F ev rs s = Ok (tt, s')) /\
    wf (if keep then [ev] else []) s' /\ calm s s'.
Proof.
  revert s. induction rs as [|r rs IH]; intros s Hn Hl Hwf.
  { exists s, 0%nat. split_and!; [done| |by split]. unfold held in Hwf. cbn in Hwf.
    by rewrite orb_false_r in Hwf. }
  apply Forall_cons in Hl as [Hr Hl].
  assert (Hstep : exists s1 F1, (forall F, (F1 <= F)%nat ->
            do_requests F ev (r :: rs) s = do_requests F ev rs s1) /\
            wf (held ev rs keep) s1 /\ calm s s1).
  { destruct r as [t set|t set|force]; cbn [request_later] in Hr.
    - cbn [List.filter is_this length] in Hn. destruct keep; [lia|].
      assert (Hh : held ev rs false = []).
      { unfold held. cbn. destruct (length (List.filter is_this rs)); [done|lia]. }
      rewrite Hh. change (held ev (AddThis t set :: rs) false) with [ev] in Hwf.
      destruct (AddEvent_spec _ _ t set _ Hwf) as (s1 & He & Hw & Hev & Ht & _).
      exists s1, 0%nat. split_and!; [|done|split; [done|]].
      + intros F _. cbn [do_requests]. by rewrite (st_bind_Ok _ _ _ _ _ He).
      + unfold due_count. by rewrite (due_insert s s1 (mkNode t ev (next_id s))).
    - change (held ev (AddNew t set :: rs) keep) with (held ev rs keep) in Hwf.
      destruct (AddNewEvent_spec _ t set _ Hwf) as (s1 & He & Hw & Hev & Ht & _).
      exists s1, 0%nat. split_and!; [|done|split; [done|]].
      + intros F _. cbn [do_requests]. by rewrite (st_bind_Ok _ _ _ _ _ He).
      + unfold due_count. by rewrite (due_insert s s1 (mkNode t (next_ptr s) (next_id s))).
    - change (held ev (Kill force :: rs) keep) with (held ev rs keep) in Hwf.
      destruct (KillAllEvents_spec force _ _ Hwf) as (s1 & He & Hs & Ht & Hw & _).
      exists s1, (length (m_events s)). split_and!; [|done|by split; [|apply due_sublist]].
      intros F HF. cbn [do_requests]. by rewrite (st_bind_Ok _ _ _ _ _ (He F HF)). }
  destruct Hstep as (s1 & F1 & Hs1 & Hw1 & Hc1).
  destruct (IH s1) as (s' & F2 & Hs' & Hw' & Hc'); [|by rewrite (proj1 Hc1)|done|].
  { cbn in Hn. destruct (is_this r), keep; cbn in Hn; lia. }
  exists s', (F1 + F2)%nat. split_and!; [|done|by eapply calm_trans].
  intros F HF. rewrite Hs1 by lia. apply Hs'. lia.
Qed.

(** Taking the first node out of the queue. *)
Lemma wf_pop n rest s :
  m_events s = n :: rest -> wf [] s -> wf [second n] (set_events rest s).
Proof.
  intros He [Hnd Hh Hf Hi Hif Hs]. unfold ptrs in *. rewrite He in *.
  split; unfold ptrs; cbn in *; try done.
  - by apply NoDup_cons in Hi as [_ ?].
  - by apply Forall_cons in Hif as [_ ?].
  - by apply StronglySorted_inv in Hs as [? _].
Qed.

Lemma wf_free ev run s :
  wf (ev :: run) s ->
  exists s', delete_event ev s = Ok (tt, s') /\ wf run s' /\
    m_events s' = m_events s /\ m_time s' = m_time s /\ world s' = world s /\
    trace s' = trace s ++ [Freed ev] /\
    (forall x, x <> ev -> heap s' !! x = heap s !! x).
Proof.
  intros Hwf. destruct (proj2 (wf_heap _ _ Hwf ev)) as [e He]; [by left|].
  eexists. split; [unfold delete_event, deref, mbind, st_bind, st_modify; rewrite He; reflexivity|].
  split; [|split_and!; try done].
  - eapply (wf_shrink _ run s _ ev Hwf); done.
  - cbn. intros x Hx. by apply lookup_delete_ne.
Qed.

(** One round of the main loop. *)
Definition run_node (kfuel : nat) (p_time : Z) (n : Node) : EP unit :=
  e ← deref (second n);
  if negb (to_Abort e) then
    r ← call_Execute kfuel (second n) p_time;
    (if r : bool then delete_event (second n) else mret tt)
  else
    call_Abort (second n);; delete_event (second n).

Lemma update_loop_step fuel kfuel p n rest s :
  m_events s = n :: rest -> first n <= m_time s ->
  update_loop (S fuel) kfuel p s
  = match run_node kfuel p n (set_events rest s) with
    | Ok (_, s) => update_loop fuel kfuel p s
    | Err e => Err e
    end.
Proof.
  intros He Hd. cbn [update_loop]. unfold st_get, st_modify, mbind, st_bind. cbv beta iota.
  rewrite He. destruct (Z.leb_spec (first n) (m_time s)); [|lia]. cbv beta iota.
  unfold run_node, mbind, st_bind.
  destruct (deref _ _) as [[e s1]|]; [|done]. by destruct (to_Abort e).
Qed.

Lemma run_node_spec `{!Disciplined} p n s :
  wf [second n] s ->
  exists s' F0, (forall F, (F0 <= F)%nat -> run_node F p n s = Ok (tt, s')) /\
    wf [] s' /\ calm s s'.
Proof.
  intros Hwf. destruct (proj2 (wf_heap _ _ Hwf (second n))) as [e He]; [by left|].
  unfold run_node, deref. unfold mbind at 1, st_bind at 1.
  destruct (to_Abort e) eqn:Ha.
  - set (s1 := note (WasAborted (second n) (m_time s))
                 (set_world (fst (Abort code (second n) (m_time s) (world s))) s)).
    assert (Hwf1 : wf [second n] s1) by (eapply wf_ext; done).
    destruct (wf_free _ _ _ Hwf1) as (s' & Hd & Hw & Hev & Ht & _).
    exists s', 0%nat. split_and!; [|done|by split; [rewrite Ht|apply due_sublist; [rewrite Hev|rewrite Ht]]].
    intros F _. rewrite He, Ha. cbn [negb]. by rewrite (st_bind_Ok _ _ _ _ _ (call_Abort_quiet _ _)).
  - destruct (Execute code (second n) (m_time s) p (world s)) as [[w rs] r] eqn:Hx.
    set (s1 := note (Executed (second n) (m_time s)) (set_world w s)).
    destruct (do_requests_spec (second n) rs r s1) as (s2 & F0 & Hr & Hw2 & Hc2).
    + rewrite (this_once _ _ _ _ _ _ _ Hx). destruct r; lia.
    + by eapply adds_later.
    + unfold held. rewrite (this_once _ _ _ _ _ _ _ Hx).
      destruct r; (eapply wf_ext; [exact Hwf|done..]).
    + assert (Hcall : forall F, (F0 <= F)%nat -> call_Execute F (second n) p s = Ok (r, s2)).
      { intros F HF. unfold call_Execute, st_get, st_modify, mbind, st_bind. cbv beta iota.
        rewrite Hx. cbv beta iota. fold s1. by rewrite (Hr F HF). }
      destruct r.
      * destruct (wf_free _ _ _ Hw2) as (s' & Hd & Hw & Hev & Ht & _).
        exists s', F0. split_and!; [|done|split; [by rewrite Ht; apply Hc2|]].
        { intros F HF. rewrite He, Ha. cbn [negb]. by rewrite (st_bind_Ok _ _ _ _ _ (Hcall F HF)). }
        etransitivity; [|apply Hc2]. by apply due_sublist; [rewrite Hev|rewrite Ht].
      * exists s2, F0. split_and!; [|done|exact Hc2].
        intros F HF. rewrite He, Ha. cbn [negb]. by rewrite (st_bind_Ok _ _ _ _ _ (Hcall F HF)).
Qed.

Lemma not_due_all n rest s :
  m_events s = n :: rest -> ordered (m_events s) -> m_time s < first n -> due s = [].
Proof.
  unfold due, ordered. intros -> [_ Hr]%StronglySorted_inv Hn.
  assert (Hall : Forall (fun x => (first x <=? m_time s) = false) (n :: rest)).
  { constructor; [bdec|]. eapply Forall_impl; [exact Hr|]. cbn. intros; bdec. }
  induction Hall as [|x l Hx _ IH]; cbn; [done|]. by rewrite Hx.
Qed.

Lemma due_pop n rest s :
  m_events s = n :: rest -> first n <= m_time s -> due s = n :: due (set_events rest s).
Proof. intros He Hn. unfold due. rewrite He. cbn. destruct (Z.leb_spec (first n) (m_time s)); [done|lia]. Qed.

Lemma update_loop_spec `{!Disciplined} p k s :
  (due_count s <= k)%nat -> wf [] s ->
  exists s' F0,
    (forall fuel kfuel, (k <= fuel)%nat -> (F0 <= kfuel)%nat ->
       update_loop fuel kfuel p s = Ok (tt, s')) /\
    wf [] s' /\ m_time s' = m_time s /\ due s' = [].
Proof.
  revert s. induction k as [|k IH]; intros s Hk Hwf;
    (destruct (m_events s) as [|n rest] eqn:He;
       [exists s, 0%nat; split_and!; [|done|done|by unfold due; rewrite He];
        intros [|] kf _ _; cbn [update_loop]; unfold st_get, mbind, st_bind; by rewrite He|]);
    (destruct (Z.ltb_spec (m_time s) (first n)) as [Hn|Hn];
       [exists s, 0%nat; split_and!; [|done|done|eapply not_due_all; eauto using wf_sorted];
        intros [|] kf _ _; cbn [update_loop]; unfold st_get, mbind, st_bind; cbv beta iota; rewrite He;
        (destruct (Z.leb_spec (first n) (m_time s)); [lia|done])|]).
  { unfold due_count in Hk. rewrite (due_pop _ _ _ He) in Hk by lia. cbn in Hk. lia. }
  destruct (run_node_spec p n (set_events rest s)) as (s1 & F1 & Hr & Hw1 & Hc1).
  { by apply wf_pop. }
  destruct (IH s1) as (s' & F2 & Hu & Hw' & Ht' & Hd'); [|done|].
  { unfold due_count in Hk. rewrite (due_pop _ _ _ He) in Hk by lia.
    destruct Hc1 as [_ Hc1]. unfold due_count in *. cbn [length] in Hk. lia. }
  exists s', (F1 + F2)%nat. split_and!; [|done|by rewrite Ht'; apply Hc1|done].
  intros [|fuel] kfuel Hf Hkf; [lia|]. rewrite (update_loop_step _ _ _ _ _ _ He Hn), Hr by lia.
  apply Hu; lia.
Qed.

Lemma wf_set_time t s : wf [] s -> wf [] (set_time t s).
Proof. intros H. by eapply wf_ext. Qed.

Lemma Update_spec `{!Disciplined} p s :
  wf [] s ->
  exists s' F0, (forall F, (F0 <= F)%nat -> Update F p s = Ok (tt, s')) /\
    wf [] s' /\ m_time s' = u64 (m_time s + p) /\ due s' = [].
Proof.
  intros Hwf. set (s0 := set_time (u64 (m_time s + p)) s).
  destruct (update_loop_spec p (due_count s0) s0) as (s' & F0 & Hu & Hw & Ht & Hd);
    [done|by apply wf_set_time|].
  exists s', (F0 + due_count s0)%nat. split_and!; [|done|done|done].
  intros F HF. unfold Update, st_modify, mbind, st_bind. fold s0. apply Hu; lia.
Qed.

Lemma mark_aborted_spec ev s :
  wf [] s -> In ev (ptrs s) -> exists s', mark_aborted ev s = Ok (tt, s') /\ wf [] s'.
Proof.
  intros Hwf Hin. destruct (proj2 (wf_heap _ _ Hwf ev)) as [e He]; [done|].
  eexists. split.
  { unfold mark_aborted, store, deref, st_modify, mbind, st_bind. rewrite He. cbv beta iota.
    rewrite He. reflexivity. }
  eapply wf_ext; [exact Hwf|done| |done|done]. intros x. cbn.
  destruct (decide (x = ev)) as [->|]; [rewrite lookup_insert_eq, He; split; eauto|].
  by rewrite lookup_insert_ne.
Qed.

Lemma do_op_spec `{!Disciplined} o s :
  wf [] s -> exists s' F0, (forall F, (F0 <= F)%nat -> do_op F o s = Ok (tt, s')) /\ wf [] s'.
Proof.
  intros Hwf. unfold do_op, st_get, mbind, st_bind. cbv beta iota. destruct o as [off set|k|p|force].
  - destruct (AddNewEvent_spec _ (CalculateTime off s) set _ Hwf) as (s' & He & Hw & _).
    by exists s', 0%nat.
  - destruct (m_events s !! k) as [n|] eqn:Hn; [|by exists s, 0%nat].
    destruct (mark_aborted_spec (second n) s Hwf) as (s' & He & Hw); [|by exists s', 0%nat].
    unfold ptrs. apply in_map, list_elem_of_In. by eapply list_elem_of_lookup_2.
  - destruct (Update_spec p s Hwf) as (s' & F0 & Hu & Hw & _). by exists s', F0.
  - destruct (KillAllEvents_spec force _ _ Hwf) as (s' & He & _ & _ & Hw & _).
    by exists s', (length (m_events s)).
Qed.

Lemma do_ops_spec `{!Disciplined} os s :
  wf [] s -> exists s' F0, (forall F, (F0 <= F)%nat -> do_ops F os s = Ok (tt, s')) /\ wf [] s'.
Proof.
  revert s. induction os as [|o os IH]; intros s Hwf; [by exists s, 0%nat|].
  destruct (do_op_spec o s Hwf) as (s1 & F1 & H1 & Hw1).
  destruct (IH s1 Hw1) as (s' & F2 & H2 & Hw2).
  exists s', (F1 + F2)%nat. split; [|done]. intros F HF. cbn [do_ops].
  rewrite (st_bind_Ok _ _ _ _ _ (H1 F ltac:(lia))). apply H2. lia.
Qed.

Lemma wf_empty s : wf [] s -> m_events s = [] -> heap s = ∅.
Proof.
  intros Hwf He. apply map_empty. intros x. apply eq_None_not_Some.
  rewrite (wf_heap _ _ Hwf). unfold ptrs. rewrite He. exact (fun H => H).
Qed.

(** C25: events that put themselves back exactly when they ask not to be
    deleted, add events only for later, and add none when aborted, keep the
    processor memory safe: every sequence of additions, abort marks, updates
    and kills (kills from inside an event included) terminates and never
    touches a freed event or an invalid iterator; every event alive is queued
    once, in time order; and the destructor frees them all. *)
Theorem event_processor_safe `{!Disciplined} os w :
  exists s F0, (forall F, (F0 <= F)%nat -> do_ops F os (new_EventProcessor w) = Ok (tt, s)) /\
    NoDup (ptrs s) /\ (forall ev, is_Some (heap s !! ev) <-> In ev (ptrs s)) /\
    ordered (m_events s) /\
    exists s', (forall F, (F0 <= F)%nat -> destroy F s = Ok (tt, s')) /\
      m_events s' = [] /\ heap s' = ∅.
Proof.
  destruct (do_ops_spec os _ (wf_new w)) as (s & F0 & Ho & Hw).
  destruct (KillAllEvents_spec true _ _ Hw) as (s' & Hk & _ & _ & Hw' & He).
  exists s, (F0 + length (m_events s))%nat. split_and!; [|apply Hw|apply Hw|apply Hw|].
  { intros F HF. apply Ho. lia. }
  exists s'. split_and!; [|by apply He|by apply wf_empty; [|apply He]].
  intros F HF. apply Hk. lia.
Qed.

(** ** What an update runs *)

(** Calls on events, without the deletions. *)
Definition is_call (f : Fate) : bool := match f with Freed _ => false | _ => true end.
Definition calls_of (s : EventProcessor) : list Fate := List.filter is_call (trace s).

(** The call that the node [n] is due. *)
Definition call_of (s : EventProcessor) (n : Node) : Fate :=
  match heap s !! second n with
  | Some e => if to_Abort e then WasAborted (second n) (m_time s) else Executed (second n) (m_time s)
  | None => Freed (second n)
  end.

(** Nobody kills the queue from inside an event. *)
Class NoKills : Prop := {
  no_kills : forall ev t p w w' rs r, Execute code ev t p w = (w', rs, r) ->
    List.filter is_kill rs = []
}.

(** Queued events stay alive, with their marks. *)
Definition keeps (s s' : EventProcessor) : Prop :=
  forall x e, In x (ptrs s) -> heap s !! x = Some e ->
    In x (ptrs s') /\ exists e', heap s' !! x = Some e' /\ to_Abort e' = to_Abort e.

Definition undisturbed (s s' : EventProcessor) : Prop :=
  m_time s' = m_time s /\ due s' = due s /\ calls_of s' = calls_of s /\ keeps s s'.

Lemma undisturbed_trans s1 s2 s3 : undisturbed s1 s2 -> undisturbed s2 s3 -> undisturbed s1 s3.
Proof.
  intros (Ht1 & Hd1 & Hc1 & H1) (Ht2 & Hd2 & Hc2 & H2). split_and!; [congruence..|].
  intros x e Hin Hx. destruct (H1 x e Hin Hx) as (Hin1 & e1 & Hx1 & <-). eauto.
Qed.

Lemma insert_node_In n l x : In x (map second l) -> In x (map second (insert_node n l)).
Proof. intros H. rewrite insert_node_perm. by right. Qed.

Lemma do_requests_quiet `{!Disciplined} ev rs (keep : bool) s :
  (if keep then length (List.filter is_this rs) = 0
   else length (List.filter is_this rs) <= 1)%nat ->
  List.filter is_kill rs = [] ->
  Forall (request_later (m_time s)) rs -> wf (held ev rs keep) s ->
  exists s', (forall F, do_requests F ev rs s = Ok (tt, s')) /\
    wf (if keep then [ev] else []) s' /\ undisturbed s s'.
Proof.
  revert s. induction rs as [|r rs IH]; intros s Hn Hk Hl Hwf.
  { exists s. split_and!; [done| |split_and!; [done..|intros x e; eauto]].
    unfold held in Hwf. cbn in Hwf. by rewrite orb_false_r in Hwf. }
  apply Forall_cons in Hl as [Hr Hl].
  assert (Hstep : exists s1, (forall F, do_requests F ev (r :: rs) s = do_requests F ev rs s1) /\
            wf (held ev rs keep) s1 /\ undisturbed s s1).
  { destruct r as [t set|t set|force]; cbn [request_later] in Hr; [..|done].
    - cbn [List.filter is_this length] in Hn. destruct keep; [lia|].
      assert (Hh : held ev rs false = []).
      { unfold held. cbn. destruct (length (List.filter is_this rs)); [done|lia]. }
      rewrite Hh. change (held ev (AddThis t set :: rs) false) with [ev] in Hwf.
      destruct (AddEvent_spec _ _ t set _ Hwf) as (s1 & He & Hw & Hev & Ht & _ & Htr & Ha & _).
      exists s1. split_and!; [|done|].
      { intros F. cbn [do_requests]. by rewrite (st_bind_Ok _ _ _ _ _ He). }
      split_and!; [done|by rewrite (due_insert s s1 (mkNode t ev (next_id s)))
                  |unfold calls_of; by rewrite Htr|].
      intros x e Hin Hx. split; [unfold ptrs; rewrite Hev; by apply insert_node_In|eauto].
    - change (held ev (AddNew t set :: rs) keep) with (held ev rs keep) in Hwf.
      destruct (AddNewEvent_spec _ t set _ Hwf) as (s1 & He & Hw & Hev & Ht & _ & Htr & Ha).
      exists s1. split_and!; [|done|].
      { intros F. cbn [do_requests]. by rewrite (st_bind_Ok _ _ _ _ _ He). }
      split_and!; [done|by rewrite (due_insert s s1 (mkNode t (next_ptr s) (next_id s)))
                  |unfold calls_of; by rewrite Htr|].
      intros x e Hin Hx. split; [unfold ptrs; rewrite Hev; by apply insert_node_In|eauto]. }
  destruct Hstep as (s1 & Hs1 & Hw1 & Hc1).
  destruct (IH s1) as (s' & Hs' & Hw' & Hc'); [..|by rewrite (proj1 Hc1)|done|].
  { cbn in Hn. destruct (is_this r), keep; cbn in Hn; lia. }
  { cbn in Hk. by destruct (is_kill r). }
  exists s'. split_and!; [|done|by eapply undisturbed_trans].
  intros F. rewrite Hs1. apply Hs'.
Qed.

(** A round on [n] adds the one call that [n] is due, whether it is deleted
    or back in the queue. *)
Lemma run_node_quiet `{!Disciplined} `{!NoKills} p n s :
  wf [second n] s ->
  exists s', (forall F, run_node F p n s = Ok (tt, s')) /\
    wf [] s' /\ m_time s' = m_time s /\ due s' = due s /\
    calls_of s' = calls_of s ++ [call_of s n] /\ keeps s s'.
Proof.
  intros Hwf. destruct (proj2 (wf_heap _ _ Hwf (second n))) as [e He]; [by left|].
  assert (Hout : ~ In (second n) (ptrs s)).
  { pose proof (wf_nodup _ _ Hwf) as Hnd. apply NoDup_cons in Hnd as [Hnd _].
    by rewrite <- list_elem_of_In. }
  assert (Hfree : forall s1 s', wf [second n] s1 -> keeps s s1 -> ptrs s' = ptrs s1 ->
            (forall x, x <> second n -> heap s' !! x = heap s1 !! x) -> keeps s s').
  { intros s1 s' _ Hk Hp Hh x e' Hin Hx. destruct (Hk x e' Hin Hx) as (Hin1 & Hx1).
    rewrite Hp, Hh; [done|]. by intros ->. }
  unfold run_node, deref. unfold mbind at 1, st_bind at 1.
  assert (Hcall : call_of s n = if to_Abort e then WasAborted (second n) (m_time s)
                                else Executed (second n) (m_time s)).
  { unfold call_of. by rewrite He. }
  destruct (to_Abort e) eqn:Ha.
  - set (s1 := note (WasAborted (second n) (m_time s))
                 (set_world (fst (Abort code (second n) (m_time s) (world s))) s)).
    assert (Hwf1 : wf [second n] s1) by (eapply wf_ext; done).
    destruct (wf_free _ _ _ Hwf1) as (s' & Hd & Hw & Hev & Ht & _ & Htr & Hh).
    exists s'. split_and!; [|done|by rewrite Ht|unfold due; by rewrite Hev, Ht| |].
    + intros F. rewrite He, Ha. cbn [negb]. by rewrite (st_bind_Ok _ _ _ _ _ (call_Abort_quiet _ _)).
    + unfold calls_of. rewrite Htr, Hcall. cbn. rewrite !List.filter_app. cbn. by rewrite app_nil_r.
    + apply (Hfree s1); [done|by intros x e' ? ?; eauto|unfold ptrs; by rewrite Hev|done].
  - destruct (Execute code (second n) (m_time s) p (world s)) as [[w rs] r] eqn:Hx.
    set (s1 := note (Executed (second n) (m_time s)) (set_world w s)).
    assert (Hwf1 : wf [second n] s1) by (eapply wf_ext; done).
    destruct (do_requests_quiet (second n) rs r s1) as (s2 & Hr & Hw2 & Ht2 & Hd2 & Hc2 & Hk2).
    { rewrite (this_once _ _ _ _ _ _ _ Hx). destruct r; lia. }
    { by eapply no_kills. } { by eapply adds_later. }
    { unfold held. rewrite (this_once _ _ _ _ _ _ _ Hx). by destruct r. }
    assert (Hce : forall F, call_Execute F (second n) p s = Ok (r, s2)).
    { intros F. unfold call_Execute, st_get, st_modify, mbind, st_bind. cbv beta iota.
      rewrite Hx. cbv beta iota. fold s1. by rewrite Hr. }
    assert (Hcs : calls_of s2 = calls_of s ++ [call_of s n]).
    { rewrite Hc2, Hcall. unfold calls_of. cbn. by rewrite List.filter_app. }
    assert (Hks : keeps s s2) by exact Hk2.
    destruct r.
    + destruct (wf_free _ _ _ Hw2) as (s' & Hd & Hw & Hev & Ht & _ & Htr & Hh).
      exists s'. split_and!; [|done|by rewrite Ht, Ht2|unfold due in *; by rewrite Hev, Ht| |].
      * intros F. rewrite He, Ha. cbn [negb]. by rewrite (st_bind_Ok _ _ _ _ _ (Hce F)).
      * rewrite <- Hcs. unfold calls_of. rewrite Htr, List.filter_app. cbn. by rewrite app_nil_r.
      * apply (Hfree s2); [done|done|unfold ptrs; by rewrite Hev|done].
    + exists s2. split_and!; [|done|done|done|done|done].
      intros F. rewrite He, Ha. cbn [negb]. by rewrite (st_bind_Ok _ _ _ _ _ (Hce F)).
Qed.

Lemma call_of_keeps s s' l :
  m_time s' = m_time s -> keeps s s' -> (forall n, In n l -> In n (m_events s)) -> wf [] s ->
  map (call_of s') l = map (call_of s) l.
Proof.
  intros Ht Hk Hl Hwf. apply map_ext_in. intros n Hn. unfold call_of. rewrite Ht.
  assert (Hin : In (second n) (ptrs s)) by (apply in_map; auto).
  destruct (proj2 (wf_heap _ _ Hwf (second n)) Hin) as [e He]. rewrite He.
  destruct (Hk _ _ Hin He) as (_ & e' & -> & ->). done.
Qed.

Lemma update_loop_idle fuel kfuel p s : due s = [] -> update_loop fuel kfuel p s = Ok (tt, s).
Proof.
  unfold due. intros Hd. destruct fuel; cbn [update_loop]; unfold st_get, mbind, st_bind; cbv beta iota;
    (destruct (m_events s) as [|n rest]; [done|]); cbn [List.filter] in Hd;
    by destruct (first n <=? m_time s).
Qed.

(** A due list names the head of the queue first. *)
Lemma due_head n l s :
  wf [] s -> due s = n :: l ->
  exists rest, m_events s = n :: rest /\ first n <= m_time s /\ l = due (set_events rest s).
Proof.
  intros Hwf Hd. destruct (m_events s) as [|x rest] eqn:He.
  { unfold due in Hd. by rewrite He in Hd. }
  destruct (Z.ltb_spec (m_time s) (first x)) as [Hx|Hx].
  { erewrite not_due_all in Hd; [done|exact He|apply Hwf|done]. }
  rewrite (due_pop _ _ _ He Hx) in Hd. simplify_eq. eauto.
Qed.

Lemma update_loop_quiet `{!Disciplined} `{!NoKills} p k s :
  (due_count s <= k)%nat -> wf [] s ->
  exists s',
    (forall fuel kfuel, (k <= fuel)%nat -> update_loop fuel kfuel p s = Ok (tt, s')) /\
    wf [] s' /\ m_time s' = m_time s /\ due s' = [] /\
    calls_of s' = calls_of s ++ map (call_of s) (due s).
Proof.
  revert s. induction k as [|k IH]; intros s Hk Hwf.
  { unfold due_count in Hk. assert (Hd : due s = []) by (destruct (due s); [done|cbn in Hk; lia]).
    exists s. rewrite Hd. cbn. rewrite app_nil_r. split_and!; [|done..].
    intros. by apply update_loop_idle. }
  destruct (due s) as [|n l] eqn:Hd.
  { exists s. cbn. rewrite app_nil_r. split_and!; [|done..]. intros. by apply update_loop_idle. }
  destruct (due_head _ _ _ Hwf Hd) as (rest & He & Hn & Hl).
  set (s0 := set_events rest s) in *.
  assert (Hw0 : wf [second n] s0) by by apply wf_pop.
  destruct (run_node_quiet p n s0 Hw0) as (s1 & Hr & Hw1 & Ht1 & Hd1 & Hc1 & Hk1).
  destruct (IH s1) as (s' & Hu & Hw' & Ht' & Hd' & Hc'); [|done|].
  { unfold due_count in *. rewrite Hd1, <- Hl. rewrite Hd in Hk. cbn in Hk. lia. }
  exists s'. split_and!; [|done|by rewrite Ht', Ht1|done|].
  - intros [|fuel] kfuel Hf; [lia|]. rewrite (update_loop_step _ _ _ _ _ _ He Hn). fold s0.
    rewrite Hr. apply Hu. lia.
  - rewrite Hc', Hc1, Hd1, <- Hl. cbn [map]. rewrite <- app_assoc. cbn [app].
    do 2 f_equal.
    transitivity (map (call_of s0) l); [|done].
    apply map_ext_in. intros x Hx. unfold call_of. rewrite Ht1.
    assert (Hin : In (second x) (ptrs s0)).
    { apply in_map. rewrite Hl in Hx. unfold due in Hx. by apply filter_In in Hx as [? _]. }
    destruct (proj2 (wf_heap _ _ Hw0 (second x))) as [e Hxe]; [by right|].
    rewrite Hxe. by destruct (Hk1 _ _ Hin Hxe) as (_ & e' & -> & ->).
Qed.

(** When no event kills the queue, an update advances the clock and calls
    every event that has come due, each exactly once, in the order of their
    times and of their insertion among equals: [Abort] for the marked ones,
    [Execute] for the others.  None that is due is left behind, whatever the
    events add. *)
Theorem Update_runs_due_events `{!Disciplined} `{!NoKills} p os w :
  exists s s' F0,
    (forall F, (F0 <= F)%nat -> do_ops F os (new_EventProcessor w) = Ok (tt, s) /\
                         Update F p s = Ok (tt, s')) /\
    let s0 := set_time (u64 (m_time s + p)) s in
    m_time s' = m_time s0 /\ due s' = [] /\
    calls_of s' = calls_of s ++ map (call_of s0) (due s0) /\
    (forall n, In n (due s0) -> exists e, heap s !! second n = Some e).
Proof.
  destruct (do_ops_spec os _ (wf_new w)) as (s & F0 & Ho & Hw).
  set (s0 := set_time (u64 (m_time s + p)) s).
  destruct (update_loop_quiet p (due_count s0) s0) as (s' & Hu & Hw' & Ht & Hd & Hc);
    [done|by apply wf_set_time|].
  exists s, s', (F0 + due_count s0)%nat. split.
  - intros F HF. split; [apply Ho; lia|].
    unfold Update, st_modify, mbind, st_bind. fold s0. apply Hu. lia.
  - split_and!; [done|done|done|].
    intros n Hn. apply (wf_heap _ _ Hw). apply in_map. cbn in *. unfold due in Hn.
    by apply filter_In in Hn as [? _].
Qed.

End EventProcessor.

(** ** Events outside the contract *)

Section Outside.
Context {W : Type} (code : @EventCode W).

(** An event that puts itself back for the very time it is run at keeps
    [Update] busy for ever: no number of rounds is enough. *)
Theorem immediate_event_never_ends s n e p fuel kfuel :
  (forall ev t p w, exists w', Execute code ev t p w = (w', [AddThis t true], false)) ->
  m_events s = [n] -> first n <= m_time s ->
  heap s !! second n = Some e -> to_Abort e = false ->
  update_loop code fuel kfuel p s = Err OutOfFuel.
Proof.
  intros Hx. revert s n e. induction fuel as [|fuel IH]; intros s n e He Hn Hh Ha.
  { cbn [update_loop]. unfold st_get, mbind, st_bind. cbv beta iota. rewrite He.
    by destruct (Z.leb_spec (first n) (m_time s)); [|lia]. }
  rewrite (update_loop_step code _ _ _ _ _ _ He Hn).
  destruct (Hx (second n) (m_time s) p (world s)) as [w' Hw].
  unfold run_node, call_Execute, deref, st_get, st_modify, mbind, st_bind.
  cbn [heap set_events m_time world]. rewrite Hh. cbv beta iota. rewrite Ha. cbn [negb].
  cbn [set_events m_time world]. rewrite Hw. cbv beta iota. cbn [do_requests].
  unfold AddEvent, store, deref, new_node, st_get, st_modify, mbind, st_bind. cbn.
  rewrite Hh. cbn. rewrite Hh. cbn.
  eapply IH; [done|cbn; lia|cbn; by rewrite lookup_insert_eq|done].
Qed.

(** [m_aborting] is never read, so [AddEvent] still inserts while the
    queue is being destroyed: an event added for an earlier time by the
    [Abort] of the last one is dropped from the queue without being freed. *)
Theorem destroy_leaks_added s n e w' t fuel :
  m_events s = [n] -> heap s = {[ second n := e ]} -> second n < next_ptr s -> t < first n ->
  Abort code (second n) (m_time s) (world s) = (w', [t]) ->
  exists s', destroy code (S fuel) s = Ok (tt, s') /\ m_events s' = [] /\
    dom (heap s') = {[ next_ptr s ]} /\ m_aborting s' = true.
Proof.
  intros He Hh Hp Ht Ha.
  unfold destroy, KillAllEvents, kill_loop, call_Abort, add_all, AddNewEvent, AddEvent, new_event,
    new_node, delete_event, store, deref, st_get, st_modify, mbind, st_bind.
  destruct s as [tm ev0 ab hp np ni w tr], n as [f ev i]. cbn in He, Hh, Hp, Ht, Ha. subst.
  cbv beta iota. cbn -[Z.eqb]. rewrite Z.eqb_refl. cbn -[Z.eqb].
  repeat (rewrite lookup_insert_eq; cbn). rewrite Ha. cbn.
  repeat (rewrite lookup_insert_eq; cbn).
  destruct (Z.ltb_spec t f) as [_|]; [|lia]. cbn.
  rewrite !lookup_insert_ne by lia. rewrite lookup_insert_eq. cbn.
  destruct fuel; eexists; (split; [reflexivity|]); cbn; (split_and!; [done| |done]);
    rewrite dom_delete_L, !dom_insert_L, dom_empty_L; apply set_eq; intros x;
    rewrite elem_of_difference, !elem_of_union, !elem_of_singleton; set_solver by lia.
Qed.
End Outside.

(** ** Examples *)

(** Event 0 runs every 100 ms; every other event schedules one new event
    50 ms later and is done; the world counts the runs. *)
Definition demo_code : @EventCode Z :=
  mkCode (fun ev t p w => if ev =? 0 then (w + 1, [AddThis (t + 100) true], false)
                          else (w + 1, [AddNew (t + 50) true], true))
         (fun ev t w => (w, [])) (fun ev w => negb (ev =? 0)).

#[export] Instance demo_disciplined : Disciplined demo_code.
Proof.
  split; cbn.
  - intros ev t p w w' rs r. destruct (ev =? 0); intros; by simplify_eq.
  - intros ev t p w w' rs r. destruct (ev =? 0); intros; simplify_eq; repeat constructor; cbn; lia.
  - done.
Qed.

#[export] Instance demo_no_kills : NoKills demo_code.
Proof. split; cbn. intros ev t p w w' rs r. destruct (ev =? 0); intros; by simplify_eq. Qed.

Definition demo_ops : list Op := [OAdd 10 true; OAdd 5 true; OAdd 30 false; OMark 2; OUpdate 20].

Lemma event_processor_safe_witness :
  exists s F0, (forall F, (F0 <= F)%nat ->
      do_ops demo_code F demo_ops (new_EventProcessor 0) = Ok (tt, s)) /\
    NoDup (ptrs s) /\ (forall ev, is_Some (heap s !! ev) <-> In ev (ptrs s)) /\
    ordered (m_events s) /\
    exists s', (forall F, (F0 <= F)%nat -> destroy demo_code F s = Ok (tt, s')) /\
      m_events s' = [] /\ heap s' = ∅.
Proof. apply (event_processor_safe demo_code demo_ops 0). Defined.

Example demo_calls :
  match (do_ops demo_code 10 demo_ops;; Update demo_code 10 40) (new_EventProcessor 0) with
  | Ok (_, s) => trace s = [Executed 1 20; Freed 1; Executed 0 20; WasAborted 2 60; Freed 2]
  | Err _ => False
  end.
Proof. vm_compute. reflexivity. Qed.

Lemma Update_runs_due_events_witness :
  exists s s' F0,
    (forall F, (F0 <= F)%nat ->
       do_ops demo_code F demo_ops (new_EventProcessor 0) = Ok (tt, s) /\
       Update demo_code F 40 s = Ok (tt, s')) /\
    let s0 := set_time (u64 (m_time s + 40)) s in
    m_time s' = m_time s0 /\ due s' = [] /\
    calls_of s' = calls_of s ++ map (call_of s0) (due s0) /\
    (forall n, In n (due s0) -> exists e, heap s !! second n = Some e).
Proof. apply (Update_runs_due_events demo_code 40 demo_ops 0). Defined.

(** An event that repeats without a delay. *)
Definition spin_code : @EventCode unit :=
  mkCode (fun ev t p w => (w, [AddThis t true], false)) (fun ev t w => (w, [])) (fun ev w => true).

Definition one_event (t : Z) : @EventProcessor unit :=
  mkProcessor 0 [mkNode t 0 0] false {[ 0 := new_BasicEvent ]} 1 1 tt [].

Lemma immediate_event_never_ends_witness :
  update_loop spin_code 1000 1000 50 (one_event 0) = Err OutOfFuel.
Proof.
  apply (immediate_event_never_ends spin_code _ (mkNode 0 0 0) new_BasicEvent);
    [intros; by exists w|reflexivity|cbn; lia|reflexivity|reflexivity].
Defined.

(** An event that leaves another behind when it is aborted. *)
Definition last_words : @EventCode unit :=
  mkCode (fun ev t p w => (w, [], true)) (fun ev t w => (w, [1])) (fun ev w => true).

Lemma destroy_leaks_added_witness :
  exists s', destroy last_words 1 (one_event 5) = Ok (tt, s') /\
    m_events s' = [] /\ dom (heap s') = {[ 1 ]} /\ m_aborting s' = true.
Proof.
  apply (destroy_leaks_added last_words (one_event 5) (mkNode 5 0 0) new_BasicEvent tt 1 0);
    [reflexivity|reflexivity|cbn; lia|cbn; lia|reflexivity].
Defined.
