(* ===== verification/Grids.v ===== *)
(** * Grids and their unloading (src/server/game/Grids/GridStates.cpp, Grids/NGrid.h, Maps/Map.cpp)

    A map is cut into 64 x 64 grids, which exist only while somebody needs
    them.  Each carries a state ([ACTIVE], [IDLE], [REMOVAL]), an expiry timer
    and three unload locks; [Map::DelayedUpdate] drives them.  Who stands
    where is an input of each update ([View]); object containers, the terrain
    files and the objects evacuated from a grid are not modelled. *)
From Stdlib Require Import SpecFloat.
From S2P Require Import Prelude.
From S2P Require Import Lists.
From S2P Require Import Timers.
Local Open Scope Z_scope.

(** ** Single-precision arithmetic of the expiry times *)

Definition float_of_Z (z : Z) : spec_float := binary_normalize 24 128 z 0 false.
Definition float_mul : spec_float -> spec_float -> spec_float := SFmul 24 128.

(** Conversion to [time_t]: towards zero (out of range is undefined, and does
    not occur for a [uint32] expiry). *)
Definition time_t_of (f : spec_float) : Z :=
  match f with
  | S754_finite s m e =>
      let v := if 0 <=? e then Z.pos m * 2 ^ e else Z.shiftr (Z.pos m) (- e) in
      if s then - v else v
  | _ => 0
  end.

(** The literals [1.0f] and [0.1f]. *)
Definition factor_1 : spec_float := float_of_Z 1.
Definition factor_01 : spec_float := S754_finite false 13421773 (-27).

(** ** Coordinates *)

Definition MAX_NUMBER_OF_GRIDS : Z := 64.
Definition MAX_NUMBER_OF_CELLS : Z := 8.
Definition TOTAL_NUMBER_OF_CELLS_PER_MAP : Z := MAX_NUMBER_OF_GRIDS * MAX_NUMBER_OF_CELLS.

Definition GridCoord : Type := Z * Z.
Definition CellCoord : Type := Z * Z.

(** [CoordPair<TOTAL_NUMBER_OF_CELLS_PER_MAP>::dec_x] and [inc_x] (and the
    same for y), on [uint32]. *)
Definition dec_coord (val c : Z) : Z := if val <? c then c - val else 0.
Definition inc_coord (val c : Z) : Z :=
  if u32 (c + val) <? TOTAL_NUMBER_OF_CELLS_PER_MAP then u32 (c + val)
  else TOTAL_NUMBER_OF_CELLS_PER_MAP - 1.

(** ** State *)

Inductive grid_state_t :=
| GRID_STATE_INVALID
| GRID_STATE_ACTIVE
| GRID_STATE_IDLE
| GRID_STATE_REMOVAL.

#[export] Instance grid_state_eq_dec : EqDecision grid_state_t.
Proof. solve_decision. Defined.

Record GridInfo := mkGridInfo {
  i_timer : TimeTracker;
  i_unloadActiveLockCount : Z;
  i_unloadExplicitLock : bool;
  i_unloadReferenceLock : bool
}.

(** [GridInfo(expiry, unload)] *)
Definition new_GridInfo (expiry : Z) (unload : bool) : GridInfo :=
  mkGridInfo (mkTracker expiry) 0 (negb unload) false.

Definition GridInfo_getUnloadLock (i : GridInfo) : bool :=
  negb (i_unloadActiveLockCount i =? 0) || i_unloadExplicitLock i || i_unloadReferenceLock i.

Definition set_timer (t : TimeTracker) (i : GridInfo) : GridInfo :=
  mkGridInfo t (i_unloadActiveLockCount i) (i_unloadExplicitLock i) (i_unloadReferenceLock i).
Definition setUnloadExplicitLock (on : bool) (i : GridInfo) : GridInfo :=
  mkGridInfo (i_timer i) (i_unloadActiveLockCount i) on (i_unloadReferenceLock i).
Definition setUnloadReferenceLock (on : bool) (i : GridInfo) : GridInfo :=
  mkGridInfo (i_timer i) (i_unloadActiveLockCount i) (i_unloadExplicitLock i) on.
(** The count is a 16-bit bit-field. *)
Definition incUnloadActiveLock (i : GridInfo) : GridInfo :=
  mkGridInfo (i_timer i) (u16 (i_unloadActiveLockCount i + 1))
    (i_unloadExplicitLock i) (i_unloadReferenceLock i).
Definition decUnloadActiveLock (i : GridInfo) : GridInfo :=
  mkGridInfo (i_timer i)
    (if negb (i_unloadActiveLockCount i =? 0) then i_unloadActiveLockCount i - 1
     else i_unloadActiveLockCount i)
    (i_unloadExplicitLock i) (i_unloadReferenceLock i).

Definition UpdateTimeTracker (diff : Z) (i : GridInfo) : GridInfo :=
  set_timer (TimeTracker_Update diff (i_timer i)) i.
Definition ResetTimeTracker (interval : Z) (i : GridInfo) : GridInfo :=
  set_timer (TimeTracker_Reset interval (i_timer i)) i.

Record NGrid := mkNGrid {
  i_x : Z;
  i_y : Z;
  i_GridInfo : GridInfo;
  i_cellstate : grid_state_t;
  i_GridObjectDataLoaded : bool
}.

Definition new_NGrid (x y expiry : Z) (unload : bool) : NGrid :=
  mkNGrid x y (new_GridInfo expiry unload) GRID_STATE_INVALID false.

Definition SetGridState (s : grid_state_t) (g : NGrid) : NGrid :=
  mkNGrid (i_x g) (i_y g) (i_GridInfo g) s (i_GridObjectDataLoaded g).
Definition upd_info (f : GridInfo -> GridInfo) (g : NGrid) : NGrid :=
  mkNGrid (i_x g) (i_y g) (f (i_GridInfo g)) (i_cellstate g) (i_GridObjectDataLoaded g).
Definition set_loaded (b : bool) (g : NGrid) : NGrid :=
  mkNGrid (i_x g) (i_y g) (i_GridInfo g) (i_cellstate g) b.
Definition getUnloadLock (g : NGrid) : bool := GridInfo_getUnloadLock (i_GridInfo g).

(** A map: its constants, [i_grids] and the list of [GridRefManager].
    [cell_range] is the [(int)ceilf(viewDist / SIZE_OF_GRID_CELL) + 1] of
    [ActiveObjectsNearGrid]. *)
Record Map := mkMap {
  i_gridExpiry : Z;
  cell_range : Z;
  CONFIG_GRID_UNLOAD : bool;
  IsBattlegroundOrArena : bool;
  i_grids : gmap GridCoord NGrid;
  grid_refs : list GridCoord
}.

Definition set_grids (gs : gmap GridCoord NGrid) (m : Map) : Map :=
  mkMap (i_gridExpiry m) (cell_range m) (CONFIG_GRID_UNLOAD m) (IsBattlegroundOrArena m)
    gs (grid_refs m).
Definition set_refs (l : list GridCoord) (m : Map) : Map :=
  mkMap (i_gridExpiry m) (cell_range m) (CONFIG_GRID_UNLOAD m) (IsBattlegroundOrArena m)
    (i_grids m) l.

Definition new_Map (expiry range : Z) (unload bg : bool) : Map := mkMap expiry range unload bg ∅ [].

(** Where objects are when an update runs: the cells of the players on the
    map and of its active non-players, and per grid the players and the
    creatures (pets, possessed ones) in its world containers. *)
Record View := mkView {
  player_cells : list CellCoord;
  active_cells : list CellCoord;
  players_in : GridCoord -> Z;
  creatures_in : GridCoord -> Z
}.

Inductive MapError := AssertFailed | NullDereference.

Definition coord_of (g : NGrid) : GridCoord := (i_x g, i_y g).
Definition valid_coord (p : GridCoord) : bool :=
  (0 <=? fst p) && (fst p <? MAX_NUMBER_OF_GRIDS) && (0 <=? snd p) && (snd p <? MAX_NUMBER_OF_GRIDS).

(** [getNGrid] and [setNGrid] both assert the range of the coordinates. *)
Definition getNGrid (p : GridCoord) (m : Map) : outcome MapError (option NGrid) :=
  if valid_coord p then Ok (i_grids m !! p) else Err AssertFailed.

(** ** Operations of a map on its grids *)

Definition ResetGridExpiry (m : Map) (factor : spec_float) (g : NGrid) : NGrid :=
  upd_info (ResetTimeTracker (time_t_of (float_mul (float_of_Z (i_gridExpiry m)) factor))) g.

Definition EnsureGridCreated (p : GridCoord) (m : Map) : outcome MapError Map :=
  match getNGrid p m with
  | Err e => Err e
  | Ok (Some _) => Ok m
  | Ok None =>
      let g := new_NGrid (fst p) (snd p) (i_gridExpiry m) (CONFIG_GRID_UNLOAD m) in
      Ok (set_refs (p :: grid_refs m)
            (set_grids (<[p := SetGridState GRID_STATE_IDLE g]> (i_grids m)) m))
  end.

(** The [bool] result: whether the object data was loaded now. *)
Definition EnsureGridLoaded (p : GridCoord) (m : Map) : outcome MapError (Map * bool) :=
  match EnsureGridCreated p m with
  | Err e => Err e
  | Ok m =>
      match i_grids m !! p with
      | None => Err AssertFailed
      | Some g =>
          if negb (i_GridObjectDataLoaded g)
          then Ok (set_grids (<[p := set_loaded true g]> (i_grids m)) m, true)
          else Ok (m, false)
      end
  end.

Definition EnsureGridLoadedForActiveObject (p : GridCoord) (m : Map) : outcome MapError Map :=
  match EnsureGridLoaded p m with
  | Err e => Err e
  | Ok (m, _) =>
      match i_grids m !! p with
      | None => Err AssertFailed
      | Some g =>
          if decide (i_cellstate g = GRID_STATE_ACTIVE) then Ok m
          else Ok (set_grids (<[p := SetGridState GRID_STATE_ACTIVE
                                       (ResetGridExpiry m factor_01 g)]> (i_grids m)) m)
      end
  end.

(** [SetUnloadLock], [SetUnloadReferenceLock]: on a grid that must exist. *)
Definition on_grid (f : NGrid -> NGrid) (p : GridCoord) (m : Map) : outcome MapError Map :=
  match getNGrid p m with
  | Err e => Err e
  | Ok None => Err NullDereference
  | Ok (Some g) => Ok (set_grids (<[p := f g]> (i_grids m)) m)
  end.
Definition SetUnloadLock (p : GridCoord) (on : bool) : Map -> outcome MapError Map :=
  on_grid (upd_info (setUnloadExplicitLock on)) p.
Definition SetUnloadReferenceLock (p : GridCoord) (on : bool) : Map -> outcome MapError Map :=
  on_grid (upd_info (setUnloadReferenceLock on)) p.

(** The grid part of [AddToActive] and [RemoveFromActive] for a creature
    with a database spawn in grid [p]; a grid that does not exist is only
    logged. *)
Definition on_spawn_grid (f : GridInfo -> GridInfo) (p : GridCoord) (m : Map)
    : outcome MapError Map :=
  match getNGrid p m with
  | Err e => Err e
  | Ok None => Ok m
  | Ok (Some g) => Ok (set_grids (<[p := upd_info f g]> (i_grids m)) m)
  end.
Definition AddToActive : GridCoord -> Map -> outcome MapError Map := on_spawn_grid incUnloadActiveLock.
Definition RemoveFromActive : GridCoord -> Map -> outcome MapError Map :=
  on_spawn_grid decUnloadActiveLock.

Definition ActiveObjectsNearGrid (m : Map) (v : View) (g : NGrid) : bool :=
  let min_x := dec_coord (cell_range m) (i_x g * MAX_NUMBER_OF_CELLS) in
  let min_y := dec_coord (cell_range m) (i_y g * MAX_NUMBER_OF_CELLS) in
  let max_x := inc_coord (cell_range m) (i_x g * MAX_NUMBER_OF_CELLS + MAX_NUMBER_OF_CELLS) in
  let max_y := inc_coord (cell_range m) (i_y g * MAX_NUMBER_OF_CELLS + MAX_NUMBER_OF_CELLS) in
  let near (p : CellCoord) :=
    ((min_x <=? fst p) && (fst p <=? max_x)) && ((min_y <=? snd p) && (snd p <=? max_y)) in
  existsb near (player_cells v) || existsb near (active_cells v).

(** [UnloadGrid]'s decision; the grid is gone exactly when it is [true]. *)
Definition UnloadGrid (m : Map) (v : View) (g : NGrid) (unloadAll : bool) : bool :=
  if negb unloadAll then
    if negb (creatures_in v (coord_of g) =? 0) then false
    else if ActiveObjectsNearGrid m v g then false
    else true
  else true.

(** ** The state machine of one grid: [None] when it has been unloaded *)

Definition ActiveState_Update (m : Map) (v : View) (t_diff : Z) (g : NGrid) : option NGrid :=
  let g := upd_info (UpdateTimeTracker t_diff) g in
  if TimeTracker_Passed (i_timer (i_GridInfo g)) then
    if (players_in v (coord_of g) =? 0) && negb (ActiveObjectsNearGrid m v g)
    then Some (SetGridState GRID_STATE_IDLE g)
    else Some (ResetGridExpiry m factor_01 g)
  else Some g.

Definition IdleState_Update (m : Map) (g : NGrid) : option NGrid :=
  Some (SetGridState GRID_STATE_REMOVAL (ResetGridExpiry m factor_1 g)).

Definition RemovalState_Update (m : Map) (v : View) (t_diff : Z) (g : NGrid) : option NGrid :=
  if negb (GridInfo_getUnloadLock (i_GridInfo g)) then
    let g := upd_info (UpdateTimeTracker t_diff) g in
    if TimeTracker_Passed (i_timer (i_GridInfo g)) then
      if UnloadGrid m v g false then None else Some (ResetGridExpiry m factor_1 g)
    else Some g
  else Some g.

Definition GridState_Update (m : Map) (v : View) (t_diff : Z) (g : NGrid) : option NGrid :=
  match i_cellstate g with
  | GRID_STATE_INVALID => Some g
  | GRID_STATE_ACTIVE => ActiveState_Update m v t_diff g
  | GRID_STATE_IDLE => IdleState_Update m g
  | GRID_STATE_REMOVAL => RemovalState_Update m v t_diff g
  end.

(** Replace a grid by what its update made of it; an unloaded grid leaves
    [i_grids] and the reference list. *)
Definition put_grid (p : GridCoord) (og : option NGrid) (m : Map) : Map :=
  match og with
  | Some g => set_grids (<[p := g]> (i_grids m)) m
  | None => set_refs (filter (fun q => q <> p) (grid_refs m)) (set_grids (delete p (i_grids m)) m)
  end.

(** One round of the loop of [DelayedUpdate]; the iterator has moved on
    before the update. *)
Definition update_grid (v : View) (t_diff : Z) (m : Map) (p : GridCoord) : Map :=
  match i_grids m !! p with
  | Some g => put_grid p (GridState_Update m v t_diff g) m
  | None => m
  end.

Definition DelayedUpdate (v : View) (t_diff : Z) (m : Map) : Map :=
  if negb (IsBattlegroundOrArena m) then foldl (update_grid v t_diff) m (grid_refs m) else m.

Definition UnloadAll (m : Map) : Map :=
  foldl (fun m p => put_grid p None m) m (grid_refs m).

(** ** What happens to a map *)

Inductive Op :=
| OLoad (p : GridCoord)
| OVisit (p : GridCoord)
| OLock (p : GridCoord) (on : bool)
| OReference (p : GridCoord) (on : bool)
| OActivate (spawn : GridCoord)
| ODeactivate (spawn : GridCoord)
| OTick (v : View) (t_diff : Z)
| OUnloadAll.

Definition do_op (o : Op) (m : Map) : outcome MapError Map :=
  match o with
  | OLoad p => match EnsureGridLoaded p m with Ok (m, _) => Ok m | Err e => Err e end
  | OVisit p => EnsureGridLoadedForActiveObject p m
  | OLock p on => SetUnloadLock p on m
  | OReference p on => SetUnloadReferenceLock p on m
  | OActivate p => AddToActive p m
  | ODeactivate p => RemoveFromActive p m
  | OTick v d => Ok (DelayedUpdate v d m)
  | OUnloadAll => Ok (UnloadAll m)
  end.

Fixpoint run (os : list Op) (m : Map) : outcome MapError Map :=
  match os with
  | [] => Ok m
  | o :: os => match do_op o m with Ok m => run os m | Err e => Err e end
  end.

Definition reachable (m : Map) : Prop :=
  exists os expiry range unload bg, run os (new_Map expiry range unload bg) = Ok m.

(** Only updates. *)
Fixpoint ticks (vs : list (View * Z)) (m : Map) : Map :=
  match vs with
  | [] => m
  | (v, d) :: vs => ticks vs (DelayedUpdate v d m)
  end.

(** ** The invariant of a map *)

Record grid_ok (p : GridCoord) (g : NGrid) : Prop := {
  ok_coord : coord_of g = p;
  ok_valid : valid_coord p = true;
  ok_state : i_cellstate g <> GRID_STATE_INVALID;
  ok_loaded : i_cellstate g = GRID_STATE_ACTIVE -> i_GridObjectDataLoaded g = true
}.

Record wf (m : Map) : Prop := {
  wf_refs : NoDup (grid_refs m);
  wf_dom : forall p, p ∈ grid_refs m <-> is_Some (i_grids m !! p);
  wf_grids : forall p g, i_grids m !! p = Some g -> grid_ok p g
}.

(** The constants of a map, which no operation changes. *)
Definition same_map (m m' : Map) : Prop :=
  i_gridExpiry m' = i_gridExpiry m /\ cell_range m' = cell_range m /\
  IsBattlegroundOrArena m' = IsBattlegroundOrArena m.

#[export] Instance same_map_preorder : PreOrder same_map.
Proof.
  split; [by intros m|]. intros m1 m2 m3 (? & ? & ?) (? & ? & ?). split_and!; congruence.
Qed.

Lemma GridState_Update_same m m' v d g :
  same_map m m' -> GridState_Update m' v d g = GridState_Update m v d g.
Proof.
  intros (He & Hr & _).
  unfold GridState_Update, ActiveState_Update, IdleState_Update, RemovalState_Update, UnloadGrid,
    ActiveObjectsNearGrid, ResetGridExpiry. by rewrite He, Hr.
Qed.

Lemma put_grid_same p og m : same_map m (put_grid p og m).
Proof. by destruct og. Qed.

Lemma put_grid_lookup p og m q :
  i_grids (put_grid p og m) !! q = if decide (q = p) then og else i_grids m !! q.
Proof.
  destruct og; cbn; case_decide as H; [subst; apply lookup_insert_eq|by apply lookup_insert_ne
    |subst; apply lookup_delete_eq|by apply lookup_delete_ne].
Qed.

Lemma put_grid_wf p og m :
  wf m -> is_Some (i_grids m !! p) -> (forall g, og = Some g -> grid_ok p g) -> wf (put_grid p og m).
Proof.
  intros [Hr Hd Hg] Hp Ho. split.
  - destruct og; [done|]. by apply NoDup_filter.
  - intros q. rewrite put_grid_lookup. destruct og as [g|]; cbn.
    + rewrite Hd. case_decide; [subst; split; [by eexists|done]|done].
    + rewrite list_elem_of_filter, Hd. case_decide; [subst; split; [tauto|by intros []]|tauto].
  - intros q g. rewrite put_grid_lookup. case_decide; [subst; auto|auto].
Qed.

Lemma insert_new_wf p g m :
  wf m -> i_grids m !! p = None -> grid_ok p g ->
  wf (set_refs (p :: grid_refs m) (set_grids (<[p := g]> (i_grids m)) m)).
Proof.
  intros [Hr Hd Hg] Hp Ho. split; cbn.
  - constructor; [|done]. rewrite Hd, Hp. by intros [].
  - intros q. rewrite elem_of_cons, Hd. destruct (decide (q = p)) as [->|].
    + rewrite lookup_insert_eq. split; [by eexists|by left].
    + rewrite lookup_insert_ne by done. split; [by intros [|]|by right].
  - intros q g'. destruct (decide (q = p)) as [->|]; [rewrite lookup_insert_eq; by intros [= <-]|].
    rewrite lookup_insert_ne by done. apply Hg.
Qed.

Lemma GridState_Update_ok m v d p g g' :
  grid_ok p g -> GridState_Update m v d g = Some g' -> grid_ok p g'.
Proof.
  intros [<- Hv Hs Hl] H. destruct g as [x y [t0 n0 e0 r0] st0 l0].
  assert (Hg : exists st t, g' = mkNGrid x y (mkGridInfo t n0 e0 r0) st l0 /\
             st <> GRID_STATE_INVALID /\ (st = GRID_STATE_ACTIVE -> st0 = st)).
  { unfold GridState_Update, ActiveState_Update, IdleState_Update, RemovalState_Update in H.
    cbn [i_cellstate] in *. destruct st0; [done|..];
      repeat case_match; simplify_eq; eexists _, _; (split; [reflexivity|done]). }
  destruct Hg as (st & t & -> & Hne & Hact).
  split; [done|done|done|]. cbn. intros ->. apply Hl. by rewrite Hact.
Qed.

Lemma update_grid_wf v d m p : wf m -> wf (update_grid v d m p) /\ same_map m (update_grid v d m p).
Proof.
  intros Hwf. unfold update_grid. destruct (i_grids m !! p) as [g|] eqn:Hg; [|done].
  split; [|apply put_grid_same]. apply put_grid_wf; [done|by eexists|].
  intros g' Hg'. eapply GridState_Update_ok; [by apply (wf_grids _ Hwf)|done].
Qed.

(** A sweep over distinct coordinates updates each grid once, and no update
    reaches another grid. *)
Lemma sweep_spec v d l m :
  wf m -> NoDup l ->
  wf (foldl (update_grid v d) m l) /\ same_map m (foldl (update_grid v d) m l) /\
  forall q, i_grids (foldl (update_grid v d) m l) !! q
            = if decide (q ∈ l) then i_grids m !! q ≫= GridState_Update m v d else i_grids m !! q.
Proof.
  revert m. induction l as [|p l IH]; intros m Hwf Hnd; cbn [foldl].
  { split_and!; [done|done|]. intros q. by rewrite decide_False by (by apply not_elem_of_nil). }
  apply NoDup_cons in Hnd as [Hp Hnd].
  destruct (update_grid_wf v d m p Hwf) as [Hw1 Hs1].
  destruct (IH _ Hw1 Hnd) as (Hw & Hs & Hq). split_and!; [done|by etransitivity|].
  intros q. rewrite Hq.
  assert (Hl : i_grids (update_grid v d m p) !! q
               = if decide (q = p) then i_grids m !! p ≫= GridState_Update m v d else i_grids m !! q).
  { unfold update_grid. destruct (i_grids m !! p) as [g|] eqn:Hg; [apply put_grid_lookup|].
    case_decide; [by subst|done]. }
  rewrite Hl. destruct (decide (q = p)) as [->|Hne].
  - rewrite decide_False by done. by rewrite decide_True by left.
  - destruct (decide (q ∈ l)) as [Hin|Hin].
    + rewrite decide_True by (by right). destruct (i_grids m !! q); cbn; [|done].
      by apply GridState_Update_same.
    + rewrite decide_False; [done|]. by rewrite elem_of_cons; intros [|].
Qed.

(** [DelayedUpdate] is the grids' state machines side by side. *)
Lemma DelayedUpdate_spec v d m :
  wf m ->
  wf (DelayedUpdate v d m) /\ same_map m (DelayedUpdate v d m) /\
  forall p, i_grids (DelayedUpdate v d m) !! p
            = if IsBattlegroundOrArena m then i_grids m !! p
              else i_grids m !! p ≫= GridState_Update m v d.
Proof.
  intros Hwf. unfold DelayedUpdate. destruct (IsBattlegroundOrArena m); cbn; [done|].
  destruct (sweep_spec v d (grid_refs m) m Hwf (wf_refs _ Hwf)) as (Hw & Hs & Hq).
  split_and!; [done..|]. intros p. rewrite Hq. case_decide as Hin; [done|].
  destruct (i_grids m !! p) eqn:Hg; [|done]. destruct Hin. apply (wf_dom _ Hwf). by eexists.
Qed.

Lemma EnsureGridCreated_spec p m :
  wf m -> valid_coord p = true ->
  exists m' g, EnsureGridCreated p m = Ok m' /\ wf m' /\ same_map m m' /\
    i_grids m' !! p = Some g /\
    (i_grids m !! p = Some g \/
     i_grids m !! p = None /\ i_cellstate g = GRID_STATE_IDLE /\ i_GridObjectDataLoaded g = false).
Proof.
  intros Hwf Hp. unfold EnsureGridCreated, getNGrid. rewrite Hp.
  destruct (i_grids m !! p) as [g|] eqn:Hg; [exists m, g; split_and!; [done..|by left]|].
  eexists _, _. split; [reflexivity|]. split_and!; [|done|cbn; by rewrite lookup_insert_eq|by right].
  apply insert_new_wf; [done|done|]. by destruct p; split; cbn.
Qed.

Lemma insert_old_wf p g m :
  wf m -> is_Some (i_grids m !! p) -> grid_ok p g -> wf (set_grids (<[p := g]> (i_grids m)) m).
Proof.
  intros Hw Hp Hg. apply (put_grid_wf p (Some g)); [done|done|]. by intros ? [= <-].
Qed.

Lemma EnsureGridLoaded_spec p m :
  wf m -> valid_coord p = true ->
  exists m' g b, EnsureGridLoaded p m = Ok (m', b) /\ wf m' /\ same_map m m' /\
    i_grids m' !! p = Some g /\ i_GridObjectDataLoaded g = true.
Proof.
  intros Hwf Hp. destruct (EnsureGridCreated_spec p m Hwf Hp) as (m' & g & He & Hw & Hs & Hg & _).
  unfold EnsureGridLoaded. rewrite He, Hg. destruct (i_GridObjectDataLoaded g) eqn:Hl; cbn.
  { exists m', g, false. by split_and!. }
  exists (set_grids (<[p := set_loaded true g]> (i_grids m')) m'), (set_loaded true g), true.
  split_and!; [done| |done|cbn; by rewrite lookup_insert_eq|done].
  apply insert_old_wf; [done|by eexists|]. by destruct (wf_grids _ Hw _ _ Hg); split.
Qed.

Lemma EnsureGridLoadedForActiveObject_spec p m :
  wf m -> valid_coord p = true ->
  exists m' g, EnsureGridLoadedForActiveObject p m = Ok m' /\ wf m' /\ same_map m m' /\
    i_grids m' !! p = Some g /\ i_cellstate g = GRID_STATE_ACTIVE.
Proof.
  intros Hwf Hp. destruct (EnsureGridLoaded_spec p m Hwf Hp) as (m' & g & b & He & Hw & Hs & Hg & Hl).
  unfold EnsureGridLoadedForActiveObject. rewrite He, Hg. case_decide as Ha.
  { exists m', g. by split_and!. }
  eexists _, _. split; [reflexivity|].
  split_and!; [|done|cbn; by rewrite lookup_insert_eq|done].
  apply insert_old_wf; [done|by eexists|]. by destruct (wf_grids _ Hw _ _ Hg); split.
Qed.

Lemma UnloadAll_wf m : wf m -> wf (UnloadAll m).
Proof.
  intros Hwf. unfold UnloadAll.
  assert (H : forall l m, wf m -> wf (foldl (fun m p => put_grid p None m) m l)); [|by apply H].
  clear. induction l as [|p l IH]; intros m Hwf; [done|]. cbn. apply IH.
  destruct (i_grids m !! p) as [g|] eqn:Hg; [apply (put_grid_wf p None); [done|by eexists|done]|].
  destruct Hwf as [Hr Hd Hg']. split; cbn.
  - by apply NoDup_filter.
  - intros q. rewrite list_elem_of_filter, Hd. destruct (decide (q = p)) as [->|].
    + rewrite lookup_delete_eq, Hg. split; [tauto|by intros []].
    + rewrite lookup_delete_ne by done. tauto.
  - intros q g' [_ Hq]%lookup_delete_Some. by apply Hg'.
Qed.

Lemma do_op_wf o m : wf m -> match do_op o m with Ok m' => wf m' | Err _ => True end.
Proof.
  assert (Hinfo : forall f p, wf m ->
            match on_spawn_grid f p m with Ok m' => wf m' | Err _ => True end /\
            match on_grid (upd_info f) p m with Ok m' => wf m' | Err _ => True end).
  { intros f p Hwf. unfold on_spawn_grid, on_grid, getNGrid. destruct (valid_coord p); [|done].
    destruct (i_grids m !! p) as [g|] eqn:Hg; [|done].
    assert (Hok : grid_ok p (upd_info f g)) by (by destruct (wf_grids _ Hwf _ _ Hg); split).
    split; (apply insert_old_wf; [done|by eexists|done]). }
  intros Hwf. destruct o; cbn.
  - destruct (valid_coord p) eqn:Hp.
    + by destruct (EnsureGridLoaded_spec p m Hwf Hp) as (? & ? & ? & -> & ? & _).
    + unfold EnsureGridLoaded, EnsureGridCreated, getNGrid. by rewrite Hp.
  - destruct (valid_coord p) eqn:Hp.
    + by destruct (EnsureGridLoadedForActiveObject_spec p m Hwf Hp) as (? & ? & -> & ? & _).
    + unfold EnsureGridLoadedForActiveObject, EnsureGridLoaded, EnsureGridCreated, getNGrid. by rewrite Hp.
  - by apply Hinfo.
  - by apply Hinfo.
  - by apply Hinfo.
  - by apply Hinfo.
  - by apply DelayedUpdate_spec.
  - by apply UnloadAll_wf.
Qed.

Lemma reachable_wf m : reachable m -> wf m.
Proof.
  intros (os & e & r & u & b & Hr).
  assert (Hw : wf (new_Map e r u b)).
  { split; cbn; [constructor| |].
    - intros p. rewrite lookup_empty. split; [by intros ?%not_elem_of_nil|by intros []].
    - intros p g. by rewrite lookup_empty. }
  revert Hr Hw. generalize (new_Map e r u b). induction os as [|o os IH]; intros m0; cbn.
  { by intros [= <-]. }
  pose proof (do_op_wf o m0) as Ho. destruct (do_op o m0); [|done]. eauto.
Qed.

(** ** When a grid is unloaded *)

Definition timer_of (g : NGrid) : Z := i_expiryTime (i_timer (i_GridInfo g)).

(** Nobody needs the grid: no lock, no creature of the world containers in
    it, no player or active object within visibility. *)
Definition abandoned (m : Map) (v : View) (g : NGrid) : Prop :=
  getUnloadLock g = false /\ creatures_in v (coord_of g) = 0 /\ ActiveObjectsNearGrid m v g = false.

Lemma GridState_Update_None m v d g :
  GridState_Update m v d g = None <->
  i_cellstate g = GRID_STATE_REMOVAL /\ timer_of g <= d /\ abandoned m v g.
Proof.
  destruct g as [x y [[t] n e r] st l].
  unfold GridState_Update, ActiveState_Update, IdleState_Update, RemovalState_Update, abandoned,
    UnloadGrid, getUnloadLock, timer_of.
  cbn [i_cellstate i_GridInfo i_timer i_expiryTime]. destruct st; try (split; [|by intros []]);
    cbn [negb]; [done|by repeat case_match|done|].
  set (lock := GridInfo_getUnloadLock _). set (c := creatures_in _ _).
  unfold TimeTracker_Passed. cbn [upd_info UpdateTimeTracker set_timer TimeTracker_Update i_GridInfo
    i_timer i_expiryTime].
  change (ActiveObjectsNearGrid m v (upd_info _ _))
    with (ActiveObjectsNearGrid m v (mkNGrid x y (mkGridInfo (mkTracker t) n e r) GRID_STATE_REMOVAL l)).
  destruct lock; cbn [negb]; [split; [done|by intros (_ & _ & ? & _)]|].
  destruct (Z.leb_spec (t - d) 0); [|split; [done|intros (_ & ? & _); lia]].
  change (creatures_in v _) with c.
  destruct (Z.eqb_spec c 0); cbn [negb]; [|split; [done|by intros (_ & _ & _ & ? & _)]].
  destruct (ActiveObjectsNearGrid _ _ _).
  - split; [done|by intros (_ & _ & _ & _ & ?)].
  - split; [intros _; split_and!; done || lia|done].
Qed.

(** In every reachable map, an update unloads a grid exactly when the
    grid is waiting for removal, its timer runs out in this update, none of
    its three locks is held, and neither a pet nor a player or active object
    is in it or in sight of it; a battleground's grids are never unloaded. *)
Theorem unloaded_exactly_when m v d p g :
  reachable m -> i_grids m !! p = Some g ->
  i_grids (DelayedUpdate v d m) !! p = None <->
  IsBattlegroundOrArena m = false /\ i_cellstate g = GRID_STATE_REMOVAL /\ timer_of g <= d /\
  abandoned m v g.
Proof.
  intros Hr%reachable_wf Hg. destruct (DelayedUpdate_spec v d m Hr) as (_ & _ & Hp).
  rewrite Hp, Hg. destruct (IsBattlegroundOrArena m).
  - split; [done|by intros []].
  - cbn. rewrite GridState_Update_None. tauto.
Qed.

(** What keeps a grid in use: a player in it, or a player or active object
    in sight of it. *)
Definition occupied (m : Map) (v : View) (g : NGrid) : Prop :=
  players_in v (coord_of g) <> 0 \/ ActiveObjectsNearGrid m v g = true.

Lemma occupied_same m m' v g g' :
  same_map m m' -> coord_of g' = coord_of g -> occupied m v g -> occupied m' v g'.
Proof.
  intros (He & Hr & _) Hc. unfold occupied, ActiveObjectsNearGrid. rewrite Hr, Hc.
  by injection Hc as -> ->.
Qed.

Lemma GridState_Update_occupied m v d g :
  i_cellstate g = GRID_STATE_ACTIVE -> occupied m v g ->
  exists g', GridState_Update m v d g = Some g' /\ i_cellstate g' = GRID_STATE_ACTIVE /\
             coord_of g' = coord_of g.
Proof.
  intros Ha Ho. unfold GridState_Update, ActiveState_Update. rewrite Ha.
  destruct (TimeTracker_Passed _); [|by eexists].
  assert (((players_in v (coord_of (upd_info (UpdateTimeTracker d) g)) =? 0) &&
     negb (ActiveObjectsNearGrid m v (upd_info (UpdateTimeTracker d) g))) = false) as ->;
    [|by eexists].
  change (coord_of (upd_info _ g)) with (coord_of g).
  change (ActiveObjectsNearGrid m v (upd_info _ g)) with (ActiveObjectsNearGrid m v g).
  destruct Ho as [Hp | ->]; [|apply andb_false_r].
  destruct (Z.eqb_spec (players_in v (coord_of g)) 0); done.
Qed.

(** From the moment a player or active object makes the map load the grid
    it stands in, and for as long as every update finds someone in the grid or
    in sight of it, the grid exists, is active and has its objects loaded. *)
Theorem occupied_grid_stays_active m p vs m1 :
  reachable m -> EnsureGridLoadedForActiveObject p m = Ok m1 ->
  Forall (fun vd => forall g, coord_of g = p -> occupied m vd.1 g) vs ->
  exists g, i_grids (ticks vs m1) !! p = Some g /\
    i_cellstate g = GRID_STATE_ACTIVE /\ i_GridObjectDataLoaded g = true.
Proof.
  intros Hr%reachable_wf He Hvs.
  assert (Hp : valid_coord p = true).
  { unfold EnsureGridLoadedForActiveObject, EnsureGridLoaded, EnsureGridCreated, getNGrid in He.
    by destruct (valid_coord p). }
  destruct (EnsureGridLoadedForActiveObject_spec p m Hr Hp) as (m' & g & He' & Hw & Hs & Hg & Ha).
  rewrite He in He'. injection He' as <-. clear He.
  revert m1 g Hw Hs Hg Ha. induction vs as [|[v d] vs IH]; intros m1 g Hw Hs Hg Ha.
  { exists g. split_and!; [done|done|]. by apply (ok_loaded _ _ (wf_grids _ Hw _ _ Hg)). }
  apply Forall_cons in Hvs as [Hv Hvs]. cbn [ticks].
  destruct (DelayedUpdate_spec v d m1 Hw) as (Hw1 & Hs1 & Hq).
  assert (Hc : coord_of g = p) by apply (wf_grids _ Hw _ _ Hg).
  destruct (GridState_Update_occupied m1 v d g Ha) as (g1 & Hg1 & Ha1 & Hc1).
  { eapply occupied_same; [done|reflexivity|by apply Hv]. }
  specialize (Hq p). rewrite Hg in Hq. cbn in Hq. rewrite Hg1 in Hq.
  destruct (IsBattlegroundOrArena m1).
  - by apply (IH Hvs _ g); [|etransitivity| |].
  - by apply (IH Hvs _ g1); [|etransitivity| |].
Qed.

(** ** Abandoned grids *)

Definition full_expiry (m : Map) : Z :=
  time_t_of (float_mul (float_of_Z (i_gridExpiry m)) factor_1).
Definition tenth_expiry (m : Map) : Z :=
  time_t_of (float_mul (float_of_Z (i_gridExpiry m)) factor_01).

(** The default of [GridCleanUpDelay], five minutes. *)
Example default_expiry :
  full_expiry (new_Map 300000 3 true false) = 300000 /\
  tenth_expiry (new_Map 300000 3 true false) = 30000.
Proof. vm_compute. done. Qed.

Definition unlocked (g : NGrid) : Prop := getUnloadLock g = false.

(** Views in which nobody needs the grid at [p]. *)
Definition empty_at (m : Map) (p : GridCoord) (v : View) : Prop :=
  players_in v p = 0 /\ creatures_in v p = 0 /\
  forall g, coord_of g = p -> ActiveObjectsNearGrid m v g = false.

Lemma empty_at_same m m' p v : same_map m m' -> empty_at m p v -> empty_at m' p v.
Proof.
  intros (_ & Hr & _) (Hp & Hc & Ha). split_and!; [done..|]. intros g Hg.
  specialize (Ha g Hg). unfold ActiveObjectsNearGrid in *. by rewrite Hr.
Qed.

(** What an update does to an unlocked grid nobody needs. *)
Definition step_abandoned (m : Map) (d : Z) (g : NGrid) (og : option NGrid) : Prop :=
  match i_cellstate g with
  | GRID_STATE_INVALID => og = Some g
  | GRID_STATE_ACTIVE =>
      exists g', og = Some g' /\ unlocked g' /\
        if timer_of g <=? d then i_cellstate g' = GRID_STATE_IDLE
        else i_cellstate g' = GRID_STATE_ACTIVE /\ timer_of g' = timer_of g - d
  | GRID_STATE_IDLE =>
      exists g', og = Some g' /\ unlocked g' /\ i_cellstate g' = GRID_STATE_REMOVAL /\
        timer_of g' = full_expiry m
  | GRID_STATE_REMOVAL =>
      if timer_of g <=? d then og = None
      else exists g', og = Some g' /\ unlocked g' /\ i_cellstate g' = GRID_STATE_REMOVAL /\
             timer_of g' = timer_of g - d
  end.

Lemma GridState_Update_abandoned m v d p g :
  coord_of g = p -> unlocked g -> empty_at m p v ->
  step_abandoned m d g (GridState_Update m v d g).
Proof.
  intros <- Hu (Hp & Hc & Ha). unfold step_abandoned.
  destruct (i_cellstate g) eqn:Hst.
  - unfold GridState_Update. by rewrite Hst.
  - unfold GridState_Update, ActiveState_Update. rewrite Hst. unfold TimeTracker_Passed.
    change (coord_of (upd_info _ g)) with (coord_of g).
    rewrite Hp, Ha by done. cbn [Z.eqb andb negb].
    cbn [upd_info UpdateTimeTracker set_timer TimeTracker_Update i_GridInfo i_timer i_expiryTime].
    fold (timer_of g).
    destruct (Z.leb_spec (timer_of g - d) 0), (Z.leb_spec (timer_of g) d); try lia;
      (eexists; split; [reflexivity|]); done.
  - unfold GridState_Update. rewrite Hst. eexists. split; [reflexivity|]. done.
  - destruct (Z.leb_spec (timer_of g) d) as [Ht|Ht].
    + apply GridState_Update_None. split_and!; [done|done|]. split_and!; [done|done|by apply Ha].
    + unfold GridState_Update, RemovalState_Update. rewrite Hst.
      change (GridInfo_getUnloadLock (i_GridInfo g)) with (getUnloadLock g). rewrite Hu. cbn [negb].
      unfold TimeTracker_Passed.
      cbn [upd_info UpdateTimeTracker set_timer TimeTracker_Update i_GridInfo i_timer i_expiryTime].
      fold (timer_of g). destruct (Z.leb_spec (timer_of g - d) 0); [lia|].
      eexists. split; [reflexivity|]. done.
Qed.

(** The time a run of updates takes. *)
Definition duration (vs : list (View * Z)) : Z := total (map snd vs).

(** How far an abandoned grid is from being unloaded: in which phase at
    least, and how long it may still take. *)
Inductive phase := Waiting (t : Z) | Idle | Removal (t : Z) | Gone.

Definition in_phase (m : Map) (ph : phase) (og : option NGrid) : Prop :=
  match ph, og with
  | Gone, None => True
  | Gone, Some _ => False
  | _, None => True
  | Waiting t, Some g =>
      unlocked g /\
      match i_cellstate g with
      | GRID_STATE_ACTIVE => timer_of g <= t
      | GRID_STATE_IDLE => True
      | GRID_STATE_REMOVAL => timer_of g <= full_expiry m
      | GRID_STATE_INVALID => False
      end
  | Idle, Some g =>
      unlocked g /\
      (i_cellstate g = GRID_STATE_IDLE \/
       i_cellstate g = GRID_STATE_REMOVAL /\ timer_of g <= full_expiry m)
  | Removal t, Some g => unlocked g /\ i_cellstate g = GRID_STATE_REMOVAL /\ timer_of g <= t
  end.

Definition next_phase (m : Map) (d : Z) (ph : phase) : phase :=
  match ph with
  | Waiting t => if t <=? d then Idle else Waiting (t - d)
  | Idle => Removal (full_expiry m)
  | Removal t => if t <=? d then Gone else Removal (t - d)
  | Gone => Gone
  end.

Lemma phase_step m v d p ph :
  wf m -> IsBattlegroundOrArena m = false -> 0 <= d -> empty_at m p v ->
  in_phase m ph (i_grids m !! p) ->
  in_phase m (next_phase m d ph) (i_grids (DelayedUpdate v d m) !! p).
Proof.
  intros Hw Hbg Hd He Hph. destruct (DelayedUpdate_spec v d m Hw) as (_ & _ & Hq).
  rewrite Hq, Hbg. destruct (i_grids m !! p) as [g|] eqn:Hg; cbn [mbind option_bind].
  2: { destruct ph; cbn; repeat case_match; done. }
  assert (Hc : coord_of g = p) by apply (wf_grids _ Hw _ _ Hg).
  destruct ph as [t| |t|]; cbn [in_phase] in Hph; [destruct Hph as [Hu Hph]..|done].
  all: pose proof (GridState_Update_abandoned m v d p g Hc Hu He) as Hs; revert Hs;
    generalize (GridState_Update m v d g); intros og Hs; unfold step_abandoned in Hs; cbn [next_phase].
  - destruct (i_cellstate g) eqn:Hst; [done|..];
      destruct (Z.leb_spec (timer_of g) d); destruct (Z.leb_spec t d); try lia;
      repeat match goal with
             | H : exists _, _ |- _ => destruct H as (g' & -> & Hu' & Hs)
             | H : _ /\ _ |- _ => destruct H
             end; subst; cbn [in_phase];
      repeat match goal with H : i_cellstate _ = _ |- _ => rewrite H end;
      first [done|split; [done|first [done|lia|left; done|right; split; [done|lia]]]].
  - destruct Hph as [Hst|[Hst Ht]]; rewrite Hst in Hs.
    + destruct Hs as (g' & -> & Hu' & Hs & ?). cbn. split_and!; [done|done|lia].
    + destruct (Z.leb_spec (timer_of g) d); [by subst|].
      destruct Hs as (g' & -> & Hu' & Hs & ?). cbn. split_and!; [done|done|lia].
  - destruct Hph as [Hst Ht]. rewrite Hst in Hs.
    destruct (Z.leb_spec (timer_of g) d), (Z.leb_spec t d); try lia; [by subst|by subst|].
    destruct Hs as (g' & -> & Hu' & Hs & ?). cbn. split_and!; [done|done|lia].
Qed.

(** Runs of updates that find nobody at [p]. *)
Definition nobody (m : Map) (p : GridCoord) (vs : list (View * Z)) : Prop :=
  Forall (fun vd => empty_at m p vd.1 /\ 0 <= vd.2) vs.

Lemma ticks_phase m p vs ph :
  wf m -> IsBattlegroundOrArena m = false -> nobody m p vs ->
  in_phase m ph (i_grids m !! p) ->
  wf (ticks vs m) /\ same_map m (ticks vs m) /\
  in_phase m (foldl (fun ph vd => next_phase m vd.2 ph) ph vs) (i_grids (ticks vs m) !! p).
Proof.
  revert m ph. induction vs as [|[v d] vs IH]; intros m ph Hw Hbg Hn Hph; [done|].
  apply Forall_cons in Hn as [[He Hd] Hn]. cbn in He, Hd. cbn [ticks foldl snd].
  destruct (DelayedUpdate_spec v d m Hw) as (Hw1 & Hs1 & _).
  pose proof (phase_step m v d p ph Hw Hbg Hd He Hph) as Hph1.
  set (m1 := DelayedUpdate v d m) in *.
  assert (Hfull : full_expiry m1 = full_expiry m) by (unfold full_expiry; by rewrite (proj1 Hs1)).
  assert (Hnext : forall d ph, next_phase m1 d ph = next_phase m d ph).
  { intros d' [| | |]; cbn; by rewrite ?Hfull. }
  assert (Hin : forall ph og, in_phase m1 ph og <-> in_phase m ph og).
  { intros [| | |] [|]; cbn; by rewrite ?Hfull. }
  destruct (IH m1 (next_phase m d ph)) as (Hw2 & Hs2 & Hph2).
  - done.
  - destruct Hs1 as (_ & _ & Hb). by rewrite Hb.
  - eapply Forall_impl; [exact Hn|]. cbn. intros [v' d'] [? ?]. split; [by eapply empty_at_same|done].
  - by apply Hin.
  - split_and!; [done|by etransitivity|]. apply Hin in Hph2.
    assert (Hf : forall vs ph,
              foldl (fun ph (vd : View * Z) => next_phase m1 vd.2 ph) ph vs
              = foldl (fun ph (vd : View * Z) => next_phase m vd.2 ph) ph vs).
    { clear -Hnext. induction vs as [|vd vs IH]; intros ph; [done|]. cbn. by rewrite Hnext. }
    by rewrite Hf in Hph2.
Qed.

Lemma run_waiting m t vs :
  vs <> [] -> t <= duration vs -> Forall (fun vd => 0 <= vd.2) vs ->
  exists ph, foldl (fun ph (vd : View * Z) => next_phase m vd.2 ph) (Waiting t) vs = ph /\
    (ph = Idle \/ ph = Gone \/ exists t, ph = Removal t /\ t <= full_expiry m).
Proof.
  assert (Hstable : forall vs ph, Forall (fun vd : View * Z => 0 <= vd.2) vs ->
            (ph = Idle \/ ph = Gone \/ exists t, ph = Removal t /\ t <= full_expiry m) ->
            let ph' := foldl (fun ph (vd : View * Z) => next_phase m vd.2 ph) ph vs in
            ph' = Idle \/ ph' = Gone \/ exists t, ph' = Removal t /\ t <= full_expiry m).
  { clear. induction vs as [|[v d] vs IH]; intros ph Hd Hph; [done|]. cbn [foldl snd].
    apply Forall_cons in Hd as [Hd Hds]. cbn in Hd. apply IH; [done|].
    destruct Hph as [-> | [-> | (t & -> & Ht)]]; cbn [next_phase].
    - right; right. by eexists.
    - by right; left.
    - destruct (t <=? d); [by right; left|]. right; right. eexists. split; [done|]. lia. }
  intros Hne Ht Hd. eexists. split; [reflexivity|].
  revert t Hne Ht. induction Hd as [|[v d] vs Hd Hds IH]; intros t Hne Ht; [done|].
  cbn [foldl snd next_phase]. unfold duration in Ht. cbn [map total foldr snd] in *.
  destruct (Z.leb_spec t d) as [Htd|Htd]; [apply Hstable; auto|].
  apply IH; [intros ->; cbn in Ht; lia|unfold duration, total; lia].
Qed.

Lemma run_removal m t vs :
  vs <> [] -> t <= duration vs -> Forall (fun vd => 0 <= vd.2) vs ->
  foldl (fun ph (vd : View * Z) => next_phase m vd.2 ph) (Removal t) vs = Gone.
Proof.
  assert (Hgone : forall vs, foldl (fun ph (vd : View * Z) => next_phase m vd.2 ph) Gone vs = Gone)
    by (clear; induction vs; done).
  intros Hne Ht Hd. revert t Hne Ht.
  induction Hd as [|[v d] vs Hd Hds IH]; intros t Hne Ht; [done|].
  cbn [foldl snd next_phase]. unfold duration in Ht. cbn [map total foldr snd] in *.
  destruct (Z.leb_spec t d) as [Htd|Htd]; [apply Hgone|].
  apply IH; [intros ->; cbn in Ht; lia|unfold duration, total; lia].
Qed.

(** C36: an active grid that everybody has left and no lock holds is unloaded:
    once the updates have used up its timer, then made one more step, then
    used up the full expiry time, it no longer exists, however the time is
    split into updates. *)
Theorem abandoned_grid_is_unloaded m p g vs1 vd vs2 :
  reachable m -> IsBattlegroundOrArena m = false ->
  i_grids m !! p = Some g -> i_cellstate g = GRID_STATE_ACTIVE -> unlocked g ->
  nobody m p (vs1 ++ vd :: vs2) -> vs1 <> [] -> vs2 <> [] ->
  timer_of g <= duration vs1 -> full_expiry m <= duration vs2 ->
  i_grids (ticks (vs1 ++ vd :: vs2) m) !! p = None.
Proof.
  intros Hr%reachable_wf Hbg Hg Ha Hu Hn H1 H2 Ht1 Ht2.
  assert (Hd : Forall (fun vd : View * Z => 0 <= vd.2) (vs1 ++ vd :: vs2)).
  { eapply Forall_impl; [exact Hn|]. by intros ? []. }
  destruct (ticks_phase m p (vs1 ++ vd :: vs2) (Waiting (timer_of g)) Hr Hbg Hn)
    as (_ & _ & Hph).
  { rewrite Hg. cbn. rewrite Ha. split; [done|lia]. }
  apply Forall_app in Hd as [Hd1 [Hdv Hd2]%Forall_cons].
  rewrite foldl_app in Hph. cbn [foldl] in Hph.
  destruct (run_waiting m (timer_of g) vs1 H1 Ht1 Hd1) as (ph & Hrun & Hcase). rewrite Hrun in Hph.
  assert (Hgone : foldl (fun ph (vd : View * Z) => next_phase m vd.2 ph) Gone vs2 = Gone)
    by (clear; induction vs2; done).
  assert (Hend : foldl (fun ph (vd : View * Z) => next_phase m vd.2 ph) (next_phase m vd.2 ph) vs2 = Gone).
  { destruct Hcase as [-> | [-> | (t & -> & Ht)]]; cbn [next_phase].
    - by apply run_removal.
    - done.
    - destruct (t <=? vd.2); [done|]. apply run_removal; [done|lia|done]. }
  rewrite Hend in Hph. by destruct (i_grids (ticks (vs1 ++ vd :: vs2) m) !! p).
Qed.

(** ** Examples: a player enters grid (32, 32) of a map with the default
    expiry, walks on, and leaves the map *)

Definition nobody_view : View := mkView [] [] (fun _ => 0) (fun _ => 0).
Definition player_view (c : CellCoord) : View :=
  mkView [c] [] (fun p => if decide (p = (fst c / 8, snd c / 8)) then 1 else 0) (fun _ => 0).

Definition demo_start : Map := new_Map 300000 3 true false.
Definition demo_map (os : list Op) : Map :=
  match run os demo_start with Ok m => m | Err _ => demo_start end.

Definition demo_ops : list Op :=
  [OVisit (32, 32); OTick (player_view (260, 260)) 40000; OTick nobody_view 29999;
   OTick nobody_view 100; OTick nobody_view 100; OTick nobody_view 299999].

Lemma demo_reachable os : (exists m, run os demo_start = Ok m) -> reachable (demo_map os).
Proof.
  intros [m Hm]. exists os, 300000, 3, true, false. unfold demo_map.
  change (new_Map 300000 3 true false) with demo_start. by rewrite Hm.
Qed.

Example demo_states :
  map (fun n => match i_grids (demo_map (take n demo_ops)) !! (32, 32) with
                | Some g => (i_cellstate g, timer_of g)
                | None => (GRID_STATE_INVALID, 0)
                end) [1; 2; 3; 4; 5; 6]%nat
  = [(GRID_STATE_ACTIVE, 30000); (GRID_STATE_ACTIVE, 30000); (GRID_STATE_ACTIVE, 1);
     (GRID_STATE_IDLE, -99); (GRID_STATE_REMOVAL, 300000); (GRID_STATE_REMOVAL, 1)].
Proof. vm_compute. reflexivity. Qed.

Lemma unloaded_exactly_when_witness :
  i_grids (DelayedUpdate nobody_view 1 (demo_map demo_ops)) !! (32, 32) = None.
Proof.
  apply (unloaded_exactly_when _ nobody_view 1 (32, 32)
           (mkNGrid 32 32 (mkGridInfo (mkTracker 1) 0 false false) GRID_STATE_REMOVAL true)).
  - apply demo_reachable. eexists. vm_compute. reflexivity.
  - vm_compute. reflexivity.
  - split_and!; [vm_compute; reflexivity|reflexivity|cbn; lia|].
    split_and!; vm_compute; reflexivity.
Defined.

Lemma occupied_grid_stays_active_witness :
  exists g, i_grids (ticks [(player_view (260, 261), 50000); (player_view (254, 261), 500000)]
                       (demo_map [OVisit (32, 32)])) !! (32, 32) = Some g /\
    i_cellstate g = GRID_STATE_ACTIVE /\ i_GridObjectDataLoaded g = true.
Proof.
  apply (occupied_grid_stays_active demo_start (32, 32)
           [(player_view (260, 261), 50000); (player_view (254, 261), 500000)]
           (demo_map [OVisit (32, 32)])).
  - exists [], 300000, 3, true, false. reflexivity.
  - vm_compute. reflexivity.
  - constructor; [|constructor; [|constructor]]; cbn [fst]; intros [x y i st l] Hc; injection Hc as -> ->; right;
      vm_compute; reflexivity.
Defined.

Lemma abandoned_grid_is_unloaded_witness :
  i_grids (ticks ([(nobody_view, 20000); (nobody_view, 10000)] ++ (nobody_view, 100)
                  :: [(nobody_view, 150000); (nobody_view, 150000)])
             (demo_map [OVisit (32, 32)])) !! (32, 32) = None.
Proof.
  apply (abandoned_grid_is_unloaded _ (32, 32)
           (mkNGrid 32 32 (mkGridInfo (mkTracker 30000) 0 false false) GRID_STATE_ACTIVE true)
           [(nobody_view, 20000); (nobody_view, 10000)] (nobody_view, 100)).
  - apply demo_reachable. eexists. vm_compute. reflexivity.
  - vm_compute. reflexivity.
  - vm_compute. reflexivity.
  - reflexivity.
  - reflexivity.
  - repeat constructor; cbn; lia.
  - done.
  - done.
  - cbn. lia.
  - vm_compute. discriminate.
Defined.
