(* ===== verification/Group.v ===== *)
(** * Groups: members, invitations and sub groups
      (src/server/game/Groups/Group.cpp, Groups/GroupMgr.cpp, Handlers/GroupHandler.cpp)

    The objects of the group system - [Player]s and [Group]s, which point to
    each other - in one world, with the store of [GroupMgr] and the table
    [group_member]; the member functions of [Group] as computations on it.
    The loot rolls are in GroupRoll.v. *)
From S2P Require Import Prelude.
From S2P Require Import Lists.
Local Open Scope Z_scope.

(** ** Data *)

Definition MAXGROUPSIZE : Z := 5.
Definition MAXRAIDSIZE : Z := 40.
Definition MAX_RAID_SUBGROUPS : Z := MAXRAIDSIZE / MAXGROUPSIZE.
Definition TARGETICONCOUNT : Z := 8.

Definition MEMBER_FLAG_ASSISTANT : Z := 0x01.
Definition MEMBER_FLAG_MAINTANK : Z := 0x02.
Definition MEMBER_FLAG_MAINASSIST : Z := 0x04.

Definition GROUPTYPE_NORMAL : Z := 0x00.
Definition GROUPTYPE_RAID : Z := 0x02.
Definition GROUPTYPE_BGRAID : Z := 0x03.
Definition GROUPTYPE_UNK1 : Z := 0x04.
Definition GROUPTYPE_LFG : Z := 0x08.
Definition GROUPTYPE_EVERYONE_IS_ASSISTANT : Z := 0x40.

Inductive LootMethod := FREE_FOR_ALL | ROUND_ROBIN | MASTER_LOOT | GROUP_LOOT | NEED_BEFORE_GREED.

(** [Group::MemberSlot] *)
Record MemberSlot := mkSlot { ms_guid : Z; ms_group : Z; ms_flags : Z; ms_roles : Z }.

Definition set_ms_group (g : Z) (s : MemberSlot) : MemberSlot :=
  mkSlot (ms_guid s) g (ms_flags s) (ms_roles s).
Definition set_ms_flags (f : Z) (s : MemberSlot) : MemberSlot :=
  mkSlot (ms_guid s) (ms_group s) f (ms_roles s).
Definition set_ms_roles (r : Z) (s : MemberSlot) : MemberSlot :=
  mkSlot (ms_guid s) (ms_group s) (ms_flags s) r.

(** A [Group]; [m_bg] and [m_bf] say that it belongs to a battleground or a
    battlefield.  The pointers in [m_invitees] are the guids of the players. *)
Record Group := mkGroup {
  m_memberSlots : list MemberSlot;
  m_invitees : gset Z;
  m_leaderGuid : Z;
  m_groupType : Z;
  m_bg : bool;
  m_bf : bool;
  m_targetIcons : list Z;
  m_lootMethod : LootMethod;
  m_lootThreshold : Z;
  m_looterGuid : Z;
  m_subGroupsCounts : option (list Z);
  m_guid : Z;
  m_dbStoreId : Z
}.

(** [Group()] *)
Definition new_Group : Group :=
  mkGroup [] ∅ 0 GROUPTYPE_NORMAL false false (replicate 8 0) FREE_FOR_ALL 2 0 None 0 0.

Definition upd_members (s : list MemberSlot) (c : option (list Z)) (g : Group) : Group :=
  mkGroup s (m_invitees g) (m_leaderGuid g) (m_groupType g) (m_bg g) (m_bf g) (m_targetIcons g)
    (m_lootMethod g) (m_lootThreshold g) (m_looterGuid g) c (m_guid g) (m_dbStoreId g).
Definition set_invitees (i : gset Z) (g : Group) : Group :=
  mkGroup (m_memberSlots g) i (m_leaderGuid g) (m_groupType g) (m_bg g) (m_bf g) (m_targetIcons g)
    (m_lootMethod g) (m_lootThreshold g) (m_looterGuid g) (m_subGroupsCounts g) (m_guid g) (m_dbStoreId g).
Definition set_leader (l : Z) (g : Group) : Group :=
  mkGroup (m_memberSlots g) (m_invitees g) l (m_groupType g) (m_bg g) (m_bf g) (m_targetIcons g)
    (m_lootMethod g) (m_lootThreshold g) (m_looterGuid g) (m_subGroupsCounts g) (m_guid g) (m_dbStoreId g).
Definition upd_type (t : Z) (c : option (list Z)) (g : Group) : Group :=
  mkGroup (m_memberSlots g) (m_invitees g) (m_leaderGuid g) t (m_bg g) (m_bf g) (m_targetIcons g)
    (m_lootMethod g) (m_lootThreshold g) (m_looterGuid g) c (m_guid g) (m_dbStoreId g).
Definition set_icons (i : list Z) (g : Group) : Group :=
  mkGroup (m_memberSlots g) (m_invitees g) (m_leaderGuid g) (m_groupType g) (m_bg g) (m_bf g) i
    (m_lootMethod g) (m_lootThreshold g) (m_looterGuid g) (m_subGroupsCounts g) (m_guid g) (m_dbStoreId g).
Definition upd_loot (m : LootMethod) (t l : Z) (g : Group) : Group :=
  mkGroup (m_memberSlots g) (m_invitees g) (m_leaderGuid g) (m_groupType g) (m_bg g) (m_bf g) (m_targetIcons g)
    m t l (m_subGroupsCounts g) (m_guid g) (m_dbStoreId g).
Definition set_ids (guid sid : Z) (g : Group) : Group :=
  mkGroup (m_memberSlots g) (m_invitees g) (m_leaderGuid g) (m_groupType g) (m_bg g) (m_bf g) (m_targetIcons g)
    (m_lootMethod g) (m_lootThreshold g) (m_looterGuid g) (m_subGroupsCounts g) guid sid.

(** The part of a [Player] the group system uses; a reference to a group
    carries the sub group. *)
Record Player := mkPlayer {
  p_group : option (Z * Z);
  p_originalGroup : option (Z * Z);
  p_groupInvite : option Z;
  IsInWorld : bool;
  IsGameMaster : bool;
  GetTeam : Z;
  GetMapId : Z;
  GetInstanceId : Z;
  GetDungeonDifficulty : Z;
  InBattleground : bool;
  ignores : gset Z
}.

Definition upd_refs (g o : option (Z * Z)) (p : Player) : Player :=
  mkPlayer g o (p_groupInvite p) (IsInWorld p) (IsGameMaster p) (GetTeam p) (GetMapId p)
    (GetInstanceId p) (GetDungeonDifficulty p) (InBattleground p) (ignores p).
Definition set_groupInvite (g : option Z) (p : Player) : Player :=
  mkPlayer (p_group p) (p_originalGroup p) g (IsInWorld p) (IsGameMaster p) (GetTeam p) (GetMapId p)
    (GetInstanceId p) (GetDungeonDifficulty p) (InBattleground p) (ignores p).
Definition set_inWorld (b : bool) (p : Player) : Player :=
  mkPlayer (p_group p) (p_originalGroup p) (p_groupInvite p) b (IsGameMaster p) (GetTeam p) (GetMapId p)
    (GetInstanceId p) (GetDungeonDifficulty p) (InBattleground p) (ignores p).

Definition GetGroup (p : Player) : option Z := fst <$> p_group p.
Definition GetOriginalGroup (p : Player) : option Z := fst <$> p_originalGroup p.

(** [GroupMgr]: the next guid, the pool of database ids, and the groups by guid. *)
Record GroupMgr := mkGroupMgr {
  NextGroupId : Z;
  NextGroupDbStoreId : Z;
  GroupDbStore : list (option Z);
  GroupStore : gmap Z Z
}.

Inductive PartyResult :=
| ERR_PARTY_RESULT_OK | ERR_BAD_PLAYER_NAME_S | ERR_TARGET_NOT_IN_GROUP_S | ERR_TARGET_NOT_IN_INSTANCE_S
| ERR_GROUP_FULL | ERR_ALREADY_IN_GROUP_S | ERR_NOT_IN_GROUP | ERR_NOT_LEADER | ERR_PLAYER_WRONG_FACTION
| ERR_IGNORING_YOU_S | ERR_INVITE_RESTRICTED.

(** What players are told; the packets that show the roster are left out. *)
Inductive Notice :=
| PartyResultTo (p : Z) (r : PartyResult)
| InviteNotification (p from : Z) (alreadyInGroup : bool)
| Declined (leader p : Z)
| Uninvited (p : Z)
| Destroyed (p : Z).

(** The objects alive, with the next free address of a [Group], and the table
    [group_member]: member guid, database id of the group and sub group. *)
Record World := mkWorld {
  players : gmap Z Player;
  groups : gmap Z Group;
  next_address : Z;
  mgr : GroupMgr;
  group_member : gmap Z (Z * Z);
  notices : list Notice
}.

Definition set_players (x : gmap Z Player) (w : World) : World :=
  mkWorld x (groups w) (next_address w) (mgr w) (group_member w) (notices w).
Definition set_groups (x : gmap Z Group) (w : World) : World :=
  mkWorld (players w) x (next_address w) (mgr w) (group_member w) (notices w).
Definition set_next_address (x : Z) (w : World) : World :=
  mkWorld (players w) (groups w) x (mgr w) (group_member w) (notices w).
Definition set_mgr (x : GroupMgr) (w : World) : World :=
  mkWorld (players w) (groups w) (next_address w) x (group_member w) (notices w).
Definition set_group_member (x : gmap Z (Z * Z)) (w : World) : World :=
  mkWorld (players w) (groups w) (next_address w) (mgr w) x (notices w).

(** Freed memory is used; an [ASSERT] fails; a counter beyond the array. *)
Inductive GroupError := UseAfterFree | AssertionFailed | CounterOutOfBounds.
Definition GS (A : Type) : Type := ST World GroupError A.

(** ** Access to the objects *)

Definition deref_group (g : Z) : GS Group := fun w =>
  match groups w !! g with Some x => Ok (x, w) | None => Err UseAfterFree end.
Definition deref_player (p : Z) : GS Player := fun w =>
  match players w !! p with Some x => Ok (x, w) | None => Err UseAfterFree end.
Definition mod_group (g : Z) (f : Group -> Group) : GS unit := fun w =>
  match groups w !! g with
  | Some x => Ok (tt, set_groups (<[g := f x]> (groups w)) w)
  | None => Err UseAfterFree
  end.
Definition mod_player (p : Z) (f : Player -> Player) : GS unit := fun w =>
  match players w !! p with
  | Some x => Ok (tt, set_players (<[p := f x]> (players w)) w)
  | None => Err UseAfterFree
  end.
Definition tell (n : Notice) : GS unit :=
  st_modify (fun w => mkWorld (players w) (groups w) (next_address w) (mgr w) (group_member w)
                        (notices w ++ [n])).

(** [ObjectAccessor::FindPlayer]: players in the world only. *)
Definition FindPlayer (w : World) (guid : Z) : option Player :=
  match players w !! guid with Some p => if IsInWorld p then Some p else None | None => None end.

(** ** [GroupMgr] *)

(** [++NextGroupDbStoreId] and the search for the next free id; [None] when
    the loop ends without one. *)
Fixpoint find_free (fuel : nat) (store : list (option Z)) (i : Z) : option Z :=
  match fuel with
  | O => None
  | S fuel =>
      if i <? 0xFFFFFFFF then
        if Z.of_nat (length store) <=? i then Some i
        else match store !! Z.to_nat i with
             | Some None => Some i
             | _ => find_free fuel store (i + 1)
             end
      else None
  end.

(** The new id, the manager after it, and whether the server is stopped. *)
Definition GenerateNewGroupDbStoreId (m : GroupMgr) : Z * GroupMgr * bool :=
  let newStorageId := NextGroupDbStoreId m in
  let i := u32 (newStorageId + 1) in
  let next := match find_free (S (length (GroupDbStore m))) (GroupDbStore m) i with
              | Some i => i
              | None => i
              end in
  (newStorageId, mkGroupMgr (NextGroupId m) next (GroupDbStore m) (GroupStore m), newStorageId =? next).

Definition RegisterGroupDbStoreId (storageId group : Z) (m : GroupMgr) : GroupMgr :=
  let store := if Z.of_nat (length (GroupDbStore m)) <=? storageId
               then resize (Z.to_nat (storageId + 1)) None (GroupDbStore m)
               else GroupDbStore m in
  mkGroupMgr (NextGroupId m) (NextGroupDbStoreId m) (<[Z.to_nat storageId := Some group]> store)
    (GroupStore m).

Definition FreeGroupDbStoreId (storageId : Z) (m : GroupMgr) : GroupMgr :=
  mkGroupMgr (NextGroupId m) (if storageId <? NextGroupDbStoreId m then storageId else NextGroupDbStoreId m)
    (<[Z.to_nat storageId := None]> (GroupDbStore m)) (GroupStore m).

Definition GetGroupByDbStoreId (m : GroupMgr) (storageId : Z) : option Z :=
  if storageId <? Z.of_nat (length (GroupDbStore m)) then default None (GroupDbStore m !! Z.to_nat storageId)
  else None.

(** The guid of a group, of 32 bits, and whether the server is stopped. *)
Definition GenerateGroupId (m : GroupMgr) : Z * GroupMgr * bool :=
  (NextGroupId m,
   mkGroupMgr (u32 (NextGroupId m + 1)) (NextGroupDbStoreId m) (GroupDbStore m) (GroupStore m),
   0xFFFFFFFE <=? NextGroupId m).

Definition GroupMgr_AddGroup (guid group : Z) (m : GroupMgr) : GroupMgr :=
  mkGroupMgr (NextGroupId m) (NextGroupDbStoreId m) (GroupDbStore m) (<[guid := group]> (GroupStore m)).
Definition GroupMgr_RemoveGroup (guid : Z) (m : GroupMgr) : GroupMgr :=
  mkGroupMgr (NextGroupId m) (NextGroupDbStoreId m) (GroupDbStore m) (delete guid (GroupStore m)).

(** ** Reading a [Group] *)

Definition isRaidGroup (g : Group) : bool := has_flag (m_groupType g) GROUPTYPE_RAID.
(** [isBGGroup() || isBFGroup()] *)
Definition in_battle (g : Group) : bool := m_bg g || m_bf g.
Definition isLFGGroup (g : Group) : bool := has_flag (m_groupType g) GROUPTYPE_LFG.
Definition GetMembersCount (g : Group) : Z := Z.of_nat (length (m_memberSlots g)).
Definition IsCreated (g : Group) : bool := 0 <? GetMembersCount g.
Definition IsFull (g : Group) : bool :=
  if isRaidGroup g then MAXRAIDSIZE <=? GetMembersCount g else MAXGROUPSIZE <=? GetMembersCount g.
Definition IsLeader (g : Group) (guid : Z) : bool := m_leaderGuid g =? guid.

(** [_getMemberCSlot] *)
Definition getMemberSlot (l : list MemberSlot) (guid : Z) : option MemberSlot :=
  List.find (fun s => ms_guid s =? guid) l.
Definition IsMember (g : Group) (guid : Z) : bool :=
  match getMemberSlot (m_memberSlots g) guid with Some _ => true | None => false end.
Definition GetMemberGroup (g : Group) (guid : Z) : Z :=
  match getMemberSlot (m_memberSlots g) guid with
  | Some s => ms_group s
  | None => MAX_RAID_SUBGROUPS + 1
  end.
Definition IsAssistant (g : Group) (guid : Z) : bool :=
  match getMemberSlot (m_memberSlots g) guid with
  | Some s => has_flag (ms_flags s) MEMBER_FLAG_ASSISTANT
  | None => false
  end.

(** Change the slot [_getMemberWSlot] finds. *)
Fixpoint on_slot (guid : Z) (f : MemberSlot -> MemberSlot) (l : list MemberSlot) : list MemberSlot :=
  match l with
  | [] => []
  | s :: l => if ms_guid s =? guid then f s :: l else s :: on_slot guid f l
  end.
(** [m_memberSlots.erase(slot)] *)
Fixpoint erase_slot (guid : Z) (l : list MemberSlot) : list MemberSlot :=
  match l with
  | [] => []
  | s :: l => if ms_guid s =? guid then l else s :: erase_slot guid l
  end.

(** ** Sub group counters *)

(** [_initRaidSubGroupsCounter]; an increment past the array is an error. *)
Definition bump (d : Z) (counts : list Z) (sub : Z) : option (list Z) :=
  match counts !! Z.to_nat sub with
  | Some c => if 0 <=? sub then Some (<[Z.to_nat sub := u8 (c + d)]> counts) else None
  | None => None
  end.
Fixpoint count_slots (counts : list Z) (l : list MemberSlot) : option (list Z) :=
  match l with
  | [] => Some counts
  | s :: l => counts ← bump 1 counts (ms_group s); count_slots counts l
  end.
Definition initRaidSubGroupsCounter (g : Group) : option (list Z) :=
  count_slots (replicate (Z.to_nat MAX_RAID_SUBGROUPS) 0) (m_memberSlots g).

(** [SubGroupCounterIncrease] and [SubGroupCounterDecrease] *)
Definition counter_step (d : Z) (sub : Z) (counts : option (list Z)) : option (option (list Z)) :=
  match counts with
  | None => Some None
  | Some c => Some <$> bump d c sub
  end.

(** [AddMember]: the first sub group that is not full; only raids have several. *)
Fixpoint first_free_subgroup (counts : list Z) (sub : Z) : option Z :=
  match counts with
  | [] => None
  | c :: counts => if c <? MAXGROUPSIZE then Some sub else first_free_subgroup counts (sub + 1)
  end.
Definition free_subgroup (g : Group) : option Z :=
  match m_subGroupsCounts g with
  | None => Some 0
  | Some counts => first_free_subgroup counts 0
  end.

Definition HasFreeSlotSubGroup (g : Group) (sub : Z) : bool :=
  match m_subGroupsCounts g with
  | None => false
  | Some counts => match counts !! Z.to_nat sub with Some c => c <? MAXGROUPSIZE | None => false end
  end.

(** Lift a counter update into the computation. *)
Definition check_counter {A} (o : option A) : GS A :=
  match o with Some a => mret a | None => st_throw CounterOutOfBounds end.

(** ** Invitations *)

Definition RemoveInvite (g p : Z) : GS unit :=
  mod_group g (fun x => set_invitees (m_invitees x ∖ {[p]}) x);;
  mod_player p (set_groupInvite None).

Fixpoint clear_invites (l : list Z) : GS unit :=
  match l with
  | [] => mret tt
  | p :: l => mod_player p (set_groupInvite None);; clear_invites l
  end.
Definition RemoveAllInvites (g : Z) : GS unit :=
  x ← deref_group g;
  clear_invites (set_ordered (m_invitees x));;
  mod_group g (set_invitees ∅).

(** The group of a player, or his original one while he is in a battleground. *)
Definition regular_group (p : Player) : GS (option Z) :=
  match GetGroup p with
  | None => mret None
  | Some g => x ← deref_group g; mret (if in_battle x then GetOriginalGroup p else Some g)
  end.

Definition AddInvite (g p : Z) : GS bool :=
  x ← deref_player p;
  match p_groupInvite x with
  | Some _ => mret false
  | None =>
      group ← regular_group x;
      match group with
      | Some _ => mret false
      | None =>
          RemoveInvite g p;;
          mod_group g (fun x => set_invitees ({[p]} ∪ m_invitees x) x);;
          mod_player p (set_groupInvite (Some g));;
          mret true
      end
  end.

Definition AddLeaderInvite (g p : Z) : GS bool :=
  r ← AddInvite g p;
  if r : bool then mod_group g (set_leader p);; mret true else mret false.

(** ** References from players to groups *)

Definition SetGroup (p : Z) (g : option (Z * Z)) : GS unit :=
  mod_player p (fun x => upd_refs g (p_originalGroup x) x).
Definition SetOriginalGroup (p : Z) (g : option (Z * Z)) : GS unit :=
  mod_player p (fun x => upd_refs (p_group x) g x).

(** [SetBattlegroundOrBattlefieldRaid] and [RemoveFromBattlegroundOrBattlefieldRaid] *)
Definition SetBattlegroundRaid (p g subgroup : Z) : GS unit :=
  mod_player p (fun x => upd_refs (Some (g, subgroup)) (p_group x) x).
Definition RemoveFromBattlegroundRaid (p : Z) : GS unit :=
  mod_player p (fun x => upd_refs (p_originalGroup x) None x).

(** The member [p] of [g] loses the reference to it: [SetOriginalGroup(NULL)]
    or [SetGroup(NULL)]; in a battleground he returns to his original group. *)
Definition unlink_member (g : Z) (x : Group) (p : Z) : GS unit :=
  if in_battle x then RemoveFromBattlegroundRaid p
  else
    y ← deref_player p;
    if bool_decide (GetOriginalGroup y = Some g) then SetOriginalGroup p None else SetGroup p None.

(** A group that is destroyed invalidates the references to it. *)
Definition invalidate (g : Z) (p : Player) : Player :=
  let cut r := match r with Some (h, _) => if h =? g then None else r | None => None end in
  upd_refs (cut (p_group p)) (cut (p_originalGroup p)) p.

(** [delete group] *)
Definition delete_group (g : Z) : GS unit := fun w =>
  match groups w !! g with
  | None => Err UseAfterFree
  | Some _ => Ok (tt, set_players (invalidate g <$> players w) (set_groups (delete g (groups w)) w))
  end.

(** [DelinkMember]: the first reference to the group held by [p]. *)
Definition DelinkMember (g p : Z) : GS unit :=
  st_modify (fun w =>
    match players w !! p with
    | None => w
    | Some x =>
        if bool_decide (GetGroup x = Some g)
        then set_players (<[p := upd_refs None (p_originalGroup x) x]> (players w)) w
        else if bool_decide (GetOriginalGroup x = Some g)
        then set_players (<[p := upd_refs (p_group x) None x]> (players w)) w
        else w
    end).

(** [m_memberMgr.getSize()]: the references to the group. *)
Definition refers (g : Z) (x : Player) : nat :=
  (if bool_decide (GetGroup x = Some g) then 1 else 0) +
  (if bool_decide (GetOriginalGroup x = Some g) then 1 else 0).
Definition refs (g : Z) (w : World) : nat :=
  foldr (fun px n => refers g (snd px) + n)%nat 0%nat (map_to_list (players w)).

(** ** Members *)

(** The table [group_member], whose key is the member. *)
Definition db_insert_member (guid storeId sub : Z) : GS unit :=
  st_modify (fun w => match group_member w !! guid with
                      | Some _ => w
                      | None => set_group_member (<[guid := (storeId, sub)]> (group_member w)) w
                      end).
Definition db_delete_member (guid : Z) : GS unit :=
  st_modify (fun w => set_group_member (delete guid (group_member w)) w).
Definition db_update_subgroup (guid sub : Z) : GS unit :=
  st_modify (fun w => set_group_member (alter (fun r => (r.1, sub)) guid (group_member w)) w).
Definition db_delete_group (storeId : Z) : GS unit :=
  st_modify (fun w => set_group_member (filter (fun r => r.2.1 <> storeId) (group_member w)) w).

Definition AddMember (g p : Z) : GS bool :=
  x ← deref_group g;
  match free_subgroup x with
  | None => mret false
  | Some subGroup =>
      counts ← check_counter (counter_step 1 subGroup (m_subGroupsCounts x));
      mod_group g (upd_members (m_memberSlots x ++ [mkSlot p subGroup 0 0]) counts);;
      mod_player p (set_groupInvite None);;
      y ← deref_player p;
      (match p_group y with
       | Some _ => if in_battle x then SetBattlegroundRaid p g subGroup else SetOriginalGroup p (Some (g, subGroup))
       | None => SetGroup p (Some (g, subGroup))
       end);;
      st_when (negb (isRaidGroup x)) (mod_group g (set_icons (replicate (Z.to_nat TARGETICONCOUNT) 0)));;
      st_when (negb (in_battle x)) (db_insert_member p (m_dbStoreId x) subGroup);;
      mret true
  end.

(** The new leader must be in the world. *)
Definition ChangeLeader (g newLeader : Z) : GS unit :=
  x ← deref_group g;
  w ← st_get;
  match getMemberSlot (m_memberSlots x) newLeader, FindPlayer w newLeader with
  | Some _, Some _ =>
      mod_group g (set_leader newLeader);;
      mod_group g (fun x => upd_members
        (on_slot newLeader (fun s => set_ms_flags (Z.land (ms_flags s) (Z.lnot MEMBER_FLAG_ASSISTANT)) s)
           (m_memberSlots x)) (m_subGroupsCounts x) x)
  | _, _ => mret tt
  end.

Fixpoint disband_members (g : Z) (x : Group) (hideDestroy : bool) (l : list MemberSlot) : GS unit :=
  match l with
  | [] => mret tt
  | s :: l =>
      w ← st_get;
      (match FindPlayer w (ms_guid s) with
       | None => mret tt
       | Some _ =>
           unlink_member g x (ms_guid s);;
           st_when (negb hideDestroy) (tell (Destroyed (ms_guid s)))
       end);;
      disband_members g x hideDestroy l
  end.

Definition Disband (g : Z) (hideDestroy : bool) : GS unit :=
  x ← deref_group g;
  disband_members g x hideDestroy (m_memberSlots x);;
  mod_group g (fun x => upd_members [] (m_subGroupsCounts x) x);;
  RemoveAllInvites g;;
  st_when (negb (in_battle x))
    (db_delete_group (m_dbStoreId x);;
     st_modify (fun w => set_mgr (FreeGroupDbStoreId (m_dbStoreId x) (mgr w)) w));;
  st_modify (fun w => set_mgr (GroupMgr_RemoveGroup (m_guid x) (mgr w)) w);;
  delete_group g.

(** The first member in the world, in the order of joining. *)
Definition first_in_world (w : World) (l : list MemberSlot) : option MemberSlot :=
  List.find (fun s => match FindPlayer w (ms_guid s) with Some _ => true | None => false end) l.

Inductive RemoveMethod :=
| GROUP_REMOVEMETHOD_DEFAULT | GROUP_REMOVEMETHOD_KICK | GROUP_REMOVEMETHOD_LEAVE
| GROUP_REMOVEMETHOD_KICK_LFG.
Definition is_kick (m : RemoveMethod) : bool :=
  match m with GROUP_REMOVEMETHOD_KICK => true | _ => false end.
Definition is_any_kick (m : RemoveMethod) : bool :=
  match m with GROUP_REMOVEMETHOD_KICK | GROUP_REMOVEMETHOD_KICK_LFG => true | _ => false end.

(** The member leaves the roster: the references to the group, the table and
    the slot. *)
Definition forget_member (g guid : Z) (x : Group) (method : RemoveMethod) : GS unit :=
  w ← st_get;
  (match FindPlayer w guid with
   | None => mret tt
   | Some _ => unlink_member g x guid;; st_when (is_any_kick method) (tell (Uninvited guid))
   end);;
  st_when (negb (in_battle x)) (db_delete_member guid;; DelinkMember g guid);;
  match getMemberSlot (m_memberSlots x) guid with
  | None => mret tt
  | Some s =>
      counts ← check_counter (counter_step (-1) (ms_group s) (m_subGroupsCounts x));
      mod_group g (upd_members (erase_slot guid (m_memberSlots x)) counts)
  end.

Section RemoveMember.
(** What the dungeon finder says of its group with one member left: no
    dungeon, nobody there, or somewhere else. *)
Context (lfg_left_dungeon : World -> Z -> bool).

Definition RemoveMember (g guid : Z) (method : RemoveMethod) : GS bool :=
  x ← deref_group g;
  if isLFGGroup x && is_kick method then mret (negb (GetMembersCount x =? 0))
  else if (if in_battle x || isLFGGroup x then 1 else 2) <? GetMembersCount x then
    forget_member g guid x method;;
    x ← deref_group g;
    w ← st_get;
    st_when (m_leaderGuid x =? guid)
      (match first_in_world w (m_memberSlots x) with
       | Some s => ChangeLeader g (ms_guid s)
       | None => mret tt
       end);;
    w ← st_get;
    if isLFGGroup x && (GetMembersCount x =? 1) && lfg_left_dungeon w g then Disband g false;; mret false
    else
      st_when (Nat.ltb (refs g w) (if isLFGGroup x || m_bg x then 1 else 2)) (Disband g false);;
      mret true
  else Disband g false;; mret false.

(** [Player::RemoveFromGroup] *)
Definition RemoveFromGroup (g : option Z) (guid : Z) (method : RemoveMethod) : GS unit :=
  match g with
  | None => mret tt
  | Some g => RemoveMember g guid method;; mret tt
  end.
End RemoveMember.

(** [Player::UninviteFromGroup] *)
Definition UninviteFromGroup (p : Z) : GS unit :=
  x ← deref_player p;
  match p_groupInvite x with
  | None => mret tt
  | Some g =>
      RemoveInvite g p;;
      y ← deref_group g;
      if GetMembersCount y <=? 1 then
        if IsCreated y then Disband g true
        else RemoveAllInvites g;; delete_group g
      else mret tt
  end.

(** [Create]; the battleground has been set before it. *)
Definition Create (g leader : Z) : GS bool :=
  x ← deref_group g;
  w ← st_get;
  let '(lowguid, m, _) := GenerateGroupId (mgr w) in
  st_modify (set_mgr m);;
  let type := if in_battle x then GROUPTYPE_BGRAID else m_groupType x in
  counts ← check_counter (if has_flag type GROUPTYPE_RAID
                          then Some <$> initRaidSubGroupsCounter x else Some (m_subGroupsCounts x));
  mod_group g (fun x => set_leader leader (set_ids lowguid (m_dbStoreId x) (upd_type type counts
    (upd_loot (if isLFGGroup x then m_lootMethod x else GROUP_LOOT) 2 leader x))));;
  if in_battle x then AddMember g leader
  else
    w ← st_get;
    let '(storeId, m, _) := GenerateNewGroupDbStoreId (mgr w) in
    st_modify (set_mgr (RegisterGroupDbStoreId storeId g m));;
    mod_group g (fun x => set_ids (m_guid x) storeId x);;
    r ← AddMember g leader;
    if r : bool then mret true else st_throw AssertionFailed.

(** ** Raids *)

Definition ConvertToRaid (g : Z) : GS unit :=
  x ← deref_group g;
  counts ← check_counter (initRaidSubGroupsCounter x);
  mod_group g (upd_type (Z.lor (m_groupType x) GROUPTYPE_RAID) (Some counts)).

Definition ConvertToGroup (g : Z) : GS unit :=
  x ← deref_group g;
  if 5 <? GetMembersCount x then mret tt
  else mod_group g (upd_type GROUPTYPE_NORMAL None).

Definition ConvertToLFG (g : Z) : GS unit :=
  mod_group g (fun x =>
    upd_loot NEED_BEFORE_GREED (m_lootThreshold x) (m_looterGuid x)
      (upd_type (Z.lor (Z.lor (m_groupType x) GROUPTYPE_LFG) GROUPTYPE_UNK1) (m_subGroupsCounts x) x)).

Definition ChangeFlagEveryoneAssistant (g : Z) (apply : bool) : GS unit :=
  mod_group g (fun x =>
    upd_type (if apply then Z.lor (m_groupType x) GROUPTYPE_EVERYONE_IS_ASSISTANT
              else Z.land (m_groupType x) (Z.lnot GROUPTYPE_EVERYONE_IS_ASSISTANT)) (m_subGroupsCounts x) x).

Definition ChangeMembersGroup (g guid group : Z) : GS unit :=
  x ← deref_group g;
  if negb (isRaidGroup x) then mret tt
  else match getMemberSlot (m_memberSlots x) guid with
  | None => mret tt
  | Some s =>
      let prevSubGroup := ms_group s in
      if prevSubGroup =? group then mret tt
      else
        counts ← check_counter (counter_step 1 group (m_subGroupsCounts x));
        counts ← check_counter (counter_step (-1) prevSubGroup counts);
        mod_group g (upd_members (on_slot guid (set_ms_group group) (m_memberSlots x)) counts);;
        st_when (negb (in_battle x)) (db_update_subgroup guid group);;
        w ← st_get;
        match FindPlayer w guid with
        | None => mret tt
        | Some p =>
            if bool_decide (GetGroup p = Some g) then SetGroup guid (Some (g, group))
            else SetOriginalGroup guid ((fun r => (r.1, group)) <$> p_originalGroup p)
        end
  end.

Definition RemoveUniqueGroupMemberFlag (g flag : Z) : GS unit :=
  mod_group g (fun x => upd_members
    (map (fun s => if has_flag (ms_flags s) flag
                   then set_ms_flags (Z.land (ms_flags s) (Z.lnot flag)) s else s) (m_memberSlots x))
    (m_subGroupsCounts x) x).

Definition ToggleGroupMemberFlag (flag : Z) (apply : bool) (s : MemberSlot) : MemberSlot :=
  set_ms_flags (if apply then Z.lor (ms_flags s) flag else Z.land (ms_flags s) (Z.lnot flag)) s.

Definition SetGroupMemberFlag (g guid : Z) (apply : bool) (flag : Z) : GS unit :=
  x ← deref_group g;
  if negb (isRaidGroup x) then mret tt
  else match getMemberSlot (m_memberSlots x) guid with
  | None => mret tt
  | Some _ =>
      let toggle := mod_group g (fun x => upd_members
        (on_slot guid (ToggleGroupMemberFlag flag apply) (m_memberSlots x)) (m_subGroupsCounts x) x) in
      if (flag =? MEMBER_FLAG_MAINASSIST) || (flag =? MEMBER_FLAG_MAINTANK)
      then RemoveUniqueGroupMemberFlag g flag;; toggle
      else if flag =? MEMBER_FLAG_ASSISTANT then toggle
      else mret tt
  end.

Definition SetMemberRole (g guid role : Z) : GS unit :=
  mod_group g (fun x => upd_members (on_slot guid (set_ms_roles (u8 role)) (m_memberSlots x))
                          (m_subGroupsCounts x) x).

Fixpoint clear_icons (target : Z) (l : list Z) : list Z :=
  match l with
  | [] => []
  | i :: l => (if i =? target then 0 else i) :: clear_icons target l
  end.
Definition SetTargetIcon (g id target : Z) : GS unit :=
  if TARGETICONCOUNT <=? id then mret tt
  else mod_group g (fun x =>
    set_icons (<[Z.to_nat id := target]>
      (if target =? 0 then m_targetIcons x else clear_icons target (m_targetIcons x))) x).

(** ** The requests of clients (GroupHandler.cpp) *)

Section Handlers.
Context (CONFIG_ALLOW_GM_GROUP CONFIG_ALLOW_TWO_SIDE_INTERACTION_GROUP : bool)
        (lfg_left_dungeon : World -> Z -> bool).
(** [Player::CanUninviteFromGroup] in a group of the dungeon finder. *)
Context (lfg_can_uninvite : World -> Z -> PartyResult).

Definition party_result (me : Z) (r : PartyResult) : GS unit := tell (PartyResultTo me r).

(** The group of a player as an invitation sees it. *)
Definition invite_group (p : Player) : GS (option Z) :=
  match GetGroup p with
  | None => mret None
  | Some g => x ← deref_group g; mret (if m_bg x then GetOriginalGroup p else Some g)
  end.

(** The checks on the invited player before any group is looked at. *)
Definition invite_refused (p q : Player) (me : Z) : option PartyResult :=
  if negb CONFIG_ALLOW_GM_GROUP && negb (IsGameMaster p) && IsGameMaster q
  then Some ERR_BAD_PLAYER_NAME_S
  else if negb (IsGameMaster p) && negb CONFIG_ALLOW_TWO_SIDE_INTERACTION_GROUP
          && negb (GetTeam p =? GetTeam q)
  then Some ERR_PLAYER_WRONG_FACTION
  else if negb (GetInstanceId p =? 0) && negb (GetInstanceId q =? 0)
          && negb (GetInstanceId p =? GetInstanceId q) && (GetMapId p =? GetMapId q)
  then Some ERR_TARGET_NOT_IN_INSTANCE_S
  else if negb (GetInstanceId q =? 0) && negb (GetDungeonDifficulty q =? GetDungeonDifficulty p)
  then Some ERR_IGNORING_YOU_S
  else if bool_decide (me ∈ ignores q) then Some ERR_IGNORING_YOU_S
  else None.

(** [target] is the guid of the character of that name. *)
Definition HandleGroupInvite (me : Z) (target : option Z) : GS unit :=
  p ← deref_player me;
  w ← st_get;
  match target ≫= (fun t => q ← FindPlayer w t; Some (t, q)) with
  | None => party_result me ERR_BAD_PLAYER_NAME_S
  | Some (t, q) =>
      match invite_refused p q me with
      | Some r => party_result me r
      | None =>
          group ← invite_group p;
          group2 ← invite_group q;
          if bool_decide (is_Some group2) || bool_decide (is_Some (p_groupInvite q)) then
            party_result me ERR_ALREADY_IN_GROUP_S;;
            st_when (bool_decide (is_Some group2)) (tell (InviteNotification t me true))
          else
            match group with
            | Some g =>
                x ← deref_group g;
                if negb (IsLeader x me) && negb (IsAssistant x me) then party_result me ERR_NOT_LEADER
                else if IsFull x then party_result me ERR_GROUP_FULL
                else
                  r ← AddInvite g t;
                  if r : bool then
                    tell (InviteNotification t me false);; party_result me ERR_PARTY_RESULT_OK
                  else mret tt
            | None =>
                w ← st_get;
                let g := next_address w in
                st_modify (fun w => set_next_address (g + 1) (set_groups (<[g := new_Group]> (groups w)) w));;
                r ← AddLeaderInvite g me;
                if negb r then delete_group g
                else
                  r ← AddInvite g t;
                  if negb r then delete_group g
                  else tell (InviteNotification t me false);; party_result me ERR_PARTY_RESULT_OK
            end
      end
  end.

Definition HandleGroupInviteResponse (me : Z) (accept : bool) : GS unit :=
  p ← deref_player me;
  match p_groupInvite p with
  | None => mret tt
  | Some g =>
      if accept then
        RemoveInvite g me;;
        x ← deref_group g;
        if IsLeader x me then mret tt
        else if IsFull x then party_result me ERR_GROUP_FULL
        else
          w ← st_get;
          match IsCreated x, FindPlayer w (m_leaderGuid x) with
          | false, None => RemoveAllInvites g
          | created, _ =>
              st_when (negb created)
                (RemoveInvite g (m_leaderGuid x);;
                 Create g (m_leaderGuid x);;
                 x ← deref_group g;
                 st_modify (fun w => set_mgr (GroupMgr_AddGroup (m_guid x) g (mgr w)) w));;
              AddMember g me;;
              mret tt
          end
      else
        x ← deref_group g;
        w ← st_get;
        UninviteFromGroup me;;
        match FindPlayer w (m_leaderGuid x) with
        | None => mret tt
        | Some _ => tell (Declined (m_leaderGuid x) me)
        end
  end.

Definition CanUninviteFromGroup (w : World) (me : Z) (p : Player) (x : Group) : PartyResult :=
  if isLFGGroup x then lfg_can_uninvite w me
  else if negb (IsLeader x me) && negb (IsAssistant x me) then ERR_NOT_LEADER
  else if InBattleground p then ERR_INVITE_RESTRICTED
  else ERR_PARTY_RESULT_OK.

Definition HandleGroupUninviteGuid (me guid : Z) : GS unit :=
  if guid =? me then mret tt
  else
    p ← deref_player me;
    w ← st_get;
    match GetGroup p with
    | None => party_result me ERR_NOT_IN_GROUP
    | Some g =>
        x ← deref_group g;
        match CanUninviteFromGroup w me p x with
        | ERR_PARTY_RESULT_OK =>
            if IsLeader x guid then party_result me ERR_NOT_LEADER
            else if IsMember x guid then
              RemoveFromGroup lfg_left_dungeon (Some g) guid GROUP_REMOVEMETHOD_KICK
            else if bool_decide (guid ∈ m_invitees x) then UninviteFromGroup guid
            else party_result me ERR_TARGET_NOT_IN_GROUP_S
        | r => party_result me r
        end
    end.

Definition HandleGroupSetLeader (me guid : Z) : GS unit :=
  p ← deref_player me;
  w ← st_get;
  match GetGroup p, FindPlayer w guid with
  | Some g, Some q =>
      x ← deref_group g;
      if negb (IsLeader x me) || negb (bool_decide (GetGroup q = Some g)) then mret tt
      else ChangeLeader g guid
  | _, _ => mret tt
  end.

Definition HandleGroupSetRoles (me guid role : Z) : GS unit :=
  p ← deref_player me;
  w ← st_get;
  match GetGroup p, FindPlayer w guid with
  | Some g, Some q =>
      if bool_decide (GetGroup q = Some g) then SetMemberRole g guid role else mret tt
  | _, _ => mret tt
  end.

Definition HandleGroupDisband (me : Z) : GS unit :=
  p ← deref_player me;
  match GetGroup p with
  | None => mret tt
  | Some g =>
      if InBattleground p then party_result me ERR_INVITE_RESTRICTED
      else
        party_result me ERR_PARTY_RESULT_OK;;
        RemoveFromGroup lfg_left_dungeon (Some g) me GROUP_REMOVEMETHOD_LEAVE
  end.

(** A request on one's group that needs the right [allowed]. *)
Definition with_group (me : Z) (allowed : Player -> Group -> bool) (m : Z -> GS unit) : GS unit :=
  p ← deref_player me;
  match GetGroup p with
  | None => mret tt
  | Some g => x ← deref_group g; if allowed p x then m g else mret tt
  end.

Definition HandleLootMethod (me : Z) (method : LootMethod) (threshold looter : Z) : GS unit :=
  with_group me (fun _ x => IsLeader x me) (fun g => mod_group g (upd_loot method threshold looter)).

Definition HandleGroupRaidConvert (me : Z) (toRaid : bool) : GS unit :=
  with_group me (fun p x => negb (InBattleground p) && IsLeader x me && negb (GetMembersCount x <? 2))
    (fun g =>
       party_result me ERR_PARTY_RESULT_OK;;
       if toRaid then ConvertToRaid g else ConvertToGroup g).

Definition officer (me : Z) (x : Group) : bool := IsLeader x me || IsAssistant x me.

(** [guid] is that of the character of the given name, 0 if there is none. *)
Definition HandleGroupChangeSubGroup (me guid groupNr : Z) : GS unit :=
  with_group me
    (fun _ x => (groupNr <? MAX_RAID_SUBGROUPS) && officer me x && HasFreeSlotSubGroup x groupNr)
    (fun g => ChangeMembersGroup g guid groupNr).

Definition HandleGroupAssistantLeader (me guid : Z) (apply : bool) : GS unit :=
  with_group me (fun _ x => IsLeader x me)
    (fun g => SetGroupMemberFlag g guid apply MEMBER_FLAG_ASSISTANT).

Definition HandleGroupEveryoneIsAssistant (me : Z) (apply : bool) : GS unit :=
  with_group me (fun _ x => IsLeader x me) (fun g => ChangeFlagEveryoneAssistant g apply).

Definition GROUP_ASSIGN_MAINTANK : Z := 0.
Definition GROUP_ASSIGN_MAINASSIST : Z := 1.

Definition HandlePartyAssignment (me assignment guid : Z) (apply : bool) : GS unit :=
  with_group me (fun _ x => officer me x)
    (fun g =>
       if assignment =? GROUP_ASSIGN_MAINASSIST then
         RemoveUniqueGroupMemberFlag g MEMBER_FLAG_MAINASSIST;;
         SetGroupMemberFlag g guid apply MEMBER_FLAG_MAINASSIST
       else if assignment =? GROUP_ASSIGN_MAINTANK then
         RemoveUniqueGroupMemberFlag g MEMBER_FLAG_MAINTANK;;
         SetGroupMemberFlag g guid apply MEMBER_FLAG_MAINTANK
       else mret tt).

(** ** Logging in and out *)

(** A player object is made, and [_LoadGroup] links it to its group. *)
Definition LoadGroup (p : Z) : GS unit :=
  w ← st_get;
  match group_member w !! p with
  | None => mret tt
  | Some (storeId, _) =>
      match GetGroupByDbStoreId (mgr w) storeId with
      | None => mret tt
      | Some g => x ← deref_group g; SetGroup p (Some (g, GetMemberGroup x p))
      end
  end.
Definition Login (p : Z) (x : Player) : GS unit :=
  st_modify (fun w => set_players (<[p := set_inWorld false (set_groupInvite None (upd_refs None None x))]>
                                     (players w)) w);;
  LoadGroup p.

(** [WorldSession::LogoutPlayer]: [connected] says that the session still has
    its socket. *)
Definition LogoutPlayer (p : Z) (connected : bool) : GS unit :=
  UninviteFromGroup p;;
  x ← deref_player p;
  (match GetGroup x with
   | None => mret tt
   | Some g =>
       y ← deref_group g;
       st_when (negb (isRaidGroup y) && connected)
         (RemoveFromGroup lfg_left_dungeon (Some g) p GROUP_REMOVEMETHOD_DEFAULT)
   end);;
  st_modify (fun w => set_players (delete p (players w)) w).

(** Entering the world, and leaving it while zoning. *)
Definition SetInWorld (p : Z) (b : bool) : GS unit := mod_player p (set_inWorld b).
End Handlers.
