(* ===== verification/GroupSlots.v ===== *)
(** * The slots of one group and its counters (Groups/Group.cpp)

    When a [Group] is well formed by itself, and that every change of its
    member list keeps it so: the counters of a raid are the sizes of its sub
    groups, no sub group has more than five members, and a raid that is not
    full has a place. *)
From S2P Require Import Prelude.
From S2P Require Import Lists.
From S2P Require Import Group.
Local Open Scope Z_scope.

(** ** Counting the members of a sub group *)

Definition subgroup_count (l : list MemberSlot) (sub : Z) : Z :=
  Z.of_nat (length (List.filter (fun s => ms_group s =? sub) l)).

Definition subgroups : list Z := [0; 1; 2; 3; 4; 5; 6; 7].
Definition counts_of (l : list MemberSlot) : list Z := map (subgroup_count l) subgroups.

Definition in_range (s : MemberSlot) : Prop := 0 <= ms_group s < MAX_RAID_SUBGROUPS.

(** A member and his sub group. *)
Definition roster (l : list MemberSlot) : list (Z * Z) := map (fun s => (ms_guid s, ms_group s)) l.

Lemma subgroup_count_nonneg l sub : 0 <= subgroup_count l sub.
Proof. unfold subgroup_count. lia. Qed.

Lemma subgroup_count_app l k sub :
  subgroup_count (l ++ k) sub = subgroup_count l sub + subgroup_count k sub.
Proof. unfold subgroup_count. rewrite List.filter_app, length_app. lia. Qed.

Lemma subgroup_count_cons s l sub :
  subgroup_count (s :: l) sub = Z.b2z (ms_group s =? sub) + subgroup_count l sub.
Proof. unfold subgroup_count. cbn. destruct (_ =? _); cbn; lia. Qed.

Lemma subgroup_count_le l sub : subgroup_count l sub <= Z.of_nat (length l).
Proof. unfold subgroup_count. pose proof (List.filter_length_le (fun s => ms_group s =? sub) l). lia. Qed.

Lemma lookup_counts_of l sub :
  0 <= sub < MAX_RAID_SUBGROUPS -> counts_of l !! Z.to_nat sub = Some (subgroup_count l sub).
Proof.
  intros H. change (0 <= sub < 8) in H. unfold counts_of, subgroups.
  assert (sub = 0 \/ sub = 1 \/ sub = 2 \/ sub = 3 \/ sub = 4 \/ sub = 5 \/ sub = 6 \/ sub = 7) as Hs by lia.
  destruct Hs as [->|[->|[->|[->|[->|[->|[->| ->]]]]]]]; done.
Qed.

Lemma length_counts_of l : length (counts_of l) = 8%nat.
Proof. done. Qed.

(** Two lists of eight counters are equal if they agree everywhere. *)
Lemma counts_ext (c : list Z) l :
  length c = 8%nat ->
  (forall sub, 0 <= sub < MAX_RAID_SUBGROUPS -> c !! Z.to_nat sub = Some (subgroup_count l sub)) ->
  c = counts_of l.
Proof.
  intros Hlen H. apply list_eq. intros i. destruct (lt_dec i 8) as [Hi|Hi].
  - specialize (H (Z.of_nat i)). rewrite Nat2Z.id in H.
    change MAX_RAID_SUBGROUPS with 8 in H. rewrite H by lia.
    rewrite <- (Nat2Z.id i) at 2. rewrite lookup_counts_of; [done|].
    change MAX_RAID_SUBGROUPS with 8. lia.
  - rewrite !lookup_ge_None_2; [done|rewrite length_counts_of; lia|lia].
Qed.

(** One counter changes by [d] when the member list does. *)
Lemma bump_counts d l l' sub :
  0 <= sub < MAX_RAID_SUBGROUPS ->
  (forall x, subgroup_count l' x = subgroup_count l x + (if x =? sub then d else 0)) ->
  subgroup_count l' sub < 256 ->
  bump d (counts_of l) sub = Some (counts_of l').
Proof.
  intros Hs H Hlt. unfold bump. rewrite (lookup_counts_of l sub Hs).
  destruct (Z.leb_spec 0 sub); [|lia]. f_equal. apply counts_ext.
  - by rewrite length_insert.
  - intros x Hx. pose proof (H sub) as Hsub. rewrite Z.eqb_refl in Hsub.
    destruct (Z.eq_dec x sub) as [->|Hne].
    + rewrite list_lookup_insert_eq; [|rewrite length_counts_of; change MAX_RAID_SUBGROUPS with 8 in Hs; lia].
      rewrite <- Hsub. rewrite u8_small; [done|]. unfold is_byte.
      pose proof (subgroup_count_nonneg l' sub). lia.
    + rewrite list_lookup_insert_ne by lia. rewrite lookup_counts_of by done.
      rewrite H. destruct (Z.eqb_spec x sub); [lia|]. f_equal. lia.
Qed.

Lemma count_slots_spec l k :
  Forall in_range k -> (forall sub, subgroup_count (l ++ k) sub < 256) ->
  count_slots (counts_of l) k = Some (counts_of (l ++ k)).
Proof.
  revert l. induction k as [|s k IH]; intros l Hr Hlt; cbn [count_slots]; [by rewrite app_nil_r|].
  apply Forall_cons in Hr as [Hs Hr].
  assert (Happ : l ++ s :: k = (l ++ [s]) ++ k) by (by rewrite <- app_assoc).
  rewrite (bump_counts 1 l (l ++ [s]) (ms_group s)).
  - cbn [mbind option_bind]. rewrite Happ. apply IH; [done|]. intros sub. rewrite <- Happ. apply Hlt.
  - done.
  - intros x. rewrite subgroup_count_app, subgroup_count_cons, (Z.eqb_sym x).
    change (subgroup_count [] x) with 0. destruct (ms_group s =? x); cbn; lia.
  - specialize (Hlt (ms_group s)). rewrite Happ, subgroup_count_app in Hlt.
    pose proof (subgroup_count_nonneg k (ms_group s)). lia.
Qed.

(** ** Lookup in the member list *)

Lemma getMemberSlot_Some l guid s :
  getMemberSlot l guid = Some s -> s ∈ l /\ ms_guid s = guid.
Proof. intros [Hin Hg%Z.eqb_eq]%List.find_some. split; [by apply list_elem_of_In|done]. Qed.

Lemma getMemberSlot_None l guid s : getMemberSlot l guid = None -> s ∈ l -> ms_guid s <> guid.
Proof. intros H Hin%list_elem_of_In. pose proof (List.find_none _ _ H s Hin) as Hn. by apply Z.eqb_neq. Qed.

Lemma getMemberSlot_nodup l s :
  NoDup (map ms_guid l) -> s ∈ l -> getMemberSlot l (ms_guid s) = Some s.
Proof.
  induction l as [|x l IH]; intros Hnd Hin; [by apply elem_of_nil in Hin|]. cbn in Hnd |- *.
  apply NoDup_cons in Hnd as [Hx Hnd].
  apply elem_of_cons in Hin as [->|Hin]; [by rewrite Z.eqb_refl|].
  destruct (Z.eqb_spec (ms_guid x) (ms_guid s)) as [E|]; [|by apply IH].
  exfalso. apply Hx. rewrite E. by apply list_elem_of_In, in_map, list_elem_of_In.
Qed.

Lemma elem_of_roster l p sub :
  (p, sub) ∈ roster l <-> exists s, s ∈ l /\ ms_guid s = p /\ ms_group s = sub.
Proof.
  unfold roster. rewrite list_elem_of_In, in_map_iff. split.
  - intros (s & [= <- <-] & Hin). exists s. by rewrite list_elem_of_In.
  - intros (s & Hin & <- & <-). exists s. by rewrite <- list_elem_of_In.
Qed.

Lemma getMemberSlot_roster l p sub :
  NoDup (map ms_guid l) ->
  (p, sub) ∈ roster l <-> exists s, getMemberSlot l p = Some s /\ ms_group s = sub.
Proof.
  intros Hnd. rewrite elem_of_roster. split.
  - intros (s & Hin & <- & <-). exists s. by rewrite getMemberSlot_nodup.
  - intros (s & Hg & <-). apply getMemberSlot_Some in Hg as [Hin <-]. by exists s.
Qed.

Lemma roster_guids l : map fst (roster l) = map ms_guid l.
Proof. unfold roster. by rewrite map_map. Qed.

(** ** Changing the member list *)

(** The effect of a change of one slot or of its removal, where guids are
    unique. *)
Lemma slot_split l guid s :
  getMemberSlot l guid = Some s ->
  exists l1 l2, l = l1 ++ s :: l2 /\ ms_guid s = guid /\ (forall x, x ∈ l1 -> ms_guid x <> guid).
Proof.
  induction l as [|x l IH]; [done|]. cbn. destruct (Z.eqb_spec (ms_guid x) guid) as [He|Hne].
  - intros [= ->]. exists [], l. split_and!; [done|done|]. intros y Hy. by apply elem_of_nil in Hy.
  - intros (l1 & l2 & -> & Hg & H1)%IH. exists (x :: l1), l2. split_and!; [done|done|].
    intros y [->|Hy]%elem_of_cons; [done|by apply H1].
Qed.

Lemma on_slot_split l1 s l2 guid f :
  ms_guid s = guid -> (forall x, x ∈ l1 -> ms_guid x <> guid) ->
  on_slot guid f (l1 ++ s :: l2) = l1 ++ f s :: l2.
Proof.
  intros Hg. induction l1 as [|x l1 IH]; intros H1; cbn.
  - by rewrite Hg, Z.eqb_refl.
  - destruct (Z.eqb_spec (ms_guid x) guid) as [E|]; [exfalso; apply (H1 x); [by left|done]|].
    rewrite IH; [done|]. intros y Hy. apply H1. by right.
Qed.

Lemma erase_slot_split l1 s l2 guid :
  ms_guid s = guid -> (forall x, x ∈ l1 -> ms_guid x <> guid) ->
  erase_slot guid (l1 ++ s :: l2) = l1 ++ l2.
Proof.
  intros Hg. induction l1 as [|x l1 IH]; intros H1; cbn.
  - by rewrite Hg, Z.eqb_refl.
  - destruct (Z.eqb_spec (ms_guid x) guid) as [E|]; [exfalso; apply (H1 x); [by left|done]|].
    rewrite IH; [done|]. intros y Hy. apply H1. by right.
Qed.

Lemma on_slot_absent l guid f : getMemberSlot l guid = None -> on_slot guid f l = l.
Proof.
  induction l as [|x l IH]; [done|]. cbn. destruct (ms_guid x =? guid); [done|]. intros H. by rewrite IH.
Qed.

Lemma map_guid_on_slot l guid f :
  (forall s, ms_guid (f s) = ms_guid s) -> map ms_guid (on_slot guid f l) = map ms_guid l.
Proof.
  intros Hf. induction l as [|x l IH]; [done|]. cbn.
  destruct (ms_guid x =? guid); cbn; [by rewrite Hf|by rewrite IH].
Qed.

(** A change that keeps guid and sub group keeps the roster. *)
Lemma roster_on_slot l guid f :
  (forall s, ms_guid (f s) = ms_guid s /\ ms_group (f s) = ms_group s) ->
  roster (on_slot guid f l) = roster l.
Proof.
  intros Hf. unfold roster. induction l as [|x l IH]; [done|]. cbn.
  destruct (ms_guid x =? guid); cbn; [|by rewrite IH].
  destruct (Hf x) as [-> ->]. done.
Qed.

Lemma roster_map l f :
  (forall s, ms_guid (f s) = ms_guid s /\ ms_group (f s) = ms_group s) -> roster (map f l) = roster l.
Proof.
  intros Hf. unfold roster. rewrite map_map. apply map_ext. intros s. by destruct (Hf s) as [-> ->].
Qed.

(** What depends on the roster only. *)
Lemma subgroup_count_roster l l' sub :
  roster l' = roster l -> subgroup_count l' sub = subgroup_count l sub.
Proof.
  assert (H : forall l, subgroup_count l sub
              = Z.of_nat (length (List.filter (fun r => r.2 =? sub) (roster l)))).
  { clear. intros l. unfold subgroup_count, roster. f_equal. induction l as [|x l IH]; [done|]. cbn.
    destruct (ms_group x =? sub); cbn; [by rewrite IH|apply IH]. }
  intros Hr. by rewrite !H, Hr.
Qed.

Lemma length_roster l l' : roster l' = roster l -> length l' = length l.
Proof.
  intros H. assert (E : length (roster l') = length (roster l)) by (by rewrite H).
  unfold roster in E. by rewrite !length_map in E.
Qed.

(** ** A well-formed group *)

Record group_ok (x : Group) : Prop := {
  go_regular : in_battle x = false /\ isLFGGroup x = false;
  go_nodup : NoDup (map ms_guid (m_memberSlots x));
  go_range : Forall in_range (m_memberSlots x);
  go_counts : m_subGroupsCounts x = if isRaidGroup x then Some (counts_of (m_memberSlots x)) else None;
  go_five : forall sub, subgroup_count (m_memberSlots x) sub <= MAXGROUPSIZE;
  go_small : isRaidGroup x = false -> GetMembersCount x <= MAXGROUPSIZE
}.

Lemma group_ok_new : group_ok new_Group.
Proof.
  split; cbn; [done|constructor|constructor|done| |done].
  intros sub. unfold subgroup_count. cbn. by compute.
Qed.

Lemma forall_in_app_cons {A} (P : A -> Prop) l1 s l2 : Forall P (l1 ++ s :: l2) <-> P s /\ Forall P (l1 ++ l2).
Proof. rewrite !Forall_app, Forall_cons. tauto. Qed.

(** *** Places *)

Lemma first_free_subgroup_Some counts sub n :
  first_free_subgroup counts sub = Some n ->
  exists i c, n = sub + Z.of_nat i /\ counts !! i = Some c /\ c < MAXGROUPSIZE /\
    (forall j d, (j < i)%nat -> counts !! j = Some d -> MAXGROUPSIZE <= d).
Proof.
  revert sub. induction counts as [|c counts IH]; intros sub; cbn [first_free_subgroup]; [done|].
  destruct (Z.ltb_spec c MAXGROUPSIZE) as [Hlt|Hge].
  - intros [= <-]. exists 0%nat, c. split_and!; [lia|done|done|lia].
  - intros (i & d & -> & Hi & Hd & Hmin)%IH. exists (S i), d. split_and!; [lia|done|done|].
    intros [|j] e Hj; cbn; [intros [= <-]; lia|]. intros He. apply (Hmin j e); [lia|done].
Qed.

Lemma first_free_subgroup_None counts sub :
  first_free_subgroup counts sub = None -> Forall (fun c => MAXGROUPSIZE <= c) counts.
Proof.
  revert sub. induction counts as [|c counts IH]; intros sub; cbn [first_free_subgroup]; [constructor|].
  destruct (Z.ltb_spec c MAXGROUPSIZE) as [Hlt|Hge]; [done|]. intros H%IH. by constructor.
Qed.

(** Everybody is in one of the eight sub groups. *)
Lemma counts_sum l :
  Forall in_range l -> Z.of_nat (length l) = foldr Z.add 0 (counts_of l).
Proof.
  induction 1 as [|s l Hs Hl IH]; [done|].
  cbn [length]. rewrite Nat2Z.inj_succ, IH. unfold counts_of, subgroups. cbn [map foldr].
  rewrite !(subgroup_count_cons s l). unfold in_range in Hs. change MAX_RAID_SUBGROUPS with 8 in Hs.
  assert (H : ms_group s = 0 \/ ms_group s = 1 \/ ms_group s = 2 \/ ms_group s = 3 \/
              ms_group s = 4 \/ ms_group s = 5 \/ ms_group s = 6 \/ ms_group s = 7) by lia.
  destruct H as [->|[->|[->|[->|[->|[->|[->| ->]]]]]]]; cbn [Z.b2z Z.eqb Pos.eqb]; lia.
Qed.

(** A group that is not full has a place for one more. *)
Lemma not_full_has_place x :
  group_ok x -> IsFull x = false ->
  exists sub, free_subgroup x = Some sub /\ 0 <= sub < MAX_RAID_SUBGROUPS /\
    subgroup_count (m_memberSlots x) sub < MAXGROUPSIZE /\
    (isRaidGroup x = true -> forall j, 0 <= j < sub -> subgroup_count (m_memberSlots x) j = MAXGROUPSIZE).
Proof.
  intros [_ _ Hr Hc H5 Hsm] Hf. unfold IsFull, GetMembersCount in *. unfold free_subgroup. rewrite Hc.
  destruct (isRaidGroup x).
  - apply Z.leb_gt in Hf.
    destruct (first_free_subgroup (counts_of (m_memberSlots x)) 0) as [sub|] eqn:Hff.
    + apply first_free_subgroup_Some in Hff as (i & c & -> & Hi & Hlt & Hmin).
      pose proof (lookup_lt_Some _ _ _ Hi) as Hi8. rewrite length_counts_of in Hi8.
      assert (Hrange : 0 <= 0 + Z.of_nat i < MAX_RAID_SUBGROUPS) by (change MAX_RAID_SUBGROUPS with 8; lia).
      pose proof (lookup_counts_of (m_memberSlots x) _ Hrange) as Hl.
      replace (Z.to_nat (0 + Z.of_nat i)) with i in Hl by lia. rewrite Hi in Hl. injection Hl as ->.
      eexists. split_and!; [done|lia|lia|done|]. intros _ j Hj.
      assert (Hj8 : 0 <= j < MAX_RAID_SUBGROUPS) by lia.
      pose proof (lookup_counts_of (m_memberSlots x) j Hj8) as Hlj.
      specialize (Hmin (Z.to_nat j) _ ltac:(lia) Hlj). specialize (H5 j). lia.
    + apply first_free_subgroup_None in Hff. rewrite (counts_sum _ Hr) in Hf.
      unfold counts_of, subgroups in Hff, Hf. cbn [map foldr] in Hff, Hf.
      rewrite !Forall_cons in Hff. unfold MAXRAIDSIZE, MAXGROUPSIZE in *. lia.
  - apply Z.leb_gt in Hf. exists 0. pose proof (subgroup_count_le (m_memberSlots x) 0).
    split_and!; [done|lia|by change MAX_RAID_SUBGROUPS with 8|lia|done].
Qed.

(** *** One more, one less *)

Lemma counter_step_spec x d sub l' :
  group_ok x -> 0 <= sub < MAX_RAID_SUBGROUPS ->
  (forall y, subgroup_count l' y = subgroup_count (m_memberSlots x) y + (if y =? sub then d else 0)) ->
  subgroup_count l' sub < 256 ->
  counter_step d sub (m_subGroupsCounts x)
  = Some (if isRaidGroup x then Some (counts_of l') else None).
Proof.
  intros Hx Hs H Hlt. rewrite (go_counts _ Hx). unfold counter_step. destruct (isRaidGroup x); [|done].
  by rewrite (bump_counts d _ l' sub).
Qed.

Lemma subgroup_count_middle l1 s l2 sub :
  subgroup_count (l1 ++ s :: l2) sub = subgroup_count (l1 ++ l2) sub + Z.b2z (ms_group s =? sub).
Proof. rewrite !subgroup_count_app, subgroup_count_cons. lia. Qed.

Lemma group_ok_add x p sub :
  group_ok x -> ~ In p (map ms_guid (m_memberSlots x)) -> 0 <= sub < MAX_RAID_SUBGROUPS ->
  subgroup_count (m_memberSlots x) sub < MAXGROUPSIZE ->
  (isRaidGroup x = false -> GetMembersCount x < MAXGROUPSIZE) ->
  exists counts, counter_step 1 sub (m_subGroupsCounts x) = Some counts /\
    group_ok (upd_members (m_memberSlots x ++ [mkSlot p sub 0 0]) counts x).
Proof.
  intros Hx Hp Hs Hlt Hsm. set (l' := m_memberSlots x ++ [mkSlot p sub 0 0]).
  assert (Hcount : forall y, subgroup_count l' y
                   = subgroup_count (m_memberSlots x) y + (if y =? sub then 1 else 0)).
  { intros y. unfold l'. rewrite subgroup_count_app, subgroup_count_cons. cbn [ms_group].
    change (subgroup_count [] y) with 0. rewrite (Z.eqb_sym sub). destruct (y =? sub); cbn; lia. }
  eexists. split.
  { apply (counter_step_spec x 1 sub l'); [done|done|done|].
    rewrite Hcount, Z.eqb_refl. unfold MAXGROUPSIZE in Hlt. lia. }
  destruct Hx as [Hreg Hnd Hr Hc H5 H0]. split; cbn [m_memberSlots upd_members].
  - done.
  - unfold l'. rewrite map_app. apply NoDup_app. split_and!; [done| |apply NoDup_singleton].
    intros q Hq ->%list_elem_of_singleton. by apply list_elem_of_In in Hq.
  - apply Forall_app. split; [done|]. by constructor.
  - done.
  - intros y. rewrite Hcount. destruct (Z.eqb_spec y sub) as [->|]; [lia|specialize (H5 y); lia].
  - intros Hraid. change (isRaidGroup x = false) in Hraid. specialize (Hsm Hraid).
    unfold GetMembersCount in *. cbn [m_memberSlots upd_members]. unfold l'. rewrite length_app. cbn. lia.
Qed.

Lemma group_ok_erase x p s :
  group_ok x -> getMemberSlot (m_memberSlots x) p = Some s ->
  exists counts, counter_step (-1) (ms_group s) (m_subGroupsCounts x) = Some counts /\
    group_ok (upd_members (erase_slot p (m_memberSlots x)) counts x).
Proof.
  intros Hx Hs. destruct (slot_split _ _ _ Hs) as (l1 & l2 & Hl & Hg & H1).
  assert (He : erase_slot p (m_memberSlots x) = l1 ++ l2) by (rewrite Hl; by apply erase_slot_split).
  rewrite He.
  assert (Hcount : forall y, subgroup_count (l1 ++ l2) y
                   = subgroup_count (m_memberSlots x) y + (if y =? ms_group s then -1 else 0)).
  { intros y. rewrite Hl, subgroup_count_middle, (Z.eqb_sym (ms_group s)).
    destruct (y =? ms_group s); cbn; lia. }
  pose proof (go_range _ Hx) as Hr. rewrite Hl in Hr. apply forall_in_app_cons in Hr as [Hrs Hr].
  eexists. split.
  { apply (counter_step_spec x (-1) (ms_group s) (l1 ++ l2)); [done|done|done|].
    rewrite Hcount, Z.eqb_refl. pose proof (go_five _ Hx (ms_group s)). unfold MAXGROUPSIZE in *. lia. }
  destruct Hx as [Hreg Hnd _ Hc H5 H0]. split; cbn [m_memberSlots upd_members]; [done| |done|done| |].
  - rewrite Hl, map_app in Hnd. cbn in Hnd. rewrite map_app.
    apply NoDup_app in Hnd as (Ha & Hd & [_ Hb]%NoDup_cons). apply NoDup_app. split_and!; [done| |done].
    intros q Hq Hq2. apply (Hd q Hq). by right.
  - intros y. rewrite Hcount. specialize (H5 y). destruct (_ =? _); lia.
  - intros Hraid. specialize (H0 Hraid). unfold GetMembersCount in *. cbn [m_memberSlots upd_members].
    rewrite Hl, length_app in H0. cbn in H0. rewrite length_app. lia.
Qed.

Lemma group_ok_move x p s sub :
  group_ok x -> isRaidGroup x = true -> getMemberSlot (m_memberSlots x) p = Some s -> ms_group s <> sub ->
  0 <= sub < MAX_RAID_SUBGROUPS -> subgroup_count (m_memberSlots x) sub < MAXGROUPSIZE ->
  exists c1 c2, counter_step 1 sub (m_subGroupsCounts x) = Some c1 /\
    counter_step (-1) (ms_group s) c1 = Some c2 /\
    group_ok (upd_members (on_slot p (set_ms_group sub) (m_memberSlots x)) c2 x).
Proof.
  intros Hx Hraid Hs Hne Hsub Hlt. destruct (slot_split _ _ _ Hs) as (l1 & l2 & Hl & Hg & H1).
  assert (He : on_slot p (set_ms_group sub) (m_memberSlots x) = l1 ++ set_ms_group sub s :: l2)
    by (rewrite Hl; by apply on_slot_split).
  rewrite He. set (k := mkSlot 0 sub 0 0 :: m_memberSlots x).
  assert (Hk : forall y, subgroup_count k y = subgroup_count (m_memberSlots x) y + (if y =? sub then 1 else 0)).
  { intros y. unfold k. rewrite subgroup_count_cons. cbn [ms_group]. rewrite (Z.eqb_sym sub).
    destruct (y =? sub); cbn; lia. }
  assert (Hcount : forall y, subgroup_count (l1 ++ set_ms_group sub s :: l2) y
                   = subgroup_count k y + (if y =? ms_group s then -1 else 0)).
  { intros y. rewrite Hk, Hl, !subgroup_count_middle, (Z.eqb_sym (ms_group s)). cbn [ms_group set_ms_group].
    rewrite (Z.eqb_sym sub). destruct (y =? ms_group s), (y =? sub); cbn; lia. }
  pose proof (go_range _ Hx) as Hr. rewrite Hl in Hr. apply forall_in_app_cons in Hr as [Hrs Hr].
  assert (H1st : counter_step 1 sub (m_subGroupsCounts x) = Some (Some (counts_of k))).
  { rewrite (counter_step_spec x 1 sub k); [by rewrite Hraid|done|done|done|].
    rewrite Hk, Z.eqb_refl. unfold MAXGROUPSIZE in *. lia. }
  eexists _, _. split_and!; [exact H1st| |].
  { unfold counter_step. rewrite (bump_counts (-1) k (l1 ++ set_ms_group sub s :: l2)); [done|done|done|].
    rewrite Hcount, Z.eqb_refl, Hk. destruct (Z.eqb_spec (ms_group s) sub); [done|].
    pose proof (go_five _ Hx (ms_group s)). unfold MAXGROUPSIZE in *. lia. }
  destruct Hx as [Hreg Hnd _ Hc H5 H0]. split; cbn [m_memberSlots upd_members]; [done| | | | |].
  - rewrite <- He, map_guid_on_slot by done. done.
  - apply forall_in_app_cons. by split.
  - change (isRaidGroup _) with (isRaidGroup x). by rewrite Hraid.
  - intros y. rewrite Hcount, Hk. specialize (H5 y).
    destruct (Z.eqb_spec y (ms_group s)), (Z.eqb_spec y sub); subst; lia.
  - intros Hn. change (isRaidGroup x = false) in Hn. congruence.
Qed.

(** *** Other changes *)

Lemma group_ok_same_roster x x' :
  group_ok x -> roster (m_memberSlots x') = roster (m_memberSlots x) ->
  in_battle x' = in_battle x -> m_subGroupsCounts x' = m_subGroupsCounts x ->
  isRaidGroup x' = isRaidGroup x -> isLFGGroup x' = isLFGGroup x -> group_ok x'.
Proof.
  intros [[Hb Hl] Hnd Hr Hc H5 H0] Hro Hb' Hc' Hraid Hlfg.
  assert (Hcount : forall sub, subgroup_count (m_memberSlots x') sub = subgroup_count (m_memberSlots x) sub)
    by (intros; by apply subgroup_count_roster).
  split.
  - by rewrite Hb', Hlfg.
  - rewrite <- roster_guids, Hro, roster_guids. done.
  - apply Forall_forall. intros s Hs.
    assert (Hin : (ms_guid s, ms_group s) ∈ roster (m_memberSlots x)).
    { rewrite <- Hro. apply elem_of_roster. by exists s. }
    apply elem_of_roster in Hin as (s' & Hs' & _ & Hg). unfold in_range. rewrite <- Hg.
    by apply (proj1 (Forall_forall _ _) Hr).
  - rewrite Hc', Hc, Hraid. destruct (isRaidGroup x); [|done]. f_equal.
    unfold counts_of. apply map_ext. intros. by rewrite Hcount.
  - intros sub. by rewrite Hcount.
  - intros H. rewrite Hraid in H. unfold GetMembersCount. rewrite (length_roster _ _ Hro). by apply H0.
Qed.

(** Becoming a raid, and a group again. *)
Lemma initRaidSubGroupsCounter_spec x :
  group_ok x -> initRaidSubGroupsCounter x = Some (counts_of (m_memberSlots x)).
Proof.
  intros Hx. unfold initRaidSubGroupsCounter.
  change (replicate (Z.to_nat MAX_RAID_SUBGROUPS) 0) with (counts_of []).
  apply (count_slots_spec []); [apply Hx|]. intros sub. cbn [app].
  pose proof (go_five _ Hx sub). unfold MAXGROUPSIZE in *. lia.
Qed.

Lemma group_ok_raid x t :
  group_ok x -> has_flag t GROUPTYPE_RAID = true -> has_flag t GROUPTYPE_LFG = false ->
  group_ok (upd_type t (Some (counts_of (m_memberSlots x))) x).
Proof.
  intros [[Hb Hl] Hnd Hr Hc H5 H0] Ht Hlfg. unfold in_battle in *.
  split; cbn; unfold isRaidGroup, isLFGGroup, in_battle; cbn; rewrite ?Ht; try done.
Qed.

Lemma group_ok_group x :
  group_ok x -> GetMembersCount x <= MAXGROUPSIZE -> group_ok (upd_type GROUPTYPE_NORMAL None x).
Proof. intros [[Hb Hl] Hnd Hr Hc H5 H0] Hs. by split. Qed.
