(* ===== verification/GroupLinks.v ===== *)
(** * The pointers between players and groups (Groups/Group.cpp, Groups/GroupMgr.cpp)

    What it means that players, groups, the store and the member table agree,
    and what the member functions of [Group] do to a world where they do. *)
From S2P Require Import Prelude.
From S2P Require Import Lists.
From S2P Require Import Group.
From S2P Require Import GroupSlots.
Local Open Scope Z_scope.

(** ** Running a computation *)

(** [m] returns from [w], with a result and a world that satisfy [Q]. *)
Definition wp {A} (m : GS A) (Q : A -> World -> Prop) (w : World) : Prop :=
  match m w with Ok (a, w') => Q a w' | Err _ => False end.

Lemma wp_ret {A} (a : A) (Q : A -> World -> Prop) w : Q a w -> wp (mret a) Q w.
Proof. done. Qed.

Lemma wp_bind {A B} (m : GS A) (f : A -> GS B) Q w :
  wp m (fun a w' => wp (f a) Q w') w -> wp (m ≫= f) Q w.
Proof. unfold wp, mbind, st_bind. by destruct (m w) as [[a w']|]. Qed.

Lemma wp_mono {A} (m : GS A) (P Q : A -> World -> Prop) w :
  wp m P w -> (forall a w', P a w' -> Q a w') -> wp m Q w.
Proof. unfold wp. destruct (m w) as [[a w']|]; auto. Qed.

Lemma wp_get (Q : World -> World -> Prop) w : Q w w -> wp st_get Q w.
Proof. done. Qed.

Lemma wp_modify (f : World -> World) (Q : unit -> World -> Prop) w : Q tt (f w) -> wp (st_modify f) Q w.
Proof. done. Qed.

Lemma wp_deref_group g x (Q : Group -> World -> Prop) w :
  groups w !! g = Some x -> Q x w -> wp (deref_group g) Q w.
Proof. unfold wp, deref_group. by intros ->. Qed.

Lemma wp_deref_player p x (Q : Player -> World -> Prop) w :
  players w !! p = Some x -> Q x w -> wp (deref_player p) Q w.
Proof. unfold wp, deref_player. by intros ->. Qed.

Lemma insert_is_alter {A} (m : gmap Z A) f i x : m !! i = Some x -> <[i := f x]> m = alter f i m.
Proof.
  intros Hi. apply map_eq. intros j. destruct (decide (i = j)) as [->|Hne].
  - by rewrite lookup_insert_eq, lookup_alter_eq, Hi.
  - by rewrite lookup_insert_ne, lookup_alter_ne.
Qed.

Lemma wp_mod_group g f (Q : unit -> World -> Prop) w :
  is_Some (groups w !! g) -> Q tt (set_groups (alter f g (groups w)) w) -> wp (mod_group g f) Q w.
Proof. intros [x Hx] HQ. unfold wp, mod_group. rewrite Hx. by rewrite insert_is_alter. Qed.

Lemma wp_mod_player p f (Q : unit -> World -> Prop) w :
  is_Some (players w !! p) -> Q tt (set_players (alter f p (players w)) w) -> wp (mod_player p f) Q w.
Proof. intros [x Hx] HQ. unfold wp, mod_player. rewrite Hx. by rewrite insert_is_alter. Qed.

Lemma wp_check_counter {A} (o : option A) a (Q : A -> World -> Prop) w :
  o = Some a -> Q a w -> wp (check_counter o) Q w.
Proof. intros ->. done. Qed.

Lemma wp_tell n (Q : unit -> World -> Prop) w :
  Q tt (mkWorld (players w) (groups w) (next_address w) (mgr w) (group_member w) (notices w ++ [n])) ->
  wp (tell n) Q w.
Proof. done. Qed.

Lemma wp_Ok {A} (m : GS A) Q w : wp m Q w -> exists a w', m w = Ok (a, w') /\ Q a w'.
Proof. unfold wp. destruct (m w) as [[a w']|]; [by exists a, w'|done]. Qed.

(** ** The relations between the objects *)

(** [p] holds an invitation of [g]; [p] is on the list of those invited. *)
Definition invited_to (w : World) (p g : Z) : Prop :=
  exists P, players w !! p = Some P /\ p_groupInvite P = Some g.
Definition invitee_of (w : World) (p g : Z) : Prop :=
  exists x, groups w !! g = Some x /\ p ∈ m_invitees x.

(** [p] refers to [g]; [p] has a slot of [g]. *)
Definition refers_to (w : World) (p g sub : Z) : Prop :=
  exists P, players w !! p = Some P /\ p_group P = Some (g, sub).
Definition member_of (w : World) (p g sub : Z) : Prop :=
  exists x, groups w !! g = Some x /\ (p, sub) ∈ roster (m_memberSlots x).

Definition logged_in (w : World) (p : Z) : Prop := is_Some (players w !! p).

(** *** The pool of database ids *)

Definition stored (m : GroupMgr) (id g : Z) : Prop :=
  0 <= id /\ GroupDbStore m !! Z.to_nat id = Some (Some g).

(** The next id is the least free one from 1 on. *)
Record pool_ok (m : GroupMgr) : Prop := {
  pool_next : 0 < NextGroupDbStoreId m <= Z.max 1 (Z.of_nat (length (GroupDbStore m)));
  pool_least : forall id, 0 < id < NextGroupDbStoreId m -> exists g, stored m id g;
  pool_free : forall g, ~ stored m (NextGroupDbStoreId m) g;
  pool_zero : forall g, ~ stored m 0 g
}.

Lemma stored_lt m id g : stored m id g -> id < Z.of_nat (length (GroupDbStore m)).
Proof. intros [H0 H%lookup_lt_Some]. lia. Qed.

Lemma find_free_spec fuel store i :
  0 <= i -> Z.of_nat (length store) < 0xFFFFFFFF -> i <= Z.of_nat (length store) ->
  Z.of_nat (length store) - i < Z.of_nat fuel ->
  exists j, find_free fuel store i = Some j /\ i <= j <= Z.of_nat (length store) /\
    (forall k, i <= k < j -> exists g, store !! Z.to_nat k = Some (Some g)) /\
    (forall g, store !! Z.to_nat j <> Some (Some g)).
Proof.
  revert i. induction fuel as [|fuel IH]; intros i H0 Hlen Hi Hf; [lia|]. cbn [find_free].
  destruct (Z.ltb_spec i 0xFFFFFFFF); [|lia]. destruct (Z.leb_spec (Z.of_nat (length store)) i) as [Hge|Hlt].
  - exists i. split_and!; [done|lia|lia|lia|]. intros g Hg%lookup_lt_Some. lia.
  - destruct (store !! Z.to_nat i) as [[g|]|] eqn:Hs.
    + destruct (IH (i + 1)) as (j & -> & Hj & Hused & Hfree); [lia..|].
      exists j. split_and!; [done|lia|lia| |done]. intros k Hk.
      destruct (Z.eq_dec k i) as [->|]; [by exists g|apply Hused; lia].
    + exists i. split_and!; [done|lia|lia|lia|]. intros g. by rewrite Hs.
    + apply lookup_ge_None in Hs. lia.
Qed.

(** The pool is not exhausted. *)
Definition ids_left (m : GroupMgr) : Prop := Z.of_nat (length (GroupDbStore m)) < 0xFFFFFFFE.

(** Handing out an id and registering it. *)
Definition with_id (g : Z) (m : GroupMgr) : GroupMgr :=
  let '(id, m, _) := GenerateNewGroupDbStoreId m in RegisterGroupDbStoreId id g m.

Lemma Generate_next m :
  pool_ok m -> ids_left m ->
  exists n, GenerateNewGroupDbStoreId m
            = (NextGroupDbStoreId m, mkGroupMgr (NextGroupId m) n (GroupDbStore m) (GroupStore m), false) /\
    NextGroupDbStoreId m < n <= Z.max (NextGroupDbStoreId m + 1) (Z.of_nat (length (GroupDbStore m))) /\
    (forall k, NextGroupDbStoreId m < k < n -> exists g, stored m k g) /\ (forall g, ~ stored m n g).
Proof.
  intros [[Hn0 Hn1] _ _ _] Hids. unfold ids_left in Hids. unfold GenerateNewGroupDbStoreId.
  rewrite (u32_small (NextGroupDbStoreId m + 1)) by (unfold is_u32; lia).
  assert (Hff : exists j, find_free (S (length (GroupDbStore m))) (GroupDbStore m) (NextGroupDbStoreId m + 1) = Some j /\
            NextGroupDbStoreId m < j <= Z.max (NextGroupDbStoreId m + 1) (Z.of_nat (length (GroupDbStore m))) /\
            (forall k, NextGroupDbStoreId m < k < j -> exists g, stored m k g) /\ (forall g, ~ stored m j g)).
  { destruct (Z.le_gt_cases (NextGroupDbStoreId m + 1) (Z.of_nat (length (GroupDbStore m)))) as [Hle|Hgt].
    - destruct (find_free_spec (S (length (GroupDbStore m))) (GroupDbStore m) (NextGroupDbStoreId m + 1))
        as (j & Hj & Hr & Hu & Hf); [lia..|].
      exists j. split_and!; [done|lia|lia| |].
      + intros k Hk. destruct (Hu k) as [g Hg]; [lia|]. exists g. split; [lia|done].
      + intros g [_ Hg]. by apply (Hf g).
    - exists (NextGroupDbStoreId m + 1). cbn [find_free].
      destruct (Z.ltb_spec (NextGroupDbStoreId m + 1) 0xFFFFFFFF); [|lia].
      destruct (Z.leb_spec (Z.of_nat (length (GroupDbStore m))) (NextGroupDbStoreId m + 1)); [|lia].
      split_and!; [done|lia|lia|lia|]. intros g Hg%stored_lt. lia. }
  destruct Hff as (j & -> & Hr & Hu & Hf). exists j. split_and!; [|lia|lia|done|done].
  assert (Hne : (NextGroupDbStoreId m =? j) = false) by (apply Z.eqb_neq; lia).
  by rewrite Hne.
Qed.

Lemma stored_register m id g k h :
  0 < id -> stored (RegisterGroupDbStoreId id g m) k h <-> (k = id /\ h = g) \/ (k <> id /\ stored m k h).
Proof.
  intros Hid. unfold stored, RegisterGroupDbStoreId. cbn [GroupDbStore].
  set (store := if Z.of_nat (length (GroupDbStore m)) <=? id
                then resize (Z.to_nat (id + 1)) None (GroupDbStore m) else GroupDbStore m).
  assert (Hlen : (Z.to_nat id < length store)%nat).
  { unfold store. destruct (Z.leb_spec (Z.of_nat (length (GroupDbStore m))) id); [rewrite length_resize; lia|lia]. }
  assert (Hold : forall k h, 0 <= k -> store !! Z.to_nat k = Some (Some h) <-> GroupDbStore m !! Z.to_nat k = Some (Some h)).
  { intros k' h' Hk'. unfold store.
    destruct (Z.leb_spec (Z.of_nat (length (GroupDbStore m))) id); [|done].
    rewrite resize_ge by lia.
    destruct (lt_dec (Z.to_nat k') (length (GroupDbStore m))).
    - by rewrite lookup_app_l.
    - rewrite lookup_app_r by lia. rewrite (lookup_ge_None_2 (GroupDbStore m)) by lia.
      rewrite lookup_replicate. naive_solver. }
  destruct (Z.eq_dec k id) as [->|Hk].
  - rewrite list_lookup_insert_eq by done. naive_solver lia.
  - split.
    + intros [H0 H]. rewrite list_lookup_insert_ne in H by lia. right. split_and!; [done|done|by apply Hold].
    + intros [[? _]|(_ & H0 & H)]; [done|]. split; [done|].
      rewrite list_lookup_insert_ne by lia. by apply Hold.
Qed.

Lemma with_id_spec g m :
  pool_ok m -> ids_left m ->
  pool_ok (with_id g m) /\ NextGroupId (with_id g m) = NextGroupId m /\
  GroupStore (with_id g m) = GroupStore m /\
  (forall k h, stored (with_id g m) k h <->
     (k = NextGroupDbStoreId m /\ h = g) \/ stored m k h).
Proof.
  intros Hp Hids. destruct (Generate_next m Hp Hids) as (n & Hgen & Hn & Hused & Hfree).
  unfold with_id. rewrite Hgen. set (id := NextGroupDbStoreId m) in *.
  set (m1 := mkGroupMgr (NextGroupId m) n (GroupDbStore m) (GroupStore m)).
  destruct Hp as [Hnext Hleast Hnfree Hzero]. fold id in Hnext, Hleast, Hnfree.
  assert (Hst : forall k h, stored (RegisterGroupDbStoreId id g m1) k h <-> (k = id /\ h = g) \/ stored m k h).
  { intros k h. rewrite stored_register by lia. change (stored m1 k h) with (stored m k h).
    split; [tauto|]. intros [?|H]; [by left|]. destruct (Z.eq_dec k id) as [->|]; [|by right].
    exfalso. by apply (Hnfree h). }
  split_and!; [|done|done|done].
  assert (Hnx : NextGroupDbStoreId (RegisterGroupDbStoreId id g m1) = n) by done.
  split; rewrite ?Hnx.
  - split; [lia|]. unfold RegisterGroupDbStoreId. cbn [GroupDbStore]. rewrite length_insert.
    change (GroupDbStore m1) with (GroupDbStore m).
    destruct (Z.leb_spec (Z.of_nat (length (GroupDbStore m))) id); [rewrite length_resize|]; lia.
  - intros k Hk. destruct (Z.eq_dec k id) as [->|]; [exists g; apply Hst; by left|].
    destruct (Z.lt_ge_cases k id) as [Hlt|Hge].
    + destruct (Hleast k) as [h Hh]; [lia|]. exists h. apply Hst. by right.
    + destruct (Hused k) as [h Hh]; [lia|]. exists h. apply Hst. by right.
  - intros h [[? _]|H]%Hst; [lia|by apply (Hfree h)].
  - intros h [[? _]|H]%Hst; [lia|by apply (Hzero h)].
Qed.

Lemma stored_free m id k h :
  0 <= id -> stored (FreeGroupDbStoreId id m) k h <-> k <> id /\ stored m k h.
Proof.
  intros Hid. unfold stored. cbn [GroupDbStore FreeGroupDbStoreId]. split.
  - intros [H0 H]. destruct (Z.eq_dec k id) as [->|Hk].
    + apply list_lookup_insert_Some in H as [(_ & ? & _)|[? _]]; done.
    + rewrite list_lookup_insert_ne in H by lia. done.
  - intros (Hk & H0 & H). split; [done|]. rewrite list_lookup_insert_ne by lia. done.
Qed.

Lemma free_id_spec m id g :
  pool_ok m -> stored m id g -> pool_ok (FreeGroupDbStoreId id m).
Proof.
  intros [[Hn0 Hn1] Hleast Hnfree Hzero] Hid. pose proof (proj1 Hid) as H0.
  assert (id <> 0) by (intros ->; by apply (Hzero g)).
  assert (id <> NextGroupDbStoreId m) by (intros ->; by apply (Hnfree g)).
  assert (Hst := stored_free m id). split; cbn [NextGroupDbStoreId FreeGroupDbStoreId GroupDbStore].
  - rewrite length_insert. destruct (Z.ltb_spec id (NextGroupDbStoreId m)); lia.
  - intros k Hk. destruct (Z.ltb_spec id (NextGroupDbStoreId m)) as [Hlt|Hge];
      (destruct (Hleast k) as [h Hh]; [lia|]; exists h; apply Hst; [done|]; split; [lia|done]).
  - intros h [Hne Hh]%Hst; [|done].
    destruct (Z.ltb_spec id (NextGroupDbStoreId m)); [done|by apply (Hnfree h)].
  - intros h [_ Hh]%Hst; [|done]. by apply (Hzero h).
Qed.

(** Pointers and lists agree. *)
Record links_ok (w : World) : Prop := {
  lk_groups : forall g x, groups w !! g = Some x -> group_ok x /\ g < next_address w;
  lk_invites : forall p g, invited_to w p g <-> invitee_of w p g;
  lk_refs : forall p g sub, refers_to w p g sub <-> member_of w p g sub /\ logged_in w p;
  lk_original : forall p P, players w !! p = Some P -> p_originalGroup P = None;
  lk_apart : forall p g h sub, invited_to w p g -> refers_to w p h sub -> False;
  lk_table : forall p id sub, group_member w !! p = Some (id, sub) <->
               exists g x, groups w !! g = Some x /\ m_dbStoreId x = id /\ member_of w p g sub;
  lk_store : forall id g, stored (mgr w) id g -> exists x, groups w !! g = Some x /\ m_dbStoreId x = id;
  lk_stored : forall g x, groups w !! g = Some x -> m_memberSlots x <> [] -> stored (mgr w) (m_dbStoreId x) g;
  lk_pool : pool_ok (mgr w);
  lk_guids : forall k g, GroupStore (mgr w) !! k = Some g -> exists x, groups w !! g = Some x /\ m_guid x = k
}.

(** ** Worlds with the same rosters *)

Definition same_members (x x' : Group) : Prop :=
  roster (m_memberSlots x') = roster (m_memberSlots x) /\ m_dbStoreId x' = m_dbStoreId x /\
  m_guid x' = m_guid x /\ group_ok x'.
Definition same_refs (P P' : Player) : Prop :=
  p_group P' = p_group P /\ p_originalGroup P' = p_originalGroup P.

Record same_rosters (w w' : World) : Prop := {
  sr_groups : forall g, option_Forall2 same_members (groups w !! g) (groups w' !! g);
  sr_players : forall p, option_Forall2 same_refs (players w !! p) (players w' !! p);
  sr_mgr : mgr w' = mgr w;
  sr_table : group_member w' = group_member w;
  sr_next : next_address w' = next_address w
}.

Lemma sr_group w w' g x' :
  same_rosters w w' -> groups w' !! g = Some x' -> exists x, groups w !! g = Some x /\ same_members x x'.
Proof. intros [H _ _ _ _] Hx. specialize (H g). rewrite Hx in H. inversion H; subst. eauto. Qed.
Lemma sr_group_back w w' g x :
  same_rosters w w' -> groups w !! g = Some x -> exists x', groups w' !! g = Some x' /\ same_members x x'.
Proof. intros [H _ _ _ _] Hx. specialize (H g). rewrite Hx in H. inversion H; subst. eauto. Qed.
Lemma sr_player w w' p P' :
  same_rosters w w' -> players w' !! p = Some P' -> exists P, players w !! p = Some P /\ same_refs P P'.
Proof. intros [_ H _ _ _] Hx. specialize (H p). rewrite Hx in H. inversion H; subst. eauto. Qed.
Lemma sr_player_back w w' p P :
  same_rosters w w' -> players w !! p = Some P -> exists P', players w' !! p = Some P' /\ same_refs P P'.
Proof. intros [_ H _ _ _] Hx. specialize (H p). rewrite Hx in H. inversion H; subst. eauto. Qed.

Lemma sr_refers w w' p g sub : same_rosters w w' -> refers_to w' p g sub <-> refers_to w p g sub.
Proof.
  intros H. split.
  - intros (P' & HP & Hg). destruct (sr_player _ _ _ _ H HP) as (P & ? & He & _). exists P. by rewrite <- He.
  - intros (P & HP & Hg). destruct (sr_player_back _ _ _ _ H HP) as (P' & ? & He & _). exists P'. by rewrite He.
Qed.

Lemma sr_member w w' p g sub : same_rosters w w' -> member_of w' p g sub <-> member_of w p g sub.
Proof.
  intros H. split.
  - intros (x' & Hx & Hr). destruct (sr_group _ _ _ _ H Hx) as (x & ? & He & _). exists x. by rewrite <- He.
  - intros (x & Hx & Hr). destruct (sr_group_back _ _ _ _ H Hx) as (x' & ? & He & _). exists x'. by rewrite He.
Qed.

Lemma sr_logged w w' p : same_rosters w w' -> logged_in w' p <-> logged_in w p.
Proof.
  intros H. split; intros [P HP].
  - destruct (sr_player _ _ _ _ H HP) as (? & ? & _). by eexists.
  - destruct (sr_player_back _ _ _ _ H HP) as (? & ? & _). by eexists.
Qed.

(** Only the invitations have to be looked at again. *)
Lemma links_ok_same w w' :
  links_ok w -> same_rosters w w' ->
  (forall p g, invited_to w' p g <-> invitee_of w' p g) ->
  (forall p g h sub, invited_to w' p g -> refers_to w p h sub -> False) ->
  links_ok w'.
Proof.
  intros [Hg _ Hr Ho _ Ht Hs Hsd Hp Hgu] H Hinv Hap. pose proof H as [_ _ Hm Htab Hn].
  split; rewrite ?Hm, ?Htab, ?Hn; [| | | | | | | |done|].
  - intros g x' Hx. destruct (sr_group _ _ _ _ H Hx) as (x & Hx0 & _ & _ & _ & Hok).
    split; [done|]. by apply (Hg g x).
  - intros p g. apply Hinv.
  - intros p g sub. rewrite (sr_refers _ _ _ _ _ H), (sr_member _ _ _ _ _ H), (sr_logged _ _ _ H). apply Hr.
  - intros p P' HP. destruct (sr_player _ _ _ _ H HP) as (P & HP0 & _ & He). rewrite He. by eapply Ho.
  - intros p g h sub Hi Hre. by apply (Hap p g h sub Hi), (sr_refers _ _ _ _ _ H).
  - intros p id sub. rewrite Ht. split.
    + intros (g & x & Hx & Hid & Hmem). destruct (sr_group_back _ _ _ _ H Hx) as (x' & Hx' & _ & Hid' & _).
      exists g, x'. split_and!; [done|congruence|by apply (sr_member _ _ _ _ _ H)].
    + intros (g & x' & Hx' & Hid & Hmem). destruct (sr_group _ _ _ _ H Hx') as (x & Hx & _ & Hid' & _).
      exists g, x. split_and!; [done|congruence|by apply (sr_member _ _ _ _ _ H)].
  - intros id g Hst. destruct (Hs id g Hst) as (x & Hx & Hid).
    destruct (sr_group_back _ _ _ _ H Hx) as (x' & Hx' & _ & Hid' & _). exists x'. by rewrite Hid'.
  - intros g x' Hx' Hne. destruct (sr_group _ _ _ _ H Hx') as (x & Hx & Hro & Hid & _). rewrite Hid.
    apply (Hsd g x Hx). intros He. apply Hne. apply length_zero_iff_nil.
    by rewrite (length_roster _ _ Hro), He.
  - intros k g Hk. destruct (Hgu k g Hk) as (x & Hx & Hgd).
    destruct (sr_group_back _ _ _ _ H Hx) as (x' & Hx' & _ & _ & Hgd' & _). exists x'. by rewrite Hgd'.
Qed.

(** Changing one group, or one player, in a way that keeps rosters. *)
Lemma sr_refl w : (forall g x, groups w !! g = Some x -> group_ok x) -> same_rosters w w.
Proof.
  intros Hok. split; [..|done|done|done].
  - intros g. destruct (groups w !! g) eqn:E; constructor. split_and!; [done..|by eapply Hok].
  - intros p. destruct (players w !! p) eqn:E; constructor. done.
Qed.

Lemma sr_trans w1 w2 w3 : same_rosters w1 w2 -> same_rosters w2 w3 -> same_rosters w1 w3.
Proof.
  intros [Hg1 Hp1 Hm1 Ht1 Hn1] [Hg2 Hp2 Hm2 Ht2 Hn2]. split; [| |congruence..].
  - intros g. specialize (Hg1 g). specialize (Hg2 g).
    destruct Hg1 as [x y (? & ? & ? & _)|]; inversion Hg2 as [? z (? & ? & ? & ?)|]; subst; constructor.
    split_and!; congruence || done.
  - intros p. specialize (Hp1 p). specialize (Hp2 p).
    destruct Hp1 as [x y [? ?]|]; inversion Hp2 as [? z [? ?]|]; subst; constructor. split; congruence.
Qed.

Lemma sr_alter_group w g f :
  (forall h x, groups w !! h = Some x -> group_ok x) ->
  (forall x, groups w !! g = Some x -> same_members x (f x)) ->
  same_rosters w (set_groups (alter f g (groups w)) w).
Proof.
  intros Hok Hf. pose proof (sr_refl w Hok) as [Hg Hp _ _ _]. split; cbn; [|done..].
  intros h. destruct (decide (g = h)) as [<-|Hne].
  - rewrite lookup_alter_eq. destruct (groups w !! g) eqn:E; constructor. by apply Hf.
  - rewrite lookup_alter_ne by done. apply Hg.
Qed.

Lemma sr_alter_player w p f :
  (forall h x, groups w !! h = Some x -> group_ok x) ->
  (forall P, players w !! p = Some P -> same_refs P (f P)) ->
  same_rosters w (set_players (alter f p (players w)) w).
Proof.
  intros Hok Hf. pose proof (sr_refl w Hok) as [Hg Hp _ _ _]. split; cbn; [done| |done..].
  intros q. destruct (decide (p = q)) as [<-|Hne].
  - rewrite lookup_alter_eq. destruct (players w !! p) eqn:E; constructor. by apply Hf.
  - rewrite lookup_alter_ne by done. apply Hp.
Qed.

Lemma links_groups_ok w : links_ok w -> forall g x, groups w !! g = Some x -> group_ok x.
Proof. intros H g x Hx. by apply (lk_groups _ H g x). Qed.

(** *** The relations after a change of one object *)

Lemma ex_alter {A} (m : gmap Z A) f i q (φ : A -> Prop) :
  (exists y, alter f i m !! q = Some y /\ φ y) <->
  (exists x, m !! q = Some x /\ φ (if decide (i = q) then f x else x)).
Proof.
  split.
  - intros (y & Hy & Hφ). destruct (decide (i = q)) as [->|Hne].
    + rewrite lookup_alter_eq in Hy. destruct (m !! q) as [x|]; [|done]. cbn in Hy. injection Hy as <-. eauto.
    + rewrite lookup_alter_ne in Hy by done. eauto.
  - intros (x & Hx & Hφ). destruct (decide (i = q)) as [->|Hne].
    + exists (f x). by rewrite lookup_alter_eq, Hx.
    + exists x. by rewrite lookup_alter_ne.
Qed.

(** A field of the group that is not about its members. *)
Lemma touch_ok w g f :
  links_ok w -> (forall x, groups w !! g = Some x -> same_members x (f x) /\ m_invitees (f x) = m_invitees x) ->
  links_ok (set_groups (alter f g (groups w)) w).
Proof.
  intros H Hf. apply (links_ok_same w); [done| | |].
  - apply sr_alter_group; [by apply links_groups_ok|]. intros x Hx. by apply Hf.
  - intros p h. change (invited_to _ p h) with (invited_to w p h). rewrite (lk_invites _ H).
    unfold invitee_of. cbn [groups set_groups]. rewrite ex_alter.
    split; intros (x & Hx & Hin); exists x; (split; [done|]); destruct (decide (g = h)) as [<-|]; try done;
      by destruct (Hf x Hx) as [_ He]; rewrite He in *.
  - intros p h k sub. apply (lk_apart _ H).
Qed.

(** Whether a player is in the world. *)
Lemma set_inWorld_ok w p b : links_ok w -> links_ok (set_players (alter (set_inWorld b) p (players w)) w).
Proof.
  intros H. apply (links_ok_same w); [done| | |].
  - apply sr_alter_player; [by apply links_groups_ok|done].
  - intros q h. unfold invited_to. cbn [players set_players]. rewrite ex_alter.
    etrans; [|apply (lk_invites _ H q h)]. unfold invited_to.
    split; intros (x & Hx & Hi); exists x; (split; [done|]); by destruct (decide (p = q)).
  - intros q h k sub (x & Hx & Hi)%ex_alter. apply (lk_apart _ H q h). exists x. split; [done|].
    by destruct (decide (p = q)).
Qed.

(** ** Invitations *)

Definition uninvited (g p : Z) (w : World) : World :=
  set_players (alter (set_groupInvite None) p (players w))
    (set_groups (alter (fun x => set_invitees (m_invitees x ∖ {[p]}) x) g (groups w)) w).

Lemma RemoveInvite_run g p w :
  is_Some (groups w !! g) -> logged_in w p -> RemoveInvite g p w = Ok (tt, uninvited g p w).
Proof.
  intros Hg Hp. assert (H : wp (RemoveInvite g p) (fun _ w' => w' = uninvited g p w) w).
  { apply wp_bind, wp_mod_group; [done|]. apply wp_mod_player; [done|]. done. }
  by apply wp_Ok in H as ([] & w' & -> & ->).
Qed.

Lemma lookup_uninvited_group g p w h :
  groups (uninvited g p w) !! h
  = (if decide (g = h) then (fun x => set_invitees (m_invitees x ∖ {[p]}) x) else id) <$> groups w !! h.
Proof.
  cbn. destruct (decide (g = h)) as [<-|]; [by rewrite lookup_alter_eq|].
  rewrite lookup_alter_ne by done. by rewrite option_fmap_id.
Qed.

Lemma same_members_invitees x i : group_ok x -> same_members x (set_invitees i x).
Proof. intros H. split_and!; [done..|]. by apply (group_ok_same_roster x). Qed.

Lemma uninvited_same_rosters g p w : links_ok w -> same_rosters w (uninvited g p w).
Proof.
  intros H. pose proof (links_groups_ok w H) as Hok.
  eapply sr_trans.
  - apply (sr_alter_group w g (fun x => set_invitees (m_invitees x ∖ {[p]}) x)); [done|].
    intros x Hx. apply same_members_invitees. by eapply Hok.
  - apply (sr_alter_player (set_groups _ w) p (set_groupInvite None)); [|done].
    intros h x. cbn. destruct (decide (g = h)) as [<-|].
    + rewrite lookup_alter_eq. destruct (groups w !! g) as [y|] eqn:E; [|done]. intros [= <-].
      apply (same_members_invitees y _ (Hok _ _ E)).
    + rewrite lookup_alter_ne by done. apply Hok.
Qed.

Lemma uninvited_invited g p w q h : invited_to (uninvited g p w) q h <-> q <> p /\ invited_to w q h.
Proof.
  unfold invited_to. cbn. rewrite ex_alter. split.
  - intros (P & HP & Hi). destruct (decide (p = q)) as [<-|]; [done|]. split; [done|by exists P].
  - intros [Hne (P & HP & Hi)]. exists P. split; [done|]. by destruct (decide (p = q)).
Qed.

Lemma uninvited_invitee g p w q h :
  invitee_of (uninvited g p w) q h <-> (q <> p \/ h <> g) /\ invitee_of w q h.
Proof.
  unfold invitee_of. cbn. rewrite ex_alter. split.
  - intros (x & Hx & Hi). destruct (decide (g = h)) as [<-|].
    + cbn in Hi. split; [left; set_solver|]. exists x. set_solver.
    + split; [by right|by exists x].
  - intros [Hne (x & Hx & Hi)]. exists x. split; [done|]. destruct (decide (g = h)) as [<-|]; [|done].
    cbn. destruct Hne; [set_solver|done].
Qed.

(** The invitation of [p] is withdrawn, if he has one. *)
Lemma uninvited_ok g p w :
  links_ok w -> (forall h, invited_to w p h -> h = g) -> links_ok (uninvited g p w).
Proof.
  intros H Hp. apply (links_ok_same w); [done|by apply uninvited_same_rosters| |].
  - intros q h. rewrite uninvited_invited, uninvited_invitee, (lk_invites _ H).
    split; [naive_solver|]. intros [Hne Hi]. split; [|done]. intros ->.
    destruct Hne as [|Hh]; [done|]. apply Hh, Hp. by apply (lk_invites _ H).
  - intros q h k sub [_ Hi]%uninvited_invited. by apply (lk_apart _ H q h).
Qed.

Definition invited (g p : Z) (w : World) : World :=
  set_players (alter (set_groupInvite (Some g)) p (players w))
    (set_groups (alter (fun x => set_invitees ({[p]} ∪ m_invitees x) x) g (groups w)) w).

Lemma invited_same_rosters g p w : links_ok w -> same_rosters w (invited g p w).
Proof.
  intros H. pose proof (links_groups_ok w H) as Hok.
  eapply sr_trans.
  - apply (sr_alter_group w g (fun x => set_invitees ({[p]} ∪ m_invitees x) x)); [done|].
    intros x Hx. apply same_members_invitees. by eapply Hok.
  - apply (sr_alter_player (set_groups _ w) p (set_groupInvite (Some g))); [|done].
    intros h x. cbn. destruct (decide (g = h)) as [<-|].
    + rewrite lookup_alter_eq. destruct (groups w !! g) as [y|] eqn:E; [|done]. intros [= <-].
      apply (same_members_invitees y _ (Hok _ _ E)).
    + rewrite lookup_alter_ne by done. apply Hok.
Qed.

Lemma invited_invited g p w q h :
  logged_in w p -> invited_to (invited g p w) q h <-> (q = p /\ h = g) \/ (q <> p /\ invited_to w q h).
Proof.
  intros [P0 HP0]. unfold invited_to. cbn. rewrite ex_alter. split.
  - intros (P & HP & Hi). destruct (decide (p = q)) as [<-|]; [left; naive_solver|right; split; [done|by exists P]].
  - intros [[-> ->]|[Hne (P & HP & Hi)]].
    + exists P0. split; [done|]. by rewrite decide_True.
    + exists P. split; [done|]. by destruct (decide (p = q)).
Qed.

Lemma invited_invitee g p w q h :
  is_Some (groups w !! g) ->
  invitee_of (invited g p w) q h <-> (q = p /\ h = g) \/ invitee_of w q h.
Proof.
  intros [x0 Hx0]. unfold invitee_of. cbn. rewrite ex_alter. split.
  - intros (x & Hx & Hi). destruct (decide (g = h)) as [<-|].
    + cbn in Hi. apply elem_of_union in Hi as [->%elem_of_singleton|Hi]; [by left|right; by exists x].
    + right. by exists x.
  - intros [[-> ->]|(x & Hx & Hi)].
    + exists x0. split; [done|]. rewrite decide_True by done. cbn. set_solver.
    + exists x. split; [done|]. destruct (decide (g = h)); [cbn; set_solver|done].
Qed.

Lemma invited_ok g p w :
  links_ok w -> is_Some (groups w !! g) -> logged_in w p ->
  (forall h, ~ invited_to w p h) -> (forall h sub, ~ refers_to w p h sub) -> links_ok (invited g p w).
Proof.
  intros H Hg Hp Hni Hnr. apply (links_ok_same w); [done|by apply invited_same_rosters| |].
  - intros q h. rewrite invited_invited, invited_invitee, (lk_invites _ H) by done.
    split; [naive_solver|]. intros [?|Hi]; [by left|right]. split; [|done]. intros ->.
    apply (Hni h). by apply (lk_invites _ H).
  - intros q h k sub Hi Hr. apply invited_invited in Hi as [[-> ->]|[_ Hi]]; [|by apply (lk_apart _ H q h k sub)|done].
    by apply (Hnr k sub).
Qed.

Lemma refers_to_GetGroup w p P : players w !! p = Some P -> GetGroup P = None -> forall h sub, ~ refers_to w p h sub.
Proof. intros HP Hg h sub (P' & HP' & Hr). unfold GetGroup in Hg. rewrite HP in HP'. injection HP' as <-. by rewrite Hr in Hg. Qed.

Lemma invited_to_None w p P : players w !! p = Some P -> p_groupInvite P = None -> forall h, ~ invited_to w p h.
Proof. intros HP Hg h (P' & HP' & Hr). rewrite HP in HP'. injection HP' as <-. by rewrite Hr in Hg. Qed.

(** [AddInvite] adds players who have neither group nor invitation, and
    refuses the others. *)
Lemma AddInvite_run g p w P :
  links_ok w -> is_Some (groups w !! g) -> players w !! p = Some P ->
  wp (AddInvite g p) (fun r w' =>
    if r : bool then p_groupInvite P = None /\ GetGroup P = None /\ w' = invited g p (uninvited g p w)
    else w' = w /\ (is_Some (p_groupInvite P) \/ is_Some (GetGroup P))) w.
Proof.
  intros H Hg HP. unfold AddInvite. apply wp_bind, (wp_deref_player p P); [done|].
  destruct (p_groupInvite P) as [h|] eqn:Hi; [apply wp_ret; eauto|].
  unfold regular_group. destruct (GetGroup P) as [k|] eqn:Hgr.
  - assert (Hx : exists x, groups w !! k = Some x).
    { unfold GetGroup in Hgr. destruct (p_group P) as [[k' sub]|] eqn:Hpg; [|done]. cbn in Hgr. injection Hgr as ->.
      destruct (proj1 (lk_refs _ H p k sub)) as [(x & Hx & _) _]; [by exists P|]. by exists x. }
    destruct Hx as [x Hx]. apply wp_bind, wp_bind, (wp_deref_group k x); [done|].
    destruct (go_regular _ (links_groups_ok _ H _ _ Hx)) as [-> _]. apply wp_ret. cbv beta iota. apply wp_ret. eauto.
  - apply wp_bind, wp_ret. cbv beta iota.
    apply wp_bind. unfold wp at 1. rewrite RemoveInvite_run; [|done|by eexists].
    apply wp_bind, wp_mod_group.
    { rewrite lookup_uninvited_group. destruct Hg as [x ->]. by eexists. }
    apply wp_bind, wp_mod_player.
    { cbn. rewrite lookup_alter_eq, HP. by eexists. }
    apply wp_ret. done.
Qed.
