(* ===== verification/GroupMembers.v ===== *)
(** * Members who come and go (Groups/Group.cpp)

    The operations that change who is in a group, made to agree with the
    pointers: a new group, a member who joins, leaves or moves, and a group
    that is destroyed. *)
From S2P Require Import Prelude.
From S2P Require Import Lists.
From S2P Require Import Group.
From S2P Require Import GroupSlots.
From S2P Require Import GroupLinks.
Local Open Scope Z_scope.

(** ** A member is in one group only *)

Lemma member_sub_unique w p g s s' :
  links_ok w -> member_of w p g s -> member_of w p g s' -> s = s'.
Proof.
  intros H (x & Hx & Hr) (x' & Hx' & Hr'). rewrite Hx in Hx'. injection Hx' as <-.
  pose proof (go_nodup _ (links_groups_ok _ H _ _ Hx)) as Hnd.
  apply (getMemberSlot_roster _ _ _ Hnd) in Hr as (t & Ht & <-).
  apply (getMemberSlot_roster _ _ _ Hnd) in Hr' as (t' & Ht' & <-). congruence.
Qed.

Lemma roster_nonempty l p s : (p, s) ∈ roster l -> l <> [].
Proof. intros H ->. by apply elem_of_nil in H. Qed.

Lemma member_group_unique w p g h s s' :
  links_ok w -> member_of w p g s -> member_of w p h s' -> g = h /\ s = s'.
Proof.
  intros H Hg Hh. pose proof Hg as (x & Hx & Hr). pose proof Hh as (y & Hy & Hr').
  assert (Hpg : group_member w !! p = Some (m_dbStoreId x, s)) by (apply (lk_table _ H); eauto).
  assert (Hph : group_member w !! p = Some (m_dbStoreId y, s')) by (apply (lk_table _ H); eauto).
  assert (He : g = h).
  { pose proof (lk_stored _ H g x Hx (roster_nonempty _ _ _ Hr)) as [_ Hsg].
    pose proof (lk_stored _ H h y Hy (roster_nonempty _ _ _ Hr')) as [_ Hsh].
    assert (m_dbStoreId x = m_dbStoreId y) by congruence. congruence. }
  split; [done|]. subst h. by apply (member_sub_unique w p g).
Qed.

(** ** Counting the references to a group *)

(** The members whose player objects exist. *)
Definition connected (w : World) (l : list MemberSlot) : nat :=
  length (List.filter (fun s => bool_decide (is_Some (players w !! ms_guid s))) l).

Lemma foldr_count {A} (f : A -> nat) (b : A -> bool) (l : list A) :
  (forall a, a ∈ l -> f a = if b a then 1%nat else 0%nat) ->
  foldr (fun a n => f a + n)%nat 0%nat l = length (List.filter b l).
Proof.
  induction l as [|a l IH]; intros Hf; [done|]. cbn. rewrite (Hf a), IH; [|intros c Hc; apply Hf; by right|by left].
  by destruct (b a).
Qed.

Lemma NoDup_map_filter {A B} (h : A -> B) (b : A -> bool) l : NoDup (map h l) -> NoDup (map h (List.filter b l)).
Proof.
  induction l as [|a l IH]; cbn; [done|]. intros [Ha Hl]%NoDup_cons.
  destruct (b a); [|by apply IH]. cbn. apply NoDup_cons. split; [|by apply IH].
  intros Hin. apply Ha. apply list_elem_of_In, in_map_iff in Hin as (c & <- & Hc).
  apply List.filter_In in Hc as [Hc _]. by apply list_elem_of_In, in_map.
Qed.

(** [m_memberMgr.getSize()] is the number of members who are connected. *)
Lemma refs_connected w g x :
  links_ok w -> groups w !! g = Some x -> refs g w = connected w (m_memberSlots x).
Proof.
  intros H Hx. pose proof (go_nodup _ (links_groups_ok _ H _ _ Hx)) as Hnd. unfold refs, connected.
  rewrite (foldr_count _ (fun px => bool_decide (GetGroup px.2 = Some g))).
  2: { intros [p P] HP%elem_of_map_to_list. unfold refers. cbn [snd].
       rewrite (bool_decide_false (GetOriginalGroup P = Some g))
         by (unfold GetOriginalGroup; by rewrite (lk_original _ H p P HP)).
       by destruct (bool_decide _). }
  rewrite <- (length_map fst), <- (length_map ms_guid). apply Permutation_length, NoDup_Permutation.
  - apply NoDup_map_filter. apply NoDup_fst_map_to_list.
  - by apply NoDup_map_filter.
  - intros p. rewrite !list_elem_of_In, !in_map_iff. setoid_rewrite List.filter_In. split.
    + intros ([q P] & <- & HP & Hg%bool_decide_eq_true). apply list_elem_of_In, elem_of_map_to_list in HP.
      cbn [fst snd] in *. unfold GetGroup in Hg. destruct (p_group P) as [[h s]|] eqn:Hr; [|done].
      cbn in Hg. injection Hg as ->. destruct (proj1 (lk_refs _ H q g s)) as [(y & Hy & Hin) _]; [by exists P|].
      rewrite Hx in Hy. injection Hy as <-. apply elem_of_roster in Hin as (t & Ht & <- & _).
      exists t. split_and!; [done|by apply list_elem_of_In|]. apply bool_decide_eq_true. by exists P.
    + intros (t & <- & Ht%list_elem_of_In & [P HP]%bool_decide_eq_true).
      destruct (proj2 (lk_refs _ H (ms_guid t) g (ms_group t))) as (P' & HP' & Hr).
      { split; [|by exists P]. exists x. split; [done|]. apply elem_of_roster. by exists t. }
      rewrite HP in HP'. injection HP' as <-. exists (ms_guid t, P). split; [done|]. split.
      * by apply list_elem_of_In, elem_of_map_to_list.
      * apply bool_decide_eq_true. cbn [snd]. unfold GetGroup. by rewrite Hr.
Qed.

(** ** One player's place changes *)

Section Place.
Context (w w' : World) (g p : Z) (x x' : Group) (n : option Z) (f : Player -> Player).
Context (H : links_ok w) (Hx : groups w !! g = Some x).
Context (Hgroups : groups w' = <[g := x']> (groups w))
        (Hroster : forall q s, (q, s) ∈ roster (m_memberSlots x') <->
                     (q <> p /\ (q, s) ∈ roster (m_memberSlots x)) \/ (q = p /\ n = Some s))
        (Hok : group_ok x') (Hsid : m_dbStoreId x' = m_dbStoreId x) (Hguid : m_guid x' = m_guid x)
        (Hinv : m_invitees x' = m_invitees x).
Context (Hplayers : forall q, players w' !! q = (if decide (p = q) then f else id) <$> players w !! q)
        (Hf : forall P, players w !! p = Some P ->
                p_group (f P) = (fun s => (g, s)) <$> n /\ p_originalGroup (f P) = None /\
                p_groupInvite (f P) = p_groupInvite P).
Context (Htable : forall q, group_member w' !! q
                  = if decide (p = q) then (fun s => (m_dbStoreId x, s)) <$> n else group_member w !! q)
        (Hmgr : mgr w' = mgr w) (Hnext : next_address w' = next_address w).
Context (Honly : forall h s, member_of w p h s -> h = g)
        (Hjoin : is_Some n -> (forall h, ~ invited_to w p h) /\ stored (mgr w) (m_dbStoreId x) g).

Lemma place_member q h s :
  member_of w' q h s <-> (q <> p /\ member_of w q h s) \/ (q = p /\ h = g /\ n = Some s).
Proof.
  unfold member_of. rewrite Hgroups. destruct (decide (h = g)) as [->|Hne].
  - rewrite lookup_insert_eq. split.
    + intros (y & [= <-] & Hr). apply Hroster in Hr as [[Hq Hr]|[-> ->]]; [left|right]; eauto.
    + intros [[Hq (y & Hy & Hr)]|(-> & _ & ->)]; exists x'; (split; [done|]); apply Hroster;
        [left; split; [done|]|by right]. by rewrite Hx in Hy; injection Hy as ->.
  - rewrite lookup_insert_ne by done. split.
    + intros (y & Hy & Hr). left. split; [|by exists y]. intros ->. apply Hne, (Honly h s). by exists y.
    + intros [[_ Hm]|(_ & ? & _)]; [done|congruence].
Qed.

Lemma place_refers q h s :
  refers_to w' q h s <-> (q <> p /\ refers_to w q h s) \/ (q = p /\ logged_in w p /\ h = g /\ n = Some s).
Proof.
  unfold refers_to. rewrite Hplayers. destruct (decide (p = q)) as [<-|Hne].
  - split.
    + intros (P' & HP & Hr). destruct (players w !! p) as [P|] eqn:E; [|done]. cbn in HP. injection HP as <-.
      right. destruct (Hf P eq_refl) as (Hg & _ & _). rewrite Hg in Hr. destruct n as [s'|]; [|done].
      cbn in Hr. injection Hr as -> ->. split_and!; [done|by exists P|done|done].
    + intros [[? _]|(_ & [P HP] & -> & ->)]; [done|]. rewrite HP. exists (f P). split; [done|].
      by destruct (Hf P HP) as (-> & _).
  - rewrite option_fmap_id. split; [by left; split; [congruence|]|]. intros [[_ ?]|[? _]]; [done|congruence].
Qed.

Lemma place_logged q : logged_in w' q <-> logged_in w q.
Proof. unfold logged_in. rewrite Hplayers. by rewrite fmap_is_Some. Qed.

Lemma place_invited q h : invited_to w' q h <-> invited_to w q h.
Proof.
  unfold invited_to. rewrite Hplayers. destruct (decide (p = q)) as [<-|Hne]; [|by rewrite option_fmap_id].
  destruct (players w !! p) as [P|] eqn:E; cbn; [|naive_solver].
  destruct (Hf P eq_refl) as (_ & _ & Hi). naive_solver congruence.
Qed.

Lemma place_invitee q h : invitee_of w' q h <-> invitee_of w q h.
Proof.
  unfold invitee_of. rewrite Hgroups. destruct (decide (h = g)) as [->|Hne].
  - rewrite lookup_insert_eq, Hx. split; intros (y & [= <-] & Hi); [exists x|exists x'];
      (split; [done|]); [by rewrite <- Hinv|by rewrite Hinv].
  - by rewrite lookup_insert_ne.
Qed.

Lemma place_group h y' :
  groups w' !! h = Some y' ->
  exists y, groups w !! h = Some y /\ m_dbStoreId y' = m_dbStoreId y /\ m_guid y' = m_guid y /\ group_ok y'.
Proof.
  rewrite Hgroups. intros [[<- <-]|[Hne Hy]]%lookup_insert_Some; [by exists x|].
  exists y'. split_and!; [done..|by apply (links_groups_ok w H h)].
Qed.

Lemma place_group_back h y :
  groups w !! h = Some y ->
  exists y', groups w' !! h = Some y' /\ m_dbStoreId y' = m_dbStoreId y /\ m_guid y' = m_guid y.
Proof.
  intros Hy. rewrite Hgroups. destruct (decide (h = g)) as [->|Hne].
  - rewrite Hx in Hy. injection Hy as <-. exists x'. by rewrite lookup_insert_eq.
  - exists y. by rewrite lookup_insert_ne.
Qed.

Lemma place_ok : links_ok w'.
Proof.
  pose proof H as [Hg Hi Hr Ho Ha Ht Hs Hsd Hp Hgu]. split; rewrite ?Hmgr, ?Hnext; [| | | | | | | |done|].
  - intros h y' Hy. destruct (place_group _ _ Hy) as (y & Hy0 & _ & _ & Hyok).
    split; [done|]. by apply (Hg h y).
  - intros q h. by rewrite place_invited, place_invitee.
  - intros q h s. rewrite place_refers, place_member, place_logged, Hr. naive_solver.
  - intros q P' HP. rewrite Hplayers in HP. destruct (players w !! q) as [P|] eqn:E; [|done].
    cbn in HP. injection HP as <-. destruct (decide (p = q)) as [<-|]; [by apply (Hf P E)|by apply (Ho q)].
  - intros q h k s Hq. rewrite place_invited in Hq. rewrite place_refers.
    intros [[_ Hre]|(-> & _ & _ & Hn)]; [by apply (Ha q h k s)|].
    pose proof Hjoin as Hj. destruct Hj as [Hni _]; [by rewrite Hn|]. by apply (Hni h).
  - intros q id s. rewrite Htable. destruct (decide (p = q)) as [<-|Hne].
    + split.
      * intros (s' & En & [= -> ->])%fmap_Some. exists g, x'. split_and!; [by rewrite Hgroups, lookup_insert_eq|done|].
        apply place_member. by right.
      * intros (h & y & Hy & <- & Hm). apply place_member in Hm as [[? _]|(_ & -> & ->)]; [done|].
        rewrite Hgroups, lookup_insert_eq in Hy. injection Hy as <-. by rewrite Hsid.
    + rewrite Ht. split.
      * intros (h & y & Hy & Hid & Hm). destruct (place_group_back h y Hy) as (y' & Hy' & Hid' & _).
        exists h, y'. split_and!; [done|congruence|]. apply place_member. left. by split; [congruence|].
      * intros (h & y' & Hy' & Hid & Hm). destruct (place_group h y' Hy') as (y & Hy & Hid' & _).
        exists h, y. split_and!; [done|congruence|]. apply place_member in Hm as [[_ ?]|[? _]]; [done|congruence].
  - intros id h Hst. destruct (Hs id h Hst) as (y & Hy & Hid).
    destruct (place_group_back h y Hy) as (y' & Hy' & Hid' & _). exists y'. by rewrite Hid'.
  - intros h y' Hy' Hne. destruct (decide (h = g)) as [->|Hhg].
    + rewrite Hgroups, lookup_insert_eq in Hy'. injection Hy' as <-. rewrite Hsid.
      destruct (m_memberSlots x') as [|t l] eqn:El; [done|].
      destruct (proj1 (Hroster (ms_guid t) (ms_group t))) as [[_ Hm]|[_ Hn]].
      * unfold roster. cbn. by left.
      * apply (Hsd g x Hx). intros E. rewrite E in Hm. by apply elem_of_nil in Hm.
      * apply Hjoin. by rewrite Hn.
    + rewrite Hgroups, lookup_insert_ne in Hy' by done. by apply Hsd.
  - intros k h Hk. destruct (Hgu k h Hk) as (y & Hy & Hgd).
    destruct (place_group_back h y Hy) as (y' & Hy' & _ & Hgd'). exists y'. by rewrite Hgd'.
Qed.
End Place.

(** ** New groups *)

Definition with_new_group (w : World) : World :=
  set_next_address (next_address w + 1) (set_groups (<[next_address w := new_Group]> (groups w)) w).

Lemma new_address_free w : links_ok w -> groups w !! next_address w = None.
Proof.
  intros H. destruct (groups w !! next_address w) as [x|] eqn:E; [|done].
  destruct (lk_groups _ H _ _ E). lia.
Qed.

Lemma new_group_member w q h s : links_ok w -> member_of (with_new_group w) q h s <-> member_of w q h s.
Proof.
  intros H. unfold member_of. cbn. destruct (decide (h = next_address w)) as [->|Hne].
  - rewrite lookup_insert_eq, (new_address_free w H). split; [|naive_solver].
    intros (x & [= <-] & Hr). by apply elem_of_nil in Hr.
  - by rewrite lookup_insert_ne.
Qed.

Lemma new_group_ok w : links_ok w -> links_ok (with_new_group w).
Proof.
  intros H. pose proof H as [Hg Hi Hr Ho Ha Ht Hs Hsd Hp Hgu].
  assert (Hold : forall h x, groups w !! h = Some x -> groups (with_new_group w) !! h = Some x).
  { intros h x Hx. cbn. rewrite lookup_insert_ne; [done|]. intros <-. by rewrite new_address_free in Hx. }
  split; [| | |done|done| | | |done|].
  - intros h x Hx. cbn in Hx |- *. apply lookup_insert_Some in Hx as [[<- <-]|[_ Hx]]; [split; [apply group_ok_new|lia]|].
    destruct (Hg h x Hx). split; [done|lia].
  - intros p h. change (invited_to (with_new_group w) p h) with (invited_to w p h). rewrite Hi.
    unfold invitee_of. cbn. destruct (decide (h = next_address w)) as [->|Hne].
    + rewrite lookup_insert_eq, (new_address_free w H). split; [naive_solver|]. intros (x & [= <-] & Hin). cbn in Hin. set_solver.
    + by rewrite lookup_insert_ne.
  - intros p h s. rewrite (new_group_member w p h s H). apply Hr.
  - intros p id s. cbn [group_member with_new_group set_next_address set_groups]. rewrite Ht. split.
    + intros (h & x & Hx & Hid & Hm). exists h, x. split_and!; [by apply Hold|done|by apply new_group_member].
    + intros (h & x & Hx & Hid & Hm). apply (new_group_member w p h s H) in Hm. exists h, x.
      split_and!; [|done|done]. destruct Hm as (y & Hy & _). rewrite (Hold _ _ Hy) in Hx. by injection Hx as <-.
  - intros id h Hst. destruct (Hs id h Hst) as (x & Hx & Hid). exists x. by rewrite (Hold _ _ Hx).
  - intros h x Hx Hne. cbn in Hx. apply lookup_insert_Some in Hx as [[<- <-]|[_ Hx]]; [done|]. by apply Hsd.
  - intros k h Hk. destruct (Hgu k h Hk) as (x & Hx & Hgd). exists x. by rewrite (Hold _ _ Hx).
Qed.

(** A group without members is given a database id. *)
Lemma register_ok w w' g x x' :
  links_ok w -> groups w !! g = Some x -> m_memberSlots x = [] -> ids_left (mgr w) ->
  (forall id, ~ stored (mgr w) id g) -> (forall k, GroupStore (mgr w) !! k <> Some g) ->
  groups w' = <[g := x']> (groups w) -> m_memberSlots x' = [] -> group_ok x' ->
  m_invitees x' = m_invitees x -> m_dbStoreId x' = NextGroupDbStoreId (mgr w) ->
  GroupDbStore (mgr w') = GroupDbStore (with_id g (mgr w)) ->
  NextGroupDbStoreId (mgr w') = NextGroupDbStoreId (with_id g (mgr w)) ->
  GroupStore (mgr w') = GroupStore (mgr w) ->
  players w' = players w -> group_member w' = group_member w -> next_address w' = next_address w ->
  links_ok w'.
Proof.
  intros H Hx Hnil Hids Hfresh Hnostore Hgroups Hnil' Hok Hinv Hid Hdb Hnxt Hgs Hpl Htab Hnext.
  pose proof H as [Hg Hi Hr Ho Ha Ht Hs Hsd Hp Hgu].
  destruct (with_id_spec g (mgr w) Hp Hids) as (Hpool & _ & _ & Hst).
  assert (Hst' : forall k h, stored (mgr w') k h <-> (k = NextGroupDbStoreId (mgr w) /\ h = g) \/ stored (mgr w) k h)
    by (intros k h; unfold stored at 1; rewrite Hdb; apply Hst).
  assert (Hmem : forall q h s, member_of w' q h s <-> member_of w q h s).
  { intros q h s. unfold member_of. rewrite Hgroups. destruct (decide (h = g)) as [->|Hne].
    - rewrite lookup_insert_eq, Hx. split; intros (y & [= <-] & Hy);
        rewrite ?Hnil, ?Hnil' in Hy; by apply elem_of_nil in Hy.
    - by rewrite lookup_insert_ne. }
  assert (Hback : forall h y, groups w !! h = Some y -> h <> g -> groups w' !! h = Some y)
    by (intros h y Hy Hne; by rewrite Hgroups, lookup_insert_ne).
  assert (Hpl' : forall p, logged_in w' p <-> logged_in w p) by (intros p; unfold logged_in; by rewrite Hpl).
  assert (Hmne : forall q h s, member_of w q h s -> h <> g).
  { intros q h s (y & Hy & Hin) ->. rewrite Hx in Hy. injection Hy as <-. rewrite Hnil in Hin. by apply elem_of_nil in Hin. }
  split; rewrite ?Hpl, ?Htab, ?Hnext, ?Hgs.
  - intros h y Hy. rewrite Hgroups in Hy. apply lookup_insert_Some in Hy as [[<- <-]|[_ Hy]]; [|by apply Hg].
    split; [done|by apply (Hg g x)].
  - intros p h. unfold invited_to. rewrite Hpl. fold (invited_to w p h). rewrite Hi. unfold invitee_of.
    rewrite Hgroups. destruct (decide (h = g)) as [->|Hne]; [|by rewrite lookup_insert_ne].
    rewrite lookup_insert_eq, Hx. split; intros (y & [= <-] & Hin); eexists; (split; [done|]);
      [by rewrite Hinv|by rewrite <- Hinv].
  - intros p h s. rewrite Hmem, Hpl', <- Hr. unfold refers_to. by rewrite Hpl.
  - done.
  - intros p h k s. unfold invited_to, refers_to. rewrite Hpl. apply Ha.
  - intros p id s. rewrite Ht. split; intros (h & y & Hy & Hyd & Hm).
    + exists h, y. rewrite Hmem. split_and!; [|done|done]. apply Hback; [done|by apply (Hmne p h s)].
    + apply Hmem in Hm. pose proof (Hmne _ _ _ Hm) as Hne. rewrite Hgroups, lookup_insert_ne in Hy by done. eauto.
  - intros id h [[-> ->]|Hsto]%Hst'; [exists x'; by rewrite Hgroups, lookup_insert_eq|].
    destruct (Hs id h Hsto) as (y & Hy & Hyd). exists y. split; [|done]. apply Hback; [done|].
    intros ->. by apply (Hfresh id).
  - intros h y Hy Hne. rewrite Hgroups in Hy. apply lookup_insert_Some in Hy as [[<- <-]|[_ Hy]]; [done|].
    apply Hst'. right. by apply Hsd.
  - destruct Hpool as [P1 P2 P3 P4]. split; rewrite ?Hdb, ?Hnxt.
    + done.
    + intros id Hlt. destruct (P2 id Hlt) as [h Hh]. exists h. unfold stored in *. by rewrite Hdb.
    + intros h Hh. apply (P3 h). unfold stored in *. by rewrite <- Hdb.
    + intros h Hh. apply (P4 h). unfold stored in *. by rewrite <- Hdb.
  - intros k h Hk. destruct (Hgu k h Hk) as (y & Hy & Hgd). exists y. split; [|done]. apply Hback; [done|].
    intros ->. by apply (Hnostore k).
Qed.

(** ** A group that is destroyed *)

Definition cut_player (g : Z) (P : Player) : Player :=
  set_groupInvite (if bool_decide (p_groupInvite P = Some g) then None else p_groupInvite P) (invalidate g P).

Record destroyed (g : Z) (w w' : World) : Prop := {
  ds_groups : groups w' = delete g (groups w);
  ds_players : forall p, players w' !! p = cut_player g <$> players w !! p;
  ds_table : forall p r, group_member w' !! p = Some r <->
               group_member w !! p = Some r /\ forall s, ~ member_of w p g s;
  ds_pool : pool_ok (mgr w');
  ds_store : forall id h, stored (mgr w') id h <-> stored (mgr w) id h /\ h <> g;
  ds_guids : forall k h, GroupStore (mgr w') !! k = Some h -> GroupStore (mgr w) !! k = Some h /\ h <> g;
  ds_next : next_address w' = next_address w
}.

Lemma cut_player_group g P h s :
  p_group (cut_player g P) = Some (h, s) <-> p_group P = Some (h, s) /\ h <> g.
Proof.
  cbn. destruct (p_group P) as [[k t]|]; [|naive_solver]. destruct (Z.eqb_spec k g); naive_solver.
Qed.

Lemma cut_player_invite g P h :
  p_groupInvite (cut_player g P) = Some h <-> p_groupInvite P = Some h /\ h <> g.
Proof. cbn. case_bool_decide; naive_solver. Qed.

Lemma destroyed_ok g w w' : links_ok w -> destroyed g w w' -> links_ok w'.
Proof.
  intros [Hg Hi Hr Ho Ha Ht Hs Hsd Hp Hgu] [Dg Dp Dt Dpool Dst Dgs Dn].
  assert (Hmem : forall q h s, member_of w' q h s <-> member_of w q h s /\ h <> g).
  { intros q h s. unfold member_of. rewrite Dg. split.
    - intros (x & [Hne Hx]%lookup_delete_Some & Hin). split; [by exists x|done].
    - intros [(x & Hx & Hin) Hne]. exists x. by rewrite lookup_delete_ne. }
  assert (Hinvd : forall q h, invited_to w' q h <-> invited_to w q h /\ h <> g).
  { intros q h. unfold invited_to. rewrite Dp. split.
    - intros (P' & HP & Hin). destruct (players w !! q) as [P|]; [|done]. injection HP as <-.
      apply cut_player_invite in Hin as [Hin Hne]. split; [by exists P|done].
    - intros [(P & HP & Hin) Hne]. rewrite HP. exists (cut_player g P). split; [done|]. by apply cut_player_invite. }
  assert (Href : forall q h s, refers_to w' q h s <-> refers_to w q h s /\ h <> g).
  { intros q h s. unfold refers_to. rewrite Dp. split.
    - intros (P' & HP & Hin). destruct (players w !! q) as [P|]; [|done]. injection HP as <-.
      apply cut_player_group in Hin as [Hin Hne]. split; [by exists P|done].
    - intros [(P & HP & Hin) Hne]. rewrite HP. exists (cut_player g P). split; [done|]. by apply cut_player_group. }
  split; rewrite ?Dn; [| | | | | | | |done|].
  - intros h x Hx. rewrite Dg in Hx. apply lookup_delete_Some in Hx as [_ Hx]. by apply Hg.
  - intros q h. rewrite Hinvd, Hi. unfold invitee_of. rewrite Dg. split.
    + intros [(x & Hx & Hin) Hne]. exists x. by rewrite lookup_delete_ne.
    + intros (x & [Hne Hx]%lookup_delete_Some & Hin). split; [by exists x|done].
  - intros q h s. rewrite Href, Hmem, Hr. unfold logged_in. rewrite Dp, fmap_is_Some. tauto.
  - intros q P' HP. rewrite Dp in HP. destruct (players w !! q) as [P|] eqn:E; [|done]. injection HP as <-.
    cbn. by rewrite (Ho q P E).
  - intros q h k s [Hq _]%Hinvd [Hre _]%Href. by apply (Ha q h k s).
  - intros q id s. rewrite Dt, Ht. split.
    + intros [(h & x & Hx & Hid & Hm) Hno]. exists h, x. rewrite Hmem, Dg.
      assert (h <> g) by (intros ->; by apply (Hno s)). by rewrite lookup_delete_ne.
    + intros (h & x & Hx & Hid & Hm). apply Hmem in Hm as [Hm Hne]. rewrite Dg, lookup_delete_ne in Hx by done.
      split; [by exists h, x|]. intros t Hmg.
      assert (Hw : links_ok w) by (by split). by destruct (member_group_unique w q h g s t Hw Hm Hmg).
  - intros id h [Hst Hne]%Dst. destruct (Hs id h Hst) as (x & Hx & Hid). exists x. by rewrite Dg, lookup_delete_ne.
  - intros h x Hx Hne. rewrite Dg in Hx. apply lookup_delete_Some in Hx as [Hgh Hx]. apply Dst.
    split; [by apply Hsd|done].
  - intros k h [Hk Hne]%Dgs. destruct (Hgu k h Hk) as (x & Hx & Hgd). exists x. by rewrite Dg, lookup_delete_ne.
Qed.

(** ** Players who log in and out *)

Lemma logout_ok w p P :
  links_ok w -> players w !! p = Some P -> p_groupInvite P = None ->
  links_ok (set_players (delete p (players w)) w).
Proof.
  intros [Hg Hi Hr Ho Ha Ht Hs Hsd Hpool Hgu] HP Hno. set (w' := set_players _ _).
  assert (Hl : forall q Q, players w' !! q = Some Q <-> q <> p /\ players w !! q = Some Q).
  { intros q Q. cbn. rewrite lookup_delete_Some. split; intros [? ?]; split; congruence. }
  split; try done.
  - intros q h. rewrite <- (Hi q h : invited_to w q h <-> invitee_of w' q h). unfold invited_to. split.
    + intros (Q & [_ HQ]%Hl & Hq). by exists Q.
    + intros (Q & HQ & Hq). exists Q. split; [|done]. apply Hl. split; [|done]. intros ->. congruence.
  - intros q h s. change (member_of w' q h s) with (member_of w q h s). split.
    + intros (Q & HQ & Hre). pose proof HQ as [_ HQ']%Hl. split; [|by exists Q]. apply (Hr q h s). by exists Q.
    + intros [Hm [Q [Hne HQ]%Hl]]. destruct (proj2 (Hr q h s)) as (Q' & HQ' & Hre); [split; [done|by exists Q]|].
      exists Q'. split; [|done]. by apply Hl.
  - intros q Q [_ HQ]%Hl. by apply (Ho q).
  - intros q h k s (Q & [_ HQ]%Hl & Hq) (Q' & [_ HQ']%Hl & Hre). apply (Ha q h k s); [by exists Q|by exists Q'].
Qed.

Lemma login_ok w p P g :
  links_ok w -> players w !! p = None -> p_groupInvite P = None -> p_originalGroup P = None ->
  p_group P = g -> (forall h s, g = Some (h, s) <-> member_of w p h s) ->
  links_ok (set_players (<[p := P]> (players w)) w).
Proof.
  intros [Hg Hi Hr Ho Ha Ht Hs Hsd Hpool Hgu] Hp Hno Hor Hpg Hm. set (w' := set_players _ _).
  assert (Hl : forall q Q, players w' !! q = Some Q <-> (q = p /\ Q = P) \/ (q <> p /\ players w !! q = Some Q)).
  { intros q Q. cbn. rewrite lookup_insert_Some. naive_solver. }
  split; try done.
  - intros q h. rewrite <- (Hi q h : invited_to w q h <-> invitee_of w' q h). unfold invited_to. split.
    + intros (Q & [[-> ->]|[_ HQ]]%Hl & Hq); [congruence|by exists Q].
    + intros (Q & HQ & Hq). exists Q. split; [|done]. apply Hl. right. split; [|done]. intros ->. congruence.
  - intros q h s. change (member_of w' q h s) with (member_of w q h s). split.
    + intros (Q & [[-> ->]|[Hne HQ]]%Hl & Hre).
      * split; [apply Hm; congruence|]. exists P. apply Hl. by left.
      * split; [apply (Hr q h s); by exists Q|]. exists Q. apply Hl. by right.
    + intros [Hmem [Q [[-> ->]|[Hne HQ]]%Hl]].
      * exists P. split; [apply Hl; by left|]. rewrite Hpg. by apply Hm.
      * destruct (proj2 (Hr q h s)) as (Q' & HQ' & Hre); [split; [done|by exists Q]|].
        exists Q'. split; [|done]. apply Hl. by right.
  - intros q Q [[-> ->]|[_ HQ]]%Hl; [done|by apply (Ho q)].
  - intros q h k s (Q & [[-> ->]|[Hne HQ]]%Hl & Hq) (Q' & HQ' & Hre); [congruence|].
    apply Hl in HQ' as [[-> ->]|[_ HQ']]; [done|]. apply (Ha q h k s); [by exists Q|by exists Q'].
Qed.
