(* ===== verification/GroupRoster.v ===== *)
(** * The member functions of a group on a consistent world (Groups/Group.cpp)

    From a world whose pointers agree, the member functions of [Group] and the
    group functions of [Player] return, touch no freed memory and keep every
    counter in its array; and what they leave agrees again. *)
From S2P Require Import Prelude.
From S2P Require Import Lists.
From S2P Require Import Group.
From S2P Require Import GroupSlots.
From S2P Require Import GroupLinks.
From S2P Require Import GroupMembers.
Local Open Scope Z_scope.

(** A group nobody has joined yet waits for its leader: he is among those it
    has invited, unless all invitations have been withdrawn. *)
Definition pending_group (w : World) (g : Z) (x : Group) : Prop :=
  m_dbStoreId x = 0 /\ isRaidGroup x = false /\
  (m_invitees x = ∅ \/ m_leaderGuid x ∈ m_invitees x) /\ (forall k, GroupStore (mgr w) !! k <> Some g).
Definition pending_ok (w : World) : Prop :=
  forall g x, groups w !! g = Some x -> m_memberSlots x = [] -> pending_group w g x.

Record world_ok (w : World) : Prop := { wo_links : links_ok w; wo_pending : pending_ok w }.

Lemma unstored w g x :
  links_ok w -> groups w !! g = Some x -> m_dbStoreId x = 0 -> forall id, ~ stored (mgr w) id g.
Proof.
  intros H Hx Hz id Hst. destruct (lk_store _ H id g Hst) as (y & Hy & Hid).
  rewrite Hx in Hy. injection Hy as <-. assert (id = 0) as -> by congruence.
  by apply (pool_zero _ (lk_pool _ H) g).
Qed.

(** ** Withdrawing all invitations *)

Lemma clear_invites_run l w :
  (forall p, p ∈ l -> logged_in w p) ->
  wp (clear_invites l) (fun _ w' =>
    (forall q, players w' !! q = (if decide (q ∈ l) then set_groupInvite None else id) <$> players w !! q) /\
    w' = set_players (players w') w) w.
Proof.
  revert w. induction l as [|p l IH]; intros w Hl; cbn [clear_invites].
  { apply wp_ret. split; [|by destruct w]. intros q.
    rewrite decide_False; [by rewrite option_fmap_id|]. intros Hq. by apply elem_of_nil in Hq. }
  apply wp_bind, wp_mod_player; [apply Hl; by left|].
  set (w1 := set_players _ w).
  assert (Hw1 : forall q, players w1 !! q = (if decide (q = p) then set_groupInvite None else id) <$> players w !! q).
  { intros q. cbn. destruct (decide (q = p)) as [->|Hne]; [by rewrite lookup_alter_eq|].
    rewrite lookup_alter_ne by done. by rewrite option_fmap_id. }
  eapply wp_mono; [apply (IH w1)|].
  - intros q Hq. unfold logged_in. rewrite Hw1, fmap_is_Some. apply Hl. by right.
  - intros _ w' [Hp ->]. split; [|done]. intros q. cbn. rewrite Hp, Hw1, <- option_fmap_compose.
    destruct (players w !! q) as [P|]; [|done]. cbn. f_equal.
    destruct (decide (q = p)) as [->|]; destruct (decide (_ ∈ l)), (decide (_ ∈ p :: l)); cbn;
      try done; set_solver.
Qed.

Lemma RemoveAllInvites_run g x w :
  groups w !! g = Some x -> (forall p, p ∈ m_invitees x -> logged_in w p) ->
  wp (RemoveAllInvites g) (fun _ w' =>
    (forall q, players w' !! q = (if decide (q ∈ m_invitees x) then set_groupInvite None else id) <$> players w !! q) /\
    w' = set_players (players w') (set_groups (alter (set_invitees ∅) g (groups w)) w)) w.
Proof.
  intros Hx Hl. unfold RemoveAllInvites. apply wp_bind, (wp_deref_group g x); [done|].
  apply wp_bind. eapply wp_mono.
  - apply clear_invites_run. intros p Hp. apply Hl. by apply elem_of_set_ordered.
  - intros _ w1 [Hp ->]. apply wp_mod_group; [by eexists|]. split; [|done].
    intros q. cbn. rewrite Hp. f_equal. by destruct (decide (q ∈ set_ordered _)) as [Hq|Hq],
      (decide (q ∈ m_invitees x)) as [Hi|Hi]; try done; rewrite elem_of_set_ordered in Hq.
Qed.

Lemma invitees_logged_in w g x :
  links_ok w -> groups w !! g = Some x -> forall p, p ∈ m_invitees x -> logged_in w p.
Proof.
  intros H Hx p Hp. destruct (proj2 (lk_invites _ H p g)) as (P & HP & _); [by exists x|]. by exists P.
Qed.

(** ** Destroying a group *)

Lemma invalidate_upd_refs g P sub :
  p_group P = Some (g, sub) \/ p_group P = None -> invalidate g (upd_refs None (p_originalGroup P) P) = invalidate g P.
Proof.
  intros [Hg|Hg]; unfold invalidate, upd_refs; cbn; rewrite Hg; [by rewrite Z.eqb_refl|done].
Qed.

Lemma disband_members_run g x hide l w :
  in_battle x = false ->
  (forall s P, s ∈ l -> players w !! ms_guid s = Some P ->
     (p_group P = None \/ exists sub, p_group P = Some (g, sub)) /\ p_originalGroup P = None) ->
  wp (disband_members g x hide l) (fun _ w' =>
    (forall q, invalidate g <$> players w' !! q = invalidate g <$> players w !! q) /\
    groups w' = groups w /\ mgr w' = mgr w /\ group_member w' = group_member w /\
    next_address w' = next_address w) w.
Proof.
  intros Hb. revert w. induction l as [|s l IH]; intros w Hl; cbn [disband_members]; [by apply wp_ret|].
  apply wp_bind, wp_get. apply wp_bind. unfold FindPlayer.
  destruct (players w !! ms_guid s) as [P|] eqn:HP; [destruct (IsInWorld P)|].
  - destruct (Hl s P) as [Hgr Hor]; [by left|done|].
    apply wp_bind. unfold unlink_member. rewrite Hb. apply wp_bind, (wp_deref_player _ P); [done|].
    rewrite bool_decide_false by (unfold GetOriginalGroup; by rewrite Hor). apply wp_mod_player; [by eexists|].
    set (w1 := set_players _ w).
    assert (Hw1 : forall q, invalidate g <$> players w1 !! q = invalidate g <$> players w !! q).
    { intros q. cbn. destruct (decide (ms_guid s = q)) as [<-|Hne]; [|by rewrite lookup_alter_ne].
      rewrite lookup_alter_eq, HP. cbn. f_equal. destruct Hgr as [Hn|[sub Hs]];
        [apply (invalidate_upd_refs g P 0); by right|apply (invalidate_upd_refs g P sub); by left]. }
    assert (Hl1 : forall s' P', s' ∈ l -> players w1 !! ms_guid s' = Some P' ->
              (p_group P' = None \/ exists sub, p_group P' = Some (g, sub)) /\ p_originalGroup P' = None).
    { intros s' P' Hs'. cbn. destruct (decide (ms_guid s = ms_guid s')) as [<-|Hne].
      - rewrite lookup_alter_eq, HP. intros [= <-]. cbn. split; [by left|done].
      - rewrite lookup_alter_ne by done. apply Hl. by right. }
    assert (Hrec : forall w2, players w2 = players w1 -> groups w2 = groups w -> mgr w2 = mgr w ->
              group_member w2 = group_member w -> next_address w2 = next_address w ->
              wp (disband_members g x hide l) (fun _ w' =>
                (forall q, invalidate g <$> players w' !! q = invalidate g <$> players w !! q) /\
                groups w' = groups w /\ mgr w' = mgr w /\ group_member w' = group_member w /\
                next_address w' = next_address w) w2).
    { intros w2 Hp2 Hg2 Hm2 Ht2 Hn2. eapply wp_mono; [apply (IH w2)|].
      - intros s' P'. rewrite Hp2. apply Hl1.
      - intros _ w' (Hq & -> & -> & -> & ->). split_and!; try done. intros q. by rewrite Hq, Hp2, Hw1. }
    destruct hide; cbn [negb st_when]; [apply wp_ret|apply wp_tell]; by apply Hrec.
  - apply wp_ret. apply IH. intros s' P' Hs' HP'. apply (Hl s' P'); [by right|done].
  - apply wp_ret. apply IH. intros s' P' Hs' HP'. apply (Hl s' P'); [by right|done].
Qed.

(** References to [g] and invitations of [g] cut, in either order. *)
Lemma cut_player_spec w g x q :
  links_ok w -> groups w !! g = Some x ->
  (invalidate g <$> ((if decide (q ∈ m_invitees x) then set_groupInvite None else id) <$> players w !! q))
  = cut_player g <$> players w !! q.
Proof.
  intros H Hx. destruct (players w !! q) as [P|] eqn:HP; [|done]. cbn. f_equal.
  assert (Hin : q ∈ m_invitees x <-> p_groupInvite P = Some g).
  { split.
    - intros Hq. destruct (proj2 (lk_invites _ H q g)) as (P' & HP' & Hi); [by exists x|]. congruence.
    - intros Hi. destruct (proj1 (lk_invites _ H q g)) as (y & Hy & Hq); [by exists P|]. congruence. }
  unfold cut_player. destruct (decide (q ∈ m_invitees x)) as [Hq|Hq].
  - rewrite bool_decide_true by by apply Hin. done.
  - rewrite bool_decide_false by (by intros E%Hin). by destruct P.
Qed.

Lemma invalidate_invite g P i : invalidate g (set_groupInvite i P) = set_groupInvite i (invalidate g P).
Proof. done. Qed.

Lemma member_stored w g x s l :
  links_ok w -> groups w !! g = Some x -> m_memberSlots x = s :: l -> stored (mgr w) (m_dbStoreId x) g.
Proof. intros H Hx Hs. apply (lk_stored _ H g x Hx). by rewrite Hs. Qed.

Lemma Disband_ok g x hide w :
  links_ok w -> groups w !! g = Some x -> m_memberSlots x <> [] ->
  wp (Disband g hide) (fun _ w' => destroyed g w w') w.
Proof.
  intros H Hx Hne. pose proof (links_groups_ok _ H _ _ Hx) as Hok.
  pose proof (lk_stored _ H g x Hx Hne) as Hst. destruct (go_regular _ Hok) as [Hb _].
  unfold Disband. apply wp_bind, (wp_deref_group g x); [done|].
  apply wp_bind. eapply wp_mono; [apply (disband_members_run g x hide (m_memberSlots x) w); [done|]|].
  { intros s P Hs HP. split; [|by eapply lk_original]. right. exists (ms_group s).
    destruct (proj2 (lk_refs _ H (ms_guid s) g (ms_group s))) as (P' & HP' & Hg).
    { split; [|by exists P]. exists x. split; [done|]. apply elem_of_roster. by exists s. }
    congruence. }
  intros _ w1 (Hinv & Hg1 & Hm1 & Ht1 & Hn1).
  apply wp_bind, wp_mod_group; [rewrite Hg1; by eexists|].
  set (w2 := set_groups _ w1).
  assert (Hx2 : groups w2 !! g = Some (upd_members [] (m_subGroupsCounts x) x))
    by (cbn; by rewrite lookup_alter_eq, Hg1, Hx).
  apply wp_bind. eapply wp_mono; [apply (RemoveAllInvites_run g _ w2 Hx2)|].
  { intros p Hp. unfold logged_in. cbn [players set_groups w2]. cbn in Hp.
    destruct (invitees_logged_in w g x H Hx p Hp) as [P HP]. specialize (Hinv p). rewrite HP in Hinv.
    destruct (players w1 !! p); [by eexists|done]. }
  cbn [m_invitees upd_members]. intros _ w3 [Hp3 ->]. rewrite Hb. cbn [negb st_when].
  apply wp_bind, wp_bind. unfold db_delete_group. apply wp_modify, wp_modify.
  apply wp_bind, wp_modify.
  unfold wp, delete_group. cbn [groups set_groups set_players set_mgr set_group_member w2].
  rewrite lookup_alter_eq, lookup_alter_eq, Hg1, Hx. cbn [fmap option_fmap option_map].
  split; cbn [groups set_groups set_players set_mgr set_group_member players mgr group_member next_address w2].
  - apply map_eq. intros h. destruct (decide (g = h)) as [<-|Hgh].
    + by rewrite !lookup_delete_eq.
    + by rewrite !lookup_delete_ne, !lookup_alter_ne.
  - intros q. rewrite lookup_fmap, Hp3. cbn [players set_groups w2].
    rewrite <- (cut_player_spec w g x q H Hx), <- !option_fmap_compose.
    specialize (Hinv q). destruct (players w1 !! q) as [P1|], (players w !! q) as [P|]; try done.
    assert (Hi : invalidate g P1 = invalidate g P) by (by apply (inj Some)).
    cbn [fmap option_fmap option_map]. f_equal.
    destruct (decide (q ∈ m_invitees x)); cbn [id compose]; rewrite ?invalidate_invite; by rewrite Hi.
  - intros p [id s]. rewrite Ht1, map_lookup_filter_Some. cbn. split.
    + intros [Hr Hid]. split; [done|]. intros t Hm. apply Hid.
      assert (Hr' : group_member w !! p = Some (m_dbStoreId x, t)) by (apply (lk_table _ H); by exists g, x).
      congruence.
    + intros [Hr Hno]. split; [done|]. intros ->. apply (lk_table _ H) in Hr as (h & y & Hy & Hid & Hm).
      assert (h = g) as ->; [|by apply (Hno s)].
      assert (Hsth : stored (mgr w) (m_dbStoreId y) h).
      { apply (lk_stored _ H h y Hy). destruct Hm as (y' & Hy' & Hin). rewrite Hy in Hy'. injection Hy' as <-.
        by apply roster_nonempty in Hin. }
      destruct Hst as [_ Hst], Hsth as [_ Hsth]. congruence.
  - rewrite Hm1. destruct (free_id_spec (mgr w) (m_dbStoreId x) g (lk_pool _ H) Hst). by split.
  - intros id h. rewrite Hm1. change (stored (FreeGroupDbStoreId (m_dbStoreId x) (mgr w)) id h <-> stored (mgr w) id h /\ h <> g).
    rewrite stored_free by apply Hst. split.
    + intros [Hid Hsto]. split; [done|]. intros ->. destruct (lk_store _ H id g Hsto) as (y & Hy & Hyd). congruence.
    + intros [Hsto Hhg]. split; [|done]. intros ->. destruct Hst as [_ Hst], Hsto as [_ Hsto]. congruence.
  - intros k h. rewrite Hm1. cbn. rewrite lookup_delete_Some. intros [Hk Hs]. split; [done|]. intros ->.
    destruct (lk_guids _ H k g Hs) as (y & Hy & Hgd). congruence.
  - done.
Qed.

(** A group nobody has joined, abandoned. *)
Lemma abandon_ok g x w :
  links_ok w -> groups w !! g = Some x -> m_memberSlots x = [] -> m_dbStoreId x = 0 ->
  (forall k, GroupStore (mgr w) !! k <> Some g) ->
  wp (RemoveAllInvites g;; delete_group g) (fun _ w' => destroyed g w w') w.
Proof.
  intros H Hx Hnil Hid Hgs. apply wp_bind. eapply wp_mono.
  { apply (RemoveAllInvites_run g x w Hx). by apply invitees_logged_in with g. }
  intros _ w1 [Hp ->]. unfold wp, delete_group. cbn [groups set_groups set_players].
  rewrite lookup_alter_eq, Hx. cbn [fmap option_fmap option_map].
  split; cbn [groups set_groups set_players players mgr group_member next_address].
  - apply map_eq. intros h. destruct (decide (g = h)) as [<-|Hgh]; [by rewrite !lookup_delete_eq|].
    by rewrite !lookup_delete_ne, !lookup_alter_ne.
  - intros q. rewrite lookup_fmap, Hp. by apply cut_player_spec.
  - intros p r. split; [|by intros [? _]]. intros Hr. split; [done|]. intros s (y & Hy & Hin).
    rewrite Hx in Hy. injection Hy as <-. rewrite Hnil in Hin. by apply elem_of_nil in Hin.
  - apply H.
  - intros id h. split; [|by intros [? _]]. intros Hs. split; [done|]. intros ->. by apply (unstored w g x H Hx Hid id).
  - intros k h Hk. split; [done|]. intros ->. by apply (Hgs k).
  - done.
Qed.

(** ** Groups nobody has joined yet *)

Lemma pending_destroyed g w w' : pending_ok w -> destroyed g w w' -> pending_ok w'.
Proof.
  intros H [Dg _ _ _ _ Dgs _] h x Hx Hnil. rewrite Dg in Hx. apply lookup_delete_Some in Hx as [Hne Hx].
  destruct (H h x Hx Hnil) as (Hid & Hr & Hi & Hs). split_and!; try done.
  intros k Hk. apply Dgs in Hk as [Hk _]. by apply (Hs k).
Qed.

Lemma world_destroyed g w w' : world_ok w -> destroyed g w w' -> world_ok w'.
Proof. intros [Hl Hp] Hd. split; [by apply (destroyed_ok g w)|by apply (pending_destroyed g w)]. Qed.

(** One group that has members changes, or one player. *)
Lemma pending_change w w' g x' :
  pending_ok w -> groups w' = <[g := x']> (groups w) -> m_memberSlots x' <> [] ->
  (forall k h, GroupStore (mgr w') !! k = Some h -> h = g \/ GroupStore (mgr w) !! k = Some h) -> pending_ok w'.
Proof.
  intros H Hg Hne Hs h x Hx Hnil. rewrite Hg in Hx. apply lookup_insert_Some in Hx as [[<- <-]|[Hgh Hx]]; [done|].
  destruct (H h x Hx Hnil) as (Hid & Hr & Hi & Hst). split_and!; try done.
  intros k Hk. apply Hs in Hk as [->|Hk]; [done|by apply (Hst k)].
Qed.

Lemma pending_alter w g f :
  pending_ok w ->
  (forall x, groups w !! g = Some x -> roster (m_memberSlots (f x)) = roster (m_memberSlots x) /\
     (m_memberSlots x = [] -> pending_group w g x -> pending_group w g (f x))) ->
  pending_ok (set_groups (alter f g (groups w)) w).
Proof.
  intros H Hf h x Hx Hnil. cbn in Hx. destruct (decide (g = h)) as [<-|Hne].
  - rewrite lookup_alter_eq in Hx. destruct (groups w !! g) as [y|] eqn:Hy; [|done]. injection Hx as <-.
    destruct (Hf y eq_refl) as [Hro Hp]. assert (Hy0 : m_memberSlots y = []).
    { apply length_zero_iff_nil. rewrite <- (length_roster _ _ Hro). by rewrite Hnil. }
    apply (Hp Hy0). by apply H.
  - rewrite lookup_alter_ne in Hx by done. by apply H.
Qed.

(** A field of a group that has members. *)
Lemma world_touch w g x f :
  world_ok w -> groups w !! g = Some x -> m_memberSlots x <> [] -> same_members x (f x) ->
  m_invitees (f x) = m_invitees x -> world_ok (set_groups (alter f g (groups w)) w).
Proof.
  intros [Hl Hp] Hx Hne Hs Hi. split.
  - apply touch_ok; [done|]. intros y Hy. rewrite Hx in Hy. by injection Hy as <-.
  - apply pending_alter; [done|]. intros y Hy. rewrite Hx in Hy. injection Hy as <-. split; [apply Hs|done].
Qed.

(** ** Joining *)

Lemma not_a_member w p P :
  links_ok w -> players w !! p = Some P -> p_group P = None -> forall g s, ~ member_of w p g s.
Proof.
  intros H HP Hg g s Hm. destruct (proj2 (lk_refs _ H p g s)) as (P' & HP' & Hr); [split; [done|by exists P]|].
  congruence.
Qed.

Lemma not_in_table w p :
  links_ok w -> (forall g s, ~ member_of w p g s) -> group_member w !! p = None.
Proof.
  intros H Hno. destruct (group_member w !! p) as [[id s]|] eqn:E; [|done].
  apply (lk_table _ H) in E as (g & x & _ & _ & Hm). by apply Hno in Hm.
Qed.

Definition joined (g sub : Z) (P : Player) : Player :=
  upd_refs (Some (g, sub)) (p_originalGroup P) (set_groupInvite None P).

(** What [AddMember] leaves. *)
Record added (g p sub : Z) (x x' : Group) (w w' : World) : Prop := {
  ad_groups : groups w' = <[g := x']> (groups w);
  ad_slots : m_memberSlots x' = m_memberSlots x ++ [mkSlot p sub 0 0];
  ad_players : forall q, players w' !! q = (if decide (p = q) then joined g sub else id) <$> players w !! q;
  ad_mgr : mgr w' = mgr w;
  ad_next : next_address w' = next_address w;
  ad_leader : m_leaderGuid x' = m_leaderGuid x;
  ad_type : m_groupType x' = m_groupType x;
  ad_sid : m_dbStoreId x' = m_dbStoreId x;
  ad_guid : m_guid x' = m_guid x;
  ad_ok : links_ok w'
}.

Lemma AddMember_ok g p x P w :
  links_ok w -> groups w !! g = Some x -> players w !! p = Some P -> p_groupInvite P = None ->
  p_group P = None -> IsFull x = false -> stored (mgr w) (m_dbStoreId x) g ->
  wp (AddMember g p) (fun r w' => r = true /\
    exists sub x', free_subgroup x = Some sub /\ added g p sub x x' w w') w.
Proof.
  intros H Hx HP Hi Hg Hfull Hst. pose proof (links_groups_ok _ H _ _ Hx) as Hok.
  pose proof (not_a_member w p P H HP Hg) as Hno.
  destruct (not_full_has_place x Hok Hfull) as (sub & Hsub & Hrange & Hlt & _).
  assert (Hnp : ~ In p (map ms_guid (m_memberSlots x))).
  { intros Hin. apply in_map_iff in Hin as (s & <- & Hin). apply (Hno g (ms_group s)). exists x.
    split; [done|]. apply elem_of_roster. exists s. by rewrite list_elem_of_In. }
  destruct (group_ok_add x p sub Hok Hnp Hrange Hlt) as (counts & Hcs & Hok').
  { intros Hr. unfold IsFull in Hfull. rewrite Hr in Hfull. by apply Z.leb_gt in Hfull. }
  destruct (go_regular _ Hok) as [Hb _].
  unfold AddMember. apply wp_bind, (wp_deref_group g x); [done|]. rewrite Hsub.
  apply wp_bind, (wp_check_counter _ counts); [done|].
  apply wp_bind, wp_mod_group; [by eexists|].
  apply wp_bind, wp_mod_player; [cbn; by eexists|].
  apply wp_bind, (wp_deref_player p (set_groupInvite None P)).
  { cbn. by rewrite lookup_alter_eq, HP. }
  cbn [p_group set_groupInvite]. rewrite Hg.
  apply wp_bind, wp_mod_player. { cbn. rewrite lookup_alter_eq, HP. by eexists. }
  set (x1 := upd_members (m_memberSlots x ++ [mkSlot p sub 0 0]) counts x).
  set (x2 := if isRaidGroup x then x1 else set_icons (replicate (Z.to_nat TARGETICONCOUNT) 0) x1).
  assert (Hok2 : group_ok x2).
  { unfold x2. destruct (isRaidGroup x); [done|]. by apply (group_ok_same_roster x1). }
  match goal with |- wp _ _ ?w1 => set (wa := w1) end.
  assert (Hga : groups wa !! g = Some x1) by (cbn; by rewrite lookup_alter_eq, Hx).
  assert (Hpa : forall q, players wa !! q = (if decide (p = q) then joined g sub else id) <$> players w !! q).
  { intros q. cbn. destruct (decide (p = q)) as [<-|Hne].
    - by rewrite lookup_alter_eq, lookup_alter_eq, HP.
    - rewrite !lookup_alter_ne by done. by rewrite option_fmap_id. }
  apply wp_bind. eapply (wp_mono _ (fun _ wb => groups wb = <[g := x2]> (groups w) /\ players wb = players wa /\
     mgr wb = mgr w /\ group_member wb = group_member w /\ next_address wb = next_address w)).
  { unfold x2. destruct (isRaidGroup x); cbn [negb st_when].
    - apply wp_ret. split_and!; [|done..]. cbn. by rewrite <- (insert_is_alter _ _ _ x).
    - apply wp_mod_group; [by eexists|]. split_and!; [|done..]. cbn.
      apply map_eq. intros h. destruct (decide (g = h)) as [<-|Hne].
      + by rewrite lookup_insert_eq, !lookup_alter_eq, Hx.
      + by rewrite lookup_insert_ne, !lookup_alter_ne. }
  intros _ wb (Hgb & Hpb & Hmb & Htb & Hnb). rewrite Hb. cbn [negb st_when].
  apply wp_bind, wp_modify. rewrite Htb, (not_in_table w p H Hno). apply wp_ret.
  split; [done|]. exists sub, x2. split; [done|].
  assert (Hx2 : m_memberSlots x2 = m_memberSlots x ++ [mkSlot p sub 0 0] /\ m_leaderGuid x2 = m_leaderGuid x /\
            m_groupType x2 = m_groupType x /\ m_dbStoreId x2 = m_dbStoreId x /\ m_guid x2 = m_guid x /\
            m_invitees x2 = m_invitees x) by (unfold x2; by destruct (isRaidGroup x)).
  destruct Hx2 as (Hsl & Hld & Hty & Hsi & Hgu & Hin).
  split; try done; [intros q; cbn; by rewrite Hpb, Hpa|].
  apply (place_ok w _ g p x x2 (Some sub) (joined g sub)); try done.
  - intros q s. rewrite Hsl. unfold roster. rewrite map_app, elem_of_app. cbn. rewrite list_elem_of_singleton.
    split.
    + intros [Hq|[= -> ->]]; [left|by right]. split; [|done]. intros ->. apply (Hno g s). by exists x.
    + intros [[_ Hq]|[-> [= ->]]]; [by left|by right].
  - intros q. cbn. by rewrite Hpb, Hpa.
  - intros Q HQ. rewrite HP in HQ. injection HQ as <-. cbn. split_and!; [done|by apply (lk_original _ H p)|done].
  - intros q. cbn. destruct (decide (p = q)) as [<-|]; [by rewrite lookup_insert_eq|by rewrite lookup_insert_ne].
  - intros h s Hm. by apply Hno in Hm.
  - intros _. split; [|done]. by apply (invited_to_None w p P).
Qed.

(** ** The first member *)

(** [Create] gives the group its ids and its leader as the only member. *)
Record created (g p : Z) (w w' : World) (x' : Group) : Prop := {
  cr_ok : links_ok w';
  cr_groups : groups w' = <[g := x']> (groups w);
  cr_slots : m_memberSlots x' = [mkSlot p 0 0 0];
  cr_leader : m_leaderGuid x' = p;
  cr_raid : isRaidGroup x' = false;
  cr_sid : m_dbStoreId x' = NextGroupDbStoreId (mgr w);
  cr_stored : stored (mgr w') (m_dbStoreId x') g;
  cr_store : GroupStore (mgr w') = GroupStore (mgr w);
  cr_players : forall q, players w' !! q = (if decide (p = q) then joined g 0 else id) <$> players w !! q;
  cr_next : next_address w' = next_address w
}.

Lemma Create_ok g p x P w :
  links_ok w -> groups w !! g = Some x -> m_memberSlots x = [] -> m_dbStoreId x = 0 -> isRaidGroup x = false ->
  (forall k, GroupStore (mgr w) !! k <> Some g) ->
  players w !! p = Some P -> p_groupInvite P = None -> p_group P = None -> ids_left (mgr w) ->
  wp (Create g p) (fun r w' => r = true /\ exists x', created g p w w' x') w.
Proof.
  intros H Hx Hnil Hsid Hraid Hgs HP Hi Hg Hids.
  pose proof (links_groups_ok _ H _ _ Hx) as Hok. destruct (go_regular _ Hok) as [Hb Hlfg].
  pose proof (go_counts _ Hok) as Hc. rewrite Hraid in Hc.
  destruct (Generate_next (mgr w) (lk_pool _ H) Hids) as (n & Hgen & _ & _ & _).
  set (m1 := mkGroupMgr (u32 (NextGroupId (mgr w) + 1)) (NextGroupDbStoreId (mgr w)) (GroupDbStore (mgr w))
               (GroupStore (mgr w))).
  assert (Hgen1 : GenerateNewGroupDbStoreId m1
                  = (NextGroupDbStoreId m1, mkGroupMgr (NextGroupId m1) n (GroupDbStore m1) (GroupStore m1), false)).
  { destruct (Generate_next m1) as (n1 & Hgen1 & _); [by destruct (lk_pool _ H)|done|]. rewrite Hgen1.
    assert (He : NextGroupDbStoreId (GenerateNewGroupDbStoreId m1).1.2
                 = NextGroupDbStoreId (GenerateNewGroupDbStoreId (mgr w)).1.2) by reflexivity.
    rewrite Hgen, Hgen1 in He. cbn in He. by rewrite He. }
  unfold Create. apply wp_bind, (wp_deref_group g x); [done|]. apply wp_bind, wp_get.
  unfold GenerateGroupId. apply wp_bind, wp_modify. rewrite Hb. unfold isRaidGroup in Hraid. rewrite Hraid.
  apply wp_bind, (wp_check_counter _ (m_subGroupsCounts x)); [done|].
  apply wp_bind, wp_mod_group; [by eexists|]. apply wp_bind, wp_get.
  cbn [mgr set_groups set_mgr]. fold m1. rewrite Hgen1.
  apply wp_bind, wp_modify. apply wp_bind, wp_mod_group.
  { cbn. rewrite lookup_alter_eq, Hx. by eexists. }
  match goal with |- wp _ _ ?w1 => set (wa := w1) end.
  set (x1 := set_ids (NextGroupId (mgr w)) (NextGroupDbStoreId (mgr w))
               (set_leader p (set_ids (NextGroupId (mgr w)) (m_dbStoreId x)
                  (upd_type (m_groupType x) (m_subGroupsCounts x) (upd_loot (if isLFGGroup x then m_lootMethod x else GROUP_LOOT) 2 p x))))).
  assert (Hga : groups wa = <[g := x1]> (groups w)).
  { cbn. apply map_eq. intros h. destruct (decide (g = h)) as [<-|Hne].
    - by rewrite lookup_insert_eq, !lookup_alter_eq, Hx.
    - by rewrite lookup_insert_ne, !lookup_alter_ne. }
  assert (Hok1 : group_ok x1) by (by apply (group_ok_same_roster x)).
  assert (Hdb : GroupDbStore (mgr wa) = GroupDbStore (with_id g (mgr w)) /\
                NextGroupDbStoreId (mgr wa) = NextGroupDbStoreId (with_id g (mgr w))).
  { unfold with_id. rewrite Hgen. done. }
  destruct Hdb as [Hdb Hnx].
  assert (Hla : links_ok wa).
  { apply (register_ok w wa g x x1); try done. by apply (unstored w g x). }
  assert (Hxa : groups wa !! g = Some x1) by (rewrite Hga; apply lookup_insert_eq).
  assert (Hsta : stored (mgr wa) (m_dbStoreId x1) g).
  { destruct (with_id_spec g (mgr w) (lk_pool _ H) Hids) as (_ & _ & _ & Hst).
    unfold stored. rewrite Hdb. apply Hst. by left. }
  apply wp_bind. eapply wp_mono; [apply (AddMember_ok g p x1 P wa Hla Hxa HP Hi Hg)|].
  { unfold IsFull, GetMembersCount. cbn [m_memberSlots x1 set_ids set_leader upd_type upd_loot]. rewrite Hnil.
    by destruct (isRaidGroup x1). }
  { done. }
  intros r wb (-> & sub & x2 & Hsub & Hadd). apply wp_ret. split; [done|].
  assert (sub = 0) as ->.
  { unfold free_subgroup in Hsub. change (m_subGroupsCounts x1) with (m_subGroupsCounts x) in Hsub. rewrite Hc in Hsub. congruence. }
  exists x2. destruct Hadd as [Ag As Ap Am An Al At Ai Agu Aok]. split.
  - done.
  - rewrite Ag, Hga. by rewrite insert_insert_eq.
  - rewrite As. change (m_memberSlots x1) with (m_memberSlots x). by rewrite Hnil.
  - by rewrite Al.
  - unfold isRaidGroup. by rewrite At.
  - by rewrite Ai.
  - by rewrite Am, Ai.
  - by rewrite Am.
  - done.
  - by rewrite An.
Qed.

(** ** Leaving *)

Lemma roster_erase l p q s :
  NoDup (map ms_guid l) -> (q, s) ∈ roster (erase_slot p l) <-> q <> p /\ (q, s) ∈ roster l.
Proof.
  intros Hnd. destruct (getMemberSlot l p) as [t|] eqn:Ht.
  - destruct (slot_split _ _ _ Ht) as (l1 & l2 & -> & Hg & H1). rewrite (erase_slot_split l1 t l2) by done.
    assert (H2 : forall u, u ∈ l2 -> ms_guid u <> p).
    { intros u Hu He. rewrite map_app in Hnd. cbn in Hnd. apply NoDup_app in Hnd as (_ & _ & [Hn _]%NoDup_cons).
      apply Hn. rewrite Hg, <- He. by apply list_elem_of_In, in_map, list_elem_of_In. }
    rewrite !elem_of_roster. split.
    + intros (u & Hu & <- & <-). apply elem_of_app in Hu as [Hu|Hu]; (split; [auto|]); exists u;
        (split; [apply elem_of_app|done]); [by left|right; by right].
    + intros [Hne (u & Hu & <- & <-)]. exists u. split; [|done].
      apply elem_of_app in Hu as [Hu|[->|Hu]%elem_of_cons]; [apply elem_of_app; by left|done|apply elem_of_app; by right].
  - assert (He : erase_slot p l = l).
    { clear -Ht. induction l as [|u l IH]; [done|]. cbn in *. destruct (ms_guid u =? p); [done|]. by rewrite IH. }
    rewrite He. split; [|by intros [_ ?]]. intros Hin. split; [|done]. intros ->.
    apply elem_of_roster in Hin as (u & Hu & Hgu & _). by apply (getMemberSlot_None _ _ _ Ht Hu).
Qed.

Lemma length_erase l p s : getMemberSlot l p = Some s -> length l = S (length (erase_slot p l)).
Proof.
  intros Hs. destruct (slot_split _ _ _ Hs) as (l1 & l2 & -> & Hg & H1).
  rewrite (erase_slot_split l1 s l2) by done. rewrite !length_app. cbn. lia.
Qed.

(** The leader's place is taken by a member in the world, or nothing happens. *)
Lemma ChangeLeader_ok g p x w :
  world_ok w -> groups w !! g = Some x -> m_memberSlots x <> [] ->
  wp (ChangeLeader g p) (fun _ w' => world_ok w' /\ players w' = players w /\
    group_member w' = group_member w /\ next_address w' = next_address w /\
    exists x', groups w' = <[g := x']> (groups w) /\ roster (m_memberSlots x') = roster (m_memberSlots x) /\
      m_leaderGuid x' = (match getMemberSlot (m_memberSlots x) p, FindPlayer w p with
                         | Some _, Some _ => p | _, _ => m_leaderGuid x end)) w.
Proof.
  intros Hw Hx Hne. pose proof (links_groups_ok _ (wo_links _ Hw) _ _ Hx) as Hok.
  unfold ChangeLeader. apply wp_bind, (wp_deref_group g x); [done|]. apply wp_bind, wp_get.
  assert (Hsame : wp (mret tt) (fun (_ : unit) w' => world_ok w' /\ players w' = players w /\
            group_member w' = group_member w /\ next_address w' = next_address w /\
            exists x', groups w' = <[g := x']> (groups w) /\ roster (m_memberSlots x') = roster (m_memberSlots x) /\
              m_leaderGuid x' = m_leaderGuid x) w).
  { apply wp_ret. split_and!; [done..|]. exists x. by rewrite insert_id. }
  destruct (getMemberSlot (m_memberSlots x) p) as [s|]; [|exact Hsame].
  destruct (FindPlayer w p) as [P|]; [|exact Hsame].
  apply wp_bind, wp_mod_group; [by eexists|]. apply wp_mod_group; [cbn; rewrite lookup_alter_eq, Hx; by eexists|].
  set (f1 := set_leader p). set (f2 := fun x : Group => _).
  assert (Hcomp : alter f2 g (alter f1 g (groups w)) = alter (f2 ∘ f1) g (groups w))
    by apply alter_alter_eq.
  cbn [groups set_groups]. rewrite Hcomp.
  assert (Hro : roster (m_memberSlots (f2 (f1 x))) = roster (m_memberSlots x)) by (by apply roster_on_slot).
  split_and!; [|done..|].
  - apply (world_touch w g x (f2 ∘ f1)); try done. split_and!; try done. by apply (group_ok_same_roster x).
  - exists (f2 (f1 x)). split_and!; [|done|done]. cbn. symmetry. by apply (insert_is_alter _ (f2 ∘ f1) g x).
Qed.

(** The world after the roster has forgotten [p]. *)
Record left_group (g p : Z) (x x' : Group) (w w' : World) : Prop := {
  lf_groups : groups w' = <[g := x']> (groups w);
  lf_slots : m_memberSlots x' = erase_slot p (m_memberSlots x);
  lf_leader : m_leaderGuid x' = m_leaderGuid x;
  lf_type : m_groupType x' = m_groupType x;
  lf_players : forall q, players w' !! q
               = (if decide (p = q) then fun P => upd_refs None (p_originalGroup P) P else id) <$> players w !! q;
  lf_mgr : mgr w' = mgr w;
  lf_ok : world_ok w'
}.

Lemma unlink_spec g p w x P s :
  links_ok w -> groups w !! g = Some x -> players w !! p = Some P -> p_group P = Some (g, s) ->
  wp (unlink_member g x p)
    (fun _ w' => w' = set_players (alter (fun P => upd_refs None (p_originalGroup P) P) p (players w)) w) w.
Proof.
  intros H Hx HP Hg. destruct (go_regular _ (links_groups_ok _ H _ _ Hx)) as [Hb _].
  unfold unlink_member. rewrite Hb. apply wp_bind, (wp_deref_player p P); [done|].
  pose proof (lk_original _ H p P HP) as Hor.
  rewrite bool_decide_false by (unfold GetOriginalGroup; by rewrite Hor).
  unfold SetGroup. apply wp_mod_player; [by eexists|done].
Qed.

(** The table row and the reference go, whether or not the player has been
    unlinked already. *)
Lemma delink_run g p s w w1 :
  links_ok w -> member_of w p g s ->
  groups w1 = groups w -> mgr w1 = mgr w -> next_address w1 = next_address w ->
  group_member w1 = group_member w -> (forall q, p <> q -> players w1 !! q = players w !! q) ->
  (players w1 !! p = players w !! p \/
   players w1 !! p = (fun P => upd_refs None (p_originalGroup P) P) <$> players w !! p) ->
  wp (db_delete_member p;; DelinkMember g p) (fun _ w2 =>
    groups w2 = groups w /\ mgr w2 = mgr w /\ next_address w2 = next_address w /\
    group_member w2 = delete p (group_member w) /\
    (forall q, players w2 !! q = (if decide (p = q) then fun P => upd_refs None (p_originalGroup P) P else id)
       <$> players w !! q)) w1.
Proof.
  intros H Hm Hg1 Hm1 Hn1 Ht1 Hoth Hself. apply wp_bind, wp_modify, wp_modify. cbn [players set_group_member].
  destruct (players w !! p) as [P|] eqn:HP.
  - pose proof (lk_original _ H p P HP) as Hor.
    assert (HgP : p_group P = Some (g, s)).
    { destruct (proj2 (lk_refs _ H p g s)) as (P' & HP' & Hr); [split; [done|by exists P]|]. congruence. }
    assert (Hq : forall m : gmap Z Player, m !! p = Some (upd_refs None (p_originalGroup P) P) ->
              (forall q, p <> q -> m !! q = players w1 !! q) ->
              forall q, m !! q = (if decide (p = q) then fun P => upd_refs None (p_originalGroup P) P else id) <$> players w !! q).
    { intros m Hmp Hmq q. destruct (decide (p = q)) as [<-|Hne]; [by rewrite Hmp, HP|].
      rewrite Hmq, Hoth by done. by rewrite option_fmap_id. }
    destruct Hself as [He|He]; rewrite He; cbn [fmap option_fmap option_map].
    + rewrite bool_decide_true by (unfold GetGroup; by rewrite HgP). split_and!; cbn; try done; [by rewrite Ht1|].
      apply Hq; [by rewrite lookup_insert_eq|]. intros q Hne. by rewrite lookup_insert_ne.
    + rewrite bool_decide_false by done. rewrite bool_decide_false by (unfold GetOriginalGroup; cbn; by rewrite Hor).
      split_and!; cbn; try done; [by rewrite Ht1|]. apply Hq; [by rewrite He|done].
  - assert (Hnone : players w1 !! p = None) by (by destruct Hself). rewrite Hnone.
    split_and!; cbn; try done; [by rewrite Ht1|]. intros q.
    destruct (decide (p = q)) as [<-|Hne]; [by rewrite HP, Hnone|]. rewrite Hoth by done. by rewrite option_fmap_id.
Qed.

(** The slot goes. *)
Lemma drop_slot_ok g p x s w w2 :
  world_ok w -> groups w !! g = Some x -> getMemberSlot (m_memberSlots x) p = Some s ->
  (2 <= length (m_memberSlots x))%nat ->
  groups w2 = groups w -> mgr w2 = mgr w -> next_address w2 = next_address w ->
  group_member w2 = delete p (group_member w) ->
  (forall q, players w2 !! q = (if decide (p = q) then fun P => upd_refs None (p_originalGroup P) P else id)
     <$> players w !! q) ->
  wp (match getMemberSlot (m_memberSlots x) p with
      | None => mret tt
      | Some s =>
          counts ← check_counter (counter_step (-1) (ms_group s) (m_subGroupsCounts x));
          mod_group g (upd_members (erase_slot p (m_memberSlots x)) counts)
      end) (fun _ w' => exists x', left_group g p x x' w w') w2.
Proof.
  intros Hw Hx Hs Hlen Hg2 Hm2 Hn2 Ht2 Hp2. pose proof (wo_links _ Hw) as H.
  pose proof (links_groups_ok _ H _ _ Hx) as Hok. pose proof (go_nodup _ Hok) as Hnd.
  destruct (group_ok_erase x p s Hok Hs) as (counts & Hcs & Hok').
  set (x' := upd_members (erase_slot p (m_memberSlots x)) counts x).
  assert (Hm : member_of w p g (ms_group s)).
  { exists x. split; [done|]. apply getMemberSlot_roster; [done|]. by exists s. }
  assert (Hne' : m_memberSlots x' <> []).
  { cbn. rewrite (length_erase _ _ _ Hs) in Hlen. intros E. rewrite E in Hlen. cbn in Hlen. lia. }
  rewrite Hs. apply wp_bind, (wp_check_counter _ counts); [done|].
  apply wp_mod_group; [rewrite Hg2; by eexists|]. exists x'.
  assert (Hgr : alter (upd_members (erase_slot p (m_memberSlots x)) counts) g (groups w2) = <[g := x']> (groups w)).
  { rewrite Hg2. symmetry. by apply (insert_is_alter _ (upd_members (erase_slot p (m_memberSlots x)) counts) g x). }
  split; try done. split.
  - apply (place_ok w _ g p x x' None (fun P => upd_refs None (p_originalGroup P) P)); try done.
    + intros q t. cbn. rewrite roster_erase by done. naive_solver.
    + intros P HP. split_and!; [done|cbn; by apply (lk_original _ H p P)|done].
    + intros q. cbn. rewrite Ht2. destruct (decide (p = q)) as [<-|];
        [by rewrite lookup_delete_eq|by rewrite lookup_delete_ne].
    + intros h t Hmh. by destruct (member_group_unique w p h g t (ms_group s) H Hmh Hm).
  - apply (pending_change w _ g x'); [apply Hw|done|done|]. intros k h. cbn. rewrite Hm2. by right.
Qed.

Lemma forget_member_ok g p x s method w :
  world_ok w -> groups w !! g = Some x -> getMemberSlot (m_memberSlots x) p = Some s ->
  (2 <= length (m_memberSlots x))%nat ->
  wp (forget_member g p x method) (fun _ w' => exists x', left_group g p x x' w w') w.
Proof.
  intros Hw Hx Hs Hlen. pose proof (wo_links _ Hw) as H. pose proof (links_groups_ok _ H _ _ Hx) as Hok.
  destruct (go_regular _ Hok) as [Hb _].
  assert (Hm : member_of w p g (ms_group s)).
  { exists x. split; [done|]. apply getMemberSlot_roster; [apply Hok|]. by exists s. }
  assert (Hrest : forall w1, groups w1 = groups w -> mgr w1 = mgr w -> next_address w1 = next_address w ->
            group_member w1 = group_member w -> (forall q, p <> q -> players w1 !! q = players w !! q) ->
            (players w1 !! p = players w !! p \/
             players w1 !! p = (fun P => upd_refs None (p_originalGroup P) P) <$> players w !! p) ->
            wp (st_when (negb (in_battle x)) (db_delete_member p;; DelinkMember g p)) (fun _ w' =>
              wp (match getMemberSlot (m_memberSlots x) p with
                  | None => mret tt
                  | Some s =>
                      counts ← check_counter (counter_step (-1) (ms_group s) (m_subGroupsCounts x));
                      mod_group g (upd_members (erase_slot p (m_memberSlots x)) counts)
                  end) (fun _ w' => exists x', left_group g p x x' w w') w') w1).
  { intros w1 Hg1 Hm1 Hn1 Ht1 Hoth Hself. rewrite Hb. eapply wp_mono; [by apply (delink_run g p (ms_group s) w)|].
    intros _ w2 (? & ? & ? & ? & ?). by apply (drop_slot_ok g p x s w). }
  unfold forget_member. apply wp_bind, wp_get. apply wp_bind. unfold FindPlayer.
  destruct (players w !! p) as [P|] eqn:HP; [destruct (IsInWorld P)|].
  - destruct (proj2 (lk_refs _ H p g (ms_group s))) as (P' & HP' & Hr); [split; [done|by exists P]|].
    rewrite HP in HP'. injection HP' as <-.
    apply wp_bind. eapply wp_mono; [by apply (unlink_spec g p w x P (ms_group s))|]. intros _ w1 ->.
    assert (Hq : forall q, p <> q -> alter (fun P => upd_refs None (p_originalGroup P) P) p (players w) !! q = players w !! q)
      by (intros q Hne; by rewrite lookup_alter_ne).
    destruct (is_any_kick method); cbn [st_when]; [apply wp_tell|apply wp_ret]; apply wp_bind, Hrest; try done;
      right; cbn; by rewrite lookup_alter_eq, HP.
  - apply wp_ret, wp_bind, Hrest; try done. by left.
  - apply wp_ret, wp_bind, Hrest; try done. by left.
Qed.

Section Leave.
Context (lfg_left_dungeon : World -> Z -> bool).

(** What a departure leaves for the others. *)
Record departed (w w' : World) : Prop := {
  dp_ok : world_ok w';
  dp_players : forall q P', players w' !! q = Some P' -> exists P, players w !! q = Some P /\
                 (p_groupInvite P' = p_groupInvite P \/ p_groupInvite P' = None);
  dp_logged : forall q, logged_in w' q <-> logged_in w q
}.

Lemma departed_destroyed g w w' : world_ok w -> destroyed g w w' -> departed w w'.
Proof.
  intros Hw Hd. split; [by apply (world_destroyed g w)| |].
  - intros q P' HP. rewrite (ds_players _ _ _ Hd) in HP. destruct (players w !! q) as [P|]; [|done].
    injection HP as <-. exists P. split; [done|]. cbn. case_bool_decide; [by right|by left].
  - intros q. unfold logged_in. rewrite (ds_players _ _ _ Hd). by rewrite fmap_is_Some.
Qed.

Lemma departed_left g p x x' w w' : left_group g p x x' w w' -> departed w w'.
Proof.
  intros Hl. split; [apply Hl| |].
  - intros q P' HP. rewrite (lf_players _ _ _ _ _ _ Hl) in HP. destruct (players w !! q) as [P|]; [|done].
    injection HP as <-. exists P. split; [done|]. left. by destruct (decide (p = q)).
  - intros q. unfold logged_in. rewrite (lf_players _ _ _ _ _ _ Hl). by rewrite fmap_is_Some.
Qed.

Lemma departed_trans w1 w2 w3 : departed w1 w2 -> departed w2 w3 -> departed w1 w3.
Proof.
  intros [_ H1 L1] [Ho H2 L2]. split; [done| |].
  - intros q P3 HP3. destruct (H2 q P3 HP3) as (P2 & HP2 & Hi2). destruct (H1 q P2 HP2) as (P1 & HP1 & Hi1).
    exists P1. split; [done|]. destruct Hi1 as [<-|Hi1], Hi2 as [Hi2|Hi2]; rewrite ?Hi1 in Hi2; auto.
  - intros q. by rewrite L2, L1.
Qed.

Lemma departed_players w w' : world_ok w' -> players w' = players w -> departed w w'.
Proof.
  intros Hw Hp. split; [done| |].
  - intros q P' HP. exists P'. rewrite <- Hp. split; [done|by left].
  - intros q. unfold logged_in. by rewrite Hp.
Qed.

Lemma Disband_departed g x hide w :
  world_ok w -> groups w !! g = Some x -> m_memberSlots x <> [] ->
  wp (Disband g hide) (fun _ w' => departed w w') w.
Proof.
  intros Hw Hx Hne. eapply wp_mono; [apply (Disband_ok g x hide w); [apply Hw|done|done]|].
  intros [] w' Hd. by apply (departed_destroyed g).
Qed.

(** Who leads after [p] has left the members [l]. *)
Definition successor (w : World) (leader p : Z) (l : list MemberSlot) : Z :=
  if leader =? p then match first_in_world w l with Some s => ms_guid s | None => leader end else leader.

(** The group without [p] goes on if more than two were in it and two who
    remain are connected; otherwise it is destroyed. *)
Definition removed (w w' : World) (g p : Z) (x : Group) (r : bool) : Prop :=
  let rest := erase_slot p (m_memberSlots x) in
  if (2 <? GetMembersCount x) && Nat.leb 2 (connected w rest) then
    r = true /\ exists x', groups w' !! g = Some x' /\ roster (m_memberSlots x') = roster rest /\
      m_leaderGuid x' = successor w (m_leaderGuid x) p rest
  else r = (2 <? GetMembersCount x) /\ groups w' !! g = None.

Lemma connected_roster w l l' : roster l' = roster l -> connected w l' = connected w l.
Proof.
  assert (H : forall l, connected w l
              = length (List.filter (fun q => bool_decide (is_Some (players w !! q))) (map fst (roster l)))).
  { clear. intros l. unfold connected, roster. rewrite map_map. induction l as [|s l IH]; [done|].
    cbn. destruct (bool_decide _); cbn; by rewrite IH. }
  intros Hr. by rewrite !H, Hr.
Qed.

Lemma connected_players w w' l :
  (forall q, is_Some (players w' !! q) <-> is_Some (players w !! q)) -> connected w' l = connected w l.
Proof.
  intros H. unfold connected. f_equal. apply List.filter_ext. intros s.
  by apply bool_decide_ext.
Qed.

Lemma first_in_world_players w w' l :
  (forall q, IsInWorld <$> players w' !! q = IsInWorld <$> players w !! q) -> first_in_world w' l = first_in_world w l.
Proof.
  intros H. unfold first_in_world. induction l as [|s l IH]; [done|]. cbn.
  rewrite IH. assert (E : forall w q, match FindPlayer w q with Some _ => true | None => false end
                            = default false (IsInWorld <$> players w !! q)).
  { intros v q. unfold FindPlayer. destruct (players v !! q) as [P|]; [|done]. cbn. by destruct (IsInWorld P). }
  by rewrite !E, H.
Qed.

(** What [RemoveMember] does, and that it keeps the world consistent. *)
Lemma RemoveMember_ok g p x s method w :
  world_ok w -> groups w !! g = Some x -> getMemberSlot (m_memberSlots x) p = Some s ->
  wp (RemoveMember lfg_left_dungeon g p method) (fun r w' => departed w w' /\ removed w w' g p x r) w.
Proof.
  intros Hw Hx Hs. pose proof (links_groups_ok _ (wo_links _ Hw) _ _ Hx) as Hok.
  destruct (go_regular _ Hok) as [Hb Hlfg]. unfold removed.
  assert (Hne : m_memberSlots x <> []) by (intros E; by rewrite E in Hs).
  assert (Hgone : forall w0 w' y, departed w w0 -> destroyed g w0 w' -> groups w0 !! g = Some y ->
            departed w w' /\ groups w' !! g = None).
  { intros w0 w' y Hd0 Hd Hy. split.
    - apply (departed_trans w w0); [done|]. apply (departed_destroyed g); [apply Hd0|done].
    - rewrite (ds_groups _ _ _ Hd). apply lookup_delete_eq. }
  assert (Hself : departed w w) by (by apply departed_players).
  unfold RemoveMember. apply wp_bind, (wp_deref_group g x); [done|]. rewrite Hlfg, Hb. cbn [andb orb].
  destruct (Z.ltb_spec 2 (GetMembersCount x)) as [Hlt|Hle]; cbn [andb].
  2: { apply wp_bind. eapply wp_mono; [apply (Disband_ok g x false w); [apply Hw|done|done]|].
       intros [] w' Hd. apply wp_ret. destruct (Hgone w w' x Hself Hd Hx). auto. }
  unfold GetMembersCount in Hlt.
  apply wp_bind. eapply wp_mono; [apply (forget_member_ok g p x s method w Hw Hx Hs); lia|].
  intros _ w1 (x1 & Hl). pose proof (departed_left _ _ _ _ _ _ Hl) as Hd1. destruct Hl as [Lg Ls Ll Lt Lp Lm Lw].
  assert (Hx1 : groups w1 !! g = Some x1) by (rewrite Lg; apply lookup_insert_eq).
  assert (Hne1 : m_memberSlots x1 <> []).
  { rewrite Ls. intros E. rewrite (length_erase _ _ _ Hs), E in Hlt. cbn in Hlt. lia. }
  assert (Hfirst : first_in_world w1 (m_memberSlots x1) = first_in_world w (m_memberSlots x1)).
  { apply first_in_world_players. intros q. rewrite Lp. destruct (players w !! q); [|done]. cbn.
    by destruct (decide (p = q)). }
  apply wp_bind, (wp_deref_group g x1); [done|]. apply wp_bind, wp_get.
  apply wp_bind. eapply (wp_mono _ (fun _ w2 => departed w w2 /\ exists x2, groups w2 !! g = Some x2 /\
    roster (m_memberSlots x2) = roster (m_memberSlots x1) /\
    m_leaderGuid x2 = successor w (m_leaderGuid x) p (m_memberSlots x1))).
  { unfold successor. rewrite Ll, <- Hfirst. destruct (m_leaderGuid x =? p); cbn [st_when]; [|apply wp_ret; eauto].
    destruct (first_in_world w1 (m_memberSlots x1)) as [t|] eqn:Ht; [|apply wp_ret; eauto].
    eapply wp_mono; [by apply (ChangeLeader_ok g (ms_guid t) x1 w1)|].
    intros _ w2 (Hw2 & Hp2 & _ & _ & x2 & Hg2 & Hro & Hld). split.
    - apply (departed_trans w w1); [done|by apply departed_players].
    - exists x2. rewrite Hg2, lookup_insert_eq. split_and!; [done|done|].
      apply List.find_some in Ht as [Hin Hw1]. rewrite Hld.
      rewrite getMemberSlot_nodup; [|apply (links_groups_ok _ (wo_links _ Lw) _ _ Hx1)|by apply list_elem_of_In].
      by destruct (FindPlayer w1 (ms_guid t)). }
  intros _ w2 (Hd2 & x2 & Hx2 & Hro2 & Hld2). apply wp_bind, wp_get.
  unfold isLFGGroup. rewrite Lt. fold (isLFGGroup x). rewrite Hlfg. cbn [andb].
  assert (Hm : m_bg x1 = false).
  { pose proof (go_regular _ (links_groups_ok _ (wo_links _ Lw) _ _ Hx1)) as [Hb1 _].
    unfold in_battle in Hb1. by apply orb_false_iff in Hb1 as [-> _]. }
  rewrite Hm. cbn [orb].
  assert (Hrefs : refs g w2 = connected w (erase_slot p (m_memberSlots x))).
  { rewrite (refs_connected w2 g x2 (wo_links _ (dp_ok _ _ Hd2)) Hx2), <- Ls.
    rewrite (connected_roster w2 _ _ Hro2). apply connected_players. exact (dp_logged _ _ Hd2). }
  rewrite Hrefs. apply wp_bind. destruct (Nat.leb_spec 2 (connected w (erase_slot p (m_memberSlots x)))) as [Hge|Hl].
  - rewrite (proj2 (Nat.ltb_ge _ _)) by done. cbn [st_when]. apply wp_ret, wp_ret.
    split; [done|]. split; [done|]. exists x2. rewrite <- Ls. auto.
  - rewrite (proj2 (Nat.ltb_lt _ _)) by done. cbn [st_when].
    eapply wp_mono; [apply (Disband_ok g x2 false w2)|].
    + apply Hd2.
    + done.
    + intros E. apply Hne1, length_zero_iff_nil. rewrite <- (length_roster _ _ Hro2). by rewrite E.
    + intros [] w3 Hd3. apply wp_ret. destruct (Hgone w2 w3 x2 Hd2 Hd3 Hx2). auto.
Qed.

(** A player without an invitation, or whose invitation is withdrawn. *)
Lemma UninviteFromGroup_ok p P w :
  world_ok w -> players w !! p = Some P ->
  wp (UninviteFromGroup p) (fun _ w' => departed w w' /\
    exists P', players w' !! p = Some P' /\ p_groupInvite P' = None) w.
Proof.
  intros Hw HP. pose proof (wo_links _ Hw) as H. unfold UninviteFromGroup.
  apply wp_bind, (wp_deref_player p P); [done|]. destruct (p_groupInvite P) as [g|] eqn:Hi.
  2: { apply wp_ret. split; [by apply departed_players|by exists P]. }
  assert (Hinv : invited_to w p g) by (by exists P).
  pose proof Hinv as Hin. apply (lk_invites _ H) in Hin as (x & Hx & Hin).
  apply wp_bind. unfold wp at 1. rewrite RemoveInvite_run; [|by eexists|by eexists].
  set (w1 := uninvited g p w).
  assert (Hx1 : groups w1 !! g = Some (set_invitees (m_invitees x ∖ {[p]}) x)).
  { unfold w1. rewrite lookup_uninvited_group, decide_True by done. by rewrite Hx. }
  assert (HP1 : players w1 !! p = Some (set_groupInvite None P)).
  { cbn. by rewrite lookup_alter_eq, HP. }
  assert (Hl1 : links_ok w1).
  { apply uninvited_ok; [done|]. intros h (P' & HP' & Hi'). rewrite HP in HP'. injection HP' as <-. congruence. }
  assert (Hpl : forall q P', players w1 !! q = Some P' -> exists P, players w !! q = Some P /\
            (p_groupInvite P' = p_groupInvite P \/ p_groupInvite P' = None)).
  { intros q P'. cbn. destruct (decide (p = q)) as [<-|Hne].
    - rewrite lookup_alter_eq, HP. intros [= <-]. exists P. split; [done|by right].
    - rewrite lookup_alter_ne by done. intros HP'. exists P'. split; [done|by left]. }
  assert (Hlog : forall q, logged_in w1 q <-> logged_in w q).
  { intros q. apply sr_logged. by apply uninvited_same_rosters. }
  assert (Hpend : m_memberSlots x <> [] -> pending_ok w1).
  { intros Hne. apply (pending_change w _ g (set_invitees (m_invitees x ∖ {[p]}) x)); [apply Hw| |done|by right].
    cbn. symmetry. by apply (insert_is_alter _ (fun x => set_invitees (m_invitees x ∖ {[p]}) x) g x). }
  assert (Hgone : forall w', destroyed g w1 w' ->
            departed w w' /\ exists P', players w' !! p = Some P' /\ p_groupInvite P' = None).
  { intros w' Hd. split; [split|].
    - split; [by apply (destroyed_ok g w1)|].
      assert (Hd' : forall h y, groups w' !! h = Some y -> h <> g /\ groups w !! h = Some y).
      { intros h y Hy. rewrite (ds_groups _ _ _ Hd) in Hy. apply lookup_delete_Some in Hy as [Hne Hy].
        split; [done|]. unfold w1 in Hy. rewrite lookup_uninvited_group, decide_False in Hy by done.
        by rewrite option_fmap_id in Hy. }
      intros h y Hy Hnil. destruct (Hd' h y Hy) as [Hne Hy0].
      destruct (wo_pending _ Hw h y Hy0 Hnil) as (? & ? & ? & Hs). split_and!; try done.
      intros k Hk. apply (ds_guids _ _ _ Hd) in Hk as [Hk _]. by apply (Hs k).
    - intros q P' HP'. rewrite (ds_players _ _ _ Hd) in HP'. destruct (players w1 !! q) as [P1|] eqn:E; [|done].
      injection HP' as <-. destruct (Hpl q P1 E) as (P0 & HP0 & Hi0). exists P0. split; [done|].
      cbn. case_bool_decide; [by right|done].
    - intros q. unfold logged_in. rewrite (ds_players _ _ _ Hd), fmap_is_Some. apply Hlog.
    - exists (cut_player g (set_groupInvite None P)). rewrite (ds_players _ _ _ Hd), HP1. done. }
  apply wp_bind, (wp_deref_group g (set_invitees (m_invitees x ∖ {[p]}) x)); [exact Hx1|]. unfold GetMembersCount. cbn [m_memberSlots set_invitees].
  destruct (Z.leb_spec (Z.of_nat (length (m_memberSlots x))) 1) as [Hle|Hgt].
  - unfold IsCreated, GetMembersCount. cbn [m_memberSlots set_invitees].
    destruct (Z.ltb_spec 0 (Z.of_nat (length (m_memberSlots x)))) as [Hlt|Hge].
    + eapply wp_mono; [apply (Disband_ok g _ true w1 Hl1 Hx1)|]; [|intros [] w' Hd; by apply Hgone].
      cbn. intros E. rewrite E in Hlt. cbn in Hlt. lia.
    + assert (Hnil : m_memberSlots x = []) by (apply length_zero_iff_nil; lia).
      destruct (wo_pending _ Hw g x Hx Hnil) as (Hsid & _ & _ & Hgs).
      eapply wp_mono; [by apply (abandon_ok g _ w1 Hl1 Hx1)|]. intros [] w' Hd. by apply Hgone.
  - apply wp_ret. split; [split|]; [split; [done|]|done|done|].
    + apply Hpend. intros E. rewrite E in Hgt. cbn in Hgt. lia.
    + by eexists.
Qed.
End Leave.
