(* ===== verification/GroupWorld.v ===== *)
(** * The group requests of clients on a consistent world
      (Handlers/GroupHandler.cpp, Server/WorldSession.cpp, Entities/Player/Player.cpp)

    Every request about groups, and logging in and out, keeps players, groups,
    invitations, the store of [GroupMgr] and the member table in agreement,
    uses no freed object and fails no assertion - with the exceptions that the
    last part shows: a player who invites himself, who accepts the invitation
    of the group he leads, or who is moved while he changes maps. *)
From S2P Require Import Prelude.
From S2P Require Import Lists.
From S2P Require Import Group.
From S2P Require Import GroupSlots.
From S2P Require Import GroupLinks.
From S2P Require Import GroupMembers.
From S2P Require Import GroupRoster.
Local Open Scope Z_scope.

(** ** Shared steps *)

Definition told (n : Notice) (w : World) : World :=
  mkWorld (players w) (groups w) (next_address w) (mgr w) (group_member w) (notices w ++ [n]).

Lemma links_told n w : links_ok w -> links_ok (told n w).
Proof. intros [? ? ? ? ? ? ? ? ? ?]. by split. Qed.
Lemma world_told n w : world_ok w -> world_ok (told n w).
Proof. intros [H ?]. split; [by apply links_told|done]. Qed.

Lemma tell_ok n w : world_ok w -> wp (tell n) (fun _ w' => world_ok w') w.
Proof. intros Hw. apply wp_tell. by apply world_told. Qed.

Lemma departed_ok {A} (m : GS A) w :
  wp m (fun _ w' => departed w w') w -> wp m (fun _ w' => world_ok w') w.
Proof. intros H. eapply wp_mono; [exact H|]. intros a w' Hd. apply Hd. Qed.

(** The group of a player, and his slot there. *)
Lemma own_group w p P g :
  world_ok w -> players w !! p = Some P -> GetGroup P = Some g ->
  exists x s, groups w !! g = Some x /\ getMemberSlot (m_memberSlots x) p = Some s /\
    p_group P = Some (g, ms_group s) /\ group_ok x.
Proof.
  intros Hw HP Hg. pose proof (wo_links _ Hw) as H. unfold GetGroup in Hg.
  destruct (p_group P) as [[h sub]|] eqn:Hpg; [|done]. cbn in Hg. injection Hg as ->.
  destruct (proj1 (lk_refs _ H p g sub)) as [(x & Hx & Hin) _]; [by exists P|].
  pose proof (links_groups_ok _ H _ _ Hx) as Hok.
  apply (getMemberSlot_roster _ _ _ (go_nodup _ Hok)) in Hin as (s & Hs & <-). eauto 10.
Qed.

Lemma slot_nonempty l p s : getMemberSlot l p = Some s -> l <> [].
Proof. by intros H ->. Qed.

(** A change of one group that leaves members and invitations. *)
Definition harmless (x : Group) (f : Group -> Group) : Prop :=
  same_members x (f x) /\ m_invitees (f x) = m_invitees x.

Lemma wp_touch w g x f :
  world_ok w -> groups w !! g = Some x -> m_memberSlots x <> [] -> harmless x f ->
  wp (mod_group g f) (fun _ w' => world_ok w' /\ groups w' !! g = Some (f x) /\ m_memberSlots (f x) <> []) w.
Proof.
  intros Hw Hx Hne [Hs Hi]. apply wp_mod_group; [by eexists|].
  split_and!; [by apply (world_touch w g x)|cbn; by rewrite lookup_alter_eq, Hx|].
  intros E. apply Hne, length_zero_iff_nil. destruct Hs as [Hro _]. rewrite <- (length_roster _ _ Hro). by rewrite E.
Qed.

Lemma wp_touch' w g x f :
  world_ok w -> groups w !! g = Some x -> m_memberSlots x <> [] -> harmless x f ->
  wp (mod_group g f) (fun _ w' => world_ok w') w.
Proof. intros. eapply wp_mono; [by eapply wp_touch|]. by intros [] w' [? _]. Qed.

Lemma harmless_slots x f :
  group_ok x -> (forall s, ms_guid (f s) = ms_guid s /\ ms_group (f s) = ms_group s) ->
  harmless x (fun x => upd_members (map f (m_memberSlots x)) (m_subGroupsCounts x) x).
Proof.
  intros Hok Hf. assert (Hro : roster (map f (m_memberSlots x)) = roster (m_memberSlots x)) by by apply roster_map.
  split; [|done]. split_and!; [done..|]. by apply (group_ok_same_roster x).
Qed.

Lemma harmless_slot x guid f :
  group_ok x -> (forall s, ms_guid (f s) = ms_guid s /\ ms_group (f s) = ms_group s) ->
  harmless x (fun x => upd_members (on_slot guid f (m_memberSlots x)) (m_subGroupsCounts x) x).
Proof.
  intros Hok Hf.
  assert (Hro : roster (on_slot guid f (m_memberSlots x)) = roster (m_memberSlots x)) by by apply roster_on_slot.
  split; [|done]. split_and!; [done..|]. by apply (group_ok_same_roster x).
Qed.

(** *** The type of a group *)

Lemma flag_bit_set t k j : 0 <= k -> 0 <= j -> has_flag (Z.lor t (2 ^ k)) (2 ^ j) = has_flag t (2 ^ j) || (k =? j).
Proof. intros Hk Hj. rewrite !has_flag_pow2, Z.lor_spec by done. by rewrite Z.pow2_bits_eqb. Qed.

Lemma flag_bit_clear t k j :
  0 <= k -> 0 <= j -> has_flag (Z.land t (Z.lnot (2 ^ k))) (2 ^ j) = has_flag t (2 ^ j) && negb (k =? j).
Proof. intros Hk Hj. rewrite !has_flag_pow2, Z.land_spec, Z.lnot_spec by done. by rewrite Z.pow2_bits_eqb. Qed.

Lemma harmless_type x t :
  group_ok x -> has_flag t GROUPTYPE_RAID = isRaidGroup x -> has_flag t GROUPTYPE_LFG = isLFGGroup x ->
  harmless x (fun x => upd_type t (m_subGroupsCounts x) x).
Proof. intros Hok Hr Hl. split; [|done]. split_and!; [done..|]. by apply (group_ok_same_roster x). Qed.

(** ** Requests on one's own group *)

Lemma with_group_ok me allowed m w :
  world_ok w -> logged_in w me ->
  (forall P g x s, players w !! me = Some P -> groups w !! g = Some x ->
     getMemberSlot (m_memberSlots x) me = Some s -> group_ok x -> allowed P x = true ->
     wp (m g) (fun _ w' => world_ok w') w) ->
  wp (with_group me allowed m) (fun _ w' => world_ok w') w.
Proof.
  intros Hw [P HP] Hm. unfold with_group. apply wp_bind, (wp_deref_player me P); [done|].
  destruct (GetGroup P) as [g|] eqn:Hg; [|by apply wp_ret].
  destruct (own_group w me P g Hw HP Hg) as (x & s & Hx & Hs & _ & Hok).
  apply wp_bind, (wp_deref_group g x); [done|].
  destruct (allowed P x) eqn:Ha; [by apply (Hm P g x s)|by apply wp_ret].
Qed.

Lemma HandleLootMethod_ok me method threshold looter w :
  world_ok w -> logged_in w me -> wp (HandleLootMethod me method threshold looter) (fun _ w' => world_ok w') w.
Proof.
  intros Hw Hl. apply with_group_ok; [done..|]. intros P g x s _ Hx Hs Hok _.
  apply (wp_touch' w g x); [done|done|by eapply slot_nonempty|].
  split; [|done]. split_and!; [done..|]. by apply (group_ok_same_roster x).
Qed.

Lemma ConvertToRaid_ok g x w :
  world_ok w -> groups w !! g = Some x -> m_memberSlots x <> [] -> group_ok x ->
  wp (ConvertToRaid g) (fun _ w' => world_ok w') w.
Proof.
  intros Hw Hx Hne Hok. unfold ConvertToRaid. apply wp_bind, (wp_deref_group g x); [done|].
  apply wp_bind, (wp_check_counter _ (counts_of (m_memberSlots x))); [by apply initRaidSubGroupsCounter_spec|].
  apply (wp_touch' w g x); [done..|]. split; [|done]. split_and!; [done..|].
  destruct (go_regular _ Hok) as [_ Hlfg]. apply group_ok_raid; [done| |].
  - change GROUPTYPE_RAID with (2 ^ 1). rewrite flag_bit_set by done. apply orb_true_r.
  - change GROUPTYPE_RAID with (2 ^ 1). change GROUPTYPE_LFG with (2 ^ 3). rewrite flag_bit_set by done.
    unfold isLFGGroup in Hlfg. change GROUPTYPE_LFG with (2 ^ 3) in Hlfg. by rewrite Hlfg.
Qed.

Lemma ConvertToGroup_ok g x w :
  world_ok w -> groups w !! g = Some x -> m_memberSlots x <> [] -> group_ok x ->
  wp (ConvertToGroup g) (fun _ w' => world_ok w') w.
Proof.
  intros Hw Hx Hne Hok. unfold ConvertToGroup. apply wp_bind, (wp_deref_group g x); [done|].
  destruct (Z.ltb_spec 5 (GetMembersCount x)) as [|Hle]; [by apply wp_ret|].
  apply (wp_touch' w g x); [done..|]. split; [|done]. split_and!; [done..|]. by apply group_ok_group.
Qed.

Lemma HandleGroupRaidConvert_ok me toRaid w :
  world_ok w -> logged_in w me -> wp (HandleGroupRaidConvert me toRaid) (fun _ w' => world_ok w') w.
Proof.
  intros Hw Hl. apply with_group_ok; [done..|]. intros P g x s _ Hx Hs Hok _.
  pose proof (slot_nonempty _ _ _ Hs) as Hne.
  apply wp_bind, wp_tell. destruct toRaid; [eapply (ConvertToRaid_ok g x)|eapply (ConvertToGroup_ok g x)];
    try done; by apply (world_told _ w).
Qed.

Lemma HandleGroupEveryoneIsAssistant_ok me apply w :
  world_ok w -> logged_in w me -> wp (HandleGroupEveryoneIsAssistant me apply) (fun _ w' => world_ok w') w.
Proof.
  intros Hw Hl. apply with_group_ok; [done..|]. intros P g x s _ Hx Hs Hok _.
  apply (wp_touch' w g x); [done|done|by eapply slot_nonempty|].
  apply (harmless_type x); [done|..]; unfold isRaidGroup, isLFGGroup;
    change GROUPTYPE_EVERYONE_IS_ASSISTANT with (2 ^ 6);
    change GROUPTYPE_RAID with (2 ^ 1); change GROUPTYPE_LFG with (2 ^ 3);
    destruct apply; rewrite ?flag_bit_set, ?flag_bit_clear by done; cbn; by rewrite ?orb_false_r, ?andb_true_r.
Qed.

(** *** Flags and roles of members *)

Lemma SetGroupMemberFlag_ok g guid apply flag x w :
  world_ok w -> groups w !! g = Some x -> m_memberSlots x <> [] ->
  wp (SetGroupMemberFlag g guid apply flag) (fun _ w' => world_ok w') w.
Proof.
  intros Hw Hx Hne. pose proof (links_groups_ok _ (wo_links _ Hw) _ _ Hx) as Hok.
  unfold SetGroupMemberFlag. apply wp_bind, (wp_deref_group g x); [done|].
  destruct (negb (isRaidGroup x)); [by apply wp_ret|].
  destruct (getMemberSlot (m_memberSlots x) guid) as [s|]; [|by apply wp_ret].
  destruct (_ || _); [|destruct (_ =? _)].
  - apply wp_bind. eapply wp_mono; [apply (wp_touch w g x); [done..|]|].
    { apply (harmless_slots x); [done|]. intros t. by destruct (has_flag _ _). }
    intros [] w' (Hw' & Hx' & Hne').
    pose proof (links_groups_ok _ (wo_links _ Hw') _ _ Hx') as Hok'.
    eapply (wp_touch' w' g); [done|exact Hx'|done|]. by apply harmless_slot.
  - apply (wp_touch' w g x); [done..|]. by apply harmless_slot.
  - by apply wp_ret.
Qed.

Lemma HandleGroupAssistantLeader_ok me guid apply w :
  world_ok w -> logged_in w me -> wp (HandleGroupAssistantLeader me guid apply) (fun _ w' => world_ok w') w.
Proof.
  intros Hw Hl. apply with_group_ok; [done..|]. intros P g x s _ Hx Hs _ _.
  apply (SetGroupMemberFlag_ok g guid apply _ x); [done|done|by eapply slot_nonempty].
Qed.

Lemma HandlePartyAssignment_ok me assignment guid apply w :
  world_ok w -> logged_in w me -> wp (HandlePartyAssignment me assignment guid apply) (fun _ w' => world_ok w') w.
Proof.
  intros Hw Hl. apply with_group_ok; [done..|]. intros P g x s _ Hx Hs Hok _.
  pose proof (slot_nonempty _ _ _ Hs) as Hne.
  assert (Hboth : forall flag, wp (RemoveUniqueGroupMemberFlag g flag;; SetGroupMemberFlag g guid apply flag)
                            (fun _ w' => world_ok w') w).
  { intros flag. apply wp_bind. eapply wp_mono; [apply (wp_touch w g x); [done..|]|].
    - apply (harmless_slots x); [done|]. intros t. by destruct (has_flag _ _).
    - intros [] w' (Hw' & Hx' & Hne'). by eapply SetGroupMemberFlag_ok. }
  destruct (_ =? _); [apply Hboth|]. destruct (_ =? _); [apply Hboth|by apply wp_ret].
Qed.

(** A player in the world is logged in. *)
Lemma FindPlayer_Some w p P : FindPlayer w p = Some P -> players w !! p = Some P /\ IsInWorld P = true.
Proof. unfold FindPlayer. destruct (players w !! p) as [Q|]; [|done]. destruct (IsInWorld Q) eqn:E; naive_solver. Qed.

Lemma HandleGroupSetRoles_ok me guid role w :
  world_ok w -> logged_in w me -> wp (HandleGroupSetRoles me guid role) (fun _ w' => world_ok w') w.
Proof.
  intros Hw [P HP]. unfold HandleGroupSetRoles. apply wp_bind, (wp_deref_player me P); [done|].
  apply wp_bind, wp_get. destruct (GetGroup P) as [g|] eqn:Hg; [|by apply wp_ret].
  destruct (FindPlayer w guid) as [Q|]; [|by apply wp_ret]. case_bool_decide; [|by apply wp_ret].
  destruct (own_group w me P g Hw HP Hg) as (x & s & Hx & Hs & _ & Hok).
  apply (wp_touch' w g x); [done|done|by eapply slot_nonempty|]. by apply harmless_slot.
Qed.

Lemma HandleGroupSetLeader_ok me guid w :
  world_ok w -> logged_in w me -> wp (HandleGroupSetLeader me guid) (fun _ w' => world_ok w') w.
Proof.
  intros Hw [P HP]. unfold HandleGroupSetLeader. apply wp_bind, (wp_deref_player me P); [done|].
  apply wp_bind, wp_get. destruct (GetGroup P) as [g|] eqn:Hg; [|by apply wp_ret].
  destruct (FindPlayer w guid) as [Q|]; [|by apply wp_ret].
  destruct (own_group w me P g Hw HP Hg) as (x & s & Hx & Hs & _ & Hok).
  apply wp_bind, (wp_deref_group g x); [done|]. destruct (_ || _); [by apply wp_ret|].
  eapply wp_mono; [apply (ChangeLeader_ok g guid x w Hw Hx); by eapply slot_nonempty|]. by intros [] w' [? _].
Qed.

(** *** Moving a member to another sub group *)

Definition moved (g sub : Z) (P : Player) : Player := upd_refs (Some (g, sub)) (p_originalGroup P) P.

Lemma roster_move l p sub q s :
  NoDup (map ms_guid l) -> is_Some (getMemberSlot l p) ->
  (q, s) ∈ roster (on_slot p (set_ms_group sub) l) <-> (q <> p /\ (q, s) ∈ roster l) \/ (q = p /\ sub = s).
Proof.
  intros Hnd [t Ht]. destruct (slot_split _ _ _ Ht) as (l1 & l2 & -> & Hg & H1).
  rewrite (on_slot_split l1 t l2) by done.
  assert (H2 : forall u, u ∈ l1 ++ l2 -> ms_guid u <> p).
  { intros u [Hu|Hu]%elem_of_app; [by apply H1|]. intros He. rewrite map_app in Hnd. cbn in Hnd.
    apply NoDup_app in Hnd as (_ & _ & [Hn _]%NoDup_cons). apply Hn. rewrite Hg, <- He.
    by apply list_elem_of_In, in_map, list_elem_of_In. }
  assert (Hmid : forall u v : MemberSlot, u ∈ l1 ++ v :: l2 <-> u = v \/ u ∈ l1 ++ l2).
  { intros u v. rewrite !elem_of_app, elem_of_cons. tauto. }
  rewrite !elem_of_roster. setoid_rewrite Hmid. split.
  - intros (u & [->|Hu] & <- & <-); [by right|left]. split; [by apply H2|eauto].
  - intros [[Hne (u & [->|Hu] & <- & <-)]|[-> <-]]; [done|eauto|]. exists (set_ms_group sub t). auto.
Qed.

Lemma ChangeMembersGroup_ok g p sub x w :
  world_ok w -> groups w !! g = Some x -> 0 <= sub < MAX_RAID_SUBGROUPS ->
  HasFreeSlotSubGroup x sub = true -> (forall P, players w !! p = Some P -> IsInWorld P = true) ->
  wp (ChangeMembersGroup g p sub) (fun _ w' => world_ok w') w.
Proof.
  intros Hw Hx Hsub Hfree Hin. pose proof (wo_links _ Hw) as H.
  pose proof (links_groups_ok _ H _ _ Hx) as Hok. destruct (go_regular _ Hok) as [Hb _].
  unfold ChangeMembersGroup. apply wp_bind, (wp_deref_group g x); [done|].
  destruct (isRaidGroup x) eqn:Hraid; [|by apply wp_ret]. cbn [negb].
  destruct (getMemberSlot (m_memberSlots x) p) as [s|] eqn:Hs; [|by apply wp_ret].
  destruct (Z.eqb_spec (ms_group s) sub) as [|Hne]; [by apply wp_ret|].
  assert (Hlt : subgroup_count (m_memberSlots x) sub < MAXGROUPSIZE).
  { unfold HasFreeSlotSubGroup in Hfree. rewrite (go_counts _ Hok), Hraid, lookup_counts_of in Hfree by done.
    by apply Z.ltb_lt. }
  destruct (group_ok_move x p s sub Hok Hraid Hs Hne Hsub Hlt) as (c1 & c2 & Hc1 & Hc2 & Hok').
  set (x' := upd_members (on_slot p (set_ms_group sub) (m_memberSlots x)) c2 x) in *.
  assert (Hm : member_of w p g (ms_group s)).
  { exists x. split; [done|]. apply getMemberSlot_roster; [apply Hok|]. by exists s. }
  apply wp_bind, (wp_check_counter _ c1); [done|]. apply wp_bind, (wp_check_counter _ c2); [done|].
  apply wp_bind, wp_mod_group; [by eexists|]. rewrite Hb. cbn [negb st_when].
  apply wp_bind, wp_modify. apply wp_bind, wp_get.
  match goal with |- wp _ _ ?w1 => set (wa := w1) end.
  assert (Hga : groups wa = <[g := x']> (groups w)).
  { cbn. symmetry. by apply (insert_is_alter _ (upd_members (on_slot p (set_ms_group sub) (m_memberSlots x)) c2) g x). }
  assert (Hfin : forall w', groups w' = groups wa -> mgr w' = mgr w -> group_member w' = group_member wa ->
            next_address w' = next_address w ->
            (forall q, players w' !! q = (if decide (p = q) then moved g sub else id) <$> players w !! q) ->
            world_ok w').
  { intros w' Hg' Hm' Ht' Hn' Hp'. rewrite Hga in Hg'. split.
    - apply (place_ok w w' g p x x' (Some sub) (moved g sub)); try done.
      + intros q t. cbn. rewrite roster_move; [|by apply Hok|by eexists]. naive_solver.
      + intros P HP. split_and!; [done|cbn; by apply (lk_original _ H p P)|done].
      + intros q. rewrite Ht'. cbn. destruct (decide (p = q)) as [<-|]; [|by rewrite lookup_alter_ne].
        rewrite lookup_alter_eq.
        assert (Hr : group_member w !! p = Some (m_dbStoreId x, ms_group s)) by (apply (lk_table _ H); eauto).
        by rewrite Hr.
      + intros h t Hmh. by destruct (member_group_unique w p h g t (ms_group s) H Hmh Hm).
      + intros _. split; [|apply (lk_stored _ H g x Hx); by eapply slot_nonempty].
        intros h Hinv. destruct Hinv as (P & HP & Hi).
        apply (lk_apart _ H p h g (ms_group s)); [by exists P|]. apply (lk_refs _ H). split; [done|by exists P].
    - apply (pending_change w w' g x'); [apply Hw|done| |intros k h; rewrite Hm'; by right].
      cbn. intros E. apply (slot_nonempty _ _ _ Hs), length_zero_iff_nil.
      rewrite <- (length_map ms_guid), <- (map_guid_on_slot _ p (set_ms_group sub)) by done. by rewrite E. }
  unfold FindPlayer. change (players wa) with (players w).
  destruct (players w !! p) as [P|] eqn:HP.
  - rewrite (Hin P eq_refl). destruct (proj2 (lk_refs _ H p g (ms_group s))) as (P' & HP' & Hr); [split; [done|by exists P]|].
    rewrite HP in HP'. injection HP' as <-. rewrite bool_decide_true by (unfold GetGroup; by rewrite Hr).
    apply wp_mod_player; [by eexists|]. apply Hfin; try done. intros q. cbn.
    destruct (decide (p = q)) as [<-|]; [by rewrite lookup_alter_eq|].
    rewrite lookup_alter_ne by done. by rewrite option_fmap_id.
  - apply wp_ret, Hfin; try done. intros q. change (players wa) with (players w).
    destruct (decide (p = q)) as [<-|]; [by rewrite HP|by rewrite option_fmap_id].
Qed.

Lemma HandleGroupChangeSubGroup_ok me guid groupNr w :
  world_ok w -> logged_in w me -> is_byte groupNr ->
  (forall P, players w !! guid = Some P -> IsInWorld P = true) ->
  wp (HandleGroupChangeSubGroup me guid groupNr) (fun _ w' => world_ok w') w.
Proof.
  intros Hw Hl Hbyte Hin. apply with_group_ok; [done..|]. intros P g x s _ Hx Hs Hok Ha.
  apply andb_true_iff in Ha as [[Ha%Z.ltb_lt _]%andb_true_iff Hfree].
  apply (ChangeMembersGroup_ok g guid groupNr x); try done. unfold is_byte in Hbyte. lia.
Qed.

(** ** Leaving, and being removed *)

Section Departures.
Context (lfg_left_dungeon : World -> Z -> bool) (lfg_can_uninvite : World -> Z -> PartyResult).

Lemma RemoveFromGroup_ok g p x s method w :
  world_ok w -> groups w !! g = Some x -> getMemberSlot (m_memberSlots x) p = Some s ->
  wp (RemoveFromGroup lfg_left_dungeon (Some g) p method) (fun _ w' => departed w w') w.
Proof.
  intros Hw Hx Hs. apply wp_bind. eapply wp_mono; [by eapply (RemoveMember_ok lfg_left_dungeon g p x s)|].
  intros a w' [Hd _]. by apply wp_ret.
Qed.

Lemma HandleGroupDisband_ok me w :
  world_ok w -> logged_in w me -> wp (HandleGroupDisband lfg_left_dungeon me) (fun _ w' => world_ok w') w.
Proof.
  intros Hw [P HP]. unfold HandleGroupDisband. apply wp_bind, (wp_deref_player me P); [done|].
  destruct (GetGroup P) as [g|] eqn:Hg; [|by apply wp_ret].
  destruct (InBattleground P); [by apply tell_ok|].
  destruct (own_group w me P g Hw HP Hg) as (x & s & Hx & Hs & _ & Hok).
  apply wp_bind, wp_tell. apply departed_ok, (RemoveFromGroup_ok g me x s); try done. by apply (world_told _ w).
Qed.

Lemma HandleGroupUninviteGuid_ok me guid w :
  world_ok w -> logged_in w me ->
  wp (HandleGroupUninviteGuid lfg_left_dungeon lfg_can_uninvite me guid) (fun _ w' => world_ok w') w.
Proof.
  intros Hw [P HP]. unfold HandleGroupUninviteGuid. destruct (guid =? me); [by apply wp_ret|].
  apply wp_bind, (wp_deref_player me P); [done|]. apply wp_bind, wp_get.
  destruct (GetGroup P) as [g|] eqn:Hg; [|by apply tell_ok].
  destruct (own_group w me P g Hw HP Hg) as (x & s & Hx & Hs & _ & Hok).
  apply wp_bind, (wp_deref_group g x); [done|].
  destruct (CanUninviteFromGroup _ _ _ _ _); try (by apply tell_ok).
  destruct (IsLeader x guid); [by apply tell_ok|].
  destruct (IsMember x guid) eqn:Hmem.
  - unfold IsMember in Hmem. destruct (getMemberSlot (m_memberSlots x) guid) as [t|] eqn:Ht; [|done].
    by apply departed_ok, (RemoveFromGroup_ok g guid x t).
  - case_bool_decide as Hin; [|by apply tell_ok].
    destruct (invitees_logged_in w g x (wo_links _ Hw) Hx guid Hin) as [Q HQ].
    eapply wp_mono; [by apply (UninviteFromGroup_ok guid Q)|]. intros [] w' [Hd _]. apply Hd.
Qed.

(** ** Logging in and out *)

Lemma LogoutPlayer_ok p connected w :
  world_ok w -> logged_in w p ->
  wp (LogoutPlayer lfg_left_dungeon p connected) (fun _ w' => world_ok w') w.
Proof.
  intros Hw [P HP]. unfold LogoutPlayer. apply wp_bind.
  eapply wp_mono; [by apply (UninviteFromGroup_ok p P)|]. intros [] w1 (Hd1 & P1 & HP1 & Hi1).
  pose proof (dp_ok _ _ Hd1) as Hw1. apply wp_bind, (wp_deref_player p P1); [done|].
  assert (Hfin : forall w2, departed w1 w2 -> world_ok (set_players (delete p (players w2)) w2)).
  { intros w2 Hd2. destruct (proj2 (dp_logged _ _ Hd2 p)) as [P2 HP2]; [by eexists|].
    destruct (dp_players _ _ Hd2 p P2 HP2) as (P1' & HP1' & Hi). rewrite HP1 in HP1'. injection HP1' as <-.
    destruct (dp_ok _ _ Hd2) as [Hl Hpend]. split; [|exact Hpend].
    apply (logout_ok w2 p P2); [done|done|]. destruct Hi as [->|]; done. }
  apply wp_bind. eapply (wp_mono _ (fun _ w2 => departed w1 w2));
    [|intros [] w2 Hd2; apply wp_modify; by apply Hfin].
  destruct (GetGroup P1) as [g|] eqn:Hg; [|apply wp_ret; by apply departed_players].
  destruct (own_group w1 p P1 g Hw1 HP1 Hg) as (x & s & Hx & Hs & _ & Hok).
  apply wp_bind, (wp_deref_group g x); [done|].
  destruct (_ && _); cbn [st_when]; [by apply (RemoveFromGroup_ok g p x s)|].
  apply wp_ret. by apply departed_players.
Qed.
End Departures.

Lemma SetInWorld_ok p b w :
  world_ok w -> logged_in w p -> wp (SetInWorld p b) (fun _ w' => world_ok w') w.
Proof.
  intros [Hl Hp] Hlog. apply wp_mod_player; [done|]. split; [by apply set_inWorld_ok|exact Hp].
Qed.

(** [_LoadGroup] finds the group the table names. *)
Lemma Login_ok p P w :
  world_ok w -> players w !! p = None -> wp (Login p P) (fun _ w' => world_ok w') w.
Proof.
  intros [H Hpend] Hp. unfold Login. set (P0 := set_inWorld false (set_groupInvite None (upd_refs None None P))).
  apply wp_bind, wp_modify. set (w1 := set_players _ w). unfold LoadGroup. apply wp_bind, wp_get.
  change (group_member w1) with (group_member w).
  destruct (group_member w !! p) as [[id sub]|] eqn:Ht.
  - pose proof Ht as (g & x & Hx & Hid & Hm)%(lk_table _ H).
    pose proof Hm as (x' & Hx' & Hin). rewrite Hx in Hx'. injection Hx' as <-.
    assert (Hst : stored (mgr w) id g) by (rewrite <- Hid; apply (lk_stored _ H g x Hx); by eapply roster_nonempty).
    assert (Hby : GetGroupByDbStoreId (mgr w1) id = Some g).
    { unfold GetGroupByDbStoreId. pose proof (stored_lt _ _ _ Hst). destruct Hst as [_ Hst].
      change (mgr w1) with (mgr w). rewrite (proj2 (Z.ltb_lt _ _)) by done. by rewrite Hst. }
    rewrite Hby. apply wp_bind, (wp_deref_group g x); [done|].
    assert (Hsub : GetMemberGroup x p = sub).
    { pose proof (go_nodup _ (links_groups_ok _ H _ _ Hx)) as Hnd.
      apply (getMemberSlot_roster _ _ _ Hnd) in Hin as (s & Hs & <-). unfold GetMemberGroup. by rewrite Hs. }
    rewrite Hsub. apply wp_mod_player; [cbn; rewrite lookup_insert_eq; by eexists|].
    set (P1 := upd_refs (Some (g, sub)) (p_originalGroup P0) P0).
    assert (Hpl : alter (fun x => upd_refs (Some (g, sub)) (p_originalGroup x) x) p (players w1) = <[p := P1]> (players w)).
    { cbn. apply map_eq. intros q. destruct (decide (p = q)) as [<-|Hne].
      - by rewrite lookup_alter_eq, !lookup_insert_eq.
      - by rewrite lookup_alter_ne, !lookup_insert_ne. }
    rewrite Hpl. split; [|exact Hpend].
    apply (login_ok w p P1 (Some (g, sub))); try done. intros h s. split; [by intros [= <- <-]|].
    intros Hmh. by destruct (member_group_unique w p g h sub s H Hm Hmh) as [-> ->].
  - apply wp_ret. split; [|exact Hpend]. apply (login_ok w p P0 None); try done. intros h s. split; [done|].
    intros (x & Hx & Hin). exfalso.
    assert (Hr : group_member w !! p = Some (m_dbStoreId x, s)) by (apply (lk_table _ H); exists h, x; split_and!; [done..|by exists x]).
    congruence.
Qed.

(** ** Invitations *)

Lemma invited_uninvited_ok g p w P :
  links_ok w -> is_Some (groups w !! g) -> players w !! p = Some P -> p_groupInvite P = None ->
  GetGroup P = None -> links_ok (invited g p (uninvited g p w)).
Proof.
  intros H [x Hx] HP Hi Hg. pose proof (invited_to_None w p P HP Hi) as Hni. apply invited_ok.
  - apply uninvited_ok; [done|]. intros h Hh. by apply Hni in Hh.
  - rewrite lookup_uninvited_group, Hx. by eexists.
  - apply (sr_logged w); [by apply uninvited_same_rosters|by exists P].
  - intros h [_ Hh]%uninvited_invited. by apply (Hni h).
  - intros h sub Hr. apply (sr_refers w) in Hr; [|by apply uninvited_same_rosters].
    by apply (refers_to_GetGroup w p P HP Hg h sub).
Qed.

Lemma groups_invited_uninvited g p w x :
  groups w !! g = Some x ->
  groups (invited g p (uninvited g p w))
  = <[g := set_invitees ({[p]} ∪ (m_invitees x ∖ {[p]})) x]> (groups w).
Proof.
  intros Hx. apply map_eq. intros h. cbn. destruct (decide (g = h)) as [<-|Hne].
  - by rewrite lookup_insert_eq, !lookup_alter_eq, Hx.
  - by rewrite lookup_insert_ne, !lookup_alter_ne.
Qed.

Lemma pending_insert w g x' w' :
  pending_ok w -> groups w' = <[g := x']> (groups w) -> GroupStore (mgr w') = GroupStore (mgr w) ->
  (m_memberSlots x' = [] -> pending_group w g x') -> pending_ok w'.
Proof.
  intros H Hg Hs Hp h y Hy Hnil. unfold pending_group. rewrite Hs. rewrite Hg in Hy.
  apply lookup_insert_Some in Hy as [[<- <-]|[_ Hy]]; [by apply Hp|by apply H].
Qed.

(** [AddInvite] to a group that has members, or whose leader waits. *)
Lemma AddInvite_ok g p x P w :
  world_ok w -> groups w !! g = Some x -> players w !! p = Some P ->
  (m_memberSlots x = [] -> m_leaderGuid x ∈ m_invitees x) ->
  wp (AddInvite g p) (fun r w' =>
    if r : bool then (p_groupInvite P = None /\ GetGroup P = None) /\ world_ok w' /\
      players w' !! p = Some (set_groupInvite (Some g) P) /\
      groups w' !! g = Some (set_invitees ({[p]} ∪ (m_invitees x ∖ {[p]})) x)
    else (is_Some (p_groupInvite P) \/ is_Some (GetGroup P)) /\ w' = w) w.
Proof.
  intros [H Hpend] Hx HP Hlead. eapply wp_mono; [apply (AddInvite_run g p w P); [done|by eexists|done]|].
  intros [|] w'; cbv beta iota; [|tauto].
  intros (Hi & Hg & ->). pose proof (groups_invited_uninvited g p w x Hx) as Hgr. split_and!; [done|done| | |].
  - split; [by apply (invited_uninvited_ok g p w P); [|eexists|..]|].
    eapply (pending_insert w g); [done|exact Hgr|done|].
    cbn. intros Hnil. destruct (Hpend g x Hx Hnil) as (? & ? & _ & ?). split_and!; try done. right. cbn.
    specialize (Hlead Hnil). destruct (decide (m_leaderGuid x = p)); set_solver.
  - cbn. by rewrite !lookup_alter_eq, HP.
  - rewrite Hgr. apply lookup_insert_eq.
Qed.

(** A group that is given up before anybody has been invited. *)
Lemma delete_new_ok w :
  world_ok w ->
  wp (delete_group (next_address w)) (fun _ w' => world_ok w' /\ players w' = players w) (with_new_group w).
Proof.
  intros [H Hpend]. set (g := next_address w). set (w1 := with_new_group w).
  pose proof (new_address_free w H) as Hfree. fold g in Hfree.
  assert (Hinv : forall p P, players w !! p = Some P -> invalidate g P = P).
  { intros p P HP. pose proof (lk_original _ H p P HP) as Ho.
    assert (Hg : match p_group P with Some (h, _) => if h =? g then None else p_group P | None => None end = p_group P).
    { destruct (p_group P) as [[h s]|] eqn:Hr; [|done]. destruct (Z.eqb_spec h g) as [->|]; [|done].
      destruct (proj1 (lk_refs _ H p g s)) as [(x & Hx & _) _]; [by exists P|]. congruence. }
    unfold invalidate. rewrite Hg, Ho. by destruct P; cbn in *; rewrite Ho. }
  unfold wp, delete_group. assert (Hx : groups w1 !! g = Some new_Group) by apply lookup_insert_eq.
  rewrite Hx. set (w2 := set_players _ _).
  assert (Hgr : groups w2 = groups w) by (cbn; by rewrite delete_insert_id).
  assert (Hpl : players w2 = players w).
  { cbn. apply map_eq. intros q. rewrite lookup_fmap. destruct (players w !! q) as [P|] eqn:HP; [|done].
    cbn. f_equal. by apply (Hinv q). }
  split; [|done]. split.
  - destruct H as [Hg Hi Hr Ho Ha Ht Hs Hsd Hp Hgu].
    split; unfold invited_to, invitee_of, refers_to, member_of, logged_in; rewrite ?Hgr, ?Hpl; try done.
    intros h x Hh. destruct (Hg h x Hh). split; [done|]. cbn. lia.
  - intros h x Hh Hnil. rewrite Hgr in Hh. exact (Hpend h x Hh Hnil).
Qed.

(** The new group of a leader who has neither group nor invitation. *)
Lemma AddLeaderInvite_ok p P w :
  world_ok w -> players w !! p = Some P ->
  wp (AddLeaderInvite (next_address w) p) (fun r w' =>
    if r : bool then (p_groupInvite P = None /\ GetGroup P = None) /\ world_ok w' /\
      (forall q, q <> p -> players w' !! q = players w !! q) /\
      players w' !! p = Some (set_groupInvite (Some (next_address w)) P) /\
      exists x, groups w' !! next_address w = Some x /\ m_leaderGuid x = p /\ m_memberSlots x = [] /\ p ∈ m_invitees x
    else (is_Some (p_groupInvite P) \/ is_Some (GetGroup P)) /\ w' = with_new_group w) (with_new_group w).
Proof.
  intros Hw HP. pose proof (wo_links _ Hw) as H. set (g := next_address w). set (w1 := with_new_group w).
  assert (Hx : groups w1 !! g = Some new_Group) by apply lookup_insert_eq.
  pose proof (new_group_ok w H) as H1. unfold AddLeaderInvite. apply wp_bind.
  eapply wp_mono; [apply (AddInvite_run g p w1 P); [done|by eexists|done]|].
  intros [|] w2; cbv beta iota; [|intros [-> ?]; by apply wp_ret].
  intros (Hi & Hg & ->). set (w2 := invited _ _ _). pose proof (groups_invited_uninvited g p w1 _ Hx) as Hgr. fold w2 in Hgr.
  set (x2 := set_invitees _ _) in Hgr. apply wp_bind, wp_mod_group; [rewrite Hgr, lookup_insert_eq; by eexists|].
  apply wp_ret. set (w3 := set_groups _ w2).
  assert (Hg3 : groups w3 = <[g := set_leader p x2]> (groups w1)).
  { cbn [groups set_groups w3]. rewrite Hgr. apply map_eq. intros h. destruct (decide (g = h)) as [<-|Hne].
    - by rewrite lookup_alter_eq, !lookup_insert_eq.
    - by rewrite lookup_alter_ne, !lookup_insert_ne. }
  assert (Hl2 : links_ok w2) by (apply (invited_uninvited_ok g p w1 P); [done|by eexists|done..]).
  split; [done|]. split; [|split_and!].
  - split.
    + apply touch_ok; [done|]. intros y Hy. split; [|done]. split_and!; [done..|].
      apply (group_ok_same_roster y); try done. by apply (links_groups_ok _ Hl2 _ _ Hy).
    + intros h y Hy Hnil. rewrite Hg3 in Hy. apply lookup_insert_Some in Hy as [[<- <-]|[Hne Hy]].
      * split_and!; [done..|right; cbn; set_solver|]. intros k Hk.
        destruct (lk_guids _ H k g Hk) as (z & Hz & _). pose proof (new_address_free w H) as Hf. fold g in Hf. congruence.
      * cbn in Hy. rewrite lookup_insert_ne in Hy by done. by apply (wo_pending _ Hw h y).
  - intros q Hne. cbn. by rewrite !lookup_alter_ne.
  - cbn. by rewrite !lookup_alter_eq, HP.
  - exists (set_leader p x2). rewrite Hg3, lookup_insert_eq. split_and!; [done..|]. cbn. set_solver.
Qed.

Lemma invite_group_run w p P :
  world_ok w -> players w !! p = Some P -> wp (invite_group P) (fun r w' => r = GetGroup P /\ w' = w) w.
Proof.
  intros Hw HP. unfold invite_group. destruct (GetGroup P) as [g|] eqn:Hg; [|by apply wp_ret].
  destruct (own_group w p P g Hw HP Hg) as (x & s & Hx & _ & _ & Hok).
  apply wp_bind, (wp_deref_group g x); [done|]. destruct (go_regular _ Hok) as [Hb _].
  unfold in_battle in Hb. apply orb_false_iff in Hb as [-> _]. by apply wp_ret.
Qed.

Section Invitations.
Context (CONFIG_ALLOW_GM_GROUP CONFIG_ALLOW_TWO_SIDE_INTERACTION_GROUP : bool).

(** Whether the invitation of [P] reaches [Q]. *)
Definition may_invite (w : World) (me : Z) (P : Player) : bool :=
  match GetGroup P with
  | Some g => match groups w !! g with Some x => officer me x && negb (IsFull x) | None => false end
  | None => bool_decide (p_groupInvite P = None)
  end.
Definition invitable (Q : Player) : bool :=
  bool_decide (GetGroup Q = None) && bool_decide (p_groupInvite Q = None).
Definition invitation_sent (w : World) (me : Z) (P Q : Player) : bool :=
  negb (bool_decide (is_Some (invite_refused CONFIG_ALLOW_GM_GROUP CONFIG_ALLOW_TWO_SIDE_INTERACTION_GROUP P Q me)))
  && invitable Q && may_invite w me P.

(** [t] holds an invitation of the group of [me], or of a new one that [me]
    is to lead. *)
Definition invitation_held (w' : World) (me t : Z) (P Q : Player) : Prop :=
  exists g x, players w' !! t = Some (set_groupInvite (Some g) Q) /\ groups w' !! g = Some x /\
    match GetGroup P with
    | Some h => h = g
    | None => m_leaderGuid x = me /\ m_memberSlots x = [] /\ me ∈ m_invitees x
    end.

Lemma HandleGroupInvite_ok me P target w :
  world_ok w -> players w !! me = Some P -> target <> Some me ->
  wp (HandleGroupInvite CONFIG_ALLOW_GM_GROUP CONFIG_ALLOW_TWO_SIDE_INTERACTION_GROUP me target)
     (fun _ w' => world_ok w' /\
        match target ≫= (fun t => Q ← FindPlayer w t; Some (t, Q)) with
        | None => players w' = players w
        | Some (t, Q) => if invitation_sent w me P Q then invitation_held w' me t P Q else players w' = players w
        end) w.
Proof.
  intros Hw HP Hself. unfold HandleGroupInvite. apply wp_bind, (wp_deref_player me P); [done|].
  assert (Htell : forall n (Q : Prop) w', world_ok w' -> Q -> wp (tell n) (fun _ w'' => world_ok w'' /\ Q) w').
  { intros n Q w' Hw' HQ. apply wp_tell. split; [by apply world_told|done]. }
  assert (Hdone : forall n m (Q : Prop) w', world_ok w' -> Q -> wp (tell n;; tell m) (fun _ w'' => world_ok w'' /\ Q) w').
  { intros n m Q w' Hw' HQ. apply wp_bind, wp_tell, Htell; [by apply world_told|done]. }
  apply wp_bind, wp_get. destruct target as [t|]; [|by apply (Htell _ (players w = players w))]. cbn [mbind option_bind].
  destruct (FindPlayer w t) as [Q|] eqn:Hfind; [|by apply (Htell _ (players w = players w))]. cbn [mbind option_bind].
  apply FindPlayer_Some in Hfind as [HQ _]. unfold invitation_sent.
  destruct (invite_refused _ _ _ _ _) as [r|]; [by apply (Htell _ (players w = players w))|].
  cbn [negb andb bool_decide]. rewrite (bool_decide_false (is_Some None)) by (by intros [? ?]). cbn [negb andb].
  apply wp_bind. eapply wp_mono; [by apply (invite_group_run w me P)|]. intros _ _ [-> ->].
  apply wp_bind. eapply wp_mono; [by apply (invite_group_run w t Q)|]. intros _ _ [-> ->].
  destruct (_ || _) eqn:Hbusy.
  { assert (Hn : invitable Q = false).
    { unfold invitable. apply orb_true_iff in Hbusy as [[? ->]%bool_decide_eq_true|[? ->]%bool_decide_eq_true];
        [done|apply andb_false_r]. }
    rewrite Hn. cbn [andb]. destruct (bool_decide _); cbn [st_when].
    - by apply (Hdone _ _ (players w = players w)).
    - apply wp_bind, wp_tell, wp_ret. split; [by apply world_told|done]. }
  apply orb_false_iff in Hbusy as [HgQ%bool_decide_eq_false HiQ%bool_decide_eq_false].
  apply eq_None_not_Some in HgQ, HiQ.
  assert (Hn : invitable Q = true) by (unfold invitable; by rewrite !bool_decide_true).
  rewrite Hn. cbn [andb]. unfold may_invite, invitation_held.
  destruct (GetGroup P) as [g|] eqn:Hg.
  - destruct (own_group w me P g Hw HP Hg) as (x & s & Hx & Hs & _ & Hok). rewrite Hx. unfold officer.
    apply wp_bind, (wp_deref_group g x); [done|]. rewrite <- negb_orb.
    destruct (IsLeader x me || IsAssistant x me); cbn [negb andb]; [|by apply (Htell _ (players w = players w))].
    destruct (IsFull x); cbn [negb]; [by apply (Htell _ (players w = players w))|]. apply wp_bind.
    eapply wp_mono; [apply (AddInvite_ok g t x Q); try done|].
    { intros E. by apply (slot_nonempty _ _ _ Hs) in E. }
    intros [|] w'; cbv beta iota; [|intros [[[? ?]|[? ?]] _]; congruence].
    intros (_ & Hw' & HQ' & Hx'). apply (Hdone _ _ (exists h y, players w' !! t = Some (set_groupInvite (Some h) Q) /\
      groups w' !! h = Some y /\ g = h)); [done|]. eauto.
  - apply wp_bind, wp_get. apply wp_bind, wp_modify. fold (with_new_group w).
    apply wp_bind. eapply wp_mono; [by apply (AddLeaderInvite_ok me P w)|]. intros [|] w1; cbv beta iota; cbn [negb].
    + intros ([Hi _] & Hw1 & Hpl & _ & x & Hx & Hlead & Hnil & Hin). rewrite bool_decide_true by done. apply wp_bind.
      assert (HQ1 : players w1 !! t = Some Q) by (rewrite Hpl; [done|congruence]).
      eapply wp_mono; [apply (AddInvite_ok (next_address w) t x Q); try done; by rewrite Hlead|].
      intros [|] w2; cbv beta iota; cbn [negb]; [|intros [[[? ?]|[? ?]] _]; congruence].
      intros (_ & Hw2 & HQ2 & Hx2). apply (Hdone _ _ (exists h y, players w2 !! t = Some (set_groupInvite (Some h) Q) /\
        groups w2 !! h = Some y /\ m_leaderGuid y = me /\ m_memberSlots y = [] /\ me ∈ m_invitees y)); [done|].
      eexists _, _. split_and!; [done..|]. cbn. destruct (decide (me = t)); set_solver.
    + intros [Hor ->]. rewrite bool_decide_false.
      * eapply wp_mono; [by apply delete_new_ok|]. by intros [] w' [? ?].
      * intros E. destruct Hor as [[? ?]|[? ?]]; congruence.
Qed.
End Invitations.

(** ** Accepting and declining *)

Definition may_accept (w : World) (me : Z) : Prop :=
  forall g x, invited_to w me g -> groups w !! g = Some x -> m_leaderGuid x <> me.

(** The invitation is taken back first, "in any case". *)
Lemma uninvited_world g p P x w :
  world_ok w -> players w !! p = Some P -> p_groupInvite P = Some g -> groups w !! g = Some x ->
  m_leaderGuid x <> p -> world_ok (uninvited g p w).
Proof.
  intros [H Hpend] HP Hi Hx Hlead. split.
  - apply uninvited_ok; [done|]. intros h (P' & HP' & Hi'). congruence.
  - apply (pending_insert w g (set_invitees (m_invitees x ∖ {[p]}) x) _); [done| |done|].
    + apply map_eq. intros h. rewrite lookup_uninvited_group. destruct (decide (g = h)) as [<-|Hne].
      * by rewrite lookup_insert_eq, Hx.
      * by rewrite lookup_insert_ne, option_fmap_id.
    + intros Hnil. destruct (Hpend g x Hx Hnil) as (? & ? & Hinv & ?). split_and!; try done. cbn.
      destruct Hinv as [->|Hin]; [left; set_solver|right; set_solver].
Qed.

(** The groups without members, but one. *)
Definition others_pending (w : World) (g : Z) : Prop :=
  forall h y, groups w !! h = Some y -> m_memberSlots y = [] -> h <> g -> pending_group w h y.

Lemma pending_others w g : pending_ok w -> others_pending w g.
Proof. intros H h y Hy Hnil _. by apply H. Qed.

(** A new member of a group that has members. *)
Lemma AddMember_world g p x P w :
  links_ok w -> others_pending w g -> groups w !! g = Some x -> m_memberSlots x <> [] ->
  players w !! p = Some P -> p_groupInvite P = None -> p_group P = None -> IsFull x = false ->
  wp (AddMember g p;; mret tt) (fun _ w' => world_ok w' /\
    exists sub x', free_subgroup x = Some sub /\ added g p sub x x' w w') w.
Proof.
  intros H Hpend Hx Hne HP Hi Hg Hfull. apply wp_bind.
  eapply wp_mono; [apply (AddMember_ok g p x P w); try done; by apply (lk_stored _ H g x)|].
  intros r w' (-> & sub & x' & Hsub & Had). apply wp_ret. split; [|by exists sub, x']. split; [apply Had|].
  intros h y Hy Hnil. rewrite (ad_groups _ _ _ _ _ _ _ Had) in Hy.
  apply lookup_insert_Some in Hy as [[<- <-]|[Hgh Hy]].
  - rewrite (ad_slots _ _ _ _ _ _ _ Had) in Hnil. by destruct (m_memberSlots x).
  - unfold pending_group. rewrite (ad_mgr _ _ _ _ _ _ _ Had). by apply (Hpend h y).
Qed.

Lemma apart_None w p P g : links_ok w -> players w !! p = Some P -> p_groupInvite P = Some g -> p_group P = None.
Proof.
  intros H HP Hi. destruct (p_group P) as [[h s]|] eqn:Hg; [|done]. exfalso.
  apply (lk_apart _ H p g h s); by exists P.
Qed.

Lemma AddGroup_links w g x :
  links_ok w -> groups w !! g = Some x -> links_ok (set_mgr (GroupMgr_AddGroup (m_guid x) g (mgr w)) w).
Proof.
  intros [Hg Hi Hr Ho Ha Ht Hs Hsd [P1 P2 P3 P4] Hgu] Hx. split; try done.
  intros k h Hk. cbn in Hk. apply lookup_insert_Some in Hk as [[<- <-]|[_ Hk]]; [by exists x|by apply Hgu].
Qed.

(** The leader of a group that waits is enrolled first. *)
Lemma form_group_ok g x me P L (Q : unit -> World -> Prop) w :
  world_ok w -> groups w !! g = Some x -> m_memberSlots x = [] -> ids_left (mgr w) ->
  players w !! me = Some P -> players w !! m_leaderGuid x = Some L -> p_groupInvite L = Some g ->
  m_leaderGuid x <> me ->
  (forall w1 x1, links_ok w1 -> others_pending w1 g -> groups w1 !! g = Some x1 ->
     m_memberSlots x1 = [mkSlot (m_leaderGuid x) 0 0 0] -> m_leaderGuid x1 = m_leaderGuid x ->
     isRaidGroup x1 = false -> players w1 !! me = Some P -> Q tt w1) ->
  wp (RemoveInvite g (m_leaderGuid x);; Create g (m_leaderGuid x);;
      x ← deref_group g;
      st_modify (fun w => set_mgr (GroupMgr_AddGroup (m_guid x) g (mgr w)) w)) Q w.
Proof.
  intros [H Hpend] Hx Hnil Hids HP HL HiL Hne HQ. set (l := m_leaderGuid x) in *.
  destruct (Hpend g x Hx Hnil) as (Hsid & Hraid & _ & Hstore).
  assert (Hlg : p_group L = None) by (by apply (apart_None w l L g)).
  apply wp_bind. unfold wp at 1. rewrite RemoveInvite_run; [|by eexists|by eexists].
  set (w1 := uninvited g l w). set (x1 := set_invitees (m_invitees x ∖ {[l]}) x).
  assert (H1 : links_ok w1) by (apply uninvited_ok; [done|]; intros h (P' & HP' & Hi'); congruence).
  assert (Hx1 : groups w1 !! g = Some x1) by (unfold w1; by rewrite lookup_uninvited_group, decide_True, Hx).
  assert (HL1 : players w1 !! l = Some (set_groupInvite None L)) by (cbn; by rewrite lookup_alter_eq, HL).
  apply wp_bind. eapply wp_mono; [apply (Create_ok g l x1 (set_groupInvite None L) w1); done|].
  intros r w2 (-> & x2 & Hcr). pose proof (cr_ok _ _ _ _ _ Hcr) as H2.
  assert (Hx2 : groups w2 !! g = Some x2) by (rewrite (cr_groups _ _ _ _ _ Hcr); apply lookup_insert_eq).
  apply wp_bind, (wp_deref_group g x2); [done|]. apply wp_modify.
  pose proof (cr_slots _ _ _ _ _ Hcr) as Hsl.
  apply (HQ _ x2); [by apply AddGroup_links| |done|done|by apply (cr_leader _ _ _ _ _ Hcr)
                   |by apply (cr_raid _ _ _ _ _ Hcr)|].
  - intros h y Hy Hnily Hhg. cbn in Hy. rewrite (cr_groups _ _ _ _ _ Hcr), lookup_insert_ne in Hy by done.
    unfold w1 in Hy. rewrite lookup_uninvited_group, decide_False, option_fmap_id in Hy by done.
    destruct (Hpend h y Hy Hnily) as (? & ? & ? & Hs). split_and!; try done. intros k Hk. cbn in Hk.
    apply lookup_insert_Some in Hk as [[_ ->]|[_ Hk]]; [done|]. rewrite (cr_store _ _ _ _ _ Hcr) in Hk. by apply (Hs k).
  - cbn. rewrite (cr_players _ _ _ _ _ Hcr), decide_False by done. cbn. rewrite lookup_alter_ne by done. by rewrite HP.
Qed.

(** All invitations of a group without members are withdrawn. *)
Lemma cleared_ok g x w (m : gmap Z Player) :
  world_ok w -> groups w !! g = Some x ->
  (forall q, m !! q = (if decide (q ∈ m_invitees x) then set_groupInvite None else id) <$> players w !! q) ->
  world_ok (set_players m (set_groups (alter (set_invitees ∅) g (groups w)) w)).
Proof.
  intros [H Hpend] Hx Hm. set (w' := set_players _ _). pose proof (links_groups_ok w H) as Hok. split.
  - apply (links_ok_same w); [done| | |].
    + split; [|intros q; cbn; rewrite Hm|done..].
      * apply (sr_alter_group w g (set_invitees ∅)); [done|]. intros y Hy. by apply same_members_invitees, (Hok g).
      * destruct (players w !! q); constructor. by destruct (decide (q ∈ m_invitees x)).
    + intros p h. unfold invited_to, invitee_of. cbn [players groups set_players set_groups w']. rewrite ex_alter, Hm.
      assert (Hb := lk_invites _ H p h). split.
      * intros (P & HP & Hi). destruct (players w !! p) as [P0|] eqn:HP0; [|done]. injection HP as <-.
        destruct (decide (p ∈ m_invitees x)) as [|Hn]; [done|]. cbn in Hi.
        destruct (proj1 Hb) as (y & Hy & Hin); [by exists P0|]. exists y. split; [done|].
        destruct (decide (g = h)) as [<-|]; [|done]. rewrite Hx in Hy. by injection Hy as <-.
      * intros (y & Hy & Hin). destruct (decide (g = h)) as [<-|Hne]; [by apply elem_of_empty in Hin|].
        destruct (proj2 Hb) as (P0 & HP0 & Hi); [by exists y|]. rewrite HP0. eexists. split; [done|].
        destruct (decide (p ∈ m_invitees x)) as [Hg|]; [|done]. exfalso.
        destruct (proj2 (lk_invites _ H p g)) as (P1 & HP1 & Hi1); [by exists x|]. congruence.
    + intros p h k sub (P & HP & Hi) Hr. cbn in HP. rewrite Hm in HP.
      destruct (players w !! p) as [P0|] eqn:HP0; [|done]. injection HP as <-.
      destruct (decide (p ∈ m_invitees x)); [done|]. apply (lk_apart _ H p h k sub); [by exists P0|done].
  - apply (pending_alter w g (set_invitees ∅)); [done|]. intros y Hy. split; [done|].
    intros _ (? & ? & _ & ?). split_and!; try done. by left.
Qed.

(** The members before [me] joins: a group that waits enrols its leader. *)
Definition enrolled (x : Group) : list MemberSlot :=
  if IsCreated x then m_memberSlots x else [mkSlot (m_leaderGuid x) 0 0 0].

(** [me] has joined [g] and sits in the first sub group with a place. *)
Definition joined_group (w w' : World) (g me : Z) (P : Player) (x : Group) : Prop :=
  exists sub x', groups w' !! g = Some x' /\ m_memberSlots x' = enrolled x ++ [mkSlot me sub 0 0] /\
    m_leaderGuid x' = m_leaderGuid x /\ players w' !! me = Some (joined g sub P) /\
    0 <= sub < MAX_RAID_SUBGROUPS /\ subgroup_count (enrolled x) sub < MAXGROUPSIZE /\
    (forall j, 0 <= j < sub -> subgroup_count (enrolled x) j = MAXGROUPSIZE) /\
    (isRaidGroup x = false -> sub = 0).

Lemma joined_group_ok w w1 w' g me P x x1 :
  links_ok w1 -> groups w1 !! g = Some x1 -> m_memberSlots x1 = enrolled x -> m_leaderGuid x1 = m_leaderGuid x ->
  isRaidGroup x1 = isRaidGroup x -> IsFull x1 = false -> players w1 !! me = Some (set_groupInvite None P) ->
  (exists sub x', free_subgroup x1 = Some sub /\ added g me sub x1 x' w1 w') -> joined_group w w' g me P x.
Proof.
  intros H1 Hx1 Hsl Hld Hraid Hfull HP1 (sub & x' & Hsub & Had). pose proof (links_groups_ok _ H1 _ _ Hx1) as Hok.
  destruct (not_full_has_place x1 Hok Hfull) as (sub' & Hsub' & [Hr0 Hr8] & Hlt & Hmin).
  assert (sub' = sub) as -> by congruence. exists sub, x'. rewrite <- Hsl.
  assert (Hnr : isRaidGroup x = false -> sub = 0).
  { intros Hnr. unfold free_subgroup in Hsub. rewrite (go_counts _ Hok), Hraid, Hnr in Hsub. congruence. }
  split_and!; try done.
  - rewrite (ad_groups _ _ _ _ _ _ _ Had). apply lookup_insert_eq.
  - apply (ad_slots _ _ _ _ _ _ _ Had).
  - rewrite (ad_leader _ _ _ _ _ _ _ Had). done.
  - rewrite (ad_players _ _ _ _ _ _ _ Had), decide_True, HP1 by done. done.
  - intros j Hj. destruct (isRaidGroup x) eqn:E; [by apply Hmin; [congruence|]|]. rewrite Hnr in Hj by done. lia.
Qed.

Lemma accept_ok me g P x w :
  world_ok w -> players w !! me = Some P -> p_groupInvite P = Some g -> groups w !! g = Some x ->
  m_leaderGuid x <> me -> ids_left (mgr w) ->
  wp (HandleGroupInviteResponse me true) (fun _ w' => world_ok w' /\
    (IsFull x = false -> IsCreated x || bool_decide (is_Some (FindPlayer w (m_leaderGuid x))) = true ->
     joined_group w w' g me P x)) w.
Proof.
  intros Hw HP Hi Hx Hlead Hids. pose proof (wo_links _ Hw) as H.
  unfold HandleGroupInviteResponse. apply wp_bind, (wp_deref_player me P); [done|]. rewrite Hi.
  assert (Hinv : invited_to w me g) by (by exists P).
  pose proof Hinv as (x' & Hx' & Hin)%(lk_invites _ H). rewrite Hx in Hx'. injection Hx' as <-.
  pose proof (uninvited_world g me P x w Hw HP Hi Hx Hlead) as Hw1.
  apply wp_bind. unfold wp at 1. rewrite RemoveInvite_run; [|by eexists|by eexists].
  set (w1 := uninvited g me w) in *. set (x1 := set_invitees (m_invitees x ∖ {[me]}) x).
  assert (Hx1 : groups w1 !! g = Some x1) by (unfold w1; by rewrite lookup_uninvited_group, decide_True, Hx).
  assert (HP1 : players w1 !! me = Some (set_groupInvite None P)) by (cbn; by rewrite lookup_alter_eq, HP).
  assert (Hg1 : p_group (set_groupInvite None P) = None) by (by apply (apart_None w me P g)).
  apply wp_bind, (wp_deref_group g x1); [done|].
  unfold IsLeader. change (m_leaderGuid x1) with (m_leaderGuid x). change (IsFull x1) with (IsFull x).
  rewrite (proj2 (Z.eqb_neq _ _) Hlead). destruct (IsFull x) eqn:Hfull.
  { eapply wp_mono; [by apply tell_ok|]. by intros [] w' Hw'. }
  assert (Hld : FindPlayer w1 (m_leaderGuid x) = FindPlayer w (m_leaderGuid x)).
  { unfold FindPlayer. cbn. by rewrite lookup_alter_ne by congruence. }
  apply wp_bind, wp_get. change (IsCreated x1) with (IsCreated x).
  destruct (IsCreated x) eqn:Hcre.
  - assert (Hne : m_memberSlots x <> []) by (intros E; unfold IsCreated, GetMembersCount in Hcre; by rewrite E in Hcre).
    assert (Hen : enrolled x = m_memberSlots x) by (unfold enrolled; by rewrite Hcre).
    destruct (FindPlayer w1 (m_leaderGuid x)); cbn [negb st_when]; apply wp_bind, wp_ret;
      (eapply wp_mono; [apply (AddMember_world g me x1 (set_groupInvite None P)); try done;
                        [apply Hw1|apply pending_others, Hw1]|]);
      intros [] w' [Hw' Had]; (split; [done|]); intros _ _;
      apply (joined_group_ok w w1 w' g me P x x1); try done; apply Hw1.
  - assert (Hnil : m_memberSlots x = []).
    { unfold IsCreated, GetMembersCount in Hcre. apply Z.ltb_ge in Hcre. apply length_zero_iff_nil. lia. }
    destruct (wo_pending _ Hw g x Hx Hnil) as (_ & Hraid & Hor & _).
    assert (Hl : m_leaderGuid x ∈ m_invitees x) by (destruct Hor as [E|]; [rewrite E in Hin; set_solver|done]).
    destruct (FindPlayer w1 (m_leaderGuid x)) as [L|] eqn:HL.
    + apply FindPlayer_Some in HL as [HL _]. cbn [negb st_when].
      assert (HiL : p_groupInvite L = Some g).
      { destruct (proj2 (lk_invites _ (wo_links _ Hw1) (m_leaderGuid x) g)) as (L' & HL' & Hi').
        - exists x1. split; [done|]. cbn. set_solver.
        - congruence. }
      apply wp_bind. apply (form_group_ok g x1 me (set_groupInvite None P) L); try done.
      intros w2 x2 H2 Hpe2 Hx2 Hsl2 Hld2 Hr2 HP2.
      assert (Hf2 : IsFull x2 = false) by (unfold IsFull, GetMembersCount; rewrite Hr2, Hsl2; done).
      eapply wp_mono; [apply (AddMember_world g me x2 (set_groupInvite None P)); try done; by rewrite Hsl2|].
      intros [] w' [Hw' Had]. split; [done|]. intros _ _.
      apply (joined_group_ok w w2 w' g me P x x2); try done.
      * rewrite Hsl2. unfold enrolled. by rewrite Hcre.
      * congruence.
    + eapply wp_mono; [apply (RemoveAllInvites_run g x1 w1 Hx1)|].
      { by apply (invitees_logged_in w1 g x1 (wo_links _ Hw1)). }
      intros [] w2 [Hp2 ->]. split; [by apply (cleared_ok g x1 w1)|]. intros _ Hb. exfalso.
      by rewrite <- Hld in Hb.
Qed.

Lemma HandleGroupInviteResponse_ok me accept w :
  world_ok w -> logged_in w me -> may_accept w me -> ids_left (mgr w) ->
  wp (HandleGroupInviteResponse me accept) (fun _ w' => world_ok w') w.
Proof.
  intros Hw [P HP] Hmay Hids. pose proof (wo_links _ Hw) as H.
  destruct (p_groupInvite P) as [g|] eqn:Hi.
  2: { unfold HandleGroupInviteResponse. apply wp_bind, (wp_deref_player me P); [done|]. rewrite Hi. by apply wp_ret. }
  assert (Hinv : invited_to w me g) by (by exists P).
  pose proof Hinv as (x & Hx & Hin)%(lk_invites _ H). pose proof (Hmay g x Hinv Hx) as Hlead.
  destruct accept.
  { eapply wp_mono; [by apply (accept_ok me g P x w)|]. by intros [] w' [Hw' _]. }
  unfold HandleGroupInviteResponse. apply wp_bind, (wp_deref_player me P); [done|]. rewrite Hi.
  apply wp_bind, (wp_deref_group g x); [done|]. apply wp_bind, wp_get.
  apply wp_bind. eapply wp_mono; [by apply (UninviteFromGroup_ok me P)|]. intros [] w1 [Hd _].
  pose proof (dp_ok _ _ Hd) as Hw1.
  destruct (FindPlayer w _); [by apply tell_ok|by apply wp_ret].
Qed.

(** ** All requests *)

Section Operations.
Context (CONFIG_ALLOW_GM_GROUP CONFIG_ALLOW_TWO_SIDE_INTERACTION_GROUP : bool)
        (lfg_left_dungeon : World -> Z -> bool) (lfg_can_uninvite : World -> Z -> PartyResult).

Inductive GroupOp :=
| OpLogin (p : Z) (x : Player)
| OpSetInWorld (p : Z) (b : bool)
| OpLogout (p : Z) (connected : bool)
| OpInvite (me : Z) (target : option Z)
| OpResponse (me : Z) (accept : bool)
| OpUninvite (me guid : Z)
| OpSetLeader (me guid : Z)
| OpSetRoles (me guid role : Z)
| OpDisband (me : Z)
| OpLootMethod (me : Z) (method : LootMethod) (threshold looter : Z)
| OpRaidConvert (me : Z) (toRaid : bool)
| OpChangeSubGroup (me guid groupNr : Z)
| OpAssistantLeader (me guid : Z) (apply : bool)
| OpEveryoneIsAssistant (me : Z) (apply : bool)
| OpPartyAssignment (me assignment guid : Z) (apply : bool).

Definition run_op (op : GroupOp) : GS unit :=
  match op with
  | OpLogin p x => Login p x
  | OpSetInWorld p b => SetInWorld p b
  | OpLogout p connected => LogoutPlayer lfg_left_dungeon p connected
  | OpInvite me t => HandleGroupInvite CONFIG_ALLOW_GM_GROUP CONFIG_ALLOW_TWO_SIDE_INTERACTION_GROUP me t
  | OpResponse me accept => HandleGroupInviteResponse me accept
  | OpUninvite me guid => HandleGroupUninviteGuid lfg_left_dungeon lfg_can_uninvite me guid
  | OpSetLeader me guid => HandleGroupSetLeader me guid
  | OpSetRoles me guid role => HandleGroupSetRoles me guid role
  | OpDisband me => HandleGroupDisband lfg_left_dungeon me
  | OpLootMethod me method t l => HandleLootMethod me method t l
  | OpRaidConvert me toRaid => HandleGroupRaidConvert me toRaid
  | OpChangeSubGroup me guid n => HandleGroupChangeSubGroup me guid n
  | OpAssistantLeader me guid apply => HandleGroupAssistantLeader me guid apply
  | OpEveryoneIsAssistant me apply => HandleGroupEveryoneIsAssistant me apply
  | OpPartyAssignment me a guid apply => HandlePartyAssignment me a guid apply
  end.

(** Requests come from players who are logged in, one login per character;
    nobody invites himself or accepts the invitation of a group he leads, the
    member who is moved is not between two maps, and the 32-bit ids are not
    used up. *)
Definition enabled (w : World) (op : GroupOp) : Prop :=
  match op with
  | OpLogin p _ => players w !! p = None
  | OpSetInWorld p _ | OpLogout p _ => logged_in w p
  | OpInvite me t => logged_in w me /\ t <> Some me
  | OpResponse me _ => logged_in w me /\ may_accept w me /\ ids_left (mgr w)
  | OpChangeSubGroup me guid n =>
      logged_in w me /\ is_byte n /\ forall P, players w !! guid = Some P -> IsInWorld P = true
  | OpUninvite me _ | OpSetLeader me _ | OpSetRoles me _ _ | OpDisband me | OpLootMethod me _ _ _
  | OpRaidConvert me _ | OpAssistantLeader me _ _ | OpEveryoneIsAssistant me _
  | OpPartyAssignment me _ _ _ => logged_in w me
  end.

Lemma op_ok op w : world_ok w -> enabled w op -> wp (run_op op) (fun _ w' => world_ok w') w.
Proof.
  intros Hw He. destruct op; cbn [run_op enabled] in *.
  - by apply Login_ok.
  - by apply SetInWorld_ok.
  - by apply LogoutPlayer_ok.
  - destruct He as [[P HP] Hself]. eapply wp_mono; [by apply (HandleGroupInvite_ok _ _ me P)|]. by intros [] w' [? _].
  - destruct He as (? & ? & ?). by apply HandleGroupInviteResponse_ok.
  - by apply HandleGroupUninviteGuid_ok.
  - by apply HandleGroupSetLeader_ok.
  - by apply HandleGroupSetRoles_ok.
  - by apply HandleGroupDisband_ok.
  - by apply HandleLootMethod_ok.
  - by apply HandleGroupRaidConvert_ok.
  - destruct He as (? & ? & ?). by apply HandleGroupChangeSubGroup_ok.
  - by apply HandleGroupAssistantLeader_ok.
  - by apply HandleGroupEveryoneIsAssistant_ok.
  - by apply HandlePartyAssignment_ok.
Qed.

(** The server starts without players and groups; id 0 of the pool is never
    handed out. *)
Definition no_world : World := mkWorld ∅ ∅ 1 (mkGroupMgr 1 1 [] ∅) ∅ [].

Inductive reachable : World -> Prop :=
| reach_start : reachable no_world
| reach_step w op w' : reachable w -> enabled w op -> run_op op w = Ok (tt, w') -> reachable w'.

Lemma no_world_ok : world_ok no_world.
Proof.
  assert (Hm : forall p g s, ~ member_of no_world p g s) by (intros p g s (x & Hx & _); done).
  split; [|intros g x Hx; done]. split.
  - done.
  - intros p g. split; [intros (P & HP & _); done|intros (x & Hx & _); done].
  - intros p g s. split; [intros (P & HP & _); done|intros [Hx _]; by apply Hm in Hx].
  - done.
  - intros p g h s (P & HP & _). done.
  - intros p id s. split; [done|intros (g & x & Hx & _); done].
  - intros id g [_ Hs]. done.
  - done.
  - split; cbn; [lia|lia|intros g [_ Hg]; done|intros g [_ Hg]; done].
  - done.
Qed.

Lemma requests_keep_ok w : reachable w -> world_ok w.
Proof.
  induction 1 as [|w op w' _ IH He Hrun]; [apply no_world_ok|].
  pose proof (op_ok op w IH He) as Hop. unfold wp in Hop. by rewrite Hrun in Hop.
Qed.

End Operations.
