(* ===== verification/GroupLife.v ===== *)
(** * What the group requests do (Groups/Group.cpp, Handlers/GroupHandler.cpp)

    On a world that requests have led to: who may invite whom and who joins
    where; who leads after a member has gone, and when the group is destroyed;
    what a member without a rank can not do; the database ids.  At the end the
    three requests that the hypotheses of [group_world_safe] leave out, with
    what they lead to. *)
From S2P Require Import Prelude.
From S2P Require Import Lists.
From S2P Require Import Group.
From S2P Require Import GroupSlots.
From S2P Require Import GroupLinks.
From S2P Require Import GroupMembers.
From S2P Require Import GroupRoster.
From S2P Require Import GroupWorld.
Local Open Scope Z_scope.

(** ** Concrete runs *)

Definition enabledb (w : World) (op : GroupOp) : bool :=
  let here p := match players w !! p with Some _ => true | None => false end in
  match op with
  | OpLogin p _ => negb (here p)
  | OpSetInWorld p _ | OpLogout p _ => here p
  | OpInvite me t => here me && negb (bool_decide (t = Some me))
  | OpResponse me _ =>
      here me && (Z.of_nat (length (GroupDbStore (mgr w))) <? 0xFFFFFFFE) &&
      match players w !! me with
      | Some P =>
          match p_groupInvite P with
          | Some g => match groups w !! g with Some x => negb (m_leaderGuid x =? me) | None => true end
          | None => true
          end
      | None => true
      end
  | OpChangeSubGroup me guid n =>
      here me && (0 <=? n) && (n <? 256) &&
      match players w !! guid with Some P => IsInWorld P | None => true end
  | OpUninvite me _ | OpSetLeader me _ | OpSetRoles me _ _ | OpDisband me | OpLootMethod me _ _ _
  | OpRaidConvert me _ | OpAssistantLeader me _ _ | OpEveryoneIsAssistant me _
  | OpPartyAssignment me _ _ _ => here me
  end.

Lemma enabledb_spec w op : enabledb w op = true -> enabled w op.
Proof.
  assert (Hh : forall p, match players w !! p with Some _ => true | None => false end = true -> logged_in w p).
  { intros p. unfold logged_in. destruct (players w !! p); [by eexists|done]. }
  destruct op; cbn; try apply Hh; rewrite ?andb_true_iff.
  - by destruct (players w !! p).
  - intros [? ?%negb_true_iff%bool_decide_eq_false]. auto.
  - intros [[? Hl%Z.ltb_lt] Hm]. split_and!; [by apply Hh| |done]. intros g x (P & HP & Hi) Hx He.
    rewrite HP, Hi, Hx, He, Z.eqb_refl in Hm. done.
  - intros [[[? ?%Z.leb_le] ?%Z.ltb_lt] Hp]. split_and!; [by apply Hh|unfold is_byte; lia|].
    intros P HP. by rewrite HP in Hp.
Qed.

Section Scripts.
Context (CONFIG_ALLOW_GM_GROUP CONFIG_ALLOW_TWO_SIDE_INTERACTION_GROUP : bool)
        (lfg_left_dungeon : World -> Z -> bool) (lfg_can_uninvite : World -> Z -> PartyResult).
Notation run := (run_op CONFIG_ALLOW_GM_GROUP CONFIG_ALLOW_TWO_SIDE_INTERACTION_GROUP lfg_left_dungeon lfg_can_uninvite).
Notation reach := (reachable CONFIG_ALLOW_GM_GROUP CONFIG_ALLOW_TWO_SIDE_INTERACTION_GROUP lfg_left_dungeon lfg_can_uninvite).

(** A sequence of requests; [None] if one of them is not enabled or fails. *)
Fixpoint run_script (ops : list GroupOp) (w : World) : option World :=
  match ops with
  | [] => Some w
  | op :: ops =>
      if enabledb w op then match run op w with Ok (_, w') => run_script ops w' | Err _ => None end else None
  end.

Lemma run_script_reachable ops w w' : reach w -> run_script ops w = Some w' -> reach w'.
Proof.
  revert w. induction ops as [|op ops IH]; intros w Hw; cbn [run_script]; [by intros [= ->]|].
  destruct (enabledb w op) eqn:He; [|done]. destruct (run op w) as [[[] w1]|] eqn:Hrun; [|done].
  apply IH. eapply reach_step; [exact Hw|by apply enabledb_spec|exact Hrun].
Qed.
End Scripts.

(** A character of no group, of the first faction, on map 0. *)
Definition fresh_player : Player := mkPlayer None None None true false 1 0 0 0 false ∅.
Definition enter (p : Z) : list GroupOp := [OpLogin p fresh_player; OpSetInWorld p true].

Definition demo (ops : list GroupOp) : World :=
  default no_world (run_script false false (fun _ _ => false) (fun _ _ => ERR_NOT_LEADER) ops no_world).
Notation demo_run := (run_op false false (fun _ _ => false) (fun _ _ => ERR_NOT_LEADER)).
Notation demo_reach := (reachable false false (fun _ _ => false) (fun _ _ => ERR_NOT_LEADER)).

Lemma script_reachable ops : demo_reach (demo ops).
Proof.
  unfold demo. destruct (run_script _ _ _ _ ops no_world) as [w|] eqn:E; [|constructor].
  by apply (run_script_reachable _ _ _ _ ops no_world w); [constructor|].
Qed.

(** 1, 2 and 3 are in the world, 1 has invited 2 and 3, and 2 has accepted. *)
Definition demo_invited : World := demo (enter 1 ++ enter 2 ++ enter 3 ++ [OpInvite 1 (Some 2)]).
Definition demo_pair : World :=
  demo (enter 1 ++ enter 2 ++ enter 3 ++ [OpInvite 1 (Some 2); OpResponse 2 true]).
Definition demo_party : World :=
  demo (enter 1 ++ enter 2 ++ enter 3 ++
        [OpInvite 1 (Some 2); OpResponse 2 true; OpInvite 1 (Some 3); OpResponse 3 true]).
Definition demo_raid : World :=
  demo (enter 1 ++ enter 2 ++ [OpInvite 1 (Some 2); OpResponse 2 true; OpRaidConvert 1 true; OpSetInWorld 2 false]).


(** ** Joining *)

Section Requests.
Context (CONFIG_ALLOW_GM_GROUP CONFIG_ALLOW_TWO_SIDE_INTERACTION_GROUP : bool)
        (lfg_left_dungeon : World -> Z -> bool) (lfg_can_uninvite : World -> Z -> PartyResult).
Notation run := (run_op CONFIG_ALLOW_GM_GROUP CONFIG_ALLOW_TWO_SIDE_INTERACTION_GROUP lfg_left_dungeon lfg_can_uninvite).
Notation reach := (reachable CONFIG_ALLOW_GM_GROUP CONFIG_ALLOW_TWO_SIDE_INTERACTION_GROUP lfg_left_dungeon lfg_can_uninvite).

(** An invitation reaches the named player exactly if nothing forbids it,
    he has neither group nor invitation, and the inviter is a leader or an
    assistant of a group that is not full, or has neither group nor invitation
    himself; it is then of the inviter's group, or of a new group that waits
    for its leader, the inviter.  Otherwise no player is changed. *)
Theorem invite_reaches w me P t Q :
  reach w -> players w !! me = Some P -> FindPlayer w t = Some Q -> t <> me ->
  exists w', run (OpInvite me (Some t)) w = Ok (tt, w') /\
    if invitation_sent CONFIG_ALLOW_GM_GROUP CONFIG_ALLOW_TWO_SIDE_INTERACTION_GROUP w me P Q
    then invitation_held w' me t P Q else players w' = players w.
Proof.
  intros Hr HP HQ Hne. assert (Hself : Some t <> Some me) by congruence.
  pose proof (HandleGroupInvite_ok CONFIG_ALLOW_GM_GROUP CONFIG_ALLOW_TWO_SIDE_INTERACTION_GROUP me P (Some t) w
                (requests_keep_ok _ _ _ _ w Hr) HP Hself) as ([] & w' & Hrun & _ & He)%wp_Ok.
  cbn in He. rewrite HQ in He. cbn in He. by exists w'.
Qed.

(** C26: Who accepts an invitation of a group with a place is its last member
    afterwards, in the first sub group with fewer than five members (all sub
    groups before it have five); a group nobody has joined yet gets its leader
    as first member.  The leader stays, and the invitation is gone. *)
Theorem accept_joins w me P g x :
  reach w -> players w !! me = Some P -> p_groupInvite P = Some g -> groups w !! g = Some x ->
  m_leaderGuid x <> me -> IsFull x = false -> ids_left (mgr w) ->
  IsCreated x = true \/ is_Some (FindPlayer w (m_leaderGuid x)) ->
  exists w', run (OpResponse me true) w = Ok (tt, w') /\ joined_group w w' g me P x.
Proof.
  intros Hr HP Hi Hx Hl Hf Hids Hor.
  pose proof (accept_ok me g P x w (requests_keep_ok _ _ _ _ w Hr) HP Hi Hx Hl Hids) as ([] & w' & Hrun & _ & Hj)%wp_Ok.
  exists w'. split; [done|]. apply Hj; [done|]. apply orb_true_iff. destruct Hor as [?|?]; [by left|right].
  by apply bool_decide_eq_true.
Qed.

(** ** Leaving *)

(** C28: A member who leaves is taken off the roster; if he led, the next
    leader is the first of the others, in the order they joined, who is in the
    world - and if none is, the group keeps the leader it has lost.  The group
    is destroyed if at most two were in it, or if fewer than two of the others
    are connected, raids not excepted. *)
Theorem leaving_member w me P g x :
  reach w -> players w !! me = Some P -> GetGroup P = Some g -> groups w !! g = Some x ->
  InBattleground P = false ->
  exists w', run (OpDisband me) w = Ok (tt, w') /\ removed w w' g me x (2 <? GetMembersCount x).
Proof.
  intros Hr HP Hg Hx Hbg. pose proof (requests_keep_ok _ _ _ _ w Hr) as Hw.
  destruct (own_group w me P g Hw HP Hg) as (x' & s & Hx' & Hs & _ & Hok).
  rewrite Hx in Hx'. injection Hx' as <-.
  assert (H : wp (HandleGroupDisband lfg_left_dungeon me) (fun _ w' => removed w w' g me x (2 <? GetMembersCount x)) w).
  { unfold HandleGroupDisband. apply wp_bind, (wp_deref_player me P); [done|]. rewrite Hg, Hbg.
    apply wp_bind, wp_tell. unfold RemoveFromGroup. apply wp_bind.
    eapply wp_mono; [apply (RemoveMember_ok lfg_left_dungeon g me x s); try done; by apply (world_told _ w)|].
    intros r w' [_ Hrem]. apply wp_ret. unfold removed in *.
    change (connected (mkWorld _ _ _ _ _ _)) with (connected w) in Hrem.
    destruct (2 <? GetMembersCount x), (Nat.leb _ _); cbn [andb] in *; destruct Hrem as [-> Hrem]; by split. }
  apply wp_Ok in H as ([] & w' & Hrun & Hrem). by exists w'.
Qed.

(** ** Ranks *)

(** The requests that need a rank. *)
Definition needs_rank (op : GroupOp) (me : Z) : Prop :=
  match op with
  | OpInvite p _ | OpUninvite p _ | OpSetLeader p _ | OpLootMethod p _ _ _ | OpRaidConvert p _
  | OpChangeSubGroup p _ _ | OpAssistantLeader p _ _ | OpEveryoneIsAssistant p _
  | OpPartyAssignment p _ _ _ => p = me
  | OpLogin _ _ | OpSetInWorld _ _ | OpLogout _ _ | OpResponse _ _ | OpSetRoles _ _ _ | OpDisband _ => False
  end.

Definition only_notices (w w' : World) : Prop :=
  players w' = players w /\ groups w' = groups w /\ mgr w' = mgr w /\ group_member w' = group_member w /\
  next_address w' = next_address w.

Lemma with_group_refused me P g x allowed m w :
  players w !! me = Some P -> GetGroup P = Some g -> groups w !! g = Some x -> allowed P x = false ->
  wp (with_group me allowed m) (fun _ w' => only_notices w w') w.
Proof.
  intros HP Hg Hx Ha. apply wp_bind, (wp_deref_player me P); [done|]. rewrite Hg.
  apply wp_bind, (wp_deref_group g x); [done|]. rewrite Ha. by apply wp_ret.
Qed.

(** A member who is neither leader nor assistant changes nothing with a
    request that needs a rank: nobody is invited, removed, moved, promoted or
    marked, and the group keeps its kind and its loot rules. *)
Theorem commands_need_rank w op me P g x :
  reach w -> players w !! me = Some P -> GetGroup P = Some g -> groups w !! g = Some x ->
  IsLeader x me = false -> IsAssistant x me = false -> needs_rank op me ->
  exists w', run op w = Ok (tt, w') /\ only_notices w w'.
Proof.
  intros Hr HP Hg Hx Hl Ha Hop. pose proof (requests_keep_ok _ _ _ _ w Hr) as Hw.
  assert (H : wp (run op) (fun _ w' => only_notices w w') w).
  2: { apply wp_Ok in H as ([] & w' & Hrun & Ho). by exists w'. }
  assert (Htell : forall n, wp (tell n) (fun _ w' => only_notices w w') w) by (intros n; by apply wp_tell).
  destruct (go_regular _ (links_groups_ok _ (wo_links _ Hw) _ _ Hx)) as [_ Hlfg].
  destruct op; cbn in Hop; try done; subst; cbn [run_op];
    try (apply (with_group_refused me P g x); [done..|]; unfold officer; rewrite ?Hl, ?Ha;
         by rewrite ?andb_false_r, ?andb_false_l).
  - unfold HandleGroupInvite. apply wp_bind, (wp_deref_player me P); [done|]. apply wp_bind, wp_get.
    destruct (target ≫= _) as [[t Q]|] eqn:Ht; [|apply Htell]. destruct (invite_refused _ _ _ _ _); [apply Htell|].
    apply wp_bind. eapply wp_mono; [by apply (invite_group_run w me P)|]. intros _ _ [-> ->].
    assert (HQ : players w !! t = Some Q).
    { destruct target as [t'|]; [|done]. cbn in Ht. destruct (FindPlayer w t') as [Q'|] eqn:E; [|done].
      cbn in Ht. injection Ht as -> ->. by apply FindPlayer_Some in E as [? _]. }
    apply wp_bind. eapply wp_mono; [by apply (invite_group_run w t Q)|]. intros _ _ [-> ->].
    destruct (_ || _).
    + apply wp_bind, wp_tell. by destruct (bool_decide _); [apply wp_tell|apply wp_ret].
    + rewrite Hg. apply wp_bind, (wp_deref_group g x); [done|]. rewrite Hl, Ha. apply Htell.
  - unfold HandleGroupUninviteGuid. destruct (guid =? me); [by apply wp_ret|].
    apply wp_bind, (wp_deref_player me P); [done|]. apply wp_bind, wp_get. rewrite Hg.
    apply wp_bind, (wp_deref_group g x); [done|]. unfold CanUninviteFromGroup. rewrite Hlfg, Hl, Ha. apply Htell.
  - unfold HandleGroupSetLeader. apply wp_bind, (wp_deref_player me P); [done|]. apply wp_bind, wp_get. rewrite Hg.
    destruct (FindPlayer w guid); [|by apply wp_ret]. apply wp_bind, (wp_deref_group g x); [done|].
    rewrite Hl. by apply wp_ret.
Qed.

(** ** Database ids *)

(** The id a new group gets is the least one no group has, from 1 on; the
    group is found under it afterwards, as the others are under theirs, and the
    test for an overflow does not stop the server. *)
Theorem group_id_least w g id m stop :
  reach w -> ids_left (mgr w) -> GenerateNewGroupDbStoreId (mgr w) = (id, m, stop) ->
  stop = false /\ 0 < id /\ (forall h, ~ stored (mgr w) id h) /\
  (forall k, 0 < k < id -> exists h y, stored (mgr w) k h /\ groups w !! h = Some y /\ m_dbStoreId y = k) /\
  GetGroupByDbStoreId (RegisterGroupDbStoreId id g m) id = Some g /\
  (forall k h, stored (mgr w) k h -> GetGroupByDbStoreId (RegisterGroupDbStoreId id g m) k = Some h).
Proof.
  intros Hr Hids Hgen. pose proof (wo_links _ (requests_keep_ok _ _ _ _ w Hr)) as H. pose proof (lk_pool _ H) as Hp.
  destruct (Generate_next _ Hp Hids) as (n & Hgen' & _). rewrite Hgen' in Hgen. injection Hgen as <- <- <-.
  destruct (with_id_spec g (mgr w) Hp Hids) as (_ & _ & _ & Hst). unfold with_id in Hst. rewrite Hgen' in Hst.
  set (m' := RegisterGroupDbStoreId _ g _) in *.
  assert (Hget : forall k h, stored m' k h -> GetGroupByDbStoreId m' k = Some h).
  { intros k h Hk. unfold GetGroupByDbStoreId. rewrite (proj2 (Z.ltb_lt _ _)) by (by eapply stored_lt).
    destruct Hk as [_ Hk]. by rewrite Hk. }
  split_and!; [done|apply (pool_next _ Hp)|apply (pool_free _ Hp)| | |].
  - intros k Hk. destruct (pool_least _ Hp k Hk) as [h Hh]. destruct (lk_store _ H k h Hh) as (y & Hy & Hid). eauto.
  - apply Hget, Hst. by left.
  - intros k h Hk. apply Hget, Hst. by right.
Qed.
End Requests.

(** ** Requests that are not safe *)

Section Unsafe.
Context (CONFIG_ALLOW_GM_GROUP CONFIG_ALLOW_TWO_SIDE_INTERACTION_GROUP : bool)
        (lfg_left_dungeon : World -> Z -> bool) (lfg_can_uninvite : World -> Z -> PartyResult).
Notation run := (run_op CONFIG_ALLOW_GM_GROUP CONFIG_ALLOW_TWO_SIDE_INTERACTION_GROUP lfg_left_dungeon lfg_can_uninvite).
Notation reach := (reachable CONFIG_ALLOW_GM_GROUP CONFIG_ALLOW_TWO_SIDE_INTERACTION_GROUP lfg_left_dungeon lfg_can_uninvite).

(** Nothing stops a player from inviting himself.  The new group invites
    its leader, then refuses him because he is invited, and is deleted while he
    still holds its invitation: to accept it, to decline it or to log out uses
    the freed group. *)
Theorem self_invite_use_after_free w me P accept connected :
  reach w -> FindPlayer w me = Some P -> GetGroup P = None -> p_groupInvite P = None -> me ∉ ignores P ->
  exists w', run (OpInvite me (Some me)) w = Ok (tt, w') /\
    run (OpResponse me accept) w' = Err UseAfterFree /\ run (OpLogout me connected) w' = Err UseAfterFree.
Proof.
  intros Hr Hfind Hg Hi Hign. pose proof (requests_keep_ok _ _ _ _ w Hr) as Hw. cbn [run_op].
  apply FindPlayer_Some in Hfind as Hf. destruct Hf as [HP _]. set (g := next_address w).
  assert (H : wp (HandleGroupInvite CONFIG_ALLOW_GM_GROUP CONFIG_ALLOW_TWO_SIDE_INTERACTION_GROUP me (Some me))
                (fun _ w' => groups w' !! g = None /\ exists P', players w' !! me = Some P' /\ p_groupInvite P' = Some g) w).
  { apply wp_bind, (wp_deref_player me P); [done|]. apply wp_bind, wp_get. cbn [mbind option_bind].
    rewrite Hfind. cbn [mbind option_bind].
    assert (Hno : invite_refused CONFIG_ALLOW_GM_GROUP CONFIG_ALLOW_TWO_SIDE_INTERACTION_GROUP P P me = None).
    { unfold invite_refused. rewrite !Z.eqb_refl, bool_decide_false by done. cbn [negb andb].
      rewrite !andb_false_r. destruct (IsGameMaster P); by rewrite ?andb_false_r, ?andb_true_r. }
    rewrite Hno.
    apply wp_bind. eapply wp_mono; [by apply (invite_group_run w me P)|]. intros _ _ [-> ->].
    apply wp_bind. eapply wp_mono; [by apply (invite_group_run w me P)|]. intros _ _ [-> ->].
    rewrite Hg, Hi, bool_decide_false by (by intros [? ?]).
    apply wp_bind, wp_get. apply wp_bind, wp_modify. fold (with_new_group w).
    apply wp_bind. eapply wp_mono; [by apply (AddLeaderInvite_ok me P w)|]. intros [|] w1; cbv beta iota; cbn [negb].
    2: { intros [[[? ?]|[? ?]] _]; congruence. }
    intros (_ & Hw1 & _ & HP1 & x & Hx & _). apply wp_bind, wp_bind, (wp_deref_player me (set_groupInvite (Some g) P)); [done|].
    apply wp_ret. cbn [negb]. unfold wp, delete_group. rewrite Hx. split; [apply lookup_delete_eq|].
    eexists. cbn [players set_players set_groups]. rewrite lookup_fmap, HP1. split; reflexivity. }
  apply wp_Ok in H as ([] & w' & Hrun & Hx & P' & HP' & Hi'). exists w'. split; [done|].
  unfold HandleGroupInviteResponse, LogoutPlayer, UninviteFromGroup, RemoveInvite, mbind, st_bind, deref_player,
    deref_group, mod_group.
  rewrite HP', Hi'. destruct accept; cbv beta; by rewrite Hx.
Qed.
End Unsafe.

(** The leader of a group that waits can accept its invitation; it then no
    longer counts on him, and he may be invited elsewhere.  When the other
    player accepts, [Create] takes that second invitation from the leader but
    not the leader from the list of the second group, which keeps the address
    of his object: it is used after he has logged out. *)
Theorem own_acceptance_use_after_free :
  let script := enter 1 ++ enter 2 ++ enter 3 ++ [OpInvite 1 (Some 2)] in
  exists w1 w2, demo_run (OpResponse 1 true) (demo script) = Ok (tt, w1) /\
    run_script false false (fun _ _ => false) (fun _ _ => ERR_NOT_LEADER)
      [OpInvite 3 (Some 1); OpResponse 2 true; OpLogout 1 true] w1 = Some w2 /\
    enabled w2 (OpLogout 3 true) /\ demo_run (OpLogout 3 true) w2 = Err UseAfterFree.
Proof.
  cbv zeta. do 2 eexists. split; [vm_compute; reflexivity|]. split; [vm_compute; reflexivity|].
  split; [by apply enabledb_spec; vm_compute|]. vm_compute. reflexivity.
Qed.

(** A raid member who is moved while he is between two maps keeps the sub
    group of before in his object; the roster and the table have the new one. *)
Theorem moved_while_zoning :
  exists w P, demo_run (OpChangeSubGroup 1 2 3) demo_raid = Ok (tt, w) /\
    players w !! 2 = Some P /\ p_group P = Some (1, 0) /\ group_member w !! 2 = Some (1, 3) /\
    (fun x => GetMemberGroup x 2) <$> groups w !! 1 = Some 3.
Proof. do 2 eexists. split; [vm_compute; reflexivity|]. vm_compute. auto. Qed.

(** ** The theorems on concrete worlds *)

Lemma invite_reaches_witness :
  let w := demo (enter 1 ++ enter 2) in
  exists w', demo_run (OpInvite 1 (Some 2)) w = Ok (tt, w') /\
    invitation_held w' 1 2 (set_inWorld true fresh_player) (set_inWorld true fresh_player).
Proof.
  intros w.
  apply (invite_reaches false false (fun _ _ => false) (fun _ _ => ERR_NOT_LEADER) w 1 (set_inWorld true fresh_player) 2
           (set_inWorld true fresh_player)).
  - apply script_reachable.
  - vm_compute. reflexivity.
  - vm_compute. reflexivity.
  - discriminate.
Defined.

Definition player_of (w : World) (p : Z) : Player := default fresh_player (players w !! p).
Definition group_of (w : World) (g : Z) : Group := default new_Group (groups w !! g).

Lemma accept_joins_witness :
  exists w', demo_run (OpResponse 2 true) demo_invited = Ok (tt, w') /\
    joined_group demo_invited w' 1 2 (player_of demo_invited 2) (group_of demo_invited 1).
Proof.
  apply (accept_joins false false (fun _ _ => false) (fun _ _ => ERR_NOT_LEADER) demo_invited 2 (player_of demo_invited 2)
           1 (group_of demo_invited 1)).
  - apply script_reachable.
  - vm_compute. reflexivity.
  - vm_compute. reflexivity.
  - vm_compute. reflexivity.
  - vm_compute. discriminate.
  - vm_compute. reflexivity.
  - vm_compute. reflexivity.
  - right. vm_compute. eexists. reflexivity.
Defined.

Lemma leaving_member_witness :
  exists w', demo_run (OpDisband 1) demo_party = Ok (tt, w') /\ removed demo_party w' 1 1 (group_of demo_party 1) true.
Proof.
  apply (leaving_member false false (fun _ _ => false) (fun _ _ => ERR_NOT_LEADER) demo_party 1 (player_of demo_party 1)
           1 (group_of demo_party 1)).
  - apply script_reachable.
  - vm_compute. reflexivity.
  - vm_compute. reflexivity.
  - vm_compute. reflexivity.
  - vm_compute. reflexivity.
Defined.

Lemma commands_need_rank_witness :
  exists w', demo_run (OpUninvite 2 3) demo_party = Ok (tt, w') /\ only_notices demo_party w'.
Proof.
  apply (commands_need_rank false false (fun _ _ => false) (fun _ _ => ERR_NOT_LEADER) demo_party (OpUninvite 2 3) 2
           (player_of demo_party 2) 1 (group_of demo_party 1)).
  - apply script_reachable.
  - vm_compute. reflexivity.
  - vm_compute. reflexivity.
  - vm_compute. reflexivity.
  - vm_compute. reflexivity.
  - vm_compute. reflexivity.
  - reflexivity.
Defined.

Lemma group_id_least_witness :
  let '(id, m, stop) := GenerateNewGroupDbStoreId (mgr demo_pair) in
  stop = false /\ 0 < id /\ (forall h, ~ stored (mgr demo_pair) id h) /\
  (forall k, 0 < k < id -> exists h y, stored (mgr demo_pair) k h /\ groups demo_pair !! h = Some y /\ m_dbStoreId y = k) /\
  GetGroupByDbStoreId (RegisterGroupDbStoreId id 7 m) id = Some 7 /\
  (forall k h, stored (mgr demo_pair) k h -> GetGroupByDbStoreId (RegisterGroupDbStoreId id 7 m) k = Some h).
Proof.
  destruct (GenerateNewGroupDbStoreId (mgr demo_pair)) as [[id m] stop] eqn:E.
  apply (group_id_least false false (fun _ _ => false) (fun _ _ => ERR_NOT_LEADER) demo_pair 7 id m stop).
  - apply script_reachable.
  - vm_compute. reflexivity.
  - exact E.
Defined.

Lemma self_invite_use_after_free_witness :
  exists w', demo_run (OpInvite 1 (Some 1)) (demo (enter 1)) = Ok (tt, w') /\
    demo_run (OpResponse 1 false) w' = Err UseAfterFree /\ demo_run (OpLogout 1 true) w' = Err UseAfterFree.
Proof.
  apply (self_invite_use_after_free false false (fun _ _ => false) (fun _ _ => ERR_NOT_LEADER) (demo (enter 1)) 1
           (player_of (demo (enter 1)) 1) false true).
  - apply script_reachable.
  - vm_compute. reflexivity.
  - vm_compute. reflexivity.
  - vm_compute. reflexivity.
  - assert (E : ignores (player_of (demo (enter 1)) 1) = ∅) by (vm_compute; reflexivity).
    rewrite E. set_solver.
Defined.
