(* ===== verification/GroupRoll.v ===== *)
(** * Group loot rolls (src/server/game/Groups/Group.cpp, the loot system; Loot/LootMgr.h)

    When a group loots an item above its threshold, every member near it may
    vote need, greed, disenchant or pass; when all votes are in, or a timer
    runs out, the item goes to the highest roll of the best kind.  The rolls
    of a group are a vector of [Roll]s, each linked to the [Loot] it is about,
    which may be destroyed before the roll ends. *)
From S2P Require Import Prelude.
From S2P Require Import Lists.
Local Open Scope Z_scope.

(** ** Data *)

Inductive RollVote := PASS | NEED | GREED | DISENCHANT | NOT_EMITED_YET | NOT_VALID.
#[export] Instance RollVote_eq_dec : EqDecision RollVote.
Proof. solve_decision. Defined.

Definition ROLL_PASS : Z := 0.
Definition ROLL_NEED : Z := 1.
Definition ROLL_GREED : Z := 2.
Definition ROLL_DISENCHANT : Z := 3.
Definition MAX_ROLL_TYPE : Z := 4.
(** The number of a vote on the wire. *)
Definition vote_type (v : RollVote) : Z :=
  match v with
  | PASS => 0 | NEED => 1 | GREED => 2 | DISENCHANT => 3 | NOT_EMITED_YET => 4 | NOT_VALID => 5
  end.

Definition ROLL_FLAG_TYPE_DISENCHANT : Z := 0x08.
Definition ROLL_ALL_TYPE_NO_DISENCHANT : Z := 0x07.
Definition ROLL_FLAG_TYPE_NEED : Z := 0x02.
Definition ITEM_FLAGS_EXTRA_NEED_ROLL_DISABLED : Z := 0x100.

Record LootItem := mkLootItem {
  li_itemid : Z;
  li_count : Z;
  is_looted : bool;
  is_blocked : bool;
  freeforall : bool;
  is_underthreshold : bool;
  follow_loot_rules : bool
}.

Definition set_looted (i : LootItem) : LootItem :=
  mkLootItem (li_itemid i) (li_count i) true (is_blocked i) (freeforall i) (is_underthreshold i)
    (follow_loot_rules i).
Definition set_blocked (b : bool) (i : LootItem) : LootItem :=
  mkLootItem (li_itemid i) (li_count i) (is_looted i) b (freeforall i) (is_underthreshold i)
    (follow_loot_rules i).
Definition set_underthreshold (i : LootItem) : LootItem :=
  mkLootItem (li_itemid i) (li_count i) (is_looted i) (is_blocked i) (freeforall i) true
    (follow_loot_rules i).

Record Loot := mkLoot { items : list LootItem; quest_items : list LootItem; unlootedCount : Z }.

(** The address of a [Loot]. *)
Definition LootPtr : Type := Z.

Record Roll := mkRoll {
  itemGUID : Z;
  roll_itemid : Z;
  itemCount : Z;
  playerVote : gmap Z RollVote;
  totalPlayersRolling : Z;
  totalNeed : Z;
  totalGreed : Z;
  totalPass : Z;
  itemSlot : Z;
  rollVoteMask : Z;
  roll_loot : option LootPtr
}.

(** [Roll(_guid, li)] *)
Definition new_Roll (guid : Z) (li : LootItem) : Roll :=
  mkRoll guid (li_itemid li) (li_count li) ∅ 0 0 0 0 0 ROLL_ALL_TYPE_NO_DISENCHANT None.

Definition set_votes (v : gmap Z RollVote) (players need greed pass : Z) (r : Roll) : Roll :=
  mkRoll (itemGUID r) (roll_itemid r) (itemCount r) v players need greed pass (itemSlot r)
    (rollVoteMask r) (roll_loot r).
Definition setLoot (l : LootPtr) (slot mask : Z) (r : Roll) : Roll :=
  mkRoll (itemGUID r) (roll_itemid r) (itemCount r) (playerVote r) (totalPlayersRolling r)
    (totalNeed r) (totalGreed r) (totalPass r) slot mask (Some l).

(** What leaves the group: packets to the rolling players, and what is done
    to the winner. *)
Inductive LootEvent :=
| StartRoll (guid : Z)
| StartRollTo (guid player : Z) (canNeed : bool)
| LootRollSent (target rollNumber rollType guid : Z)
| LootRollWon (target rollNumber rollType guid : Z)
| LootAllPassed (guid : Z)
| ItemRemovedNotice (l : LootPtr) (slot : Z)
| StoredNewItem (player itemid count : Z)
| EquipError (player msg : Z)
| Disenchanted (player itemid : Z).

(** The rolls of a group with the loots they point to. *)
Record RollState := mkRollState {
  RollId : list Roll;
  loots : gmap LootPtr Loot;
  loot_events : list LootEvent
}.

(** Dereferencing a null or destroyed loot or a missing template, and an index
    past the end of a vector. *)
Inductive RollError := NullLoot | NullTemplate | OutOfBounds | OutOfFuel.
Definition RS (A : Type) : Type := ST RollState RollError A.

Definition set_RollId (l : list Roll) (s : RollState) : RollState := mkRollState l (loots s) (loot_events s).
Definition set_loots (m : gmap LootPtr Loot) (s : RollState) : RollState :=
  mkRollState (RollId s) m (loot_events s).
Definition say (e : LootEvent) : RS unit :=
  st_modify (fun s => mkRollState (RollId s) (loots s) (loot_events s ++ [e])).

Definition say_all (l : list LootEvent) : RS unit :=
  st_modify (fun s => mkRollState (RollId s) (loots s) (loot_events s ++ l)).

(** What the rolls ask of the rest of the server: [ObjectAccessor::FindPlayer]
    with a session, [CanStoreNewItem] ([0] is [EQUIP_ERR_OK]), and the result
    of [urand(1, 100)] for each voter when a roll is counted. *)
Record Env := mkEnv {
  online : Z -> bool;
  CanStoreNewItem : Z -> Z -> Z -> Z;
  dice : Z -> Z
}.

(** ** Rolls and their loot *)

(** [roll->isValid()]: the link is cleared when the loot is cleared or
    destroyed. *)
Definition isValid (r : Roll) : bool :=
  match roll_loot r with Some _ => true | None => false end.

(** [roll->getLoot()] *)
Definition getLoot (r : Roll) : RS (LootPtr * Loot) := fun s =>
  match roll_loot r with
  | Some l => match loots s !! l with Some x => Ok ((l, x), s) | None => Err NullLoot end
  | None => Err NullLoot
  end.

(** [GetRoll]: the position of the first valid roll for the item. *)
Fixpoint find_roll (guid : Z) (l : list Roll) (i : nat) : option nat :=
  match l with
  | [] => None
  | r :: l => if (itemGUID r =? guid) && isValid r then Some i else find_roll guid l (S i)
  end.
Definition GetRoll (guid : Z) (s : RollState) : option nat := find_roll guid (RollId s) 0.

(** [Loot::clear]: the items go, and with them the links of the rolls. *)
Definition unlink (l : LootPtr) (r : Roll) : Roll :=
  if bool_decide (roll_loot r = Some l)
  then mkRoll (itemGUID r) (roll_itemid r) (itemCount r) (playerVote r) (totalPlayersRolling r)
         (totalNeed r) (totalGreed r) (totalPass r) (itemSlot r) (rollVoteMask r) None
  else r.
Definition Loot_clear (l : LootPtr) (s : RollState) : RollState :=
  set_RollId (map (unlink l) (RollId s)) (set_loots (<[l := mkLoot [] [] 0]> (loots s)) s).
(** [~Loot]: cleared, then the memory is gone. *)
Definition Loot_destroy (l : LootPtr) (s : RollState) : RollState :=
  let s := Loot_clear l s in set_loots (delete l (loots s)) s.

(** [RollId.erase] of the vector. *)
Fixpoint erase_at {A} (i : nat) (l : list A) : list A :=
  match l, i with
  | [], _ => []
  | _ :: l, O => l
  | x :: l, S i => x :: erase_at i l
  end.

(** [loot->items[slot]], or past their end
    [loot->quest_items[slot - items.size()]]. *)
Definition slot_index (x : Loot) (slot : Z) : bool * nat :=
  let n := Z.of_nat (length (items x)) in
  if n <=? slot then (true, Z.to_nat (slot - n)) else (false, Z.to_nat slot).
Definition item_at (x : Loot) (slot : Z) : option LootItem :=
  let '(quest, i) := slot_index x slot in if quest then quest_items x !! i else items x !! i.
Definition set_item (slot : Z) (it : LootItem) (x : Loot) : Loot :=
  let '(quest, i) := slot_index x slot in
  if quest then mkLoot (items x) (<[i := it]> (quest_items x)) (unlootedCount x)
  else mkLoot (<[i := it]> (items x)) (quest_items x) (unlootedCount x).

(** The item a roll is about, and an update of it. *)
Definition the_item (r : Roll) : RS LootItem :=
  '(l, x) ← getLoot r;
  match item_at x (itemSlot r) with Some it => mret it | None => st_throw OutOfBounds end.
Definition on_item (r : Roll) (f : LootItem -> LootItem) : RS unit :=
  '(l, x) ← getLoot r;
  match item_at x (itemSlot r) with
  | None => st_throw OutOfBounds
  | Some it => st_modify (fun s => set_loots (<[l := set_item (itemSlot r) (f it) x]> (loots s)) s)
  end.

(** [item->is_looted = true; NotifyItemRemoved(itemSlot); unlootedCount--] *)
Definition take_item (r : Roll) : RS unit :=
  on_item r set_looted;;
  '(l, x) ← getLoot r;
  say (ItemRemovedNotice l (itemSlot r));;
  st_modify (fun s => set_loots (<[l := mkLoot (items x) (quest_items x) (u8 (unlootedCount x - 1))]>
                                   (loots s)) s).

Section Rolls.
Context (env : Env).

(** The winner gets the item if it fits in the bags; otherwise it becomes
    free for everybody. *)
Definition give_item (r : Roll) (player : Z) : RS unit :=
  it ← the_item r;
  let msg := CanStoreNewItem env player (roll_itemid r) (li_count it) in
  if msg =? 0 then take_item r;; say (StoredNewItem player (roll_itemid r) (li_count it))
  else on_item r (set_blocked false);; say (EquipError player msg).

(** The loop that rolls the dice for every voter of the right kind, in the
    order of the map; the first of the highest wins. *)
Fixpoint best_roll (eligible : RollVote -> bool) (guid : Z) (votes : list (Z * RollVote))
    (maxresul maxguid : Z) (rollvote : RollVote) : RS (Z * Z * RollVote) :=
  match votes with
  | [] => mret (maxresul, maxguid, rollvote)
  | (p, v) :: votes =>
      if negb (eligible v) then best_roll eligible guid votes maxresul maxguid rollvote
      else
        let randomN := dice env p in
        say (LootRollSent p randomN (vote_type v) guid);;
        (if maxresul <? randomN then best_roll eligible guid votes randomN p v
         else best_roll eligible guid votes maxresul maxguid rollvote)
  end.

Definition is_need (v : RollVote) : bool := match v with NEED => true | _ => false end.
Definition is_pass (v : RollVote) : bool := match v with PASS => true | _ => false end.
Definition is_valid_vote (v : RollVote) : bool := match v with NOT_VALID => false | _ => true end.
Definition is_greed (v : RollVote) : bool :=
  match v with GREED | DISENCHANT => true | _ => false end.

Definition CountTheRoll (i : nat) : RS unit :=
  s ← st_get;
  match RollId s !! i with
  | None => st_throw OutOfBounds
  | Some r =>
      if negb (isValid r) then st_modify (fun s => set_RollId (erase_at i (RollId s)) s)
      else
        (if 0 <? totalNeed r then
           match map_ordered (playerVote r) with
           | [] => mret tt
           | first :: _ =>
               '(maxresul, maxguid, _) ←
                  best_roll is_need (itemGUID r) (map_ordered (playerVote r)) 0 (fst first) NEED;
               say (LootRollWon maxguid maxresul ROLL_NEED (itemGUID r));;
               (if online env maxguid then give_item r maxguid else mret tt)
           end
         else if 0 <? totalGreed r then
           match map_ordered (playerVote r) with
           | [] => mret tt
           | first :: _ =>
               '(maxresul, maxguid, rollvote) ←
                  best_roll is_greed (itemGUID r) (map_ordered (playerVote r)) 0 (fst first) NOT_VALID;
               say (LootRollWon maxguid maxresul (vote_type rollvote) (itemGUID r));;
               (if online env maxguid then
                  match rollvote with
                  | GREED => give_item r maxguid
                  | DISENCHANT => take_item r;; say (Disenchanted maxguid (roll_itemid r))
                  | _ => mret tt
                  end
                else mret tt)
           end
         else
           say (LootAllPassed (itemGUID r));; on_item r (set_blocked false));;
        st_modify (fun s => set_RollId (erase_at i (RollId s)) s)
  end.

(** The vote itself: [switch (Choice)]. *)
Definition cast_vote (player choice : Z) (r : Roll) : Roll :=
  let set v need greed pass :=
    set_votes (<[player := v]> (playerVote r)) (totalPlayersRolling r) need greed pass r in
  if choice =? ROLL_PASS then set PASS (totalNeed r) (totalGreed r) (u8 (totalPass r + 1))
  else if choice =? ROLL_NEED then set NEED (u8 (totalNeed r + 1)) (totalGreed r) (totalPass r)
  else if choice =? ROLL_GREED then set GREED (totalNeed r) (u8 (totalGreed r + 1)) (totalPass r)
  else if choice =? ROLL_DISENCHANT
  then set DISENCHANT (totalNeed r) (u8 (totalGreed r + 1)) (totalPass r)
  else r.

(** The packet of a vote: both numbers are 0 for need, 128 and the type otherwise. *)
Definition vote_event (player choice : Z) (r : Roll) : RS unit :=
  if choice =? ROLL_PASS then say (LootRollSent player 128 ROLL_PASS (itemGUID r))
  else if choice =? ROLL_NEED then say (LootRollSent player 0 0 (itemGUID r))
  else if choice =? ROLL_GREED then say (LootRollSent player 128 ROLL_GREED (itemGUID r))
  else if choice =? ROLL_DISENCHANT then say (LootRollSent player 128 ROLL_DISENCHANT (itemGUID r))
  else mret tt.

Definition all_voted (r : Roll) : bool :=
  totalPlayersRolling r <=? totalPass r + totalNeed r + totalGreed r.

Definition CountRollVote (playerGUID guid choice : Z) : RS unit :=
  s ← st_get;
  match GetRoll guid s with
  | None => mret tt
  | Some i =>
      match RollId s !! i with
      | None => mret tt
      | Some r =>
          match playerVote r !! playerGUID with
          | None => mret tt
          | Some _ =>
              '(_, x) ← getLoot r;
              match items x with
              | [] => mret tt
              | _ =>
                  vote_event playerGUID choice r;;
                  let r := cast_vote playerGUID choice r in
                  st_modify (fun s => set_RollId (<[i := r]> (RollId s)) s);;
                  (if all_voted r then CountTheRoll i else mret tt)
              end
          end
      end
  end.

(** [EndRoll]: the timer of the loot has run out. *)
Fixpoint EndRoll_loop (fuel : nat) (l : LootPtr) (i : nat) : RS unit :=
  match fuel with
  | O => st_throw OutOfFuel
  | S fuel =>
      s ← st_get;
      match RollId s !! i with
      | None => mret tt
      | Some r =>
          if bool_decide (roll_loot r = Some l) then CountTheRoll i;; EndRoll_loop fuel l 0
          else EndRoll_loop fuel l (S i)
      end
  end.
(** Each counted roll restarts the loop on a shorter vector. *)
Definition EndRoll (l : LootPtr) : RS unit := fun s =>
  let n := length (RollId s) in EndRoll_loop (S n * S n) l 0 s.

(** ** A member leaves: the part of [RemoveMember] about rolls *)

Definition forget_vote (guid : Z) (v : RollVote) (r : Roll) : Roll :=
  let dec b n := if b : bool then u8 (n - 1) else n in
  set_votes (delete guid (playerVote r))
    (dec (is_valid_vote v) (totalPlayersRolling r))
    (dec (is_need v) (totalNeed r))
    (dec (is_greed v) (totalGreed r))
    (dec (is_pass v) (totalPass r)) r.

Fixpoint leave_loop (fuel : nat) (guid : Z) (i : nat) : RS unit :=
  match fuel with
  | O => mret tt
  | S fuel =>
      s ← st_get;
      match RollId s !! i with
      | None => mret tt
      | Some r =>
          match playerVote r !! guid with
          | None => mret tt
          | Some v =>
              st_modify (fun s => set_RollId (<[i := forget_vote guid v r]> (RollId s)) s);;
              CountRollVote guid (itemGUID r) MAX_ROLL_TYPE
          end;;
          leave_loop fuel guid (S i)
      end
  end.
Definition RemoveMember_rolls (guid : Z) : RS unit := fun s =>
  leave_loop (length (RollId s)) guid 0 s.

(** ** [GroupLoot] *)

(** A member near the corpse: whether he passes on all loot. *)
Record Candidate := mkCandidate { c_guid : Z; c_pass : bool }.

Definition add_voter (auto_pass : bool) (r : Roll) (c : Candidate) : Roll :=
  let v := if auto_pass && c_pass c then PASS else NOT_EMITED_YET in
  set_votes (<[c_guid c := v]> (playerVote r)) (u8 (totalPlayersRolling r + 1)) (totalNeed r)
    (totalGreed r)
    (if auto_pass && c_pass c then u8 (totalPass r + 1) else totalPass r) r.

Record ItemTemplate := mkTemplate {
  Quality : Z;
  DisenchantID : Z;
  RequiredDisenchantSkill : Z;
  Flags2 : Z
}.

Section GroupLoot.
Context (GetItemTemplate : Z -> option ItemTemplate)
        (near : LootItem -> list Candidate)
        (CanRollForItemInLFG : Z -> Z -> Z)
        (m_lootThreshold m_maxEnchantingLevel : Z).

(** The passes of those who pass on everything, told before the roll starts. *)
Definition auto_passes (guid : Z) (r : Roll) : list LootEvent :=
  if totalPass r =? 0 then [] else
    map (fun pv => LootRollSent (fst pv) 128 ROLL_PASS guid)
      (filter (fun pv => snd pv = PASS /\ online env (fst pv) = true) (map_ordered (playerVote r))).
Definition announce_group (it : LootItem) (guid : Z) (r : Roll) : list LootEvent :=
  auto_passes guid r ++ [StartRoll guid].

(** Under need before greed every player is told what he may roll. *)
Definition announce_need (it : LootItem) (guid : Z) (r : Roll) : list LootEvent :=
  map (fun pv => match snd pv with
                 | PASS => LootRollSent (fst pv) 128 ROLL_PASS guid
                 | _ => StartRollTo guid (fst pv) (CanRollForItemInLFG (fst pv) (li_itemid it) =? 0)
                 end)
    (filter (fun pv => online env (fst pv) = true) (map_ordered (playerVote r))).

(** Start one roll for the item in slot [slot] of [l], unless nobody is near;
    [guid] is a new item guid. *)
Definition start_roll (announce : LootItem -> Z -> Roll -> list LootEvent) (auto_pass : bool)
    (mask : Z) (l : LootPtr) (slot guid : Z) (it : LootItem) : RS unit :=
  let r := foldl (add_voter auto_pass) (new_Roll guid it) (near it) in
  if 0 <? totalPlayersRolling r then
    let r := setLoot l slot mask r in
    on_item r (set_blocked true);;
    say_all (announce it guid r);;
    st_modify (fun s => set_RollId (RollId s ++ [r]) s)
  else mret tt.

(** [i->is_underthreshold = true] *)
Definition mark_underthreshold (l : LootPtr) (slot : Z) : RS unit :=
  s ← st_get;
  match loots s !! l with
  | None => st_throw NullLoot
  | Some x =>
      match item_at x slot with
      | None => st_throw OutOfBounds
      | Some it =>
          st_modify (fun s => set_loots (<[l := set_item slot (set_underthreshold it) x]> (loots s)) s)
      end
  end.

(** [rollVoteMask] of a roll on an item of template [t]. *)
Definition disenchant_mask (t : ItemTemplate) : Z :=
  if negb (DisenchantID t =? 0) && (RequiredDisenchantSkill t <=? m_maxEnchantingLevel)
  then Z.lor ROLL_ALL_TYPE_NO_DISENCHANT ROLL_FLAG_TYPE_DISENCHANT
  else ROLL_ALL_TYPE_NO_DISENCHANT.
Definition need_mask (t : ItemTemplate) : Z :=
  if Z.land (Flags2 t) ITEM_FLAGS_EXTRA_NEED_ROLL_DISABLED =? 0 then disenchant_mask t
  else Z.land (disenchant_mask t) (Z.lnot ROLL_FLAG_TYPE_NEED).

(** The loop over a vector of items from slot [slot] on; [guid] is the next
    free item guid. *)
Fixpoint for_items (body : Z -> Z -> LootItem -> RS Z) (its : list LootItem) (slot guid : Z) : RS Z :=
  match its with
  | [] => mret guid
  | it :: its => guid ← body slot guid it; for_items body its (u8 (slot + 1)) guid
  end.

Definition GroupLoot_item (l : LootPtr) (slot guid : Z) (it : LootItem) : RS Z :=
  if freeforall it then mret guid
  else match GetItemTemplate (li_itemid it) with
       | None => mret guid
       | Some t =>
           if m_lootThreshold <=? Quality t then
             start_roll announce_group true (disenchant_mask t) l slot guid it;; mret (guid + 1)
           else mark_underthreshold l slot;; mret guid
       end.
Definition GroupLoot_quest_item (l : LootPtr) (slot guid : Z) (it : LootItem) : RS Z :=
  if negb (follow_loot_rules it) then mret guid
  else match GetItemTemplate (li_itemid it) with
       | None => mret guid
       | Some _ =>
           start_roll announce_group false ROLL_ALL_TYPE_NO_DISENCHANT l slot guid it;; mret (guid + 1)
       end.

Definition GroupLoot (l : LootPtr) (guid : Z) : RS unit :=
  s ← st_get;
  match loots s !! l with
  | None => st_throw NullLoot
  | Some x =>
      guid ← for_items (GroupLoot_item l) (items x) 0 guid;
      for_items (GroupLoot_quest_item l) (quest_items x) (u8 (Z.of_nat (length (items x)))) guid;;
      mret tt
  end.

(** [NeedBeforeGreed]: as [GroupLoot], but it reads the template unchecked. *)
Definition NeedBeforeGreed_item (l : LootPtr) (slot guid : Z) (it : LootItem) : RS Z :=
  if freeforall it then mret guid
  else match GetItemTemplate (li_itemid it) with
       | None => st_throw NullTemplate
       | Some t =>
           if m_lootThreshold <=? Quality t then
             start_roll announce_need true (need_mask t) l slot guid it;; mret (guid + 1)
           else mark_underthreshold l slot;; mret guid
       end.
Definition NeedBeforeGreed_quest_item (l : LootPtr) (slot guid : Z) (it : LootItem) : RS Z :=
  if negb (follow_loot_rules it) then mret guid
  else start_roll announce_need false ROLL_ALL_TYPE_NO_DISENCHANT l slot guid it;; mret (guid + 1).

Definition NeedBeforeGreed (l : LootPtr) (guid : Z) : RS unit :=
  s ← st_get;
  match loots s !! l with
  | None => st_throw NullLoot
  | Some x =>
      guid ← for_items (NeedBeforeGreed_item l) (items x) 0 guid;
      for_items (NeedBeforeGreed_quest_item l) (quest_items x) (u8 (Z.of_nat (length (items x)))) guid;;
      mret tt
  end.
End GroupLoot.
End Rolls.

(** ** Counting votes *)

Definition votes (f : RollVote -> bool) (m : gmap Z RollVote) : Z :=
  Z.of_nat (length (List.filter (fun pv => f (snd pv)) (map_to_list m))).

Definition is_outstanding (v : RollVote) : bool := match v with NOT_EMITED_YET => true | _ => false end.

Lemma votes_nonneg f m : 0 <= votes f m.
Proof. unfold votes. lia. Qed.

Lemma votes_insert_new f m p v :
  m !! p = None -> votes f (<[p := v]> m) = votes f m + Z.b2z (f v).
Proof.
  intros Hp. unfold votes.
  rewrite (Permutation_length (filter_perm _ _ _ (map_to_list_insert m p v Hp))).
  cbn. destruct (f v); cbn; lia.
Qed.

Lemma votes_delete f m p v : m !! p = Some v -> votes f (delete p m) = votes f m - Z.b2z (f v).
Proof.
  intros Hp. rewrite <- (insert_delete_id m p v Hp) at 2.
  rewrite votes_insert_new by apply lookup_delete_eq. lia.
Qed.

Lemma votes_insert f m p v v' :
  m !! p = Some v -> votes f (<[p := v']> m) = votes f m - Z.b2z (f v) + Z.b2z (f v').
Proof.
  intros Hp. rewrite <- insert_delete_eq, votes_insert_new by apply lookup_delete_eq.
  by rewrite (votes_delete _ _ _ _ Hp).
Qed.

Lemma votes_le_size f m : votes f m <= Z.of_nat (base.size m).
Proof.
  unfold votes. rewrite <- length_map_to_list. apply inj_le.
  induction (map_to_list m) as [|x l IH]; cbn; [lia|]. case_match; cbn; lia.
Qed.

Lemma votes_pos f m : 0 < votes f m <-> exists p v, m !! p = Some v /\ f v = true.
Proof.
  unfold votes. split.
  - intros H. destruct (List.filter _ _) as [|[p v] l] eqn:Hl; [cbn in H; lia|].
    assert (Hin : In (p, v) ((p, v) :: l)) by by left. rewrite <- Hl in Hin.
    apply filter_In in Hin as [Hin Hf]. exists p, v. split; [|done].
    by apply elem_of_map_to_list, list_elem_of_In.
  - intros (p & v & Hp & Hf).
    assert (Hin : In (p, v) (List.filter (fun pv => f (snd pv)) (map_to_list m))).
    { apply filter_In. split; [by apply list_elem_of_In, elem_of_map_to_list|done]. }
    destruct (List.filter _ _); [done|cbn; lia].
Qed.

(** Every vote is of exactly one kind. *)
Lemma votes_partition m :
  votes is_valid_vote m = votes is_need m + votes is_greed m + votes is_pass m + votes is_outstanding m.
Proof.
  unfold votes. induction (map_to_list m) as [|[p v] l IH]; [done|]. cbn.
  destruct v; cbn; lia.
Qed.

(** The totals of a roll are the numbers of its votes. *)
Record wf_roll (r : Roll) : Prop := {
  wf_players : totalPlayersRolling r = votes is_valid_vote (playerVote r);
  wf_need : totalNeed r = votes is_need (playerVote r);
  wf_greed : totalGreed r = votes is_greed (playerVote r);
  wf_pass : totalPass r = votes is_pass (playerVote r);
  wf_size : Z.of_nat (base.size (playerVote r)) < 256
}.

Definition outstanding (r : Roll) : Z := votes is_outstanding (playerVote r).

Lemma all_voted_outstanding r : wf_roll r -> all_voted r = true <-> outstanding r = 0.
Proof.
  intros [Hp Hn Hg Hps _]. unfold all_voted, outstanding. rewrite Z.leb_le, Hp, Hn, Hg, Hps.
  rewrite votes_partition. pose proof (votes_nonneg is_outstanding (playerVote r)). lia.
Qed.

Lemma size_insert_known (m : gmap Z RollVote) p v v' :
  m !! p = Some v -> base.size (<[p := v']> m) = base.size m.
Proof. intros Hp. rewrite map_size_insert, Hp. done. Qed.

Lemma u8_votes f m p v :
  m !! p = Some v -> f v = false -> Z.of_nat (base.size m) < 256 ->
  u8 (votes f m + 1) = votes f m + 1.
Proof.
  intros Hp Hf Hs. apply u8_small. unfold is_byte.
  pose proof (votes_nonneg f m). pose proof (votes_delete f m p v Hp) as Hd.
  assert (votes f (delete p m) <= Z.of_nat (base.size (delete p m))) as Hle by apply votes_le_size.
  rewrite map_size_delete, Hp, Hd, Hf in Hle. cbn in Hle.
  assert (base.size m <> 0%nat) by (intros E%map_size_empty_inv; subst; by rewrite lookup_empty in Hp).
  lia.
Qed.

Definition vote_of (choice : Z) : option RollVote :=
  if choice =? ROLL_PASS then Some PASS
  else if choice =? ROLL_NEED then Some NEED
  else if choice =? ROLL_GREED then Some GREED
  else if choice =? ROLL_DISENCHANT then Some DISENCHANT
  else None.

(** A first vote keeps the totals right. *)
Lemma cast_vote_wf p choice v r :
  wf_roll r -> playerVote r !! p = Some NOT_EMITED_YET -> vote_of choice = Some v ->
  wf_roll (cast_vote p choice r) /\
  playerVote (cast_vote p choice r) = <[p := v]> (playerVote r) /\
  outstanding (cast_vote p choice r) = outstanding r - 1.
Proof.
  intros [Hp Hn Hg Hps Hs] Hv Hc. unfold outstanding, cast_vote, vote_of in *.
  repeat case_match; simplify_eq; cbn;
    (split; [split; cbn|split; [done|]]);
    rewrite ?Hp, ?Hn, ?Hg, ?Hps, ?(u8_votes _ _ _ _ Hv), ?(votes_insert _ _ _ _ _ Hv),
      ?(size_insert_known _ _ _ _ Hv) by done; cbn; lia.
Qed.

Lemma forget_vote_wf p v r :
  wf_roll r -> playerVote r !! p = Some v -> wf_roll (forget_vote p v r).
Proof.
  intros [Hp Hn Hg Hps Hs] Hv.
  assert (Hdec : forall f, f v = true -> u8 (votes f (playerVote r) - 1) = votes f (playerVote r) - 1).
  { intros f Hf. apply u8_small. unfold is_byte.
    assert (0 < votes f (playerVote r)) by (apply votes_pos; eauto).
    pose proof (votes_le_size f (playerVote r)). lia. }
  unfold forget_vote. split; cbn [playerVote totalPlayersRolling totalNeed totalGreed totalPass set_votes].
  5: { rewrite map_size_delete, Hv. cbn. lia. }
  all: rewrite ?Hp, ?Hn, ?Hg, ?Hps, (votes_delete _ _ _ _ Hv); destruct v; cbn;
    rewrite ?Hdec by done; lia.
Qed.

Lemma add_voter_wf auto r c :
  wf_roll r -> playerVote r !! c_guid c = None -> Z.of_nat (base.size (playerVote r)) < 255 ->
  wf_roll (add_voter auto r c).
Proof.
  intros [Hp Hn Hg Hps Hs] Hv Hlt.
  assert (Hinc : forall f, u8 (votes f (playerVote r) + 1) = votes f (playerVote r) + 1).
  { intros f. apply u8_small. unfold is_byte. pose proof (votes_nonneg f (playerVote r)).
    pose proof (votes_le_size f (playerVote r)). lia. }
  unfold add_voter. split; cbn [playerVote totalPlayersRolling totalNeed totalGreed totalPass set_votes].
  5: { rewrite map_size_insert, Hv. cbn. lia. }
  all: rewrite ?Hp, ?Hn, ?Hg, ?Hps, (votes_insert_new _ _ _ _ Hv); destruct (auto && c_pass c); cbn;
    rewrite ?Hinc; lia.
Qed.

(** A roll starts with right totals. *)
Lemma new_roll_wf auto guid it cs :
  NoDup (map c_guid cs) -> Z.of_nat (length cs) < 256 ->
  wf_roll (foldl (add_voter auto) (new_Roll guid it) cs).
Proof.
  intros Hnd Hlen.
  assert (H : forall r, wf_roll r -> (forall c, In c cs -> playerVote r !! c_guid c = None) ->
            Z.of_nat (base.size (playerVote r)) + Z.of_nat (length cs) < 256 ->
            wf_roll (foldl (add_voter auto) r cs)).
  { clear Hlen. induction cs as [|c cs IH]; intros r Hr Hnew Hs; [done|]. cbn [foldl].
    apply NoDup_cons in Hnd as [Hc Hnd]. cbn [length] in Hs.
    assert (Hcr : playerVote r !! c_guid c = None) by (apply Hnew; by left).
    apply IH; [done|apply add_voter_wf; [done|done|lia]| |].
    - intros c' Hc'. cbn. rewrite lookup_insert_ne; [apply Hnew; by right|].
      intros E. apply Hc. rewrite E. by apply list_elem_of_In, in_map.
    - cbn. rewrite map_size_insert, Hcr. cbn. lia. }
  apply H.
  - by split.
  - intros c _. apply lookup_empty.
  - cbn. rewrite map_size_empty. lia.
Qed.

(** ** The winner *)

(** [w] has rolled best among the voters of the right kind; of equals, the
    one with the lowest guid. *)
Definition winner (env : Env) (eligible : RollVote -> bool) (m : gmap Z RollVote) (w : Z)
    (v : RollVote) : Prop :=
  m !! w = Some v /\ eligible v = true /\
  forall p v', m !! p = Some v' -> eligible v' = true ->
    dice env p < dice env w \/ dice env p = dice env w /\ w <= p.

(** The dice show 1 to 100. *)
Definition fair (env : Env) : Prop := forall p, 1 <= dice env p <= 100.

Definition add_events (l : list LootEvent) (s : RollState) : RollState :=
  mkRollState (RollId s) (loots s) (loot_events s ++ l).

Lemma add_events_nil s : add_events [] s = s.
Proof. destruct s. unfold add_events. cbn. by rewrite app_nil_r. Qed.

Lemma add_events_app l k s : add_events l (add_events k s) = add_events (k ++ l) s.
Proof. unfold add_events. cbn. by rewrite app_assoc. Qed.

Lemma say_spec e s : say e s = Ok (tt, add_events [e] s).
Proof. done. Qed.

(** One step of the loop keeps the best so far. *)
Lemma best_roll_spec env eligible guid l mr mg rv s :
  exists evs mr' mg' rv',
    best_roll env eligible guid l mr mg rv s = Ok ((mr', mg', rv'), add_events evs s) /\
    ((mr' = mr /\ mg' = mg /\ rv' = rv /\
      forall p v, In (p, v) l -> eligible v = true -> dice env p <= mr) \/
     (mr < mr' /\ mr' = dice env mg' /\ eligible rv' = true /\
      exists l1 l2, l = l1 ++ (mg', rv') :: l2 /\
        (forall p v, In (p, v) l1 -> eligible v = true -> dice env p < mr') /\
        (forall p v, In (p, v) l2 -> eligible v = true -> dice env p <= mr'))).
Proof.
  revert mr mg rv s. induction l as [|[p v] l IH]; intros mr mg rv s.
  { exists [], mr, mg, rv. rewrite add_events_nil. split; [done|left]. by split_and!. }
  cbn [best_roll]. destruct (eligible v) eqn:He; cbn [negb].
  - rewrite (st_bind_Ok _ _ _ _ _ (say_spec _ _)).
    destruct (Z.ltb_spec mr (dice env p)) as [Hlt|Hge].
    + destruct (IH (dice env p) p v (add_events [LootRollSent p (dice env p) (vote_type v) guid] s))
        as (evs & mr' & mg' & rv' & -> & Hcase).
      exists (LootRollSent p (dice env p) (vote_type v) guid :: evs), mr', mg', rv'.
      rewrite add_events_app. split; [done|right].
      destruct Hcase as [(-> & -> & -> & Hall) | (Hlt' & Hd & Hel & l1 & l2 & -> & H1 & H2)].
      * split_and!; [done|done|done|]. exists [], l. by split_and!.
      * split_and!; [lia|done|done|]. exists ((p, v) :: l1), l2. split_and!; [done| |done].
        intros p' v' [[= <- <-]|Hin] He'; [lia|by eapply H1].
    + destruct (IH mr mg rv (add_events [LootRollSent p (dice env p) (vote_type v) guid] s))
        as (evs & mr' & mg' & rv' & -> & Hcase).
      exists (LootRollSent p (dice env p) (vote_type v) guid :: evs), mr', mg', rv'.
      rewrite add_events_app. split; [done|].
      destruct Hcase as [(-> & -> & -> & Hall) | (Hlt' & Hd & Hel & l1 & l2 & -> & H1 & H2)].
      * left. split_and!; [done|done|done|]. intros p' v' [[= <- <-]|Hin] He'; [lia|by eapply Hall].
      * right. split_and!; [lia|done|done|]. exists ((p, v) :: l1), l2. split_and!; [done| |done].
        intros p' v' [[= <- <-]|Hin] He'; [lia|by eapply H1].
  - destruct (IH mr mg rv s) as (evs & mr' & mg' & rv' & -> & Hcase).
    exists evs, mr', mg', rv'. split; [done|].
    destruct Hcase as [(-> & -> & -> & Hall) | (Hlt' & Hd & Hel & l1 & l2 & -> & H1 & H2)].
    + left. split_and!; [done|done|done|]. intros p' v' [[= <- <-]|Hin] He'; [congruence|by eapply Hall].
    + right. split_and!; [lia|done|done|]. exists ((p, v) :: l1), l2. split_and!; [done| |done].
      intros p' v' [[= <- <-]|Hin] He'; [congruence|by eapply H1].
Qed.

Lemma best_roll_winner env eligible guid m first rv s :
  fair env -> (exists p v, m !! p = Some v /\ eligible v = true) ->
  exists evs w v,
    best_roll env eligible guid (map_ordered m) 0 first rv s = Ok ((dice env w, w, v), add_events evs s) /\
    winner env eligible m w v.
Proof.
  intros Hf (p0 & v0 & Hp0 & He0).
  destruct (best_roll_spec env eligible guid (map_ordered m) 0 first rv s)
    as (evs & mr & w & v & Hb & Hcase).
  assert (Hin0 : In (p0, v0) (map_ordered m)) by (by apply list_elem_of_In, elem_of_map_ordered).
  destruct Hcase as [(-> & _ & _ & Hall) | (_ & -> & Hel & l1 & l2 & Hl & H1 & H2)].
  { specialize (Hall _ _ Hin0 He0). specialize (Hf p0). lia. }
  exists evs, w, v. split; [done|].
  pose proof (map_ordered_sorted m) as Hs. rewrite Hl in Hs.
  split_and!; [|done|].
  - apply elem_of_map_ordered. rewrite Hl. apply elem_of_app. right. by left.
  - intros p v' Hp He. apply elem_of_map_ordered in Hp. rewrite Hl in Hp.
    apply elem_of_app in Hp as [Hp|Hp]; [left; apply (H1 p v'); [by apply list_elem_of_In|done]|].
    apply elem_of_cons in Hp as [[= -> ->]|Hp]; [right; split; [done|lia]|].
    assert (Hle : dice env p <= dice env w) by (apply (H2 p v'); [by apply list_elem_of_In|done]).
    destruct (Z.eq_dec (dice env p) (dice env w)); [right; split; [done|]|left; lia].
    apply StronglySorted_app_inv, StronglySorted_inv in Hs as [_ Hs].
    by apply (proj1 (Forall_forall _ _) Hs (p, v')).
Qed.

(** ** Counting a roll *)

(** The loot after its winner [w] has been served. *)
Definition taken (slot : Z) (it : LootItem) (x : Loot) : Loot :=
  let x := set_item slot (set_looted it) x in mkLoot (items x) (quest_items x) (u8 (unlootedCount x - 1)).

Definition served (env : Env) (r : Roll) (it : LootItem) (w : Z) (v : RollVote) (x : Loot) : Loot :=
  if online env w then
    match v with
    | DISENCHANT => taken (itemSlot r) it x
    | _ => if CanStoreNewItem env w (roll_itemid r) (li_count it) =? 0
           then taken (itemSlot r) it x
           else set_item (itemSlot r) (set_blocked false it) x
    end
  else x.

(** A roll that can be counted: its loot and its item still exist. *)
Record countable (s : RollState) (i : nat) (r : Roll) (l : LootPtr) (x : Loot) (it : LootItem) : Prop := {
  c_roll : RollId s !! i = Some r;
  c_link : roll_loot r = Some l;
  c_loot : loots s !! l = Some x;
  c_item : item_at x (itemSlot r) = Some it
}.

Lemma countable_isValid s i r l x it : countable s i r l x it -> isValid r = true.
Proof. intros [_ Hl Hx _]. unfold isValid. by rewrite Hl. Qed.

Lemma getLoot_spec r l s x :
  roll_loot r = Some l -> loots s !! l = Some x -> getLoot r s = Ok ((l, x), s).
Proof. intros Hl Hx. unfold getLoot. by rewrite Hl, Hx. Qed.

Lemma on_item_spec r l x it f s :
  roll_loot r = Some l -> loots s !! l = Some x -> item_at x (itemSlot r) = Some it ->
  on_item r f s = Ok (tt, set_loots (<[l := set_item (itemSlot r) (f it) x]> (loots s)) s).
Proof.
  intros Hl Hx Hi. unfold on_item. rewrite (st_bind_Ok _ _ _ _ _ (getLoot_spec _ _ _ _ Hl Hx)).
  by rewrite Hi.
Qed.

(** The state after: the given loot replaced, some events added. *)
Definition after (l : LootPtr) (x' : Loot) (s s' : RollState) : Prop :=
  RollId s' = RollId s /\ loots s' = <[l := x']> (loots s).

Lemma take_item_spec r l x it s :
  roll_loot r = Some l -> loots s !! l = Some x -> item_at x (itemSlot r) = Some it ->
  exists s', take_item r s = Ok (tt, s') /\ after l (taken (itemSlot r) it x) s s'.
Proof.
  intros Hl Hx Hi. unfold take_item. rewrite (st_bind_Ok _ _ _ _ _ (on_item_spec _ _ _ _ _ _ Hl Hx Hi)).
  cbv beta. erewrite st_bind_Ok by (apply (getLoot_spec _ l); [done|cbn; by rewrite lookup_insert_eq]).
  eexists. split; [reflexivity|]. split; [done|]. cbn. by rewrite insert_insert_eq.
Qed.

Lemma give_item_spec env r l x it w s :
  roll_loot r = Some l -> loots s !! l = Some x -> item_at x (itemSlot r) = Some it ->
  online env w = true ->
  exists s', give_item env r w s = Ok (tt, s') /\ after l (served env r it w NEED x) s s'.
Proof.
  intros Hl Hx Hi Ho. unfold give_item.
  assert (Ht : the_item r s = Ok (it, s)).
  { unfold the_item. by rewrite (st_bind_Ok _ _ _ _ _ (getLoot_spec _ _ _ _ Hl Hx)), Hi. }
  rewrite (st_bind_Ok _ _ _ _ _ Ht). cbv beta zeta. unfold served. rewrite Ho. destruct (_ =? 0).
  - destruct (take_item_spec r l x it s Hl Hx Hi) as (s' & Ht' & Ha).
    rewrite (st_bind_Ok _ _ _ _ _ Ht'). by eexists.
  - rewrite (st_bind_Ok _ _ _ _ _ (on_item_spec _ _ _ _ _ _ Hl Hx Hi)). by eexists.
Qed.

(** What [serve] leaves when the winner is away: nothing changes. *)
Lemma after_refl l x s : loots s !! l = Some x -> after l x s s.
Proof. intros Hx. split; [done|]. by rewrite insert_id. Qed.

Lemma map_ordered_cons (m : gmap Z RollVote) p v :
  m !! p = Some v -> exists first l, map_ordered m = first :: l.
Proof.
  intros Hp. destruct (map_ordered m) as [|first l] eqn:Hl; [|eauto].
  apply map_ordered_nil in Hl. subst. by rewrite lookup_empty in Hp.
Qed.

(** The end of a counted roll: it is gone, and its loot is [x']. *)
Definition counted (i : nat) (l : LootPtr) (x' : Loot) (s s' : RollState) : Prop :=
  RollId s' = erase_at i (RollId s) /\ loots s' = <[l := x']> (loots s).

Lemma counted_erase i l x' s s' :
  after l x' s s' -> counted i l x' s (set_RollId (erase_at i (RollId s')) s').
Proof. intros [Hr Hl]. split; cbn; by rewrite ?Hr. Qed.

Lemma CountTheRoll_need env s i r l x it :
  fair env -> countable s i r l x it -> 0 < totalNeed r ->
  (exists p, playerVote r !! p = Some NEED) ->
  exists w s', winner env is_need (playerVote r) w NEED /\
    CountTheRoll env i s = Ok (tt, s') /\ counted i l (served env r it w NEED x) s s'.
Proof.
  intros Hf Hc Hn (p & Hp). pose proof (countable_isValid _ _ _ _ _ _ Hc) as Hv.
  destruct Hc as [Hi Hl Hx Hit].
  destruct (map_ordered_cons _ _ _ Hp) as (first & rest & Hm).
  destruct (best_roll_winner env is_need (itemGUID r) (playerVote r) (fst first) NEED s Hf)
    as (evs & w & v & Hb & Hw); [by exists p, NEED|].
  assert (Hv' : v = NEED) by (destruct Hw as (_ & He & _); by destruct v). subst v.
  set (s1 := add_events [LootRollWon w (dice env w) ROLL_NEED (itemGUID r)] (add_events evs s)).
  assert (Hserve : exists s', (if online env w then give_item env r w else mret tt) s1 = Ok (tt, s') /\
            after l (served env r it w NEED x) s1 s').
  { destruct (online env w) eqn:Ho; [by apply give_item_spec|].
    exists s1. split; [done|]. unfold served. rewrite Ho. by apply after_refl. }
  destruct Hserve as (s' & Hg & Ha).
  exists w, (set_RollId (erase_at i (RollId s')) s'). split_and!; [done| |by apply (counted_erase _ _ _ s1)..].
  unfold CountTheRoll, st_get. unfold mbind at 1, st_bind at 1. cbv beta iota. rewrite Hi, Hv.
  cbn [negb]. destruct (Z.ltb_spec 0 (totalNeed r)); [|lia]. rewrite Hm at 1.
  erewrite st_bind_Ok; [reflexivity|].
  rewrite (st_bind_Ok _ _ _ _ _ Hb). cbv beta iota.
  rewrite (st_bind_Ok _ _ _ _ _ (say_spec _ _)). cbv beta. exact Hg.
Qed.

Lemma CountTheRoll_greed env s i r l x it :
  fair env -> countable s i r l x it -> totalNeed r = 0 -> 0 < totalGreed r ->
  (exists p v, playerVote r !! p = Some v /\ is_greed v = true) ->
  exists w v s', winner env is_greed (playerVote r) w v /\
    CountTheRoll env i s = Ok (tt, s') /\ counted i l (served env r it w v x) s s'.
Proof.
  intros Hf Hc Hn Hgr (p & v0 & Hp & Hv0). pose proof (countable_isValid _ _ _ _ _ _ Hc) as Hv.
  destruct Hc as [Hi Hl Hx Hit].
  destruct (map_ordered_cons _ _ _ Hp) as (first & rest & Hm).
  destruct (best_roll_winner env is_greed (itemGUID r) (playerVote r) (fst first) NOT_VALID s Hf)
    as (evs & w & v & Hb & Hw); [by exists p, v0|].
  set (s1 := add_events [LootRollWon w (dice env w) (vote_type v) (itemGUID r)] (add_events evs s)).
  assert (Hserve : exists s',
            (if online env w then
               match v with
               | GREED => give_item env r w
               | DISENCHANT => take_item r;; say (Disenchanted w (roll_itemid r))
               | _ => mret tt
               end else mret tt) s1 = Ok (tt, s') /\
            after l (served env r it w v x) s1 s').
  { destruct (online env w) eqn:Ho.
    - destruct Hw as (_ & He & _). destruct v; try done.
      + by apply give_item_spec.
      + destruct (take_item_spec r l x it s1 Hl Hx Hit) as (s' & Ht & Ha).
        rewrite (st_bind_Ok _ _ _ _ _ Ht). eexists. split; [reflexivity|].
        unfold served. by rewrite Ho.
    - exists s1. split; [done|]. unfold served. rewrite Ho. by apply after_refl. }
  destruct Hserve as (s' & Hg & Ha).
  exists w, v, (set_RollId (erase_at i (RollId s')) s').
  split_and!; [done| |by apply (counted_erase _ _ _ s1)..].
  unfold CountTheRoll, st_get. unfold mbind at 1, st_bind at 1. cbv beta iota. rewrite Hi, Hv.
  cbn [negb]. destruct (Z.ltb_spec 0 (totalNeed r)); [lia|].
  destruct (Z.ltb_spec 0 (totalGreed r)); [|lia]. rewrite Hm at 1.
  erewrite st_bind_Ok; [reflexivity|].
  rewrite (st_bind_Ok _ _ _ _ _ Hb). cbv beta iota.
  rewrite (st_bind_Ok _ _ _ _ _ (say_spec _ _)). cbv beta. exact Hg.
Qed.

Lemma CountTheRoll_passed env s i r l x it :
  countable s i r l x it -> totalNeed r = 0 -> totalGreed r = 0 ->
  exists s', CountTheRoll env i s = Ok (tt, s') /\
    counted i l (set_item (itemSlot r) (set_blocked false it) x) s s'.
Proof.
  intros Hc Hn Hg. pose proof (countable_isValid _ _ _ _ _ _ Hc) as Hv. destruct Hc as [Hi Hl Hx Hit].
  set (s1 := add_events [LootAllPassed (itemGUID r)] s).
  pose proof (on_item_spec r l x it (set_blocked false) s1 Hl Hx Hit) as Ho.
  eexists. split.
  - unfold CountTheRoll, st_get. unfold mbind at 1, st_bind at 1. cbv beta iota. rewrite Hi, Hv.
    cbn [negb]. rewrite Hn, Hg. cbn [Z.ltb Z.compare].
    erewrite st_bind_Ok; [reflexivity|].
    rewrite (st_bind_Ok _ _ _ _ _ (say_spec _ _)). exact Ho.
  - by split.
Qed.

(** Counting a roll always ends it.  Need beats greed and disenchant,
    which beat passing; among the voters of the best kind the highest dice
    wins, of equals the lowest guid.  A winner who is in the world gets the
    item, or a disenchanter its materials; one whose bags are full leaves the
    item free for everybody; if all passed the item is free too. *)
Theorem CountTheRoll_result env s i r l x it :
  fair env -> wf_roll r -> countable s i r l x it ->
  exists x' s', CountTheRoll env i s = Ok (tt, s') /\ counted i l x' s s' /\
    ((exists w, winner env is_need (playerVote r) w NEED /\ x' = served env r it w NEED x) \/
     (exists w v, (forall p, playerVote r !! p <> Some NEED) /\
        winner env is_greed (playerVote r) w v /\ x' = served env r it w v x) \/
     ((forall p v, playerVote r !! p = Some v -> is_need v = false /\ is_greed v = false) /\
      x' = set_item (itemSlot r) (set_blocked false it) x)).
Proof.
  intros Hf Hwf Hc. destruct (Z.lt_ge_cases 0 (totalNeed r)) as [Hn|Hn].
  - destruct (CountTheRoll_need env s i r l x it Hf Hc Hn) as (w & s' & Hw & He & Hco).
    { rewrite (wf_need _ Hwf) in Hn. apply votes_pos in Hn as (p & [] & Hp & ?); try done. by exists p. }
    eauto 10.
  - assert (Hn0 : totalNeed r = 0) by (rewrite (wf_need _ Hwf) in *; pose proof (votes_nonneg is_need (playerVote r)); lia).
    assert (Hnone : forall p v, playerVote r !! p = Some v -> is_need v = false).
    { intros p v Hp. destruct (is_need v) eqn:E; [|done].
      assert (0 < votes is_need (playerVote r)) by (apply votes_pos; eauto).
      rewrite <- (wf_need _ Hwf) in *. lia. }
    destruct (Z.lt_ge_cases 0 (totalGreed r)) as [Hg|Hg].
    + destruct (CountTheRoll_greed env s i r l x it Hf Hc Hn0 Hg) as (w & v & s' & Hw & He & Hco).
      { rewrite (wf_greed _ Hwf) in Hg. by apply votes_pos in Hg. }
      exists (served env r it w v x), s'. split_and!; [done|done|]. right; left.
      exists w, v. split_and!; [|done|done]. by intros p Hp%Hnone.
    + assert (Hg0 : totalGreed r = 0) by (rewrite (wf_greed _ Hwf) in *; pose proof (votes_nonneg is_greed (playerVote r)); lia).
      destruct (CountTheRoll_passed env s i r l x it Hc Hn0 Hg0) as (s' & He & Hco).
      eexists _, s'. split_and!; [done|done|]. right; right. split; [|done].
      intros p v Hp. split; [by eapply Hnone|]. destruct (is_greed v) eqn:E; [|done].
      assert (0 < votes is_greed (playerVote r)) by (apply votes_pos; eauto).
      rewrite <- (wf_greed _ Hwf) in *. lia.
Qed.

(** ** An example *)

(** Two members near a loot with one item; the second rolls higher. *)
Definition env2 : Env := mkEnv (fun _ => true) (fun _ _ _ => 0) (fun p => if p =? 1 then 50 else 90).
Definition sword : LootItem := mkLootItem 25 1 false true false false false.
Definition chest : Loot := mkLoot [sword] [] 1.
Definition two_rolling : Roll :=
  setLoot 7 0 7 (foldl (add_voter true) (new_Roll 100 sword) [mkCandidate 1 false; mkCandidate 2 false]).
Definition rolling (r : Roll) : RollState := mkRollState [r] {[7 := chest]} [].

Lemma env2_fair : fair env2.
Proof. intros p. cbn. destruct (p =? 1); lia. Qed.

Lemma two_rolling_wf : wf_roll two_rolling.
Proof. by split; vm_compute. Qed.

Definition both_need : Roll := cast_vote 2 ROLL_NEED (cast_vote 1 ROLL_NEED two_rolling).

Lemma CountTheRoll_result_witness :
  wf_roll both_need /\ countable (rolling both_need) 0 both_need 7 chest sword /\
  exists x' s', CountTheRoll env2 0 (rolling both_need) = Ok (tt, s') /\
    counted 0 7 x' (rolling both_need) s' /\ unlootedCount x' = 0.
Proof.
  assert (Hwf : wf_roll both_need) by (by split; vm_compute).
  assert (Hc : countable (rolling both_need) 0 both_need 7 chest sword) by (by split).
  split; [exact Hwf|split; [exact Hc|]].
  destruct (CountTheRoll_result env2 (rolling both_need) 0 both_need 7 chest sword env2_fair Hwf Hc)
    as (x' & s' & He & Hco & Hcase).
  exists x', s'. split; [exact He|split; [exact Hco|]].
  destruct Hcase as [(w & Hw & ->)|[(w & v & _ & (Hw & Hv & _) & _)|[Hnone _]]].
  - reflexivity.
  - assert (Hv' : v = NEED).
    { destruct (decide (w = 2)) as [->|H2]; [vm_compute in Hw; congruence|].
      destruct (decide (w = 1)) as [->|H1]; [vm_compute in Hw; congruence|].
      unfold both_need in Hw. cbn in Hw. rewrite !lookup_insert_ne in Hw by lia. done. }
    subst v. discriminate Hv.
  - destruct (Hnone 1 NEED) as [? _]; [reflexivity|discriminate].
Defined.

(** The second member takes the sword. *)
Example two_needs :
  match CountTheRoll env2 0 (rolling both_need) with
  | Ok (_, s) => (map_to_list (items <$> loots s), List.filter (fun e => match e with StoredNewItem _ _ _ => true | _ => false end) (loot_events s))
  | Err _ => ([], [])
  end = ([(7, [set_looted sword])], [StoredNewItem 2 25 1]).
Proof. vm_compute. reflexivity. Qed.
