(* ===== verification/GroupRollRun.v ===== *)
(** * Rolls as they are played (Group.cpp, the loot system)

    Votes, a member who leaves, timers that run out and loots that are
    destroyed, on the rolls of GroupRoll.v: what one operation does, and what
    holds after any sequence of them. *)
From S2P Require Import Prelude.
From S2P Require Import Lists.
From S2P Require Import GroupRoll.
Local Open Scope Z_scope.

(** ** Voting *)

Lemma vote_event_spec p choice r s : exists evs, vote_event p choice r s = Ok (tt, add_events evs s).
Proof.
  unfold vote_event. repeat case_match; try (eexists; reflexivity).
  exists []. by rewrite add_events_nil.
Qed.

Lemma find_roll_some guid l k i :
  find_roll guid l k = Some i ->
  exists j r, i = (k + j)%nat /\ l !! j = Some r /\ itemGUID r = guid /\ isValid r = true.
Proof.
  revert k. induction l as [|r l IH]; intros k; cbn; [done|].
  destruct ((itemGUID r =? guid) && isValid r) eqn:E.
  - intros [= <-]. apply andb_true_iff in E as [E Hv]. exists 0%nat, r. split_and!; [lia|done|lia|done].
  - intros (j & r' & -> & Hj & ? & ?)%IH. exists (S j), r'. split_and!; [lia|done..].
Qed.

Lemma GetRoll_isValid guid s i :
  GetRoll guid s = Some i -> exists r, RollId s !! i = Some r /\ itemGUID r = guid /\ isValid r = true.
Proof. intros (j & r & -> & Hr)%find_roll_some. exists r. by rewrite Nat.add_0_l. Qed.

(** One vote by a player on the list: the roll is rewritten, and counted if
    the totals say so. *)
Lemma CountRollVote_step env p guid choice s i r v l x :
  GetRoll guid s = Some i -> RollId s !! i = Some r -> playerVote r !! p = Some v ->
  roll_loot r = Some l -> loots s !! l = Some x -> items x <> [] ->
  exists evs,
    let s1 := set_RollId (<[i := cast_vote p choice r]> (RollId s)) (add_events evs s) in
    CountRollVote env p guid choice s
    = if all_voted (cast_vote p choice r) then CountTheRoll env i s1 else Ok (tt, s1).
Proof.
  intros Hg Hi Hp Hl Hx Hne. destruct (vote_event_spec p choice r s) as [evs Hev]. exists evs.
  unfold CountRollVote, st_get. unfold mbind at 1, st_bind at 1. cbv beta iota.
  rewrite Hg, Hi, Hp. rewrite (st_bind_Ok _ _ _ _ _ (getLoot_spec _ _ _ _ Hl Hx)). cbv beta iota.
  destruct (items x) as [|it its]; [done|].
  rewrite (st_bind_Ok _ _ _ _ _ Hev). cbv beta zeta.
  unfold st_modify, mbind, st_bind. cbv beta iota.
  by destruct (all_voted _).
Qed.

(** The first vote of a player on a roll that is being voted on keeps the
    roll's totals equal to its votes, and the roll is counted in this very
    moment exactly when nobody else is left to vote. *)
Theorem first_vote env p guid choice v s i r l x :
  GetRoll guid s = Some i -> RollId s !! i = Some r -> wf_roll r ->
  playerVote r !! p = Some NOT_EMITED_YET -> vote_of choice = Some v ->
  roll_loot r = Some l -> loots s !! l = Some x -> items x <> [] ->
  let r' := cast_vote p choice r in
  wf_roll r' /\ playerVote r' = <[p := v]> (playerVote r) /\
  exists evs,
    let s1 := set_RollId (<[i := r']> (RollId s)) (add_events evs s) in
    ((exists q, q <> p /\ playerVote r !! q = Some NOT_EMITED_YET) ->
     CountRollVote env p guid choice s = Ok (tt, s1)) /\
    ((forall q, playerVote r !! q = Some NOT_EMITED_YET -> q = p) ->
     CountRollVote env p guid choice s = CountTheRoll env i s1).
Proof.
  intros Hg Hi Hwf Hp Hv Hl Hx Hne. cbv zeta.
  destruct (cast_vote_wf p choice v r Hwf Hp Hv) as (Hwf' & Hpv & _).
  split_and!; [done|done|].
  destruct (CountRollVote_step env p guid choice s i r NOT_EMITED_YET l x) as [evs He]; try done.
  exists evs. cbv zeta in He. rewrite He.
  assert (Hall : all_voted (cast_vote p choice r) = true <->
            forall q, playerVote r !! q = Some NOT_EMITED_YET -> q = p).
  { rewrite (all_voted_outstanding _ Hwf'). unfold outstanding. rewrite Hpv.
    assert (Hvo : is_outstanding v = false) by (unfold vote_of in Hv; repeat case_match; by simplify_eq).
    split.
    - intros H0 q Hq. destruct (Z.eq_dec q p) as [|Hqp]; [done|].
      assert (0 < votes is_outstanding (<[p := v]> (playerVote r))); [|lia].
      apply votes_pos. exists q, NOT_EMITED_YET. by rewrite lookup_insert_ne.
    - intros H. pose proof (votes_nonneg is_outstanding (<[p := v]> (playerVote r))).
      destruct (Z.lt_ge_cases 0 (votes is_outstanding (<[p := v]> (playerVote r)))) as [Hlt|]; [|lia].
      apply votes_pos in Hlt as (q & v' & Hq & Hv').
      destruct (decide (q = p)) as [->|Hqp].
      + rewrite lookup_insert_eq in Hq. congruence.
      + rewrite lookup_insert_ne in Hq by done. destruct v'; try done. by apply H in Hq. }
  split.
  - intros (q & Hqp & Hq). destruct (all_voted _); [|done]. exfalso. by apply Hqp, (proj1 Hall eq_refl).
  - intros H. by rewrite (proj2 Hall H).
Qed.

(** ** Voting again *)

(** Nothing stops a player from voting twice. *)
Fixpoint vote_again (env : Env) (p guid choice : Z) (n : nat) : RS unit :=
  match n with
  | O => mret tt
  | S n => CountRollVote env p guid choice;; vote_again env p guid choice n
  end.

(** Only [p] has voted, [k] times need. *)
Record stuffed (r : Roll) (p : Z) (k : Z) : Prop := {
  st_need : totalNeed r = k;
  st_other : totalPass r = 0 /\ totalGreed r = 0;
  st_votes : forall q v, playerVote r !! q = Some v -> q <> p -> v = NOT_EMITED_YET;
  st_mine : is_Some (playerVote r !! p);
  st_cast : 0 < k -> playerVote r !! p = Some NEED
}.

Lemma cast_stuffed r p k :
  stuffed r p k -> 0 <= k -> k + 1 < 256 ->
  stuffed (cast_vote p ROLL_NEED r) p (k + 1) /\
  totalPlayersRolling (cast_vote p ROLL_NEED r) = totalPlayersRolling r /\
  itemGUID (cast_vote p ROLL_NEED r) = itemGUID r /\
  itemSlot (cast_vote p ROLL_NEED r) = itemSlot r /\
  roll_loot (cast_vote p ROLL_NEED r) = roll_loot r /\
  roll_itemid (cast_vote p ROLL_NEED r) = roll_itemid r.
Proof.
  intros [Hn [Hp Hg] Hv Hm Hc] H0 Hk. cbn. split_and!; [|done..].
  split; cbn; [by rewrite Hn, u8_small by (unfold is_byte; lia)|done| |by rewrite lookup_insert_eq|].
  - intros q v. destruct (decide (q = p)) as [->|]; [done|]. rewrite lookup_insert_ne by done. apply Hv.
  - intros _. by rewrite lookup_insert_eq.
Qed.

Lemma find_roll_insert guid i r r' l k :
  l !! i = Some r -> itemGUID r' = itemGUID r -> roll_loot r' = roll_loot r ->
  find_roll guid (<[i := r']> l) k = find_roll guid l k.
Proof.
  intros Hi Hg Hl. revert i k Hi. induction l as [|x l IH]; intros i k Hi; [done|].
  destruct i as [|i]; cbn in Hi |- *; [|by rewrite IH].
  injection Hi as ->. unfold isValid. by rewrite Hg, Hl.
Qed.

Lemma insert_GetRoll guid i r r' evs s :
  RollId s !! i = Some r -> itemGUID r' = itemGUID r -> roll_loot r' = roll_loot r ->
  GetRoll guid (set_RollId (<[i := r']> (RollId s)) (add_events evs s)) = GetRoll guid s.
Proof. intros Hi Hg Hl. unfold GetRoll. by apply (find_roll_insert _ _ r). Qed.

Lemma erase_at_insert {A} (l : list A) i x : erase_at i (<[i := x]> l) = erase_at i l.
Proof. revert i. induction l as [|y l IH]; intros [|i]; cbn; [done..|]. by rewrite IH. Qed.

(** A player alone can decide a roll: if he votes need as often as there
    are players on the list, before anybody else votes, the roll is counted
    and he wins, although nobody else was asked. *)
Theorem repeated_vote_wins env p guid s i r l x it n :
  fair env -> GetRoll guid s = Some i -> countable s i r l x it -> items x <> [] ->
  stuffed r p 0 -> totalPlayersRolling r = Z.of_nat n -> (0 < n < 256)%nat ->
  exists s' r', vote_again env p guid ROLL_NEED n s = Ok (tt, s') /\
    counted i l (served env r' it p NEED x) s s' /\
    roll_itemid r' = roll_itemid r /\ itemSlot r' = itemSlot r.
Proof.
  intros Hf Hg Hc Hne Hst Hpl Hn.
  assert (H : forall m k s r, GetRoll guid s = Some i -> countable s i r l x it -> stuffed r p k ->
            0 <= k -> (0 < m)%nat -> totalPlayersRolling r = k + Z.of_nat m -> k + Z.of_nat m < 256 ->
            exists s' r', vote_again env p guid ROLL_NEED m s = Ok (tt, s') /\
              counted i l (served env r' it p NEED x) s s' /\
              roll_itemid r' = roll_itemid r /\ itemSlot r' = itemSlot r).
  { clear s r Hg Hc Hst Hpl Hn.
    induction m as [|m IH]; intros k s r Hg Hc Hst Hk Hm Hpl Hlt; [lia|].
    destruct Hc as [Hi Hl Hx Hit]. destruct (st_mine _ _ _ Hst) as [v Hv].
    destruct (CountRollVote_step env p guid ROLL_NEED s i r v l x) as [evs He]; try done.
    cbv zeta in He.
    destruct (cast_stuffed r p k Hst Hk ltac:(lia)) as (Hst' & Hpl' & Hg' & Hsl' & Hl' & Hid').
    set (r1 := cast_vote p ROLL_NEED r) in *.
    set (s1 := set_RollId (<[i := r1]> (RollId s)) (add_events evs s)) in *.
    assert (Hc1 : countable s1 i r1 l x it).
    { split; [|by rewrite Hl'|done|by rewrite Hsl'].
      cbn. rewrite list_lookup_insert_eq; [done|]. by eapply lookup_lt_Some. }
    cbn [vote_again].
    destruct Hst' as [Hn' [Hp0 Hg0] Hv' Hm' Hcast'].
    destruct m as [|m].
    - assert (Hall : all_voted r1 = true).
      { unfold all_voted. rewrite Hpl', Hn', Hp0, Hg0, Hpl. bdec. }
      rewrite Hall in He.
      destruct (CountTheRoll_need env s1 i r1 l x it Hf Hc1) as (w & s' & Hw & Hct & Hco).
      { rewrite Hn'. lia. } { exists p. apply Hcast'. lia. }
      assert (w = p) as ->.
      { destruct Hw as (Hw & _). destruct (decide (w = p)); [done|]. by apply Hv' in Hw. }
      exists s', r1. split_and!; [|..|done|done].
      + unfold mbind, st_bind. cbv beta. rewrite He, Hct. done.
      + destruct Hco as [Hr Hlo]. split; [|exact Hlo]. rewrite Hr. cbn.
        apply erase_at_insert.
    - assert (Hall : all_voted r1 = false).
      { unfold all_voted. rewrite Hpl', Hn', Hp0, Hg0, Hpl. bdec. }
      rewrite Hall in He. rewrite (st_bind_Ok _ _ _ _ _ He). cbv beta.
      destruct (IH (k + 1) s1 r1) as (s' & r' & Hva & [Hr Hlo] & Hid & Hsl); [..|].
      + unfold s1. rewrite (insert_GetRoll guid i r); [done..].
      + done.
      + by split.
      + lia.
      + lia.
      + rewrite Hpl', Hpl. lia.
      + lia.
      + exists s', r'. split_and!; [done| |congruence|congruence].
        split; [|exact Hlo]. rewrite Hr. cbn.
        apply erase_at_insert. }
  apply (H n 0); try done; lia.
Qed.

(** ** Leaving *)

(** The vote of [guid] removed from every roll. *)
Definition without (guid : Z) (r : Roll) : Roll :=
  match playerVote r !! guid with Some v => forget_vote guid v r | None => r end.

(** A vote of somebody who is not on the list does nothing. *)
Lemma CountRollVote_absent env p guid choice s :
  (forall i r, RollId s !! i = Some r -> itemGUID r = guid -> playerVote r !! p = None) ->
  CountRollVote env p guid choice s = Ok (tt, s).
Proof.
  intros H. unfold CountRollVote, st_get. unfold mbind at 1, st_bind at 1. cbv beta iota.
  destruct (GetRoll guid s) as [i|] eqn:Hg; [|done].
  destruct (GetRoll_isValid _ _ _ Hg) as (r & Hi & Hr & _). by rewrite Hi, (H i r Hi Hr).
Qed.

Lemma itemGUID_without guid r : itemGUID (without guid r) = itemGUID r.
Proof. unfold without. by destruct (playerVote r !! guid). Qed.

Lemma guids_without guid l : map itemGUID (map (without guid) l) = map itemGUID l.
Proof. rewrite map_map. apply map_ext. apply itemGUID_without. Qed.

Lemma without_forgets guid r : playerVote (without guid r) !! guid = None.
Proof. unfold without. destruct (playerVote r !! guid) eqn:Hv; [apply lookup_delete_eq|done]. Qed.

Lemma leave_loop_spec env guid l2 l1 fuel s :
  RollId s = map (without guid) l1 ++ l2 -> NoDup (map itemGUID (l1 ++ l2)) -> fuel = length l2 ->
  leave_loop env fuel guid (length l1) s = Ok (tt, set_RollId (map (without guid) (l1 ++ l2)) s).
Proof.
  revert l1 fuel s. induction l2 as [|r l2 IH]; intros l1 fuel s Hs Hnd ->; cbn [leave_loop length].
  { rewrite app_nil_r in Hs |- *. rewrite <- Hs. by destruct s. }
  unfold st_get. unfold mbind at 1, st_bind at 1. cbv beta iota.
  assert (Hlook : RollId s !! length l1 = Some r).
  { rewrite Hs. rewrite lookup_app_r by (by rewrite length_map). by rewrite length_map, Nat.sub_diag. }
  rewrite Hlook.
  assert (Hins : <[length l1 := without guid r]> (RollId s) = map (without guid) (l1 ++ [r]) ++ l2).
  { rewrite Hs, map_app, <- app_assoc. rewrite insert_app_r_alt by (by rewrite length_map).
    by rewrite length_map, Nat.sub_diag. }
  assert (Hnext : forall s1, RollId s1 = map (without guid) (l1 ++ [r]) ++ l2 ->
            leave_loop env (length l2) guid (S (length l1)) s1
            = Ok (tt, set_RollId (map (without guid) (l1 ++ r :: l2)) s1)).
  { intros s1 Hs1. specialize (IH (l1 ++ [r]) (length l2) s1 Hs1).
    rewrite <- app_assoc in IH. cbn in IH. rewrite length_app, Nat.add_1_r in IH. by apply IH. }
  destruct (playerVote r !! guid) as [v|] eqn:Hv.
  - assert (Hwr : forget_vote guid v r = without guid r) by (unfold without; by rewrite Hv).
    set (s1 := set_RollId (<[length l1 := without guid r]> (RollId s)) s).
    assert (Hcount : CountRollVote env guid (itemGUID r) MAX_ROLL_TYPE s1 = Ok (tt, s1)).
    { apply CountRollVote_absent. intros j r' Hj Hgid.
      assert (Hk : RollId s1 !! length l1 = Some (without guid r)).
      { cbn. apply list_lookup_insert_eq. by eapply lookup_lt_Some. }
      assert (Hnd1 : NoDup (map itemGUID (RollId s1))).
      { cbn. rewrite Hins, map_app, guids_without, <- map_app, <- app_assoc. done. }
      assert (Hjl : j = length l1).
      { apply (NoDup_lookup _ _ _ (itemGUID r) Hnd1); change (map itemGUID) with (fmap (M:=list) itemGUID);
          rewrite list_lookup_fmap, ?Hj, ?Hk; cbn; by rewrite ?Hgid, ?itemGUID_without. }
      subst j. rewrite Hk in Hj. injection Hj as <-. apply without_forgets. }
    unfold st_modify, mbind, st_bind. cbv beta iota. rewrite Hwr. fold s1. rewrite Hcount.
    rewrite (Hnext s1) by exact Hins. done.
  - assert (Hwr : without guid r = r) by (unfold without; by rewrite Hv).
    unfold mret, st_ret, mbind, st_bind. cbv beta iota.
    rewrite (Hnext s); [done|]. rewrite Hs, map_app. cbn. by rewrite Hwr, <- app_assoc.
Qed.

Lemma RemoveMember_rolls_spec env guid s :
  NoDup (map itemGUID (RollId s)) ->
  RemoveMember_rolls env guid s = Ok (tt, set_RollId (map (without guid) (RollId s)) s).
Proof. intros Hnd. by apply (leave_loop_spec env guid (RollId s) []). Qed.

Lemma without_wf guid r : wf_roll r -> wf_roll (without guid r).
Proof.
  intros Hr. unfold without. destruct (playerVote r !! guid) eqn:Hv; [by apply forget_vote_wf|done].
Qed.

(** When a member leaves, his votes disappear from all rolls and the
    totals follow, but no roll is counted, not even one on which he was the
    last to vote: the [CountRollVote] meant to end it looks for the vote that
    was just erased. *)
Theorem leaving_never_counts env guid s :
  NoDup (map itemGUID (RollId s)) -> Forall wf_roll (RollId s) ->
  RemoveMember_rolls env guid s = Ok (tt, set_RollId (map (without guid) (RollId s)) s) /\
  Forall wf_roll (map (without guid) (RollId s)).
Proof.
  intros Hnd Hwf. split; [by apply RemoveMember_rolls_spec|].
  apply Forall_fmap. eapply Forall_impl; [exact Hwf|]. intros r. apply without_wf.
Qed.

(** ** Rolls in play *)

(** The numbers of items of a loot, which no roll changes. *)
Definition shape (x : Loot) : nat * nat := (length (items x), length (quest_items x)).
Definition shapes (s : RollState) : gmap LootPtr (nat * nat) := shape <$> loots s.

Lemma shape_set_item slot it x : shape (set_item slot it x) = shape x.
Proof. unfold set_item, shape. destruct (slot_index x slot) as [[] ?]; cbn; by rewrite length_insert. Qed.

Lemma shape_taken slot it x : shape (taken slot it x) = shape x.
Proof. apply (shape_set_item slot (set_looted it) x). Qed.

Lemma shape_served env r it w v x : shape (served env r it w v x) = shape x.
Proof.
  unfold served. repeat case_match; rewrite ?shape_taken, ?shape_set_item; done.
Qed.

Lemma item_at_shape x y slot :
  shape x = shape y -> is_Some (item_at x slot) -> is_Some (item_at y slot).
Proof.
  unfold shape, item_at, slot_index. intros [= Hi Hq]. rewrite <- Hi.
  destruct (_ <=? _); rewrite !lookup_lt_is_Some; lia.
Qed.

Lemma shapes_insert s l x x' :
  loots s !! l = Some x -> shape x' = shape x -> shape <$> <[l := x']> (loots s) = shapes s.
Proof.
  intros Hl Hs. unfold shapes. rewrite fmap_insert, Hs. apply insert_id. by rewrite lookup_fmap, Hl.
Qed.

Lemma shapes_lookup s s' l x :
  shapes s' = shapes s -> loots s !! l = Some x ->
  exists x', loots s' !! l = Some x' /\ shape x' = shape x.
Proof.
  intros Hs Hx. assert (H : shapes s' !! l = Some (shape x)) by (rewrite Hs; unfold shapes; by rewrite lookup_fmap, Hx).
  unfold shapes in H. rewrite lookup_fmap in H. destruct (loots s' !! l) as [x'|]; [|done].
  exists x'. split; [done|]. cbn in H. congruence.
Qed.

(** The link of a roll leads to its item. *)
Definition linked (m : gmap LootPtr (nat * nat)) (r : Roll) : Prop :=
  forall l, roll_loot r = Some l ->
  exists n k, m !! l = Some (n, k) /\ 0 <= itemSlot r < Z.of_nat (n + k).

Lemma linked_item s r l :
  linked (shapes s) r -> roll_loot r = Some l ->
  exists x it, loots s !! l = Some x /\ item_at x (itemSlot r) = Some it.
Proof.
  intros H Hl. destruct (H l Hl) as (n & k & Hm & Hs).
  unfold shapes in Hm. rewrite lookup_fmap in Hm.
  destruct (loots s !! l) as [x|]; [|done]. cbn in Hm. injection Hm as <- <-.
  exists x. assert (is_Some (item_at x (itemSlot r))) as [it Hit]; [|by exists it].
  unfold item_at, slot_index.
  destruct (Z.leb_spec (Z.of_nat (length (items x))) (itemSlot r)); apply lookup_lt_is_Some; lia.
Qed.

(** What holds of the rolls of a group; [h] says whether all votes so far
    were honest, that is, nobody voted twice. *)
Record rolls_ok (h : bool) (s : RollState) : Prop := {
  ro_linked : Forall (linked (shapes s)) (RollId s);
  ro_guids : NoDup (map itemGUID (RollId s));
  ro_bounded : map_Forall (fun _ nk => (fst nk <= 16 /\ snd nk <= 32)%nat) (shapes s);
  ro_wf : h = true -> Forall wf_roll (RollId s)
}.

(** *** Counting never fails *)

(** A computation about the roll [r] that returns, and leaves the vector of
    rolls and the shapes of the loots as they are. *)
Definition preserves {A} (r : Roll) (m : RS A) : Prop :=
  forall s, linked (shapes s) r ->
  exists a s', m s = Ok (a, s') /\ RollId s' = RollId s /\ shapes s' = shapes s.

Create HintDb preserves.

Lemma preserves_ret {A} r (a : A) : preserves r (mret a).
Proof. intros s _. by exists a, s. Qed.

Lemma preserves_bind {A B} r (m : RS A) (f : A -> RS B) :
  preserves r m -> (forall a, preserves r (f a)) -> preserves r (m ≫= f).
Proof.
  intros Hm Hf s Hs. destruct (Hm s Hs) as (a & s1 & He & Hr1 & Hs1).
  destruct (Hf a s1) as (b & s2 & He2 & Hr2 & Hs2); [by rewrite Hs1|].
  exists b, s2. rewrite (st_bind_Ok _ _ _ _ _ He). split_and!; congruence.
Qed.

Lemma preserves_say r e : preserves r (say e).
Proof. intros s _. by eexists _, _. Qed.

Lemma preserves_best_roll env eligible guid l mr mg rv r : preserves r (best_roll env eligible guid l mr mg rv).
Proof.
  intros s _. destruct (best_roll_spec env eligible guid l mr mg rv s) as (evs & ? & ? & ? & -> & _).
  by eexists _, _.
Qed.

Section Valid.
Context (r : Roll) (l : LootPtr) (Hl : roll_loot r = Some l).

Lemma after_preserves x x' s s' :
  loots s !! l = Some x -> shape x' = shape x -> after l x' s s' ->
  RollId s' = RollId s /\ shapes s' = shapes s.
Proof. intros Hx Hsh [Hr Hlo]. split; [done|]. unfold shapes at 1. rewrite Hlo. by apply (shapes_insert _ _ x). Qed.

Lemma preserves_on_item f : preserves r (on_item r f).
Proof.
  intros s Hs. destruct (linked_item _ _ _ Hs Hl) as (x & it & Hx & Hit).
  eexists _, _. split; [by apply (on_item_spec _ l x it)|].
  by apply (after_preserves x (set_item (itemSlot r) (f it) x)); [|apply shape_set_item|].
Qed.

Lemma preserves_the_item : preserves r (the_item r).
Proof.
  intros s Hs. destruct (linked_item _ _ _ Hs Hl) as (x & it & Hx & Hit).
  eexists it, s. split; [|done].
  unfold the_item. by rewrite (st_bind_Ok _ _ _ _ _ (getLoot_spec _ _ _ _ Hl Hx)), Hit.
Qed.

Lemma preserves_take_item : preserves r (take_item r).
Proof.
  intros s Hs. destruct (linked_item _ _ _ Hs Hl) as (x & it & Hx & Hit).
  destruct (take_item_spec r l x it s Hl Hx Hit) as (s' & He & Ha).
  eexists _, s'. split; [done|]. by apply (after_preserves x (taken (itemSlot r) it x)); [|apply shape_taken|].
Qed.
End Valid.

#[export] Hint Resolve preserves_ret preserves_say preserves_best_roll preserves_on_item preserves_the_item
  preserves_take_item : preserves.

Ltac preserves_step := solve [eauto 2 with preserves] || (simple apply preserves_bind; [|intros ?]).

Lemma CountTheRoll_ends env s i r :
  RollId s !! i = Some r -> linked (shapes s) r ->
  exists s', CountTheRoll env i s = Ok (tt, s') /\
    RollId s' = erase_at i (RollId s) /\ shapes s' = shapes s.
Proof.
  intros Hi Hlink. unfold CountTheRoll, st_get. unfold mbind at 1, st_bind at 1. cbv beta iota.
  rewrite Hi. unfold isValid. destruct (roll_loot r) as [l|] eqn:Hl; cbn [negb].
  2: { by eexists. }
  match goal with |- context [(?m ≫= _) s = _] => assert (Hk : preserves r m) end.
  { unfold give_item. repeat (preserves_step || case_match). }
  destruct (Hk s Hlink) as ([] & s1 & He & Hr & Hs).
  rewrite (st_bind_Ok _ _ _ _ _ He). eexists. split; [done|]. cbn. by rewrite Hr.
Qed.

(** *** What keeps the invariant *)

Lemma erase_at_sublist {A} i (l : list A) : sublist (erase_at i l) l.
Proof.
  revert i. induction l as [|x l IH]; intros [|i]; cbn; [constructor|constructor|by constructor|].
  by apply sublist_skip.
Qed.

Lemma rolls_ok_sub h s s' :
  rolls_ok h s -> sublist (RollId s') (RollId s) -> shapes s' = shapes s -> rolls_ok h s'.
Proof.
  intros [Hl Hg Hb Hw] Hsub Hs. split; rewrite ?Hs; eauto using sublist_Forall.
  eapply sublist_NoDup; [exact Hg|]. by apply fmap_sublist.
Qed.

Lemma map_insert_same {A B} (f : A -> B) i l x y :
  l !! i = Some x -> f y = f x -> map f (<[i := y]> l) = map f l.
Proof.
  intros Hi Hf. change (map f) with (fmap (M:=list) f). rewrite list_fmap_insert, Hf.
  apply list_insert_id. by rewrite list_lookup_fmap, Hi.
Qed.

(** [r'] is about the same item as [r]. *)
Definition same_item (r r' : Roll) : Prop :=
  itemGUID r' = itemGUID r /\ roll_loot r' = roll_loot r /\ itemSlot r' = itemSlot r.

Lemma linked_same_item m r r' : same_item r r' -> linked m r -> linked m r'.
Proof. intros (_ & Hl & Hs) H l. rewrite Hl, Hs. apply H. Qed.

Lemma rolls_ok_insert h s s' i r r' :
  rolls_ok h s -> RollId s !! i = Some r -> same_item r r' ->
  RollId s' = <[i := r']> (RollId s) -> shapes s' = shapes s ->
  (h = true -> wf_roll r -> wf_roll r') -> rolls_ok h s'.
Proof.
  intros [Hl Hg Hb Hw] Hi Hsame Hr Hs Hwf.
  assert (Hin : forall P, Forall P (RollId s) -> P r) by (intros P H; exact (Forall_lookup_1 _ _ _ _ H Hi)).
  split; rewrite ?Hr, ?Hs; [| |done|].
  - apply Forall_insert; [done|]. exact (linked_same_item _ _ _ Hsame (Hin _ Hl)).
  - rewrite (map_insert_same _ _ _ _ _ Hi); [done|apply Hsame].
  - intros Hh. apply Forall_insert; [auto|]. exact (Hwf Hh (Hin _ (Hw Hh))).
Qed.

(** *** Votes *)

Lemma cast_vote_same p choice r : same_item r (cast_vote p choice r).
Proof. unfold cast_vote. by repeat case_match. Qed.

(** An honest vote: the first of a player on a roll he is asked about. *)
Definition honest_vote (s : RollState) (p guid choice : Z) : Prop :=
  forall i r v, GetRoll guid s = Some i -> RollId s !! i = Some r -> playerVote r !! p = Some v ->
  v = NOT_EMITED_YET \/ vote_of choice = None.

Lemma honest_cast_wf p choice v r :
  wf_roll r -> playerVote r !! p = Some v -> v = NOT_EMITED_YET \/ vote_of choice = None ->
  wf_roll (cast_vote p choice r).
Proof.
  intros Hwf Hp Hv. destruct (vote_of choice) as [w|] eqn:Hc.
  - destruct Hv as [->|]; [|done]. by apply (cast_vote_wf p choice w r Hwf Hp Hc).
  - unfold vote_of, cast_vote in *. by repeat case_match.
Qed.

Lemma CountRollVote_ok h env p guid choice s :
  rolls_ok h s -> (h = true -> honest_vote s p guid choice) ->
  exists s', CountRollVote env p guid choice s = Ok (tt, s') /\ rolls_ok h s'.
Proof.
  intros Hok Hh. destruct (GetRoll guid s) as [i|] eqn:Hg.
  2: { exists s. unfold CountRollVote, st_get, mbind, st_bind. by rewrite Hg. }
  destruct (GetRoll_isValid _ _ _ Hg) as (r & Hi & _ & Hv).
  destruct (playerVote r !! p) as [v|] eqn:Hp.
  2: { exists s. unfold CountRollVote, st_get, mbind, st_bind. by rewrite Hg, Hi, Hp. }
  destruct (roll_loot r) as [l|] eqn:Hl; [|by unfold isValid in Hv; rewrite Hl in Hv].
  destruct (linked_item s r l) as (x & it & Hx & Hit);
    [exact (Forall_lookup_1 _ _ _ _ (ro_linked _ _ Hok) Hi)|done|].
  destruct (items x) as [|it0 its] eqn:Hits.
  { exists s. unfold CountRollVote, st_get. unfold mbind at 1, st_bind at 1. cbv beta iota.
    rewrite Hg, Hi, Hp. rewrite (st_bind_Ok _ _ _ _ _ (getLoot_spec _ _ _ _ Hl Hx)). cbv beta iota.
    by rewrite Hits. }
  destruct (CountRollVote_step env p guid choice s i r v l x) as [evs He]; try done; [by rewrite Hits|].
  cbv zeta in He. rewrite He. set (s1 := set_RollId _ _).
  assert (Hok1 : rolls_ok h s1).
  { apply (rolls_ok_insert h s s1 i r (cast_vote p choice r)); try done; [apply cast_vote_same|].
    intros Ht Hwf. eapply honest_cast_wf; [done|exact Hp|]. by apply (Hh Ht i r v). }
  destruct (all_voted _); [|by exists s1].
  assert (Hi1 : RollId s1 !! i = Some (cast_vote p choice r)).
  { cbn. apply list_lookup_insert_eq. by eapply lookup_lt_Some. }
  destruct (CountTheRoll_ends env s1 i _ Hi1) as (s2 & -> & Hr2 & Hs2).
  { exact (Forall_lookup_1 _ _ _ _ (ro_linked _ _ Hok1) Hi1). }
  exists s2. split; [done|]. apply (rolls_ok_sub h s1); [done| |done].
  rewrite Hr2. apply erase_at_sublist.
Qed.

(** *** The timer *)

Definition about (l : LootPtr) (r : Roll) : bool := bool_decide (roll_loot r = Some l).
Definition not_about (l : LootPtr) (r : Roll) : bool := negb (about l r).

Lemma erase_at_app {A} (l1 : list A) x l2 : erase_at (length l1) (l1 ++ x :: l2) = l1 ++ l2.
Proof. induction l1 as [|y l1 IH]; cbn; [done|by rewrite IH]. Qed.

Lemma EndRoll_loop_ok h env l fuel l1 l2 s :
  rolls_ok h s -> RollId s = l1 ++ l2 -> Forall (fun r => not_about l r = true) l1 ->
  (length (List.filter (about l) (RollId s)) * S (length (RollId s)) + length l2 < fuel)%nat ->
  exists s', EndRoll_loop env fuel l (length l1) s = Ok (tt, s') /\
    RollId s' = List.filter (not_about l) (RollId s) /\ rolls_ok h s' /\ shapes s' = shapes s.
Proof.
  revert l1 l2 s. induction fuel as [|fuel IH]; intros l1 l2 s Hok Hr H1 Hfuel; [lia|].
  cbn [EndRoll_loop]. unfold st_get. unfold mbind at 1, st_bind at 1. cbv beta iota.
  destruct l2 as [|r l2].
  { rewrite app_nil_r in Hr. rewrite lookup_ge_None_2 by (by rewrite Hr).
    exists s. split_and!; [done| |done|done]. rewrite Hr. symmetry.
    apply List.forallb_filter_id, List.forallb_forall. by apply List.Forall_forall. }
  assert (Hi : RollId s !! length l1 = Some r) by (by rewrite Hr, list_lookup_middle).
  rewrite Hi. change (bool_decide _) with (about l r). destruct (about l r) eqn:Hab.
  - destruct (CountTheRoll_ends env s _ r Hi) as (s1 & He & Hr1 & Hs1).
    { exact (Forall_lookup_1 _ _ _ _ (ro_linked _ _ Hok) Hi). }
    rewrite (st_bind_Ok _ _ _ _ _ He). cbv beta.
    rewrite Hr, erase_at_app in Hr1.
    destruct (IH [] (l1 ++ l2) s1) as (s2 & He2 & Hr2 & Hok2 & Hs2).
    + apply (rolls_ok_sub h s); [done| |done]. rewrite Hr, Hr1.
      apply sublist_app; [done|]. by constructor.
    + done.
    + constructor.
    + rewrite Hr1. rewrite Hr in Hfuel. rewrite !List.filter_app, !length_app in *. cbn in *.
      rewrite Hab in Hfuel. cbn in Hfuel. nia.
    + exists s2. split_and!; [done| |done|congruence].
      rewrite Hr2, Hr1, Hr, !List.filter_app. cbn. unfold not_about at 4. by rewrite Hab.
  - destruct (IH (l1 ++ [r]) l2 s) as (s2 & He2 & Hr2 & Hok2 & Hs2).
    + done.
    + by rewrite <- app_assoc.
    + apply Forall_app. split; [done|]. constructor; [|constructor]. unfold not_about. by rewrite Hab.
    + cbn in Hfuel. lia.
    + rewrite length_app, Nat.add_1_r in He2. by exists s2.
Qed.

Lemma EndRoll_spec h env l s :
  rolls_ok h s ->
  exists s', EndRoll env l s = Ok (tt, s') /\
    RollId s' = List.filter (not_about l) (RollId s) /\ rolls_ok h s'.
Proof.
  intros Hok. unfold EndRoll.
  destruct (EndRoll_loop_ok h env l (S (length (RollId s)) * S (length (RollId s))) [] (RollId s) s)
    as (s' & He & Hr & Hok' & _); [done|done|constructor| |by exists s'].
  pose proof (List.filter_length_le (about l) (RollId s)). nia.
Qed.

(** When the timer of a loot runs out, all its rolls are counted and
    removed, the rolls on other loots stay as they are, and nothing fails:
    the loop that starts over after every counted roll ends. *)
Theorem EndRoll_ends h env l s :
  rolls_ok h s ->
  exists s', EndRoll env l s = Ok (tt, s') /\
    RollId s' = List.filter (not_about l) (RollId s) /\ rolls_ok h s'.
Proof. apply EndRoll_spec. Qed.

(** *** A loot that is cleared *)

Lemma unlink_same l r : itemGUID (unlink l r) = itemGUID r.
Proof. unfold unlink. by case_match. Qed.

Lemma unlink_wf l r : wf_roll r -> wf_roll (unlink l r).
Proof. unfold unlink. case_match; [|done]. intros [? ? ? ? ?]. by split. Qed.

Lemma linked_unlink m m' l r :
  linked m r -> (forall k, k <> l -> m' !! k = m !! k) -> linked m' (unlink l r).
Proof.
  intros H Hm k. unfold unlink. case_bool_decide as Hl; cbn; [done|]. intros Hk.
  destruct (H k Hk) as (n & q & Hn & Hs). exists n, q. rewrite Hm; [done|congruence].
Qed.

Lemma rolls_ok_unlink h l s s' :
  rolls_ok h s -> RollId s' = map (unlink l) (RollId s) ->
  (forall k, k <> l -> shapes s' !! k = shapes s !! k) ->
  map_Forall (fun _ nk => (fst nk <= 16 /\ snd nk <= 32)%nat) (shapes s') -> rolls_ok h s'.
Proof.
  intros [Hl Hg Hb Hw] Hr Hs Hb'. split; rewrite ?Hr; [| |done|].
  - apply Forall_fmap. eapply Forall_impl; [exact Hl|]. intros r H. by eapply linked_unlink.
  - rewrite map_map. rewrite (map_ext _ itemGUID); [done|]. apply unlink_same.
  - intros Hh. apply Forall_fmap. eapply Forall_impl; [exact (Hw Hh)|]. intros r. apply unlink_wf.
Qed.

Lemma shapes_clear l s : shapes (Loot_clear l s) = <[l := (0, 0)%nat]> (shapes s).
Proof. unfold shapes. cbn. by rewrite fmap_insert. Qed.

Lemma Loot_clear_ok h l s : rolls_ok h s -> rolls_ok h (Loot_clear l s).
Proof.
  intros Hok. apply (rolls_ok_unlink h l s); [done|done| |].
  - intros k Hk. by rewrite shapes_clear, lookup_insert_ne.
  - rewrite shapes_clear. apply map_Forall_insert_2; [cbn; lia|apply Hok].
Qed.

Lemma Loot_destroy_ok h l s : rolls_ok h s -> rolls_ok h (Loot_destroy l s).
Proof.
  intros Hok. assert (Hs : shapes (Loot_destroy l s) = delete l (shapes s)).
  { unfold shapes. cbn. by rewrite fmap_delete, fmap_insert, delete_insert_eq. }
  apply (rolls_ok_unlink h l s); [done|done| |].
  - intros k Hk. by rewrite Hs, lookup_delete_ne.
  - rewrite Hs. apply map_Forall_delete, Hok.
Qed.

(** *** A loot that is rolled for *)

Section Start.
Context (env : Env) (GetItemTemplate : Z -> option ItemTemplate) (near : LootItem -> list Candidate)
        (CanRollForItemInLFG : Z -> Z -> Z) (m_lootThreshold m_maxEnchantingLevel : Z).
Context (h : bool)
        (Hnear : h = true -> forall it, NoDup (map c_guid (near it)) /\ Z.of_nat (length (near it)) < 256).

(** The state while the loop runs: all rolls are older than [guid]. *)
Definition numbered (guid : Z) (s : RollState) : Prop :=
  rolls_ok h s /\ Forall (fun r => itemGUID r < guid) (RollId s).

(** What a step of the loop over slot [slot] of [l] does to the state. *)
Definition starts (l : LootPtr) (slot guid : Z) (m : RS Z) : Prop :=
  forall s x, loots s !! l = Some x -> 0 <= slot < Z.of_nat (length (items x) + length (quest_items x)) ->
  numbered guid s ->
  exists guid' s', m s = Ok (guid', s') /\ numbered guid' s' /\ shapes s' = shapes s.

Lemma numbered_mono guid guid' s : guid <= guid' -> numbered guid s -> numbered guid' s.
Proof. intros Hle [Hok Hg]. split; [done|]. eapply Forall_impl; [exact Hg|]. cbn. lia. Qed.

Lemma foldl_add_voter auto guid it :
  itemGUID (foldl (add_voter auto) (new_Roll guid it) (near it)) = guid.
Proof.
  assert (H : forall cs r, itemGUID (foldl (add_voter auto) r cs) = itemGUID r).
  { induction cs as [|c cs IH]; intros r; cbn; [done|]. by rewrite IH. }
  by rewrite H.
Qed.

Lemma slot_item (s : RollState) (l : LootPtr) x slot :
  0 <= slot < Z.of_nat (length (items x) + length (quest_items x)) -> exists it, item_at x slot = Some it.
Proof.
  intros Hs. unfold item_at, slot_index.
  destruct (Z.leb_spec (Z.of_nat (length (items x))) slot); apply lookup_lt_is_Some; lia.
Qed.

Lemma start_roll_starts announce auto mask l slot guid it :
  starts l slot guid (start_roll near announce auto mask l slot guid it;; mret (guid + 1)).
Proof.
  intros s x Hx Hslot [Hok Hg]. destruct (slot_item s l x slot Hslot) as [it' Hit].
  unfold start_roll. set (r := foldl _ _ _). destruct (0 <? totalPlayersRolling r).
  2: { exists (guid + 1), s. split_and!; [done| |done]. apply (numbered_mono guid); [lia|done]. }
  set (r' := setLoot l slot mask r).
  pose proof (on_item_spec r' l x it' (set_blocked true) s eq_refl Hx Hit) as Ho.
  unfold say_all, st_modify. unfold mbind at 1, st_bind at 1. unfold mbind at 1, st_bind at 1.
  rewrite Ho. unfold mbind, st_bind, mret, st_ret. cbv beta iota.
  eexists (guid + 1), _. split; [reflexivity|].
  assert (Hsh : shape <$> <[l := set_item slot (set_blocked true it') x]> (loots s) = shapes s).
  { apply (shapes_insert _ _ x); [done|apply shape_set_item]. }
  assert (Hgr : itemGUID r' = guid) by apply foldl_add_voter.
  match goal with |- numbered _ ?x /\ _ =>
    assert (Hs' : shapes x = shapes s) by exact Hsh;
    assert (Hr' : RollId x = RollId s ++ [r']) by done; revert Hs' Hr'; generalize x
  end.
  intros s' Hs' Hr'.
  destruct Hok as [Hl Hnd Hb Hw]. split; [split|exact Hs'].
  - split; rewrite ?Hs', ?Hr'.
    + apply Forall_app. split; [done|]. constructor; [|constructor]. intros k [= <-].
      exists (length (items x)), (length (quest_items x)). split; [|exact Hslot].
      unfold shapes. by rewrite lookup_fmap, Hx.
    + rewrite map_app. apply NoDup_app. split_and!; [done| |apply NoDup_singleton].
      intros g Hin Hin2. apply list_elem_of_singleton in Hin2 as ->.
      apply list_elem_of_In, in_map_iff in Hin as (r0 & Hr0 & Hin).
      apply list_elem_of_In in Hin. pose proof (proj1 (Forall_forall _ _) Hg r0 Hin) as Hlt. cbv beta in Hlt. lia.
    + done.
    + intros Hh. apply Forall_app. split; [by apply Hw|]. constructor; [|constructor].
      destruct (Hnear Hh it) as [Hn1 Hn2].
      destruct (new_roll_wf auto guid it (near it) Hn1 Hn2) as [? ? ? ? ?]. by split.
  - rewrite Hr'. apply Forall_app. split; [|by constructor; [lia|constructor]].
    eapply Forall_impl; [exact Hg|]. cbn. lia.
Qed.

Lemma mark_underthreshold_starts l slot guid :
  starts l slot guid (mark_underthreshold l slot;; mret guid).
Proof.
  intros s x Hx Hslot [Hok Hg]. destruct (slot_item s l x slot Hslot) as [it Hit].
  unfold mark_underthreshold, st_get, st_modify, mbind, st_bind. rewrite Hx, Hit.
  eexists guid, _. split; [reflexivity|].
  assert (Hsh : shape <$> <[l := set_item slot (set_underthreshold it) x]> (loots s) = shapes s).
  { apply (shapes_insert _ _ x); [done|apply shape_set_item]. }
  split; [split; [|done]|done]. by apply (rolls_ok_sub h s).
Qed.

Lemma ret_starts l slot guid : starts l slot guid (mret guid).
Proof. intros s x _ _ H. by exists guid, s. Qed.

Lemma for_items_starts body l its slot guid s x :
  (forall slot guid it, it ∈ its -> starts l slot guid (body slot guid it)) ->
  loots s !! l = Some x -> 0 <= slot ->
  slot + Z.of_nat (length its) <= Z.of_nat (length (items x) + length (quest_items x)) < 256 ->
  numbered guid s ->
  exists guid' s', for_items body its slot guid s = Ok (guid', s') /\
    numbered guid' s' /\ shapes s' = shapes s.
Proof.
  revert slot guid s x. induction its as [|it its IH]; intros slot guid s x Hbody Hx H0 Hlen Hn.
  { by exists guid, s. }
  cbn [for_items length] in *.
  destruct (Hbody slot guid it (list_elem_of_here _ _) s x Hx ltac:(lia) Hn)
    as (guid1 & s1 & He & Hn1 & Hs1).
  rewrite (st_bind_Ok _ _ _ _ _ He). cbv beta.
  assert (Hx1 : exists x1, loots s1 !! l = Some x1 /\ shape x1 = shape x) by (by apply (shapes_lookup s)).
  destruct Hx1 as (x1 & Hx1 & Hsh). unfold shape in Hsh. injection Hsh as Hi Hq.
  destruct (IH (u8 (slot + 1)) guid1 s1 x1) as (guid2 & s2 & He2 & Hn2 & Hs2).
  - intros. apply Hbody. by right.
  - done.
  - apply u8_byte.
  - rewrite u8_small by (unfold is_byte; lia). lia.
  - done.
  - exists guid2, s2. split_and!; [done|done|congruence].
Qed.
End Start.

(** ** Any sequence of operations *)

(** What holds around a loot when it is opened: the item templates, the
    members near it, whom the dungeon finder lets roll need, the threshold
    and the best enchanter of the group. *)
Record Opening := mkOpening {
  op_template : Z -> option ItemTemplate;
  op_near : LootItem -> list Candidate;
  op_can_need : Z -> Z -> Z;
  op_threshold : Z;
  op_enchanting : Z
}.

Inductive RollOp :=
| FillLoot (l : LootPtr) (x : Loot)
| OpenGroupLoot (l : LootPtr) (o : Opening) (guid : Z)
| OpenNeedBeforeGreed (l : LootPtr) (o : Opening) (guid : Z)
| Vote (player guid choice : Z)
| LeaveRolls (player : Z)
| TimeUp (l : LootPtr)
| ClearLoot (l : LootPtr)
| DestroyLoot (l : LootPtr).

(** Each operation meets a world of its own: who is online and what the dice
    show. *)
Definition run_op (env : Env) (op : RollOp) : RS unit :=
  match op with
  | FillLoot l x => st_modify (fun s => set_loots (<[l := x]> (loots s)) s)
  | OpenGroupLoot l o guid =>
      GroupLoot env (op_template o) (op_near o) (op_threshold o) (op_enchanting o) l guid
  | OpenNeedBeforeGreed l o guid =>
      NeedBeforeGreed env (op_template o) (op_near o) (op_can_need o) (op_threshold o)
        (op_enchanting o) l guid
  | Vote p guid choice => CountRollVote env p guid choice
  | LeaveRolls p => RemoveMember_rolls env p
  | TimeUp l => EndRoll env l
  | ClearLoot l => st_modify (Loot_clear l)
  | DestroyLoot l => st_modify (Loot_destroy l)
  end.

(** When the server may do it: a loot has at most 16 items and 32 quest
    items, is filled while no roll is about it, and is opened while it
    exists; item guids are fresh; need before greed needs the templates of
    the items.  With [h], moreover nobody votes twice and a member is near
    only once. *)
Definition can_open (h : bool) (s : RollState) (l : LootPtr) (o : Opening) (guid : Z) : Prop :=
  is_Some (loots s !! l) /\ Forall (fun r => itemGUID r < guid) (RollId s) /\
  (h = true -> forall it, NoDup (map c_guid (op_near o it)) /\ Z.of_nat (length (op_near o it)) < 256).
Definition enabled (h : bool) (s : RollState) (op : RollOp) : Prop :=
  match op with
  | FillLoot l x =>
      (length (items x) <= 16 /\ length (quest_items x) <= 32)%nat /\
      Forall (fun r => roll_loot r <> Some l) (RollId s)
  | OpenGroupLoot l o guid => can_open h s l o guid
  | OpenNeedBeforeGreed l o guid =>
      can_open h s l o guid /\
      (forall x it, loots s !! l = Some x -> it ∈ items x -> is_Some (op_template o (li_itemid it)))
  | Vote p guid choice => h = true -> honest_vote s p guid choice
  | _ => True
  end.

Inductive reachable (h : bool) : RollState -> Prop :=
| r_start : reachable h (mkRollState [] ∅ [])
| r_step s env op s' :
    reachable h s -> enabled h s op -> run_op env op s = Ok (tt, s') -> reachable h s'.

Lemma rolls_ok_start h : rolls_ok h (mkRollState [] ∅ []).
Proof.
  split; cbn; [constructor|constructor| |constructor].
  unfold shapes. cbn. rewrite fmap_empty. apply map_Forall_empty.
Qed.

Lemma FillLoot_ok h env l x s :
  rolls_ok h s -> enabled h s (FillLoot l x) ->
  exists s', run_op env (FillLoot l x) s = Ok (tt, s') /\ rolls_ok h s'.
Proof.
  intros [Hl Hg Hb Hw] [Hsize Hno]. eexists. split; [reflexivity|].
  set (s' := set_loots _ _).
  assert (Hs : shapes s' = <[l := shape x]> (shapes s)) by (unfold shapes; cbn; by rewrite fmap_insert).
  split; rewrite ?Hs; [|done| |done].
  - apply Forall_forall. intros r Hr k Hk. pose proof (proj1 (Forall_forall _ _) Hno r Hr) as Hn.
    cbv beta in Hn. rewrite lookup_insert_ne by congruence.
    exact (proj1 (Forall_forall _ _) Hl r Hr k Hk).
  - by apply map_Forall_insert_2.
Qed.

Lemma open_ok h s l o guid (first second : Z -> Z -> LootItem -> RS Z) x :
  rolls_ok h s -> can_open h s l o guid -> loots s !! l = Some x ->
  (forall slot guid it, it ∈ items x -> starts h l slot guid (first slot guid it)) ->
  (forall slot guid it, it ∈ quest_items x -> starts h l slot guid (second slot guid it)) ->
  exists s', (guid ← for_items first (items x) 0 guid;
              for_items second (quest_items x) (u8 (Z.of_nat (length (items x)))) guid;; mret tt) s
             = Ok (tt, s') /\ rolls_ok h s'.
Proof.
  intros Hok (_ & Hguid & _) Hx Hf Hs.
  assert (Hsize : (length (items x) <= 16 /\ length (quest_items x) <= 32)%nat).
  { apply (ro_bounded _ _ Hok l (shape x)). unfold shapes. by rewrite lookup_fmap, Hx. }
  destruct (for_items_starts h first l (items x) 0 guid s x Hf Hx) as (g1 & s1 & He1 & Hn1 & Hs1);
    [lia..|done|].
  assert (Hx1 : exists x1, loots s1 !! l = Some x1 /\ shape x1 = shape x) by (by apply (shapes_lookup s)).
  destruct Hx1 as (x1 & Hx1 & [= Hi Hq]).
  destruct (for_items_starts h second l (quest_items x) (u8 (Z.of_nat (length (items x)))) g1 s1 x1 Hs Hx1)
    as (g2 & s2 & He2 & [Hn2 _] & Hs2).
  - apply u8_byte.
  - rewrite u8_small by (unfold is_byte; lia). lia.
  - done.
  - exists s2. rewrite (st_bind_Ok _ _ _ _ _ He1). cbv beta. by rewrite (st_bind_Ok _ _ _ _ _ He2).
Qed.

Lemma GroupLoot_ok h env l o guid s :
  rolls_ok h s -> can_open h s l o guid ->
  exists s', run_op env (OpenGroupLoot l o guid) s = Ok (tt, s') /\ rolls_ok h s'.
Proof.
  intros Hok Hc. pose proof Hc as ([x Hx] & _ & Hnear).
  cbn [run_op]. unfold GroupLoot, st_get. unfold mbind at 1, st_bind at 1. cbv beta iota. rewrite Hx.
  apply (open_ok h s l o guid); try done; intros slot g it _.
  - unfold GroupLoot_item. repeat case_match;
      eauto using ret_starts, start_roll_starts, mark_underthreshold_starts.
  - unfold GroupLoot_quest_item. repeat case_match; eauto using ret_starts, start_roll_starts.
Qed.

Lemma NeedBeforeGreed_ok h env l o guid s :
  rolls_ok h s -> enabled h s (OpenNeedBeforeGreed l o guid) ->
  exists s', run_op env (OpenNeedBeforeGreed l o guid) s = Ok (tt, s') /\ rolls_ok h s'.
Proof.
  intros Hok [Hc Ht]. pose proof Hc as ([x Hx] & _ & Hnear).
  cbn [run_op]. unfold NeedBeforeGreed, st_get. unfold mbind at 1, st_bind at 1. cbv beta iota. rewrite Hx.
  apply (open_ok h s l o guid); try done; intros slot g it Hit.
  - destruct (Ht x it Hx Hit) as [t Htm].
    unfold NeedBeforeGreed_item. rewrite Htm. repeat case_match;
      eauto using ret_starts, start_roll_starts, mark_underthreshold_starts.
  - unfold NeedBeforeGreed_quest_item. repeat case_match; eauto using ret_starts, start_roll_starts.
Qed.

Lemma LeaveRolls_ok h env p s :
  rolls_ok h s -> exists s', run_op env (LeaveRolls p) s = Ok (tt, s') /\ rolls_ok h s'.
Proof.
  intros [Hl Hg Hb Hw]. eexists. split; [by apply RemoveMember_rolls_spec|]. split.
  - cbn. apply Forall_fmap. eapply Forall_impl; [exact Hl|]. intros r. apply linked_same_item.
    unfold without. by case_match.
  - cbn. by rewrite guids_without.
  - done.
  - intros Hh. cbn. apply Forall_fmap. eapply Forall_impl; [by apply Hw|]. intros r. apply without_wf.
Qed.

Lemma run_op_ok h env op s :
  rolls_ok h s -> enabled h s op -> exists s', run_op env op s = Ok (tt, s') /\ rolls_ok h s'.
Proof.
  intros Hok He. destruct op.
  - by apply FillLoot_ok.
  - by apply GroupLoot_ok.
  - by apply NeedBeforeGreed_ok.
  - by apply CountRollVote_ok.
  - by apply LeaveRolls_ok.
  - destruct (EndRoll_spec h env l s Hok) as (s' & ? & _ & ?). by exists s'.
  - eexists. split; [reflexivity|]. by apply Loot_clear_ok.
  - eexists. split; [reflexivity|]. by apply Loot_destroy_ok.
Qed.

Lemma reachable_ok h s : reachable h s -> rolls_ok h s.
Proof.
  induction 1 as [|s env op s' _ IH He Hr]; [apply rolls_ok_start|].
  destruct (run_op_ok h env op s IH He) as (s2 & Hr2 & Hok). congruence.
Qed.

(** C24: whatever happens to the loots of a group and in whatever order -
    loots filled, opened, cleared and destroyed, votes of any kind, members
    who leave, timers that run out - no operation of the rolls follows a dead
    link or leaves a vector's bounds, and each ends; every roll keeps its
    item, and if nobody votes twice the totals of every roll are its votes. *)
Theorem group_rolls_safe h s env op :
  reachable h s -> enabled h s op ->
  exists s', run_op env op s = Ok (tt, s') /\ reachable h s' /\
    Forall (linked (shapes s')) (RollId s') /\ NoDup (map itemGUID (RollId s')) /\
    (h = true -> Forall wf_roll (RollId s')).
Proof.
  intros Hr He. destruct (run_op_ok h env op s (reachable_ok _ _ Hr) He) as (s' & Hs & [Hl Hg _ Hw]).
  exists s'. split_and!; [done|by eapply r_step|done|done|done].
Qed.

(** ** Examples *)

Lemma two_rolling_reads :
  GetRoll 100 (rolling two_rolling) = Some 0%nat /\ RollId (rolling two_rolling) !! 0%nat = Some two_rolling.
Proof. by split. Qed.

Lemma first_vote_witness :
  vote_of ROLL_NEED = Some NEED /\
  exists s1, CountRollVote env2 1 100 ROLL_NEED (rolling two_rolling) = Ok (tt, s1) /\
    RollId s1 = [cast_vote 1 ROLL_NEED two_rolling].
Proof.
  split; [reflexivity|].
  destruct (first_vote env2 1 100 ROLL_NEED NEED (rolling two_rolling) 0 two_rolling 7 chest)
    as (_ & _ & evs & Hwait & _); [reflexivity|reflexivity|exact two_rolling_wf|reflexivity..|discriminate|].
  eexists. split; [apply Hwait; exists 2; split; [lia|reflexivity]|reflexivity].
Defined.

Lemma repeated_vote_wins_witness :
  exists s' r', vote_again env2 1 100 ROLL_NEED 2 (rolling two_rolling) = Ok (tt, s') /\
    counted 0 7 (served env2 r' sword 1 NEED chest) (rolling two_rolling) s' /\
    roll_itemid r' = 25 /\ itemSlot r' = 0.
Proof.
  apply (repeated_vote_wins env2 1 100 (rolling two_rolling) 0 two_rolling 7 chest sword 2).
  - exact env2_fair.
  - reflexivity.
  - by split.
  - discriminate.
  - split; cbn.
    + reflexivity.
    + split; reflexivity.
    + intros q v Hv Hq. destruct (decide (q = 2)) as [->|H2]; [by vm_compute in Hv; congruence|].
      rewrite !lookup_insert_ne in Hv by lia. done.
    + by exists NOT_EMITED_YET.
    + lia.
  - reflexivity.
  - lia.
Defined.

Lemma leaving_never_counts_witness :
  let s := rolling (cast_vote 1 ROLL_NEED two_rolling) in
  RemoveMember_rolls env2 2 s = Ok (tt, set_RollId (map (without 2) (RollId s)) s).
Proof.
  cbv zeta. apply (leaving_never_counts env2 2 (rolling (cast_vote 1 ROLL_NEED two_rolling))).
  - apply NoDup_singleton.
  - constructor; [|constructor]. by split; vm_compute.
Defined.

(** The other member has voted, the last one to vote leaves: all votes are in,
    and the roll stays. *)
Example leaver_blocks_the_roll :
  match RemoveMember_rolls env2 2 (rolling (cast_vote 1 ROLL_NEED two_rolling)) with
  | Ok (_, s) => map all_voted (RollId s)
  | Err _ => []
  end = [true].
Proof. vm_compute. reflexivity. Qed.

(** A run: the chest is filled and opened, both members vote need. *)
Definition opening : Opening :=
  mkOpening (fun _ => Some (mkTemplate 4 0 0 0)) (fun _ => [mkCandidate 1 false; mkCandidate 2 false])
    (fun _ _ => 0) 2 0.
Definition opened : RollState :=
  match run_op env2 (OpenGroupLoot 7 opening 100) (mkRollState [] {[7 := chest]} []) with
  | Ok (_, s) => s
  | Err _ => mkRollState [] ∅ []
  end.

Lemma opened_reachable : reachable true opened.
Proof.
  apply (r_step true (mkRollState [] {[7 := chest]} []) env2 (OpenGroupLoot 7 opening 100)).
  - apply (r_step true (mkRollState [] ∅ []) env2 (FillLoot 7 chest)); [constructor| |reflexivity].
    split; [cbn; lia|constructor].
  - split; [by exists chest|split; [constructor|]]. intros _ it. cbn. split; [|lia].
    apply NoDup_cons. split; [|apply NoDup_singleton]. intros H%list_elem_of_singleton. lia.
  - reflexivity.
Qed.

Lemma group_rolls_safe_witness :
  exists s', run_op env2 (Vote 1 100 ROLL_NEED) opened = Ok (tt, s') /\ Forall wf_roll (RollId s') /\
    map totalNeed (RollId s') = [1].
Proof.
  destruct (group_rolls_safe true opened env2 (Vote 1 100 ROLL_NEED) opened_reachable)
    as (s' & He & _ & _ & _ & Hwf).
  { intros _ i r v Hg Hi Hv. left. vm_compute in Hg. injection Hg as <-.
    cbn in Hi. injection Hi as <-. vm_compute in Hv. congruence. }
  exists s'. split; [exact He|split; [by apply Hwf|]].
  vm_compute in He. injection He as <-. reflexivity.
Defined.

Lemma EndRoll_ends_witness :
  exists s', EndRoll env2 7 opened = Ok (tt, s') /\ RollId s' = [].
Proof.
  destruct (EndRoll_ends true env2 7 opened (reachable_ok _ _ opened_reachable)) as (s' & He & Hr & _).
  exists s'. split; [exact He|]. rewrite Hr. reflexivity.
Defined.
