(* ===== verification/LfgRoles.v ===== *)
(** * Choosing the roles of a party (game/DungeonFinding/LFGMgr.cpp)

    [LFGMgr::CheckGroupRoles] looks for one role per player so that a party
    has at most one tank, one healer and three damage dealers, by trying
    roles and taking them back; here it is shown to find a choice whenever
    there is one. *)
From S2P Require Import Prelude.
From S2P Require Import Lists.
Local Open Scope Z_scope.

(** ** Definitions *)

Definition LFG_TANKS_NEEDED : Z := 1.
Definition LFG_HEALERS_NEEDED : Z := 1.
Definition LFG_DPS_NEEDED : Z := 3.

Definition PLAYER_ROLE_NONE : Z := 0x00.
Definition PLAYER_ROLE_LEADER : Z := 0x01.
Definition PLAYER_ROLE_TANK : Z := 0x02.
Definition PLAYER_ROLE_HEALER : Z := 0x04.
Definition PLAYER_ROLE_DAMAGE : Z := 0x08.

(** The function works in place on the roles of the players, here in the
    order of the map.  A branch of its loop leaves the function or goes on
    with a counter and the roles. *)
Inductive role_step :=
| Return (b : bool) (l : list Z)
| Continue (count : Z) (l : list Z).

(** [if (it->second & ROLE) ...] for one of the three roles. *)
Definition role_branch (check : list Z -> bool * list Z) (role needed count : Z) (i : nat) (l : list Z) : role_step :=
  let r := nth i l 0 in
  if has_flag r role then
    if negb (r =? role) then
      let '(ok, l) := check (<[i := u8 (r - role)]> l) in
      if ok : bool then Return true l
      else Continue count (<[i := u8 (nth i l 0 + role)]> l)
    else if count =? needed then Return false l
    else Continue (u8 (count + 1)) l
  else Continue count l.

(** The loop from the player [i] on, [n] players being left. *)
Fixpoint roles_loop (check : list Z -> bool * list Z) (n i : nat) (damage tank healer : Z) (l : list Z)
    : bool * list Z :=
  match n with
  | O => (tank + healer + damage =? u8 (Z.of_nat (length l)), l)
  | S n =>
      if nth i l 0 =? PLAYER_ROLE_NONE then (false, l)
      else match role_branch check PLAYER_ROLE_DAMAGE LFG_DPS_NEEDED damage i l with
      | Return b l => (b, l)
      | Continue damage l =>
          match role_branch check PLAYER_ROLE_HEALER LFG_HEALERS_NEEDED healer i l with
          | Return b l => (b, l)
          | Continue healer l =>
              match role_branch check PLAYER_ROLE_TANK LFG_TANKS_NEEDED tank i l with
              | Return b l => (b, l)
              | Continue tank l => roles_loop check n (S i) damage tank healer l
              end
          end
      end
  end.

(** [CheckGroupRoles(groles, false)] *)
Fixpoint check_roles (fuel : nat) (l : list Z) : bool * list Z :=
  match fuel with
  | O => (false, l)
  | S fuel => if (length l =? 0)%nat then (false, l) else roles_loop (check_roles fuel) (length l) 0 0 0 0 l
  end.

(** The roles still open: each call inside another has one less. *)
Definition open_roles (r : Z) : nat :=
  (if has_flag r PLAYER_ROLE_TANK then 1 else 0) + (if has_flag r PLAYER_ROLE_HEALER then 1 else 0) +
  (if has_flag r PLAYER_ROLE_DAMAGE then 1 else 0).
Fixpoint all_open (l : list Z) : nat :=
  match l with
  | [] => 0
  | r :: l => open_roles r + all_open l
  end.

Definition clear_leader (r : Z) : Z := Z.land r (Z.lnot PLAYER_ROLE_LEADER).

(** The roles of [groles] replaced in the order of the map. *)
Definition with_roles (groles : gmap Z Z) (l : list Z) : gmap Z Z :=
  list_to_map (zip (map fst (map_ordered groles)) l).

(** [CheckGroupRoles(groles)] *)
Definition CheckGroupRoles (groles : gmap Z Z) : bool * gmap Z Z :=
  let l := map (fun p => clear_leader p.2) (map_ordered groles) in
  let '(b, l) := check_roles (S (all_open l)) l in
  (b, with_roles groles l).

Example roles_of_five :
  (check_roles 30 [14; 14; 14; 10; 6]).1 = true /\ (check_roles 30 [8; 8; 8; 10; 6]) = (true, [8; 8; 8; 2; 4]) /\
  check_roles 30 [10; 10; 10; 10; 10] = (false, [10; 10; 10; 10; 10]).
Proof. vm_compute. auto. Qed.

(** ** What is looked for *)

Definition is_role (a : Z) : bool := (a =? PLAYER_ROLE_TANK) || (a =? PLAYER_ROLE_HEALER) || (a =? PLAYER_ROLE_DAMAGE).
(** A player who chose [r] may be given [a]; bits that are no role spoil it. *)
Definition allowed (r a : Z) : bool := is_role a && has_flag r a && (Z.land r (Z.lnot 14) =? 0).
Definition number (a : Z) (l : list Z) : Z := Z.of_nat (length (List.filter (Z.eqb a) l)).

(** One role for each player, none too often. *)
Definition assignment (l a : list Z) : Prop :=
  Forall2 (fun r a => allowed r a = true) l a /\
  number PLAYER_ROLE_TANK a <= LFG_TANKS_NEEDED /\ number PLAYER_ROLE_HEALER a <= LFG_HEALERS_NEEDED /\
  number PLAYER_ROLE_DAMAGE a <= LFG_DPS_NEEDED.
Definition solvable (l : list Z) : Prop := exists a, assignment l a.

(** *** Facts about bytes, by enumeration *)

Definition bytes : list Z := map Z.of_nat (seq 0 256).
Lemma byte_in z : is_byte z -> In z bytes.
Proof.
  intros Hz. unfold bytes. apply in_map_iff. exists (Z.to_nat z). unfold is_byte in Hz.
  split; [lia|]. apply in_seq. lia.
Qed.

Lemma bytes_all (P : Z -> bool) : forallb P bytes = true -> forall z, is_byte z -> P z = true.
Proof. intros H z Hz. rewrite forallb_forall in H. by apply H, byte_in. Qed.

Definition the_roles : list Z := [PLAYER_ROLE_TANK; PLAYER_ROLE_HEALER; PLAYER_ROLE_DAMAGE].
Lemma is_role_in a : is_role a = true <-> In a the_roles.
Proof. unfold is_role, the_roles. rewrite !orb_true_iff, !Z.eqb_eq. cbn. naive_solver. Qed.

Lemma roles_all (P : Z -> Z -> Z -> bool) :
  forallb (fun r => forallb (fun q => forallb (P r q) the_roles) the_roles) bytes = true ->
  forall r q a, is_byte r -> is_role q = true -> is_role a = true -> P r q a = true.
Proof.
  intros H r q a Hr Hq%is_role_in Ha%is_role_in. pose proof (bytes_all _ H r Hr) as H1. cbn beta in H1.
  rewrite forallb_forall in H1. specialize (H1 q Hq). rewrite forallb_forall in H1. by apply H1.
Qed.

Lemma implb_true a b : implb a b = true -> a = true -> b = true.
Proof. by destruct a, b. Qed.

(** Taking one role away. *)
Lemma allowed_less r q a :
  is_byte r -> is_role q = true -> is_role a = true -> has_flag r q = true -> allowed (u8 (r - q)) a = true ->
  allowed r a = true.
Proof.
  intros Hr Hq Ha Hf Hal.
  assert (H : implb (has_flag r q && allowed (u8 (r - q)) a) (allowed r a) = true).
  { clear Hf Hal. revert r q a Hr Hq Ha. apply roles_all. vm_compute. reflexivity. }
  apply (implb_true _ _ H). by rewrite Hf, Hal.
Qed.

Lemma allowed_other r q a :
  is_byte r -> is_role q = true -> is_role a = true -> has_flag r q = true -> allowed r a = true -> a <> q ->
  allowed (u8 (r - q)) a = true.
Proof.
  intros Hr Hq Ha Hf Hal Hne.
  assert (H : implb (has_flag r q && allowed r a && negb (a =? q)) (allowed (u8 (r - q)) a) = true).
  { clear Hf Hal Hne. revert r q a Hr Hq Ha. apply roles_all. vm_compute. reflexivity. }
  apply (implb_true _ _ H). by rewrite Hf, Hal, (proj2 (Z.eqb_neq _ _) Hne).
Qed.

Lemma give_back r q : is_byte r -> is_role q = true -> has_flag r q = true -> u8 (u8 (r - q) + q) = r.
Proof.
  intros Hr Hq Hf. apply Z.eqb_eq.
  assert (H : implb (has_flag r q) (u8 (u8 (r - q) + q) =? r) = true).
  { apply (roles_all (fun r q _ => implb (has_flag r q) (u8 (u8 (r - q) + q) =? r))) with (a := q); done. }
  by apply (implb_true _ _ H).
Qed.

Lemma open_less r q :
  is_byte r -> is_role q = true -> has_flag r q = true -> (open_roles (u8 (r - q)) < open_roles r)%nat.
Proof.
  intros Hr Hq Hf. apply Nat.ltb_lt.
  assert (H : implb (has_flag r q) (open_roles (u8 (r - q)) <? open_roles r)%nat = true).
  { apply (roles_all (fun r q _ => implb (has_flag r q) (open_roles (u8 (r - q)) <? open_roles r)%nat)) with (a := q);
      done. }
  by apply (implb_true _ _ H).
Qed.

(** A player with one role gets it; one with several can lose any other. *)
Lemma allowed_pure q a : is_role q = true -> is_role a = true -> allowed q a = true -> a = q.
Proof.
  intros Hq%is_role_in Ha%is_role_in. cbn in Hq, Ha.
  destruct Hq as [<-|[<-|[<-|[]]]], Ha as [<-|[<-|[<-|[]]]]; by vm_compute.
Qed.

Lemma allowed_several r a :
  is_byte r -> is_role a = true -> allowed r a = true -> r <> a ->
  exists q, is_role q = true /\ q <> a /\ has_flag r q = true.
Proof.
  intros Hr Ha Hal Hne.
  assert (H : implb (allowed r a && negb (r =? a)) (existsb (fun q => negb (q =? a) && has_flag r q) the_roles) = true).
  { apply (roles_all (fun r a _ => implb (allowed r a && negb (r =? a))
                                     (existsb (fun q => negb (q =? a) && has_flag r q) the_roles))) with (a := a);
      done. }
  pose proof (implb_true _ _ H) as Hex. rewrite Hal, (proj2 (Z.eqb_neq _ _) Hne) in Hex.
  apply existsb_exists in Hex as (q & Hq & [Hqa%negb_true_iff%Z.eqb_neq Hf]%andb_true_iff); [|done].
  exists q. split_and!; [by apply is_role_in|done|done].
Qed.

Lemma has_flag_none q : has_flag PLAYER_ROLE_NONE q = false.
Proof. done. Qed.

Lemma allowed_role r a : allowed r a = true -> is_role a = true /\ has_flag r a = true.
Proof. unfold allowed. rewrite !andb_true_iff. tauto. Qed.

(** ** The search *)

Lemma number_le_allowed l a q :
  is_role q = true -> Forall2 (fun r a => allowed r a = true) l a -> number q l <= number q a.
Proof.
  intros Hq H. unfold number. induction H as [|r b l a Hrb _ IH]; [done|]. cbn [List.filter].
  destruct (Z.eqb_spec q r) as [->|].
  - rewrite (allowed_pure r b Hq (proj1 (allowed_role _ _ Hrb)) Hrb), Z.eqb_refl. cbn [length]. lia.
  - destruct (q =? b); cbn [length]; lia.
Qed.

Lemma number_app q l k : number q (l ++ k) = number q l + number q k.
Proof. unfold number. rewrite List.filter_app, length_app. lia. Qed.

Lemma number_take q i l : number q (take i l) <= number q l.
Proof. rewrite <- (take_drop i l) at 2. rewrite number_app. unfold number. lia. Qed.

Lemma number_take_S q i l r : l !! i = Some r -> number q (take (S i) l) = number q (take i l) + Z.b2z (q =? r).
Proof.
  intros Hr. rewrite (take_S_r _ _ _ Hr), number_app. unfold number. cbn. destruct (q =? r); done.
Qed.

Lemma solvable_bound l i q needed :
  is_role q = true -> (forall a, assignment l a -> number q a <= needed) -> needed < number q (take i l) -> ~ solvable l.
Proof.
  intros Hq Hn Hlt [a Ha]. specialize (Hn a Ha). destruct Ha as [Ha _].
  pose proof (number_le_allowed l a q Hq Ha). pose proof (number_take q i l). lia.
Qed.

(** Every player is counted as one of the three, or as none. *)
Lemma numbers_length l :
  number PLAYER_ROLE_TANK l + number PLAYER_ROLE_HEALER l + number PLAYER_ROLE_DAMAGE l
  = Z.of_nat (length (List.filter is_role l)).
Proof.
  unfold number. induction l as [|r l IH]; [done|]. cbn [List.filter].
  assert (Hr : is_role r = (PLAYER_ROLE_TANK =? r) || (PLAYER_ROLE_HEALER =? r) || (PLAYER_ROLE_DAMAGE =? r)).
  { unfold is_role. by rewrite !(Z.eqb_sym r). }
  rewrite Hr. clear Hr.
  destruct (Z.eqb_spec PLAYER_ROLE_TANK r) as [<-|]; [cbn in *; lia|].
  destruct (Z.eqb_spec PLAYER_ROLE_HEALER r) as [<-|]; [cbn in *; lia|].
  destruct (Z.eqb_spec PLAYER_ROLE_DAMAGE r) as [<-|]; cbn in *; lia.
Qed.

Lemma filter_length_all {A} (f : A -> bool) l :
  length (List.filter f l) = length l -> Forall (fun x => f x = true) l.
Proof.
  induction l as [|x l IH]; cbn; [constructor|]. destruct (f x) eqn:E; cbn.
  - intros H. constructor; [done|]. apply IH. lia.
  - intros H. pose proof (List.filter_length_le f l). lia.
Qed.

Section Search.
Context (check : list Z -> bool * list Z) (l : list Z).
Context (Hbytes : Forall is_byte l) (Hlen : (length l < 256)%nat).

(** What a call inside is trusted to do. *)
Definition finds (l : list Z) (result : bool * list Z) : Prop :=
  if result.1 then assignment l result.2 else result.2 = l /\ ~ solvable l.
Context (Hcheck : forall i r q, l !! i = Some r -> is_role q = true -> has_flag r q = true ->
                    finds (<[i := u8 (r - q)]> l) (check (<[i := u8 (r - q)]> l))).

Lemma byte_at i r : l !! i = Some r -> is_byte r.
Proof. intros Hr. by apply (Forall_lookup_1 _ _ _ _ Hbytes Hr). Qed.

(** Two lists of choices that differ in one place. *)
Lemma assignment_insert (i : nat) (r r' : Z) (a : list Z) :
  l !! i = Some r -> (forall b, a !! i = Some b -> allowed r b = true -> allowed r' b = true) ->
  assignment l a -> assignment (<[i := r']> l) a.
Proof.
  intros Hr Hb [Ha Hn]. split; [|done]. apply Forall2_lookup. intros j.
  pose proof (proj1 (Forall2_lookup _ _ _) Ha j) as Hj. destruct (decide (i = j)) as [<-|Hne].
  - rewrite list_lookup_insert_eq by by eapply lookup_lt_Some. rewrite Hr in Hj.
    inversion Hj as [? b Hal E|]; subst. constructor. by apply Hb.
  - by rewrite list_lookup_insert_ne.
Qed.

Lemma assignment_less i r q a :
  l !! i = Some r -> is_role q = true -> has_flag r q = true -> assignment (<[i := u8 (r - q)]> l) a -> assignment l a.
Proof.
  intros Hr Hq Hf [Ha Hn]. split; [|done]. apply Forall2_lookup. intros j.
  pose proof (proj1 (Forall2_lookup _ _ _) Ha j) as Hj. destruct (decide (i = j)) as [<-|Hne].
  - rewrite list_lookup_insert_eq in Hj by by eapply lookup_lt_Some. rewrite Hr.
    inversion Hj as [? b Hal E|]; subst. constructor.
    apply (allowed_less r q); [by apply (byte_at i)|done|by apply (allowed_role _ _ Hal)|done|done].
  - by rewrite list_lookup_insert_ne in Hj.
Qed.

(** A player with several roles who can not lose any of them can not be
    served at all. *)
Lemma several_unsolvable i r :
  l !! i = Some r -> is_role r = false ->
  (forall q, is_role q = true -> has_flag r q = true -> ~ solvable (<[i := u8 (r - q)]> l)) -> ~ solvable l.
Proof.
  intros Hr Hnr Hno [a Ha]. pose proof Ha as [Hall _].
  destruct (Forall2_lookup_l _ _ _ i r Hall Hr) as (b & Hb & Hal). destruct (allowed_role _ _ Hal) as [Hrb _].
  destruct (allowed_several r b) as (q & Hq & Hqb & Hf); [by apply (byte_at i)|done|done|congruence|].
  apply (Hno q Hq Hf). exists a. apply (assignment_insert i r); [done| |done].
  intros b' Hb' _. rewrite Hb in Hb'. injection Hb' as <-.
  apply allowed_other; [by apply (byte_at i)|done|done|done|done|congruence].
Qed.

(** One branch of the loop. *)
Lemma branch_none q needed count i r :
  l !! i = Some r -> has_flag r q = false -> role_branch check q needed count i l = Continue count l.
Proof. intros Hr Hf. unfold role_branch. rewrite nth_lookup, Hr. cbn [default from_option id]. by rewrite Hf. Qed.

Lemma branch_one q needed count i :
  l !! i = Some q -> is_role q = true ->
  role_branch check q needed count i l
  = if count =? needed then Return false l else Continue (u8 (count + 1)) l.
Proof.
  intros Hr Hq%is_role_in. unfold role_branch. rewrite nth_lookup, Hr. cbn [default from_option id].
  rewrite Z.eqb_refl. assert (Hf : has_flag q q = true) by (cbn in Hq; destruct Hq as [<-|[<-|[<-|[]]]]; done).
  by rewrite Hf.
Qed.

Lemma branch_several q needed count i r :
  l !! i = Some r -> is_role q = true -> r <> q ->
  (exists l', role_branch check q needed count i l = Return true l' /\ assignment l l') \/
  (role_branch check q needed count i l = Continue count l /\
   (has_flag r q = true -> ~ solvable (<[i := u8 (r - q)]> l))).
Proof.
  intros Hr Hq Hne. destruct (has_flag r q) eqn:Hf; [|right; by rewrite (branch_none q needed count i r)].
  pose proof (Hcheck i r q Hr Hq Hf) as Hgood. pose proof (lookup_lt_Some _ _ _ Hr) as Hi.
  unfold role_branch. rewrite nth_lookup, Hr. cbn [default from_option id]. rewrite Hf.
  rewrite (proj2 (Z.eqb_neq _ _) Hne). cbn [negb]. unfold finds in Hgood.
  destruct (check _) as [[|] l']; cbn [fst snd] in Hgood.
  - left. exists l'. split; [done|]. by apply (assignment_less i r q).
  - right. destruct Hgood as [-> Hno]. split; [|done]. f_equal. rewrite nth_lookup, list_lookup_insert_eq by done.
    cbn [default from_option id]. rewrite (give_back r q); [|by apply (byte_at i)|done|done].
    by rewrite list_insert_insert_eq, list_insert_id.
Qed.

(** The loop, in a state where the players passed have one role each or the
    search has failed already. *)
Lemma loop_finds n i :
  (i + n = length l)%nat ->
  number PLAYER_ROLE_DAMAGE (take i l) <= LFG_DPS_NEEDED -> number PLAYER_ROLE_TANK (take i l) <= LFG_TANKS_NEEDED ->
  number PLAYER_ROLE_HEALER (take i l) <= LFG_HEALERS_NEEDED ->
  (Forall (fun r => is_role r = true) (take i l) \/ ~ solvable l) ->
  finds l (roles_loop check n i (number PLAYER_ROLE_DAMAGE (take i l)) (number PLAYER_ROLE_TANK (take i l))
             (number PLAYER_ROLE_HEALER (take i l)) l).
Proof.
  revert i. induction n as [|n IH]; intros i Hi HD HT HH Hor; cbn [roles_loop].
  { rewrite Nat.add_0_r in Hi. subst i. rewrite take_ge in * by done.
    assert (Hsum : number PLAYER_ROLE_TANK l + number PLAYER_ROLE_HEALER l + number PLAYER_ROLE_DAMAGE l
                   = Z.of_nat (length (List.filter is_role l))) by apply numbers_length.
    pose proof (List.filter_length_le is_role l) as Hle.
    rewrite (u8_small (Z.of_nat (length l))) by (unfold is_byte; lia). unfold finds. cbn [fst snd].
    destruct (Z.eqb_spec (number PLAYER_ROLE_TANK l + number PLAYER_ROLE_HEALER l + number PLAYER_ROLE_DAMAGE l)
                (Z.of_nat (length l))) as [He|Hne].
    - assert (Hall : Forall (fun r => is_role r = true) l) by (apply filter_length_all; lia).
      split; [|done]. clear -Hall. induction Hall as [|r l Hr _ IH]; constructor; [|done].
      apply is_role_in in Hr. cbn in Hr. by destruct Hr as [<-|[<-|[<-|[]]]].
    - split; [done|]. destruct Hor as [Hall|]; [|done]. exfalso. apply Hne. rewrite Hsum. f_equal. clear -Hall.
      induction Hall as [|r l Hr _ IH]; [done|]. cbn. rewrite Hr. cbn. by rewrite IH. }
  assert (Hil : (i < length l)%nat) by lia. apply lookup_lt_is_Some_2 in Hil as [r Hr].
  pose proof (byte_at i r Hr) as Hb. rewrite nth_lookup, Hr. cbn [default from_option id].
  assert (Hbound : forall q needed, is_role q = true -> (forall a, assignment l a -> number q a <= needed) ->
            number q (take i l) = needed -> r = q -> finds l (false, l)).
  { intros q needed Hq Hn He ->. split; [done|]. apply (solvable_bound l (S i) q needed Hq Hn).
    rewrite (number_take_S q i l q Hr), Z.eqb_refl, He. cbn. lia. }
  assert (Hstep : forall q, number q (take (S i) l) = number q (take i l) + Z.b2z (q =? r))
    by (intros q; by apply number_take_S).
  assert (Hall : is_role r = true -> Forall (fun r => is_role r = true) (take (S i) l) \/ ~ solvable l).
  { intros Hrr. destruct Hor as [Hf|]; [left|by right]. rewrite (take_S_r _ _ _ Hr). apply Forall_app. auto. }
  assert (Hu : forall q, 0 <= number q (take i l) < 255 -> u8 (number q (take i l) + 1) = number q (take i l) + 1)
    by (intros q Hq; apply u8_small; unfold is_byte; lia).
  assert (Hpos : forall q, 0 <= number q (take i l)) by (intros q; unfold number; lia).
  destruct (is_role r) eqn:Hrole.
  - (* one role: it is counted *)
    assert (Hne0 : (r =? PLAYER_ROLE_NONE) = false).
    { apply is_role_in in Hrole. cbn in Hrole. by destruct Hrole as [<-|[<-|[<-|[]]]]. }
    rewrite Hne0. pose proof Hrole as Hin. apply is_role_in in Hin. cbn in Hin.
    specialize (IH (S i)). rewrite !Hstep in IH.
    destruct Hin as [<-|[<-|[<-|[]]]].
    + rewrite (branch_none PLAYER_ROLE_DAMAGE _ _ i _ Hr) by done. rewrite (branch_none PLAYER_ROLE_HEALER _ _ i _ Hr) by done.
      rewrite (branch_one PLAYER_ROLE_TANK _ _ i Hr) by done. cbn [Z.b2z Z.eqb Pos.eqb] in IH. rewrite !Z.add_0_r in IH.
      destruct (Z.eqb_spec (number PLAYER_ROLE_TANK (take i l)) LFG_TANKS_NEEDED) as [He|Hne];
        [apply (Hbound PLAYER_ROLE_TANK LFG_TANKS_NEEDED); try done; by intros a (_ & ? & _)|].
      rewrite Hu by (specialize (Hpos PLAYER_ROLE_TANK); unfold LFG_TANKS_NEEDED in HT; lia).
      apply IH; [lia|done|cbn; lia|done|by apply Hall].
    + rewrite (branch_none PLAYER_ROLE_DAMAGE _ _ i _ Hr) by done.
      rewrite (branch_one PLAYER_ROLE_HEALER _ _ i Hr) by done.
      destruct (Z.eqb_spec (number PLAYER_ROLE_HEALER (take i l)) LFG_HEALERS_NEEDED) as [He|Hne];
        [apply (Hbound PLAYER_ROLE_HEALER LFG_HEALERS_NEEDED); try done; by intros a (_ & _ & ? & _)|].
      rewrite (branch_none PLAYER_ROLE_TANK _ _ i _ Hr) by done. cbn [Z.b2z Z.eqb Pos.eqb] in IH. rewrite !Z.add_0_r in IH.
      rewrite Hu by (specialize (Hpos PLAYER_ROLE_HEALER); unfold LFG_HEALERS_NEEDED in HH; lia).
      apply IH; [lia|done|done|cbn; lia|by apply Hall].
    + rewrite (branch_one PLAYER_ROLE_DAMAGE _ _ i Hr) by done.
      destruct (Z.eqb_spec (number PLAYER_ROLE_DAMAGE (take i l)) LFG_DPS_NEEDED) as [He|Hne];
        [apply (Hbound PLAYER_ROLE_DAMAGE LFG_DPS_NEEDED); try done; by intros a (_ & _ & _ & ?)|].
      rewrite (branch_none PLAYER_ROLE_HEALER _ _ i _ Hr) by done.
      rewrite (branch_none PLAYER_ROLE_TANK _ _ i _ Hr) by done. cbn [Z.b2z Z.eqb Pos.eqb] in IH. rewrite !Z.add_0_r in IH.
      rewrite Hu by (specialize (Hpos PLAYER_ROLE_DAMAGE); unfold LFG_DPS_NEEDED in HD; lia).
      apply IH; [lia|cbn; lia|done|done|by apply Hall].
  - (* none or several: every role is tried without *)
    assert (Hnq : forall q, is_role q = true -> r <> q) by (intros q Hq ->; congruence).
    destruct (Z.eqb_spec r PLAYER_ROLE_NONE) as [->|Hne0].
    { split; [done|]. intros [a [Ha _]]. destruct (Forall2_lookup_l _ _ _ i _ Ha Hr) as (b & _ & Hal).
      destruct (allowed_role _ _ Hal) as [_ Hf]. by rewrite has_flag_none in Hf. }
    destruct (branch_several PLAYER_ROLE_DAMAGE LFG_DPS_NEEDED (number PLAYER_ROLE_DAMAGE (take i l)) i r Hr)
      as [(l' & -> & Ha)|[-> HnD]]; [done|by apply Hnq|exact Ha|].
    destruct (branch_several PLAYER_ROLE_HEALER LFG_HEALERS_NEEDED (number PLAYER_ROLE_HEALER (take i l)) i r Hr)
      as [(l' & -> & Ha)|[-> HnH]]; [done|by apply Hnq|exact Ha|].
    destruct (branch_several PLAYER_ROLE_TANK LFG_TANKS_NEEDED (number PLAYER_ROLE_TANK (take i l)) i r Hr)
      as [(l' & -> & Ha)|[-> HnT]]; [done|by apply Hnq|exact Ha|].
    assert (Hno : ~ solvable l).
    { apply (several_unsolvable i r Hr Hrole). intros q Hq. apply is_role_in in Hq. cbn in Hq.
      by destruct Hq as [<-|[<-|[<-|[]]]]. }
    specialize (IH (S i)). rewrite !Hstep in IH.
    assert (Hz : forall q, is_role q = true -> Z.b2z (q =? r) = 0).
    { intros q Hq. specialize (Hnq q Hq). by destruct (Z.eqb_spec q r); [congruence|]. }
    rewrite !Hz in IH by done. rewrite !Z.add_0_r in IH. apply IH; try done; [lia|by right].
Qed.
End Search.

#[local] Arguments open_roles : simpl never.

Lemma all_open_insert i r r' l :
  l !! i = Some r -> (all_open (<[i := r']> l) + open_roles r = all_open l + open_roles r')%nat.
Proof.
  revert i. induction l as [|x l IH]; intros [|i]; try done.
  - intros [= ->]. cbn. lia.
  - intros Hr. change (<[S i:=r']> (x :: l)) with (x :: <[i:=r']> l). cbn [all_open]. specialize (IH i Hr). lia.
Qed.

Lemma check_roles_finds fuel l :
  Forall is_byte l -> (length l < 256)%nat -> l <> [] -> (all_open l < fuel)%nat -> finds l (check_roles fuel l).
Proof.
  revert l. induction fuel as [|fuel IH]; intros l Hb Hlen Hne Hf; [lia|]. cbn [check_roles].
  destruct l as [|x k] eqn:El; [done|]. rewrite <- El in *. clear x k El.
  assert (E0 : (length l =? 0)%nat = false) by (by destruct l). rewrite E0.
  apply (loop_finds (check_roles fuel) l Hb Hlen) with (i := 0%nat); try done; [|by left].
  intros i r q Hr Hq Hfl. pose proof (Forall_lookup_1 _ _ _ _ Hb Hr) as Hbr.
  apply IH; [|by rewrite length_insert| |].
  - apply Forall_insert; [done|]. apply u8_byte.
  - intros E. apply Hne, length_zero_iff_nil. rewrite <- (length_insert l i (u8 (r - q))), E. done.
  - pose proof (all_open_insert i r (u8 (r - q)) l Hr). pose proof (open_less r q Hbr Hq Hfl). lia.
Qed.

(** ** The roles of a party *)

Definition roles_of (groles : gmap Z Z) : list Z := map snd (map_ordered groles).

(** [choice] gives each player of [groles] one of the roles he offers, and
    no role is given too often. *)
Definition party (groles choice : gmap Z Z) : Prop :=
  (forall p, option_Forall2 (fun r a => allowed (clear_leader r) a = true) (groles !! p) (choice !! p)) /\
  number PLAYER_ROLE_TANK (roles_of choice) <= LFG_TANKS_NEEDED /\
  number PLAYER_ROLE_HEALER (roles_of choice) <= LFG_HEALERS_NEEDED /\
  number PLAYER_ROLE_DAMAGE (roles_of choice) <= LFG_DPS_NEEDED.

Lemma number_Permutation q l k : Permutation l k -> number q l = number q k.
Proof. intros H. unfold number. by rewrite (filter_perm _ _ _ H). Qed.

Section Map.
Context (groles : gmap Z Z).
Notation keys := (map fst (map_ordered groles)).

Lemma keys_NoDup : NoDup keys.
Proof. apply NoDup_map_ordered. Qed.

Lemma zip_keys_NoDup (l : list Z) : NoDup (zip keys l).*1.
Proof.
  generalize keys keys_NoDup. intros k. revert l. induction k as [|x k IH]; intros [|y l]; cbn; try constructor.
  - intros Hx. apply NoDup_cons in H as [Hn _]. apply Hn. clear -Hx.
    revert l Hx. induction k as [|z k IH]; intros [|w l]; cbn; rewrite ?elem_of_nil, ?elem_of_cons; try done.
    intros [->|Hx]; [by left|right; by apply (IH l)].
  - apply NoDup_cons in H as [_ H]. by apply IH.
Qed.

Lemma roles_of_with_roles l : length l = length keys -> Permutation (roles_of (with_roles groles l)) l.
Proof.
  intros Hl. unfold roles_of, map_ordered at 1. rewrite (merge_sort_Permutation _ _). unfold with_roles.
  rewrite (map_to_list_to_map _ (zip_keys_NoDup l)). change (map snd) with (fmap (M := list) (@snd Z Z)).
  rewrite snd_zip; [done|lia].
Qed.

Lemma with_roles_lookup l i p a :
  map_ordered groles !! i = Some p -> l !! i = Some a -> with_roles groles l !! p.1 = Some a.
Proof.
  intros Hp Ha. unfold with_roles. apply elem_of_list_to_map; [apply zip_keys_NoDup|].
  apply list_elem_of_lookup. exists i. apply lookup_zip_Some. split; [|done].
  change (map fst) with (fmap (M := list) (@fst Z Z)). by rewrite list_lookup_fmap, Hp.
Qed.

Lemma with_roles_None l p : groles !! p = None -> with_roles groles l !! p = None.
Proof.
  intros Hp. apply not_elem_of_list_to_map. intros Hin. apply list_elem_of_fmap in Hin as ([q a] & -> & Hin).
  apply list_elem_of_lookup in Hin as [i Hi]. apply lookup_zip_Some in Hi as [Hi _].
  change (map fst) with (fmap (M := list) (@fst Z Z)) in Hi.
  rewrite list_lookup_fmap in Hi. destruct (map_ordered groles !! i) as [[q' r]|] eqn:E; [|done].
  cbn in Hi, Hp. injection Hi as ->. apply list_elem_of_lookup_2, elem_of_map_ordered in E. congruence.
Qed.

Lemma map_ordered_index p r : groles !! p = Some r -> exists i, map_ordered groles !! i = Some (p, r).
Proof. intros H. apply list_elem_of_lookup. by apply elem_of_map_ordered. Qed.

Notation offered := (map (fun p => clear_leader p.2) (map_ordered groles)).

Lemma offered_lookup i p r : map_ordered groles !! i = Some (p, r) -> offered !! i = Some (clear_leader r).
Proof.
  intros H. change (map (fun p : Z * Z => clear_leader p.2)) with (fmap (M := list) (fun p : Z * Z => clear_leader p.2)).
  by rewrite list_lookup_fmap, H.
Qed.

(** Lists in the order of the map are maps with the same players. *)
Lemma assignment_party l : assignment offered l -> party groles (with_roles groles l).
Proof.
  intros [Ha Hn]. pose proof (Forall2_length _ _ _ Ha) as Hlen. rewrite length_map in Hlen.
  assert (Hk : length l = length keys) by (by rewrite length_map).
  split; [|by rewrite !(number_Permutation _ _ _ (roles_of_with_roles l Hk))].
  intros p. destruct (groles !! p) as [r|] eqn:Hp; [|rewrite with_roles_None by done; constructor].
  destruct (map_ordered_index p r Hp) as [i Hi].
  destruct (Forall2_lookup_l _ _ _ i _ Ha (offered_lookup i p r Hi)) as (a & Hla & Hal).
  pose proof (with_roles_lookup l i (p, r) a Hi Hla) as Hw. cbn in Hw. rewrite Hw. by constructor.
Qed.

Lemma party_assignment choice : party groles choice -> solvable offered.
Proof.
  intros [Hc Hn]. set (l := map (fun p => default 0 (choice !! p.1)) (map_ordered groles)). exists l.
  assert (Hli : forall i p, map_ordered groles !! i = Some p -> l !! i = Some (default 0 (choice !! p.1))).
  { intros i p Hi. unfold l.
    change (map (fun p : Z * Z => default 0 (choice !! p.1)))
      with (fmap (M := list) (fun p : Z * Z => default 0 (choice !! p.1))).
    by rewrite list_lookup_fmap, Hi. }
  assert (Hw : with_roles groles l = choice).
  { apply map_eq. intros p. specialize (Hc p). destruct (groles !! p) as [r|] eqn:Hp.
    - destruct (map_ordered_index p r Hp) as [i Hi]. pose proof (with_roles_lookup l i (p, r) _ Hi (Hli i _ Hi)) as E.
      cbn in E. rewrite E. by destruct (choice !! p); [|inversion Hc].
    - rewrite with_roles_None by done. by inversion Hc. }
  assert (Hk : length l = length keys) by (unfold l; by rewrite !length_map).
  split; [|rewrite <- Hw in Hn; by rewrite !(number_Permutation _ _ _ (roles_of_with_roles l Hk)) in Hn].
  apply Forall2_lookup. intros i. destruct (map_ordered groles !! i) as [[p r]|] eqn:Hi.
  - rewrite (offered_lookup i p r Hi), (Hli i _ Hi). constructor. specialize (Hc p).
    pose proof (proj1 (elem_of_map_ordered groles p r) (list_elem_of_lookup_2 _ _ _ Hi)) as Hp. rewrite Hp in Hc.
    cbn. by inversion Hc.
  - apply lookup_ge_None in Hi. rewrite !lookup_ge_None_2; [constructor|unfold l; by rewrite length_map|by rewrite length_map].
Qed.

Lemma with_roles_offered : with_roles groles offered = clear_leader <$> groles.
Proof.
  apply map_eq. intros p. rewrite lookup_fmap. destruct (groles !! p) as [r|] eqn:Hp.
  - destruct (map_ordered_index p r Hp) as [i Hi]. by apply (with_roles_lookup _ i (p, r) _ Hi (offered_lookup i p r Hi)).
  - by rewrite with_roles_None.
Qed.
End Map.

Lemma clear_leader_byte r : is_byte r -> is_byte (clear_leader r).
Proof.
  intros H. unfold is_byte in *. assert (Hb : (0 <=? clear_leader r) && (clear_leader r <? 256) = true).
  { apply (bytes_all (fun r => (0 <=? clear_leader r) && (clear_leader r <? 256))); [by vm_compute|done]. }
  apply andb_true_iff in Hb as [?%Z.leb_le ?%Z.ltb_lt]. done.
Qed.

Lemma CheckGroupRoles_spec groles :
  (forall p r, groles !! p = Some r -> is_byte r) -> (base.size groles < 256)%nat -> groles <> ∅ ->
  match CheckGroupRoles groles with
  | (true, choice) => party groles choice
  | (false, rest) => rest = clear_leader <$> groles /\ forall choice, ~ party groles choice
  end.
Proof.
  intros Hb Hsize Hne. unfold CheckGroupRoles. set (l := map (fun p => clear_leader p.2) (map_ordered groles)).
  assert (Hlb : Forall is_byte l).
  { unfold l. apply Forall_map, Forall_forall. intros [p r] Hin%elem_of_map_ordered. cbn.
    by apply clear_leader_byte, (Hb p). }
  assert (Hlen : length l = base.size groles) by (unfold l; by rewrite length_map, length_map_ordered).
  assert (Hnil : l <> []).
  { intros E. apply Hne, map_ordered_nil. apply length_zero_iff_nil. rewrite length_map_ordered, <- Hlen. by rewrite E. }
  pose proof (check_roles_finds (S (all_open l)) l Hlb ltac:(lia) Hnil ltac:(lia)) as H.
  destruct (check_roles _ l) as [[|] l']; unfold finds in H; cbn [fst snd] in H.
  - by apply assignment_party.
  - destruct H as [-> Hno]. split; [apply with_roles_offered|]. intros choice Hc. apply Hno.
    by apply (party_assignment groles choice).
Qed.

(** C18: [CheckGroupRoles] answers yes exactly if the players can be given one
    role each, of those they offer, with at most one tank, one healer and three
    damage dealers; it then leaves such a choice in the map, and otherwise the
    offers, without the leader's mark. *)
Theorem CheckGroupRoles_correct groles :
  (forall p r, groles !! p = Some r -> is_byte r) -> (base.size groles < 256)%nat -> groles <> ∅ ->
  match CheckGroupRoles groles with
  | (true, choice) => party groles choice
  | (false, rest) => rest = clear_leader <$> groles /\ forall choice, ~ party groles choice
  end.
Proof. apply CheckGroupRoles_spec. Qed.

Lemma CheckGroupRoles_correct_witness :
  let groles : gmap Z Z := <[1 := 15]> (<[2 := 14]> (<[3 := 8]> (<[4 := 8]> (<[5 := 10]> ∅)))) in
  (CheckGroupRoles groles).1 = true /\ party groles (CheckGroupRoles groles).2.
Proof.
  intros groles. split; [vm_compute; reflexivity|].
  assert (H := CheckGroupRoles_correct groles). assert (E : (CheckGroupRoles groles).1 = true) by (vm_compute; reflexivity).
  destruct (CheckGroupRoles groles) as [b choice]. cbn in E. subst b. apply H.
  - intros p r Hr. unfold groles in Hr. repeat (apply lookup_insert_Some in Hr as [[_ <-]|[_ Hr]]; [by vm_compute|]). done.
  - apply Nat.ltb_lt. vm_compute. reflexivity.
  - intros E%(f_equal (lookup 1)). vm_compute in E. discriminate.
Defined.
