(* ===== verification/LfgQueue.v ===== *)
(** * The queue of the dungeon finder (game/DungeonFinding/LFGQueue.cpp)

    Players and groups who wait are combined greedily until five of them make
    a party, for which a proposal is made; what is known about combinations is
    kept under the text of their guids.  The rest of the dungeon finder is seen
    through the class [LfgStates]; random numbers are a list of raw values. *)
From S2P Require Import Prelude.
From S2P Require Import Lists.
From S2P Require Import Util.
From S2P Require Import LfgRoles.
Local Open Scope Z_scope.

(** ** Data *)

Definition MAXGROUPSIZE : Z := 5.
Definition LFG_TIME_PROPOSAL : Z := 45.

Inductive LfgCompatibility :=
| LFG_COMPATIBILITY_PENDING
| LFG_INCOMPATIBLES_WRONG_GROUP_SIZE
| LFG_INCOMPATIBLES_TOO_MUCH_PLAYERS
| LFG_INCOMPATIBLES_MULTIPLE_LFG_GROUPS
| LFG_INCOMPATIBLES_HAS_IGNORES
| LFG_INCOMPATIBLES_NO_ROLES
| LFG_INCOMPATIBLES_NO_DUNGEONS
| LFG_COMPATIBLES_WITH_LESS_PLAYERS
| LFG_COMPATIBLES_BAD_STATES
| LFG_COMPATIBLES_MATCH.
#[export] Instance LfgCompatibility_eq : EqDecision LfgCompatibility.
Proof. solve_decision. Defined.

(** [c < LFG_COMPATIBLES_WITH_LESS_PLAYERS] *)
Definition not_compatible (c : LfgCompatibility) : bool :=
  match c with
  | LFG_COMPATIBLES_WITH_LESS_PLAYERS | LFG_COMPATIBLES_BAD_STATES | LFG_COMPATIBLES_MATCH => false
  | _ => true
  end.

Inductive LfgState :=
| LFG_STATE_NONE | LFG_STATE_ROLECHECK | LFG_STATE_QUEUED | LFG_STATE_PROPOSAL | LFG_STATE_BOOT
| LFG_STATE_DUNGEON | LFG_STATE_FINISHED_DUNGEON | LFG_STATE_RAIDBROWSER.
#[export] Instance LfgState_eq : EqDecision LfgState.
Proof. solve_decision. Defined.

Inductive LfgAnswer := LFG_ANSWER_PENDING | LFG_ANSWER_DENY | LFG_ANSWER_AGREE.
#[export] Instance LfgAnswer_eq : EqDecision LfgAnswer.
Proof. solve_decision. Defined.

Inductive LfgProposalState := LFG_PROPOSAL_INITIATING | LFG_PROPOSAL_FAILED | LFG_PROPOSAL_SUCCESS.
#[export] Instance LfgProposalState_eq : EqDecision LfgProposalState.
Proof. solve_decision. Defined.

Record LfgCompatibilityData := mkCompat { c_compatibility : LfgCompatibility; c_roles : gmap Z Z }.

Record LfgQueueData := mkQueueData {
  joinTime : Z;
  tanks : Z;
  healers : Z;
  dps : Z;
  dungeons : gset Z;
  roles : gmap Z Z;
  bestCompatible : text
}.
(** [LfgQueueData(joinTime, dungeons, roles)] *)
Definition new_queue_data (t : Z) (d : gset Z) (r : gmap Z Z) : LfgQueueData :=
  mkQueueData t LFG_TANKS_NEEDED LFG_HEALERS_NEEDED LFG_DPS_NEEDED d r [].
Definition set_best (t h d : Z) (b : text) (x : LfgQueueData) : LfgQueueData :=
  mkQueueData (joinTime x) t h d (dungeons x) (roles x) b.

(** [LfgWaitTime]: the average, and how many have been counted. *)
Record LfgWaitTime := mkWait { wt_time : Z; wt_number : Z }.

Record LFGQueue := mkQueue {
  QueueDataStore : gmap Z LfgQueueData;
  CompatibleMapStore : gmap text LfgCompatibilityData;
  waitTimesAvgStore : gmap Z LfgWaitTime;
  waitTimesTankStore : gmap Z LfgWaitTime;
  waitTimesHealerStore : gmap Z LfgWaitTime;
  waitTimesDpsStore : gmap Z LfgWaitTime;
  currentQueueStore : list Z;
  newToQueueStore : list Z
}.
Definition empty_queue : LFGQueue := mkQueue ∅ ∅ ∅ ∅ ∅ ∅ [] [].

Definition set_data (d : gmap Z LfgQueueData) (q : LFGQueue) : LFGQueue :=
  mkQueue d (CompatibleMapStore q) (waitTimesAvgStore q) (waitTimesTankStore q) (waitTimesHealerStore q)
    (waitTimesDpsStore q) (currentQueueStore q) (newToQueueStore q).
Definition set_compat (c : gmap text LfgCompatibilityData) (q : LFGQueue) : LFGQueue :=
  mkQueue (QueueDataStore q) c (waitTimesAvgStore q) (waitTimesTankStore q) (waitTimesHealerStore q)
    (waitTimesDpsStore q) (currentQueueStore q) (newToQueueStore q).
Definition set_current (l : list Z) (q : LFGQueue) : LFGQueue :=
  mkQueue (QueueDataStore q) (CompatibleMapStore q) (waitTimesAvgStore q) (waitTimesTankStore q)
    (waitTimesHealerStore q) (waitTimesDpsStore q) l (newToQueueStore q).
Definition set_new (l : list Z) (q : LFGQueue) : LFGQueue :=
  mkQueue (QueueDataStore q) (CompatibleMapStore q) (waitTimesAvgStore q) (waitTimesTankStore q)
    (waitTimesHealerStore q) (waitTimesDpsStore q) (currentQueueStore q) l.

Record LfgProposalPlayer := mkPP { pp_role : Z; pp_accept : LfgAnswer; pp_group : Z }.
Record LfgProposal := mkProposal {
  pr_dungeonId : Z;
  pr_state : LfgProposalState;
  pr_group : Z;
  pr_leader : Z;
  pr_cancelTime : Z;
  pr_isNew : bool;
  pr_queues : list Z;
  pr_players : gmap Z LfgProposalPlayer
}.

(** What the queue asks of [LFGMgr].  Whether one of two players ignores the
    other does not depend on their order (LFGMgr::HasIgnore). *)
Class LfgStates := {
  AllQueued : list Z -> bool;
  IsLfgGroup : Z -> bool;
  GetOldState : Z -> LfgState;
  HasIgnore : Z -> Z -> bool;
  HasIgnore_sym : forall p q, HasIgnore p q = HasIgnore q p
}.

(** ** Texts of guids *)

Definition BAR : Z := 124.
Fixpoint join_bar (l : list Z) : text :=
  match l with
  | [] => []
  | [g] => decimal g
  | g :: l => decimal g ++ BAR :: join_bar l
  end.
(** [ConcatenateGuids] *)
Definition ConcatenateGuids (check : list Z) : text := join_bar (set_ordered (list_to_set check)).

(** [text.find(s) != npos] *)
Fixpoint is_prefix (s t : text) : bool :=
  match s, t with
  | [], _ => true
  | x :: s, y :: t => (x =? y) && is_prefix s t
  | _ :: _, [] => false
  end.
Fixpoint contains (s t : text) : bool :=
  is_prefix s t || match t with [] => false | _ :: t => contains s t end.

(** The order of [std::string]. *)
Fixpoint text_leb (s t : text) : bool :=
  match s, t with
  | [], _ => true
  | _ :: _, [] => false
  | x :: s, y :: t => (x <? y) || ((x =? y) && text_leb s t)
  end.
Definition text_le {A} (x y : text * A) : Prop := text_leb x.1 y.1 = true.
#[export] Instance text_le_dec {A} : RelDecision (@text_le A) := fun x y => decide (text_leb x.1 y.1 = true).
Definition compatibles_ordered (q : LFGQueue) : list (text * LfgCompatibilityData) :=
  merge_sort text_le (map_to_list (CompatibleMapStore q)).

(** ** Operations of the queue *)

Definition GetCompatibles (key : text) (q : LFGQueue) : LfgCompatibility :=
  match CompatibleMapStore q !! key with
  | Some d => c_compatibility d
  | None => LFG_COMPATIBILITY_PENDING
  end.
Definition SetCompatibles (key : text) (c : LfgCompatibility) (q : LFGQueue) : LFGQueue :=
  set_compat (<[key := mkCompat c match CompatibleMapStore q !! key with Some d => c_roles d | None => ∅ end]>
                (CompatibleMapStore q)) q.
Definition SetCompatibilityData (key : text) (d : LfgCompatibilityData) (q : LFGQueue) : LFGQueue :=
  set_compat (<[key := d]> (CompatibleMapStore q)) q.
Definition RemoveFromCompatibles (guid : Z) (q : LFGQueue) : LFGQueue :=
  set_compat (filter (fun c => contains (decimal guid) c.1 = false) (CompatibleMapStore q)) q.

Definition remove (guid : Z) (l : list Z) : list Z := List.filter (fun g => negb (g =? guid)) l.
Definition RemoveFromNewQueue (guid : Z) (q : LFGQueue) : LFGQueue := set_new (remove guid (newToQueueStore q)) q.
Definition RemoveFromCurrentQueue (guid : Z) (q : LFGQueue) : LFGQueue :=
  set_current (remove guid (currentQueueStore q)) q.
Definition AddToNewQueue (guid : Z) (q : LFGQueue) : LFGQueue := set_new (newToQueueStore q ++ [guid]) q.
Definition AddToCurrentQueue (guid : Z) (q : LFGQueue) : LFGQueue :=
  set_current (currentQueueStore q ++ [guid]) q.

Definition AddToQueue (guid : Z) (q : LFGQueue) : LFGQueue :=
  match QueueDataStore q !! guid with None => q | Some _ => AddToNewQueue guid q end.
Definition AddQueueData (guid t : Z) (d : gset Z) (r : gmap Z Z) (q : LFGQueue) : LFGQueue :=
  AddToQueue guid (set_data (<[guid := new_queue_data t d r]> (QueueDataStore q)) q).
Definition RemoveQueueData (guid : Z) (q : LFGQueue) : LFGQueue :=
  set_data (delete guid (QueueDataStore q)) q.

(** [UpdateBestCompatibleInQueue]; counters are of 8 bits. *)
Definition count_bars (s : text) : Z := Z.of_nat (length (List.filter (Z.eqb BAR) s)).
Definition stored_size (b : text) : Z := match b with [] => 0 | _ => u8 (count_bars b + 1) end.
Fixpoint take_roles (l : list (Z * Z)) (t h d : Z) : Z * Z * Z :=
  match l with
  | [] => (t, h, d)
  | (_, role) :: l =>
      if has_flag role PLAYER_ROLE_TANK then take_roles l (u8 (t - 1)) h d
      else if has_flag role PLAYER_ROLE_HEALER then take_roles l t (u8 (h - 1)) d
      else take_roles l t h (u8 (d - 1))
  end.
Definition best_compatible (key : text) (r : gmap Z Z) (x : LfgQueueData) : LfgQueueData :=
  if u8 (count_bars key + 1) <=? stored_size (bestCompatible x) then x
  else let '(t, h, d) := take_roles (map_ordered r) LFG_TANKS_NEEDED LFG_HEALERS_NEEDED LFG_DPS_NEEDED in
       set_best t h d key x.

(** [FindBestCompatibleInQueue]: the entries of the cache whose key contains
    the digits of the guid. *)
Definition FindBestCompatibleInQueue (guid : Z) (q : LFGQueue) (x : LfgQueueData) : LfgQueueData :=
  foldl (fun x c =>
    if bool_decide (c_compatibility c.2 = LFG_COMPATIBLES_WITH_LESS_PLAYERS) && contains (decimal guid) c.1
    then best_compatible c.1 (c_roles c.2) x else x) x (compatibles_ordered q).

Definition RemoveFromQueue (guid : Z) (q : LFGQueue) : LFGQueue :=
  let q := RemoveFromCompatibles guid (RemoveFromCurrentQueue guid (RemoveFromNewQueue guid q)) in
  set_data (delete guid (map_imap (fun g x =>
    Some (if negb (g =? guid) && contains (decimal guid) (bestCompatible x)
          then FindBestCompatibleInQueue g q (set_best (tanks x) (healers x) (dps x) [] x) else x))
    (QueueDataStore q))) q.

(** [UpdateWaitTimeAvg] and the three others, on their stores: the product
    and the quotient are unsigned. *)
Definition update_wait (waitTime dungeonId : Z) (s : gmap Z LfgWaitTime) : gmap Z LfgWaitTime :=
  let wt := default (mkWait (-1) 0) (s !! dungeonId) in
  let n := u32 (wt_number wt + 1) in
  <[dungeonId := mkWait (s32 (u32 (u32 (wt_time wt * wt_number wt) + waitTime) / n)) n]> s.

Definition GetJoinTime (guid : Z) (q : LFGQueue) : Z :=
  match QueueDataStore q !! guid with Some x => joinTime x | None => 0 end.

(** ** Guids (Entities/Object/ObjectDefines.h) *)

Definition HIGHGUID_CORPSE : Z := 0xF101.
Definition HIGHGUID_AREATRIGGER : Z := 0xF102.
Definition HIGHGUID_GROUP : Z := 0x1F5.
Definition GUID_HIPART (guid : Z) : Z :=
  let t := Z.land (Z.shiftr guid 48) 0xFFFF in
  if (t =? HIGHGUID_CORPSE) || (t =? HIGHGUID_AREATRIGGER) then t else Z.land (Z.shiftr t 4) 0xFFF.
Definition IS_GROUP_GUID (guid : Z) : bool := GUID_HIPART guid =? HIGHGUID_GROUP.

(** ** Looking for parties *)

(** The queue with what it reaches in [LFGMgr]: the proposals, the last id
    given, and the raw values of the random generator. *)
Record QS := mkQS {
  q_queue : LFGQueue;
  q_proposals : gmap Z LfgProposal;
  m_lfgProposalId : Z;
  q_dice : list Z
}.
(** Dereferencing [end()], taking an element of an empty set. *)
Inductive QueueError := EndDereferenced | EmptyContainer | OutOfFuel.
Definition QM : Type -> Type := ST QS QueueError.

Definition on_queue (f : LFGQueue -> LFGQueue) : QM unit :=
  st_modify (fun s => mkQS (f (q_queue s)) (q_proposals s) (m_lfgProposalId s) (q_dice s)).
Definition urand (lo hi : Z) : QM Z := fun s =>
  match q_dice s with
  | [] => Ok (lo, s)
  | d :: l => Ok (lo + d `mod` (hi - lo + 1), mkQS (q_queue s) (q_proposals s) (m_lfgProposalId s) l)
  end.
(** [LFGMgr::AddProposal] *)
Definition AddProposal (p : LfgProposal) : QM unit :=
  st_modify (fun s => let id := u32 (m_lfgProposalId s + 1) in
    mkQS (q_queue s) (<[id := p]> (q_proposals s)) id (q_dice s)).
Definition SelectRandomContainerElement (d : gset Z) : QM Z :=
  i ← urand 0 (Z.of_nat (base.size d) - 1);
  match set_ordered d !! Z.to_nat i with
  | Some x => mret x
  | None => st_throw EmptyContainer
  end.
(** Storing a verdict and giving it. *)
Definition verdict (key : text) (c : LfgCompatibility) : QM LfgCompatibility :=
  on_queue (SetCompatibles key c);; mret c.
(** The data of entries that are known to be there. *)
Definition datas (check : list Z) : QM (list LfgQueueData) :=
  s ← st_get;
  match mapM (fun g => QueueDataStore (q_queue s) !! g) check with
  | Some xs => mret xs
  | None => st_throw EndDereferenced
  end.
(** [UpdateBestCompatibleInQueue(QueueDataStore.find(guid), key, roles)] *)
Definition UpdateBestCompatibleInQueue (key : text) (r : gmap Z Z) (guid : Z) : QM unit :=
  s ← st_get;
  match QueueDataStore (q_queue s) !! guid with
  | Some x => on_queue (set_data (<[guid := best_compatible key r x]> (QueueDataStore (q_queue s))))
  | None => st_throw EndDereferenced
  end.
Fixpoint each (f : Z -> QM unit) (l : list Z) : QM unit :=
  match l with
  | [] => mret tt
  | g :: l => f g;; each f l
  end.

Section Queue.
Context `{LfgStates} (now : Z).

(** The count of players and dungeon groups; [inl] is a guid without data. *)
Record tally := mkTally { t_players : Z; t_lfgGroups : Z; t_group : Z; t_groups : gmap Z Z }.
Fixpoint count_players (q : LFGQueue) (l : list Z) (t : tally) : Z + tally :=
  match l with
  | [] => inr t
  | guid :: l =>
      if (t_lfgGroups t <? 2) && (t_players t <=? MAXGROUPSIZE) then
        match QueueDataStore q !! guid with
        | None => inl guid
        | Some x =>
            let groups := ((fun _ => if IS_GROUP_GUID guid then guid else 0) <$> roles x) ∪ t_groups t in
            let players := u8 (t_players t + Z.of_nat (base.size (roles x))) in
            if IsLfgGroup guid
            then count_players q l (mkTally players (u8 (t_lfgGroups t + 1))
                   (if t_lfgGroups t =? 0 then guid else t_group t) groups)
            else count_players q l (mkTally players (t_lfgGroups t) (t_group t) groups)
        end
      else inr t
  end.

(** The players whom nobody taken before ignores, with their roles. *)
Definition ignored (p : Z) (m : gmap Z Z) : bool :=
  existsb (fun q => negb (p =? q.1) && HasIgnore p q.1) (map_ordered m).
Definition add_roles (m : gmap Z Z) (x : LfgQueueData) : gmap Z Z :=
  foldl (fun m p => if ignored p.1 m then m else <[p.1 := p.2]> m) m (map_ordered (roles x)).
Definition all_roles (xs : list LfgQueueData) : gmap Z Z := foldl add_roles ∅ xs.
Definition common_dungeons (xs : list LfgQueueData) : gset Z :=
  match xs with
  | [] => ∅
  | x :: xs => foldl (fun d y => d ∩ dungeons y) (dungeons x) xs
  end.

(** The choice of the leader. *)
Fixpoint choose_leader (l : list (Z * Z)) (leader : bool) (cur : Z) : QM Z :=
  match l with
  | [] => mret cur
  | (p, role) :: l =>
      if has_flag role PLAYER_ROLE_LEADER then
        if negb leader || (cur =? 0) then choose_leader l true p
        else (d ← urand 0 1; choose_leader l true (if negb (d =? 0) then p else cur))
      else if leader then choose_leader l leader cur
      else if cur =? 0 then choose_leader l leader p
      else (d ← urand 0 1; choose_leader l leader (if negb (d =? 0) then p else cur))
  end.

Definition player_data (isNew : bool) (group : Z) (groups : gmap Z Z) (p : Z * Z) : option (Z * LfgProposalPlayer) :=
  match groups !! p.1 with
  | Some g => Some (p.1, mkPP p.2 (if negb isNew && negb (g =? 0) && (g =? group) then LFG_ANSWER_AGREE
                                   else LFG_ANSWER_PENDING) g)
  | None => None
  end.

(** The end of [CheckCompatibility], from "Create a new proposal" on. *)
Definition make_proposal (check : list Z) (t : tally) (r : gmap Z Z) (d : gset Z) (isNew : bool)
    : QM LfgCompatibility :=
  dungeonId ← SelectRandomContainerElement d;
  leader ← choose_leader (map_ordered r) false 0;
  match mapM (player_data isNew (t_group t) (t_groups t)) (map_ordered r) with
  | None => st_throw EndDereferenced
  | Some players =>
      each (fun g => on_queue (fun q => RemoveFromCurrentQueue g (RemoveFromNewQueue g q))) check;;
      AddProposal (mkProposal dungeonId LFG_PROPOSAL_INITIATING (t_group t) leader (now + LFG_TIME_PROPOSAL) isNew
        check (list_to_map players));;
      verdict (ConcatenateGuids check) LFG_COMPATIBLES_MATCH
  end.

(** From "Enough players?" on. *)
Definition check_enough (check : list Z) (t : tally) (r : gmap Z Z) (d : gset Z) : QM LfgCompatibility :=
  let strGuids := ConcatenateGuids check in
  if negb (t_players t =? MAXGROUPSIZE) then
    each (UpdateBestCompatibleInQueue strGuids r) check;;
    on_queue (SetCompatibilityData strGuids (mkCompat LFG_COMPATIBLES_WITH_LESS_PLAYERS r));;
    mret LFG_COMPATIBLES_WITH_LESS_PLAYERS
  else
    let isNew := negb (t_lfgGroups t =? 1) || negb (bool_decide (GetOldState (default 0 (head check)) = LFG_STATE_DUNGEON)) in
    if negb (AllQueued check) then verdict strGuids LFG_COMPATIBLES_BAD_STATES
    else make_proposal check t r d isNew.

(** The checks of several entries, and of one. *)
Definition check_several (check : list Z) (t : tally) (xs : list LfgQueueData) : QM LfgCompatibility :=
  let strGuids := ConcatenateGuids check in
  let r := all_roles xs in
  if negb (u8 (t_players t - Z.of_nat (base.size r)) =? 0) then verdict strGuids LFG_INCOMPATIBLES_HAS_IGNORES
  else
    let '(ok, r) := CheckGroupRoles r in
    if negb ok then verdict strGuids LFG_INCOMPATIBLES_NO_ROLES
    else
      let d := common_dungeons xs in
      if bool_decide (d = ∅) then verdict strGuids LFG_INCOMPATIBLES_NO_DUNGEONS
      else check_enough check t r d.

Definition check_single (check : list Z) (t : tally) (xs : list LfgQueueData) : QM LfgCompatibility :=
  match xs with
  | x :: _ => check_enough check t (CheckGroupRoles (roles x)).2 (dungeons x)
  | [] => st_throw EndDereferenced
  end.

(** [CheckCompatibility] after the check of all but the first. *)
Definition check_all (check : list Z) : QM LfgCompatibility :=
  let strGuids := ConcatenateGuids check in
  s ← st_get;
  match count_players (q_queue s) check (mkTally 0 0 0 ∅) with
  | inl guid => on_queue (RemoveFromQueue guid);; mret LFG_COMPATIBILITY_PENDING
  | inr t =>
      if (length check =? 1)%nat && negb (t_players t =? MAXGROUPSIZE) then
        xs ← datas check;
        let r := match xs with x :: _ => (CheckGroupRoles (roles x)).2 | [] => ∅ end in
        each (UpdateBestCompatibleInQueue strGuids r) check;;
        on_queue (SetCompatibilityData strGuids (mkCompat LFG_COMPATIBLES_WITH_LESS_PLAYERS r));;
        mret LFG_COMPATIBLES_WITH_LESS_PLAYERS
      else if 1 <? t_lfgGroups t then verdict strGuids LFG_INCOMPATIBLES_MULTIPLE_LFG_GROUPS
      else if MAXGROUPSIZE <? t_players t then verdict strGuids LFG_INCOMPATIBLES_TOO_MUCH_PLAYERS
      else
        xs ← datas check;
        if (1 <? length check)%nat then check_several check t xs else check_single check t xs
  end.

Fixpoint CheckCompatibility (check : list Z) : QM LfgCompatibility :=
  match check with
  | [] => mret LFG_INCOMPATIBLES_WRONG_GROUP_SIZE
  | _ :: rest =>
      if MAXGROUPSIZE <? Z.of_nat (length check) then mret LFG_INCOMPATIBLES_WRONG_GROUP_SIZE
      else if (2 <? length check)%nat then
        (child ← CheckCompatibility rest;
         if not_compatible child then verdict (ConcatenateGuids check) child else check_all check)
      else check_all check
  end.

(** The loop of [FindNewGroups]; [all] is shared with the calls inside, which
    take guids from it. *)
Fixpoint try_all (find : list Z -> list Z -> QM (LfgCompatibility * list Z)) (n : nat) (check all : list Z)
    (compatibles : LfgCompatibility) : QM (LfgCompatibility * list Z) :=
  match all with
  | [] => mret (compatibles, [])
  | x :: all =>
      match n with
      | O => st_throw OutOfFuel
      | S n =>
          '(sub, all) ← find (check ++ [x]) all;
          if bool_decide (sub = LFG_COMPATIBLES_MATCH) then mret (LFG_COMPATIBLES_MATCH, all)
          else try_all find n check all compatibles
      end
  end.
Fixpoint FindNewGroups (fuel : nat) (check all : list Z) : QM (LfgCompatibility * list Z) :=
  match fuel with
  | O => st_throw OutOfFuel
  | S fuel =>
      let strGuids := ConcatenateGuids check in
      s ← st_get;
      let cached := GetCompatibles strGuids (q_queue s) in
      compatibles ← (if bool_decide (cached = LFG_COMPATIBILITY_PENDING) then CheckCompatibility check
                     else mret cached);
      if bool_decide (compatibles = LFG_COMPATIBLES_BAD_STATES) && AllQueued check then
        on_queue (SetCompatibles strGuids LFG_COMPATIBLES_MATCH);; mret (LFG_COMPATIBLES_MATCH, all)
      else if bool_decide (compatibles = LFG_COMPATIBLES_WITH_LESS_PLAYERS)
      then try_all (FindNewGroups fuel) (length all) check all compatibles
      else mret (compatibles, all)
  end.

Fixpoint find_groups (fuel : nat) (proposals : Z) : QM Z :=
  s ← st_get;
  match newToQueueStore (q_queue s) with
  | [] => mret proposals
  | frontguid :: _ =>
      match fuel with
      | O => st_throw OutOfFuel
      | S fuel =>
          on_queue (RemoveFromNewQueue frontguid);;
          let temporalList := currentQueueStore (q_queue s) in
          '(compatibles, _) ← FindNewGroups (S (length temporalList)) [frontguid] temporalList;
          if bool_decide (compatibles = LFG_COMPATIBLES_MATCH) then find_groups fuel (u8 (proposals + 1))
          else (on_queue (AddToCurrentQueue frontguid);; find_groups fuel proposals)
      end
  end.
Definition FindGroups : QM Z :=
  s ← st_get;
  find_groups (length (newToQueueStore (q_queue s))) 0.
End Queue.
