(* ===== verification/LfgParties.v ===== *)
(** * Parties found by the queue of the dungeon finder

    What LFGQueue::FindGroups does to a queue whose entries are in order: it
    comes to an end, empties the list of new entries, keeps what everyone asked
    for, and each proposal it makes is a valid party.  Examples at the end run
    it where it loses a group and where it gives a player two proposals. *)
From S2P Require Import Prelude.
From S2P Require Import Lists.
From S2P Require Import Util.
From S2P Require Import LfgRoles.
From S2P Require Import LfgQueue.
Local Open Scope Z_scope.

(** ** Specification *)

(** What the players of an entry ask for: dungeons, and a role each. *)
Definition offer : Type := gset Z * gmap Z Z.
Definition offer_of (x : LfgQueueData) : offer := (dungeons x, roles x).
Definition offers (q : LFGQueue) : gmap Z offer := offer_of <$> QueueDataStore q.
Definition players_in (xs : list offer) : nat := sum_list ((fun x => base.size x.2) <$> xs).
Definition entries (o : gmap Z offer) (l : list Z) (xs : list offer) : Prop :=
  Forall2 (fun g x => o !! g = Some x) l xs.

(** What joining ensures of an entry. *)
Record offer_ok (x : offer) : Prop := {
  oo_dungeons : x.1 <> ∅;
  oo_players : x.2 <> ∅;
  oo_size : (base.size x.2 <= 5)%nat;
  oo_bytes : forall p r, x.2 !! p = Some r -> is_byte r;
  oo_full : base.size x.2 = 5%nat -> (CheckGroupRoles x.2).1 = true
}.
Definition offers_ok (o : gmap Z offer) : Prop := map_Forall (fun _ => offer_ok) o.

(** Five players who keep to the limits are one tank, one healer and three
    damage dealers. *)
Lemma number_cons a x l : number a (x :: l) = (if a =? x then 1 else 0) + number a l.
Proof. unfold number. cbn. destruct (a =? x); cbn; lia. Qed.

Lemma numbers_of_roles l : Forall (fun a => is_role a = true) l ->
  number PLAYER_ROLE_TANK l + number PLAYER_ROLE_HEALER l + number PLAYER_ROLE_DAMAGE l = Z.of_nat (length l) /\
  forall q, is_role q = false -> number q l = 0.
Proof.
  intros Hl. induction Hl as [|a l Ha Hl [IH1 IH2]]; [split; [done|]; by intros|]. split.
  - rewrite !number_cons. cbn [length]. unfold is_role, PLAYER_ROLE_TANK, PLAYER_ROLE_HEALER, PLAYER_ROLE_DAMAGE in *.
    apply orb_true_iff in Ha as [Ha|Ha%Z.eqb_eq]; [apply orb_true_iff in Ha as [Ha%Z.eqb_eq|Ha%Z.eqb_eq]|]; subst a; cbn; lia.
  - intros q Hq. rewrite number_cons, IH2 by done. destruct (Z.eqb_spec q a); [congruence|done].
Qed.

Lemma party_roles groles choice : party groles choice ->
  Forall (fun a => is_role a = true) (roles_of choice) /\
  number PLAYER_ROLE_TANK (roles_of choice) + number PLAYER_ROLE_HEALER (roles_of choice) +
    number PLAYER_ROLE_DAMAGE (roles_of choice) = Z.of_nat (base.size choice).
Proof.
  intros [Hp _].
  assert (Hr : Forall (fun a => is_role a = true) (roles_of choice)).
  { apply Forall_forall. intros a Ha. unfold roles_of in Ha. apply list_elem_of_In, in_map_iff in Ha as ([p b] & <- & Hin).
    apply list_elem_of_In, elem_of_map_ordered in Hin. specialize (Hp p). rewrite Hin in Hp. inversion Hp as [? ? Hal|]; subst.
    unfold allowed in Hal. by apply andb_true_iff in Hal as [[? _]%andb_true_iff _]. }
  split; [done|]. rewrite (proj1 (numbers_of_roles _ Hr)). unfold roles_of. by rewrite length_map, length_map_ordered.
Qed.

Lemma party_of_five groles choice q : party groles choice -> base.size choice = 5%nat ->
  number q (roles_of choice) =
    if q =? PLAYER_ROLE_TANK then 1 else if q =? PLAYER_ROLE_HEALER then 1 else if q =? PLAYER_ROLE_DAMAGE then 3 else 0.
Proof.
  intros Hpa H5. destruct (party_roles _ _ Hpa) as [Hr Hsum]. destruct Hpa as [_ (Ht & Hh & Hd)].
  rewrite H5 in Hsum. unfold LFG_TANKS_NEEDED, LFG_HEALERS_NEEDED, LFG_DPS_NEEDED in *.
  destruct (Z.eqb_spec q PLAYER_ROLE_TANK) as [->|N1]; [lia|]. destruct (Z.eqb_spec q PLAYER_ROLE_HEALER) as [->|N2]; [lia|].
  destruct (Z.eqb_spec q PLAYER_ROLE_DAMAGE) as [->|N3]; [lia|]. apply (proj2 (numbers_of_roles _ Hr)).
  unfold is_role. by rewrite !(proj2 (Z.eqb_neq _ _)).
Qed.

Lemma party_equal groles choice : party groles choice -> base.size choice = base.size groles.
Proof.
  intros [Hp _]. rewrite <- !size_dom. f_equal. apply set_eq. intros p. rewrite !elem_of_dom.
  specialize (Hp p). inversion Hp; [split; eauto|]. split; intros [? ?]; done.
Qed.

(** A party has at most five players. *)
Lemma party_at_most_five groles choice : party groles choice -> (base.size groles <= 5)%nat.
Proof.
  intros Hpa. destruct (party_roles _ _ Hpa) as [_ Hsum]. rewrite (party_equal _ _ Hpa) in Hsum.
  destruct Hpa as [_ (Ht & Hh & Hd)]. unfold LFG_TANKS_NEEDED, LFG_HEALERS_NEEDED, LFG_DPS_NEEDED in *. lia.
Qed.

(** What the role check lets into a queue is in order. *)
Lemma checked_offer_ok d r : d <> ∅ -> r <> ∅ -> (base.size r < 256)%nat -> (forall p x, r !! p = Some x -> is_byte x) ->
  (CheckGroupRoles r).1 = true -> offer_ok (d, r).
Proof.
  intros Hd Hr Hs Hb Hc. pose proof (CheckGroupRoles_spec r Hb Hs Hr) as Hspec.
  destruct (CheckGroupRoles r) as [ok choice] eqn:E. cbn in Hc. subst ok.
  split; cbn [fst snd]; try done; [by eapply party_at_most_five|by rewrite E].
Qed.

Section Parties.
Context `{LfgStates} (now : Z).

Definition nobody_ignored {A} (m : gmap Z A) : Prop :=
  forall a b, is_Some (m !! a) -> is_Some (m !! b) -> a <> b -> HasIgnore a b = false.

(** A proposal for the entries [xs] of its queues. *)
Record valid_party (p : LfgProposal) (xs : list offer) : Prop := {
  vp_new : pr_state p = LFG_PROPOSAL_INITIATING /\ pr_cancelTime p = now + LFG_TIME_PROPOSAL;
  vp_queued : AllQueued (pr_queues p) = true;
  vp_dungeon : Forall (fun x => pr_dungeonId p ∈ x.1) xs;
  vp_five : players_in xs = 5%nat /\ base.size (pr_players p) = 5%nat;
  vp_roles : party (union_list (snd <$> xs)) (pp_role <$> pr_players p);
  vp_counts : forall q, number q (roles_of (pp_role <$> pr_players p)) =
    if q =? PLAYER_ROLE_TANK then 1 else if q =? PLAYER_ROLE_HEALER then 1 else if q =? PLAYER_ROLE_DAMAGE then 3 else 0;
  vp_ignore : (1 < length (pr_queues p))%nat -> nobody_ignored (pr_players p);
  vp_leader : is_Some (pr_players p !! pr_leader p);
  vp_lfg : (length (List.filter IsLfgGroup (pr_queues p)) <= 1)%nat;
  vp_group : forall pl d, pr_players p !! pl = Some d -> exists g x, (g, x) ∈ zip (pr_queues p) xs /\
    is_Some (x.2 !! pl) /\ pp_group d = if IS_GROUP_GUID g then g else 0;
  vp_accept : forall pl d, pr_players p !! pl = Some d -> pp_accept d <> LFG_ANSWER_PENDING ->
    pp_accept d = LFG_ANSWER_AGREE /\ pr_isNew p = false /\ pp_group d = pr_group p /\ pr_group p <> 0
}.
Definition valid_proposal (o : gmap Z offer) (p : LfgProposal) : Prop :=
  exists xs, entries o (pr_queues p) xs /\ valid_party p xs.

(** Proposals added one after the other. *)
Definition add_one (a : gmap Z LfgProposal * Z) (p : LfgProposal) : gmap Z LfgProposal * Z :=
  let id := u32 (a.2 + 1) in (<[id := p]> a.1, id).
Record made (s s' : QS) (ps : list LfgProposal) : Prop := {
  mk_offers : offers (q_queue s') = offers (q_queue s);
  mk_new : sublist (newToQueueStore (q_queue s')) (newToQueueStore (q_queue s));
  mk_proposals : (q_proposals s', m_lfgProposalId s') = foldl add_one (q_proposals s, m_lfgProposalId s) ps;
  mk_valid : Forall (valid_proposal (offers (q_queue s))) ps
}.

(** [m] returns from [s], with such a result. *)
Definition runs {A} (m : QM A) (s : QS) (Q : A -> QS -> Prop) : Prop :=
  match m s with Ok (a, s') => Q a s' | Err _ => False end.

Lemma runs_ret {A} (a : A) s (Q : A -> QS -> Prop) : Q a s -> runs (mret a) s Q.
Proof. done. Qed.
Lemma runs_bind {A B} (m : QM A) (f : A -> QM B) s Q :
  runs m s (fun a s' => runs (f a) s' Q) -> runs (m ≫= f) s Q.
Proof. unfold runs, mbind, st_bind. by destruct (m s) as [[a s']|e]. Qed.
Lemma runs_mono {A} (m : QM A) s (Q Q' : A -> QS -> Prop) :
  runs m s Q -> (forall a s', Q a s' -> Q' a s') -> runs m s Q'.
Proof. unfold runs. destruct (m s) as [[a s']|e]; auto. Qed.
Lemma runs_get s (Q : QS -> QS -> Prop) : Q s s -> runs st_get s Q.
Proof. done. Qed.
Lemma runs_on_queue f s (Q : unit -> QS -> Prop) :
  Q tt (mkQS (f (q_queue s)) (q_proposals s) (m_lfgProposalId s) (q_dice s)) -> runs (on_queue f) s Q.
Proof. done. Qed.

Lemma made_refl s : made s s [].
Proof. by split. Qed.
Lemma made_trans s1 s2 s3 ps qs : made s1 s2 ps -> made s2 s3 qs -> made s1 s3 (ps ++ qs).
Proof.
  intros [Ho1 Hn1 Hp1 Hv1] [Ho2 Hn2 Hp2 Hv2]. split.
  - congruence.
  - by etrans.
  - by rewrite foldl_app, <- Hp1.
  - apply Forall_app. split; [done|]. by rewrite <- Ho1.
Qed.
Lemma made_quiet s s' ps s'' : made s s' ps -> made s' s'' [] -> made s s'' ps.
Proof. intros H1 H2. rewrite <- (app_nil_r ps). by eapply made_trans. Qed.
Lemma quiet_made s s' ps s'' : made s s' [] -> made s' s'' ps -> made s s'' ps.
Proof. intros H1 H2. apply (made_trans _ _ _ [] ps H1 H2). Qed.

(** ** Steps that make no proposal *)

Lemma made_on_queue f s :
  offers (f (q_queue s)) = offers (q_queue s) ->
  sublist (newToQueueStore (f (q_queue s))) (newToQueueStore (q_queue s)) ->
  made s (mkQS (f (q_queue s)) (q_proposals s) (m_lfgProposalId s) (q_dice s)) [].
Proof. intros Ho Hn. by split. Qed.

Lemma verdict_runs key c s : runs (verdict key c) s (fun a s' => a = c /\ made s s' []).
Proof. apply runs_bind, runs_on_queue, runs_ret. split; [done|]. by apply made_on_queue. Qed.

Lemma best_compatible_offer key r x : offer_of (best_compatible key r x) = offer_of x.
Proof. unfold best_compatible. case_match; [done|]. by destruct (take_roles _ _ _ _) as [[? ?] ?]. Qed.

Lemma offers_lookup q g x : offers q !! g = Some x -> exists d, QueueDataStore q !! g = Some d /\ offer_of d = x.
Proof. unfold offers. rewrite lookup_fmap_Some. intros (d & <- & Hd). eauto. Qed.

Lemma UpdateBestCompatible_runs key r g s :
  is_Some (offers (q_queue s) !! g) ->
  runs (UpdateBestCompatibleInQueue key r g) s (fun _ s' => made s s' []).
Proof.
  intros [x Hx]. destruct (offers_lookup _ _ _ Hx) as (d & Hd & <-).
  unfold UpdateBestCompatibleInQueue. apply runs_bind, runs_get. rewrite Hd. apply runs_on_queue.
  apply made_on_queue; [|done]. unfold offers in *. cbn.
  rewrite fmap_insert, best_compatible_offer. apply insert_id. done.
Qed.

Lemma each_runs (f : Z -> QM unit) l s (P : Z -> QS -> Prop) :
  (forall g s, P g s -> runs (f g) s (fun _ s' => made s s' [])) ->
  (forall g s s', P g s -> made s s' [] -> P g s') ->
  Forall (fun g => P g s) l -> runs (each f l) s (fun _ s' => made s s' []).
Proof.
  intros Hf Hk. revert s. induction l as [|g l IH]; intros s Hl; [exact (made_refl s)|].
  inversion_clear Hl as [|? ? Hg Hl']. cbn [each]. apply runs_bind. eapply runs_mono; [by apply Hf|]. intros [] s1 H1.
  eapply runs_mono; [apply IH|].
  - apply (Forall_impl _ _ _ Hl'). intros g' Hg'. exact (Hk _ _ _ Hg' H1).
  - intros [] s2 H2. by eapply made_quiet.
Qed.

Lemma update_all_runs key r l s xs :
  entries (offers (q_queue s)) l xs ->
  runs (each (UpdateBestCompatibleInQueue key r) l) s (fun _ s' => made s s' []).
Proof.
  intros He. apply (each_runs _ _ _ (fun g s => is_Some (offers (q_queue s) !! g))).
  - intros g s0. apply UpdateBestCompatible_runs.
  - intros g s1 s2 Hg [-> _ _ _]. done.
  - induction He; constructor; [by eexists|done].
Qed.

Lemma with_less_runs key r l s xs :
  entries (offers (q_queue s)) l xs ->
  runs (each (UpdateBestCompatibleInQueue key r) l;;
        on_queue (SetCompatibilityData key (mkCompat LFG_COMPATIBLES_WITH_LESS_PLAYERS r));;
        mret LFG_COMPATIBLES_WITH_LESS_PLAYERS) s (fun _ s' => made s s' []).
Proof.
  intros He. apply runs_bind. eapply runs_mono; [by eapply update_all_runs|]. intros [] s1 H1.
  apply runs_bind, runs_on_queue, runs_ret. eapply made_quiet; [exact H1|]. by apply made_on_queue.
Qed.

Lemma remove_sublist g l : sublist (remove g l) l.
Proof. induction l as [|x l IH]; cbn; [done|]. case_match; by constructor. Qed.

(** Taking a guid without data out of the queue. *)
Lemma FindBest_offer g q x : offer_of (FindBestCompatibleInQueue g q x) = offer_of x.
Proof.
  unfold FindBestCompatibleInQueue. generalize (compatibles_ordered q). intros l. revert x.
  induction l as [|c l IH]; intros x; cbn; [done|]. rewrite IH. case_match; [apply best_compatible_offer|done].
Qed.

Lemma RemoveFromQueue_offers g q : offers (RemoveFromQueue g q) = delete g (offers q).
Proof.
  unfold offers, RemoveFromQueue. cbn. rewrite fmap_delete. f_equal. apply map_eq. intros i.
  rewrite !lookup_fmap, map_lookup_imap. destruct (QueueDataStore q !! i) as [x|]; cbn; [|done].
  case_match; [|done]. by rewrite FindBest_offer.
Qed.

Lemma drop_missing_runs g s :
  QueueDataStore (q_queue s) !! g = None ->
  runs (on_queue (RemoveFromQueue g);; mret LFG_COMPATIBILITY_PENDING) s (fun _ s' => made s s' []).
Proof.
  intros Hg. apply runs_bind, runs_on_queue, runs_ret. apply made_on_queue.
  - rewrite RemoveFromQueue_offers. apply delete_id. unfold offers. by rewrite lookup_fmap, Hg.
  - apply remove_sublist.
Qed.

(** ** Counting the players *)

Definition group_of (g : Z) : Z := if IS_GROUP_GUID g then g else 0.
Definition lfg_count (l : list Z) : Z := Z.of_nat (length (List.filter IsLfgGroup l)).

Lemma count_players_found q l t t' :
  offers_ok (offers q) -> 0 <= t_players t <= 5 -> 0 <= t_lfgGroups t <= 1 ->
  count_players q l t = inr t' -> t_players t' <= 5 -> t_lfgGroups t' <= 1 ->
  exists xs, entries (offers q) l xs /\ t_players t' = t_players t + Z.of_nat (players_in xs) /\
    t_lfgGroups t' = t_lfgGroups t + lfg_count l /\
    (forall p, is_Some (t_groups t !! p) \/ Exists (fun x => is_Some (x.2 !! p)) xs -> is_Some (t_groups t' !! p)) /\
    (forall p g, t_groups t' !! p = Some g -> t_groups t !! p = Some g \/
       exists h x, (h, x) ∈ zip l xs /\ is_Some (x.2 !! p) /\ g = group_of h).
Proof.
  intros Hok. revert t. induction l as [|guid l IH]; intros t Hp Hg Hc Hp' Hg'; cbn [count_players] in Hc.
  { injection Hc as <-. exists []. split; [constructor|]. unfold players_in, lfg_count. cbn.
    split; [lia|]. split; [lia|]. split; [|auto]. intros p [Hs|Hx]; [done|inversion Hx]. }
  destruct ((t_lfgGroups t <? 2) && (t_players t <=? MAXGROUPSIZE)) eqn:Hcond.
  2:{ injection Hc as <-. unfold MAXGROUPSIZE in Hcond. lia. }
  destruct (QueueDataStore q !! guid) as [x|] eqn:Hx; [|discriminate].
  assert (Hox : offers q !! guid = Some (offer_of x)) by (unfold offers; by rewrite lookup_fmap, Hx).
  pose proof (oo_size _ (Hok _ _ Hox)) as Hsz. cbn in Hsz.
  assert (Hu : u8 (t_players t + Z.of_nat (base.size (roles x))) = t_players t + Z.of_nat (base.size (roles x)))
    by (apply u8_small; unfold is_byte; lia).
  set (grp := ((fun _ => if IS_GROUP_GUID guid then guid else 0) <$> roles x) ∪ t_groups t) in Hc.
  assert (Hc' : exists c g, c = t_lfgGroups t + (if IsLfgGroup guid then 1 else 0) /\
    count_players q l (mkTally (t_players t + Z.of_nat (base.size (roles x))) c g grp) = inr t').
  { rewrite Hu in Hc. destruct (IsLfgGroup guid).
    - rewrite (u8_small (t_lfgGroups t + 1)) in Hc by (unfold is_byte; lia). by do 2 eexists.
    - do 2 eexists. split; [|exact Hc]. lia. }
  clear Hc. destruct Hc' as (c & g & Hcc & Hc).
  assert (Hc1 : 0 <= c <= 2) by (destruct (IsLfgGroup guid); lia).
  assert (Hle : t_players t + Z.of_nat (base.size (roles x)) <= 5 /\ c <= 1).
  { destruct l as [|g' l]; cbn in Hc; [injection Hc as <-; cbn in *; lia|].
    destruct ((c <? 2) && (t_players t + Z.of_nat (base.size (roles x)) <=? MAXGROUPSIZE)) eqn:E.
    - unfold MAXGROUPSIZE in E. lia.
    - injection Hc as <-. cbn in *. lia. }
  destruct (IH (mkTally (t_players t + Z.of_nat (base.size (roles x))) c g grp)) as (xs & He & Hn & Hlf & Hs & Hg2);
    [cbn; lia|cbn; lia|done..|]. cbn [t_players t_lfgGroups t_groups] in *.
  exists (offer_of x :: xs). split; [by constructor|]. unfold players_in, lfg_count in *. cbn.
  split; [lia|]. split; [destruct (IsLfgGroup guid); cbn; lia|]. split.
  - intros p Hpl. apply Hs. unfold grp. rewrite lookup_union_is_Some, lookup_fmap, fmap_is_Some.
    destruct Hpl as [Hpl|Hpl]; [auto|]. apply Exists_cons in Hpl as [Hpl|Hpl]; auto.
  - intros p h Hph. destruct (Hg2 p h Hph) as [Hin|(h' & y & Hin & Hy & ->)].
    + unfold grp in Hin. apply lookup_union_Some_raw in Hin as [Hin|[_ Hin]]; [|auto]. right.
      apply lookup_fmap_Some in Hin as (r & <- & Hr). exists guid, (offer_of x). split; [left|]. split; [by eexists|done].
    + right. exists h', y. split; [by right|done].
Qed.

Lemma count_players_missing q l t g : count_players q l t = inl g -> QueueDataStore q !! g = None.
Proof.
  revert t. induction l as [|guid l IH]; intros t; cbn [count_players]; [discriminate|].
  case_match; [|discriminate]. destruct (QueueDataStore q !! guid) as [x|] eqn:E; [|by intros [= <-]].
  case_match; apply IH.
Qed.

(** ** Merging the roles *)

Lemma existsb_false {A} (f : A -> bool) l : existsb f l = false -> forall x, In x l -> f x = false.
Proof.
  intros Hf x Hx. destruct (f x) eqn:E; [|done]. exfalso.
  assert (existsb f l = true) by (apply existsb_exists; eauto). congruence.
Qed.

Definition merge (m : gmap Z Z) (l : list (Z * Z)) : gmap Z Z :=
  foldl (fun m p => if ignored p.1 m then m else <[p.1 := p.2]> m) m l.

Lemma ignored_insert p r m : nobody_ignored m -> ignored p m = false -> nobody_ignored (<[p := r]> m).
Proof.
  intros Hm Hi.
  assert (Hp : forall a, is_Some (m !! a) -> p <> a -> HasIgnore p a = false).
  { intros a [s Ha] Hne. unfold ignored in Hi.
    pose proof (existsb_false _ _ Hi (a, s)) as H1. cbn in H1. specialize (H1 ltac:(apply list_elem_of_In, elem_of_map_ordered, Ha)).
    destruct (Z.eqb_spec p a); [done|]. done. }
  intros a b Ha Hb Hne. rewrite lookup_insert_is_Some in Ha, Hb.
  destruct Ha as [<-|[Hpa Ha]], Hb as [<-|[Hpb Hb]]; [done| |rewrite HasIgnore_sym|]; auto.
Qed.

Lemma merge_nobody l m : nobody_ignored m -> nobody_ignored (merge m l).
Proof.
  revert m. induction l as [|[p r] l IH]; intros m Hm; cbn; [done|]. apply IH.
  destruct (ignored p m) eqn:E; [done|]. by apply ignored_insert.
Qed.

Lemma merge_size l m : (base.size (merge m l) <= base.size m + length l)%nat.
Proof.
  revert m. induction l as [|[p r] l IH]; intros m; cbn; [lia|].
  specialize (IH (if ignored p m then m else <[p := r]> m)). unfold merge in *.
  destruct (ignored p m); [lia|]. destruct (m !! p) eqn:E.
  - rewrite map_size_insert_Some in IH by (by eexists). lia.
  - rewrite map_size_insert_None in IH by done. lia.
Qed.

(** If nobody was left out, the union has been built. *)
Lemma merge_union l m : NoDup l.*1 -> base.size (merge m l) = (base.size m + length l)%nat ->
  merge m l = m ∪ list_to_map l.
Proof.
  revert m. induction l as [|[p r] l IH]; intros m Hnd Hs; cbn.
  { by rewrite (right_id_L ∅ (∪)). }
  cbn in Hnd. apply NoDup_cons in Hnd as [Hp Hnd]. cbn in Hs.
  pose proof (merge_size l (if ignored p m then m else <[p := r]> m)) as Hle. unfold merge in *.
  destruct (ignored p m) eqn:Hi; [lia|]. destruct (m !! p) eqn:Hm.
  { rewrite map_size_insert_Some in Hle by (by eexists). lia. }
  rewrite IH; [|done|rewrite map_size_insert_None by done; lia].
  rewrite <- insert_union_l. apply map_eq. intros i. destruct (decide (i = p)) as [->|Hne].
  - rewrite lookup_insert_eq, lookup_union_r, lookup_insert_eq by done. done.
  - rewrite lookup_insert_ne by done. rewrite !lookup_union. by rewrite (lookup_insert_ne _ p i) by done.
Qed.

Lemma list_to_map_ordered (m : gmap Z Z) : list_to_map (map_ordered m) = m.
Proof.
  rewrite <- (list_to_map_to_list m) at 2. apply list_to_map_proper; [apply NoDup_map_ordered|].
  apply merge_sort_Permutation.
Qed.

Lemma all_roles_from xs m : nobody_ignored m ->
  let r := foldl add_roles m xs in
  nobody_ignored r /\ (base.size r <= base.size m + players_in (offer_of <$> xs))%nat /\
  (base.size r = (base.size m + players_in (offer_of <$> xs))%nat ->
   r = m ∪ union_list (snd <$> (offer_of <$> xs))).
Proof.
  unfold players_in. revert m. induction xs as [|x xs IH]; intros m Hm; cbn.
  { split; [done|]. split; [lia|]. intros _. by rewrite (right_id_L ∅ (∪)). }
  change (foldl add_roles (add_roles m x) xs) with (foldl add_roles (merge m (map_ordered (roles x))) xs).
  pose proof (merge_size (map_ordered (roles x)) m) as Hsz. rewrite length_map_ordered in Hsz.
  destruct (IH _ (merge_nobody (map_ordered (roles x)) m Hm)) as (H1 & H2 & H3). split; [done|].
  split; [lia|]. intros Hs.
  assert (Hx : base.size (merge m (map_ordered (roles x))) = (base.size m + base.size (roles x))%nat) by lia.
  rewrite H3 by lia. rewrite merge_union; [|apply NoDup_map_ordered|by rewrite length_map_ordered].
  rewrite list_to_map_ordered. by rewrite (assoc_L (∪)).
Qed.

Lemma all_roles_spec xs :
  let r := all_roles xs in
  nobody_ignored r /\ (base.size r <= players_in (offer_of <$> xs))%nat /\
  (base.size r = players_in (offer_of <$> xs) -> r = union_list (snd <$> (offer_of <$> xs))).
Proof.
  destruct (all_roles_from xs ∅) as (H1 & H2 & H3); [intros a b [? Ha]; done|].
  rewrite map_size_empty in H2, H3. split; [done|]. split; [done|]. intros Hs. unfold all_roles.
  rewrite H3 by done. by rewrite (left_id_L ∅ (∪)).
Qed.

Lemma common_dungeons_in xs d : d ∈ common_dungeons xs -> Forall (fun x => d ∈ x.1) (offer_of <$> xs).
Proof.
  destruct xs as [|x xs]; [constructor|]. cbn.
  assert (Hg : forall e, d ∈ foldl (fun d y => d ∩ dungeons y) e xs -> d ∈ e /\ Forall (fun x => d ∈ x.1) (offer_of <$> xs)).
  { induction xs as [|y xs IH]; intros e He; cbn in *; [by split|].
    apply IH in He as [He Hxs]. split; [set_solver|]. constructor; [cbn; set_solver|done]. }
  intros Hd%Hg. constructor; tauto.
Qed.

(** ** Making a proposal *)

(** Only the random values are used up. *)
Definition same_but_dice (s s' : QS) : Prop :=
  q_queue s' = q_queue s /\ q_proposals s' = q_proposals s /\ m_lfgProposalId s' = m_lfgProposalId s.
Lemma same_but_dice_refl s : same_but_dice s s.
Proof. by split. Qed.
Lemma same_but_dice_trans s1 s2 s3 : same_but_dice s1 s2 -> same_but_dice s2 s3 -> same_but_dice s1 s3.
Proof. intros (H1 & H2 & H3) (H4 & H5 & H6). repeat split; congruence. Qed.

Lemma urand_runs lo hi s : lo <= hi -> runs (urand lo hi) s (fun d s' => lo <= d <= hi /\ same_but_dice s s').
Proof.
  intros Hle. unfold runs, urand. destruct (q_dice s) as [|d l]; [split; [lia|by split]|].
  pose proof (Z.mod_pos_bound d (hi - lo + 1) ltac:(lia)). split; [lia|by split].
Qed.

Lemma SelectRandom_runs d s : d <> ∅ ->
  runs (SelectRandomContainerElement d) s (fun x s' => x ∈ d /\ same_but_dice s s').
Proof.
  intros Hd. apply runs_bind.
  assert (Hn : (0 < base.size d)%nat).
  { destruct (base.size d) eqn:E; [|lia]. apply size_empty_inv in E. destruct Hd. by apply leibniz_equiv. }
  eapply runs_mono; [apply urand_runs; lia|]. intros i s' [Hi Hs]. cbn beta.
  destruct (set_ordered d !! Z.to_nat i) as [x|] eqn:E.
  - apply runs_ret. split; [|done]. apply elem_of_set_ordered. by eapply list_elem_of_lookup_2.
  - exfalso. apply lookup_ge_None in E. unfold set_ordered in E.
    rewrite (Permutation_length (merge_sort_Permutation _ _)) in E. unfold base.size, set_size in *. cbn in *. lia.
Qed.

Lemma choose_leader_runs l b cur s (P : Z -> Prop) :
  (l <> [] /\ b = false \/ P cur) -> (cur = 0 \/ P cur) -> Forall (fun p => P p.1) l ->
  runs (choose_leader l b cur) s (fun x s' => P x /\ same_but_dice s s').
Proof.
  revert b cur s. induction l as [|[p role] l IH]; intros b cur s Hne Hcur Hl; cbn.
  { split; [by destruct Hne as [[? ?]|?]|apply same_but_dice_refl]. }
  inversion_clear Hl as [|? ? Hp Hl']. cbn in Hp.
  assert (Htake : forall b, runs (choose_leader l b p) s (fun x s' => P x /\ same_but_dice s s')) by (intros; apply IH; auto).
  assert (Hroll : forall b, P cur -> runs (urand 0 1 ≫= fun d => choose_leader l b (if negb (d =? 0) then p else cur)) s
                    (fun x s' => P x /\ same_but_dice s s')).
  { intros b' Hc. apply runs_bind. eapply runs_mono; [apply urand_runs; lia|]. intros d s1 [_ Hs1]. cbn beta.
    eapply runs_mono; [apply (IH b' (if negb (d =? 0) then p else cur) s1); destruct (negb (d =? 0)); auto|].
    intros x s2 [Hx Hs2]. split; [done|by eapply same_but_dice_trans]. }
  assert (Hz : cur =? 0 = false -> P cur) by (intros; destruct Hcur; [lia|done]).
  destruct (has_flag role PLAYER_ROLE_LEADER).
  - destruct (negb b || (cur =? 0)) eqn:E; [apply Htake|]. apply Hroll, Hz. by apply orb_false_iff in E as [_ E].
  - destruct b; [apply IH; try done; right; by destruct Hne as [[_ ?]|?]|].
    destruct (cur =? 0) eqn:E; [apply Htake|by apply Hroll, Hz].
Qed.

Lemma add_one_made s s1 f p :
  same_but_dice s s1 -> offers (f (q_queue s)) = offers (q_queue s) ->
  sublist (newToQueueStore (f (q_queue s))) (newToQueueStore (q_queue s)) ->
  valid_proposal (offers (q_queue s)) p ->
  made s (mkQS (f (q_queue s)) (<[u32 (m_lfgProposalId s + 1) := p]> (q_proposals s)) (u32 (m_lfgProposalId s + 1))
            (q_dice s1)) [p].
Proof. intros _ Ho Hn Hp. split; [done|done|done|by constructor]. Qed.

(** Taking the guids of a proposal from both lists. *)
Fixpoint remove_all (l : list Z) (q : LFGQueue) : LFGQueue :=
  match l with
  | [] => q
  | g :: l => remove_all l (RemoveFromCurrentQueue g (RemoveFromNewQueue g q))
  end.
Lemma remove_all_runs l s (Q : unit -> QS -> Prop) :
  Q tt (mkQS (remove_all l (q_queue s)) (q_proposals s) (m_lfgProposalId s) (q_dice s)) ->
  runs (each (fun g => on_queue (fun q => RemoveFromCurrentQueue g (RemoveFromNewQueue g q))) l) s Q.
Proof.
  revert s. induction l as [|g l IH]; intros s HQ; [by destruct s|]. cbn [each]. apply runs_bind, runs_on_queue. by apply IH.
Qed.
Lemma remove_all_same l q :
  offers (remove_all l q) = offers q /\ sublist (newToQueueStore (remove_all l q)) (newToQueueStore q).
Proof.
  revert q. induction l as [|g l IH]; intros q; cbn; [done|]. destruct (IH (RemoveFromCurrentQueue g (RemoveFromNewQueue g q))) as [-> Hs].
  split; [done|]. etrans; [exact Hs|]. apply remove_sublist.
Qed.

Lemma player_data_Some isNew group groups p d :
  player_data isNew group groups p = Some d -> exists g, groups !! p.1 = Some g /\
  d = (p.1, mkPP p.2 (if negb isNew && negb (g =? 0) && (g =? group) then LFG_ANSWER_AGREE else LFG_ANSWER_PENDING) g).
Proof. unfold player_data. destruct (groups !! p.1) as [g|]; [|done]. intros [= <-]. by exists g. Qed.

(** The players of a proposal, from the roles. *)
Lemma players_of_roles isNew group groups (r : gmap Z Z) :
  (forall p, is_Some (r !! p) -> is_Some (groups !! p)) ->
  exists l, mapM (player_data isNew group groups) (map_ordered r) = Some l /\
    pp_role <$> (list_to_map l : gmap Z LfgProposalPlayer) = r /\
    forall p d, (list_to_map l : gmap Z LfgProposalPlayer) !! p = Some d -> groups !! p = Some (pp_group d) /\
      (pp_accept d <> LFG_ANSWER_PENDING ->
       pp_accept d = LFG_ANSWER_AGREE /\ isNew = false /\ pp_group d = group /\ group <> 0).
Proof.
  intros Hg. assert (Hm : is_Some (mapM (player_data isNew group groups) (map_ordered r))).
  { apply mapM_is_Some, Forall_forall. intros [p x] Hp%elem_of_map_ordered. cbn.
    destruct (Hg p ltac:(by eexists)) as [g Hpg]. unfold player_data. cbn. rewrite Hpg. by eexists. }
  destruct Hm as [l Hl]. exists l. split; [done|]. apply mapM_Some in Hl.
  rewrite <- (list_to_map_ordered r) at 1. pose proof (NoDup_map_ordered r) as Hnd. revert Hnd Hl.
  generalize (map_ordered r) as k. clear. intros k Hnd Hl.
  induction Hl as [|[p x] d k l Hd Hl IH]; cbn in *; [split; [by rewrite fmap_empty|done]|].
  apply NoDup_cons in Hnd as [_ Hnd]. destruct (IH Hnd) as [IH1 IH2].
  apply player_data_Some in Hd as (g & Hpg & ->). cbn in *. split; [by rewrite fmap_insert, IH1|].
  intros q d. destruct (decide (q = p)) as [->|Hne]; [|rewrite lookup_insert_ne by done; apply IH2].
  rewrite lookup_insert_eq. intros [= <-]. cbn. split; [done|].
  destruct (negb isNew && negb (g =? 0) && (g =? group)) eqn:E; [|done]. intros _.
  apply andb_true_iff in E as [[E1%negb_true_iff E2%negb_true_iff]%andb_true_iff ->%Z.eqb_eq]. split; [done|]. split; [done|]. split; [done|lia].
Qed.

(** ** The verdicts on a list of guids *)

Definition makes {A} (m : QM A) (s : QS) : Prop := runs m s (fun _ s' => exists ps, made s s' ps).

Lemma verdict_makes key c s : makes (verdict key c) s.
Proof. eapply runs_mono; [apply verdict_runs|]. intros a s' [_ Hs']. by eexists. Qed.

(** What the checks have established about [check] when enough players are
    there. *)
Record checked (s : QS) (check : list Z) (t : tally) (xs : list offer) (r : gmap Z Z) (d : gset Z) : Prop := {
  ck_entries : entries (offers (q_queue s)) check xs;
  ck_some : xs <> [];
  ck_players : t_players t = Z.of_nat (players_in xs);
  ck_size : base.size r = players_in xs;
  ck_party : party (union_list (snd <$> xs)) r;
  ck_ignore : (1 < length check)%nat -> nobody_ignored r;
  ck_dungeons : d <> ∅ /\ forall e, e ∈ d -> Forall (fun x => e ∈ x.1) xs;
  ck_lfg : lfg_count check <= 1;
  ck_covers : forall p, Exists (fun x => is_Some (x.2 !! p)) xs -> is_Some (t_groups t !! p);
  ck_groups : forall p g, t_groups t !! p = Some g ->
    exists h x, (h, x) ∈ zip check xs /\ is_Some (x.2 !! p) /\ g = group_of h
}.

Lemma union_list_in (xs : list offer) p :
  is_Some ((union_list (snd <$> xs) : gmap Z Z) !! p) -> Exists (fun x => is_Some (x.2 !! p)) xs.
Proof.
  induction xs as [|x xs IH]; cbn; [by intros [? ?]|]. rewrite lookup_union_is_Some.
  intros [Hx|Hx]; [by left|right; auto].
Qed.

Lemma party_players groles choice p : party groles choice -> is_Some (choice !! p) -> is_Some (groles !! p).
Proof. intros [Hp _] [a Ha]. specialize (Hp p). rewrite Ha in Hp. inversion Hp; subst. by eexists. Qed.

Lemma make_proposal_makes s check t xs r d isNew :
  checked s check t xs r d -> players_in xs = 5%nat -> AllQueued check = true ->
  makes (make_proposal now check t r d isNew) s.
Proof.
  intros [He Hne Hpl Hsz Hpa Hig [Hd1 Hd2] Hlf Hcov Hgr] H5 Haq. unfold makes, make_proposal. apply runs_bind.
  eapply runs_mono; [by apply SelectRandom_runs|]. intros dungeon s1 [Hdun Hs1]. cbn beta. apply runs_bind.
  eapply runs_mono; [apply (choose_leader_runs _ _ _ _ (fun p => is_Some (r !! p)))|].
  - left. split; [|done]. intros E%map_ordered_nil. subst r. rewrite map_size_empty in Hsz. lia.
  - by left.
  - apply Forall_forall. intros [p x] Hp%elem_of_map_ordered. by eexists.
  - intros leader s2 [Hlead Hs2]. cbn beta. pose proof (same_but_dice_trans _ _ _ Hs1 Hs2) as (E1 & E2 & E3).
    destruct (players_of_roles isNew (t_group t) (t_groups t) r) as (l & -> & Hrole & Hdata).
    { intros p Hp. apply Hcov, union_list_in. by eapply party_players. }
    apply runs_bind, remove_all_runs. rewrite E1. apply runs_bind. unfold AddProposal. cbn.
    unfold runs at 1. cbn. apply runs_bind, runs_on_queue, runs_ret. rewrite E2, E3.
    set (p := mkProposal _ _ _ _ _ _ _ _). exists [p].
    destruct (remove_all_same check (q_queue s)) as [Hoff Hsub].
    apply (add_one_made s s2 (fun q => SetCompatibles (ConcatenateGuids check) LFG_COMPATIBLES_MATCH (remove_all check q)));
      [by repeat split|exact Hoff|exact Hsub|].
    exists xs. split; [exact He|]. split; cbn; try done.
    + by apply Hd2.
    + split; [done|]. rewrite <- (map_size_fmap pp_role). by rewrite Hrole, Hsz.
    + by rewrite Hrole.
    + intros q. rewrite Hrole. eapply party_of_five; [exact Hpa|lia].
    + intros Hlen a b Ha Hb. apply Hig; [done|..]; by rewrite <- Hrole, lookup_fmap, fmap_is_Some.
    + rewrite <- Hrole, lookup_fmap, fmap_is_Some in Hlead. exact Hlead.
    + unfold lfg_count in Hlf. lia.
    + intros q x Hq. destruct (Hdata q x Hq) as [Hg _]. destruct (Hgr _ _ Hg) as (h & y & Hin & Hy & ->). eauto.
    + intros q x Hq Ha. destruct (Hdata q x Hq) as [_ Hacc]. destruct (Hacc Ha) as (? & ? & Eg & Hz).
      split; [done|]. split; [done|]. split; [exact Eg|exact Hz].
Qed.

Lemma check_enough_makes s check t xs r d :
  checked s check t xs r d -> makes (check_enough now check t r d) s.
Proof.
  intros Hc. unfold check_enough. destruct (Z.eqb_spec (t_players t) MAXGROUPSIZE) as [E|E]; cbn [negb].
  - destruct (AllQueued check) eqn:Haq; cbn [negb]; [|apply verdict_makes].
    eapply make_proposal_makes; [exact Hc| |done]. pose proof (ck_players _ _ _ _ _ _ Hc). unfold MAXGROUPSIZE in E. lia.
  - eapply runs_mono; [eapply with_less_runs, (ck_entries _ _ _ _ _ _ Hc)|]. intros a s' Hs'. by exists [].
Qed.

Lemma datas_runs s check os : entries (offers (q_queue s)) check os ->
  runs (datas check) s (fun xs s' => s' = s /\ offer_of <$> xs = os).
Proof.
  intros He. unfold datas. apply runs_bind, runs_get.
  assert (Hm : exists xs, mapM (fun g => QueueDataStore (q_queue s) !! g) check = Some xs /\ offer_of <$> xs = os).
  { induction He as [|g x l xs Hx He (ys & IH & <-)]; [by exists []|].
    destruct (offers_lookup _ _ _ Hx) as (d & Hd & <-). exists (d :: ys). cbn. rewrite Hd, IH. done. }
  destruct Hm as (xs & -> & Hxs). by apply runs_ret.
Qed.

Lemma entries_ok o l xs : offers_ok o -> entries o l xs -> Forall offer_ok xs.
Proof. intros Ho He. induction He; constructor; [by eapply Ho|done]. Qed.

Lemma union_bytes (xs : list offer) p r :
  Forall offer_ok xs -> (union_list (snd <$> xs) : gmap Z Z) !! p = Some r -> is_byte r.
Proof.
  intros Hxs. induction Hxs as [|x xs Hx Hxs IH]; cbn; [done|].
  intros [Hl|[_ Hl]]%lookup_union_Some_raw; [by apply (oo_bytes _ Hx p)|by apply IH].
Qed.

(** An accepted choice for the players of [xs]. *)
Lemma CheckGroupRoles_party xs r choice :
  Forall offer_ok xs -> xs <> [] -> (players_in xs <= 5)%nat -> r = union_list (snd <$> xs) ->
  base.size r = players_in xs -> CheckGroupRoles r = (true, choice) ->
  party r choice /\ base.size choice = players_in xs /\ r <> ∅.
Proof.
  intros Hok Hne H5 Hr Hs Hc.
  assert (Hr0 : r <> ∅).
  { intros E. rewrite E, map_size_empty in Hs. destruct Hok as [|x xs Hx Hok]; [done|].
    pose proof (oo_players _ Hx) as Hx2. apply map_size_non_empty_iff in Hx2. unfold players_in in Hs. cbn in Hs. lia. }
  assert (Hp : party r choice).
  { pose proof (CheckGroupRoles_spec r) as Hspec. rewrite Hc in Hspec. apply Hspec; [|lia|done].
    intros p x Hx. subst r. by apply (union_bytes xs p). }
  split; [done|]. split; [|done]. by rewrite (party_equal _ _ Hp).
Qed.

Lemma roles_nobody (r choice : gmap Z Z) : party r choice -> nobody_ignored r -> nobody_ignored choice.
Proof. intros Hp Hn a b Ha Hb. apply Hn; by eapply party_players. Qed.

Section Check.
Context (s : QS) (check : list Z) (t : tally) (xs : list LfgQueueData).
Hypothesis Hok : offers_ok (offers (q_queue s)).
Hypothesis Hne : check <> [].
Hypothesis He : entries (offers (q_queue s)) check (offer_of <$> xs).
Hypothesis Hpl : t_players t = Z.of_nat (players_in (offer_of <$> xs)).
Hypothesis H5 : t_players t <= 5.
Hypothesis Hlf : lfg_count check <= 1.
Hypothesis Hcov : forall p, Exists (fun x => is_Some (x.2 !! p)) (offer_of <$> xs) -> is_Some (t_groups t !! p).
Hypothesis Hgr : forall p g, t_groups t !! p = Some g ->
  exists h x, (h, x) ∈ zip check (offer_of <$> xs) /\ is_Some (x.2 !! p) /\ g = group_of h.

Lemma entries_some : offer_of <$> xs <> [].
Proof. intros E. rewrite E in He. by inversion He; subst. Qed.

Lemma check_several_makes : makes (check_several now check t xs) s.
Proof.
  unfold check_several. destruct (all_roles_spec xs) as (Hn & Hle & Heq).
  destruct (u8 (t_players t - Z.of_nat (base.size (all_roles xs))) =? 0) eqn:E; cbn [negb]; [|apply verdict_makes].
  apply Z.eqb_eq in E. rewrite u8_small in E by (unfold is_byte; lia).
  assert (Hs : base.size (all_roles xs) = players_in (offer_of <$> xs)) by lia. specialize (Heq Hs).
  destruct (CheckGroupRoles (all_roles xs)) as [ok choice] eqn:Hc. destruct ok; cbn [negb]; [|apply verdict_makes].
  destruct (CheckGroupRoles_party (offer_of <$> xs) _ choice (entries_ok _ _ _ Hok He) entries_some ltac:(lia) Heq Hs Hc)
    as (Hp & Hsz & _).
  destruct (bool_decide (common_dungeons xs = ∅)) eqn:Hd; [apply verdict_makes|]. apply bool_decide_eq_false in Hd.
  eapply check_enough_makes. split; [exact He|exact entries_some|exact Hpl|exact Hsz|by rewrite <- Heq| | |exact Hlf|exact Hcov|exact Hgr].
  - intros _. by eapply roles_nobody.
  - split; [done|]. intros e. apply common_dungeons_in.
Qed.

Lemma check_single_makes : length check = 1%nat -> t_players t = 5 -> makes (check_single now check t xs) s.
Proof.
  intros H1 Hp5. pose proof (Forall2_length _ _ _ He) as Hlen. rewrite length_fmap in Hlen.
  destruct xs as [|x [|y ys]] eqn:Ex; cbn in Hlen; try lia. unfold check_single.
  pose proof (entries_ok _ _ _ Hok He) as Hoks. cbn in Hoks. inversion_clear Hoks as [|? ? Hx _].
  assert (Hsz : base.size (roles x) = 5%nat) by (unfold players_in in Hpl; cbn in Hpl; lia).
  destruct (CheckGroupRoles (roles x)) as [ok choice] eqn:Hc. pose proof (oo_full _ Hx Hsz) as Hok1. cbn in Hok1.
  rewrite Hc in Hok1. cbn in Hok1. subst ok.
  assert (Hr : roles x = union_list (snd <$> (offer_of <$> [x]))) by (cbn; by rewrite (right_id_L ∅ (∪))).
  destruct (CheckGroupRoles_party (offer_of <$> [x]) (roles x) choice) as (Hp & Hs & _);
    [by constructor|done|unfold players_in; cbn; lia|exact Hr|unfold players_in; cbn; lia|exact Hc|].
  eapply check_enough_makes. split; [exact He|done|exact Hpl|exact Hs|by rewrite <- Hr|lia| |exact Hlf|exact Hcov|exact Hgr].
  split; [apply (oo_dungeons _ Hx)|]. intros e Hin. by repeat constructor.
Qed.
End Check.

Lemma check_all_makes s check :
  offers_ok (offers (q_queue s)) -> check <> [] -> makes (check_all now check) s.
Proof.
  intros Hok Hne. unfold check_all. unfold makes. apply runs_bind, runs_get.
  destruct (count_players (q_queue s) check (mkTally 0 0 0 ∅)) as [g|t] eqn:Hc.
  { eapply runs_mono; [apply drop_missing_runs; by eapply count_players_missing|]. intros a s' Hs'. by exists []. }
  assert (Hsingle : length check = 1%nat -> t_players t <= 5 /\ t_lfgGroups t <= 1).
  { destruct check as [|g [|? ?]]; try discriminate. intros _. cbn [count_players t_players t_lfgGroups] in Hc.
    change ((0 <? 2) && (0 <=? MAXGROUPSIZE)) with true in Hc. cbv iota in Hc.
    destruct (QueueDataStore (q_queue s) !! g) as [x|] eqn:Hx; [|done].
    assert (Hox : offers (q_queue s) !! g = Some (offer_of x)) by (unfold offers; by rewrite lookup_fmap, Hx).
    pose proof (oo_size _ (Hok _ _ Hox)) as Hsz. cbn in Hsz.
    rewrite (u8_small (0 + _)) in Hc by (unfold is_byte; lia). change (u8 (0 + 1)) with 1 in Hc.
    assert (Hn : 0 + Z.of_nat (base.size (roles x)) <= 5) by lia. revert Hc Hn. clear. generalize (0 + Z.of_nat (base.size (roles x))).
    intros n. assert (Ht : forall A B (a b : B), @inr A B a = inr b -> b = a) by (by intros ? ? ? ? [= ->]).
    destruct (IsLfgGroup g); intros ->%Ht Hn; cbn [t_players t_lfgGroups]; lia. }
  pose proof (fun h5 h1 => count_players_found (q_queue s) check (mkTally 0 0 0 ∅) t Hok ltac:(cbn; lia) ltac:(cbn; lia) Hc h5 h1) as Hfound.
  cbn [t_players t_lfgGroups t_groups] in Hfound.
  destruct ((length check =? 1)%nat && negb (t_players t =? MAXGROUPSIZE)) eqn:E1.
  { apply andb_true_iff in E1 as [E1%Nat.eqb_eq _]. destruct (Hsingle E1) as [h5 h1].
    destruct (Hfound h5 h1) as (xs & He & _). apply runs_bind. eapply runs_mono; [by apply datas_runs|].
    intros ys s' [-> _]. eapply runs_mono; [by eapply with_less_runs|]. intros a s'' Hs''. by exists []. }
  destruct (1 <? t_lfgGroups t) eqn:E2; [apply verdict_makes|].
  destruct (MAXGROUPSIZE <? t_players t) eqn:E3; [apply verdict_makes|]. unfold MAXGROUPSIZE in *.
  destruct (Hfound ltac:(lia) ltac:(lia)) as (os & He & Hpl & Hlf & Hcov & Hgr).
  apply runs_bind. eapply runs_mono; [by apply datas_runs|]. intros xs s' [-> <-].
  assert (Hgr' : forall p g, t_groups t !! p = Some g -> exists h x, (h, x) ∈ zip check (offer_of <$> xs) /\
    is_Some (x.2 !! p) /\ g = group_of h) by (intros p g Hp; destruct (Hgr p g Hp) as [?|?]; [done|done]).
  destruct (1 <? length check)%nat eqn:E4.
  - apply check_several_makes; try done; try lia. intros p Hp. apply Hcov. by right.
  - apply Nat.ltb_ge in E4. assert (H1 : length check = 1%nat) by (destruct check; cbn in *; [done|lia]).
    rewrite H1 in E1. cbn in E1. apply negb_false_iff, Z.eqb_eq in E1.
    apply check_single_makes; try done; try lia. intros p Hp. apply Hcov. by right.
Qed.

Lemma makes_bind {A B} (m : QM A) (f : A -> QM B) s :
  offers_ok (offers (q_queue s)) -> makes m s ->
  (forall a s', offers_ok (offers (q_queue s')) -> makes (f a) s') -> makes (m ≫= f) s.
Proof.
  intros Hok Hm Hf. apply runs_bind. eapply runs_mono; [exact Hm|]. intros a s1 [ps H1].
  eapply runs_mono; [apply Hf; by rewrite (mk_offers _ _ _ H1)|]. intros b s2 [qs H2].
  exists (ps ++ qs). by eapply made_trans.
Qed.

Lemma CheckCompatibility_makes check s :
  offers_ok (offers (q_queue s)) -> makes (CheckCompatibility now check) s.
Proof.
  revert s. induction check as [|g check IH]; intros s Hok; cbn [CheckCompatibility].
  { exists []. apply made_refl. }
  case_match; [exists []; apply made_refl|]. case_match; [|by apply check_all_makes].
  apply makes_bind; [done|by apply IH|]. intros c s' Hok'. case_match; [apply verdict_makes|by apply check_all_makes].
Qed.

(** ** The search *)

(** What is left of the guids to try is no longer than before. *)
Definition searches (m : QM (LfgCompatibility * list Z)) (n : nat) (s : QS) : Prop :=
  runs m s (fun r s' => (exists ps, made s s' ps) /\ (length r.2 <= n)%nat).

Lemma try_all_searches find n check all c s :
  (forall check all s, (length all < n)%nat -> offers_ok (offers (q_queue s)) -> searches (find check all) (length all) s) ->
  (length all <= n)%nat -> offers_ok (offers (q_queue s)) -> searches (try_all find n check all c) (length all) s.
Proof.
  intros Hf. revert all s. induction n as [|n IH]; intros [|x all] s Hn Hok; cbn [try_all length] in *; try lia;
    try (split; [exists []; apply made_refl|cbn; lia]).
  apply runs_bind. eapply runs_mono; [apply Hf; [lia|done]|]. intros [sub rest] s1 [[ps Hm1] Hlen]. cbn in Hlen. cbn beta iota.
  case_match; [split; [by exists ps|cbn; lia]|].
  eapply runs_mono; [apply IH|].
  - intros. apply Hf; [lia|done].
  - lia.
  - by rewrite (mk_offers _ _ _ Hm1).
  - intros r s2 [[qs Hq2] Hr]. split; [|lia]. exists (ps ++ qs). by eapply made_trans.
Qed.

Lemma FindNewGroups_searches fuel check all s :
  (length all < fuel)%nat -> offers_ok (offers (q_queue s)) ->
  searches (FindNewGroups now fuel check all) (length all) s.
Proof.
  revert check all s. induction fuel as [|fuel IH]; intros check all s Hf Hok; [lia|]. cbn [FindNewGroups].
  apply runs_bind, runs_get. apply runs_bind. eapply runs_mono.
  { instantiate (1 := fun _ s' => exists ps, made s s' ps).
    case_match; [by apply CheckCompatibility_makes|exists []; apply made_refl]. }
  intros c s1 [ps Hm1]. assert (Hok1 : offers_ok (offers (q_queue s1))) by (by rewrite (mk_offers _ _ _ Hm1)).
  case_match; [|case_match].
  - apply runs_bind, runs_on_queue, runs_ret. split; [|done]. exists ps. eapply made_quiet; [exact Hm1|]. by apply made_on_queue.
  - eapply runs_mono; [apply try_all_searches; [|done..]|].
    + intros check' all' s' Hl Hok'. apply IH; [lia|done].
    + intros r s2 [[qs Hq2] Hr]. split; [|done]. exists (ps ++ qs). by eapply made_trans.
  - split; [by exists ps|done].
Qed.

Lemma find_groups_runs fuel n s :
  (length (newToQueueStore (q_queue s)) <= fuel)%nat -> offers_ok (offers (q_queue s)) ->
  runs (find_groups now fuel n) s (fun _ s' => (exists ps, made s s' ps) /\ newToQueueStore (q_queue s') = []).
Proof.
  revert n s. induction fuel as [|fuel IH]; intros n s Hf Hok; cbn [find_groups]; apply runs_bind, runs_get;
    destruct (newToQueueStore (q_queue s)) as [|g l] eqn:Hnew; cbn in Hf; try lia;
    try (split; [exists []; apply made_refl|done]).
  apply runs_bind, runs_on_queue. apply runs_bind.
  set (s1 := mkQS _ _ _ _).
  assert (H1 : made s s1 []).
  { apply (made_on_queue (RemoveFromNewQueue g) s); [done|]. cbn. apply remove_sublist. }
  assert (Hl1 : (length (newToQueueStore (q_queue s1)) <= fuel)%nat).
  { cbn. rewrite Hnew. cbn. rewrite Z.eqb_refl. cbn. pose proof (sublist_length _ _ (remove_sublist g l)). unfold remove in *. lia. }
  eapply runs_mono; [apply FindNewGroups_searches; [lia|done]|]. intros [c rest] s2 [[ps Hm2] _]. cbn beta iota.
  assert (H12 : made s s2 ps) by (by eapply quiet_made).
  assert (Hl2 : (length (newToQueueStore (q_queue s2)) <= fuel)%nat)
    by (pose proof (sublist_length _ _ (mk_new _ _ _ Hm2)); lia).
  assert (Hgo : forall n s3, made s s3 ps -> newToQueueStore (q_queue s3) = newToQueueStore (q_queue s2) ->
    runs (find_groups now fuel n) s3 (fun _ s' => (exists ps, made s s' ps) /\ newToQueueStore (q_queue s') = [])).
  { intros m s3 H3 E3. eapply runs_mono; [apply IH; [by rewrite E3|by rewrite (mk_offers _ _ _ H3)]|].
    intros r s4 [[qs Hm4] Hn4]. split; [|done]. exists (ps ++ qs). by eapply made_trans. }
  destruct (bool_decide _); [by apply Hgo|]. apply runs_bind, runs_on_queue. apply Hgo; [|done].
  eapply made_quiet; [exact H12|]. by apply made_on_queue.
Qed.

Lemma FindGroups_runs s : offers_ok (offers (q_queue s)) ->
  runs (FindGroups now) s (fun _ s' => (exists ps, made s s' ps) /\ newToQueueStore (q_queue s') = []).
Proof. intros Hok. unfold FindGroups. apply runs_bind, runs_get. by apply find_groups_runs. Qed.

End Parties.

(** ** Runs *)

(** Everyone is in the state of a queued player, as during LFGMgr::Update. *)
#[local] Instance calm : LfgStates := {|
  AllQueued := fun l => negb (length l =? 0)%nat;
  IsLfgGroup := fun _ => false;
  GetOldState := fun _ => LFG_STATE_NONE;
  HasIgnore := fun _ _ => false;
  HasIgnore_sym := fun _ _ => eq_refl
|}.

Inductive queue_op := Join (guid : Z) (d : list Z) (r : list (Z * Z)) | Leave (guid : Z) | Find.
Definition run_op (now : Z) (op : queue_op) : QM unit :=
  match op with
  | Join g d r => on_queue (AddQueueData g now (list_to_set d) (list_to_map r))
  | Leave g => on_queue (RemoveFromQueue g)
  | Find => FindGroups now;; mret tt
  end.
Fixpoint run_ops (now : Z) (l : list queue_op) : QM unit :=
  match l with
  | [] => mret tt
  | op :: l => run_op now op;; run_ops now l
  end.
Definition start : QS := mkQS empty_queue ∅ 0 [].
Definition after (l : list queue_op) : QS :=
  match run_ops 100 l start with Ok (_, s) => s | Err _ => start end.
Definition group_guid (n : Z) : Z := Z.lor n (Z.shiftl HIGHGUID_GROUP 52).

Definition five_joins : list queue_op :=
  [Join 1 [7; 8] [(1, 15)]; Join 2 [8] [(2, 8)]; Join 3 [8; 9] [(3, 8)]; Join 4 [7; 8] [(4, 12)]; Join 5 [8] [(5, 12)]].

Lemma single_ok d r : d <> [] -> is_byte r.2 -> offer_ok (list_to_set d, list_to_map [r]).
Proof.
  intros Hd Hr. destruct r as [p r]. assert (Hs : base.size (list_to_map [(p, r)] : gmap Z Z) = 1%nat)
    by (cbn; rewrite map_size_insert_None, map_size_empty by done; done). split; cbn [fst snd].
  - intros E. destruct d as [|x d]; [done|]. assert (Hx : x ∈ (list_to_set (x :: d) : gset Z)) by set_solver. rewrite E in Hx. set_solver.
  - intros E. rewrite E in Hs. discriminate.
  - lia.
  - intros q x. cbn. rewrite lookup_insert_Some. by intros [[_ <-]|[_ ?]].
  - lia.
Qed.

(** Runs whose joins are in order never fail. *)
Definition op_ok (op : queue_op) : Prop :=
  match op with Join g d r => offer_ok (list_to_set d, list_to_map r) | _ => True end.

Lemma AddQueueData_offers g t d r q : offers (AddQueueData g t d r q) = <[g := (d, r)]> (offers q).
Proof. unfold offers, AddQueueData, AddToQueue. cbn. rewrite lookup_insert_eq. cbn. by rewrite fmap_insert. Qed.

Lemma run_queue_op_ok now op s : op_ok op -> offers_ok (offers (q_queue s)) ->
  runs (run_op now op) s (fun _ s' => offers_ok (offers (q_queue s'))).
Proof.
  intros Hop Hok. destruct op as [g d r|g|]; cbn [run_op].
  - change (offers_ok (offers (AddQueueData g now (list_to_set d) (list_to_map r) (q_queue s)))). rewrite AddQueueData_offers. by apply map_Forall_insert_2.
  - change (offers_ok (offers (RemoveFromQueue g (q_queue s)))). rewrite RemoveFromQueue_offers. by apply map_Forall_delete.
  - apply runs_bind. eapply runs_mono; [by apply FindGroups_runs|].
    intros n s' [[ps Hm] _]. apply runs_ret. by rewrite (mk_offers _ _ _ _ Hm).
Qed.

Lemma run_ops_ok now l s : Forall op_ok l -> offers_ok (offers (q_queue s)) ->
  runs (run_ops now l) s (fun _ s' => offers_ok (offers (q_queue s'))).
Proof.
  intros Hl. revert s. induction Hl as [|op l Hop Hl IH]; intros s Hok; cbn [run_ops]; [exact Hok|].
  apply runs_bind. eapply runs_mono; [by apply run_queue_op_ok|]. intros [] s' Hok'. by apply IH.
Qed.

Lemma after_ok l : Forall op_ok l -> offers_ok (offers (q_queue (after l))).
Proof.
  intros Hl. assert (H0 : offers_ok (offers (q_queue start))) by (intros g x; done).
  pose proof (run_ops_ok 100 l start Hl H0) as Hr. unfold runs in Hr. unfold after.
  by destruct (run_ops 100 l start) as [[u s]|e].
Qed.

Definition first_proposal (o : outcome QueueError (Z * QS)) : option (Z * option Z) :=
  match o with
  | Ok (_, s) => Some (m_lfgProposalId s, pr_dungeonId <$> (q_proposals s !! 1))
  | Err _ => None
  end.

(** Y and X (21) wait, then B, C and 51 join, where B and C make a party. *)
Definition Y : Z := group_guid 1.
Definition B : Z := group_guid 2.
Definition C : Z := group_guid 3.
Definition greedy_joins : list queue_op :=
  [Join Y [1] [(11, 2); (12, 8)]; Join 21 [1; 2] [(21, 8)]; Join B [1; 2] [(31, 2); (32, 8)];
   Join C [2] [(41, 4); (42, 8); (43, 8)]; Join 51 [1; 2] [(51, 4)]; Find].

Definition verdict_of (l : list Z) (s : QS) : option LfgCompatibility :=
  match CheckCompatibility 100 l s with Ok (c, _) => Some c | Err _ => None end.
Definition proposals_of (player : Z) (s : QS) : list Z :=
  map fst (List.filter (fun p => bool_decide (is_Some (pr_players p.2 !! player))) (map_ordered (q_proposals s))).

(** The search misses parties: the guids a call inside has tried are gone
    for the calls around it, so two groups that fit are both left waiting
    after a third one was tried with one of them. *)
Theorem FindGroups_misses_party :
  let s := after greedy_joins in
  q_proposals s = ∅ /\ currentQueueStore (q_queue s) = [Y; 21; B; C; 51] /\ newToQueueStore (q_queue s) = [] /\
  verdict_of [B; C] s = Some LFG_COMPATIBLES_MATCH.
Proof. vm_compute. done. Qed.

(** A player can be put into two proposals: checking a list of guids also
    checks its tails, and a tail that is a party gets a proposal of its own
    although the search goes on with the guids in it. *)
Theorem player_in_two_proposals :
  let s := after (greedy_joins ++ [Leave Y; Join 61 [1; 2] [(61, 8)]; Find]) in
  proposals_of 31 s = [1; 2] /\ currentQueueStore (q_queue s) = [] /\ newToQueueStore (q_queue s) = [].
Proof. vm_compute. done. Qed.
