(* ===== verification/LfgMgr.v ===== *)
(** * The manager of the dungeon finder (game/DungeonFinding/LFGMgr.cpp, LFGScripts.cpp)

    The state of every player and group in the dungeon finder, role checks,
    proposals, votes to kick, and the queues.  What the manager asks of players
    and groups is the class [LfgWorld]; what groups call back is data
    ([group_call]), handled as LFGGroupScript does.  Reading an entry of a store
    with [operator\[\]] creates it with default values, which nothing tells
    from its absence; it is read as the default. *)
From S2P Require Import Prelude.
From S2P Require Import Lists.
From S2P Require Import Util.
From S2P Require Import LfgRoles.
From S2P Require Import LfgQueue.
Local Open Scope Z_scope.

(** ** Data *)

Definition IN_MILLISECONDS : Z := 1000.
Definition LFG_TIME_ROLECHECK : Z := 45 * IN_MILLISECONDS.
Definition LFG_TIME_BOOT : Z := 120.
Definition LFG_QUEUEUPDATE_INTERVAL : Z := 15 * IN_MILLISECONDS.
Definition LFG_GROUP_KICK_VOTES_NEEDED : Z := 3.
Definition LFG_GROUP_MAX_KICKS : Z := 3.

Record LfgPlayerData := mkPlayer {
  p_state : LfgState;
  p_oldState : LfgState;
  p_team : Z;
  p_group : Z;
  p_roles : Z;
  p_comment : text;
  p_selected : gset Z;
  p_locked : gmap Z Z
}.
Definition new_player : LfgPlayerData := mkPlayer LFG_STATE_NONE LFG_STATE_NONE 0 0 0 [] ∅ ∅.
Definition player_SetState (st : LfgState) (d : LfgPlayerData) : LfgPlayerData :=
  match st with
  | LFG_STATE_NONE | LFG_STATE_FINISHED_DUNGEON => mkPlayer st st (p_team d) (p_group d) 0 [] ∅ (p_locked d)
  | LFG_STATE_DUNGEON => mkPlayer st st (p_team d) (p_group d) (p_roles d) (p_comment d) (p_selected d) (p_locked d)
  | _ => mkPlayer st (p_oldState d) (p_team d) (p_group d) (p_roles d) (p_comment d) (p_selected d) (p_locked d)
  end.
Definition player_RestoreState (d : LfgPlayerData) : LfgPlayerData :=
  if bool_decide (p_oldState d = LFG_STATE_NONE)
  then mkPlayer (p_oldState d) (p_oldState d) (p_team d) (p_group d) 0 (p_comment d) ∅ (p_locked d)
  else mkPlayer (p_oldState d) (p_oldState d) (p_team d) (p_group d) (p_roles d) (p_comment d) (p_selected d) (p_locked d).
Definition player_SetTeam (t : Z) (d : LfgPlayerData) : LfgPlayerData :=
  mkPlayer (p_state d) (p_oldState d) t (p_group d) (p_roles d) (p_comment d) (p_selected d) (p_locked d).
Definition player_SetGroup (g : Z) (d : LfgPlayerData) : LfgPlayerData :=
  mkPlayer (p_state d) (p_oldState d) (p_team d) g (p_roles d) (p_comment d) (p_selected d) (p_locked d).
Definition player_SetRoles (r : Z) (d : LfgPlayerData) : LfgPlayerData :=
  mkPlayer (p_state d) (p_oldState d) (p_team d) (p_group d) r (p_comment d) (p_selected d) (p_locked d).
Definition player_SetComment (c : text) (d : LfgPlayerData) : LfgPlayerData :=
  mkPlayer (p_state d) (p_oldState d) (p_team d) (p_group d) (p_roles d) c (p_selected d) (p_locked d).
Definition player_SetSelectedDungeons (s : gset Z) (d : LfgPlayerData) : LfgPlayerData :=
  mkPlayer (p_state d) (p_oldState d) (p_team d) (p_group d) (p_roles d) (p_comment d) s (p_locked d).
Definition player_SetLockedDungeons (l : gmap Z Z) (d : LfgPlayerData) : LfgPlayerData :=
  mkPlayer (p_state d) (p_oldState d) (p_team d) (p_group d) (p_roles d) (p_comment d) (p_selected d) l.

Record LfgGroupData := mkGroup {
  g_state : LfgState;
  g_oldState : LfgState;
  g_leader : Z;
  g_dungeon : Z;
  g_kicks : Z;
  g_players : gset Z
}.
Definition new_group : LfgGroupData := mkGroup LFG_STATE_NONE LFG_STATE_NONE 0 0 LFG_GROUP_MAX_KICKS ∅.
Definition group_SetState (st : LfgState) (d : LfgGroupData) : LfgGroupData :=
  match st with
  | LFG_STATE_NONE => mkGroup st st (g_leader d) 0 LFG_GROUP_MAX_KICKS (g_players d)
  | LFG_STATE_FINISHED_DUNGEON | LFG_STATE_DUNGEON =>
      mkGroup st st (g_leader d) (g_dungeon d) (g_kicks d) (g_players d)
  | _ => mkGroup st (g_oldState d) (g_leader d) (g_dungeon d) (g_kicks d) (g_players d)
  end.
Definition group_RestoreState (d : LfgGroupData) : LfgGroupData :=
  mkGroup (g_oldState d) (g_oldState d) (g_leader d) (g_dungeon d) (g_kicks d) (g_players d).
Definition group_SetPlayers (s : gset Z) (d : LfgGroupData) : LfgGroupData :=
  mkGroup (g_state d) (g_oldState d) (g_leader d) (g_dungeon d) (g_kicks d) s.
Definition group_SetLeader (l : Z) (d : LfgGroupData) : LfgGroupData :=
  mkGroup (g_state d) (g_oldState d) l (g_dungeon d) (g_kicks d) (g_players d).
Definition group_SetDungeon (x : Z) (d : LfgGroupData) : LfgGroupData :=
  mkGroup (g_state d) (g_oldState d) (g_leader d) x (g_kicks d) (g_players d).
Definition group_DecreaseKicksLeft (d : LfgGroupData) : LfgGroupData :=
  mkGroup (g_state d) (g_oldState d) (g_leader d) (g_dungeon d) (if g_kicks d =? 0 then 0 else g_kicks d - 1) (g_players d).
Definition group_IsLfgGroup (d : LfgGroupData) : bool := negb (bool_decide (g_oldState d = LFG_STATE_NONE)).

Inductive LfgRoleCheckState :=
| LFG_ROLECHECK_DEFAULT | LFG_ROLECHECK_FINISHED | LFG_ROLECHECK_INITIALITING | LFG_ROLECHECK_MISSING_ROLE
| LFG_ROLECHECK_WRONG_ROLES | LFG_ROLECHECK_ABORTED | LFG_ROLECHECK_NO_ROLE.
#[export] Instance LfgRoleCheckState_eq : EqDecision LfgRoleCheckState.
Proof. solve_decision. Defined.

Record LfgRoleCheck := mkRoleCheck {
  rc_cancelTime : Z;
  rc_roles : gmap Z Z;
  rc_state : LfgRoleCheckState;
  rc_dungeons : gset Z;
  rc_rDungeonId : Z;
  rc_leader : Z
}.
Definition rc_set_state (st : LfgRoleCheckState) (r : LfgRoleCheck) : LfgRoleCheck :=
  mkRoleCheck (rc_cancelTime r) (rc_roles r) st (rc_dungeons r) (rc_rDungeonId r) (rc_leader r).
Definition rc_set_roles (m : gmap Z Z) (r : LfgRoleCheck) : LfgRoleCheck :=
  mkRoleCheck (rc_cancelTime r) m (rc_state r) (rc_dungeons r) (rc_rDungeonId r) (rc_leader r).

Record LfgPlayerBoot := mkBoot {
  b_cancelTime : Z;
  b_inProgress : bool;
  b_votes : gmap Z LfgAnswer;
  b_victim : Z;
  b_reason : text
}.
Definition set_votes (v : gmap Z LfgAnswer) (b : LfgPlayerBoot) : LfgPlayerBoot :=
  mkBoot (b_cancelTime b) (b_inProgress b) v (b_victim b) (b_reason b).

Inductive LfgUpdateType :=
| LFG_UPDATETYPE_DEFAULT | LFG_UPDATETYPE_LEADER_UNK1 | LFG_UPDATETYPE_JOIN_QUEUE | LFG_UPDATETYPE_ROLECHECK_FAILED
| LFG_UPDATETYPE_REMOVED_FROM_QUEUE | LFG_UPDATETYPE_PROPOSAL_FAILED | LFG_UPDATETYPE_PROPOSAL_DECLINED
| LFG_UPDATETYPE_GROUP_FOUND | LFG_UPDATETYPE_ADDED_TO_QUEUE | LFG_UPDATETYPE_PROPOSAL_BEGIN.
#[export] Instance LfgUpdateType_eq : EqDecision LfgUpdateType.
Proof. solve_decision. Defined.

Inductive LfgJoinResult :=
| LFG_JOIN_OK | LFG_JOIN_FAILED | LFG_JOIN_INTERNAL_ERROR | LFG_JOIN_NOT_MEET_REQS | LFG_JOIN_MIXED_RAID_DUNGEON
| LFG_JOIN_DISCONNECTED | LFG_JOIN_DUNGEON_INVALID | LFG_JOIN_DESERTER | LFG_JOIN_PARTY_DESERTER
| LFG_JOIN_RANDOM_COOLDOWN | LFG_JOIN_PARTY_RANDOM_COOLDOWN | LFG_JOIN_TOO_MUCH_MEMBERS | LFG_JOIN_USING_BG_SYSTEM
| LFG_JOIN_ROLE_CHECK_FAILED.
#[export] Instance LfgJoinResult_eq : EqDecision LfgJoinResult.
Proof. solve_decision. Defined.

(** What leaves the manager: packets to players who are online, and what is
    done to players and groups. *)
Inductive LfgEvent :=
| RoleChosen (to player roles : Z)
| RoleCheckUpdate (to : Z) (st : LfgRoleCheckState)
| UpdateStatus (to : Z) (t : LfgUpdateType) (party : bool)
| JoinResult (to : Z) (r : LfgJoinResult) (st : LfgRoleCheckState)
| BootProposalUpdate (to : Z) (inProgress : bool)
| ProposalUpdate (to : Z) (st : LfgProposalState)
| QueueStatus (to dungeonId waitTime queuedTime tanks healers dps : Z)
| Kicked (gguid victim : Z)
| GroupMade (gguid dungeonId : Z)
| Teleported (player : Z) (out : bool)
| Deserter (player : Z)
| RewardDue (player rDungeonId : Z)
| OfferContinue (to dungeon : Z).

Record LFGMgr := mkMgr {
  PlayersStore : gmap Z LfgPlayerData;
  GroupsStore : gmap Z LfgGroupData;
  QueuesStore : gmap Z LFGQueue;
  RoleChecksStore : gmap Z LfgRoleCheck;
  ProposalsStore : gmap Z LfgProposal;
  BootsStore : gmap Z LfgPlayerBoot;
  lastProposalId : Z;
  m_QueueTimer : Z;
  raw_dice : list Z;
  lfg_events : list LfgEvent
}.
Definition set_players (x : gmap Z LfgPlayerData) (m : LFGMgr) : LFGMgr :=
  mkMgr x (GroupsStore m) (QueuesStore m) (RoleChecksStore m) (ProposalsStore m) (BootsStore m) (lastProposalId m)
    (m_QueueTimer m) (raw_dice m) (lfg_events m).
Definition set_groups (x : gmap Z LfgGroupData) (m : LFGMgr) : LFGMgr :=
  mkMgr (PlayersStore m) x (QueuesStore m) (RoleChecksStore m) (ProposalsStore m) (BootsStore m) (lastProposalId m)
    (m_QueueTimer m) (raw_dice m) (lfg_events m).
Definition set_queues (x : gmap Z LFGQueue) (m : LFGMgr) : LFGMgr :=
  mkMgr (PlayersStore m) (GroupsStore m) x (RoleChecksStore m) (ProposalsStore m) (BootsStore m) (lastProposalId m)
    (m_QueueTimer m) (raw_dice m) (lfg_events m).
Definition set_checks (x : gmap Z LfgRoleCheck) (m : LFGMgr) : LFGMgr :=
  mkMgr (PlayersStore m) (GroupsStore m) (QueuesStore m) x (ProposalsStore m) (BootsStore m) (lastProposalId m)
    (m_QueueTimer m) (raw_dice m) (lfg_events m).
Definition set_proposals (x : gmap Z LfgProposal) (m : LFGMgr) : LFGMgr :=
  mkMgr (PlayersStore m) (GroupsStore m) (QueuesStore m) (RoleChecksStore m) x (BootsStore m) (lastProposalId m)
    (m_QueueTimer m) (raw_dice m) (lfg_events m).
Definition set_boots (x : gmap Z LfgPlayerBoot) (m : LFGMgr) : LFGMgr :=
  mkMgr (PlayersStore m) (GroupsStore m) (QueuesStore m) (RoleChecksStore m) (ProposalsStore m) x (lastProposalId m)
    (m_QueueTimer m) (raw_dice m) (lfg_events m).
Definition set_QueueTimer (x : Z) (m : LFGMgr) : LFGMgr :=
  mkMgr (PlayersStore m) (GroupsStore m) (QueuesStore m) (RoleChecksStore m) (ProposalsStore m) (BootsStore m)
    (lastProposalId m) x (raw_dice m) (lfg_events m).
Definition add_event (e : LfgEvent) (m : LFGMgr) : LFGMgr :=
  mkMgr (PlayersStore m) (GroupsStore m) (QueuesStore m) (RoleChecksStore m) (ProposalsStore m) (BootsStore m)
    (lastProposalId m) (m_QueueTimer m) (raw_dice m) (lfg_events m ++ [e]).

(** ** The states of players and groups *)

Definition player (m : LFGMgr) (guid : Z) : LfgPlayerData := default new_player (PlayersStore m !! guid).
Definition group (m : LFGMgr) (guid : Z) : LfgGroupData := default new_group (GroupsStore m !! guid).
Definition on_player (guid : Z) (f : LfgPlayerData -> LfgPlayerData) (m : LFGMgr) : LFGMgr :=
  set_players (<[guid := f (player m guid)]> (PlayersStore m)) m.
Definition on_group (guid : Z) (f : LfgGroupData -> LfgGroupData) (m : LFGMgr) : LFGMgr :=
  set_groups (<[guid := f (group m guid)]> (GroupsStore m)) m.

Definition GetState (m : LFGMgr) (guid : Z) : LfgState :=
  if IS_GROUP_GUID guid then g_state (group m guid) else p_state (player m guid).
Definition mgr_GetOldState (m : LFGMgr) (guid : Z) : LfgState :=
  if IS_GROUP_GUID guid then g_oldState (group m guid) else p_oldState (player m guid).
Definition SetState (guid : Z) (st : LfgState) (m : LFGMgr) : LFGMgr :=
  if IS_GROUP_GUID guid then on_group guid (group_SetState st) m else on_player guid (player_SetState st) m.
Definition RestoreState (guid : Z) (m : LFGMgr) : LFGMgr :=
  if IS_GROUP_GUID guid then on_group guid group_RestoreState m else on_player guid player_RestoreState m.
Definition GetDungeon (m : LFGMgr) (guid : Z) : Z := Z.land (g_dungeon (group m guid)) 0x00FFFFFF.
Definition mgr_IsLfgGroup (m : LFGMgr) (guid : Z) : bool :=
  negb (guid =? 0) && IS_GROUP_GUID guid && group_IsLfgGroup (group m guid).
Definition mgr_AllQueued (m : LFGMgr) (check : list Z) : bool :=
  negb (length check =? 0)%nat && forallb (fun g => bool_decide (GetState m g = LFG_STATE_QUEUED)) check.
Definition SetGroup (guid g : Z) : LFGMgr -> LFGMgr := on_player guid (player_SetGroup g).
Definition GetGroup (m : LFGMgr) (guid : Z) : Z := p_group (player m guid).
Definition RemovePlayerFromGroup (gguid guid : Z) : LFGMgr -> LFGMgr :=
  on_group gguid (fun d => group_SetPlayers (g_players d ∖ {[guid]}) d).
Definition AddPlayerToGroup (gguid guid : Z) : LFGMgr -> LFGMgr :=
  on_group gguid (fun d => group_SetPlayers (g_players d ∪ {[guid]}) d).
Definition each_of (f : Z -> LFGMgr -> LFGMgr) (l : list Z) (m : LFGMgr) : LFGMgr := foldl (fun m g => f g m) m l.

Definition SetupGroupMember (guid gguid : Z) (m : LFGMgr) : LFGMgr :=
  let m := on_player guid (player_SetSelectedDungeons {[GetDungeon m gguid]}) m in
  AddPlayerToGroup gguid guid (SetGroup guid gguid (SetState guid (GetState m gguid) m)).

(** [GetQueueId], [GetQueue] *)
Definition GetQueueId (m : LFGMgr) (guid : Z) : Z :=
  if IS_GROUP_GUID guid then
    match set_ordered (g_players (group m guid)) with
    | pguid :: _ => if pguid =? 0 then p_team (player m guid) else p_team (player m pguid)
    | [] => p_team (player m guid)
    end
  else p_team (player m guid).
Definition GetQueue (m : LFGMgr) (guid : Z) : LFGQueue := default empty_queue (QueuesStore m !! GetQueueId m guid).
Definition on_GetQueue (guid : Z) (f : LFGQueue -> LFGQueue) (m : LFGMgr) : LFGMgr :=
  set_queues (<[GetQueueId m guid := f (GetQueue m guid)]> (QueuesStore m)) m.

(** ** The world around *)

(** RemoveMethod *)
Inductive RemoveMethod :=
| GROUP_REMOVEMETHOD_DEFAULT | GROUP_REMOVEMETHOD_KICK | GROUP_REMOVEMETHOD_LEAVE | GROUP_REMOVEMETHOD_KICK_LFG.
#[export] Instance RemoveMethod_eq : EqDecision RemoveMethod.
Proof. solve_decision. Defined.

(** A call of LFGGroupScript by a group, with what it reads from the group. *)
Inductive group_call :=
| OnAddMember (gguid leader guid : Z)
| OnRemoveMember (gguid : Z) (isLFG : bool) (guid : Z) (method : RemoveMethod) (kicker : Z) (reason : text)
| OnDisband (gguid : Z)
| OnChangeLeader (gguid newLeaderGuid : Z)
| OnInviteMember (gguid leader guid : Z).

(** What [MakeNewGroup] does to groups: calls back, or a group is created. *)
Inductive group_step :=
| GroupCalls (c : group_call)
| GroupCreated (gguid : Z).

Inductive LfgType := LFG_TYPE_NONE | LFG_TYPE_DUNGEON | LFG_TYPE_RAID | LFG_TYPE_HEROIC | LFG_TYPE_RANDOM.
#[export] Instance LfgType_eq : EqDecision LfgType.
Proof. solve_decision. Defined.
Definition type_number (t : LfgType) : Z :=
  match t with
  | LFG_TYPE_NONE => 0 | LFG_TYPE_DUNGEON => 1 | LFG_TYPE_RAID => 2 | LFG_TYPE_HEROIC => 5 | LFG_TYPE_RANDOM => 6
  end.
Record LFGDungeonData := mkDungeon {
  d_id : Z;
  d_map : Z;
  d_type : LfgType;
  d_expansion : Z;
  d_group : Z;
  d_minlevel : Z;
  d_maxlevel : Z;
  d_difficulty : Z;
  d_seasonal : bool
}.
Definition Entry (d : LFGDungeonData) : Z := u32 (d_id d + Z.shiftl (type_number (d_type d)) 24).

Class LfgWorld := {
  (** isOptionEnabled(LFG_OPTION_ENABLE_DUNGEON_FINDER | LFG_OPTION_ENABLE_RAID_BROWSER) *)
  Enabled : bool;
  FindPlayer : Z -> bool;
  Ignores : Z -> Z -> bool;
  InDungeonMap : Z -> bool;
  (** sGroupMgr->GetGroupByGUID *)
  GroupExists : Z -> bool;
  (** Player::RemoveFromGroup with KICK_LFG *)
  KickCalls : Z -> Z -> list group_call;
  (** the group operations of MakeNewGroup, from the group of the proposal *)
  MakeGroupSteps : LfgProposal -> list group_step;
  GetLFGDungeon : Z -> option LFGDungeonData;
  (** CachedDungeonMapStore *)
  CachedDungeons : Z -> gset Z
}.

(** NULL dereferenced or [ASSERT] failed, an iterator past the end, an
    iterator whose element is gone. *)
Inductive LfgError := LfgNull | LfgEnd | LfgStale | LfgQueueError (e : QueueError).
Definition MM : Type -> Type := ST LFGMgr LfgError.
Definition upd (f : LFGMgr -> LFGMgr) : MM unit := st_modify f.

Section Manager.
Context `{LfgWorld} (now : Z).

(** [HasIgnore] *)
Definition mgr_HasIgnore (p q : Z) : bool := FindPlayer p && FindPlayer q && (Ignores p q || Ignores q p).
Lemma mgr_HasIgnore_sym p q : mgr_HasIgnore p q = mgr_HasIgnore q p.
Proof. unfold mgr_HasIgnore. rewrite (orb_comm (Ignores q p)), (andb_comm (FindPlayer q)). done. Qed.

(** What the queue sees of the manager. *)
Definition states_of (m : LFGMgr) : LfgStates := {|
  AllQueued := mgr_AllQueued m;
  IsLfgGroup := mgr_IsLfgGroup m;
  GetOldState := mgr_GetOldState m;
  HasIgnore := mgr_HasIgnore;
  HasIgnore_sym := mgr_HasIgnore_sym
|}.

(** [SendLfg...]: only to players who are found. *)
Definition send (to : Z) (e : LfgEvent) (m : LFGMgr) : LFGMgr := if FindPlayer to then add_event e m else m.
Definition SendLfgUpdateStatus (to : Z) (t : LfgUpdateType) (party : bool) : LFGMgr -> LFGMgr :=
  send to (UpdateStatus to t party).

(** ** Role checks *)

Definition GetDungeonType (id : Z) : LfgType := match GetLFGDungeon id with Some d => d_type d | None => LFG_TYPE_NONE end.
Definition GetDungeonsByRandom (randomdungeon : Z) : gset Z :=
  CachedDungeons match GetLFGDungeon randomdungeon with Some d => d_group d | None => 0 end.

(** The new state of a role check, from its guards. *)
Definition role_check_answer (guid roles : Z) (rc : LfgRoleCheck) : LfgRoleCheck :=
  if guid =? 0 then rc_set_state LFG_ROLECHECK_ABORTED rc
  else if roles <? PLAYER_ROLE_TANK then rc_set_state LFG_ROLECHECK_NO_ROLE rc
  else
    let rc := rc_set_roles (<[guid := roles]> (rc_roles rc)) rc in
    if forallb (fun p => negb (p.2 =? PLAYER_ROLE_NONE)) (map_ordered (rc_roles rc))
    then rc_set_state (if (CheckGroupRoles (rc_roles rc)).1 then LFG_ROLECHECK_FINISHED else LFG_ROLECHECK_WRONG_ROLES) rc
    else rc.

Definition role_check_result (st : LfgRoleCheckState) : LfgJoinResult :=
  match st with
  | LFG_ROLECHECK_MISSING_ROLE | LFG_ROLECHECK_WRONG_ROLES => LFG_JOIN_ROLE_CHECK_FAILED
  | _ => LFG_JOIN_FAILED
  end.

(** One player of the loop. *)
Definition role_check_player (rc : LfgRoleCheck) (chosen : option (Z * Z)) (p : Z * Z) (m : LFGMgr) : LFGMgr :=
  let pguid := p.1 in
  let m := match chosen with Some (guid, roles) => send pguid (RoleChosen pguid guid roles) m | None => m end in
  let m := send pguid (RoleCheckUpdate pguid (rc_state rc)) m in
  match rc_state rc with
  | LFG_ROLECHECK_INITIALITING => m
  | LFG_ROLECHECK_FINISHED =>
      let m := on_player pguid (player_SetRoles p.2) (SetState pguid LFG_STATE_QUEUED m) in
      SendLfgUpdateStatus pguid LFG_UPDATETYPE_ADDED_TO_QUEUE true m
  | st =>
      let m := if rc_leader rc =? pguid then send pguid (JoinResult pguid (role_check_result st) st) m else m in
      RestoreState pguid (SendLfgUpdateStatus pguid LFG_UPDATETYPE_ROLECHECK_FAILED true m)
  end.

Definition UpdateRoleCheck (gguid guid roles : Z) (m : LFGMgr) : LFGMgr :=
  if gguid =? 0 then m
  else match RoleChecksStore m !! gguid with
  | None => m
  | Some rc0 =>
      let chosen := if negb (bool_decide (rc_state rc0 = LFG_ROLECHECK_DEFAULT)) && negb (guid =? 0)
                    then Some (guid, roles) else None in
      let rc := role_check_answer guid roles rc0 in
      let m := set_checks (<[gguid := rc]> (RoleChecksStore m)) m in
      let m := foldl (fun m p => role_check_player rc chosen p m) m (map_ordered (rc_roles rc)) in
      match rc_state rc with
      | LFG_ROLECHECK_FINISHED =>
          let m := SetState gguid LFG_STATE_QUEUED m in
          let m := on_GetQueue gguid (AddQueueData gguid now (rc_dungeons rc) (rc_roles rc)) m in
          set_checks (delete gguid (RoleChecksStore m)) m
      | LFG_ROLECHECK_INITIALITING => m
      | _ => let m := RestoreState gguid m in set_checks (delete gguid (RoleChecksStore m)) m
      end
  end.

(** [Update]: "Remove obsolete role checks" *)
Definition expire_role_check (e : Z * LfgRoleCheck) (m : LFGMgr) : LFGMgr :=
  if now <? rc_cancelTime e.2 then m
  else
    let rc := rc_set_state LFG_ROLECHECK_MISSING_ROLE e.2 in
    let m := foldl (fun m p =>
      let m := send p.1 (RoleCheckUpdate p.1 (rc_state rc)) (RestoreState p.1 m) in
      if p.1 =? rc_leader rc
      then send p.1 (JoinResult p.1 LFG_JOIN_ROLE_CHECK_FAILED LFG_ROLECHECK_MISSING_ROLE) m else m)
      m (map_ordered (rc_roles rc)) in
    let m := RestoreState e.1 m in
    set_checks (delete e.1 (RoleChecksStore m)) m.

(** ** Proposals *)

Definition mark_denied (pp : LfgProposalPlayer) : LfgProposalPlayer := mkPP (pp_role pp) LFG_ANSWER_DENY (pp_group pp).
Definition pr_set_state (st : LfgProposalState) (p : LfgProposal) : LfgProposal :=
  mkProposal (pr_dungeonId p) st (pr_group p) (pr_leader p) (pr_cancelTime p) (pr_isNew p) (pr_queues p) (pr_players p).
Definition pr_set_players (x : gmap Z LfgProposalPlayer) (p : LfgProposal) : LfgProposal :=
  mkProposal (pr_dungeonId p) (pr_state p) (pr_group p) (pr_leader p) (pr_cancelTime p) (pr_isNew p) (pr_queues p) x.

(** Under which guid a player was queued. *)
Definition queued_as (guid : Z) (pp : LfgProposalPlayer) : Z := if pp_group pp =? 0 then guid else pp_group pp.

(** "Mark all people that didn't answered as no accept", "Mark
    players/groups to be removed" *)
Definition denied_players (failed : bool) (players : gmap Z LfgProposalPlayer) : gmap Z LfgProposalPlayer :=
  (fun pp => if failed && negb (bool_decide (pp_accept pp = LFG_ANSWER_AGREE)) then mark_denied pp else pp) <$> players.
Definition toRemove (players : gmap Z LfgProposalPlayer) : gset Z :=
  list_to_set (omap (fun e => if bool_decide (pp_accept e.2 = LFG_ANSWER_DENY) then Some (queued_as e.1 e.2) else None)
                 (map_ordered players)).

(** "Notify players" *)
Definition notify_player (remove : gset Z) (t : LfgUpdateType) (e : Z * LfgProposalPlayer) (m : LFGMgr) : LFGMgr :=
  let guid := e.1 in
  let gguid := queued_as guid e.2 in
  let m := send guid (ProposalUpdate guid LFG_PROPOSAL_FAILED) m in
  if bool_decide (gguid ∈ remove) then
    let t := if bool_decide (pp_accept e.2 = LFG_ANSWER_DENY) then t else LFG_UPDATETYPE_REMOVED_FROM_QUEUE in
    let m := RestoreState guid m in
    if negb (gguid =? guid) then SendLfgUpdateStatus guid t true (RestoreState (pp_group e.2) m)
    else SendLfgUpdateStatus guid t false m
  else
    let m := SetState guid LFG_STATE_QUEUED m in
    if negb (gguid =? guid)
    then SendLfgUpdateStatus guid LFG_UPDATETYPE_ADDED_TO_QUEUE true (SetState gguid LFG_STATE_QUEUED m)
    else SendLfgUpdateStatus guid LFG_UPDATETYPE_ADDED_TO_QUEUE false m.

(** [RemoveProposal(itProposal, type)] of the proposal [id] *)
Definition RemoveProposal (id : Z) (p : LfgProposal) (t : LfgUpdateType) : MM unit :=
  let failed := bool_decide (t = LFG_UPDATETYPE_PROPOSAL_FAILED) in
  let players := denied_players failed (pr_players p) in
  let remove := toRemove players in
  upd (fun m => foldl (fun m e => notify_player remove t e m) m (map_ordered players));;
  match map_ordered players with
  | [] => st_throw LfgEnd
  | (first, _) :: _ =>
      upd (fun m => on_GetQueue first (fun q =>
        let q := foldl (fun q g => RemoveFromQueue g q) q (set_ordered remove) in
        foldl (fun q g => AddToQueue g q) q (List.filter (fun g => negb (bool_decide (g ∈ remove))) (pr_queues p))) m);;
      upd (fun m => set_proposals (delete id (ProposalsStore m)) m)
  end.

(** ** Leaving *)

Fixpoint each_m (f : Z -> MM unit) (l : list Z) : MM unit :=
  match l with
  | [] => mret tt
  | g :: l => f g;; each_m f l
  end.

(** The first proposal with the player. *)
Definition proposal_with (pguid : Z) (m : LFGMgr) : option (Z * LfgProposal) :=
  List.find (fun e => bool_decide (is_Some (pr_players e.2 !! pguid))) (map_ordered (ProposalsStore m)).

Definition LeaveLfg (guid : Z) : MM unit :=
  m ← st_get;
  let gguid := if IS_GROUP_GUID guid then guid else GetGroup m guid in
  match GetState m guid with
  | LFG_STATE_QUEUED =>
      if negb (gguid =? 0) then
        upd (fun m =>
          let m := SetState gguid LFG_STATE_NONE (on_GetQueue gguid (RemoveFromQueue gguid) m) in
          each_of (fun p m => SendLfgUpdateStatus p LFG_UPDATETYPE_REMOVED_FROM_QUEUE true (SetState p LFG_STATE_NONE m))
            (set_ordered (g_players (group m gguid))) m)
      else
        upd (fun m => SetState guid LFG_STATE_NONE
          (SendLfgUpdateStatus guid LFG_UPDATETYPE_REMOVED_FROM_QUEUE false (on_GetQueue guid (RemoveFromQueue guid) m)))
  | LFG_STATE_ROLECHECK => if negb (gguid =? 0) then upd (UpdateRoleCheck gguid 0 PLAYER_ROLE_NONE) else mret tt
  | LFG_STATE_PROPOSAL =>
      let pguid := if gguid =? guid then g_leader (group m gguid) else guid in
      match proposal_with pguid m with
      | Some (id, p) =>
          RemoveProposal id (pr_set_players (alter mark_denied pguid (pr_players p)) p) LFG_UPDATETYPE_PROPOSAL_DECLINED
      | None => mret tt
      end
  | LFG_STATE_NONE | LFG_STATE_RAIDBROWSER => mret tt
  | LFG_STATE_DUNGEON | LFG_STATE_FINISHED_DUNGEON | LFG_STATE_BOOT =>
      if negb (guid =? gguid) then upd (SetState guid LFG_STATE_NONE) else mret tt
  end.

Definition RemoveGroupData (guid : Z) (m : LFGMgr) : LFGMgr :=
  match GroupsStore m !! guid with
  | None => m
  | Some d =>
      let st := GetState m guid in
      let m := each_of (fun p m =>
        let m := SetGroup p 0 m in
        if bool_decide (st = LFG_STATE_PROPOSAL) then m
        else SendLfgUpdateStatus p LFG_UPDATETYPE_REMOVED_FROM_QUEUE true (SetState p LFG_STATE_NONE m))
        (set_ordered (g_players d)) m in
      set_groups (delete guid (GroupsStore m)) m
  end.

(** ** Votes to kick *)

Definition InitBoot (gguid kicker victim : Z) (reason : text) (m : LFGMgr) : LFGMgr :=
  let m := SetState gguid LFG_STATE_BOOT m in
  let players := set_ordered (g_players (group m gguid)) in
  let m := each_of (fun p => SetState p LFG_STATE_BOOT) players m in
  let old := match BootsStore m !! gguid with Some b => b_votes b | None => ∅ end in
  let votes := foldl (fun v p => <[p := LFG_ANSWER_PENDING]> v) old players in
  let b := mkBoot (now + LFG_TIME_BOOT) true (<[kicker := LFG_ANSWER_AGREE]> (<[victim := LFG_ANSWER_DENY]> votes))
             victim reason in
  let m := set_boots (<[gguid := b]> (BootsStore m)) m in
  each_of (fun p => send p (BootProposalUpdate p true)) players m.

Definition answer (accept : bool) : LfgAnswer := if accept then LFG_ANSWER_AGREE else LFG_ANSWER_DENY.

(** [votesNum] and [agreeNum] *)
Definition count_votes (f : LfgAnswer -> bool) (votes : gmap Z LfgAnswer) : Z :=
  u8 (Z.of_nat (length (List.filter (fun e => f e.2) (map_ordered votes)))).
Definition voted (a : LfgAnswer) : bool := negb (bool_decide (a = LFG_ANSWER_PENDING)).
Definition agreed (a : LfgAnswer) : bool := bool_decide (a = LFG_ANSWER_AGREE).

(** ** What groups call (LFGScripts.cpp) *)

Definition run_call (c : group_call) : MM unit :=
  if negb Enabled then mret tt else
  match c with
  | OnAddMember gguid leader guid =>
      (if leader =? guid then upd (on_group gguid (group_SetLeader guid))
       else
         m ← st_get;
         let gstate := GetState m gguid in
         (if bool_decide (GetState m guid = LFG_STATE_QUEUED) then LeaveLfg guid else mret tt);;
         (if bool_decide (gstate = LFG_STATE_QUEUED) then LeaveLfg gguid else mret tt));;
      upd (fun m => AddPlayerToGroup gguid guid (SetGroup guid gguid m))
  | OnRemoveMember gguid isLFG guid method kicker reason =>
      if isLFG && bool_decide (method = GROUP_REMOVEMETHOD_KICK) then upd (InitBoot gguid kicker guid reason)
      else
        m ← st_get;
        let st := GetState m gguid in
        if bool_decide (st = LFG_STATE_PROPOSAL) && bool_decide (method = GROUP_REMOVEMETHOD_DEFAULT) then
          upd (fun m => RemovePlayerFromGroup gguid guid (SetGroup guid 0 m))
        else
          LeaveLfg guid;;
          upd (fun m => RemovePlayerFromGroup gguid guid (SetGroup guid 0 m));;
          m ← st_get;
          let players := u8 (Z.of_nat (base.size (g_players (group m gguid)))) in
          upd (fun m =>
            let m := if FindPlayer guid && bool_decide (method = GROUP_REMOVEMETHOD_LEAVE)
                        && bool_decide (st = LFG_STATE_DUNGEON) && (LFG_GROUP_KICK_VOTES_NEEDED <=? players)
                     then add_event (Deserter guid) m else m in
            let m := SendLfgUpdateStatus guid LFG_UPDATETYPE_LEADER_UNK1 true m in
            let m := if FindPlayer guid && isLFG && InDungeonMap guid then add_event (Teleported guid true) m else m in
            if isLFG && negb (bool_decide (st = LFG_STATE_FINISHED_DUNGEON))
            then send (g_leader (group m gguid)) (OfferContinue (g_leader (group m gguid)) (g_dungeon (group m gguid))) m
            else m)
  | OnDisband gguid => upd (RemoveGroupData gguid)
  | OnChangeLeader gguid newLeaderGuid => upd (on_group gguid (group_SetLeader newLeaderGuid))
  | OnInviteMember gguid leader guid =>
      if negb (leader =? 0) && (gguid =? 0) then LeaveLfg leader else mret tt
  end.
Fixpoint run_calls (l : list group_call) : MM unit :=
  match l with
  | [] => mret tt
  | c :: l => run_call c;; run_calls l
  end.

(** [UpdateBoot] from "Send update info to all players" on. *)
Definition finish_boot (gguid : Z) (b : LfgPlayerBoot) (agreeNum : Z) : MM unit :=
  upd (fun m => each_of (fun p m =>
    if p =? b_victim b then m
    else send p (BootProposalUpdate p false) (SetState p LFG_STATE_DUNGEON m)) (map fst (map_ordered (b_votes b))) m);;
  upd (SetState gguid LFG_STATE_DUNGEON);;
  (if agreeNum =? LFG_GROUP_KICK_VOTES_NEEDED then
     (if GroupExists gguid then
        upd (add_event (Kicked gguid (b_victim b)));; run_calls (KickCalls gguid (b_victim b))
      else mret tt);;
     upd (on_group gguid group_DecreaseKicksLeft)
   else mret tt);;
  upd (fun m => set_boots (delete gguid (BootsStore m)) m).

Definition UpdateBoot (guid : Z) (accept : bool) : MM unit :=
  m ← st_get;
  let gguid := GetGroup m guid in
  if gguid =? 0 then mret tt
  else match BootsStore m !! gguid with
  | None => mret tt
  | Some b =>
      (* operator[] enters DENY (0) for a player who has no vote *)
      let own := default LFG_ANSWER_DENY (b_votes b !! guid) in
      if voted own then upd (set_boots (<[gguid := set_votes (<[guid := own]> (b_votes b)) b]> (BootsStore m)))
      else
        let votes := <[guid := answer accept]> (b_votes b) in
        let b := set_votes votes b in
        let votesNum := count_votes voted votes in
        let agreeNum := count_votes agreed votes in
        upd (set_boots (<[gguid := b]> (BootsStore m)));;
        if (agreeNum <? LFG_GROUP_KICK_VOTES_NEEDED) && (votesNum - agreeNum <? LFG_GROUP_KICK_VOTES_NEEDED)
        then mret tt
        else finish_boot gguid b agreeNum
  end.

(** ** Making the group *)

(** The players of a proposal with the leader first, and those to teleport. *)
Definition to_teleport (m : LFGMgr) (p : LfgProposal) : list Z :=
  List.filter (fun g => pr_isNew p || negb (GetGroup m g =? pr_group p)) (map fst (map_ordered (pr_players p))).

Fixpoint run_steps (l : list group_step) (grp : Z) : MM Z :=
  match l with
  | [] => mret grp
  | GroupCalls c :: l => run_call c;; run_steps l grp
  | GroupCreated g :: l => upd (SetState g LFG_STATE_PROPOSAL);; run_steps l g
  end.

Definition MakeNewGroup (p : LfgProposal) : MM unit :=
  m ← st_get;
  let teleport := to_teleport m p in
  match GetLFGDungeon (pr_dungeonId p) with
  | None => st_throw LfgNull
  | Some dungeon =>
      gguid ← run_steps (MakeGroupSteps p) (if GroupExists (pr_group p) then pr_group p else 0);
      if gguid =? 0 then st_throw LfgNull
      else
        upd (fun m => SetState gguid LFG_STATE_DUNGEON (on_group gguid (group_SetDungeon (Entry dungeon)) m));;
        upd (each_of (fun g m => if FindPlayer g then add_event (Teleported g false) m else m) teleport);;
        upd (add_event (GroupMade gguid (Entry dungeon)))
  end.

(** The queue's average that a player's wait goes into. *)
Definition count_wait (role waitTime dungeonId : Z) (q : LFGQueue) : LFGQueue :=
  let w := update_wait waitTime dungeonId in
  if role =? PLAYER_ROLE_DAMAGE then
    mkQueue (QueueDataStore q) (CompatibleMapStore q) (waitTimesAvgStore q) (waitTimesTankStore q)
      (waitTimesHealerStore q) (w (waitTimesDpsStore q)) (currentQueueStore q) (newToQueueStore q)
  else if role =? PLAYER_ROLE_HEALER then
    mkQueue (QueueDataStore q) (CompatibleMapStore q) (waitTimesAvgStore q) (waitTimesTankStore q)
      (w (waitTimesHealerStore q)) (waitTimesDpsStore q) (currentQueueStore q) (newToQueueStore q)
  else if role =? PLAYER_ROLE_TANK then
    mkQueue (QueueDataStore q) (CompatibleMapStore q) (waitTimesAvgStore q) (w (waitTimesTankStore q))
      (waitTimesHealerStore q) (waitTimesDpsStore q) (currentQueueStore q) (newToQueueStore q)
  else
    mkQueue (QueueDataStore q) (CompatibleMapStore q) (w (waitTimesAvgStore q)) (waitTimesTankStore q)
      (waitTimesHealerStore q) (waitTimesDpsStore q) (currentQueueStore q) (newToQueueStore q).

(** One player of an accepted proposal; [first] is the first of the loop, when
    [updateData] still says GROUP_FOUND. *)
Definition accepted_player (asker : Z) (first : bool) (sendUpdate : bool) (e : Z * LfgProposalPlayer) : MM unit :=
  m ← st_get;
  let pguid := e.1 in
  match set_ordered (p_selected (player m pguid)) with
  | [] => st_throw LfgEnd
  | dungeonId :: _ =>
      let waitTime := s32 (Z.quot (now - GetJoinTime (queued_as pguid e.2) (GetQueue m asker)) IN_MILLISECONDS) in
      let role := clear_leader (p_roles (player m pguid)) in
      upd (fun m =>
        let m := if sendUpdate then send pguid (ProposalUpdate pguid LFG_PROPOSAL_SUCCESS) m else m in
        let m := SendLfgUpdateStatus pguid
          (if first then LFG_UPDATETYPE_GROUP_FOUND else LFG_UPDATETYPE_REMOVED_FROM_QUEUE) false m in
        let m := SendLfgUpdateStatus pguid LFG_UPDATETYPE_REMOVED_FROM_QUEUE true m in
        let m := SendLfgUpdateStatus pguid LFG_UPDATETYPE_REMOVED_FROM_QUEUE false m in
        let m := on_GetQueue asker (count_wait role waitTime dungeonId) m in
        SetState pguid LFG_STATE_DUNGEON m)
  end.
Fixpoint accepted_players (asker : Z) (first sendUpdate : bool) (l : list (Z * LfgProposalPlayer)) : MM unit :=
  match l with
  | [] => mret tt
  | e :: l => accepted_player asker first sendUpdate e;; accepted_players asker false sendUpdate l
  end.

Definition UpdateProposal (proposalId guid : Z) (accept : bool) : MM unit :=
  m ← st_get;
  match ProposalsStore m !! proposalId with
  | None => mret tt
  | Some p =>
      match pr_players p !! guid with
      | None => mret tt
      | Some pp =>
          let p := pr_set_players (<[guid := mkPP (pp_role pp) (answer accept) (pp_group pp)]> (pr_players p)) p in
          upd (fun m => set_proposals (<[proposalId := p]> (ProposalsStore m)) m);;
          if negb accept then RemoveProposal proposalId p LFG_UPDATETYPE_PROPOSAL_DECLINED
          else
            let l := map_ordered (pr_players p) in
            if negb (forallb (fun e => bool_decide (pp_accept e.2 = LFG_ANSWER_AGREE)) l) then
              upd (each_of (fun g => send g (ProposalUpdate g (pr_state p))) (map fst l))
            else
              let sendUpdate := negb (bool_decide (pr_state p = LFG_PROPOSAL_SUCCESS)) in
              let p := pr_set_state LFG_PROPOSAL_SUCCESS p in
              upd (fun m => set_proposals (<[proposalId := p]> (ProposalsStore m)) m);;
              accepted_players guid true sendUpdate l;;
              upd (fun m => on_GetQueue guid (fun q => foldl (fun q g => RemoveFromQueue g q) q (pr_queues p)) m);;
              MakeNewGroup p;;
              upd (fun m => set_proposals (delete proposalId (ProposalsStore m)) m)
      end
  end.

(** ** The update *)

(** "Remove obsolete proposals", "Remove obsolete kicks" *)
Definition expire_proposal (e : Z * LfgProposal) : MM unit :=
  if pr_cancelTime e.2 <? now then RemoveProposal e.1 e.2 LFG_UPDATETYPE_PROPOSAL_FAILED else mret tt.
Definition expire_boot (e : Z * LfgPlayerBoot) (m : LFGMgr) : LFGMgr :=
  let b := e.2 in
  if b_cancelTime b <? now then
    let m := each_of (fun p m =>
      let m := if p =? b_victim b then m else send p (BootProposalUpdate p false) m in
      SetState p LFG_STATE_DUNGEON m) (map fst (map_ordered (b_votes b))) m in
    let m := SetState e.1 LFG_STATE_DUNGEON m in
    set_boots (delete e.1 (BootsStore m)) m
  else m.

(** [it->second.FindGroups()] *)
Definition find_in_queue (id : Z) : MM unit := fun m =>
  match QueuesStore m !! id with
  | None => Ok (tt, m)
  | Some q =>
      match @FindGroups (states_of m) now (mkQS q (ProposalsStore m) (lastProposalId m) (raw_dice m)) with
      | Err e => Err (LfgQueueError e)
      | Ok (_, s) =>
          Ok (tt, mkMgr (PlayersStore m) (GroupsStore m) (<[id := q_queue s]> (QueuesStore m)) (RoleChecksStore m)
                    (q_proposals s) (BootsStore m) (m_lfgProposalId s) (m_QueueTimer m) (q_dice s) (lfg_events m))
      end
  end.

(** A new proposal is made known to its players. *)
Definition announce_player (p : LfgProposal) (guid : Z) (m : LFGMgr) : LFGMgr :=
  let m := SetState guid LFG_STATE_PROPOSAL m in
  let gguid := GetGroup m guid in
  let m := if negb (gguid =? 0)
           then SendLfgUpdateStatus guid LFG_UPDATETYPE_PROPOSAL_BEGIN true (SetState gguid LFG_STATE_PROPOSAL m)
           else SendLfgUpdateStatus guid LFG_UPDATETYPE_PROPOSAL_BEGIN false m in
  send guid (ProposalUpdate guid (pr_state p)) m.
Definition announce (e : Z * LfgProposal) : MM unit :=
  let l := map fst (map_ordered (pr_players e.2)) in
  upd (each_of (announce_player e.2) l);;
  if bool_decide (pr_state e.2 = LFG_PROPOSAL_SUCCESS) then
    UpdateProposal e.1 (List.last l 0) true;;
    m ← st_get;
    match ProposalsStore m !! e.1 with Some _ => mret tt | None => st_throw LfgStale end
  else mret tt.
(** From [ProposalsStore.find(m_lfgProposalId)] to the end. *)
Definition to_announce (m : LFGMgr) : list (Z * LfgProposal) :=
  match ProposalsStore m !! lastProposalId m with
  | None => []
  | Some _ => List.filter (fun e => lastProposalId m <=? e.1) (map_ordered (ProposalsStore m))
  end.

(** [UpdateQueueTimers] for one entry. *)
Definition wait_time (s : gmap Z LfgWaitTime) (dungeonId : Z) : Z := wt_time (default (mkWait (-1) 0) (s !! dungeonId)).
Definition queue_wait (q : LFGQueue) (x : LfgQueueData) (dungeonId : Z) : Z :=
  let role := clear_leader (foldl (fun r p => Z.lor r p.2) PLAYER_ROLE_NONE (map_ordered (roles x))) in
  if role =? PLAYER_ROLE_NONE then -1
  else if role =? PLAYER_ROLE_TANK then wait_time (waitTimesTankStore q) dungeonId
  else if role =? PLAYER_ROLE_HEALER then wait_time (waitTimesHealerStore q) dungeonId
  else if role =? PLAYER_ROLE_DAMAGE then wait_time (waitTimesDpsStore q) dungeonId
  else wait_time (waitTimesAvgStore q) dungeonId.
Definition update_entry (id : Z) (e : Z * LfgQueueData) : MM unit :=
  m ← st_get;
  let q := default empty_queue (QueuesStore m !! id) in
  let x := e.2 in
  match set_ordered (dungeons x) with
  | [] => st_throw LfgEnd
  | dungeonId :: _ =>
      let x := match bestCompatible x with [] => FindBestCompatibleInQueue e.1 q x | _ => x end in
      upd (fun m => set_queues (<[id := set_data (<[e.1 := x]> (QueueDataStore q)) q]> (QueuesStore m)) m);;
      upd (each_of (fun p => send p (QueueStatus p dungeonId (queue_wait q x dungeonId) (u32 (now - joinTime x))
                                       (tanks x) (healers x) (dps x)))
             (map fst (map_ordered (roles x))))
  end.
Fixpoint update_entries (id : Z) (l : list (Z * LfgQueueData)) : MM unit :=
  match l with
  | [] => mret tt
  | e :: l => update_entry id e;; update_entries id l
  end.
Definition UpdateQueueTimers (id : Z) : MM unit :=
  m ← st_get;
  update_entries id (map_ordered (QueueDataStore (default empty_queue (QueuesStore m !! id)))).

Fixpoint each_entry {A} (f : Z * A -> MM unit) (l : list (Z * A)) : MM unit :=
  match l with
  | [] => mret tt
  | e :: l => f e;; each_entry f l
  end.

Definition Update (diff : Z) : MM unit :=
  if negb Enabled then mret tt else
  upd (fun m => foldl (fun m e => expire_role_check e m) m (map_ordered (RoleChecksStore m)));;
  m ← st_get;
  each_entry expire_proposal (map_ordered (ProposalsStore m));;
  upd (fun m => foldl (fun m e => expire_boot e m) m (map_ordered (BootsStore m)));;
  m ← st_get;
  let last := lastProposalId m in
  each_m find_in_queue (map fst (map_ordered (QueuesStore m)));;
  m ← st_get;
  (if negb (last =? lastProposalId m) then each_entry announce (to_announce m) else mret tt);;
  m ← st_get;
  if LFG_QUEUEUPDATE_INTERVAL <? m_QueueTimer m then
    upd (set_QueueTimer 0);;
    each_m UpdateQueueTimers (map fst (map_ordered (QueuesStore m)))
  else upd (set_QueueTimer (u32 (m_QueueTimer m + diff))).

(** [FinishDungeon], up to the choice of the reward: who has done the dungeon
    as a random or seasonal one is due it. *)
Definition finish_player (guid : Z) (m : LFGMgr) : LFGMgr :=
  if bool_decide (GetState m guid = LFG_STATE_FINISHED_DUNGEON) then m
  else
    let rDungeonId := match set_ordered (p_selected (player m guid)) with d :: _ => d | [] => 0 end in
    let m := SetState guid LFG_STATE_FINISHED_DUNGEON m in
    match GetLFGDungeon rDungeonId with
    | Some d => if bool_decide (d_type d = LFG_TYPE_RANDOM) || d_seasonal d
                then send guid (RewardDue guid rDungeonId) m else m
    | None => m
    end.
Definition FinishDungeon (gguid dungeonId : Z) (m : LFGMgr) : LFGMgr :=
  if negb (GetDungeon m gguid =? dungeonId) then m
  else if bool_decide (GetState m gguid = LFG_STATE_FINISHED_DUNGEON) then m
  else
    let m := SetState gguid LFG_STATE_FINISHED_DUNGEON m in
    each_of finish_player (set_ordered (g_players (group m gguid))) m.

(** [SetTeam] *)
Definition SetTeam (twoSide : bool) (guid team : Z) : LFGMgr -> LFGMgr :=
  on_player guid (player_SetTeam (if twoSide then 0 else team)).
End Manager.
