(* ===== verification/LfgJoin.v ===== *)
(** * Joining the dungeon finder (game/DungeonFinding/LFGMgr.cpp)

    Which dungeons are closed to a player, which are open to a party, and
    [JoinLfg]: the restrictions on players and groups, and the entry into a
    queue or the start of a role check. *)
From S2P Require Import Prelude.
From S2P Require Import Lists.
From S2P Require Import Util.
From S2P Require Import LfgRoles.
From S2P Require Import LfgQueue.
From S2P Require Import LfgMgr.
Local Open Scope Z_scope.

(** ** Locked dungeons *)

Inductive LfgLockStatusType :=
| LFG_LOCKSTATUS_INSUFFICIENT_EXPANSION | LFG_LOCKSTATUS_TOO_LOW_LEVEL | LFG_LOCKSTATUS_TOO_HIGH_LEVEL
| LFG_LOCKSTATUS_RAID_LOCKED | LFG_LOCKSTATUS_QUEST_NOT_COMPLETED | LFG_LOCKSTATUS_MISSING_ITEM
| LFG_LOCKSTATUS_NOT_IN_SEASON | LFG_LOCKSTATUS_MISSING_ACHIEVEMENT.
Definition lock_number (s : LfgLockStatusType) : Z :=
  match s with
  | LFG_LOCKSTATUS_INSUFFICIENT_EXPANSION => 1 | LFG_LOCKSTATUS_TOO_LOW_LEVEL => 2
  | LFG_LOCKSTATUS_TOO_HIGH_LEVEL => 3 | LFG_LOCKSTATUS_RAID_LOCKED => 6
  | LFG_LOCKSTATUS_QUEST_NOT_COMPLETED => 1022 | LFG_LOCKSTATUS_MISSING_ITEM => 1025
  | LFG_LOCKSTATUS_NOT_IN_SEASON => 1031 | LFG_LOCKSTATUS_MISSING_ACHIEVEMENT => 1034
  end.

Definition ALLIANCE : Z := 469.
Definition HORDE : Z := 67.
Definition DUNGEON_DIFFICULTY_NORMAL : Z := 1.

Record AccessRequirement := mkAccess { ar_achievement : Z; ar_quest_A : Z; ar_quest_H : Z; ar_item : Z; ar_item2 : Z }.
(** What [InitializeLockedDungeons] asks of the player and the server. *)
Record LockFacts := mkLock {
  lf_level : Z;
  lf_expansion : Z;
  lf_denyJoin : bool;
  lf_team : Z;
  lf_disabled : Z -> bool;
  lf_bound : Z -> Z -> bool;
  lf_season : Z -> bool;
  lf_access : Z -> Z -> option AccessRequirement;
  lf_achieved : Z -> bool;
  lf_rewarded : Z -> bool;
  lf_item : Z -> bool
}.

Definition access_status (f : LockFacts) (ar : AccessRequirement) : option LfgLockStatusType :=
  if negb (ar_achievement ar =? 0) && negb (lf_achieved f (ar_achievement ar)) then Some LFG_LOCKSTATUS_MISSING_ACHIEVEMENT
  else if (lf_team f =? ALLIANCE) && negb (ar_quest_A ar =? 0) && negb (lf_rewarded f (ar_quest_A ar))
  then Some LFG_LOCKSTATUS_QUEST_NOT_COMPLETED
  else if (lf_team f =? HORDE) && negb (ar_quest_H ar =? 0) && negb (lf_rewarded f (ar_quest_H ar))
  then Some LFG_LOCKSTATUS_QUEST_NOT_COMPLETED
  else if negb (ar_item ar =? 0) then
    if negb (lf_item f (ar_item ar)) && ((ar_item2 ar =? 0) || negb (lf_item f (ar_item2 ar)))
    then Some LFG_LOCKSTATUS_MISSING_ITEM else None
  else if negb (ar_item2 ar =? 0) && negb (lf_item f (ar_item2 ar)) then Some LFG_LOCKSTATUS_MISSING_ITEM
  else None.

Definition lock_status (f : LockFacts) (d : LFGDungeonData) : option LfgLockStatusType :=
  if lf_denyJoin f then Some LFG_LOCKSTATUS_RAID_LOCKED
  else if lf_expansion f <? d_expansion d then Some LFG_LOCKSTATUS_INSUFFICIENT_EXPANSION
  else if lf_disabled f (d_map d) then Some LFG_LOCKSTATUS_RAID_LOCKED
  else if (DUNGEON_DIFFICULTY_NORMAL <? d_difficulty d) && lf_bound f (d_map d) (d_difficulty d)
  then Some LFG_LOCKSTATUS_RAID_LOCKED
  else if lf_level f <? d_minlevel d then Some LFG_LOCKSTATUS_TOO_LOW_LEVEL
  else if d_maxlevel d <? lf_level f then Some LFG_LOCKSTATUS_TOO_HIGH_LEVEL
  else if d_seasonal d && negb (lf_season f (d_id d)) then Some LFG_LOCKSTATUS_NOT_IN_SEASON
  else match lf_access f (d_map d) (d_difficulty d) with
       | Some ar => access_status f ar
       | None => None
       end.

Section Join.
Context `{LfgWorld} (now : Z).

Definition lock_map (f : LockFacts) : gmap Z Z :=
  foldl (fun lock id =>
    match GetLFGDungeon id with
    | None => lock
    | Some d => match lock_status f d with Some s => <[Entry d := lock_number s]> lock | None => lock end
    end) ∅ (set_ordered (GetDungeonsByRandom 0)).
Definition InitializeLockedDungeons (guid : Z) (f : LockFacts) : LFGMgr -> LFGMgr :=
  on_player guid (player_SetLockedDungeons (lock_map f)).

(** [GetCompatibleDungeons]: the dungeons left, and who may not enter which of
    the others. *)
Definition lock_one (guid : Z) (acc : gset Z * gmap Z (gmap Z Z)) (e : Z * Z) : gset Z * gmap Z (gmap Z Z) :=
  let dungeonId := Z.land e.1 0x00FFFFFF in
  if bool_decide (dungeonId ∈ acc.1)
  then (acc.1 ∖ {[dungeonId]}, <[guid := <[dungeonId := e.2]> (default ∅ (acc.2 !! guid))]> acc.2)
  else acc.
Definition lock_player (m : LFGMgr) (acc : gset Z * gmap Z (gmap Z Z)) (guid : Z) : gset Z * gmap Z (gmap Z Z) :=
  foldl (lock_one guid) acc (map_ordered (p_locked (player m guid))).
Definition GetCompatibleDungeons (m : LFGMgr) (dungeons players : gset Z) : gset Z * gmap Z (gmap Z Z) :=
  let '(d, lockMap) := foldl (lock_player m) (dungeons, ∅) (set_ordered players) in
  (d, if bool_decide (d = ∅) then lockMap else ∅).

(** ** JoinLfg *)

(** A player as [JoinLfg] sees him, and his group with the members online. *)
Record Joiner := mkJoiner { j_guid : Z; j_permission : bool; j_battleground : bool; j_deserter : bool; j_cooldown : bool }.
Record JoinGroup := mkJoinGroup { jg_guid : Z; jg_isLFG : bool; jg_count : Z; jg_members : list Joiner }.

Definition member_result (p : Joiner) : LfgJoinResult :=
  if j_deserter p then LFG_JOIN_PARTY_DESERTER
  else if j_cooldown p then LFG_JOIN_PARTY_RANDOM_COOLDOWN
  else if j_battleground p then LFG_JOIN_USING_BG_SYSTEM
  else if negb (j_permission p) then LFG_JOIN_INTERNAL_ERROR else LFG_JOIN_OK.
Fixpoint check_members (l : list Joiner) (count : Z) (players : gset Z) : LfgJoinResult * Z * gset Z :=
  match l with
  | [] => (LFG_JOIN_OK, count, players)
  | p :: l =>
      let count := u8 (count + 1) in
      let players := players ∪ {[j_guid p]} in
      match member_result p with
      | LFG_JOIN_OK => check_members l count players
      | r => (r, count, players)
      end
  end.

(** "Check player or group member restrictions" *)
Definition check_joiner (p : Joiner) (grp : option JoinGroup) (dungeons : gset Z) : LfgJoinResult * gset Z :=
  if negb (j_permission p) then (LFG_JOIN_NOT_MEET_REQS, ∅)
  else if j_battleground p then (LFG_JOIN_USING_BG_SYSTEM, ∅)
  else if j_deserter p then (LFG_JOIN_DESERTER, ∅)
  else if j_cooldown p then (LFG_JOIN_RANDOM_COOLDOWN, ∅)
  else if bool_decide (dungeons = ∅) then (LFG_JOIN_NOT_MEET_REQS, ∅)
  else match grp with
  | None => (LFG_JOIN_OK, {[j_guid p]})
  | Some g =>
      if MAXGROUPSIZE <? jg_count g then (LFG_JOIN_TOO_MUCH_MEMBERS, ∅)
      else
        let '(r, count, players) := check_members (jg_members g) 0 ∅ in
        (if bool_decide (r = LFG_JOIN_OK) && negb (count =? jg_count g) then LFG_JOIN_DISCONNECTED else r, players)
  end.

(** "Check if all dungeons are valid": the result, whether dungeons and raids
    have been seen, and the random dungeon. *)
Record kinds := mkKinds { k_result : LfgJoinResult; k_dungeon : bool; k_raid : bool; k_random : Z }.
Definition check_kind (several : bool) (k : kinds) (id : Z) : kinds :=
  let as_dungeon k :=
    mkKinds (if k_raid k then LFG_JOIN_MIXED_RAID_DUNGEON else k_result k) true (k_raid k) (k_random k) in
  match GetDungeonType id with
  | LFG_TYPE_RANDOM =>
      as_dungeon (if several then mkKinds LFG_JOIN_DUNGEON_INVALID (k_dungeon k) (k_raid k) (k_random k)
                  else mkKinds (k_result k) (k_dungeon k) (k_raid k) id)
  | LFG_TYPE_HEROIC | LFG_TYPE_DUNGEON => as_dungeon k
  | LFG_TYPE_RAID =>
      mkKinds (if k_dungeon k then LFG_JOIN_MIXED_RAID_DUNGEON else k_result k) (k_dungeon k) true (k_random k)
  | LFG_TYPE_NONE => mkKinds LFG_JOIN_DUNGEON_INVALID (k_dungeon k) (k_raid k) (k_random k)
  end.
Fixpoint check_kinds (several : bool) (l : list Z) (k : kinds) : kinds :=
  match l with
  | [] => k
  | id :: l => if bool_decide (k_result k = LFG_JOIN_OK) then check_kinds several l (check_kind several k id) else k
  end.

Definition set_comment (c : text) : LfgPlayerData -> LfgPlayerData := player_SetComment c.
Definition one_or (rDungeonId : Z) (dungeons : gset Z) : gset Z := if rDungeonId =? 0 then dungeons else {[rDungeonId]}.

(** "Begin rolecheck" *)
Definition begin_role_check (g : JoinGroup) (guid roles rDungeonId : Z) (dungeons : gset Z) (isContinue : bool)
    (m : LFGMgr) : LFGMgr :=
  let gguid := jg_guid g in
  let old := match RoleChecksStore m !! gguid with Some rc => rc_roles rc | None => ∅ end in
  let rc := mkRoleCheck (now + LFG_TIME_ROLECHECK) (foldl (fun r p => <[j_guid p := PLAYER_ROLE_NONE]> r) old (jg_members g))
              LFG_ROLECHECK_INITIALITING dungeons rDungeonId guid in
  let selected := one_or rDungeonId dungeons in
  let m := SetState gguid LFG_STATE_ROLECHECK m in
  let m := each_of (fun p m =>
    let m := SetState p LFG_STATE_ROLECHECK (add_event (UpdateStatus p LFG_UPDATETYPE_JOIN_QUEUE true) m) in
    if isContinue then m else on_player p (player_SetSelectedDungeons selected) m) (map j_guid (jg_members g)) m in
  UpdateRoleCheck now gguid guid roles (set_checks (<[gguid := rc]> (RoleChecksStore m)) m).

(** "Add player to queue" *)
Definition join_queue (guid roles rDungeonId : Z) (dungeons : gset Z) (isContinue : bool) (m : LFGMgr) : LFGMgr :=
  let m := on_GetQueue guid (AddQueueData guid now dungeons {[guid := roles]}) m in
  let m := if isContinue then m else on_player guid (player_SetSelectedDungeons (one_or rDungeonId dungeons)) m in
  let m := add_event (JoinResult guid LFG_JOIN_OK LFG_ROLECHECK_DEFAULT) m in
  let m := add_event (UpdateStatus guid LFG_UPDATETYPE_JOIN_QUEUE false) m in
  on_player guid (player_SetRoles roles) (SetState guid LFG_STATE_QUEUED m).

Definition JoinLfg (p : Joiner) (grp : option JoinGroup) (roles : Z) (dungeons : gset Z) (comment : text) (m : LFGMgr)
    : LFGMgr :=
  if bool_decide (dungeons = ∅) then m else
  let guid := j_guid p in
  let gguid := match grp with Some g => jg_guid g | None => guid end in
  let isContinue := match grp with
    | Some g => jg_isLFG g && negb (bool_decide (GetState m gguid = LFG_STATE_FINISHED_DUNGEON))
    | None => false end in
  let dungeons := if isContinue then {[GetDungeon m gguid]} else dungeons in
  let m := if bool_decide (GetState m gguid = LFG_STATE_QUEUED) then on_GetQueue gguid (RemoveFromQueue gguid) m else m in
  let '(result, players) := check_joiner p grp dungeons in
  let k := match result with
    | LFG_JOIN_OK => check_kinds (negb (base.size dungeons =? 1)%nat) (set_ordered dungeons) (mkKinds LFG_JOIN_OK false false 0)
    | _ => mkKinds result false false 0 end in
  let expanded := if k_random k =? 0 then dungeons else GetDungeonsByRandom (k_random k) in
  let open := (GetCompatibleDungeons m expanded players).1 in
  let result := match k_result k with
    | LFG_JOIN_OK =>
        if bool_decide (open = ∅)
        then match grp with Some _ => LFG_JOIN_INTERNAL_ERROR | None => LFG_JOIN_NOT_MEET_REQS end else LFG_JOIN_OK
    | r => r end in
  match result with
  | LFG_JOIN_OK =>
      let m := on_player guid (set_comment comment) m in
      if k_raid k then m
      else match grp with
      | Some g => begin_role_check g guid roles (k_random k) open isContinue m
      | None => join_queue guid roles (k_random k) open isContinue m
      end
  | r => add_event (JoinResult guid r LFG_ROLECHECK_DEFAULT) m
  end.
End Join.
