(* ===== verification/LfgSafe.v ===== *)
(** * What every operation of the dungeon finder keeps

    The entries of all queues stay as [LfgParties] needs them, whatever
    players, groups and the clock do: what [JoinLfg] and the role check let in
    is in order, and nothing spoils it later.  So searching never fails, and
    every proposal the manager makes is for a valid party. *)
From S2P Require Import Prelude.
From S2P Require Import Lists.
From S2P Require Import Util.
From S2P Require Import LfgRoles.
From S2P Require Import LfgQueue.
From S2P Require Import LfgParties.
From S2P Require Import LfgMgr.
From S2P Require Import LfgJoin.
Local Open Scope Z_scope.

(** ** The invariant *)

Record check_ok (rc : LfgRoleCheck) : Prop := {
  co_state : rc_state rc = LFG_ROLECHECK_INITIALITING;
  co_dungeons : rc_dungeons rc <> ∅;
  co_bytes : forall p r, rc_roles rc !! p = Some r -> is_byte r
}.
Record mgr_ok (m : LFGMgr) : Prop := {
  mo_queues : forall id q, QueuesStore m !! id = Some q -> offers_ok (offers q);
  mo_checks : forall g rc, RoleChecksStore m !! g = Some rc -> check_ok rc
}.

(** Steps that leave queues and role checks alone. *)
Definition frame (m m' : LFGMgr) : Prop := QueuesStore m' = QueuesStore m /\ RoleChecksStore m' = RoleChecksStore m.
#[export] Instance frame_refl : Reflexive frame.
Proof. by split. Qed.
#[export] Instance frame_trans : Transitive frame.
Proof. intros x y z [H1 H2] [H3 H4]. split; congruence. Qed.
Lemma frame_ok m m' : frame m m' -> mgr_ok m -> mgr_ok m'.
Proof. intros [Hq Hc] [H1 H2]. split; [by rewrite Hq|by rewrite Hc]. Qed.

Lemma on_player_frame g f m : frame m (on_player g f m).
Proof. done. Qed.
Lemma on_group_frame g f m : frame m (on_group g f m).
Proof. done. Qed.
Lemma add_event_frame e m : frame m (add_event e m).
Proof. done. Qed.
Lemma SetState_frame g st m : frame m (SetState g st m).
Proof. unfold SetState. by case_match. Qed.
Lemma RestoreState_frame g m : frame m (RestoreState g m).
Proof. unfold RestoreState. by case_match. Qed.
Lemma send_frame `{LfgWorld} g e m : frame m (send g e m).
Proof. unfold send. by case_match. Qed.
Lemma each_of_frame f l m : (forall g m, frame m (f g m)) -> frame m (each_of f l m).
Proof.
  intros Hf. unfold each_of. revert m. induction l as [|g l IH]; intros m; cbn; [done|]. etrans; [apply Hf|apply IH].
Qed.
Lemma foldl_frame {A} (f : LFGMgr -> A -> LFGMgr) l m : (forall x m, frame m (f m x)) -> frame m (foldl f m l).
Proof. intros Hf. revert m. induction l as [|x l IH]; intros m; cbn; [done|]. etrans; [apply Hf|apply IH]. Qed.

Create HintDb frame.
#[export] Hint Resolve on_player_frame on_group_frame add_event_frame SetState_frame RestoreState_frame send_frame
  each_of_frame foldl_frame frame_refl : frame.

(** Peels the outermost step of a composed manager. *)
Ltac frame :=
  repeat match goal with
  | |- frame ?m ?m => reflexivity
  | |- frame _ (if ?c then _ else _) => destruct c
  | |- frame _ (match ?c with _ => _ end) => destruct c
  | |- frame _ (SendLfgUpdateStatus _ _ _ _) => unfold SendLfgUpdateStatus
  | |- frame _ (send _ _ _) => etrans; [|apply send_frame]
  | |- frame _ (SetState _ _ _) => etrans; [|apply SetState_frame]
  | |- frame _ (RestoreState _ _) => etrans; [|apply RestoreState_frame]
  | |- frame _ (on_player _ _ _) => etrans; [|apply on_player_frame]
  | |- frame _ (on_group _ _ _) => etrans; [|apply on_group_frame]
  | |- frame _ (add_event _ _) => etrans; [|apply add_event_frame]
  | |- frame _ (each_of _ _ _) => etrans; [|apply each_of_frame; intros ? ?]
  | |- frame _ (foldl _ _ _) => etrans; [|apply foldl_frame; intros ? ?]
  | |- frame _ ((fun _ => _) _) => cbv beta
  end.

Lemma set_boots_frame x m : frame m (set_boots x m).
Proof. done. Qed.
Lemma set_proposals_frame x m : frame m (set_proposals x m).
Proof. done. Qed.

(** ** The queues *)

Lemma AddToQueue_offers g q : offers (AddToQueue g q) = offers q.
Proof. unfold AddToQueue. by case_match. Qed.
Lemma count_wait_offers r w d q : offers (count_wait r w d q) = offers q.
Proof. unfold count_wait. by repeat case_match. Qed.

Definition keeps_offers (f : LFGQueue -> LFGQueue) : Prop := forall q, offers_ok (offers q) -> offers_ok (offers (f q)).
Lemma RemoveFromQueue_keeps g : keeps_offers (RemoveFromQueue g).
Proof. intros q Hq. rewrite RemoveFromQueue_offers. by apply map_Forall_delete. Qed.
Lemma AddQueueData_keeps g t d r : offer_ok (d, r) -> keeps_offers (AddQueueData g t d r).
Proof. intros Hx q Hq. rewrite AddQueueData_offers. by apply map_Forall_insert_2. Qed.
Lemma foldl_keeps {A} (f : LFGQueue -> A -> LFGQueue) l :
  (forall x, keeps_offers (fun q => f q x)) -> keeps_offers (fun q => foldl f q l).
Proof. intros Hf. induction l as [|x l IH]; intros q Hq; cbn; [done|]. by apply IH, Hf. Qed.

Lemma GetQueue_ok m g : mgr_ok m -> offers_ok (offers (GetQueue m g)).
Proof.
  intros [Hq _]. unfold GetQueue. destruct (QueuesStore m !! _) as [q|] eqn:E; cbn; [by eapply Hq|]. intros i x Hx. done.
Qed.
Lemma set_queues_ok m id q : mgr_ok m -> offers_ok (offers q) -> mgr_ok (set_queues (<[id := q]> (QueuesStore m)) m).
Proof. intros [Hq Hc] Hok. split; [|done]. intros i x. cbn. intros [[_ <-]|[_ Hx]]%lookup_insert_Some; [done|by eapply Hq]. Qed.
Lemma on_GetQueue_ok m g f : keeps_offers f -> mgr_ok m -> mgr_ok (on_GetQueue g f m).
Proof. intros Hf Hm. apply set_queues_ok; [done|]. by apply Hf, GetQueue_ok. Qed.
Lemma set_checks_ok m c : mgr_ok m -> (forall g rc, c !! g = Some rc -> check_ok rc) -> mgr_ok (set_checks c m).
Proof. intros [Hq _] Hc. by split. Qed.

Section Safe.
Context `{LfgWorld} (now : Z).

(** ** Calls that can fail *)

(** From a good state to a good one, and never an error of the search. *)
Definition safe {A} (c : MM A) : Prop := forall m, mgr_ok m ->
  match c m with Ok (_, m') => mgr_ok m' | Err e => forall q, e <> LfgQueueError q end.

Lemma lfg_safe_ret {A} (a : A) : safe (mret a).
Proof. by intros m Hm. Qed.
Lemma safe_throw {A} e : (forall q, e <> LfgQueueError q) -> safe (A := A) (st_throw e).
Proof. by intros He m Hm. Qed.
Lemma safe_get : safe st_get.
Proof. by intros m Hm. Qed.
Lemma safe_upd f : (forall m, mgr_ok m -> mgr_ok (f m)) -> safe (upd f).
Proof. intros Hf m Hm. by apply Hf. Qed.
Lemma safe_frame f : (forall m, frame m (f m)) -> safe (upd f).
Proof. intros Hf. apply safe_upd. intros m. apply frame_ok, Hf. Qed.
Lemma lfg_safe_bind {A B} (c : MM A) (f : A -> MM B) : safe c -> (forall a, safe (f a)) -> safe (c ≫= f).
Proof.
  intros Hc Hf m Hm. specialize (Hc m Hm). unfold mbind, st_bind. destruct (c m) as [[a m']|e]; [|done]. by apply Hf.
Qed.
(** Reading the state: the rest may use what is known of it. *)
Lemma lfg_safe_read {B} (f : LFGMgr -> MM B) :
  (forall m, mgr_ok m -> match f m m with Ok (_, m') => mgr_ok m' | Err e => forall q, e <> LfgQueueError q end) ->
  safe (st_get ≫= f).
Proof. intros Hf m Hm. by apply Hf. Qed.
Lemma safe_at {A} (c : MM A) m : safe c -> mgr_ok m ->
  match c m with Ok (_, m') => mgr_ok m' | Err e => forall q, e <> LfgQueueError q end.
Proof. intros Hc. apply Hc. Qed.
Lemma each_m_safe f l : (forall g, safe (f g)) -> safe (each_m f l).
Proof. intros Hf. induction l as [|g l IH]; cbn [each_m]; [apply lfg_safe_ret|]. by apply lfg_safe_bind. Qed.
Lemma each_entry_safe {A} (f : Z * A -> MM unit) l : (forall e, safe (f e)) -> safe (each_entry f l).
Proof. intros Hf. induction l as [|g l IH]; cbn [each_entry]; [apply lfg_safe_ret|]. by apply lfg_safe_bind. Qed.

(** ** Role checks *)

Lemma role_check_player_frame rc chosen p m : frame m (role_check_player rc chosen p m).
Proof. unfold role_check_player. destruct (rc_state rc); frame. Qed.

Lemma expire_role_check_ok e m : mgr_ok m -> mgr_ok (expire_role_check now e m).
Proof.
  intros Hm. unfold expire_role_check. case_match; [done|].
  match goal with |- mgr_ok (set_checks _ ?x) => assert (Hx : mgr_ok x) by (apply (frame_ok m); [frame|done]) end.
  apply set_checks_ok; [done|]. intros g rc [_ Hrc]%lookup_delete_Some. by eapply mo_checks.
Qed.

(** The answer of a player, with his roles in the check. *)
Lemma role_check_answer_ok guid roles rc :
  check_ok rc -> is_byte roles -> (base.size (<[guid := roles]> (rc_roles rc)) < 256)%nat ->
  let rc' := role_check_answer guid roles rc in
  rc_dungeons rc' <> ∅ /\
  (rc_state rc' = LFG_ROLECHECK_INITIALITING -> check_ok rc') /\
  (rc_state rc' = LFG_ROLECHECK_FINISHED -> offer_ok (rc_dungeons rc', rc_roles rc')).
Proof.
  intros [Hst Hd Hb] Hr Hs. unfold role_check_answer.
  assert (Hb' : forall p r, <[guid := roles]> (rc_roles rc) !! p = Some r -> is_byte r).
  { intros p r [[_ <-]|[_ Hp]]%lookup_insert_Some; [done|by eapply Hb]. }
  destruct (guid =? 0); [by cbn|]. destruct (roles <? PLAYER_ROLE_TANK); [by cbn|].
  destruct (forallb _ _); cbn.
  - destruct (CheckGroupRoles _).1 eqn:Hc; cbn; (split; [done|]; split; [done|]); [|done]. intros _.
    apply checked_offer_ok; [done| |done|done|done]. by apply insert_non_empty.
  - split; [done|]. split; [by split|]. by rewrite Hst.
Qed.

Lemma UpdateRoleCheck_ok gguid guid roles m :
  mgr_ok m -> is_byte roles ->
  (forall rc, RoleChecksStore m !! gguid = Some rc -> (base.size (<[guid := roles]> (rc_roles rc)) < 256)%nat) ->
  mgr_ok (UpdateRoleCheck now gguid guid roles m).
Proof.
  intros Hm Hr Hs. unfold UpdateRoleCheck. case_match; [done|]. destruct (RoleChecksStore m !! gguid) as [rc0|] eqn:Hrc; [|done].
  set (rc := role_check_answer guid roles rc0). set (chosen := if _ : bool then _ else _).
  destruct (role_check_answer_ok guid roles rc0 (mo_checks _ Hm _ _ Hrc) Hr (Hs _ eq_refl)) as (Hd & Hin & Hfin). fold rc in Hd, Hin, Hfin.
  set (m1 := foldl _ _ _). assert (Hf : frame (set_checks (<[gguid := rc]> (RoleChecksStore m)) m) m1).
  { apply foldl_frame. intros p x. apply role_check_player_frame. }
  assert (Hdel : forall m2, frame m1 m2 -> mgr_ok (set_checks (delete gguid (RoleChecksStore m2)) m2)).
  { intros m2 [Hq2 Hc2]. destruct Hf as [Hq1 Hc1]. split; cbn.
    - rewrite Hq2, Hq1. apply (mo_queues _ Hm).
    - rewrite Hc2, Hc1. cbn. intros g x [Hg Hx]%lookup_delete_Some. rewrite lookup_insert_ne in Hx by done. by eapply (mo_checks _ Hm). }
  destruct (rc_state rc) eqn:Hst; try solve [apply Hdel; frame].
  - set (m2 := SetState gguid _ m1).
    change (mgr_ok (on_GetQueue gguid (AddQueueData gguid now (rc_dungeons rc) (rc_roles rc))
                      (set_checks (delete gguid (RoleChecksStore m2)) m2))).
    apply on_GetQueue_ok; [by apply AddQueueData_keeps, Hfin|]. apply Hdel, SetState_frame.
  - destruct Hf as [Hq1 Hc1]. split.
    + rewrite Hq1. apply (mo_queues _ Hm).
    + rewrite Hc1. cbn. intros g x [[_ <-]|[_ Hx]]%lookup_insert_Some; [by apply Hin|by eapply (mo_checks _ Hm)].
Qed.

(** Nobody's answer ends the check. *)
Lemma UpdateRoleCheck_abort_ok gguid m : mgr_ok m -> mgr_ok (UpdateRoleCheck now gguid 0 PLAYER_ROLE_NONE m).
Proof.
  intros Hm. unfold UpdateRoleCheck. case_match; [done|]. destruct (RoleChecksStore m !! gguid) as [rc0|] eqn:Hrc; [|done].
  cbn [role_check_answer rc_state rc_set_state Z.eqb].
  match goal with |- context [foldl ?f ?a ?l] => set (m1 := foldl f a l);
    assert (Hf : frame a m1) by (apply foldl_frame; intros p x; apply role_check_player_frame) end.
  destruct (RestoreState_frame gguid m1) as [Hq2 Hc2]. destruct Hf as [Hq1 Hc1]. split; cbn.
  - rewrite Hq2, Hq1. apply (mo_queues _ Hm).
  - rewrite Hc2, Hc1. cbn. intros g x [Hg Hx]%lookup_delete_Some. rewrite lookup_insert_ne in Hx by done. by eapply (mo_checks _ Hm).
Qed.

(** ** Proposals *)

Lemma notify_player_frame remove t e m : frame m (notify_player remove t e m).
Proof. unfold notify_player. frame. Qed.

Lemma RemoveProposal_safe id p t : safe (RemoveProposal id p t).
Proof.
  unfold RemoveProposal. apply lfg_safe_bind; [|intros _].
  - apply safe_frame. intros m. apply foldl_frame. intros e x. apply notify_player_frame.
  - destruct (map_ordered _) as [|[first pp] l]; [by apply safe_throw|]. apply lfg_safe_bind; [|intros _].
    + apply safe_upd. intros m Hm. apply on_GetQueue_ok; [|done]. intros q Hq.
      apply (foldl_keeps (fun q g => AddToQueue g q)); [intros g q' Hq'; by rewrite AddToQueue_offers|].
      refine (foldl_keeps (fun q g => RemoveFromQueue g q) _ _ q Hq). intros g. apply RemoveFromQueue_keeps.
    + apply safe_frame. done.
Qed.

Lemma LeaveLfg_safe guid : safe (LeaveLfg now guid).
Proof.
  unfold LeaveLfg. apply lfg_safe_bind; [apply safe_get|intros m]. set (gguid := if IS_GROUP_GUID guid then _ else _).
  destruct (GetState m guid); try apply lfg_safe_ret.
  - case_match; [|apply lfg_safe_ret]. apply safe_upd, UpdateRoleCheck_abort_ok.
  - case_match; apply safe_upd; intros x Hx.
    + apply (frame_ok (on_GetQueue gguid (RemoveFromQueue gguid) x)); [frame|]. apply on_GetQueue_ok; [apply RemoveFromQueue_keeps|done].
    + apply (frame_ok (on_GetQueue guid (RemoveFromQueue guid) x)); [frame|]. apply on_GetQueue_ok; [apply RemoveFromQueue_keeps|done].
  - destruct (proposal_with _ _) as [[id p]|]; [apply RemoveProposal_safe|apply lfg_safe_ret].
  - case_match; [|apply lfg_safe_ret]. apply safe_frame. intros x. frame.
  - case_match; [|apply lfg_safe_ret]. apply safe_frame. intros x. frame.
  - case_match; [|apply lfg_safe_ret]. apply safe_frame. intros x. frame.
Qed.

(** ** Groups and votes *)

Lemma RemoveGroupData_frame g m : frame m (RemoveGroupData g m).
Proof.
  unfold RemoveGroupData. destruct (GroupsStore m !! g) as [d|]; [|done].
  match goal with |- frame _ (set_groups _ ?x) => change (frame m x) end. unfold SetGroup. frame.
Qed.
Lemma InitBoot_frame g k v r m : frame m (InitBoot now g k v r m).
Proof.
  unfold InitBoot. match goal with |- frame _ (each_of _ _ (set_boots _ ?x)) => etrans; [|apply each_of_frame; intros p y];
    [change (frame m x)|] end; frame.
Qed.

Lemma run_call_safe c : safe (run_call now c).
Proof.
  unfold run_call. case_match; [apply lfg_safe_ret|]. destruct c as [gguid leader guid|gguid isLFG guid method kicker reason|gguid|gguid l|gguid l guid].
  - apply lfg_safe_bind; [|intros _; by apply safe_frame]. case_match; [by apply safe_frame|].
    apply lfg_safe_bind; [apply safe_get|intros m]. apply lfg_safe_bind; [|intros _];
      (destruct (bool_decide _); [apply LeaveLfg_safe|apply lfg_safe_ret]).
  - case_match; [apply safe_frame; intros m; apply InitBoot_frame|]. apply lfg_safe_bind; [apply safe_get|intros m].
    case_match; [by apply safe_frame|]. apply lfg_safe_bind; [apply LeaveLfg_safe|intros _]. apply lfg_safe_bind; [by apply safe_frame|intros _].
    apply lfg_safe_bind; [apply safe_get|intros m']. apply safe_frame. intros x. cbv zeta. frame.
  - apply safe_frame. intros m. apply RemoveGroupData_frame.
  - by apply safe_frame.
  - case_match; [apply LeaveLfg_safe|apply lfg_safe_ret].
Qed.
Lemma run_calls_safe l : safe (run_calls now l).
Proof. induction l as [|c l IH]; cbn [run_calls]; [apply lfg_safe_ret|]. apply lfg_safe_bind; [apply run_call_safe|done]. Qed.
Lemma run_steps_safe l g : safe (run_steps now l g).
Proof.
  revert g. induction l as [|[c|c] l IH]; intros g; cbn [run_steps]; [apply lfg_safe_ret| |].
  - apply lfg_safe_bind; [apply run_call_safe|done].
  - apply lfg_safe_bind; [apply safe_frame; intros; apply SetState_frame|done].
Qed.

Lemma UpdateBoot_safe guid accept : safe (UpdateBoot now guid accept).
Proof.
  unfold UpdateBoot. apply lfg_safe_bind; [apply safe_get|intros m]. case_match; [apply lfg_safe_ret|].
  destruct (BootsStore m !! _) as [b|]; [|apply lfg_safe_ret]. case_match; [by apply safe_frame|].
  apply lfg_safe_bind; [by apply safe_frame|intros _]. case_match; [apply lfg_safe_ret|]. unfold finish_boot.
  apply lfg_safe_bind; [apply safe_frame; intros x; frame|intros _]. apply lfg_safe_bind; [apply safe_frame; intros x; frame|intros _].
  apply lfg_safe_bind; [|intros _; by apply safe_frame]. case_match; [|apply lfg_safe_ret].
  apply lfg_safe_bind; [|intros _; by apply safe_frame]. case_match; [|apply lfg_safe_ret].
  apply lfg_safe_bind; [by apply safe_frame|intros _]. apply run_calls_safe.
Qed.

(** ** Accepted proposals *)

Lemma MakeNewGroup_safe p : safe (MakeNewGroup now p).
Proof.
  unfold MakeNewGroup. apply lfg_safe_bind; [apply safe_get|intros m]. destruct (GetLFGDungeon _) as [d|]; [|by apply safe_throw].
  apply lfg_safe_bind; [apply run_steps_safe|intros g]. destruct (g =? 0); [by apply safe_throw|].
  apply lfg_safe_bind; [apply safe_frame; intros x; frame|intros _]. apply lfg_safe_bind; [apply safe_frame; intros x; frame|intros _].
  by apply safe_frame.
Qed.

Lemma accepted_player_safe asker first send e : safe (accepted_player now asker first send e).
Proof.
  unfold accepted_player. apply lfg_safe_bind; [apply safe_get|intros m]. destruct (set_ordered _) as [|d l]; [by apply safe_throw|].
  apply safe_upd. intros x Hx. cbv zeta. eapply frame_ok; [apply SetState_frame|]. apply on_GetQueue_ok.
  - intros q Hq. by rewrite count_wait_offers.
  - apply (frame_ok x); [frame|done].
Qed.
Lemma accepted_players_safe asker first send l : safe (accepted_players now asker first send l).
Proof.
  revert first. induction l as [|e l IH]; intros first; cbn [accepted_players]; [apply lfg_safe_ret|].
  apply lfg_safe_bind; [apply accepted_player_safe|done].
Qed.

Lemma UpdateProposal_safe id guid accept : safe (UpdateProposal now id guid accept).
Proof.
  unfold UpdateProposal. apply lfg_safe_bind; [apply safe_get|intros m]. destruct (ProposalsStore m !! id) as [p|]; [|apply lfg_safe_ret].
  destruct (pr_players p !! guid) as [pp|]; [|apply lfg_safe_ret]. apply lfg_safe_bind; [by apply safe_frame|intros _].
  destruct accept; cbn [negb]; [|apply RemoveProposal_safe]. destruct (forallb _ _); cbn [negb].
  - apply lfg_safe_bind; [by apply safe_frame|intros _]. apply lfg_safe_bind; [apply accepted_players_safe|intros _].
    apply lfg_safe_bind; [|intros _; apply lfg_safe_bind; [apply MakeNewGroup_safe|intros _; by apply safe_frame]].
    apply safe_upd. intros x Hx. apply on_GetQueue_ok; [|done].
    apply (foldl_keeps (fun q g => RemoveFromQueue g q)). intros g. apply RemoveFromQueue_keeps.
  - apply safe_frame. intros x. frame.
Qed.

(** ** The update *)

(** Searching one queue of a good manager succeeds. *)
Lemma find_in_queue_safe id : safe (find_in_queue now id).
Proof.
  intros m Hm. unfold find_in_queue. destruct (QueuesStore m !! id) as [q|] eqn:Hq; [|done].
  pose proof (@FindGroups_runs (states_of m) now (mkQS q (ProposalsStore m) (lastProposalId m) (raw_dice m))
    (mo_queues _ Hm _ _ Hq)) as Hr. unfold runs in Hr.
  destruct (FindGroups now _) as [[n s]|e]; [|done]. destruct Hr as [[ps Hmade] _].
  split; [|apply (mo_checks _ Hm)]. cbn. intros i x [[_ <-]|[_ Hx]]%lookup_insert_Some; [|by eapply (mo_queues _ Hm)].
  rewrite (@mk_offers _ now _ _ _ Hmade). by apply (mo_queues _ Hm _ _ Hq).
Qed.

Lemma announce_safe e : safe (announce now e).
Proof.
  unfold announce. apply lfg_safe_bind; [|intros _].
  - apply safe_frame. intros m. apply each_of_frame. intros g x. unfold announce_player. cbv zeta. frame.
  - case_match; [|apply lfg_safe_ret]. apply lfg_safe_bind; [apply UpdateProposal_safe|intros _].
    apply lfg_safe_bind; [apply safe_get|intros m]. destruct (ProposalsStore m !! _); [apply lfg_safe_ret|by apply safe_throw].
Qed.

Lemma expire_boot_frame e m : frame m (expire_boot now e m).
Proof. unfold expire_boot. case_match; [|done]. etrans; [|apply set_boots_frame]. frame. Qed.

Lemma FindBest_offer' g q x : offer_of (match bestCompatible x with [] => FindBestCompatibleInQueue g q x | _ => x end) = offer_of x.
Proof. destruct (bestCompatible x); [apply FindBest_offer|done]. Qed.

Lemma update_entry_safe id e : offer_ok (offer_of e.2) -> safe (update_entry now id e).
Proof.
  intros He. unfold update_entry. apply lfg_safe_read. intros m Hm. destruct (set_ordered _) as [|d l]; [by intros q|].
  set (q := default empty_queue _). set (x := match bestCompatible e.2 with [] => _ | _ => _ end).
  apply (safe_at (upd _;; upd _)); [|exact Hm]. apply lfg_safe_bind; [|intros _; apply safe_frame; intros y; frame].
  apply safe_upd. intros y Hy. apply set_queues_ok; [done|]. unfold offers. cbn. rewrite fmap_insert.
  unfold x. rewrite FindBest_offer'. apply map_Forall_insert_2; [done|].
  unfold q. destruct (QueuesStore m !! id) as [q'|] eqn:Hq; cbn; [by apply (mo_queues _ Hm id)|]. intros i z Hz. done.
Qed.

Lemma update_entries_safe id l : Forall (fun e => offer_ok (offer_of e.2)) l -> safe (update_entries now id l).
Proof.
  intros Hl. induction Hl as [|e l He Hl IH]; cbn [update_entries]; [apply lfg_safe_ret|].
  apply lfg_safe_bind; [by apply update_entry_safe|done].
Qed.

Lemma UpdateQueueTimers_safe id : safe (UpdateQueueTimers now id).
Proof.
  unfold UpdateQueueTimers. apply lfg_safe_read. intros m Hm. apply (safe_at (update_entries _ _ _)); [|exact Hm].
  apply update_entries_safe, Forall_forall. intros [g x] Hx%elem_of_map_ordered. cbn.
  destruct (QueuesStore m !! id) as [q|] eqn:Hq; cbn in Hx; [|done].
  apply (mo_queues _ Hm id q Hq g). unfold offers. by rewrite lookup_fmap, Hx.
Qed.

Lemma Update_safe diff : safe (Update now diff).
Proof.
  unfold Update. case_match; [apply lfg_safe_ret|].
  apply lfg_safe_bind; [|intros _].
  { apply safe_upd. intros m Hm. generalize (map_ordered (RoleChecksStore m)). intros l. revert m Hm.
    induction l as [|e l IH]; intros m Hm; cbn; [done|]. by apply IH, expire_role_check_ok. }
  apply lfg_safe_bind; [apply safe_get|intros m]. apply lfg_safe_bind; [|intros _].
  { apply each_entry_safe. intros e. unfold expire_proposal. case_match; [apply RemoveProposal_safe|apply lfg_safe_ret]. }
  apply lfg_safe_bind; [apply safe_frame; intros x; apply foldl_frame; intros; apply expire_boot_frame|intros _].
  apply lfg_safe_bind; [apply safe_get|intros m2]. apply lfg_safe_bind; [apply each_m_safe, find_in_queue_safe|intros _].
  apply lfg_safe_bind; [apply safe_get|intros m3]. apply lfg_safe_bind; [|intros _].
  { case_match; [apply each_entry_safe, announce_safe|apply lfg_safe_ret]. }
  apply lfg_safe_bind; [apply safe_get|intros m4]. case_match; [|by apply safe_frame].
  apply lfg_safe_bind; [by apply safe_frame|intros _]. apply each_m_safe, UpdateQueueTimers_safe.
Qed.

(** ** Joining *)

Lemma single_offer_ok d guid r : d <> ∅ -> is_byte r -> offer_ok (d, {[guid := r]}).
Proof.
  intros Hd Hr. split; cbn [fst snd]; [done|apply map_non_empty_singleton| | |]; try (rewrite map_size_singleton; lia).
  by intros p x [_ <-]%lookup_singleton_Some.
Qed.

(** The roles in the role check a group begins. *)
Definition begun_roles (g : JoinGroup) (m : LFGMgr) : gmap Z Z :=
  foldl (fun r p => <[j_guid p := PLAYER_ROLE_NONE]> r)
    match RoleChecksStore m !! jg_guid g with Some rc => rc_roles rc | None => ∅ end (jg_members g).

Lemma begun_roles_bytes g m : mgr_ok m -> forall p r, begun_roles g m !! p = Some r -> is_byte r.
Proof.
  intros Hm. unfold begun_roles.
  assert (H0 : forall p r, (match RoleChecksStore m !! jg_guid g with Some rc => rc_roles rc | None => ∅ end) !! p = Some r -> is_byte r).
  { destruct (RoleChecksStore m !! jg_guid g) as [rc|] eqn:E; [apply (co_bytes _ (mo_checks _ Hm _ _ E))|done]. }
  revert H0. generalize (match RoleChecksStore m !! jg_guid g with Some rc => rc_roles rc | None => ∅ end).
  induction (jg_members g) as [|x l IH]; intros r0 H0; cbn; [done|]. apply IH.
  intros p r [[_ <-]|[_ Hp]]%lookup_insert_Some; [by vm_compute|by eapply H0].
Qed.

Lemma begin_role_check_ok g guid roles rd dungeons c m :
  mgr_ok m -> is_byte roles -> dungeons <> ∅ -> (base.size (<[guid := roles]> (begun_roles g m)) < 256)%nat ->
  mgr_ok (begin_role_check now g guid roles rd dungeons c m).
Proof.
  intros Hm Hr Hd Hs. unfold begin_role_check. fold (begun_roles g m). set (rc := mkRoleCheck _ _ _ _ _ _).
  match goal with |- context [set_checks _ ?x] => assert (Hf : frame m x) by frame; set (m1 := x) in * end.
  apply UpdateRoleCheck_ok; [|done|].
  - apply set_checks_ok; [by eapply frame_ok|]. intros g' rc' [[_ <-]|[_ Hx]]%lookup_insert_Some.
    + split; [done|done|]. by apply begun_roles_bytes.
    + destruct Hf as [_ Hc]. rewrite Hc in Hx. by eapply (mo_checks _ Hm).
  - cbn. intros rc'. rewrite lookup_insert_eq. by intros [= <-].
Qed.

Lemma JoinLfg_ok p grp roles dungeons comment m :
  mgr_ok m -> is_byte roles ->
  (forall g, grp = Some g -> (base.size (<[j_guid p := roles]> (begun_roles g m)) < 256)%nat) ->
  mgr_ok (JoinLfg now p grp roles dungeons comment m).
Proof.
  intros Hm Hr Hs. unfold JoinLfg. case_match; [done|].
  set (gguid := match grp with Some g => jg_guid g | None => j_guid p end). set (cont := match grp with Some _ => _ | None => _ end).
  set (ds := if cont then _ else dungeons). set (m1 := if bool_decide _ then _ else m).
  assert (Hm1 : mgr_ok m1) by (unfold m1; case_match; [by apply on_GetQueue_ok, Hm; apply RemoveFromQueue_keeps|done]).
  assert (Hc1 : RoleChecksStore m1 = RoleChecksStore m) by (unfold m1; by case_match).
  destruct (check_joiner p grp ds) as [result players]. set (k := match result with LFG_JOIN_OK => _ | _ => _ end).
  set (opened := (GetCompatibleDungeons _ _ _).1). set (r := match k_result k with LFG_JOIN_OK => _ | _ => _ end).
  assert (Hrej : forall x, mgr_ok (add_event (JoinResult (j_guid p) x LFG_ROLECHECK_DEFAULT) m1)) by (intros x; by apply (frame_ok m1)).
  assert (Hopen : r = LFG_JOIN_OK -> opened <> ∅).
  { unfold r. destruct (k_result k); try done. destruct (bool_decide (opened = ∅)) eqn:E; [by destruct grp|].
    intros _. by apply bool_decide_eq_false in E. }
  destruct r; try apply Hrej. specialize (Hopen eq_refl). set (m2 := on_player _ _ m1).
  assert (Hm2 : mgr_ok m2) by by apply (frame_ok m1). destruct (k_raid k); [done|]. destruct grp as [g|].
  - apply begin_role_check_ok; [done|done|done|]. unfold begun_roles. cbn. rewrite Hc1. by apply (Hs g).
  - unfold join_queue. match goal with |- mgr_ok (on_player _ _ (SetState _ _ ?x)) => apply (frame_ok x); [frame|] end.
    match goal with |- mgr_ok (add_event _ (add_event _ ?x)) => apply (frame_ok x); [frame|] end. case_match.
    + apply on_GetQueue_ok; [by apply AddQueueData_keeps, single_offer_ok|done].
    + match goal with |- mgr_ok (on_player _ _ ?x) => apply (frame_ok x); [frame|] end.
      apply on_GetQueue_ok; [by apply AddQueueData_keeps, single_offer_ok|done].
Qed.
End Safe.
