(* ===== verification/LfgLife.v ===== *)
(** * Runs of the dungeon finder

    The requests of players, the calls of groups and the update of the server
    as one set of operations: everything they can lead to keeps the queues in
    order.  Then what single operations do: the vote to kick as an abstract
    count, the answers to a role check, and a declined proposal. *)
From S2P Require Import Prelude.
From S2P Require Import Lists.
From S2P Require Import Util.
From S2P Require Import LfgRoles.
From S2P Require Import LfgQueue.
From S2P Require Import LfgParties.
From S2P Require Import LfgMgr.
From S2P Require Import LfgJoin.
From S2P Require Import LfgSafe.
Local Open Scope Z_scope.

(** ** Operations *)

Inductive lfg_op :=
| DoJoin (p : Joiner) (grp : option JoinGroup) (roles : Z) (dungeons : gset Z) (comment : text)
| DoLeave (guid : Z)
| DoSetRoles (gguid guid roles : Z)
| DoAnswer (proposalId guid : Z) (accept : bool)
| DoVote (guid : Z) (accept : bool)
| DoGroupCall (c : group_call)
| DoLocks (guid : Z) (f : LockFacts)
| DoTeam (guid team : Z)
| DoFinish (gguid dungeonId : Z)
| DoUpdate (diff : Z).

Section Life.
Context `{LfgWorld}.

Definition run_lfg (now : Z) (op : lfg_op) : MM unit :=
  match op with
  | DoJoin p grp roles dungeons comment => upd (JoinLfg now p grp roles dungeons comment)
  | DoLeave guid => LeaveLfg now guid
  | DoSetRoles gguid guid roles => upd (UpdateRoleCheck now gguid guid roles)
  | DoAnswer id guid accept => UpdateProposal now id guid accept
  | DoVote guid accept => UpdateBoot now guid accept
  | DoGroupCall c => run_call now c
  | DoLocks guid f => upd (InitializeLockedDungeons guid f)
  | DoTeam guid team => upd (SetTeam false guid team)
  | DoFinish gguid dungeonId => upd (FinishDungeon gguid dungeonId)
  | DoUpdate diff => Update now diff
  end.

(** Roles are bytes, and a role check has fewer than 256 players. *)
Definition lfg_enabled (m : LFGMgr) (op : lfg_op) : Prop :=
  match op with
  | DoJoin p grp roles _ _ =>
      is_byte roles /\ forall g, grp = Some g -> (base.size (<[j_guid p := roles]> (begun_roles g m)) < 256)%nat
  | DoSetRoles gguid guid roles =>
      is_byte roles /\ forall rc, RoleChecksStore m !! gguid = Some rc -> (base.size (<[guid := roles]> (rc_roles rc)) < 256)%nat
  | _ => True
  end.

Definition empty_mgr (dice : list Z) : LFGMgr := mkMgr ∅ ∅ ∅ ∅ ∅ ∅ 0 0 dice [].
Inductive lfg_reachable : LFGMgr -> Prop :=
| reach_empty dice : lfg_reachable (empty_mgr dice)
| reach_op now op m m' : lfg_reachable m -> lfg_enabled m op -> run_lfg now op m = Ok (tt, m') -> lfg_reachable m'.

Lemma FinishDungeon_frame g d m : frame m (FinishDungeon g d m).
Proof.
  unfold FinishDungeon. frame; try reflexivity. unfold finish_player. cbv zeta. frame.
Qed.

Lemma run_lfg_safe now op m : lfg_enabled m op -> mgr_ok m ->
  match run_lfg now op m with Ok (_, m') => mgr_ok m' | Err e => forall q, e <> LfgQueueError q end.
Proof.
  intros Hen Hm. destruct op; cbn [run_lfg] in *.
  - destruct Hen. by apply JoinLfg_ok.
  - by apply LeaveLfg_safe.
  - destruct Hen. by apply UpdateRoleCheck_ok.
  - by apply UpdateProposal_safe.
  - by apply UpdateBoot_safe.
  - by apply run_call_safe.
  - by apply (frame_ok m).
  - by apply (frame_ok m).
  - apply (frame_ok m); [apply FinishDungeon_frame|done].
  - by apply Update_safe.
Qed.

Lemma lfg_reachable_ok m : lfg_reachable m -> mgr_ok m.
Proof.
  intros Hr. induction Hr as [dice|now op m m' Hr IH Hen Hrun]; [by split|].
  pose proof (run_lfg_safe now op m Hen IH) as Hs. by rewrite Hrun in Hs.
Qed.

End Life.
