(* ===== verification/LfgFlow.v ===== *)
(** * From the role check to the queue, and back from a declined proposal

    The states of players and groups along the way: a role check that succeeds
    puts the group into its queue, a declined proposal takes out who declined
    and queues everyone else again. *)
From S2P Require Import Prelude.
From S2P Require Import Lists.
From S2P Require Import Util.
From S2P Require Import LfgRoles.
From S2P Require Import LfgQueue.
From S2P Require Import LfgParties.
From S2P Require Import LfgMgr.
From S2P Require Import LfgSafe.
Local Open Scope Z_scope.

(** ** Reading after writing *)

Lemma player_on_player g f m q : player (on_player g f m) q = if decide (q = g) then f (player m g) else player m q.
Proof.
  unfold player, on_player. cbn. case_decide as E; [by rewrite E, lookup_insert_eq|by rewrite lookup_insert_ne].
Qed.
Lemma group_on_group g f m q : group (on_group g f m) q = if decide (q = g) then f (group m g) else group m q.
Proof. unfold group, on_group. cbn. case_decide as E; [by rewrite E, lookup_insert_eq|by rewrite lookup_insert_ne]. Qed.

Section Flow.
Context `{LfgWorld} (now : Z).

Lemma player_send g e m q : player (send g e m) q = player m q.
Proof. unfold send. by case_match. Qed.
Lemma group_send g e m q : group (send g e m) q = group m q.
Proof. unfold send. by case_match. Qed.
Lemma player_after_SetState g st m q : IS_GROUP_GUID g = false ->
  player (SetState g st m) q = if decide (q = g) then player_SetState st (player m g) else player m q.
Proof. intros Hg. unfold SetState. rewrite Hg. apply player_on_player. Qed.
Lemma player_SetState_group g st m q : IS_GROUP_GUID g = true -> player (SetState g st m) q = player m q.
Proof. intros Hg. unfold SetState. by rewrite Hg. Qed.
Lemma player_RestoreState_group g m q : IS_GROUP_GUID g = true -> player (RestoreState g m) q = player m q.
Proof. intros Hg. unfold RestoreState. by rewrite Hg. Qed.
Lemma player_after_RestoreState g m q : IS_GROUP_GUID g = false ->
  player (RestoreState g m) q = if decide (q = g) then player_RestoreState (player m g) else player m q.
Proof. intros Hg. unfold RestoreState. rewrite Hg. apply player_on_player. Qed.

(** A loop over different players, each step changing its own player only. *)
Lemma loop_players {A} (step : Z * A -> LFGMgr -> LFGMgr) (g : Z -> A -> LfgPlayerData -> LfgPlayerData) l m :
  (forall p a m q, (p, a) ∈ l -> player (step (p, a) m) q = if decide (q = p) then g p a (player m p) else player m q) ->
  NoDup l.*1 ->
  (forall p a, (p, a) ∈ l -> player (foldl (fun m e => step e m) m l) p = g p a (player m p)) /\
  (forall q, q ∉ l.*1 -> player (foldl (fun m e => step e m) m l) q = player m q).
Proof.
  intros Hs Hnd. revert m. induction l as [|[p a] l IH]; intros m; cbn in *; [split; [intros p a Hin; by inversion Hin|done]|].
  apply NoDup_cons in Hnd as [Hp Hnd].
  destruct (IH ltac:(intros; apply Hs; by right) Hnd (step (p, a) m)) as [IH1 IH2].
  pose proof (fun q => Hs p a m q ltac:(left)) as Hstep. split.
  - intros q b [[= -> ->]|Hin]%elem_of_cons.
    + rewrite IH2 by done. rewrite Hstep. by rewrite decide_True.
    + rewrite (IH1 q b Hin), Hstep. rewrite decide_False; [done|]. intros ->. apply Hp, list_elem_of_fmap. by exists (p, b).
  - intros q [Hne Hq]%not_elem_of_cons. rewrite IH2 by done. rewrite Hstep. by rewrite decide_False.
Qed.

Lemma loop_players_map {A} (step : Z * A -> LFGMgr -> LFGMgr) g (x : gmap Z A) m p a :
  (forall p a m q, x !! p = Some a -> player (step (p, a) m) q = if decide (q = p) then g p a (player m p) else player m q) ->
  x !! p = Some a -> player (foldl (fun m e => step e m) m (map_ordered x)) p = g p a (player m p).
Proof.
  intros Hs Hp. apply (loop_players step g); [|apply NoDup_map_ordered|by apply elem_of_map_ordered].
  intros p' a' m' q Hin%elem_of_map_ordered. by apply Hs.
Qed.

(** ** The role check *)

Lemma finished_player rc chosen p r m q : rc_state rc = LFG_ROLECHECK_FINISHED -> IS_GROUP_GUID p = false ->
  player (role_check_player rc chosen (p, r) m) q =
    if decide (q = p) then player_SetRoles r (player_SetState LFG_STATE_QUEUED (player m p)) else player m q.
Proof.
  intros Hst Hp. unfold role_check_player. rewrite Hst. unfold SendLfgUpdateStatus. rewrite player_send, player_on_player. cbn [fst snd].
  rewrite !player_after_SetState, !player_send by done. rewrite (decide_True (P := p = p)) by done.
  case_decide; [subst|]; destruct chosen as [[? ?]|]; by rewrite ?player_send.
Qed.


(** ** A declined proposal *)

Lemma elem_of_toRemove ps x : x ∈ toRemove ps <->
  exists q d, ps !! q = Some d /\ pp_accept d = LFG_ANSWER_DENY /\ queued_as q d = x.
Proof.
  unfold toRemove. rewrite elem_of_list_to_set, list_elem_of_omap. split.
  - intros ([q d] & Hin%elem_of_map_ordered & Hx). cbn in Hx. case_bool_decide; [|done]. injection Hx as <-. eauto.
  - intros (q & d & Hq & Ha & <-). exists (q, d). split; [by apply elem_of_map_ordered|]. cbn. by rewrite bool_decide_true.
Qed.

Definition notified (remove : gset Z) (p : Z) (d : LfgProposalPlayer) : LfgPlayerData -> LfgPlayerData :=
  if bool_decide (queued_as p d ∈ remove) then player_RestoreState else player_SetState LFG_STATE_QUEUED.

Lemma notify_player_player remove t p d m q :
  IS_GROUP_GUID p = false -> (pp_group d = 0 \/ IS_GROUP_GUID (pp_group d) = true) ->
  player (notify_player remove t (p, d) m) q = if decide (q = p) then notified remove p d (player m p) else player m q.
Proof.
  intros Hp Hd. unfold notify_player, notified. cbn [fst snd].
  assert (Hg : queued_as p d <> p -> IS_GROUP_GUID (queued_as p d) = true /\ IS_GROUP_GUID (pp_group d) = true).
  { unfold queued_as. destruct (Z.eqb_spec (pp_group d) 0); [done|]. by destruct Hd. }
  destruct (bool_decide (queued_as p d ∈ remove)); destruct (Z.eqb_spec (queued_as p d) p) as [_|Hne]; cbn [negb];
    unfold SendLfgUpdateStatus; rewrite player_send; try destruct (Hg Hne) as [Hg1 Hg2];
    rewrite ?player_RestoreState_group, ?player_SetState_group, ?player_after_RestoreState, ?player_after_SetState, !player_send by done;
    done.
Qed.

Lemma queue_frame m m' g : frame m m' -> p_team (player m' g) = p_team (player m g) -> IS_GROUP_GUID g = false ->
  GetQueue m' g = GetQueue m g.
Proof. intros [Hq _] Ht Hg. unfold GetQueue, GetQueueId. rewrite Hg, Hq. by rewrite Ht. Qed.

(** The queue after a removal and what is queued again. *)
Definition requeue (remove : gset Z) (queues : list Z) (q : LFGQueue) : LFGQueue :=
  foldl (fun q g => AddToQueue g q) (foldl (fun q g => RemoveFromQueue g q) q (set_ordered remove))
    (List.filter (fun g => negb (bool_decide (g ∈ remove))) queues).

Lemma AddToQueue_same x q :
  QueueDataStore (AddToQueue x q) = QueueDataStore q /\ currentQueueStore (AddToQueue x q) = currentQueueStore q /\
  newToQueueStore (AddToQueue x q) =
    match QueueDataStore q !! x with Some _ => newToQueueStore q ++ [x] | None => newToQueueStore q end.
Proof. unfold AddToQueue. by destruct (QueueDataStore q !! x). Qed.

Lemma add_all_new l q :
  let q' := foldl (fun q g => AddToQueue g q) q l in
  QueueDataStore q' = QueueDataStore q /\ currentQueueStore q' = currentQueueStore q /\
  (forall g, g ∈ newToQueueStore q' <-> g ∈ newToQueueStore q \/ (g ∈ l /\ is_Some (QueueDataStore q !! g))).
Proof.
  revert q. induction l as [|x l IH]; intros q; cbn.
  { split; [done|]. split; [done|]. intros g. split; [by left|]. intros [?|[Hin _]]; [done|inversion Hin]. }
  destruct (IH (AddToQueue x q)) as (H1 & H2 & H3). destruct (AddToQueue_same x q) as (E1 & E2 & E3).
  rewrite E1 in H1, H3. rewrite E2 in H2. split; [done|]. split; [done|]. intros g. rewrite H3, E3.
  destruct (QueueDataStore q !! x) as [d|] eqn:Hx; rewrite ?elem_of_app, ?list_elem_of_singleton, elem_of_cons.
  - split; [intros [[?|Eg]|[? ?]]; [by left|subst g; right; split; [by left|by eexists]|right; by auto]|].
    intros [?|[[Eg|?] ?]]; [by left; left|by left; right|by right].
  - split; [intros [?|[? ?]]; [by left|right; by auto]|].
    intros [?|[[Eg|?] Hg]]; [by left| |by right]. subst g. rewrite Hx in Hg. by destruct Hg.
Qed.

Lemma remove_all_out l q :
  let q' := foldl (fun q g => RemoveFromQueue g q) q l in
  forall g, (g ∈ l -> QueueDataStore q' !! g = None /\ g ∉ newToQueueStore q' /\ g ∉ currentQueueStore q') /\
    (g ∉ l -> offers q' !! g = offers q !! g).
Proof.
  assert (Hr : forall x l, x ∉ remove x l).
  { intros x k Hin%list_elem_of_In. apply filter_In in Hin as [_ Hx]. by rewrite Z.eqb_refl in Hx. }
  assert (Hkeep : forall l q g, QueueDataStore q !! g = None /\ g ∉ newToQueueStore q /\ g ∉ currentQueueStore q ->
    let q' := foldl (fun q g => RemoveFromQueue g q) q l in
    QueueDataStore q' !! g = None /\ g ∉ newToQueueStore q' /\ g ∉ currentQueueStore q').
  { clear l q. intros l. induction l as [|x l IH]; intros q g (H1 & H2 & H3); [done|]. cbn [foldl]. apply IH.
    split; [|split]; cbn.
    - rewrite lookup_delete_None, map_lookup_imap, H1. by right.
    - intros Hin. apply H2. exact (elem_of_sublist _ _ _ Hin (remove_sublist x _)).
    - intros Hin. apply H3. exact (elem_of_sublist _ _ _ Hin (remove_sublist x _)). }
  revert q. induction l as [|x l IH]; intros q; cbv zeta; intros g; cbn [foldl]; [split; [intros Hin; inversion Hin|done]|].
  destruct (IH (RemoveFromQueue x q) g) as [IH1 IH2]. split.
  - intros [->|Hin]%elem_of_cons; [|by apply IH1]. apply Hkeep. cbn. split; [apply lookup_delete_eq|]. split; apply Hr.
  - intros [Hne Hg]%not_elem_of_cons. rewrite IH2 by done. rewrite RemoveFromQueue_offers. by rewrite lookup_delete_ne.
Qed.

Lemma send_proposals g e m : ProposalsStore (send g e m) = ProposalsStore m.
Proof. unfold send. by case_match. Qed.
Lemma SetState_proposals g st m : ProposalsStore (SetState g st m) = ProposalsStore m.
Proof. unfold SetState. by case_match. Qed.
Lemma RestoreState_proposals g m : ProposalsStore (RestoreState g m) = ProposalsStore m.
Proof. unfold RestoreState. by case_match. Qed.
Lemma notify_player_proposals remove t e m : ProposalsStore (notify_player remove t e m) = ProposalsStore m.
Proof.
  unfold notify_player, SendLfgUpdateStatus.
  destruct (bool_decide _), (negb _); by rewrite !send_proposals, ?RestoreState_proposals, ?SetState_proposals, ?send_proposals.
Qed.

(** Changing an entry leaves the order of the keys. *)
Lemma map_ordered_insert_head {A} (x : gmap Z A) k v v' k0 a l :
  x !! k = Some v' -> map_ordered x = (k0, a) :: l -> exists a' l', map_ordered (<[k := v]> x) = (k0, a') :: l'.
Proof.
  intros Hk Hl.
  assert (Hkeys : (map_ordered (<[k := v]> x)).*1 = (map_ordered x).*1).
  { apply (StronglySorted_unique Z.le).
    - apply map_keys_sorted.
    - apply map_keys_sorted.
    - apply NoDup_Permutation; [apply NoDup_map_ordered|apply NoDup_map_ordered|]. intros q. rewrite !map_keys_in, dom_insert_L.
      apply elem_of_dom_2 in Hk. set_solver. }
  rewrite Hl in Hkeys. destruct (map_ordered (<[k := v]> x)) as [|[k1 a'] l']; [done|]. cbn in Hkeys. injection Hkeys as -> _. eauto.
Qed.

(** Removing a proposal some of whose players have declined: what becomes of
    the players, and of the queue of the first of them. *)
Lemma RemoveProposal_effect m id p t first d l :
  t <> LFG_UPDATETYPE_PROPOSAL_FAILED -> map_ordered (pr_players p) = (first, d) :: l ->
  (forall q d, pr_players p !! q = Some d ->
     IS_GROUP_GUID q = false /\ (pp_group d = 0 \/ IS_GROUP_GUID (pp_group d) = true)) ->
  exists m', RemoveProposal id p t m = Ok (tt, m') /\ ProposalsStore m' = delete id (ProposalsStore m) /\
    (forall q d, pr_players p !! q = Some d -> player m' q = notified (toRemove (pr_players p)) q d (player m q)) /\
    GetQueue m' first = requeue (toRemove (pr_players p)) (pr_queues p) (GetQueue m first).
Proof.
  intros Ht Hl Hwf. unfold RemoveProposal. rewrite bool_decide_false by done.
  assert (Hden : denied_players false (pr_players p) = pr_players p).
  { unfold denied_players. cbn. by rewrite map_fmap_id. }
  rewrite Hden, Hl. unfold mbind, st_bind, upd, st_modify. eexists. split; [reflexivity|].
  match goal with |- context [foldl ?f m ?k] => set (m1 := foldl f m k) end.
  assert (Hpl : forall q d, pr_players p !! q = Some d -> player m1 q = notified (toRemove (pr_players p)) q d (player m q)).
  { intros q d' Hq. unfold m1. rewrite <- Hl.
    apply (loop_players_map (notify_player (toRemove (pr_players p)) t) (notified (toRemove (pr_players p))) (pr_players p) m q d'); [|done].
    intros p' a m0 q' Hp'. destruct (Hwf p' a Hp') as [H1 H2]. by apply notify_player_player. }
  assert (Hf : frame m m1) by (apply foldl_frame; intros; apply notify_player_frame).
  assert (Hprop : ProposalsStore m1 = ProposalsStore m).
  { unfold m1. generalize ((first, d) :: l). intros k. generalize m. induction k as [|e k IH]; intros x; cbn; [done|]. rewrite IH.
    apply notify_player_proposals. }
  split; [exact (f_equal (delete id) Hprop)|]. split; [exact Hpl|].
  assert (Hfd : pr_players p !! first = Some d) by (apply elem_of_map_ordered; rewrite Hl; left).
  destruct (Hwf _ _ Hfd) as [Hng _].
  set (f := fun q => _). change (GetQueue (on_GetQueue first f m1) first = f (GetQueue m first)).
  assert (Hq1 : GetQueue m1 first = GetQueue m first).
  { apply queue_frame; [done| |done]. rewrite (Hpl _ _ Hfd). unfold notified. case_match; [unfold player_RestoreState; by case_match|done]. }
  rewrite <- Hq1. unfold GetQueue at 1, on_GetQueue. cbn.
  change (GetQueueId (set_queues _ m1) first) with (GetQueueId m1 first). by rewrite lookup_insert_eq.
Qed.

Lemma requeue_out remove queues q g :
  g ∈ remove -> QueueDataStore (requeue remove queues q) !! g = None /\
  g ∉ newToQueueStore (requeue remove queues q) /\ g ∉ currentQueueStore (requeue remove queues q).
Proof.
  intros Hg. unfold requeue. destruct (remove_all_out (set_ordered remove) q g) as [H1 _].
  destruct (H1 ltac:(by apply elem_of_set_ordered)) as (Hd & Hn & Hc).
  destruct (add_all_new (List.filter (fun g => negb (bool_decide (g ∈ remove))) queues)
    (foldl (fun q g => RemoveFromQueue g q) q (set_ordered remove))) as (E1 & E2 & E3).
  rewrite E1, E2. split; [done|]. split; [|done]. rewrite E3. intros [?|[Hin _]]; [done|].
  apply list_elem_of_In, filter_In in Hin as [_ Hx]. by rewrite bool_decide_true in Hx.
Qed.

Lemma requeue_back remove queues q g x :
  g ∉ remove -> g ∈ queues -> offers q !! g = Some x ->
  g ∈ newToQueueStore (requeue remove queues q) /\ offers (requeue remove queues q) !! g = Some x.
Proof.
  intros Hg Hq Hx. unfold requeue. destruct (remove_all_out (set_ordered remove) q g) as [_ H2].
  rewrite elem_of_set_ordered in H2. specialize (H2 Hg).
  destruct (add_all_new (List.filter (fun g => negb (bool_decide (g ∈ remove))) queues)
    (foldl (fun q g => RemoveFromQueue g q) q (set_ordered remove))) as (E1 & E2 & E3).
  split.
  - apply E3. right. split.
    + apply list_elem_of_In, filter_In. split; [by apply list_elem_of_In|]. by rewrite bool_decide_false.
    + rewrite Hx in H2. apply offers_lookup in H2 as (y & Hy & _). by eexists.
  - unfold offers at 1. rewrite E1. change (offer_of <$> QueueDataStore ?x) with (offers x). by rewrite H2.
Qed.

(** A player who declines takes those he was queued with out of the queue
    and of the proposal, back to the state they were in before; everyone else
    of the proposal is queued again with what he asked for. *)
Theorem decline_requeues_others m id guid p pp first d l :
  ProposalsStore m !! id = Some p -> pr_players p !! guid = Some pp ->
  map_ordered (pr_players p) = (first, d) :: l ->
  (forall q x, pr_players p !! q = Some x -> IS_GROUP_GUID q = false /\
     (pp_group x = 0 \/ IS_GROUP_GUID (pp_group x) = true) /\ pp_accept x <> LFG_ANSWER_DENY) ->
  exists m', UpdateProposal now id guid false m = Ok (tt, m') /\ ProposalsStore m' !! id = None /\
    (forall q x, pr_players p !! q = Some x ->
       GetState m' q = if decide (queued_as q x = queued_as guid pp) then mgr_GetOldState m q else LFG_STATE_QUEUED) /\
    QueueDataStore (GetQueue m' first) !! queued_as guid pp = None /\
    queued_as guid pp ∉ newToQueueStore (GetQueue m' first) /\ queued_as guid pp ∉ currentQueueStore (GetQueue m' first) /\
    (forall g x, g ∈ pr_queues p -> g <> queued_as guid pp -> offers (GetQueue m first) !! g = Some x ->
       g ∈ newToQueueStore (GetQueue m' first) /\ offers (GetQueue m' first) !! g = Some x).
Proof.
  intros Hp Hpp Hl Hwf. unfold UpdateProposal, mbind, st_bind, st_get. rewrite Hp, Hpp. cbn [negb].
  unfold upd at 1, st_modify. set (pp' := mkPP (pp_role pp) (answer false) (pp_group pp)).
  set (p' := pr_set_players _ p). set (m0 := set_proposals _ m).
  assert (Hpl : pr_players p' = <[guid := pp']> (pr_players p)) by done.
  assert (Hfst : exists d' l', map_ordered (pr_players p') = (first, d') :: l').
  { rewrite Hpl. apply (map_ordered_insert_head _ guid pp' pp first d l); [done|done]. }
  destruct Hfst as (d' & l' & Hl').
  assert (Hrem : forall g, g ∈ toRemove (pr_players p') <-> g = queued_as guid pp).
  { intros g. rewrite elem_of_toRemove, Hpl. split.
    - intros (q & x & [[<- <-]|[_ Hq]]%lookup_insert_Some & Ha & <-); [done|]. by destruct (Hwf q x Hq) as (_ & _ & ?).
    - intros ->. exists guid, pp'. rewrite lookup_insert_eq. done. }
  destruct (RemoveProposal_effect m0 id p' LFG_UPDATETYPE_PROPOSAL_DECLINED first d' l') as (m' & Hr & Hps & Hst & Hq).
  - done.
  - done.
  - rewrite Hpl. intros q x [[<- <-]|[_ Hx]]%lookup_insert_Some; [destruct (Hwf _ _ Hpp) as (? & ? & _)|destruct (Hwf _ _ Hx) as (? & ? & _)]; done.
  - exists m'. split; [exact Hr|]. split; [rewrite Hps; apply lookup_delete_eq|]. rewrite Hq.
    change (GetQueue m0 first) with (GetQueue m first). split.
    + intros q x Hx. assert (Hx' : exists y, pr_players p' !! q = Some y /\ queued_as q y = queued_as q x).
      { rewrite Hpl. destruct (decide (q = guid)) as [->|Hne]; [|exists x; by rewrite lookup_insert_ne].
        exists pp'. rewrite lookup_insert_eq. rewrite Hx in Hpp. by injection Hpp as ->. }
      destruct Hx' as (y & Hy & Hqy). destruct (Hwf q x Hx) as (Hng & _ & _). unfold GetState, mgr_GetOldState. rewrite Hng, (Hst q y Hy).
      change (player m0 q) with (player m q). unfold notified. rewrite Hqy. case_decide as Hd.
      * rewrite bool_decide_true by by apply Hrem. unfold player_RestoreState. by case_match.
      * rewrite bool_decide_false by (by rewrite Hrem). done.
    + destruct (requeue_out (toRemove (pr_players p')) (pr_queues p) (GetQueue m first) (queued_as guid pp)) as (H1 & H2 & H3); [by apply Hrem|].
      split; [done|]. split; [done|]. split; [done|]. intros g x Hg Hne Hx. apply requeue_back; [by rewrite Hrem|done|done].
Qed.
End Flow.
