(* ===== verification/LfgRuns.v ===== *)
(** * Example runs of the dungeon finder

    A small world in which the theorems about the dungeon finder are applied,
    and runs that show what the manager does with two proposals found in one
    update and with the victim of a failed vote. *)
From S2P Require Import Prelude.
From S2P Require Import Lists.
From S2P Require Import Util.
From S2P Require Import LfgRoles.
From S2P Require Import LfgQueue.
From S2P Require Import LfgParties.
From S2P Require Import LfgMgr.
From S2P Require Import LfgJoin.
From S2P Require Import LfgSafe.
From S2P Require Import LfgLife.
From S2P Require Import LfgVotes.
From S2P Require Import LfgFlow.
Local Open Scope Z_scope.

(** Everyone is online, there are the dungeons 1 and 2, a kick removes the
    member, and a new group is the group 77 of its players. *)
#[local] Instance small_world : LfgWorld := {|
  Enabled := true;
  FindPlayer := fun _ => true;
  Ignores := fun _ _ => false;
  InDungeonMap := fun _ => false;
  GroupExists := fun g => negb (g =? 0);
  KickCalls := fun g v => [OnRemoveMember g true v GROUP_REMOVEMETHOD_KICK_LFG 0 []];
  MakeGroupSteps := fun p => GroupCreated (group_guid 77) ::
    map (fun e => GroupCalls (OnAddMember (group_guid 77) (pr_leader p) e.1)) (map_ordered (pr_players p));
  GetLFGDungeon := fun id => if (id =? 1) || (id =? 2) then Some (mkDungeon id 33 LFG_TYPE_DUNGEON 0 0 1 90 1 false) else None;
  CachedDungeons := fun _ => ∅
|}.

Definition run_all (l : list (Z * lfg_op)) (m : LFGMgr) : option LFGMgr :=
  foldl (fun o e => match o with
                    | Some m => match run_lfg e.1 e.2 m with Ok (_, m) => Some m | Err _ => None end
                    | None => None end) (Some m) l.
Definition end_of (l : list (Z * lfg_op)) : LFGMgr := default (empty_mgr []) (run_all l (empty_mgr [])).

Definition succeeds (l : list (Z * lfg_op)) : bool := match run_all l (empty_mgr []) with Some _ => true | None => false end.

Definition joiner (guid : Z) : Joiner := mkJoiner guid true false false false.
Definition join (guid roles : Z) : lfg_op := DoJoin (joiner guid) None roles {[1]} [].
Definition joins (first : Z) : list (Z * lfg_op) :=
  map (fun e => (100, join (first + e.1) e.2)) [(0, 2); (1, 4); (2, 8); (3, 8); (4, 8)].

(** Runs without groups or role checks only need bytes for roles. *)
Definition plain_op (op : lfg_op) : bool :=
  match op with
  | DoJoin _ grp roles _ _ => match grp with None => (0 <=? roles) && (roles <? 256) | Some _ => false end
  | DoSetRoles _ _ _ => false
  | _ => true
  end.
Lemma plain_enabled m op : plain_op op = true -> lfg_enabled m op.
Proof.
  destruct op; cbn; try done. destruct grp; [done|]. intros Hr. split; [unfold is_byte; lia|]. by intros g.
Qed.
Lemma run_all_reachable l m m' :
  forallb (fun e => plain_op e.2) l = true -> lfg_reachable m -> run_all l m = Some m' -> lfg_reachable m'.
Proof.
  revert m. induction l as [|[t op] l IH]; intros m Hl Hm Hr; cbn in *; [by injection Hr as <-|].
  apply andb_true_iff in Hl as [Hop Hl]. destruct (run_lfg t op m) as [[[] m1]|e] eqn:E.
  - apply (IH m1); [done| |done]. eapply reach_op; [exact Hm|by apply plain_enabled|exact E].
  - exfalso. clear -Hr. induction l as [|e' l IH]; [done|]. by apply IH.
Qed.

(** One party of five. *)
Definition queued_five : LFGMgr := end_of (joins 1).
Lemma queued_five_reachable : lfg_reachable queued_five.
Proof.
  apply (run_all_reachable (joins 1) (empty_mgr [])); [by vm_compute|constructor|].
  unfold queued_five, end_of. assert (E : succeeds (joins 1) = true) by (vm_compute; reflexivity). unfold succeeds in E.
  by destruct (run_all (joins 1) (empty_mgr [])) as [x|].
Qed.


(** Two parties in one update. *)
Definition ten_joins : list (Z * lfg_op) := joins 1 ++ joins 11.
Definition told (m : LFGMgr) (p : Z) : bool :=
  existsb (fun e => match e with ProposalUpdate q _ => q =? p | _ => false end) (lfg_events m).
Definition proposals_with (m : LFGMgr) (p : Z) : list Z :=
  map fst (List.filter (fun e => bool_decide (is_Some (pr_players e.2 !! p))) (map_ordered (ProposalsStore m))).
Definition waiting (m : LFGMgr) (p : Z) : bool :=
  existsb (fun e => bool_decide (is_Some (QueueDataStore e.2 !! p))) (map_ordered (QueuesStore m)).

(** Of the proposals found in one update only the last is made known: the
    players of the others stay in the state of queued ones, are asked nothing,
    and when the proposal expires they have not agreed and lose their place in
    the queue. *)
Theorem only_last_proposal_announced :
  let m := end_of (ten_joins ++ [(101, DoUpdate 50)]) in
  let m' := end_of (ten_joins ++ [(101, DoUpdate 50); (147, DoUpdate 50)]) in
  proposals_with m 1 = [1] /\ proposals_with m 11 = [2] /\
  (GetState m 1 = LFG_STATE_QUEUED /\ told m 1 = false) /\ (GetState m 11 = LFG_STATE_PROPOSAL /\ told m 11 = true) /\
  waiting m 1 = true /\ (waiting m' 1 = false /\ GetState m' 1 = LFG_STATE_NONE).
Proof. vm_compute. done. Qed.

(** ** A vote *)

Definition party_found : list (Z * lfg_op) := joins 1 ++ [(101, DoUpdate 50)].
Definition all_accept : list (Z * lfg_op) := map (fun p => (102, DoAnswer 1 p true)) [1; 2; 3; 4; 5].
Definition vote_begins : list (Z * lfg_op) :=
  [(103, DoGroupCall (OnRemoveMember (group_guid 77) true 3 GROUP_REMOVEMETHOD_KICK 1 []))].
Definition vote_fails : list (Z * lfg_op) := [(104, DoVote 2 false); (105, DoVote 4 false)].
Definition vote_passes : list (Z * lfg_op) := [(104, DoVote 2 true); (105, DoVote 4 true)].
Definition states (m : LFGMgr) : list LfgState := map (GetState m) [1; 2; 3; 4; 5].
Definition kicked (m : LFGMgr) : list Z := omap (fun e => match e with Kicked _ v => Some v | _ => None end) (lfg_events m).

(** The five accept, are in the dungeon, and one starts a vote on another.
    If two more agree he is kicked; if two more do not, the vote is over and
    everyone is back in the dungeon, but the victim stays in the state of a
    vote; a vote that times out brings him back too. *)
Theorem failed_vote_keeps_victim :
  let inside := party_found ++ all_accept in
  let m := end_of (inside ++ vote_begins ++ vote_fails) in
  let k := end_of (inside ++ vote_begins ++ vote_passes) in
  let t := end_of (inside ++ vote_begins ++ [(104, DoVote 2 false); (224, DoUpdate 50)]) in
  states (end_of inside) = repeat LFG_STATE_DUNGEON 5 /\
  states (end_of (inside ++ vote_begins)) = repeat LFG_STATE_BOOT 5 /\
  (states m = [LFG_STATE_DUNGEON; LFG_STATE_DUNGEON; LFG_STATE_BOOT; LFG_STATE_DUNGEON; LFG_STATE_DUNGEON] /\
   kicked m = [] /\ base.size (BootsStore m) = 0%nat) /\
  (kicked k = [3] /\ GetGroup k 3 = 0 /\ g_kicks (group k (group_guid 77)) = 2) /\
  states t = repeat LFG_STATE_DUNGEON 5.
Proof. vm_compute. done. Qed.

(** ** The theorems at work *)

Definition voting : LFGMgr := end_of (party_found ++ all_accept ++ vote_begins).
Definition boot_of (m : LFGMgr) : LfgPlayerBoot := default (mkBoot 0 false ∅ 0 []) (BootsStore m !! group_guid 77).


(** A group of two that chooses its roles. *)
Definition pair_guid : Z := group_guid 5.
Definition pair_check : LfgRoleCheck := mkRoleCheck 200 {[21 := 2; 22 := 0]} LFG_ROLECHECK_INITIALITING {[1]} 0 21.
Definition pair_mgr : LFGMgr := set_checks {[pair_guid := pair_check]} (empty_mgr []).

(** The third of five declines. *)
Definition asked : LFGMgr := end_of party_found.
Definition asked_proposal : LfgProposal := default (mkProposal 0 LFG_PROPOSAL_INITIATING 0 0 0 true [] ∅) (ProposalsStore asked !! 1).
Lemma decline_requeues_others_witness :
  exists m', UpdateProposal 102 1 3 false asked = Ok (tt, m') /\ ProposalsStore m' !! 1 = None /\
    3 ∉ newToQueueStore (GetQueue m' 1) /\ 4 ∈ newToQueueStore (GetQueue m' 1).
Proof.
  assert (Hp : ProposalsStore asked !! 1 = Some asked_proposal).
  { unfold asked_proposal. assert (E : (match ProposalsStore asked !! 1 with Some _ => true | None => false end) = true)
      by (vm_compute; reflexivity). by destruct (ProposalsStore asked !! 1). }
  assert (E : map_ordered (pr_players asked_proposal) =
    [(1, mkPP 2 LFG_ANSWER_PENDING 0); (2, mkPP 4 LFG_ANSWER_PENDING 0); (3, mkPP 8 LFG_ANSWER_PENDING 0);
     (4, mkPP 8 LFG_ANSWER_PENDING 0); (5, mkPP 8 LFG_ANSWER_PENDING 0)]) by (vm_compute; reflexivity).
  assert (Hpp : pr_players asked_proposal !! 3 = Some (mkPP 8 LFG_ANSWER_PENDING 0)) by (vm_compute; reflexivity).
  destruct (decline_requeues_others 102 asked 1 3 asked_proposal _ _ _ _ Hp Hpp E) as (m' & H1 & H2 & _ & _ & H3 & _ & H4).
  - intros q x Hq%elem_of_map_ordered. rewrite E in Hq. rewrite !elem_of_cons in Hq.
    assert (Hg : IS_GROUP_GUID q = false /\ pp_group x = 0 /\ pp_accept x = LFG_ANSWER_PENDING)
      by (destruct Hq as [Eq|[Eq|[Eq|[Eq|[Eq|Eq]]]]]; [injection Eq as -> ->; repeat split; reflexivity..|exfalso; by apply elem_of_nil in Eq]).
    destruct Hg as (Hg1 & Hg2 & Hg3). rewrite Hg3. split; [exact Hg1|]. split; [left; exact Hg2|discriminate].
  - exists m'. split; [exact H1|]. split; [exact H2|]. split; [exact H3|].
    assert (Ho : (match offers (GetQueue asked 1) !! 4 with Some _ => true | None => false end) = true) by (vm_compute; reflexivity).
    destruct (offers (GetQueue asked 1) !! 4) as [x|] eqn:Hx; [|discriminate].
    apply (H4 4 x); [|vm_compute; discriminate|exact Hx].
    assert (Hq : pr_queues asked_proposal = [5; 1; 2; 3; 4]) by (vm_compute; reflexivity). rewrite Hq. do 4 right. left.
Defined.
