(* ===== verification/Mail.v ===== *)
(** * Mail

    game/Mails/Mail.cpp, the mail part of Player.cpp, and the requests of
    game/Handlers/MailHandler.cpp.  The state [Post] has the players, the items
    and the two tables of the database a mail is kept in; a player who has
    opened his mailbox works on copies in memory ([p_mail], [mMitems]), which
    [SaveMail] writes back.  A character's purse and inventory are one record
    whether he is online or not; statements take effect in the order they are
    issued.  What other parts of the server answer is the class [MailWorld]. *)
From S2P Require Import Prelude.
From S2P Require Import Lists.
From S2P Require Import Util.
Local Open Scope Z_scope.

(** ** Constants *)

Definition MAX_MAIL_ITEMS : Z := 12.
Definition MAIL_BODY_ITEM_TEMPLATE : Z := 8383.
Definition MAX_MONEY_AMOUNT : Z := 9999999999.
Definition DAY : Z := 24 * 60 * 60.

(** MailMessageType *)
Definition MAIL_NORMAL : Z := 0.
Definition MAIL_AUCTION : Z := 2.
Definition MAIL_CREATURE : Z := 3.

(** MailCheckMask *)
Definition MAIL_CHECK_MASK_NONE : Z := 0.
Definition MAIL_CHECK_MASK_READ : Z := 1.
Definition MAIL_CHECK_MASK_RETURNED : Z := 2.
Definition MAIL_CHECK_MASK_COPIED : Z := 4.
Definition MAIL_CHECK_MASK_COD_PAYMENT : Z := 8.
Definition MAIL_CHECK_MASK_HAS_BODY : Z := 16.

(** MailStationery *)
Definition MAIL_STATIONERY_DEFAULT : Z := 41.
Definition MAIL_STATIONERY_GM : Z := 61.
Definition MAIL_STATIONERY_AUCTION : Z := 62.

Inductive MailState := MAIL_STATE_UNCHANGED | MAIL_STATE_CHANGED | MAIL_STATE_DELETED.
#[export] Instance MailState_eq_dec : EqDecision MailState.
Proof. solve_decision. Defined.

Inductive MailResponseType :=
| MAIL_SEND | MAIL_MONEY_TAKEN | MAIL_ITEM_TAKEN | MAIL_RETURNED_TO_SENDER | MAIL_DELETED | MAIL_MADE_PERMANENT.
Inductive MailResponseResult :=
| MAIL_OK | MAIL_ERR_EQUIP_ERROR | MAIL_ERR_CANNOT_SEND_TO_SELF | MAIL_ERR_NOT_ENOUGH_MONEY
| MAIL_ERR_RECIPIENT_NOT_FOUND | MAIL_ERR_NOT_YOUR_TEAM | MAIL_ERR_INTERNAL_ERROR
| MAIL_ERR_RECIPIENT_CAP_REACHED | MAIL_ERR_CANT_SEND_WRAPPED_COD | MAIL_ERR_TOO_MANY_ATTACHMENTS
| MAIL_ERR_MAIL_ATTACHMENT_INVALID.

(** InventoryResult *)
Definition EQUIP_ERR_OK : Z := 0.
Definition EQUIP_ERR_ITEM_NOT_FOUND : Z := 23.
Definition EQUIP_ERR_DESTROY_NONEMPTY_BAG : Z := 31.
Definition EQUIP_ERR_MAIL_BOUND_ITEM : Z := 72.
Definition EQUIP_ERR_TOO_MUCH_GOLD : Z := 77.
Definition EQUIP_ERR_NOT_SAME_ACCOUNT : Z := 82.

Definition ITEM_PROTO_FLAG_CONJURED : Z := 2.
Definition ITEM_PROTO_FLAG_BIND_TO_ACCOUNT : Z := 134217728.
Definition ITEM_FLAG_SOULBOUND : Z := 1.
Definition ITEM_FLAG_WRAPPED : Z := 8.
Definition ITEM_FLAG_BOP_TRADEABLE : Z := 256.
Definition ITEM_FLAG_REFUNDABLE : Z := 4096.
Definition ITEM_FLAG_MAIL_TEXT_MASK : Z := 512 + 262144 + 524288.

(** ** Data *)

(** ItemTemplate: what mail and auctions look at. *)
Record ItemTemplate := mkTemplate {
  t_Flags : Z;
  t_SellPrice : Z;
  t_Stackable : Z;
  t_Class : Z;
  t_SubClass : Z;
  t_InventoryType : Z;
  t_Quality : Z;
  t_RequiredLevel : Z;
  t_Name1 : text
}.
Definition no_template : ItemTemplate := mkTemplate 0 0 0 0 0 0 0 0 [].
Definition GetMaxStackSize (t : ItemTemplate) : Z :=
  if (t_Stackable t =? 2147483647) || (t_Stackable t <=? 0) then 2147483646 else t_Stackable t.

(** Item: its fields; an item is known by its low guid. *)
Record Item := mkItem {
  i_entry : Z;
  i_count : Z;
  i_owner : Z;
  i_creator : Z;
  i_giftCreator : Z;
  i_dynFlags : Z;
  i_expiration : Z;
  i_randomProperty : Z;
  i_suffixFactor : Z;
  i_spellCharges : Z;
  i_enchantments : list (Z * Z * Z);  (* id, duration, charges *)
  i_text : text
}.
Definition set_i_count (x : Z) (r : Item) : Item :=
  mkItem (i_entry r) x (i_owner r) (i_creator r) (i_giftCreator r) (i_dynFlags r) (i_expiration r)
    (i_randomProperty r) (i_suffixFactor r) (i_spellCharges r) (i_enchantments r) (i_text r).
Definition set_i_owner (x : Z) (r : Item) : Item :=
  mkItem (i_entry r) (i_count r) x (i_creator r) (i_giftCreator r) (i_dynFlags r) (i_expiration r)
    (i_randomProperty r) (i_suffixFactor r) (i_spellCharges r) (i_enchantments r) (i_text r).

Definition HIGHGUID_ITEM : Z := 1024.
(** [MAKE_NEW_GUID(low, 0, HIGHGUID_ITEM)] *)
Definition item_guid64 (low : Z) : Z := u64 (Z.lor low (Z.shiftl HIGHGUID_ITEM 52)).

Record MailItemInfo := mkMailItem {
  item_guid : Z;
  item_template : Z
}.
Record Mail := mkMail {
  messageID : Z;
  messageType : Z;
  stationery : Z;
  mailTemplateId : Z;
  sender : Z;
  receiver : Z;
  subject : text;
  body : text;
  mail_infos : list MailItemInfo;  (* items *)
  removedItems : list Z;
  expire_time : Z;
  deliver_time : Z;
  money : Z;
  COD : Z;
  checked : Z;
  state : MailState
}.
Definition set_mail_infos (x : list MailItemInfo) (r : Mail) : Mail :=
  mkMail (messageID r) (messageType r) (stationery r) (mailTemplateId r) (sender r) (receiver r) (subject r)
    (body r) x (removedItems r) (expire_time r) (deliver_time r) (money r) (COD r) (checked r) (state r).
Definition set_removedItems (x : list Z) (r : Mail) : Mail :=
  mkMail (messageID r) (messageType r) (stationery r) (mailTemplateId r) (sender r) (receiver r) (subject r)
    (body r) (mail_infos r) x (expire_time r) (deliver_time r) (money r) (COD r) (checked r) (state r).
Definition set_money (x : Z) (r : Mail) : Mail :=
  mkMail (messageID r) (messageType r) (stationery r) (mailTemplateId r) (sender r) (receiver r) (subject r)
    (body r) (mail_infos r) (removedItems r) (expire_time r) (deliver_time r) x (COD r) (checked r) (state r).
Definition set_COD (x : Z) (r : Mail) : Mail :=
  mkMail (messageID r) (messageType r) (stationery r) (mailTemplateId r) (sender r) (receiver r) (subject r)
    (body r) (mail_infos r) (removedItems r) (expire_time r) (deliver_time r) (money r) x (checked r) (state
    r).
Definition set_checked (x : Z) (r : Mail) : Mail :=
  mkMail (messageID r) (messageType r) (stationery r) (mailTemplateId r) (sender r) (receiver r) (subject r)
    (body r) (mail_infos r) (removedItems r) (expire_time r) (deliver_time r) (money r) (COD r) x (state r).
Definition set_state (x : MailState) (r : Mail) : Mail :=
  mkMail (messageID r) (messageType r) (stationery r) (mailTemplateId r) (sender r) (receiver r) (subject r)
    (body r) (mail_infos r) (removedItems r) (expire_time r) (deliver_time r) (money r) (COD r) (checked r) x.

(** A row of the table mail; the key is the id. *)
Record MailRow := mkRow {
  r_messageType : Z;
  r_stationery : Z;
  r_mailTemplateId : Z;
  r_sender : Z;
  r_receiver : Z;
  r_subject : text;
  r_body : text;
  r_has_items : bool;
  r_expire_time : Z;
  r_deliver_time : Z;
  r_money : Z;
  r_cod : Z;
  r_checked : Z
}.

(** MailDraft; [m_items] is a map of the items by their guids.  The drafts of
    this development do not ask for the items of a template. *)
Record MailDraft := mkDraft {
  m_mailTemplateId : Z;
  m_subject : text;
  m_body : text;
  d_items : gset Z;  (* m_items *)
  m_money : Z;
  m_COD : Z
}.
Definition set_d_items (x : gset Z) (r : MailDraft) : MailDraft :=
  mkDraft (m_mailTemplateId r) (m_subject r) (m_body r) x (m_money r) (m_COD r).
Definition set_m_money (x : Z) (r : MailDraft) : MailDraft :=
  mkDraft (m_mailTemplateId r) (m_subject r) (m_body r) (d_items r) x (m_COD r).
Definition set_m_COD (x : Z) (r : MailDraft) : MailDraft :=
  mkDraft (m_mailTemplateId r) (m_subject r) (m_body r) (d_items r) (m_money r) x.

Definition new_draft (subject body : text) : MailDraft := mkDraft 0 subject body ∅ 0 0.
Definition template_draft (id : Z) : MailDraft := mkDraft id [] [] ∅ 0 0.
Definition draft_AddItem (low : Z) (d : MailDraft) : MailDraft := set_d_items (d_items d ∪ {[low]}) d.
Definition AddMoney (money : Z) (d : MailDraft) : MailDraft := set_m_money money d.
(** [AddCOD(uint32 COD)] *)
Definition AddCOD (cod : Z) (d : MailDraft) : MailDraft := set_m_COD (u32 cod) d.

Record MailSender := mkSender {
  m_messageType : Z;
  m_senderId : Z;
  m_stationery : Z
}.

Record Player := mkPlayer {
  p_account : Z;
  p_team : Z;
  p_level : Z;
  p_gm : bool;
  p_online : bool;  (* in world *)
  p_money : Z;
  p_inventory : gset Z;  (* low guids *)
  p_mail : list Mail;
  mMitems : gset Z;
  m_mailsLoaded : bool;
  m_mailsUpdated : bool;
  unReadMails : Z;
  m_nextMailDelivereTime : Z
}.
Definition set_p_online (x : bool) (r : Player) : Player :=
  mkPlayer (p_account r) (p_team r) (p_level r) (p_gm r) x (p_money r) (p_inventory r) (p_mail r) (mMitems r)
    (m_mailsLoaded r) (m_mailsUpdated r) (unReadMails r) (m_nextMailDelivereTime r).
Definition set_p_money (x : Z) (r : Player) : Player :=
  mkPlayer (p_account r) (p_team r) (p_level r) (p_gm r) (p_online r) x (p_inventory r) (p_mail r) (mMitems r)
    (m_mailsLoaded r) (m_mailsUpdated r) (unReadMails r) (m_nextMailDelivereTime r).
Definition set_p_inventory (x : gset Z) (r : Player) : Player :=
  mkPlayer (p_account r) (p_team r) (p_level r) (p_gm r) (p_online r) (p_money r) x (p_mail r) (mMitems r)
    (m_mailsLoaded r) (m_mailsUpdated r) (unReadMails r) (m_nextMailDelivereTime r).
Definition set_p_mail (x : list Mail) (r : Player) : Player :=
  mkPlayer (p_account r) (p_team r) (p_level r) (p_gm r) (p_online r) (p_money r) (p_inventory r) x (mMitems
    r) (m_mailsLoaded r) (m_mailsUpdated r) (unReadMails r) (m_nextMailDelivereTime r).
Definition set_mMitems (x : gset Z) (r : Player) : Player :=
  mkPlayer (p_account r) (p_team r) (p_level r) (p_gm r) (p_online r) (p_money r) (p_inventory r) (p_mail r) x
    (m_mailsLoaded r) (m_mailsUpdated r) (unReadMails r) (m_nextMailDelivereTime r).
Definition set_m_mailsLoaded (x : bool) (r : Player) : Player :=
  mkPlayer (p_account r) (p_team r) (p_level r) (p_gm r) (p_online r) (p_money r) (p_inventory r) (p_mail r)
    (mMitems r) x (m_mailsUpdated r) (unReadMails r) (m_nextMailDelivereTime r).
Definition set_m_mailsUpdated (x : bool) (r : Player) : Player :=
  mkPlayer (p_account r) (p_team r) (p_level r) (p_gm r) (p_online r) (p_money r) (p_inventory r) (p_mail r)
    (mMitems r) (m_mailsLoaded r) x (unReadMails r) (m_nextMailDelivereTime r).
Definition set_unReadMails (x : Z) (r : Player) : Player :=
  mkPlayer (p_account r) (p_team r) (p_level r) (p_gm r) (p_online r) (p_money r) (p_inventory r) (p_mail r)
    (mMitems r) (m_mailsLoaded r) (m_mailsUpdated r) x (m_nextMailDelivereTime r).
Definition set_m_nextMailDelivereTime (x : Z) (r : Player) : Player :=
  mkPlayer (p_account r) (p_team r) (p_level r) (p_gm r) (p_online r) (p_money r) (p_inventory r) (p_mail r)
    (mMitems r) (m_mailsLoaded r) (m_mailsUpdated r) (unReadMails r) x.

(** What is sent to players. *)
Inductive Event :=
| SendMailResult (player mailId : Z) (action : MailResponseType) (error : MailResponseResult) (equipError guid count : Z)
| SendNewMail (player : Z)
| SendNotification (player : Z)
| SendEquipError (player err : Z)
| StopNow.

Record Post := mkPost {
  players : gmap Z Player;
  items : gmap Z Item;  (* item objects *)
  item_instance : gset Z;  (* rows *)
  mail : gmap Z MailRow;
  mail_items : gmap Z (Z * Z);  (* mail_id, receiver *)
  mailId : Z;  (* next id *)
  itemId : Z;  (* next low guid *)
  events : list Event
}.
Definition set_players (x : gmap Z Player) (r : Post) : Post :=
  mkPost x (items r) (item_instance r) (mail r) (mail_items r) (mailId r) (itemId r) (events r).
Definition set_items (x : gmap Z Item) (r : Post) : Post :=
  mkPost (players r) x (item_instance r) (mail r) (mail_items r) (mailId r) (itemId r) (events r).
Definition set_item_instance (x : gset Z) (r : Post) : Post :=
  mkPost (players r) (items r) x (mail r) (mail_items r) (mailId r) (itemId r) (events r).
Definition set_mail (x : gmap Z MailRow) (r : Post) : Post :=
  mkPost (players r) (items r) (item_instance r) x (mail_items r) (mailId r) (itemId r) (events r).
Definition set_mail_items (x : gmap Z (Z * Z)) (r : Post) : Post :=
  mkPost (players r) (items r) (item_instance r) (mail r) x (mailId r) (itemId r) (events r).
Definition set_mailId (x : Z) (r : Post) : Post :=
  mkPost (players r) (items r) (item_instance r) (mail r) (mail_items r) x (itemId r) (events r).
Definition set_itemId (x : Z) (r : Post) : Post :=
  mkPost (players r) (items r) (item_instance r) (mail r) (mail_items r) (mailId r) x (events r).
Definition set_events (x : list Event) (r : Post) : Post :=
  mkPost (players r) (items r) (item_instance r) (mail r) (mail_items r) (mailId r) (itemId r) x.

Class MailWorld := {
  GetItemTemplate : Z -> option ItemTemplate;
  (* Item::CanBeTraded, IsNotEmptyBag *)
  CanBeTraded : Z -> Item -> bool -> bool;
  IsNotEmptyBag : Z -> bool;
  (* Player::CanStoreItem: the result for an item that exists *)
  CanStoreItem : Z -> Item -> Z;
  (* GetGameObjectIfCanInteractWith(mailbox, GAMEOBJECT_TYPE_MAILBOX) *)
  CanUseMailbox : Z -> Z -> bool;
  (* normalizePlayerName, then GetPlayerGUIDByName; 0 for an unknown name *)
  PlayerGUIDByName : text -> Z;
  (* RBAC_PERM_TWO_SIDE_INTERACTION_MAIL *)
  TwoSideMail : Z -> bool;
  (* sender's guild has the perk and the receiver is a member *)
  GuildMail : Z -> Z -> bool;
  (* sMailTemplateStore: the content *)
  MailTemplateStore : Z -> option text;
  (* GetBattleMasterBG(entry) != BATTLEGROUND_TYPE_NONE *)
  IsBattleMaster : Z -> bool;
  CONFIG_MAIL_LEVEL_REQ : Z;
  CONFIG_MAIL_DELIVERY_DELAY : Z;
}.

Section Mail.
Context `{MailWorld}.

(** [Item::GetTemplate]; Item::Create and Item::LoadFromDB refuse an entry
    without a template. *)
Definition GetTemplate (it : Item) : ItemTemplate := default no_template (GetItemTemplate (i_entry it)).
Definition IsSoulBound (it : Item) : bool := has_flag (i_dynFlags it) ITEM_FLAG_SOULBOUND.
Definition IsBoundAccountWide (it : Item) : bool := has_flag (t_Flags (GetTemplate it)) ITEM_PROTO_FLAG_BIND_TO_ACCOUNT.

(** ** Players *)

Definition upd_player (p : Z) (f : Player -> Player) (s : Post) : Post := set_players (alter f p (players s)) s.
Definition emit (e : Event) (s : Post) : Post := set_events (events s ++ [e]) s.

(** [ObjectAccessor::FindPlayer] *)
Definition FindPlayer (s : Post) (p : Z) : option Player :=
  match players s !! p with
  | Some x => if p_online x then Some x else None
  | None => None
  end.
(** [ObjectMgr::GetPlayerAccountIdByGUID]: 0 for an unknown guid *)
Definition GetPlayerAccountIdByGUID (s : Post) (p : Z) : Z :=
  match players s !! p with Some x => p_account x | None => 0 end.

(** [HasEnoughMoney(uint64)] *)
Definition HasEnoughMoney (amount : Z) (x : Player) : bool := amount <=? p_money x.

(** [Player::ModifyMoney]; [amount] is an int64 *)
Definition ModifyMoney (amount : Z) (x : Player) : bool * Player :=
  if amount =? 0 then (true, x)
  else if amount <? 0 then
    (true, set_p_money (if u64 (- amount) <? p_money x then u64 (p_money x + amount) else 0) x)
  else if p_money x <? u64 (MAX_MONEY_AMOUNT - amount) then (true, set_p_money (u64 (p_money x + amount)) x)
  else (false, x).
Definition s64 (z : Z) : Z := (z + 2 ^ 63) `mod` 2 ^ 64 - 2 ^ 63.
(** [ModifyMoney(-int64(amount))] *)
Definition Pay (amount : Z) (x : Player) : Player := (ModifyMoney (s64 (- s64 amount)) x).2.
(** [ModifyMoney(-int32(amount))] *)
Definition Pay32 (amount : Z) (x : Player) : Player := (ModifyMoney (s32 (- s32 amount)) x).2.

(** [Player::GetItemByGuid]: the low guid of the item *)
Definition GetItemByGuid (guid : Z) (x : Player) : option Z :=
  let low := u32 guid in
  if bool_decide (low ∈ p_inventory x) && (item_guid64 low =? guid) then Some low else None.
(** [Player::MoveItemFromInventory]: an item that is in no slot stays there *)
Definition MoveItemFromInventory (low : Z) (x : Player) : Player := set_p_inventory (p_inventory x ∖ {[low]}) x.
(** [Player::MoveItemToInventory]; merging with a stack is left out *)
Definition MoveItemToInventory (p low : Z) (s : Post) : Post :=
  let s := upd_player p (fun x => set_p_inventory (p_inventory x ∪ {[low]}) x) s in
  set_item_instance (item_instance s ∪ {[low]}) (set_items (alter (set_i_owner p) low (items s)) s).

Definition GetMail (id : Z) (x : Player) : option Mail := List.find (fun m => messageID m =? id) (p_mail x).
Fixpoint remove_mail (id : Z) (l : list Mail) : list Mail :=
  match l with
  | [] => []
  | m :: l => if messageID m =? id then l else m :: remove_mail id l
  end.
Definition RemoveMail (id : Z) (x : Player) : Player := set_p_mail (remove_mail id (p_mail x)) x.
Definition AddMail (m : Mail) (x : Player) : Player := set_p_mail (m :: p_mail x) x.
Definition GetMailSize (x : Player) : Z := Z.of_nat (length (p_mail x)).
(** What is done to the mail that [GetMail] returns. *)
Fixpoint update_mail (id : Z) (f : Mail -> Mail) (l : list Mail) : list Mail :=
  match l with
  | [] => []
  | m :: l => if messageID m =? id then f m :: l else m :: update_mail id f l
  end.
Definition ChangeMail (id : Z) (f : Mail -> Mail) (x : Player) : Player := set_p_mail (update_mail id f (p_mail x)) x.

Definition GetMItem (low : Z) (x : Player) : option Z := if bool_decide (low ∈ mMitems x) then Some low else None.
Definition AddMItem (low : Z) (x : Player) : Player := set_mMitems (mMitems x ∪ {[low]}) x.
Definition RemoveMItem (low : Z) (x : Player) : Player := set_mMitems (mMitems x ∖ {[low]}) x.

Definition AddNewMailDeliverTime (now p t : Z) (s : Post) : Post :=
  if t <=? now then emit (SendNewMail p) (upd_player p (fun x => set_unReadMails (u8 (unReadMails x + 1)) x) s)
  else upd_player p (fun x =>
    if (m_nextMailDelivereTime x =? 0) || (t <? m_nextMailDelivereTime x)
    then set_m_nextMailDelivereTime t x else x) s.

Definition next_mail_step (now : Z) (st : Z * Z) (m : Mail) : Z * Z :=
  let '(next, unread) := st in
  if now <? deliver_time m then
    ((if (next =? 0) || (deliver_time m <? next) then deliver_time m else next), unread)
  else if Z.land (checked m) MAIL_CHECK_MASK_READ =? 0 then (next, u8 (unread + 1)) else (next, unread).
Definition UpdateNextMailTimeAndUnreads (now : Z) (x : Player) : Player :=
  let '(next, unread) := foldl (next_mail_step now) (0, 0) (p_mail x) in
  set_unReadMails unread (set_m_nextMailDelivereTime next x).

(** ** The tables *)

Definition INS_MAIL (id : Z) (r : MailRow) (s : Post) : Post :=
  match mail s !! id with None => set_mail (<[id := r]> (mail s)) s | Some _ => s end.
Definition DEL_MAIL_BY_ID (id : Z) (s : Post) : Post := set_mail (delete id (mail s)) s.
Definition INS_MAIL_ITEM (id low recv : Z) (s : Post) : Post :=
  match mail_items s !! low with None => set_mail_items (<[low := (id, recv)]> (mail_items s)) s | Some _ => s end.
Definition DEL_MAIL_ITEM (low : Z) (s : Post) : Post := set_mail_items (delete low (mail_items s)) s.
Definition DEL_MAIL_ITEM_BY_ID (id : Z) (s : Post) : Post :=
  set_mail_items (filter (fun e => negb (e.2.1 =? id)) (mail_items s)) s.
Definition DEL_ITEM_INSTANCE (low : Z) (s : Post) : Post := set_item_instance (item_instance s ∖ {[low]}) s.
(** Item::SaveToDB *)
Definition SaveItem (low : Z) (s : Post) : Post := set_item_instance (item_instance s ∪ {[low]}) s.
Definition UPD_ITEM_OWNER (owner low : Z) (s : Post) : Post := set_items (alter (set_i_owner owner) low (items s)) s.
Definition updated_row (has_items : bool) (expire deliver money cod checked : Z) (r : MailRow) : MailRow :=
  mkRow (r_messageType r) (r_stationery r) (r_mailTemplateId r) (r_sender r) (r_receiver r) (r_subject r) (r_body r)
    has_items expire deliver money cod checked.
Definition UPD_MAIL (id : Z) (has_items : bool) (expire deliver money cod checked : Z) (s : Post) : Post :=
  set_mail (alter (updated_row has_items expire deliver money cod checked) id (mail s)) s.
Definition returned_row (snd rcv expire deliver checked : Z) (r : MailRow) : MailRow :=
  mkRow (r_messageType r) (r_stationery r) (r_mailTemplateId r) snd rcv (r_subject r) (r_body r)
    (r_has_items r) expire deliver (r_money r) 0 checked.
Definition UPD_MAIL_RETURNED (snd rcv expire deliver checked id : Z) (s : Post) : Post :=
  set_mail (alter (returned_row snd rcv expire deliver checked) id (mail s)) s.
Definition UPD_MAIL_ITEM_RECEIVER (rcv low : Z) (s : Post) : Post :=
  set_mail_items (alter (fun e => (e.1, rcv)) low (mail_items s)) s.

Definition foreach {A} (f : A -> Post -> Post) (l : list A) (s : Post) : Post := foldl (fun s a => f a s) s l.

(** ** Sending *)

(** [ObjectMgr::GenerateMailID] *)
Definition GenerateMailID (s : Post) : Z * Post :=
  let s := if 4294967294 <=? mailId s then emit StopNow s else s in
  (mailId s, set_mailId (u32 (mailId s + 1)) s).

Definition no_item : Item := mkItem 0 0 0 0 0 0 0 0 0 0 [] [].
Definition item_of (s : Post) (low : Z) : Item := default no_item (items s !! low).
Definition IsGameMaster (s : Post) (p : Z) : bool :=
  match FindPlayer s p with Some x => p_gm x | None => false end.

Definition expire_delay (s : Post) (sd : MailSender) (d : MailDraft) : Z :=
  if (m_messageType sd =? MAIL_AUCTION) && bool_decide (d_items d = ∅) && (m_money d =? 0) then CONFIG_MAIL_DELIVERY_DELAY
  else if (m_messageType sd =? MAIL_CREATURE) && IsBattleMaster (m_senderId sd) then DAY
  else if negb (m_COD d =? 0) then 3 * DAY
  else if IsGameMaster s (m_senderId sd) then 90 * DAY else 30 * DAY.

Definition draft_row (rcv deliver expire chk : Z) (sd : MailSender) (d : MailDraft) : MailRow :=
  mkRow (u8 (m_messageType sd)) (s8 (m_stationery sd)) (m_mailTemplateId d) (m_senderId sd) rcv (m_subject d) (m_body d)
    (negb (bool_decide (d_items d = ∅))) expire deliver (u32 (m_money d)) (u32 (m_COD d)) (u8 chk).
Definition draft_mail (s : Post) (id rcv deliver expire chk : Z) (sd : MailSender) (d : MailDraft) : Mail :=
  mkMail id (m_messageType sd) (m_stationery sd) (m_mailTemplateId d) (m_senderId sd) rcv (m_subject d) (m_body d)
    (map (fun low => mkMailItem low (i_entry (item_of s low))) (set_ordered (d_items d))) [] expire deliver
    (m_money d) (m_COD d) chk MAIL_STATE_UNCHANGED.

Definition SendMailTo (now : Z) (d : MailDraft) (rcv : Z) (sd : MailSender) (chk delay : Z) (s : Post) : Post :=
  let '(id, s) := GenerateMailID s in
  let deliver := now + delay in
  let expire := deliver + expire_delay s sd d in
  let lows := set_ordered (d_items d) in
  let s := INS_MAIL id (draft_row rcv deliver expire chk sd d) s in
  let s := foreach (fun low => INS_MAIL_ITEM id low rcv) lows s in
  match FindPlayer s rcv with
  | None => s
  | Some x =>
      let s := AddNewMailDeliverTime now rcv deliver s in
      if m_mailsLoaded x then
        upd_player rcv (fun x => foldl (fun x low => AddMItem low x)
          (AddMail (draft_mail s id rcv deliver expire chk sd d) x) lows) s
      else s
  end.

Definition known (s : Post) (p : Z) : bool :=
  match FindPlayer s p with Some _ => true | None => negb (GetPlayerAccountIdByGUID s p =? 0) end.

(** [MailDraft::SendReturnToSender] *)
Definition SendReturnToSender (now : Z) (d : MailDraft) (sender_acc sender_guid receiver_guid : Z) (s : Post) : Post :=
  let lows := set_ordered (d_items d) in
  if negb (known s receiver_guid) then foreach DEL_ITEM_INSTANCE lows s
  else
    let rc_account := match FindPlayer s receiver_guid with Some _ => 0 | None => GetPlayerAccountIdByGUID s receiver_guid end in
    let needItemDelay := negb (bool_decide (d_items d = ∅)) && negb (sender_acc =? rc_account) in
    let s := foreach (fun low s => UPD_ITEM_OWNER receiver_guid low (SaveItem low s)) lows s in
    SendMailTo now d receiver_guid (mkSender MAIL_NORMAL sender_guid MAIL_STATIONERY_DEFAULT) MAIL_CHECK_MASK_RETURNED
      (if needItemDelay then CONFIG_MAIL_DELIVERY_DELAY else 0) s.

(** ** Loading and saving *)

(** [CHAR_SEL_MAILITEMS] *)
Definition SEL_MAILITEMS (id : Z) (s : Post) : list Z :=
  List.filter (fun low => bool_decide (low ∈ item_instance s))
    (map fst (List.filter (fun e => e.2.1 =? id) (map_ordered (mail_items s)))).
Definition load_item (p low : Z) (s : Post) : Post :=
  match GetItemTemplate (i_entry (item_of s low)) with
  | None => DEL_ITEM_INSTANCE low (DEL_MAIL_ITEM low s)
  | Some _ => upd_player p (AddMItem low) s
  end.
(** [Player::_LoadMailedItems] *)
Definition LoadMailedItems (p id : Z) (s : Post) : list MailItemInfo * Post :=
  let lows := SEL_MAILITEMS id s in
  (map (fun low => mkMailItem low (i_entry (item_of s low))) lows, foreach (load_item p) lows s).
Definition loaded_template (t : Z) : Z :=
  let t := u16 t in
  if negb (t =? 0) && negb (bool_decide (is_Some (MailTemplateStore t))) then 0 else t.
Definition row_mail (id : Z) (r : MailRow) (infos : list MailItemInfo) : Mail :=
  mkMail id (r_messageType r) (u8 (r_stationery r)) (loaded_template (r_mailTemplateId r)) (r_sender r) (r_receiver r)
    (r_subject r) (r_body r) infos [] (r_expire_time r) (r_deliver_time r) (r_money r) (r_cod r) (r_checked r)
    MAIL_STATE_UNCHANGED.
Definition load_row (p : Z) (e : Z * MailRow) (s : Post) : Post :=
  let '(infos, s) := if r_has_items e.2 then LoadMailedItems p e.1 s else ([], s) in
  upd_player p (fun x => set_p_mail (p_mail x ++ [row_mail e.1 e.2 infos]) x) s.
(** [CHAR_SEL_MAIL] *)
Definition SEL_MAIL (p : Z) (s : Post) : list (Z * MailRow) :=
  rev (List.filter (fun e => r_receiver e.2 =? p) (map_ordered (mail s))).
(** [Player::_LoadMail] *)
Definition LoadMail (p : Z) (s : Post) : Post :=
  let s := upd_player p (set_p_mail []) s in
  upd_player p (set_m_mailsLoaded true) (foreach (load_row p) (SEL_MAIL p s) s).

Definition HasItems (m : Mail) : bool := negb (bool_decide (map item_guid (mail_infos m) = [])).
Definition save_one (m : Mail) (s : Post) : Post :=
  match state m with
  | MAIL_STATE_CHANGED =>
      foreach DEL_MAIL_ITEM (removedItems m)
        (UPD_MAIL (messageID m) (HasItems m) (u32 (expire_time m)) (u32 (deliver_time m)) (u32 (money m)) (u32 (COD m))
           (u8 (checked m)) s)
  | MAIL_STATE_DELETED =>
      DEL_MAIL_ITEM_BY_ID (messageID m) (DEL_MAIL_BY_ID (messageID m)
        (foreach DEL_ITEM_INSTANCE (map item_guid (mail_infos m)) s))
  | MAIL_STATE_UNCHANGED => s
  end.
Definition saved (m : Mail) : Mail :=
  if bool_decide (state m = MAIL_STATE_CHANGED) then set_state MAIL_STATE_UNCHANGED (set_removedItems [] m) else m.
Definition kept (l : list Mail) : list Mail :=
  List.filter (fun m => negb (bool_decide (state m = MAIL_STATE_DELETED))) (map saved l).
(** [Player::_SaveMail] *)
Definition SaveMail (p : Z) (s : Post) : Post :=
  match players s !! p with
  | Some x =>
      if m_mailsLoaded x then
        upd_player p (fun x => set_m_mailsUpdated false (set_p_mail (kept (p_mail x)) x)) (foreach save_one (p_mail x) s)
      else s
  | None => s
  end.

(** [CHAR_SEL_CHARACTER_MAILCOUNT], [CHAR_SEL_CHARACTER_MAILDATE] and
    [Player::_LoadMailInit], when a player enters the world *)
Definition unread_rows (p : Z) (s : Post) : list MailRow :=
  List.filter (fun r => (r_receiver r =? p) && (Z.land (r_checked r) 1 =? 0)) (map snd (map_ordered (mail s))).
Definition min_deliver (l : list MailRow) : Z :=
  match map r_deliver_time l with [] => 0 | t :: ts => foldl Z.min t ts end.
Definition Login (now p : Z) (s : Post) : Post :=
  upd_player p (fun x => set_p_online true
    (set_unReadMails (u8 (Z.of_nat (length (List.filter (fun r => r_deliver_time r <=? now) (unread_rows p s)))))
    (set_m_nextMailDelivereTime (u32 (min_deliver (unread_rows p s))) x))) s.
(** [Player::SaveToDB] and [Player::~Player] *)
Definition Logout (p : Z) (s : Post) : Post :=
  let s := match players s !! p with Some x => if m_mailsUpdated x then SaveMail p s else s | None => s end in
  upd_player p (fun x => set_p_online false (set_p_mail [] (set_mMitems ∅ (set_m_mailsLoaded false x)))) s.
(** The part of [Player::Update] about mail *)
Definition UpdateMail (now p : Z) (s : Post) : Post :=
  match FindPlayer s p with
  | Some x =>
      if negb (m_nextMailDelivereTime x =? 0) && (m_nextMailDelivereTime x <=? now) then
        emit (SendNewMail p) (upd_player p (fun x => set_m_nextMailDelivereTime 0 (set_unReadMails (u8 (unReadMails x + 1)) x)) s)
      else s
  | None => s
  end.

(** ** Requests *)

Record SendMailRequest := mkSendMail {
  q_mailbox : Z; q_COD : Z; q_money : Z; q_receiverName : text; q_subject : text; q_body : text; q_itemGuids : list Z
}.

(** Team, number of mails, level and account of the receiver *)
Definition receiver_data (s : Post) (rcv : Z) : Z * Z * Z * Z :=
  match FindPlayer s rcv with
  | Some y => (p_team y, u8 (GetMailSize y), u8 (p_level y), p_account y)
  | None =>
      let mails := u8 (Z.of_nat (length (SEL_MAIL rcv s))) in
      match players s !! rcv with
      | Some y => (p_team y, mails, u8 (p_level y), p_account y)
      | None => (0, mails, 0, 0)
      end
  end.

Definition accountBound (s : Post) (x : Player) (guids : list Z) : bool :=
  negb (bool_decide (guids = [])) &&
  forallb (fun g => match GetItemByGuid g x with Some low => IsBoundAccountWide (item_of s low) | None => true end) guids.

Definition attachable (s : Post) (x : Player) (account cod guid : Z) : (MailResponseResult * Z) + Z :=
  if guid =? 0 then inl (MAIL_ERR_MAIL_ATTACHMENT_INVALID, 0)
  else match GetItemByGuid guid x with
  | None => inl (MAIL_ERR_MAIL_ATTACHMENT_INVALID, 0)
  | Some low =>
      let it := item_of s low in
      if negb (CanBeTraded low it true) then inl (MAIL_ERR_EQUIP_ERROR, EQUIP_ERR_MAIL_BOUND_ITEM)
      else if IsBoundAccountWide it && IsSoulBound it && negb (p_account x =? account) then inl (MAIL_ERR_EQUIP_ERROR, EQUIP_ERR_NOT_SAME_ACCOUNT)
      else if has_flag (t_Flags (GetTemplate it)) ITEM_PROTO_FLAG_CONJURED || negb (i_expiration it =? 0) then inl (MAIL_ERR_EQUIP_ERROR, EQUIP_ERR_MAIL_BOUND_ITEM)
      else if negb (cod =? 0) && has_flag (i_dynFlags it) ITEM_FLAG_WRAPPED then inl (MAIL_ERR_CANT_SEND_WRAPPED_COD, 0)
      else if IsNotEmptyBag low then inl (MAIL_ERR_EQUIP_ERROR, EQUIP_ERR_DESTROY_NONEMPTY_BAG)
      else inr low
  end.
Fixpoint attach (s : Post) (x : Player) (account cod : Z) (guids : list Z) : (MailResponseResult * Z) + list Z :=
  match guids with
  | [] => inr []
  | g :: guids =>
      match attachable s x account cod g with
      | inl e => inl e
      | inr low => match attach s x account cod guids with inl e => inl e | inr lows => inr (low :: lows) end
      end
  end.

Definition post_item (p rcv low : Z) (s : Post) : Post :=
  SaveItem low (UPD_ITEM_OWNER rcv low (upd_player p (MoveItemFromInventory low) s)).
Definition mail_cost (guids : list Z) : Z :=
  if bool_decide (guids = []) then 30 else 30 * Z.of_nat (length guids).

Definition send_mail (now p rcv account : Z) (q : SendMailRequest) (lows : list Z) (x : Player) (s : Post) : Post :=
  let s := emit (SendMailResult p 0 MAIL_SEND MAIL_OK 0 0 0) s in
  let s := upd_player p (Pay (u64 (mail_cost (q_itemGuids q) + q_money q))) s in
  let s := foreach (post_item p rcv) lows s in
  let needItemDelay := negb (bool_decide (lows = [])) && negb (p_account x =? account) in
  let delay := if GuildMail p rcv then 0 else if needItemDelay then CONFIG_MAIL_DELIVERY_DELAY else 0 in
  let draft := AddCOD (q_COD q) (AddMoney (q_money q) (foldl (fun d low => draft_AddItem low d) (new_draft (q_subject q) (q_body q)) lows)) in
  SendMailTo now draft rcv (mkSender MAIL_NORMAL p (if p_gm x then MAIL_STATIONERY_GM else MAIL_STATIONERY_DEFAULT))
    (if bool_decide (q_body q = []) then MAIL_CHECK_MASK_COPIED else MAIL_CHECK_MASK_HAS_BODY) delay s.

(** [WorldSession::HandleSendMail] once the packet is read *)
Definition HandleSendMail (now p : Z) (q : SendMailRequest) (s : Post) : Post :=
  match FindPlayer s p with
  | None => s
  | Some x =>
      let result e err := emit (SendMailResult p 0 MAIL_SEND e err 0 0) s in
      let rcv := PlayerGUIDByName (q_receiverName q) in
      if negb (CanUseMailbox p (q_mailbox q)) then s
      else if bool_decide (q_receiverName q = []) then s
      else if p_level x <? CONFIG_MAIL_LEVEL_REQ then emit (SendNotification p) s
      else if rcv =? 0 then result MAIL_ERR_RECIPIENT_NOT_FOUND 0
      else if p =? rcv then result MAIL_ERR_CANNOT_SEND_TO_SELF 0
      else if negb (HasEnoughMoney (u64 (mail_cost (q_itemGuids q) + q_money q)) x) && negb (p_gm x) then result MAIL_ERR_NOT_ENOUGH_MONEY 0
      else
        let '(team, mails, level, account) := receiver_data s rcv in
        if 100 <? mails then result MAIL_ERR_RECIPIENT_CAP_REACHED 0
        else if negb (accountBound s x (q_itemGuids q)) && negb (p_team x =? team) && negb (TwoSideMail p) then result MAIL_ERR_NOT_YOUR_TEAM 0
        else if level <? CONFIG_MAIL_LEVEL_REQ then emit (SendNotification p) s
        else match attach s x account (q_COD q) (q_itemGuids q) with
        | inl (e, err) => result e err
        | inr lows => send_mail now p rcv account q lows x s
        end
  end.

Definition HandleMailMarkAsRead (p mailbox id : Z) (s : Post) : Post :=
  match FindPlayer s p with
  | None => s
  | Some x =>
      if negb (CanUseMailbox p mailbox) then s
      else match GetMail id x with
      | None => s
      | Some _ => upd_player p (fun x =>
          set_m_mailsUpdated true
            (ChangeMail id (fun m => set_state MAIL_STATE_CHANGED (set_checked (Z.lor (checked m) MAIL_CHECK_MASK_READ) m))
              (set_unReadMails (if unReadMails x =? 0 then 0 else unReadMails x - 1) x))) s
      end
  end.

Definition HandleMailDelete (p id : Z) (s : Post) : Post :=
  match FindPlayer s p with
  | None => s
  | Some x =>
      let done x := set_m_mailsUpdated true x in
      match GetMail id x with
      | Some m =>
          if negb (COD m =? 0) then emit (SendMailResult p id MAIL_DELETED MAIL_ERR_INTERNAL_ERROR 0 0 0) s
          else emit (SendMailResult p id MAIL_DELETED MAIL_OK 0 0 0) (upd_player p (fun x => done (ChangeMail id (set_state MAIL_STATE_DELETED) x)) s)
      | None => emit (SendMailResult p id MAIL_DELETED MAIL_OK 0 0 0) (upd_player p done s)
      end
  end.

(** A mail that may be opened now *)
Definition open_mail (now id : Z) (x : Player) : option Mail :=
  match GetMail id x with
  | Some m => if bool_decide (state m = MAIL_STATE_DELETED) || (now <? deliver_time m) then None else Some m
  | None => None
  end.

Definition return_draft (m : Mail) (x : Player) : MailDraft :=
  let d := if mailTemplateId m =? 0 then new_draft (subject m) (body m) else template_draft (mailTemplateId m) in
  AddMoney (money m) (foldl (fun d low => match GetMItem low x with Some low => draft_AddItem low d | None => d end) d
    (map item_guid (mail_infos m))).
Definition HandleMailReturnToSender (now p mailbox id : Z) (s : Post) : Post :=
  match FindPlayer s p with
  | None => s
  | Some x =>
      if negb (CanUseMailbox p mailbox) then s
      else match open_mail now id x with
      | None => emit (SendMailResult p id MAIL_RETURNED_TO_SENDER MAIL_ERR_INTERNAL_ERROR 0 0 0) s
      | Some m =>
          let s := DEL_MAIL_ITEM_BY_ID id (DEL_MAIL_BY_ID id s) in
          let s := upd_player p (RemoveMail id) s in
          let s := if (messageType m =? MAIL_NORMAL) && negb (sender m =? 0) then
              let s := upd_player p (fun x => foldl (fun x low => RemoveMItem low x) x (map item_guid (mail_infos m))) s in
              SendReturnToSender now (return_draft m x) (p_account x) (receiver m) (sender m) s
            else s in
          emit (SendMailResult p id MAIL_RETURNED_TO_SENDER MAIL_OK 0 0 0) s
      end
  end.

Fixpoint remove_info (low : Z) (l : list MailItemInfo) : list MailItemInfo :=
  match l with
  | [] => []
  | i :: l => if item_guid i =? low then l else i :: remove_info low l
  end.
(** The COD of a mail is sent to its sender. *)
Definition pay_cod (now p : Z) (m : Mail) (s : Post) : Post :=
  if COD m =? 0 then s
  else
    let s := if known s (sender m) then
        SendMailTo now (AddMoney (COD m) (new_draft (subject m) [])) (sender m)
          (mkSender MAIL_NORMAL (receiver m) MAIL_STATIONERY_DEFAULT) MAIL_CHECK_MASK_COD_PAYMENT 0 s
      else s in
    upd_player p (Pay32 (COD m)) s.
Definition HandleMailTakeItem (now p mailbox id low : Z) (s : Post) : Post :=
  match FindPlayer s p with
  | None => s
  | Some x =>
      if negb (CanUseMailbox p mailbox) then s
      else match open_mail now id x with
      | None => emit (SendMailResult p id MAIL_ITEM_TAKEN MAIL_ERR_INTERNAL_ERROR 0 0 0) s
      | Some m =>
          if negb (HasEnoughMoney (COD m) x) then emit (SendMailResult p id MAIL_ITEM_TAKEN MAIL_ERR_NOT_ENOUGH_MONEY 0 0 0) s
          else
            let msg := match GetMItem low x with Some low => CanStoreItem p (item_of s low) | None => EQUIP_ERR_ITEM_NOT_FOUND end in
            if negb (msg =? EQUIP_ERR_OK) then emit (SendMailResult p id MAIL_ITEM_TAKEN MAIL_ERR_EQUIP_ERROR msg 0 0) s
            else
              let s := upd_player p (ChangeMail id (fun m => set_removedItems (removedItems m ++ [low]) (set_mail_infos (remove_info low (mail_infos m)) m))) s in
              let s := pay_cod now p m s in
              let s := upd_player p (fun x => RemoveMItem low (set_m_mailsUpdated true
                (ChangeMail id (fun m => set_state MAIL_STATE_CHANGED (set_COD 0 m)) x))) s in
              let count := i_count (item_of s low) in
              let s := SaveMail p (MoveItemToInventory p low s) in
              emit (SendMailResult p id MAIL_ITEM_TAKEN MAIL_OK 0 low count) s
      end
  end.

Definition HandleMailTakeMoney (now p mailbox id amount : Z) (s : Post) : Post :=
  match FindPlayer s p with
  | None => s
  | Some x =>
      if negb (CanUseMailbox p mailbox) then s
      else match open_mail now id x with
      | None => emit (SendMailResult p id MAIL_MONEY_TAKEN MAIL_ERR_INTERNAL_ERROR 0 0 0) s
      | Some m =>
          if (0 <? amount) && negb (money m =? amount) then emit (SendMailResult p id MAIL_MONEY_TAKEN MAIL_ERR_INTERNAL_ERROR 0 0 0) s
          else if negb (ModifyMoney (s64 (money m)) x).1 then emit (SendMailResult p id MAIL_MONEY_TAKEN MAIL_ERR_EQUIP_ERROR EQUIP_ERR_TOO_MUCH_GOLD 0 0) s
          else
            let s := upd_player p (fun x => set_m_mailsUpdated true
              (ChangeMail id (fun m => set_state MAIL_STATE_CHANGED (set_money 0 m)) (ModifyMoney (s64 (money m)) x).2)) s in
            SaveMail p (emit (SendMailResult p id MAIL_MONEY_TAKEN MAIL_OK 0 0 0) s)
      end
  end.

(** [WorldSession::HandleGetMailList], without the packet *)
Definition OpenMailbox (p : Z) (s : Post) : Post :=
  match players s !! p with Some x => if m_mailsLoaded x then s else LoadMail p s | None => s end.
Definition HandleGetMailList (now p mailbox : Z) (s : Post) : Post :=
  match FindPlayer s p with
  | None => s
  | Some _ =>
      if negb (CanUseMailbox p mailbox) then s
      else upd_player p (UpdateNextMailTimeAndUnreads now) (OpenMailbox p s)
  end.

Definition HandleMailCreateTextItem (now p mailbox id : Z) (s : Post) : Post :=
  match FindPlayer s p with
  | None => s
  | Some x =>
      if negb (CanUseMailbox p mailbox) then s
      else
        let failed err := emit (SendMailResult p id MAIL_MADE_PERMANENT err 0 0 0) in
        match open_mail now id x with
        | None => failed MAIL_ERR_INTERNAL_ERROR s
        | Some m =>
            if bool_decide (body m = []) && (mailTemplateId m =? 0) then failed MAIL_ERR_INTERNAL_ERROR s
            else
              let low := itemId s in
              let s := set_itemId (u32 (low + 1)) s in
              let text := if mailTemplateId m =? 0 then Some (body m) else MailTemplateStore (mailTemplateId m) in
              match text with
              | None => failed MAIL_ERR_INTERNAL_ERROR s
              | Some t =>
                  let it := mkItem MAIL_BODY_ITEM_TEMPLATE 1 p (sender m) 0 ITEM_FLAG_MAIL_TEXT_MASK 0 0 0 0 [] t in
                  let msg := CanStoreItem p it in
                  if negb (msg =? EQUIP_ERR_OK) then emit (SendMailResult p id MAIL_MADE_PERMANENT MAIL_ERR_EQUIP_ERROR msg 0 0) s
                  else
                    let s := upd_player p (fun x => set_m_mailsUpdated true
                      (ChangeMail id (fun m => set_state MAIL_STATE_CHANGED (set_checked (Z.lor (checked m) MAIL_CHECK_MASK_COPIED) m)) x)) s in
                    emit (SendMailResult p id MAIL_MADE_PERMANENT MAIL_OK 0 0 0)
                      (MoveItemToInventory p low (set_items (<[low := it]> (items s)) s))
              end
        end
  end.

(** [WorldSession::HandleQueryNextMailTime]: up to two senders are shown *)
Fixpoint next_senders (now : Z) (sent : list Z) (l : list Mail) : list Mail :=
  match l with
  | [] => []
  | m :: l =>
      if negb (Z.land (checked m) MAIL_CHECK_MASK_READ =? 0) || (now <? deliver_time m) || bool_decide (sender m ∈ sent)
      then next_senders now sent l
      else if (length sent =? 1)%nat then [m] else m :: next_senders now (sender m :: sent) l
  end.
Definition HandleQueryNextMailTime (now p : Z) (s : Post) : list Mail * Post :=
  let s := OpenMailbox p s in
  match players s !! p with
  | Some x => (if 0 <? unReadMails x then next_senders now [] (p_mail x) else [], s)
  | None => ([], s)
  end.

(** ** Expired mails *)

(** [CHAR_DEL_EMPTY_EXPIRED_MAIL], [CHAR_SEL_EXPIRED_MAIL] and
    [CHAR_SEL_EXPIRED_MAIL_ITEMS] *)
Definition DEL_EMPTY_EXPIRED_MAIL (now : Z) (s : Post) : Post :=
  set_mail (filter (fun e => negb ((r_expire_time e.2 <? now) && negb (r_has_items e.2) && bool_decide (r_body e.2 = []))) (mail s)) s.
Definition SEL_EXPIRED_MAIL (now : Z) (s : Post) : list (Z * MailRow) :=
  List.filter (fun e => r_expire_time e.2 <? now) (map_ordered (mail s)).
Definition expired_one (now : Z) (serverUp : bool) (s0 : Post) (e : Z * MailRow) (s : Post) : Post :=
  let '(id, r) := e in
  let loaded := match FindPlayer s (r_receiver r) with Some x => serverUp && m_mailsLoaded x | None => false end in
  if loaded then s
  else if r_has_items r then
    let lows := SEL_MAILITEMS id s0 in
    if negb (r_messageType r =? MAIL_NORMAL) || negb (Z.land (r_checked r) (Z.lor MAIL_CHECK_MASK_COD_PAYMENT MAIL_CHECK_MASK_RETURNED) =? 0)
    then DEL_MAIL_BY_ID id (foreach DEL_ITEM_INSTANCE lows s)
    else
      foreach (fun low s => UPD_ITEM_OWNER (r_sender r) low (UPD_MAIL_ITEM_RECEIVER (r_sender r) low s)) lows
        (UPD_MAIL_RETURNED (r_receiver r) (r_sender r) (now + 30 * DAY) now MAIL_CHECK_MASK_RETURNED id s)
  else DEL_MAIL_BY_ID id s.
(** [ObjectMgr::ReturnOrDeleteOldMails] *)
Definition ReturnOrDeleteOldMails (now : Z) (serverUp : bool) (s : Post) : Post :=
  let s := if serverUp then s else DEL_EMPTY_EXPIRED_MAIL now s in
  foreach (expired_one now serverUp s) (SEL_EXPIRED_MAIL now s) s.
End Mail.
