(* ===== verification/MailMoney.v ===== *)
(** * Money in the mail

    The money of the players and in their mails, and the invariant that ties a
    mail opened in memory to its row: every request, login, logout and clean-up
    keeps it and, for requests a client can honestly make, creates no money. *)
From S2P Require Import Prelude.
From S2P Require Import Lists.
From S2P Require Import Util.
From S2P Require Import Mail.
Local Open Scope Z_scope.

Definition purses (s : Post) : Z := map_sum p_money (players s).
Definition posted (s : Post) : Z := map_sum r_money (mail s).
Definition wealth (s : Post) : Z := purses s + posted s.

(** ** The invariant *)

(** A mail in the memory of player [p], against the table *)
Definition linked (M : gmap Z MailRow) (p : Z) (m : Mail) : Prop :=
  0 <= money m < 2 ^ 32 /\ 0 <= COD m < 2 ^ 31 /\
  exists r, M !! messageID m = Some r /\ r_receiver r = p /\ r_money r = money m.
Definition player_ok (M : gmap Z MailRow) (p : Z) (x : Player) : Prop :=
  0 <= p_money x <= MAX_MONEY_AMOUNT /\ NoDup (messageID <$> p_mail x) /\ Forall (linked M p) (p_mail x).
Definition flags_ok (x : Player) : Prop :=
  (m_mailsLoaded x = false -> p_mail x = []) /\ (m_mailsLoaded x = true -> p_online x = true).
Definition row_ok (r : MailRow) : Prop := 0 <= r_money r < 2 ^ 32 /\ 0 <= r_cod r < 2 ^ 31.
Definition ok_at (P : gmap Z Player) (M : gmap Z MailRow) (n : Z) : Prop :=
  map_Forall (player_ok M) P /\ map_Forall (fun _ => row_ok) M /\ (forall id r, M !! id = Some r -> 0 <= id < n) /\ 0 <= n < 2 ^ 32.
Definition flags_at (P : gmap Z Player) : Prop := map_Forall (fun _ => flags_ok) P.
Definition post_ok (s : Post) : Prop := ok_at (players s) (mail s) (mailId s) /\ flags_at (players s).

(** What the items do not change *)
Definition same (s s' : Post) : Prop := players s' = players s /\ mail s' = mail s /\ mailId s' = mailId s.
Lemma same_post_refl s : same s s.
Proof. done. Qed.
Lemma same_post_trans s t u : same s t -> same t u -> same s u.
Proof. unfold same. naive_solver congruence. Qed.
Lemma foreach_same {A} (f : A -> Post -> Post) l s : (forall a t, same t (f a t)) -> same s (foreach f l s).
Proof. intros Hf. unfold foreach. revert s. induction l as [|a l IH]; intros s; [done|]. cbn. eapply same_post_trans; [apply Hf|apply IH]. Qed.
Lemma same_ok s s' : same s s' -> post_ok s -> post_ok s'.
Proof. intros (Hp & Hm & Hn). unfold post_ok. by rewrite Hp, Hm, Hn. Qed.
Lemma same_wealth s s' : same s s' -> wealth s' = wealth s.
Proof. intros (Hp & Hm & _). unfold wealth, purses, posted. by rewrite Hp, Hm. Qed.
Lemma INS_MAIL_ITEM_same id low rcv s : same s (INS_MAIL_ITEM id low rcv s).
Proof. unfold INS_MAIL_ITEM. by case_match. Qed.

(** ** Changing one player, one row *)

Lemma alter_Some_cases {A} (f : A -> A) (P : gmap Z A) p q y : alter f p P !! q = Some y ->
  q <> p /\ P !! q = Some y \/ q = p /\ exists x, P !! p = Some x /\ y = f x.
Proof. intros [(-> & x & Hx & ->)|[Hne Hq]]%lookup_alter_Some; [right; eauto|left; split; congruence]. Qed.
Lemma ok_player P M n p f : ok_at P M n -> (forall x, P !! p = Some x -> player_ok M p x -> player_ok M p (f x)) -> ok_at (alter f p P) M n.
Proof.
  intros (Hp & Hr & Hi & Hn) Hf. split_and!; try done; try apply Hn. intros q y [[Hne Hy]|(-> & x & Hx & ->)]%alter_Some_cases; [by apply Hp|apply Hf; [done|by apply Hp]].
Qed.
Lemma flags_player P p f : flags_at P -> (forall x, flags_ok x -> flags_ok (f x)) -> flags_at (alter f p P).
Proof. intros Hp Hf q y [[Hne Hy]|(-> & x & Hx & ->)]%alter_Some_cases; eauto. Qed.

(** [linked] looks at one row. *)
Lemma linked_row M M' p m : linked M p m ->
  (forall r, M !! messageID m = Some r -> r_receiver r = p -> exists r', M' !! messageID m = Some r' /\ r_receiver r' = r_receiver r /\ r_money r' = r_money r) ->
  linked M' p m.
Proof. intros (Hm & Hc & r & Hr & Hp & Hy) HM. split_and!; try apply Hm; try apply Hc. destruct (HM r Hr Hp) as (r' & ? & ? & ?). exists r'. split_and!; congruence. Qed.
Lemma player_row M M' p x : player_ok M p x ->
  (forall id r, M !! id = Some r -> r_receiver r = p -> exists r', M' !! id = Some r' /\ r_receiver r' = r_receiver r /\ r_money r' = r_money r) ->
  player_ok M' p x.
Proof.
  intros (Hm & Hn & Hl) HM. split_and!; try apply Hm; [done|]. eapply Forall_impl; [exact Hl|]. intros m Hk. eapply linked_row; [exact Hk|]. apply HM.
Qed.
Lemma ok_INS P M n id r : ok_at P M n -> M !! id = None -> row_ok r -> 0 <= id < n -> ok_at P (<[id := r]> M) n.
Proof.
  intros (Hp & Hr & Hi & Hn) Hid Hrow Hlt. split_and!; try apply Hn.
  - intros p x Hx. eapply player_row; [by apply Hp|]. intros k r' Hk Hrcv. exists r'. rewrite lookup_insert_ne; [done|]. by intros ->; rewrite Hid in Hk.
  - intros k r' [[-> <-]|[Hne Hk]]%lookup_insert_Some; [done|by apply (Hr k)].
  - intros k r' [[-> <-]|[Hne Hk]]%lookup_insert_Some; [done|by apply (Hi k r')].
Qed.
(** Only a row that nobody holds in memory is deleted or sent back. *)
Definition unheld (P : gmap Z Player) (id : Z) : Prop :=
  map_Forall (fun _ x => Forall (fun m => messageID m <> id) (p_mail x)) P.
Lemma ok_unheld P M M' n id : ok_at P M n -> unheld P id -> (forall k, k <> id -> M' !! k = M !! k) ->
  (forall r', M' !! id = Some r' -> row_ok r' /\ 0 <= id < n) -> ok_at P M' n.
Proof.
  intros (Hp & Hr & Hi & Hn) Hu HM Hid. split_and!; try apply Hn.
  - intros p x Hx. destruct (Hp p x Hx) as (Hm & Hd & Hl). split_and!; try apply Hm; [done|].
    apply Forall_forall. intros m Hin. rewrite Forall_forall in Hl. pose proof (Hu p x Hx) as Hne. rewrite Forall_forall in Hne.
    eapply linked_row; [by apply Hl|]. intros r Hrow _. exists r. by rewrite HM by (by apply Hne).
  - intros k r' Hk. destruct (decide (k = id)) as [->|Hne]; [by apply Hid|]. rewrite HM in Hk by done. by apply (Hr k).
  - intros k r' Hk. destruct (decide (k = id)) as [->|Hne]; [by apply (Hid r')|]. rewrite HM in Hk by done. by apply (Hi k r').
Qed.
Lemma posted_nonneg P M n : ok_at P M n -> forall k r, M !! k = Some r -> 0 <= r_money r.
Proof. intros (_ & Hr & _) k r Hk. apply (Hr k r Hk). Qed.

(** A row another player's mail is linked to has another receiver. *)
Lemma linked_elsewhere P M n p q x y m m' : ok_at P M n -> P !! p = Some x -> P !! q = Some y ->
  m ∈ p_mail x -> m' ∈ p_mail y -> messageID m = messageID m' -> p = q.
Proof.
  intros (Hp & _) Hx Hy Hm Hm' He. destruct (Hp p x Hx) as (_ & _ & Hl). destruct (Hp q y Hy) as (_ & _ & Hl').
  rewrite Forall_forall in Hl, Hl'. destruct (Hl m Hm) as (_ & _ & r & Hr & <- & _). destruct (Hl' m' Hm') as (_ & _ & r' & Hr' & <- & _).
  rewrite He in Hr. congruence.
Qed.
Lemma linked_id P M n p x m : ok_at P M n -> P !! p = Some x -> m ∈ p_mail x -> 0 <= messageID m < n.
Proof.
  intros (Hp & _ & Hi & _) Hx Hm. destruct (Hp p x Hx) as (_ & _ & Hl). rewrite Forall_forall in Hl.
  destruct (Hl m Hm) as (_ & _ & r & Hr & _). by apply (Hi _ r).
Qed.

(** ** Purses *)

Lemma ModifyMoney_mails a x : p_mail (ModifyMoney a x).2 = p_mail x /\ m_mailsLoaded (ModifyMoney a x).2 = m_mailsLoaded x /\ p_online (ModifyMoney a x).2 = p_online x.
Proof. unfold ModifyMoney. by repeat case_match. Qed.
Lemma Pay_money a x : 0 <= a <= p_money x -> p_money x <= MAX_MONEY_AMOUNT -> p_money (Pay a x) = p_money x - a.
Proof.
  intros Ha Hx. unfold Pay, MAX_MONEY_AMOUNT in *. assert (Hs : forall z, - 2 ^ 63 <= z < 2 ^ 63 -> s64 z = z).
  { intros z Hz. unfold s64. rewrite Z.mod_small by lia. lia. }
  rewrite !Hs; [|lia|rewrite Hs by lia; lia]. unfold ModifyMoney. destruct (Z.eqb_spec (- a) 0) as [He|He]; [cbn; lia|].
  replace (- a <? 0) with true by lia. cbn [snd]. rewrite Z.opp_involutive, (u64_small a) by (unfold is_u64; lia).
  destruct (Z.ltb_spec a (p_money x)); cbn [p_money set_p_money]; [rewrite u64_small by (unfold is_u64; lia)|]; lia.
Qed.
Lemma Pay32_money a x : 0 <= a <= p_money x -> a < 2 ^ 31 -> p_money x <= MAX_MONEY_AMOUNT -> p_money (Pay32 a x) = p_money x - a.
Proof.
  intros Ha Hb Hx. rewrite <- (Pay_money a x) by done. unfold Pay32, Pay, MAX_MONEY_AMOUNT in *.
  assert (Hs : forall z, - 2 ^ 63 <= z < 2 ^ 63 -> s64 z = z) by (intros z Hz; unfold s64; rewrite Z.mod_small by lia; lia).
  rewrite (s32_small a), (s32_small (- a)), (Hs a), (Hs (- a)) by lia. done.
Qed.
Lemma ModifyMoney_add a x : 0 <= a < 2 ^ 32 -> 0 <= p_money x <= MAX_MONEY_AMOUNT -> (ModifyMoney (s64 a) x).1 = true ->
  p_money (ModifyMoney (s64 a) x).2 = p_money x + a /\ p_money x + a <= MAX_MONEY_AMOUNT.
Proof.
  unfold MAX_MONEY_AMOUNT in *. intros Ha Hx.
  replace (s64 a) with a by (unfold s64; rewrite Z.mod_small by lia; lia). unfold ModifyMoney, MAX_MONEY_AMOUNT.
  destruct (Z.eqb_spec a 0) as [->|He]; [cbn; lia|]. replace (a <? 0) with false by lia. rewrite !u64_small by (unfold is_u64; lia).
  destruct (Z.ltb_spec (p_money x) (9999999999 - a)); [cbn; lia|done].
Qed.
Lemma player_ok_money M p x y : player_ok M p x -> p_mail y = p_mail x -> 0 <= p_money y <= MAX_MONEY_AMOUNT -> player_ok M p y.
Proof. intros (_ & Hn & Hl) He Hm. unfold player_ok. by rewrite He. Qed.
Lemma Pay_ok M p a x : player_ok M p x -> 0 <= a <= p_money x -> player_ok M p (Pay a x).
Proof. intros Hx Ha. pose proof Hx as (Hm & _). eapply player_ok_money; [done|apply ModifyMoney_mails|]. rewrite Pay_money; lia. Qed.
Lemma Pay32_ok M p a x : player_ok M p x -> 0 <= a <= p_money x -> a < 2 ^ 31 -> player_ok M p (Pay32 a x).
Proof. intros Hx Ha Hb. pose proof Hx as (Hm & _). eapply player_ok_money; [done|apply ModifyMoney_mails|]. rewrite Pay32_money; lia. Qed.

Lemma purses_alter_same p f s : (forall x, p_money (f x) = p_money x) -> purses (upd_player p f s) = purses s.
Proof. apply map_sum_alter_same. Qed.
Lemma purses_alter p f s x : players s !! p = Some x -> purses (upd_player p f s) = purses s - p_money x + p_money (f x).
Proof. apply map_sum_alter. Qed.

(** What neither the mails nor the purse of a player show *)
Definition quiet (f : Player -> Player) : Prop := forall x,
  p_mail (f x) = p_mail x /\ p_money (f x) = p_money x /\ m_mailsLoaded (f x) = m_mailsLoaded x /\ p_online (f x) = p_online x.
Lemma quiet_ok f p s : quiet f -> post_ok s -> post_ok (upd_player p f s).
Proof.
  intros Hf [Hok Hfl]. split.
  - apply ok_player; [done|]. intros x _ (Hm & Hn & Hl). destruct (Hf x) as (He & Hy & _). unfold player_ok. by rewrite He, Hy.
  - apply flags_player; [done|]. intros x Hx. destruct (Hf x) as (He & _ & Hl & Ho). unfold flags_ok. by rewrite He, Hl, Ho.
Qed.
Lemma quiet_wealth f p s : quiet f -> wealth (upd_player p f s) = wealth s.
Proof. intros Hf. unfold wealth. rewrite purses_alter_same; [done|]. intros x. apply Hf. Qed.
Lemma quiet_compose f g : quiet f -> quiet g -> quiet (fun x => f (g x)).
Proof. intros Hf Hg x. destruct (Hf (g x)) as (-> & -> & -> & ->). apply Hg. Qed.
Lemma quiet_foldl {A} (g : Player -> A -> Player) l : (forall a, quiet (fun x => g x a)) -> quiet (fun x => foldl g x l).
Proof.
  intros Hg x. revert x. induction l as [|a l IH]; intros x; [done|]. cbn. destruct (IH (g x a)) as (-> & -> & -> & ->). apply Hg.
Qed.

(** Everything a player's record shows of money *)
Definition purse_of (s : Post) : gmap Z Z := p_money <$> players s.
Lemma purses_of s s' : purse_of s' = purse_of s -> purses s' = purses s.
Proof. intros He. apply map_sum_ext. intros k. rewrite <- !lookup_fmap. change (purse_of s' !! k = purse_of s !! k). by rewrite He. Qed.
Lemma purse_of_alter p f s : (forall x, p_money (f x) = p_money x) -> purse_of (upd_player p f s) = purse_of s.
Proof.
  intros Hf. unfold purse_of. cbn. apply map_eq. intros k. rewrite !lookup_fmap, lookup_alter. case_decide as Hk; [subst|done].
  destruct (players s !! k); [cbn; by rewrite Hf|done].
Qed.
Lemma purse_of_Some s s' p x : purse_of s' = purse_of s -> players s !! p = Some x ->
  exists y, players s' !! p = Some y /\ p_money y = p_money x.
Proof.
  intros He Hx. assert (Hp : purse_of s' !! p = Some (p_money x)) by (rewrite He; unfold purse_of; by rewrite lookup_fmap, Hx).
  unfold purse_of in Hp. rewrite lookup_fmap in Hp. destruct (players s' !! p) as [y|]; [|done]. injection Hp as Hp. by exists y.
Qed.

Section Sending.
Context `{MailWorld}.

Lemma ok_next P M n n' : ok_at P M n -> n <= n' < 2 ^ 32 -> ok_at P M n'.
Proof. intros (Hp & Hr & Hi & Hn) Hle. split_and!; try done; try lia. intros id r Hid. specialize (Hi id r Hid). lia. Qed.

Definition ids_left (s : Post) : Prop := mailId s < 4294967294.
Lemma GenerateMailID_left s : ids_left s -> 0 <= mailId s -> GenerateMailID s = (mailId s, set_mailId (mailId s + 1) s).
Proof.
  unfold ids_left. intros Hi H0. unfold GenerateMailID. replace (4294967294 <=? mailId s) with false by lia.
  cbn. by rewrite u32_small by (unfold is_u32; lia).
Qed.
Lemma deliver_quiet now p t s : post_ok s -> post_ok (AddNewMailDeliverTime now p t s) /\
  wealth (AddNewMailDeliverTime now p t s) = wealth s /\ purse_of (AddNewMailDeliverTime now p t s) = purse_of s /\
  mail (AddNewMailDeliverTime now p t s) = mail s /\ mailId (AddNewMailDeliverTime now p t s) = mailId s /\
  (forall q, p_mail <$> players (AddNewMailDeliverTime now p t s) !! q = p_mail <$> players s !! q).
Proof.
  intros Hok. unfold AddNewMailDeliverTime. set (f := fun x : Player => set_unReadMails _ x).
  set (g := fun x : Player => if (_ : bool) then _ else x).
  assert (Hf : quiet f) by done. assert (Hg : quiet g) by (intros x; unfold g; by case_match).
  assert (Hq : forall h q, quiet h -> p_mail <$> alter h p (players s) !! q = p_mail <$> players s !! q).
  { intros h q Hh. rewrite lookup_alter. case_decide; [subst|done]. destruct (players s !! q) as [x|]; [|done]. cbn. by rewrite (proj1 (Hh x)). }
  case_match.
  - split_and!; [by apply (quiet_ok f)|by apply (quiet_wealth f)|by apply (purse_of_alter p f)|done|done|intros q; by apply Hq].
  - split_and!; [by apply quiet_ok|by apply quiet_wealth|apply purse_of_alter; intros; apply Hg|done|done|intros q; by apply Hq].
Qed.

Lemma deliver_step now p t s : exists g, quiet g /\ players (AddNewMailDeliverTime now p t s) = alter g p (players s) /\
  mail (AddNewMailDeliverTime now p t s) = mail s.
Proof.
  unfold AddNewMailDeliverTime. case_match; [by exists (fun x => set_unReadMails (u8 (unReadMails x + 1)) x)|].
  eexists. split; [|done]. intros x. by case_match.
Qed.

(** A mail that is sent has its money, and no more. *)
Lemma SendMailTo_ok now d rcv sd chk delay s : post_ok s -> ids_left s -> 0 <= m_money d < 2 ^ 32 -> 0 <= m_COD d < 2 ^ 31 ->
  post_ok (SendMailTo now d rcv sd chk delay s) /\
  wealth (SendMailTo now d rcv sd chk delay s) = wealth s + m_money d /\
  purse_of (SendMailTo now d rcv sd chk delay s) = purse_of s /\
  mailId (SendMailTo now d rcv sd chk delay s) = mailId s + 1.
Proof.
  intros [Hok Hfl] Hid Hm Hc. pose proof Hok as (_ & _ & Hi & Hn). unfold SendMailTo. rewrite GenerateMailID_left by (done || apply Hn).
  set (s1 := set_mailId _ s). set (deliver := now + delay). set (expire := deliver + _). set (lows := set_ordered _).
  set (row := draft_row _ _ _ _ _ _). set (s2 := INS_MAIL _ row s1). set (s3 := foreach _ lows s2).
  assert (Hfresh : mail s !! mailId s = None) by (apply eq_None_not_Some; intros [r Hr]; specialize (Hi _ _ Hr); lia).
  assert (H2 : s2 = set_mail (<[mailId s := row]> (mail s)) s1) by (unfold s2, INS_MAIL; cbn; by rewrite Hfresh).
  assert (Hrow : row_ok row) by (split; cbn; rewrite u32_small by (unfold is_u32; lia); lia).
  assert (Ok2 : post_ok s2).
  { rewrite H2. split; [|done]. change (ok_at (players s) (<[mailId s := row]> (mail s)) (mailId s + 1)). unfold ids_left in Hid.
    apply ok_INS; [apply (ok_next _ _ (mailId s)); [done|lia]|done|done|lia]. }
  assert (W2 : wealth s2 = wealth s + m_money d).
  { rewrite H2. unfold wealth, posted. cbn. rewrite map_sum_insert by done. cbn. rewrite u32_small by (unfold is_u32; lia).
    unfold purses. cbn. lia. }
  assert (S3 : same s2 s3) by (apply foreach_same; intros; apply INS_MAIL_ITEM_same).
  assert (Ok3 : post_ok s3) by (by apply (same_ok s2)). assert (W3 : wealth s3 = wealth s + m_money d) by (by rewrite (same_wealth s2)).
  destruct S3 as (P3 & M3 & N3). assert (P3' : players s3 = players s) by (rewrite P3, H2; done).
  assert (N3' : mailId s3 = mailId s + 1) by (rewrite N3, H2; done).
  assert (U3 : purse_of s3 = purse_of s) by (unfold purse_of; by rewrite P3').
  destruct (FindPlayer s3 rcv) as [x|] eqn:Hx; [|done].
  destruct (deliver_quiet now rcv deliver s3 Ok3) as (Ok4 & W4 & U4 & M4 & N4 & L4). set (s4 := AddNewMailDeliverTime _ _ _ s3) in *.
  destruct (m_mailsLoaded x) eqn:Hload; [|split_and!; congruence].
  set (m := draft_mail _ _ _ _ _ _ _ _). set (f := fun x : Player => foldl _ (AddMail m x) lows).
  assert (Hf : forall y, p_mail (f y) = m :: p_mail y /\ p_money (f y) = p_money y /\ m_mailsLoaded (f y) = m_mailsLoaded y /\ p_online (f y) = p_online y).
  { intros y. unfold f. assert (Hq : quiet (fun z => foldl (fun z low => AddMItem low z) z lows)) by (apply quiet_foldl; done).
    destruct (Hq (AddMail m y)) as (-> & -> & -> & ->). done. }
  split_and!.
  - split; cbn.
    + apply ok_player; [apply Ok4|]. intros y Hy (Hym & Hyn & Hyl). destruct (Hf y) as (He & Hu & _). unfold player_ok. rewrite He, Hu.
      split_and!; try apply Hym; cbn.
      * constructor; [|done]. intros (m' & Hid' & Hin)%list_elem_of_fmap. assert (0 <= messageID m' < mailId s); [|change (messageID m) with (mailId s) in Hid'; lia].
        specialize (L4 rcv). rewrite Hy in L4. destruct (players s3 !! rcv) as [z|] eqn:Hz; [|done]. injection L4 as L4. rewrite P3' in Hz.
        apply (linked_id _ _ _ _ _ _ Hok Hz). by rewrite <- L4.
      * constructor; [|done]. split_and!; try (cbn; lia). exists row. split_and!; [|done|cbn; rewrite u32_small by (unfold is_u32; lia); done].
        rewrite M4, M3, H2. cbn. apply lookup_insert_eq.
    + intros q y [[Hne Hy]|(-> & z & Hz & ->)]%alter_Some_cases; [by apply (proj2 Ok4 q)|]. destruct (Hf z) as (_ & _ & Hl & Ho).
      pose proof (proj2 Ok4 rcv z Hz) as [Hz1 Hz2]. split; rewrite Hl.
      * intros Hz3. exfalso. unfold FindPlayer in Hx. destruct (players s3 !! rcv) as [x'|] eqn:Hx'; [|done]. case_match; [|done]. injection Hx as ->.
        unfold s4, AddNewMailDeliverTime in Hz. case_match; cbn in Hz; rewrite lookup_alter_eq, Hx' in Hz; injection Hz as <-; cbn in Hz3; try match type of Hz3 with context [if ?b then _ else _] => destruct b; cbn in Hz3 end; congruence.
      * intros Hz3. rewrite Ho. by apply Hz2.
  - unfold wealth in *. rewrite purses_alter_same by (intros; apply Hf). unfold posted in *. cbn. lia.
  - unfold s4 in *. rewrite purse_of_alter by (intros; apply Hf). congruence.
  - cbn. congruence.
Qed.

(** ** Saving *)

Definition save_row (M : gmap Z MailRow) (m : Mail) : gmap Z MailRow :=
  match state m with
  | MAIL_STATE_CHANGED => alter (updated_row (HasItems m) (u32 (expire_time m)) (u32 (deliver_time m)) (u32 (money m)) (u32 (COD m)) (u8 (checked m))) (messageID m) M
  | MAIL_STATE_DELETED => delete (messageID m) M
  | MAIL_STATE_UNCHANGED => M
  end.
Lemma save_one_effect m s : players (save_one m s) = players s /\ mailId (save_one m s) = mailId s /\ mail (save_one m s) = save_row (mail s) m.
Proof.
  unfold save_one, save_row. destruct (state m); [done| |].
  - set (s1 := UPD_MAIL _ _ _ _ _ _ _ s). destruct (foreach_same DEL_MAIL_ITEM (removedItems m) s1) as (-> & -> & ->); done.
  - set (s1 := foreach _ _ s). destruct (foreach_same DEL_ITEM_INSTANCE (map item_guid (mail_infos m)) s) as (Hp & Hm & Hn); [done|].
    cbn. fold s1. unfold s1. rewrite Hp, Hm, Hn. done.
Qed.
Lemma foreach_save l s : players (foreach save_one l s) = players s /\ mailId (foreach save_one l s) = mailId s /\
  mail (foreach save_one l s) = foldl save_row (mail s) l.
Proof.
  revert s. induction l as [|m l IH]; intros s; [done|]. cbn. destruct (IH (save_one m s)) as (Hp & Hn & Hm).
  unfold foreach in *. rewrite Hp, Hn, Hm. destruct (save_one_effect m s) as (-> & -> & ->). done.
Qed.
Lemma save_row_ne M m k : messageID m <> k -> save_row M m !! k = M !! k.
Proof. intros Hk. unfold save_row. case_match; [done|by rewrite lookup_alter_ne|by rewrite lookup_delete_ne]. Qed.
Lemma save_row_at M M' m k : messageID m = k -> M !! k = M' !! k -> save_row M m !! k = save_row M' m !! k.
Proof. intros <- Hk. unfold save_row. case_match; [done| |by rewrite !lookup_delete_eq]. by rewrite !lookup_alter_eq, Hk. Qed.
Lemma save_rows_lookup M l k : NoDup (messageID <$> l) ->
  foldl save_row M l !! k = match List.find (fun m => messageID m =? k) l with Some m => save_row M m !! k | None => M !! k end.
Proof.
  revert M. induction l as [|m l IH]; intros M Hnd; [done|]. apply NoDup_cons in Hnd as [Hin Hnd]. cbn. rewrite IH by done.
  destruct (Z.eqb_spec (messageID m) k) as [He|Hne].
  - destruct (List.find _ l) as [m'|] eqn:Hf; [|done]. apply find_some in Hf as [Hl Hk]. exfalso. apply Hin. apply list_elem_of_fmap.
    exists m'. split; [lia|by apply list_elem_of_In].
  - destruct (List.find _ l) as [m'|] eqn:Hf; [|by apply save_row_ne]. apply find_some in Hf as [_ Hk]. apply save_row_at; [lia|by apply save_row_ne].
Qed.
Lemma find_mail l k : match List.find (fun m => messageID m =? k) l with Some m => m ∈ l /\ messageID m = k | None => Forall (fun m => messageID m <> k) l end.
Proof.
  destruct (List.find _ l) as [m|] eqn:Hf; [apply find_some in Hf as [Hl Hk]; split; [by apply list_elem_of_In|lia]|].
  apply Forall_forall. intros m Hm. apply list_elem_of_In in Hm. pose proof (find_none _ _ Hf m Hm) as Hk. cbn in Hk. lia.
Qed.
Lemma find_unique l m : NoDup (messageID <$> l) -> m ∈ l -> List.find (fun m' => messageID m' =? messageID m) l = Some m.
Proof.
  induction l as [|a l IH]; intros Hnd Hm; [by apply elem_of_nil in Hm|]. apply NoDup_cons in Hnd as [Ha Hnd]. cbn.
  apply elem_of_cons in Hm as [->|Hm]; [by rewrite Z.eqb_refl|]. destruct (Z.eqb_spec (messageID a) (messageID m)) as [He|]; [|by apply IH].
  exfalso. apply Ha. rewrite He. apply list_elem_of_fmap. by exists m.
Qed.

(** What saving a linked mail does to its row *)
Lemma save_row_linked M p m r' : linked M p m -> save_row M m !! messageID m = Some r' ->
  exists r, M !! messageID m = Some r /\ r_receiver r' = r_receiver r /\ r_money r' = r_money r /\ (row_ok r -> row_ok r').
Proof.
  intros (Hm & Hc & r & Hr & Hp & Hy). unfold save_row. destruct (state m).
  - intros Hr'. exists r. rewrite Hr in Hr'. injection Hr' as <-. done.
  - rewrite lookup_alter_eq, Hr. intros [= <-]. exists r. split_and!; [done|done|cbn; rewrite u32_small by (unfold is_u32; lia); done|].
    intros _. split; cbn; rewrite u32_small by (unfold is_u32; lia); lia.
  - by rewrite lookup_delete_eq.
Qed.
Lemma kept_ids l : sublist (messageID <$> kept l) (messageID <$> l).
Proof.
  unfold kept. induction l as [|m l IH]; [done|]. cbn. assert (Hs : messageID (saved m) = messageID m) by (unfold saved; by case_match).
  case_match; cbn; [rewrite Hs; by apply sublist_skip|by apply sublist_cons].
Qed.
Lemma kept_in l m : m ∈ kept l -> exists m', m' ∈ l /\ m = saved m' /\ state m' <> MAIL_STATE_DELETED.
Proof.
  unfold kept. intros Hm. apply list_elem_of_In, filter_In in Hm as [Hm Hs]. apply in_map_iff in Hm as (m' & <- & Hm').
  exists m'. split; [by apply list_elem_of_In|]. split; [done|]. intros Hd. assert (He : saved m' = m') by (unfold saved; by rewrite Hd). by rewrite He, Hd in Hs.
Qed.

Lemma save_players P M n p x : ok_at P M n -> P !! p = Some x ->
  ok_at (alter (fun x => set_m_mailsUpdated false (set_p_mail (kept (p_mail x)) x)) p P) (foldl save_row M (p_mail x)) n.
Proof.
  intros Hok Hx. pose proof Hok as (Hp & Hr & Hi & Hn). pose proof (Hp p x Hx) as (Hm & Hnd & Hl). rewrite Forall_forall in Hl.
  set (l := p_mail x) in *. assert (Hlk := fun k => save_rows_lookup M l k Hnd).
  assert (Hrows : forall k r', foldl save_row M l !! k = Some r' ->
    exists r, M !! k = Some r /\ r_receiver r' = r_receiver r /\ r_money r' = r_money r /\ (row_ok r -> row_ok r')).
  { intros k r'. rewrite Hlk. pose proof (find_mail l k) as Hf. destruct (List.find _ l) as [m|]; [|intros ?; by exists r'].
    destruct Hf as [Hin <-]. apply (save_row_linked M p). by apply Hl. }
  split_and!; try apply Hn.
  - intros q y [[Hne Hy]|(-> & z & Hz & ->)]%alter_Some_cases.
    + eapply player_row; [by apply Hp|]. intros id r Hid Hq. exists r. rewrite Hlk. pose proof (find_mail l id) as Hf.
      destruct (List.find _ l) as [m|]; [|done]. destruct Hf as [Hin <-]. destruct (Hl m Hin) as (_ & _ & r2 & Hr2 & Hp2 & _). congruence.
    + assert (z = x) as -> by congruence. unfold player_ok. cbn. split_and!; try apply Hm; [by eapply sublist_NoDup; [|apply kept_ids]|].
      fold l. apply Forall_forall. intros m' (m & Hin & -> & Hd)%kept_in. pose proof (Hl m Hin) as (Hmm & Hmc & r & Hr0 & Hr1 & Hr2).
      assert (Hs : messageID (saved m) = messageID m /\ money (saved m) = money m /\ COD (saved m) = COD m) by (unfold saved; by case_match).
      destruct Hs as (Hs1 & Hs2 & Hs3). unfold linked. rewrite Hs1, Hs2, Hs3. split_and!; try apply Hmm; try apply Hmc.
      rewrite Hlk, (find_unique l m) by done. unfold save_row. destruct (state m); [by exists r| |done].
      rewrite lookup_alter_eq, Hr0. eexists. split; [reflexivity|]. cbn. by rewrite u32_small by (unfold is_u32; lia).
  - intros k r' Hk. destruct (Hrows k r' Hk) as (r & Hr0 & _ & _ & Hok'). by apply Hok', (Hr k).
  - intros k r' Hk. destruct (Hrows k r' Hk) as (r & Hr0 & _). by apply (Hi k r).
Qed.
Lemma save_posted P M n p x : ok_at P M n -> P !! p = Some x -> map_sum r_money (foldl save_row M (p_mail x)) <= map_sum r_money M.
Proof.
  intros Hok Hx. pose proof Hok as (Hp & _). pose proof (Hp p x Hx) as (Hm & Hnd & Hl). rewrite Forall_forall in Hl.
  apply map_sum_mono; [by apply (posted_nonneg P M n)|]. intros k r'. rewrite save_rows_lookup by done.
  pose proof (find_mail (p_mail x) k) as Hf. destruct (List.find _ _) as [m|]; [|intros Hk; exists r'; split; [done|lia]].
  destruct Hf as [Hin <-]. intros Hk. destruct (save_row_linked M p m r' (Hl m Hin) Hk) as (r & Hr & _ & Hy & _). exists r. split; [done|lia].
Qed.

(** Saving, where the rows may differ from those of a good state [M'] by what
    is about to be overwritten *)
Lemma SaveMail_ok p s M' x : ok_at (players s) M' (mailId s) -> flags_at (players s) -> players s !! p = Some x -> m_mailsLoaded x = true ->
  foldl save_row (mail s) (p_mail x) = foldl save_row M' (p_mail x) ->
  post_ok (SaveMail p s) /\ wealth (SaveMail p s) <= purses s + map_sum r_money M' /\ purse_of (SaveMail p s) = purse_of s /\ mailId (SaveMail p s) = mailId s.
Proof.
  intros Hok Hfl Hx Hload HM. unfold SaveMail. rewrite Hx, Hload. set (f := fun x : Player => set_m_mailsUpdated false _).
  destruct (foreach_save (p_mail x) s) as (Hp & Hn & Hm). set (s1 := foreach _ _ s) in *.
  assert (Hf : forall y, p_money (f y) = p_money y) by done. split_and!.
  - unfold post_ok. cbn. rewrite Hp, Hm, Hn, HM. split; [by apply save_players|]. apply flags_player; [done|].
    intros y [H1 H2]. split; [|done]. intros Hy. cbn. by rewrite H1.
  - unfold wealth. rewrite purses_alter_same by done. unfold purses, posted. cbn. rewrite Hp, Hm, HM.
    pose proof (save_posted _ _ _ _ _ Hok Hx). lia.
  - rewrite purse_of_alter by done. unfold purse_of. by rewrite Hp.
  - done.
Qed.
Lemma SaveMail_same_ok p s : post_ok s -> post_ok (SaveMail p s) /\ wealth (SaveMail p s) <= wealth s /\
  purse_of (SaveMail p s) = purse_of s /\ mailId (SaveMail p s) = mailId s.
Proof.
  intros [Hok Hfl]. destruct (players s !! p) as [x|] eqn:Hx; [|unfold SaveMail; rewrite Hx; split_and!; done || lia].
  destruct (m_mailsLoaded x) eqn:Hload; [by apply (SaveMail_ok p s (mail s) x)|unfold SaveMail; rewrite Hx, Hload; split_and!; done || lia].
Qed.

(** ** Loading *)

Lemma load_item_effect p low s : exists g, quiet g /\ players (load_item p low s) = alter g p (players s) /\
  mail (load_item p low s) = mail s /\ mailId (load_item p low s) = mailId s.
Proof. unfold load_item. case_match; [by exists (AddMItem low)|]. exists id. split_and!; try done. symmetry. by apply alter_id. Qed.
Lemma load_items_effect p l s : exists g, quiet g /\ players (foreach (load_item p) l s) = alter g p (players s) /\
  mail (foreach (load_item p) l s) = mail s /\ mailId (foreach (load_item p) l s) = mailId s.
Proof.
  unfold foreach. revert s. induction l as [|low l IH]; intros s; cbn; [exists id; split_and!; try done; symmetry; by apply alter_id|].
  destruct (load_item_effect p low s) as (g & Hg & P & M & N). destruct (IH (load_item p low s)) as (g' & Hg' & P' & M' & N').
  exists (g' ∘ g). split_and!; [exact (quiet_compose g' g Hg' Hg)| |congruence|congruence]. by rewrite P', P, alter_alter_eq.
Qed.
Lemma load_rows_effect p L s : Forall (fun e => mail s !! e.1 = Some e.2 /\ r_receiver e.2 = p /\ row_ok e.2) L ->
  exists h ms, players (foreach (load_row p) L s) = alter h p (players s) /\ mail (foreach (load_row p) L s) = mail s /\
    mailId (foreach (load_row p) L s) = mailId s /\ messageID <$> ms = L.*1 /\ Forall (linked (mail s) p) ms /\
    Forall2 (fun e m => exists infos, m = row_mail e.1 e.2 infos) L ms /\
    forall x, p_mail (h x) = p_mail x ++ ms /\ p_money (h x) = p_money x /\ m_mailsLoaded (h x) = m_mailsLoaded x /\ p_online (h x) = p_online x.
Proof.
  unfold foreach. revert s. induction L as [|[id r] L IH]; intros s HL; cbn [foldl].
  { exists (fun x => x), []. split_and!; try done; [symmetry; by apply alter_id|]. intros x. by rewrite app_nil_r. }
  apply Forall_cons in HL as [(Hid & Hrcv & Hm & Hc) HL]. cbn in Hid, Hrcv.
  assert (Hstep : exists g infos, quiet g /\ players (load_row p (id, r) s) = alter (fun x => set_p_mail (p_mail x ++ [row_mail id r infos]) x) p (alter g p (players s)) /\
    mail (load_row p (id, r) s) = mail s /\ mailId (load_row p (id, r) s) = mailId s).
  { unfold load_row. cbn [fst snd]. destruct (r_has_items r); cbn.
    - destruct (load_items_effect p (SEL_MAILITEMS id s) s) as (g & Hg & P & M & N). eexists g, _. split_and!; [done|cbn; by rewrite P|exact M|exact N].
    - exists (fun x => x), []. split_and!; try done. by rewrite (alter_id (fun x => x)). }
  destruct Hstep as (g & infos & Hg & P & M & N). destruct (IH (load_row p (id, r) s)) as (h & ms & P' & M' & N' & Hids & Hl & Hrows & Hh); [by rewrite M|].
  exists (fun x => h (set_p_mail (p_mail (g x) ++ [row_mail id r infos]) (g x))), (row_mail id r infos :: ms).
  split_and!; [|congruence|congruence|cbn; by rewrite Hids| |constructor; [by exists infos|done]|].
  - by rewrite P', P, !alter_alter_eq.
  - constructor; [|by rewrite M in Hl]. split_and!; try apply Hm; try apply Hc. by exists r.
  - intros x. destruct (Hh (set_p_mail (p_mail (g x) ++ [row_mail id r infos]) (g x))) as (-> & -> & -> & ->). cbn.
    destruct (Hg x) as (-> & -> & -> & ->). by rewrite <- app_assoc.
Qed.
Lemma SEL_MAIL_spec p s : NoDup (SEL_MAIL p s).*1 /\ Forall (fun e => mail s !! e.1 = Some e.2 /\ r_receiver e.2 = p) (SEL_MAIL p s).
Proof.
  unfold SEL_MAIL. split.
  - rewrite <- Permutation_rev. eapply sublist_NoDup; [apply (NoDup_map_ordered (mail s))|].
    generalize (map_ordered (mail s)). intros l. induction l as [|e l IH]; [done|]. cbn. case_match; cbn; [by apply sublist_skip|by apply sublist_cons].
  - apply Forall_forall. intros [id r] Hin. apply list_elem_of_In, in_rev, filter_In in Hin as [Hin Hr]. cbn in *.
    apply list_elem_of_In, elem_of_map_ordered in Hin. split; [done|lia].
Qed.
End Sending.

(** ** What each operation does *)

(** An operation keeps the invariant, creates no money and uses up to [n] ids. *)
Definition thrifty (n : Z) (s s' : Post) : Prop := post_ok s' /\ wealth s' <= wealth s /\ mailId s <= mailId s' <= mailId s + n.
(** It does not even move money. *)
Definition thrifty_refl (s : Post) : post_ok s -> thrifty 0 s s.
Proof. intros Hok. split_and!; [done|lia|lia|lia]. Qed.
Lemma thrifty_weaken n m s s' : thrifty n s s' -> n <= m -> thrifty m s s'.
Proof. intros (H1 & H2 & H3) Hle. split_and!; [done|lia|lia|lia]. Qed.
Lemma thrifty_trans n m s t u : thrifty n s t -> thrifty m t u -> thrifty (n + m) s u.
Proof. intros (H1 & H2 & H3) (H4 & H5 & H6). split_and!; [done|lia|lia|lia]. Qed.
Lemma thrifty_quiet f p s : quiet f -> post_ok s -> thrifty 0 s (upd_player p f s).
Proof. intros Hf Hok. split_and!; [by apply quiet_ok|rewrite quiet_wealth by done; lia|cbn; lia|cbn; lia]. Qed.
Lemma thrifty_same s s' : same s s' -> post_ok s -> thrifty 0 s s'.
Proof. intros Hs Hok. split_and!; [by eapply same_ok|rewrite (same_wealth _ _ Hs); lia| |]; destruct Hs as (_ & _ & ->); lia. Qed.

(** Changes of a mail in memory that keep its identity and its money *)
Definition modest (f : Mail -> Mail) : Prop := forall m,
  messageID (f m) = messageID m /\ money (f m) = money m /\ (COD (f m) = COD m \/ COD (f m) = 0).
Lemma update_mail_ids id f l : (forall m, messageID (f m) = messageID m) -> messageID <$> update_mail id f l = messageID <$> l.
Proof. intros Hf. induction l as [|m l IH]; [done|]. cbn. case_match; cbn; [by rewrite Hf|by rewrite IH]. Qed.
Lemma update_mail_nil id f l : update_mail id f l = [] <-> l = [].
Proof. destruct l as [|m l]; [done|]. cbn. by case_match. Qed.
Lemma update_mail_in id f l m : m ∈ update_mail id f l -> m ∈ l \/ exists m', m' ∈ l /\ messageID m' = id /\ m = f m'.
Proof.
  induction l as [|a l IH]; [by left|]. cbn. case_match; rewrite elem_of_cons; [|setoid_rewrite elem_of_cons; naive_solver].
  intros [->|Hm]; [|left; by constructor]. right. exists a. split_and!; [by constructor|lia|done].
Qed.
Lemma modest_linked M p f m : modest f -> linked M p m -> linked M p (f m).
Proof. intros Hf (Hm & Hc & Hr). destruct (Hf m) as (Hi & Hy & Hz). unfold linked. rewrite Hi, Hy. split_and!; try apply Hm; try done; destruct Hz as [->| ->]; lia. Qed.
Lemma ChangeMail_ok M p id f x : modest f -> player_ok M p x -> player_ok M p (ChangeMail id f x).
Proof.
  intros Hf (Hm & Hn & Hl). unfold ChangeMail. split_and!; try apply Hm; cbn; [rewrite update_mail_ids; [done|apply Hf]|].
  apply Forall_forall. intros m Hin. rewrite Forall_forall in Hl. apply update_mail_in in Hin as [Hin|(m' & Hin & _ & ->)]; [by apply Hl|by apply modest_linked, Hl].
Qed.
Lemma ChangeMail_flags id f x : flags_ok x -> flags_ok (ChangeMail id f x).
Proof. intros [H1 H2]. split; [|done]. intros Hl. apply update_mail_nil. by apply H1. Qed.
Lemma thrifty_change id f g p s : modest f -> quiet g -> post_ok s -> thrifty 0 s (upd_player p (fun x => g (ChangeMail id f x)) s).
Proof.
  intros Hf Hg [Hok Hfl]. split_and!; try (cbn; lia).
  - split; cbn.
    + apply ok_player; [done|]. intros x _ Hx. destruct (Hg (ChangeMail id f x)) as (He & Hy & _). apply (player_ok_money _ _ (ChangeMail id f x)); [by apply ChangeMail_ok|done|].
      rewrite Hy. apply Hx.
    + apply flags_player; [done|]. intros x Hx. pose proof (ChangeMail_flags id f x Hx) as Hx'. destruct (Hg (ChangeMail id f x)) as (He & _ & Hl & Ho).
      unfold flags_ok. by rewrite He, Hl, Ho.
  - unfold wealth. rewrite purses_alter_same; [done|]. intros x. by destruct (Hg (ChangeMail id f x)) as (_ & -> & _).
Qed.

Lemma open_mail_in now id x m : open_mail now id x = Some m -> m ∈ p_mail x /\ messageID m = id.
Proof.
  unfold open_mail, GetMail. pose proof (find_mail (p_mail x) id) as Hf. destruct (List.find _ _) as [m'|]; [|done]. case_match; [done|]. by intros [= <-].
Qed.
Lemma FindPlayer_online s p x : FindPlayer s p = Some x -> players s !! p = Some x /\ p_online x = true.
Proof. unfold FindPlayer. destruct (players s !! p) as [y|]; [|done]. destruct (p_online y) eqn:Ho; [|done]. by intros [= <-]. Qed.

Section Operations.
Context `{MailWorld}.

Lemma LoadMail_thrifty p s x : post_ok s -> players s !! p = Some x -> p_online x = true -> thrifty 0 s (LoadMail p s).
Proof.
  intros [Hok Hfl] Hx Ho. unfold LoadMail. set (s1 := upd_player p (set_p_mail []) s).
  destruct (SEL_MAIL_spec p s1) as [Hnd Hrows]. set (L := SEL_MAIL p s1) in *.
  destruct (load_rows_effect p L s1) as (h & ms & P & M & N & Hids & Hl & _ & Hh).
  { eapply Forall_impl; [exact Hrows|]. intros [id r] [H1 H2]. split; [done|]. split; [done|]. exact (proj1 (proj2 Hok) id r H1). }
  assert (Hy : forall y, p_money (set_m_mailsLoaded true (h (set_p_mail [] y))) = p_money y) by (intros y; cbn; destruct (Hh (set_p_mail [] y)) as (_ & -> & _); done).
  assert (HP : players (upd_player p (set_m_mailsLoaded true) (foreach (load_row p) L s1)) = alter (fun y => set_m_mailsLoaded true (h (set_p_mail [] y))) p (players s)).
  { cbn. rewrite P. cbn. by rewrite !alter_alter_eq. }
  split_and!.
  - unfold post_ok. rewrite HP. cbn. rewrite M, N. split.
    + apply ok_player; [done|]. intros y Hy1 (Hym & _). unfold player_ok. rewrite Hy. cbn. destruct (Hh (set_p_mail [] y)) as (-> & _). cbn.
      rewrite Hids. split_and!; try apply Hym; [done|by rewrite M in Hl || exact Hl].
    + intros q y [[Hne Hy1]|(-> & z & Hz & ->)]%alter_Some_cases; [by apply (Hfl q)|]. split; [done|]. intros _. cbn.
      destruct (Hh (set_p_mail [] z)) as (_ & _ & _ & ->). cbn. congruence.
  - unfold wealth, purses. rewrite HP, map_sum_alter_same by done. unfold posted. cbn. rewrite M. done.
  - cbn. by rewrite N.
  - cbn. rewrite N. cbn. lia.
Qed.
Lemma OpenMailbox_thrifty p s x : post_ok s -> FindPlayer s p = Some x -> thrifty 0 s (OpenMailbox p s).
Proof.
  intros Hok [Hx Ho]%FindPlayer_online. unfold OpenMailbox. rewrite Hx. case_match; [by apply thrifty_refl|by eapply LoadMail_thrifty].
Qed.
Lemma SaveMail_thrifty p s : post_ok s -> thrifty 0 s (SaveMail p s).
Proof. intros Hok. destruct (SaveMail_same_ok p s Hok) as (H1 & H2 & _ & H3). split_and!; [done|done|lia|lia]. Qed.

Lemma Login_thrifty now p s : post_ok s -> thrifty 0 s (Login now p s).
Proof.
  intros [Hok Hfl]. unfold Login. set (f := fun x : Player => set_p_online true _). split_and!; try (cbn; lia).
  - split; [apply ok_player; [done|by intros x _ Hx]|apply flags_player; [done|]]. intros x [H1 H2]. by split.
  - unfold wealth. by rewrite purses_alter_same.
Qed.
Lemma Logout_thrifty p s : post_ok s -> thrifty 0 s (Logout p s).
Proof.
  intros Hok. unfold Logout. set (s1 := match players s !! p with Some _ => _ | None => _ end).
  assert (H1 : thrifty 0 s s1) by (unfold s1; repeat case_match; [by apply SaveMail_thrifty|by apply thrifty_refl..]).
  destruct H1 as ((Ok1 & Fl1) & W1 & N1). split_and!; try (cbn; lia).
  - split; [apply ok_player; [done|]|apply flags_player; [done|by split]]. intros x _ (Hm & _). split_and!; try apply Hm; by constructor.
  - unfold wealth. rewrite purses_alter_same by done. exact W1.
Qed.
Lemma UpdateMail_thrifty now p s : post_ok s -> thrifty 0 s (UpdateMail now p s).
Proof. intros Hok. unfold UpdateMail. case_match; [case_match|]; [by apply (thrifty_quiet _ p)|by apply thrifty_refl..]. Qed.

Lemma foreach_thrifty {A} (f : A -> Post -> Post) l s : (forall a t, post_ok t -> thrifty 0 t (f a t)) -> post_ok s -> thrifty 0 s (foreach f l s).
Proof.
  intros Hf. unfold foreach. revert s. induction l as [|a l IH]; intros s Hok; [by apply thrifty_refl|]. cbn. pose proof (Hf a s Hok) as H1.
  apply (thrifty_trans 0 0 _ (f a s)); [done|]. apply IH, H1.
Qed.
Lemma upd_pay p x (g : Player -> Player) a s : post_ok s -> players s !! p = Some x -> 0 <= a <= p_money x ->
  p_money (g x) = p_money x - a -> (forall y, p_mail (g y) = p_mail y /\ m_mailsLoaded (g y) = m_mailsLoaded y /\ p_online (g y) = p_online y) ->
  post_ok (upd_player p g s) /\ wealth (upd_player p g s) = wealth s - a.
Proof.
  intros [Hok Hfl] Hx Ha Hg Hq. pose proof (proj1 Hok p x Hx) as (Hm & _). split; [split|].
  - apply ok_player; [done|]. intros y Hy Hyok. assert (y = x) as -> by congruence. eapply player_ok_money; [done|apply Hq|lia].
  - apply flags_player; [done|]. intros y Hy. destruct (Hq y) as (He & Hl & Ho). unfold flags_ok. by rewrite He, Hl, Ho.
  - unfold wealth. rewrite (purses_alter p g s x Hx). unfold posted. cbn. lia.
Qed.
Lemma Pay_quiet a y : p_mail (Pay a y) = p_mail y /\ m_mailsLoaded (Pay a y) = m_mailsLoaded y /\ p_online (Pay a y) = p_online y.
Proof. apply ModifyMoney_mails. Qed.
Lemma Pay32_quiet a y : p_mail (Pay32 a y) = p_mail y /\ m_mailsLoaded (Pay32 a y) = m_mailsLoaded y /\ p_online (Pay32 a y) = p_online y.
Proof. apply ModifyMoney_mails. Qed.
Lemma emit_thrifty e s : post_ok s -> thrifty 0 s (emit e s).
Proof. intros Hok. by apply thrifty_same. Qed.

(** ** Sending *)

(** What the client of an ordinary player asks for *)
Definition honest_send (q : SendMailRequest) : Prop :=
  0 <= q_money q /\ mail_cost (q_itemGuids q) + q_money q < 2 ^ 32 /\ u32 (q_COD q) < 2 ^ 31.
Lemma draft_items_money lows d : m_money (foldl (fun d low => draft_AddItem low d) d lows) = m_money d /\ m_COD (foldl (fun d low => draft_AddItem low d) d lows) = m_COD d.
Proof. revert d. induction lows as [|low lows IH]; intros d; [done|]. cbn. by destruct (IH (draft_AddItem low d)) as [-> ->]. Qed.
Lemma mail_cost_pos guids : 30 <= mail_cost guids.
Proof. unfold mail_cost. case_bool_decide as Hg; [lia|]. destruct guids; [done|]. cbn [length]. lia. Qed.
Lemma post_item_thrifty p rcv low s : post_ok s -> thrifty 0 s (post_item p rcv low s).
Proof.
  intros Hok. apply (thrifty_trans 0 0 _ (upd_player p (MoveItemFromInventory low) s)); [by apply thrifty_quiet|].
  apply thrifty_same; [done|by apply quiet_ok].
Qed.

Lemma post_items_wealth p rcv lows s : wealth (foreach (post_item p rcv) lows s) = wealth s.
Proof.
  unfold foreach. revert s. induction lows as [|low lows IH]; intros t; [done|]. cbn. rewrite IH.
  change (wealth (upd_player p (MoveItemFromInventory low) t) = wealth t). by apply quiet_wealth.
Qed.

(** A mail costs its sender the postage and the money in it. *)
Lemma send_mail_wealth now p rcv account q lows x s : post_ok s -> ids_left s -> players s !! p = Some x -> honest_send q ->
  mail_cost (q_itemGuids q) + q_money q <= p_money x ->
  thrifty 1 s (send_mail now p rcv account q lows x s) /\
  wealth (send_mail now p rcv account q lows x s) = wealth s - mail_cost (q_itemGuids q).
Proof.
  intros Hok Hid Hx (Hm & Hlt & Hc) Hle. pose proof (mail_cost_pos (q_itemGuids q)) as Hpos. unfold send_mail.
  set (s1 := emit _ s). set (a := u64 _). assert (Ha : a = mail_cost (q_itemGuids q) + q_money q) by (apply u64_small; unfold is_u64; lia).
  set (s2 := upd_player p (Pay a) s1). pose proof (proj1 (proj1 Hok) p x Hx) as (Hxm & _).
  destruct (upd_pay p x (Pay a) a s1) as [Ok2 W2]; [done|done|lia|apply Pay_money; lia|apply Pay_quiet|]. fold s2 in Ok2, W2.
  set (s3 := foreach (post_item p rcv) lows s2).
  assert (T3 : thrifty 0 s2 s3) by (apply foreach_thrifty; [intros; by apply post_item_thrifty|done]). destruct T3 as (Ok3 & W3 & N3).
  assert (W3' : wealth s3 = wealth s2) by (apply post_items_wealth).
  set (d := AddCOD _ _). assert (Hd : m_money d = q_money q /\ m_COD d = u32 (q_COD q)) by (by destruct (draft_items_money lows (new_draft (q_subject q) (q_body q)))).
  destruct Hd as [Hd1 Hd2]. assert (N3' : mailId s3 = mailId s) by (unfold s2, s1 in N3; cbn in N3; lia).
  assert (W1 : wealth s1 = wealth s) by done.
  edestruct (SendMailTo_ok now d rcv) as (Ok4 & W4 & _ & N4); [exact Ok3|unfold ids_left in *; lia|rewrite Hd1; lia|rewrite Hd2; pose proof (u32_range (q_COD q)) as Hr; unfold is_u32 in Hr; lia|].
  split; [split_and!; [exact Ok4| | |]|]; [rewrite W4|rewrite N4|rewrite N4|rewrite W4]; lia.
Qed.
Lemma HandleSendMail_thrifty now p q s : post_ok s -> ids_left s -> honest_send q ->
  (forall x, FindPlayer s p = Some x -> p_gm x = false) -> thrifty 1 s (HandleSendMail now p q s).
Proof.
  intros Hok Hid Hq Hgm. unfold HandleSendMail. assert (H0 : forall e, thrifty 1 s (emit e s)) by (intros; by eapply thrifty_weaken; [by apply emit_thrifty|lia]).
  assert (H1 : thrifty 1 s s) by (by eapply thrifty_weaken; [by apply thrifty_refl|lia]).
  destruct (FindPlayer s p) as [x|] eqn:Hx; [|done]. specialize (Hgm x eq_refl). apply FindPlayer_online in Hx as [Hx _].
  do 5 (case_match; [done|]). destruct (HasEnoughMoney _ x) eqn:He; [|rewrite Hgm; done]. cbn [negb andb].
  destruct (receiver_data s _) as [[[team mails] level] account]. do 3 (case_match; [done|]).
  destruct (attach s x account _ _) as [[e err]|lows]; [done|]. pose proof Hq as (Hm & Hlt & _). pose proof (mail_cost_pos (q_itemGuids q)).
  unfold HasEnoughMoney in He. rewrite u64_small in He by (unfold is_u64; lia).
  apply send_mail_wealth; try done. lia.
Qed.

(** ** Reading, deleting *)

Lemma MarkAsRead_thrifty p mailbox id s : post_ok s -> thrifty 0 s (HandleMailMarkAsRead p mailbox id s).
Proof.
  intros Hok. unfold HandleMailMarkAsRead. repeat case_match; try by apply thrifty_refl.
  pose (f := fun m : Mail => set_state MAIL_STATE_CHANGED (set_checked (Z.lor (checked m) MAIL_CHECK_MASK_READ) m)).
  pose (h := fun x : Player => set_unReadMails (if unReadMails x =? 0 then 0 else unReadMails x - 1) x).
  apply (thrifty_trans 0 0 _ (upd_player p h s)); [by apply thrifty_quiet|].
  assert (He : upd_player p (fun x => set_m_mailsUpdated true (ChangeMail id f (h x))) s =
    upd_player p (fun x => set_m_mailsUpdated true (ChangeMail id f x)) (upd_player p h s)) by (unfold upd_player; cbn; by rewrite alter_alter_eq).
  change (thrifty 0 (upd_player p h s) (upd_player p (fun x => set_m_mailsUpdated true (ChangeMail id f (h x))) s)).
  rewrite He. apply (thrifty_change id f (set_m_mailsUpdated true)); [intros m'; cbn; auto|done|by apply quiet_ok].
Qed.
Lemma Delete_thrifty p id s : post_ok s -> thrifty 0 s (HandleMailDelete p id s).
Proof.
  intros Hok. unfold HandleMailDelete. repeat case_match; try by apply emit_thrifty || apply thrifty_refl.
  - apply (thrifty_trans 0 0 _ (upd_player p (fun x => set_m_mailsUpdated true (ChangeMail id (set_state MAIL_STATE_DELETED) x)) s)).
    + apply (thrifty_change id _ (set_m_mailsUpdated true)); [intros m0; cbn; auto|done|done].
    + apply emit_thrifty. apply (thrifty_change id _ (set_m_mailsUpdated true)); [intros m0; cbn; auto|done|done].
  - apply (thrifty_trans 0 0 _ (upd_player p (set_m_mailsUpdated true) s)); [by apply thrifty_quiet|]. by apply emit_thrifty, quiet_ok.
Qed.

(** The mail that the goal sends from [s] *)
Ltac sent s H := match goal with |- context [SendMailTo ?n ?d ?r ?sd ?c ?dl s] => pose proof (SendMailTo_ok n d r sd c dl s) as H end.

(** ** Returning *)

Lemma remove_mail_sub id l : sublist (remove_mail id l) l.
Proof. induction l as [|m l IH]; [done|]. cbn. case_match; [by apply sublist_cons|by apply sublist_skip]. Qed.
Lemma remove_mail_gone id l : NoDup (messageID <$> l) -> Forall (fun m => messageID m <> id) (remove_mail id l).
Proof.
  induction l as [|m l IH]; intros Hnd; [done|]. apply NoDup_cons in Hnd as [Hm Hnd]. cbn. destruct (Z.eqb_spec (messageID m) id) as [He|Hne].
  - apply Forall_forall. intros m' Hin He'. apply Hm. rewrite He, <- He'. apply list_elem_of_fmap. by exists m'.
  - constructor; [done|by apply IH].
Qed.
Lemma RemoveMail_ok P M n p id x m : ok_at P M n -> flags_at P -> P !! p = Some x -> m ∈ p_mail x -> messageID m = id ->
  ok_at (alter (RemoveMail id) p P) (delete id M) n /\ flags_at (alter (RemoveMail id) p P) /\ map_sum r_money (delete id M) = map_sum r_money M - money m.
Proof.
  intros Hok Hfl Hx Hm Hid. pose proof (proj1 Hok p x Hx) as (_ & Hnd & Hl). rewrite Forall_forall in Hl.
  destruct (Hl m Hm) as (_ & _ & r & Hr & _ & Hy). split_and!.
  - apply (ok_unheld _ M _ _ id); [| |intros k Hk; by apply lookup_delete_ne|by rewrite lookup_delete_eq].
    + apply ok_player; [done|]. intros y _ (Hym & Hyn & Hyl). pose proof (remove_mail_sub id (p_mail y)) as Hs. split_and!; try apply Hym.
      * eapply sublist_NoDup; [exact Hyn|]. by apply fmap_sublist.
      * by eapply sublist_Forall.
    + intros q y [[Hne Hy']|(-> & z & Hz & ->)]%alter_Some_cases.
      * apply Forall_forall. intros m' Hin He. apply Hne. symmetry. apply (linked_elsewhere P M n p q x y m m'); congruence || done.
      * apply remove_mail_gone. by apply (proj1 Hok p z).
  - apply flags_player; [done|]. intros y [H1 H2]. split; [|done]. intros Hload. cbn. by rewrite H1.
  - rewrite Hid in Hr. rewrite (map_sum_delete r_money M id r Hr). lia.
Qed.
Lemma return_draft_money m x : m_money (return_draft m x) = money m /\ m_COD (return_draft m x) = 0.
Proof.
  assert (Hl : forall l d, m_COD d = 0 ->
    m_COD (foldl (fun d low => match GetMItem low x with Some low => draft_AddItem low d | None => d end) d l) = 0).
  { induction l as [|low l IH]; intros d Hd; [done|]. cbn. apply IH. by case_match. }
  split; [done|]. unfold return_draft, AddMoney. cbn. apply Hl. by case_match.
Qed.
Lemma SendReturnToSender_ok now d acc from rcv s : post_ok s -> ids_left s -> 0 <= m_money d < 2 ^ 32 -> m_COD d = 0 ->
  post_ok (SendReturnToSender now d acc from rcv s) /\ wealth (SendReturnToSender now d acc from rcv s) <= wealth s + m_money d /\
  mailId s <= mailId (SendReturnToSender now d acc from rcv s) <= mailId s + 1.
Proof.
  intros Hok Hid Hm Hc. unfold SendReturnToSender. destruct (known s rcv); cbn [negb].
  - set (s1 := foreach _ _ s). assert (S1 : same s s1) by (by apply foreach_same).
    assert (Ok1 : post_ok s1) by (by apply (same_ok s)). pose proof (same_wealth _ _ S1) as W1. destruct S1 as (_ & _ & N1).
    sent s1 Hs. destruct Hs as (H1 & H2 & _ & H3); [done|unfold ids_left; by rewrite N1|done|lia|]. split_and!; [done|lia|lia|lia].
  - set (s1 := foreach _ _ s). assert (S1 : same s s1) by (by apply foreach_same).
    split_and!; [by apply (same_ok s)|rewrite (same_wealth _ _ S1); lia|destruct S1 as (_ & _ & ->); lia|destruct S1 as (_ & _ & ->); lia].
Qed.
Lemma open_linked now id s p x m : post_ok s -> players s !! p = Some x -> open_mail now id x = Some m -> linked (mail s) p m /\ m ∈ p_mail x /\ messageID m = id.
Proof.
  intros [Hok _] Hx [Hm Hid]%open_mail_in. pose proof (proj1 Hok p x Hx) as (_ & _ & Hl). rewrite Forall_forall in Hl. split; [by apply Hl|done].
Qed.
Lemma Return_thrifty now p mailbox id s : post_ok s -> ids_left s -> thrifty 1 s (HandleMailReturnToSender now p mailbox id s).
Proof.
  intros Hok Hid. unfold HandleMailReturnToSender. assert (H1 : thrifty 1 s s) by (by eapply thrifty_weaken; [by apply thrifty_refl|lia]).
  destruct (FindPlayer s p) as [x|] eqn:Hx; [|done]. apply FindPlayer_online in Hx as [Hx _]. case_match; [done|].
  destruct (open_mail now id x) as [m|] eqn:Hm; [|done]. destruct (open_linked now id s p x m Hok Hx Hm) as ((Hmm & Hmc & _) & Hin & Hmid).
  set (s1 := DEL_MAIL_ITEM_BY_ID _ _). set (s2 := upd_player p (RemoveMail id) s1).
  destruct (RemoveMail_ok (players s) (mail s) (mailId s) p id x m) as (A & B & C); [by apply Hok..|done|done|done|].
  assert (Ok2 : post_ok s2) by (by split). assert (W2 : wealth s2 = wealth s - money m).
  { unfold wealth. unfold s2. rewrite purses_alter_same by done. unfold posted. cbn. unfold purses. cbn. lia. }
  assert (T2 : thrifty 1 s s2) by (split_and!; [done|lia|cbn; lia|cbn; lia]).
  match goal with |- thrifty 1 s (emit _ ?t) => change (thrifty 1 s t) end.
  case_match; [|done].
  set (s3 := upd_player p (fun x => foldl _ x _) s2). assert (T3 : thrifty 0 s2 s3) by (apply thrifty_quiet; [by apply quiet_foldl|done]).
  destruct T3 as (Ok3 & W3 & N3). assert (N3' : mailId s3 = mailId s) by (cbn in N3; cbn; lia). destruct (return_draft_money m x) as [Hd1 Hd2].
  destruct (SendReturnToSender_ok now (return_draft m x) (p_account x) (receiver m) (sender m) s3) as (Ok4 & W4 & N4); [done|unfold ids_left in *; lia|lia|lia|].
  split_and!; [done|lia|lia|lia].
Qed.

(** ** Taking an item *)

Lemma pay_cod_thrifty now p m s x : post_ok s -> ids_left s -> players s !! p = Some x -> 0 <= COD m < 2 ^ 31 -> COD m <= p_money x ->
  thrifty 1 s (pay_cod now p m s).
Proof.
  intros Hok Hid Hx Hc Hle. unfold pay_cod. case_match; [by eapply thrifty_weaken; [by apply thrifty_refl|lia]|].
  set (s1 := if known s (sender m) then _ else _).
  assert (H1 : post_ok s1 /\ wealth s1 <= wealth s + COD m /\ purse_of s1 = purse_of s /\ mailId s <= mailId s1 <= mailId s + 1).
  { unfold s1. destruct (known s (sender m)); [|split_and!; [done|lia|done|lia|lia]].
    sent s Hs. destruct Hs as (A & B & C & D); [done|done|cbn; lia|cbn; lia|]. change (m_money (AddMoney (COD m) _)) with (COD m) in B. split_and!; [done|lia|done|lia|lia]. }
  destruct H1 as (Ok1 & W1 & U1 & N1). destruct (purse_of_Some s s1 p x U1 Hx) as (y & Hy & Hym).
  pose proof (proj1 (proj1 Ok1) p y Hy) as (Hyb & _).
  destruct (upd_pay p y (Pay32 (COD m)) (COD m) s1) as [Ok2 W2]; [done|done|lia|apply Pay32_money; lia|apply Pay32_quiet|].
  split_and!; [done|lia|cbn; lia|cbn; lia].
Qed.
Lemma MoveItemToInventory_thrifty p low s : post_ok s -> thrifty 0 s (MoveItemToInventory p low s).
Proof.
  intros Hok. unfold MoveItemToInventory. set (s1 := upd_player p _ s). apply (thrifty_trans 0 0 _ s1); [by apply thrifty_quiet|].
  apply thrifty_same; [done|by apply quiet_ok].
Qed.
Lemma TakeItem_thrifty now p mailbox id low s : post_ok s -> ids_left s -> thrifty 1 s (HandleMailTakeItem now p mailbox id low s).
Proof.
  intros Hok Hid. unfold HandleMailTakeItem. assert (H1 : thrifty 1 s s) by (by eapply thrifty_weaken; [by apply thrifty_refl|lia]).
  destruct (FindPlayer s p) as [x|] eqn:Hx; [|done]. apply FindPlayer_online in Hx as [Hx _]. case_match; [done|].
  destruct (open_mail now id x) as [m|] eqn:Hm; [|done]. destruct (open_linked now id s p x m Hok Hx Hm) as ((Hmm & Hmc & _) & Hin & Hmid).
  destruct (HasEnoughMoney (COD m) x) eqn:He; [|done]. cbn [negb]. case_match; [done|]. unfold HasEnoughMoney in He.
  set (f1 := fun m : Mail => set_removedItems _ _). set (s1 := upd_player p (ChangeMail id f1) s).
  assert (T1 : thrifty 0 s s1) by (apply (thrifty_change id f1 (fun x => x)); [intros m'; cbn; auto|done|done]). destruct T1 as (Ok1 & W1 & N1).
  set (s2 := pay_cod now p m s1).
  assert (T2 : thrifty 1 s1 s2).
  { apply (pay_cod_thrifty now p m s1 (ChangeMail id f1 x)); [done|exact Hid|cbn; by rewrite lookup_alter_eq, Hx|lia|change (COD m <= p_money x); lia]. }
  destruct T2 as (Ok2 & W2 & N2). set (s3 := upd_player p _ s2).
  assert (T3 : thrifty 0 s2 s3) by (apply (thrifty_change id (fun m => set_state MAIL_STATE_CHANGED (set_COD 0 m)) (fun x => RemoveMItem low (set_m_mailsUpdated true x))); [intros m'; cbn; auto|done|done]).
  destruct T3 as (Ok3 & W3 & N3). pose proof (MoveItemToInventory_thrifty p low s3 Ok3) as (Ok4 & W4 & N4).
  pose proof (SaveMail_thrifty p _ Ok4) as (Ok5 & W5 & N5).
  match goal with |- thrifty 1 s (emit _ ?t) => change (thrifty 1 s t) end. split_and!; [done|lia|lia|lia].
Qed.

(** ** Taking the money *)

Definition zero_row (r : MailRow) : MailRow := updated_row (r_has_items r) (r_expire_time r) (r_deliver_time r) 0 (r_cod r) (r_checked r) r.
Lemma update_mail_nodup id f l m : NoDup (messageID <$> l) -> m ∈ update_mail id f l ->
  (m ∈ l /\ messageID m <> id) \/ exists m', m' ∈ l /\ messageID m' = id /\ m = f m'.
Proof.
  induction l as [|a l IH]; intros Hnd Hm; [by apply elem_of_nil in Hm|]. apply NoDup_cons in Hnd as [Ha Hnd]. cbn in Hm.
  destruct (Z.eqb_spec (messageID a) id) as [He|Hne]; apply elem_of_cons in Hm as [->|Hm].
  - right. exists a. split_and!; [by constructor|done|done].
  - left. split; [by constructor|]. intros Hi. apply Ha. rewrite He, <- Hi. apply list_elem_of_fmap. by exists m.
  - left. split; [by constructor|done].
  - destruct (IH Hnd Hm) as [[? ?]|(m' & ? & ? & ?)]; [left; split; [by constructor|done]|right; exists m'; split_and!; [by constructor|done|done]].
Qed.
Definition taken (m : Mail) : Mail := set_state MAIL_STATE_CHANGED (set_money 0 m).
Definition take_money (id a : Z) (x : Player) : Player := set_m_mailsUpdated true (ChangeMail id taken (ModifyMoney (s64 a) x).2).
Lemma take_money_ok P M n p id x m : ok_at P M n -> P !! p = Some x -> m ∈ p_mail x -> messageID m = id -> (ModifyMoney (s64 (money m)) x).1 = true ->
  ok_at (alter (take_money id (money m)) p P) (alter zero_row id M) n /\
  map_sum p_money (alter (take_money id (money m)) p P) + map_sum r_money (alter zero_row id M) = map_sum p_money P + map_sum r_money M /\
  foldl save_row M (p_mail (take_money id (money m) x)) = foldl save_row (alter zero_row id M) (p_mail (take_money id (money m) x)).
Proof.
  intros Hok Hx Hin Hid Hadd. pose proof Hok as (Hp & Hr & Hi & Hn). pose proof (Hp p x Hx) as (Hxm & Hnd & Hl). rewrite Forall_forall in Hl.
  pose proof (Hl m Hin) as (Hm & Hc & r & Hrow & Hrcv & Hy). rewrite Hid in Hrow.
  destruct (ModifyMoney_add (money m) x) as [Hsum Hmax]; [lia|done|done|].
  assert (Hmails : p_mail (take_money id (money m) x) = update_mail id taken (p_mail x)).
  { cbn. by rewrite (proj1 (ModifyMoney_mails (s64 (money m)) x)). }
  assert (Hnd' : NoDup (messageID <$> update_mail id taken (p_mail x))) by (by rewrite update_mail_ids).
  split_and!.
  - split_and!; try apply Hn.
    + intros q y [[Hne Hq]|(-> & z & Hz & ->)]%alter_Some_cases.
      * eapply player_row; [by apply Hp|]. intros k r' Hk Hq'. exists r'. rewrite lookup_alter_ne; [done|]. intros ->. congruence.
      * assert (z = x) as -> by congruence. unfold player_ok. rewrite Hmails. cbn. rewrite Hsum. split_and!; try lia; [done|].
        apply Forall_forall. intros m' [[Hm' Hne]|(m0 & Hm0 & Hid0 & ->)]%update_mail_nodup; [| |done].
        { eapply linked_row; [by apply Hl|]. intros r' Hr' _. exists r'. by rewrite lookup_alter_ne by done. }
        assert (m0 = m) as ->. { pose proof (find_unique _ _ Hnd Hm0) as F1. pose proof (find_unique _ _ Hnd Hin) as F2. rewrite Hid0 in F1. rewrite Hid in F2. congruence. }
        split_and!; [cbn; lia|cbn; lia|cbn; lia|cbn; lia|]. exists (zero_row r). cbn [taken messageID set_state set_money money]. rewrite Hid, lookup_alter_eq, Hrow. done.
    + intros k r' [[Hne Hk]|(-> & r0 & Hr0 & ->)]%alter_Some_cases; [by apply (Hr k)|]. destruct (Hr id r0 Hr0) as [Ha Hb]. split; cbn; lia.
    + intros k r' [[Hne Hk]|(-> & r0 & Hr0 & ->)]%alter_Some_cases; [by apply (Hi k r')|by apply (Hi id r0)].
  - rewrite (map_sum_alter p_money P p x), (map_sum_alter r_money M id r) by done. cbn. lia.
  - rewrite Hmails. apply map_eq. intros k. rewrite !save_rows_lookup by done. pose proof (find_mail (update_mail id taken (p_mail x)) k) as Hf.
    destruct (decide (k = id)) as [->|Hne].
    + destruct (List.find _ _) as [m'|].
      * destruct Hf as [[[Hm' Hne]|(m0 & Hm0 & Hid0 & ->)]%update_mail_nodup Hk]; [done| |done].
        unfold save_row. cbn [taken state set_state]. cbn [taken messageID set_state set_money] in *. rewrite Hk, !lookup_alter_eq. by destruct (M !! id).
      * exfalso. assert (Hids : id ∈ (messageID <$> update_mail id taken (p_mail x))) by (rewrite update_mail_ids by done; apply list_elem_of_fmap; by exists m).
        apply list_elem_of_fmap in Hids as (m' & Hm' & Hin'). rewrite Forall_forall in Hf. by apply (Hf m').
    + assert (HM : M !! k = alter zero_row id M !! k) by (by rewrite lookup_alter_ne by congruence).
      destruct (List.find _ _) as [m'|]; [|done]. apply save_row_at; [apply Hf|done].
Qed.
Lemma TakeMoney_thrifty now p mailbox id amount s : post_ok s -> thrifty 0 s (HandleMailTakeMoney now p mailbox id amount s).
Proof.
  intros Hok. unfold HandleMailTakeMoney. assert (H0 : forall e, thrifty 0 s (emit e s)) by (intros; by apply emit_thrifty).
  destruct (FindPlayer s p) as [x|] eqn:Hx; [|by apply thrifty_refl]. apply FindPlayer_online in Hx as [Hx _]. case_match; [by apply thrifty_refl|].
  destruct (open_mail now id x) as [m|] eqn:Hm; [|done]. destruct (open_linked now id s p x m Hok Hx Hm) as (_ & Hin & Hid).
  case_match; [done|]. destruct (ModifyMoney (s64 (money m)) x).1 eqn:Hadd; [|apply H0]. cbn [negb].
  destruct (take_money_ok (players s) (mail s) (mailId s) p id x m) as (A & B & C); [apply Hok|done|done|done|done|].
  match goal with |- thrifty 0 s (SaveMail p ?t) => set (s1 := t) end.
  assert (Hload : m_mailsLoaded x = true).
  { destruct (m_mailsLoaded x) eqn:Hl; [done|]. rewrite (proj1 (proj2 Hok p x Hx) Hl) in Hin. by apply elem_of_nil in Hin. }
  pose proof (ModifyMoney_mails (s64 (money m)) x) as (E1 & E2 & E3).
  destruct (SaveMail_ok p s1 (alter zero_row id (mail s)) (take_money id (money m) x)) as (Ok2 & W2 & _ & N2); [done| | |by cbn; rewrite E2|done|].
  - apply flags_player; [apply Hok|]. intros y [F1 F2]. pose proof (ModifyMoney_mails (s64 (money m)) y) as (G1 & G2 & G3).
    split; cbn; rewrite G2, ?G1, ?G3; [|done]. intros Hl. apply update_mail_nil. by apply F1.
  - cbn. by rewrite lookup_alter_eq, Hx.
  - change (mailId s1) with (mailId s) in N2. split_and!; [done| |lia|lia].
    change (purses s1) with (map_sum p_money (alter (take_money id (money m)) p (players s))) in W2.
    change (wealth s) with (map_sum p_money (players s) + map_sum r_money (mail s)). lia.
Qed.

(** ** The other requests *)

Lemma GetMailList_thrifty now p mailbox s : post_ok s -> thrifty 0 s (HandleGetMailList now p mailbox s).
Proof.
  intros Hok. unfold HandleGetMailList. destruct (FindPlayer s p) as [x|] eqn:Hx; [|by apply thrifty_refl]. case_match; [by apply thrifty_refl|].
  pose proof (OpenMailbox_thrifty p s x Hok Hx) as Ho. apply (thrifty_trans 0 0 _ (OpenMailbox p s)); [done|]. apply thrifty_quiet; [|apply Ho].
  intros y. unfold UpdateNextMailTimeAndUnreads. by destruct (foldl _ _ _).
Qed.
Lemma QueryNext_thrifty now p s x : post_ok s -> FindPlayer s p = Some x -> thrifty 0 s (HandleQueryNextMailTime now p s).2.
Proof.
  intros Hok Hx. unfold HandleQueryNextMailTime. pose proof (OpenMailbox_thrifty p s x Hok Hx). by case_match.
Qed.
Lemma CreateTextItem_thrifty now p mailbox id s : post_ok s -> thrifty 0 s (HandleMailCreateTextItem now p mailbox id s).
Proof.
  intros Hok. unfold HandleMailCreateTextItem. assert (H0 : forall e, thrifty 0 s (emit e s)) by (intros; by apply emit_thrifty).
  destruct (FindPlayer s p) as [x|]; [|by apply thrifty_refl]. case_match; [by apply thrifty_refl|]. destruct (open_mail now id x) as [m|]; [|done].
  case_match; [done|]. set (s1 := set_itemId _ s). assert (Ok1 : post_ok s1) by done.
  destruct (if mailTemplateId m =? 0 then _ else _) as [t|]; [|by apply thrifty_same]. case_match; [by apply thrifty_same|].
  set (s2 := upd_player p _ s1). set (s3 := set_items _ s2).
  assert (T2 : thrifty 0 s1 s2) by (apply (thrifty_change id (fun m => set_state MAIL_STATE_CHANGED (set_checked (Z.lor (checked m) MAIL_CHECK_MASK_COPIED) m)) (set_m_mailsUpdated true)); [intros m'; cbn; auto|done|done]).
  pose proof (MoveItemToInventory_thrifty p (itemId s) s3 (proj1 T2)) as T3. split_and!; [apply T3| | |]; destruct T2 as (_ & W2 & N2), T3 as (_ & W3 & N3);
    change (mailId s3) with (mailId s2) in N3; change (wealth s3) with (wealth s2) in W3; change (wealth s1) with (wealth s) in W2; change (mailId s1) with (mailId s) in N2.
  - change (wealth (MoveItemToInventory p (itemId s) s3) <= wealth s). lia.
  - change (mailId s <= mailId (MoveItemToInventory p (itemId s) s3)). lia.
  - change (mailId (MoveItemToInventory p (itemId s) s3) <= mailId s + 0). lia.
Qed.

(** ** Expired mails *)

(** The rows still to be looked at are as they were selected. *)
Definition as_selected (s : Post) (l : list (Z * MailRow)) : Prop := NoDup l.*1 /\ Forall (fun e => mail s !! e.1 = Some e.2) l.
Lemma unloaded_unheld s id r : post_ok s -> mail s !! id = Some r ->
  match FindPlayer s (r_receiver r) with Some x => m_mailsLoaded x | None => false end = false -> unheld (players s) id.
Proof.
  intros [Hok Hfl] Hr Hl p x Hx. apply Forall_forall. intros m Hm Hid. pose proof (proj1 Hok p x Hx) as (_ & _ & Hlk). rewrite Forall_forall in Hlk.
  destruct (Hlk m Hm) as (_ & _ & r' & Hr' & Hp & _). rewrite Hid, Hr in Hr'. injection Hr' as <-. destruct (Hfl p x Hx) as [F1 F2].
  destruct (m_mailsLoaded x) eqn:Hload; [|rewrite F1 in Hm by done; by apply elem_of_nil in Hm].
  unfold FindPlayer in Hl. rewrite Hp, Hx, F2 in Hl by done. congruence.
Qed.
Lemma expired_one_ok now up s0 e s : post_ok s -> mail s !! e.1 = Some e.2 -> (up = false -> map_Forall (fun _ x => p_online x = false) (players s)) ->
  thrifty 0 s (expired_one now up s0 e s) /\ players (expired_one now up s0 e s) = players s /\ (forall k, k <> e.1 -> mail (expired_one now up s0 e s) !! k = mail s !! k).
Proof.
  destruct e as [id r]. cbn [fst snd]. intros Hok Hr Hup. unfold expired_one. set (b := match FindPlayer s _ with Some _ => _ | None => _ end).
  destruct b eqn:Hb; [split_and!; [by apply thrifty_refl|done|done]|].
  assert (Hu : unheld (players s) id).
  { apply (unloaded_unheld s id r); [done|done|]. subst b. destruct (FindPlayer s (r_receiver r)) as [x|] eqn:Hx; [|done]. destruct up; [done|].
    apply FindPlayer_online in Hx as [Hx Ho]. by rewrite (Hup eq_refl _ x Hx) in Ho. }
  pose proof Hok as [Hat Hfl]. pose proof (proj1 (proj2 Hat) id r Hr) as [Hm Hc]. pose proof (proj1 (proj2 (proj2 Hat)) id r Hr) as Hid.
  assert (Hdel : forall t, same s t -> thrifty 0 s (DEL_MAIL_BY_ID id t) /\ players (DEL_MAIL_BY_ID id t) = players s /\ forall k, k <> id -> mail (DEL_MAIL_BY_ID id t) !! k = mail s !! k).
  { intros t (P & M & N). split_and!; [split; [|split]|by cbn|intros k Hk; cbn; by rewrite M, lookup_delete_ne].
    - unfold post_ok. cbn. rewrite P, M, N. split; [|done]. apply (ok_unheld _ (mail s) _ _ id); [done|done|intros k Hk; by apply lookup_delete_ne|by rewrite lookup_delete_eq].
    - unfold wealth, purses, posted. cbn. rewrite P, M, (map_sum_delete r_money (mail s) id r Hr). lia.
    - cbn. lia. }
  destruct (r_has_items r); [|by apply Hdel]. case_match; [apply Hdel; by apply foreach_same|].
  set (g := returned_row (r_receiver r) (r_sender r) (now + 30 * DAY) now MAIL_CHECK_MASK_RETURNED). set (s1 := UPD_MAIL_RETURNED _ _ _ _ _ _ s).
  match goal with |- thrifty 0 s (foreach ?f ?l s1) /\ _ => destruct (foreach_same f l s1) as (P & M & N); [done|] end.
  assert (Hk : forall k, k <> id -> alter g id (mail s) !! k = mail s !! k) by (intros k Hk; by rewrite lookup_alter_ne).
  split_and!; [split; [|split]|by rewrite P|intros k Hk'; rewrite M; by apply Hk].
  - unfold post_ok. rewrite P, M, N. cbn. split; [|done]. apply (ok_unheld _ (mail s) _ _ id); [done|done|done|].
    intros r'. rewrite lookup_alter_eq, Hr. intros [= <-]. split; [split; cbn; lia|done].
  - unfold wealth, purses, posted. rewrite P, M. cbn. by rewrite map_sum_alter_same.
  - rewrite N. cbn. lia.
Qed.
Lemma expired_all_ok now up s0 l s : post_ok s -> as_selected s l -> (up = false -> map_Forall (fun _ x => p_online x = false) (players s)) ->
  thrifty 0 s (foreach (expired_one now up s0) l s).
Proof.
  unfold foreach. revert s. induction l as [|e l IH]; intros s Hok [Hnd Hsel] Hup; [by apply thrifty_refl|]. cbn.
  apply NoDup_cons in Hnd as [He Hnd]. apply Forall_cons in Hsel as [Hsel1 Hsel].
  destruct (expired_one_ok now up s0 e s Hok Hsel1 Hup) as (T & P & K). apply (thrifty_trans 0 0 _ (expired_one now up s0 e s)); [done|].
  apply IH; [apply T| |by rewrite P]. split; [done|]. apply Forall_forall. intros e' Hin. rewrite K; [rewrite Forall_forall in Hsel; by apply Hsel|].
  intros Heq. apply He. rewrite <- Heq. apply list_elem_of_fmap. by exists e'.
Qed.
Lemma OldMails_thrifty now up s : post_ok s -> (up = false -> map_Forall (fun _ x => p_online x = false) (players s)) ->
  thrifty 0 s (ReturnOrDeleteOldMails now up s).
Proof.
  intros Hok Hup. unfold ReturnOrDeleteOldMails. set (s1 := if up then s else _).
  assert (T1 : thrifty 0 s s1 /\ players s1 = players s).
  { unfold s1. destruct up; [split; [by apply thrifty_refl|done]|]. destruct Hok as [(Hp & Hr & Hi & Hn) Hfl]. split; [|done]. split_and!; try (cbn; lia).
    - split; [|done]. cbn. split_and!; try done; try lia.
      + intros p x Hx. pose proof (Hp p x Hx) as (A & B & C). destruct (Hfl p x Hx) as [F1 F2]. split_and!; try apply A; [done|].
        rewrite F1; [by constructor|]. destruct (m_mailsLoaded x) eqn:Hl; [|done]. by rewrite (Hup eq_refl p x Hx) in F2; specialize (F2 eq_refl).
      + intros k r [Hk _]%map_lookup_filter_Some. by apply (Hr k).
      + intros k r [Hk _]%map_lookup_filter_Some. by apply (Hi k r).
    - unfold wealth, posted. cbn. unfold purses. cbn. assert (map_sum r_money (filter (fun e : Z * MailRow => negb ((r_expire_time e.2 <? now) && negb (r_has_items e.2) && bool_decide (r_body e.2 = []))) (mail s)) <= map_sum r_money (mail s)); [|lia].
      apply map_sum_mono; [intros k r Hk; apply (Hr k r Hk)|]. intros k r [Hk _]%map_lookup_filter_Some. exists r. split; [done|lia]. }
  destruct T1 as [T1 P1]. apply (thrifty_trans 0 0 _ s1); [done|]. apply expired_all_ok; [apply T1| |by rewrite P1].
  unfold SEL_EXPIRED_MAIL. split.
  - eapply sublist_NoDup; [apply (NoDup_map_ordered (mail s1))|]. generalize (map_ordered (mail s1)). intros l. induction l as [|e l IH]; [done|]. cbn. case_match; cbn; [by apply sublist_skip|by apply sublist_cons].
  - apply Forall_forall. intros [k r] Hin. apply list_elem_of_In, filter_In in Hin as [Hin _]. by apply list_elem_of_In, elem_of_map_ordered in Hin.
Qed.
End Operations.
