(* ===== verification/MailRuns.v ===== *)
(** * The mail at work

    Sequences of requests, logins and clean-ups; what becomes of the money in
    one mail; and runs on a concrete server that lose it or make it. *)
From S2P Require Import Prelude.
From S2P Require Import Lists.
From S2P Require Import Util.
From S2P Require Import Mail.
From S2P Require Import MailMoney.
Local Open Scope Z_scope.

Inductive mail_op :=
| OpLogin (p : Z)
| OpLogout (p : Z)
| OpUpdate (p : Z)
| OpSend (p : Z) (q : SendMailRequest)
| OpMarkAsRead (p mailbox id : Z)
| OpDelete (p id : Z)
| OpReturn (p mailbox id : Z)
| OpTakeItem (p mailbox id low : Z)
| OpTakeMoney (p mailbox id amount : Z)
| OpGetMailList (p mailbox : Z)
| OpCreateTextItem (p mailbox id : Z)
| OpQueryNextMailTime (p : Z)
| OpOldMails (serverUp : bool).

Section Runs.
Context `{MailWorld}.

Definition run_op (now : Z) (o : mail_op) (s : Post) : Post :=
  match o with
  | OpLogin p => Login now p s
  | OpLogout p => Logout p s
  | OpUpdate p => UpdateMail now p s
  | OpSend p q => HandleSendMail now p q s
  | OpMarkAsRead p mailbox id => HandleMailMarkAsRead p mailbox id s
  | OpDelete p id => HandleMailDelete p id s
  | OpReturn p mailbox id => HandleMailReturnToSender now p mailbox id s
  | OpTakeItem p mailbox id low => HandleMailTakeItem now p mailbox id low s
  | OpTakeMoney p mailbox id amount => HandleMailTakeMoney now p mailbox id amount s
  | OpGetMailList p mailbox => HandleGetMailList now p mailbox s
  | OpCreateTextItem p mailbox id => HandleMailCreateTextItem now p mailbox id s
  | OpQueryNextMailTime p => (HandleQueryNextMailTime now p s).2
  | OpOldMails up => ReturnOrDeleteOldMails now up s
  end.
Fixpoint run_mail (l : list (Z * mail_op)) (s : Post) : Post :=
  match l with [] => s | (now, o) :: l => run_mail l (run_op now o s) end.

(** What the theorems ask of an operation: ids are left; a mail's postage and
    money fit 32 bits and its COD 31, and its sender is no game master, who
    may send money he has not got; the clean-up at the start runs when nobody
    is online. *)
Definition honest (o : mail_op) (s : Post) : Prop :=
  ids_left s /\
  match o with
  | OpSend p q => honest_send q /\ (forall x, FindPlayer s p = Some x -> p_gm x = false)
  | OpQueryNextMailTime p => exists x, FindPlayer s p = Some x
  | OpOldMails false => map_Forall (fun _ x => p_online x = false) (players s)
  | _ => True
  end.
Fixpoint honest_run (l : list (Z * mail_op)) (s : Post) : Prop :=
  match l with [] => True | (now, o) :: l => honest o s /\ honest_run l (run_op now o s) end.

Lemma run_op_thrifty now o s : post_ok s -> honest o s -> thrifty 1 s (run_op now o s).
Proof.
  intros Hok [Hid Ho]. assert (H0 : forall s', thrifty 0 s s' -> thrifty 1 s s') by (intros s' Hs; by eapply thrifty_weaken; [exact Hs|]).
  destruct o as [p|p|p|p q|p mailbox id|p id|p mailbox id|p mailbox id low|p mailbox id amount|p mailbox|p mailbox id|p|up]; cbn [run_op].
  - by apply H0, Login_thrifty.
  - by apply H0, Logout_thrifty.
  - by apply H0, UpdateMail_thrifty.
  - apply HandleSendMail_thrifty; by try apply Ho.
  - by apply H0, MarkAsRead_thrifty.
  - by apply H0, Delete_thrifty.
  - by apply Return_thrifty.
  - by apply TakeItem_thrifty.
  - by apply H0, TakeMoney_thrifty.
  - by apply H0, GetMailList_thrifty.
  - by apply H0, CreateTextItem_thrifty.
  - destruct Ho as [x Hx]. apply H0. by eapply QueryNext_thrifty.
  - apply H0, OldMails_thrifty; [done|]. by intros ->.
Qed.


(** ** The money in a mail *)

(** Once sent and opened, the mail is there with its money. *)
Lemma sent_mail_opened now d rcv sd chk delay s y : post_ok s -> ids_left s -> 0 <= m_money d < 2 ^ 32 -> 0 <= m_COD d < 2 ^ 31 ->
  players s !! rcv = Some y -> p_online y = true ->
  exists z m, players (OpenMailbox rcv (SendMailTo now d rcv sd chk delay s)) !! rcv = Some z /\ p_money z = p_money y /\ p_online z = true /\
    GetMail (mailId s) z = Some m /\ money m = m_money d /\ deliver_time m = now + delay /\ state m = MAIL_STATE_UNCHANGED /\ m_mailsLoaded z = true.
Proof.
  intros Hok Hid Hm Hc Hy Ho. pose proof (SendMailTo_ok now d rcv sd chk delay s Hok Hid Hm Hc) as (Ok1 & _ & U1 & _).
  destruct (purse_of_Some _ _ _ _ U1 Hy) as (y1 & Hy1 & Hym). set (s1 := SendMailTo now d rcv sd chk delay s) in *.
  assert (Hs : p_online y1 = true /\ m_mailsLoaded y1 = m_mailsLoaded y /\
    (exists r, mail s1 !! mailId s = Some r /\ r_receiver r = rcv /\ r_money r = m_money d /\ r_deliver_time r = now + delay) /\
    (m_mailsLoaded y = true -> exists m, GetMail (mailId s) y1 = Some m /\ money m = m_money d /\ deliver_time m = now + delay /\ state m = MAIL_STATE_UNCHANGED)).
  { pose proof Hok as [(_ & _ & Hi & Hn) _]. assert (Hfresh : mail s !! mailId s = None) by (apply eq_None_not_Some; intros [r Hr]; specialize (Hi _ _ Hr); lia).
    unfold s1 in *. clear s1 Ok1 U1. unfold SendMailTo in *. rewrite GenerateMailID_left in * by (done || apply Hn). cbv zeta in *.
    match type of Hy1 with context [foreach (fun low => INS_MAIL_ITEM ?i low ?q) ?l ?t] => set (t2 := t) in *;
      destruct (foreach_same (fun low => INS_MAIL_ITEM i low q) l t2 (fun a u => INS_MAIL_ITEM_same _ _ _ _)) as (P3 & M3 & _);
      set (t3 := foreach (fun low => INS_MAIL_ITEM i low q) l t2) in * end.
    assert (P2 : players t2 = players s) by (unfold t2, INS_MAIL; cbn; by rewrite Hfresh).
    assert (M2 : mail t3 !! mailId s = Some (draft_row rcv (now + delay) (now + delay + expire_delay (set_mailId (mailId s + 1) s) sd d) chk sd d)).
    { rewrite M3. unfold t2, INS_MAIL. cbn. rewrite Hfresh. cbn. apply lookup_insert_eq. }
    assert (F3 : FindPlayer t3 rcv = Some y) by (unfold FindPlayer; by rewrite P3, P2, Hy, Ho). rewrite F3 in *.
    assert (Hrow : r_money (draft_row rcv (now + delay) (now + delay + expire_delay (set_mailId (mailId s + 1) s) sd d) chk sd d) = m_money d) by (cbn; rewrite u32_small by (unfold is_u32; lia); done).
    destruct (deliver_step now rcv (now + delay) t3) as (g & Hg & Pd & Md).
    destruct (Hg y) as (G1 & G2 & G3 & G4).
    destruct (m_mailsLoaded y) eqn:Hl.
    - cbn in Hy1. rewrite Pd, P3, P2, !lookup_alter_eq, Hy in Hy1. cbn in Hy1. injection Hy1 as Hy1.
      set (m := draft_mail _ _ _ _ _ _ _ _) in Hy1. assert (Hq : quiet (fun z => foldl (fun z low => AddMItem low z) z (set_ordered (d_items d)))) by (apply quiet_foldl; done).
      destruct (Hq (AddMail m (g y))) as (Q1 & Q2 & Q3 & Q4). rewrite Hy1 in Q1, Q2, Q3, Q4. cbn in Q1, Q2, Q3, Q4.
      split_and!; [congruence|congruence|eexists; split; [cbn; rewrite Md; exact M2|done]|]. intros _. exists m. unfold GetMail. rewrite Q1. cbn. rewrite Z.eqb_refl. done.
    - rewrite Pd, P3, P2, lookup_alter_eq, Hy in Hy1. injection Hy1 as Hy1. subst y1. split_and!; [congruence|congruence|eexists; split; [rewrite Md; exact M2|done]|done]. }
  destruct Hs as (Ho1 & Hl1 & (r & Hr & Hrcv & Hrm & Hrd) & Hload). unfold OpenMailbox. rewrite Hy1, Hl1. destruct (m_mailsLoaded y) eqn:Hl.
  - destruct (Hload eq_refl) as (m & Hg & Hmm & Hmd & Hms). exists y1, m. split_and!; try done; congruence.
  - unfold LoadMail. set (s2 := upd_player rcv (set_p_mail []) s1). destruct (SEL_MAIL_spec rcv s2) as [Hnd Hrows]. set (L := SEL_MAIL rcv s2) in *.
    destruct (load_rows_effect rcv L s2) as (h & ms & P & M & N & Hids & Hlk & HF & Hh).
    { eapply Forall_impl; [exact Hrows|]. intros [id r'] [H1 H2]. split; [done|]. split; [done|]. exact (proj1 (proj2 (proj1 Ok1)) id r' H1). }
    assert (HinL : (mailId s, r) ∈ L). { unfold L, SEL_MAIL. apply list_elem_of_In. rewrite <- in_rev. apply filter_In. split; [apply list_elem_of_In, elem_of_map_ordered; exact Hr|cbn; lia]. }
    apply list_elem_of_lookup in HinL as [i Hi]. destruct (Forall2_lookup_l _ _ _ _ _ HF Hi) as (m & Hmi & infos & ->).
    set (z := set_m_mailsLoaded true (h (set_p_mail [] y1))). destruct (Hh (set_p_mail [] y1)) as (E1 & E2 & E3 & E4).
    exists z, (row_mail (mailId s) r infos). split_and!; try done.
    + cbn. rewrite P. change (players s2) with (alter (set_p_mail []) rcv (players s1)). by rewrite !lookup_alter_eq, Hy1.
    + cbn. rewrite E2. done.
    + cbn. by rewrite E4.
    + unfold GetMail. cbn. rewrite E1. cbn. apply (find_unique ms (row_mail (mailId s) r infos)); [by rewrite Hids|]. by eapply list_elem_of_lookup_2.
Qed.
Lemma load_rows_online p s x z : players s !! p = Some x -> players (LoadMail p s) !! p = Some z -> p_online z = p_online x.
Proof.
  intros Hx. unfold LoadMail. set (s1 := upd_player p (set_p_mail []) s).
  assert (Hr : forall L t, exists h, players (foreach (load_row p) L t) = alter h p (players t) /\ forall y, p_online (h y) = p_online y).
  { unfold foreach. induction L as [|[id r] L IH]; intros t; [exists (fun y => y); by rewrite alter_id|]. cbn [foldl].
    assert (Hstep : exists g, players (load_row p (id, r) t) = alter g p (players t) /\ forall y, p_online (g y) = p_online y).
    { unfold load_row. cbn [fst snd]. destruct (r_has_items r); cbn; [|by eexists].
      destruct (load_items_effect p (SEL_MAILITEMS id t) t) as (g & Hg & P & _). rewrite P, alter_alter_eq. eexists. split; [done|]. intros y. apply (Hg y). }
    destruct Hstep as (g & Pg & Hg). destruct (IH (load_row p (id, r) t)) as (h & Ph & Hh). exists (h ∘ g).
    split; [by rewrite Ph, Pg, alter_alter_eq|]. intros y. cbn. by rewrite Hh, Hg. }
  destruct (Hr (SEL_MAIL p s1) s1) as (h & P & Hh). cbn. rewrite P. change (players s1) with (alter (set_p_mail []) p (players s)).
  rewrite !lookup_alter_eq, Hx. intros [= <-]. cbn. by rewrite Hh.
Qed.
Lemma SaveMail_purse p s x : players s !! p = Some x ->
  exists y, players (SaveMail p s) !! p = Some y /\ p_money y = p_money x.
Proof.
  intros Hx. unfold SaveMail. rewrite Hx. case_match; [|by exists x]. destruct (foreach_save (p_mail x) s) as (P & _).
  eexists. cbn. by rewrite P, lookup_alter_eq, Hx.
Qed.

(** The money put into a mail arrives: once the mail is delivered and the
    mailbox open, taking it adds exactly that money to the receiver's purse and
    leaves none in the mail, whether he had the mailbox open before or not. *)
Theorem mailed_money_arrives now later d rcv sd chk delay mailbox s y :
  post_ok s -> ids_left s -> 0 <= m_money d < 2 ^ 32 -> 0 <= m_COD d < 2 ^ 31 -> players s !! rcv = Some y -> p_online y = true ->
  now + delay <= later -> p_money y + m_money d < MAX_MONEY_AMOUNT -> CanUseMailbox rcv mailbox = true ->
  let s' := HandleMailTakeMoney later rcv mailbox (mailId s) 0 (OpenMailbox rcv (SendMailTo now d rcv sd chk delay s)) in
  (exists z, players s' !! rcv = Some z /\ p_money z = p_money y + m_money d) /\ wealth s' <= wealth s + m_money d.
Proof.
  intros Hok Hid Hm Hc Hy Ho Hlater Hmax Hbox s'.
  destruct (sent_mail_opened now d rcv sd chk delay s y Hok Hid Hm Hc Hy Ho) as (z & m & Hz & Hzm & Hzo & Hg & Hmm & Hmd & Hms & Hl).
  destruct (SendMailTo_ok now d rcv sd chk delay s Hok Hid Hm Hc) as (Ok1 & W1 & U1 & _).
  destruct (purse_of_Some _ _ _ _ U1 Hy) as (y1 & Hy1 & _). set (s1 := SendMailTo now d rcv sd chk delay s) in *.
  assert (T1 : thrifty 0 s1 (OpenMailbox rcv s1)).
  { unfold OpenMailbox in *. rewrite Hy1 in *. destruct (m_mailsLoaded y1) eqn:Hl1; [by apply thrifty_refl|]. eapply LoadMail_thrifty; [done|exact Hy1|].
    rewrite <- Hzo. symmetry. exact (load_rows_online _ _ _ _ Hy1 Hz). }
  set (s2 := OpenMailbox rcv s1) in *. split.
  - assert (Hopen : open_mail later (mailId s) z = Some m).
    { unfold open_mail. rewrite Hg, Hms, bool_decide_eq_false_2 by done. cbn [orb]. by replace (later <? deliver_time m) with false by lia. }
    unfold s', HandleMailTakeMoney, FindPlayer. rewrite Hz, Hzo, Hbox, Hopen. cbn [negb]. change (0 <? 0) with false. cbn [andb].
    pose proof (proj1 (proj1 Ok1)) as Hp1. assert (Hb : 0 <= p_money z) by (destruct (proj1 (proj1 (proj1 T1)) rcv z Hz) as [Hb _]; lia).
    assert (Hadd : ModifyMoney (s64 (money m)) z = (true, (ModifyMoney (s64 (money m)) z).2)).
    { destruct (ModifyMoney (s64 (money m)) z) as [b z'] eqn:Hmod. cbn. f_equal. revert Hmod. unfold ModifyMoney, MAX_MONEY_AMOUNT in *.
      replace (s64 (money m)) with (money m) by (unfold s64; rewrite Z.mod_small by lia; lia). case_match; [by intros [= <- _]|].
      replace (money m <? 0) with false by lia. rewrite (u64_small (_ - _)) by (unfold is_u64; lia). replace (p_money z <? _) with true by lia. by intros [= <- _]. }
    rewrite Hadd. cbn [fst negb].
    match goal with |- exists z, players (SaveMail rcv ?t) !! rcv = _ /\ _ => destruct (SaveMail_purse rcv t (take_money (mailId s) (money m) z)) as (w & Hw & Hwm) end.
    { cbn. by rewrite lookup_alter_eq, Hz. }
    exists w. split; [exact Hw|]. rewrite Hwm. cbn. destruct (ModifyMoney_add (money m) z) as [-> _]; [lia|unfold MAX_MONEY_AMOUNT in *; lia|by rewrite Hadd|lia].
  - pose proof (TakeMoney_thrifty later rcv mailbox (mailId s) 0 s2 (proj1 T1)) as (_ & W2 & _). destruct T1 as (_ & WT & _). unfold s'. lia.
Qed.
End Runs.

(** ** A concrete server *)

Definition town_template : ItemTemplate := mkTemplate 0 10 20 0 0 0 1 1 [65].
Definition town_world : MailWorld := {|
  GetItemTemplate := fun _ => Some town_template;
  CanBeTraded := fun _ _ _ => true;
  IsNotEmptyBag := fun _ => false;
  CanStoreItem := fun _ _ => EQUIP_ERR_OK;
  CanUseMailbox := fun _ _ => true;
  PlayerGUIDByName := fun n => match n with [65] => 1 | [66] => 2 | _ => 0 end;
  TwoSideMail := fun _ => false;
  GuildMail := fun _ _ => false;
  MailTemplateStore := fun _ => None;
  IsBattleMaster := fun _ => false;
  CONFIG_MAIL_LEVEL_REQ := 1;
  CONFIG_MAIL_DELIVERY_DELAY := 3600
|}.
#[local] Existing Instance town_world.
Definition townsman (account money : Z) (inventory : gset Z) : Player :=
  mkPlayer account 67 90 false true money inventory [] ∅ false false 0 0.
Definition town_item : Item := mkItem 9 5 1 0 0 0 0 0 0 0 [] [].
(** Two players online; player 1 has two items. *)
Definition town (money1 money2 : Z) : Post :=
  mkPost {[1 := townsman 11 money1 {[500; 501]}; 2 := townsman 12 money2 ∅]} {[500 := town_item; 501 := town_item]}
    {[500; 501]} ∅ ∅ 1 502 [].
Lemma town_ok m1 m2 : 0 <= m1 <= MAX_MONEY_AMOUNT -> 0 <= m2 <= MAX_MONEY_AMOUNT -> post_ok (town m1 m2).
Proof.
  intros H1 H2. split; [split_and!; try (cbn; lia)|].
  - intros p x Hx. cbn in Hx. apply lookup_insert_Some in Hx as [[_ <-]|[_ Hx]]; [|apply lookup_singleton_Some in Hx as [_ <-]];
      split_and!; cbn; try lia; constructor.
  - apply map_Forall_empty.
  - intros id r Hid. cbn in Hid. by rewrite lookup_empty in Hid.
  - intros p x Hx. cbn in Hx. apply lookup_insert_Some in Hx as [[_ <-]|[_ Hx]]; [|apply lookup_singleton_Some in Hx as [_ <-]]; done.
Qed.

Definition letter (money cod : Z) (lows : list Z) : SendMailRequest := mkSendMail 7 cod money [66] [1] [2] (item_guid64 <$> lows).

(** A letter with money and a parcel to pay for: sent, delivered, opened. *)
Definition market_day : list (Z * mail_op) :=
  [(1000, OpSend 1 (letter 250 0 [])); (1000, OpSend 1 (letter 0 40 [500])); (5000, OpGetMailList 2 7);
   (5000, OpTakeMoney 2 7 1 250); (5000, OpTakeItem 2 7 2 500); (5001, OpLogout 2); (5002, OpGetMailList 1 7);
   (5002, OpTakeMoney 1 7 3 0); (5003, OpOldMails true)].
Lemma mailed_money_arrives_witness :
  let d := AddMoney 777 (new_draft [1] [2]) in
  let s' := HandleMailTakeMoney 2000 2 7 1 0 (OpenMailbox 2 (SendMailTo 1000 d 2 (mkSender MAIL_AUCTION 7 MAIL_STATIONERY_AUCTION) 0 10 (town 5 6))) in
  (exists z, players s' !! 2 = Some z /\ p_money z = 6 + 777) /\ wealth s' <= wealth (town 5 6) + 777.
Proof.
  apply (mailed_money_arrives 1000 2000 (AddMoney 777 (new_draft [1] [2])) 2 (mkSender MAIL_AUCTION 7 MAIL_STATIONERY_AUCTION) 0 10 7 (town 5 6) (townsman 12 6 ∅));
    try reflexivity; try (unfold MAX_MONEY_AMOUNT; cbn; lia); apply town_ok; unfold MAX_MONEY_AMOUNT; lia.
Defined.

(** ** Where money is made *)

Definition purse (p : Z) (s : Post) : option Z := p_money <$> players s !! p.

(** The postage and the money of a mail are added in 64 bits without a
    check: who asks to send [2 ^ 64 - 20] copper pays ten, and the row of the
    mail keeps the low 32 bits, which the receiver takes. *)
Theorem overflow_makes_money :
  let s := run_mail [(1000, OpLogout 2); (1000, OpSend 1 (letter (2 ^ 64 - 20) 0 [])); (1001, OpLogin 2);
                     (1002, OpGetMailList 2 7); (1003, OpTakeMoney 2 7 1 0)] (town 1000 100) in
  purse 1 s = Some 990 /\ purse 2 s = Some (100 + 4294967276).
Proof. vm_compute. done. Qed.

(** [HandleMailTakeItem] does not ask whether the item is in the mail it is
    taken from: an item to be paid for is taken through another mail, free. *)
Theorem item_without_payment :
  let s := run_mail [(1000, OpSend 1 (letter 0 90 [500])); (1000, OpSend 1 (letter 0 0 [501])); (9000, OpGetMailList 2 7);
                     (9001, OpTakeItem 2 7 2 500)] (town 1000 100) in
  purse 2 s = Some 100 /\ (p_inventory <$> players s !! 2 = Some {[500]}) /\
  (GetItemByGuid (item_guid64 500) <$> players s !! 2) = Some (Some 500).
Proof. vm_compute. done. Qed.

(** The price of a parcel is taken with [ModifyMoney(-int32(COD))]: a price
    of [2 ^ 31] or more is negative, and who takes the parcel is paid, while
    the sender is sent the price. *)
Theorem huge_price_pays_buyer :
  let s := run_mail [(1000, OpSend 1 (letter 0 3000000000 [500])); (9000, OpGetMailList 2 7); (9001, OpTakeItem 2 7 1 500);
                     (9002, OpGetMailList 1 7); (9003, OpTakeMoney 1 7 2 0)] (town 1000 4000000000) in
  purse 1 s = Some (970 + 3000000000) /\ purse 2 s = Some (4000000000 + (2 ^ 32 - 3000000000)).
Proof. vm_compute. done. Qed.
