(* ===== verification/Float.v ===== *)
(** * Single precision

    The operations on [float] that auctions and reputations use, in the standard
    library's executable model, and the conversions between [float] and
    integers as the processors the server runs on make them. *)
From S2P Require Import Prelude.
From Stdlib Require Import SpecFloat.
Local Open Scope Z_scope.

Definition f32 : Type := spec_float.
Definition f32_of_Z (z : Z) : f32 := binary_normalize 24 128 z 0 false.
Definition f32_mul (x y : f32) : f32 := SFmul 24 128 x y.
Definition f32_div (x y : f32) : f32 := SFdiv 24 128 x y.
(** Truncation towards zero *)
Definition f32_trunc (x : f32) : option Z :=
  match x with
  | S754_zero _ => Some 0
  | S754_finite s m e =>
      let a := if 0 <=? e then Z.pos m * 2 ^ e else Z.pos m / 2 ^ (- e) in Some (if s then - a else a)
  | S754_infinity _ | S754_nan => None
  end.
(** [uint32(x)]: through a 64-bit conversion *)
Definition f32_to_u32 (x : f32) : Z :=
  match f32_trunc x with
  | Some z => if (- 2 ^ 63 <=? z) && (z <? 2 ^ 63) then u32 z else 0
  | None => 0
  end.
(** [int32(x)] *)
Definition f32_to_s32 (x : f32) : Z :=
  match f32_trunc x with
  | Some z => if (- 2 ^ 31 <=? z) && (z <? 2 ^ 31) then z else - 2 ^ 31
  | None => - 2 ^ 31
  end.
Definition f32_add (x y : f32) : f32 := SFadd 24 128 x y.
Definition f32_eqb (x y : f32) : bool := SFeqb x y.
(** [int32(floor(x))] *)
Definition f32_floor_s32 (x : f32) : Z :=
  match x with
  | S754_zero _ => 0
  | S754_finite s m e =>
      let n := if s then - Z.pos m else Z.pos m in
      let z := if 0 <=? e then n * 2 ^ e else n / 2 ^ (- e) in
      if (- 2 ^ 31 <=? z) && (z <? 2 ^ 31) then z else - 2 ^ 31
  | S754_infinity _ | S754_nan => - 2 ^ 31
  end.
