(* ===== verification/Auction.v ===== *)
(** * Auction houses

    game/AuctionHouse/AuctionHouseMgr.cpp and the requests of
    game/Handlers/AuctionHouseHandler.cpp that change something.  The three
    houses are maps of auctions by id; the state of the mail ([Post]) is part
    of theirs, since money and goods leave a house by mail.  [float] arithmetic
    is the standard library's executable model of IEEE 754, in single
    precision; a conversion out of the range of the integer type, which C++
    leaves undefined, is what the x86 instructions do. *)
From S2P Require Import Prelude.
From S2P Require Import Lists.
From S2P Require Import Util.
From S2P Require Import Mail.
From S2P Require Import Float.
From Stdlib Require Import SpecFloat.
Local Open Scope Z_scope.

(** [CalculatePct] on a uint32 and on a float *)
Definition CalculatePct (base pct : Z) : Z := f32_to_u32 (f32_div (f32_mul (f32_of_Z base) (f32_of_Z pct)) (f32_of_Z 100)).
Definition CalculatePctF (base : f32) (pct : Z) : f32 := f32_div (f32_mul base (f32_of_Z pct)) (f32_of_Z 100).

(** ** Data *)

Definition HOUR : Z := 60 * 60.
Definition MINUTE : Z := 60.
Definition MIN_AUCTION_TIME : Z := 12 * HOUR.
Definition MAX_AUCTION_ITEMS : Z := 32.
Definition AH_MINIMUM_DEPOSIT : Z := 100.
Definition FACTION_MASK_ALLIANCE : Z := 2.
Definition FACTION_MASK_HORDE : Z := 4.

Inductive AuctionError :=
| ERR_AUCTION_OK | ERR_AUCTION_DATABASE_ERROR | ERR_AUCTION_NOT_ENOUGHT_MONEY | ERR_AUCTION_ITEM_NOT_FOUND
| ERR_AUCTION_HIGHER_BID | ERR_AUCTION_BID_OWN.
Inductive AuctionAction := AUCTION_SELL_ITEM | AUCTION_CANCEL | AUCTION_PLACE_BID.
Inductive MailAuctionAnswers :=
| AUCTION_OUTBIDDED | AUCTION_WON | AUCTION_SUCCESSFUL | AUCTION_EXPIRED | AUCTION_CANCELLED_TO_BIDDER
| AUCTION_CANCELED | AUCTION_SALE_PENDING.
Definition answer_number (r : MailAuctionAnswers) : Z :=
  match r with
  | AUCTION_OUTBIDDED => 0 | AUCTION_WON => 1 | AUCTION_SUCCESSFUL => 2 | AUCTION_EXPIRED => 3
  | AUCTION_CANCELLED_TO_BIDDER => 4 | AUCTION_CANCELED => 5 | AUCTION_SALE_PENDING => 6
  end.

Record AuctionHouseEntry := mkHouseEntry {
  houseId : Z;
  faction : Z;
  depositPercent : Z;
  cutPercent : Z
}.

Record AuctionEntry := mkAuction {
  Id : Z;
  auctioneer : Z;
  itemGUIDLow : Z;
  itemEntry : Z;
  itemCount : Z;
  owner : Z;
  startbid : Z;
  bid : Z;
  buyout : Z;
  a_expire_time : Z;  (* expire_time *)
  bidder : Z;
  deposit : Z;
  auctionHouseEntry : AuctionHouseEntry;
  factionTemplateId : Z
}.
Definition set_bid (x : Z) (r : AuctionEntry) : AuctionEntry :=
  mkAuction (Id r) (auctioneer r) (itemGUIDLow r) (itemEntry r) (itemCount r) (owner r) (startbid r) x (buyout
    r) (a_expire_time r) (bidder r) (deposit r) (auctionHouseEntry r) (factionTemplateId r).
Definition set_bidder (x : Z) (r : AuctionEntry) : AuctionEntry :=
  mkAuction (Id r) (auctioneer r) (itemGUIDLow r) (itemEntry r) (itemCount r) (owner r) (startbid r) (bid r)
    (buyout r) (a_expire_time r) x (deposit r) (auctionHouseEntry r) (factionTemplateId r).

(** A row of the table auctionhouse; the key is the id. *)
Record AuctionRow := mkAuctionRow {
  ar_auctioneer : Z;
  ar_item : Z;
  ar_owner : Z;
  ar_buyout : Z;
  ar_time : Z;
  ar_bidder : Z;
  ar_bid : Z;
  ar_startbid : Z;
  ar_deposit : Z
}.

Inductive House := Horde | Alliance | Neutral.
#[export] Instance House_eq_dec : EqDecision House.
Proof. solve_decision. Defined.
Inductive AuctionEvent :=
| SendAuctionCommandResult (player id : Z) (action : AuctionAction) (error : AuctionError)
| SendAuctionBidderNotification (player house id newBidder price outbid entry : Z)
| SendAuctionOwnerNotification (player id entry bid : Z)
| SendAuctionRemovedNotification (player id entry randomProperty : Z)
| AuctionStopNow.

Record Auctions := mkAuctions {
  post : Post;  (* mail, players, items *)
  mAitems : gset Z;
  mHordeAuctions : gmap Z AuctionEntry;
  mAllianceAuctions : gmap Z AuctionEntry;
  mNeutralAuctions : gmap Z AuctionEntry;
  auctionhouse : gmap Z AuctionRow;
  auctionId : Z;  (* next id *)
  a_events : list AuctionEvent
}.
Definition set_post (x : Post) (r : Auctions) : Auctions :=
  mkAuctions x (mAitems r) (mHordeAuctions r) (mAllianceAuctions r) (mNeutralAuctions r) (auctionhouse r)
    (auctionId r) (a_events r).
Definition set_mAitems (x : gset Z) (r : Auctions) : Auctions :=
  mkAuctions (post r) x (mHordeAuctions r) (mAllianceAuctions r) (mNeutralAuctions r) (auctionhouse r)
    (auctionId r) (a_events r).
Definition set_mHordeAuctions (x : gmap Z AuctionEntry) (r : Auctions) : Auctions :=
  mkAuctions (post r) (mAitems r) x (mAllianceAuctions r) (mNeutralAuctions r) (auctionhouse r) (auctionId r)
    (a_events r).
Definition set_mAllianceAuctions (x : gmap Z AuctionEntry) (r : Auctions) : Auctions :=
  mkAuctions (post r) (mAitems r) (mHordeAuctions r) x (mNeutralAuctions r) (auctionhouse r) (auctionId r)
    (a_events r).
Definition set_mNeutralAuctions (x : gmap Z AuctionEntry) (r : Auctions) : Auctions :=
  mkAuctions (post r) (mAitems r) (mHordeAuctions r) (mAllianceAuctions r) x (auctionhouse r) (auctionId r)
    (a_events r).
Definition set_auctionhouse (x : gmap Z AuctionRow) (r : Auctions) : Auctions :=
  mkAuctions (post r) (mAitems r) (mHordeAuctions r) (mAllianceAuctions r) (mNeutralAuctions r) x (auctionId
    r) (a_events r).
Definition set_auctionId (x : Z) (r : Auctions) : Auctions :=
  mkAuctions (post r) (mAitems r) (mHordeAuctions r) (mAllianceAuctions r) (mNeutralAuctions r) (auctionhouse
    r) x (a_events r).
Definition set_a_events (x : list AuctionEvent) (r : Auctions) : Auctions :=
  mkAuctions (post r) (mAitems r) (mHordeAuctions r) (mAllianceAuctions r) (mNeutralAuctions r) (auctionhouse
    r) (auctionId r) x.

Class AuctionWorld := {
  auction_mail :: MailWorld;
  CONFIG_ALLOW_TWO_SIDE_INTERACTION_AUCTION : bool;
  RATE_AUCTION_TIME : f32;
  RATE_AUCTION_DEPOSIT : f32;
  RATE_AUCTION_CUT : f32;
  (* sFactionTemplateStore: ourMask *)
  FactionTemplateStore : Z -> option Z;
  AuctionHouseStore : Z -> option AuctionHouseEntry;
  (* GetNPCIfCanInteractWith(guid, UNIT_NPC_FLAG_AUCTIONEER): its faction *)
  AuctioneerFaction : Z -> Z -> option Z;
  (* GetCreatureData, GetCreatureTemplate: faction_A of an auctioneer by low guid *)
  CreatureFaction : Z -> option Z
}.

Section Auction.
Context `{AuctionWorld}.

Definition on_post (f : Post -> Post) (s : Auctions) : Auctions := set_post (f (post s)) s.
Definition notify (e : AuctionEvent) (s : Auctions) : Auctions := set_a_events (a_events s ++ [e]) s.

Definition house_map (h : House) (s : Auctions) : gmap Z AuctionEntry :=
  match h with Horde => mHordeAuctions s | Alliance => mAllianceAuctions s | Neutral => mNeutralAuctions s end.
Definition set_house (h : House) (m : gmap Z AuctionEntry) (s : Auctions) : Auctions :=
  match h with Horde => set_mHordeAuctions m s | Alliance => set_mAllianceAuctions m s | Neutral => set_mNeutralAuctions m s end.

(** [AuctionHouseMgr::GetAuctionsMap] *)
Definition GetAuctionsMap (factionTemplateId : Z) : House :=
  if CONFIG_ALLOW_TWO_SIDE_INTERACTION_AUCTION then Neutral
  else match FactionTemplateStore factionTemplateId with
  | None => Neutral
  | Some ourMask =>
      if has_flag ourMask FACTION_MASK_ALLIANCE then Alliance
      else if has_flag ourMask FACTION_MASK_HORDE then Horde else Neutral
  end.
(** [AuctionHouseMgr::GetAuctionHouseEntry] *)
Definition house_of_faction (factionTemplateId : Z) : Z :=
  if factionTemplateId =? 12 then 1 else if factionTemplateId =? 29 then 6 else if factionTemplateId =? 55 then 2
  else if factionTemplateId =? 68 then 4 else if factionTemplateId =? 80 then 3 else if factionTemplateId =? 104 then 5
  else if factionTemplateId =? 120 then 7 else if factionTemplateId =? 474 then 7 else if factionTemplateId =? 855 then 7
  else if factionTemplateId =? 1604 then 6
  else match FactionTemplateStore factionTemplateId with
  | None => 7
  | Some ourMask =>
      if has_flag ourMask FACTION_MASK_ALLIANCE then 1 else if has_flag ourMask FACTION_MASK_HORDE then 6 else 7
  end.
Definition GetAuctionHouseEntry (factionTemplateId : Z) : option AuctionHouseEntry :=
  AuctionHouseStore (if CONFIG_ALLOW_TWO_SIDE_INTERACTION_AUCTION then 7 else house_of_faction factionTemplateId).

Definition GetAItem (low : Z) (s : Auctions) : option Z := if bool_decide (low ∈ mAitems s) then Some low else None.
Definition AddAItem (low : Z) (s : Auctions) : Auctions := set_mAitems (mAitems s ∪ {[low]}) s.
Definition RemoveAItem (low : Z) (s : Auctions) : Auctions := set_mAitems (mAitems s ∖ {[low]}) s.
Definition GetAuction (h : House) (id : Z) (s : Auctions) : option AuctionEntry := house_map h s !! id.
Definition AddAuction (h : House) (e : AuctionEntry) (s : Auctions) : Auctions := set_house h (<[Id e := e]> (house_map h s)) s.
Definition RemoveAuction (h : House) (e : AuctionEntry) (s : Auctions) : Auctions := set_house h (delete (Id e) (house_map h s)) s.

Definition GetAuctionDeposit (entry : AuctionHouseEntry) (time : Z) (it : Item) (count : Z) : Z :=
  let MSV := t_SellPrice (GetTemplate it) in
  if MSV <=? 0 then AH_MINIMUM_DEPOSIT
  else
    let multiplier := CalculatePctF (f32_of_Z (depositPercent entry)) 3 in
    let timeHr := time / 60 / 60 / 12 in
    let d := f32_to_u32 (f32_mul (f32_mul (f32_mul (f32_div (f32_mul (f32_mul multiplier (f32_of_Z MSV)) (f32_of_Z count)) (f32_of_Z 3))
      (f32_of_Z timeHr)) (f32_of_Z 3)) RATE_AUCTION_DEPOSIT) in
    if d <? AH_MINIMUM_DEPOSIT then AH_MINIMUM_DEPOSIT else d.
Definition GetAuctionCut (e : AuctionEntry) : Z :=
  let cut := f32_to_s32 (f32_mul (f32_of_Z (CalculatePct (bid e) (cutPercent (auctionHouseEntry e)))) RATE_AUCTION_CUT) in
  Z.max cut 0.
Definition GetAuctionOutBid (e : AuctionEntry) : Z :=
  let outbid := CalculatePct (bid e) 5 in
  if outbid =? 0 then 1 else outbid.

(** ** The table *)

Definition INS_AUCTION (e : AuctionEntry) (s : Auctions) : Auctions :=
  match auctionhouse s !! Id e with
  | None => set_auctionhouse (<[Id e := mkAuctionRow (auctioneer e) (itemGUIDLow e) (owner e) (buyout e) (u32 (a_expire_time e))
      (bidder e) (bid e) (startbid e) (deposit e)]> (auctionhouse s)) s
  | Some _ => s
  end.
Definition DEL_AUCTION (id : Z) (s : Auctions) : Auctions := set_auctionhouse (delete id (auctionhouse s)) s.
Definition UPD_AUCTION_BID (id newBidder newBid : Z) (s : Auctions) : Auctions :=
  set_auctionhouse (alter (fun r => mkAuctionRow (ar_auctioneer r) (ar_item r) (ar_owner r) (ar_buyout r) (ar_time r) newBidder newBid
    (ar_startbid r) (ar_deposit r)) id (auctionhouse s)) s.

(** ** Mails *)

Definition COLON : Z := 58.
Definition BuildAuctionMailSubject (e : AuctionEntry) (r : MailAuctionAnswers) : text :=
  decimal (itemEntry e) ++ [COLON; 48; COLON] ++ decimal (answer_number r) ++ [COLON] ++ decimal (Id e) ++ [COLON] ++ decimal (itemCount e).
Definition hex_digit (d : Z) : Z := if d <? 10 then 48 + d else 87 + d.
Fixpoint hex_loop (fuel : nat) (z : Z) (acc : text) : text :=
  match fuel with
  | O => acc
  | S fuel => let acc := hex_digit (z `mod` 16) :: acc in if z / 16 =? 0 then acc else hex_loop fuel (z / 16) acc
  end.
(** [strm.width(16); strm << std::right << std::hex << guid] *)
Definition hex16 (z : Z) : text := let t := hex_loop 16 z [] in repeat SPACE (16 - length t) ++ t.
Definition BuildAuctionMailBody (lowGuid bid buyout deposit cut : Z) : text :=
  hex16 lowGuid ++ [COLON] ++ decimal bid ++ [COLON] ++ decimal buyout ++ [COLON] ++ decimal deposit ++ [COLON] ++ decimal cut.

(** [MailSender(AuctionEntry* sender)] *)
Definition auction_sender (e : AuctionEntry) : MailSender := mkSender MAIL_AUCTION (houseId (auctionHouseEntry e)) MAIL_STATIONERY_AUCTION.
Definition auction_draft (e : AuctionEntry) (r : MailAuctionAnswers) (b : text) : MailDraft := new_draft (BuildAuctionMailSubject e r) b.
Definition send_to (now rcv : Z) (e : AuctionEntry) (delay : Z) (d : MailDraft) (s : Auctions) : Auctions :=
  on_post (SendMailTo now d rcv (auction_sender e) MAIL_CHECK_MASK_COPIED delay) s.
Definition online (p : Z) (s : Auctions) : bool := match FindPlayer (post s) p with Some _ => true | None => false end.
Definition when (b : bool) (f : Auctions -> Auctions) (s : Auctions) : Auctions := if b then f s else s.

Definition SendAuctionWonMail (now : Z) (e : AuctionEntry) (s : Auctions) : Auctions :=
  match GetAItem (itemGUIDLow e) s with
  | None => s
  | Some low =>
      if known (post s) (bidder e) then
        let s := on_post (UPD_ITEM_OWNER (bidder e) low) s in
        let s := when (online (bidder e) s)
          (notify (SendAuctionBidderNotification (bidder e) (houseId (auctionHouseEntry e)) (Id e) (bidder e) 0 0 (itemEntry e))) s in
        send_to now (bidder e) e 0
          (draft_AddItem low (auction_draft e AUCTION_WON (BuildAuctionMailBody (owner e) (bid e) (buyout e) 0 0))) s
      else s
  end.
Definition SendAuctionSalePendingMail (now : Z) (e : AuctionEntry) (s : Auctions) : Auctions :=
  if known (post s) (owner e) then
    send_to now (owner e) e 0
      (auction_draft e AUCTION_SALE_PENDING (BuildAuctionMailBody (bidder e) (bid e) (buyout e) (deposit e) (GetAuctionCut e))) s
  else s.
Definition profit (e : AuctionEntry) : Z := u32 (bid e + deposit e - GetAuctionCut e).
Definition SendAuctionSuccessfulMail (now : Z) (e : AuctionEntry) (s : Auctions) : Auctions :=
  if known (post s) (owner e) then
    let s := when (online (owner e) s) (notify (SendAuctionOwnerNotification (owner e) (Id e) (itemEntry e) (bid e))) s in
    send_to now (owner e) e CONFIG_MAIL_DELIVERY_DELAY
      (AddMoney (profit e) (auction_draft e AUCTION_SUCCESSFUL (BuildAuctionMailBody (bidder e) (bid e) (buyout e) (deposit e) (GetAuctionCut e)))) s
  else s.
Definition SendAuctionExpiredMail (now : Z) (e : AuctionEntry) (s : Auctions) : Auctions :=
  match GetAItem (itemGUIDLow e) s with
  | None => s
  | Some low =>
      if known (post s) (owner e) then
        let s := when (online (owner e) s) (notify (SendAuctionOwnerNotification (owner e) (Id e) (itemEntry e) (bid e))) s in
        send_to now (owner e) e 0 (draft_AddItem low (auction_draft e AUCTION_EXPIRED (BuildAuctionMailBody 0 0 (buyout e) (deposit e) 0))) s
      else s
  end.
Definition SendAuctionOutbiddedMail (now : Z) (e : AuctionEntry) (newPrice newBidder : Z) (s : Auctions) : Auctions :=
  if known (post s) (bidder e) then
    let s := when (online (bidder e) s) (notify (SendAuctionBidderNotification (bidder e) (houseId (auctionHouseEntry e)) (Id e) newBidder
      (u32 newPrice) (GetAuctionOutBid e) (itemEntry e))) s in
    send_to now (bidder e) e 0
      (AddMoney (bid e) (auction_draft e AUCTION_OUTBIDDED (BuildAuctionMailBody (owner e) (bid e) (buyout e) (deposit e) (GetAuctionCut e)))) s
  else s.
Definition SendAuctionCancelledToBidderMail (now : Z) (e : AuctionEntry) (low : Z) (s : Auctions) : Auctions :=
  let s := when (online (bidder e) s) (notify (SendAuctionRemovedNotification (bidder e) (Id e) (itemEntry e)
    (i_randomProperty (item_of (post s) low)))) s in
  if known (post s) (bidder e) then
    send_to now (bidder e) e 0
      (AddMoney (bid e) (auction_draft e AUCTION_CANCELLED_TO_BIDDER (BuildAuctionMailBody (owner e) (bid e) (buyout e) (deposit e) 0))) s
  else s.

(** ** Selling *)

Record SellRequest := mkSell { s_auctioneer : Z; s_bid : Z; s_buyout : Z; s_etime : Z; s_items : list (Z * Z) }.

(** [ObjectMgr::GenerateAuctionID] *)
Definition GenerateAuctionID (s : Auctions) : Z * Auctions :=
  let s := if 4294967294 <=? auctionId s then notify AuctionStopNow s else s in
  (auctionId s, set_auctionId (u32 (auctionId s + 1)) s).
Definition GUID_LOPART (guid : Z) : Z := u32 guid.

(** The items of a sale, and the sum of their counts *)
Fixpoint sale_items (s : Auctions) (x : Player) (l : list (Z * Z)) (finalCount : Z) : AuctionError + (list (Z * Z) * Z) :=
  match l with
  | [] => inr ([], finalCount)
  | (guid, count) :: l =>
      match GetItemByGuid guid x with
      | None => inl ERR_AUCTION_ITEM_NOT_FOUND
      | Some low =>
          let it := item_of (post s) low in
          if bool_decide (low ∈ mAitems s) || negb (CanBeTraded low it false) || IsNotEmptyBag low ||
             has_flag (t_Flags (GetTemplate it)) ITEM_PROTO_FLAG_CONJURED || negb (i_expiration it =? 0) || (i_count it <? count)
          then inl ERR_AUCTION_DATABASE_ERROR
          else match sale_items s x l (u32 (finalCount + count)) with
          | inl e => inl e
          | inr (lows, total) => inr ((low, count) :: lows, total)
          end
      end
  end.

(** [Item::CloneItem]: a new stack, with the creators, flags and random
    property of the item; the count is cut at the size of a stack *)
Definition CloneItem (low count p : Z) (s : Post) : Z * Post :=
  let it := item_of s low in
  let max := GetMaxStackSize (GetTemplate it) in
  let new := mkItem (i_entry it) (if max <? count then max else count) p (i_creator it) (i_giftCreator it)
    (Z.ldiff (i_dynFlags it) (Z.lor ITEM_FLAG_REFUNDABLE ITEM_FLAG_BOP_TRADEABLE)) (i_expiration it) (i_randomProperty it)
    (i_suffixFactor it) 0 [] [] in
  (itemId s, set_itemId (u32 (itemId s + 1)) (set_items (<[itemId s := new]> (items s)) s)).
(** What a sale takes from a stack that is sold as part of a new one *)
Definition take_from (p : Z) (e : Z * Z) (s : Post) : Post :=
  let '(low, count) := e in
  if i_count (item_of s low) =? count then
    DEL_ITEM_INSTANCE low (upd_player p (MoveItemFromInventory low) s)
  else set_items (alter (fun it => set_i_count (u32 (i_count it - count)) it) low (items s)) s.

(** The auction of a sale; [factionTemplateId] is not set by the handler. *)
Definition new_auction (now p : Z) (q : SellRequest) (entry : AuctionHouseEntry) (id low dep auctionTime : Z) (s : Auctions) : AuctionEntry :=
  let it := item_of (post s) low in
  mkAuction id (if CONFIG_ALLOW_TWO_SIDE_INTERACTION_AUCTION then 23442 else GUID_LOPART (s_auctioneer q)) low (i_entry it) (i_count it) p
    (u32 (s_bid q)) 0 (u32 (s_buyout q)) (now + auctionTime) 0 dep entry 0.
Definition sell (now p : Z) (q : SellRequest) (entry : AuctionHouseEntry) (h : House) (items : list (Z * Z)) (low0 finalCount dep auctionTime : Z)
    (s : Auctions) : Auctions :=
  let whole := match items with [(low, count)] => i_count (item_of (post s) low) =? count | _ => false end in
  let s :=
    if whole then
      let '(id, s) := GenerateAuctionID s in
      let e := new_auction now p q entry id low0 dep auctionTime s in
      let s := AddAuction h e (AddAItem low0 s) in
      notify (SendAuctionCommandResult p id AUCTION_SELL_ITEM ERR_AUCTION_OK)
        (INS_AUCTION e (on_post (fun t => SaveItem low0 (upd_player p (MoveItemFromInventory low0) t)) s))
    else
      let '(new, t) := CloneItem low0 finalCount p (post s) in
      let '(id, s) := GenerateAuctionID (set_post t s) in
      let e := new_auction now p q entry id new dep auctionTime s in
      let s := AddAuction h e (AddAItem new s) in
      let s := on_post (foreach (take_from p) items) s in
      notify (SendAuctionCommandResult p id AUCTION_SELL_ITEM ERR_AUCTION_OK) (INS_AUCTION e (on_post (SaveItem new) s)) in
  on_post (upd_player p (Pay32 dep)) s.

(** [WorldSession::HandleAuctionSellItem] once the packet is read *)
Definition HandleAuctionSellItem (now p : Z) (q : SellRequest) (s : Auctions) : Auctions :=
  match FindPlayer (post s) p with
  | None => s
  | Some x =>
      let result err := notify (SendAuctionCommandResult p 0 AUCTION_SELL_ITEM err) s in
      if (s_bid q =? 0) || (s_etime q =? 0) then s
      else if (MAX_MONEY_AMOUNT <? s_bid q) || (MAX_MONEY_AMOUNT <? s_buyout q) then result ERR_AUCTION_DATABASE_ERROR
      else if existsb (fun e => (e.1 =? 0) || (e.2 =? 0) || (1000 <? e.2)) (s_items q) then s
      else match AuctioneerFaction p (s_auctioneer q) with
      | None => s
      | Some npc =>
          match GetAuctionHouseEntry npc with
          | None => s
          | Some entry =>
              let etime := u32 (s_etime q * MINUTE) in
              if negb ((etime =? 1 * MIN_AUCTION_TIME) || (etime =? 2 * MIN_AUCTION_TIME) || (etime =? 4 * MIN_AUCTION_TIME)) then s
              else match sale_items s x (s_items q) 0 with
              | inl err => result err
              | inr ([], _) => result ERR_AUCTION_DATABASE_ERROR
              | inr ((low0, count0) :: lows, finalCount) =>
                  let items := (low0, count0) :: lows in
                  if finalCount =? 0 then result ERR_AUCTION_DATABASE_ERROR
                  else if existsb (fun e => GetMaxStackSize (GetTemplate (item_of (post s) e.1)) <? finalCount) items then result ERR_AUCTION_DATABASE_ERROR
                  else
                    let auctionTime := f32_to_u32 (f32_mul (f32_of_Z etime) RATE_AUCTION_TIME) in
                    let dep := GetAuctionDeposit entry etime (item_of (post s) low0) finalCount in
                    if negb (HasEnoughMoney dep x) then result ERR_AUCTION_NOT_ENOUGHT_MONEY
                    else sell now p q entry (GetAuctionsMap npc) items low0 finalCount dep auctionTime s
              end
          end
      end
  end.

(** ** Bidding *)

Definition store_auction (h : House) (e : AuctionEntry) (s : Auctions) : Auctions := set_house h (<[Id e := e]> (house_map h s)) s.
Definition is_buyout (e : AuctionEntry) (price : Z) : bool := negb ((price <? buyout e) || (buyout e =? 0)).

Definition raise_bid (now p price : Z) (h : House) (e : AuctionEntry) (s : Auctions) : Auctions :=
  let s :=
    if 0 <? bidder e then
      if bidder e =? p then on_post (upd_player p (Pay (u64 (price - bid e)))) s
      else on_post (upd_player p (Pay price)) (SendAuctionOutbiddedMail now e price p s)
    else on_post (upd_player p (Pay price)) s in
  let e := set_bid (u32 price) (set_bidder p e) in
  notify (SendAuctionCommandResult p (Id e) AUCTION_PLACE_BID ERR_AUCTION_OK) (UPD_AUCTION_BID (Id e) (bidder e) (bid e) (store_auction h e s)).
Definition buy_out (now p : Z) (h : House) (e : AuctionEntry) (s : Auctions) : Auctions :=
  let s :=
    if p =? bidder e then on_post (upd_player p (Pay (u32 (buyout e - bid e)))) s
    else
      let s := on_post (upd_player p (Pay (buyout e))) s in
      if negb (bidder e =? 0) then SendAuctionOutbiddedMail now e (buyout e) p s else s in
  let e := set_bid (buyout e) (set_bidder p e) in
  let s := SendAuctionWonMail now e (SendAuctionSuccessfulMail now e (SendAuctionSalePendingMail now e (store_auction h e s))) in
  let s := notify (SendAuctionCommandResult p (Id e) AUCTION_PLACE_BID ERR_AUCTION_OK) s in
  RemoveAuction h e (RemoveAItem (itemGUIDLow e) (DEL_AUCTION (Id e) s)).

(** [WorldSession::HandleAuctionPlaceBid]; [price] is a uint64 *)
Definition HandleAuctionPlaceBid (now p npcGuid id price : Z) (s : Auctions) : Auctions :=
  match FindPlayer (post s) p with
  | None => s
  | Some x =>
      if (id =? 0) || (price =? 0) then s
      else match AuctioneerFaction p npcGuid with
      | None => s
      | Some npc =>
          let h := GetAuctionsMap npc in
          let result id err := notify (SendAuctionCommandResult p id AUCTION_PLACE_BID err) s in
          match GetAuction h id s with
          | None => result 0 ERR_AUCTION_BID_OWN
          | Some e =>
              if owner e =? p then result 0 ERR_AUCTION_BID_OWN
              else if (price <=? bid e) || (price <? startbid e) then s
              else if negb (is_buyout e price) && (price <? u32 (bid e + GetAuctionOutBid e)) then result (Id e) ERR_AUCTION_HIGHER_BID
              else if negb (HasEnoughMoney price x) then result (Id e) ERR_AUCTION_NOT_ENOUGHT_MONEY
              else if is_buyout e price then buy_out now p h e s else raise_bid now p price h e s
          end
      end
  end.

(** [WorldSession::HandleAuctionRemoveItem] *)
Definition HandleAuctionRemoveItem (now p npcGuid id : Z) (s : Auctions) : Auctions :=
  match FindPlayer (post s) p with
  | None => s
  | Some x =>
      match AuctioneerFaction p npcGuid with
      | None => s
      | Some npc =>
          let h := GetAuctionsMap npc in
          let refused := notify (SendAuctionCommandResult p 0 AUCTION_CANCEL ERR_AUCTION_DATABASE_ERROR) s in
          match GetAuction h id s with
          | None => refused
          | Some e =>
              if negb (owner e =? p) then refused
              else match GetAItem (itemGUIDLow e) s with
              | None => refused
              | Some low =>
                  let cut := GetAuctionCut e in
                  if (0 <? bidder e) && negb (HasEnoughMoney cut x) then s
                  else
                    let s := if 0 <? bidder e then on_post (upd_player p (Pay cut)) (SendAuctionCancelledToBidderMail now e low s) else s in
                    let s := send_to now p e 0 (draft_AddItem low (auction_draft e AUCTION_CANCELED (BuildAuctionMailBody 0 0 (buyout e) (deposit e) 0))) s in
                    let s := notify (SendAuctionCommandResult p (Id e) AUCTION_CANCEL ERR_AUCTION_OK) s in
                    RemoveAuction h e (RemoveAItem (itemGUIDLow e) (DEL_AUCTION (Id e) s))
              end
          end
      end
  end.

(** ** Time *)

Definition settle (now : Z) (e : AuctionEntry) (s : Auctions) : Auctions :=
  if bidder e =? 0 then SendAuctionExpiredMail now e s else SendAuctionWonMail now e (SendAuctionSuccessfulMail now e s).
Definition expire_auction (now : Z) (h : House) (id : Z) (s : Auctions) : Auctions :=
  match GetAuction h id s with
  | None => s
  | Some e => RemoveAuction h e (RemoveAItem (itemGUIDLow e) (DEL_AUCTION (Id e) (settle now e s)))
  end.
(** [CHAR_SEL_AUCTION_BY_TIME] *)
Definition row_time_le (a b : Z * AuctionRow) : Prop := ar_time a.2 <= ar_time b.2.
#[export] Instance row_time_le_dec a b : Decision (row_time_le a b).
Proof. unfold row_time_le. apply _. Defined.
Definition SEL_AUCTION_BY_TIME (t : Z) (s : Auctions) : list Z :=
  map fst (merge_sort row_time_le (List.filter (fun e => ar_time e.2 <=? t) (map_ordered (auctionhouse s)))).
Definition expire_all (now : Z) (h : House) (l : list Z) (s : Auctions) : Auctions := foldl (fun s id => expire_auction now h id s) s l.
(** [AuctionHouseObject::Update]; [now] is the game time *)
Definition Update_house (now : Z) (h : House) (s : Auctions) : Auctions :=
  if bool_decide (house_map h s = ∅) then s else expire_all now h (SEL_AUCTION_BY_TIME (u32 (u32 now + 60)) s) s.
(** [AuctionHouseMgr::Update] *)
Definition Update_houses (now : Z) (s : Auctions) : Auctions :=
  Update_house now Neutral (Update_house now Alliance (Update_house now Horde s)).

(** ** Loading *)

(** [AuctionEntry::LoadFromFieldList] of a row joined with its item *)
Definition LoadFromFieldList (id : Z) (r : AuctionRow) (s : Auctions) : option AuctionEntry :=
  match CreatureFaction (ar_auctioneer r) with
  | None => None
  | Some f =>
      match GetAuctionHouseEntry f with
      | None => None
      | Some entry =>
          let it := item_of (post s) (ar_item r) in
          Some (mkAuction id (ar_auctioneer r) (ar_item r) (i_entry it) (i_count it) (ar_owner r) (ar_startbid r) (ar_bid r) (ar_buyout r)
            (ar_time r) (ar_bidder r) (ar_deposit r) entry f)
      end
  end.
(** [AuctionEntry::LoadFromDB] *)
Definition LoadFromDB (id : Z) (r : AuctionRow) (s : Auctions) : option AuctionEntry :=
  match LoadFromFieldList id r s with
  | Some e => match GetAItem (itemGUIDLow e) s with Some _ => Some e | None => None end
  | None => None
  end.
(** The rows whose item is in item_instance *)
Definition joined_rows (s : Auctions) : list (Z * AuctionRow) :=
  List.filter (fun e => bool_decide (ar_item e.2 ∈ item_instance (post s))) (map_ordered (auctionhouse s)).
Definition delete_expired (now : Z) (e : Z * AuctionRow) (s : Auctions) : Auctions :=
  match LoadFromFieldList e.1 e.2 s with
  | None => s
  | Some a => DEL_AUCTION (Id a) (settle now a s)
  end.
Definition DeleteExpiredAuctionsAtStartup (now : Z) (s : Auctions) : Auctions :=
  foldl (fun s e => delete_expired now e s) s (List.filter (fun e => ar_time e.2 <=? u32 (u32 now + 60)) (joined_rows s)).
Definition LoadAuctionItems (s : Auctions) : Auctions :=
  foldl (fun s e => match GetItemTemplate (i_entry (item_of (post s) (ar_item e.2))) with Some _ => AddAItem (ar_item e.2) s | None => s end)
    (set_mAitems ∅ s) (joined_rows s).
Definition load_auction (e : Z * AuctionRow) (s : Auctions) : Auctions :=
  match LoadFromDB e.1 e.2 s with
  | None => DEL_AUCTION e.1 s
  | Some a => AddAuction (GetAuctionsMap (factionTemplateId a)) a s
  end.
Definition LoadAuctions (s : Auctions) : Auctions := foldl (fun s e => load_auction e s) s (joined_rows s).
(** The calls of [World::SetInitialWorldSettings], in their order *)
Definition StartUp (now : Z) (s : Auctions) : Auctions := LoadAuctions (LoadAuctionItems (DeleteExpiredAuctionsAtStartup now s)).
End Auction.
