(* ===== verification/AuctionMoney.v ===== *)
(** * Money in the auction houses

    What players own, what is in their mails and what the houses hold for
    running auctions: no sale, bid, buyout, cancellation or expiry makes money
    out of nothing, as long as the house's cut is no more than the price. *)
From S2P Require Import Prelude.
From S2P Require Import Lists.
From S2P Require Import Util.
From S2P Require Import Mail.
From S2P Require Import MailMoney.
From S2P Require Import Float.
From S2P Require Import Auction.
Local Open Scope Z_scope.

(** What a house holds for an auction: the highest bid and the deposit *)
Definition stake (e : AuctionEntry) : Z := bid e + deposit e.
Definition escrow (s : Auctions) : Z :=
  map_sum stake (mHordeAuctions s) + map_sum stake (mAllianceAuctions s) + map_sum stake (mNeutralAuctions s).
Definition worth (s : Auctions) : Z := wealth (post s) + escrow s.

Definition auction_ok (e : AuctionEntry) : Prop :=
  is_u32 (bid e) /\ 0 <= deposit e < 2 ^ 31 /\ is_u32 (buyout e) /\ 0 <= bidder e /\
  (bidder e = 0 -> bid e = 0) /\ (buyout e <> 0 -> bid e < buyout e).
Definition house_ok (m : gmap Z AuctionEntry) : Prop := map_Forall (fun id e => Id e = id /\ auction_ok e) m.
Definition houses_ok (s : Auctions) : Prop := forall h, house_ok (house_map h s).
Definition auctions_ok (s : Auctions) : Prop := post_ok (post s) /\ houses_ok s.

Definition same_houses (s s' : Auctions) : Prop := forall h, house_map h s' = house_map h s.
Lemma escrow_same s s' : same_houses s s' -> escrow s' = escrow s.
Proof. intros Hs. unfold escrow. pose proof (Hs Horde). pose proof (Hs Alliance). pose proof (Hs Neutral). cbn in *. congruence. Qed.
Lemma house_set h h' m s : house_map h (set_house h' m s) = if decide (h = h') then m else house_map h s.
Proof. by destruct h, h'. Qed.
Lemma post_set_house h m s : post (set_house h m s) = post s.
Proof. by destruct h. Qed.
Lemma escrow_set h m s : escrow (set_house h m s) = escrow s - map_sum stake (house_map h s) + map_sum stake m.
Proof. destruct h; unfold escrow; cbn; lia. Qed.

(** ** Mails of the houses *)

Section Mails.
Context `{AuctionWorld}.

(** Sending up to [n] mails with up to [m] copper in them *)
Definition sends (n m : Z) (s s' : Auctions) : Prop :=
  same_houses s s' /\ mAitems s' = mAitems s /\
  (post_ok (post s) -> mailId (post s) + n <= 4294967294 ->
   post_ok (post s') /\ wealth (post s') <= wealth (post s) + m /\ purse_of (post s') = purse_of (post s) /\
   mailId (post s) <= mailId (post s') <= mailId (post s) + n).
Lemma sends_refl n m s : 0 <= n -> 0 <= m -> sends n m s s.
Proof. intros Hn Hm. split_and!; [done|done|]. intros Hok _. split_and!; [done|lia|done|lia|lia]. Qed.
Lemma sends_trans n m n' m' s t u : sends n m s t -> sends n' m' t u -> 0 <= n -> 0 <= n' -> sends (n + n') (m + m') s u.
Proof.
  intros (H1 & I1 & S1) (H2 & I2 & S2) Hn Hn'. split_and!; [intros h; by rewrite H2, H1|congruence|]. intros Hok Hid.
  destruct (S1 Hok) as (O1 & W1 & U1 & N1); [lia|]. destruct (S2 O1) as (O2 & W2 & U2 & N2); [lia|]. split_and!; [done|lia|congruence|lia|lia].
Qed.
Lemma sends_notify e n m s : 0 <= n -> 0 <= m -> sends n m s (notify e s).
Proof. intros Hn Hm. split_and!; [by intros []|done|]. intros Hok _. change (post (notify e s)) with (post s). split_and!; [done|lia|done|lia|lia]. Qed.
Lemma sends_when n m b f s : (forall s, sends n m s (f s)) -> 0 <= n -> 0 <= m -> sends n m s (when b f s).
Proof. intros Hf Hn Hm. unfold when. destruct b; [apply Hf|by apply sends_refl]. Qed.
Lemma sends_same f s : (forall t, same t (f t)) -> sends 0 0 s (on_post f s).
Proof.
  intros Hf. split_and!; [by intros []|done|]. intros Hok _. change (post (on_post f s)) with (f (post s)). pose proof (Hf (post s)) as Hs. pose proof (same_wealth _ _ Hs).
  pose proof (same_ok _ _ Hs Hok). destruct Hs as (P & _ & N). split_and!; [done|lia|unfold purse_of; by rewrite P|lia|lia].
Qed.
Lemma sends_send_to now rcv e delay d s : 0 <= m_money d < 2 ^ 32 -> m_COD d = 0 -> sends 1 (m_money d) s (send_to now rcv e delay d s).
Proof.
  intros Hm Hc. split_and!; [by intros []|done|]. intros Hok Hid. change (post (send_to now rcv e delay d s)) with (SendMailTo now d rcv (auction_sender e) MAIL_CHECK_MASK_COPIED delay (post s)).
  destruct (SendMailTo_ok now d rcv (auction_sender e) MAIL_CHECK_MASK_COPIED delay (post s)) as (O & W & U & N); [done|unfold ids_left; lia|done|lia|].
  split_and!; [done|lia|done|lia|lia].
Qed.

Lemma sends_after n m s t u : sends 0 0 s t -> sends n m t u -> 0 <= n -> sends n m s u.
Proof. intros H1 H2 Hn. pose proof (sends_trans 0 0 n m s t u H1 H2) as H3. rewrite !Z.add_0_l in H3. apply H3; lia. Qed.

Lemma Won_sends now e s : sends 1 0 s (SendAuctionWonMail now e s).
Proof.
  unfold SendAuctionWonMail. destruct (GetAItem _ s) as [low|]; [|by apply sends_refl]. destruct (known _ _); [|by apply sends_refl]. cbv zeta.
  eapply sends_after; [by apply (sends_same (UPD_ITEM_OWNER (bidder e) low))| |lia].
  eapply sends_after; [apply sends_when; [intros; by apply sends_notify|lia|lia]| |lia]. by apply sends_send_to.
Qed.
Lemma SalePending_sends now e s : sends 1 0 s (SendAuctionSalePendingMail now e s).
Proof. unfold SendAuctionSalePendingMail. destruct (known _ _); [by apply sends_send_to|by apply sends_refl]. Qed.
Lemma Expired_sends now e s : sends 1 0 s (SendAuctionExpiredMail now e s).
Proof.
  unfold SendAuctionExpiredMail. destruct (GetAItem _ s) as [low|]; [|by apply sends_refl]. destruct (known _ _); [|by apply sends_refl]. cbv zeta.
  eapply sends_after; [apply sends_when; [intros; by apply sends_notify|lia|lia]| |lia]. by apply sends_send_to.
Qed.
Lemma Successful_sends now e s : sends 1 (profit e) s (SendAuctionSuccessfulMail now e s).
Proof.
  assert (Hp : is_u32 (profit e)) by apply u32_range. unfold is_u32 in Hp.
  unfold SendAuctionSuccessfulMail. destruct (known _ _); [|apply sends_refl; lia]. cbv zeta.
  eapply sends_after; [apply sends_when; [intros; by apply sends_notify|lia|lia]| |lia].
  apply (sends_send_to now (owner e) e CONFIG_MAIL_DELIVERY_DELAY (AddMoney (profit e) _)); [done|done].
Qed.
Lemma Outbidded_sends now e price p s : is_u32 (bid e) -> sends 1 (bid e) s (SendAuctionOutbiddedMail now e price p s).
Proof.
  intros Hb. unfold is_u32 in Hb. unfold SendAuctionOutbiddedMail. destruct (known _ _); [|apply sends_refl; lia]. cbv zeta.
  eapply sends_after; [apply sends_when; [intros; by apply sends_notify|lia|lia]| |lia].
  apply (sends_send_to now (bidder e) e 0 (AddMoney (bid e) _)); [done|done].
Qed.
Lemma Cancelled_sends now e low s : is_u32 (bid e) -> sends 1 (bid e) s (SendAuctionCancelledToBidderMail now e low s).
Proof.
  intros Hb. unfold is_u32 in Hb. unfold SendAuctionCancelledToBidderMail.
  eapply sends_after; [apply (sends_when 0 0); [intros; by apply sends_notify|lia|lia]| |lia].
  destruct (known _ _); [|apply sends_refl; lia]. apply (sends_send_to now (bidder e) e 0 (AddMoney (bid e) _)); [done|done].
Qed.
Lemma settle_sends now e s : (bidder e = 0 -> 0 <= profit e) -> sends 2 (if bidder e =? 0 then 0 else profit e) s (settle now e s).
Proof.
  intros _. unfold settle. destruct (bidder e =? 0).
  - pose proof (sends_trans 1 0 1 0 _ _ _ (Expired_sends now e s) (sends_refl 1 0 _ ltac:(lia) ltac:(lia))) as Ht. by apply Ht.
  - pose proof (sends_trans 1 (profit e) 1 0 _ _ _ (Successful_sends now e s) (Won_sends now e _)) as Ht. rewrite Z.add_0_r in Ht. apply Ht; lia.
Qed.

(** The house's cut is fair: no more than it is paid, now or at the buyout. *)
Definition fair (e : AuctionEntry) : Prop :=
  GetAuctionCut e <= stake e /\ forall p, GetAuctionCut (set_bid (buyout e) (set_bidder p e)) <= buyout e + deposit e.
Lemma cut_nonneg e : 0 <= GetAuctionCut e.
Proof. unfold GetAuctionCut. lia. Qed.
Lemma profit_le e : GetAuctionCut e <= stake e -> profit e <= stake e - GetAuctionCut e.
Proof. intros Hf. unfold profit, u32, stake in *. apply Z.mod_le; lia. Qed.
End Mails.

Section Operations.
Context `{AuctionWorld}.

(** An operation that uses up to [n] mails keeps the invariant and makes no
    money. *)
Definition careful (n : Z) (s s' : Auctions) : Prop :=
  auctions_ok s' /\ worth s' <= worth s /\ mailId (post s) <= mailId (post s') <= mailId (post s) + n.
Definition mails_left (n : Z) (s : Auctions) : Prop := mailId (post s) + n <= 4294967294.
Lemma careful_refl n s : 0 <= n -> auctions_ok s -> careful n s s.
Proof. intros Hn Hok. split_and!; [done|lia|lia|lia]. Qed.
Lemma careful_weaken n m s s' : careful n s s' -> n <= m -> careful m s s'.
Proof. intros (H1 & H2 & H3) Hle. split_and!; [done|lia|lia|lia]. Qed.
Lemma careful_trans n m s t u : careful n s t -> careful m t u -> careful (n + m) s u.
Proof. intros (H1 & H2 & H3) (H4 & H5 & H6). split_and!; [done|lia|lia|lia]. Qed.
Lemma careful_notify e n s : 0 <= n -> auctions_ok s -> careful n s (notify e s).
Proof.
  intros Hn [Hp Hh]. split_and!; [split; [done|intros h; specialize (Hh h); by destruct h]|done|cbn; lia|cbn; lia].
Qed.

Lemma houses_ok_set h m s : houses_ok s -> house_ok m -> houses_ok (set_house h m s).
Proof. intros Hs Hm h'. rewrite house_set. case_decide; [done|apply Hs]. Qed.
Lemma houses_ok_same s s' : same_houses s s' -> houses_ok s -> houses_ok s'.
Proof. intros Hs Hok h. rewrite Hs. apply Hok. Qed.
Lemma house_ok_insert m e : house_ok m -> auction_ok e -> house_ok (<[Id e := e]> m).
Proof. intros Hm He id e' [[<- <-]|[_ He']]%lookup_insert_Some; [done|by apply Hm]. Qed.
Lemma house_ok_delete m id : house_ok m -> house_ok (delete id m).
Proof. intros Hm id' e' [_ He']%lookup_delete_Some. by apply Hm. Qed.

(** What closing an auction leaves *)
Definition close (h : House) (e : AuctionEntry) (s : Auctions) : Auctions := RemoveAuction h e (RemoveAItem (itemGUIDLow e) (DEL_AUCTION (Id e) s)).
Lemma close_houses h e s k : house_map k (close h e s) = if decide (k = h) then delete (Id e) (house_map h s) else house_map k s.
Proof. unfold close, RemoveAuction. rewrite house_set. by destruct h, k. Qed.
Lemma close_post h e s : post (close h e s) = post s.
Proof. unfold close, RemoveAuction. by rewrite post_set_house. Qed.
(** Taking one auction out of a house *)
Definition without (h : House) (id : Z) (s t : Auctions) : Prop :=
  forall k, house_map k t = if decide (k = h) then delete id (house_map h s) else house_map k s.
Lemma without_ok h id e s t : houses_ok s -> GetAuction h id s = Some e -> without h id s t ->
  houses_ok t /\ escrow t = escrow s - stake e.
Proof.
  intros Hok He Ht. split; [intros k; rewrite Ht; case_decide; [apply house_ok_delete, Hok|apply Hok]|].
  assert (Hs : same_houses (set_house h (delete id (house_map h s)) s) t) by (intros k; by rewrite house_set, Ht).
  rewrite (escrow_same _ _ Hs), escrow_set, (map_sum_delete stake (house_map h s) id e He). lia.
Qed.
Lemma house_auction s h id e : houses_ok s -> GetAuction h id s = Some e -> Id e = id /\ auction_ok e.
Proof. intros Hok He. by apply (Hok h id e). Qed.
Lemma stake_nonneg e : auction_ok e -> 0 <= stake e.
Proof. intros ((Hb & _) & (Hd & _) & _). unfold stake. lia. Qed.

(** ** Paying *)

Lemma pay_ok p a x s : post_ok (post s) -> players (post s) !! p = Some x -> 0 <= a <= p_money x ->
  post_ok (post (on_post (upd_player p (Pay a)) s)) /\ wealth (post (on_post (upd_player p (Pay a)) s)) = wealth (post s) - a.
Proof.
  intros Hok Hx Ha. pose proof (proj1 (proj1 Hok) p x Hx) as (Hm & _).
  apply (upd_pay p x (Pay a) a (post s)); [done|done|done|apply Pay_money; lia|apply Pay_quiet].
Qed.
Lemma pay_after n m a p x s t : sends n m s t -> post_ok (post s) -> mails_left n s -> players (post s) !! p = Some x -> 0 <= a <= p_money x ->
  let u := on_post (upd_player p (Pay a)) t in
  same_houses s u /\ post_ok (post u) /\ wealth (post u) <= wealth (post s) + m - a /\ mailId (post s) <= mailId (post u) <= mailId (post s) + n.
Proof.
  intros (Hh & _ & Hs) Hok Hid Hx Ha u. destruct (Hs Hok Hid) as (O & W & U & N). destruct (purse_of_Some _ _ _ _ U Hx) as (y & Hy & Hym).
  destruct (pay_ok p a y t O Hy) as [O2 W2]; [lia|]. split_and!; [intros h; rewrite <- Hh; by destruct h|done|unfold u; lia|change (mailId (post u)) with (mailId (post t)); lia|change (mailId (post u)) with (mailId (post t)); lia].
Qed.

(** ** Bids *)

Lemma raise_bid_careful now p price h e s x : auctions_ok s -> GetAuction h (Id e) s = Some e -> players (post s) !! p = Some x -> 0 < p -> mails_left 1 s ->
  bid e < price <= p_money x -> is_buyout e price = false -> careful 1 s (raise_bid now p price h e s).
Proof.
  intros [Hok Hh] He Hx Hp Hid Hprice Hb. destruct (house_auction s h (Id e) e Hh He) as (_ & (Hbid & Hdep & Hbuy & Hbr & Hb0 & Hlt)).
  pose proof (proj1 (proj1 Hok) p x Hx) as (Hxm & _). unfold MAX_MONEY_AMOUNT, is_u32 in *. unfold raise_bid.
  set (s1 := if 0 <? bidder e then _ else _).
  assert (H1 : same_houses s s1 /\ post_ok (post s1) /\ wealth (post s1) <= wealth (post s) + bid e - price /\ mailId (post s) <= mailId (post s1) <= mailId (post s) + 1).
  { unfold s1. destruct (Z.ltb_spec 0 (bidder e)) as [Hpos|Hzero]; [destruct (Z.eqb_spec (bidder e) p)|].
    - assert (Hu : u64 (price - bid e) = price - bid e) by (apply u64_small; unfold is_u64; lia).
      destruct (pay_after 1 0 (u64 (price - bid e)) p x s s) as (A & B & C & D); [by apply sends_refl|done|done|done|lia|].
      split_and!; [done|done|lia|lia|lia].
    - destruct (pay_after 1 (bid e) price p x s (SendAuctionOutbiddedMail now e price p s)) as (A & B & C & D); [by apply Outbidded_sends|done|done|done|lia|].
      split_and!; [done|done|lia|lia|lia].
    - destruct (pay_after 1 0 price p x s s) as (A & B & C & D); [by apply sends_refl|done|done|done|lia|].
      split_and!; [done|done|rewrite Hb0 in * by lia; lia|lia|lia]. }
  destruct H1 as (A & B & C & D). set (e' := set_bid (u32 price) (set_bidder p e)). unfold store_auction.
  assert (Hu : 0 <= u32 price <= price) by (unfold u32; split; [apply Z.mod_pos_bound; lia|apply Z.mod_le; lia]).
  assert (He' : auction_ok e').
  { unfold is_buyout in Hb. split; [apply u32_range|]. split; [exact Hdep|]. split; [exact Hbuy|]. split; [cbn; lia|]. split; [cbn; lia|]. cbn. intros Hne. rewrite u32_small by (unfold is_u32; lia). lia. }
  set (s2 := set_house h _ s1).
  assert (E2 : escrow s2 = escrow s - stake e + stake e').
  { unfold s2. rewrite escrow_set, (escrow_same _ _ A), A. change (Id e') with (Id e). rewrite (map_sum_change stake _ (Id e) e e' He). lia. }
  assert (P2 : post s2 = post s1) by apply post_set_house.
  match goal with |- careful 1 s ?t => assert (Pt : post t = post s2) by done; assert (Ht : same_houses s2 t) by (by intros []) end.
  rewrite P2 in Pt. split_and!; [split; [by rewrite Pt|]| |rewrite Pt; lia|rewrite Pt; lia];
    [|unfold worth; rewrite Pt, (escrow_same _ _ Ht), E2; unfold stake; cbn [bid deposit e' set_bid set_bidder]; lia].
  eapply houses_ok_same; [exact Ht|]. apply houses_ok_set; [by eapply houses_ok_same|]. rewrite A. by apply house_ok_insert.
Qed.

Lemma buy_out_careful now p price h e s x : auctions_ok s -> GetAuction h (Id e) s = Some e -> players (post s) !! p = Some x -> 0 < p -> mails_left 4 s ->
  price <= p_money x -> is_buyout e price = true -> fair e -> careful 4 s (buy_out now p h e s).
Proof.
  intros [Hok Hh] He Hx Hp Hid Hprice Hb [_ Hfair]. destruct (house_auction s h (Id e) e Hh He) as (_ & (Hbid & Hdep & Hbuy & Hbr & Hb0 & Hlt)).
  pose proof (proj1 (proj1 Hok) p x Hx) as (Hxm & _). unfold MAX_MONEY_AMOUNT, is_u32 in *. unfold is_buyout in Hb. unfold buy_out.
  set (s1 := if p =? bidder e then _ else _).
  assert (H1 : same_houses s s1 /\ post_ok (post s1) /\ wealth (post s1) <= wealth (post s) + bid e - buyout e /\ mailId (post s) <= mailId (post s1) <= mailId (post s) + 1).
  { unfold s1. destruct (Z.eqb_spec p (bidder e)).
    - assert (Hu : u32 (buyout e - bid e) = buyout e - bid e) by (apply u32_small; unfold is_u32; lia).
      destruct (pay_after 1 0 (u32 (buyout e - bid e)) p x s s) as (A & B & C & D); [by apply sends_refl|done|unfold mails_left in *; lia|done|lia|].
      split_and!; [done|done|lia|lia|lia].
    - destruct (pay_after 0 0 (buyout e) p x s s) as (A & B & C & D); [by apply sends_refl|done|unfold mails_left in *; lia|done|lia|].
      destruct (Z.eqb_spec (bidder e) 0) as [Hz|Hnz]; cbn [negb]; [split_and!; [done|done|rewrite Hb0 in * by done; lia|lia|lia]|].
      destruct (Outbidded_sends now e (buyout e) p (on_post (upd_player p (Pay (buyout e))) s)) as (A2 & _ & S2); [done|].
      unfold mails_left in Hid. destruct (S2 B) as (O2 & W2 & _ & N2); [lia|].
      split_and!; [intros k; by rewrite A2, A|done|lia|lia|lia]. }
  destruct H1 as (A & B & C & D). set (e' := set_bid (buyout e) (set_bidder p e)). specialize (Hfair p). fold e' in Hfair. unfold store_auction.
  set (s2 := set_house h _ s1). assert (P2 : post s2 = post s1) by apply post_set_house.
  assert (Hs : sends 3 (profit e') s2 (SendAuctionWonMail now e' (SendAuctionSuccessfulMail now e' (SendAuctionSalePendingMail now e' s2)))).
  { pose proof (sends_trans 1 0 1 (profit e') _ _ _ (SalePending_sends now e' s2) (Successful_sends now e' _)) as T1.
    pose proof (sends_trans 2 (profit e') 1 0 _ _ _ (T1 ltac:(lia) ltac:(lia)) (Won_sends now e' _)) as T2. rewrite Z.add_0_r in T2. apply T2; lia. }
  set (s3 := SendAuctionWonMail _ _ _) in *. destruct Hs as (A3 & _ & S3). unfold mails_left in Hid.
  destruct (S3 ltac:(by rewrite P2)) as (O3 & W3 & _ & N3); [rewrite P2; lia|]. rewrite P2 in W3, N3.
  match goal with |- careful 4 s ?t => assert (Pt : post t = post s3) by (apply (close_post h e' (notify _ s3)));
    assert (Ht : without h (Id e) s t) end.
  { intros k. set (s4 := notify _ s3). transitivity (house_map k (close h e' s4)); [done|]. rewrite close_houses.
    assert (A4 : same_houses s2 s4) by (intros j; rewrite <- A3; by destruct j). rewrite !A4. unfold s2. rewrite !house_set, !A.
    case_decide; [subst; rewrite decide_True by done|done]. by rewrite delete_insert_eq. }
  destruct (without_ok h (Id e) e s _ Hh He Ht) as [Hok' Hesc]. pose proof (profit_le e') as Hprof.
  change (stake e') with (buyout e + deposit e) in Hprof. pose proof (cut_nonneg e').
  split_and!; [split; [by rewrite Pt|done]| |rewrite Pt; lia|rewrite Pt; lia].
  unfold worth. rewrite Pt, Hesc. unfold stake. lia.
Qed.
Lemma PlaceBid_careful now p npc id price s : auctions_ok s -> 0 < p -> 0 <= price -> mails_left 4 s ->
  (forall h, map_Forall (fun _ => fair) (house_map h s)) -> careful 4 s (HandleAuctionPlaceBid now p npc id price s).
Proof.
  intros Hok Hp Hprice Hid Hfair. unfold HandleAuctionPlaceBid. assert (H0 : careful 4 s s) by (by apply careful_refl).
  assert (H1 : forall e, careful 4 s (notify e s)) by (intros; by apply careful_notify).
  destruct (FindPlayer (post s) p) as [x|] eqn:Hx; [|done]. apply FindPlayer_online in Hx as [Hx _]. case_match; [done|].
  destruct (AuctioneerFaction p npc) as [f|]; [|done]. destruct (GetAuction _ id s) as [e|] eqn:He; [|done].
  destruct (house_auction s _ id e (proj2 Hok) He) as [<- Heok]. case_match; [done|]. case_match eqn:Hlow; [done|]. case_match; [done|].
  destruct (HasEnoughMoney price x) eqn:Hm; [|apply H1]. cbn [negb]. unfold HasEnoughMoney in Hm. destruct (is_buyout e price) eqn:Hb.
  - apply (buy_out_careful now p price _ e s x); try done; [lia|]. exact (Hfair _ _ _ He).
  - eapply careful_weaken; [apply (raise_bid_careful now p price _ e s x); try done; [unfold mails_left in *; lia|lia]|lia].
Qed.

Lemma RemoveItem_careful now p npc id s : auctions_ok s -> 0 < p -> mails_left 2 s -> careful 2 s (HandleAuctionRemoveItem now p npc id s).
Proof.
  intros Hok Hp Hid. unfold HandleAuctionRemoveItem. assert (H0 : careful 2 s s) by (by apply careful_refl).
  assert (H1 : forall e, careful 2 s (notify e s)) by (intros; by apply careful_notify).
  destruct (FindPlayer (post s) p) as [x|] eqn:Hx; [|done]. apply FindPlayer_online in Hx as [Hx _].
  destruct (AuctioneerFaction p npc) as [f|]; [|done]. set (h := GetAuctionsMap f). destruct (GetAuction h id s) as [e|] eqn:He; [|done].
  destruct (house_auction s h id e (proj2 Hok) He) as [<- Heok]. case_match; [done|]. destruct (GetAItem (itemGUIDLow e) s) as [low|]; [|done].
  case_match eqn:Hcut; [done|]. pose proof (cut_nonneg e) as Hc. pose proof Heok as (Hbid & Hdep & _ & Hbr & Hb0 & _). unfold is_u32 in Hbid.
  set (s1 := if 0 <? bidder e then _ else _).
  assert (T1 : same_houses s s1 /\ post_ok (post s1) /\ wealth (post s1) <= wealth (post s) + bid e /\ mailId (post s) <= mailId (post s1) <= mailId (post s) + 1).
  { unfold s1. destruct (Z.ltb_spec 0 (bidder e)) as [Hpos|Hzero].
    - cbn [andb] in Hcut. unfold HasEnoughMoney in Hcut.
      destruct (pay_after 1 (bid e) (GetAuctionCut e) p x s (SendAuctionCancelledToBidderMail now e low s)) as (A & B & C & D);
        [by apply Cancelled_sends|apply Hok|unfold mails_left in *; lia|done|lia|]. split_and!; [done|done|lia|lia|lia].
    - split_and!; [done|apply Hok|lia|lia|lia]. }
  destruct T1 as (A & B & C & D). set (d := draft_AddItem low _).
  destruct (sends_send_to now p e 0 d s1) as (A2 & _ & S2); [done|done|]. unfold mails_left in Hid. destruct (S2 B) as (O2 & W2 & _ & N2); [lia|].
  change (m_money d) with 0 in W2. set (s2 := send_to now p e 0 d s1) in *.
  match goal with |- careful 2 s ?t => assert (Pt : post t = post s2) by (apply (close_post h e (notify _ s2))); assert (Ht : without h (Id e) s t) end.
  { intros k. set (s3 := notify _ s2). transitivity (house_map k (close h e s3)); [done|]. rewrite close_houses.
    assert (A3 : same_houses s2 s3) by (by intros []). by rewrite !A3, !A2, !A. }
  destruct (without_ok h (Id e) e s _ (proj2 Hok) He Ht) as [Hok' Hesc].
  split_and!; [split; [by rewrite Pt|done]| |rewrite Pt; lia|rewrite Pt; lia]. unfold worth. rewrite Pt, Hesc. unfold stake. lia.
Qed.

(** ** Expiry *)

Lemma without_fair h id s t : without h id s t -> (forall k, map_Forall (fun _ => fair) (house_map k s)) -> forall k, map_Forall (fun _ => fair) (house_map k t).
Proof.
  intros Ht Hf k. rewrite Ht. case_decide; [|apply Hf]. intros j e [_ Hj]%lookup_delete_Some. exact (Hf h j e Hj).
Qed.
Lemma expire_auction_careful now h id s : auctions_ok s -> mails_left 2 s -> (forall k, map_Forall (fun _ => fair) (house_map k s)) ->
  careful 2 s (expire_auction now h id s) /\ (forall k, map_Forall (fun _ => fair) (house_map k (expire_auction now h id s))).
Proof.
  intros Hok Hid Hfair. unfold expire_auction. destruct (GetAuction h id s) as [e|] eqn:He; [|split; [by apply careful_refl|done]].
  destruct (house_auction s h id e (proj2 Hok) He) as [<- Heok]. pose proof (Hfair h _ _ He) as [Hcut _].
  destruct (settle_sends now e s) as (A & _ & S1); [intros _; apply u32_range|]. unfold mails_left in Hid. destruct (S1 (proj1 Hok)) as (O1 & W1 & _ & N1); [lia|].
  set (s1 := settle now e s) in *. pose proof (profit_le e Hcut) as Hprof. pose proof (cut_nonneg e). pose proof (stake_nonneg e Heok).
  change (RemoveAuction h e _) with (close h e s1).
  assert (Ht : without h (Id e) s (close h e s1)) by (intros k; by rewrite close_houses, !A).
  destruct (without_ok h (Id e) e s _ (proj2 Hok) He Ht) as [Hok' Hesc]. split; [|by eapply without_fair].
  split_and!; [split; [by rewrite close_post|done]| |rewrite close_post; lia|rewrite close_post; lia].
  unfold worth. rewrite close_post, Hesc. destruct (bidder e =? 0); lia.
Qed.
Lemma expire_all_careful now h l s : auctions_ok s -> mails_left (2 * Z.of_nat (length l)) s -> (forall k, map_Forall (fun _ => fair) (house_map k s)) ->
  careful (2 * Z.of_nat (length l)) s (expire_all now h l s) /\ (forall k, map_Forall (fun _ => fair) (house_map k (expire_all now h l s))).
Proof.
  unfold expire_all. revert s. induction l as [|id l IH]; intros s Hok Hid Hfair; [split; [by apply careful_refl|done]|]. cbn [foldl length].
  destruct (expire_auction_careful now h id s) as [C1 F1]; [done|unfold mails_left in *; cbn [length] in Hid; lia|done|].
  destruct (IH (expire_auction now h id s)) as [C2 F2]; [apply C1|destruct C1 as (_ & _ & N1); unfold mails_left in *; cbn [length] in Hid; lia|done|].
  split; [|done]. eapply careful_weaken; [by eapply careful_trans|lia].
Qed.
Lemma SEL_length t s : (length (SEL_AUCTION_BY_TIME t s) <= base.size (auctionhouse s))%nat.
Proof.
  unfold SEL_AUCTION_BY_TIME. rewrite length_map. rewrite (Permutation_length (merge_sort_Permutation row_time_le _)), <- length_map_ordered.
  apply filter_length_le.
Qed.
Lemma settle_rows now e s : auctionhouse (settle now e s) = auctionhouse s.
Proof.
  unfold settle, SendAuctionExpiredMail, SendAuctionWonMail, SendAuctionSuccessfulMail, send_to, when.
  repeat (case_match; cbn [auctionhouse set_post set_a_events notify on_post]; try done).
Qed.
Lemma size_delete_le {A} (k : Z) (m : gmap Z A) : (base.size (delete k m) <= base.size m)%nat.
Proof. rewrite map_size_delete. destruct (m !! k); unfold id; lia. Qed.
Lemma expire_rows now h l s : (base.size (auctionhouse (expire_all now h l s)) <= base.size (auctionhouse s))%nat.
Proof.
  unfold expire_all. revert s. induction l as [|id l IH]; intros s; [done|]. cbn [foldl]. etransitivity; [apply IH|].
  unfold expire_auction. case_match; [|done]. set (s1 := settle now _ s).
  transitivity (base.size (delete (Id a) (auctionhouse s1))); [destruct h; done|]. unfold s1. rewrite settle_rows. apply size_delete_le.
Qed.
Lemma Update_house_careful now h n s : auctions_ok s -> (forall k, map_Forall (fun _ => fair) (house_map k s)) ->
  Z.of_nat (base.size (auctionhouse s)) <= n -> mails_left (2 * n) s ->
  careful (2 * n) s (Update_house now h s) /\ (forall k, map_Forall (fun _ => fair) (house_map k (Update_house now h s))) /\
  Z.of_nat (base.size (auctionhouse (Update_house now h s))) <= n.
Proof.
  intros Hok Hfair Hn Hid. unfold Update_house. case_match; [split_and!; [apply careful_refl; [lia|done]|done|done]|].
  set (l := SEL_AUCTION_BY_TIME _ s). pose proof (SEL_length (u32 (u32 now + 60)) s) as Hl. fold l in Hl.
  destruct (expire_all_careful now h l s) as [C F]; [done|unfold mails_left in *; lia|done|].
  split_and!; [by eapply careful_weaken; [exact C|lia]|exact F|]. pose proof (expire_rows now h l s). lia.
Qed.
Lemma Update_houses_careful now s : auctions_ok s -> (forall k, map_Forall (fun _ => fair) (house_map k s)) ->
  mails_left (6 * Z.of_nat (base.size (auctionhouse s))) s -> careful (6 * Z.of_nat (base.size (auctionhouse s))) s (Update_houses now s).
Proof.
  intros Hok Hfair Hid. unfold Update_houses. set (n := Z.of_nat (base.size (auctionhouse s))) in *.
  destruct (Update_house_careful now Horde n s) as (C1 & F1 & N1); [done|done|done|unfold mails_left in *; lia|].
  destruct (Update_house_careful now Alliance n _ (proj1 C1) F1 N1) as (C2 & F2 & N2); [destruct C1 as (_ & _ & M1); unfold mails_left in *; lia|].
  destruct (Update_house_careful now Neutral n _ (proj1 C2) F2 N2) as (C3 & F3 & N3); [destruct C1 as (_ & _ & M1), C2 as (_ & _ & M2); unfold mails_left in *; lia|].
  replace (6 * n) with (2 * n + 2 * n + 2 * n) by lia. by eapply careful_trans; [eapply careful_trans|].
Qed.

(** ** Selling *)

Lemma take_from_thrifty p e s : post_ok s -> thrifty 0 s (take_from p e s).
Proof.
  intros Hok. destruct e as [low count]. unfold take_from. case_match; [|by apply thrifty_same].
  apply (thrifty_trans 0 0 _ (upd_player p (MoveItemFromInventory low) s)); [by apply thrifty_quiet|]. apply thrifty_same; [done|by apply quiet_ok].
Qed.
Lemma deposit_pos entry time it count : 100 <= GetAuctionDeposit entry time it count.
Proof. unfold GetAuctionDeposit, AH_MINIMUM_DEPOSIT. case_match; [lia|]. case_match; lia. Qed.
Lemma purse_thrifty p low s : purse_of (upd_player p (MoveItemFromInventory low) s) = purse_of s.
Proof. by apply purse_of_alter. Qed.
Lemma take_from_purse p items s : purse_of (foreach (take_from p) items s) = purse_of s.
Proof.
  unfold foreach. revert s. induction items as [|[low count] items IH]; intros s; [done|]. cbn [foldl]. rewrite IH. unfold take_from.
  case_match; [|done]. change (purse_of (upd_player p (MoveItemFromInventory low) s) = purse_of s). apply purse_thrifty.
Qed.

(** The stake of a new auction is the deposit that is paid for it. *)
Lemma put_up_careful p x h e s t : auctions_ok s -> players (post s) !! p = Some x -> auction_ok e -> bid e = 0 -> deposit e <= p_money x ->
  thrifty 0 (post s) (post t) -> purse_of (post t) = purse_of (post s) ->
  (forall k, house_map k t = if decide (k = h) then <[Id e := e]> (house_map h s) else house_map k s) ->
  careful 0 s (on_post (upd_player p (Pay32 (deposit e))) t).
Proof.
  intros [Hok Hh] Hx He Hb Hdep (Ok1 & W1 & N1) U1 Ht. set (u := on_post _ t). pose proof He as (_ & Hd & _).
  destruct (purse_of_Some _ _ _ _ U1 Hx) as (y & Hy & Hym). pose proof (proj1 (proj1 Ok1) p y Hy) as (Hyb & _).
  destruct (upd_pay p y (Pay32 (deposit e)) (deposit e) (post t)) as [O2 W2]; [done|done|lia|apply Pay32_money; lia|apply Pay32_quiet|].
  assert (Hu : forall k, house_map k u = if decide (k = h) then <[Id e := e]> (house_map h s) else house_map k s) by (intros k; rewrite <- Ht; by destruct k).
  assert (Hs : same_houses (set_house h (<[Id e := e]> (house_map h s)) s) u) by (intros k; by rewrite house_set, Hu).
  assert (E : escrow u <= escrow s + stake e).
  { rewrite (escrow_same _ _ Hs), escrow_set. destruct (house_map h s !! Id e) as [e0|] eqn:He0.
    - rewrite (map_sum_change stake _ _ e0 e He0). pose proof (stake_nonneg e0 (proj2 (Hh h _ _ He0))). lia.
    - rewrite map_sum_insert by done. lia. }
  assert (Hhu : houses_ok u) by (eapply houses_ok_same; [exact Hs|]; apply houses_ok_set; [done|by apply house_ok_insert]).
  change (post u) with (upd_player p (Pay32 (deposit e)) (post t)) in *.
  split_and!; [by split| |change (mailId (post u)) with (mailId (post t)); lia|change (mailId (post u)) with (mailId (post t)); lia].
  unfold worth. change (post u) with (upd_player p (Pay32 (deposit e)) (post t)). unfold stake in E. lia.
Qed.
Lemma new_auction_ok now p q entry id low dep at_ s : 0 <= dep < 2 ^ 31 -> auction_ok (new_auction now p q entry id low dep at_ s).
Proof.
  intros Hd. pose proof (u32_range (s_buyout q)) as Hr. unfold auction_ok. cbn [bid deposit buyout bidder new_auction].
  unfold is_u32 in *. split_and!; lia.
Qed.
Definition deposits_fair (s : Auctions) : Prop := forall h, map_Forall (fun _ e => deposit e < 2 ^ 31) (house_map h s).
(** A sale, whatever [F] does with the stacks that are sold, as long as it is
    no money *)
Lemma sold_careful p x h e low F ev s s1 : auctions_ok s -> players (post s) !! p = Some x -> bid e = 0 -> 0 <= deposit e <= p_money x ->
  (deposit e < 2 ^ 31 -> auction_ok e) -> same_houses s s1 -> thrifty 0 (post s) (F (post s1)) -> purse_of (F (post s1)) = purse_of (post s) ->
  let t := on_post (upd_player p (Pay32 (deposit e))) (notify ev (INS_AUCTION e (on_post F (AddAuction h e (AddAItem low s1))))) in
  deposits_fair t -> careful 0 s t.
Proof.
  intros Hok Hx Hb Hdep He A1 T1 U1 t Hdf. set (u := notify ev _) in *.
  assert (Pu : post u = F (post s1)).
  { transitivity (F (post (AddAuction h e (AddAItem low s1)))); [unfold u, INS_AUCTION; by case_match|]. unfold AddAuction. by rewrite post_set_house. }
  assert (Hu : forall k, house_map k u = if decide (k = h) then <[Id e := e]> (house_map h s) else house_map k s).
  { intros k. transitivity (house_map k (AddAuction h e (AddAItem low s1))); [unfold u, INS_AUCTION; case_match; by destruct k|].
    assert (A2 : same_houses s (AddAItem low s1)) by (intros j; rewrite <- A1; by destruct j). unfold AddAuction. by rewrite house_set, !A2. }
  apply (put_up_careful p x h e s u); try done; [|lia|by rewrite Pu|by rewrite Pu].
  apply He, (Hdf h (Id e) e). transitivity (house_map h u !! Id e); [by destruct h|]. rewrite Hu, decide_True by done. apply lookup_insert_eq.
Qed.
Lemma GenerateAuctionID_same s : post (GenerateAuctionID s).2 = post s /\ same_houses s (GenerateAuctionID s).2.
Proof. unfold GenerateAuctionID. case_match; (split; [done|by intros []]). Qed.
Lemma take_one_thrifty p low s : post_ok s -> thrifty 0 s (SaveItem low (upd_player p (MoveItemFromInventory low) s)).
Proof.
  intros Hok. apply (thrifty_trans 0 0 _ (upd_player p (MoveItemFromInventory low) s)); [by apply thrifty_quiet|]. apply thrifty_same; [done|by apply quiet_ok].
Qed.
Lemma sell_careful now p q entry h items low0 total dep at_ x s : auctions_ok s -> players (post s) !! p = Some x -> 0 <= dep <= p_money x ->
  deposits_fair (sell now p q entry h items low0 total dep at_ s) -> careful 0 s (sell now p q entry h items low0 total dep at_ s).
Proof.
  intros Hok Hx Hdep. unfold sell. match goal with |- context [if ?b then let '(_, _) := GenerateAuctionID s in _ else _] => destruct b end.
  - destruct (GenerateAuctionID_same s) as (P1 & A1). destruct (GenerateAuctionID s) as [nid s1]. cbn [snd] in P1, A1. cbv zeta.
    set (e := new_auction _ _ _ _ _ _ _ _ _).
    apply (sold_careful p x h e low0 (fun t => SaveItem low0 (upd_player p (MoveItemFromInventory low0) t)) _ s s1); try done; rewrite ?P1;
      [intros; apply new_auction_ok; change (deposit e) with dep in *; lia|by apply take_one_thrifty, Hok|apply purse_thrifty].
  - destruct (CloneItem low0 total p (post s)) as [new t0] eqn:Hc. assert (S0 : same (post s) t0) by (injection Hc as <- <-; done).
    destruct (GenerateAuctionID_same (set_post t0 s)) as (P1 & A1). destruct (GenerateAuctionID (set_post t0 s)) as [nid s1]. cbn [snd] in P1, A1. cbv zeta.
    change (post (set_post t0 s)) with t0 in P1. set (e := new_auction _ _ _ _ _ _ _ _ _). pose proof (same_ok (post s) t0 S0 (proj1 Hok)) as O0.
    assert (T1 : thrifty 0 t0 (foreach (take_from p) items t0)) by (apply foreach_thrifty; [intros; by apply take_from_thrifty|done]).
    apply (sold_careful p x h e new (fun t => SaveItem new (foreach (take_from p) items t)) _ s s1); try done; rewrite ?P1;
      [intros; apply new_auction_ok; change (deposit e) with dep in *; lia| |].
    + apply (thrifty_trans 0 0 _ t0); [apply thrifty_same; [done|apply Hok]|]. apply (thrifty_trans 0 0 _ _ _ T1), thrifty_same; [done|apply T1].
    + transitivity (purse_of (foreach (take_from p) items t0)); [done|]. rewrite take_from_purse. unfold purse_of. by rewrite (proj1 S0).
Qed.
Lemma SellItem_careful now p q s : auctions_ok s -> deposits_fair (HandleAuctionSellItem now p q s) -> careful 0 s (HandleAuctionSellItem now p q s).
Proof.
  intros Hok. unfold HandleAuctionSellItem. assert (H0 : careful 0 s s) by (by apply careful_refl).
  assert (H1 : forall e, careful 0 s (notify e s)) by (intros; by apply careful_notify).
  destruct (FindPlayer (post s) p) as [x|] eqn:Hx; [|done]. apply FindPlayer_online in Hx as [Hx _]. do 3 (case_match; [done|]).
  destruct (AuctioneerFaction p _) as [f|]; [|done]. destruct (GetAuctionHouseEntry f) as [entry|]; [|done]. case_match; [done|].
  destruct (sale_items s x (s_items q) 0) as [err|[[|[low0 count0] lows] total]]; [done|done|]. case_match; [done|]. case_match; [done|].
  set (dep := GetAuctionDeposit _ _ _ _). destruct (HasEnoughMoney dep x) eqn:Hm; [|done]. cbn [negb]. unfold HasEnoughMoney in Hm.
  pose proof (deposit_pos entry (u32 (s_etime q * MINUTE)) (item_of (post s) low0) total) as Hpos. fold dep in Hpos.
  apply (sell_careful now p q entry _ _ low0 total dep _ x); [done|done|lia].
Qed.
End Operations.
