(* ===== verification/AuctionRuns.v ===== *)
(** * The auction houses at work

    Sequences of sales, bids, cancellations and updates with the mail between
    them; what a bid does to the bidder it replaces; an auction saved and
    loaded; and runs on a concrete server that lose goods or make them. *)
From S2P Require Import Prelude.
From S2P Require Import Lists.
From S2P Require Import Util.
From S2P Require Import Mail.
From S2P Require Import MailMoney.
From S2P Require Import MailRuns.
From S2P Require Import Float.
From S2P Require Import Auction.
From S2P Require Import AuctionMoney.
Local Open Scope Z_scope.

Inductive auction_op :=
| OpSellItem (p : Z) (q : SellRequest)
| OpPlaceBid (p npc id price : Z)
| OpRemoveItem (p npc id : Z)
| OpUpdateHouses
| OpMail (o : mail_op).

Section Runs.
Context `{AuctionWorld}.

Definition auction_step (now : Z) (o : auction_op) (s : Auctions) : Auctions :=
  match o with
  | OpSellItem p q => HandleAuctionSellItem now p q s
  | OpPlaceBid p npc id price => HandleAuctionPlaceBid now p npc id price s
  | OpRemoveItem p npc id => HandleAuctionRemoveItem now p npc id s
  | OpUpdateHouses => Update_houses now s
  | OpMail o => on_post (run_op now o) s
  end.
Fixpoint run_auctions (l : list (Z * auction_op)) (s : Auctions) : Auctions :=
  match l with [] => s | (now, o) :: l => run_auctions l (auction_step now o s) end.

(** What the theorem asks of an operation: mail ids are left, the cuts of the
    auctions are no more than their prices, a new deposit fits 31 bits, and
    the mail's operations are [honest]. *)
Definition fair_houses (s : Auctions) : Prop := forall h, map_Forall (fun _ => fair) (house_map h s).
Definition fair_op (now : Z) (o : auction_op) (s : Auctions) : Prop :=
  match o with
  | OpSellItem p q => deposits_fair (HandleAuctionSellItem now p q s)
  | OpPlaceBid p npc id price => 0 < p /\ 0 <= price /\ mails_left 4 s /\ fair_houses s
  | OpRemoveItem p npc id => 0 < p /\ mails_left 2 s
  | OpUpdateHouses => mails_left (6 * Z.of_nat (base.size (auctionhouse s))) s /\ fair_houses s
  | OpMail o => honest o (post s)
  end.
Fixpoint fair_run (l : list (Z * auction_op)) (s : Auctions) : Prop :=
  match l with [] => True | (now, o) :: l => fair_op now o s /\ fair_run l (auction_step now o s) end.

Lemma mail_step_worth f s : auctions_ok s -> thrifty 1 (post s) (f (post s)) -> auctions_ok (on_post f s) /\ worth (on_post f s) <= worth s.
Proof.
  intros [_ Hh] (Hok & W & _). assert (Hs : same_houses s (on_post f s)) by (by intros []).
  split; [split; [done|by eapply houses_ok_same]|]. unfold worth. rewrite (escrow_same _ _ Hs). change (post (on_post f s)) with (f (post s)). lia.
Qed.
Lemma auction_step_worth now o s : auctions_ok s -> fair_op now o s ->
  auctions_ok (auction_step now o s) /\ worth (auction_step now o s) <= worth s.
Proof.
  intros Hok Ho. assert (Hc : forall n t, careful n s t -> auctions_ok t /\ worth t <= worth s) by (intros n t (H1 & H2 & _); done).
  destruct o as [p q|p npc id price|p npc id| |o]; cbn [auction_step fair_op] in *.
  - by eapply Hc, SellItem_careful.
  - destruct Ho as (H1 & H2 & H3 & H4). by eapply Hc, PlaceBid_careful.
  - destruct Ho as [H1 H2]. by eapply Hc, RemoveItem_careful.
  - destruct Ho as [H1 H2]. by eapply Hc, Update_houses_careful.
  - apply mail_step_worth; [done|]. apply run_op_thrifty; [apply Hok|done].
Qed.


(** ** Outbidding *)

Lemma SendMailTo_row now d rcv sd chk delay s : post_ok s -> ids_left s ->
  exists expire, mail (SendMailTo now d rcv sd chk delay s) = <[mailId s := draft_row rcv (now + delay) expire chk sd d]> (mail s).
Proof.
  intros Hok Hid. pose proof Hok as [(_ & _ & Hi & Hn) _]. unfold SendMailTo. rewrite GenerateMailID_left by (done || apply Hn). cbv zeta.
  assert (Hfresh : mail s !! mailId s = None) by (apply eq_None_not_Some; intros [r Hr]; specialize (Hi _ _ Hr); lia).
  match goal with |- context [foreach (fun low => INS_MAIL_ITEM ?i low ?q) ?l ?t] => set (t2 := t) in *;
    destruct (foreach_same (fun low => INS_MAIL_ITEM i low q) l t2 (fun a u => INS_MAIL_ITEM_same _ _ _ _)) as (_ & M3 & _);
    set (t3 := foreach (fun low => INS_MAIL_ITEM i low q) l t2) in * end.
  eexists. transitivity (mail t3); [|rewrite M3; unfold t2, INS_MAIL; cbn; rewrite Hfresh; reflexivity].
  destruct (FindPlayer t3 rcv) as [y|]; [|done]. destruct (deliver_step now rcv (now + delay) t3) as (g & _ & _ & Md).
  destruct (m_mailsLoaded y); [exact Md|exact Md].
Qed.

(** What an outbidding mail is, besides what [Outbidded_sends] says of it *)
Lemma Outbidded_row now e price p s : post_ok (post s) -> ids_left (post s) -> known (post s) (bidder e) = true -> is_u32 (bid e) ->
  let t := SendAuctionOutbiddedMail now e price p s in
  exists r, mail (post t) !! mailId (post s) = Some r /\ r_receiver r = bidder e /\ r_money r = bid e /\ r_deliver_time r = now /\
    auctionhouse t = auctionhouse s.
Proof.
  intros Hok Hid Hk Hb t. unfold t, SendAuctionOutbiddedMail. rewrite Hk. cbv zeta.
  set (s1 := when _ _ s). assert (P1 : post s1 = post s) by (unfold s1, when; by case_match).
  assert (R1 : auctionhouse s1 = auctionhouse s) by (unfold s1, when; by case_match).
  set (d := AddMoney _ _). destruct (SendMailTo_row now d (bidder e) (auction_sender e) MAIL_CHECK_MASK_COPIED 0 (post s) Hok Hid) as [ex Hm].
  exists (draft_row (bidder e) (now + 0) ex MAIL_CHECK_MASK_COPIED (auction_sender e) d). split_and!; [|done|apply u32_small; exact Hb|cbn; lia|exact R1].
  change (mail (SendMailTo now d (bidder e) (auction_sender e) MAIL_CHECK_MASK_COPIED 0 (post s1)) !! mailId (post s) = Some
    (draft_row (bidder e) (now + 0) ex MAIL_CHECK_MASK_COPIED (auction_sender e) d)).
  rewrite P1, Hm. apply lookup_insert_eq.
Qed.

(** A higher bid that is no buyout and fits 32 bits: the auction and its row have the new
    bidder and the price, the bidder pays the price, and the bidder he
    replaces is mailed exactly what he had bid, to take at once. *)
Theorem outbid_bidder_refunded now p npc f id price e x s :
  auctions_ok s -> mails_left 1 s -> 0 < id -> FindPlayer (post s) p = Some x -> AuctioneerFaction p npc = Some f ->
  GetAuction (GetAuctionsMap f) id s = Some e -> owner e <> p -> 0 < bidder e -> bidder e <> p -> known (post s) (bidder e) = true ->
  bid e < price -> startbid e <= price -> u32 (bid e + GetAuctionOutBid e) <= price -> is_buyout e price = false -> price <= p_money x -> price < 2 ^ 32 ->
  let s' := HandleAuctionPlaceBid now p npc id price s in
  GetAuction (GetAuctionsMap f) id s' = Some (set_bid price (set_bidder p e)) /\
  (forall r, auctionhouse s !! id = Some r -> exists r', auctionhouse s' !! id = Some r' /\ ar_bidder r' = p /\ ar_bid r' = price) /\
  (exists y, players (post s') !! p = Some y /\ p_money y = p_money x - price) /\
  (exists r, mail (post s') !! mailId (post s) = Some r /\ r_receiver r = bidder e /\ r_money r = bid e /\ r_deliver_time r = now).
Proof.
  intros [Hok Hh] Hid Hpos Hx Hf He Hown Hb Hbp Hk Hprice Hst Hout Hbuy Hm H32. destruct (house_auction s _ id e Hh He) as [Heid (Hbid & _)].
  pose proof Hx as [Hx1 _]%FindPlayer_online. pose proof (proj1 (proj1 Hok) p x Hx1) as (Hxm & _). unfold MAX_MONEY_AMOUNT, is_u32 in *.
  unfold HandleAuctionPlaceBid. rewrite Hx, Hf, He, Hbuy.
  repeat match goal with |- context [if ?b then _ else _] => first [replace b with false by (unfold HasEnoughMoney; cbn; lia) | fail 2] end. cbv zeta.
  unfold raise_bid. replace (0 <? bidder e) with true by lia. replace (bidder e =? p) with false by lia. cbv zeta.
  set (s1 := SendAuctionOutbiddedMail now e price p s).
  destruct (Outbidded_row now e price p s) as (r & Hr & R1 & R2 & R3 & R4); [done|unfold ids_left, mails_left in *; lia|done|unfold is_u32; lia|].
  destruct (Outbidded_sends now e price p s) as (A & _ & S1); [unfold is_u32; lia|]. fold s1 in Hr, R4, A, S1. destruct (S1 Hok) as (O1 & _ & U1 & _); [unfold mails_left in Hid; lia|].
  destruct (purse_of_Some _ _ _ _ U1 Hx1) as (y & Hy & Hym). rewrite u32_small by (unfold is_u32; lia).
  set (e' := set_bid price (set_bidder p e)). cbn [Id bid bidder set_bid set_bidder e']. rewrite Heid.
  assert (He' : Id e' = id) by exact Heid. split_and!.
  - set (h := GetAuctionsMap f). transitivity (GetAuction h id (store_auction h e' (on_post (upd_player p (Pay price)) s1))); [by destruct h|].
    unfold GetAuction, store_auction. rewrite house_set, decide_True, He' by done. apply lookup_insert_eq.
  - intros r0 Hr0. set (h := GetAuctionsMap f).
    assert (Ha : auctionhouse (store_auction h e' (on_post (upd_player p (Pay price)) s1)) = auctionhouse s) by (transitivity (auctionhouse s1); [by destruct h|exact R4]).
    unfold UPD_AUCTION_BID. cbn [auctionhouse notify set_auctionhouse set_a_events]. rewrite Ha, lookup_alter_eq, Hr0. by eexists.
  - exists (Pay price y). split; [|rewrite Pay_money by (unfold MAX_MONEY_AMOUNT; lia); lia].
    set (h := GetAuctionsMap f). transitivity (players (upd_player p (Pay price) (post s1)) !! p); [by destruct h|]. cbn. by rewrite lookup_alter_eq, Hy.
  - exists r. split; [|done]. set (h := GetAuctionsMap f). transitivity (mail (post s1) !! mailId (post s)); [by destruct h|exact Hr].
Qed.

(** ** An auction saved and loaded *)

Definition set_factionTemplateId (f : Z) (e : AuctionEntry) : AuctionEntry :=
  mkAuction (Id e) (auctioneer e) (itemGUIDLow e) (itemEntry e) (itemCount e) (owner e) (startbid e) (bid e) (buyout e) (a_expire_time e)
    (bidder e) (deposit e) (auctionHouseEntry e) f.

(** An auction that is inserted in the table, its time within 32 bits, is
    read back as it was, but for the faction template that a sale does not
    set: as long as the auctioneer's template leads to the same house and the
    item is loaded, unchanged. *)
Theorem saved_auction_loads e f s : auctionhouse s !! Id e = None -> is_u32 (a_expire_time e) ->
  CreatureFaction (auctioneer e) = Some f -> GetAuctionHouseEntry f = Some (auctionHouseEntry e) ->
  itemGUIDLow e ∈ mAitems s -> i_entry (item_of (post s) (itemGUIDLow e)) = itemEntry e -> i_count (item_of (post s) (itemGUIDLow e)) = itemCount e ->
  exists r, auctionhouse (INS_AUCTION e s) !! Id e = Some r /\ LoadFromDB (Id e) r s = Some (set_factionTemplateId f e).
Proof.
  intros Hnew Ht Hf Hh Hi He Hc. unfold INS_AUCTION. rewrite Hnew. eexists. split; [apply lookup_insert_eq|].
  unfold LoadFromDB, LoadFromFieldList. cbn. rewrite Hf, Hh. cbn. unfold GetAItem. rewrite bool_decide_true by done.
  rewrite He, Hc, u32_small by done. reflexivity.
Qed.
End Runs.

(** ** A concrete server *)

Definition market_world : AuctionWorld := {|
  auction_mail := town_world;
  CONFIG_ALLOW_TWO_SIDE_INTERACTION_AUCTION := false;
  RATE_AUCTION_TIME := f32_of_Z 1;
  RATE_AUCTION_DEPOSIT := f32_of_Z 1;
  RATE_AUCTION_CUT := f32_of_Z 1;
  FactionTemplateStore := fun _ => Some FACTION_MASK_ALLIANCE;
  AuctionHouseStore := fun id => Some (mkHouseEntry id 0 15 5);
  AuctioneerFaction := fun _ _ => Some 12;
  CreatureFaction := fun _ => Some 12
|}.
#[local] Existing Instance market_world.
(** The town, with a third player, and no auctions *)
Definition market (m1 m2 m3 : Z) : Auctions :=
  let t := town m1 m2 in
  mkAuctions (set_players (<[3 := townsman 13 m3 ∅]> (players t)) t) ∅ ∅ ∅ ∅ ∅ 1 [].
Lemma market_ok m1 m2 m3 : 0 <= m1 <= MAX_MONEY_AMOUNT -> 0 <= m2 <= MAX_MONEY_AMOUNT -> 0 <= m3 <= MAX_MONEY_AMOUNT -> auctions_ok (market m1 m2 m3).
Proof.
  intros H1 H2 H3. split; [|by intros []]. destruct (town_ok m1 m2 H1 H2) as [(A & B & C & D) E].
  split; [split_and!; try done|].
  - intros p x Hx. cbn [players post market set_players] in Hx. apply lookup_insert_Some in Hx as [[<- <-]|[_ Hx]]; [split_and!; cbn; try lia; constructor|by apply A].
  - intros p x Hx. cbn [players post market set_players] in Hx. apply lookup_insert_Some in Hx as [[<- <-]|[_ Hx]]; [done|exact (E p x Hx)].
Qed.
(** A sale of the items at [bid], [buyout] for 12 hours *)
Definition offer (bid buyout : Z) (lows : list (Z * Z)) : SellRequest :=
  mkSell 70 bid buyout 720 ((fun e => (item_guid64 e.1, e.2)) <$> lows).

(** An auction with two bidders, one bought out, one cancelled, one expired *)
Definition fair_day : list (Z * auction_op) :=
  [(1000, OpSellItem 1 (offer 100 900 [(500, 5)])); (1001, OpPlaceBid 2 70 1 150); (1002, OpPlaceBid 3 70 1 400);
   (1003, OpMail (OpGetMailList 2 7)); (1004, OpMail (OpTakeMoney 2 7 1 150)); (1005, OpPlaceBid 2 70 1 900);
   (1006, OpSellItem 1 (offer 10 0 [(501, 3)])); (60000, OpUpdateHouses)].
(** A check of [fair_houses] and [deposits_fair] that evaluates *)
Definition all_auctions (f : AuctionEntry -> bool) (s : Auctions) : bool :=
  forallb (fun h => forallb (fun e => f e.2) (map_to_list (house_map h s))) [Horde; Alliance; Neutral].
Lemma all_auctions_spec f s : all_auctions f s = true -> forall h, map_Forall (fun _ e => f e = true) (house_map h s).
Proof.
  unfold all_auctions. rewrite forallb_forall. intros Hf h id e He. assert (Hh : In h [Horde; Alliance; Neutral]) by (destruct h; cbn; auto).
  specialize (Hf h Hh). rewrite forallb_forall in Hf. apply (Hf (id, e)). by apply list_elem_of_In, elem_of_map_to_list.
Qed.
Definition fairb (e : AuctionEntry) : bool :=
  (GetAuctionCut e <=? stake e) && (GetAuctionCut (set_bid (buyout e) e) <=? buyout e + deposit e).
Lemma fair_houses_check s : all_auctions fairb s = true -> fair_houses s.
Proof.
  intros Hs h id e He. pose proof (all_auctions_spec _ _ Hs h id e He) as Hf. unfold fairb in Hf.
  split; [lia|]. intros p. change (GetAuctionCut (set_bid (buyout e) (set_bidder p e))) with (GetAuctionCut (set_bid (buyout e) e)). lia.
Qed.
Lemma deposits_check s : all_auctions (fun e => deposit e <? 2 ^ 31) s = true -> deposits_fair s.
Proof. intros Hs h id e He. pose proof (all_auctions_spec _ _ Hs h id e He) as Hf. cbn beta in Hf. lia. Qed.


(** Player 1 has put a stack up, player 2 has bid 150 for it. *)
Definition sold : Auctions :=
  auction_step 1001 (OpPlaceBid 2 70 1 150) (auction_step 1000 (OpSellItem 1 (offer 100 900 [(500, 5)])) (market 1000 2000 3000)).
Definition sold_auction : AuctionEntry := mkAuction 1 70 500 9 5 1 100 150 900 44200 2 100 (mkHouseEntry 1 0 15 5) 0.
Lemma sold_ok : auctions_ok sold.
Proof.
  apply auction_step_worth; [apply auction_step_worth; [apply market_ok; unfold MAX_MONEY_AMOUNT; lia|]|]; unfold fair_op, mails_left.
  - apply deposits_check. by vm_compute.
  - split_and!; [lia|lia|by vm_compute|apply fair_houses_check; by vm_compute].
Qed.
Lemma outbid_bidder_refunded_witness :
  let s' := HandleAuctionPlaceBid 1002 3 70 1 400 sold in
  GetAuction (GetAuctionsMap 12) 1 s' = Some (set_bid 400 (set_bidder 3 sold_auction)) /\
  (forall r, auctionhouse sold !! 1 = Some r -> exists r', auctionhouse s' !! 1 = Some r' /\ ar_bidder r' = 3 /\ ar_bid r' = 400) /\
  (exists y, players (post s') !! 3 = Some y /\ p_money y = p_money (townsman 13 3000 ∅) - 400) /\
  (exists r, mail (post s') !! mailId (post sold) = Some r /\ r_receiver r = bidder sold_auction /\ r_money r = bid sold_auction /\ r_deliver_time r = 1002).
Proof.
  apply (outbid_bidder_refunded 1002 3 70 12 1 400 sold_auction (townsman 13 3000 ∅) sold);
    [exact sold_ok|by vm_compute..].
Defined.

Lemma saved_auction_loads_witness :
  let e := sold_auction in let s := set_auctionhouse ∅ sold in
  exists r, auctionhouse (INS_AUCTION e s) !! 1 = Some r /\ LoadFromDB 1 r s = Some (set_factionTemplateId 12 e).
Proof. apply (saved_auction_loads sold_auction 12 (set_auctionhouse ∅ sold)); by vm_compute. Defined.

(** ** Where goods or prices are lost *)

(** Bids and buyouts are asked in 64 bits and kept in 32: a buyout of
    [2 ^ 32 + 1] copper is stored as one copper, for which the stack goes. *)
Theorem price_truncated :
  let s := run_auctions [(1000, OpSellItem 1 (offer (2 ^ 32 + 1) (2 ^ 32 + 1) [(500, 5)])); (1001, OpPlaceBid 2 70 1 1)] (market 1000 2000 3000) in
  purse 2 (post s) = Some 1999 /\ mail_items (post s) !! 500 = Some (3, 2).
Proof. vm_compute. done. Qed.

Definition stack_at (low : Z) (s : Auctions) : option Z := i_count <$> items (post s) !! low.
(** A sale that names the same stack twice checks each count on its own:
    three units named twice out of five make a new stack of six, and the old
    one's count, less than nothing, wraps to [2 ^ 32 - 1]. *)
Theorem same_stack_twice :
  let s := run_auctions [(1000, OpSellItem 1 (offer 100 900 [(500, 3); (500, 3)]))] (market 1000 2000 3000) in
  stack_at 502 s = Some 6 /\ stack_at 500 s = Some (2 ^ 32 - 1) /\ (itemCount <$> mAllianceAuctions s !! 1) = Some 6.
Proof. vm_compute. done. Qed.

(** When the server starts, auctions that have expired are settled before
    the items of the houses are loaded: the winner of an auction is sent
    nothing, the seller is sent the price, and the auction's row is gone. *)
Theorem startup_loses_items :
  let s := StartUp 90000 (set_mAitems ∅ (set_mAllianceAuctions ∅ sold)) in
  mail_items (post s) = ∅ /\ auctionhouse s = ∅ /\ mAllianceAuctions s = ∅ /\ mAitems s = ∅ /\
  (r_money <$> mail (post s) !! mailId (post sold)) = Some 243.
Proof. vm_compute. done. Qed.
