(* ===== verification/Guild.v ===== *)
(** * Guilds

    game/Guilds/Guild.cpp: ranks, members, leaders and the event log; the bank
    is in GuildBank.  A guild object is a value of [g_guilds], by its id, and
    [GuildStore] has the ids the manager knows; what the objects keep is saved
    in tables statement by statement.  Purses and items are those of the mail
    ([Post]); what a character object knows of guilds is in [chars].  An
    unordered map is gone through in the order of its keys. *)
From S2P Require Import Prelude.
From S2P Require Import Lists.
From S2P Require Import Util.
From S2P Require Import Mail.
Local Open Scope Z_scope.

(** ** Constants *)

Definition GUILD_BANK_MAX_TABS : Z := 8.
Definition GUILD_BANK_MAX_SLOTS : Z := 98.
Definition GUILD_BANK_MONEY_LOGS_TAB : Z := 100.
Definition GUILD_RANKS_MIN_COUNT : Z := 2.
Definition GUILD_RANKS_MAX_COUNT : Z := 10.
Definition GUILD_RANK_NONE : Z := 255.
Definition GUILD_WITHDRAW_MONEY_UNLIMITED : Z := 4294967295.
Definition GUILD_WITHDRAW_SLOT_UNLIMITED : Z := 4294967295.
Definition GUILD_EVENT_LOG_GUID_UNDEFINED : Z := 4294967295.
Definition GUILD_EXPERIENCE_UNCAPPED_LEVEL : Z := 20.
Definition TAB_UNDEFINED : Z := 255.

(** GuildDefaultRanks *)
Definition GR_GUILDMASTER : Z := 0.
Definition GR_OFFICER : Z := 1.
Definition GR_INITIATE : Z := 4.

(** GuildRankRights *)
Definition GR_RIGHT_EMPTY : Z := 64.
Definition GR_RIGHT_GCHATLISTEN : Z := Z.lor GR_RIGHT_EMPTY 1.
Definition GR_RIGHT_GCHATSPEAK : Z := Z.lor GR_RIGHT_EMPTY 2.
Definition GR_RIGHT_INVITE : Z := Z.lor GR_RIGHT_EMPTY 16.
Definition GR_RIGHT_REMOVE : Z := Z.lor GR_RIGHT_EMPTY 32.
Definition GR_RIGHT_PROMOTE : Z := Z.lor GR_RIGHT_EMPTY 128.
Definition GR_RIGHT_DEMOTE : Z := Z.lor GR_RIGHT_EMPTY 256.
Definition GR_RIGHT_SETMOTD : Z := Z.lor GR_RIGHT_EMPTY 4096.
Definition GR_RIGHT_EPNOTE : Z := Z.lor GR_RIGHT_EMPTY 8192.
Definition GR_RIGHT_EOFFNOTE : Z := Z.lor GR_RIGHT_EMPTY 32768.
Definition GR_RIGHT_MODIFY_GUILD_INFO : Z := Z.lor GR_RIGHT_EMPTY 65536.
Definition GR_RIGHT_WITHDRAW_REPAIR : Z := 262144.
Definition GR_RIGHT_WITHDRAW_GOLD : Z := 524288.
Definition GR_RIGHT_MODIFY_BANK_TAB : Z := 4194304.
Definition GR_RIGHT_ALL : Z := 14548927.

(** GuildBankRights *)
Definition GUILD_BANK_RIGHT_VIEW_TAB : Z := 1.
Definition GUILD_BANK_RIGHT_PUT_ITEM : Z := 2.
Definition GUILD_BANK_RIGHT_DEPOSIT_ITEM : Z := Z.lor GUILD_BANK_RIGHT_VIEW_TAB GUILD_BANK_RIGHT_PUT_ITEM.
Definition GUILD_BANK_RIGHT_FULL : Z := 255.

(** GuildMemberFlags *)
Definition GUILDMEMBER_STATUS_NONE : Z := 0.
Definition GUILDMEMBER_STATUS_ONLINE : Z := 1.

Inductive GuildCommandType :=
| GUILD_COMMAND_CREATE | GUILD_COMMAND_INVITE | GUILD_COMMAND_QUIT | GUILD_COMMAND_PROMOTE | GUILD_COMMAND_DEMOTE
| GUILD_COMMAND_REMOVE | GUILD_COMMAND_CHANGE_LEADER | GUILD_COMMAND_EDIT_MOTD | GUILD_COMMAND_CHANGE_RANK
| GUILD_COMMAND_PUBLIC_NOTE.
Inductive GuildCommandError :=
| ERR_GUILD_COMMAND_SUCCESS | ERR_ALREADY_INVITED_TO_GUILD_S | ERR_GUILD_NAME_INVALID | ERR_GUILD_NAME_EXISTS_S
| ERR_GUILD_LEADER_LEAVE | ERR_GUILD_PERMISSIONS | ERR_GUILD_PLAYER_NOT_FOUND_S | ERR_GUILD_NOT_ALLIED
| ERR_GUILD_RANK_TOO_HIGH_S | ERR_GUILD_RANK_TOO_LOW_S | ERR_GUILD_UNDELETABLE_DUE_TO_LEVEL.
Inductive GuildEvents :=
| GE_PROMOTION | GE_DEMOTION | GE_JOINED | GE_LEFT | GE_REMOVED | GE_LEADER_CHANGED | GE_RANK_UPDATED | GE_SIGNED_ON
| GE_SIGNED_OFF | GE_BANK_MONEY_CHANGED.
Inductive GuildBankEventLogTypes :=
| GUILD_BANK_LOG_DEPOSIT_ITEM | GUILD_BANK_LOG_WITHDRAW_ITEM | GUILD_BANK_LOG_MOVE_ITEM | GUILD_BANK_LOG_DEPOSIT_MONEY
| GUILD_BANK_LOG_WITHDRAW_MONEY | GUILD_BANK_LOG_REPAIR_MONEY | GUILD_BANK_LOG_CASH_FLOW_DEPOSIT.
Inductive GuildEventLogTypes :=
| GUILD_EVENT_LOG_INVITE_PLAYER | GUILD_EVENT_LOG_JOIN_GUILD | GUILD_EVENT_LOG_PROMOTE_PLAYER
| GUILD_EVENT_LOG_DEMOTE_PLAYER | GUILD_EVENT_LOG_UNINVITE_PLAYER | GUILD_EVENT_LOG_LEAVE_GUILD.
Inductive GuildEmblemError :=
| ERR_GUILDEMBLEM_SUCCESS | ERR_GUILDEMBLEM_NOGUILD | ERR_GUILDEMBLEM_NOTGUILDMASTER | ERR_GUILDEMBLEM_NOTENOUGHMONEY
| ERR_GUILDEMBLEM_INVALIDVENDOR.
Definition GUILD_NEWS_LEVEL_UP : Z := 6.

(** ** Logs *)

Record LogEntry (E : Type) := mkEntry {
  e_guid : Z;
  e_timestamp : Z;
  e_data : E
}.
Arguments mkEntry {E}.
Arguments e_guid {E}.
Arguments e_timestamp {E}.
Arguments e_data {E}.
Record LogHolder (E : Type) := mkLog {
  m_log : list (LogEntry E);  (* oldest first *)
  m_maxRecords : Z;
  m_nextGUID : Z
}.
Arguments mkLog {E}.
Arguments m_log {E}.
Arguments m_maxRecords {E}.
Arguments m_nextGUID {E}.
Definition new_log {E} (maxRecords : Z) : LogHolder E := mkLog [] maxRecords GUILD_EVENT_LOG_GUID_UNDEFINED.
Definition CanInsert {E} (h : LogHolder E) : bool := Z.of_nat (length (m_log h)) <? m_maxRecords h.
(** [LogHolder::LoadEvent] *)
Definition LoadEvent {E} (e : LogEntry E) (h : LogHolder E) : LogHolder E :=
  mkLog (e :: m_log h) (m_maxRecords h)
    (if m_nextGUID h =? GUILD_EVENT_LOG_GUID_UNDEFINED then e_guid e else m_nextGUID h).
(** [LogHolder::GetNextGUID]: the guid is also kept *)
Definition GetNextGUID {E} (h : LogHolder E) : Z :=
  if m_nextGUID h =? GUILD_EVENT_LOG_GUID_UNDEFINED then 0 else u32 (m_nextGUID h + 1) `mod` m_maxRecords h.
(** [AddEvent(trans, new LogEntry(GetNextGUID(), ...))] *)
Definition AddEvent {E} (now : Z) (d : E) (h : LogHolder E) : LogHolder E :=
  let guid := GetNextGUID h in
  let log := if m_maxRecords h <=? Z.of_nat (length (m_log h)) then tail (m_log h) else m_log h in
  mkLog (log ++ [mkEntry guid now d]) (m_maxRecords h) guid.
(** The table of a log: [SaveToDB] deletes the row of the guid and inserts. *)
Definition SaveEvent {E} (now : Z) (d : E) (h : LogHolder E) (rows : gmap Z (LogEntry E)) : gmap Z (LogEntry E) :=
  let guid := GetNextGUID h in <[guid := mkEntry guid now d]> rows.

Record EventLogEntry := mkEventLog {
  m_eventType : GuildEventLogTypes;
  m_playerGuid1 : Z;
  m_playerGuid2 : Z;
  m_newRank : Z
}.
Record BankEventLogEntry := mkBankLog {
  m_bankEventType : GuildBankEventLogTypes;
  m_bankTabId : Z;
  m_playerGuid : Z;
  m_itemOrMoney : Z;
  m_itemStackCount : Z;
  m_destTabId : Z
}.
Record NewsLogEntry := mkNews {
  n_type : Z;
  n_playerGuid : Z;
  n_flags : Z;
  n_value : Z
}.

(** ** Data *)

Record GuildBankRightsAndSlots := mkRights {
  tabId : Z;
  rights : Z;
  slots : Z
}.
Definition SetGuildMasterValues (r : GuildBankRightsAndSlots) : GuildBankRightsAndSlots :=
  mkRights (tabId r) GUILD_BANK_RIGHT_FULL GUILD_WITHDRAW_SLOT_UNLIMITED.
Definition GetTabId (r : GuildBankRightsAndSlots) : Z := s8 (tabId r).
Definition GetSlots (r : GuildBankRightsAndSlots) : Z := s32 (slots r).
Definition GetBankRights (r : GuildBankRightsAndSlots) : Z := s8 (rights r).

Record RankInfo := mkRank {
  ri_rankId : Z;  (* m_rankId *)
  ri_name : text;  (* m_name *)
  m_rights : Z;
  m_bankMoneyPerDay : Z;
  m_bankTabRightsAndSlots : list GuildBankRightsAndSlots
}.
Definition set_ri_name (x : text) (r : RankInfo) : RankInfo :=
  mkRank (ri_rankId r) x (m_rights r) (m_bankMoneyPerDay r) (m_bankTabRightsAndSlots r).
Definition set_m_rights (x : Z) (r : RankInfo) : RankInfo :=
  mkRank (ri_rankId r) (ri_name r) x (m_bankMoneyPerDay r) (m_bankTabRightsAndSlots r).
Definition set_m_bankMoneyPerDay (x : Z) (r : RankInfo) : RankInfo :=
  mkRank (ri_rankId r) (ri_name r) (m_rights r) x (m_bankTabRightsAndSlots r).
Definition set_m_bankTabRightsAndSlots (x : list GuildBankRightsAndSlots) (r : RankInfo) : RankInfo :=
  mkRank (ri_rankId r) (ri_name r) (m_rights r) (m_bankMoneyPerDay r) x.

Record Member := mkMember {
  m_guid : Z;
  mb_name : text;  (* m_name *)
  m_zoneId : Z;
  mb_level : Z;  (* m_level *)
  m_class : Z;
  m_flags : Z;
  m_logoutTime : Z;
  m_accountId : Z;
  m_rankId : Z;
  m_publicNote : text;
  m_officerNote : text;
  m_bankWithdraw : list Z;
  m_achievementPoints : Z
}.
Definition set_m_zoneId (x : Z) (r : Member) : Member :=
  mkMember (m_guid r) (mb_name r) x (mb_level r) (m_class r) (m_flags r) (m_logoutTime r) (m_accountId r)
    (m_rankId r) (m_publicNote r) (m_officerNote r) (m_bankWithdraw r) (m_achievementPoints r).
Definition set_mb_level (x : Z) (r : Member) : Member :=
  mkMember (m_guid r) (mb_name r) (m_zoneId r) x (m_class r) (m_flags r) (m_logoutTime r) (m_accountId r)
    (m_rankId r) (m_publicNote r) (m_officerNote r) (m_bankWithdraw r) (m_achievementPoints r).
Definition set_m_flags (x : Z) (r : Member) : Member :=
  mkMember (m_guid r) (mb_name r) (m_zoneId r) (mb_level r) (m_class r) x (m_logoutTime r) (m_accountId r)
    (m_rankId r) (m_publicNote r) (m_officerNote r) (m_bankWithdraw r) (m_achievementPoints r).
Definition set_m_logoutTime (x : Z) (r : Member) : Member :=
  mkMember (m_guid r) (mb_name r) (m_zoneId r) (mb_level r) (m_class r) (m_flags r) x (m_accountId r)
    (m_rankId r) (m_publicNote r) (m_officerNote r) (m_bankWithdraw r) (m_achievementPoints r).
Definition set_m_rankId (x : Z) (r : Member) : Member :=
  mkMember (m_guid r) (mb_name r) (m_zoneId r) (mb_level r) (m_class r) (m_flags r) (m_logoutTime r)
    (m_accountId r) x (m_publicNote r) (m_officerNote r) (m_bankWithdraw r) (m_achievementPoints r).
Definition set_m_publicNote (x : text) (r : Member) : Member :=
  mkMember (m_guid r) (mb_name r) (m_zoneId r) (mb_level r) (m_class r) (m_flags r) (m_logoutTime r)
    (m_accountId r) (m_rankId r) x (m_officerNote r) (m_bankWithdraw r) (m_achievementPoints r).
Definition set_m_officerNote (x : text) (r : Member) : Member :=
  mkMember (m_guid r) (mb_name r) (m_zoneId r) (mb_level r) (m_class r) (m_flags r) (m_logoutTime r)
    (m_accountId r) (m_rankId r) (m_publicNote r) x (m_bankWithdraw r) (m_achievementPoints r).
Definition set_m_bankWithdraw (x : list Z) (r : Member) : Member :=
  mkMember (m_guid r) (mb_name r) (m_zoneId r) (mb_level r) (m_class r) (m_flags r) (m_logoutTime r)
    (m_accountId r) (m_rankId r) (m_publicNote r) (m_officerNote r) x (m_achievementPoints r).
Definition set_m_achievementPoints (x : Z) (r : Member) : Member :=
  mkMember (m_guid r) (mb_name r) (m_zoneId r) (mb_level r) (m_class r) (m_flags r) (m_logoutTime r)
    (m_accountId r) (m_rankId r) (m_publicNote r) (m_officerNote r) (m_bankWithdraw r) x.

Definition no_items : gmap Z Z := ∅.
Record BankTab := mkTab {
  m_items : gmap Z Z;  (* low guids by slot *)
  bt_name : text;  (* m_name *)
  bt_icon : text;  (* m_icon *)
  bt_text : text  (* m_text *)
}.
Definition set_m_items (x : gmap Z Z) (r : BankTab) : BankTab :=
  mkTab x (bt_name r) (bt_icon r) (bt_text r).
Definition set_bt_name (x : text) (r : BankTab) : BankTab :=
  mkTab (m_items r) x (bt_icon r) (bt_text r).
Definition set_bt_icon (x : text) (r : BankTab) : BankTab :=
  mkTab (m_items r) (bt_name r) x (bt_text r).
Definition set_bt_text (x : text) (r : BankTab) : BankTab :=
  mkTab (m_items r) (bt_name r) (bt_icon r) x.

Record EmblemInfo := mkEmblem {
  m_style : Z;
  m_color : Z;
  m_borderStyle : Z;
  m_borderColor : Z;
  m_backgroundColor : Z
}.

Record Guild := mkGuild {
  m_name : text;
  m_leaderGuid : Z;
  m_motd : text;
  m_info : text;
  m_createdDate : Z;
  m_emblemInfo : EmblemInfo;
  m_accountsNumber : Z;
  m_bankMoney : Z;
  m_ranks : list RankInfo;
  m_members : gmap Z Member;  (* by low guid *)
  m_bankTabs : list BankTab;
  m_eventLog : LogHolder EventLogEntry;
  m_bankEventLog : list (LogHolder BankEventLogEntry);
  m_newsLog : LogHolder NewsLogEntry;
  g_level : Z;  (* _level *)
  g_experience : Z;  (* _experience *)
  g_todayExperience : Z  (* _todayExperience *)
}.
Definition set_m_name (x : text) (r : Guild) : Guild :=
  mkGuild x (m_leaderGuid r) (m_motd r) (m_info r) (m_createdDate r) (m_emblemInfo r) (m_accountsNumber r)
    (m_bankMoney r) (m_ranks r) (m_members r) (m_bankTabs r) (m_eventLog r) (m_bankEventLog r) (m_newsLog r)
    (g_level r) (g_experience r) (g_todayExperience r).
Definition set_m_leaderGuid (x : Z) (r : Guild) : Guild :=
  mkGuild (m_name r) x (m_motd r) (m_info r) (m_createdDate r) (m_emblemInfo r) (m_accountsNumber r)
    (m_bankMoney r) (m_ranks r) (m_members r) (m_bankTabs r) (m_eventLog r) (m_bankEventLog r) (m_newsLog r)
    (g_level r) (g_experience r) (g_todayExperience r).
Definition set_m_motd (x : text) (r : Guild) : Guild :=
  mkGuild (m_name r) (m_leaderGuid r) x (m_info r) (m_createdDate r) (m_emblemInfo r) (m_accountsNumber r)
    (m_bankMoney r) (m_ranks r) (m_members r) (m_bankTabs r) (m_eventLog r) (m_bankEventLog r) (m_newsLog r)
    (g_level r) (g_experience r) (g_todayExperience r).
Definition set_m_info (x : text) (r : Guild) : Guild :=
  mkGuild (m_name r) (m_leaderGuid r) (m_motd r) x (m_createdDate r) (m_emblemInfo r) (m_accountsNumber r)
    (m_bankMoney r) (m_ranks r) (m_members r) (m_bankTabs r) (m_eventLog r) (m_bankEventLog r) (m_newsLog r)
    (g_level r) (g_experience r) (g_todayExperience r).
Definition set_m_createdDate (x : Z) (r : Guild) : Guild :=
  mkGuild (m_name r) (m_leaderGuid r) (m_motd r) (m_info r) x (m_emblemInfo r) (m_accountsNumber r)
    (m_bankMoney r) (m_ranks r) (m_members r) (m_bankTabs r) (m_eventLog r) (m_bankEventLog r) (m_newsLog r)
    (g_level r) (g_experience r) (g_todayExperience r).
Definition set_m_emblemInfo (x : EmblemInfo) (r : Guild) : Guild :=
  mkGuild (m_name r) (m_leaderGuid r) (m_motd r) (m_info r) (m_createdDate r) x (m_accountsNumber r)
    (m_bankMoney r) (m_ranks r) (m_members r) (m_bankTabs r) (m_eventLog r) (m_bankEventLog r) (m_newsLog r)
    (g_level r) (g_experience r) (g_todayExperience r).
Definition set_m_accountsNumber (x : Z) (r : Guild) : Guild :=
  mkGuild (m_name r) (m_leaderGuid r) (m_motd r) (m_info r) (m_createdDate r) (m_emblemInfo r) x (m_bankMoney
    r) (m_ranks r) (m_members r) (m_bankTabs r) (m_eventLog r) (m_bankEventLog r) (m_newsLog r) (g_level r)
    (g_experience r) (g_todayExperience r).
Definition set_m_bankMoney (x : Z) (r : Guild) : Guild :=
  mkGuild (m_name r) (m_leaderGuid r) (m_motd r) (m_info r) (m_createdDate r) (m_emblemInfo r)
    (m_accountsNumber r) x (m_ranks r) (m_members r) (m_bankTabs r) (m_eventLog r) (m_bankEventLog r)
    (m_newsLog r) (g_level r) (g_experience r) (g_todayExperience r).
Definition set_m_ranks (x : list RankInfo) (r : Guild) : Guild :=
  mkGuild (m_name r) (m_leaderGuid r) (m_motd r) (m_info r) (m_createdDate r) (m_emblemInfo r)
    (m_accountsNumber r) (m_bankMoney r) x (m_members r) (m_bankTabs r) (m_eventLog r) (m_bankEventLog r)
    (m_newsLog r) (g_level r) (g_experience r) (g_todayExperience r).
Definition set_m_members (x : gmap Z Member) (r : Guild) : Guild :=
  mkGuild (m_name r) (m_leaderGuid r) (m_motd r) (m_info r) (m_createdDate r) (m_emblemInfo r)
    (m_accountsNumber r) (m_bankMoney r) (m_ranks r) x (m_bankTabs r) (m_eventLog r) (m_bankEventLog r)
    (m_newsLog r) (g_level r) (g_experience r) (g_todayExperience r).
Definition set_m_bankTabs (x : list BankTab) (r : Guild) : Guild :=
  mkGuild (m_name r) (m_leaderGuid r) (m_motd r) (m_info r) (m_createdDate r) (m_emblemInfo r)
    (m_accountsNumber r) (m_bankMoney r) (m_ranks r) (m_members r) x (m_eventLog r) (m_bankEventLog r)
    (m_newsLog r) (g_level r) (g_experience r) (g_todayExperience r).
Definition set_m_eventLog (x : LogHolder EventLogEntry) (r : Guild) : Guild :=
  mkGuild (m_name r) (m_leaderGuid r) (m_motd r) (m_info r) (m_createdDate r) (m_emblemInfo r)
    (m_accountsNumber r) (m_bankMoney r) (m_ranks r) (m_members r) (m_bankTabs r) x (m_bankEventLog r)
    (m_newsLog r) (g_level r) (g_experience r) (g_todayExperience r).
Definition set_m_bankEventLog (x : list (LogHolder BankEventLogEntry)) (r : Guild) : Guild :=
  mkGuild (m_name r) (m_leaderGuid r) (m_motd r) (m_info r) (m_createdDate r) (m_emblemInfo r)
    (m_accountsNumber r) (m_bankMoney r) (m_ranks r) (m_members r) (m_bankTabs r) (m_eventLog r) x (m_newsLog
    r) (g_level r) (g_experience r) (g_todayExperience r).
Definition set_m_newsLog (x : LogHolder NewsLogEntry) (r : Guild) : Guild :=
  mkGuild (m_name r) (m_leaderGuid r) (m_motd r) (m_info r) (m_createdDate r) (m_emblemInfo r)
    (m_accountsNumber r) (m_bankMoney r) (m_ranks r) (m_members r) (m_bankTabs r) (m_eventLog r)
    (m_bankEventLog r) x (g_level r) (g_experience r) (g_todayExperience r).
Definition set_g_level (x : Z) (r : Guild) : Guild :=
  mkGuild (m_name r) (m_leaderGuid r) (m_motd r) (m_info r) (m_createdDate r) (m_emblemInfo r)
    (m_accountsNumber r) (m_bankMoney r) (m_ranks r) (m_members r) (m_bankTabs r) (m_eventLog r)
    (m_bankEventLog r) (m_newsLog r) x (g_experience r) (g_todayExperience r).
Definition set_g_experience (x : Z) (r : Guild) : Guild :=
  mkGuild (m_name r) (m_leaderGuid r) (m_motd r) (m_info r) (m_createdDate r) (m_emblemInfo r)
    (m_accountsNumber r) (m_bankMoney r) (m_ranks r) (m_members r) (m_bankTabs r) (m_eventLog r)
    (m_bankEventLog r) (m_newsLog r) (g_level r) x (g_todayExperience r).
Definition set_g_todayExperience (x : Z) (r : Guild) : Guild :=
  mkGuild (m_name r) (m_leaderGuid r) (m_motd r) (m_info r) (m_createdDate r) (m_emblemInfo r)
    (m_accountsNumber r) (m_bankMoney r) (m_ranks r) (m_members r) (m_bankTabs r) (m_eventLog r)
    (m_bankEventLog r) (m_newsLog r) (g_level r) (g_experience r) x.

(** What a character object knows of guilds. *)
Record Char := mkChar {
  c_name : text;
  c_class : Z;
  c_zone : Z;
  c_achievementPoints : Z;
  c_ignored : gset Z;  (* the social list *)
  c_guildId : Z;  (* OBJECT_FIELD_DATA *)
  c_invited : Z;  (* m_GuildIdInvited *)
  c_rank : Z;  (* PLAYER_FIELD_GUILD_RANK_ID *)
  c_guildLevel : Z;
  c_spells : gset Z
}.
Definition set_c_guildId (x : Z) (r : Char) : Char :=
  mkChar (c_name r) (c_class r) (c_zone r) (c_achievementPoints r) (c_ignored r) x (c_invited r) (c_rank r)
    (c_guildLevel r) (c_spells r).
Definition set_c_invited (x : Z) (r : Char) : Char :=
  mkChar (c_name r) (c_class r) (c_zone r) (c_achievementPoints r) (c_ignored r) (c_guildId r) x (c_rank r)
    (c_guildLevel r) (c_spells r).
Definition set_c_rank (x : Z) (r : Char) : Char :=
  mkChar (c_name r) (c_class r) (c_zone r) (c_achievementPoints r) (c_ignored r) (c_guildId r) (c_invited r) x
    (c_guildLevel r) (c_spells r).
Definition set_c_guildLevel (x : Z) (r : Char) : Char :=
  mkChar (c_name r) (c_class r) (c_zone r) (c_achievementPoints r) (c_ignored r) (c_guildId r) (c_invited r)
    (c_rank r) x (c_spells r).
Definition set_c_spells (x : gset Z) (r : Char) : Char :=
  mkChar (c_name r) (c_class r) (c_zone r) (c_achievementPoints r) (c_ignored r) (c_guildId r) (c_invited r)
    (c_rank r) (c_guildLevel r) x.

(** Rows of the tables. *)
Record GuildRow := mkGuildRow {
  gr_name : text;
  gr_leaderguid : Z;
  gr_info : text;
  gr_motd : text;
  gr_createdate : Z;
  gr_emblem : EmblemInfo;
  gr_BankMoney : Z;
  gr_level : Z;
  gr_experience : Z;
  gr_todayExperience : Z
}.
Definition set_gr_name (x : text) (r : GuildRow) : GuildRow :=
  mkGuildRow x (gr_leaderguid r) (gr_info r) (gr_motd r) (gr_createdate r) (gr_emblem r) (gr_BankMoney r)
    (gr_level r) (gr_experience r) (gr_todayExperience r).
Definition set_gr_leaderguid (x : Z) (r : GuildRow) : GuildRow :=
  mkGuildRow (gr_name r) x (gr_info r) (gr_motd r) (gr_createdate r) (gr_emblem r) (gr_BankMoney r) (gr_level
    r) (gr_experience r) (gr_todayExperience r).
Definition set_gr_info (x : text) (r : GuildRow) : GuildRow :=
  mkGuildRow (gr_name r) (gr_leaderguid r) x (gr_motd r) (gr_createdate r) (gr_emblem r) (gr_BankMoney r)
    (gr_level r) (gr_experience r) (gr_todayExperience r).
Definition set_gr_motd (x : text) (r : GuildRow) : GuildRow :=
  mkGuildRow (gr_name r) (gr_leaderguid r) (gr_info r) x (gr_createdate r) (gr_emblem r) (gr_BankMoney r)
    (gr_level r) (gr_experience r) (gr_todayExperience r).
Definition set_gr_emblem (x : EmblemInfo) (r : GuildRow) : GuildRow :=
  mkGuildRow (gr_name r) (gr_leaderguid r) (gr_info r) (gr_motd r) (gr_createdate r) x (gr_BankMoney r)
    (gr_level r) (gr_experience r) (gr_todayExperience r).
Definition set_gr_BankMoney (x : Z) (r : GuildRow) : GuildRow :=
  mkGuildRow (gr_name r) (gr_leaderguid r) (gr_info r) (gr_motd r) (gr_createdate r) (gr_emblem r) x (gr_level
    r) (gr_experience r) (gr_todayExperience r).
Record RankRow := mkRankRow {
  rr_rname : text;
  rr_rights : Z;
  rr_BankMoneyPerDay : Z
}.
Definition set_rr_rname (x : text) (r : RankRow) : RankRow :=
  mkRankRow x (rr_rights r) (rr_BankMoneyPerDay r).
Definition set_rr_rights (x : Z) (r : RankRow) : RankRow :=
  mkRankRow (rr_rname r) x (rr_BankMoneyPerDay r).
Definition set_rr_BankMoneyPerDay (x : Z) (r : RankRow) : RankRow :=
  mkRankRow (rr_rname r) (rr_rights r) x.
Record MemberRow := mkMemberRow {
  mr_guildid : Z;
  mr_rank : Z;
  mr_pnote : text;
  mr_offnote : text
}.
Definition set_mr_rank (x : Z) (r : MemberRow) : MemberRow :=
  mkMemberRow (mr_guildid r) x (mr_pnote r) (mr_offnote r).
Definition set_mr_pnote (x : text) (r : MemberRow) : MemberRow :=
  mkMemberRow (mr_guildid r) (mr_rank r) x (mr_offnote r).
Definition set_mr_offnote (x : text) (r : MemberRow) : MemberRow :=
  mkMemberRow (mr_guildid r) (mr_rank r) (mr_pnote r) x.
Record TabRow := mkTabRow {
  tr_TabName : text;
  tr_TabIcon : text;
  tr_TabText : text
}.
Definition set_tr_TabName (x : text) (r : TabRow) : TabRow :=
  mkTabRow x (tr_TabIcon r) (tr_TabText r).
Definition set_tr_TabIcon (x : text) (r : TabRow) : TabRow :=
  mkTabRow (tr_TabName r) x (tr_TabText r).
Definition set_tr_TabText (x : text) (r : TabRow) : TabRow :=
  mkTabRow (tr_TabName r) (tr_TabIcon r) x.

(** Packets that only say what the state is. *)
Inductive GuildPacket :=
| SMSG_GUILD_EVENT_BANK_MONEY_CHANGED | SMSG_GUILD_EVENT_BANK_TAB_ADDED | SMSG_GUILD_EVENT_BANK_TAB_MODIFIED
| SMSG_GUILD_EVENT_BANK_TAB_TEXT_CHANGED | SMSG_GUILD_EVENT_MOTD | SMSG_GUILD_MEMBER_DAILY_RESET
| SMSG_GUILD_MEMBER_UPDATE_NOTE | SMSG_GUILD_NEWS_UPDATE | SMSG_GUILD_PERMISSIONS_QUERY_RESULTS
| SMSG_GUILD_QUERY_RESPONSE | SMSG_GUILD_RANK | SMSG_GUILD_RANKS_UPDATE | SMSG_GUILD_RENAMED
| SMSG_GUILD_REPUTATION_WEEKLY_CAP | SMSG_GUILD_ROSTER | SMSG_GUILD_UPDATE_ROSTER | SMSG_GUILD_XP_GAIN
| SMSG_GUILD_BANK_QUERY_TEXT_RESULT | SMSG_GUILD_BANK_LIST | SMSG_GUILD_ACHIEVEMENT_DATA.
(** What is sent or told to other parts of the server. *)
Inductive GuildEvent :=
| SendCommandResult (player : Z) (type : GuildCommandType) (error : GuildCommandError)
| SendSaveEmblemResult (player : Z) (error : GuildEmblemError)
| BroadcastEvent (guild : Z) (e : GuildEvents) (guid : Z)
| BroadcastPacket (guild : Z) (opcode : GuildPacket)
| SendPacket (player : Z) (opcode : GuildPacket)
| SendGuildInvite (player guild inviter : Z)
| RemovePetitionsAndSigns (player : Z)
| FinderRemoveRequests (player : Z)
| FinderDeleteGuild (guild : Z)
| CalendarRemove (player guild : Z)
| ReachGuildLevel (guild level player : Z)
| GuildStopNow.

Record Guilds := mkGuilds {
  g_post : Post;  (* purses, items *)
  g_now : Z;  (* time(NULL) *)
  chars : gmap Z Char;
  g_guilds : gmap Z Guild;  (* objects *)
  GuildStore : gset Z;
  NextGuildId : Z;
  t_guild : gmap Z GuildRow;
  guild_rank : gmap (Z * Z) RankRow;
  guild_member : gmap Z MemberRow;
  guild_member_withdraw : gmap Z (list Z);
  guild_bank_right : gmap (Z * Z * Z) (Z * Z);  (* TabId, rid *)
  guild_bank_tab : gmap (Z * Z) TabRow;
  guild_bank_item : gmap (Z * Z * Z) Z;
  guild_eventlog : gmap Z (gmap Z (LogEntry EventLogEntry));
  guild_bank_eventlog : gmap (Z * Z) (gmap Z (LogEntry BankEventLogEntry));  (* guildid, TabId *)
  guild_newslog : gmap Z (gmap Z (LogEntry NewsLogEntry));
  g_events : list GuildEvent
}.
Definition set_g_post (x : Post) (r : Guilds) : Guilds :=
  mkGuilds x (g_now r) (chars r) (g_guilds r) (GuildStore r) (NextGuildId r) (t_guild r) (guild_rank r)
    (guild_member r) (guild_member_withdraw r) (guild_bank_right r) (guild_bank_tab r) (guild_bank_item r)
    (guild_eventlog r) (guild_bank_eventlog r) (guild_newslog r) (g_events r).
Definition set_g_now (x : Z) (r : Guilds) : Guilds :=
  mkGuilds (g_post r) x (chars r) (g_guilds r) (GuildStore r) (NextGuildId r) (t_guild r) (guild_rank r)
    (guild_member r) (guild_member_withdraw r) (guild_bank_right r) (guild_bank_tab r) (guild_bank_item r)
    (guild_eventlog r) (guild_bank_eventlog r) (guild_newslog r) (g_events r).
Definition set_chars (x : gmap Z Char) (r : Guilds) : Guilds :=
  mkGuilds (g_post r) (g_now r) x (g_guilds r) (GuildStore r) (NextGuildId r) (t_guild r) (guild_rank r)
    (guild_member r) (guild_member_withdraw r) (guild_bank_right r) (guild_bank_tab r) (guild_bank_item r)
    (guild_eventlog r) (guild_bank_eventlog r) (guild_newslog r) (g_events r).
Definition set_g_guilds (x : gmap Z Guild) (r : Guilds) : Guilds :=
  mkGuilds (g_post r) (g_now r) (chars r) x (GuildStore r) (NextGuildId r) (t_guild r) (guild_rank r)
    (guild_member r) (guild_member_withdraw r) (guild_bank_right r) (guild_bank_tab r) (guild_bank_item r)
    (guild_eventlog r) (guild_bank_eventlog r) (guild_newslog r) (g_events r).
Definition set_GuildStore (x : gset Z) (r : Guilds) : Guilds :=
  mkGuilds (g_post r) (g_now r) (chars r) (g_guilds r) x (NextGuildId r) (t_guild r) (guild_rank r)
    (guild_member r) (guild_member_withdraw r) (guild_bank_right r) (guild_bank_tab r) (guild_bank_item r)
    (guild_eventlog r) (guild_bank_eventlog r) (guild_newslog r) (g_events r).
Definition set_NextGuildId (x : Z) (r : Guilds) : Guilds :=
  mkGuilds (g_post r) (g_now r) (chars r) (g_guilds r) (GuildStore r) x (t_guild r) (guild_rank r)
    (guild_member r) (guild_member_withdraw r) (guild_bank_right r) (guild_bank_tab r) (guild_bank_item r)
    (guild_eventlog r) (guild_bank_eventlog r) (guild_newslog r) (g_events r).
Definition set_t_guild (x : gmap Z GuildRow) (r : Guilds) : Guilds :=
  mkGuilds (g_post r) (g_now r) (chars r) (g_guilds r) (GuildStore r) (NextGuildId r) x (guild_rank r)
    (guild_member r) (guild_member_withdraw r) (guild_bank_right r) (guild_bank_tab r) (guild_bank_item r)
    (guild_eventlog r) (guild_bank_eventlog r) (guild_newslog r) (g_events r).
Definition set_guild_rank (x : gmap (Z * Z) RankRow) (r : Guilds) : Guilds :=
  mkGuilds (g_post r) (g_now r) (chars r) (g_guilds r) (GuildStore r) (NextGuildId r) (t_guild r) x
    (guild_member r) (guild_member_withdraw r) (guild_bank_right r) (guild_bank_tab r) (guild_bank_item r)
    (guild_eventlog r) (guild_bank_eventlog r) (guild_newslog r) (g_events r).
Definition set_guild_member (x : gmap Z MemberRow) (r : Guilds) : Guilds :=
  mkGuilds (g_post r) (g_now r) (chars r) (g_guilds r) (GuildStore r) (NextGuildId r) (t_guild r) (guild_rank
    r) x (guild_member_withdraw r) (guild_bank_right r) (guild_bank_tab r) (guild_bank_item r) (guild_eventlog
    r) (guild_bank_eventlog r) (guild_newslog r) (g_events r).
Definition set_guild_member_withdraw (x : gmap Z (list Z)) (r : Guilds) : Guilds :=
  mkGuilds (g_post r) (g_now r) (chars r) (g_guilds r) (GuildStore r) (NextGuildId r) (t_guild r) (guild_rank
    r) (guild_member r) x (guild_bank_right r) (guild_bank_tab r) (guild_bank_item r) (guild_eventlog r)
    (guild_bank_eventlog r) (guild_newslog r) (g_events r).
Definition set_guild_bank_right (x : gmap (Z * Z * Z) (Z * Z)) (r : Guilds) : Guilds :=
  mkGuilds (g_post r) (g_now r) (chars r) (g_guilds r) (GuildStore r) (NextGuildId r) (t_guild r) (guild_rank
    r) (guild_member r) (guild_member_withdraw r) x (guild_bank_tab r) (guild_bank_item r) (guild_eventlog r)
    (guild_bank_eventlog r) (guild_newslog r) (g_events r).
Definition set_guild_bank_tab (x : gmap (Z * Z) TabRow) (r : Guilds) : Guilds :=
  mkGuilds (g_post r) (g_now r) (chars r) (g_guilds r) (GuildStore r) (NextGuildId r) (t_guild r) (guild_rank
    r) (guild_member r) (guild_member_withdraw r) (guild_bank_right r) x (guild_bank_item r) (guild_eventlog
    r) (guild_bank_eventlog r) (guild_newslog r) (g_events r).
Definition set_guild_bank_item (x : gmap (Z * Z * Z) Z) (r : Guilds) : Guilds :=
  mkGuilds (g_post r) (g_now r) (chars r) (g_guilds r) (GuildStore r) (NextGuildId r) (t_guild r) (guild_rank
    r) (guild_member r) (guild_member_withdraw r) (guild_bank_right r) (guild_bank_tab r) x (guild_eventlog r)
    (guild_bank_eventlog r) (guild_newslog r) (g_events r).
Definition set_guild_eventlog (x : gmap Z (gmap Z (LogEntry EventLogEntry))) (r : Guilds) : Guilds :=
  mkGuilds (g_post r) (g_now r) (chars r) (g_guilds r) (GuildStore r) (NextGuildId r) (t_guild r) (guild_rank
    r) (guild_member r) (guild_member_withdraw r) (guild_bank_right r) (guild_bank_tab r) (guild_bank_item r)
    x (guild_bank_eventlog r) (guild_newslog r) (g_events r).
Definition set_guild_bank_eventlog (x : gmap (Z * Z) (gmap Z (LogEntry BankEventLogEntry))) (r : Guilds) : Guilds :=
  mkGuilds (g_post r) (g_now r) (chars r) (g_guilds r) (GuildStore r) (NextGuildId r) (t_guild r) (guild_rank
    r) (guild_member r) (guild_member_withdraw r) (guild_bank_right r) (guild_bank_tab r) (guild_bank_item r)
    (guild_eventlog r) x (guild_newslog r) (g_events r).
Definition set_guild_newslog (x : gmap Z (gmap Z (LogEntry NewsLogEntry))) (r : Guilds) : Guilds :=
  mkGuilds (g_post r) (g_now r) (chars r) (g_guilds r) (GuildStore r) (NextGuildId r) (t_guild r) (guild_rank
    r) (guild_member r) (guild_member_withdraw r) (guild_bank_right r) (guild_bank_tab r) (guild_bank_item r)
    (guild_eventlog r) (guild_bank_eventlog r) x (g_events r).
Definition set_g_events (x : list GuildEvent) (r : Guilds) : Guilds :=
  mkGuilds (g_post r) (g_now r) (chars r) (g_guilds r) (GuildStore r) (NextGuildId r) (t_guild r) (guild_rank
    r) (guild_member r) (guild_member_withdraw r) (guild_bank_right r) (guild_bank_tab r) (guild_bank_item r)
    (guild_eventlog r) (guild_bank_eventlog r) (guild_newslog r) x.

Class GuildWorld := {
  guild_mail :: MailWorld;
  CONFIG_ALLOW_TWO_SIDE_INTERACTION_GUILD : bool;
  CONFIG_GUILD_LEVELING_ENABLED : bool;
  CONFIG_GUILD_UNDELETABLE_LEVEL : Z;
  CONFIG_GUILD_MAX_LEVEL : Z;
  CONFIG_GUILD_DAILY_XP_CAP : Z;
  CONFIG_GUILD_EVENT_LOG_COUNT : Z;
  CONFIG_GUILD_NEWS_LOG_COUNT : Z;
  CONFIG_GUILD_BANK_EVENT_LOG_COUNT : Z;
  (* Guild.AllowMultipleGuildMaster *)
  AllowMultipleGuildMaster : bool;
  (* sGuildPerkSpellsStore: level, spell *)
  GuildPerkSpellsStore : list (Z * Z);
  GuildXPperLevel : list Z;
  (* GetTrinityString: locale, entry *)
  GetTrinityString : Z -> Z -> text;
  (* GetSessionDbLocaleIndex *)
  DbLocaleIndex : Z -> Z;
  (* IsReservedName, IsValidCharterName *)
  IsReservedName : text -> bool;
  IsValidCharterName : text -> bool;
  (* GetGameObjectIfCanInteractWith(guid, GAMEOBJECT_TYPE_GUILD_BANK) *)
  CanUseGuildBank : Z -> Z -> bool;
  (* GetNPCIfCanInteractWith(guid, UNIT_NPC_FLAG_TABARDDESIGNER) *)
  CanUseTabardDesigner : Z -> Z -> bool
}.

(** ::toupper and ::tolower of the C locale *)
Definition toupper (c : Z) : Z := if (97 <=? c) && (c <=? 122) then c - 32 else c.
Definition tolower (c : Z) : Z := if (65 <=? c) && (c <=? 90) then c + 32 else c.

Definition GUID_LOPART (guid : Z) : Z := u32 guid.
Definition GOLD : Z := 10000.
Definition EMBLEM_PRICE : Z := 10 * GOLD.
Definition LANG_GUILD_MASTER : Z := 811.
Definition LANG_GUILD_OFFICER : Z := 812.
Definition LANG_GUILD_VETERAN : Z := 813.
Definition LANG_GUILD_MEMBER : Z := 814.
Definition LANG_GUILD_INITIATE : Z := 815.
Definition DEFAULT_LOCALE : Z := 0.
(** "No message set." and "<unknown>" *)
Definition no_message : text := [78; 111; 32; 109; 101; 115; 115; 97; 103; 101; 32; 115; 101; 116; 46].
Definition unknown_rank : text := [60; 117; 110; 107; 110; 111; 119; 110; 62].


Section Guild.
Context `{GuildWorld}.

Definition no_emblem : EmblemInfo := mkEmblem 0 0 0 0 0.
(** [Guild::Guild], and the log holders of [_CreateLogHolders] *)
Definition new_guild : Guild :=
  mkGuild [] 0 [] [] 0 no_emblem 0 0 [] ∅ [] (new_log CONFIG_GUILD_EVENT_LOG_COUNT)
    (replicate 9 (new_log CONFIG_GUILD_BANK_EVENT_LOG_COUNT)) (new_log CONFIG_GUILD_NEWS_LOG_COUNT) 1 0 0.
Definition new_member (now guid rankId : Z) : Member :=
  mkMember guid [] 0 0 0 GUILDMEMBER_STATUS_NONE now 0 rankId [] [] (replicate 9 0) 0.

Definition guild_of (g : Z) (s : Guilds) : Guild := default new_guild (g_guilds s !! g).
Definition upd_guild (g : Z) (f : Guild -> Guild) (s : Guilds) : Guilds := set_g_guilds (alter f g (g_guilds s)) s.
Definition upd_char (p : Z) (f : Char -> Char) (s : Guilds) : Guilds := set_chars (alter f p (chars s)) s.
Definition on_purse (p : Z) (f : Player -> Player) (s : Guilds) : Guilds := set_g_post (upd_player p f (g_post s)) s.
Definition tell (e : GuildEvent) (s : Guilds) : Guilds := set_g_events (g_events s ++ [e]) s.
Definition online (s : Guilds) (p : Z) : bool := if FindPlayer (g_post s) p then true else false.
Definition char_of (p : Z) (s : Guilds) : Char := default (mkChar [] 0 0 0 ∅ 0 0 0 0 ∅) (chars s !! p).
Definition forall_in {A} (f : A -> Guilds -> Guilds) (l : list A) (s : Guilds) : Guilds := foldl (fun s a => f a s) s l.

(** ** The tables *)

Definition UPD_GUILD (g : Z) (f : GuildRow -> GuildRow) (s : Guilds) : Guilds := set_t_guild (alter f g (t_guild s)) s.
(** A key that exists already makes an insertion fail. *)
Definition INS_GUILD (g : Z) (r : GuildRow) (s : Guilds) : Guilds :=
  match t_guild s !! g with None => set_t_guild (<[g := r]> (t_guild s)) s | Some _ => s end.
Definition DEL_GUILD (g : Z) (s : Guilds) : Guilds := set_t_guild (delete g (t_guild s)) s.
Definition INS_GUILD_RANK (g rid : Z) (r : RankRow) (s : Guilds) : Guilds :=
  match guild_rank s !! (g, rid) with None => set_guild_rank (<[(g, rid) := r]> (guild_rank s)) s | Some _ => s end.
Definition UPD_GUILD_RANK (g rid : Z) (f : RankRow -> RankRow) (s : Guilds) : Guilds :=
  set_guild_rank (alter f (g, rid) (guild_rank s)) s.
Definition DEL_GUILD_RANK (g rid : Z) (s : Guilds) : Guilds := set_guild_rank (delete (g, rid) (guild_rank s)) s.
Definition DEL_GUILD_RANKS (g : Z) (s : Guilds) : Guilds :=
  set_guild_rank (filter (fun e => e.1.1 <> g) (guild_rank s)) s.
Definition INS_GUILD_MEMBER (low : Z) (r : MemberRow) (s : Guilds) : Guilds :=
  match guild_member s !! low with None => set_guild_member (<[low := r]> (guild_member s)) s | Some _ => s end.
Definition UPD_GUILD_MEMBER (low : Z) (f : MemberRow -> MemberRow) (s : Guilds) : Guilds :=
  set_guild_member (alter f low (guild_member s)) s.
Definition DEL_GUILD_MEMBER (low : Z) (s : Guilds) : Guilds := set_guild_member (delete low (guild_member s)) s.
Definition DEL_GUILD_MEMBERS (g : Z) (s : Guilds) : Guilds :=
  set_guild_member (filter (fun e => mr_guildid e.2 <> g) (guild_member s)) s.
(** ON DUPLICATE KEY UPDATE *)
Definition INS_GUILD_MEMBER_WITHDRAW (low : Z) (l : list Z) (s : Guilds) : Guilds :=
  set_guild_member_withdraw (<[low := l]> (guild_member_withdraw s)) s.
Definition INS_GUILD_BANK_RIGHT (g tab rid rights slots : Z) (s : Guilds) : Guilds :=
  set_guild_bank_right (<[((g, tab), rid) := (rights, slots)]> (guild_bank_right s)) s.
Definition DEL_GUILD_BANK_RIGHTS (g : Z) (s : Guilds) : Guilds :=
  set_guild_bank_right (filter (fun e => e.1.1.1 <> g) (guild_bank_right s)) s.
Definition DEL_GUILD_BANK_RIGHTS_FOR_RANK (g rid : Z) (s : Guilds) : Guilds :=
  set_guild_bank_right (filter (fun e => ~ (e.1.1.1 = g /\ e.1.2 = rid)) (guild_bank_right s)) s.
Definition INS_GUILD_BANK_TAB (g tab : Z) (s : Guilds) : Guilds :=
  set_guild_bank_tab (<[(g, tab) := mkTabRow [] [] []]> (guild_bank_tab s)) s.
Definition DEL_GUILD_BANK_TABS (g : Z) (s : Guilds) : Guilds :=
  set_guild_bank_tab (filter (fun e => e.1.1 <> g) (guild_bank_tab s)) s.
Definition UPD_GUILD_BANK_TAB (g tab : Z) (f : TabRow -> TabRow) (s : Guilds) : Guilds :=
  set_guild_bank_tab (alter f (g, tab) (guild_bank_tab s)) s.
Definition DEL_GUILD_BANK_ITEMS (g : Z) (s : Guilds) : Guilds :=
  set_guild_bank_item (filter (fun e => e.1.1.1 <> g) (guild_bank_item s)) s.
Definition DEL_GUILD_BANK_EVENTLOGS (g : Z) (s : Guilds) : Guilds :=
  set_guild_bank_eventlog (filter (fun e => e.1.1 <> g) (guild_bank_eventlog s)) s.
Definition DEL_GUILD_EVENTLOGS (g : Z) (s : Guilds) : Guilds := set_guild_eventlog (delete g (guild_eventlog s)) s.

(** ** Ranks *)

Definition GetRankInfo (rankId : Z) (x : Guild) : option RankInfo :=
  if rankId <? u8 (Z.of_nat (length (m_ranks x))) then m_ranks x !! Z.to_nat rankId else None.
Definition GetRanksSize (x : Guild) : Z := u8 (Z.of_nat (length (m_ranks x))).
Definition GetLowestRankId (x : Guild) : Z := u8 (Z.of_nat (length (m_ranks x)) - 1).
Definition GetPurchasedTabsSize (x : Guild) : Z := u8 (Z.of_nat (length (m_bankTabs x))).
(** [_GetRankRights], [_GetRankName] *)
Definition GetRankRights (rankId : Z) (x : Guild) : Z := match GetRankInfo rankId x with Some r => m_rights r | None => 0 end.
Definition GetRankName (rankId : Z) (x : Guild) : text := match GetRankInfo rankId x with Some r => ri_name r | None => unknown_rank end.
(** [Guild::GetMember(guid)] *)
Definition GetMember (guid : Z) (x : Guild) : option Member := m_members x !! GUID_LOPART guid.
(** [_HasRankRight] of a player *)
Definition HasRankRight (p right : Z) (x : Guild) : bool :=
  match GetMember p x with
  | Some m => negb (Z.land (GetRankRights (m_rankId m) x) right =? GR_RIGHT_EMPTY)
  | None => false
  end.
Definition IsRank (rankId : Z) (m : Member) : bool := m_rankId m =? rankId.
Definition IsRankNotLower (rankId : Z) (m : Member) : bool := m_rankId m <=? rankId.
(** [_IsLeader] *)
Definition IsLeader (p : Z) (x : Guild) : bool :=
  (p =? m_leaderGuid x) || match GetMember p x with Some m => IsRank GR_GUILDMASTER m | None => false end.

Definition upd_rank (g i : Z) (f : RankInfo -> RankInfo) (s : Guilds) : Guilds :=
  upd_guild g (fun x => set_m_ranks (alter f (Z.to_nat i) (m_ranks x)) x) s.
(** [RankInfo::CreateMissingTabsIfNeeded], a tab *)
Definition missing_tab (g : Z) (i : Z) (r : RankInfo * Guilds) : RankInfo * Guilds :=
  let '(r, s) := r in
  match m_bankTabRightsAndSlots r !! Z.to_nat i with
  | None => (r, s)
  | Some t =>
      if GetTabId t =? i then (r, s)
      else
        let t := mkRights i (rights t) (slots t) in
        let t := if ri_rankId r =? GR_GUILDMASTER then SetGuildMasterValues t else t in
        (set_m_bankTabRightsAndSlots (<[Z.to_nat i := t]> (m_bankTabRightsAndSlots r)) r,
         INS_GUILD_BANK_RIGHT g i (ri_rankId r) (u8 (GetBankRights t)) (u32 (GetSlots t)) s)
  end.
Definition upto (n : Z) : list Z := Z.of_nat <$> seq 0 (Z.to_nat n).
Definition CreateMissingTabsIfNeeded (g tabs : Z) (r : RankInfo) (s : Guilds) : RankInfo * Guilds :=
  foldl (fun rs i => missing_tab g i rs) (r, s) (upto tabs).
(** ... of the rank at an index of [m_ranks] *)
Definition missing_tabs_of (g tabs i : Z) (s : Guilds) : Guilds :=
  match m_ranks (guild_of g s) !! Z.to_nat i with
  | None => s
  | Some r => let '(r, s) := CreateMissingTabsIfNeeded g tabs r s in upd_rank g i (fun _ => r) s
  end.
(** [RankInfo::SetName], [SetRights], [SetBankMoneyPerDay] of the rank at an index *)
Definition SetRankName (g i : Z) (name : text) (s : Guilds) : Guilds :=
  match m_ranks (guild_of g s) !! Z.to_nat i with
  | None => s
  | Some r =>
      if bool_decide (ri_name r = name) then s
      else UPD_GUILD_RANK g (ri_rankId r) (set_rr_rname name) (upd_rank g i (set_ri_name name) s)
  end.
Definition SetRankRights (g i rights : Z) (s : Guilds) : Guilds :=
  match m_ranks (guild_of g s) !! Z.to_nat i with
  | None => s
  | Some r =>
      let rights := if ri_rankId r =? GR_GUILDMASTER then GR_RIGHT_ALL else rights in
      if m_rights r =? rights then s
      else UPD_GUILD_RANK g (ri_rankId r) (set_rr_rights rights) (upd_rank g i (set_m_rights rights) s)
  end.
Definition SetBankMoneyPerDay (g i money : Z) (s : Guilds) : Guilds :=
  match m_ranks (guild_of g s) !! Z.to_nat i with
  | None => s
  | Some r =>
      let money := if ri_rankId r =? GR_GUILDMASTER then GUILD_WITHDRAW_MONEY_UNLIMITED else money in
      if m_bankMoneyPerDay r =? money then s
      else UPD_GUILD_RANK g (ri_rankId r) (set_rr_BankMoneyPerDay money) (upd_rank g i (set_m_bankMoneyPerDay money) s)
  end.
(** [_SetRankBankMoneyPerDay] *)
Definition SetRankBankMoneyPerDay (g rankId money : Z) (s : Guilds) : Guilds :=
  match GetRankInfo rankId (guild_of g s) with Some _ => SetBankMoneyPerDay g rankId money s | None => s end.
(** [_SetRankBankTabRightsAndSlots]; a negative tab id would be an index
    outside the array *)
Definition SetRankBankTabRightsAndSlots (g rankId : Z) (t : GuildBankRightsAndSlots) (saveToDB : bool) (s : Guilds) : Guilds :=
  if GetPurchasedTabsSize (guild_of g s) <=? GetTabId t then s
  else match GetRankInfo rankId (guild_of g s) with
  | None => s
  | Some r =>
      let t := if ri_rankId r =? GR_GUILDMASTER then SetGuildMasterValues t else t in
      let s := upd_rank g rankId (fun r => set_m_bankTabRightsAndSlots (<[Z.to_nat (GetTabId t) := t]> (m_bankTabRightsAndSlots r)) r) s in
      if saveToDB then INS_GUILD_BANK_RIGHT g (u8 (GetTabId t)) (ri_rankId r) (u8 (GetBankRights t)) (u32 (GetSlots t)) s else s
  end.
(** [_CreateRank] *)
Definition CreateRank (g : Z) (name : text) (rights : Z) (s : Guilds) : Guilds :=
  let newRankId := GetRanksSize (guild_of g s) in
  if GUILD_RANKS_MAX_COUNT <=? newRankId then s
  else
    let info := mkRank newRankId name rights 0 (replicate 8 (mkRights TAB_UNDEFINED 0 0)) in
    (* the copy in [m_ranks] is made before the tabs are *)
    let s := upd_guild g (fun x => set_m_ranks (m_ranks x ++ [info]) x) s in
    let '(info, s) := CreateMissingTabsIfNeeded g (GetPurchasedTabsSize (guild_of g s)) info s in
    INS_GUILD_RANK g (ri_rankId info) (mkRankRow (ri_name info) (m_rights info) 0) s.
(** [_CreateDefaultGuildRanks] *)
Definition CreateDefaultGuildRanks (g loc : Z) (s : Guilds) : Guilds :=
  let s := DEL_GUILD_BANK_RIGHTS g (DEL_GUILD_RANKS g s) in
  let s := CreateRank g (GetTrinityString loc LANG_GUILD_MASTER) GR_RIGHT_ALL s in
  let s := CreateRank g (GetTrinityString loc LANG_GUILD_OFFICER) GR_RIGHT_ALL s in
  let s := CreateRank g (GetTrinityString loc LANG_GUILD_VETERAN) (Z.lor GR_RIGHT_GCHATLISTEN GR_RIGHT_GCHATSPEAK) s in
  let s := CreateRank g (GetTrinityString loc LANG_GUILD_MEMBER) (Z.lor GR_RIGHT_GCHATLISTEN GR_RIGHT_GCHATSPEAK) s in
  CreateRank g (GetTrinityString loc LANG_GUILD_INITIATE) (Z.lor GR_RIGHT_GCHATLISTEN GR_RIGHT_GCHATSPEAK) s.

(** ** Members *)

Definition upd_member (g low : Z) (f : Member -> Member) (s : Guilds) : Guilds :=
  upd_guild g (fun x => set_m_members (alter f low (m_members x)) x) s.
(** [Guild::GetMember(name)]: the first of that name *)
Definition GetMemberByName (name : text) (x : Guild) : option Member :=
  snd <$> List.find (fun e => bool_decide (mb_name e.2 = name)) (map_ordered (m_members x)).
(** [Member::SetStats] of a player *)
Definition SetStats (p : Z) (s : Guilds) (m : Member) : Member :=
  let c := char_of p s in
  let x := players (g_post s) !! p in
  mkMember (m_guid m) (c_name c) (c_zone c) (from_option p_level 0 x) (c_class c) (m_flags m) (m_logoutTime m)
    (from_option p_account 0 x) (m_rankId m) (m_publicNote m) (m_officerNote m) (m_bankWithdraw m) (c_achievementPoints c).
(** [Member::SetStats] of the columns of a character *)
Definition SetStatsFromDB (p : Z) (s : Guilds) (m : Member) : Member :=
  set_m_achievementPoints (m_achievementPoints m) (SetStats p s m).
(** [Member::CheckStats] *)
Definition CheckStats (m : Member) : bool := (1 <=? mb_level m) && (1 <=? m_class m) && (m_class m <? 12).
(** [Member::ChangeRank] of the member with a low guid *)
Definition ChangeRank (g low newRank : Z) (s : Guilds) : Guilds :=
  match m_members (guild_of g s) !! low with
  | None => s
  | Some m =>
      let s := upd_member g low (set_m_rankId newRank) s in
      let s := if online s (m_guid m) then upd_char (m_guid m) (set_c_rank newRank) s else s in
      UPD_GUILD_MEMBER (GUID_LOPART (m_guid m)) (set_mr_rank newRank) s
  end.
(** [_SetLeaderGUID] *)
Definition SetLeaderGUID (g low : Z) (s : Guilds) : Guilds :=
  match m_members (guild_of g s) !! low with
  | None => s
  | Some m =>
      let s := ChangeRank g low GR_GUILDMASTER (upd_guild g (set_m_leaderGuid (m_guid m)) s) in
      UPD_GUILD g (set_gr_leaderguid (GUID_LOPART (m_guid m))) s
  end.
(** [_UpdateAccountsNumber] *)
Definition account_ids (M : gmap Z Member) : gset Z := list_to_set (m_accountId ∘ snd <$> map_ordered M).
Definition UpdateAccountsNumber (g : Z) (s : Guilds) : Guilds :=
  upd_guild g (fun x => set_m_accountsNumber (Z.of_nat (size (account_ids (m_members x)))) x) s.
(** [_LogEvent] *)
Definition LogEvent (g : Z) (type : GuildEventLogTypes) (guid1 guid2 newRank : Z) (s : Guilds) : Guilds :=
  let d := mkEventLog type guid1 guid2 newRank in
  let h := m_eventLog (guild_of g s) in
  let rows := default ∅ (guild_eventlog s !! g) in
  set_guild_eventlog (<[g := SaveEvent (g_now s) d h rows]> (guild_eventlog s))
    (upd_guild g (set_m_eventLog (AddEvent (g_now s) d h)) s).
(** [AddGuildNews]; REPLACE-like: the row of the guid is overwritten *)
Definition AddGuildNews (g type guid flags value : Z) (s : Guilds) : Guilds :=
  let d := mkNews type (GUID_LOPART guid) flags value in
  let h := m_newsLog (guild_of g s) in
  let rows := default ∅ (guild_newslog s !! g) in
  tell (BroadcastPacket g SMSG_GUILD_NEWS_UPDATE)
    (set_guild_newslog (<[g := SaveEvent (g_now s) d h rows]> (guild_newslog s))
      (upd_guild g (set_m_newsLog (AddEvent (g_now s) d h)) s)).

(** Perks of a guild of this level *)
Definition perks (level : Z) : list Z := snd <$> List.filter (fun e => e.1 <=? level) GuildPerkSpellsStore.
Definition learnSpell (p spell : Z) (s : Guilds) : Guilds := upd_char p (fun c => set_c_spells (c_spells c ∪ {[spell]}) c) s.
Definition removeSpell (p spell : Z) (s : Guilds) : Guilds := upd_char p (fun c => set_c_spells (c_spells c ∖ {[spell]}) c) s.

(** [Guild::SendLoginInfo] *)
Definition SendLoginInfo (g p : Z) (s : Guilds) : Guilds :=
  match GetMember p (guild_of g s) with
  | None => s
  | Some m =>
      let s := tell (SendPacket p SMSG_GUILD_RANK) (tell (BroadcastPacket g SMSG_GUILD_EVENT_MOTD) s) in
      let s := tell (SendPacket p SMSG_GUILD_MEMBER_DAILY_RESET) (tell (BroadcastEvent g GE_SIGNED_ON p) s) in
      if negb CONFIG_GUILD_LEVELING_ENABLED then s
      else
        let s := forall_in (learnSpell p) (perks (g_level (guild_of g s))) s in
        let s := tell (SendPacket p SMSG_GUILD_ACHIEVEMENT_DATA) (tell (SendPacket p SMSG_GUILD_REPUTATION_WEEKLY_CAP) s) in
        upd_member g (GUID_LOPART p) (fun m =>
          let m := SetStats p s m in set_m_flags (add_flag (m_flags m) GUILDMEMBER_STATUS_ONLINE) m) s
  end.

(** [Player::GetGuildIdFromDB] *)
Definition GetGuildIdFromDB (guid : Z) (s : Guilds) : Z :=
  match guild_member s !! GUID_LOPART guid with Some r => mr_guildid r | None => 0 end.
(** [Guild::AddMember] *)
Definition insert_member (g low : Z) (m : Member) (s : Guilds) : Guilds :=
  upd_guild g (fun x => set_m_members (<[low := m]> (m_members x)) x) s.
Definition AddMember (g guid rankId : Z) (s : Guilds) : bool * Guilds :=
  let in_guild := if online s guid then c_guildId (char_of guid s) else GetGuildIdFromDB guid s in
  if negb (in_guild =? 0) then (false, s)
  else
    let s := tell (RemovePetitionsAndSigns guid) s in
    let low := GUID_LOPART guid in
    let rankId := if rankId =? GUILD_RANK_NONE then GetLowestRankId (guild_of g s) else rankId in
    let member := new_member (g_now s) guid rankId in
    let added :=
      if online s guid then
        let s := insert_member g low member s in
        let s := upd_char guid (fun c => set_c_guildLevel (g_level (guild_of g s)) (set_c_rank rankId (set_c_invited 0 (set_c_guildId g c)))) s in
        Some (SendLoginInfo g guid s)
      else
        match players (g_post s) !! low with
        | None => None
        | Some _ =>
            let member := SetStatsFromDB low s member in
            if CheckStats member then Some (insert_member g low member s) else None
        end in
    match added with
    | None => (false, s)
    | Some s =>
        (* Member::SaveToDB *)
        let s := match m_members (guild_of g s) !! low with
                 | Some m => INS_GUILD_MEMBER low (mkMemberRow g (m_rankId m) (m_publicNote m) (m_officerNote m)) s
                 | None => s end in
        let s := LogEvent g GUILD_EVENT_LOG_JOIN_GUILD low 0 0 (UpdateAccountsNumber g s) in
        (true, tell (FinderRemoveRequests low) (tell (BroadcastEvent g GE_JOINED guid) s))
    end.

(** What is done when a member is gone, [Guild::DeleteMember] *)
Definition remove_member (g guid : Z) (isDisbanding : bool) (s : Guilds) : Guilds :=
  let low := GUID_LOPART guid in
  let s := upd_guild g (fun x => set_m_members (delete low (m_members x)) x) s in
  let s := if online s guid then
             let s := upd_char guid (fun c => set_c_guildLevel 0 (set_c_rank 0 (set_c_guildId 0 c))) s in
             forall_in (removeSpell guid) (perks (g_level (guild_of g s))) s
           else s in
  let s := DEL_GUILD_MEMBER low s in
  if isDisbanding then s else UpdateAccountsNumber g s.
(** [_DeleteBankItems]: item objects and rows *)
Definition DeleteBankItems (g : Z) (s : Guilds) : Guilds :=
  let lows := concat ((fun t => snd <$> map_ordered (m_items t)) <$> m_bankTabs (guild_of g s)) in
  let s := set_g_post (foreach (fun low t => set_items (delete low (items t)) (DEL_ITEM_INSTANCE low t)) lows (g_post s)) s in
  upd_guild g (set_m_bankTabs []) s.
(** [Guild::Disband], and the object is deleted *)
Definition Disband (g : Z) (s : Guilds) : Guilds :=
  let s := forall_in (fun e => remove_member g (m_guid e.2) true) (map_ordered (m_members (guild_of g s))) s in
  let s := DEL_GUILD_BANK_TABS g (DEL_GUILD_RANKS g (DEL_GUILD g s)) in
  let s := DEL_GUILD_BANK_ITEMS g (DeleteBankItems g s) in
  let s := DEL_GUILD_EVENTLOGS g (DEL_GUILD_BANK_EVENTLOGS g (DEL_GUILD_BANK_RIGHTS g s)) in
  let s := tell (FinderDeleteGuild g) s in
  set_g_guilds (delete g (g_guilds s)) (set_GuildStore (GuildStore s ∖ {[g]}) s).
(** The new leader: the first other member of the best rank *)
Definition better (low : Z) (best : option Member) (e : Z * Member) : option Member :=
  if e.1 =? low then best
  else match best with
  | None => Some e.2
  | Some b => if m_rankId e.2 <? m_rankId b then Some e.2 else best
  end.
Definition newLeader (low : Z) (x : Guild) : option Member := foldl (better low) None (map_ordered (m_members x)).
(** [Guild::DeleteMember] *)
Definition DeleteMember (g guid : Z) (s : Guilds) : Guilds :=
  let x := guild_of g s in
  if m_leaderGuid x =? guid then
    match newLeader (GUID_LOPART guid) x with
    | None => Disband g s
    | Some m =>
        let s := SetLeaderGUID g (GUID_LOPART (m_guid m)) s in
        let s := if online s (m_guid m) then upd_char (m_guid m) (set_c_rank GR_GUILDMASTER) s else s in
        let s := match m_members x !! GUID_LOPART guid with
                 | Some _ => tell (BroadcastEvent g GE_LEFT guid) (tell (BroadcastEvent g GE_LEADER_CHANGED 0) s)
                 | None => s end in
        remove_member g guid false s
    end
  else remove_member g guid false s.
(** [Guild::ChangeMemberRank] *)
Definition ChangeMemberRank (g guid newRank : Z) (s : Guilds) : bool * Guilds :=
  let x := guild_of g s in
  if newRank <=? GetLowestRankId x then
    match GetMember guid x with
    | Some m => (true, ChangeRank g (GUID_LOPART guid) newRank s)
    | None => (false, s)
    end
  else (false, s).
Definition IsMember (guid : Z) (x : Guild) : bool := if GetMember guid x then true else false.

(** ** GuildMgr *)

Definition GetGuildById (g : Z) (s : Guilds) : option Z := if bool_decide (g ∈ GuildStore s) then Some g else None.
(** [GetGuildByName]: the first of that name, in capitals *)
Definition GetGuildByName (name : text) (s : Guilds) : option Z :=
  List.find (fun g => bool_decide (toupper <$> m_name (guild_of g s) = toupper <$> name)) (set_ordered (GuildStore s)).
Definition AddGuild (g : Z) (s : Guilds) : Guilds := set_GuildStore (GuildStore s ∪ {[g]}) s.
Definition GenerateGuildId (s : Guilds) : Z * Guilds :=
  let s := if 4294967294 <=? NextGuildId s then tell GuildStopNow s else s in
  (NextGuildId s, set_NextGuildId (u32 (NextGuildId s + 1)) s).
(** [Player::GetGuild] *)
Definition GetGuild (p : Z) (s : Guilds) : option Z :=
  let g := c_guildId (char_of p s) in if g =? 0 then None else GetGuildById g s.
(** [Guild::Create] of a new object: its id, when it is made *)
Definition Create (p : Z) (name : text) (s : Guilds) : option Z * Guilds :=
  match GetGuildByName name s with
  | Some _ => (None, s)
  | None =>
      let '(g, s) := GenerateGuildId s in
      let x := set_m_createdDate (g_now s) (set_m_motd no_message (set_m_name name (set_m_leaderGuid p new_guild))) in
      let s := set_g_guilds (<[g := x]> (g_guilds s)) s in
      let s := INS_GUILD g (mkGuildRow name (GUID_LOPART p) [] no_message (u32 (g_now s)) no_emblem 0 1 0 0) (DEL_GUILD_MEMBERS g s) in
      let s := CreateDefaultGuildRanks g (DbLocaleIndex p) s in
      let '(ret, s) := AddMember g p GR_GUILDMASTER s in
      (* an object that failed is deleted by the caller *)
      if ret then (Some g, s) else (None, set_g_guilds (delete g (g_guilds s)) s)
  end.

(** ** Requests *)

(** [Guild::HandleSetMOTD] *)
Definition HandleSetMOTD (g p : Z) (motd : text) (s : Guilds) : Guilds :=
  let x := guild_of g s in
  if bool_decide (m_motd x = motd) then s
  else if negb (HasRankRight p GR_RIGHT_SETMOTD x) then tell (SendCommandResult p GUILD_COMMAND_EDIT_MOTD ERR_GUILD_PERMISSIONS) s
  else tell (BroadcastPacket g SMSG_GUILD_EVENT_MOTD) (UPD_GUILD g (set_gr_motd motd) (upd_guild g (set_m_motd motd) s)).
(** [Guild::HandleSetInfo] *)
Definition HandleSetInfo (g p : Z) (info : text) (s : Guilds) : Guilds :=
  let x := guild_of g s in
  if bool_decide (m_info x = info) then s
  else if HasRankRight p GR_RIGHT_MODIFY_GUILD_INFO x then UPD_GUILD g (set_gr_info info) (upd_guild g (set_m_info info) s)
  else s.
(** [Guild::HandleSetEmblem] *)
Definition HandleSetEmblem (g p : Z) (e : EmblemInfo) (s : Guilds) : Guilds :=
  let x := guild_of g s in
  match players (g_post s) !! p with
  | None => s
  | Some player =>
      if negb (IsLeader p x) then tell (SendSaveEmblemResult p ERR_GUILDEMBLEM_NOTGUILDMASTER) s
      else if negb (HasEnoughMoney EMBLEM_PRICE player) then tell (SendSaveEmblemResult p ERR_GUILDEMBLEM_NOTENOUGHMONEY) s
      else
        let s := on_purse p (Pay EMBLEM_PRICE) s in
        let s := UPD_GUILD g (set_gr_emblem e) (upd_guild g (set_m_emblemInfo e) s) in
        tell (SendPacket p SMSG_GUILD_QUERY_RESPONSE) (tell (SendSaveEmblemResult p ERR_GUILDEMBLEM_SUCCESS) s)
  end.
(** [Guild::HandleSetNewGuildMaster] *)
Definition HandleSetNewGuildMaster (g p : Z) (name : text) (s : Guilds) : Guilds :=
  let x := guild_of g s in
  if negb (IsLeader p x) then tell (SendCommandResult p GUILD_COMMAND_CHANGE_LEADER ERR_GUILD_PERMISSIONS) s
  else match GetMember p x, GetMemberByName name x with
  | Some old, Some new =>
      let s := SetLeaderGUID g (GUID_LOPART (m_guid new)) s in
      tell (BroadcastPacket g SMSG_GUILD_UPDATE_ROSTER) (ChangeRank g (GUID_LOPART (m_guid old)) GR_INITIATE s)
  | _, _ => s
  end.
(** [Guild::HandleSetMemberNote]; [Member::SetPublicNote], [SetOfficerNote] *)
Definition HandleSetMemberNote (g p : Z) (note : text) (guid : Z) (isPublic : bool) (s : Guilds) : Guilds :=
  let x := guild_of g s in
  if negb (HasRankRight p (if isPublic then GR_RIGHT_EPNOTE else GR_RIGHT_EOFFNOTE) x)
  then tell (SendCommandResult p GUILD_COMMAND_PUBLIC_NOTE ERR_GUILD_PERMISSIONS) s
  else match GetMember guid x with
  | None => s
  | Some m =>
      let low := GUID_LOPART guid in
      let s :=
        if isPublic then
          if bool_decide (m_publicNote m = note) then s
          else UPD_GUILD_MEMBER low (set_mr_pnote note) (upd_member g low (set_m_publicNote note) s)
        else
          if bool_decide (m_officerNote m = note) then s
          else UPD_GUILD_MEMBER low (set_mr_offnote note) (upd_member g low (set_m_officerNote note) s) in
      tell (SendPacket p SMSG_GUILD_MEMBER_UPDATE_NOTE) s
  end.
(** [Guild::HandleSetRankInfo] *)
Definition HandleSetRankInfo (g p rankId : Z) (name : text) (rights moneyPerDay : Z) (tabs : list GuildBankRightsAndSlots) (s : Guilds) : Guilds :=
  let x := guild_of g s in
  if negb (IsLeader p x) then tell (SendCommandResult p GUILD_COMMAND_CHANGE_RANK ERR_GUILD_PERMISSIONS) s
  else match GetRankInfo rankId x with
  | None => s
  | Some _ =>
      let s := SetRankRights g rankId rights (SetRankName g rankId name s) in
      let s := SetRankBankMoneyPerDay g rankId moneyPerDay s in
      let s := forall_in (fun t => SetRankBankTabRightsAndSlots g rankId t true) tabs s in
      tell (BroadcastEvent g GE_RANK_UPDATED 0) s
  end.
(** [Guild::HandleInviteMember] of a player that was found *)
Definition HandleInviteMember (g p : Z) (invitee : option Z) (s : Guilds) : Guilds :=
  let x := guild_of g s in
  match invitee with
  | None => tell (SendCommandResult p GUILD_COMMAND_INVITE ERR_GUILD_PLAYER_NOT_FOUND_S) s
  | Some q =>
      if bool_decide (p ∈ c_ignored (char_of q s)) then s
      else if negb CONFIG_ALLOW_TWO_SIDE_INTERACTION_GUILD
              && negb (bool_decide (p_team <$> players (g_post s) !! q = p_team <$> players (g_post s) !! p))
      then tell (SendCommandResult p GUILD_COMMAND_INVITE ERR_GUILD_NOT_ALLIED) s
      else if negb (c_invited (char_of q s) =? 0) then tell (SendCommandResult p GUILD_COMMAND_INVITE ERR_ALREADY_INVITED_TO_GUILD_S) s
      else if negb (HasRankRight p GR_RIGHT_INVITE x) then tell (SendCommandResult p GUILD_COMMAND_INVITE ERR_GUILD_PERMISSIONS) s
      else
        let s := upd_char q (set_c_invited g) (tell (SendCommandResult p GUILD_COMMAND_INVITE ERR_GUILD_COMMAND_SUCCESS) s) in
        tell (SendGuildInvite q g p) (LogEvent g GUILD_EVENT_LOG_INVITE_PLAYER (GUID_LOPART p) (GUID_LOPART q) 0 s)
  end.
(** [Guild::HandleAcceptMember]; [GetPlayerTeamByGUID] is 0 for an unknown guid *)
Definition HandleAcceptMember (g p : Z) (s : Guilds) : Guilds :=
  let team q := match players (g_post s) !! q with Some x => p_team x | None => 0 end in
  if negb CONFIG_ALLOW_TWO_SIDE_INTERACTION_GUILD && negb (team p =? team (GUID_LOPART (m_leaderGuid (guild_of g s)))) then s
  else (AddMember g p GUILD_RANK_NONE s).2.
(** [Guild::HandleLeaveMember] *)
Definition HandleLeaveMember (g p : Z) (s : Guilds) : Guilds :=
  let x := guild_of g s in
  let s :=
    if IsLeader p x then
      if 1 <? Z.of_nat (size (m_members x)) then tell (SendCommandResult p GUILD_COMMAND_QUIT ERR_GUILD_LEADER_LEAVE) s
      else if CONFIG_GUILD_UNDELETABLE_LEVEL <=? g_level x then tell (SendCommandResult p GUILD_COMMAND_QUIT ERR_GUILD_UNDELETABLE_DUE_TO_LEVEL) s
      else Disband g s
    else
      let s := LogEvent g GUILD_EVENT_LOG_LEAVE_GUILD (GUID_LOPART p) 0 0 (DeleteMember g p s) in
      tell (SendCommandResult p GUILD_COMMAND_QUIT ERR_GUILD_COMMAND_SUCCESS) (tell (BroadcastEvent g GE_LEFT p) s) in
  tell (CalendarRemove p g) s.
(** [Guild::HandleRemoveMember] *)
Definition HandleRemoveMember (g p guid : Z) (s : Guilds) : Guilds :=
  let x := guild_of g s in
  if negb (HasRankRight p GR_RIGHT_REMOVE x) then tell (SendCommandResult p GUILD_COMMAND_REMOVE ERR_GUILD_PERMISSIONS) s
  else match GetMember guid x with
  | None => s
  | Some member =>
      if IsRank GR_GUILDMASTER member then tell (SendCommandResult p GUILD_COMMAND_REMOVE ERR_GUILD_LEADER_LEAVE) s
      else if match GetMember p x with None => true | Some me => IsRankNotLower (m_rankId me) member end
      then tell (SendCommandResult p GUILD_COMMAND_REMOVE ERR_GUILD_RANK_TOO_HIGH_S) s
      else
        let s := LogEvent g GUILD_EVENT_LOG_UNINVITE_PLAYER (GUID_LOPART p) (GUID_LOPART guid) 0 (DeleteMember g guid s) in
        tell (SendCommandResult p GUILD_COMMAND_REMOVE ERR_GUILD_COMMAND_SUCCESS) (tell (BroadcastEvent g GE_REMOVED 0) s)
  end.
(** The new rank [HandleUpdateMemberRank] gives, or the answer *)
Definition updated_rank (me member : Member) (demote : bool) (x : Guild) : GuildCommandError + Z :=
  if demote then
    if IsRankNotLower (m_rankId me) member then inl ERR_GUILD_RANK_TOO_HIGH_S
    else if GetLowestRankId x <=? m_rankId member then inl ERR_GUILD_RANK_TOO_LOW_S
    else inr (u32 (m_rankId member + 1))
  else
    if IsRankNotLower (u8 (m_rankId me + 1)) member then inl ERR_GUILD_RANK_TOO_HIGH_S
    else inr (u32 (m_rankId member - 1)).
(** [Guild::HandleUpdateMemberRank] *)
Definition HandleUpdateMemberRank (g p guid : Z) (demote : bool) (s : Guilds) : Guilds :=
  let x := guild_of g s in
  let type := if demote then GUILD_COMMAND_DEMOTE else GUILD_COMMAND_PROMOTE in
  if negb (HasRankRight p (if demote then GR_RIGHT_DEMOTE else GR_RIGHT_PROMOTE) x) then tell (SendCommandResult p type ERR_GUILD_PERMISSIONS) s
  else match GetMember guid x, GetMember p x with
  | Some member, Some me =>
      if m_guid member =? p then tell (SendCommandResult p type ERR_GUILD_NAME_INVALID) s
      else match updated_rank me member demote x with
      | inl error => tell (SendCommandResult p type error) s
      | inr newRankId =>
          let s := ChangeRank g (GUID_LOPART guid) (u8 newRankId) s in
          let s := LogEvent g (if demote then GUILD_EVENT_LOG_DEMOTE_PLAYER else GUILD_EVENT_LOG_PROMOTE_PLAYER)
                     (GUID_LOPART p) (GUID_LOPART (m_guid member)) (u8 newRankId) s in
          tell (BroadcastEvent g (if demote then GE_DEMOTION else GE_PROMOTION) 0) s
      end
  | _, _ => s
  end.
(** [Guild::HandleSetMemberRank]; [SendGuildRanksUpdate] changes the rank *)
Definition HandleSetMemberRank (g p target rank : Z) (s : Guilds) : Guilds :=
  let x := guild_of g s in
  match GetMember target x with
  | None => s
  | Some member =>
      let demote := m_rankId member <? rank in
      let type := if demote then GUILD_COMMAND_DEMOTE else GUILD_COMMAND_PROMOTE in
      if negb (HasRankRight p (if demote then GR_RIGHT_DEMOTE else GR_RIGHT_PROMOTE) x) then tell (SendCommandResult p type ERR_GUILD_PERMISSIONS) s
      else if m_guid member =? p then tell (SendCommandResult p type ERR_GUILD_NAME_INVALID) s
      else ChangeRank g (GUID_LOPART target) (u8 rank) (tell (BroadcastPacket g SMSG_GUILD_RANKS_UPDATE) s)
  end.
Definition send_ranks (g p : Z) (s : Guilds) : Guilds :=
  tell (SendPacket p SMSG_GUILD_RANK) (tell (BroadcastPacket g SMSG_GUILD_ROSTER) (tell (SendPacket p SMSG_GUILD_QUERY_RESPONSE) s)).
(** [Guild::HandleAddNewRank] *)
Definition HandleAddNewRank (g p : Z) (name : text) (s : Guilds) : Guilds :=
  let x := guild_of g s in
  if GUILD_RANKS_MAX_COUNT <=? GetRanksSize x then s
  else if negb (IsLeader p x) then tell (SendCommandResult p GUILD_COMMAND_INVITE ERR_GUILD_PERMISSIONS) s
  else send_ranks g p (CreateRank g name (Z.lor GR_RIGHT_GCHATLISTEN GR_RIGHT_GCHATSPEAK) s).
(** The last rank of an id, [HandleUpdateRank] *)
Fixpoint rank_index (i : nat) (id : Z) (l : list RankInfo) (found : option nat) : option nat :=
  match l with
  | [] => found
  | r :: l => rank_index (S i) id l (if ri_rankId r =? id then Some i else found)
  end.
(** [Guild::HandleUpdateRank]: two neighbours change names and rights *)
Definition HandleUpdateRank (g p id : Z) (up : bool) (s : Guilds) : Guilds :=
  let x := guild_of g s in
  if negb (IsLeader p x) then tell (SendCommandResult p GUILD_COMMAND_INVITE ERR_GUILD_PERMISSIONS) s
  else
    let other := u32 (id - (-1 + 2 * (if up then 1 else 0))) in
    match rank_index 0 id (m_ranks x) None, rank_index 0 other (m_ranks x) None with
    | Some i1, Some i2 =>
        match m_ranks x !! i1, m_ranks x !! i2 with
        | Some r1, Some r2 =>
            let s := SetRankRights g (Z.of_nat i2) (m_rights r1) (SetRankName g (Z.of_nat i2) (ri_name r1) s) in
            let s := SetRankRights g (Z.of_nat i1) (m_rights r2) (SetRankName g (Z.of_nat i1) (ri_name r2) s) in
            send_ranks g p s
        | _, _ => s
        end
    | _, _ => s
    end.
(** [Guild::HandleRemoveRank] *)
Definition HandleRemoveRank (g p rankId : Z) (s : Guilds) : Guilds :=
  let x := guild_of g s in
  if (GetRanksSize x <=? GUILD_RANKS_MIN_COUNT) || (GetRanksSize x <=? rankId) || negb (IsLeader p x) then s
  else
    let s := DEL_GUILD_RANK g rankId (DEL_GUILD_BANK_RIGHTS_FOR_RANK g rankId s) in
    send_ranks g p (upd_guild g (fun x => set_m_ranks (delete (Z.to_nat rankId) (m_ranks x)) x) s).
(** [Guild::SaveToDB], without the achievements *)
Definition saved_experience (x : Guild) (r : GuildRow) : GuildRow :=
  mkGuildRow (gr_name r) (gr_leaderguid r) (gr_info r) (gr_motd r) (gr_createdate r) (gr_emblem r) (gr_BankMoney r)
    (g_level x) (g_experience x) (g_todayExperience x).
Definition SaveGuild (g : Z) (s : Guilds) : Guilds := UPD_GUILD g (saved_experience (guild_of g s)) s.
(** [GuildMgr::SaveGuilds] *)
Definition SaveGuilds (s : Guilds) : Guilds := forall_in SaveGuild (set_ordered (GuildStore s)) s.
(** [Guild::HandleMemberLogout] *)
Definition HandleMemberLogout (g p : Z) (s : Guilds) : Guilds :=
  let s := upd_member g (GUID_LOPART p) (fun m => set_m_flags GUILDMEMBER_STATUS_NONE (set_m_logoutTime (g_now s) (SetStats p s m))) s in
  SaveGuild g (tell (BroadcastEvent g GE_SIGNED_OFF p) s).
(** [Guild::HandleDisband] *)
Definition HandleDisband (g p : Z) (s : Guilds) : Guilds := if IsLeader p (guild_of g s) then Disband g s else s.
(** [Guild::SetName] *)
Definition SetName (g : Z) (name : text) (s : Guilds) : bool * Guilds :=
  if bool_decide (m_name (guild_of g s) = name) || bool_decide (name = []) || (24 <? Z.of_nat (length name)) || IsReservedName name || negb (IsValidCharterName name)
  then (false, s)
  else (true, tell (BroadcastPacket g SMSG_GUILD_RENAMED) (UPD_GUILD g (set_gr_name name) (upd_guild g (set_m_name name) s))).

(** ** Experience *)

(** [GuildMgr::GetXPForGuildLevel] *)
Definition GetXPForGuildLevel (level : Z) : Z := default 0 (GuildXPperLevel !! Z.to_nat level).
(** Members that are online *)
Definition members_online (g : Z) (s : Guilds) : list Z :=
  List.filter (online s) ((fun e => m_guid e.2) <$> map_ordered (m_members (guild_of g s))).
(** A level gained, [Guild::GiveXP] *)
Definition level_up (g source : Z) (s : Guilds) : Guilds :=
  let x := guild_of g s in
  let level := u8 (g_level x + 1) in
  let s := upd_guild g (fun x => set_g_level level (set_g_experience (u64 (g_experience x - GetXPForGuildLevel (g_level x))) x)) s in
  let learned := snd <$> List.filter (fun e => (g_level x <? e.1) && (e.1 <=? level)) GuildPerkSpellsStore in
  let s := forall_in (fun p s => forall_in (learnSpell p) learned (upd_char p (set_c_guildLevel level) s)) (members_online g s) s in
  tell (ReachGuildLevel g level source) (AddGuildNews g GUILD_NEWS_LEVEL_UP 0 0 level s).
Fixpoint level_loop (fuel : nat) (g source : Z) (s : Guilds) : Guilds :=
  match fuel with
  | O => s
  | S fuel =>
      let x := guild_of g s in
      if (GetXPForGuildLevel (g_level x) <=? g_experience x) && (g_level x <? CONFIG_GUILD_MAX_LEVEL)
      then level_loop fuel g source (level_up g source s) else s
  end.
(** The experience that counts *)
Definition given_xp (xp : Z) (x : Guild) : Z :=
  let xp := if CONFIG_GUILD_MAX_LEVEL <=? g_level x then 0 else xp in
  if g_level x <? GUILD_EXPERIENCE_UNCAPPED_LEVEL then Z.min xp (u32 (CONFIG_GUILD_DAILY_XP_CAP - u32 (g_todayExperience x))) else xp.
(** [Guild::GiveXP]; the level is a byte, so the loop ends within 256 rounds
    when the highest level is at most 255 *)
Definition GiveXP (g xp source : Z) (s : Guilds) : Guilds :=
  if negb CONFIG_GUILD_LEVELING_ENABLED then s
  else
    let xp := given_xp xp (guild_of g s) in
    let s := tell (SendPacket source SMSG_GUILD_XP_GAIN) s in
    let s := upd_guild g (fun x => set_g_todayExperience (u64 (g_todayExperience x + xp)) (set_g_experience (u64 (g_experience x + xp)) x)) s in
    if xp =? 0 then s else level_loop 256 g source s.
(** [Member::ResetValues], [Guild::ResetTimes] *)
Definition ResetValues (m : Member) : Member := set_m_bankWithdraw (replicate 9 0) m.
Definition ResetTimes (g : Z) (s : Guilds) : Guilds :=
  let s := upd_guild g (fun x => set_m_members (ResetValues <$> m_members x) (set_g_todayExperience 0 x)) s in
  forall_in (fun p => tell (SendPacket p SMSG_GUILD_MEMBER_DAILY_RESET)) (members_online g s) s.
(** [GuildMgr::ResetTimes] *)
Definition ResetAllTimes (s : Guilds) : Guilds :=
  let s := set_t_guild ((fun r => mkGuildRow (gr_name r) (gr_leaderguid r) (gr_info r) (gr_motd r) (gr_createdate r) (gr_emblem r)
                                   (gr_BankMoney r) (gr_level r) (gr_experience r) 0) <$> t_guild s) s in
  let s := set_guild_member_withdraw ∅ s in
  forall_in ResetTimes (set_ordered (GuildStore s)) s.

(** ** Opcodes and commands *)

(** [if (Guild* guild = GetPlayer()->GetGuild()) guild->...] *)
Definition with_guild (p : Z) (f : Z -> Guilds -> Guilds) (s : Guilds) : Guilds :=
  match GetGuild p s with Some g => f g s | None => s end.
(** [ObjectAccessor::FindPlayerByName] *)
Definition FindPlayerByName (name : text) (s : Guilds) : option Z :=
  fst <$> List.find (fun e => online s e.1 && bool_decide (tolower <$> c_name e.2 = tolower <$> name)) (map_ordered (chars s)).
(** The names of these two requests are normalized by the reader. *)
Definition HandleGuildInviteOpcode (p : Z) (name : text) : Guilds -> Guilds :=
  with_guild p (fun g s => HandleInviteMember g p (FindPlayerByName name s) s).
Definition HandleGuildSetGuildMaster (p : Z) (name : text) : Guilds -> Guilds :=
  with_guild p (fun g => HandleSetNewGuildMaster g p name).
Definition HandleGuildRemoveOpcode (p guid : Z) : Guilds -> Guilds := with_guild p (fun g => HandleRemoveMember g p guid).
Definition HandleGuildAcceptOpcode (p : Z) (s : Guilds) : Guilds :=
  if c_guildId (char_of p s) =? 0 then
    match GetGuildById (c_invited (char_of p s)) s with Some g => HandleAcceptMember g p s | None => s end
  else s.
Definition HandleGuildDeclineOpcode (p : Z) (s : Guilds) : Guilds :=
  upd_char p (fun c => set_c_guildId 0 (set_c_invited 0 c)) s.
Definition HandleGuildPromoteOpcode (p guid : Z) : Guilds -> Guilds := with_guild p (fun g => HandleUpdateMemberRank g p guid false).
Definition HandleGuildDemoteOpcode (p guid : Z) : Guilds -> Guilds := with_guild p (fun g => HandleUpdateMemberRank g p guid true).
Definition HandleGuildAssignRankOpcode (p guid rankId : Z) : Guilds -> Guilds := with_guild p (fun g => HandleSetMemberRank g p guid rankId).
Definition HandleGuildLeaveOpcode (p : Z) : Guilds -> Guilds := with_guild p (fun g => HandleLeaveMember g p).
Definition HandleGuildDisbandOpcode (p : Z) : Guilds -> Guilds := with_guild p (fun g => HandleDisband g p).
Definition HandleGuildMOTDOpcode (p : Z) (motd : text) : Guilds -> Guilds := with_guild p (fun g => HandleSetMOTD g p motd).
Definition HandleGuildSetNoteOpcode (p guid : Z) (note : text) (isPublic : bool) : Guilds -> Guilds :=
  with_guild p (fun g => HandleSetMemberNote g p note guid isPublic).
Definition HandleGuildAddRankOpcode (p : Z) (name : text) : Guilds -> Guilds := with_guild p (fun g => HandleAddNewRank g p name).
Definition HandleGuildUpdateRanksOpcode (p id : Z) (up : bool) : Guilds -> Guilds := with_guild p (fun g => HandleUpdateRank g p id up).
(** The rank id is cut to a byte by the call. *)
Definition HandleGuildDelRankOpcode (p rankId : Z) : Guilds -> Guilds := with_guild p (fun g => HandleRemoveRank g p (u8 rankId)).
Definition HandleGuildChangeInfoTextOpcode (p : Z) (info : text) : Guilds -> Guilds := with_guild p (fun g => HandleSetInfo g p info).
(** [tabs]: rights and slots of the eight tabs *)
Definition HandleGuildSetRankPermissionsOpcode (p newRankId newRights moneyPerDay : Z) (tabs : list (Z * Z)) (name : text) : Guilds -> Guilds :=
  with_guild p (fun g => HandleSetRankInfo g p (u8 newRankId) name newRights moneyPerDay
    (imap (fun i t => mkRights (Z.of_nat i) (u8 t.1) t.2) tabs)).
Definition HandleSaveGuildEmblemOpcode (p vendor : Z) (e : EmblemInfo) (s : Guilds) : Guilds :=
  if CanUseTabardDesigner p vendor then
    match GetGuild p s with
    | Some g => HandleSetEmblem g p e s
    | None => tell (SendSaveEmblemResult p ERR_GUILDEMBLEM_NOGUILD) s
    end
  else tell (SendSaveEmblemResult p ERR_GUILDEMBLEM_INVALIDVENDOR) s.

(** The player's part of [HandlePlayerLogin] *)
Definition PlayerLogin (p : Z) (s : Guilds) : Guilds :=
  let s := upd_char p (set_c_invited 0) s in
  let s := match guild_member s !! p with
    | Some r =>
        let s := upd_char p (fun c => set_c_rank (mr_rank r) (set_c_guildId (mr_guildid r) c)) s in
        match GetGuildById (mr_guildid r) s with
        | Some g => upd_char p (set_c_guildLevel (g_level (guild_of g s))) s
        | None => s
        end
    | None => upd_char p (fun c => if c_guildId c =? 0 then c else set_c_guildLevel 0 (set_c_rank 0 (set_c_guildId 0 c))) s
    end in
  let s := set_g_post (Login (g_now s) p (g_post s)) s in
  if c_guildId (char_of p s) =? 0 then s
  else match GetGuildById (c_guildId (char_of p s)) s with
  | Some g => SendLoginInfo g p s
  | None => upd_char p (set_c_guildId 0) s
  end.
(** ... of [WorldSession::LogoutPlayer] *)
Definition PlayerLogout (p : Z) (s : Guilds) : Guilds :=
  let s := match GetGuildById (c_guildId (char_of p s)) s with Some g => HandleMemberLogout g p s | None => s end in
  set_g_post (Logout p (g_post s)) s.
(** Turning in a petition: [HandleTurnInPetitionOpcode] from [Create] on *)
Definition TurnInPetition (p : Z) (name : text) (signatures : list Z) (s : Guilds) : Guilds :=
  if negb (c_guildId (char_of p s) =? 0) then s
  else match GetGuildByName name s with
  | Some _ => tell (SendCommandResult p GUILD_COMMAND_CREATE ERR_GUILD_NAME_EXISTS_S) s
  | None =>
      match Create p name s with
      | (None, s) => s
      | (Some g, s) =>
          let s := tell (SendCommandResult p GUILD_COMMAND_CREATE ERR_GUILD_COMMAND_SUCCESS) (AddGuild g s) in
          forall_in (fun q s => (AddMember g q GUILD_RANK_NONE s).2) signatures s
      end
  end.
(** The commands of a game master: the target is a character that was found. *)
Definition HandleGuildCreateCommand (target : Z) (name : text) (s : Guilds) : Guilds :=
  if negb (c_guildId (char_of target s) =? 0) then s
  else match Create target name s with (None, s) => s | (Some g, s) => AddGuild g s end.
Definition HandleGuildDeleteCommand (name : text) (s : Guilds) : Guilds :=
  match GetGuildByName name s with Some g => Disband g s | None => s end.
Definition HandleGuildInviteCommand (target : Z) (name : text) (s : Guilds) : Guilds :=
  match GetGuildByName name s with Some g => (AddMember g target GUILD_RANK_NONE s).2 | None => s end.
Definition guild_id_of (target : Z) (s : Guilds) : Z := if online s target then c_guildId (char_of target s) else GetGuildIdFromDB target s.
Definition HandleGuildUninviteCommand (target : Z) (s : Guilds) : Guilds :=
  if guild_id_of target s =? 0 then s
  else match GetGuildById (guild_id_of target s) s with Some g => DeleteMember g target s | None => s end.
Definition HandleGuildRankCommand (target newRank : Z) (s : Guilds) : Guilds :=
  if guild_id_of target s =? 0 then s
  else match GetGuildById (guild_id_of target s) s with Some g => (ChangeMemberRank g target (u8 newRank) s).2 | None => s end.
Definition HandleGuildRenameCommand (old new : text) (s : Guilds) : Guilds :=
  match GetGuildByName old s with
  | None => s
  | Some g => match GetGuildByName new s with Some _ => s | None => (SetName g new s).2 end
  end.
(** A character that is deleted, [Player::DeleteFromDB], leaves his guild. *)
Definition LeaveGuildOnDelete (p : Z) (s : Guilds) : Guilds :=
  if GetGuildIdFromDB p s =? 0 then s
  else match GetGuildById (GetGuildIdFromDB p s) s with Some g => DeleteMember g p s | None => s end.
End Guild.
