(* ===== verification/GuildBank.v ===== *)
(** * Guild banks

    The bank part of game/Guilds/Guild.cpp: tabs, money, the daily limits and
    the moves of items inside a bank.  A tab keeps the low guids of its items;
    the item objects are those of the mail.  Moves between a bank and a
    character's bags, which need the inventory, are left out. *)
From S2P Require Import Prelude.
From S2P Require Import Lists.
From S2P Require Import Util.
From S2P Require Import Mail.
From S2P Require Import Guild.
Local Open Scope Z_scope.

Definition MAX_GUILD_BANK_TAB_TEXT_LEN : Z := 500.
Definition EQUIP_ERR_WRONG_BAG_TYPE : Z := 15.
Definition EQUIP_ERR_CANT_STACK : Z := 19.
Definition EQUIP_ERR_DROP_BOUND_ITEM : Z := 24.
Definition EQUIP_ERR_BANK_FULL : Z := 51.
(** The slot that stands for none *)
Definition NULL_SLOT : Z := 255.

(** [_GetGuildBankTabPrice], in gold *)
Definition GetGuildBankTabPrice (tabId : Z) : Z :=
  if tabId =? 0 then 100 else if tabId =? 1 then 250 else if tabId =? 2 then 500 else if tabId =? 3 then 1000
  else if tabId =? 4 then 2500 else if tabId =? 5 then 5000 else 0.

(** [BankEventLogEntry::IsMoneyEvent] *)
Definition IsMoneyEvent (t : GuildBankEventLogTypes) : bool :=
  match t with
  | GUILD_BANK_LOG_DEPOSIT_MONEY | GUILD_BANK_LOG_WITHDRAW_MONEY | GUILD_BANK_LOG_REPAIR_MONEY
  | GUILD_BANK_LOG_CASH_FLOW_DEPOSIT => true
  | _ => false
  end.

Class BankWorld := {
  bank_guild :: GuildWorld;
  (* utf8truncate of Util.cpp, by the utf8 library *)
  utf8truncate : text -> Z -> text
}.

Section Bank.
Context `{BankWorld}.

(** ** Tabs *)

Definition GetBankTab (tabId : Z) (x : Guild) : option BankTab :=
  if tabId <? Z.of_nat (length (m_bankTabs x)) then m_bankTabs x !! Z.to_nat tabId else None.
Definition upd_tab (g tabId : Z) (f : BankTab -> BankTab) (s : Guilds) : Guilds :=
  upd_guild g (fun x => set_m_bankTabs (alter f (Z.to_nat tabId) (m_bankTabs x)) x) s.
(** [_CreateNewBankTab] *)
Definition CreateNewBankTab (g : Z) (s : Guilds) : Guilds :=
  let tabId := GetPurchasedTabsSize (guild_of g s) in
  let s := upd_guild g (fun x => set_m_bankTabs (m_bankTabs x ++ [mkTab ∅ [] [] []]) x) s in
  let s := INS_GUILD_BANK_TAB g tabId s in
  forall_in (missing_tabs_of g (u8 (tabId + 1))) (upto (Z.of_nat (length (m_ranks (guild_of g s))))) s.
(** [Guild::HandleBuyBankTab] *)
Definition HandleBuyBankTab (g p tabId : Z) (s : Guilds) : Guilds :=
  let x := guild_of g s in
  match players (g_post s) !! p, GetMember p x with
  | Some player, Some _ =>
      if GUILD_BANK_MAX_TABS <=? GetPurchasedTabsSize x then s
      else if negb (tabId =? GetPurchasedTabsSize x) then s
      else
        let tabCost := u32 (GetGuildBankTabPrice tabId * GOLD) in
        let bought :=
          if tabId <? GUILD_BANK_MAX_TABS - 2 then
            if (tabCost =? 0) || negb (HasEnoughMoney tabCost player) then None
            else Some (on_purse p (Pay tabCost) s)
          else Some s in
        match bought with
        | None => s
        | Some s =>
            tell (SendPacket p SMSG_GUILD_PERMISSIONS_QUERY_RESULTS)
              (tell (BroadcastPacket g SMSG_GUILD_EVENT_BANK_TAB_ADDED) (CreateNewBankTab g s))
        end
  | _, _ => s
  end.
(** [Guild::HandleSetBankTabInfo], [BankTab::SetInfo] *)
Definition HandleSetBankTabInfo (g p tabId : Z) (name icon : text) (s : Guilds) : Guilds :=
  let x := guild_of g s in
  match GetBankTab tabId x with
  | None => s
  | Some tab =>
      if negb (HasRankRight p GR_RIGHT_MODIFY_BANK_TAB x) then s
      else
        let s :=
          if bool_decide (bt_name tab = name) && bool_decide (bt_icon tab = icon) then s
          else UPD_GUILD_BANK_TAB g tabId (fun r => mkTabRow name icon (tr_TabText r))
                 (upd_tab g tabId (fun t => set_bt_icon icon (set_bt_name name t)) s) in
        tell (BroadcastPacket g SMSG_GUILD_EVENT_BANK_TAB_MODIFIED) s
  end.
(** [BankTab::SetText] *)
Definition SetText (g tabId : Z) (note : text) (s : Guilds) : Guilds :=
  match GetBankTab tabId (guild_of g s) with
  | None => s
  | Some tab =>
      if bool_decide (bt_text tab = note) then s
      else
        let note := utf8truncate note MAX_GUILD_BANK_TAB_TEXT_LEN in
        UPD_GUILD_BANK_TAB g tabId (set_tr_TabText note) (upd_tab g tabId (set_bt_text note) s)
  end.
(** [Guild::SetBankTabText] *)
Definition SetBankTabText (g tabId : Z) (note : text) (s : Guilds) : Guilds :=
  match GetBankTab tabId (guild_of g s) with
  | None => s
  | Some _ => tell (BroadcastPacket g SMSG_GUILD_BANK_QUERY_TEXT_RESULT) (SetText g tabId note s)
  end.
(** [Guild::HandleSetBankTabNote]; [GetBankTab] takes a byte *)
Definition HandleSetBankTabNote (g p tabId : Z) (note : text) (s : Guilds) : Guilds :=
  match GetBankTab (u8 tabId) (guild_of g s) with
  | None => s
  | Some _ =>
      if negb (HasRankRight p GR_RIGHT_MODIFY_BANK_TAB (guild_of g s)) then s
      else tell (BroadcastPacket g SMSG_GUILD_EVENT_BANK_TAB_TEXT_CHANGED) (SetText g (u8 tabId) note s)
  end.

(** ** Daily limits *)

(** [_GetRankBankMoneyPerDay], an int32 *)
Definition GetRankBankMoneyPerDay (rankId : Z) (x : Guild) : Z :=
  match GetRankInfo rankId x with Some r => s32 (m_bankMoneyPerDay r) | None => 0 end.
(** [_GetRankBankTabSlotsPerDay], [_GetRankBankTabRights] *)
Definition GetRankBankTabSlotsPerDay (rankId tabId : Z) (x : Guild) : Z :=
  if tabId <? GetPurchasedTabsSize x then
    match GetRankInfo rankId x with
    | Some r => match m_bankTabRightsAndSlots r !! Z.to_nat tabId with Some t => GetSlots t | None => 0 end
    | None => 0
    end
  else 0.
Definition GetRankBankTabRights (rankId tabId : Z) (x : Guild) : Z :=
  match GetRankInfo rankId x with
  | Some r => match m_bankTabRightsAndSlots r !! Z.to_nat tabId with Some t => GetBankRights t | None => 0 end
  | None => 0
  end.
(** [Member::GetBankWithdrawValue], an int32 *)
Definition GetBankWithdrawValue (tabId : Z) (m : Member) : Z :=
  if IsRank GR_GUILDMASTER m then s32 GUILD_WITHDRAW_MONEY_UNLIMITED else default 0 (m_bankWithdraw m !! Z.to_nat tabId).
(** [_GetMemberRemainingSlots], [_GetMemberRemainingMoney] *)
Definition GetMemberRemainingSlots (m : Member) (tabId : Z) (x : Guild) : Z :=
  if m_rankId m =? GR_GUILDMASTER then s32 GUILD_WITHDRAW_SLOT_UNLIMITED
  else if has_flag (GetRankBankTabRights (m_rankId m) tabId x) GUILD_BANK_RIGHT_VIEW_TAB then
    let remaining := s32 (GetRankBankTabSlotsPerDay (m_rankId m) tabId x - GetBankWithdrawValue tabId m) in
    if 0 <? remaining then remaining else 0
  else 0.
Definition GetMemberRemainingMoney (m : Member) (x : Guild) : Z :=
  if m_rankId m =? GR_GUILDMASTER then s32 GUILD_WITHDRAW_MONEY_UNLIMITED
  else if has_flag (GetRankRights (m_rankId m) x) (Z.lor GR_RIGHT_WITHDRAW_REPAIR GR_RIGHT_WITHDRAW_GOLD) then
    let remaining := s32 (GetRankBankMoneyPerDay (m_rankId m) x - GetBankWithdrawValue GUILD_BANK_MAX_TABS m) in
    if 0 <? remaining then remaining else 0
  else 0.
(** [Member::UpdateBankWithdrawValue]; [amount] is cut to a uint32 *)
Definition UpdateBankWithdrawValue (g low tabId amount : Z) (s : Guilds) : Guilds :=
  let s := upd_member g low (fun m => set_m_bankWithdraw (alter (fun w => s32 (w + u32 amount)) (Z.to_nat tabId) (m_bankWithdraw m)) m) s in
  match m_members (guild_of g s) !! low with
  | Some m => INS_GUILD_MEMBER_WITHDRAW low (u32 <$> m_bankWithdraw m) s
  | None => s
  end.
(** [_UpdateMemberWithdrawSlots] *)
Definition UpdateMemberWithdrawSlots (g guid tabId : Z) (s : Guilds) : Guilds :=
  let x := guild_of g s in
  match GetMember guid x with
  | None => s
  | Some m =>
      if negb (m_rankId m =? GR_GUILDMASTER) && (GetBankWithdrawValue tabId m <? GetRankBankTabSlotsPerDay (m_rankId m) tabId x)
      then UpdateBankWithdrawValue g (GUID_LOPART guid) tabId 1 s else s
  end.
(** [_MemberHasTabRights] *)
Definition MemberHasTabRights (guid tabId rights : Z) (x : Guild) : bool :=
  match GetMember guid x with
  | None => false
  | Some m =>
      IsRank GR_GUILDMASTER m || (m_leaderGuid x =? guid)
      || (Z.land (u32 (GetRankBankTabRights (m_rankId m) tabId x)) rights =? rights)
  end.

(** ** Money *)

(** [_LogBankEvent]; [itemOrMoney] is cut to a uint32 and the count to a uint16 *)
Definition LogBankEvent (g : Z) (type : GuildBankEventLogTypes) (tabId lowguid itemOrMoney itemStackCount destTabId : Z) (s : Guilds) : Guilds :=
  if GUILD_BANK_MAX_TABS <? tabId then s
  else if match type with GUILD_BANK_LOG_MOVE_ITEM => tabId =? destTabId | _ => false end then s
  else
    let dbTabId := if IsMoneyEvent type then GUILD_BANK_MONEY_LOGS_TAB else tabId in
    let tabId := if IsMoneyEvent type then GUILD_BANK_MAX_TABS else tabId in
    match m_bankEventLog (guild_of g s) !! Z.to_nat tabId with
    | None => s
    | Some h =>
        let d := mkBankLog type dbTabId lowguid (u32 itemOrMoney) (u16 itemStackCount) destTabId in
        let rows := default ∅ (guild_bank_eventlog s !! (g, dbTabId)) in
        set_guild_bank_eventlog (<[(g, dbTabId) := SaveEvent (g_now s) d h rows]> (guild_bank_eventlog s))
          (upd_guild g (fun x => set_m_bankEventLog (<[Z.to_nat tabId := AddEvent (g_now s) d h]> (m_bankEventLog x)) x) s)
    end.
(** [_ModifyBankMoney] *)
Definition ModifyBankMoney (g amount : Z) (add : bool) (s : Guilds) : bool * Guilds :=
  let b := m_bankMoney (guild_of g s) in
  if negb add && (b <? amount) then (false, s)
  else
    let b := u64 (if add then b + amount else b - amount) in
    (true, UPD_GUILD g (set_gr_BankMoney b) (upd_guild g (set_m_bankMoney b) s)).
(** [Guild::HandleMemberDepositMoney] *)
Definition HandleMemberDepositMoney (g p amount : Z) (cashFlow : bool) (s : Guilds) : Guilds :=
  let s := (ModifyBankMoney g amount true s).2 in
  let s := if cashFlow then s else on_purse p (Pay amount) s in
  let s := LogBankEvent g (if cashFlow then GUILD_BANK_LOG_CASH_FLOW_DEPOSIT else GUILD_BANK_LOG_DEPOSIT_MONEY) 0 p amount 0 0 s in
  tell (BroadcastPacket g SMSG_GUILD_EVENT_BANK_MONEY_CHANGED) s.
(** [Guild::HandleMemberWithdrawMoney] *)
Definition HandleMemberWithdrawMoney (g p amount : Z) (repair : bool) (s : Guilds) : bool * Guilds :=
  let x := guild_of g s in
  let amount := Z.min amount MAX_MONEY_AMOUNT in
  if m_bankMoney x <? amount then (false, s)
  else match players (g_post s) !! p, GetMember p x with
  | Some player, Some member =>
      if u64 (GetMemberRemainingMoney member x) <? amount then (false, s)
      else if negb repair && negb (ModifyMoney (s64 amount) player).1 then (false, s)
      else
        let s := if repair then s else on_purse p (fun y => (ModifyMoney (s64 amount) y).2) s in
        let s := UpdateBankWithdrawValue g (GUID_LOPART p) GUILD_BANK_MAX_TABS amount s in
        let s := (ModifyBankMoney g amount false s).2 in
        let s := LogBankEvent g (if repair then GUILD_BANK_LOG_REPAIR_MONEY else GUILD_BANK_LOG_WITHDRAW_MONEY) 0 p amount 0 0 s in
        (true, tell (BroadcastEvent g GE_BANK_MONEY_CHANGED 0) s)
  | _, _ => (false, s)
  end.

(** ** Moving items *)

Definition item_of (low : Z) (s : Guilds) : Item := default (mkItem 0 0 0 0 0 0 0 0 0 0 [] []) (items (g_post s) !! low).
Definition upd_item (low : Z) (f : Item -> Item) (s : Guilds) : Guilds :=
  set_g_post (SaveItem low (set_items (alter f low (items (g_post s))) (g_post s))) s.
Definition MaxStack (low : Z) (s : Guilds) : Z := GetMaxStackSize (GetTemplate (item_of low s)).
(** [_GetItem] *)
Definition GetItem (g tabId slotId : Z) (s : Guilds) : option Z :=
  match GetBankTab tabId (guild_of g s) with
  | Some t => if slotId <? GUILD_BANK_MAX_SLOTS then m_items t !! slotId else None
  | None => None
  end.
(** [BankTab::SetItem] *)
Definition SetItem (g tabId slotId : Z) (item : option Z) (s : Guilds) : Guilds :=
  if GUILD_BANK_MAX_SLOTS <=? slotId then s
  else
    let s := upd_tab g tabId (fun t => set_m_items (match item with Some low => <[slotId := low]> (m_items t) | None => delete slotId (m_items t) end) t) s in
    let rows := delete ((g, tabId), slotId) (guild_bank_item s) in
    match item with
    | None => set_guild_bank_item rows s
    | Some low => upd_item low (set_i_owner 0) (set_guild_bank_item (<[((g, tabId), slotId) := low]> rows) s)
    end.
(** [Item::CloneItem] without a player: the random property is not copied *)
Definition CloneBankItem (low count : Z) (s : Guilds) : option Z * Guilds :=
  let it := item_of low s in
  if (count <? 1) || negb (if GetItemTemplate (i_entry it) then true else false) then (None, s)
  else
    let t := g_post s in
    let new := mkItem (i_entry it) (if MaxStack low s <? count then MaxStack low s else count) 0 (i_creator it) (i_giftCreator it)
      (Z.ldiff (i_dynFlags it) (Z.lor ITEM_FLAG_REFUNDABLE ITEM_FLAG_BOP_TRADEABLE)) (i_expiration it) 0 0 0 [] [] in
    (Some (itemId t), set_g_post (set_itemId (u32 (itemId t + 1)) (set_items (<[itemId t := new]> (items t)) t)) s).

(** [_ReserveSpace]: positions and what is left to place *)
Definition ReserveSpace (slotId item : Z) (dest : option Z) (r : list (Z * Z) * Z) (s : Guilds) : option (list (Z * Z) * Z) :=
  let '(vec, count) := r in
  let max := MaxStack item s in
  match match dest with
        | None => Some max
        | Some d =>
            if negb (i_entry (item_of d s) =? i_entry (item_of item s)) || (max <=? i_count (item_of d s)) then None
            else Some (max - i_count (item_of d s))
        end with
  | None => None
  | Some space =>
      let space := Z.min space count in
      Some (if existsb (fun e => e.1 =? slotId) vec then (vec, count) else (vec ++ [(slotId, space)], count - space))
  end.
(** [CanStoreItemInTab], a slot *)
Definition try_slot (g tabId item skipSlotId : Z) (merge : bool) (s : Guilds) (r : list (Z * Z) * Z) (slotId : Z) : list (Z * Z) * Z :=
  if r.2 <=? 0 then r
  else if slotId =? skipSlotId then r
  else
    let dest := match GetItem g tabId slotId s with Some d => if d =? item then None else Some d | None => None end in
    if Bool.eqb (if dest then true else false) merge then default r (ReserveSpace slotId item dest r s) else r.
Definition CanStoreItemInTab (g tabId item skipSlotId : Z) (merge : bool) (s : Guilds) (r : list (Z * Z) * Z) : list (Z * Z) * Z :=
  foldl (try_slot g tabId item skipSlotId merge s) r (upto GUILD_BANK_MAX_SLOTS).
(** [BankMoveItemData::CanStore]: the result and [m_vec] *)
Definition CanStore (g tabId slotId item : Z) (swap : bool) (s : Guilds) : Z * list (Z * Z) :=
  let it := item_of item s in
  if IsSoulBound it then (EQUIP_ERR_DROP_BOUND_ITEM, [])
  else if GetPurchasedTabsSize (guild_of g s) <=? tabId then (EQUIP_ERR_WRONG_BAG_TYPE, [])
  else
    let placed :=
      if slotId =? NULL_SLOT then Some ([], i_count it)
      else
        let dest := match GetItem g tabId slotId s with Some d => if (d =? item) || swap then None else Some d | None => None end in
        ReserveSpace slotId item dest ([], i_count it) s in
    match placed with
    | None => (EQUIP_ERR_CANT_STACK, [])
    | Some (vec, count) =>
        if negb (slotId =? NULL_SLOT) && (count =? 0) then (EQUIP_ERR_OK, vec)
        else
          let r := if 1 <? MaxStack item s then CanStoreItemInTab g tabId item slotId true s (vec, count) else (vec, count) in
          if (1 <? MaxStack item s) && (r.2 =? 0) then (EQUIP_ERR_OK, r.1)
          else
            let r := CanStoreItemInTab g tabId item slotId false s r in
            if r.2 =? 0 then (EQUIP_ERR_OK, r.1) else (EQUIP_ERR_BANK_FULL, r.1)
    end.

(** [BankMoveItemData::_StoreItem] *)
Definition StoreItemAt (g tabId item : Z) (pos : Z * Z) (clone : bool) (s : Guilds) : Guilds :=
  let '(slotId, count) := pos in
  match GetItem g tabId slotId s with
  | Some d =>
      let s := upd_item d (fun it => set_i_count (u32 (i_count it + count)) it) s in
      if clone then s
      else set_g_post (DEL_ITEM_INSTANCE item (set_items (delete item (items (g_post s))) (g_post s))) s
  | None =>
      if clone then
        match CloneBankItem item count s with
        | (Some new, s) => SetItem g tabId slotId (Some new) s
        | (None, s) => s
        end
      else SetItem g tabId slotId (Some item)
             (set_g_post (set_items (alter (set_i_count count) item (items (g_post s))) (g_post s)) s)
  end.
(** [BankMoveItemData::StoreItem] *)
Fixpoint StoreItem (g tabId item : Z) (vec : list (Z * Z)) (s : Guilds) : Guilds :=
  match vec with
  | [] => s
  | pos :: vec => StoreItem g tabId item vec (StoreItemAt g tabId item pos (negb (if vec then true else false)) s)
  end.
(** [BankMoveItemData::RemoveItem] *)
Definition RemoveItem (g p tabId slotId item otherTab splitedAmount : Z) (s : Guilds) : Guilds :=
  let s :=
    if splitedAmount =? 0 then (if GetBankTab tabId (guild_of g s) then SetItem g tabId slotId None s else s)
    else upd_item item (fun it => set_i_count (u32 (i_count it - splitedAmount)) it) s in
  if otherTab =? tabId then s else UpdateMemberWithdrawSlots g p tabId s.
(** [HasStoreRights], [HasWithdrawRights] *)
Definition HasStoreRights (p tabId otherTab : Z) (x : Guild) : bool :=
  (otherTab =? tabId) || MemberHasTabRights p tabId GUILD_BANK_RIGHT_DEPOSIT_ITEM x.
Definition HasWithdrawRights (p tabId otherTab : Z) (x : Guild) : bool :=
  (otherTab =? tabId)
  || negb (match GetMember p x with Some m => GetMemberRemainingSlots m tabId x | None => 0 end =? 0).

(** [_DoItemsMove] of [pSrcItem], the item or its clone, from a place of the
    bank to another; [dest]: the item to swap with *)
Definition DoItemsMove (g p srcTab srcSlot srcItem destTab destSlot pSrcItem : Z) (dest : option Z) (sendError : bool) (splitedAmount : Z) (s : Guilds) : bool * Guilds :=
  let swap := if dest then true else false in
  let '(msg, vec) := CanStore g destTab destSlot pSrcItem swap s in
  if negb (msg =? EQUIP_ERR_OK) then
    (false, if sendError then set_g_post (emit (SendEquipError p msg) (g_post s)) s else s)
  else
    let back := match dest with Some d => CanStore g srcTab srcSlot d true s | None => (EQUIP_ERR_OK, []) end in
    if negb (back.1 =? EQUIP_ERR_OK) then (false, set_g_post (emit (SendEquipError p back.1) (g_post s)) s)
    else
      let entry := i_entry (item_of srcItem s) in
      let s1 := LogBankEvent g GUILD_BANK_LOG_MOVE_ITEM srcTab p entry (i_count (item_of pSrcItem s)) destTab s in
      let s1 := match dest with
        | Some d => LogBankEvent g GUILD_BANK_LOG_MOVE_ITEM destTab p (i_entry (item_of d s)) (i_count (item_of d s)) srcTab s1
        | None => s1 end in
      let s1 := RemoveItem g p srcTab srcSlot srcItem destTab splitedAmount s1 in
      let s1 := match dest with Some d => RemoveItem g p destTab destSlot d srcTab 0 s1 | None => s1 end in
      let s1 := StoreItem g destTab pSrcItem vec s1 in
      (true, match dest with Some d => StoreItem g srcTab d back.2 s1 | None => s1 end).
(** [_MoveItems] between two places of the bank *)
Definition MoveItems (g p srcTab srcSlot destTab destSlot splitedAmount : Z) (s : Guilds) : Guilds :=
  let x := guild_of g s in
  match GetItem g srcTab srcSlot s with
  | None => s
  | Some item =>
      let count := i_count (item_of item s) in
      if count <? splitedAmount then s
      else
        let split := if splitedAmount =? count then 0 else splitedAmount in
        if negb (HasStoreRights p destTab srcTab x) then s
        else if negb (HasWithdrawRights p srcTab destTab x) then s
        else
          let sent := tell (BroadcastPacket g SMSG_GUILD_BANK_LIST) in
          if negb (split =? 0) then
            match CloneBankItem item split s with
            | (None, s) => set_g_post (emit (SendEquipError p EQUIP_ERR_ITEM_NOT_FOUND) (g_post s)) s
            | (Some new, s) => sent (DoItemsMove g p srcTab srcSlot item destTab destSlot new None true split s).2
            end
          else
            let '(moved, s) := DoItemsMove g p srcTab srcSlot item destTab destSlot item None false 0 s in
            if moved then sent s
            else match GetItem g destTab destSlot s with
            | None => s
            | Some d =>
                if negb (HasStoreRights p srcTab destTab x) then s
                else if negb (HasWithdrawRights p destTab srcTab x) then s
                else sent (DoItemsMove g p srcTab srcSlot item destTab destSlot item (Some d) true 0 s).2
            end
  end.
(** [Guild::SwapItems] *)
Definition SwapItems (g p tabId slotId destTabId destSlotId splitedAmount : Z) (s : Guilds) : Guilds :=
  let n := GetPurchasedTabsSize (guild_of g s) in
  if (n <=? tabId) || (GUILD_BANK_MAX_SLOTS <=? slotId) || (n <=? destTabId) || (GUILD_BANK_MAX_SLOTS <=? destSlotId) then s
  else if (tabId =? destTabId) && (slotId =? destSlotId) then s
  else MoveItems g p tabId slotId destTabId destSlotId splitedAmount s.

(** ** Opcodes *)

Definition HandleGuildBankDepositMoney (p guid money : Z) (s : Guilds) : Guilds :=
  match players (g_post s) !! p with
  | Some player =>
      if CanUseGuildBank p guid && negb (money =? 0) && HasEnoughMoney money player
      then with_guild p (fun g => HandleMemberDepositMoney g p money false) s else s
  | None => s
  end.
Definition HandleGuildBankWithdrawMoney (p guid money : Z) (s : Guilds) : Guilds :=
  if negb (money =? 0) && CanUseGuildBank p guid
  then with_guild p (fun g s => (HandleMemberWithdrawMoney g p money false s).2) s else s.
(** Of the bank only *)
Definition HandleGuildBankSwapItems (p banker bankTab2 bankSlot2 bankTab bankSlot stackCount : Z) (s : Guilds) : Guilds :=
  match GetGuild p s with
  | Some g => if CanUseGuildBank p banker then SwapItems g p bankTab2 bankSlot2 bankTab bankSlot stackCount s else s
  | None => s
  end.
Definition HandleGuildBankBuyTab (p tabId : Z) : Guilds -> Guilds := with_guild p (fun g => HandleBuyBankTab g p tabId).
Definition HandleGuildBankUpdateTab (p guid tabId : Z) (name icon : text) (s : Guilds) : Guilds :=
  if negb (bool_decide (name = [])) && negb (bool_decide (icon = [])) && CanUseGuildBank p guid
  then with_guild p (fun g => HandleSetBankTabInfo g p tabId name icon) s else s.
(** The tab id is cut to a byte by the call. *)
Definition HandleSetGuildBankTabText (p tabId : Z) (note : text) : Guilds -> Guilds := with_guild p (fun g => SetBankTabText g (u8 tabId) note).
Definition HandleGuildBankTabNote (p tabId : Z) (note : text) : Guilds -> Guilds := with_guild p (fun g => HandleSetBankTabNote g p tabId note).
(** Repairing at the cost of the bank, [Player::DurabilityRepair]: the guild is
    looked up by its id *)
Definition RepairAtBank (p costs : Z) : Guilds -> Guilds := with_guild p (fun g s => (HandleMemberWithdrawMoney g p costs true s).2).
(** Looted gold that goes to the bank, [HandleLootMoneyOpcode] *)
Definition LootForBank (p guildGold : Z) (s : Guilds) : Guilds :=
  if guildGold =? 0 then s else with_guild p (fun g => HandleMemberDepositMoney g p guildGold true) s.
End Bank.
