(* ===== verification/GuildSteps.v ===== *)
(** * Runs of the guild system

    The requests of players, the commands of game masters and the hours of the
    server, as one type of operations, and sequences of them. *)
From S2P Require Import Prelude.
From S2P Require Import Lists.
From S2P Require Import Util.
From S2P Require Import Mail.
From S2P Require Import Guild.
From S2P Require Import GuildBank.
Local Open Scope Z_scope.

(** What players do about membership and ranks *)
Inductive member_op :=
| OpTurnIn (p : Z) (name : text) (signatures : list Z)
| OpInvite (p : Z) (name : text)
| OpAccept (p : Z)
| OpDecline (p : Z)
| OpLeave (p : Z)
| OpRemove (p guid : Z)
| OpPromote (p guid : Z)
| OpDemote (p guid : Z)
| OpAssignRank (p guid rank : Z)
| OpSetMaster (p : Z) (name : text)
| OpDisband (p : Z)
| OpAddRank (p : Z) (name : text)
| OpUpdateRanks (p id : Z) (up : bool)
| OpDelRank (p id : Z)
| OpRankPermissions (p id rights money : Z) (tabs : list (Z * Z)) (name : text).
(** ... about the notice board and the emblem *)
Inductive board_op :=
| OpMOTD (p : Z) (motd : text)
| OpInfo (p : Z) (info : text)
| OpNote (p guid : Z) (note : text) (isPublic : bool)
| OpEmblem (p vendor : Z) (e : EmblemInfo).
(** ... and about the bank *)
Inductive bank_op :=
| OpBuyTab (p tab : Z)
| OpUpdateTab (p guid tab : Z) (name icon : text)
| OpTabText (p tab : Z) (note : text)
| OpTabNote (p tab : Z) (note : text)
| OpDeposit (p guid money : Z)
| OpWithdraw (p guid money : Z)
| OpSwapItems (p banker bankTab2 bankSlot2 bankTab bankSlot stackCount : Z)
| OpRepair (p costs : Z).
Inductive guild_op :=
| OpMember (o : member_op)
| OpBoard (o : board_op)
| OpBank (o : bank_op)
| OpLogin (p : Z)
| OpLogout (p : Z)
| OpTime (now : Z)
| OpXP (source xp : Z)
| OpReset
| OpSave
| OpCmdCreate (target : Z) (name : text)
| OpCmdDelete (name : text)
| OpCmdInvite (target : Z) (name : text)
| OpCmdUninvite (target : Z)
| OpCmdRank (target rank : Z)
| OpCmdRename (old new : text)
| OpDeleteCharacter (p : Z).

Definition member_player (o : member_op) : Z :=
  match o with
  | OpTurnIn p _ _ | OpInvite p _ | OpAccept p | OpDecline p | OpLeave p | OpRemove p _ | OpPromote p _ | OpDemote p _
  | OpAssignRank p _ _ | OpSetMaster p _ | OpDisband p | OpAddRank p _ | OpUpdateRanks p _ _ | OpDelRank p _
  | OpRankPermissions p _ _ _ _ _ => p
  end.
Definition board_player (o : board_op) : Z :=
  match o with OpMOTD p _ | OpInfo p _ | OpNote p _ _ _ | OpEmblem p _ _ => p end.
Definition bank_player (o : bank_op) : Z :=
  match o with
  | OpBuyTab p _ | OpUpdateTab p _ _ _ _ | OpTabText p _ _ | OpTabNote p _ _ | OpDeposit p _ _ | OpWithdraw p _ _
  | OpSwapItems p _ _ _ _ _ _ | OpRepair p _ => p
  end.

Section Steps.
Context `{BankWorld}.

Definition run_member (o : member_op) : Guilds -> Guilds :=
  match o with
  | OpTurnIn p name sigs => TurnInPetition p name sigs
  | OpInvite p name => HandleGuildInviteOpcode p name
  | OpAccept p => HandleGuildAcceptOpcode p
  | OpDecline p => HandleGuildDeclineOpcode p
  | OpLeave p => HandleGuildLeaveOpcode p
  | OpRemove p guid => HandleGuildRemoveOpcode p guid
  | OpPromote p guid => HandleGuildPromoteOpcode p guid
  | OpDemote p guid => HandleGuildDemoteOpcode p guid
  | OpAssignRank p guid rank => HandleGuildAssignRankOpcode p guid rank
  | OpSetMaster p name => HandleGuildSetGuildMaster p name
  | OpDisband p => HandleGuildDisbandOpcode p
  | OpAddRank p name => HandleGuildAddRankOpcode p name
  | OpUpdateRanks p id up => HandleGuildUpdateRanksOpcode p id up
  | OpDelRank p id => HandleGuildDelRankOpcode p id
  | OpRankPermissions p id rights money tabs name => HandleGuildSetRankPermissionsOpcode p id rights money tabs name
  end.
Definition run_board (o : board_op) : Guilds -> Guilds :=
  match o with
  | OpMOTD p motd => HandleGuildMOTDOpcode p motd
  | OpInfo p info => HandleGuildChangeInfoTextOpcode p info
  | OpNote p guid note b => HandleGuildSetNoteOpcode p guid note b
  | OpEmblem p vendor e => HandleSaveGuildEmblemOpcode p vendor e
  end.
Definition run_bank (o : bank_op) : Guilds -> Guilds :=
  match o with
  | OpBuyTab p tab => HandleGuildBankBuyTab p tab
  | OpUpdateTab p guid tab name icon => HandleGuildBankUpdateTab p guid tab name icon
  | OpTabText p tab note => HandleSetGuildBankTabText p tab note
  | OpTabNote p tab note => HandleGuildBankTabNote p tab note
  | OpDeposit p guid money => HandleGuildBankDepositMoney p guid money
  | OpWithdraw p guid money => HandleGuildBankWithdrawMoney p guid money
  | OpSwapItems p banker a b c d n => HandleGuildBankSwapItems p banker a b c d n
  | OpRepair p costs => RepairAtBank p costs
  end.
(** A request is handled while its player is in the world. *)
Definition in_world (p : Z) (f : Guilds -> Guilds) (s : Guilds) : Guilds := if online s p then f s else s.
Definition run_guild_op (o : guild_op) (s : Guilds) : Guilds :=
  match o with
  | OpMember o => in_world (member_player o) (run_member o) s
  | OpBoard o => in_world (board_player o) (run_board o) s
  | OpBank o => in_world (bank_player o) (run_bank o) s
  | OpLogin p => if online s p then s else PlayerLogin p s
  | OpLogout p => if online s p then PlayerLogout p s else s
  | OpTime now => set_g_now now s
  | OpXP source xp => in_world source (with_guild source (fun g => GiveXP g xp source)) s
  | OpReset => ResetAllTimes s
  | OpSave => SaveGuilds s
  | OpCmdCreate target name => in_world target (HandleGuildCreateCommand target name) s
  | OpCmdDelete name => HandleGuildDeleteCommand name s
  | OpCmdInvite target name => HandleGuildInviteCommand target name s
  | OpCmdUninvite target => HandleGuildUninviteCommand target s
  | OpCmdRank target rank => HandleGuildRankCommand target rank s
  | OpCmdRename old new => HandleGuildRenameCommand old new s
  | OpDeleteCharacter p => if online s p then s else LeaveGuildOnDelete p s
  end.
Fixpoint run_guilds (l : list guild_op) (s : Guilds) : Guilds :=
  match l with [] => s | o :: l => run_guilds l (run_guild_op o s) end.
End Steps.
