(* ===== verification/GuildMoney.v ===== *)
(** * The money of guilds

    What members carry, what is in their mails and what is in the banks: no
    request of a member or command of a game master makes money, and the
    members who are no masters stay within the daily limit of their rank. *)
From S2P Require Import Prelude.
From S2P Require Import Lists.
From S2P Require Import Frames.
From S2P Require Import Util.
From S2P Require Import Mail.
From S2P Require Import MailMoney.
From S2P Require Import Guild.
From S2P Require Import GuildBank.
From S2P Require Import GuildSteps.
Local Open Scope Z_scope.

Definition vault (s : Guilds) : Z := map_sum m_bankMoney (g_guilds s).
Definition riches (s : Guilds) : Z := wealth (g_post s) + vault s.
Definition bank_ok (s : Guilds) : Prop :=
  post_ok (g_post s) /\ map_Forall (fun _ x => 0 <= m_bankMoney x) (g_guilds s).

(** As long as all the money there is can be counted in 64 bits, there is no
    more afterwards. *)
Definition frugal (s s' : Guilds) : Prop :=
  bank_ok s -> riches s < 2 ^ 64 -> bank_ok s' /\ riches s' <= riches s.
#[export] Instance frugal_preorder : PreOrder frugal.
Proof.
  split; [by intros s Hok Hr|]. intros s t u H1 H2 Hok Hr. destruct (H1 Hok Hr) as [Hok' Hr'].
  destruct (H2 Hok') as [Hok'' Hr'']; [lia|]. split; [done|lia].
Qed.

(** Nothing that concerns money *)
Lemma frugal_same s t : g_post t = g_post s -> g_guilds t = g_guilds s -> frugal s t.
Proof. intros Hp Hg [Hok1 Hok2] Hr. unfold bank_ok, riches, vault in *. by rewrite Hp, Hg. Qed.
Lemma frugal_upd_guild t g f : (forall x, m_bankMoney (f x) = m_bankMoney x) -> frugal t (upd_guild g f t).
Proof.
  intros Hf [Hok1 Hok2] Hr. split.
  - split; [done|]. intros k y [[Hne Hy]|(-> & x & Hx & ->)]%alter_Some_cases; [by eapply Hok2|rewrite Hf; by eapply Hok2].
  - unfold riches, vault, upd_guild. cbn. rewrite map_sum_alter_same by done. lia.
Qed.
Lemma frugal_post t q : (post_ok (g_post t) -> post_ok q /\ wealth q <= wealth (g_post t)) -> frugal t (set_g_post q t).
Proof. intros Hq [Hok1 Hok2] Hr. destruct (Hq Hok1) as [Hq1 Hq2]. split; [done|]. unfold riches, vault. cbn. lia. Qed.
Lemma frugal_same_post t q : same (g_post t) q -> frugal t (set_g_post q t).
Proof. intros Hs. apply frugal_post. intros Hok. split; [by eapply same_ok|]. rewrite (same_wealth _ _ Hs). lia. Qed.
Lemma frugal_delete t g : frugal t (set_g_guilds (delete g (g_guilds t)) t).
Proof.
  intros [Hok1 Hok2] Hr. split.
  - split; [done|]. cbn. by apply map_Forall_delete.
  - unfold riches, vault. cbn. destruct (g_guilds t !! g) as [x|] eqn:Hx.
    + rewrite (map_sum_delete m_bankMoney (g_guilds t) g x Hx). specialize (Hok2 _ _ Hx). cbn in Hok2. lia.
    + rewrite delete_id by done. lia.
Qed.
Lemma frugal_insert t g x : m_bankMoney x = 0 -> frugal t (set_g_guilds (<[g := x]> (g_guilds t)) t).
Proof.
  intros Hx [Hok1 Hok2] Hr. split.
  - split; [done|]. cbn. apply map_Forall_insert_2; [lia|done].
  - unfold riches, vault. cbn. destruct (g_guilds t !! g) as [y|] eqn:Hy.
    + rewrite (map_sum_change m_bankMoney (g_guilds t) g y x Hy). specialize (Hok2 _ _ Hy). cbn in Hok2. lia.
    + rewrite (map_sum_insert m_bankMoney (g_guilds t) g x Hy). lia.
Qed.

Lemma forall_in_keeps {A} R `{!PreOrder R} (f : A -> Guilds -> Guilds) l s : (forall a s, R s (f a s)) -> R s (forall_in f l s).
Proof. intros Hf. unfold forall_in. by apply (keeps_foldl R). Qed.
(** Nothing but purses and banks counts. *)
Ltac keep_base ::=
  match goal with
  | |- frugal _ (upd_guild _ _ ?t) => transitivity t; [|apply frugal_upd_guild; done]
  | |- frugal _ (set_g_post _ ?t) => transitivity t; [|apply frugal_same_post; done]
  | |- frugal _ (forall_in _ _ ?t) => transitivity t; [|apply forall_in_keeps; [exact _|intros]]
  end.
Ltac elsewhere := intros ?; by apply frugal_same.

#[export] Instance upd_char_frugal p f : Keeps frugal (upd_char p f).
Proof. elsewhere. Qed.
#[export] Instance set_guild_eventlog_frugal x : Keeps frugal (set_guild_eventlog x).
Proof. elsewhere. Qed.
#[export] Instance set_guild_newslog_frugal x : Keeps frugal (set_guild_newslog x).
Proof. elsewhere. Qed.
#[export] Instance set_guild_bank_eventlog_frugal x : Keeps frugal (set_guild_bank_eventlog x).
Proof. elsewhere. Qed.
#[export] Instance set_guild_bank_item_frugal x : Keeps frugal (set_guild_bank_item x).
Proof. elsewhere. Qed.
#[export] Instance set_GuildStore_frugal x : Keeps frugal (set_GuildStore x).
Proof. elsewhere. Qed.
#[export] Instance set_t_guild_frugal x : Keeps frugal (set_t_guild x).
Proof. elsewhere. Qed.
#[export] Instance set_guild_member_withdraw_frugal x : Keeps frugal (set_guild_member_withdraw x).
Proof. elsewhere. Qed.
#[export] Instance set_NextGuildId_frugal x : Keeps frugal (set_NextGuildId x).
Proof. elsewhere. Qed.
#[export] Instance set_g_events_frugal x : Keeps frugal (set_g_events x).
Proof. elsewhere. Qed.
#[export] Instance tell_frugal e : Keeps frugal (tell e).
Proof. elsewhere. Qed.

Section Ops.
Context `{GuildWorld}.

#[export] Instance UPD_GUILD_frugal g f : Keeps frugal (UPD_GUILD g f).
Proof. elsewhere. Qed.
#[export] Instance INS_GUILD_frugal g r : Keeps frugal (INS_GUILD g r).
Proof. intros s. unfold INS_GUILD. case_match; by apply frugal_same. Qed.
#[export] Instance DEL_GUILD_frugal g : Keeps frugal (DEL_GUILD g).
Proof. elsewhere. Qed.
#[export] Instance INS_RANK_frugal g rid r : Keeps frugal (INS_GUILD_RANK g rid r).
Proof. intros s. unfold INS_GUILD_RANK. case_match; by apply frugal_same. Qed.
#[export] Instance UPD_RANK_frugal g rid f : Keeps frugal (UPD_GUILD_RANK g rid f).
Proof. elsewhere. Qed.
#[export] Instance DEL_RANK_frugal g rid : Keeps frugal (DEL_GUILD_RANK g rid).
Proof. elsewhere. Qed.
#[export] Instance DEL_RANKS_frugal g : Keeps frugal (DEL_GUILD_RANKS g).
Proof. elsewhere. Qed.
#[export] Instance INS_MEMBER_frugal l r : Keeps frugal (INS_GUILD_MEMBER l r).
Proof. intros s. unfold INS_GUILD_MEMBER. case_match; by apply frugal_same. Qed.
#[export] Instance UPD_MEMBER_frugal l f : Keeps frugal (UPD_GUILD_MEMBER l f).
Proof. elsewhere. Qed.
#[export] Instance DEL_MEMBER_frugal l : Keeps frugal (DEL_GUILD_MEMBER l).
Proof. elsewhere. Qed.
#[export] Instance DEL_MEMBERS_frugal g : Keeps frugal (DEL_GUILD_MEMBERS g).
Proof. elsewhere. Qed.
#[export] Instance INS_WITHDRAW_frugal l r : Keeps frugal (INS_GUILD_MEMBER_WITHDRAW l r).
Proof. elsewhere. Qed.
#[export] Instance INS_RIGHT_frugal g t rid r n : Keeps frugal (INS_GUILD_BANK_RIGHT g t rid r n).
Proof. elsewhere. Qed.
#[export] Instance DEL_RIGHTS_frugal g : Keeps frugal (DEL_GUILD_BANK_RIGHTS g).
Proof. elsewhere. Qed.
#[export] Instance DEL_RIGHTS_FOR_RANK_frugal g rid : Keeps frugal (DEL_GUILD_BANK_RIGHTS_FOR_RANK g rid).
Proof. elsewhere. Qed.
#[export] Instance INS_TAB_frugal g t : Keeps frugal (INS_GUILD_BANK_TAB g t).
Proof. elsewhere. Qed.
#[export] Instance DEL_TABS_frugal g : Keeps frugal (DEL_GUILD_BANK_TABS g).
Proof. elsewhere. Qed.
#[export] Instance UPD_TAB_frugal g t f : Keeps frugal (UPD_GUILD_BANK_TAB g t f).
Proof. elsewhere. Qed.
#[export] Instance DEL_ITEMS_frugal g : Keeps frugal (DEL_GUILD_BANK_ITEMS g).
Proof. elsewhere. Qed.
#[export] Instance DEL_BANKLOGS_frugal g : Keeps frugal (DEL_GUILD_BANK_EVENTLOGS g).
Proof. elsewhere. Qed.
#[export] Instance DEL_LOGS_frugal g : Keeps frugal (DEL_GUILD_EVENTLOGS g).
Proof. elsewhere. Qed.
#[export] Instance upd_rank_frugal g i f : Keeps frugal (upd_rank g i f).
Proof. intros s. by apply frugal_upd_guild. Qed.
#[export] Instance upd_member_frugal g l f : Keeps frugal (upd_member g l f).
Proof. intros s. by apply frugal_upd_guild. Qed.
#[export] Instance insert_member_frugal g l m : Keeps frugal (insert_member g l m).
Proof. intros s. by apply frugal_upd_guild. Qed.

Lemma missing_tab_frugal g i r s : frugal s (missing_tab g i (r, s)).2.
Proof. unfold missing_tab. repeat case_match; cbn [snd]; keeping. Qed.
Lemma CreateMissingTabs_frugal g tabs r s : frugal s (CreateMissingTabsIfNeeded g tabs r s).2.
Proof.
  unfold CreateMissingTabsIfNeeded. generalize (upto tabs) as l. intros l. revert r s. induction l as [|i l IH]; intros r s; [reflexivity|].
  cbn [foldl]. destruct (missing_tab g i (r, s)) as [r' s'] eqn:He. transitivity s'; [|apply IH]. eapply (keeps_snd frugal (fun s => missing_tab g i (r, s))); [apply missing_tab_frugal|done].
Qed.
#[export] Instance missing_tabs_of_frugal g tabs i : Keeps frugal (missing_tabs_of g tabs i).
Proof.
  intros s. unfold missing_tabs_of. case_match; [|reflexivity]. destruct (CreateMissingTabsIfNeeded g tabs r s) as [r' s'] eqn:He.
  keeping. eapply (keeps_snd frugal (CreateMissingTabsIfNeeded g tabs r)); [apply CreateMissingTabs_frugal|done].
Qed.
#[export] Instance SetRankName_frugal g i name : Keeps frugal (SetRankName g i name).
Proof. intros s. unfold SetRankName. keeping. Qed.
#[export] Instance SetRankRights_frugal g i rights : Keeps frugal (SetRankRights g i rights).
Proof. intros s. unfold SetRankRights. keeping. Qed.
#[export] Instance SetBankMoneyPerDay_frugal g i money : Keeps frugal (SetBankMoneyPerDay g i money).
Proof. intros s. unfold SetBankMoneyPerDay. keeping. Qed.
#[export] Instance SetRankBankMoneyPerDay_frugal g i money : Keeps frugal (SetRankBankMoneyPerDay g i money).
Proof. intros s. unfold SetRankBankMoneyPerDay. keeping. Qed.
#[export] Instance SetTabRights_frugal g i t b : Keeps frugal (SetRankBankTabRightsAndSlots g i t b).
Proof. intros s. unfold SetRankBankTabRightsAndSlots. keeping. Qed.
#[export] Instance CreateRank_frugal g name rights : Keeps frugal (CreateRank g name rights).
Proof.
  intros s. unfold CreateRank. case_match; [reflexivity|]. cbv zeta. match goal with |- context [CreateMissingTabsIfNeeded g ?t ?i ?u] => destruct (CreateMissingTabsIfNeeded g t i u) as [r' s'] eqn:He end.
  keep1. eapply frugal_preorder; [|eapply (keeps_snd frugal (CreateMissingTabsIfNeeded g _ _)); [apply CreateMissingTabs_frugal|exact He]]. keeping.
Qed.
#[export] Instance CreateDefaultGuildRanks_frugal g loc : Keeps frugal (CreateDefaultGuildRanks g loc).
Proof. intros s. unfold CreateDefaultGuildRanks. keeping. Qed.
End Ops.

(** ** What each operation does *)

Section Members.
Context `{GuildWorld}.

Ltac by_parts He := eapply (keeps_snd frugal); [|exact He].

#[export] Instance ChangeRank_frugal g l r : Keeps frugal (ChangeRank g l r).
Proof. intros s. unfold ChangeRank. keeping. Qed.
#[export] Instance SetLeaderGUID_frugal g l : Keeps frugal (SetLeaderGUID g l).
Proof. intros s. unfold SetLeaderGUID. keeping. Qed.
#[export] Instance UpdateAccountsNumber_frugal g : Keeps frugal (UpdateAccountsNumber g).
Proof. intros s. unfold UpdateAccountsNumber. keeping. Qed.
#[export] Instance LogEvent_frugal g ty g1 g2 r : Keeps frugal (LogEvent g ty g1 g2 r).
Proof. intros s. unfold LogEvent. keeping. Qed.
#[export] Instance AddGuildNews_frugal g ty gu fl v : Keeps frugal (AddGuildNews g ty gu fl v).
Proof. intros s. unfold AddGuildNews. keeping. Qed.
#[export] Instance learnSpell_frugal p sp : Keeps frugal (learnSpell p sp).
Proof. intros s. unfold learnSpell. keeping. Qed.
#[export] Instance removeSpell_frugal p sp : Keeps frugal (removeSpell p sp).
Proof. intros s. unfold removeSpell. keeping. Qed.
#[export] Instance SendLoginInfo_frugal g p : Keeps frugal (SendLoginInfo g p).
Proof. intros s. unfold SendLoginInfo. keeping. Qed.
#[export] Instance AddMember_frugal g gu r : Keeps frugal (fun s => (AddMember g gu r s).2).
Proof.
  intros s. unfold AddMember. cbv zeta. case_match; [reflexivity|].
  match goal with |- frugal s (match ?a with _ => _ end).2 => destruct a as [t|] eqn:Ha end; cbn [snd]; [|keeping].
  assert (Ht : frugal s t).
  { revert Ha. repeat case_match; intros [= <-]; keeping. }
  etransitivity; [exact Ht|]. keeping.
Qed.
#[export] Instance remove_member_frugal g gu b : Keeps frugal (remove_member g gu b).
Proof. intros s. unfold remove_member. keeping. Qed.
#[export] Instance DeleteBankItems_frugal g : Keeps frugal (DeleteBankItems g).
Proof. intros s. unfold DeleteBankItems. keeping. apply frugal_same_post. by apply foreach_same. Qed.
Lemma drop_guild_frugal g x u : frugal u (set_g_guilds (delete g (g_guilds u)) (set_GuildStore x u)).
Proof. transitivity (set_GuildStore x u); [apply set_GuildStore_frugal|]. apply (frugal_delete (set_GuildStore x u)). Qed.
#[export] Instance Disband_frugal g : Keeps frugal (Disband g).
Proof.
  intros s. unfold Disband. cbv zeta. match goal with |- frugal _ (set_g_guilds _ (set_GuildStore _ ?u)) => transitivity u; [|apply drop_guild_frugal] end. keeping.
Qed.
#[export] Instance DeleteMember_frugal g gu : Keeps frugal (DeleteMember g gu).
Proof. intros s. unfold DeleteMember. keeping. Qed.
#[export] Instance ChangeMemberRank_frugal g gu r : Keeps frugal (fun s => (ChangeMemberRank g gu r s).2).
Proof. intros s. unfold ChangeMemberRank. cbv zeta. repeat case_match; cbn [snd]; keeping. Qed.
#[export] Instance AddGuild_frugal g : Keeps frugal (AddGuild g).
Proof. elsewhere. Qed.
Lemma GenerateGuildId_frugal s : frugal s (GenerateGuildId s).2.
Proof. unfold GenerateGuildId. by apply frugal_same; case_match. Qed.
Lemma Create_frugal p name s : frugal s (Create p name s).2.
Proof.
  unfold Create. case_match; [reflexivity|]. destruct (GenerateGuildId s) as [g s1] eqn:H1. cbv zeta.
  match goal with |- context [AddMember g p GR_GUILDMASTER ?t] => set (t0 := t) end.
  assert (Ht : frugal s t0).
  { unfold t0. etransitivity; [by_parts H1; apply GenerateGuildId_frugal|]. etransitivity; [|apply CreateDefaultGuildRanks_frugal].
    etransitivity; [|apply INS_GUILD_frugal]. etransitivity; [|apply DEL_MEMBERS_frugal]. by apply frugal_insert. }
  destruct (AddMember g p GR_GUILDMASTER t0) as [ret s2] eqn:H2.
  assert (Hs2 : frugal s s2) by (etransitivity; [exact Ht|]; by_parts H2; apply AddMember_frugal).
  destruct ret; cbn [snd]; [done|]. etransitivity; [exact Hs2|apply frugal_delete].
Qed.
(** Who pays gets poorer. *)
Lemma pay_frugal p a s y : players (g_post s) !! p = Some y -> 0 <= a <= p_money y -> frugal s (on_purse p (Pay a) s).
Proof.
  intros Hy Ha. apply frugal_post. intros [Hok Hfl]. pose proof (proj1 Hok _ _ Hy) as (Hm & _). split.
  - split; [apply ok_player; [done|]; intros x Hx Hpx; eapply Pay_ok; [done|]; congruence|].
    apply flags_player; [done|]. intros x [H1 H2]. destruct (ModifyMoney_mails (s64 (- s64 a)) x) as (E1 & E2 & E3). unfold flags_ok, Pay. by rewrite E1, E2, E3.
  - unfold wealth. rewrite (purses_alter _ _ _ _ Hy), Pay_money by lia. unfold posted. cbn. lia.
Qed.
#[export] Instance send_ranks_frugal g p : Keeps frugal (send_ranks g p).
Proof. intros s. unfold send_ranks. keeping. Qed.
End Members.

Section Requests.
Context `{GuildWorld}.

#[export] Instance SetMOTD_frugal g p m : Keeps frugal (HandleSetMOTD g p m).
Proof. intros s. unfold HandleSetMOTD. keeping. Qed.
#[export] Instance SetInfo_frugal g p m : Keeps frugal (HandleSetInfo g p m).
Proof. intros s. unfold HandleSetInfo. keeping. Qed.
#[export] Instance SetEmblem_frugal g p e : Keeps frugal (HandleSetEmblem g p e).
Proof.
  intros s. unfold HandleSetEmblem. cbv zeta. destruct (players (g_post s) !! p) as [y|] eqn:Hy; [|reflexivity].
  destruct (IsLeader _ _); cbn [negb]; [|keeping]. destruct (HasEnoughMoney EMBLEM_PRICE y) eqn:Hm; cbn [negb]; [|keeping].
  do 4 keep1. eapply pay_frugal; [exact Hy|]. apply Z.leb_le in Hm. by split.
Qed.
#[export] Instance SetMaster_frugal g p m : Keeps frugal (HandleSetNewGuildMaster g p m).
Proof. intros s. unfold HandleSetNewGuildMaster. keeping. Qed.
#[export] Instance SetNote_frugal g p n gu b : Keeps frugal (HandleSetMemberNote g p n gu b).
Proof. intros s. unfold HandleSetMemberNote. keeping. Qed.
#[export] Instance SetRankInfo_frugal g p i n r m l : Keeps frugal (HandleSetRankInfo g p i n r m l).
Proof. intros s. unfold HandleSetRankInfo. keeping. Qed.
#[export] Instance Invite_frugal g p q : Keeps frugal (HandleInviteMember g p q).
Proof. intros s. unfold HandleInviteMember. keeping. Qed.
#[export] Instance Accept_frugal g p : Keeps frugal (HandleAcceptMember g p).
Proof. intros s. unfold HandleAcceptMember. keeping. Qed.
#[export] Instance Leave_frugal g p : Keeps frugal (HandleLeaveMember g p).
Proof. intros s. unfold HandleLeaveMember. keeping. Qed.
#[export] Instance Remove_frugal g p gu : Keeps frugal (HandleRemoveMember g p gu).
Proof. intros s. unfold HandleRemoveMember. keeping. Qed.
#[export] Instance UpdateMemberRank_frugal g p gu b : Keeps frugal (HandleUpdateMemberRank g p gu b).
Proof. intros s. unfold HandleUpdateMemberRank. keeping. Qed.
#[export] Instance SetMemberRank_frugal g p gu b : Keeps frugal (HandleSetMemberRank g p gu b).
Proof. intros s. unfold HandleSetMemberRank. keeping. Qed.
#[export] Instance AddNewRank_frugal g p n : Keeps frugal (HandleAddNewRank g p n).
Proof. intros s. unfold HandleAddNewRank. keeping. Qed.
#[export] Instance UpdateRank_frugal g p i b : Keeps frugal (HandleUpdateRank g p i b).
Proof. intros s. unfold HandleUpdateRank. keeping. Qed.
#[export] Instance RemoveRank_frugal g p i : Keeps frugal (HandleRemoveRank g p i).
Proof. intros s. unfold HandleRemoveRank. keeping. Qed.
#[export] Instance SaveGuild_frugal g : Keeps frugal (SaveGuild g).
Proof. intros s. unfold SaveGuild. keeping. Qed.
#[export] Instance MemberLogout_frugal g p : Keeps frugal (HandleMemberLogout g p).
Proof. intros s. unfold HandleMemberLogout. keeping. Qed.
#[export] Instance HandleDisband_frugal g p : Keeps frugal (HandleDisband g p).
Proof. intros s. unfold HandleDisband. keeping. Qed.
#[export] Instance SetName_frugal g n : Keeps frugal (fun s => (SetName g n s).2).
Proof. intros s. unfold SetName. case_match; cbn [snd]; keeping. Qed.
#[export] Instance level_up_frugal g p : Keeps frugal (level_up g p).
Proof. intros s. unfold level_up. keeping. Qed.
#[export] Instance level_loop_frugal n g p : Keeps frugal (level_loop n g p).
Proof. induction n as [|n IH]; intros s; cbn; [reflexivity|]. keeping. Qed.
#[export] Instance GiveXP_frugal g xp p : Keeps frugal (GiveXP g xp p).
Proof. intros s. unfold GiveXP. keeping. Qed.
#[export] Instance ResetTimes_frugal g : Keeps frugal (ResetTimes g).
Proof. intros s. unfold ResetTimes. keeping. Qed.
#[export] Instance ResetAllTimes_frugal : Keeps frugal ResetAllTimes.
Proof. intros s. unfold ResetAllTimes. keeping. Qed.
#[export] Instance with_guild_frugal p f : (forall g, Keeps frugal (f g)) -> Keeps frugal (with_guild p f).
Proof. intros Hf s. unfold with_guild. case_match; [apply Hf|reflexivity]. Qed.
End Requests.

(** ** The bank *)

Section BankOps.
Context `{BankWorld}.

#[export] Instance upd_tab_frugal g t f : Keeps frugal (upd_tab g t f).
Proof. intros s. by apply frugal_upd_guild. Qed.
#[export] Instance CreateNewBankTab_frugal g : Keeps frugal (CreateNewBankTab g).
Proof. intros s. unfold CreateNewBankTab. keeping. Qed.
#[export] Instance BuyBankTab_frugal g p t : Keeps frugal (HandleBuyBankTab g p t).
Proof.
  intros s. unfold HandleBuyBankTab. cbv zeta. destruct (players (g_post s) !! p) as [y|] eqn:Hy; [|reflexivity].
  case_match; [|reflexivity]. case_match; [reflexivity|]. case_match; [reflexivity|].
  match goal with |- frugal s (match ?b with _ => _ end) => destruct b as [t'|] eqn:Hb end; [|reflexivity].
  do 3 keep1. revert Hb. case_match; [|intros [= <-]; reflexivity]. case_match eqn:Hc; [done|]. intros [= <-].
  apply orb_false_iff in Hc as [_ Hc]. apply negb_false_iff, Z.leb_le in Hc. eapply pay_frugal; [exact Hy|]. split; [apply u32_range|done].
Qed.
#[export] Instance SetBankTabInfo_frugal g p t n i : Keeps frugal (HandleSetBankTabInfo g p t n i).
Proof. intros s. unfold HandleSetBankTabInfo. keeping. Qed.
#[export] Instance SetText_frugal g t n : Keeps frugal (SetText g t n).
Proof. intros s. unfold SetText. keeping. Qed.
#[export] Instance SetBankTabText_frugal g t n : Keeps frugal (SetBankTabText g t n).
Proof. intros s. unfold SetBankTabText. keeping. Qed.
#[export] Instance SetBankTabNote_frugal g p t n : Keeps frugal (HandleSetBankTabNote g p t n).
Proof. intros s. unfold HandleSetBankTabNote. keeping. Qed.
#[export] Instance UpdateBankWithdrawValue_frugal g l t a : Keeps frugal (UpdateBankWithdrawValue g l t a).
Proof. intros s. unfold UpdateBankWithdrawValue. keeping. Qed.
#[export] Instance UpdateMemberWithdrawSlots_frugal g l t : Keeps frugal (UpdateMemberWithdrawSlots g l t).
Proof. intros s. unfold UpdateMemberWithdrawSlots. keeping. Qed.
#[export] Instance LogBankEvent_frugal g ty t l i c d : Keeps frugal (LogBankEvent g ty t l i c d).
Proof. intros s. unfold LogBankEvent. keeping. Qed.

#[export] Instance upd_item_frugal l f : Keeps frugal (upd_item l f).
Proof. intros s. unfold upd_item. keeping. Qed.
#[export] Instance SetItem_frugal g t sl i : Keeps frugal (SetItem g t sl i).
Proof. intros s. unfold SetItem. keeping. Qed.
Lemma CloneBankItem_frugal l c s : frugal s (CloneBankItem l c s).2.
Proof. unfold CloneBankItem. cbv zeta. case_match; cbn [snd]; keeping. Qed.
#[export] Instance StoreItemAt_frugal g t i pos b : Keeps frugal (StoreItemAt g t i pos b).
Proof.
  intros s. unfold StoreItemAt. destruct pos as [sl c]. destruct (GetItem g t sl s); [keeping|]. destruct b; [|keeping].
  destruct (CloneBankItem i c s) as [[new|] s'] eqn:He; keeping; (eapply (keeps_snd frugal (CloneBankItem i c)); [apply CloneBankItem_frugal|exact He]).
Qed.
#[export] Instance StoreItem_frugal g t i vec : Keeps frugal (StoreItem g t i vec).
Proof. induction vec as [|pos vec IH]; intros s; cbn; [reflexivity|]. keeping. Qed.
#[export] Instance RemoveItem_frugal g p t sl i o n : Keeps frugal (RemoveItem g p t sl i o n).
Proof. intros s. unfold RemoveItem. keeping. Qed.
#[export] Instance DoItemsMove_frugal g p a b c d e f h k l : Keeps frugal (fun s => (DoItemsMove g p a b c d e f h k l s).2).
Proof.
  intros s. unfold DoItemsMove. cbv zeta. destruct (CanStore _ _ _ _ _ _) as [msg vec]. case_match; cbn [snd]; [destruct k; keeping|].
  case_match; cbn [snd]; [keeping|]. destruct h; keeping.
Qed.
#[export] Instance MoveItems_frugal g p a b c d n : Keeps frugal (MoveItems g p a b c d n).
Proof.
  intros s. unfold MoveItems. cbv zeta. case_match; [|reflexivity]. case_match; [reflexivity|]. case_match; [reflexivity|]. case_match; [reflexivity|].
  case_match.
  - match goal with |- context [CloneBankItem ?i ?n s] => destruct (CloneBankItem i n s) as [[new|] s'] eqn:He; assert (Hs : frugal s s') by (eapply (keeps_snd frugal (CloneBankItem i n)); [apply CloneBankItem_frugal|exact He]) end; keeping; done.
  - match goal with |- context [DoItemsMove ?a1 ?a2 ?a3 ?a4 ?a5 ?a6 ?a7 ?a8 None false 0 s] => destruct (DoItemsMove a1 a2 a3 a4 a5 a6 a7 a8 None false 0 s) as [mv s'] eqn:He end.
    assert (Hs : frugal s s') by (eapply (keeps_snd frugal (DoItemsMove _ _ _ _ _ _ _ _ None false 0)); [apply (DoItemsMove_frugal _ _ _ _ _ _ _ _ None false 0)|exact He]).
    keeping; done.
Qed.
#[export] Instance SwapItems_frugal g p a b c d n : Keeps frugal (SwapItems g p a b c d n).
Proof. intros s. unfold SwapItems. keeping. Qed.
End BankOps.

(** ** Deposits and withdrawals *)

Section Deposits.
Context `{BankWorld}.

Lemma upd_guild_missing g f s : g_guilds s !! g = None -> upd_guild g f s = s.
Proof. intros Hg. unfold upd_guild. rewrite alter_id by (intros ? ?; congruence). by destruct s. Qed.
Lemma vault_upd g f s x : g_guilds s !! g = Some x -> vault (upd_guild g f s) = vault s - m_bankMoney x + m_bankMoney (f x).
Proof. intros Hx. unfold vault, upd_guild. cbn. by apply map_sum_alter. Qed.
Lemma vault_ge s g x : bank_ok s -> g_guilds s !! g = Some x -> 0 <= m_bankMoney x <= vault s.
Proof.
  intros [_ Hok] Hx. split; [by eapply Hok|]. unfold vault. rewrite (map_sum_delete _ _ _ _ Hx).
  pose proof (map_sum_nonneg m_bankMoney (delete g (g_guilds s))) as Hn. specialize (Hok g x Hx) as H0.
  assert (0 <= map_sum m_bankMoney (delete g (g_guilds s))); [|lia]. apply Hn. intros k y Hy. apply lookup_delete_Some in Hy as [_ Hy]. by eapply Hok.
Qed.
Lemma wealth_ge s p y : post_ok s -> players s !! p = Some y -> 0 <= p_money y <= wealth s.
Proof.
  intros [(Hp & Hr & _) _] Hy. pose proof (Hp _ _ Hy) as ((Hm & _) & _). split; [done|]. unfold wealth, purses, posted.
  rewrite (map_sum_delete _ _ _ _ Hy).
  assert (0 <= map_sum p_money (delete p (players s))) by (apply map_sum_nonneg; intros k z [_ Hz]%lookup_delete_Some; by destruct (Hp _ _ Hz) as ((? & _) & _)).
  assert (0 <= map_sum r_money (mail s)); [|lia]. apply map_sum_nonneg. intros k r Hk. by destruct (Hr _ _ Hk) as ((? & _) & _).
Qed.
(** What a bank says it has, and purses *)
Lemma bank_set s g x b : bank_ok s -> g_guilds s !! g = Some x -> 0 <= b ->
  bank_ok (upd_guild g (set_m_bankMoney b) s) /\ riches (upd_guild g (set_m_bankMoney b) s) = riches s - m_bankMoney x + b.
Proof.
  intros [Hok1 Hok2] Hx Hb. split.
  - split; [done|]. intros k y [[Hne Hy]|(-> & z & Hz & ->)]%alter_Some_cases; [by eapply Hok2|done].
  - unfold riches. rewrite (vault_upd _ _ _ _ Hx). cbn. lia.
Qed.
Lemma purse_set s p y f : bank_ok s -> players (g_post s) !! p = Some y ->
  (forall x, p_mail (f x) = p_mail x /\ m_mailsLoaded (f x) = m_mailsLoaded x /\ p_online (f x) = p_online x) ->
  0 <= p_money (f y) <= MAX_MONEY_AMOUNT ->
  bank_ok (on_purse p f s) /\ riches (on_purse p f s) = riches s - p_money y + p_money (f y).
Proof.
  intros [[Hok Hfl] Hv] Hy Hf Hm. split.
  - split; [|done]. split; [apply ok_player; [done|]; intros x Hx Hpx; eapply player_ok_money; [done|apply Hf|congruence]|].
    apply flags_player; [done|]. intros x [H1 H2]. destruct (Hf x) as (E1 & E2 & E3). unfold flags_ok. by rewrite E1, E2, E3.
  - unfold riches, wealth, vault. cbn. rewrite (purses_alter _ _ _ _ Hy). unfold posted. cbn. lia.
Qed.
Lemma Pay_shape a x : p_mail (Pay a x) = p_mail x /\ m_mailsLoaded (Pay a x) = m_mailsLoaded x /\ p_online (Pay a x) = p_online x.
Proof. apply ModifyMoney_mails. Qed.
Lemma ModifyMoney_adds a x : 0 <= a <= MAX_MONEY_AMOUNT -> 0 <= p_money x <= MAX_MONEY_AMOUNT -> (ModifyMoney (s64 a) x).1 = true ->
  p_money (ModifyMoney (s64 a) x).2 = p_money x + a /\ p_money x + a <= MAX_MONEY_AMOUNT.
Proof.
  unfold MAX_MONEY_AMOUNT in *. intros Ha Hx. replace (s64 a) with a by (unfold s64; rewrite Z.mod_small by lia; lia). unfold ModifyMoney, MAX_MONEY_AMOUNT.
  destruct (Z.eqb_spec a 0) as [->|He]; [cbn; lia|]. replace (a <? 0) with false by lia. rewrite !u64_small by (unfold is_u64; lia).
  destruct (Z.ltb_spec (p_money x) (9999999999 - a)); [cbn; lia|done].
Qed.

Lemma deposit_frugal g p a s y : players (g_post s) !! p = Some y -> 0 <= a <= p_money y -> frugal s (HandleMemberDepositMoney g p a false s).
Proof.
  intros Hy Ha. unfold HandleMemberDepositMoney. do 2 keep1. unfold ModifyBankMoney. cbn [negb andb snd].
  set (b := u64 (m_bankMoney (guild_of g s) + a)). intros Hok Hr. pose proof (proj1 Hok) as Hpo.
  pose proof (proj1 (proj1 Hpo) _ _ Hy) as (Hm & _). pose proof (wealth_ge _ _ _ Hpo Hy) as Hw.
  set (s1 := UPD_GUILD g (set_gr_BankMoney b) (upd_guild g (set_m_bankMoney b) s)).
  assert (H1 : bank_ok s1 /\ riches s1 <= riches s + a).
  { change (bank_ok (upd_guild g (set_m_bankMoney b) s) /\ riches (upd_guild g (set_m_bankMoney b) s) <= riches s + a).
    destruct (g_guilds s !! g) as [x|] eqn:Hx.
    - pose proof (vault_ge _ _ _ Hok Hx) as Hg. assert (Hb : b = m_bankMoney x + a).
      { unfold b, guild_of. rewrite Hx. cbn. unfold riches in Hr. rewrite u64_small by (unfold is_u64; lia). done. }
      destruct (bank_set s g x b Hok Hx) as [H1 H2]; [lia|]. split; [done|lia].
    - rewrite upd_guild_missing by done. split; [done|lia]. }
  destruct H1 as [Hok1 Hr1]. destruct (purse_set s1 p y (Pay a) Hok1) as [Hok2 Hr2]; [done|apply Pay_shape|rewrite Pay_money; lia|].
  split; [done|]. rewrite Hr2, Pay_money by lia. lia.
Qed.
#[export] Instance withdraw_frugal g p a repair : 0 <= a -> Keeps frugal (fun s => (HandleMemberWithdrawMoney g p a repair s).2).
Proof.
  intros Ha s. unfold HandleMemberWithdrawMoney. cbv zeta. set (n := Z.min a MAX_MONEY_AMOUNT).
  assert (Hn : 0 <= n <= MAX_MONEY_AMOUNT) by (unfold n, MAX_MONEY_AMOUNT; lia). clearbody n.
  destruct (Z.ltb_spec (m_bankMoney (guild_of g s)) n) as [|Hb]; [reflexivity|].
  destruct (players (g_post s) !! p) as [y|] eqn:Hy; [|reflexivity]. destruct (GetMember p (guild_of g s)) as [m|] eqn:Hm; [|reflexivity].
  case_match; [reflexivity|]. destruct (negb repair && negb (ModifyMoney (s64 n) y).1) eqn:Hc; [reflexivity|]. cbn [snd].
  intros Hok Hr. assert (Hx : exists x, g_guilds s !! g = Some x /\ guild_of g s = x).
  { unfold guild_of in *. destruct (g_guilds s !! g) as [x|]; [by eexists|]. exfalso. revert Hm. unfold GetMember. cbn. by rewrite lookup_empty. }
  destruct Hx as (x & Hx & Hgx). rewrite Hgx in Hb. pose proof (vault_ge _ _ _ Hok Hx) as Hv.
  pose proof (proj1 (proj1 (proj1 Hok)) _ _ Hy) as (Hpm & _).
  set (s1 := if repair then s else on_purse p (fun y => (ModifyMoney (s64 n) y).2) s).
  assert (H1 : bank_ok s1 /\ riches s1 <= riches s + n /\ g_guilds s1 !! g = Some x).
  { unfold s1. destruct repair; [split_and!; [done|lia|done]|]. cbn in Hc. apply negb_false_iff in Hc. destruct (ModifyMoney_adds n y Hn Hpm Hc) as [E1 E2].
    destruct (purse_set s p y (fun y => (ModifyMoney (s64 n) y).2) Hok Hy) as [H1 H2]; [intros; apply ModifyMoney_mails|lia|]. split_and!; [done|lia|done]. }
  destruct H1 as (Hok1 & Hr1 & Hx1).
  set (s2 := UpdateBankWithdrawValue g (GUID_LOPART p) GUILD_BANK_MAX_TABS n s1).
  assert (Hx2 : bank_ok s2 /\ riches s2 = riches s1 /\ exists x2, g_guilds s2 !! g = Some x2 /\ m_bankMoney x2 = m_bankMoney x).
  { unfold s2, UpdateBankWithdrawValue. set (h := fun m : Member => _). set (u := upd_member g (GUID_LOPART p) h s1).
    assert (Hu : bank_ok u /\ riches u = riches s1 /\ exists x2, g_guilds u !! g = Some x2 /\ m_bankMoney x2 = m_bankMoney x).
    { unfold u, upd_member. split_and!.
      - destruct Hok1 as [O1 O2]. split; [done|]. intros k z [[Hne Hz]|(-> & z' & Hz & ->)]%alter_Some_cases; [by eapply O2|cbn; by eapply O2].
      - unfold riches, vault. cbn. by rewrite map_sum_alter_same.
      - unfold upd_guild. cbn. rewrite lookup_alter_eq, Hx1. by eexists. }
    by case_match. }
  destruct Hx2 as (Hok2 & Hr2 & x2 & Hx2 & Hbx2). unfold ModifyBankMoney. cbn [negb andb].
  replace (guild_of g s2) with x2 by (unfold guild_of; by rewrite Hx2). replace (m_bankMoney x2 <? n) with false by lia. cbn [snd].
  unfold riches in Hr. pose proof (wealth_ge _ _ _ (proj1 Hok) Hy) as Hw. rewrite u64_small by (unfold is_u64; lia).
  match goal with |- bank_ok (tell _ (LogBankEvent _ ?ty _ _ _ _ _ ?u)) /\ _ => set (s3 := u) end.
  assert (H3 : bank_ok s3 /\ riches s3 <= riches s).
  { change (bank_ok (upd_guild g (set_m_bankMoney (m_bankMoney x2 - n)) s2) /\ riches (upd_guild g (set_m_bankMoney (m_bankMoney x2 - n)) s2) <= riches s).
    destruct (bank_set s2 g x2 (m_bankMoney x2 - n) Hok2 Hx2) as [H3 H4]; [lia|]. split; [done|lia]. }
  destruct H3 as [Hok3 Hr3].
  assert (Hf : frugal s3 (tell (BroadcastEvent g GE_BANK_MONEY_CHANGED 0) (LogBankEvent g (if repair then GUILD_BANK_LOG_REPAIR_MONEY else GUILD_BANK_LOG_WITHDRAW_MONEY) 0 p n 0 0 s3))) by keeping.
  unfold riches in Hr3 at 2. destruct (Hf Hok3) as [Hok4 Hr4]; [lia|]. split; [done|]. unfold riches at 2. lia.
Qed.
End Deposits.

(** ** Runs *)

Section Runs.
Context `{BankWorld}.

(** The amounts of a request are unsigned. *)
Definition unsigned_bank (o : bank_op) : Prop :=
  match o with OpDeposit _ _ money => is_u64 money | OpWithdraw _ _ money => is_u64 money | OpRepair _ costs => is_u32 costs | _ => True end.
Definition unsigned_op (o : guild_op) : Prop := match o with OpBank o => unsigned_bank o | _ => True end.

#[export] Instance unsigned_bank_dec o : Decision (unsigned_bank o).
Proof. destruct o; cbn; exact _. Defined.
#[export] Instance unsigned_op_dec o : Decision (unsigned_op o).
Proof. destruct o; cbn; exact _. Defined.

Lemma run_member_frugal o : Keeps frugal (run_member o).
Proof.
  destruct o; intros s; cbn [run_member]; try (apply with_guild_frugal; intros; exact _).
  - unfold TurnInPetition. case_match; [reflexivity|]. case_match; [keeping|]. destruct (Create p name s) as [[g|] t] eqn:He;
      assert (frugal s t) by (eapply (keeps_snd frugal (Create p name)); [apply Create_frugal|exact He]); [|done].
    keeping. done.
  - unfold HandleGuildInviteOpcode. apply with_guild_frugal. intros g t. apply Invite_frugal.
  - unfold HandleGuildAcceptOpcode. keeping.
  - unfold HandleGuildDeclineOpcode. keeping.
Qed.
Lemma run_board_frugal o : Keeps frugal (run_board o).
Proof. destruct o; intros s; cbn [run_board]; try (apply with_guild_frugal; intros; exact _). unfold HandleSaveGuildEmblemOpcode. keeping. Qed.
Lemma run_bank_frugal o : unsigned_bank o -> Keeps frugal (run_bank o).
Proof.
  intros Ho s. destruct o; cbn [run_bank unsigned_bank] in *; unfold is_u64, is_u32 in *; try (apply with_guild_frugal; intros; exact _).
  - unfold HandleGuildBankUpdateTab. case_match; [apply with_guild_frugal; intros; exact _|reflexivity].
  - unfold HandleGuildBankDepositMoney. destruct (players (g_post s) !! p) as [y|] eqn:Hy; [|reflexivity]. case_match eqn:Hc; [|reflexivity].
    apply andb_true_iff in Hc as [_ Hc]. apply Z.leb_le in Hc. unfold with_guild. case_match; [|reflexivity]. eapply deposit_frugal; [exact Hy|lia].
  - unfold HandleGuildBankWithdrawMoney. case_match; [|reflexivity]. unfold with_guild. case_match; [|reflexivity]. apply withdraw_frugal. lia.
  - unfold HandleGuildBankSwapItems. keeping.
  - unfold RepairAtBank, with_guild. case_match; [|reflexivity]. apply withdraw_frugal. lia.
Qed.
Lemma in_world_frugal p f : Keeps frugal f -> Keeps frugal (in_world p f).
Proof. intros Hf s. unfold in_world. case_match; [apply Hf|reflexivity]. Qed.
Lemma session_frugal f s : (forall t, post_ok t -> thrifty 0 t (f t)) -> frugal s (set_g_post (f (g_post s)) s).
Proof. intros Hf. apply frugal_post. intros Hok. by destruct (Hf _ Hok) as (H1 & H2 & _). Qed.
#[local] Instance Login_frugal p : Keeps frugal (PlayerLogin p).
Proof.
  intros s. unfold PlayerLogin. cbv zeta. match goal with |- frugal s (if _ =? 0 then ?t else _) => set (u := t) end.
  assert (Hu : frugal s u).
  { unfold u. match goal with |- frugal s (set_g_post _ ?t) => transitivity t; [|apply session_frugal; intros; by apply Login_thrifty] end. keeping. }
  clearbody u. etransitivity; [exact Hu|]. keeping.
Qed.
#[local] Instance Logout_frugal p : Keeps frugal (PlayerLogout p).
Proof.
  intros s. unfold PlayerLogout. cbv zeta. match goal with |- frugal s (set_g_post _ ?t) => transitivity t; [|apply session_frugal; intros; by apply Logout_thrifty] end. keeping.
Qed.
Lemma run_guild_op_frugal o s : unsigned_op o -> frugal s (run_guild_op o s).
Proof.
  intros Ho. destruct o; cbn [run_guild_op].
  - apply in_world_frugal, run_member_frugal.
  - apply in_world_frugal, run_board_frugal.
  - apply in_world_frugal. by apply run_bank_frugal.
  - keeping.
  - keeping.
  - by apply frugal_same.
  - apply in_world_frugal, with_guild_frugal. intros g. exact _.
  - apply ResetAllTimes_frugal.
  - unfold SaveGuilds. keeping.
  - apply in_world_frugal. intros t. unfold HandleGuildCreateCommand. case_match; [reflexivity|].
    destruct (Create target name t) as [[g|] u] eqn:He; assert (frugal t u) by (eapply (keeps_snd frugal (Create target name)); [apply Create_frugal|exact He]); [keeping|]; done.
  - unfold HandleGuildDeleteCommand. keeping.
  - unfold HandleGuildInviteCommand. case_match; [|reflexivity]. apply (AddMember_frugal _ target GUILD_RANK_NONE).
  - unfold HandleGuildUninviteCommand. keeping.
  - unfold HandleGuildRankCommand. case_match; [reflexivity|]. case_match; [|reflexivity]. apply (ChangeMemberRank_frugal _ target (u8 rank)).
  - unfold HandleGuildRenameCommand. repeat (case_match; [try reflexivity|]); try reflexivity. apply (SetName_frugal _ new).
  - unfold LeaveGuildOnDelete. keeping.
Qed.

(** C10: Whatever requests, commands, logins and resets follow one another, purses,
    mails and banks together never hold more money than before, and no balance
    gets below zero, as long as all of it can be counted in 64 bits. *)
Theorem guilds_make_no_money l s : bank_ok s -> riches s < 2 ^ 64 -> Forall unsigned_op l ->
  bank_ok (run_guilds l s) /\ riches (run_guilds l s) <= riches s.
Proof.
  intros Hok Hr Hl. revert s Hok Hr. induction Hl as [|o l Ho _ IH]; intros s Hok Hr; [by split|]. cbn [run_guilds].
  destruct (run_guild_op_frugal o s Ho Hok Hr) as [Hok' Hr']. destruct (IH _ Hok') as [H1 H2]; [lia|]. split; [done|lia].
Qed.
End Runs.
