(* ===== verification/GuildLimits.v ===== *)
(** * Daily limits of guild banks

    A member who is no master takes no more money out of the bank between two
    resets than his rank may, whatever he and the others do at the bank. *)
From S2P Require Import Prelude.
From S2P Require Import Lists.
From S2P Require Import Frames.
From S2P Require Import Util.
From S2P Require Import Mail.
From S2P Require Import MailMoney.
From S2P Require Import Guild.
From S2P Require Import GuildBank.
From S2P Require Import GuildSteps.
From S2P Require Import GuildMoney.
Local Open Scope Z_scope.

(** What decides how much money the member [low] of guild [g] may still take *)
Definition account (m : Member) : Z * option Z := (m_rankId m, m_bankWithdraw m !! 8%nat).
Definition rank_limits (r : RankInfo) : Z * Z := (m_rights r, m_bankMoneyPerDay r).
Definition view_of (low : Z) (x : Guild) : option (Z * option Z) * list (Z * Z) :=
  (account <$> m_members x !! low, rank_limits <$> m_ranks x).
Definition view (g low : Z) (s : Guilds) := view_of low <$> g_guilds s !! g.
(** At most eight tabs, and a balance of 64 bits *)
Definition fits (x : Guild) : Prop := (length (m_bankTabs x) <= 8)%nat /\ is_u64 (m_bankMoney x).
Definition bank_fits (g : Z) (s : Guilds) : Prop := forall x, g_guilds s !! g = Some x -> fits x.
(** Operations that do not concern it *)
Definition calm (g low : Z) (s s' : Guilds) : Prop := bank_fits g s -> bank_fits g s' /\ view g low s' = view g low s.
#[export] Instance calm_preorder g low : PreOrder (calm g low).
Proof.
  split; [by intros s Hs|]. intros s t u H1 H2 Hs. destruct (H1 Hs) as [Ht E1]. destruct (H2 Ht) as [Hu E2]. split; [done|congruence].
Qed.
Lemma calm_same g low s t : g_guilds t = g_guilds s -> calm g low s t.
Proof. intros He Hs. unfold view, bank_fits in *. by rewrite He. Qed.
Lemma calm_upd g low g' f t : (forall x, view_of low (f x) = view_of low x /\ (fits x -> fits (f x))) ->
  calm g low t (upd_guild g' f t).
Proof.
  intros Hf Hs. unfold view, bank_fits, upd_guild in *. cbn. split.
  - intros y [[Hne Hy]|(-> & x & Hx & ->)]%alter_Some_cases; [by apply Hs|]. apply Hf. by apply Hs.
  - rewrite lookup_alter. case_decide; [subst|done]. destruct (g_guilds t !! g); [|done]. cbn. f_equal. apply Hf.
Qed.
Lemma calm_upd_other g low g' f t : g' <> g -> calm g low t (upd_guild g' f t).
Proof. intros Hne Hs. unfold view, bank_fits, upd_guild in *. cbn. by rewrite lookup_alter_ne. Qed.

Ltac keep_base ::=
  match goal with
  | |- calm _ _ _ (upd_guild _ _ ?t) => transitivity t; [|apply calm_upd; done]
  | |- calm _ _ _ (set_g_post _ ?t) => transitivity t; [|by apply calm_same]
  | |- calm _ _ _ (forall_in _ _ ?t) => transitivity t; [|apply forall_in_keeps; [exact _|intros]]
  end.
Ltac calmly := intros ?; by apply calm_same.

Section Calm.
Context `{BankWorld} (g low : Z).

#[local] Instance tell_calm e : Keeps (calm g low) (tell e).
Proof. calmly. Qed.
#[local] Instance on_purse_calm p f : Keeps (calm g low) (on_purse p f).
Proof. calmly. Qed.
#[local] Instance UPD_GUILD_calm k f : Keeps (calm g low) (UPD_GUILD k f).
Proof. calmly. Qed.
#[local] Instance INS_WITHDRAW_calm k l : Keeps (calm g low) (INS_GUILD_MEMBER_WITHDRAW k l).
Proof. calmly. Qed.
#[local] Instance INS_RIGHT_calm k t rid r n : Keeps (calm g low) (INS_GUILD_BANK_RIGHT k t rid r n).
Proof. calmly. Qed.
#[local] Instance INS_TAB_calm k t : Keeps (calm g low) (INS_GUILD_BANK_TAB k t).
Proof. calmly. Qed.
#[local] Instance UPD_TAB_calm k t f : Keeps (calm g low) (UPD_GUILD_BANK_TAB k t f).
Proof. calmly. Qed.
#[local] Instance set_items_calm x : Keeps (calm g low) (set_guild_bank_item x).
Proof. calmly. Qed.
#[local] Instance set_log_calm x : Keeps (calm g low) (set_guild_bank_eventlog x).
Proof. calmly. Qed.
#[local] Instance upd_tab_calm k t f : Keeps (calm g low) (upd_tab k t f).
Proof. intros s. apply calm_upd. intros x. split; [done|]. unfold fits. cbn. by rewrite length_alter. Qed.
#[local] Instance LogBankEvent_calm k ty t l i c d : Keeps (calm g low) (LogBankEvent k ty t l i c d).
Proof. intros s. unfold LogBankEvent. keeping. Qed.
Lemma ModifyBankMoney_calm k a b s : calm g low s (ModifyBankMoney k a b s).2.
Proof.
  unfold ModifyBankMoney. cbv zeta. case_match; cbn [snd]; [reflexivity|]. keep1. apply calm_upd. intros x. split; [done|]. intros [Hx _].
  split; [done|]. cbn. unfold u64, is_u64. apply Z.mod_pos_bound. lia.
Qed.

(** Ranks get rights and slots for new tabs, and keep their limits. *)
Lemma CreateMissingTabs_limits k tabs r s :
  rank_limits (CreateMissingTabsIfNeeded k tabs r s).1 = rank_limits r /\ g_guilds (CreateMissingTabsIfNeeded k tabs r s).2 = g_guilds s.
Proof.
  unfold CreateMissingTabsIfNeeded. generalize (upto tabs) as l. intros l. revert r s. induction l as [|i l IH]; intros r s; [done|].
  cbn [foldl]. destruct (missing_tab k i (r, s)) as [r' s'] eqn:He. destruct (IH r' s') as [-> ->].
  replace r' with (missing_tab k i (r, s)).1 by (by rewrite He). replace s' with (missing_tab k i (r, s)).2 by (by rewrite He).
  unfold missing_tab. by repeat case_match.
Qed.
#[local] Instance missing_tabs_of_calm k tabs i : Keeps (calm g low) (missing_tabs_of k tabs i).
Proof.
  intros s. unfold missing_tabs_of. destruct (m_ranks (guild_of k s) !! Z.to_nat i) as [r|] eqn:Hr; [|reflexivity].
  destruct (CreateMissingTabsIfNeeded k tabs r s) as [r' s'] eqn:He. destruct (CreateMissingTabs_limits k tabs r s) as [Hl Hg]. rewrite He in Hl, Hg. cbn in Hl, Hg.
  destruct (decide (k = g)) as [->|Hne].
  - intros Hs. unfold bank_fits, view, upd_rank, upd_guild in *. cbn. rewrite !lookup_alter_eq, Hg. unfold guild_of in Hr.
    destruct (g_guilds s !! g) as [x|]; [|done]. cbn in Hr |- *. split; [intros y [= <-]; exact (Hs x eq_refl)|]. f_equal. unfold view_of. cbn [m_members set_m_ranks m_ranks]. f_equal.
    apply list_eq. intros j. rewrite !list_lookup_fmap. destruct (decide (j = Z.to_nat i)) as [->|Hj]; [|by rewrite list_lookup_alter_ne].
    rewrite list_lookup_alter_eq, Hr. cbn. by rewrite Hl.
  - transitivity s'; [by apply calm_same|]. unfold upd_rank. by apply calm_upd_other.
Qed.
#[local] Instance BuyBankTab_calm k p t : Keeps (calm g low) (HandleBuyBankTab k p t).
Proof.
  intros s. unfold HandleBuyBankTab. cbv zeta. case_match; [|reflexivity]. case_match; [|reflexivity].
  destruct (Z.leb_spec GUILD_BANK_MAX_TABS (GetPurchasedTabsSize (guild_of k s))) as [|Ht]; [reflexivity|]. case_match; [reflexivity|].
  match goal with |- calm g low s (match ?b with _ => _ end) => destruct b as [s'|] eqn:Hb end; [|reflexivity].
  assert (Hg : g_guilds s' = g_guilds s) by (revert Hb; repeat case_match; by intros [= <-]).
  do 2 keep1. unfold CreateNewBankTab. cbv zeta. transitivity s'; [by apply calm_same|]. keep1; [|apply missing_tabs_of_calm].
  keep1. destruct (decide (k = g)) as [->|Hne]; [|by apply calm_upd_other].
  intros Hs. unfold bank_fits, view, upd_guild in *. cbn. rewrite !lookup_alter_eq. destruct (g_guilds s' !! g) as [x|] eqn:Hx; [|done]. cbn.
  split; [|done]. intros y [= <-]. destruct (Hs x eq_refl) as [Hl Hbal]. split; [|done]. cbn. rewrite length_app. cbn. unfold guild_of in Ht. rewrite <- Hg, Hx in Ht. cbn in Ht.
  unfold GetPurchasedTabsSize, GUILD_BANK_MAX_TABS in Ht. unfold u8 in Ht. rewrite Z.mod_small in Ht by lia. lia.
Qed.
#[local] Instance SetBankTabInfo_calm k p t n i : Keeps (calm g low) (HandleSetBankTabInfo k p t n i).
Proof. intros s. unfold HandleSetBankTabInfo. keeping. Qed.
#[local] Instance SetText_calm k t n : Keeps (calm g low) (SetText k t n).
Proof. intros s. unfold SetText. keeping. Qed.
#[local] Instance SetBankTabText_calm k t n : Keeps (calm g low) (SetBankTabText k t n).
Proof. intros s. unfold SetBankTabText. keeping. Qed.
#[local] Instance SetBankTabNote_calm k p t n : Keeps (calm g low) (HandleSetBankTabNote k p t n).
Proof. intros s. unfold HandleSetBankTabNote. keeping. Qed.
#[local] Instance Deposit_calm k p a b : Keeps (calm g low) (HandleMemberDepositMoney k p a b).
Proof.
  intros s. unfold HandleMemberDepositMoney. cbv zeta. do 2 keep1. destruct b; [|keep1]; apply ModifyBankMoney_calm.
Qed.

(** Items that are taken count for their tab only. *)
#[local] Instance upd_item_calm l f : Keeps (calm g low) (upd_item l f).
Proof. calmly. Qed.
#[local] Instance SetItem_calm k t sl i : Keeps (calm g low) (SetItem k t sl i).
Proof. intros s. unfold SetItem. keeping. Qed.
Lemma CloneBankItem_calm l c s : calm g low s (CloneBankItem l c s).2.
Proof. unfold CloneBankItem. cbv zeta. case_match; cbn [snd]; keeping. Qed.
#[local] Instance StoreItemAt_calm k t i pos b : Keeps (calm g low) (StoreItemAt k t i pos b).
Proof.
  intros s. unfold StoreItemAt. destruct pos as [sl c]. destruct (GetItem k t sl s); [keeping|]. destruct b; [|keeping].
  destruct (CloneBankItem i c s) as [[new|] s'] eqn:He; keeping; (eapply (keeps_snd _ (CloneBankItem i c)); [apply CloneBankItem_calm|exact He]).
Qed.
#[local] Instance StoreItem_calm k t i vec : Keeps (calm g low) (StoreItem k t i vec).
Proof. induction vec as [|pos vec IH]; intros s; cbn; [reflexivity|]. keeping. Qed.
Lemma tab_withdraw_calm k l t a s : (k = g -> t < 8) -> calm g low s (UpdateBankWithdrawValue k l t a s).
Proof.
  intros Ht. unfold UpdateBankWithdrawValue. cbv zeta. set (u := upd_member _ _ _ s).
  assert (Hu : calm g low s u); [|case_match; [|done]; etransitivity; [exact Hu|]; keeping].
  unfold u, upd_member. destruct (decide (k = g)) as [Hk|Hk]; [|by apply calm_upd_other]. specialize (Ht Hk). apply calm_upd. intros x. split; [|done]. unfold view_of. cbn. f_equal. rewrite lookup_alter. case_decide; [subst|done].
  destruct (m_members x !! low); [|done]. cbn. unfold account. cbn. rewrite list_lookup_alter_ne by lia. done.
Qed.
Lemma RemoveItem_calm k p t sl i o n s : (k = g -> t < 8) -> calm g low s (RemoveItem k p t sl i o n s).
Proof.
  intros Ht. unfold RemoveItem. cbv zeta. set (u := if n =? 0 then _ else _). assert (Hu : calm g low s u) by (unfold u; keeping).
  case_match; [done|]. unfold UpdateMemberWithdrawSlots. cbv zeta. case_match; [|done]. case_match; [|done].
  etransitivity; [exact Hu|by apply tab_withdraw_calm].
Qed.
Lemma DoItemsMove_calm k p a b c d e f h i j s : (k = g -> a < 8) -> (k = g -> d < 8) -> calm g low s (DoItemsMove k p a b c d e f h i j s).2.
Proof.
  intros Ha Hd. unfold DoItemsMove. cbv zeta. destruct (CanStore _ _ _ _ _ _) as [msg vec]. case_match; cbn [snd]; [destruct i; keeping|].
  case_match; cbn [snd]; [keeping|]. destruct h; repeat first [reflexivity|etransitivity; [|by apply RemoveItem_calm]|keep1].
Qed.
Lemma MoveItems_calm k p a b c d n s : (k = g -> a < 8) -> (k = g -> c < 8) -> calm g low s (MoveItems k p a b c d n s).
Proof.
  intros Ha Hc. unfold MoveItems. cbv zeta. case_match; [|reflexivity]. case_match; [reflexivity|]. case_match; [reflexivity|]. case_match; [reflexivity|].
  set (split := if n =? _ then 0 else n). destruct (negb (split =? 0)).
  - match goal with |- context [CloneBankItem ?i ?n s] => destruct (CloneBankItem i n s) as [[new|] s'] eqn:He; assert (Hs : calm g low s s') by (eapply (keeps_snd _ (CloneBankItem i n)); [apply CloneBankItem_calm|exact He]) end; keep1; [|by keeping].
    etransitivity; [exact Hs|by apply (DoItemsMove_calm _ _ _ _ _ _ _ _ _ _ _ _ Ha Hc)].
  - match goal with |- context [DoItemsMove ?a1 ?a2 ?a3 ?a4 ?a5 ?a6 ?a7 ?a8 None false 0 s] =>
      pose proof (DoItemsMove_calm a1 a2 a3 a4 a5 a6 a7 a8 None false 0 s Ha Hc) as Hs; destruct (DoItemsMove a1 a2 a3 a4 a5 a6 a7 a8 None false 0 s) as [mv s'] eqn:He end.
    cbn [snd] in Hs.
    destruct mv; [by keeping|]. do 3 (case_match; try done). keep1. etransitivity; [exact Hs|by apply (DoItemsMove_calm _ _ _ _ _ _ _ _ _ _ _ _ Ha Hc)].
Qed.
Lemma purchased_small s t : bank_fits g s -> t < GetPurchasedTabsSize (guild_of g s) -> t < 8.
Proof.
  intros Hs. unfold GetPurchasedTabsSize, guild_of, bank_fits in *. destruct (g_guilds s !! g) as [x|]; cbn.
  - destruct (Hs x eq_refl) as [Hl _]. intros Ht. unfold u8 in Ht. rewrite Z.mod_small in Ht by lia. lia.
  - intros Ht. change (t < 0) in Ht. lia.
Qed.
Lemma SwapItems_calm k p a b c d n s : calm g low s (SwapItems k p a b c d n s).
Proof.
  unfold SwapItems. cbv zeta. case_match eqn:Hc; [reflexivity|]. case_match; [reflexivity|]. rewrite !orb_false_iff in Hc. destruct Hc as [[[Ha _] Hc] _].
  apply Z.leb_gt in Ha. apply Z.leb_gt in Hc. intros Hs. apply MoveItems_calm; [| |done]; intros ->; by eapply purchased_small.
Qed.

(** A withdrawal counts for who made it. *)
Lemma Withdraw_calm k p a r s : k <> g \/ GUID_LOPART p <> low -> calm g low s (HandleMemberWithdrawMoney k p a r s).2.
Proof.
  intros Hne. unfold HandleMemberWithdrawMoney. cbv zeta. case_match; [reflexivity|]. case_match; [|reflexivity]. case_match; [|reflexivity].
  case_match; [reflexivity|]. case_match; [reflexivity|]. cbn [snd]. do 2 keep1. etransitivity; [|apply ModifyBankMoney_calm].
  match goal with |- calm g low s (UpdateBankWithdrawValue _ _ _ ?n ?t) => assert (Hu : calm g low s t) by keeping; generalize dependent t; intros u Hu end.
  etransitivity; [exact Hu|]. unfold UpdateBankWithdrawValue. cbv zeta. set (v := upd_member _ _ _ u). assert (Hv : calm g low u v); [|case_match; [|done]; etransitivity; [exact Hv|]; keeping].
  unfold v, upd_member. destruct (decide (k = g)) as [->|Hk]; [|by apply calm_upd_other]. destruct Hne as [|Hne]; [done|].
  apply calm_upd. intros x. split; [|done]. unfold view_of. cbn. by rewrite lookup_alter_ne.
Qed.
Lemma upd_guild_other k f s : k <> g -> g_guilds (upd_guild k f s) !! g = g_guilds s !! g.
Proof. intros Hk. unfold upd_guild. cbn. by rewrite lookup_alter_ne. Qed.
Lemma LogBankEvent_other k ty t l i c d s : k <> g -> g_guilds (LogBankEvent k ty t l i c d s) !! g = g_guilds s !! g.
Proof. intros Hk. unfold LogBankEvent. repeat case_match; try done; exact (upd_guild_other k _ s Hk). Qed.
Lemma ModifyBankMoney_other k a b s : k <> g -> g_guilds (ModifyBankMoney k a b s).2 !! g = g_guilds s !! g.
Proof. intros Hk. unfold ModifyBankMoney. cbv zeta. case_match; [done|]. exact (upd_guild_other k _ s Hk). Qed.
Lemma UpdateBankWithdrawValue_other k l t a s : k <> g -> g_guilds (UpdateBankWithdrawValue k l t a s) !! g = g_guilds s !! g.
Proof. intros Hk. unfold UpdateBankWithdrawValue. cbv zeta. case_match; exact (upd_guild_other k _ s Hk). Qed.
Lemma Withdraw_other k p a r s : k <> g -> g_guilds (HandleMemberWithdrawMoney k p a r s).2 !! g = g_guilds s !! g.
Proof.
  intros Hk. unfold HandleMemberWithdrawMoney. cbv zeta. case_match; [done|]. case_match; [|done]. case_match; [|done]. case_match; [done|]. case_match; [done|]. cbn [snd].
  change (g_guilds (tell ?e ?u)) with (g_guilds u). rewrite LogBankEvent_other, ModifyBankMoney_other, UpdateBankWithdrawValue_other by done. by destruct r.
Qed.
End Calm.

Section Limits.
Context `{BankWorld}.

(** ** The limit *)

Definition balance (g : Z) (s : Guilds) : Z := m_bankMoney (guild_of g s).
(** What player [p] took out of the bank of [g] during a run *)
Definition takes (p : Z) (o : bank_op) : bool :=
  match o with OpWithdraw q _ _ | OpRepair q _ => q =? p | _ => false end.
Fixpoint taken (g p : Z) (l : list bank_op) (s : Guilds) : Z :=
  match l with
  | [] => 0
  | o :: l =>
      let s' := run_guild_op (OpBank o) s in
      (if takes p o then balance g s - balance g s' else 0) + taken g p l s'
  end.

Definition honest_bank (o : bank_op) : Prop := is_u32 (bank_player o) /\ unsigned_bank o.
Lemma with_guild_calm g low p f s : (forall k, calm g low s (f k s)) -> calm g low s (with_guild p f s).
Proof. intros Hf. unfold with_guild. case_match; [apply Hf|reflexivity]. Qed.
(** Everything but a withdrawal of [p] leaves his account alone. *)
Lemma other_calm g p o s : is_u32 p -> honest_bank o -> takes p o = false -> calm g p s (run_guild_op (OpBank o) s).
Proof.
  intros Hp [Hq _] Ho. cbn [run_guild_op]. unfold in_world. case_match; [|reflexivity].
  destruct o; cbn [run_bank bank_player takes] in *; try (apply with_guild_calm; intros k).
  - apply BuyBankTab_calm.
  - unfold HandleGuildBankUpdateTab. case_match; [apply with_guild_calm; intros k; apply SetBankTabInfo_calm|reflexivity].
  - apply SetBankTabText_calm.
  - apply SetBankTabNote_calm.
  - unfold HandleGuildBankDepositMoney. case_match; [|reflexivity]. case_match; [|reflexivity]. apply with_guild_calm. intros k. apply Deposit_calm.
  - unfold HandleGuildBankWithdrawMoney. case_match; [|reflexivity]. apply with_guild_calm. intros k. apply Withdraw_calm. right. unfold GUID_LOPART. rewrite u32_small by done. lia.
  - unfold HandleGuildBankSwapItems. case_match; [|reflexivity]. case_match; [|reflexivity]. apply SwapItems_calm.
  - apply Withdraw_calm. right. unfold GUID_LOPART. rewrite u32_small by done. lia.
Qed.

(** The account of [p]: his rank, what he took today and what he may take *)
Definition holds (g p : Z) (s : Guilds) (rank w L : Z) : Prop :=
  bank_fits g s /\ exists x m, g_guilds s !! g = Some x /\ m_members x !! p = Some m /\ m_rankId m = rank /\
    m_bankWithdraw m !! 8%nat = Some w /\ GetRankBankMoneyPerDay rank x = L.
Lemma limits_money x y rank : rank_limits <$> m_ranks x = rank_limits <$> m_ranks y -> GetRankBankMoneyPerDay rank x = GetRankBankMoneyPerDay rank y.
Proof.
  intros He. unfold GetRankBankMoneyPerDay, GetRankInfo. assert (Hl : length (m_ranks x) = length (m_ranks y)) by (rewrite <- (length_fmap rank_limits (m_ranks x)), He; by rewrite length_fmap).
  rewrite Hl. destruct (rank <? u8 (Z.of_nat (length (m_ranks y)))); [|done]. assert (Hi : rank_limits <$> m_ranks x !! Z.to_nat rank = rank_limits <$> m_ranks y !! Z.to_nat rank) by (rewrite <- !list_lookup_fmap; by rewrite He).
  destruct (m_ranks x !! Z.to_nat rank), (m_ranks y !! Z.to_nat rank); try done. cbn in Hi. unfold rank_limits in Hi. congruence.
Qed.
Lemma calm_holds g p s s' rank w L : calm g p s s' -> holds g p s rank w L -> holds g p s' rank w L.
Proof.
  intros Hc (Hf & x & m & Hx & Hm & Hr & Hw & HL). destruct (Hc Hf) as [Hf' Hv]. split; [done|]. unfold view in Hv. rewrite Hx in Hv.
  destruct (g_guilds s' !! g) as [x'|]; [|done]. cbn in Hv. unfold view_of in Hv. rewrite Hm in Hv. injection Hv as Hv1 Hv2.
  destruct (m_members x' !! p) as [m'|] eqn:Hm'; [|done]. cbn in Hv1. unfold account in Hv1. injection Hv1 as Hv1 Hv3.
  exists x', m'. split_and!; [done|done|congruence|congruence|]. by rewrite <- HL; apply limits_money.
Qed.

Lemma holds_limit g p s rank w L : holds g p s rank w L -> L < 2 ^ 31.
Proof. intros (_ & x & m & _ & _ & _ & _ & <-). unfold GetRankBankMoneyPerDay. case_match; [apply s32_range|lia]. Qed.
(** One withdrawal *)
Lemma withdraw_step g p a r s rank w L : is_u32 p -> holds g p s rank w L -> rank <> 0 -> 0 <= w < 2 ^ 31 -> 0 <= L -> 0 <= a ->
  exists n, holds g p (HandleMemberWithdrawMoney g p a r s).2 rank (w + n) L /\
    balance g s - balance g (HandleMemberWithdrawMoney g p a r s).2 = n /\ 0 <= n <= Z.max 0 (L - w).
Proof.
  intros Hp Hh Hr0 Hw0 HL0 Ha. assert (Hnone : exists n, holds g p s rank (w + n) L /\ balance g s - balance g s = n /\ 0 <= n <= Z.max 0 (L - w)) by (exists 0; rewrite Z.add_0_r; split_and!; [done|lia|lia|lia]).
  unfold HandleMemberWithdrawMoney. cbv zeta. set (n := Z.min a MAX_MONEY_AMOUNT). assert (Hn : 0 <= n) by (unfold n, MAX_MONEY_AMOUNT; lia). clearbody n.
  destruct (Z.ltb_spec (m_bankMoney (guild_of g s)) n) as [|Hb]; [exact Hnone|]. destruct (players (g_post s) !! p) as [y|]; [|exact Hnone].
  destruct (GetMember p (guild_of g s)) as [m|] eqn:Hgm; [|exact Hnone].
  destruct (Z.ltb_spec (u64 (GetMemberRemainingMoney m (guild_of g s))) n) as [|Hrem]; [exact Hnone|]. case_match; [exact Hnone|]. cbn [snd]. clear Hnone.
  pose proof (holds_limit _ _ _ _ _ _ Hh) as HL1. destruct Hh as (Hf & x & m' & Hx & Hm & Hr & Hw & HL). unfold guild_of in Hgm, Hrem, Hb. rewrite Hx in Hgm, Hrem, Hb. cbn in Hgm, Hrem, Hb.
  assert (Hlow : GUID_LOPART p = p) by (unfold GUID_LOPART; by rewrite u32_small). unfold GetMember in Hgm. rewrite Hlow, Hm in Hgm. injection Hgm as ->.
  assert (HnL : n <= Z.max 0 (L - w)).
  { revert Hrem. unfold GetMemberRemainingMoney. rewrite Hr. replace (rank =? GR_GUILDMASTER) with false by (unfold GR_GUILDMASTER; lia).
    unfold GetBankWithdrawValue, IsRank. rewrite Hr. replace (rank =? GR_GUILDMASTER) with false by (unfold GR_GUILDMASTER; lia).
    change (m_bankWithdraw m !! Z.to_nat GUILD_BANK_MAX_TABS) with (m_bankWithdraw m !! 8%nat). rewrite Hw, HL. cbn [default from_option]. unfold id. cbv iota.
    rewrite s32_small by lia. case_match; [|rewrite u64_small by (unfold is_u64; lia); lia]. destruct (Z.ltb_spec 0 (L - w)); rewrite u64_small by (unfold is_u64; lia); lia. }
  exists n. set (s1 := if r then s else _). assert (Hg1 : g_guilds s1 = g_guilds s) by (unfold s1; by case_match).
  unfold UpdateBankWithdrawValue. rewrite Hlow. set (h := fun m : Member => _). set (s2 := upd_member g p h s1).
  set (x2 := set_m_members (alter h p (m_members x)) x).
  assert (Hx2 : g_guilds s2 !! g = Some x2) by (unfold s2, upd_member, upd_guild; cbn; by rewrite lookup_alter_eq, Hg1, Hx).
  assert (Hm2 : m_members (guild_of g s2) !! p = Some (h m)) by (unfold guild_of; rewrite Hx2; cbn; by rewrite lookup_alter_eq, Hm). rewrite Hm2.
  set (s3 := INS_GUILD_MEMBER_WITHDRAW p _ s2). assert (Hx3 : g_guilds s3 !! g = Some x2) by done.
  unfold ModifyBankMoney. cbn [negb andb]. replace (guild_of g s3) with x2 by (unfold guild_of; by rewrite Hx3).
  change (m_bankMoney x2) with (m_bankMoney x). replace (m_bankMoney x <? n) with false by lia. cbn [snd].
  destruct (Hf x Hx) as [Hft Hfb]. unfold is_u64 in Hfb. rewrite u64_small by (unfold is_u64; lia).
  match goal with |- holds _ _ (tell _ (LogBankEvent _ ?ty _ _ _ _ _ ?u)) _ _ _ /\ _ => set (s4 := u); set (ty0 := ty) end.
  set (x4 := set_m_bankMoney (m_bankMoney x - n) x2).
  assert (Hx4 : g_guilds s4 !! g = Some x4) by (change (g_guilds s4) with (alter (set_m_bankMoney (m_bankMoney x - n)) g (g_guilds s3)); by rewrite lookup_alter_eq, Hx3).
  assert (H4 : holds g p s4 rank (w + n) L).
  { split; [intros z Hz; rewrite Hx4 in Hz; injection Hz as <-; split; [done|]; cbn; unfold is_u64; lia|]. exists x4, (h m). split_and!; try done.
    - cbn. by rewrite lookup_alter_eq, Hm.
    - cbn. change (Z.to_nat GUILD_BANK_MAX_TABS) with 8%nat. rewrite list_lookup_alter_eq, Hw. cbn. rewrite (u32_small n), s32_small by (unfold is_u32; lia). done. }
  split; [|split; [|done]].
  - eapply calm_holds; [|exact H4]. etransitivity; [apply LogBankEvent_calm|apply tell_calm].
  - unfold balance, guild_of. rewrite Hx. cbn [default]. assert (Hlog : exists z, g_guilds (LogBankEvent g ty0 0 p n 0 0 s4) !! g = Some z /\ m_bankMoney z = m_bankMoney x4).
    { clearbody s4. unfold LogBankEvent. cbv zeta. repeat case_match; try (by exists x4); eexists; (split; [unfold upd_guild; cbn; by rewrite lookup_alter_eq, Hx4|done]). }
    destruct Hlog as (z & Hz & Hbz). cbn [tell g_guilds set_g_events]. change (g_guilds (tell _ ?u)) with (g_guilds u). rewrite Hz. cbn [from_option default]. unfold id. rewrite Hbz. cbn. lia.
Qed.

(** C11: What a member who is no master takes out of the bank between two resets,
    for himself or for repairs, is no more than what his rank may take in a
    day less what he took before, whatever he and the other players ask of the
    bank. *)
Theorem daily_limit_holds g p l s rank w L :
  is_u32 p -> holds g p s rank w L -> rank <> GR_GUILDMASTER -> 0 <= w < 2 ^ 31 -> 0 <= L -> Forall honest_bank l ->
  0 <= taken g p l s <= Z.max 0 (L - w).
Proof.
  intros Hp Hh Hr Hw HL Hl. revert s w Hh Hw. induction Hl as [|o l Ho _ IH]; intros s w Hh Hw; cbn [taken]; [lia|]. cbv zeta.
  destruct (takes p o) eqn:Ht.
  - assert (Hstep : exists n, holds g p (run_guild_op (OpBank o) s) rank (w + n) L /\ balance g s - balance g (run_guild_op (OpBank o) s) = n /\ 0 <= n <= Z.max 0 (L - w)).
    { assert (Hnone : exists n, holds g p s rank (w + n) L /\ balance g s - balance g s = n /\ 0 <= n <= Z.max 0 (L - w)) by (exists 0; rewrite Z.add_0_r; split_and!; [done|lia|lia|lia]).
      assert (Hat : forall k a r, 0 <= a -> exists n, holds g p (HandleMemberWithdrawMoney k p a r s).2 rank (w + n) L /\ balance g s - balance g (HandleMemberWithdrawMoney k p a r s).2 = n /\ 0 <= n <= Z.max 0 (L - w)).
      { intros k a r Ha. destruct (decide (k = g)) as [->|Hk]; [by apply withdraw_step|]. exists 0. rewrite Z.add_0_r. split_and!; [|unfold balance, guild_of; by rewrite (Withdraw_other g k); [lia|]|lia|lia].
        eapply calm_holds; [|exact Hh]. apply Withdraw_calm. by left. }
      destruct Ho as [_ Ho]. destruct o; try done; cbn [takes] in Ht; apply Z.eqb_eq in Ht as ->; cbn [run_guild_op bank_player run_bank unsigned_bank] in *; unfold in_world, is_u64, is_u32 in *; (case_match; [|exact Hnone]).
      - unfold HandleGuildBankWithdrawMoney. case_match; [|exact Hnone]. unfold with_guild. case_match; [|exact Hnone]. apply Hat. lia.
      - unfold RepairAtBank, with_guild. case_match; [|exact Hnone]. apply Hat. lia. }
    pose proof (holds_limit _ _ _ _ _ _ Hh) as HL1. destruct Hstep as (n & Hh' & Hb & Hn). destruct (IH _ (w + n) Hh') as [H1 H2]; [lia|]. lia.
  - specialize (IH _ w (calm_holds _ _ _ _ _ _ _ (other_calm g p o s Hp Ho Ht) Hh) Hw). lia.
Qed.
End Limits.
