(* ===== verification/GuildRoster.v ===== *)
(** * The roster of guilds

    An abstract machine of who belongs to which guild: what guilds, character
    objects and the table guild_member say about it, and the steps it changes
    by.  Its invariant says that they agree. *)
From S2P Require Import Prelude.
From S2P Require Import Lists.
From S2P Require Import Util.
From S2P Require Import Mail.
From S2P Require Import Guild.
From stdpp Require Import relations.
Local Open Scope Z_scope.

(** A member as his guild knows him *)
Record MView := mkView {
  v_guid : Z;
  v_rank : Z;
  v_pnote : text;
  v_offnote : text
}.
Definition set_v_rank (r : Z) (v : MView) : MView := mkView (v_guid v) r (v_pnote v) (v_offnote v).
(** The public note, or the one of officers *)
Definition set_v_note (isPublic : bool) (n : text) (v : MView) : MView :=
  if isPublic then mkView (v_guid v) (v_rank v) n (v_offnote v) else mkView (v_guid v) (v_rank v) (v_pnote v) n.
Definition set_mr_note (isPublic : bool) : text -> MemberRow -> MemberRow := if isPublic then set_mr_pnote else set_mr_offnote.
Definition row_of (g : Z) (v : MView) : MemberRow := mkMemberRow g (v_rank v) (v_pnote v) (v_offnote v).

Record Roster := mkRoster {
  R_online : gmap Z bool;  (* characters: in the world or not *)
  R_chars : gmap Z (Z * Z);  (* guild and rank of a character object *)
  R_guilds : gmap Z (Z * gmap Z MView);  (* leader, members *)
  R_rows : gmap Z MemberRow;
  R_store : gset Z;
  R_next : Z
}.

(** ** Steps *)

Definition is_online (R : Roster) (p : Z) : bool := default false (R_online R !! p).
Definition on_chars (p : Z) (c : Z * Z -> Z * Z) (R : Roster) : Roster :=
  mkRoster (R_online R) (alter c p (R_chars R)) (R_guilds R) (R_rows R) (R_store R) (R_next R).
Definition on_guild (g : Z) (f : Z * gmap Z MView -> Z * gmap Z MView) (R : Roster) : Roster :=
  mkRoster (R_online R) (R_chars R) (alter f g (R_guilds R)) (R_rows R) (R_store R) (R_next R).
Definition on_rows (f : gmap Z MemberRow -> gmap Z MemberRow) (R : Roster) : Roster :=
  mkRoster (R_online R) (R_chars R) (R_guilds R) (f (R_rows R)) (R_store R) (R_next R).
(** The object of a character in the world *)
Definition on_object (p : Z) (c : Z * Z -> Z * Z) (R : Roster) : Roster := if is_online R p then on_chars p c R else R.

Definition a_rank (g low r : Z) (R : Roster) : Roster :=
  on_rows (alter (set_mr_rank r) low) (on_object low (fun c => (c.1, r)) (on_guild g (fun x => (x.1, alter (set_v_rank r) low x.2)) R)).
Definition a_leader (g low : Z) (R : Roster) : Roster := a_rank g low 0 (on_guild g (fun x => (low, x.2)) R).
Definition a_note (g low : Z) (isPublic : bool) (n : text) (R : Roster) : Roster :=
  on_rows (alter (set_mr_note isPublic n) low) (on_guild g (fun x => (x.1, alter (set_v_note isPublic n) low x.2)) R).
Definition a_add (g low rank : Z) (R : Roster) : Roster :=
  let v := mkView low rank [] [] in
  on_rows (<[low := row_of g v]>) (on_object low (fun _ => (g, rank)) (on_guild g (fun x => (x.1, <[low := v]> x.2)) R)).
Definition a_remove (g low : Z) (R : Roster) : Roster :=
  on_rows (delete low) (on_object low (fun _ => (0, 0)) (on_guild g (fun x => (x.1, delete low x.2)) R)).
Definition a_drop (g : Z) (R : Roster) : Roster :=
  mkRoster (R_online R) (R_chars R) (delete g (R_guilds R)) (R_rows R) (R_store R ∖ {[g]}) (R_next R).
Definition a_members (g : Z) (R : Roster) : gmap Z MView := match R_guilds R !! g with Some x => x.2 | None => ∅ end.
Definition a_disband (g : Z) (R : Roster) : Roster :=
  a_drop g (foldl (fun R low => a_remove g low R) R (map_ordered (a_members g R)).*1).
(** A guild comes into being with the next id and its leader. *)
Definition a_open (p : Z) (R : Roster) : Roster :=
  mkRoster (R_online R) (R_chars R) (<[R_next R := (p, ∅)]> (R_guilds R)) (R_rows R) (R_store R ∪ {[R_next R]}) (R_next R + 1).
Definition a_found (p : Z) (R : Roster) : Roster := a_add (R_next R) p 0 (a_open p R).
(** What an object gets from the row of its character *)
Definition logged_in (row : option MemberRow) (c : Z * Z) : Z * Z :=
  match row with Some r => (mr_guildid r, mr_rank r) | None => if c.1 =? 0 then c else (0, 0) end.
Definition a_login (p : Z) (R : Roster) : Roster :=
  mkRoster (alter (fun _ => true) p (R_online R))
    (alter (logged_in (R_rows R !! p)) p (R_chars R))
    (R_guilds R) (R_rows R) (R_store R) (R_next R).
Definition a_logout (p : Z) (R : Roster) : Roster :=
  mkRoster (alter (fun _ => false) p (R_online R)) (R_chars R) (R_guilds R) (R_rows R) (R_store R) (R_next R).

Inductive roster_step : Roster -> Roster -> Prop :=
| rs_rank R g low r x v : R_guilds R !! g = Some x -> x.2 !! low = Some v -> roster_step R (a_rank g low r R)
| rs_leader R g low x v : R_guilds R !! g = Some x -> x.2 !! low = Some v -> roster_step R (a_leader g low R)
| rs_note R g low b n x v : R_guilds R !! g = Some x -> x.2 !! low = Some v -> roster_step R (a_note g low b n R)
| rs_add R g low rank x : R_guilds R !! g = Some x -> is_u32 low -> R_rows R !! low = None -> roster_step R (a_add g low rank R)
| rs_remove R g low x v : R_guilds R !! g = Some x -> x.2 !! low = Some v -> x.1 <> low -> roster_step R (a_remove g low R)
| rs_disband R g x : R_guilds R !! g = Some x -> roster_step R (a_disband g R)
| rs_found R p : R_online R !! p = Some true -> R_rows R !! p = None -> roster_step R (a_found p R)
| rs_login R p : roster_step R (a_login p R)
| rs_logout R p : roster_step R (a_logout p R).
Definition roster_steps : Roster -> Roster -> Prop := rtc roster_step.

(** ** The invariant *)

(** The guilds of [E] may be without their leader. *)
Record roster_at (E : gset Z) (R : Roster) : Prop := {
  ro_next : 0 < R_next R;
  ro_keys p b : R_online R !! p = Some b -> is_u32 p /\ is_Some (R_chars R !! p);
  ro_ids g x : R_guilds R !! g = Some x -> 0 < g < R_next R /\ g ∈ R_store R;
  ro_leader g x : R_guilds R !! g = Some x -> g ∉ E -> is_Some (x.2 !! x.1);
  ro_member g x low v : R_guilds R !! g = Some x -> x.2 !! low = Some v ->
    v_guid v = low /\ is_u32 low /\ R_rows R !! low = Some (row_of g v);
  ro_store g : g ∈ R_store R -> is_Some (R_guilds R !! g);
  ro_row low r : R_rows R !! low = Some r -> exists x v, R_guilds R !! mr_guildid r = Some x /\ x.2 !! low = Some v;
  ro_char p : R_online R !! p = Some true -> forall c, R_chars R !! p = Some c ->
    match R_rows R !! p with Some r => c = (mr_guildid r, mr_rank r) | None => c.1 = 0 end
}.
Definition roster_inv (R : Roster) : Prop := roster_at ∅ R.

Create Rewrite HintDb roster.
Lemma on_object_guilds p c R : R_guilds (on_object p c R) = R_guilds R.
Proof. unfold on_object. by case_match. Qed.
Lemma on_object_rows p c R : R_rows (on_object p c R) = R_rows R.
Proof. unfold on_object. by case_match. Qed.
Lemma on_object_online p c R : R_online (on_object p c R) = R_online R.
Proof. unfold on_object. by case_match. Qed.
Lemma on_object_store p c R : R_store (on_object p c R) = R_store R.
Proof. unfold on_object. by case_match. Qed.
Lemma on_object_next p c R : R_next (on_object p c R) = R_next R.
Proof. unfold on_object. by case_match. Qed.
Lemma on_object_some p c R q : is_Some (R_chars R !! q) -> is_Some (R_chars (on_object p c R) !! q).
Proof. unfold on_object. case_match; [|done]. intros Hq. cbn. by rewrite lookup_alter_is_Some. Qed.
Lemma on_object_char p c R q d : R_online R !! q = Some true -> R_chars (on_object p c R) !! q = Some d ->
  q = p /\ (exists d0, R_chars R !! p = Some d0 /\ d = c d0) \/ q <> p /\ R_chars R !! q = Some d.
Proof.
  intros Hq. unfold on_object, is_online. destruct (decide (q = p)) as [->|Hne].
  - rewrite Hq. cbn. rewrite lookup_alter_eq. intros Hd. left. split; [done|]. apply fmap_Some in Hd as (d0 & H1 & H2). by exists d0.
  - case_match; cbn; [rewrite lookup_alter_ne by done|]; by right.
Qed.
#[export] Hint Rewrite on_object_guilds on_object_rows on_object_online on_object_store on_object_next : roster.

(** A change of one member's data and of his row *)
Lemma change_member E R g low (fv : MView -> MView) (fr : MemberRow -> MemberRow) c x v :
  roster_at E R -> R_guilds R !! g = Some x -> x.2 !! low = Some v ->
  (v_guid (fv v) = v_guid v) -> (fr (row_of g v) = row_of g (fv v)) ->
  (forall d, R_online R !! low = Some true -> d = (g, v_rank v) -> c d = (g, v_rank (fv v))) ->
  roster_at E (on_rows (alter fr low) (on_object low c (on_guild g (fun x => (x.1, alter fv low x.2)) R))).
Proof.
  intros [HN HK HI HL HM HS HR HC] Hx Hv Hg Hr Hc. destruct (HM _ _ _ _ Hx Hv) as (Hvg & Hlow & Hrow).
  split; cbn; autorewrite with roster; cbn.
  - done.
  - intros p b Hp. destruct (HK _ _ Hp) as [H1 H2]. split; [done|]. by apply on_object_some.
  - intros k y Hy. apply lookup_alter_Some in Hy as [(-> & z & Hz & ->)|[Hne Hy]]; by eapply HI.
  - intros k y Hy Hk. apply lookup_alter_Some in Hy as [(-> & z & Hz & ->)|[Hne Hy]]; [|by eapply HL]. cbn. rewrite lookup_alter_is_Some. by eapply HL.
  - intros k y l w Hy Hw. apply lookup_alter_Some in Hy as [(<- & z & Hz & ->)|[Hne Hy]].
    + rewrite Hx in Hz. injection Hz as <-. cbn in Hw. apply lookup_alter_Some in Hw as [(<- & u & Hu & ->)|[Hnl Hw]].
      * rewrite Hv in Hu. injection Hu as <-. split_and!; [congruence|done|]. by rewrite lookup_alter_eq, Hrow; cbn; rewrite Hr.
      * destruct (HM _ _ _ _ Hx Hw) as (H1 & H2 & H3). split_and!; [done|done|]. by rewrite lookup_alter_ne.
    + destruct (HM _ _ _ _ Hy Hw) as (H1 & H2 & H3). split_and!; [done|done|]. destruct (decide (l = low)) as [->|Hl]; [|by rewrite lookup_alter_ne].
      exfalso. rewrite Hrow in H3. injection H3 as He. done.
  - intros k Hk. rewrite lookup_alter_is_Some. by apply HS.
  - intros l r Hl. assert (Hg' : exists r0, R_rows R !! l = Some r0 /\ mr_guildid r = mr_guildid r0).
    { apply lookup_alter_Some in Hl as [(-> & r0 & H1 & ->)|[Hne Hl]]; [|by exists r]. rewrite Hrow in H1. injection H1 as <-. exists (row_of g v). split; [done|]. by rewrite Hr. }
    destruct Hg' as (r0 & H1 & ->). destruct (HR _ _ H1) as (y & w & Hy & Hw). destruct (decide (mr_guildid r0 = g)) as [Heq|Hne].
    + rewrite Heq in *. rewrite Hx in Hy. injection Hy as <-. rewrite lookup_alter_eq, Hx. cbn. exists (x.1, alter fv low x.2).
      assert (is_Some (alter fv low x.2 !! l)) as [w' Hw'] by (rewrite lookup_alter_is_Some; by eexists). by exists w'.
    + exists y, w. by rewrite lookup_alter_ne.
  - intros p Hp d Hd. apply on_object_char in Hd; [|done]. destruct Hd as [(-> & d0 & Hd0 & ->)|[Hne Hd]]; cbn in *.
    + pose proof (HC _ Hp _ Hd0) as H1. rewrite Hrow in H1. rewrite lookup_alter_eq, Hrow. cbn. rewrite Hr. cbn. by apply Hc.
    + rewrite lookup_alter_ne by done. by apply HC.
Qed.
Lemma rank_inv E R g low r x v : roster_at E R -> R_guilds R !! g = Some x -> x.2 !! low = Some v -> roster_at E (a_rank g low r R).
Proof. intros HR Hx Hv. eapply (change_member E R g low _ _ _ x v); [done..|]. by intros d _ ->. Qed.
Lemma on_object_id p R : on_object p (fun c => c) R = R.
Proof. unfold on_object. case_match; [|done]. destruct R. unfold on_chars. cbn. f_equal. apply alter_id. done. Qed.
Lemma note_inv E R g low b n x v : roster_at E R -> R_guilds R !! g = Some x -> x.2 !! low = Some v -> roster_at E (a_note g low b n R).
Proof.
  intros HR Hx Hv. unfold a_note. rewrite <- (on_object_id low (on_guild _ _ R)).
  eapply (change_member E R g low _ _ _ x v); [done..| | |]; [by destruct b..|]. intros d _ ->. by destruct b.
Qed.
Lemma leader_inv E R g low x v : roster_at E R -> R_guilds R !! g = Some x -> x.2 !! low = Some v -> roster_at E (a_leader g low R).
Proof.
  intros [HN HK HI HL HM HS HR HC] Hx Hv. eapply (rank_inv _ _ _ _ _ (low, x.2) v); [|cbn; by rewrite lookup_alter_eq, Hx|done].
  split; cbn; try done.
  - intros k y Hy. apply lookup_alter_Some in Hy as [(-> & z & Hz & ->)|[Hne Hy]]; by eapply HI.
  - intros k y Hy Hk. apply lookup_alter_Some in Hy as [(<- & z & Hz & ->)|[Hne Hy]]; [|by eapply HL]. cbn. rewrite Hx in Hz. injection Hz as <-. by eexists.
  - intros k y l w Hy Hw. apply lookup_alter_Some in Hy as [(-> & z & Hz & ->)|[Hne Hy]]; by eapply HM.
  - intros k Hk. rewrite lookup_alter_is_Some. by apply HS.
  - intros l r Hl. destruct (HR _ _ Hl) as (y & w & Hy & Hw). rewrite lookup_alter. case_decide as Heq; [|by eauto]. rewrite <- Heq, Hx in Hy. injection Hy as <-.
    rewrite Heq, <- Heq, Hx. by exists (low, x.2), w.
Qed.
Lemma add_inv E R g low rank x : roster_at E R -> R_guilds R !! g = Some x -> is_u32 low -> R_rows R !! low = None -> roster_at E (a_add g low rank R).
Proof.
  intros [HN HK HI HL HM HS HR HC] Hx Hlow Hrow.
  assert (Hnone : x.2 !! low = None) by (destruct (x.2 !! low) as [v|] eqn:Hv; [|done]; destruct (HM _ _ _ _ Hx Hv) as (_ & _ & H3); congruence).
  unfold a_add. cbv zeta. split; cbn; autorewrite with roster; cbn.
  - done.
  - intros p b Hp. destruct (HK _ _ Hp) as [H1 H2]. split; [done|]. by apply on_object_some.
  - intros k y Hy. apply lookup_alter_Some in Hy as [(-> & z & Hz & ->)|[Hne Hy]]; by eapply HI.
  - intros k y Hy Hk. apply lookup_alter_Some in Hy as [(-> & z & Hz & ->)|[Hne Hy]]; [|by eapply HL]. cbn. destruct (decide (z.1 = low)) as [->|Hne]; [by rewrite lookup_insert_eq|rewrite lookup_insert_ne by done; by eapply HL].
  - intros k y l w Hy Hw. apply lookup_alter_Some in Hy as [(<- & z & Hz & ->)|[Hne Hy]].
    + cbn in Hw. rewrite Hx in Hz. injection Hz as <-. apply lookup_insert_Some in Hw as [[<- <-]|[Hnl Hw]]; [by rewrite lookup_insert_eq|].
      rewrite lookup_insert_ne by done. by eapply HM.
    + rewrite lookup_insert_ne; [by eapply HM|]. intros <-. destruct (HM _ _ _ _ Hy Hw) as (_ & _ & H3). congruence.
  - intros k Hk. rewrite lookup_alter_is_Some. by apply HS.
  - intros l r Hl. apply lookup_insert_Some in Hl as [[<- <-]|[Hne Hl]].
    + cbn. rewrite lookup_alter_eq, Hx. cbn. eexists _, _. split; [done|]. cbn. by rewrite lookup_insert_eq.
    + destruct (HR _ _ Hl) as (y & w & Hy & Hw). rewrite lookup_alter. case_decide as Heq; [|by eauto]. rewrite Heq, Hy. cbn.
      eexists _, w. split; [done|]. cbn. by rewrite lookup_insert_ne.
  - intros p Hp d Hd. apply on_object_char in Hd; [|done]. destruct Hd as [(-> & d0 & Hd0 & ->)|[Hne Hd]]; [by rewrite lookup_insert_eq|].
    rewrite lookup_insert_ne by done. by apply HC.
Qed.
Lemma remove_inv E R g low x v : roster_at E R -> R_guilds R !! g = Some x -> x.2 !! low = Some v -> g ∈ E \/ x.1 <> low -> roster_at E (a_remove g low R).
Proof.
  intros [HN HK HI HL HM HS HR HC] Hx Hv Hlead. destruct (HM _ _ _ _ Hx Hv) as (_ & Hlow & Hrow).
  unfold a_remove. split; cbn; autorewrite with roster; cbn.
  - done.
  - intros p b Hp. destruct (HK _ _ Hp) as [H1 H2]. split; [done|]. by apply on_object_some.
  - intros k y Hy. apply lookup_alter_Some in Hy as [(-> & z & Hz & ->)|[Hne Hy]]; by eapply HI.
  - intros k y Hy Hk. apply lookup_alter_Some in Hy as [(<- & z & Hz & ->)|[Hne Hy]]; [|by eapply HL]. cbn. rewrite Hx in Hz. injection Hz as <-.
    destruct Hlead as [|Hne]; [done|]. rewrite lookup_delete_ne by done. by eapply HL.
  - intros k y l w Hy Hw. assert (Hl : l <> low /\ exists z, R_guilds R !! k = Some z /\ z.2 !! l = Some w).
    { apply lookup_alter_Some in Hy as [(<- & z & Hz & ->)|[Hne Hy]]; [cbn in Hw; apply lookup_delete_Some in Hw as [? Hw]; eauto|].
      split; [|by eauto]. intros ->. destruct (HM _ _ _ _ Hy Hw) as (_ & _ & H3). rewrite Hrow in H3. injection H3 as He. done. }
    destruct Hl as (Hne & z & Hz & Hzw). rewrite lookup_delete_ne by done. by eapply HM.
  - intros k Hk. rewrite lookup_alter_is_Some. by apply HS.
  - intros l r Hl. apply lookup_delete_Some in Hl as [Hne Hl]. destruct (HR _ _ Hl) as (y & w & Hy & Hw). rewrite lookup_alter. case_decide as Heq; [|by eauto].
    rewrite Heq, Hy. cbn. eexists _, w. split; [done|]. cbn. by rewrite lookup_delete_ne.
  - intros p Hp d Hd. apply on_object_char in Hd; [|done]. destruct Hd as [(-> & d0 & Hd0 & ->)|[Hne Hd]]; [by rewrite lookup_delete_eq|].
    rewrite lookup_delete_ne by done. by apply HC.
Qed.

(** A roster whose guild [g] has its leader *)
Lemma settled E R g x : roster_at ({[g]} ∪ E) R -> R_guilds R !! g = Some x -> is_Some (x.2 !! x.1) -> roster_at E R.
Proof.
  intros [HN HK HI HL HM HS HR HC] Hx Hlead. split; try done. intros k y Hy Hk.
  destruct (decide (k = g)) as [->|Hne]; [by simplify_eq|]. eapply HL; [done|set_solver].
Qed.
Lemma unsettled E F R : E ⊆ F -> roster_at E R -> roster_at F R.
Proof. intros Hs [HN HK HI HL HM HS HR HC]. split; try done. intros k y Hy Hk. eapply HL; [done|set_solver]. Qed.

(** All members of a guild that is given up *)
Lemma remove_all_inv g l R x : roster_at {[g]} R -> R_guilds R !! g = Some x -> NoDup l -> (forall low, low ∈ l -> is_Some (x.2 !! low)) ->
  let R' := foldl (fun R low => a_remove g low R) R l in
  roster_at {[g]} R' /\ exists y, R_guilds R' !! g = Some y /\ dom y.2 = dom x.2 ∖ list_to_set l.
Proof.
  intros HR Hx Hl. revert R x HR Hx. induction Hl as [|low l Hlow _ IH]; intros R x HR Hx Hin R'; cbn in R'.
  - split; [done|]. exists x. split; [done|]. cbn. set_solver.
  - destruct (Hin low) as [v Hv]; [set_solver|]. destruct (IH (a_remove g low R) (x.1, delete low x.2)) as (H1 & y & H2 & H3).
    + eapply remove_inv; [done..|]. left. set_solver.
    + unfold a_remove. cbn. autorewrite with roster. cbn. by rewrite lookup_alter_eq, Hx.
    + intros k Hk. cbn. rewrite lookup_delete_ne by (intros ->; done). apply Hin. set_solver.
    + split; [done|]. exists y. split; [done|]. rewrite H3. cbn. rewrite dom_delete_L. set_solver.
Qed.
Lemma drop_inv g R x : roster_at {[g]} R -> R_guilds R !! g = Some x -> x.2 = ∅ -> roster_inv (a_drop g R).
Proof.
  intros [HN HK HI HL HM HS HR HC] Hx He. split; cbn; try done.
  - intros k y [Hne Hy]%lookup_delete_Some. destruct (HI _ _ Hy). set_solver.
  - intros k y [Hne Hy]%lookup_delete_Some _. eapply HL; [done|set_solver].
  - intros k y low v [Hne Hy]%lookup_delete_Some. by eapply HM.
  - intros k Hk. rewrite lookup_delete_ne by set_solver. apply HS. set_solver.
  - intros low r Hr. destruct (HR _ _ Hr) as (y & v & Hy & Hv). exists y, v. rewrite lookup_delete_ne; [done|]. intros Hg. rewrite <- Hg, Hx in Hy. injection Hy as <-. by rewrite He in Hv.
Qed.
Lemma disband_inv g R x : roster_inv R -> R_guilds R !! g = Some x -> roster_inv (a_disband g R).
Proof.
  intros HR Hx. unfold a_disband, a_members. rewrite Hx.
  pose proof (remove_all_inv g (map_ordered x.2).*1 R x) as Hall. cbv zeta in Hall.
  destruct Hall as (H1 & y & H2 & H3).
  - eapply unsettled; [|exact HR]. set_solver.
  - done.
  - apply NoDup_map_ordered.
  - intros low Hlow. apply map_keys_in in Hlow. by apply elem_of_dom.
  - eapply drop_inv; [done..|]. apply dom_empty_inv_L. rewrite H3. apply set_eq. intros k. rewrite elem_of_difference, elem_of_list_to_set, map_keys_in. set_solver.
Qed.
Lemma open_inv p R : roster_inv R -> roster_at {[R_next R]} (a_open p R).
Proof.
  intros [HN HK HI HL HM HS HR HC]. split; cbn; try done.
  - lia.
  - intros g x [[<- <-]|[Hne Hx]]%lookup_insert_Some; [split; [lia|set_solver]|]. destruct (HI _ _ Hx). split; [lia|set_solver].
  - intros g x Hx Hg. apply lookup_insert_Some in Hx as [[<- <-]|[Hne Hx]]; [set_solver|]. by eapply HL.
  - intros g x low v Hx Hv. apply lookup_insert_Some in Hx as [[<- <-]|[Hne Hx]]; [done|]. by eapply HM.
  - intros g Hg. destruct (decide (g = R_next R)) as [->|Hne]; [by rewrite lookup_insert_eq|]. rewrite lookup_insert_ne by done. apply HS. set_solver.
  - intros low r Hr. destruct (HR _ _ Hr) as (x & v & Hx & Hv). exists x, v. rewrite lookup_insert_ne; [done|]. intros He. rewrite <- He in Hx. destruct (HI _ _ Hx). lia.
Qed.
Lemma found_inv p R : roster_inv R -> R_online R !! p = Some true -> R_rows R !! p = None -> roster_inv (a_found p R).
Proof.
  intros HR Hp Hrow. destruct (ro_keys _ _ HR _ _ Hp) as [Hu _]. pose proof (open_inv p R HR) as Ho.
  unfold a_found. eapply (settled _ _ (R_next R)).
  - rewrite (right_id_L ∅ (∪)). eapply (add_inv _ _ _ _ _ (p, ∅)); [done| |done|done]. cbn. by rewrite lookup_insert_eq.
  - unfold a_add. cbn. autorewrite with roster. cbn. by rewrite lookup_alter_eq, lookup_insert_eq.
  - cbn. by rewrite lookup_insert_eq.
Qed.
Lemma login_inv p R : roster_inv R -> roster_inv (a_login p R).
Proof.
  intros [HN HK HI HL HM HS HR HC]. split; cbn; try done.
  - intros q b Hq. rewrite lookup_alter_is_Some. apply lookup_alter_Some in Hq as [(<- & c & Hc & _)|[_ Hq]]; by eapply HK.
  - intros q Hq c Hc. apply lookup_alter_Some in Hc as [(<- & d & Hd & ->)|[Hne Hc]]; [unfold logged_in; case_match; [done|by destruct (Z.eqb_spec d.1 0)]|].
    rewrite lookup_alter_ne in Hq by done. by apply HC.
Qed.
Lemma logout_inv p R : roster_inv R -> roster_inv (a_logout p R).
Proof.
  intros [HN HK HI HL HM HS HR HC]. split; cbn; try done.
  - intros q b Hq. apply lookup_alter_Some in Hq as [(<- & c & Hc & _)|[_ Hq]]; by eapply HK.
  - intros q Hq. apply lookup_alter_Some in Hq as [(<- & d & Hd & He)|[Hne Hq]]; [done|]. by apply HC.
Qed.

Lemma roster_step_inv R R' : roster_step R R' -> roster_inv R -> roster_inv R'.
Proof.
  intros [] HR; [eapply rank_inv|eapply leader_inv|eapply note_inv|eapply add_inv|eapply remove_inv|eapply disband_inv|by apply found_inv|by apply login_inv|by apply logout_inv]; try done. by right.
Qed.
Lemma roster_steps_inv R R' : roster_steps R R' -> roster_inv R -> roster_inv R'.
Proof. intros Hs. induction Hs as [|R R' R'' H1 _ IH]; [done|]. intros HR. apply IH. by eapply roster_step_inv. Qed.
