(* ===== verification/GuildQuiet.v ===== *)
(** * The roster of the guild system

    The roster of a state, and the operations that leave it alone: all that
    concern ranks, the board, experience, logs or the bank only. *)
From S2P Require Import Prelude.
From S2P Require Import Lists.
From S2P Require Import Frames.
From S2P Require Import Util.
From S2P Require Import Mail.
From S2P Require Import MailMoney.
From S2P Require Import Guild.
From S2P Require Import GuildBank.
From S2P Require Import GuildSteps.
From S2P Require Import GuildMoney.
From S2P Require Import GuildRoster.
From stdpp Require Import relations.
Local Open Scope Z_scope.

Definition mview (m : Member) : MView := mkView (m_guid m) (m_rankId m) (m_publicNote m) (m_officerNote m).
Definition gview (x : Guild) : Z * gmap Z MView := (m_leaderGuid x, mview <$> m_members x).
Definition cview (c : Char) : Z * Z := (c_guildId c, c_rank c).
Definition roster (s : Guilds) : Roster :=
  mkRoster (p_online <$> players (g_post s)) (cview <$> chars s) (gview <$> g_guilds s) (guild_member s) (GuildStore s) (NextGuildId s).

Lemma fmap_alter_to {A B} (v : A -> B) f h i (m : gmap Z A) : (forall x, v (f x) = h (v x)) -> v <$> alter f i m = alter h i (v <$> m).
Proof.
  intros Hv. apply map_eq. intros j. rewrite lookup_fmap, !lookup_alter. case_decide; [subst|by rewrite lookup_fmap].
  rewrite lookup_fmap. destruct (m !! j); [|done]. cbn. by rewrite Hv.
Qed.
Lemma fmap_alter_quiet {A B} (v : A -> B) f i (m : gmap Z A) : (forall x, v (f x) = v x) -> v <$> alter f i m = v <$> m.
Proof. intros Hv. rewrite (fmap_alter_to v f id) by done. apply alter_id. done. Qed.

(** ** What leaves the roster alone *)

Definition same_roster (s s' : Guilds) : Prop := roster s' = roster s.
#[export] Instance same_roster_preorder : PreOrder same_roster.
Proof. split; [by intros s|]. intros s t u H1 H2. unfold same_roster in *. congruence. Qed.
Lemma quiet_guild t g f : (forall x, gview (f x) = gview x) -> same_roster t (upd_guild g f t).
Proof. intros Hf. unfold same_roster, roster, upd_guild. cbn. f_equal. by apply fmap_alter_quiet. Qed.
Lemma quiet_char t p f : (forall c, cview (f c) = cview c) -> same_roster t (upd_char p f t).
Proof. intros Hf. unfold same_roster, roster, upd_char. cbn. f_equal. by apply fmap_alter_quiet. Qed.
Lemma quiet_post t q : p_online <$> players q = p_online <$> players (g_post t) -> same_roster t (set_g_post q t).
Proof. intros Hq. unfold same_roster, roster. cbn. by rewrite Hq. Qed.
Lemma quiet_purse t p f : (forall x, p_online (f x) = p_online x) -> same_roster t (on_purse p f t).
Proof. intros Hf. apply quiet_post. by apply fmap_alter_quiet. Qed.
Lemma ModifyMoney_online n x : p_online (ModifyMoney n x).2 = p_online x.
Proof. unfold ModifyMoney. by repeat case_match. Qed.
Lemma quiet_member t g low f : (forall m, mview (f m) = mview m) -> same_roster t (upd_member g low f t).
Proof. intros Hf. apply quiet_guild. intros x. unfold gview. cbn. f_equal. by apply fmap_alter_quiet. Qed.

Ltac keep_base ::=
  match goal with
  | |- same_roster _ (upd_member _ _ _ ?t) => transitivity t; [|apply quiet_member; done]
  | |- same_roster _ (upd_guild _ _ ?t) => transitivity t; [|apply quiet_guild; done]
  | |- same_roster _ (upd_char _ _ ?t) => transitivity t; [|apply quiet_char; done]
  | |- same_roster _ (on_purse _ _ ?t) => transitivity t; [|apply quiet_purse; intros; apply ModifyMoney_online]
  | |- same_roster _ (set_g_post _ ?t) => transitivity t; [|apply quiet_post; done]
  | |- same_roster _ (forall_in _ _ ?t) => transitivity t; [|apply forall_in_keeps; [exact _|intros]]
  end.
Ltac quiet := intros ?; done.

Section Quiet.
Context `{BankWorld}.

#[export] Instance tell_quiet e : Keeps same_roster (tell e).
Proof. quiet. Qed.
#[export] Instance set_g_now_quiet x : Keeps same_roster (set_g_now x).
Proof. quiet. Qed.
#[export] Instance set_t_guild_quiet x : Keeps same_roster (set_t_guild x).
Proof. quiet. Qed.
#[export] Instance set_withdraw_quiet x : Keeps same_roster (set_guild_member_withdraw x).
Proof. quiet. Qed.
#[export] Instance set_eventlog_quiet x : Keeps same_roster (set_guild_eventlog x).
Proof. quiet. Qed.
#[export] Instance set_bank_eventlog_quiet x : Keeps same_roster (set_guild_bank_eventlog x).
Proof. quiet. Qed.
#[export] Instance set_newslog_quiet x : Keeps same_roster (set_guild_newslog x).
Proof. quiet. Qed.
#[export] Instance set_bank_item_quiet x : Keeps same_roster (set_guild_bank_item x).
Proof. quiet. Qed.
#[export] Instance UPD_GUILD_quiet g f : Keeps same_roster (UPD_GUILD g f).
Proof. quiet. Qed.
#[export] Instance INS_GUILD_quiet g r : Keeps same_roster (INS_GUILD g r).
Proof. intros s. unfold INS_GUILD. by case_match. Qed.
#[export] Instance DEL_GUILD_quiet g : Keeps same_roster (DEL_GUILD g).
Proof. quiet. Qed.
#[export] Instance INS_RANK_quiet g rid r : Keeps same_roster (INS_GUILD_RANK g rid r).
Proof. intros s. unfold INS_GUILD_RANK. by case_match. Qed.
#[export] Instance UPD_RANK_quiet g rid f : Keeps same_roster (UPD_GUILD_RANK g rid f).
Proof. quiet. Qed.
#[export] Instance DEL_RANK_quiet g rid : Keeps same_roster (DEL_GUILD_RANK g rid).
Proof. quiet. Qed.
#[export] Instance DEL_RANKS_quiet g : Keeps same_roster (DEL_GUILD_RANKS g).
Proof. quiet. Qed.
#[export] Instance INS_WITHDRAW_quiet l r : Keeps same_roster (INS_GUILD_MEMBER_WITHDRAW l r).
Proof. quiet. Qed.
#[export] Instance INS_RIGHT_quiet g t rid r n : Keeps same_roster (INS_GUILD_BANK_RIGHT g t rid r n).
Proof. quiet. Qed.
#[export] Instance DEL_RIGHTS_quiet g : Keeps same_roster (DEL_GUILD_BANK_RIGHTS g).
Proof. quiet. Qed.
#[export] Instance DEL_RIGHTS_FOR_RANK_quiet g rid : Keeps same_roster (DEL_GUILD_BANK_RIGHTS_FOR_RANK g rid).
Proof. quiet. Qed.
#[export] Instance INS_TAB_quiet g t : Keeps same_roster (INS_GUILD_BANK_TAB g t).
Proof. quiet. Qed.
#[export] Instance DEL_TABS_quiet g : Keeps same_roster (DEL_GUILD_BANK_TABS g).
Proof. quiet. Qed.
#[export] Instance UPD_TAB_quiet g t f : Keeps same_roster (UPD_GUILD_BANK_TAB g t f).
Proof. quiet. Qed.
#[export] Instance DEL_ITEMS_quiet g : Keeps same_roster (DEL_GUILD_BANK_ITEMS g).
Proof. quiet. Qed.
#[export] Instance DEL_BANKLOGS_quiet g : Keeps same_roster (DEL_GUILD_BANK_EVENTLOGS g).
Proof. quiet. Qed.
#[export] Instance DEL_LOGS_quiet g : Keeps same_roster (DEL_GUILD_EVENTLOGS g).
Proof. quiet. Qed.
#[export] Instance upd_rank_quiet g i f : Keeps same_roster (upd_rank g i f).
Proof. intros s. by apply quiet_guild. Qed.
#[export] Instance upd_tab_quiet g t f : Keeps same_roster (upd_tab g t f).
Proof. intros s. by apply quiet_guild. Qed.

(** Ranks *)
Lemma missing_tab_quiet g i r s : same_roster s (missing_tab g i (r, s)).2.
Proof. unfold missing_tab. repeat case_match; cbn [snd]; keeping. Qed.
Lemma CreateMissingTabs_quiet g tabs r s : same_roster s (CreateMissingTabsIfNeeded g tabs r s).2.
Proof.
  unfold CreateMissingTabsIfNeeded. generalize (upto tabs) as l. intros l. revert r s. induction l as [|i l IH]; intros r s; [reflexivity|].
  cbn [foldl]. destruct (missing_tab g i (r, s)) as [r' s'] eqn:He. transitivity s'; [|apply IH]. eapply (keeps_snd same_roster (fun s => missing_tab g i (r, s))); [apply missing_tab_quiet|done].
Qed.
#[export] Instance missing_tabs_of_quiet g tabs i : Keeps same_roster (missing_tabs_of g tabs i).
Proof.
  intros s. unfold missing_tabs_of. case_match; [|reflexivity]. destruct (CreateMissingTabsIfNeeded g tabs r s) as [r' s'] eqn:He.
  keeping. eapply (keeps_snd same_roster (CreateMissingTabsIfNeeded g tabs r)); [apply CreateMissingTabs_quiet|done].
Qed.
#[export] Instance SetRankName_quiet g i name : Keeps same_roster (SetRankName g i name).
Proof. intros s. unfold SetRankName. keeping. Qed.
#[export] Instance SetRankRights_quiet g i rights : Keeps same_roster (SetRankRights g i rights).
Proof. intros s. unfold SetRankRights. keeping. Qed.
#[export] Instance SetBankMoneyPerDay_quiet g i money : Keeps same_roster (SetBankMoneyPerDay g i money).
Proof. intros s. unfold SetBankMoneyPerDay. keeping. Qed.
#[export] Instance SetRankBankMoneyPerDay_quiet g i money : Keeps same_roster (SetRankBankMoneyPerDay g i money).
Proof. intros s. unfold SetRankBankMoneyPerDay. keeping. Qed.
#[export] Instance SetTabRights_quiet g i t b : Keeps same_roster (SetRankBankTabRightsAndSlots g i t b).
Proof. intros s. unfold SetRankBankTabRightsAndSlots. keeping. Qed.
#[export] Instance CreateRank_quiet g name rights : Keeps same_roster (CreateRank g name rights).
Proof.
  intros s. unfold CreateRank. case_match; [reflexivity|]. cbv zeta. match goal with |- context [CreateMissingTabsIfNeeded g ?t ?i ?u] => destruct (CreateMissingTabsIfNeeded g t i u) as [r' s'] eqn:He end.
  keep1. eapply same_roster_preorder; [|eapply (keeps_snd same_roster (CreateMissingTabsIfNeeded g _ _)); [apply CreateMissingTabs_quiet|exact He]]. keeping.
Qed.
#[export] Instance CreateDefaultGuildRanks_quiet g loc : Keeps same_roster (CreateDefaultGuildRanks g loc).
Proof. intros s. unfold CreateDefaultGuildRanks. keeping. Qed.
#[export] Instance send_ranks_quiet g p : Keeps same_roster (send_ranks g p).
Proof. intros s. unfold send_ranks. keeping. Qed.
#[export] Instance HandleAddNewRank_quiet g p name : Keeps same_roster (HandleAddNewRank g p name).
Proof. intros s. unfold HandleAddNewRank. keeping. Qed.
#[export] Instance HandleUpdateRank_quiet g p id up : Keeps same_roster (HandleUpdateRank g p id up).
Proof. intros s. unfold HandleUpdateRank. keeping. Qed.
#[export] Instance HandleRemoveRank_quiet g p id : Keeps same_roster (HandleRemoveRank g p id).
Proof. intros s. unfold HandleRemoveRank. keeping. Qed.
#[export] Instance HandleSetRankInfo_quiet g p r name ri mo tabs : Keeps same_roster (HandleSetRankInfo g p r name ri mo tabs).
Proof. intros s. unfold HandleSetRankInfo. keeping. Qed.

(** Stats, logs and the board *)
#[export] Instance UpdateAccountsNumber_quiet g : Keeps same_roster (UpdateAccountsNumber g).
Proof. intros s. unfold UpdateAccountsNumber. keeping. Qed.
#[export] Instance LogEvent_quiet g ty g1 g2 r : Keeps same_roster (LogEvent g ty g1 g2 r).
Proof. intros s. unfold LogEvent. keeping. Qed.
#[export] Instance AddGuildNews_quiet g ty gu fl v : Keeps same_roster (AddGuildNews g ty gu fl v).
Proof. intros s. unfold AddGuildNews. keeping. Qed.
#[export] Instance learnSpell_quiet p sp : Keeps same_roster (learnSpell p sp).
Proof. intros s. unfold learnSpell. keeping. Qed.
#[export] Instance removeSpell_quiet p sp : Keeps same_roster (removeSpell p sp).
Proof. intros s. unfold removeSpell. keeping. Qed.
#[export] Instance SendLoginInfo_quiet g p : Keeps same_roster (SendLoginInfo g p).
Proof. intros s. unfold SendLoginInfo. keeping. Qed.
#[export] Instance SaveGuild_quiet g : Keeps same_roster (SaveGuild g).
Proof. intros s. unfold SaveGuild. keeping. Qed.
#[export] Instance SaveGuilds_quiet : Keeps same_roster SaveGuilds.
Proof. intros s. unfold SaveGuilds. keeping. Qed.
#[export] Instance HandleMemberLogout_quiet g p : Keeps same_roster (HandleMemberLogout g p).
Proof. intros s. unfold HandleMemberLogout. keeping. Qed.
#[export] Instance HandleSetMOTD_quiet g p motd : Keeps same_roster (HandleSetMOTD g p motd).
Proof. intros s. unfold HandleSetMOTD. keeping. Qed.
#[export] Instance HandleSetInfo_quiet g p info : Keeps same_roster (HandleSetInfo g p info).
Proof. intros s. unfold HandleSetInfo. keeping. Qed.
#[export] Instance HandleSetEmblem_quiet g p e : Keeps same_roster (HandleSetEmblem g p e).
Proof. intros s. unfold HandleSetEmblem. keeping. Qed.
#[export] Instance HandleSaveGuildEmblem_quiet p v e : Keeps same_roster (HandleSaveGuildEmblemOpcode p v e).
Proof. intros s. unfold HandleSaveGuildEmblemOpcode. keeping. Qed.
#[export] Instance HandleInviteMember_quiet g p q : Keeps same_roster (HandleInviteMember g p q).
Proof. intros s. unfold HandleInviteMember. keeping. Qed.
Lemma SetName_quiet g name s : same_roster s (SetName g name s).2.
Proof. unfold SetName. case_match; cbn [snd]; keeping. Qed.
#[export] Instance level_up_quiet g p : Keeps same_roster (level_up g p).
Proof. intros s. unfold level_up. keeping. Qed.
#[export] Instance level_loop_quiet n g p : Keeps same_roster (level_loop n g p).
Proof. induction n as [|n IH]; intros s; cbn; [reflexivity|]. keeping. Qed.
#[export] Instance GiveXP_quiet g xp p : Keeps same_roster (GiveXP g xp p).
Proof. intros s. unfold GiveXP. keeping. Qed.
#[export] Instance ResetTimes_quiet g : Keeps same_roster (ResetTimes g).
Proof.
  intros s. unfold ResetTimes. keeping. apply quiet_guild. intros x. unfold gview. cbn. f_equal. rewrite <- map_fmap_compose. by apply map_fmap_ext.
Qed.
#[export] Instance ResetAllTimes_quiet : Keeps same_roster ResetAllTimes.
Proof. intros s. unfold ResetAllTimes. keeping. Qed.

(** The bank *)
#[export] Instance LogBankEvent_quiet g ty t l i c d : Keeps same_roster (LogBankEvent g ty t l i c d).
Proof. intros s. unfold LogBankEvent. keeping. Qed.
Lemma ModifyBankMoney_quiet g n b s : same_roster s (ModifyBankMoney g n b s).2.
Proof. unfold ModifyBankMoney. cbv zeta. case_match; cbn [snd]; keeping. Qed.
#[export] Instance Deposit_quiet g p n b : Keeps same_roster (HandleMemberDepositMoney g p n b).
Proof. intros s. unfold HandleMemberDepositMoney. cbv zeta. do 2 keep1. destruct b; [|keep1]; apply ModifyBankMoney_quiet. Qed.
#[export] Instance UpdateBankWithdrawValue_quiet g l t n : Keeps same_roster (UpdateBankWithdrawValue g l t n).
Proof. intros s. unfold UpdateBankWithdrawValue. keeping. Qed.
#[export] Instance UpdateMemberWithdrawSlots_quiet g p t : Keeps same_roster (UpdateMemberWithdrawSlots g p t).
Proof. intros s. unfold UpdateMemberWithdrawSlots. keeping. Qed.
Lemma Withdraw_quiet g p n b s : same_roster s (HandleMemberWithdrawMoney g p n b s).2.
Proof.
  unfold HandleMemberWithdrawMoney. cbv zeta. repeat (case_match; cbn [snd]; [reflexivity|]). case_match; cbn [snd]; [|reflexivity].
  case_match; cbn [snd]; [|reflexivity]. case_match; cbn [snd]; [reflexivity|]. case_match; cbn [snd]; [reflexivity|].
  do 2 keep1. etransitivity; [|apply ModifyBankMoney_quiet]. keeping.
Qed.
#[export] Instance CreateNewBankTab_quiet g : Keeps same_roster (CreateNewBankTab g).
Proof. intros s. unfold CreateNewBankTab. keeping. Qed.
#[export] Instance HandleBuyBankTab_quiet g p t : Keeps same_roster (HandleBuyBankTab g p t).
Proof.
  intros s. unfold HandleBuyBankTab. cbv zeta. repeat (case_match; try reflexivity); keeping; repeat case_match; simplify_eq; keeping.
Qed.
#[export] Instance HandleSetBankTabInfo_quiet g p t n i : Keeps same_roster (HandleSetBankTabInfo g p t n i).
Proof. intros s. unfold HandleSetBankTabInfo. keeping. Qed.
#[export] Instance SetText_quiet g t n : Keeps same_roster (SetText g t n).
Proof. intros s. unfold SetText. keeping. Qed.
#[export] Instance SetBankTabText_quiet g t n : Keeps same_roster (SetBankTabText g t n).
Proof. intros s. unfold SetBankTabText. keeping. Qed.
#[export] Instance HandleSetBankTabNote_quiet g p t n : Keeps same_roster (HandleSetBankTabNote g p t n).
Proof. intros s. unfold HandleSetBankTabNote. keeping. Qed.
#[export] Instance upd_item_quiet l f : Keeps same_roster (upd_item l f).
Proof. intros s. by apply quiet_post. Qed.
#[export] Instance SetItem_quiet g t sl i : Keeps same_roster (SetItem g t sl i).
Proof. intros s. unfold SetItem. keeping. Qed.
Lemma CloneBankItem_quiet l c s : same_roster s (CloneBankItem l c s).2.
Proof. unfold CloneBankItem. cbv zeta. case_match; cbn [snd]; keeping. Qed.
#[export] Instance StoreItemAt_quiet g t i pos b : Keeps same_roster (StoreItemAt g t i pos b).
Proof.
  intros s. unfold StoreItemAt. destruct pos as [sl c]. destruct (GetItem g t sl s); [keeping|]. destruct b; [|keeping].
  destruct (CloneBankItem i c s) as [[new|] s'] eqn:He; keeping; (eapply (keeps_snd _ (CloneBankItem i c)); [apply CloneBankItem_quiet|exact He]).
Qed.
#[export] Instance StoreItem_quiet g t i vec : Keeps same_roster (StoreItem g t i vec).
Proof. induction vec as [|pos vec IH]; intros s; cbn; [reflexivity|]. keeping. Qed.
#[export] Instance RemoveItem_quiet g p t sl i o n : Keeps same_roster (RemoveItem g p t sl i o n).
Proof. intros s. unfold RemoveItem. keeping. Qed.
Lemma DoItemsMove_quiet g p a b c d e f h i j s : same_roster s (DoItemsMove g p a b c d e f h i j s).2.
Proof.
  unfold DoItemsMove. cbv zeta. destruct (CanStore _ _ _ _ _ _) as [msg vec]. case_match; cbn [snd]; [destruct i; keeping|].
  case_match; cbn [snd]; keeping.
Qed.
#[export] Instance MoveItems_quiet g p a b c d n : Keeps same_roster (MoveItems g p a b c d n).
Proof.
  intros s. unfold MoveItems. cbv zeta. case_match; [|reflexivity]. case_match; [reflexivity|]. case_match; [reflexivity|]. case_match; [reflexivity|].
  set (split := if n =? _ then 0 else n). destruct (negb (split =? 0)).
  - match goal with |- context [CloneBankItem ?i ?n s] => destruct (CloneBankItem i n s) as [[new|] s'] eqn:He; assert (Hs : same_roster s s') by (eapply (keeps_snd _ (CloneBankItem i n)); [apply CloneBankItem_quiet|exact He]) end; keep1; [|by keeping].
    etransitivity; [exact Hs|apply DoItemsMove_quiet].
  - match goal with |- context [DoItemsMove ?a1 ?a2 ?a3 ?a4 ?a5 ?a6 ?a7 ?a8 None false 0 s] =>
      pose proof (DoItemsMove_quiet a1 a2 a3 a4 a5 a6 a7 a8 None false 0 s) as Hs; destruct (DoItemsMove a1 a2 a3 a4 a5 a6 a7 a8 None false 0 s) as [mv s'] eqn:He end.
    cbn [snd] in Hs. destruct mv; [by keeping|]. do 3 (case_match; try done). keep1. etransitivity; [exact Hs|apply DoItemsMove_quiet].
Qed.
#[export] Instance SwapItems_quiet g p a b c d n : Keeps same_roster (SwapItems g p a b c d n).
Proof. intros s. unfold SwapItems. keeping. Qed.
Lemma foreach_players {A} (f : A -> Post -> Post) l t : (forall low u, players (f low u) = players u) -> players (foreach f l t) = players t.
Proof. intros Hf. revert t. induction l as [|low l IH]; intros t; [done|]. unfold foreach in *. cbn. by rewrite IH, Hf. Qed.
#[export] Instance DeleteBankItems_quiet g : Keeps same_roster (DeleteBankItems g).
Proof. intros s. unfold DeleteBankItems. keeping. apply quiet_post. by rewrite foreach_players. Qed.
End Quiet.
