(* ===== verification/GuildRefines.v ===== *)
(** * Guilds keep a roster

    What each request does to the roster of the guild system is a sequence of
    steps of the machine of GuildRoster. *)
From S2P Require Import Prelude.
From S2P Require Import Lists.
From S2P Require Import Frames.
From S2P Require Import Util.
From S2P Require Import Mail.
From S2P Require Import MailMoney.
From S2P Require Import Guild.
From S2P Require Import GuildBank.
From S2P Require Import GuildSteps.
From S2P Require Import GuildMoney.
From S2P Require Import GuildRoster.
From S2P Require Import GuildQuiet.
From stdpp Require Import relations.
Local Open Scope Z_scope.

(** A request that is a sequence of steps when guilds, characters and table
    agree *)
Definition sim (s s' : Guilds) : Prop := roster_inv (roster s) -> roster_steps (roster s) (roster s').
#[export] Instance sim_preorder : PreOrder sim.
Proof.
  split; [intros s _; apply rtc_refl|]. intros s t u H1 H2 Hs. specialize (H1 Hs). eapply rtc_trans; [exact H1|]. apply H2. by eapply roster_steps_inv.
Qed.
Lemma sim_same s s' : same_roster s s' -> sim s s'.
Proof. unfold same_roster. intros He _. rewrite He. apply rtc_refl. Qed.
#[export] Instance keeps_sim f : Keeps same_roster f -> Keeps sim f.
Proof. intros Hf s. apply sim_same, Hf. Qed.
Lemma roster_quiet f `{Hf : !Keeps same_roster f} t : roster (f t) = roster t.
Proof. apply Hf. Qed.
Lemma sim_step s s' : (roster_inv (roster s) -> roster_step (roster s) (roster s')) -> sim s s'.
Proof. intros Hs Hi. apply rtc_once. by apply Hs. Qed.

(** ** Parts of a state and of its roster *)

Lemma is_online_roster s p : is_online (roster s) p = online s p.
Proof. unfold is_online, online, FindPlayer, roster. cbn. rewrite lookup_fmap. destruct (players (g_post s) !! p) as [x|]; [|done]. cbn. by destruct (p_online x). Qed.
Lemma online_lookup s p : online s p = true -> R_online (roster s) !! p = Some true.
Proof. rewrite <- is_online_roster. unfold is_online. destruct (R_online (roster s) !! p) as [b|]; [|done]. cbn. by intros ->. Qed.
Lemma roster_upd_guild g f F s : (forall x, gview (f x) = F (gview x)) -> roster (upd_guild g f s) = on_guild g F (roster s).
Proof. intros Hf. unfold roster, upd_guild, on_guild. cbn. f_equal. by apply fmap_alter_to. Qed.
Lemma roster_upd_char p f c s : (forall x, cview (f x) = c (cview x)) -> roster (upd_char p f s) = on_chars p c (roster s).
Proof. intros Hf. unfold roster, upd_char, on_chars. cbn. f_equal. by apply fmap_alter_to. Qed.
Lemma roster_upd_member g low f F s : (forall m, mview (f m) = F (mview m)) -> roster (upd_member g low f s) = on_guild g (fun x => (x.1, alter F low x.2)) (roster s).
Proof. intros Hf. apply roster_upd_guild. intros x. unfold gview. cbn. f_equal. by apply fmap_alter_to. Qed.
Lemma roster_object (b : bool) p f c s : (forall x, cview (f x) = c (cview x)) -> online s p = b ->
  roster (if b then upd_char p f s else s) = on_object p c (roster s).
Proof. intros Hf Hb. unfold on_object. rewrite is_online_roster, Hb. destruct b; [by apply roster_upd_char|done]. Qed.
Lemma roster_UPD_MEMBER low f s : roster (UPD_GUILD_MEMBER low f s) = on_rows (alter f low) (roster s).
Proof. done. Qed.
Lemma guild_exists s g x : g_guilds s !! g = Some x -> R_guilds (roster s) !! g = Some (gview x).
Proof. intros Hx. unfold roster. cbn. by rewrite lookup_fmap, Hx. Qed.
Lemma u32_low z : is_u32 z -> GUID_LOPART z = z.
Proof. apply u32_small. Qed.

Section Refines.
Context `{BankWorld}.

(** What is known of a member *)
Lemma member_facts s g low m : roster_inv (roster s) -> m_members (guild_of g s) !! low = Some m ->
  exists x, g_guilds s !! g = Some x /\ R_guilds (roster s) !! g = Some (gview x) /\ (gview x).2 !! low = Some (mview m) /\
    m_guid m = low /\ is_u32 low /\ guild_member s !! low = Some (row_of g (mview m)).
Proof.
  intros HR Hm. unfold guild_of in Hm. destruct (g_guilds s !! g) as [x|] eqn:Hx; [|done]. cbn in Hm. pose proof (guild_exists _ _ _ Hx) as Hx'.
  assert (Hv : (gview x).2 !! low = Some (mview m)) by (cbn; by rewrite lookup_fmap, Hm).
  destruct (ro_member _ _ HR _ _ _ _ Hx' Hv) as (H1 & H2 & H3). exists x. by split_and!.
Qed.
Lemma ChangeRank_roster s g low r m : m_members (guild_of g s) !! low = Some m -> m_guid m = low -> is_u32 low ->
  roster (ChangeRank g low r s) = a_rank g low r (roster s).
Proof.
  intros Hm Hg Hu. unfold ChangeRank. rewrite Hm. cbv zeta. rewrite Hg, (u32_low low Hu).
  rewrite roster_UPD_MEMBER. unfold a_rank. f_equal. rewrite <- (roster_upd_member g low (set_m_rankId r) (set_v_rank r) s) by done.
  by rewrite <- (roster_object (online (upd_member g low (set_m_rankId r) s) low) low (set_c_rank r) (fun c => (c.1, r)) _).
Qed.
#[export] Instance ChangeRank_sim g low r : Keeps sim (ChangeRank g low r).
Proof.
  intros s. destruct (m_members (guild_of g s) !! low) as [m|] eqn:Hm; [|unfold ChangeRank; rewrite Hm; reflexivity].
  apply sim_step. intros HR. destruct (member_facts _ _ _ _ HR Hm) as (x & _ & Hx & Hv & Hg & Hu & _). rewrite (ChangeRank_roster _ _ _ _ _ Hm Hg Hu). by eapply rs_rank.
Qed.
Lemma SetLeaderGUID_roster s g low m : m_members (guild_of g s) !! low = Some m -> m_guid m = low -> is_u32 low ->
  roster (SetLeaderGUID g low s) = a_leader g low (roster s).
Proof.
  intros Hm Hg Hu. unfold SetLeaderGUID. rewrite Hm. cbv zeta. rewrite Hg. change (roster (UPD_GUILD ?k ?f ?u)) with (roster u).
  rewrite (ChangeRank_roster _ g low _ m); [|clear Hu|done|done].
  - unfold a_leader. by rewrite (roster_upd_guild g (set_m_leaderGuid low) (fun x => (low, x.2))).
  - revert Hm. unfold guild_of, upd_guild. cbn. rewrite lookup_alter_eq. by destruct (g_guilds s !! g).
Qed.
#[export] Instance SetLeaderGUID_sim g low : Keeps sim (SetLeaderGUID g low).
Proof.
  intros s. destruct (m_members (guild_of g s) !! low) as [m|] eqn:Hm; [|unfold SetLeaderGUID; rewrite Hm; reflexivity].
  apply sim_step. intros HR. destruct (member_facts _ _ _ _ HR Hm) as (x & _ & Hx & Hv & Hg & Hu & _). rewrite (SetLeaderGUID_roster _ _ _ _ Hm Hg Hu). by eapply rs_leader.
Qed.

(** ** Members that come *)

Lemma member_of_roster t g y low v : R_guilds (roster t) !! g = Some y -> y.2 !! low = Some v ->
  exists m, m_members (guild_of g t) !! low = Some m /\ mview m = v.
Proof.
  unfold roster, guild_of. cbn. rewrite lookup_fmap. destruct (g_guilds t !! g) as [x|]; [|done]. cbn. intros [= <-]. cbn. rewrite lookup_fmap.
  destruct (m_members x !! low) as [m|] eqn:Hm; [|done]. intros [= <-]. by exists m.
Qed.
(** The end of [AddMember], when the member is in [m_members] *)
Lemma added_roster g low r s t : is_Some (g_guilds s !! g) -> guild_member s !! low = None ->
  roster t = on_object low (fun _ => (g, r)) (on_guild g (fun x => (x.1, <[low := mkView low r [] []]> x.2)) (roster s)) ->
  roster (match m_members (guild_of g t) !! low with
          | Some m => INS_GUILD_MEMBER low (mkMemberRow g (m_rankId m) (m_publicNote m) (m_officerNote m)) t
          | None => t end) = a_add g low r (roster s).
Proof.
  intros [x Hx] Hrow Ht. destruct (member_of_roster t g (m_leaderGuid x, <[low := mkView low r [] []]> (gview x).2) low (mkView low r [] [])) as (m & Hm & Hv).
  - rewrite Ht. autorewrite with roster. cbn. by rewrite lookup_alter_eq, lookup_fmap, Hx.
  - cbn. by rewrite lookup_insert_eq.
  - assert (Hg : guild_member t = guild_member s) by (change (R_rows (roster t) = R_rows (roster s)); rewrite Ht; by autorewrite with roster).
    rewrite Hm. unfold INS_GUILD_MEMBER. rewrite Hg, Hrow. injection Hv as _ -> -> ->. unfold a_add. rewrite <- Ht. unfold on_rows, roster. cbn. by rewrite Hg.
Qed.
Definition in_guild (guid : Z) (s : Guilds) : Z := if online s guid then c_guildId (char_of guid s) else GetGuildIdFromDB guid s.
Definition given_rank (g r : Z) (s : Guilds) : Z := if r =? GUILD_RANK_NONE then GetLowestRankId (guild_of g s) else r.
Lemma AddMember_roster g guid r s : is_u32 guid -> is_Some (g_guilds s !! g) -> (in_guild guid s = 0 -> guild_member s !! guid = None) ->
  (AddMember g guid r s).1 = false /\ same_roster s (AddMember g guid r s).2 \/
  (AddMember g guid r s).1 = true /\ guild_member s !! guid = None /\ roster (AddMember g guid r s).2 = a_add g guid (given_rank g r s) (roster s).
Proof.
  intros Hu Hg Hrow. unfold AddMember. cbv zeta. fold (in_guild guid s). destruct (in_guild guid s =? 0) eqn:Hz; [|by left]. cbn [negb]. apply Z.eqb_eq in Hz. specialize (Hrow Hz).
  rewrite (u32_low guid Hu). set (s1 := tell _ s). change (guild_of g s1) with (guild_of g s). change (online s1 guid) with (online s guid).
  fold (given_rank g r s). set (r' := given_rank g r s). set (added := if online s guid then _ else _).
  assert (Ha : added = None \/ exists t, added = Some t /\ roster t = on_object guid (fun _ => (g, r')) (on_guild g (fun x => (x.1, <[guid := mkView guid r' [] []]> x.2)) (roster s))).
  { assert (Hins : forall m, mview m = mkView guid r' [] [] -> roster (insert_member g guid m s1) = on_guild g (fun x => (x.1, <[guid := mkView guid r' [] []]> x.2)) (roster s)).
    { intros m Hm. unfold insert_member. rewrite <- Hm. rewrite (roster_upd_guild g _ (fun x => (x.1, <[guid := mview m]> x.2))); [done|]. intros x. unfold gview. cbn. by rewrite fmap_insert. }
    unfold added. destruct (online s guid) eqn:Hon.
    - right. eexists. split; [reflexivity|]. rewrite (roster_quiet (SendLoginInfo g guid)). rewrite (roster_upd_char _ _ (fun _ => (g, r'))) by done.
      rewrite Hins by done. unfold on_object. change (is_online (on_guild _ _ (roster s)) guid) with (is_online (roster s) guid). by rewrite is_online_roster, Hon.
    - destruct (players (g_post s1) !! guid); [|by left]. case_match; [|by left]. right. eexists. split; [reflexivity|]. rewrite Hins by done.
      unfold on_object. change (is_online (on_guild _ _ (roster s)) guid) with (is_online (roster s) guid). by rewrite is_online_roster, Hon. }
  clearbody added. destruct Ha as [->|(t & -> & Ht)]; [left; done|right]. cbn [fst snd]. split; [done|]. split; [done|].
  rewrite <- (added_roster g guid r' s t Hg Hrow Ht). set (u := match m_members (guild_of g t) !! guid with Some _ => _ | None => _ end). clearbody u.
  assert (Hq : same_roster u (tell (FinderRemoveRequests guid) (tell (BroadcastEvent g GE_JOINED guid) (LogEvent g GUILD_EVENT_LOG_JOIN_GUILD guid 0 0 (UpdateAccountsNumber g u))))) by keeping.
  exact Hq.
Qed.
(** Who is in no guild has no row *)
Lemma guildless s guid : roster_inv (roster s) -> is_u32 guid -> in_guild guid s = 0 -> guild_member s !! guid = None.
Proof.
  intros HR Hu. unfold in_guild. destruct (guild_member s !! guid) as [r|] eqn:Hr; [|done]. intros Hz. exfalso.
  destruct (ro_row _ _ HR _ _ Hr) as (x & v & Hx & _). destruct (ro_ids _ _ HR _ _ Hx) as [Hid _]. destruct (online s guid) eqn:Hon.
  - apply online_lookup in Hon. destruct (ro_keys _ _ HR _ _ Hon) as [_ [c Hc]]. pose proof (ro_char _ _ HR _ Hon _ Hc) as Hm. change (R_rows (roster s)) with (guild_member s) in Hm.
    rewrite Hr in Hm. unfold char_of in Hz. unfold roster in Hc. cbn in Hc. rewrite lookup_fmap in Hc. destruct (chars s !! guid) as [ch|]; [|done]. cbn in Hc, Hz. injection Hc as <-. injection Hm as Hm _. lia.
  - unfold GetGuildIdFromDB in Hz. rewrite (u32_low guid Hu), Hr in Hz. lia.
Qed.
Lemma AddMember_sim g guid r s : is_u32 guid -> is_Some (g_guilds s !! g) -> sim s (AddMember g guid r s).2.
Proof.
  intros Hu [x Hx] HR. destruct (AddMember_roster g guid r s Hu) as [(_ & Hs)|(_ & Hrow & ->)]; [by eexists|by intros; by apply guildless|by apply sim_same|].
  apply rtc_once. eapply rs_add; [by apply guild_exists|done|done].
Qed.
Lemma roster_guild_exists s t g : R_guilds (roster t) = R_guilds (roster s) -> is_Some (g_guilds s !! g) -> is_Some (g_guilds t !! g).
Proof.
  intros He. assert (Hl : R_guilds (roster t) !! g = R_guilds (roster s) !! g) by (by rewrite He). unfold roster in Hl. cbn in Hl. rewrite !lookup_fmap in Hl.
  destruct (g_guilds s !! g), (g_guilds t !! g); try done; by intros [? ?].
Qed.

(** ** Members that go *)

Lemma remove_member_roster g guid b s : is_u32 guid -> roster (remove_member g guid b s) = a_remove g guid (roster s).
Proof.
  intros Hu. unfold remove_member. cbv zeta. rewrite (u32_low guid Hu). set (s1 := upd_guild g _ s). set (s2 := if online s1 guid then _ else _).
  assert (H2 : roster s2 = on_object guid (fun _ => (0, 0)) (roster s1)).
  { unfold s2, on_object. rewrite is_online_roster. case_match; [|done]. rewrite <- (roster_upd_char guid (fun c => set_c_guildLevel 0 (set_c_rank 0 (set_c_guildId 0 c)))) by done.
    match goal with |- roster ?u = roster ?v => assert (Hq : same_roster v u) by keeping; exact Hq end. }
  clearbody s2. assert (H3 : roster (DEL_GUILD_MEMBER guid s2) = a_remove g guid (roster s)).
  { unfold a_remove. rewrite <- (roster_upd_guild g (fun x => set_m_members (delete guid (m_members x)) x)) by (intros x; unfold gview; cbn; by rewrite fmap_delete).
    fold s1. rewrite <- H2. done. }
  destruct b; [done|]. by rewrite (roster_quiet (UpdateAccountsNumber g)).
Qed.
Lemma remove_all_roster g (l : list (Z * Member)) s : (forall e, e ∈ l -> m_guid e.2 = e.1 /\ is_u32 e.1) ->
  roster (forall_in (fun e => remove_member g (m_guid e.2) true) l s) = foldl (fun R low => a_remove g low R) (roster s) l.*1.
Proof.
  revert s. induction l as [|e l IH]; intros s Hl; [done|]. destruct (Hl e) as [He Hu]; [set_solver|].
  unfold forall_in in *. cbn [foldl fmap list_fmap]. rewrite IH by (intros; apply Hl; set_solver). by rewrite He, remove_member_roster.
Qed.
Lemma Disband_roster g s : roster_inv (roster s) -> roster (Disband g s) = a_disband g (roster s).
Proof.
  intros HR. unfold Disband. cbv zeta. set (s1 := forall_in _ _ s).
  assert (H1 : roster s1 = foldl (fun R low => a_remove g low R) (roster s) (map_ordered (a_members g (roster s))).*1).
  { unfold s1. rewrite remove_all_roster.
    - f_equal. unfold a_members, roster. cbn. rewrite lookup_fmap. unfold guild_of. destruct (g_guilds s !! g) as [x|]; [|done]. cbn. by rewrite map_keys_fmap.
    - intros [low m] Hin%elem_of_map_ordered. destruct (member_facts _ _ _ _ HR Hin) as (_ & _ & _ & _ & H1 & H2 & _). done. }
  clearbody s1. unfold a_disband. rewrite <- H1. unfold a_drop.
  match goal with |- roster (set_g_guilds (delete g (g_guilds ?v)) (set_GuildStore (GuildStore ?v ∖ _) ?v)) = _ => assert (Hq : roster v = roster s1); [|generalize dependent v; intros w Hq] end.
  - repeat match goal with |- roster (?F ?t) = _ => rewrite (roster_quiet F) end. done.
  - rewrite <- Hq. unfold roster. cbn. by rewrite fmap_delete.
Qed.
Lemma Disband_sim g s : g ∈ GuildStore s -> sim s (Disband g s).
Proof.
  intros Hg. apply sim_step. intros HR. rewrite (Disband_roster g s HR). destruct (ro_store _ _ HR g Hg) as [x Hx]. by eapply rs_disband.
Qed.
Lemma newLeader_member low x m : newLeader low x = Some m -> exists k, k <> low /\ m_members x !! k = Some m.
Proof.
  unfold newLeader. assert (Hl : forall l best, (forall e, e ∈ l -> m_members x !! e.1 = Some e.2) ->
    (forall b, best = Some b -> exists k, k <> low /\ m_members x !! k = Some b) ->
    foldl (better low) best l = Some m -> exists k, k <> low /\ m_members x !! k = Some m).
  { intros l. induction l as [|e l IH]; intros best Hin Hbest; cbn; [apply Hbest|]. apply IH; [intros; apply Hin; set_solver|].
    intros b. unfold better. destruct (Z.eqb_spec e.1 low); [apply Hbest|]. assert (He : m_members x !! e.1 = Some e.2) by (apply Hin; set_solver).
    destruct best as [b0|]; [case_match|]; intros [= <-]; [by eauto|by apply Hbest|by eauto]. }
  apply Hl; [|done]. intros [k y] Hin%elem_of_map_ordered. done.
Qed.
Lemma on_object_twice p c f R : (forall x, c (c x) = c x) -> on_object p c (on_rows f (on_object p c R)) = on_rows f (on_object p c R).
Proof.
  intros Hc. unfold on_object at 1. change (is_online (on_rows f (on_object p c R)) p) with (is_online (on_object p c R) p). unfold is_online. autorewrite with roster. fold (is_online R p).
  unfold on_object. destruct (is_online R p); [|done]. unfold on_rows, on_chars. cbn. f_equal. apply map_eq. intros q. destruct (decide (q = p)) as [->|Hq]; [|by rewrite !lookup_alter_ne].
  rewrite !lookup_alter_eq. destruct (R_chars R !! p) as [d|]; [|done]. cbn. by rewrite Hc.
Qed.
Lemma leader_next g k R x : R_guilds R !! g = Some x -> R_guilds (a_leader g k R) !! g = Some (k, alter (set_v_rank 0) k x.2).
Proof. intros Hx. unfold a_leader, a_rank. cbn. autorewrite with roster. cbn. by rewrite !lookup_alter_eq, Hx. Qed.
(** ... and the change of leaders that goes before it *)
Lemma DeleteMember_sim g guid s : is_u32 guid -> g ∈ GuildStore s -> is_Some (m_members (guild_of g s) !! guid) -> sim s (DeleteMember g guid s).
Proof.
  intros Hu Hg [v Hv] HR. destruct (member_facts _ _ _ _ HR Hv) as (x & Hx & Hxr & Hvr & _). unfold DeleteMember. cbv zeta. rewrite (u32_low guid Hu).
  assert (Hgx : guild_of g s = x) by (unfold guild_of; by rewrite Hx). rewrite Hgx.
  destruct (Z.eqb_spec (m_leaderGuid x) guid) as [Hl|Hl].
  - destruct (newLeader guid x) as [m|] eqn:Hn; [|by apply Disband_sim]. apply newLeader_member in Hn as (k & Hk & Hm). rewrite <- Hgx in Hm.
    destruct (member_facts _ _ _ _ HR Hm) as (x' & Hx' & _ & Hmr & Hmk & Hku & _). assert (x' = x) as -> by congruence. rewrite Hmk, (u32_low k Hku).
    set (s1 := SetLeaderGUID g k s). assert (H1 : roster s1 = a_leader g k (roster s)) by (by apply (SetLeaderGUID_roster s g k m)).
    set (s2 := if online s1 k then _ else s1). assert (H2 : roster s2 = a_leader g k (roster s)).
    { unfold s2. rewrite (roster_object (online s1 k) k (set_c_rank 0) (fun c => (c.1, 0))) by done. rewrite H1. by apply on_object_twice. }
    clearbody s2. clearbody s1. match goal with |- context [remove_member g guid false ?u] => assert (H3 : roster u = a_leader g k (roster s)) by (by case_match) end.
    rewrite remove_member_roster by done. rewrite H3.
    apply rtc_l with (y := a_leader g k (roster s)); [by eapply rs_leader|]. apply rtc_once.
    assert (Hin : is_Some ((alter (set_v_rank 0) k (gview x).2) !! guid)) by (rewrite lookup_alter_is_Some; by eexists).
    destruct Hin as [w Hw]. eapply rs_remove; [by apply leader_next|exact Hw|done].
  - rewrite remove_member_roster by done. apply rtc_once. eapply rs_remove; [exact Hxr|exact Hvr|done].
Qed.

(** ** Guilds that come into being *)

Definition a_guild (p : Z) (R : Roster) : Z :=
  if is_online R p then (default (0, 0) (R_chars R !! p)).1
  else match R_rows R !! GUID_LOPART p with Some r => mr_guildid r | None => 0 end.
Lemma in_guild_roster p s : in_guild p s = a_guild p (roster s).
Proof.
  unfold in_guild, a_guild. rewrite is_online_roster. unfold char_of, GetGuildIdFromDB, roster. cbn. rewrite lookup_fmap. case_match; [|done]. by destruct (chars s !! p).
Qed.
Lemma AddMember_online g guid r s : online s guid = true -> in_guild guid s = 0 -> (AddMember g guid r s).1 = true.
Proof.
  intros Hon Hz. unfold AddMember. cbv zeta. fold (in_guild guid s). rewrite Hz. cbn [Z.eqb negb]. change (online (tell ?e s) guid) with (online s guid). by rewrite Hon.
Qed.
Definition on_store (g : Z) (R : Roster) : Roster := mkRoster (R_online R) (R_chars R) (R_guilds R) (R_rows R) (R_store R ∪ {[g]}) (R_next R).
Lemma a_add_store k g low r R : on_store k (a_add g low r R) = a_add g low r (on_store k R).
Proof. unfold a_add, on_object, is_online. cbn. by case_match. Qed.
(** The object and the rows of a guild without members *)
Definition started (p : Z) (name : text) (s : Guilds) : Guilds :=
  let g := NextGuildId s in
  let s := set_NextGuildId (u32 (NextGuildId s + 1)) s in
  let x := set_m_createdDate (g_now s) (set_m_motd no_message (set_m_name name (set_m_leaderGuid p new_guild))) in
  let s := set_g_guilds (<[g := x]> (g_guilds s)) s in
  CreateDefaultGuildRanks g (DbLocaleIndex p) (INS_GUILD g (mkGuildRow name (GUID_LOPART p) [] no_message (u32 (g_now s)) no_emblem 0 1 0 0) (DEL_GUILD_MEMBERS g s)).
Lemma Create_started p name s : GetGuildByName name s = None -> NextGuildId s < 4294967294 ->
  Create p name s = let '(ret, t) := AddMember (NextGuildId s) p GR_GUILDMASTER (started p name s) in
    if ret then (Some (NextGuildId s), t) else (None, set_g_guilds (delete (NextGuildId s) (g_guilds t)) t).
Proof.
  intros Hn Hs. unfold Create. rewrite Hn. unfold GenerateGuildId. destruct (Z.leb_spec 4294967294 (NextGuildId s)) as [|_]; [lia|]. cbv beta iota zeta delta [started]. reflexivity.
Qed.
Lemma started_roster p name s : roster_inv (roster s) -> NextGuildId s < 4294967294 -> on_store (NextGuildId s) (roster (started p name s)) = a_open p (roster s).
Proof.
  intros HR Hn. pose proof (ro_next _ _ HR) as Hpos. cbn in Hpos. unfold started. cbv zeta. rewrite (roster_quiet (CreateDefaultGuildRanks _ _)).
  match goal with |- on_store _ (roster (INS_GUILD ?a ?b ?t)) = _ => rewrite (roster_quiet (INS_GUILD a b) t) end. unfold DEL_GUILD_MEMBERS.
  assert (Hf : filter (fun e : Z * MemberRow => mr_guildid e.2 <> NextGuildId s) (guild_member s) = guild_member s).
  { apply map_filter_id. intros low r Hr Hg. cbn in Hg. destruct (ro_row _ _ HR _ _ Hr) as (x & v & Hx & _). destruct (ro_ids _ _ HR _ _ Hx) as [Hid _]. rewrite Hg in Hid. cbn in Hid. lia. }
  unfold on_store, a_open, roster. cbn. rewrite Hf, fmap_insert, u32_small by (unfold is_u32; lia). done.
Qed.
Lemma Create_roster p name s : roster_inv (roster s) -> online s p = true -> c_guildId (char_of p s) = 0 -> NextGuildId s < 4294967294 ->
  match Create p name s with
  | (None, t) => same_roster s t
  | (Some g, t) => g = NextGuildId s /\ roster (AddGuild g t) = a_found p (roster s)
  end.
Proof.
  intros HR Hon Hz Hn. destruct (GetGuildByName name s) eqn:Hname; [unfold Create; by rewrite Hname|]. rewrite (Create_started p name s Hname Hn).
  pose proof (started_roster p name s HR Hn) as Ht. generalize dependent (started p name s). intros t Ht. set (g := NextGuildId s) in *. destruct (ro_keys _ _ HR _ _ (online_lookup _ _ Hon)) as [Hu _].
  assert (HtR : R_online (roster t) = R_online (roster s) /\ R_chars (roster t) = R_chars (roster s) /\ R_rows (roster t) = R_rows (roster s) /\ R_guilds (roster t) = <[g := (p, ∅)]> (R_guilds (roster s))).
  { change (R_online (on_store g (roster t)) = R_online (roster s) /\ R_chars (on_store g (roster t)) = R_chars (roster s) /\ R_rows (on_store g (roster t)) = R_rows (roster s) /\ R_guilds (on_store g (roster t)) = <[g := (p, ∅)]> (R_guilds (roster s))). by rewrite Ht. }
  destruct HtR as (Ho & Hc & Hr & Hg).
  assert (Hat : in_guild p t = 0) by (rewrite in_guild_roster; unfold a_guild, is_online; rewrite Ho, Hc, Hr; fold (is_online (roster s) p); fold (a_guild p (roster s)); rewrite <- in_guild_roster; unfold in_guild; by rewrite Hon).
  assert (Hont : online t p = true) by (rewrite <- is_online_roster; unfold is_online; rewrite Ho; fold (is_online (roster s) p); by rewrite is_online_roster).
  assert (Hrow : guild_member t !! p = None) by (change (guild_member t) with (R_rows (roster t)); rewrite Hr; apply guildless; [done..|unfold in_guild; by rewrite Hon]).
  assert (Hex : is_Some (g_guilds t !! g)).
  { assert (Hl : R_guilds (roster t) !! g = Some (p, ∅)) by (rewrite Hg; by rewrite lookup_insert_eq). cbn in Hl. rewrite lookup_fmap in Hl. destruct (g_guilds t !! g); [by eexists|done]. }
  pose proof (AddMember_online g p GR_GUILDMASTER t Hont Hat) as Hret. pose proof (AddMember_roster g p GR_GUILDMASTER t Hu Hex (fun _ => Hrow)) as Hadd.
  destruct (AddMember g p GR_GUILDMASTER t) as [ret u]. cbn [fst snd] in Hret, Hadd. rewrite Hret in *. destruct Hadd as [[? _]|(_ & _ & Hadd)]; [done|]. split; [done|].
  change (roster (AddGuild g u)) with (on_store g (roster u)). by rewrite Hadd, a_add_store, Ht.
Qed.
Lemma found_exists p R : is_Some (R_guilds (a_found p R) !! R_next R).
Proof. unfold a_found, a_add. cbn. autorewrite with roster. cbn. rewrite lookup_alter_eq, lookup_insert_eq. by eexists. Qed.
Lemma AddMember_exists g k guid r s : is_u32 guid -> roster_inv (roster s) -> is_Some (g_guilds s !! g) -> is_Some (g_guilds s !! k) -> is_Some (g_guilds (AddMember g guid r s).2 !! k).
Proof.
  intros Hu HR Hg Hk. destruct (AddMember_roster g guid r s Hu Hg) as [(_ & Hs)|(_ & _ & Ha)]; [by intros; apply guildless|..].
  - eapply roster_guild_exists; [|exact Hk]. unfold same_roster in Hs. by rewrite Hs.
  - assert (Hl : is_Some (R_guilds (roster (AddMember g guid r s).2) !! k)).
    { rewrite Ha. unfold a_add. cbn. autorewrite with roster. cbn. rewrite lookup_alter_is_Some, lookup_fmap. destruct Hk as [x ->]. by eexists. }
    unfold roster in Hl. cbn in Hl. rewrite lookup_fmap in Hl. destruct (g_guilds (AddMember g guid r s).2 !! k); [by eexists|by destruct Hl].
Qed.
Lemma signatures_sim g l s : Forall is_u32 l -> is_Some (g_guilds s !! g) -> sim s (forall_in (fun q s => (AddMember g q GUILD_RANK_NONE s).2) l s).
Proof.
  intros Hl. revert s. induction Hl as [|q l Hq _ IH]; intros s Hg; [reflexivity|]. unfold forall_in in *. cbn [foldl]. intros HR.
  pose proof (AddMember_sim g q GUILD_RANK_NONE s Hq Hg HR) as H1. eapply rtc_trans; [exact H1|]. apply IH; [by apply AddMember_exists|]. by eapply roster_steps_inv.
Qed.
Lemma TurnInPetition_sim p name l s : online s p = true -> NextGuildId s < 4294967294 -> Forall is_u32 l -> sim s (TurnInPetition p name l s).
Proof.
  intros Hon Hn Hl HR. unfold TurnInPetition. destruct (Z.eqb_spec (c_guildId (char_of p s)) 0) as [Hz|]; [|apply rtc_refl]. cbn [negb].
  destruct (GetGuildByName name s); [apply rtc_refl|]. pose proof (Create_roster p name s HR Hon Hz Hn) as Hc. destruct (Create p name s) as [[g|] t]; [|by apply sim_same].
  destruct Hc as [-> Hc]. cbv zeta. set (u := tell _ _). assert (Hu : roster u = a_found p (roster s)) by done. clearbody u.
  assert (Hrow : guild_member s !! p = None) by (destruct (ro_keys _ _ HR _ _ (online_lookup _ _ Hon)) as [Hp _]; apply guildless; [done..|unfold in_guild; by rewrite Hon]).
  apply rtc_l with (y := roster u); [rewrite Hu; apply rs_found; [by apply online_lookup|done]|].
  apply signatures_sim; [done| |].
  - assert (He : is_Some (R_guilds (roster u) !! NextGuildId s)) by (rewrite Hu; apply found_exists). unfold roster in He. cbn in He. rewrite lookup_fmap in He. destruct (g_guilds u !! NextGuildId s); [by eexists|by destruct He].
  - rewrite Hu. apply found_inv; [done|by apply online_lookup|done].
Qed.
Lemma CreateCommand_sim p name s : online s p = true -> NextGuildId s < 4294967294 -> sim s (HandleGuildCreateCommand p name s).
Proof.
  intros Hon Hn HR. unfold HandleGuildCreateCommand. destruct (Z.eqb_spec (c_guildId (char_of p s)) 0) as [Hz|]; [|apply rtc_refl]. cbn [negb].
  pose proof (Create_roster p name s HR Hon Hz Hn) as Hc. destruct (Create p name s) as [[g|] t]; [|by apply sim_same]. destruct Hc as [-> ->].
  apply rtc_once. apply rs_found; [by apply online_lookup|]. destruct (ro_keys _ _ HR _ _ (online_lookup _ _ Hon)) as [Hp _]. apply guildless; [done..|unfold in_guild; by rewrite Hon].
Qed.

(** ** Requests *)

Lemma GetGuildById_store k g s : GetGuildById k s = Some g -> g = k /\ g ∈ GuildStore s.
Proof. unfold GetGuildById. case_bool_decide; [|done]. by intros [= <-]. Qed.
Lemma store_exists s g : roster_inv (roster s) -> g ∈ GuildStore s -> is_Some (g_guilds s !! g).
Proof. intros HR Hg. destruct (ro_store _ _ HR g Hg) as [x Hx]. unfold roster in Hx. cbn in Hx. rewrite lookup_fmap in Hx. destruct (g_guilds s !! g); [by eexists|done]. Qed.
Lemma row_member s low r : roster_inv (roster s) -> guild_member s !! low = Some r ->
  is_Some (m_members (guild_of (mr_guildid r) s) !! low) /\ mr_guildid r ∈ GuildStore s /\ mr_guildid r <> 0.
Proof.
  intros HR Hr. destruct (ro_row _ _ HR _ _ Hr) as (x & v & Hx & Hv). destruct (ro_ids _ _ HR _ _ Hx) as [Hid Hst].
  destruct (member_of_roster _ _ _ _ _ Hx Hv) as (m & Hm & _). split_and!; [by eexists|done|lia].
Qed.
(** The guild of a player in the world has him as a member. *)
Lemma own_row s p : roster_inv (roster s) -> online s p = true ->
  is_u32 p /\ (c_guildId (char_of p s) <> 0 -> exists r, guild_member s !! p = Some r /\ mr_guildid r = c_guildId (char_of p s)).
Proof.
  intros HR Hon. apply online_lookup in Hon. destruct (ro_keys _ _ HR _ _ Hon) as [Hu [c Hc]]. split; [done|]. pose proof (ro_char _ _ HR _ Hon _ Hc) as Hm.
  change (R_rows (roster s)) with (guild_member s) in Hm. unfold char_of. unfold roster in Hc. cbn in Hc. rewrite lookup_fmap in Hc. destruct (chars s !! p) as [ch|]; [|done]. cbn in Hc. injection Hc as <-.
  cbn. destruct (guild_member s !! p) as [r|]; [|done]. intros _. exists r. split; [done|]. by injection Hm as -> _.
Qed.
Lemma own_guild s p g : roster_inv (roster s) -> online s p = true -> GetGuild p s = Some g ->
  is_u32 p /\ g ∈ GuildStore s /\ is_Some (m_members (guild_of g s) !! p).
Proof.
  intros HR Hon. unfold GetGuild. cbv zeta. destruct (Z.eqb_spec (c_guildId (char_of p s)) 0) as [|Hne]; [done|]. intros [-> Hg]%GetGuildById_store.
  destruct (own_row s p HR Hon) as [Hu Hr]. destruct (Hr Hne) as (r & Hr1 & <-). destruct (row_member _ _ _ HR Hr1) as (H1 & H2 & _). done.
Qed.
Lemma with_guild_sim p f s :
  (forall g, roster_inv (roster s) -> g ∈ GuildStore s -> sim s (f g s)) -> sim s (with_guild p f s).
Proof.
  intros Hf HR. unfold with_guild. destruct (GetGuild p s) as [g|] eqn:Hg; [|apply rtc_refl]. apply Hf; [done| |done].
  unfold GetGuild in Hg. cbv zeta in Hg. destruct (_ =? 0); [done|]. by apply GetGuildById_store in Hg as [-> ?].
Qed.
Lemma sim_after t s u : sim s t -> same_roster t u -> sim s u.
Proof. intros H1 H2. etransitivity; [exact H1|by apply sim_same]. Qed.

#[export] Instance SetNewGuildMaster_sim g p name : Keeps sim (HandleSetNewGuildMaster g p name).
Proof. intros s. unfold HandleSetNewGuildMaster. keeping. Qed.
#[export] Instance UpdateMemberRank_sim g p guid b : Keeps sim (HandleUpdateMemberRank g p guid b).
Proof. intros s. unfold HandleUpdateMemberRank. keeping. Qed.
#[export] Instance SetMemberRank_sim g p guid r : Keeps sim (HandleSetMemberRank g p guid r).
Proof. intros s. unfold HandleSetMemberRank. keeping. Qed.
Lemma ChangeMemberRank_sim g guid r s : sim s (ChangeMemberRank g guid r s).2.
Proof. unfold ChangeMemberRank. cbv zeta. repeat case_match; cbn [snd]; keeping. Qed.
Lemma note_roster g low (b : bool) n s m :
  m_members (guild_of g s) !! low = Some m -> roster_inv (roster s) ->
  roster_steps (roster s) (roster (UPD_GUILD_MEMBER low (set_mr_note b n) (upd_member g low ((if b then set_m_publicNote else set_m_officerNote) n) s))).
Proof.
  intros Hm HR. destruct (member_facts _ _ _ _ HR Hm) as (x & _ & Hx & Hv & _). rewrite roster_UPD_MEMBER, (roster_upd_member g low _ (set_v_note b n)) by (intros; by destruct b).
  apply rtc_once. by eapply rs_note.
Qed.
#[export] Instance SetMemberNote_sim g p note guid b : Keeps sim (HandleSetMemberNote g p note guid b).
Proof.
  intros s HR. unfold HandleSetMemberNote. cbv zeta. destruct (negb _); [by apply (keeps_sim (tell _))|]. unfold GetMember. destruct (m_members (guild_of g s) !! GUID_LOPART guid) as [m|] eqn:Hm; [|apply rtc_refl].
  rewrite (roster_quiet (tell _)). destruct b; (case_match; [apply rtc_refl|]); [exact (note_roster _ _ true _ _ _ Hm HR)|exact (note_roster _ _ false _ _ _ Hm HR)].
Qed.
Lemma LeaveMember_sim g p s : online s p = true -> GetGuild p s = Some g -> sim s (HandleLeaveMember g p s).
Proof.
  intros Hon Hg HR. destruct (own_guild _ _ _ HR Hon Hg) as (Hu & Hst & Hm). unfold HandleLeaveMember. cbv zeta. rewrite (roster_quiet (tell _)).
  case_match; [case_match; [by apply (keeps_sim (tell _))|case_match; [by apply (keeps_sim (tell _))|by apply Disband_sim]]|].
  rewrite !(roster_quiet (tell _)), (roster_quiet (LogEvent _ _ _ _ _)). by apply DeleteMember_sim.
Qed.
Lemma RemoveMember_sim g p guid s : is_u32 guid -> g ∈ GuildStore s -> sim s (HandleRemoveMember g p guid s).
Proof.
  intros Hu Hst. unfold HandleRemoveMember. cbv zeta. case_match; [keeping|]. unfold GetMember. rewrite (u32_low guid Hu). destruct (m_members (guild_of g s) !! guid) as [m|] eqn:Hm; [|reflexivity].
  case_match; [keeping|]. case_match; [keeping|]. do 3 keep1. apply DeleteMember_sim; [done..|by eexists].
Qed.
Lemma Disband_request_sim g p s : g ∈ GuildStore s -> sim s (HandleDisband g p s).
Proof. intros Hg. unfold HandleDisband. case_match; [by apply Disband_sim|reflexivity]. Qed.
Lemma Accept_sim p s : online s p = true -> sim s (HandleGuildAcceptOpcode p s).
Proof.
  intros Hon HR. unfold HandleGuildAcceptOpcode. destruct (own_row s p HR Hon) as [Hu _]. case_match; [|apply rtc_refl]. destruct (GetGuildById _ s) as [g|] eqn:Hg; [|apply rtc_refl].
  apply GetGuildById_store in Hg as [_ Hst]. unfold HandleAcceptMember. cbv zeta. case_match; [apply rtc_refl|]. apply AddMember_sim; [done|by apply store_exists|done].
Qed.
(** Nothing is declined by who is in a guild *)
Lemma Decline_sim p s : c_guildId (char_of p s) = 0 -> sim s (HandleGuildDeclineOpcode p s).
Proof.
  intros Hz. apply sim_same. unfold HandleGuildDeclineOpcode, same_roster. rewrite (roster_upd_char p _ (fun c => (0, c.2))) by done.
  unfold on_chars. unfold char_of in Hz. set (R := roster s). assert (Hc : alter (fun c : Z * Z => (0, c.2)) p (R_chars R) = R_chars R).
  { apply map_eq. intros q. destruct (decide (q = p)) as [->|Hq]; [rewrite lookup_alter_eq|by rewrite lookup_alter_ne]. unfold R, roster. cbn. rewrite lookup_fmap. destruct (chars s !! p) as [c|]; [|done]. cbn in *. unfold cview. cbn. by rewrite Hz. }
  rewrite Hc. by destruct R.
Qed.
Lemma Login_sim p s : sim s (PlayerLogin p s).
Proof.
  intros HR. assert (Hl : roster (PlayerLogin p s) = a_login p (roster s)); [|rewrite Hl; apply rtc_once, rs_login].
  unfold PlayerLogin. cbv zeta. set (s1 := upd_char p (set_c_invited 0) s). assert (H1 : roster s1 = roster s) by (by apply quiet_char).
  set (s2 := match guild_member s1 !! p with Some _ => _ | None => _ end).
  set (row := logged_in (guild_member s !! p)).
  assert (H2 : roster s2 = on_chars p row (roster s)).
  { unfold s2, row. change (guild_member s1) with (guild_member s). destruct (guild_member s !! p) as [r|].
    - rewrite <- H1, <- (roster_upd_char p (fun c => set_c_rank (mr_rank r) (set_c_guildId (mr_guildid r) c))) by done. case_match; [|done]. by apply quiet_char.
    - rewrite <- H1. apply roster_upd_char. intros c. unfold logged_in, cview. cbn. by destruct (c_guildId c =? 0). }
  assert (Hq : forall t, roster (set_g_post (Login (g_now t) p (g_post t)) t) = mkRoster (alter (fun _ => true) p (R_online (roster t))) (R_chars (roster t)) (R_guilds (roster t)) (R_rows (roster t)) (R_store (roster t)) (R_next (roster t))).
  { intros t. unfold roster, Login. cbn. f_equal. by apply fmap_alter_to. }
  set (s3 := set_g_post _ s2). assert (H3 : roster s3 = a_login p (roster s)) by (unfold s3; rewrite Hq, H2; done). 
  assert (Hc3 : c_guildId (char_of p s3) <> 0 -> is_Some (GetGuildById (c_guildId (char_of p s3)) s3)).
  { intros Hne. assert (Hch : cview <$> chars s3 = alter row p (cview <$> chars s)) by (change (R_chars (roster s3) = R_chars (a_login p (roster s))); by rewrite H3).
    assert (Hlk : cview <$> chars s3 !! p = (fun c => row (cview c)) <$> chars s !! p) by (rewrite <- lookup_fmap, Hch, lookup_alter_eq, lookup_fmap; by destruct (chars s !! p)).
    unfold char_of in Hne |- *. destruct (chars s3 !! p) as [c3|]; [|done]. destruct (chars s !! p) as [c|]; [|done]. cbn in Hne |- *. apply (f_equal (from_option fst 0)) in Hlk. change (c_guildId c3 = (row (cview c)).1) in Hlk. revert Hne. rewrite Hlk. unfold row, logged_in.
    destruct (guild_member s !! p) as [r|] eqn:Hr; [|destruct (Z.eqb_spec (cview c).1 0); done]. cbn. intros _. destruct (row_member _ _ _ HR Hr) as (_ & Hst & _). unfold GetGuildById.
    replace (GuildStore s3) with (GuildStore s) by (change (R_store (roster s) = R_store (roster s3)); by rewrite H3). rewrite bool_decide_true by done. by eexists. }
  clearbody s3. rewrite <- H3. destruct (Z.eqb_spec (c_guildId (char_of p s3)) 0) as [|Hne]; [done|]. destruct (Hc3 Hne) as [g ->]. apply (roster_quiet (SendLoginInfo g p)).
Qed.
Lemma SaveMail_online p q : p_online <$> players (SaveMail p q) = p_online <$> players q.
Proof.
  unfold SaveMail. destruct (players q !! p) as [x|]; [|done]. case_match; [|done]. unfold upd_player. cbn. rewrite fmap_alter_quiet by done.
  rewrite foreach_players; [done|]. intros m u. unfold save_one. case_match; [done|by rewrite foreach_players|].
  change (players (foreach DEL_ITEM_INSTANCE (map item_guid (mail_infos m)) u) = players u). by rewrite foreach_players.
Qed.
Lemma Logout_players p q : p_online <$> players (Logout p q) = alter (fun _ => false) p (p_online <$> players q).
Proof.
  unfold Logout. cbv zeta. set (u := match players q !! p with Some _ => _ | None => _ end). assert (Hu : p_online <$> players u = p_online <$> players q).
  { unfold u. destruct (players q !! p) as [x|]; [|done]. case_match; [|done]. by apply SaveMail_online. }
  rewrite <- Hu. by apply fmap_alter_to.
Qed.
Lemma Logout_sim p s : sim s (PlayerLogout p s).
Proof.
  apply sim_step. intros HR. unfold PlayerLogout. cbv zeta. set (t := match GetGuildById _ s with Some _ => _ | None => s end).
  assert (Ht : roster t = roster s) by (unfold t; case_match; [apply (roster_quiet (HandleMemberLogout _ p))|done]). clearbody t. rewrite <- Ht.
  replace (roster (set_g_post (Logout p (g_post t)) t)) with (a_logout p (roster t)) by (unfold roster, a_logout; cbn -[Logout]; by rewrite Logout_players). apply rs_logout.
Qed.
Lemma Uninvite_sim p s : is_u32 p -> sim s (HandleGuildUninviteCommand p s).
Proof.
  intros Hu HR. unfold HandleGuildUninviteCommand. destruct (Z.eqb_spec (guild_id_of p s) 0) as [|Hne]; [apply rtc_refl|]. destruct (GetGuildById _ s) as [g|] eqn:Hg; [|apply rtc_refl].
  apply GetGuildById_store in Hg as [-> Hst]. change (guild_id_of p s) with (in_guild p s) in *.
  assert (Hr : exists r, guild_member s !! p = Some r /\ mr_guildid r = in_guild p s).
  { unfold in_guild in *. destruct (online s p) eqn:Hon; [by apply own_row|]. unfold GetGuildIdFromDB in *. rewrite (u32_low p Hu) in *. destruct (guild_member s !! p) as [r|]; [|done]. by exists r. }
  destruct Hr as (r & Hr & <-). destruct (row_member _ _ _ HR Hr) as (H1 & H2 & _). by apply DeleteMember_sim.
Qed.
Lemma LeaveOnDelete_sim p s : is_u32 p -> sim s (LeaveGuildOnDelete p s).
Proof.
  intros Hu HR. unfold LeaveGuildOnDelete, GetGuildIdFromDB. rewrite (u32_low p Hu). destruct (guild_member s !! p) as [r|] eqn:Hr; [|apply rtc_refl].
  case_match; [apply rtc_refl|]. destruct (GetGuildById _ s) as [g|] eqn:Hg; [|apply rtc_refl]. apply GetGuildById_store in Hg as [-> Hst].
  destruct (row_member _ _ _ HR Hr) as (H1 & H2 & _). by apply DeleteMember_sim.
Qed.

(** ** Runs *)

(** What the server relies on: there are ids left for guilds; nobody who is in
    a guild declines an invitation; low guids where a low guid is meant. *)
Definition trusted_op (o : guild_op) (s : Guilds) : Prop :=
  match o with
  | OpMember (OpTurnIn _ _ l) => NextGuildId s < 4294967294 /\ Forall is_u32 l
  | OpMember (OpDecline p) => c_guildId (char_of p s) = 0
  | OpMember (OpRemove _ guid) => is_u32 guid
  | OpCmdCreate _ _ => NextGuildId s < 4294967294
  | OpCmdInvite q _ | OpCmdUninvite q | OpDeleteCharacter q => is_u32 q
  | _ => True
  end.
Fixpoint trusted_run (l : list guild_op) (s : Guilds) : Prop :=
  match l with [] => True | o :: l => trusted_op o s /\ trusted_run l (run_guild_op o s) end.

#[export] Instance trusted_op_dec o s : Decision (trusted_op o s).
Proof. destruct o as [[]| | | | | | | | | | | | | | |]; cbn; exact _. Defined.
#[export] Instance trusted_run_dec l s : Decision (trusted_run l s).
Proof. revert s. induction l as [|o l IH]; intros s; cbn; exact _. Defined.

Lemma GetGuildByName_store name s g : GetGuildByName name s = Some g -> g ∈ GuildStore s.
Proof. intros [Hin%list_elem_of_In _]%List.find_some. by apply elem_of_set_ordered. Qed.
Lemma in_world_sim p f s : (online s p = true -> sim s (f s)) -> sim s (in_world p f s).
Proof. unfold in_world. destruct (online s p); [by auto|reflexivity]. Qed.
Lemma run_member_sim o s : online s (member_player o) = true -> trusted_op (OpMember o) s -> sim s (run_member o s).
Proof.
  intros Hon Ho. destruct o; cbn [run_member member_player trusted_op] in *; try solve [apply with_guild_sim; intros g HR Hg; keeping].
  - destruct Ho as [Hn Hl]. by apply TurnInPetition_sim.
  - by apply Accept_sim.
  - by apply Decline_sim.
  - intros HR. unfold HandleGuildLeaveOpcode, with_guild. destruct (GetGuild p s) as [g|] eqn:Hg; [by apply LeaveMember_sim|apply rtc_refl].
  - apply with_guild_sim. intros g HR Hg. by apply RemoveMember_sim.
  - apply with_guild_sim. intros g HR Hg. by apply Disband_request_sim.
Qed.
Lemma run_board_sim o s : sim s (run_board o s).
Proof. destruct o; cbn [run_board]; try solve [apply with_guild_sim; intros g HR Hg; keeping]. keeping. Qed.
Lemma run_bank_sim o s : sim s (run_bank o s).
Proof.
  assert (Hw : forall p f, (forall g, same_roster s (f g s)) -> sim s (with_guild p f s)) by (intros p f Hf; unfold with_guild; case_match; [by apply sim_same|reflexivity]).
  destruct o; cbn [run_bank]; try solve [apply Hw; intros g; keeping].
  - unfold HandleGuildBankUpdateTab. case_match; [|reflexivity]. apply Hw. intros g. keeping.
  - unfold HandleGuildBankDepositMoney. case_match; [|reflexivity]. case_match; [|reflexivity]. apply Hw. intros g. keeping.
  - unfold HandleGuildBankWithdrawMoney. case_match; [|reflexivity]. apply Hw. intros g. apply Withdraw_quiet.
  - apply sim_same. unfold HandleGuildBankSwapItems. keeping.
  - apply Hw. intros g. apply Withdraw_quiet.
Qed.
Lemma run_guild_op_sim o s : trusted_op o s -> sim s (run_guild_op o s).
Proof.
  intros Ho. destruct o; cbn [run_guild_op trusted_op] in *.
  - apply in_world_sim. intros Hon. by apply run_member_sim.
  - apply in_world_sim. intros _. apply run_board_sim.
  - apply in_world_sim. intros _. apply run_bank_sim.
  - case_match; [reflexivity|apply Login_sim].
  - case_match; [apply Logout_sim|reflexivity].
  - by apply sim_same.
  - apply in_world_sim. intros _. apply with_guild_sim. intros g HR Hg. keeping.
  - apply sim_same. keeping.
  - apply sim_same. keeping.
  - apply in_world_sim. intros Hon. by apply CreateCommand_sim.
  - unfold HandleGuildDeleteCommand. destruct (GetGuildByName name s) as [g|] eqn:Hg; [|reflexivity]. apply Disband_sim. by eapply GetGuildByName_store.
  - unfold HandleGuildInviteCommand. destruct (GetGuildByName name s) as [g|] eqn:Hg; [|reflexivity]. intros HR. apply AddMember_sim; [done| |done]. apply store_exists; [done|by eapply GetGuildByName_store].
  - by apply Uninvite_sim.
  - unfold HandleGuildRankCommand. case_match; [reflexivity|]. case_match; [|reflexivity]. apply ChangeMemberRank_sim.
  - apply sim_same. unfold HandleGuildRenameCommand. case_match; [|reflexivity]. case_match; [reflexivity|apply SetName_quiet].
  - case_match; [reflexivity|by apply LeaveOnDelete_sim].
Qed.
Lemma run_guilds_sim l s : trusted_run l s -> sim s (run_guilds l s).
Proof.
  revert s. induction l as [|o l IH]; intros s Hl; cbn [run_guilds]; [reflexivity|]. destruct Hl as [Ho Hl].
  transitivity (run_guild_op o s); [by apply run_guild_op_sim|by apply IH].
Qed.


End Refines.
