(* ===== verification/GuildRanks.v ===== *)
(** * Rights, ranks and logs of guilds

    What [_HasRankRight] answers; who can promote and demote whom; and a log
    and its table after any number of events. *)
From S2P Require Import Prelude.
From S2P Require Import Lists.
From S2P Require Import Util.
From S2P Require Import Mail.
From S2P Require Import Guild.
Local Open Scope Z_scope.

(** ** Logs *)

Section Logs.
Context {E : Type} (n : Z).

(** The [i]th event ever of a log of [n] records *)
Definition numbered (i : nat) (e : Z * E) : LogEntry E := mkEntry (Z.of_nat i `mod` n) e.1 e.2.
Definition log_step (e : Z * E) (x : LogHolder E * gmap Z (LogEntry E)) : LogHolder E * gmap Z (LogEntry E) :=
  (AddEvent e.1 e.2 x.1, SaveEvent e.1 e.2 x.1 x.2).
Definition log_events (l : list (Z * E)) : LogHolder E * gmap Z (LogEntry E) :=
  foldl (fun x e => log_step e x) (new_log n, ∅) l.
Definition last_records (l : list (Z * E)) : list (LogEntry E) := drop (length l - Z.to_nat n) (imap numbered l).

Lemma log_events_snoc l e : log_events (l ++ [e]) = log_step e (log_events l).
Proof. unfold log_events. by rewrite foldl_app. Qed.
Lemma tail_drop {A} k (L : list A) : tail (drop k L) = drop (S k) L.
Proof. revert k. induction L as [|x L IH]; intros [|k]; try done. cbn [drop]. by rewrite IH. Qed.
Lemma last_records_snoc l e : 0 < n ->
  last_records (l ++ [e]) = (if n <=? Z.of_nat (length (last_records l)) then tail (last_records l) else last_records l) ++ [numbered (length l) e].
Proof.
  intros Hn. unfold last_records. rewrite length_app, imap_app. cbn [length imap]. rewrite Nat.add_0_r. set (L := imap numbered l).
  assert (HL : length L = length l) by apply length_imap. rewrite length_drop, HL. rewrite drop_app_le by lia. f_equal.
  destruct (Z.leb_spec n (Z.of_nat (length l - (length l - Z.to_nat n)))).
  - replace (length l + 1 - Z.to_nat n)%nat with (S (length l - Z.to_nat n)) by lia. by rewrite tail_drop.
  - f_equal. lia.
Qed.
Lemma last_records_in l e : 0 < n -> e ∈ last_records l <-> exists i x, l !! i = Some x /\ Z.of_nat (length l) <= Z.of_nat i + n /\ e = numbered i x.
Proof.
  intros Hn. unfold last_records. rewrite list_elem_of_lookup. split.
  - intros [j Hj]. rewrite lookup_drop, list_lookup_imap in Hj. apply fmap_Some in Hj as (x & Hx & ->). eexists _, x. split; [exact Hx|]. split; [lia|done].
  - intros (i & x & Hx & Hi & ->). exists (i - (length l - Z.to_nat n))%nat. rewrite lookup_drop, list_lookup_imap.
    replace (length l - Z.to_nat n + (i - (length l - Z.to_nat n)))%nat with i by lia. by rewrite Hx.
Qed.
(** Two of the last [n] events never have the same number. *)
Lemma numbers_differ i j : 0 < n -> Z.of_nat j - n < Z.of_nat i < Z.of_nat j -> Z.of_nat i `mod` n <> Z.of_nat j `mod` n.
Proof.
  intros Hn Hij He. rewrite (Z.div_mod (Z.of_nat i) n), (Z.div_mod (Z.of_nat j) n) in Hij by lia. rewrite He in Hij.
  generalize dependent (Z.of_nat i / n). generalize dependent (Z.of_nat j / n). intros a b Hab.
  assert (Hba : b < a) by (apply (Z.mul_lt_mono_pos_l n); lia). assert (Hle : n * b <= n * (a - 1)) by (apply Z.mul_le_mono_nonneg_l; lia). lia.
Qed.
Definition next_guid (l : list (Z * E)) : Z := match l with [] => GUILD_EVENT_LOG_GUID_UNDEFINED | _ => (Z.of_nat (length l) - 1) `mod` n end.
Lemma next_guid_snoc l e : next_guid (l ++ [e]) = Z.of_nat (length l) `mod` n.
Proof. assert (He : next_guid (l ++ [e]) = (Z.of_nat (length (l ++ [e])) - 1) `mod` n) by (by destruct l). rewrite He, length_app. cbn. f_equal. lia. Qed.
Lemma GetNextGUID_number (h : LogHolder E) l : 0 < n < 4294967296 -> m_maxRecords h = n -> m_nextGUID h = next_guid l ->
  GetNextGUID h = Z.of_nat (length l) `mod` n.
Proof.
  intros Hn Hm Hg. unfold GetNextGUID. rewrite Hg, Hm. destruct l as [|e l]; [done|]. cbn [next_guid]. set (k := Z.of_nat (length (e :: l))).
  assert (Hk : 0 < k) by (unfold k; cbn; lia). pose proof (Z.mod_pos_bound (k - 1) n ltac:(lia)) as Hb. unfold GUILD_EVENT_LOG_GUID_UNDEFINED.
  destruct (Z.eqb_spec ((k - 1) `mod` n) 4294967295); [lia|]. rewrite u32_small by (unfold is_u32; lia). rewrite Zplus_mod_idemp_l. f_equal. lia.
Qed.
Lemma log_events_spec l : 0 < n < 4294967296 ->
  m_maxRecords (log_events l).1 = n /\ m_nextGUID (log_events l).1 = next_guid l /\ m_log (log_events l).1 = last_records l /\
  forall k e, (log_events l).2 !! k = Some e <-> e ∈ last_records l /\ e_guid e = k.
Proof.
  intros Hn. induction l as [|e l IH] using rev_ind.
  - split_and!; [done|done|unfold last_records; by destruct (_ - _)%nat|]. intros k x. unfold log_events. cbn. split; [done|]. unfold last_records. cbn. by intros [Hx%elem_of_nil _].
  - rewrite log_events_snoc. destruct (log_events l) as [h rows]. cbn [fst snd] in IH |- *. destruct IH as (H1 & H2 & H3 & H4).
    pose proof (GetNextGUID_number h l Hn H1 H2) as Hg. unfold log_step, AddEvent, SaveEvent. cbn [fst snd]. rewrite Hg, H1, H3, next_guid_snoc. cbn [m_maxRecords m_nextGUID m_log]. split_and!; [done|done|by rewrite last_records_snoc by lia|].
    change (mkEntry (Z.of_nat (length l) `mod` n) e.1 e.2) with (numbered (length l) e). intros k x. rewrite lookup_insert_Some, H4, !last_records_in, length_app by lia. cbn [length]. split.
    + intros [[<- <-]|[Hne [(i & y & Hy & Hi & ->) Hk]]].
      * split; [|done]. exists (length l), e. split; [by rewrite lookup_app_r, Nat.sub_diag|]. split; [lia|done].
      * split; [|done]. exists i, y. pose proof (lookup_lt_Some _ _ _ Hy). split; [by apply lookup_app_l_Some|]. split; [|done].
        destruct (decide (Z.of_nat i + n = Z.of_nat (length l))) as [Heq|]; [|lia]. exfalso. apply Hne. rewrite <- Hk. cbn. rewrite <- Heq.
        replace (Z.of_nat i + n) with (Z.of_nat i + 1 * n) by lia. apply Z_mod_plus_full.
    + intros [(i & y & Hy & Hi & ->) Hk]. apply lookup_app_Some in Hy as [Hy|[Hlen Hy]].
      * right. pose proof (lookup_lt_Some _ _ _ Hy). split; [rewrite <- Hk; cbn; apply not_eq_sym, numbers_differ; lia|]. split; [|done]. exists i, y. split; [done|]. split; [lia|done].
      * left. assert (Hil : (i - length l = 0)%nat) by (apply lookup_lt_Some in Hy; cbn in Hy; lia). rewrite Hil in Hy. injection Hy as <-. replace i with (length l) in * by lia. done.
Qed.
End Logs.

(** After any number of events, a log has the last of them, as many as it may
    have, numbered in turn; and its table has exactly the same entries, each in
    the row of its number. *)
Theorem log_table_agree {E} (n : Z) (l : list (Z * E)) : 0 < n < 4294967296 ->
  m_log (log_events n l).1 = last_records n l /\ Z.of_nat (length (m_log (log_events n l).1)) = Z.min n (Z.of_nat (length l)) /\
  forall k e, (log_events n l).2 !! k = Some e <-> e ∈ m_log (log_events n l).1 /\ e_guid e = k.
Proof.
  intros Hn. destruct (log_events_spec n l Hn) as (_ & _ & H3 & H4). rewrite H3. split_and!; [done| |done].
  unfold last_records. rewrite length_drop, length_imap. lia.
Qed.

(** ** Ranks *)

Section Ranks.
Context `{GuildWorld}.

(** A right is asked for with [GR_RIGHT_EMPTY] in it. *)
Theorem rank_right_granted p bits x : Z.land bits GR_RIGHT_EMPTY = 0 ->
  HasRankRight p (Z.lor GR_RIGHT_EMPTY bits) x = true <->
  exists m, GetMember p x = Some m /\
    (Z.testbit (GetRankRights (m_rankId m) x) 6 = false \/ Z.land (GetRankRights (m_rankId m) x) bits <> 0).
Proof.
  intros Hb. unfold HasRankRight. destruct (GetMember p x) as [m|]; [|split; [done|by intros (m & [=] & _)]].
  set (r := GetRankRights (m_rankId m) x). rewrite negb_true_iff, Z.eqb_neq, Z.land_lor_distr_r.
  assert (H64 : Z.land r GR_RIGHT_EMPTY = if Z.testbit r 6 then 64 else 0).
  { apply Z.bits_inj'. intros i Hi. rewrite Z.land_spec. change GR_RIGHT_EMPTY with (2 ^ 6). rewrite Z.pow2_bits_eqb by lia.
    destruct (Z.eqb_spec 6 i) as [<-|Hne]; [destruct (Z.testbit r 6); reflexivity|]. rewrite andb_false_r. destruct (Z.testbit r 6); [|by rewrite Z.bits_0].
    change 64 with (2 ^ 6). rewrite Z.pow2_bits_eqb by lia. symmetry. by apply Z.eqb_neq. }
  assert (Hdis : Z.land (Z.land r bits) 64 = 0) by (rewrite <- Z.land_assoc; change 64 with GR_RIGHT_EMPTY; rewrite Hb; apply Z.land_0_r).
  rewrite H64. destruct (Z.testbit r 6) eqn:Ht.
  - pose proof (Z.add_lor_land 64 (Z.land r bits)) as Ha. rewrite (Z.land_comm 64), Hdis in Ha. split.
    + intros Hne. exists m. split; [done|]. right. fold r. change GR_RIGHT_EMPTY with 64 in Hne. lia.
    + intros (m' & [= <-] & [Hf|Hne]); [fold r in Hf; congruence|]. fold r in Hne. change GR_RIGHT_EMPTY with 64. lia.
  - rewrite Z.lor_0_l. split; [intros _; exists m; split; [done|by left]|]. intros _ He. change GR_RIGHT_EMPTY with 64 in He. by rewrite He in Hdis.
Qed.

(** A promotion or a demotion by a member changes nobody's rank but that of a
    member below him, by one, and leaves that member below him. *)
Theorem rank_change_below_own g p guid demote s x : g_guilds s !! g = Some x ->
  (forall low m, m_members x !! low = Some m -> 0 <= m_rankId m < 255) ->
  forall low m, m_members x !! low = Some m ->
  exists m', m_members (guild_of g (HandleUpdateMemberRank g p guid demote s)) !! low = Some m' /\
    (m_rankId m' = m_rankId m \/
     low = GUID_LOPART guid /\ m_rankId m' = m_rankId m + (if demote then 1 else -1) /\
     exists me, GetMember p x = Some me /\ m_rankId me < m_rankId m /\ m_rankId me < m_rankId m').
Proof.
  intros Hx Hb low m Hm. assert (Hgx : guild_of g s = x) by (unfold guild_of; by rewrite Hx).
  assert (Hnone : exists m', m_members (guild_of g s) !! low = Some m' /\ (m_rankId m' = m_rankId m \/ low = GUID_LOPART guid /\ m_rankId m' = m_rankId m + (if demote then 1 else -1) /\
     exists me, GetMember p x = Some me /\ m_rankId me < m_rankId m /\ m_rankId me < m_rankId m')) by (exists m; rewrite Hgx; split; [done|by left]).
  unfold HandleUpdateMemberRank. cbv zeta. rewrite Hgx. destruct (negb (HasRankRight _ _ _)); [exact Hnone|]. destruct (GetMember guid x) as [w|] eqn:Hw; [|exact Hnone].
  destruct (GetMember p x) as [me|] eqn:Hme; [|exact Hnone]. destruct (m_guid w =? p); [exact Hnone|]. destruct (updated_rank me w demote x) as [e|r] eqn:Hr; [exact Hnone|].
  set (lw := GUID_LOPART guid) in *. pose proof (Hb _ _ Hw) as Hbw. pose proof (Hb _ _ Hme) as Hbm.
  assert (Hrange : r = m_rankId w + (if demote then 1 else -1) /\ m_rankId me < m_rankId w /\ m_rankId me < r /\ 0 <= r <= 255).
  { revert Hr. unfold updated_rank, IsRankNotLower. destruct demote.
    - destruct (Z.leb_spec (m_rankId w) (m_rankId me)); [done|]. case_match; [done|]. rewrite u32_small by (unfold is_u32; lia). intros [= <-]. lia.
    - rewrite u8_small by (unfold is_byte; lia). destruct (Z.leb_spec (m_rankId w) (m_rankId me + 1)); [done|]. rewrite u32_small by (unfold is_u32; lia). intros [= <-]. lia. }
  destruct Hrange as (-> & H1 & H2 & H3). rewrite u8_small by (unfold is_byte; lia). clear Hr Hnone. set (r := m_rankId w + _) in *.
  match goal with |- context [LogEvent ?a ?b ?c ?d ?e ?t] => set (t0 := t); set (t1 := LogEvent a b c d e t0) end.
  change (guild_of g (tell ?e t1)) with (guild_of g t1).
  assert (Ht0 : g_guilds t0 !! g = Some (set_m_members (alter (set_m_rankId r) lw (m_members x)) x)).
  { unfold t0, ChangeRank. rewrite Hgx. fold lw. unfold GetMember in Hw. fold lw in Hw. rewrite Hw. cbv zeta.
    assert (Hu : g_guilds (upd_member g lw (set_m_rankId r) s) !! g = Some (set_m_members (alter (set_m_rankId r) lw (m_members x)) x)) by (unfold upd_member, upd_guild; cbn; by rewrite lookup_alter_eq, Hx).
    by case_match. }
  assert (Ht1 : m_members (guild_of g t1) = alter (set_m_rankId r) lw (m_members x)).
  { unfold t1, LogEvent, guild_of, upd_guild. clearbody t0. cbn. by rewrite lookup_alter_eq, Ht0. }
  rewrite Ht1. destruct (decide (low = lw)) as [->|Hne].
  - rewrite lookup_alter_eq, Hm. eexists. split; [reflexivity|]. right. unfold GetMember in Hw. fold lw in Hw. rewrite Hm in Hw. injection Hw as <-. split; [done|]. split; [done|]. exists me. done.
  - rewrite lookup_alter_ne by done. exists m. split; [done|by left].
Qed.

(** ** Levels *)

Lemma forall_in_guilds {A} (f : A -> Guilds -> Guilds) l s : (forall a t, g_guilds (f a t) = g_guilds t) -> g_guilds (forall_in f l s) = g_guilds s.
Proof. intros Hf. revert s. induction l as [|a l IH]; intros s; [done|]. unfold forall_in in *. cbn. by rewrite IH, Hf. Qed.
Lemma level_up_level g source s x : g_guilds s !! g = Some x ->
  exists y, g_guilds (level_up g source s) !! g = Some y /\ g_level y = u8 (g_level x + 1).
Proof.
  intros Hx. unfold level_up, AddGuildNews. cbv zeta. assert (Hgx : guild_of g s = x) by (unfold guild_of; by rewrite Hx). rewrite Hgx.
  match goal with |- context [forall_in ?f ?l ?u] => set (t := forall_in f l u); assert (Ht : g_guilds t = g_guilds u) by (apply forall_in_guilds; intros p v; by rewrite forall_in_guilds) end.
  assert (Hy : exists y, g_guilds t !! g = Some y /\ g_level y = u8 (g_level x + 1)) by (rewrite Ht; unfold upd_guild; cbn; rewrite lookup_alter_eq, Hx; eexists; split; [reflexivity|done]).
  clearbody t. destruct Hy as (y & Hy & Hl). eexists. split; [unfold upd_guild; cbn; rewrite lookup_alter_eq, Hy; reflexivity|done].
Qed.
(** When the loop may run as often as a byte can count, no further level is
    left to gain at its end: the loop of the code ends. *)
Theorem guild_levels_end g source s x : g_guilds s !! g = Some x -> is_byte (g_level x) -> CONFIG_GUILD_MAX_LEVEL <= 255 ->
  exists y, g_guilds (level_loop 256 g source s) !! g = Some y /\ is_byte (g_level y) /\
    (g_experience y < GetXPForGuildLevel (g_level y) \/ CONFIG_GUILD_MAX_LEVEL <= g_level y).
Proof.
  intros Hx Hb Hmax. assert (Hn : 256 - g_level x <= Z.of_nat 256) by (unfold is_byte in Hb; lia). revert s x Hx Hb Hn. generalize 256%nat as n.
  intros n. induction n as [|n IH]; intros s x Hx Hb Hn; cbn [level_loop]; [unfold is_byte in Hb; lia|].
  assert (Hgx : guild_of g s = x) by (unfold guild_of; by rewrite Hx). rewrite Hgx.
  destruct (Z.leb_spec (GetXPForGuildLevel (g_level x)) (g_experience x)); [|exists x; cbn; auto].
  destruct (Z.ltb_spec (g_level x) CONFIG_GUILD_MAX_LEVEL); [|exists x; cbn; auto]. cbn [andb].
  destruct (level_up_level g source s x Hx) as (y & Hy & Hl). rewrite u8_small in Hl by (unfold is_byte in *; lia). unfold is_byte in *. apply (IH _ y Hy); lia.
Qed.
End Ranks.
