(* ===== verification/GuildRuns.v ===== *)
(** * Guilds at work

    Runs of the guild system on a small server: that the theorems about it
    apply, and what happens where their hypotheses do not hold. *)
From S2P Require Import Prelude.
From S2P Require Import Lists.
From S2P Require Import Util.
From S2P Require Import Mail.
From S2P Require Import MailMoney.
From S2P Require Import MailRuns.
From S2P Require Import Guild.
From S2P Require Import GuildBank.
From S2P Require Import GuildSteps.
From S2P Require Import GuildMoney.
From S2P Require Import GuildLimits.
From S2P Require Import GuildRoster.
From S2P Require Import GuildQuiet.
From S2P Require Import GuildRefines.
From S2P Require Import GuildRanks.
Local Open Scope Z_scope.

Definition guild_town_world : GuildWorld := {|
  guild_mail := town_world;
  CONFIG_ALLOW_TWO_SIDE_INTERACTION_GUILD := false;
  CONFIG_GUILD_LEVELING_ENABLED := true;
  CONFIG_GUILD_UNDELETABLE_LEVEL := 4;
  CONFIG_GUILD_MAX_LEVEL := 25;
  CONFIG_GUILD_DAILY_XP_CAP := 7807500;
  CONFIG_GUILD_EVENT_LOG_COUNT := 3;
  CONFIG_GUILD_NEWS_LOG_COUNT := 3;
  CONFIG_GUILD_BANK_EVENT_LOG_COUNT := 3;
  AllowMultipleGuildMaster := false;
  GuildPerkSpellsStore := [(2, 78631)];
  GuildXPperLevel := [0; 100; 200; 300];
  GetTrinityString := fun _ e => [e];
  DbLocaleIndex := fun _ => 0;
  IsReservedName := fun _ => false;
  IsValidCharterName := fun _ => true;
  CanUseGuildBank := fun _ _ => true;
  CanUseTabardDesigner := fun _ _ => true
|}.
Definition bank_town_world : BankWorld := {| bank_guild := guild_town_world; utf8truncate := fun t n => firstn (Z.to_nat n) t |}.
#[local] Existing Instance bank_town_world.

(** Three characters: two in the world, the third comes later. *)
Definition guild_post : Post :=
  mkPost {[1 := townsman 11 100000000 ∅; 2 := townsman 12 500 ∅; 3 := set_p_online false (townsman 13 500 ∅)]} ∅ ∅ ∅ ∅ 1 502 [].
Definition someone (name : Z) : Char := mkChar [name] 1 0 0 ∅ 0 0 0 0 ∅.
Definition guild_town : Guilds :=
  mkGuilds guild_post 1000 {[1 := someone 65; 2 := someone 66; 3 := someone 67]} ∅ ∅ 1 ∅ ∅ ∅ ∅ ∅ ∅ ∅ ∅ ∅ ∅ [].

(** A guild is founded, gets a member, a bank tab and money, the member gets a
    rank that may take money, takes some, and is made officer; another joins,
    and the leader hands over and leaves. *)
Definition founding : list guild_op :=
  [OpMember (OpTurnIn 1 [71] [2]); OpLogin 3; OpMember (OpInvite 1 [67]); OpMember (OpAccept 3)].
Definition opening : list guild_op :=
  [OpBank (OpBuyTab 1 0); OpBank (OpDeposit 1 7 1000);
   OpMember (OpRankPermissions 1 4 (Z.lor GR_RIGHT_EMPTY GR_RIGHT_WITHDRAW_GOLD) 300 [(3, 5)] [73])].
Definition spending : list bank_op := [OpWithdraw 2 7 120; OpDeposit 2 7 50; OpWithdraw 2 7 200; OpWithdraw 2 7 180; OpRepair 3 100].
Definition handing_over : list guild_op :=
  [OpMember (OpPromote 1 2); OpMember (OpSetMaster 1 [66]); OpMember (OpLeave 1); OpLogout 3; OpMember (OpRemove 2 3); OpReset].
Definition guild_year : list guild_op := founding ++ opening ++ (OpBank <$> spending) ++ handing_over.

(** What is left of the year: one member, who leads. *)
Example guild_year_ends :
  (fun x => (m_leaderGuid x, (map_ordered (m_members x)).*1, m_bankMoney x, length (m_bankTabs x))) <$> g_guilds (run_guilds guild_year guild_town) !! 1 = Some (2, [2], 650, 1%nat).
Proof. vm_compute. reflexivity. Qed.

(** ** The theorems at work *)

Lemma three_cases {A} (P : Z -> A -> Prop) (x y z : A) : P 1 x -> P 2 y -> P 3 z -> forall p c, ({[1 := x; 2 := y; 3 := z]} : gmap Z A) !! p = Some c -> P p c.
Proof. intros H1 H2 H3 p c Hc. rewrite !lookup_insert_Some, lookup_singleton_Some in Hc. destruct Hc as [[<- <-]|[_ [[<- <-]|[_ [<- <-]]]]]; done. Qed.
Lemma guild_town_inv : roster_inv (roster guild_town).
Proof.
  assert (Ho : forall p x, players guild_post !! p = Some x -> is_u32 p /\ is_Some (chars guild_town !! p)) by (apply three_cases; (split; [by vm_compute|by eexists])).
  assert (Hc : forall p x, chars guild_town !! p = Some x -> c_guildId x = 0) by (by apply three_cases).
  assert (Hg : forall g x, R_guilds (roster guild_town) !! g = Some x -> False) by (intros g x Hx; unfold roster in Hx; cbn [R_guilds g_guilds guild_town] in Hx; by rewrite fmap_empty, lookup_empty in Hx).
  split.
  - reflexivity.
  - intros p b Hb. change (R_online (roster guild_town)) with (p_online <$> players guild_post) in Hb. rewrite lookup_fmap in Hb. apply fmap_Some in Hb as (x & Hx & _).
    destruct (Ho p x Hx) as [H1 H2]. split; [done|]. change (R_chars (roster guild_town)) with (cview <$> chars guild_town). by rewrite lookup_fmap, fmap_is_Some.
  - by intros g x Hx%Hg.
  - by intros g x Hx%Hg.
  - by intros g x low v Hx%Hg.
  - intros g Hin. change (g ∈ (∅ : gset Z)) in Hin. set_solver.
  - intros low r Hr. change ((∅ : gmap Z MemberRow) !! low = Some r) in Hr. by rewrite lookup_empty in Hr.
  - intros p _ c Hcv. change (R_chars (roster guild_town)) with (cview <$> chars guild_town) in Hcv. rewrite lookup_fmap in Hcv. apply fmap_Some in Hcv as (x & Hx & ->).
    change (c_guildId x = 0). by eapply Hc.
Qed.
Lemma guild_year_trusted : trusted_run guild_year guild_town.
Proof. apply (bool_decide_unpack _). by vm_compute. Qed.
Lemma guild_town_ok : bank_ok guild_town.
Proof.
  split; [|apply map_Forall_empty]. split; [split_and!; try (cbn; lia)|].
  - intros p x Hx. cbn in Hx. revert p x Hx. apply three_cases; split_and!; cbn; try (unfold MAX_MONEY_AMOUNT; lia); constructor.
  - apply map_Forall_empty.
  - intros id r Hid. cbn in Hid. by rewrite lookup_empty in Hid.
  - intros p x Hx. cbn in Hx. revert p x Hx. by apply three_cases.
Qed.
Lemma guilds_make_no_money_witness :
  bank_ok (run_guilds guild_year guild_town) /\ riches (run_guilds guild_year guild_town) <= riches guild_town.
Proof.
  apply (guilds_make_no_money guild_year guild_town); [exact guild_town_ok|by vm_compute|].
  apply (bool_decide_unpack _). by vm_compute.
Defined.
(** After 300 have been allowed for a day, the member has had 120 and 180. *)
Definition open_bank : Guilds := run_guilds (founding ++ opening) guild_town.
Example open_bank_taken : taken 1 2 spending open_bank = 300.
Proof. vm_compute. reflexivity. Qed.
Lemma daily_limit_holds_witness : 0 <= taken 1 2 spending open_bank <= Z.max 0 (300 - 0).
Proof.
  apply (daily_limit_holds 1 2 spending open_bank 4 0 300); [by vm_compute| |done|lia|lia|repeat constructor; by vm_compute].
  split; [intros x Hx; vm_compute in Hx; injection Hx as <-; unfold fits; apply (bool_decide_unpack _); by vm_compute|]. eexists _, _. split_and!; [vm_compute; reflexivity|vm_compute; reflexivity|by vm_compute..].
Defined.
Definition three_events : list (Z * Z) := [(10, 1); (20, 2); (30, 3); (40, 4)].
Lemma log_table_agree_witness :
  m_log (log_events 3 three_events).1 = last_records 3 three_events /\
  Z.of_nat (length (m_log (log_events 3 three_events).1)) = Z.min 3 (Z.of_nat (length three_events)) /\
  forall k e, (log_events 3 three_events).2 !! k = Some e <-> e ∈ m_log (log_events 3 three_events).1 /\ e_guid e = k.
Proof. apply (log_table_agree 3 three_events). lia. Defined.
Lemma rank_right_granted_witness :
  HasRankRight 1 (Z.lor GR_RIGHT_EMPTY 16) (guild_of 1 open_bank) = true <->
  exists m, GetMember 1 (guild_of 1 open_bank) = Some m /\
    (Z.testbit (GetRankRights (m_rankId m) (guild_of 1 open_bank)) 6 = false \/ Z.land (GetRankRights (m_rankId m) (guild_of 1 open_bank)) 16 <> 0).
Proof. apply (rank_right_granted 1 16 (guild_of 1 open_bank)). reflexivity. Defined.
Lemma rank_change_below_own_witness :
  exists m', m_members (guild_of 1 (HandleUpdateMemberRank 1 1 2 false open_bank)) !! 2 = Some m' /\
    (m_rankId m' = 4 \/
     2 = GUID_LOPART 2 /\ m_rankId m' = 4 + -1 /\
     exists me, GetMember 1 (guild_of 1 open_bank) = Some me /\ m_rankId me < 4 /\ m_rankId me < m_rankId m').
Proof.
  set (x := guild_of 1 open_bank). set (m := default (new_member 0 0 0) (m_members x !! 2)). change 4 with (m_rankId m) at 1 2 3.
  apply (rank_change_below_own 1 1 2 false open_bank x); [by vm_compute| |by vm_compute].
  assert (Hall : map_Forall (fun _ m => 0 <= m_rankId m < 255) (m_members x)) by (apply (bool_decide_unpack _); by vm_compute). exact Hall.
Defined.

Lemma guild_levels_end_witness :
  exists y, g_guilds (level_loop 256 1 1 (upd_guild 1 (set_g_experience 350) open_bank)) !! 1 = Some y /\ is_byte (g_level y) /\
    (g_experience y < GetXPForGuildLevel (g_level y) \/ CONFIG_GUILD_MAX_LEVEL <= g_level y).
Proof.
  apply (guild_levels_end 1 1 (upd_guild 1 (set_g_experience 350) open_bank) (set_g_experience 350 (guild_of 1 open_bank))); by vm_compute.
Defined.

(** ** Where they do not apply *)

(** A member who answers no to an invitation, and then founds a guild of his
    own, is a member of two guilds. *)
Theorem decliner_in_two_guilds :
  let t := run_guilds (founding ++ [OpMember (OpDecline 2); OpMember (OpTurnIn 2 [72] [])]) guild_town in
  IsMember 2 (guild_of 1 t) = true /\ IsMember 2 (guild_of 2 t) = true.
Proof. vm_compute. done. Qed.
(** Who is removed by a guid whose low part is his is out of the guild, and his
    character does not know. *)
Theorem removed_by_low_part :
  let t := run_guilds (founding ++ [OpMember (OpRemove 1 (2 ^ 32 + 2))]) guild_town in
  IsMember 2 (guild_of 1 t) = false /\ GetGuild 2 t = Some 1 /\ online t 2 = true.
Proof. vm_compute. done. Qed.
(** An officer makes another member a master. *)
Theorem officer_makes_master :
  let t := run_guilds (founding ++ [OpMember (OpAssignRank 1 2 1); OpMember (OpAssignRank 2 3 0)]) guild_town in
  m_rankId <$> GetMember 2 (guild_of 1 t) = Some 1 /\ IsLeader 3 (guild_of 1 t) = true.
Proof. vm_compute. done. Qed.
(** A member of the lowest rank may do nothing; when his rank is removed, he
    may do everything. *)
Theorem removed_rank_may_all :
  let s := run_guilds founding guild_town in
  let t := run_guilds [OpMember (OpDelRank 1 4)] s in
  HasRankRight 2 GR_RIGHT_REMOVE (guild_of 1 s) = false /\ HasRankRight 2 GR_RIGHT_REMOVE (guild_of 1 t) = true.
Proof. vm_compute. done. Qed.
(** A limit that does not fit 31 bits gives nothing. *)
Theorem high_limit_gives_nothing :
  let s := run_guilds (founding ++ opening ++ [OpMember (OpRankPermissions 1 4 (Z.lor GR_RIGHT_EMPTY GR_RIGHT_WITHDRAW_GOLD) 3000000000 [] [73])]) guild_town in
  taken 1 2 [OpWithdraw 2 7 1] s = 0 /\ m_bankMoney (guild_of 1 s) = 1000.
Proof. vm_compute. done. Qed.
