(* ===== verification/Reputation.v ===== *)
(** * Reputations

    game/Reputation/ReputationMgr.cpp and .h: what the factions think of a
    player, the requests of CharacterHandler.cpp about it, and the rows of
    character_reputation.  The stores of faction data, the rate and the race and
    class of the player are the class [RepWorld].  A pointer to a faction's
    state is its key in [_factions]. *)
From S2P Require Import Prelude.
From S2P Require Import Lists.
From S2P Require Import ByteBuffer.
From S2P Require Import Float.
From Stdlib Require Import SpecFloat.
Local Open Scope Z_scope.

(** ** Data *)

Definition REP_HATED : Z := 0.
Definition REP_HOSTILE : Z := 1.
Definition REP_HONORED : Z := 5.
Definition REP_REVERED : Z := 6.
Definition REP_EXALTED : Z := 7.
Definition MAX_REPUTATION_RANK : nat := 8.
Definition PointsInRank : list Z := [36000; 3000; 3000; 3000; 6000; 12000; 21000; 1000].
Definition Reputation_Cap : Z := 42999.
Definition Reputation_Bottom : Z := -42000.
Definition MAX_SPILLOVER_FACTIONS : nat := 5.

Definition FACTION_FLAG_VISIBLE : Z := 1.
Definition FACTION_FLAG_AT_WAR : Z := 2.
Definition FACTION_FLAG_HIDDEN : Z := 4.
Definition FACTION_FLAG_INVISIBLE_FORCED : Z := 8.
Definition FACTION_FLAG_PEACE_FORCED : Z := 16.
Definition FACTION_FLAG_INACTIVE : Z := 32.
Definition FACTION_FLAG_SPECIAL : Z := 128.

(** A [FactionEntry]: the arrays have four elements. *)
Record FactionEntry := mkFactionEntry {
  fe_ID : Z;
  reputationListID : Z;
  BaseRepRaceMask : list Z;
  BaseRepClassMask : list Z;
  BaseRepValue : list Z;
  ReputationFlags : list Z;
  fe_team : Z;
  spilloverRateIn : f32;
  spilloverRateOut : f32;
  spilloverMaxRankIn : Z
}.
(** The elements of its arrays together: faction, rate, rank *)
Record RepSpilloverTemplate := mkSpillover { spillovers : list (Z * f32 * Z) }.

Inductive RepOpcode :=
| SMSG_SET_FORCED_REACTIONS | SMSG_SET_FACTION_STANDING | SMSG_INITIALIZE_FACTIONS | SMSG_SET_FACTION_VISIBLE.
Inductive RepCriteria :=
| KNOWN_FACTIONS | GAIN_REPUTATION | GAIN_EXALTED_REPUTATION | GAIN_REVERED_REPUTATION | GAIN_HONORED_REPUTATION.
Inductive RepEvent :=
| SendDirectMessage (opcode : RepOpcode) (data : outcome BBError (list Z))
| OnPlayerReputationChange (faction standing : Z) (incremental : bool)
| ReputationChanged (faction : Z)
| UpdateAchievementCriteria (type : RepCriteria) (faction : Z).

(** A [FactionState] *)
Record FactionState := mkFactionState {
  fs_ID : Z;
  ReputationListID : Z;
  Standing : Z;
  Flags : Z;
  needSend : bool;
  needSave : bool
}.
Definition set_Standing (x : Z) (r : FactionState) : FactionState :=
  mkFactionState (fs_ID r) (ReputationListID r) x (Flags r) (needSend r) (needSave r).
Definition set_Flags (x : Z) (r : FactionState) : FactionState :=
  mkFactionState (fs_ID r) (ReputationListID r) (Standing r) x (needSend r) (needSave r).
Definition set_needSend (x : bool) (r : FactionState) : FactionState :=
  mkFactionState (fs_ID r) (ReputationListID r) (Standing r) (Flags r) x (needSave r).
Definition set_needSave (x : bool) (r : FactionState) : FactionState :=
  mkFactionState (fs_ID r) (ReputationListID r) (Standing r) (Flags r) (needSend r) x.

(** The reputations of a player, with his rows in the table *)
Record ReputationMgr := mkRepMgr {
  _factions : gmap Z FactionState;
  _forcedReactions : gmap Z Z;
  _visibleFactionCount : Z;
  _honoredFactionCount : Z;
  _reveredFactionCount : Z;
  _exaltedFactionCount : Z;
  _sendFactionIncreased : bool;
  m_playerLoading : bool;  (* of the session *)
  rep_rows : gmap Z (Z * Z);  (* character_reputation of the player: faction to standing and flags *)
  rep_events : list RepEvent  (* what was caused, in order *)
}.
Definition set__factions (x : gmap Z FactionState) (r : ReputationMgr) : ReputationMgr :=
  mkRepMgr x (_forcedReactions r) (_visibleFactionCount r) (_honoredFactionCount r) (_reveredFactionCount r)
    (_exaltedFactionCount r) (_sendFactionIncreased r) (m_playerLoading r) (rep_rows r) (rep_events r).
Definition set__forcedReactions (x : gmap Z Z) (r : ReputationMgr) : ReputationMgr :=
  mkRepMgr (_factions r) x (_visibleFactionCount r) (_honoredFactionCount r) (_reveredFactionCount r)
    (_exaltedFactionCount r) (_sendFactionIncreased r) (m_playerLoading r) (rep_rows r) (rep_events r).
Definition set__visibleFactionCount (x : Z) (r : ReputationMgr) : ReputationMgr :=
  mkRepMgr (_factions r) (_forcedReactions r) x (_honoredFactionCount r) (_reveredFactionCount r)
    (_exaltedFactionCount r) (_sendFactionIncreased r) (m_playerLoading r) (rep_rows r) (rep_events r).
Definition set__honoredFactionCount (x : Z) (r : ReputationMgr) : ReputationMgr :=
  mkRepMgr (_factions r) (_forcedReactions r) (_visibleFactionCount r) x (_reveredFactionCount r)
    (_exaltedFactionCount r) (_sendFactionIncreased r) (m_playerLoading r) (rep_rows r) (rep_events r).
Definition set__reveredFactionCount (x : Z) (r : ReputationMgr) : ReputationMgr :=
  mkRepMgr (_factions r) (_forcedReactions r) (_visibleFactionCount r) (_honoredFactionCount r) x
    (_exaltedFactionCount r) (_sendFactionIncreased r) (m_playerLoading r) (rep_rows r) (rep_events r).
Definition set__exaltedFactionCount (x : Z) (r : ReputationMgr) : ReputationMgr :=
  mkRepMgr (_factions r) (_forcedReactions r) (_visibleFactionCount r) (_honoredFactionCount r)
    (_reveredFactionCount r) x (_sendFactionIncreased r) (m_playerLoading r) (rep_rows r) (rep_events r).
Definition set__sendFactionIncreased (x : bool) (r : ReputationMgr) : ReputationMgr :=
  mkRepMgr (_factions r) (_forcedReactions r) (_visibleFactionCount r) (_honoredFactionCount r)
    (_reveredFactionCount r) (_exaltedFactionCount r) x (m_playerLoading r) (rep_rows r) (rep_events r).
Definition set_m_playerLoading (x : bool) (r : ReputationMgr) : ReputationMgr :=
  mkRepMgr (_factions r) (_forcedReactions r) (_visibleFactionCount r) (_honoredFactionCount r)
    (_reveredFactionCount r) (_exaltedFactionCount r) (_sendFactionIncreased r) x (rep_rows r) (rep_events r).
Definition set_rep_rows (x : gmap Z (Z * Z)) (r : ReputationMgr) : ReputationMgr :=
  mkRepMgr (_factions r) (_forcedReactions r) (_visibleFactionCount r) (_honoredFactionCount r)
    (_reveredFactionCount r) (_exaltedFactionCount r) (_sendFactionIncreased r) (m_playerLoading r) x
    (rep_events r).
Definition set_rep_events (x : list RepEvent) (r : ReputationMgr) : ReputationMgr :=
  mkRepMgr (_factions r) (_forcedReactions r) (_visibleFactionCount r) (_honoredFactionCount r)
    (_reveredFactionCount r) (_exaltedFactionCount r) (_sendFactionIncreased r) (m_playerLoading r) (rep_rows
    r) x.

(** The data files, the configuration, and the player *)
Class RepWorld := {
  FactionStore : Z -> option FactionEntry;
  FactionRows : nat;
  GetRepSpilloverTemplate : Z -> option RepSpilloverTemplate;
  RATE_REPUTATION_GAIN : f32;
  getRaceMask : Z;
  getClassMask : Z
}.

Section Reputation.
Context `{RepWorld}.

Definition rep_event (e : RepEvent) (m : ReputationMgr) : ReputationMgr := set_rep_events (rep_events m ++ [e]) m.
Definition rep_packet (opcode : RepOpcode) (data : BB unit) : RepEvent :=
  SendDirectMessage opcode (match data new_ByteBuffer with Ok (_, b) => Ok (_storage b) | Err e => Err e end).
(** A change of one state *)
Definition upd_faction (k : Z) (f : FactionState -> FactionState) (m : ReputationMgr) : ReputationMgr :=
  set__factions (alter f k (_factions m)) m.

(** [GetFactionTeamList]: the factions of a team, as DBCStores.cpp collects
    them, or NULL if there is none *)
Definition in_team (team i : Z) : bool :=
  match FactionStore i with Some f => negb (fe_team f =? 0) && (fe_team f =? team) | None => false end.
Definition team_members (team : Z) : list Z := base.filter (fun i => in_team team i = true) (Z.of_nat <$> seq 0 FactionRows).
Definition GetFactionTeamList (team : Z) : option (list Z) :=
  match team_members team with [] => None | l => Some l end.

(** ** Ranks *)

Fixpoint rank_loop (i : nat) (limit standing : Z) : Z :=
  let limit := limit - nth i PointsInRank 0 in
  if limit <=? standing then Z.of_nat i
  else match i with O => REP_HATED | S i => rank_loop i limit standing end.
Definition ReputationToRank (standing : Z) : Z := rank_loop (MAX_REPUTATION_RANK - 1) (Reputation_Cap + 1) standing.

(** The row of the arrays that is for the player's race and class *)
Definition base_row (e : FactionEntry) : option nat :=
  find (fun i =>
    let race := nth i (BaseRepRaceMask e) 0 in
    let cls := nth i (BaseRepClassMask e) 0 in
    (has_flag race getRaceMask || ((race =? 0) && negb (cls =? 0))) && (has_flag cls getClassMask || (cls =? 0)))
    (seq 0 4).
Definition GetBaseReputation (e : FactionEntry) : Z :=
  match base_row e with Some i => nth i (BaseRepValue e) 0 | None => 0 end.
Definition GetDefaultStateFlags (e : FactionEntry) : Z :=
  match base_row e with Some i => nth i (ReputationFlags e) 0 | None => 0 end.
(** [_factions.find]; [reputationListID] is converted to a uint32. *)
Definition list_key (e : FactionEntry) : Z := u32 (reputationListID e).
Definition GetState (e : FactionEntry) (m : ReputationMgr) : option FactionState :=
  if 0 <=? reputationListID e then _factions m !! list_key e else None.
Definition IsAtWar (e : FactionEntry) (m : ReputationMgr) : bool :=
  match GetState e m with Some f => has_flag (Flags f) FACTION_FLAG_AT_WAR | None => false end.
Definition GetReputation (e : FactionEntry) (m : ReputationMgr) : Z :=
  match GetState e m with Some f => s32 (GetBaseReputation e + Standing f) | None => 0 end.
Definition GetRank (e : FactionEntry) (m : ReputationMgr) : Z := ReputationToRank (GetReputation e m).
Definition GetBaseRank (e : FactionEntry) : Z := ReputationToRank (GetBaseReputation e).
(** [Player::GetReputationRank]: a faction that does not exist has 0. *)
Definition GetReputationRank (faction : Z) (m : ReputationMgr) : Z :=
  match FactionStore faction with Some e => GetRank e m | None => ReputationToRank 0 end.

Definition ApplyForceReaction (faction_id rank : Z) (apply : bool) (m : ReputationMgr) : ReputationMgr :=
  set__forcedReactions (if apply then <[faction_id := rank]> (_forcedReactions m) else delete faction_id (_forcedReactions m)) m.

(** ** Packets *)

Fixpoint put_pairs (l : list (Z * Z)) : BB unit :=
  match l with
  | [] => mret tt
  | (x, y) :: l => append_T 4 (u32 x);; append_T 4 (u32 y);; put_pairs l
  end.
Definition SendForceReactions (m : ReputationMgr) : ReputationMgr :=
  rep_event (rep_packet SMSG_SET_FORCED_REACTIONS
    (WriteBits (Z.of_nat (base.size (_forcedReactions m))) 6;; FlushBits;; put_pairs (map_ordered (_forcedReactions m)))) m.

(** The other states that wait to be sent *)
Definition waiting (k : Z) (m : ReputationMgr) : list (Z * Z) :=
  (fun x => (ReputationListID x.2, Standing x.2)) <$>
    base.filter (fun x => needSend x.2 = true /\ ReputationListID x.2 <> k) (map_ordered (_factions m)).
Definition state_packet (increased : bool) (k standing : Z) (others : list (Z * Z)) : BB unit :=
  b ← st_get;
  let countPos := Z.to_nat (bitwpos b) in
  WriteBit (if increased then 1 else 0);;
  WriteBits 1 21;;
  FlushBits;;
  append_T 4 (u32 standing);;
  append_T 4 k;;
  put_pairs others;;
  append_T 4 0;; append_T 4 0;;
  PutBits countPos (1 + Z.of_nat (length others)) 21.
Definition SendState (k : Z) (m : ReputationMgr) : ReputationMgr :=
  match _factions m !! k with
  | None => m
  | Some f =>
      let packet := rep_packet SMSG_SET_FACTION_STANDING
        (state_packet (_sendFactionIncreased m) (ReputationListID f) (Standing f) (waiting (ReputationListID f) m)) in
      let m := set__sendFactionIncreased false m in
      let m := set__factions (set_needSend false <$> _factions m) m in
      rep_event packet m
  end.
Definition SendStates (m : ReputationMgr) : ReputationMgr :=
  foldl (fun m k => SendState k m) m (map_ordered (_factions m)).*1.

(** The bytes and the bits of [SendInitialReputations]; [a] counts the places. *)
Fixpoint put_absent (n : nat) : BB unit :=
  match n with O => mret tt | S n => append_T 1 0;; append_T 4 0;; put_absent n end.
Fixpoint bit_absent (n : nat) : BB unit :=
  match n with O => mret tt | S n => WriteBit 0;; bit_absent n end.
Fixpoint put_initial (a : Z) (l : list (Z * FactionState)) : BB unit :=
  match l with
  | [] => put_absent (Z.to_nat (u32 (256 - a)))
  | (k, f) :: l =>
      put_absent (Z.to_nat (u32 (k - a)));; append_T 1 (Flags f);; append_T 4 (u32 (Standing f));; put_initial (u32 (k + 1)) l
  end.
Fixpoint bit_initial (a : Z) (l : list (Z * FactionState)) : BB unit :=
  match l with
  | [] => bit_absent (Z.to_nat (u32 (256 - a)))
  | (k, f) :: l => bit_absent (Z.to_nat (u32 (k - a)));; WriteBit 0;; bit_initial (u32 (k + 1)) l
  end.
(** [data.append(bitData)] *)
Definition append_bits (l : list (Z * FactionState)) : BB unit := fun b =>
  match (bit_initial 0 l;; FlushBits) new_ByteBuffer with
  | Ok (_, bitData) => append (_storage bitData) b
  | Err e => Err e
  end.
Definition initial_packet (l : list (Z * FactionState)) : BB unit := put_initial 0 l;; append_bits l.
Definition SendInitialReputations (m : ReputationMgr) : ReputationMgr :=
  rep_event (rep_packet SMSG_INITIALIZE_FACTIONS (initial_packet (map_ordered (_factions m)))) (set__factions (set_needSend false <$> _factions m) m).

Definition SendVisible (k : Z) (m : ReputationMgr) : ReputationMgr :=
  if m_playerLoading m then m else rep_event (rep_packet SMSG_SET_FACTION_VISIBLE (append_T 4 k)) m.

(** ** Flags *)

Definition to_save (f : FactionState) : FactionState := set_needSave true (set_needSend true f).
Definition SetVisible_state (k : Z) (m : ReputationMgr) : ReputationMgr :=
  match _factions m !! k with
  | None => m
  | Some f =>
      if has_flag (Flags f) (Z.lor FACTION_FLAG_INVISIBLE_FORCED FACTION_FLAG_HIDDEN) && negb (has_flag (Flags f) FACTION_FLAG_SPECIAL)
      then m
      else if has_flag (Flags f) FACTION_FLAG_VISIBLE then m
      else
        let m := upd_faction k (fun f => to_save (set_Flags (add_flag (Flags f) FACTION_FLAG_VISIBLE) f)) m in
        SendVisible (ReputationListID f) (set__visibleFactionCount (u8 (_visibleFactionCount m + 1)) m)
  end.
Definition SetVisible (e : FactionEntry) (m : ReputationMgr) : ReputationMgr :=
  if reputationListID e <? 0 then m else SetVisible_state (list_key e) m.
(** [SetVisible(FactionTemplateEntry)]: [faction] is the member of the template. *)
Definition SetVisible_template (faction : Z) (m : ReputationMgr) : ReputationMgr :=
  if faction =? 0 then m
  else match FactionStore faction with
       | Some e =>
           if has_flag (nth 1 (BaseRepRaceMask e) 0) getRaceMask && (nth 1 (BaseRepValue e) 0 =? Reputation_Bottom) then m
           else SetVisible e m
       | None => m
       end.

Definition at_war (f : FactionState) (atWar : bool) : FactionState :=
  if atWar && has_flag (Flags f) FACTION_FLAG_PEACE_FORCED then f
  else if eqb (has_flag (Flags f) FACTION_FLAG_AT_WAR) atWar then f
  else to_save (set_Flags ((if atWar then add_flag else remove_flag) (Flags f) FACTION_FLAG_AT_WAR) f).
Definition SetAtWar_state (k : Z) (atWar : bool) (m : ReputationMgr) : ReputationMgr := upd_faction k (fun f => at_war f atWar) m.
Definition client_at_war (k : Z) (atWar : bool) (m : ReputationMgr) : ReputationMgr :=
  match _factions m !! k with
  | None => m
  | Some f =>
      if has_flag (Flags f) (Z.lor FACTION_FLAG_INVISIBLE_FORCED FACTION_FLAG_HIDDEN) then m else SetAtWar_state k atWar m
  end.
Definition SetAtWar (k : Z) (m : ReputationMgr) : ReputationMgr := client_at_war k true m.
Definition SetNotAtWar (k : Z) (m : ReputationMgr) : ReputationMgr := client_at_war k false m.

Definition made_inactive (f : FactionState) (inactive : bool) : FactionState :=
  if inactive && (has_flag (Flags f) (Z.lor FACTION_FLAG_INVISIBLE_FORCED FACTION_FLAG_HIDDEN)
                  || negb (has_flag (Flags f) FACTION_FLAG_VISIBLE)) then f
  else if eqb (has_flag (Flags f) FACTION_FLAG_INACTIVE) inactive then f
  else to_save (set_Flags ((if inactive then add_flag else remove_flag) (Flags f) FACTION_FLAG_INACTIVE) f).
Definition SetInactive (k : Z) (inactive : bool) (m : ReputationMgr) : ReputationMgr :=
  upd_faction k (fun f => made_inactive f inactive) m.

(** ** Standings *)

Definition in_rank (rank floor : Z) : Z := if floor <=? rank then 1 else 0.
Definition UpdateRankCounters (old_rank new_rank : Z) (m : ReputationMgr) : ReputationMgr :=
  let count := fun floor c => u8 (u8 (c - in_rank old_rank floor) + in_rank new_rank floor) in
  set__exaltedFactionCount (count REP_EXALTED (_exaltedFactionCount m))
    (set__reveredFactionCount (count REP_REVERED (_reveredFactionCount m))
      (set__honoredFactionCount (count REP_HONORED (_honoredFactionCount m)) m)).

Definition clamp (standing : Z) : Z :=
  if Reputation_Cap <? standing then Reputation_Cap
  else if standing <? Reputation_Bottom then Reputation_Bottom else standing.
(** What an increment becomes by the rate *)
Definition gained (standing : Z) : Z :=
  f32_floor_s32 (f32_add (f32_mul (f32_of_Z standing) RATE_REPUTATION_GAIN) (f32_div (f32_of_Z 1) (f32_of_Z 2))).
Definition criteria (id : Z) : list RepEvent :=
  [ReputationChanged id; UpdateAchievementCriteria KNOWN_FACTIONS id; UpdateAchievementCriteria GAIN_REPUTATION id;
   UpdateAchievementCriteria GAIN_EXALTED_REPUTATION id; UpdateAchievementCriteria GAIN_REVERED_REPUTATION id;
   UpdateAchievementCriteria GAIN_HONORED_REPUTATION id].
Definition SetOneFactionReputation (e : FactionEntry) (standing : Z) (incremental : bool) (m : ReputationMgr) : bool * ReputationMgr :=
  let k := list_key e in
  match _factions m !! k with
  | None => (false, m)
  | Some f =>
      let BaseRep := GetBaseReputation e in
      let standing := clamp (if incremental then s32 (gained standing + s32 (Standing f + BaseRep)) else standing) in
      let old_rank := ReputationToRank (s32 (Standing f + BaseRep)) in
      let new_rank := ReputationToRank standing in
      let m := upd_faction k (fun f => to_save (set_Standing (s32 (standing - BaseRep)) f)) m in
      let m := SetVisible_state k m in
      let m := if new_rank <=? REP_HOSTILE then SetAtWar_state k true m else m in
      let m := if old_rank <? new_rank then set__sendFactionIncreased true m else m in
      let m := UpdateRankCounters old_rank new_rank m in
      (true, set_rep_events (rep_events m ++ criteria (fe_ID e)) m)
  end.

(** The spillover of a template: None is an entry that does not exist, which is
    dereferenced. *)
Definition spill_one (standing : Z) (incremental : bool) (m : option ReputationMgr) (x : Z * f32 * Z) : option ReputationMgr :=
  let '(faction, rate, rank) := x in
  m ← m;
  if faction =? 0 then Some m
  else if GetReputationRank faction m <=? rank then
    e ← FactionStore faction;
    Some (SetOneFactionReputation e (f32_to_s32 (f32_mul (f32_of_Z standing) rate)) incremental m).2
  else Some m.
Definition spill_template (standing : Z) (incremental : bool) (t : RepSpilloverTemplate) (m : ReputationMgr) : option ReputationMgr :=
  foldl (spill_one standing incremental) (Some m) (take MAX_SPILLOVER_FACTIONS (spillovers t)).

(** The spillover to the factions of a team *)
Definition spill_to (e : FactionEntry) (out : f32) (incremental : bool) (m : ReputationMgr) (i : Z) : ReputationMgr :=
  match FactionStore i with
  | None => m
  | Some f =>
      if (fe_ID f =? fe_ID e) || (spilloverMaxRankIn f <? GetRank f m) then m
      else
        let spilloverRep := f32_to_s32 (f32_mul out (spilloverRateIn f)) in
        if negb (spilloverRep =? 0) || negb incremental then (SetOneFactionReputation f spilloverRep incremental m).2 else m
  end.
Definition spill_team (e : FactionEntry) (standing : Z) (incremental : bool) (m : ReputationMgr) : ReputationMgr :=
  let out := f32_of_Z standing in
  let all := fun l out m => foldl (spill_to e out incremental) m l in
  match GetFactionTeamList (fe_ID e) with
  | Some l => all l out m
  | None =>
      if negb (fe_team e =? 0) && negb (f32_eqb (spilloverRateOut e) (S754_zero false)) then
        let out := f32_mul out (spilloverRateOut e) in
        match FactionStore (fe_team e) with
        | None => m
        | Some parent =>
            match _factions m !! list_key parent with
            | Some f =>
                if has_flag (Flags f) FACTION_FLAG_SPECIAL
                then (SetOneFactionReputation parent (f32_to_s32 out) incremental m).2
                else all (default [] (GetFactionTeamList (fe_team e))) out m
            | None => all (default [] (GetFactionTeamList (fe_team e))) out m
            end
        end
      else m
  end.

(** The result, which no caller uses, is left out. *)
Definition SetReputation (e : FactionEntry) (standing : Z) (incremental : bool) (m : ReputationMgr) : option ReputationMgr :=
  let m := rep_event (OnPlayerReputationChange (fe_ID e) standing incremental) m in
  m ← match GetRepSpilloverTemplate (fe_ID e) with
      | Some t => spill_template standing incremental t m
      | None => Some (spill_team e standing incremental m)
      end;
  match _factions m !! list_key e with
  | Some _ => Some (SendState (list_key e) (SetOneFactionReputation e standing incremental m).2)
  | None => Some m
  end.
Definition ModifyReputation (e : FactionEntry) (standing : Z) (m : ReputationMgr) : option ReputationMgr := SetReputation e standing true m.

(** ** Loading and saving *)

Definition new_state (e : FactionEntry) : FactionState :=
  mkFactionState (fe_ID e) (list_key e) 0 (u8 (GetDefaultStateFlags e)) true true.
Definition init_faction (m : ReputationMgr) (i : Z) : ReputationMgr :=
  match FactionStore i with
  | Some e =>
      if 0 <=? reputationListID e then
        let f := new_state e in
        let m := if has_flag (Flags f) FACTION_FLAG_VISIBLE then set__visibleFactionCount (u8 (_visibleFactionCount m + 1)) m else m in
        let m := UpdateRankCounters REP_HOSTILE (GetBaseRank e) m in
        set__factions (<[list_key e := f]> (_factions m)) m
      else m
  | None => m
  end.
Definition Initialize (m : ReputationMgr) : ReputationMgr :=
  let m := set__factions ∅ (set__visibleFactionCount 0 (set__honoredFactionCount 0 (set__reveredFactionCount 0
             (set__exaltedFactionCount 0 (set__sendFactionIncreased false m))))) in
  foldl init_faction m (Z.of_nat <$> seq 1 (FactionRows - 1)).

(** A row of an entry that is in the list.  [Initialize] has made a state for it. *)
Definition load_entry (e : FactionEntry) (standing dbFactionFlags : Z) (m : ReputationMgr) : ReputationMgr :=
  let k := list_key e in
  let m := upd_faction k (set_Standing standing) m in
  let BaseRep := GetBaseReputation e in
  let m := UpdateRankCounters (ReputationToRank BaseRep) (ReputationToRank (s32 (BaseRep + standing))) m in
  let m := if has_flag dbFactionFlags FACTION_FLAG_VISIBLE then SetVisible_state k m else m in
  let m := if has_flag dbFactionFlags FACTION_FLAG_INACTIVE then SetInactive k true m else m in
  let m :=
    if has_flag dbFactionFlags FACTION_FLAG_AT_WAR then SetAtWar_state k true m
    else upd_faction k (fun f => if has_flag (Flags f) FACTION_FLAG_VISIBLE then at_war f false else f) m in
  let m := if GetRank e m <=? REP_HOSTILE then SetAtWar_state k true m else m in
  upd_faction k (fun f => if Flags f =? dbFactionFlags then set_needSave false (set_needSend false f) else f) m.
(** A row: faction, standing and flags *)
Definition load_row (m : ReputationMgr) (row : Z * (Z * Z)) : ReputationMgr :=
  let '(faction, (standing, db_flags)) := row in
  match FactionStore (u16 faction) with
  | Some e => if 0 <=? reputationListID e then load_entry e standing (u16 db_flags) m else m
  | None => m
  end.
Definition LoadFromDB (m : ReputationMgr) : ReputationMgr := foldl load_row (Initialize m) (map_to_list (rep_rows m)).

Definition save_row (m : ReputationMgr) (x : Z * FactionState) : ReputationMgr :=
  if needSave x.2 then
    upd_faction x.1 (set_needSave false)
      (set_rep_rows (<[u16 (fs_ID x.2) := (Standing x.2, u16 (Flags x.2))]> (rep_rows m)) m)
  else m.
Definition SaveToDB (m : ReputationMgr) : ReputationMgr := foldl save_row m (map_ordered (_factions m)).

(** ** Requests and calls *)

Definition HandleSetFactionAtWar (FactionIndexID : Z) : ReputationMgr -> ReputationMgr := SetAtWar (u8 FactionIndexID).
Definition HandleSetFactionNotAtWar (FactionIndexID : Z) : ReputationMgr -> ReputationMgr := SetNotAtWar (u8 FactionIndexID).
Definition HandleSetFactionInactiveOpcode (FactionIndex Status : Z) : ReputationMgr -> ReputationMgr :=
  SetInactive (u32 FactionIndex) (negb (u8 Status =? 0)).
Definition HandleSetFactionCheat : ReputationMgr -> ReputationMgr := SendStates.

(** The constructor *)
Definition new_ReputationMgr (rows : gmap Z (Z * Z)) : ReputationMgr := mkRepMgr ∅ ∅ 0 0 0 0 false true rows [].

End Reputation.
