(* ===== verification/ReputationRules.v ===== *)
(** * What factions think

    ReputationMgr.cpp keeps standings within their bounds and counts ranks
    rightly, whatever is asked of it, and what it saves it loads again. *)
From S2P Require Import Prelude.
From S2P Require Import Lists.
From S2P Require Import ByteBuffer.
From S2P Require Import Float.
From S2P Require Import Reputation.
From Stdlib Require Import SpecFloat.
Local Open Scope Z_scope.

(** ** Ranks *)

(** The least standing of a rank *)
Definition rank_floor (rank : Z) : Z :=
  nth (Z.to_nat rank) [-42000; -6000; -3000; 0; 3000; 9000; 21000; 42000] 0.

Lemma rank_floor_mono r r' : 1 <= r <= r' -> r' <= 7 -> rank_floor r <= rank_floor r'.
Proof.
  intros Hr Hr'.
  assert (forall z, 1 <= z <= 7 -> z = 1 \/ z = 2 \/ z = 3 \/ z = 4 \/ z = 5 \/ z = 6 \/ z = 7) as Hcases by lia.
  destruct (Hcases r) as [->|[->|[->|[->|[->|[->| ->]]]]]], (Hcases r') as [->|[->|[->|[->|[->|[->| ->]]]]]];
    try lia; by vm_compute.
Qed.

(** The rank of a standing is the highest one whose floor it reaches: a standing
    has rank [r] or a higher one exactly when it is at least the floor of [r]. *)
Theorem ReputationToRank_spec standing :
  0 <= ReputationToRank standing <= 7 /\
  forall r, 1 <= r <= 7 -> (r <= ReputationToRank standing <-> rank_floor r <= standing).
Proof.
  unfold ReputationToRank. cbn [Nat.sub MAX_REPUTATION_RANK].
  assert (forall i limit s, (i <= 7)%nat -> limit = nth (S i) [-42000; -6000; -3000; 0; 3000; 9000; 21000; 42000; 43000] 0 ->
    0 <= rank_loop i limit s <= Z.of_nat i /\
    forall r, 1 <= r <= Z.of_nat i -> (r <= rank_loop i limit s <-> rank_floor r <= s)) as Hgen.
  { clear standing. induction i as [|i IH]; intros limit s Hi ->.
    - cbn [rank_loop]. split; [case_match; unfold REP_HATED; lia|lia].
    - cbn [rank_loop]. set (limit := _ - _).
      assert (limit = nth (S i) [-42000; -6000; -3000; 0; 3000; 9000; 21000; 42000; 43000] 0 /\ limit = rank_floor (Z.of_nat (S i)))
        as [Hlim Hfl] by (unfold limit, rank_floor; rewrite Nat2Z.id; by do 7 (destruct i as [|i]; [done|]); lia).
      destruct (IH limit s ltac:(lia) Hlim) as [Hb Hr]. destruct (Z.leb_spec limit s) as [Hle|Hgt].
      + split; [lia|]. intros r Hrr. split; [|lia]. intros _.
        destruct (decide (r = Z.of_nat (S i))) as [->|]; [lia|].
        assert (rank_floor r <= limit); [|lia]. rewrite Hfl. apply rank_floor_mono; lia.
      + split; [lia|]. intros r Hrr. destruct (decide (r = Z.of_nat (S i))) as [->|]; [rewrite <- Hfl; lia|]. apply Hr. lia. }
  destruct (Hgen 7%nat (Reputation_Cap + 1) standing) as [Hb Hr]; [lia|done|]. split; [lia|]. intros r Hrr. apply Hr. lia.
Qed.

Lemma rank_bounds standing : 0 <= ReputationToRank standing <= 7.
Proof. assert (forall i l s, 0 <= rank_loop i l s <= Z.of_nat i) as Hg; [|apply (Hg 7%nat)].
  induction i as [|i IH]; intros l s; cbn [rank_loop]; case_match; unfold REP_HATED; try lia. pose proof (IH (l - nth (S i) PointsInRank 0) s). lia.
Qed.

Lemma clamp_bounds x : Reputation_Bottom <= clamp x <= Reputation_Cap.
Proof. unfold clamp, Reputation_Bottom, Reputation_Cap. repeat case_match; lia. Qed.
Lemma clamp_small x : Reputation_Bottom <= x <= Reputation_Cap -> clamp x = x.
Proof. unfold clamp. intros Hx. destruct (Z.ltb_spec Reputation_Cap x), (Z.ltb_spec x Reputation_Bottom); lia. Qed.

(** ** Flags *)

Lemma has_VISIBLE f : has_flag f FACTION_FLAG_VISIBLE = Z.testbit f 0.
Proof. exact (has_flag_pow2 f 0 ltac:(lia)). Qed.
Lemma has_AT_WAR f : has_flag f FACTION_FLAG_AT_WAR = Z.testbit f 1.
Proof. exact (has_flag_pow2 f 1 ltac:(lia)). Qed.
Lemma has_PEACE f : has_flag f FACTION_FLAG_PEACE_FORCED = Z.testbit f 4.
Proof. exact (has_flag_pow2 f 4 ltac:(lia)). Qed.
Lemma has_INACTIVE f : has_flag f FACTION_FLAG_INACTIVE = Z.testbit f 5.
Proof. exact (has_flag_pow2 f 5 ltac:(lia)). Qed.
Lemma has_SPECIAL f : has_flag f FACTION_FLAG_SPECIAL = Z.testbit f 7.
Proof. exact (has_flag_pow2 f 7 ltac:(lia)). Qed.
Lemma has_hidden f : has_flag f (Z.lor FACTION_FLAG_INVISIBLE_FORCED FACTION_FLAG_HIDDEN) = Z.testbit f 3 || Z.testbit f 2.
Proof. rewrite has_flag_lor. f_equal; [exact (has_flag_pow2 f 3 ltac:(lia))|exact (has_flag_pow2 f 2 ltac:(lia))]. Qed.
Definition rep_flags := (has_VISIBLE, has_AT_WAR, has_PEACE, has_INACTIVE, has_SPECIAL, has_hidden).

Lemma testbit_mask n i : 0 <= n -> 0 <= i -> Z.testbit (2 ^ n) i = bool_decide (i = n).
Proof.
  intros Hn Hi. rewrite Z.pow2_bits_eqb by done. destruct (Z.eqb_spec n i) as [->|]; [by rewrite bool_decide_true|].
  by rewrite bool_decide_false by congruence.
Qed.

(** The flags of a faction against those it starts with: only three of them
    change, a hidden faction is never shown, an own one never fought. *)
Definition hidden (d : Z) : bool := Z.testbit d 3 || Z.testbit d 2.
Record flags_ok (d f : Z) : Prop := {
  fl_nonneg : 0 <= f;
  fl_same : forall i, 0 <= i -> i <> 0 -> i <> 1 -> i <> 5 -> Z.testbit f i = Z.testbit d i;
  fl_stays : Z.testbit d 0 = true -> Z.testbit f 0 = true;
  fl_shown : Z.testbit f 0 = true -> Z.testbit d 0 = true \/ hidden d = false \/ Z.testbit d 7 = true;
  fl_war : Z.testbit f 1 = true -> Z.testbit d 1 = true \/ Z.testbit d 4 = false;
  fl_inactive : Z.testbit f 5 = true -> Z.testbit d 5 = true \/ (hidden d = false /\ Z.testbit f 0 = true)
}.

Lemma flags_ok_refl d : 0 <= d -> flags_ok d d.
Proof. intros Hd. constructor; auto. Qed.
Lemma flags_hidden d f : flags_ok d f -> hidden f = hidden d.
Proof. intros Hf. unfold hidden. by rewrite !(fl_same _ _ Hf) by lia. Qed.

Lemma flags_byte d f : is_byte d -> flags_ok d f -> is_byte f.
Proof.
  intros [Hd0 Hd] Hf. split; [apply Hf|].
  destruct (decide (f = 0)) as [->|]; [lia|]. pose proof (fl_nonneg _ _ Hf). change 256 with (2 ^ 8).
  apply Z.log2_lt_pow2; [lia|]. destruct (Z.lt_ge_cases (Z.log2 f) 8) as [|Hge]; [done|].
  pose proof (Z.bit_log2 f ltac:(lia)) as Hb. rewrite (fl_same _ _ Hf) in Hb by lia.
  destruct (decide (d = 0)) as [->|]; [by rewrite Z.bits_0 in Hb|].
  assert (Z.log2 d < 8) by (apply Z.log2_lt_pow2; lia). rewrite Z.bits_above_log2 in Hb by lia. done.
Qed.

Lemma testbit_add f n i : 0 <= n -> 0 <= i -> Z.testbit (add_flag f (2 ^ n)) i = Z.testbit f i || bool_decide (i = n).
Proof. intros. by rewrite testbit_add_flag, testbit_mask. Qed.
Lemma testbit_remove f n i : 0 <= n -> 0 <= i -> Z.testbit (remove_flag f (2 ^ n)) i = Z.testbit f i && negb (bool_decide (i = n)).
Proof. intros. by rewrite testbit_remove_flag, testbit_mask. Qed.

Lemma add_nonneg f n : 0 <= f -> 0 <= n -> 0 <= add_flag f (2 ^ n).
Proof. intros. apply Z.lor_nonneg. split; [done|]. apply Z.pow_nonneg. lia. Qed.
Lemma remove_nonneg f n : 0 <= f -> 0 <= remove_flag f n.
Proof. intros. apply Z.ldiff_nonneg. auto. Qed.

Ltac bits := rewrite ?testbit_add, ?testbit_remove in * by lia; repeat (rewrite bool_decide_true in * by lia); repeat (rewrite bool_decide_false in * by lia);
  rewrite ?orb_true_r, ?orb_false_r, ?andb_true_r, ?andb_false_r in *.

Lemma flags_visible d f : flags_ok d f -> hidden f = false \/ Z.testbit f 7 = true -> flags_ok d (add_flag f FACTION_FLAG_VISIBLE).
Proof.
  intros Hf Hs. change FACTION_FLAG_VISIBLE with (2 ^ 0). rewrite (flags_hidden d f Hf) in Hs. rewrite (fl_same _ _ Hf) in Hs by lia.
  constructor; [apply add_nonneg; [apply Hf|lia]|..]; intros; bits; try done; try (by apply Hf); auto.
  destruct (fl_inactive _ _ Hf) as [|[? ?]]; auto.
Qed.
Lemma flags_at_war d f (w : bool) : flags_ok d f -> w && has_flag f FACTION_FLAG_PEACE_FORCED = false ->
  flags_ok d ((if w then add_flag else remove_flag) f FACTION_FLAG_AT_WAR).
Proof.
  intros Hf Hp. rewrite has_PEACE, (fl_same _ _ Hf) in Hp by lia. change FACTION_FLAG_AT_WAR with (2 ^ 1).
  destruct w; (constructor; [first [apply add_nonneg|apply remove_nonneg]; try lia; apply Hf|..]; intros; bits; try done; try (by apply Hf); auto).
  all: destruct (fl_inactive _ _ Hf) as [|[? ?]]; auto.
Qed.
Lemma flags_made_inactive d f (w : bool) : flags_ok d f ->
  w && (has_flag f (Z.lor FACTION_FLAG_INVISIBLE_FORCED FACTION_FLAG_HIDDEN) || negb (has_flag f FACTION_FLAG_VISIBLE)) = false ->
  flags_ok d ((if w then add_flag else remove_flag) f FACTION_FLAG_INACTIVE).
Proof.
  intros Hf Hp. rewrite has_hidden, has_VISIBLE in Hp. fold (hidden f) in Hp. rewrite (flags_hidden d f Hf) in Hp.
  change FACTION_FLAG_INACTIVE with (2 ^ 5).
  destruct w; cbn [andb] in Hp; (constructor; [first [apply add_nonneg|apply remove_nonneg]; try lia; apply Hf|..]; intros; bits; try done; try (by apply Hf); auto).
  apply orb_false_iff in Hp as [Hp Hv%negb_false_iff]. auto.
Qed.

(** ** The invariant *)

Section Rules.
Context `{RepWorld}.

(** What the data files hold: entries are found by their numbers, no two share a
    place in the list, and standings start within the bounds. *)
Record store_ok : Prop := {
  so_id : forall i e, FactionStore i = Some e -> fe_ID e = i /\ 1 <= i < Z.of_nat FactionRows;
  so_rows : Z.of_nat FactionRows <= 2 ^ 16;
  so_list : forall i j e e', FactionStore i = Some e -> FactionStore j = Some e' ->
    0 <= reputationListID e -> reputationListID e = reputationListID e' -> i = j;
  so_places : forall i e, FactionStore i = Some e -> -1 <= reputationListID e < 256;
  so_base : forall i e, FactionStore i = Some e -> Reputation_Bottom <= GetBaseReputation e <= Reputation_Cap;
  so_spill : forall i t, GetRepSpilloverTemplate i = Some t ->
    Forall (fun x => x.1.1 <> 0 -> is_Some (FactionStore x.1.1)) (spillovers t)
}.
Hypothesis Hstore : store_ok.

Definition base_of (f : FactionState) : Z := match FactionStore (fs_ID f) with Some e => GetBaseReputation e | None => 0 end.
Definition rank_of (f : FactionState) : Z := ReputationToRank (base_of f + Standing f).
Definition defaults (e : FactionEntry) : Z := u8 (GetDefaultStateFlags e).

(** A state belongs to its entry. *)
Record faction_ok (k : Z) (f : FactionState) : Prop := {
  fo_entry : exists e, FactionStore (fs_ID f) = Some e /\ 0 <= reputationListID e /\ k = list_key e /\ flags_ok (defaults e) (Flags f);
  fo_key : ReputationListID f = k;
  fo_standing : Reputation_Bottom <= base_of f + Standing f <= Reputation_Cap
}.
Definition count_rank (floor : Z) (l : gmap Z FactionState) : Z := map_sum (fun f => in_rank (rank_of f) floor) l.
Definition count_visible (l : gmap Z FactionState) : Z := map_sum (fun f => if has_flag (Flags f) FACTION_FLAG_VISIBLE then 1 else 0) l.
Record counters_ok (m : ReputationMgr) : Prop := {
  co_visible : _visibleFactionCount m = u8 (count_visible (_factions m));
  co_honored : _honoredFactionCount m = u8 (count_rank REP_HONORED (_factions m));
  co_revered : _reveredFactionCount m = u8 (count_rank REP_REVERED (_factions m));
  co_exalted : _exaltedFactionCount m = u8 (count_rank REP_EXALTED (_factions m))
}.
(** The rows the table may have for a player *)
Definition row_fits (faction : Z) (row : Z * Z) : Prop :=
  0 <= faction < 2 ^ 16 /\ 0 <= row.2 < 2 ^ 16 /\
  forall e, FactionStore faction = Some e -> Reputation_Bottom <= GetBaseReputation e + row.1 <= Reputation_Cap.
(** What need not be saved is in the table. *)
Definition saved (m : ReputationMgr) : Prop :=
  forall k f, _factions m !! k = Some f -> needSave f = false -> rep_rows m !! fs_ID f = Some (Standing f, Flags f).
Record rep_ok (m : ReputationMgr) : Prop := {
  ro_factions : map_Forall faction_ok (_factions m);
  ro_all : forall i e, FactionStore i = Some e -> 0 <= reputationListID e -> is_Some (_factions m !! list_key e);
  ro_counters : counters_ok m;
  ro_rows : map_Forall row_fits (rep_rows m);
  ro_saved : saved m
}.

Lemma list_key_small i e : FactionStore i = Some e -> 0 <= reputationListID e -> list_key e = reputationListID e.
Proof. intros He Hl. destruct (so_places Hstore _ _ He). unfold list_key, u32. apply Z.mod_small. lia. Qed.

(** The state of an entry is the one with its number. *)
Lemma faction_entry m i e f : rep_ok m -> FactionStore i = Some e -> _factions m !! list_key e = Some f -> 0 <= reputationListID e ->
  fs_ID f = i /\ base_of f = GetBaseReputation e /\ flags_ok (defaults e) (Flags f).
Proof.
  intros Hm He Hf Hl. destruct (ro_factions m Hm _ _ Hf) as [(e' & He' & Hl' & Hk & Hfl) _ _].
  rewrite (list_key_small _ _ He Hl), (list_key_small _ _ He' Hl') in Hk.
  assert (fs_ID f = i) as Hid by (by apply (so_list Hstore _ _ _ _ He' He)). rewrite Hid, He in He'. injection He' as <-.
  unfold base_of. by rewrite Hid, He.
Qed.

(** An entry without a place in the list has no state. *)
Lemma no_place m i e : rep_ok m -> FactionStore i = Some e -> reputationListID e < 0 -> _factions m !! list_key e = None.
Proof.
  intros Hm He Hl. destruct (_factions m !! list_key e) as [f|] eqn:Hf; [|done].
  destruct (ro_factions m Hm _ _ Hf) as [(e' & He' & Hl' & Hk & _) _ _]. rewrite (list_key_small _ _ He' Hl') in Hk.
  pose proof (so_places Hstore _ _ He). pose proof (so_places Hstore _ _ He'). assert (reputationListID e = -1) as Hm1 by lia.
  unfold list_key in Hk. rewrite Hm1 in Hk. change (u32 (-1)) with 4294967295 in Hk. lia.
Qed.

(** Operations that leave the states, the counters and the rows alone *)
Definition same_state (m m' : ReputationMgr) : Prop :=
  _factions m' = _factions m /\ rep_rows m' = rep_rows m /\
  (_visibleFactionCount m', _honoredFactionCount m', _reveredFactionCount m', _exaltedFactionCount m') =
  (_visibleFactionCount m, _honoredFactionCount m, _reveredFactionCount m, _exaltedFactionCount m).
Lemma rep_ok_same m m' : same_state m m' -> rep_ok m -> rep_ok m'.
Proof.
  intros (Hf & Hr & [= Hv Hh Hre He]) [? ? [? ? ? ?] ? Hs]. constructor; [by rewrite Hf|by rewrite Hf| |by rewrite Hr|].
  - by constructor; rewrite ?Hf, ?Hv, ?Hh, ?Hre, ?He.
  - unfold saved. by rewrite Hf, Hr.
Qed.

(** A state that changes and keeps its number and its standing *)
Record milder (f f' : FactionState) : Prop := {
  mi_id : fs_ID f' = fs_ID f;
  mi_key : ReputationListID f' = ReputationListID f;
  mi_standing : Standing f' = Standing f;
  mi_flags : forall d, flags_ok d (Flags f) -> flags_ok d (Flags f');
  mi_saved : needSave f' = false -> needSave f = false /\ Flags f' = Flags f
}.
Lemma milder_base f f' : milder f f' -> base_of f' = base_of f /\ rank_of f' = rank_of f.
Proof. intros Hm. unfold rank_of, base_of. by rewrite (mi_id _ _ Hm), (mi_standing _ _ Hm). Qed.
Lemma milder_ok k f f' : milder f f' -> faction_ok k f -> faction_ok k f'.
Proof.
  intros Hm [(e & He & Hl & Hk & Hfl) Hkey Hs]. destruct (milder_base _ _ Hm) as [Hb _]. constructor.
  - exists e. rewrite (mi_id _ _ Hm). split_and!; try done. by apply Hm.
  - by rewrite (mi_key _ _ Hm).
  - by rewrite Hb, (mi_standing _ _ Hm).
Qed.

Lemma upd_milder k g m v : rep_ok m -> (forall f, _factions m !! k = Some f -> milder f (g f)) ->
  u8 (count_visible (_factions (upd_faction k g m))) = v -> rep_ok (set__visibleFactionCount v (upd_faction k g m)).
Proof.
  intros Hm Hg Hv. destruct Hm as [Hf Hall [Hcv Hch Hcr Hce] Hr Hs].
  assert (forall floor, count_rank floor (alter g k (_factions m)) = count_rank floor (_factions m)) as Hcount.
  { intros floor. unfold count_rank. destruct (_factions m !! k) as [f|] eqn:Hk.
    - rewrite (map_sum_alter _ _ _ f) by done. destruct (milder_base _ _ (Hg f eq_refl)) as [_ ->]. lia.
    - by rewrite alter_id by congruence. }
  constructor; cbn.
  - intros k' f'. rewrite lookup_alter_Some. intros [[<- (f & Hk & ->)]|[_ Hk]]; [|by apply Hf].
    apply (milder_ok _ f); [by apply Hg|by apply Hf].
  - intros i e He Hl. destruct (Hall i e He Hl) as [f Hk]. destruct (decide (k = list_key e)) as [->|].
    + rewrite lookup_alter_eq, Hk. by eexists.
    + rewrite lookup_alter_ne by done. by eexists.
  - constructor; cbn; [done|by rewrite Hcount..].
  - done.
  - intros k' f'. cbn. rewrite lookup_alter_Some. intros [[<- (f & Hk & ->)]|[_ Hk]]; [|exact (Hs _ _ Hk)].
    intros Hn. destruct (mi_saved _ _ (Hg f Hk) Hn) as [Hn' ->]. rewrite (mi_id _ _ (Hg f Hk)), (mi_standing _ _ (Hg f Hk)). exact (Hs _ _ Hk Hn').
Qed.

(** One that keeps being shown or not as well *)
Lemma upd_quiet k g m : rep_ok m -> (forall f, _factions m !! k = Some f -> milder f (g f)) ->
  (forall f, _factions m !! k = Some f -> Z.testbit (Flags (g f)) 0 = Z.testbit (Flags f) 0) -> rep_ok (upd_faction k g m).
Proof.
  intros Hm Hg Hvis. apply (rep_ok_same (set__visibleFactionCount (_visibleFactionCount m) (upd_faction k g m))); [done|].
  apply upd_milder; [done..|]. rewrite (co_visible m (ro_counters m Hm)). f_equal.
  unfold count_visible. cbn. destruct (_factions m !! k) as [f|] eqn:Hk.
  - rewrite (map_sum_alter _ _ _ f) by done. rewrite !has_VISIBLE, (Hvis f) by done. lia.
  - by rewrite alter_id by congruence.
Qed.

(** ** Flags change *)

Lemma milder_to_save f fl : (forall d, flags_ok d (Flags f) -> flags_ok d fl) -> milder f (to_save (set_Flags fl f)).
Proof. intros Hfl. by constructor. Qed.
Lemma milder_refl f : milder f f.
Proof. by constructor. Qed.
Lemma milder_at_war f w : milder f (at_war f w).
Proof.
  unfold at_war. destruct (w && _) eqn:Hp; [apply milder_refl|]. case_match; [apply milder_refl|].
  apply milder_to_save. intros d Hd. by apply flags_at_war.
Qed.
Lemma milder_made_inactive f w : milder f (made_inactive f w).
Proof.
  unfold made_inactive. destruct (w && _) eqn:Hp; [apply milder_refl|]. case_match; [apply milder_refl|].
  apply milder_to_save. intros d Hd. by apply flags_made_inactive.
Qed.
Lemma at_war_visible f w : Z.testbit (Flags (at_war f w)) 0 = Z.testbit (Flags f) 0.
Proof.
  unfold at_war. case_match; [done|]. case_match; [done|]. change FACTION_FLAG_AT_WAR with (2 ^ 1). destruct w; cbn -[Z.testbit Z.pow]; by bits.
Qed.
Lemma made_inactive_visible f w : Z.testbit (Flags (made_inactive f w)) 0 = Z.testbit (Flags f) 0.
Proof.
  unfold made_inactive. case_match; [done|]. case_match; [done|]. change FACTION_FLAG_INACTIVE with (2 ^ 5). destruct w; cbn -[Z.testbit Z.pow]; by bits.
Qed.

Lemma SetAtWar_state_ok k w m : rep_ok m -> rep_ok (SetAtWar_state k w m).
Proof. intros Hm. apply upd_quiet; [done|intros; apply milder_at_war|intros; apply at_war_visible]. Qed.
Lemma client_at_war_ok k w m : rep_ok m -> rep_ok (client_at_war k w m).
Proof. intros Hm. unfold client_at_war. repeat case_match; try done. by apply SetAtWar_state_ok. Qed.
Lemma SetInactive_ok k w m : rep_ok m -> rep_ok (SetInactive k w m).
Proof. intros Hm. apply upd_quiet; [done|intros; apply milder_made_inactive|intros; apply made_inactive_visible]. Qed.

Lemma u8_add a b : u8 (u8 a + b) = u8 (a + b).
Proof. unfold u8. by rewrite Z.add_mod_idemp_l by lia. Qed.

Lemma same_event e m : same_state m (rep_event e m).
Proof. done. Qed.
Lemma SendVisible_same k m : same_state m (SendVisible k m).
Proof. unfold SendVisible. by case_match. Qed.

Lemma SetVisible_state_ok k m : rep_ok m -> rep_ok (SetVisible_state k m).
Proof.
  intros Hm. unfold SetVisible_state. destruct (_factions m !! k) as [f|] eqn:Hk; [|done].
  destruct (_ && _) eqn:Hs; [done|]. destruct (has_flag (Flags f) FACTION_FLAG_VISIBLE) eqn:Hv; [done|].
  eapply rep_ok_same; [apply SendVisible_same|]. rewrite has_hidden, has_SPECIAL in Hs. fold (hidden (Flags f)) in Hs.
  apply upd_milder; [done|..].
  - intros f' Hf'. rewrite Hk in Hf'. injection Hf' as <-. apply milder_to_save. intros d Hd. apply flags_visible; [done|].
    apply andb_false_iff in Hs as [|?%negb_false_iff]; auto.
  - cbn. rewrite (co_visible m (ro_counters m Hm)), u8_add. f_equal. unfold count_visible.
    rewrite (map_sum_alter _ _ _ f) by done. rewrite Hv. cbn [Flags to_save set_needSave set_needSend set_Flags].
    rewrite has_VISIBLE. change FACTION_FLAG_VISIBLE with (2 ^ 0). bits. lia.
Qed.
Lemma SetVisible_ok e m : rep_ok m -> rep_ok (SetVisible e m).
Proof. intros Hm. unfold SetVisible. case_match; [done|]. by apply SetVisible_state_ok. Qed.
Lemma SetVisible_template_ok i m : rep_ok m -> rep_ok (SetVisible_template i m).
Proof. intros Hm. unfold SetVisible_template. repeat case_match; try done. by apply SetVisible_ok. Qed.

(** ** Standings change *)

Lemma s32_standing x : Reputation_Bottom <= x <= Reputation_Cap -> s32 x = x.
Proof. unfold Reputation_Bottom, Reputation_Cap. intros Hx. apply s32_small. lia. Qed.

Lemma entry_reputation m i e f : rep_ok m -> FactionStore i = Some e -> 0 <= reputationListID e -> _factions m !! list_key e = Some f ->
  GetReputation e m = GetBaseReputation e + Standing f /\ GetRank e m = rank_of f /\
  Reputation_Bottom <= GetBaseReputation e + Standing f <= Reputation_Cap /\ s32 (Standing f + GetBaseReputation e) = GetBaseReputation e + Standing f.
Proof.
  intros Hm He Hl Hf. destruct (faction_entry m i e f Hm He Hf Hl) as (_ & Hb & _).
  pose proof (fo_standing _ _ (ro_factions m Hm _ _ Hf)) as Hst. rewrite Hb in Hst.
  assert (GetReputation e m = GetBaseReputation e + Standing f) as Hg.
  { unfold GetReputation, GetState. rewrite (proj2 (Z.leb_le _ _) Hl), Hf. by apply s32_standing. }
  split_and!; [done|unfold GetRank, rank_of; by rewrite Hg, Hb|lia|lia|]. rewrite (Z.add_comm (Standing f)). by apply s32_standing.
Qed.

Lemma counter_change c o n : u8 (u8 (u8 c - o) + n) = u8 (c - o + n).
Proof. rewrite u8_add. unfold u8. by rewrite <- (Zplus_mod_idemp_l (c mod _ - o)), Zminus_mod_idemp_l, Zplus_mod_idemp_l. Qed.

Lemma UpdateRankCounters_counters old new m :
  counters_ok m -> forall l, count_visible l = count_visible (_factions m) ->
  (forall floor, count_rank floor l = count_rank floor (_factions m) - in_rank old floor + in_rank new floor) ->
  counters_ok (UpdateRankCounters old new (set__factions l m)).
Proof.
  intros [Hv Hh Hr He] l Hcv Hc. constructor; cbn; [by rewrite Hcv|..];
    rewrite ?Hh, ?Hr, ?He, counter_change; by rewrite Hc.
Qed.

(** The standing of an entry is set to what is within the bounds. *)
Lemma set_standing_ok m i e f g x : rep_ok m -> FactionStore i = Some e -> _factions m !! list_key e = Some f -> 0 <= reputationListID e ->
  Reputation_Bottom <= GetBaseReputation e + x <= Reputation_Cap ->
  g f = to_save (set_Standing x f) ->
  rep_ok (UpdateRankCounters (rank_of f) (ReputationToRank (GetBaseReputation e + x)) (upd_faction (list_key e) g m)).
Proof.
  intros Hm He Hf Hl Hx Hg. destruct (faction_entry m i e f Hm He Hf Hl) as (Hid & Hb & Hfl).
  assert (base_of (g f) = base_of f) as Hbg by (by rewrite Hg).
  destruct Hm as [Hfs Hall Hc Hr Hs]. constructor; cbn.
  - intros k' f'. rewrite lookup_alter_Some. intros [[<- (f0 & Hk & ->)]|[_ Hk]]; [|by apply Hfs].
    rewrite Hf in Hk. injection Hk as <-. destruct (Hfs _ _ Hf) as [Hent Hkey _].
    constructor; rewrite ?Hbg, Hg; [exact Hent|exact Hkey|cbn; rewrite Hb; exact Hx].
  - intros j e' He' Hl'. destruct (Hall j e' He' Hl') as [f0 Hk]. destruct (decide (list_key e = list_key e')) as [->|].
    + rewrite lookup_alter_eq, Hk. by eexists.
    + rewrite lookup_alter_ne by done. by eexists.
  - apply UpdateRankCounters_counters; [done|..]; intros; unfold count_visible, count_rank; rewrite (map_sum_alter _ _ _ f) by done.
    + rewrite Hg. cbn. lia.
    + assert (rank_of (g f) = ReputationToRank (GetBaseReputation e + x)) as -> by (unfold rank_of; by rewrite Hbg, Hb, Hg). done.
  - done.
  - intros k' f'. cbn. rewrite lookup_alter_Some. intros [[<- (f0 & Hk & ->)]|[_ Hk]]; [|exact (Hs _ _ Hk)].
    rewrite Hf in Hk. injection Hk as <-. by rewrite Hg.
Qed.

Lemma update_after_visible old new k m : UpdateRankCounters old new (SetVisible_state k m) = SetVisible_state k (UpdateRankCounters old new m).
Proof. unfold SetVisible_state. cbn. case_match; [|done]. case_match; [done|]. case_match; [done|]. unfold SendVisible. cbn. by case_match. Qed.
Lemma update_after_war old new k w m : UpdateRankCounters old new (SetAtWar_state k w m) = SetAtWar_state k w (UpdateRankCounters old new m).
Proof. done. Qed.
Lemma update_after_increased old new b m : UpdateRankCounters old new (set__sendFactionIncreased b m) = set__sendFactionIncreased b (UpdateRankCounters old new m).
Proof. done. Qed.

Lemma rep_ok_events l m : rep_ok m -> rep_ok (set_rep_events l m).
Proof. by apply rep_ok_same. Qed.
Lemma rep_ok_increased b m : rep_ok m -> rep_ok (set__sendFactionIncreased b m).
Proof. by apply rep_ok_same. Qed.

Lemma SetOneFactionReputation_ok m i e standing incremental : rep_ok m -> FactionStore i = Some e ->
  rep_ok (SetOneFactionReputation e standing incremental m).2.
Proof.
  intros Hm He. unfold SetOneFactionReputation. destruct (_factions m !! list_key e) as [f|] eqn:Hf; [|done].
  destruct (decide (0 <= reputationListID e)) as [Hl|Hl]; [|by rewrite (no_place m i e) in Hf by (done || lia)].
  destruct (entry_reputation m i e f Hm He Hl Hf) as (_ & _ & Hb & Hsum). rewrite Hsum.
  destruct (faction_entry m i e f Hm He Hf Hl) as (_ & Hbase & _).
  set (x := clamp _). pose proof (clamp_bounds (if incremental then s32 (gained standing + (GetBaseReputation e + Standing f)) else standing)) as Hx.
  fold x in Hx. assert (s32 (x - GetBaseReputation e) = x - GetBaseReputation e) as Hs.
  { apply s32_small. pose proof (so_base Hstore _ _ He). unfold Reputation_Bottom, Reputation_Cap in *. lia. }
  pose proof (set_standing_ok m i e f (fun f => to_save (set_Standing (x - GetBaseReputation e) f)) (x - GetBaseReputation e) Hm He Hf Hl) as Hset.
  replace (GetBaseReputation e + (x - GetBaseReputation e)) with x in Hset by lia. specialize (Hset Hx eq_refl).
  replace (rank_of f) with (ReputationToRank (GetBaseReputation e + Standing f)) in Hset by (unfold rank_of; by rewrite Hbase).
  cbn [snd]. rewrite Hs. apply rep_ok_events. set (old := ReputationToRank (_ + _)) in *. set (new := ReputationToRank x) in *.
  destruct (old <? new), (new <=? REP_HOSTILE); rewrite ?update_after_increased, ?update_after_war, update_after_visible;
    repeat first [exact Hset | apply rep_ok_increased | apply SetAtWar_state_ok | apply SetVisible_state_ok].
Qed.

Lemma SendForceReactions_ok m : rep_ok m -> rep_ok (SendForceReactions m).
Proof. by apply rep_ok_same. Qed.
Lemma ApplyForceReaction_ok i rank b m : rep_ok m -> rep_ok (ApplyForceReaction i rank b m).
Proof. by apply rep_ok_same. Qed.

(** Nothing waits to be sent any more. *)
Lemma rep_ok_sent m : rep_ok m -> rep_ok (set__factions (set_needSend false <$> _factions m) m).
Proof.
  intros [Hf Hall [Hcv Hch Hcr Hce] Hr Hs].
  assert (forall g, (forall f, g (set_needSend false f) = g f) -> map_sum g (set_needSend false <$> _factions m) = map_sum g (_factions m)) as Hsum.
  { intros g Hg. apply map_sum_ext. intros k. rewrite lookup_fmap. destruct (_factions m !! k); [|done]. cbn. by rewrite Hg. }
  constructor; cbn.
  - intros k f'. rewrite lookup_fmap_Some. intros (f & <- & Hk). destruct (Hf _ _ Hk). by constructor.
  - intros i e He Hl. rewrite lookup_fmap. destruct (Hall i e He Hl) as [f ->]. by eexists.
  - constructor; cbn; unfold count_visible, count_rank; by rewrite Hsum.
  - done.
  - intros k f'. cbn. rewrite lookup_fmap_Some. intros (f & <- & Hk). exact (Hs _ _ Hk).
Qed.
Lemma SendState_ok k m : rep_ok m -> rep_ok (SendState k m).
Proof.
  intros Hm. unfold SendState. case_match; [|done]. apply rep_ok_events, rep_ok_sent. by apply (rep_ok_same m).
Qed.
Lemma SendStates_ok m : rep_ok m -> rep_ok (SendStates m).
Proof.
  unfold SendStates. generalize (map_ordered (_factions m)).*1. intros l. revert m. induction l as [|k l IH]; intros m Hm; [done|].
  apply IH. by apply SendState_ok.
Qed.
Lemma SendInitialReputations_ok m : rep_ok m -> rep_ok (SendInitialReputations m).
Proof. intros Hm. by apply rep_ok_events, rep_ok_sent. Qed.

(** ** What a change of standing spreads *)

(** The standing with a faction *)
Definition points (j : Z) (m : ReputationMgr) : Z := match FactionStore j with Some e => GetReputation e m | None => 0 end.
(** What a faction that has [r] points has after it is given [a], or set to [a] *)
Definition received (incremental : bool) (a j r : Z) : Z :=
  match FactionStore j with
  | Some e => if 0 <=? reputationListID e then clamp (if incremental then s32 (gained a + r) else a) else r
  | None => r
  end.

Lemma points_events l j m : points j (set_rep_events l m) = points j m.
Proof. done. Qed.
(** Points are those of the states. *)
Lemma points_state m m' : (forall k, Standing <$> _factions m' !! k = Standing <$> _factions m !! k) -> forall j, points j m' = points j m.
Proof.
  intros Hs j. unfold points, GetReputation, GetState. destruct (FactionStore j) as [e|]; [|done]. destruct (0 <=? reputationListID e); [|done].
  specialize (Hs (list_key e)). destruct (_factions m' !! list_key e), (_factions m !! list_key e); cbn in Hs; try done. injection Hs as Hs. by rewrite Hs.
Qed.
Lemma standing_upd k g m : (forall f, Standing (g f) = Standing f) ->
  forall k', Standing <$> _factions (upd_faction k g m) !! k' = Standing <$> _factions m !! k'.
Proof. intros Hg k'. cbn. rewrite lookup_alter. case_decide; [subst|done]. destruct (_factions m !! k'); [|done]. cbn. by rewrite Hg. Qed.
Lemma standing_visible k m k' : Standing <$> _factions (SetVisible_state k m) !! k' = Standing <$> _factions m !! k'.
Proof.
  unfold SetVisible_state. case_match; [|done]. case_match; [done|]. case_match; [done|].
  unfold SendVisible. rewrite <- (standing_upd k (fun f => to_save (set_Flags (add_flag (Flags f) FACTION_FLAG_VISIBLE) f)) m) by done. by case_match.
Qed.
Lemma standing_at_war k w m k' : Standing <$> _factions (SetAtWar_state k w m) !! k' = Standing <$> _factions m !! k'.
Proof. apply standing_upd. intros f. unfold at_war. by repeat case_match. Qed.

Lemma SetOne_standing e standing incremental m f k :
  _factions m !! list_key e = Some f ->
  Standing <$> _factions (SetOneFactionReputation e standing incremental m).2 !! k =
  if decide (k = list_key e)
  then Some (s32 (clamp (if incremental then s32 (gained standing + s32 (Standing f + GetBaseReputation e)) else standing) - GetBaseReputation e))
  else Standing <$> _factions m !! k.
Proof.
  intros Hf. unfold SetOneFactionReputation. rewrite Hf. set (x := clamp _). cbn [snd set_rep_events _factions].
  set (upd := upd_faction _ _ m).
  assert (Standing <$> _factions upd !! k = if decide (k = list_key e) then Some (s32 (x - GetBaseReputation e)) else Standing <$> _factions m !! k) as <-.
  { unfold upd. cbn. rewrite lookup_alter. case_decide as Hk; [subst k; rewrite decide_True by done; by rewrite Hf|].
    by rewrite decide_False by congruence. }
  rewrite <- (standing_visible (list_key e) upd). case_match; case_match; cbn -[SetVisible_state SetAtWar_state]; try done; apply standing_at_war.
Qed.

Lemma SetOne_points m i e standing incremental j : rep_ok m -> FactionStore i = Some e ->
  points j (SetOneFactionReputation e standing incremental m).2 = if j =? i then received incremental standing i (points i m) else points j m.
Proof.
  intros Hm He. destruct (decide (0 <= reputationListID e)) as [Hl|Hl].
  2:{ assert ((SetOneFactionReputation e standing incremental m).2 = m) as -> by (unfold SetOneFactionReputation; by rewrite (no_place m i e) by (done || lia)).
      unfold received. rewrite He, (proj2 (Z.leb_gt _ _)) by lia. destruct (Z.eqb_spec j i) as [->|]; done. }
  destruct (ro_all m Hm i e He Hl) as [f Hf]. pose proof (SetOne_standing e standing incremental m f) as Hst.
  destruct (entry_reputation m i e f Hm He Hl Hf) as (Hg & _ & _ & Hsum).
  destruct (Z.eqb_spec j i) as [->|Hj].
  - unfold received, points. rewrite He, (proj2 (Z.leb_le _ _) Hl), Hg. specialize (Hst (list_key e) Hf). rewrite decide_True in Hst by done.
    unfold GetReputation at 1, GetState. rewrite (proj2 (Z.leb_le _ _) Hl). destruct (_factions (SetOneFactionReputation _ _ _ _).2 !! list_key e) as [f'|]; [|done].
    cbn [fmap option_fmap option_map] in Hst. injection Hst as Hst. rewrite Hst, Hsum. set (x := clamp _).
    assert (Reputation_Bottom <= x <= Reputation_Cap) as Hx by apply clamp_bounds. pose proof (so_base Hstore _ _ He).
    unfold Reputation_Bottom, Reputation_Cap in *. rewrite (s32_small (x - _)) by lia. rewrite s32_small by lia. lia.
  - unfold points, GetReputation, GetState. destruct (FactionStore j) as [e'|] eqn:He'; [|done]. destruct (0 <=? reputationListID e') eqn:Hl'; [|done]. apply Z.leb_le in Hl'.
    specialize (Hst (list_key e') Hf). rewrite decide_False in Hst.
    + destruct (_factions m !! list_key e'), (_factions (SetOneFactionReputation _ _ _ _).2 !! list_key e'); cbn in Hst; try done. injection Hst as Hst. by rewrite Hst.
    + rewrite (list_key_small _ _ He Hl), (list_key_small _ _ He' Hl'). intros Heq. by apply Hj, (so_list Hstore _ _ _ _ He' He).
Qed.

End Rules.
