(* ===== verification/ReputationSpread.v ===== *)
(** * What a change of reputation spreads

    A change of the standing with one faction gives a share to others, by a
    template of the database or by the team of the faction.  [share] says who
    gets what; SetReputation gives it once to each. *)
From S2P Require Import Prelude.
From S2P Require Import Lists.
From S2P Require Import ByteBuffer.
From S2P Require Import Float.
From S2P Require Import Reputation.
From S2P Require Import ReputationRules.
From Stdlib Require Import SpecFloat.
Local Open Scope Z_scope.

Section Spread.
Context `{RepWorld}.
Hypothesis Hstore : store_ok.

(** What the faction [j] is given by a template *)
Definition template_share (standing : Z) (m : ReputationMgr) (l : list (Z * f32 * Z)) (j : Z) : option Z :=
  match find (fun x => x.1.1 =? j) l with
  | Some (_, rate, rank) =>
      if negb (j =? 0) && (ReputationToRank (points j m) <=? rank) then Some (f32_to_s32 (f32_mul (f32_of_Z standing) rate)) else None
  | None => None
  end.
(** and as one of the factions [l], of which [i] has changed *)
Definition team_share (i : Z) (out : f32) (incremental : bool) (m : ReputationMgr) (l : list Z) (j : Z) : option Z :=
  match FactionStore j with
  | Some f =>
      let a := f32_to_s32 (f32_mul out (spilloverRateIn f)) in
      if bool_decide (j ∈ l) && negb (j =? i) && (ReputationToRank (points j m) <=? spilloverMaxRankIn f) && (negb (a =? 0) || negb incremental)
      then Some a else None
  | None => None
  end.
Definition special (i : Z) (m : ReputationMgr) : bool :=
  match FactionStore i with
  | Some e => match _factions m !! list_key e with Some f => has_flag (Flags f) FACTION_FLAG_SPECIAL | None => false end
  | None => false
  end.
Definition share (e : FactionEntry) (standing : Z) (incremental : bool) (m : ReputationMgr) (j : Z) : option Z :=
  match GetRepSpilloverTemplate (fe_ID e) with
  | Some t => template_share standing m (take MAX_SPILLOVER_FACTIONS (spillovers t)) j
  | None =>
      let out := f32_of_Z standing in
      match GetFactionTeamList (fe_ID e) with
      | Some l => team_share (fe_ID e) out incremental m l j
      | None =>
          let out := f32_mul out (spilloverRateOut e) in
          if (fe_team e =? 0) || f32_eqb (spilloverRateOut e) (S754_zero false) then None
          else match FactionStore (fe_team e) with
               | None => None
               | Some _ =>
                   if special (fe_team e) m then if j =? fe_team e then Some (f32_to_s32 out) else None
                   else team_share (fe_ID e) out incremental m (default [] (GetFactionTeamList (fe_team e))) j
               end
      end
  end.
Definition given (incremental : bool) (a : option Z) (j r : Z) : Z :=
  match a with Some a => received incremental a j r | None => r end.

(** ** One after the other *)

Section Fold.
Context {X : Type} (step : ReputationMgr -> X -> ReputationMgr) (key : X -> Z) (give : X -> ReputationMgr -> option Z).
Context (incremental : bool) (P : X -> Prop).
Hypothesis Hstep : forall m x, P x -> rep_ok m ->
  rep_ok (step m x) /\ forall j, points j (step m x) = if key x =? j then given incremental (give x m) j (points j m) else points j m.
Hypothesis Hgive : forall m m' x, points (key x) m = points (key x) m' -> give x m = give x m'.

(** Each gets its share of what was at the start, for no one's share depends on
    the others. *)
Lemma spread_fold l m : Forall P l -> rep_ok m -> NoDup (key <$> l) ->
  rep_ok (foldl step m l) /\
  forall j, points j (foldl step m l) =
    match find (fun x => key x =? j) l with Some x => given incremental (give x m) j (points j m) | None => points j m end.
Proof.
  revert m. induction l as [|x l IH]; intros m HP Hm Hnd; [done|]. apply Forall_cons in HP as [Hx HP]. apply NoDup_cons in Hnd as [Hnin Hnd].
  destruct (Hstep m x Hx Hm) as [Hm' Hpts]. destruct (IH (step m x) HP Hm' Hnd) as [Hok Hl]. split; [done|].
  intros j. cbn [foldl find]. rewrite Hl, Hpts. destruct (Z.eqb_spec (key x) j) as [<-|Hne].
  - destruct (find _ l) as [y|] eqn:Hy; [|done]. apply find_some in Hy as [Hy Heq%Z.eqb_eq]. contradict Hnin.
    rewrite <- Heq. apply list_elem_of_fmap_2. by apply list_elem_of_In.
  - destruct (find _ l) as [y|] eqn:Hy; [|done]. apply find_some in Hy as [_ Heq%Z.eqb_eq]. subst j. f_equal.
    apply Hgive. rewrite Hpts. destruct (Z.eqb_spec (key x) (key y)); done.
Qed.
End Fold.

(** ** Templates *)

Definition give_template (standing : Z) (x : Z * f32 * Z) (m : ReputationMgr) : option Z :=
  let '(faction, rate, rank) := x in
  if negb (faction =? 0) && (ReputationToRank (points faction m) <=? rank) then Some (f32_to_s32 (f32_mul (f32_of_Z standing) rate)) else None.

Lemma GetReputationRank_points j m : GetReputationRank j m = ReputationToRank (points j m).
Proof. unfold GetReputationRank, points. by case_match. Qed.

Definition spill_step (standing : Z) (incremental : bool) (m : ReputationMgr) (x : Z * f32 * Z) : ReputationMgr :=
  default m (spill_one standing incremental (Some m) x).

Lemma spill_one_ok standing incremental m x : rep_ok m -> x.1.1 <> 0 -> is_Some (FactionStore x.1.1) ->
  spill_one standing incremental (Some m) x = Some (spill_step standing incremental m x) /\
  rep_ok (spill_step standing incremental m x) /\
  forall j, points j (spill_step standing incremental m x) =
    if x.1.1 =? j then given incremental (give_template standing x m) j (points j m) else points j m.
Proof.
  destruct x as [[i rate] rank]. intros Hm Hi [e He]. cbn in Hi, He. unfold spill_step, spill_one, give_template. cbn [mbind option_bind fst].
  rewrite (proj2 (Z.eqb_neq i 0)) by done. cbn [negb andb]. rewrite GetReputationRank_points, He.
  destruct (_ <=? rank); cbn [from_option mbind option_bind id]; (split; [done|]).
  - split; [by apply SetOneFactionReputation_ok with (i := i)|]. intros j. rewrite (SetOne_points Hstore m i e) by done.
    rewrite (Z.eqb_sym i j). by destruct (Z.eqb_spec j i) as [->|].
  - split; [done|]. intros j. by case_match.
Qed.

(** The places of a template that name a faction *)
Definition named (l : list (Z * f32 * Z)) : list (Z * f32 * Z) := base.filter (fun x => x.1.1 <> 0) l.
Lemma spill_named standing incremental l m :
  foldl (spill_one standing incremental) m l = foldl (spill_one standing incremental) m (named l).
Proof.
  revert m. induction l as [|[[i rate] rank] l IH]; intros m; [done|]. unfold named. rewrite filter_cons. fold (named l). cbn [foldl fst].
  rewrite IH. case_decide as Hi; [done|]. subst i. by destruct m.
Qed.
Lemma spill_template_run standing incremental l m :
  Forall (fun x => x.1.1 <> 0 /\ is_Some (FactionStore x.1.1)) l -> rep_ok m ->
  foldl (spill_one standing incremental) (Some m) l = Some (foldl (spill_step standing incremental) m l) /\
  rep_ok (foldl (spill_step standing incremental) m l).
Proof.
  revert m. induction l as [|x l IH]; intros m Hl Hm; [done|]. apply Forall_cons in Hl as [[Hx He] Hl]. cbn [foldl].
  destruct (spill_one_ok standing incremental m x Hm Hx He) as (-> & Hok & _). by apply IH.
Qed.

Lemma find_named l j : j <> 0 -> find (fun x : Z * f32 * Z => x.1.1 =? j) (named l) = find (fun x => x.1.1 =? j) l.
Proof.
  intros Hj. induction l as [|x l IH]; [done|]. unfold named. rewrite filter_cons. fold (named l). cbn [find].
  case_decide as Hx; cbn [find]; rewrite IH; [done|]. by rewrite (proj2 (Z.eqb_neq _ _)) by lia.
Qed.
Lemma find_zero l : find (fun x : Z * f32 * Z => x.1.1 =? 0) (named l) = None.
Proof.
  destruct (find _ _) as [x|] eqn:Hx; [|done]. apply find_some in Hx as [Hx%list_elem_of_In H0%Z.eqb_eq].
  by apply list_elem_of_filter in Hx as [? _].
Qed.

Lemma named_exist i t : GetRepSpilloverTemplate i = Some t ->
  Forall (fun x => x.1.1 <> 0 /\ is_Some (FactionStore x.1.1)) (named (take MAX_SPILLOVER_FACTIONS (spillovers t))).
Proof.
  intros Ht. apply Forall_forall. intros x [Hx Hin]%list_elem_of_filter. split; [done|].
  pose proof (so_spill Hstore _ _ Ht) as Hall. rewrite Forall_forall in Hall. apply Hall; [|done].
  by apply (subseteq_take MAX_SPILLOVER_FACTIONS (spillovers t)).
Qed.
Lemma spill_template_ok standing incremental i t m : GetRepSpilloverTemplate i = Some t -> rep_ok m ->
  exists m', spill_template standing incremental t m = Some m' /\ rep_ok m'.
Proof.
  intros Ht Hm. unfold spill_template. rewrite spill_named.
  destruct (spill_template_run standing incremental _ m (named_exist i t Ht) Hm) as [-> Hok]. by eexists.
Qed.
Lemma spill_template_spec standing incremental i t m :
  GetRepSpilloverTemplate i = Some t -> NoDup ((fun x => x.1.1) <$> named (take MAX_SPILLOVER_FACTIONS (spillovers t))) -> rep_ok m ->
  exists m', spill_template standing incremental t m = Some m' /\ rep_ok m' /\
    forall j, points j m' = given incremental (template_share standing m (take MAX_SPILLOVER_FACTIONS (spillovers t)) j) j (points j m).
Proof.
  intros Ht Hnd Hm. pose proof (named_exist i t Ht) as Hl. set (l := take _ _) in *.
  unfold spill_template. rewrite spill_named. fold l. destruct (spill_template_run standing incremental _ m Hl Hm) as [-> _]. eexists. split; [done|].
  destruct (spread_fold (spill_step standing incremental) (fun x => x.1.1) (give_template standing) incremental
    (fun x => x.1.1 <> 0 /\ is_Some (FactionStore x.1.1))) with (l := named l) (m := m) as [Hok Hpts]; try done.
  - intros m' x [Hx He] Hm'. by apply spill_one_ok.
  - intros m1 m2 [[i' rate] rank] Heq. unfold give_template. cbn [fst] in Heq. by rewrite Heq.
  - split; [done|]. intros j. rewrite Hpts. unfold template_share. destruct (decide (j = 0)) as [->|Hj].
    + rewrite find_zero. by destruct (find _ l) as [[[? ?] ?]|].
    + rewrite find_named by done. destruct (find _ l) as [[[i' rate] rank]|] eqn:Hf; [|done].
      apply find_some in Hf as [_ Heq%Z.eqb_eq]. cbn in Heq. by subst i'.
Qed.

(** ** Teams *)

Definition give_team (i : Z) (out : f32) (incremental : bool) (j : Z) (m : ReputationMgr) : option Z := team_share i out incremental m [j] j.

Lemma spill_to_ok e i out incremental m j : rep_ok m -> FactionStore i = Some e ->
  rep_ok (spill_to e out incremental m j) /\
  forall j', points j' (spill_to e out incremental m j) = if j =? j' then given incremental (give_team i out incremental j m) j' (points j' m) else points j' m.
Proof.
  intros Hm He. unfold spill_to, give_team, team_share. destruct (FactionStore j) as [f|] eqn:Hj; [|split; [done|intros; by case_match]].
  rewrite (proj1 (so_id Hstore _ _ He)), (proj1 (so_id Hstore _ _ Hj)), bool_decide_true by (by apply list_elem_of_singleton).
  assert (GetRank f m = ReputationToRank (points j m)) as Hr by (unfold points, GetRank; by rewrite Hj).
  rewrite Hr, Z.ltb_antisym. cbn [andb]. set (a := f32_to_s32 _).
  destruct (j =? i); cbn [orb negb andb]; [split; [done|intros; by case_match]|].
  destruct (_ <=? spilloverMaxRankIn f); cbn [negb andb]; [|split; [done|intros; by case_match]].
  destruct (negb (a =? 0) || negb incremental); [|split; [done|intros; by case_match]].
  split; [by apply SetOneFactionReputation_ok with (i := j)|]. intros j'. rewrite (SetOne_points Hstore m j f) by done.
  rewrite (Z.eqb_sym j j'). by destruct (Z.eqb_spec j' j) as [->|].
Qed.

Lemma find_member l j : find (fun x : Z => x =? j) l = if bool_decide (j ∈ l) then Some j else None.
Proof.
  destruct (find _ l) as [x|] eqn:Hx.
  - apply find_some in Hx as [Hin%list_elem_of_In ->%Z.eqb_eq]. by rewrite bool_decide_true.
  - rewrite bool_decide_false; [done|]. intros Hin%list_elem_of_In. apply (find_none _ _ Hx) in Hin. by rewrite Z.eqb_refl in Hin.
Qed.

Lemma spill_list_spec e i out incremental l m : rep_ok m -> FactionStore i = Some e -> NoDup l ->
  let m' := foldl (spill_to e out incremental) m l in
  rep_ok m' /\ forall j, points j m' = given incremental (team_share i out incremental m l j) j (points j m).
Proof.
  intros Hm He Hnd. destruct (spread_fold (spill_to e out incremental) id (give_team i out incremental) incremental (fun _ => True)) with (l := l) (m := m) as [Hok Hpts]; try done.
  - intros m' x _ Hm'. by apply spill_to_ok.
  - intros m1 m2 x Heq. unfold give_team, team_share. cbn [id] in Heq. by rewrite Heq.
  - by apply Forall_true.
  - by rewrite list_fmap_id.
  - split; [done|]. intros j. rewrite Hpts. cbn [id]. rewrite find_member. unfold give_team, team_share.
    case_bool_decide; [by rewrite bool_decide_true by (by apply list_elem_of_singleton)|]. cbn [andb]. by destruct (FactionStore j).
Qed.

Lemma team_members_in team j : j ∈ team_members team <-> in_team team j = true /\ 0 <= j < Z.of_nat FactionRows.
Proof.
  unfold team_members. rewrite list_elem_of_filter, list_elem_of_fmap. split; intros [Hj Hin]; (split; [done|]).
  - destruct Hin as (n & -> & Hn%elem_of_seq). lia.
  - exists (Z.to_nat j). split; [lia|]. apply elem_of_seq. lia.
Qed.
Lemma NoDup_team_members team : NoDup (team_members team).
Proof. apply NoDup_filter, NoDup_fmap_2; [apply _|]. apply NoDup_seq. Qed.
Lemma NoDup_team_list team : NoDup (default [] (GetFactionTeamList team)).
Proof. unfold GetFactionTeamList. pose proof (NoDup_team_members team). destruct (team_members team); [apply NoDup_nil_2|done]. Qed.
(** A faction whose team is itself has a list of members. *)
Lemma no_own_team i e : FactionStore i = Some e -> GetFactionTeamList i = None -> fe_team e <> 0 -> fe_team e <> i.
Proof.
  intros He Hno H0 Hi. assert (i ∈ team_members i) as Hin.
  { apply team_members_in. split; [|pose proof (so_id Hstore _ _ He); lia]. unfold in_team. rewrite He, Hi, Z.eqb_refl.
    by rewrite (proj2 (Z.eqb_neq _ _)) by congruence. }
  unfold GetFactionTeamList in Hno. destruct (team_members i); [by apply elem_of_nil in Hin|done].
Qed.

Lemma spill_team_spec i e standing incremental m : rep_ok m -> FactionStore i = Some e -> GetRepSpilloverTemplate i = None ->
  rep_ok (spill_team e standing incremental m) /\
  forall j, points j (spill_team e standing incremental m) = given incremental (share e standing incremental m j) j (points j m).
Proof.
  intros Hm He Ht. pose proof (proj1 (so_id Hstore _ _ He)) as Hid. unfold spill_team, share. rewrite Hid, Ht.
  pose proof (NoDup_team_list i) as Hnd. destruct (GetFactionTeamList i) as [l|] eqn:Hl; [by apply spill_list_spec|].
  destruct (fe_team e =? 0); cbn [negb andb orb]; [by split|]. destruct (f32_eqb _ _); cbn [negb]; [by split|].
  destruct (FactionStore (fe_team e)) as [parent|] eqn:Hp; [|by split]. unfold special. rewrite Hp.
  assert (forall x, let m' := foldl (spill_to e x incremental) m (default [] (GetFactionTeamList (fe_team e))) in
    rep_ok m' /\ forall j, points j m' = given incremental (team_share i x incremental m (default [] (GetFactionTeamList (fe_team e))) j) j (points j m)) as Hteam.
  { intros x. apply spill_list_spec; [done..|]. apply NoDup_team_list. }
  destruct (_factions m !! list_key parent) as [f|]; [|apply Hteam].
  destruct (has_flag _ _); [|apply Hteam]. split; [by apply SetOneFactionReputation_ok with (i := fe_team e)|].
  intros j. rewrite (SetOne_points Hstore m (fe_team e) parent) by done. by destruct (Z.eqb_spec j (fe_team e)) as [->|].
Qed.

(** ** The whole change *)

Lemma points_SendState k m j : points j (SendState k m) = points j m.
Proof.
  unfold SendState. case_match; [|done]. apply (points_state m). intros k'. cbn. rewrite lookup_fmap.
  by destruct (_factions m !! k').
Qed.
Lemma finish_ok i e standing incremental m : rep_ok m -> FactionStore i = Some e ->
  exists m', match _factions m !! list_key e with
    | Some _ => Some (SendState (list_key e) (SetOneFactionReputation e standing incremental m).2)
    | None => Some m
    end = Some m' /\ rep_ok m' /\ forall j, points j m' = if j =? i then received incremental standing i (points i m) else points j m.
Proof.
  intros Hm He. pose proof (SetOneFactionReputation_ok Hstore m i e standing incremental Hm He) as Hok.
  pose proof (fun j => SetOne_points Hstore m i e standing incremental j Hm He) as Hpts.
  destruct (_factions m !! list_key e) as [f|] eqn:Hf; eexists; (split; [done|]).
  - split; [by apply SendState_ok|]. intros j. by rewrite points_SendState.
  - split; [done|]. intros j. rewrite <- Hpts. unfold SetOneFactionReputation. by rewrite Hf.
Qed.

Lemma SetReputation_ok i e standing incremental m : rep_ok m -> FactionStore i = Some e ->
  exists m', SetReputation e standing incremental m = Some m' /\ rep_ok m'.
Proof.
  intros Hm He. unfold SetReputation. rewrite (proj1 (so_id Hstore _ _ He)).
  assert (rep_ok (rep_event (OnPlayerReputationChange i standing incremental) m)) as Hm0 by (by apply rep_ok_events).
  destruct (GetRepSpilloverTemplate i) as [t|] eqn:Ht.
  - destruct (spill_template_ok standing incremental i t _ Ht Hm0) as (m1 & -> & Hm1). cbn [mbind option_bind].
    destruct (finish_ok i e standing incremental m1 Hm1 He) as (m' & -> & Hok & _). eauto.
  - destruct (spill_team_spec i e standing incremental _ Hm0 He Ht) as [Hm1 _]. cbn [mbind option_bind].
    destruct (finish_ok i e standing incremental _ Hm1 He) as (m' & -> & Hok & _). eauto.
Qed.

(** A template gives nothing to its own faction and to no other twice. *)
Definition template_ok (i : Z) : Prop :=
  forall t, GetRepSpilloverTemplate i = Some t ->
    let l := (fun x => x.1.1) <$> named (take MAX_SPILLOVER_FACTIONS (spillovers t)) in NoDup l /\ i ∉ l.

Lemma own_share i e standing incremental m : rep_ok m -> FactionStore i = Some e -> template_ok i -> share e standing incremental m i = None.
Proof.
  intros Hm He Hok. pose proof (so_id Hstore _ _ He) as [Hid Hi]. unfold share. rewrite Hid.
  destruct (GetRepSpilloverTemplate i) as [t|] eqn:Ht.
  { destruct (Hok t Ht) as [_ Hnin]. unfold template_share. set (l := take _ _) in *. rewrite <- find_named by lia.
    destruct (find _ _) as [x|] eqn:Hx; [|done]. apply find_some in Hx as [Hx%list_elem_of_In Heq%Z.eqb_eq].
    contradict Hnin. rewrite <- Heq. by apply (list_elem_of_fmap_2 (fun x : Z * f32 * Z => x.1.1)). }
  assert (forall out l, team_share i out incremental m l i = None) as Hteam.
  { intros. unfold team_share. rewrite He, Z.eqb_refl. cbn [negb]. by rewrite andb_false_r. }
  destruct (GetFactionTeamList i) as [l|] eqn:Hl; [apply Hteam|].
  destruct (Z.eqb_spec (fe_team e) 0) as [|H0]; [done|]. cbn [orb]. case_match; [done|]. destruct (FactionStore (fe_team e)); [|done].
  destruct (special _ _); [|apply Hteam]. destruct (Z.eqb_spec i (fe_team e)) as [Hit|]; [|done].
  by destruct (no_own_team i e He Hl H0).
Qed.

Lemma share_event e standing incremental l m j : share e standing incremental (set_rep_events l m) j = share e standing incremental m j.
Proof. done. Qed.

(** C22: A change of the standing with a faction never fails.  The faction has
    afterwards what it is set to, or what it had and the gain by the rate, kept
    within the bounds; every other faction has what it had and its share, or is
    set to the share, and no share depends on the order. *)
Theorem reputation_spreads m i e standing incremental : rep_ok m -> FactionStore i = Some e -> template_ok i ->
  exists m', SetReputation e standing incremental m = Some m' /\ rep_ok m' /\
    forall j, points j m' = if j =? i then received incremental standing i (points i m) else given incremental (share e standing incremental m j) j (points j m).
Proof.
  intros Hm He Hok. pose proof (proj1 (so_id Hstore _ _ He)) as Hid. unfold SetReputation. rewrite Hid.
  assert (rep_ok (rep_event (OnPlayerReputationChange i standing incremental) m)) as Hm0 by (by apply rep_ok_events).
  assert (exists m1, match GetRepSpilloverTemplate i with
      | Some t => spill_template standing incremental t (rep_event (OnPlayerReputationChange i standing incremental) m)
      | None => Some (spill_team e standing incremental (rep_event (OnPlayerReputationChange i standing incremental) m))
      end = Some m1 /\ rep_ok m1 /\ forall j, points j m1 = given incremental (share e standing incremental m j) j (points j m)) as (m1 & -> & Hm1 & Hpts).
  { destruct (GetRepSpilloverTemplate i) as [t|] eqn:Ht.
    - destruct (spill_template_spec standing incremental i t _ Ht (proj1 (Hok t Ht)) Hm0) as (m1 & -> & Hm1 & Hpts). exists m1. split_and!; [done..|].
      intros j. rewrite Hpts. unfold share. by rewrite Hid, Ht.
    - destruct (spill_team_spec i e standing incremental _ Hm0 He Ht) as [Hm1 Hpts]. eexists. split_and!; [done..|].
      intros j. by rewrite Hpts. }
  cbn [mbind option_bind]. destruct (finish_ok i e standing incremental m1 Hm1 He) as (m' & -> & Hok' & Hpts'). exists m'. split_and!; [done..|].
  intros j. rewrite Hpts'. destruct (Z.eqb_spec j i) as [->|]; [|apply Hpts].
  by rewrite Hpts, (own_share i e standing incremental m Hm He Hok).
Qed.

End Spread.
