(* ===== verification/ReputationLoad.v ===== *)
(** * Reputations in the table

    Initialize, LoadFromDB and SaveToDB keep the invariant, and what is saved is
    loaded again; the requests together. *)
From S2P Require Import Prelude.
From S2P Require Import Lists.
From S2P Require Import ByteBuffer.
From S2P Require Import Float.
From S2P Require Import Reputation.
From S2P Require Import ReputationRules.
From S2P Require Import ReputationSpread.
From Stdlib Require Import SpecFloat.
Local Open Scope Z_scope.

Section Load.
Context `{RepWorld}.
Hypothesis Hstore : store_ok.

(** A state without the marks that it waits to be sent or saved *)
Definition unmarked (f : FactionState) : FactionState := set_needSave false (set_needSend false f).

Lemma rep_ok_marks l rows m : (forall k, unmarked <$> l !! k = unmarked <$> _factions m !! k) ->
  map_Forall row_fits rows -> saved (set_rep_rows rows (set__factions l m)) -> rep_ok m -> rep_ok (set_rep_rows rows (set__factions l m)).
Proof.
  intros Hl Hrows Hsv [Hf Hall [Hcv Hch Hcr Hce] Hr Hs].
  assert (forall g : FactionState -> Z, (forall f, g (unmarked f) = g f) -> map_sum g l = map_sum g (_factions m)) as Hsum.
  { intros g Hg. apply map_sum_ext. intros k. specialize (Hl k). destruct (l !! k) as [f|], (_factions m !! k) as [f'|]; cbn in Hl |- *; try done.
    injection Hl as Hl. rewrite <- (Hg f), <- (Hg f'). by destruct f, f'; cbn in *; simplify_eq. }
  constructor; cbn.
  - intros k f' Hk. specialize (Hl k). rewrite Hk in Hl. destruct (_factions m !! k) as [f|] eqn:Hk'; [|done].
    destruct (Hf _ _ Hk'). destruct f, f'. cbn in Hl. simplify_eq. by constructor.
  - intros i e He Hle. specialize (Hl (list_key e)). destruct (Hall i e He Hle) as [f Hk]. rewrite Hk in Hl. by destruct (l !! list_key e).
  - constructor; cbn; unfold count_visible, count_rank; by rewrite Hsum.
  - done.
  - exact Hsv.
Qed.

(** ** Starting *)

(** The states of the entries that have been gone through *)
Record init_ok (done : list Z) (m : ReputationMgr) : Prop := {
  io_states : forall k f, _factions m !! k = Some f <->
    exists i e, i ∈ done /\ FactionStore i = Some e /\ 0 <= reputationListID e /\ k = list_key e /\ f = new_state e;
  io_counters : counters_ok m
}.

Lemma new_state_rank i e : FactionStore i = Some e -> rank_of (new_state e) = GetBaseRank e.
Proof.
  intros He. unfold rank_of, base_of, GetBaseRank. cbn [fs_ID Standing new_state]. by rewrite (proj1 (so_id Hstore _ _ He)), He, Z.add_0_r.
Qed.
Lemma no_rank floor : REP_HOSTILE < floor -> in_rank REP_HOSTILE floor = 0.
Proof. intros Hf. unfold in_rank. by rewrite (proj2 (Z.leb_gt _ _)). Qed.
Lemma UpdateRankCounters_start new m : UpdateRankCounters REP_HOSTILE new m =
  set__exaltedFactionCount (u8 (u8 (_exaltedFactionCount m) + in_rank new REP_EXALTED))
    (set__reveredFactionCount (u8 (u8 (_reveredFactionCount m) + in_rank new REP_REVERED))
      (set__honoredFactionCount (u8 (u8 (_honoredFactionCount m) + in_rank new REP_HONORED)) m)).
Proof. unfold UpdateRankCounters. by rewrite !no_rank, !Z.sub_0_r by done. Qed.

Lemma init_faction_ok done i m : i ∉ done -> init_ok done m -> init_ok (done ++ [i]) (init_faction m i).
Proof.
  intros Hnew [Hst Hc].
  assert (forall e, FactionStore i = Some e -> 0 <= reputationListID e -> _factions m !! list_key e = None) as Hnone.
  { intros e He Hl. destruct (_factions m !! list_key e) as [f|] eqn:Hf; [|done]. apply Hst in Hf as (j & e' & Hj & He' & Hl' & Hk & _).
    rewrite (list_key_small Hstore _ _ He Hl), (list_key_small Hstore _ _ He' Hl') in Hk.
    by rewrite (so_list Hstore _ _ _ _ He He') in Hnew. }
  unfold init_faction. destruct (FactionStore i) as [e|] eqn:He.
  2:{ split; [|done]. intros k f. rewrite Hst. setoid_rewrite elem_of_app. setoid_rewrite list_elem_of_singleton.
      split; intros (j & e' & Hj & He' & Hr); exists j, e'; [by auto|]. split; [|done]. destruct Hj as [| ->]; [done|congruence]. }
  destruct (Z.leb_spec 0 (reputationListID e)) as [Hl|Hl].
  2:{ split; [|done]. intros k f. rewrite Hst. setoid_rewrite elem_of_app. setoid_rewrite list_elem_of_singleton.
      split; intros (j & e' & Hj & He' & Hl' & Hr); exists j, e'; [by auto|]. split; [|done]. destruct Hj as [| ->]; [done|]. rewrite He in He'. simplify_eq. lia. }
  specialize (Hnone e eq_refl Hl). rewrite UpdateRankCounters_start. split.
  - intros k f.
    cbn [_factions set__exaltedFactionCount set__reveredFactionCount set__honoredFactionCount set__factions].
    assert (_factions (if has_flag (Flags (new_state e)) FACTION_FLAG_VISIBLE then set__visibleFactionCount (u8 (_visibleFactionCount m + 1)) m else m) = _factions m) as ->
      by (by case_match).
    rewrite lookup_insert_Some, Hst. setoid_rewrite elem_of_app. setoid_rewrite list_elem_of_singleton. split.
    + intros [[<- <-]|[Hk (j & e' & Hj & He' & Hr)]]; [by exists i, e; auto|exists j, e'; auto].
    + intros (j & e' & [Hj| ->] & He' & Hl' & -> & ->); [right|left; by rewrite He in He'; simplify_eq].
      split; [|by exists j, e']. intros Hk. rewrite Hk in Hnone. assert (_factions m !! list_key e' = Some (new_state e')) as Hs; [|congruence].
      apply Hst. by exists j, e'.
  - destruct Hc as [Hv Hh Hr He']. constructor; cbn [_factions _visibleFactionCount _honoredFactionCount _reveredFactionCount _exaltedFactionCount set__exaltedFactionCount set__reveredFactionCount set__honoredFactionCount set__factions];
      unfold count_visible, count_rank; (destruct (has_flag (Flags (new_state e)) FACTION_FLAG_VISIBLE) eqn:Hvis;
      cbn [_factions _visibleFactionCount _honoredFactionCount _reveredFactionCount _exaltedFactionCount set__visibleFactionCount];
      rewrite (map_sum_insert _ _ _ (new_state e)), ?(new_state_rank i e) by done).
    all: rewrite ?Hvis, ?Hv, ?Hh, ?Hr, ?He', ?u8_add; unfold u8; rewrite ?Z.mod_mod, ?Z.add_mod_idemp_l by lia; f_equal; fold (count_visible (_factions m)); try lia.
    all: unfold count_rank; lia.
Qed.

Lemma init_fold l done m : NoDup (done ++ l) -> init_ok done m -> init_ok (done ++ l) (foldl init_faction m l).
Proof.
  revert done m. induction l as [|i l IH]; intros done m Hnd Hm; [by rewrite app_nil_r|]. cbn [foldl].
  rewrite cons_middle, app_assoc in Hnd |- *. apply IH; [done|]. apply init_faction_ok; [|done].
  apply NoDup_app in Hnd as [Hnd _]. apply NoDup_app in Hnd as (_ & Hd & _). intros Hi. apply (Hd i Hi). by apply list_elem_of_singleton.
Qed.

Definition indices : list Z := Z.of_nat <$> seq 1 (FactionRows - 1).
Lemma NoDup_indices : NoDup indices.
Proof. apply NoDup_fmap_2; [apply _|]. apply NoDup_seq. Qed.
Lemma indices_in i e : FactionStore i = Some e -> i ∈ indices.
Proof.
  intros He. pose proof (so_id Hstore _ _ He). apply list_elem_of_fmap. exists (Z.to_nat i). split; [lia|]. apply elem_of_seq. lia.
Qed.

Lemma Initialize_rows m : rep_rows (Initialize m) = rep_rows m.
Proof.
  unfold Initialize. cbn [rep_rows set__factions].
  assert (forall l m0, rep_rows (foldl init_faction m0 l) = rep_rows m0) as Hl; [|by rewrite Hl].
  induction l as [|i l IH]; intros m0; [done|]. cbn [foldl]. rewrite IH. unfold init_faction. by repeat case_match.
Qed.
Lemma Initialize_states m k f : _factions (Initialize m) !! k = Some f <->
  exists i e, FactionStore i = Some e /\ 0 <= reputationListID e /\ k = list_key e /\ f = new_state e.
Proof.
  pose proof NoDup_indices as Hnd. change indices with ([] ++ indices) in Hnd.
  assert (init_ok ([] ++ indices) (Initialize m)) as [Hst _].
  { apply init_fold; [done|]. constructor; [|done]. intros k' f'. split; [done|]. intros (i & e & Hi & _). by apply elem_of_nil in Hi. }
  rewrite Hst. cbn [app]. split; intros (i & e & Hr); exists i, e; [by destruct Hr as (_ & ? & ? & ? & ?)|].
  split; [|exact Hr]. apply (indices_in i e), Hr.
Qed.
Lemma Initialize_counters m : counters_ok (Initialize m).
Proof.
  pose proof NoDup_indices as Hnd. change indices with ([] ++ indices) in Hnd.
  apply (init_fold indices [] _ Hnd). constructor; [|done]. intros k' f'. split; [done|]. intros (i & e & Hi & _). by apply elem_of_nil in Hi.
Qed.

Lemma Initialize_ok m : map_Forall row_fits (rep_rows m) -> rep_ok (Initialize m).
Proof.
  intros Hr. constructor.
  - intros k f (i & e & He & Hl & -> & ->)%Initialize_states. pose proof (proj1 (so_id Hstore _ _ He)) as Hid.
    assert (0 <= defaults e) as Hd by (unfold defaults, u8; apply Z.mod_pos_bound; lia). constructor; [|done|].
    + exists e. cbn [fs_ID Flags new_state]. rewrite Hid. split_and!; try done. by apply flags_ok_refl.
    + unfold base_of. cbn [fs_ID Standing new_state]. rewrite Hid, He. pose proof (so_base Hstore _ _ He). lia.
  - intros i e He Hl. exists (new_state e). apply Initialize_states. by exists i, e.
  - apply Initialize_counters.
  - by rewrite Initialize_rows.
  - intros k f (i & e & He & Hl & -> & ->)%Initialize_states. done.
Qed.

(** ** One row *)

(** What a row makes of a state *)
Definition made_visible (f : FactionState) : FactionState :=
  if has_flag (Flags f) (Z.lor FACTION_FLAG_INVISIBLE_FORCED FACTION_FLAG_HIDDEN) && negb (has_flag (Flags f) FACTION_FLAG_SPECIAL) then f
  else if has_flag (Flags f) FACTION_FLAG_VISIBLE then f
  else to_save (set_Flags (add_flag (Flags f) FACTION_FLAG_VISIBLE) f).
Definition load_flags (e : FactionEntry) (standing db : Z) (f : FactionState) : FactionState :=
  let f := if has_flag db FACTION_FLAG_VISIBLE then made_visible f else f in
  let f := if has_flag db FACTION_FLAG_INACTIVE then made_inactive f true else f in
  let f := if has_flag db FACTION_FLAG_AT_WAR then at_war f true else if has_flag (Flags f) FACTION_FLAG_VISIBLE then at_war f false else f in
  if ReputationToRank (s32 (GetBaseReputation e + standing)) <=? REP_HOSTILE then at_war f true else f.
Definition load_state (e : FactionEntry) (standing db : Z) (f : FactionState) : FactionState :=
  let f := load_flags e standing db (set_Standing standing f) in
  if Flags f =? db then set_needSave false (set_needSend false f) else f.

Lemma SetVisible_states k m : _factions (SetVisible_state k m) = alter made_visible k (_factions m).
Proof.
  unfold SetVisible_state. destruct (_factions m !! k) as [f|] eqn:Hk; [|by rewrite alter_id by congruence].
  assert (forall g, g f = made_visible f -> alter g k (_factions m) = alter made_visible k (_factions m)) as Halt.
  { intros g Hg. apply map_eq. intros j. rewrite !lookup_alter. case_decide; [subst|done]. rewrite Hk. cbn. by rewrite Hg. }
  assert (alter id k (_factions m) = _factions m) as Hid by (apply alter_id; done).
  case_match eqn:H1; [rewrite <- Halt with (g := id); [done|]; unfold made_visible; by rewrite H1|].
  case_match eqn:H2; [rewrite <- Halt with (g := id); [done|]; unfold made_visible; by rewrite H1, H2|].
  rewrite <- (Halt (fun f => to_save (set_Flags (add_flag (Flags f) FACTION_FLAG_VISIBLE) f))) by (unfold made_visible; by rewrite H1, H2).
  unfold SendVisible. by case_match.
Qed.

Lemma alter_alter k g h (l : gmap Z FactionState) : alter h k (alter g k l) = alter (fun f => h (g f)) k l.
Proof. apply map_eq. intros j. rewrite !lookup_alter. repeat case_decide; try done. subst j. by destruct (l !! k). Qed.
Lemma alter_same k g h (l : gmap Z FactionState) : (forall f, l !! k = Some f -> g f = h f) -> alter g k l = alter h k l.
Proof. intros Hg. apply map_eq. intros j. rewrite !lookup_alter. case_decide; [subst|done]. destruct (l !! j) eqn:Hj; [|done]. cbn. by rewrite Hg. Qed.

Lemma if_same_standing (b : bool) g f : Standing (g f) = Standing f -> Standing (if b then g f else f) = Standing f.
Proof. by destruct b. Qed.
Lemma Standing_made_visible f : Standing (made_visible f) = Standing f.
Proof. unfold made_visible. by repeat case_match. Qed.
Lemma Standing_load_flags e standing db f : Standing (load_flags e standing db f) = Standing f.
Proof.
  assert (forall f, Standing (at_war f true) = Standing f) as Hw by (intros; apply milder_at_war).
  unfold load_flags. rewrite if_same_standing with (g := fun f => at_war f true) by apply Hw.
  transitivity (Standing (if has_flag db FACTION_FLAG_INACTIVE then made_inactive (if has_flag db FACTION_FLAG_VISIBLE then made_visible f else f) true
    else if has_flag db FACTION_FLAG_VISIBLE then made_visible f else f)).
  { case_match; [apply Hw|]. apply (if_same_standing _ (fun f => at_war f false)), milder_at_war. }
  rewrite if_same_standing with (g := fun f => made_inactive f true) by apply milder_made_inactive.
  apply if_same_standing, Standing_made_visible.
Qed.

(** Operations that change one state and no row *)
Definition acts (k : Z) (g : FactionState -> FactionState) (m m' : ReputationMgr) : Prop :=
  _factions m' = alter g k (_factions m) /\ rep_rows m' = rep_rows m.
Lemma acts_refl k m : acts k id m m.
Proof. split; [|done]. symmetry. by apply alter_id. Qed.
Lemma acts_upd k g m : acts k g m (upd_faction k g m).
Proof. done. Qed.
Lemma acts_counters k old new m : acts k id m (UpdateRankCounters old new m).
Proof. exact (acts_refl k m). Qed.
Lemma acts_visible k m : acts k made_visible m (SetVisible_state k m).
Proof.
  split; [apply SetVisible_states|]. unfold SetVisible_state, SendVisible. by repeat case_match.
Qed.
Lemma acts_trans k g h m m' m'' : acts k g m m' -> acts k h m' m'' -> acts k (fun f => h (g f)) m m''.
Proof. intros [H1 H2] [H3 H4]. split; [by rewrite H3, H1, alter_alter|congruence]. Qed.
Lemma acts_if (b : bool) k g m m' : acts k g m m' -> acts k (fun f => if b then g f else f) m (if b then m' else m).
Proof. intros Ha. destruct b; [done|apply acts_refl]. Qed.

(** Only the state of the row's faction changes. *)
Lemma load_entry_acts m e standing db f : _factions m !! list_key e = Some f -> 0 <= reputationListID e ->
  acts (list_key e) (load_state e standing db) m (load_entry e standing db m).
Proof.
  intros Hf Hl. unfold load_entry. set (k := list_key e) in *.
  set (m1 := UpdateRankCounters _ _ _).
  set (m2 := if has_flag db FACTION_FLAG_VISIBLE then _ else _).
  set (m3 := if has_flag db FACTION_FLAG_INACTIVE then _ else _).
  set (m4 := if has_flag db FACTION_FLAG_AT_WAR then _ else _).
  set (m5 := if _ <=? REP_HOSTILE then _ else _).
  assert (acts k (set_Standing standing) m m1) as H1 by exact (acts_trans _ _ _ _ _ _ (acts_upd _ _ _) (acts_counters _ _ _ _)).
  assert (acts k (fun f => if has_flag db FACTION_FLAG_VISIBLE then made_visible f else f) m1 m2) as H2 by (apply acts_if, acts_visible).
  assert (acts k (fun f => if has_flag db FACTION_FLAG_INACTIVE then made_inactive f true else f) m2 m3) as H3 by (apply acts_if, acts_upd).
  assert (acts k (fun f => if has_flag db FACTION_FLAG_AT_WAR then at_war f true else if has_flag (Flags f) FACTION_FLAG_VISIBLE then at_war f false else f) m3 m4) as H4
    by (unfold m4; destruct (has_flag db FACTION_FLAG_AT_WAR); apply acts_upd).
  pose proof (acts_trans _ _ _ _ _ _ (acts_trans _ _ _ _ _ _ (acts_trans _ _ _ _ _ _ H1 H2) H3) H4) as H14.
  assert (GetRank e m4 = ReputationToRank (s32 (GetBaseReputation e + standing))) as Hrank.
  { unfold GetRank, GetReputation, GetState. rewrite (proj2 (Z.leb_le _ _) Hl). fold k. rewrite (proj1 H14), lookup_alter_eq, Hf. cbn [fmap option_fmap option_map].
    pose proof (Standing_load_flags e standing db (set_Standing standing f)) as Hs. unfold load_flags in Hs.
    rewrite if_same_standing with (g := fun f => at_war f true) in Hs by apply milder_at_war. by rewrite Hs. }
  assert (acts k (fun f => if ReputationToRank (s32 (GetBaseReputation e + standing)) <=? REP_HOSTILE then at_war f true else f) m4 m5) as H5
    by (unfold m5; rewrite Hrank; apply acts_if, acts_upd).
  exact (acts_trans _ _ _ _ _ _ (acts_trans _ _ _ _ _ _ H14 H5) (acts_upd _ _ _)).
Qed.

Lemma Standing_load_state e standing db f : Standing (load_state e standing db f) = standing.
Proof.
  unfold load_state. rewrite (if_same_standing _ (fun f => set_needSave false (set_needSend false f))) by done. apply Standing_load_flags.
Qed.

(** States that change in their marks alone *)
Lemma rep_ok_remark k g m : (forall f, unmarked (g f) = unmarked f) -> saved (upd_faction k g m) -> rep_ok m -> rep_ok (upd_faction k g m).
Proof.
  intros Hg Hsv Hm. apply (rep_ok_same (set_rep_rows (rep_rows m) (upd_faction k g m))); [done|].
  apply (rep_ok_marks (alter g k (_factions m)) (rep_rows m)); [|apply Hm|exact Hsv|done].
  intros j. rewrite lookup_alter. case_decide; [subst j|done]. destruct (_factions m !! k); [|done]. cbn [fmap option_fmap option_map]. by rewrite Hg.
Qed.

(** A row of an entry that has its first state is loaded. *)
Lemma load_entry_ok m i e standing db : rep_ok m -> FactionStore i = Some e -> 0 <= reputationListID e ->
  _factions m !! list_key e = Some (new_state e) -> rep_rows m !! i = Some (standing, db) -> rep_ok (load_entry e standing db m).
Proof.
  intros Hm He Hl Hf Hrow. destruct (ro_rows m Hm _ _ Hrow) as (_ & _ & Hb). specialize (Hb e He). cbn in Hb.
  destruct (load_entry_acts m e standing db _ Hf Hl) as [Hst Hrows]. unfold load_entry in *. set (k := list_key e) in *.
  rewrite (s32_standing (GetBaseReputation e + standing)) in * by done.
  set (m1 := UpdateRankCounters _ _ _) in *.
  set (m2 := if has_flag db FACTION_FLAG_VISIBLE then _ else _) in *.
  set (m3 := if has_flag db FACTION_FLAG_INACTIVE then _ else _) in *.
  set (m4 := if has_flag db FACTION_FLAG_AT_WAR then _ else _) in *.
  set (m5 := if _ <=? REP_HOSTILE then _ else _) in *.
  assert (rep_ok m1) as H1.
  { unfold m1. replace (ReputationToRank (GetBaseReputation e)) with (rank_of (new_state e)) by (by apply (new_state_rank i)).
    by apply (set_standing_ok Hstore m i e (new_state e)). }
  assert (rep_ok m2) as H2 by (unfold m2; case_match; [by apply SetVisible_state_ok|done]).
  assert (rep_ok m3) as H3 by (unfold m3; case_match; [by apply SetInactive_ok|done]).
  assert (rep_ok m4) as H4.
  { unfold m4. case_match; [by apply SetAtWar_state_ok|]. apply upd_quiet; [done|..]; intros f _; (case_match; [|done || apply milder_refl]);
      [apply milder_at_war|apply at_war_visible]. }
  assert (rep_ok m5) as H5 by (unfold m5; case_match; [by apply SetAtWar_state_ok|done]).
  apply rep_ok_remark; [intros f; by case_match| |done]. intros k' f'. cbn [upd_faction set__factions _factions]. rewrite lookup_alter_Some.
  intros [[<- (f & Hk & ->)]|[_ Hk]]; [|exact (ro_saved m5 H5 _ _ Hk)].
  destruct (Z.eqb_spec (Flags f) db) as [Hfl|]; [intros _|exact (ro_saved m5 H5 _ _ Hk)].
  destruct (faction_entry Hstore m5 i e f H5 He Hk Hl) as [Hid _].
  rewrite Hrows. cbn [fs_ID Standing Flags set_needSave set_needSend]. rewrite Hid, Hrow.
  do 2 f_equal; [|done].
  assert (_factions (upd_faction k (fun f => if Flags f =? db then set_needSave false (set_needSend false f) else f) m5) !! k = Some (load_state e standing db (new_state e))) as Hend
    by (rewrite Hst, lookup_alter_eq; by rewrite Hf).
  cbn in Hend. rewrite lookup_alter_eq, Hk in Hend. cbn [fmap option_fmap option_map] in Hend. injection Hend as Hend.
  rewrite <- (Standing_load_state e standing db (new_state e)), <- Hend. by case_match.
Qed.

(** ** The table *)

(** A row changes the state of its faction, if there is such a faction, and
    nothing else. *)
Lemma load_row_step m i standing db : rep_ok m -> rep_rows m !! i = Some (standing, db) ->
  (forall e, FactionStore i = Some e -> 0 <= reputationListID e -> _factions m !! list_key e = Some (new_state e)) ->
  let m' := load_row m (i, (standing, db)) in
  rep_ok m' /\ rep_rows m' = rep_rows m /\
  forall j e, FactionStore j = Some e -> 0 <= reputationListID e ->
    _factions m' !! list_key e = if decide (j = i) then Some (load_state e standing db (new_state e)) else _factions m !! list_key e.
Proof.
  intros Hm Hrow Hnew. destruct (ro_rows m Hm _ _ Hrow) as (Hi & Hdb & _). cbn [snd] in Hdb. cbn zeta. unfold load_row, u16. rewrite !Z.mod_small by lia.
  destruct (FactionStore i) as [e|] eqn:He; [|split_and!; try done; intros j e' He' _; rewrite decide_False by congruence; done].
  destruct (Z.leb_spec 0 (reputationListID e)) as [Hl|Hl].
  2:{ split_and!; try done. intros j e' He' Hl'. rewrite decide_False; [done|]. intros ->. rewrite He in He'. simplify_eq. lia. }
  specialize (Hnew e eq_refl Hl). split; [by apply (load_entry_ok m i)|].
  destruct (load_entry_acts m e standing db _ Hnew Hl) as [Hst Hrows]. split; [done|]. intros j e' He' Hl'. rewrite Hst. case_decide as Hj.
  - subst j. rewrite He in He'. injection He' as <-. by rewrite lookup_alter_eq, Hnew.
  - rewrite lookup_alter_ne; [done|]. rewrite (list_key_small Hstore _ _ He Hl), (list_key_small Hstore _ _ He' Hl'). intros Hk.
    by apply Hj, (so_list Hstore _ _ _ _ He' He).
Qed.

Lemma load_fold l m : rep_ok m -> NoDup l.*1 -> (forall i row, (i, row) ∈ l -> rep_rows m !! i = Some row) ->
  (forall i e, i ∈ l.*1 -> FactionStore i = Some e -> 0 <= reputationListID e -> _factions m !! list_key e = Some (new_state e)) ->
  let m' := foldl load_row m l in
  rep_ok m' /\ rep_rows m' = rep_rows m /\
  forall j e, FactionStore j = Some e -> 0 <= reputationListID e ->
    (forall standing db, (j, (standing, db)) ∈ l -> _factions m' !! list_key e = Some (load_state e standing db (new_state e))) /\
    (j ∉ l.*1 -> _factions m' !! list_key e = _factions m !! list_key e).
Proof.
  cbn zeta. revert m. induction l as [|[i [st db]] l IH]; intros m Hm Hnd Hrows Hnew.
  - split_and!; [done..|]. intros j e _ _. split; [|done]. by intros ? ? ?%elem_of_nil.
  - cbn [foldl]. rewrite fmap_cons in Hnd. apply NoDup_cons in Hnd as [Hnin Hnd]. cbn [fst] in Hnin.
    destruct (load_row_step m i st db) as (Hm1 & Hr1 & Hst1); [done|by apply Hrows; left|by intros e; apply Hnew; left|].
    destruct (IH (load_row m (i, (st, db)))) as (Hok & Hr & Hst); [done|done|..].
    + intros j row Hj. rewrite Hr1. apply Hrows. by right.
    + intros j e Hj He Hl. rewrite (Hst1 j) by done. rewrite decide_False by (by intros ->). apply (Hnew j); [by right|done..].
    + split_and!; [done|by rewrite Hr|]. intros j e He Hl. destruct (Hst j e He Hl) as [Hin Hout]. split.
      * intros st' db' [[= -> -> ->]|Hj]%elem_of_cons; [|by apply Hin]. rewrite Hout by done. rewrite (Hst1 i) by done. by rewrite decide_True.
      * intros [Hne Hni]%not_elem_of_cons. rewrite Hout by done. rewrite (Hst1 j) by done. by rewrite decide_False.
Qed.

Lemma LoadFromDB_spec m : map_Forall row_fits (rep_rows m) ->
  rep_ok (LoadFromDB m) /\ rep_rows (LoadFromDB m) = rep_rows m /\
  forall j e, FactionStore j = Some e -> 0 <= reputationListID e ->
    _factions (LoadFromDB m) !! list_key e =
      Some (match rep_rows m !! j with Some (standing, db) => load_state e standing db (new_state e) | None => new_state e end).
Proof.
  intros Hr. pose proof (Initialize_ok m Hr) as Hm.
  assert (forall i e, FactionStore i = Some e -> 0 <= reputationListID e -> _factions (Initialize m) !! list_key e = Some (new_state e)) as Hnew
    by (intros i e He Hl; apply Initialize_states; by exists i, e).
  destruct (load_fold (map_to_list (rep_rows m)) (Initialize m)) as (Hok & Hrows & Hst); [done|apply NoDup_fst_map_to_list|..].
  - intros i row Hi%elem_of_map_to_list. by rewrite Initialize_rows.
  - intros i e _. apply Hnew.
  - split_and!; [done|by rewrite <- (Initialize_rows m)|]. intros j e He Hl. destruct (Hst j e He Hl) as [Hin Hout].
    destruct (rep_rows m !! j) as [[st db]|] eqn:Hj; [by apply Hin, elem_of_map_to_list|].
    fold (LoadFromDB m) in Hout. rewrite Hout; [by apply (Hnew j)|]. intros ([i [st db]] & Heq & Hi%elem_of_map_to_list)%list_elem_of_fmap. cbn in Heq. congruence.
Qed.

Lemma faction_id m k f : rep_ok m -> _factions m !! k = Some f ->
  exists e, FactionStore (fs_ID f) = Some e /\ 0 <= reputationListID e /\ k = list_key e /\ flags_ok (defaults e) (Flags f) /\ is_byte (Flags f).
Proof.
  intros Hm Hf. destruct (ro_factions m Hm _ _ Hf) as [(e & He & Hl & Hk & Hfl) _ _]. exists e. split_and!; try done.
  apply (flags_byte (defaults e)); [|done]. unfold defaults, u8. apply Z.mod_pos_bound. lia.
Qed.
Lemma faction_id_inj m k k' f f' : rep_ok m -> _factions m !! k = Some f -> _factions m !! k' = Some f' -> fs_ID f = fs_ID f' -> k = k'.
Proof.
  intros Hm Hf Hf' Hid. destruct (faction_id m k f Hm Hf) as (e & He & _ & -> & _), (faction_id m k' f' Hm Hf') as (e' & He' & _ & -> & _).
  rewrite Hid, He' in He. by injection He as ->.
Qed.

Lemma save_row_ok m k f : rep_ok m -> _factions m !! k = Some f ->
  rep_ok (save_row m (k, f)) /\ _factions (save_row m (k, f)) = alter (set_needSave false) k (_factions m).
Proof.
  intros Hm Hf. unfold save_row. cbn [fst snd]. destruct (needSave f) eqn:Hn.
  2:{ split; [done|]. symmetry. apply alter_id. intros f' Hf'. rewrite Hf in Hf'. injection Hf' as <-. destruct f. cbn in Hn. by subst. }
  destruct (faction_id m k f Hm Hf) as (e & He & Hl & Hk & Hfl & Hbyte).
  pose proof (so_id Hstore _ _ He) as [Hid Hi]. pose proof (so_rows Hstore) as Hmax. unfold is_byte in Hbyte.
  assert (u16 (fs_ID f) = fs_ID f) as -> by (apply Z.mod_small; lia). assert (u16 (Flags f) = Flags f) as -> by (apply Z.mod_small; lia).
  split; [|done]. change (rep_ok (set_rep_rows (<[fs_ID f := (Standing f, Flags f)]> (rep_rows m)) (set__factions (alter (set_needSave false) k (_factions m)) m))).
  apply rep_ok_marks; [..|done].
  - intros j. rewrite lookup_alter. case_decide; [subst j|done]. by destruct (_factions m !! k).
  - apply map_Forall_insert_2; [|apply Hm]. split_and!; cbn [snd fst]; [lia..|]. intros e' He'. rewrite He in He'. injection He' as <-.
    pose proof (fo_standing _ _ (ro_factions m Hm _ _ Hf)) as Hb. unfold base_of in Hb. by rewrite He in Hb.
  - intros k' f'. cbn. rewrite lookup_alter_Some. intros [[<- (f0 & Hk0 & ->)]|[Hne Hk']] Hns.
    + rewrite Hf in Hk0. injection Hk0 as <-. by rewrite lookup_insert_eq.
    + rewrite lookup_insert_ne; [exact (ro_saved m Hm _ _ Hk' Hns)|]. intros Heq. by apply Hne, (faction_id_inj m k k' f f').
Qed.

Lemma save_fold l m : rep_ok m -> NoDup l.*1 -> (forall k f, (k, f) ∈ l -> _factions m !! k = Some f) ->
  let m' := foldl save_row m l in
  rep_ok m' /\ forall k, _factions m' !! k = if decide (k ∈ l.*1) then set_needSave false <$> _factions m !! k else _factions m !! k.
Proof.
  cbn zeta. revert m. induction l as [|[k f] l IH]; intros m Hm Hnd Hin.
  - split; [done|]. intros k. rewrite decide_False; [done|]. apply not_elem_of_nil.
  - cbn [foldl]. rewrite fmap_cons in Hnd |- *. apply NoDup_cons in Hnd as [Hnin Hnd]. cbn [fst] in Hnin |- *.
    destruct (save_row_ok m k f Hm) as [Hm1 Hst1]; [by apply Hin; left|].
    assert (forall j, j <> k -> _factions (save_row m (k, f)) !! j = _factions m !! j) as Hoth by (intros j Hj; by rewrite Hst1, lookup_alter_ne).
    destruct (IH (save_row m (k, f)) Hm1 Hnd) as [Hok Hst].
    + intros j g Hj. rewrite Hoth; [by apply Hin; right|]. intros ->. apply Hnin. by apply (list_elem_of_fmap_2 fst) in Hj.
    + split; [done|]. intros j. rewrite Hst. destruct (decide (j = k)) as [->|Hj].
      * rewrite decide_False by done. rewrite decide_True by (by left). by rewrite Hst1, lookup_alter_eq.
      * rewrite Hoth by done. destruct (decide (j ∈ l.*1)); [by rewrite decide_True by (by right)|].
        rewrite decide_False; [done|]. by intros [?|?]%elem_of_cons.
Qed.

(** Afterwards the table has every state, and no state changes but for its mark. *)
Lemma SaveToDB_spec m : rep_ok m ->
  rep_ok (SaveToDB m) /\ (forall k, _factions (SaveToDB m) !! k = set_needSave false <$> _factions m !! k) /\
  forall k f, _factions m !! k = Some f -> rep_rows (SaveToDB m) !! fs_ID f = Some (Standing f, Flags f).
Proof.
  intros Hm. destruct (save_fold (map_ordered (_factions m)) m Hm) as [Hok Hst].
  - apply NoDup_map_ordered.
  - intros k f. by rewrite elem_of_map_ordered.
  - assert (forall k, _factions (SaveToDB m) !! k = set_needSave false <$> _factions m !! k) as Hall.
    { intros k. unfold SaveToDB. rewrite Hst. case_decide as Hk; [done|]. rewrite map_keys_in in Hk. apply not_elem_of_dom in Hk. by rewrite Hk. }
    split_and!; [done..|]. intros k f Hf. pose proof (Hall k) as Hk. rewrite Hf in Hk. exact (ro_saved _ Hok _ _ Hk eq_refl).
Qed.

(** ** What is loaded is what was saved *)

Lemma bits_made_visible f i : 0 <= i ->
  Z.testbit (Flags (made_visible f)) i =
  if decide (i = 0) then Z.testbit (Flags f) 0 || negb (hidden (Flags f)) || Z.testbit (Flags f) 7 else Z.testbit (Flags f) i.
Proof.
  intros Hi. unfold made_visible. rewrite has_hidden, has_SPECIAL, has_VISIBLE. fold (hidden (Flags f)).
  change FACTION_FLAG_VISIBLE with (2 ^ 0).
  destruct (hidden (Flags f)) eqn:Hh, (Z.testbit (Flags f) 7) eqn:H7; cbn [andb negb];
    destruct (Z.testbit (Flags f) 0) eqn:H0; cbn [orb]; cbn [Flags to_save set_needSave set_needSend set_Flags]; case_decide; subst; try done; by bits.
Qed.
Lemma bits_made_inactive f i : 0 <= i ->
  Z.testbit (Flags (made_inactive f true)) i =
  if decide (i = 5) then Z.testbit (Flags f) 5 || (negb (hidden (Flags f)) && Z.testbit (Flags f) 0) else Z.testbit (Flags f) i.
Proof.
  intros Hi. unfold made_inactive. rewrite has_hidden, has_INACTIVE, has_VISIBLE. fold (hidden (Flags f)). change FACTION_FLAG_INACTIVE with (2 ^ 5).
  destruct (hidden (Flags f)), (Z.testbit (Flags f) 0) eqn:H0; cbn [andb negb orb eqb];
    destruct (Z.testbit (Flags f) 5) eqn:H5; cbn [eqb orb]; cbn [Flags to_save set_needSave set_needSend set_Flags]; case_decide; subst; try done; by bits.
Qed.
Lemma bits_at_war f w i : 0 <= i ->
  Z.testbit (Flags (at_war f w)) i = if decide (i = 1) then w && (Z.testbit (Flags f) 1 || negb (Z.testbit (Flags f) 4)) else Z.testbit (Flags f) i.
Proof.
  intros Hi. unfold at_war. rewrite has_PEACE, has_AT_WAR. change FACTION_FLAG_AT_WAR with (2 ^ 1).
  destruct w, (Z.testbit (Flags f) 4) eqn:H4; cbn [andb negb orb];
    destruct (Z.testbit (Flags f) 1) eqn:H1; cbn [eqb orb]; cbn [Flags to_save set_needSave set_needSend set_Flags]; case_decide; subst; try done; by bits.
Qed.

Definition hostile (e : FactionEntry) (standing : Z) : bool := ReputationToRank (GetBaseReputation e + standing) <=? REP_HOSTILE.

Section Flags.
Context (e : FactionEntry) (standing fl : Z).
Hypothesis Hfl : flags_ok (defaults e) fl.
Hypothesis Hb : Reputation_Bottom <= GetBaseReputation e + standing <= Reputation_Cap.
Notation d := (defaults e).
Notation start := (set_Standing standing (new_state e)).
Notation shown := (if has_flag fl FACTION_FLAG_VISIBLE then made_visible start else start).
Notation set_aside := (if has_flag fl FACTION_FLAG_INACTIVE then made_inactive shown true else shown).
Notation fought := (if has_flag fl FACTION_FLAG_AT_WAR then at_war set_aside true else if has_flag (Flags set_aside) FACTION_FLAG_VISIBLE then at_war set_aside false else set_aside).

Lemma bits_shown i : 0 <= i -> Z.testbit (Flags shown) i = if decide (i = 0) then Z.testbit fl 0 else Z.testbit d i.
Proof using Hfl.
  intros Hi. rewrite has_VISIBLE. destruct (Z.testbit fl 0) eqn:H0.
  - rewrite bits_made_visible by done. case_decide; [|done]. change (Flags start) with d.
    destruct (fl_shown _ _ Hfl H0) as [->|[->| ->]]; by rewrite ?orb_true_r.
  - change (Flags start) with d. case_decide; [subst|done]. destruct (Z.testbit d 0) eqn:Hd; [|done]. by rewrite (fl_stays _ _ Hfl Hd) in H0.
Qed.
Lemma hidden_shown : hidden (Flags shown) = hidden d.
Proof using Hfl. unfold hidden. by rewrite !bits_shown by lia. Qed.
Lemma bits_set_aside i : 0 <= i ->
  Z.testbit (Flags set_aside) i = if decide (i = 0) then Z.testbit fl 0 else if decide (i = 5) then Z.testbit fl 5 || Z.testbit d 5 else Z.testbit d i.
Proof using Hfl.
  intros Hi. rewrite has_INACTIVE. destruct (Z.testbit fl 5) eqn:H5.
  - rewrite bits_made_inactive, hidden_shown, !bits_shown by lia. cbn [decide]. repeat case_decide; subst; try done.
    change (Z.testbit d 5 || (negb (hidden d) && Z.testbit fl 0) = true).
    destruct (fl_inactive _ _ Hfl H5) as [->|[-> ->]]; [done|by rewrite orb_true_r].
  - rewrite bits_shown by lia. repeat case_decide; by subst.
Qed.
Lemma bits_fought i : 0 <= i ->
  Z.testbit (Flags fought) i = if decide (i = 1) then Z.testbit fl 1 || (negb (Z.testbit fl 0) && Z.testbit d 1) else Z.testbit (Flags set_aside) i.
Proof using Hfl.
  intros Hi. rewrite (has_AT_WAR fl), (has_VISIBLE (Flags set_aside)), (bits_set_aside 0) by lia. rewrite decide_True by done.
  destruct (Z.testbit fl 1) eqn:H1; [|destruct (Z.testbit fl 0) eqn:H0]; rewrite ?bits_at_war by lia; case_decide; subst; try done.
  - rewrite !bits_set_aside by lia. change ((Z.testbit d 1 || negb (Z.testbit d 4)) = true).
    destruct (fl_war _ _ Hfl H1) as [->| ->]; [done|by rewrite orb_true_r].
  - rewrite bits_set_aside by lia. done.
Qed.

(** Shown or not is loaded; set aside if it is so from the start, too; at war also
    with what cannot be seen and was at war from the start, and with everything
    hostile that may be fought. *)
Lemma load_flags_bits i : 0 <= i ->
  Z.testbit (Flags (load_flags e standing fl start)) i =
  if decide (i = 0) then Z.testbit fl 0
  else if decide (i = 1) then Z.testbit fl 1 || (negb (Z.testbit fl 0) && Z.testbit d 1) || (hostile e standing && negb (Z.testbit d 4))
  else if decide (i = 5) then Z.testbit fl 5 || Z.testbit d 5
  else Z.testbit d i.
Proof using Hfl Hb.
  intros Hi. unfold load_flags. rewrite s32_standing by done. fold (hostile e standing). destruct (hostile e standing).
  - rewrite bits_at_war, !bits_fought, !bits_set_aside by lia. cbn [andb]. repeat case_decide; subst; try done.
  - rewrite bits_fought, bits_set_aside by lia. cbn [andb]. rewrite orb_false_r. repeat case_decide; subst; done.
Qed.
End Flags.

(** The two marks a player can take off and a login puts back: that of a faction
    set aside from the start, and that of war with what is hostile or cannot be
    seen. *)
Definition settled (e : FactionEntry) (f : FactionState) : Prop :=
  (Z.testbit (defaults e) 5 = true -> Z.testbit (Flags f) 5 = true) /\
  (Z.testbit (Flags f) 1 = false ->
    (Z.testbit (Flags f) 0 = true \/ Z.testbit (defaults e) 1 = false) /\
    (hostile e (Standing f) = false \/ Z.testbit (defaults e) 4 = true)).

Lemma Flags_load_state e standing db f : Flags (load_state e standing db f) = Flags (load_flags e standing db (set_Standing standing f)).
Proof. unfold load_state. by case_match. Qed.

Lemma load_flags_settled e f : flags_ok (defaults e) (Flags f) -> Reputation_Bottom <= GetBaseReputation e + Standing f <= Reputation_Cap ->
  settled e f <-> Flags (load_state e (Standing f) (Flags f) (new_state e)) = Flags f.
Proof.
  intros Hfl Hb. rewrite Flags_load_state. pose proof (load_flags_bits e (Standing f) (Flags f) Hfl Hb) as Hbits. split.
  - intros [H5 H1]. apply Z.bits_inj'. intros i Hi. rewrite Hbits by done. repeat case_decide; subst; [done|..].
    + destruct (Z.testbit (Flags f) 1) eqn:Hw; [done|]. destruct (H1 eq_refl) as [Hs Hh]. cbn [orb].
      apply orb_false_iff. split; [destruct Hs as [-> | ->]; [done|by rewrite andb_false_r]|destruct Hh as [-> | ->]; [done|by rewrite andb_false_r]].
    + destruct (Z.testbit (defaults e) 5) eqn:Hd; [by rewrite H5|]. by rewrite orb_false_r.
    + symmetry. by apply Hfl.
  - intros Heq. rewrite Heq in Hbits. split.
    + intros Hd. rewrite (Hbits 5) by lia. change (Z.testbit (Flags f) 5 || Z.testbit (defaults e) 5 = true). by rewrite Hd, orb_true_r.
    + intros Hw. specialize (Hbits 1 ltac:(lia)). rewrite decide_False, decide_True, Hw in Hbits by lia. symmetry in Hbits. cbn [orb] in Hbits.
      apply orb_false_iff in Hbits as [Hs%andb_false_iff Hh%andb_false_iff]. rewrite negb_false_iff in Hs, Hh. auto.
Qed.

(** C23: Saving and logging in again gives every faction the standing it had and
    shows the same ones; the marks of war and of being set aside are the same
    exactly when they are settled, the others in any case; and what counts the
    ranks and the factions that are shown is what it was. *)
Theorem saved_reputations_load m : rep_ok m ->
  let m' := LoadFromDB (new_ReputationMgr (rep_rows (SaveToDB m))) in
  rep_ok m' /\
  (forall i e f, FactionStore i = Some e -> 0 <= reputationListID e -> _factions m !! list_key e = Some f ->
    exists f', _factions m' !! list_key e = Some f' /\ Standing f' = Standing f /\
      (forall b, 0 <= b -> b <> 1 -> b <> 5 -> Z.testbit (Flags f') b = Z.testbit (Flags f) b) /\
      (settled e f <-> Flags f' = Flags f)) /\
  (_visibleFactionCount m', _honoredFactionCount m', _reveredFactionCount m', _exaltedFactionCount m') =
  (_visibleFactionCount m, _honoredFactionCount m, _reveredFactionCount m, _exaltedFactionCount m).
Proof.
  intros Hm. destruct (SaveToDB_spec m Hm) as (Hs & _ & Hrows).
  destruct (LoadFromDB_spec (new_ReputationMgr (rep_rows (SaveToDB m))) (ro_rows _ Hs)) as (Hm' & _ & Hst). set (m' := LoadFromDB _) in *. cbn zeta.
  assert (forall i e f, FactionStore i = Some e -> 0 <= reputationListID e -> _factions m !! list_key e = Some f ->
    flags_ok (defaults e) (Flags f) /\ Reputation_Bottom <= GetBaseReputation e + Standing f <= Reputation_Cap /\
    _factions m' !! list_key e = Some (load_state e (Standing f) (Flags f) (new_state e))) as Hload.
  { intros i e f He Hl Hf. destruct (faction_entry Hstore m i e f Hm He Hf Hl) as (Hid & _ & Hfl). split; [done|].
    destruct (entry_reputation Hstore m i e f Hm He Hl Hf) as (_ & _ & Hb & _). split; [done|].
    rewrite (Hst i e He Hl). cbn [rep_rows new_ReputationMgr]. by rewrite <- Hid, (Hrows _ _ Hf). }
  assert (forall i e f, FactionStore i = Some e -> 0 <= reputationListID e -> _factions m !! list_key e = Some f ->
    exists f', _factions m' !! list_key e = Some f' /\ Standing f' = Standing f /\
      (forall b, 0 <= b -> b <> 1 -> b <> 5 -> Z.testbit (Flags f') b = Z.testbit (Flags f) b) /\
      (settled e f <-> Flags f' = Flags f)) as Hall.
  { intros i e f He Hl Hf. destruct (Hload i e f He Hl Hf) as (Hfl & Hb & Hf'). eexists. split_and!; [exact Hf'|apply Standing_load_state| |by apply load_flags_settled].
    intros b Hb0 Hb1 Hb5. rewrite Flags_load_state, load_flags_bits by done. case_decide; [by subst|]. rewrite !decide_False by done. symmetry. by apply Hfl. }
  split_and!; [done|exact Hall|].
  assert (forall k, is_Some (_factions m' !! k) -> is_Some (_factions m !! k)) as Hdom.
  { intros k [f' Hk]. destruct (faction_id m' k f' Hm' Hk) as (e & He & Hl & -> & _). by apply (ro_all m Hm (fs_ID f')). }
  assert (forall g : FactionState -> Z, (forall f f', fs_ID f' = fs_ID f -> Standing f' = Standing f -> Z.testbit (Flags f') 0 = Z.testbit (Flags f) 0 -> g f' = g f) ->
    map_sum g (_factions m') = map_sum g (_factions m)) as Hsum.
  { intros g Hg. apply map_sum_ext. intros k. destruct (_factions m !! k) as [f|] eqn:Hk.
    - destruct (faction_id m k f Hm Hk) as (e & He & Hl & -> & _). destruct (Hall _ e f He Hl Hk) as (f' & Hk' & Hsd & Hb & _). rewrite Hk'. cbn [fmap option_fmap option_map].
      f_equal. apply Hg; [by destruct (faction_entry Hstore m' _ e f' Hm' He Hk' Hl)|done|by apply Hb].
    - destruct (_factions m' !! k) as [f'|] eqn:Hk'; [|done]. destruct (Hdom k) as [f Hf]; [by eexists|]. congruence. }
  destruct (ro_counters m Hm) as [-> -> -> ->], (ro_counters m' Hm') as [-> -> -> ->]. unfold count_visible, count_rank.
  rewrite !Hsum; [done|intros g g' Hid Hsd Hb; rewrite ?has_VISIBLE; unfold rank_of, base_of; by rewrite ?Hid, ?Hsd, ?Hb..].
Qed.

(** ** Everything that happens to the reputations of a player *)

Inductive rep_step : ReputationMgr -> ReputationMgr -> Prop :=
| step_login m : rep_step m (LoadFromDB (new_ReputationMgr (rep_rows m)))
| step_loaded m : rep_step m (set_m_playerLoading false m)
| step_save m : rep_step m (SaveToDB m)
| step_initial m : rep_step m (SendInitialReputations m)
| step_war m k : rep_step m (HandleSetFactionAtWar k m)
| step_peace m k : rep_step m (HandleSetFactionNotAtWar k m)
| step_inactive m k status : rep_step m (HandleSetFactionInactiveOpcode k status m)
| step_cheat m : rep_step m (HandleSetFactionCheat m)
| step_meet m faction : rep_step m (SetVisible_template faction m)
| step_show m i e : FactionStore i = Some e -> rep_step m (SetVisible e m)
| step_change m i e standing incremental m' :
    FactionStore i = Some e -> SetReputation e standing incremental m = Some m' -> rep_step m m'
| step_command m i e standing : FactionStore i = Some e -> rep_step m (SetOneFactionReputation e standing false m).2
| step_reaction m i rank apply : rep_step m (SendForceReactions (ApplyForceReaction i rank apply m)).

Lemma rep_step_ok m m' : rep_ok m -> rep_step m m' -> rep_ok m'.
Proof.
  intros Hm Hstep. destruct Hstep as [m|m|m|m|m k|m k|m k status|m|m i|m i e He|m i e standing incremental m' He Hch|m i e standing He|m i rank b].
  - apply (LoadFromDB_spec (new_ReputationMgr (rep_rows m))). apply Hm.
  - by apply (rep_ok_same m).
  - by apply SaveToDB_spec.
  - by apply SendInitialReputations_ok.
  - by apply client_at_war_ok.
  - by apply client_at_war_ok.
  - by apply SetInactive_ok.
  - by apply SendStates_ok.
  - by apply SetVisible_template_ok.
  - by apply SetVisible_ok.
  - destruct (SetReputation_ok Hstore i e standing incremental m Hm He) as (m1 & Hm1 & Hok). rewrite Hch in Hm1. by injection Hm1 as ->.
  - by apply SetOneFactionReputation_ok with (i := i).
  - by apply SendForceReactions_ok, ApplyForceReaction_ok.
Qed.

Lemma rtc_ok m m' : rep_ok m -> rtc rep_step m m' -> rep_ok m'.
Proof. intros Hm Hrun. induction Hrun as [|m m1 m2 Hstep _ IH]; [done|]. by apply IH, (rep_step_ok m). Qed.

(** C21: Whatever a player and the game do after a login, standings keep within their
    bounds, flags keep their rules, the four counters count what they are named
    for, what is not marked is in the table, and no change of a standing asks for
    a faction that does not exist. *)
Theorem reputations_safe rows m : map_Forall row_fits rows -> rtc rep_step (LoadFromDB (new_ReputationMgr rows)) m ->
  rep_ok m /\
  (forall i e, FactionStore i = Some e -> 0 <= reputationListID e -> Reputation_Bottom <= GetReputation e m <= Reputation_Cap) /\
  forall i e standing incremental, FactionStore i = Some e -> is_Some (SetReputation e standing incremental m).
Proof.
  intros Hrows Hrun. assert (rep_ok m) as Hm.
  { apply (rtc_ok (LoadFromDB (new_ReputationMgr rows))); [by apply LoadFromDB_spec|done]. }
  split_and!; [done|..].
  - intros i e He Hl. destruct (ro_all m Hm i e He Hl) as [f Hf]. destruct (entry_reputation Hstore m i e f Hm He Hl Hf) as (-> & _ & Hb & _). done.
  - intros i e standing incremental He. destruct (SetReputation_ok Hstore i e standing incremental m Hm He) as (m' & -> & _). by eexists.
Qed.

End Load.
