(* ===== verification/ReputationPackets.v ===== *)
(** * The packets of reputations

    What SendInitialReputations and SendState of ReputationMgr.cpp write. *)
From S2P Require Import Prelude.
From S2P Require Import Lists.
From S2P Require Import ByteBuffer.
From S2P Require Import Float.
From S2P Require Import Reputation.
From S2P Require Import ReputationRules.
From Stdlib Require Import SpecFloat.
Local Open Scope Z_scope.

(** ** One standing *)

(** The numbers of [put_pairs] *)
Definition pair_values (l : list (Z * Z)) : list Z := concat ((fun x => [u32 x.1; u32 x.2]) <$> l).
Definition dwords (l : list Z) : list (list Z) := le_bytes 4 <$> l.
Lemma emits_dword v l (m : BB unit) : emits m (OBytes <$> dwords l) -> emits (append_T 4 v;; m) (OBytes <$> dwords (v :: l)).
Proof. intros Hm. apply (emits_bind _ _ [_]); [by apply emits_append_T|by intros _]. Qed.
Lemma emits_pairs l k (m : BB unit) : emits m (OBytes <$> dwords k) -> emits (put_pairs l;; m) (OBytes <$> dwords (pair_values l ++ k)).
Proof.
  intros Hm. unfold dwords. rewrite !fmap_app. apply emits_bind; [|by intros _].
  induction l as [|[x y] l IH]; [apply emits_ret|]. cbn [put_pairs]. by do 2 apply emits_dword.
Qed.
Lemma ops_size_dwords l : ops_size (OBytes <$> dwords l) = (5 * length l)%nat.
Proof. induction l as [|v l IH]; [done|]. cbn [dwords fmap list_fmap ops_size op_size length]. fold (dwords l). rewrite IH. cbn. lia. Qed.
Lemma length_pair_values l : length (pair_values l) = (2 * length l)%nat.
Proof. induction l as [|x l IH]; [done|]. unfold pair_values in *. cbn [fmap list_fmap concat app length]. rewrite IH. lia. Qed.

(** A bit behind a number doubles it. *)
Lemma value_bits_snoc v n : value_bits (2 * v + 1) (S n) = value_bits v n ++ [true].
Proof.
  induction n as [|n IH]; [unfold value_bits; cbn [seq rev fmap list_fmap app]; by rewrite Z.testbit_odd_0|].
  rewrite (value_bits_S _ (S n)), IH, value_bits_S. cbn [app]. f_equal. rewrite Nat2Z.inj_succ. apply Z.testbit_odd_succ. lia.
Qed.
Lemma value_bits_shifted v n : 0 <= v < 2 ^ Z.of_nat n -> value_bits v (S n) ++ [true] = false :: value_bits (2 * v + 1) (S n).
Proof.
  intros Hv. rewrite value_bits_snoc, value_bits_S. cbn [app]. f_equal.
  destruct (decide (v = 0)) as [->|]; [apply Z.bits_0|]. apply Z.bits_above_log2; [lia|]. apply Z.log2_lt_pow2; lia.
Qed.

(** What a client reads: a bit, the number of standings, and two bits to the end
    of the byte. *)
Definition standing_bits (increased : bool) (count : Z) (data : list Z) : list bool :=
  increased :: value_bits count 21 ++ [false; false] ++ all_bits data.

(** C33: The packet of a standing never says that a rank was gained: the number of
    standings is written over that bit, for its place is taken before the bit is
    written, and is one bit away from where it is read.  A client reads that
    there are [2 n + 1] standings where there are [n]. *)
Theorem standing_packet_shifted increased k standing others : (length others < 1000)%nat ->
  exists b, state_packet increased k standing others new_ByteBuffer = Ok (tt, b) /\
    all_bits (_storage b) =
      standing_bits false (2 * (1 + Z.of_nat (length others)) + 1) (concat (dwords ([u32 standing; k] ++ pair_values others ++ [0; 0]))).
Proof.
  intros Hlen. set (values := [u32 standing; k] ++ pair_values others ++ [0; 0]).
  assert (length values = (2 * length others + 4)%nat) as Hvalues by (unfold values; rewrite !length_app, length_pair_values; cbn; lia).
  set (bit := if increased then 1 else 0). assert (negb (bit =? 0) = increased) as Hbit by (by destruct increased).
  destruct (emits_WriteBit bit new_ByteBuffer (mkWire [] []) writes_new) as (x & b0 & H0 & Hw0 & _); [done|]. rewrite Hbit in Hw0.
  destruct (emits_WriteBits 1 21 b0 _ Hw0) as ([] & b1 & H1 & Hw1 & _); [by destruct increased|].
  destruct (FlushBits_writes b1 _ Hw1) as (b2 & H2 & Hw2 & _); [by destruct increased|].
  assert (wire_flush (wire_ops (OBit <$> value_bits 1 21) (wire_ops [OBit increased] (mkWire [] []))) = mkWire [if increased then 128 else 0; 0; 4] []) as Hflush by (by destruct increased).
  rewrite Hflush in Hw2.
  assert (emits (append_T 4 (u32 standing);; append_T 4 k;; put_pairs others;; append_T 4 0;; append_T 4 0;; mret tt) (OBytes <$> dwords values)) as Hem.
  { unfold values. cbn [app]. do 2 apply emits_dword. apply emits_pairs. do 2 apply emits_dword. apply emits_ret. }
  destruct (Hem b2 _ Hw2) as ([] & b3 & H3 & Hw3 & _).
  { unfold room. rewrite ops_size_dwords, Hvalues. cbn [w_out length]. lia. }
  rewrite wire_ops_bytes in Hw3.
  assert (forall K : BB unit, (append_T 4 (u32 standing);; append_T 4 k;; put_pairs others;; append_T 4 0;; append_T 4 0;; K) b2 = K b3) as Htail.
  { intros K. revert H3. cbv [mbind st_bind mret st_ret]. destruct (append_T 4 (u32 standing) b2) as [[[] c1]|]; [|done].
    destruct (append_T 4 k c1) as [[[] c2]|]; [|done]. destruct (put_pairs others c2) as [[[] c3]|]; [|done].
    destruct (append_T 4 0 c3) as [[[] c4]|]; [|done]. destruct (append_T 4 0 c4) as [[[] c5]|]; [|done]. by intros [= ->]. }
  unfold state_packet. st_step (eq_refl : @st_get ByteBuffer BBError new_ByteBuffer = Ok (new_ByteBuffer, new_ByteBuffer)).
  fold bit. st_step H0. st_step H1. st_step H2. rewrite Htail. change (Z.to_nat (bitwpos new_ByteBuffer)) with 0%nat.
  unfold PutBits. cbn [Nat.eqb]. destruct Hw3 as [Hst _ _ _ _ _]. cbn [w_out] in Hst.
  destruct (Nat.ltb_spec (size b3 * 8) (0 + 21)) as [Hs|_]; [unfold size in Hs; rewrite Hst, length_app in Hs; cbn [length] in Hs; lia|].
  eexists. split; [done|]. cbn [set_storage _storage].
  destruct (PutBits_loop_all_bits 0 (1 + Z.of_nat (length others)) 21 21 (_storage b3)) as [_ ->]; [done|rewrite Hst, length_app; cbn [length]; lia|].
  rewrite Hst, all_bits_app. cbn [Nat.add Nat.sub take app]. unfold standing_bits.
  rewrite drop_app_le by (rewrite length_all_bits; cbn [length]; lia).
  assert (drop 21 (all_bits [if increased then 128 else 0; 0; 4]) = [true] ++ [false; false]) as -> by (by destruct increased).
  rewrite <- (app_assoc [true]), (app_assoc (value_bits _ 21)), value_bits_shifted by lia. done.
Qed.

(** ** All of them *)

(** What is written for a place of the list *)
Definition slot (l : gmap Z FactionState) (k : Z) : list (list Z) :=
  match l !! k with
  | Some f => [le_bytes 1 (Flags f); le_bytes 4 (u32 (Standing f))]
  | None => [le_bytes 1 0; le_bytes 4 0]
  end.
Definition slots (l : gmap Z FactionState) (places : list Z) : list (list Z) := concat (slot l <$> places).

Lemma slots_app l p p' : slots l (p ++ p') = slots l p ++ slots l p'.
Proof. unfold slots. by rewrite fmap_app, concat_app. Qed.
Lemma emits_slot l k x y : slot l k = [le_bytes 1 x; le_bytes 4 y] -> forall p (m : BB unit), emits m (OBytes <$> slots l p) ->
  emits (append_T 1 x;; append_T 4 y;; m) (OBytes <$> slots l (k :: p)).
Proof.
  intros Hs p m Hm. unfold slots. cbn [fmap list_fmap concat]. rewrite Hs. cbn [app fmap list_fmap].
  apply (emits_bind _ _ [_]); [by apply emits_append_T|intros _]. apply (emits_bind _ _ [_]); [by apply emits_append_T|intros _]. exact Hm.
Qed.
Lemma emits_absent l a n : (forall k, a <= k < a + Z.of_nat n -> l !! k = None) -> emits (put_absent n) (OBytes <$> slots l (seqZ a (Z.of_nat n))).
Proof.
  revert a. induction n as [|n IH]; intros a Hn; [apply emits_ret|]. rewrite seqZ_cons by lia. cbn [put_absent].
  apply emits_slot; [unfold slot; by rewrite Hn by lia|]. rewrite Nat2Z.inj_succ, Z.pred_succ. apply IH. intros k Hk. apply Hn. lia.
Qed.
Lemma emits_bits_absent n : emits (bit_absent n) (OBit <$> replicate n false).
Proof. induction n as [|n IH]; [apply emits_ret|]. cbn [bit_absent]. apply (emits_bind _ _ [_]); [apply emits_WriteBit|intros _; exact IH]. Qed.

(** The states from a place on, in order *)
Record places_from (m : gmap Z FactionState) (a : Z) (l : list (Z * FactionState)) : Prop := {
  pf_sorted : StronglySorted Z.lt l.*1;
  pf_range : forall k f, (k, f) ∈ l -> a <= k < 256;
  pf_states : forall k f, a <= k -> m !! k = Some f <-> (k, f) ∈ l
}.

Lemma places_next m a k f l : places_from m a ((k, f) :: l) ->
  a <= k < 256 /\ m !! k = Some f /\ (forall j, a <= j < k -> m !! j = None) /\ places_from m (k + 1) l.
Proof.
  intros [Hs Hr Hm]. cbn in Hs. apply StronglySorted_inv in Hs as [Hs Hk]. rewrite Forall_forall in Hk.
  assert (a <= k < 256) as Hk256 by (apply (Hr k f); left). split; [done|]. split; [apply Hm; [lia|left]|]. split.
  - intros j Hj. destruct (m !! j) as [g|] eqn:Hg; [|done]. apply Hm in Hg as [[= -> ->]|Hin]%elem_of_cons; [lia| |lia].
    apply (list_elem_of_fmap_2 fst) in Hin. specialize (Hk _ Hin). cbn in Hk. lia.
  - constructor; [done|..].
    + intros j g Hj. pose proof (Hr j g ltac:(by right)). apply (list_elem_of_fmap_2 fst) in Hj. specialize (Hk _ Hj). cbn in Hk. lia.
    + intros j g Hj. rewrite Hm by lia. split; [|by right]. intros [[= -> ->]|]%elem_of_cons; [lia|done].
Qed.
Lemma places_none m a : places_from m a [] -> forall k, a <= k -> m !! k = None.
Proof. intros [_ _ Hm] k Hk. destruct (m !! k) eqn:He; [|done]. apply Hm in He; [by apply elem_of_nil in He|done]. Qed.

Lemma emits_initial m a l : 0 <= a <= 256 -> places_from m a l -> emits (put_initial a l) (OBytes <$> slots m (seqZ a (256 - a))).
Proof.
  revert a. induction l as [|[k f] l IH]; intros a Ha Hl; cbn [put_initial].
  - unfold u32. rewrite Z.mod_small by lia. replace (256 - a) with (Z.of_nat (Z.to_nat (256 - a))) at 2 by lia.
    apply emits_absent. intros k Hk. apply (places_none m a); [done|lia].
  - destruct (places_next m a k f l Hl) as (Hk & Hf & Hnone & Hnext). unfold u32 at 1 3. rewrite !Z.mod_small by lia.
    replace (256 - a) with ((k - a) + (256 - k)) by lia. rewrite seqZ_app, slots_app, fmap_app by lia. apply emits_bind.
    + replace (k - a) with (Z.of_nat (Z.to_nat (k - a))) at 2 by lia. apply emits_absent. intros j Hj. apply Hnone. lia.
    + intros _. replace (a + (k - a)) with k by lia. rewrite seqZ_cons by lia.
      apply emits_slot; [unfold slot; by rewrite Hf|]. replace (Z.pred (256 - k)) with (256 - Z.succ k) by lia. apply IH; [lia|exact Hnext].
Qed.
Lemma emits_bits m a l : 0 <= a <= 256 -> places_from m a l -> emits (bit_initial a l) (OBit <$> replicate (Z.to_nat (256 - a)) false).
Proof.
  revert a. induction l as [|[k f] l IH]; intros a Ha Hl; cbn [bit_initial].
  - unfold u32. rewrite Z.mod_small by lia. apply emits_bits_absent.
  - destruct (places_next m a k f l Hl) as (Hk & Hf & Hnone & Hnext). unfold u32. rewrite !Z.mod_small by lia.
    replace (Z.to_nat (256 - a)) with (Z.to_nat (k - a) + S (Z.to_nat (256 - (k + 1))))%nat by lia.
    rewrite replicate_add, fmap_app. apply emits_bind; [apply emits_bits_absent|intros _].
    apply (emits_bind _ _ [_]); [apply emits_WriteBit|intros _]. apply IH; [lia|done].
Qed.

Lemma ops_size_slots l places : ops_size (OBytes <$> slots l places) = (7 * length places)%nat.
Proof.
  induction places as [|k p IH]; [done|]. unfold slots in *. cbn [fmap list_fmap concat length]. rewrite fmap_app, ops_size_app. fold (list_fmap Z).
  transitivity (7 + 7 * length p)%nat; [|lia]. f_equal; [|exact IH]. unfold slot. by case_match.
Qed.
Lemma length_slots l places : length (concat (slots l places)) = (5 * length places)%nat.
Proof.
  induction places as [|k p IH]; [done|]. unfold slots in *. cbn [fmap list_fmap concat length]. rewrite concat_app, length_app. fold (list_fmap Z).
  transitivity (5 + 5 * length p)%nat; [|lia]. f_equal; [|exact IH]. unfold slot. by case_match.
Qed.

Lemma places_all (m : gmap Z FactionState) : (forall k, is_Some (m !! k) -> 0 <= k < 256) -> places_from m 0 (map_ordered m).
Proof.
  intros Hm. constructor.
  - pose proof (map_keys_sorted m) as Hs. pose proof (NoDup_map_ordered m) as Hnd. induction Hs as [|k l Hs IH Hk]; [constructor|].
    apply NoDup_cons in Hnd as [Hnin Hnd]. constructor; [by apply IH|]. rewrite Forall_forall in Hk |- *. intros j Hj.
    specialize (Hk j Hj). assert (j <> k) by (by intros ->). lia.
  - intros k f Hin%elem_of_map_ordered. apply Hm. by eexists.
  - intros k f _. by rewrite elem_of_map_ordered.
Qed.

(** The first packet has all 256 places, in order: the flags and the standing of
    each faction that the player has a state for and zeros for the others, and then
    no bonus for any of them. *)
Theorem initial_packet_complete `{RepWorld} m : store_ok -> rep_ok m ->
  rep_events (SendInitialReputations m) =
    rep_events m ++ [SendDirectMessage SMSG_INITIALIZE_FACTIONS (Ok (concat (slots (_factions m) (seqZ 0 256)) ++ replicate 32 0))].
Proof.
  intros Hstore Hm. unfold SendInitialReputations. cbn [rep_events rep_event set_rep_events set__factions]. unfold rep_packet, initial_packet. do 3 f_equal.
  assert (places_from (_factions m) 0 (map_ordered (_factions m))) as Hpl.
  { apply places_all. intros k [f Hf]. destruct (ro_factions m Hm _ _ Hf) as [(e & He & Hl & -> & _) _ _].
    rewrite (list_key_small Hstore _ _ He Hl). pose proof (so_places Hstore _ _ He). lia. }
  set (l := map_ordered (_factions m)) in *.
  destruct (emits_initial (_factions m) 0 l ltac:(lia) Hpl new_ByteBuffer (mkWire [] []) writes_new) as ([] & b1 & H1 & Hw1 & _).
  { rewrite ops_size_slots. unfold room. rewrite length_seqZ. cbn [w_out length]. lia. }
  rewrite wire_ops_bytes in Hw1. cbn [app] in Hw1. change (256 - 0) with 256 in Hw1.
  destruct (emits_bits (_factions m) 0 l ltac:(lia) Hpl new_ByteBuffer (mkWire [] []) writes_new) as ([] & b2 & H2 & Hw2 & _); [by vm_compute|].
  destruct (FlushBits_writes b2 _ Hw2) as (b3 & H3 & Hw3 & _); [by vm_compute|].
  assert (wire_flush (wire_ops (OBit <$> replicate (Z.to_nat (256 - 0)) false) (mkWire [] [])) = mkWire (replicate 32 0) []) as Hfl by (by vm_compute).
  rewrite Hfl in Hw3. destruct Hw3 as [Hst3 _ _ _ _ _]. cbn [w_out] in Hst3.
  st_step H1. unfold append_bits. st_step H2. rewrite H3, Hst3.
  destruct (append_writes_flushed b1 _ (replicate 32 0) Hw1) as (b4 & H4 & Hw4 & _); [done| |..].
  { by repeat constructor. }
  { unfold room. cbn [w_out]. rewrite length_slots, length_seqZ. lia. }
  rewrite H4. destruct Hw4 as [Hst4 _ _ _ _ _]. by rewrite Hst4.
Qed.
