(* ===== verification/ReputationRuns.v ===== *)
(** * Reputations on a concrete server

    A store of five factions: two cities of a team, an enemy that is not shown,
    and a faction with a template. *)
From S2P Require Import Prelude.
From S2P Require Import Lists.
From S2P Require Import ByteBuffer.
From S2P Require Import Float.
From S2P Require Import Reputation.
From S2P Require Import ReputationRules.
From S2P Require Import ReputationSpread.
From S2P Require Import ReputationLoad.
From S2P Require Import ReputationPackets.
From Stdlib Require Import SpecFloat.
Local Open Scope Z_scope.

Definition half : f32 := f32_div (f32_of_Z 1) (f32_of_Z 2).
Definition toy_entry (i list base flags team : Z) : FactionEntry :=
  mkFactionEntry i list [1; 0; 0; 0] [0; 0; 0; 0] [base; 0; 0; 0] [flags; 0; 0; 0] team (f32_of_Z 1) half 7.
Definition alliance : FactionEntry := toy_entry 1 (-1) 0 0 0.
Definition stormwind : FactionEntry := toy_entry 2 0 3100 17 1.
Definition ironforge : FactionEntry := toy_entry 3 1 3100 17 1.
Definition defias : FactionEntry := toy_entry 4 2 (-42000) 6 0.
Definition booty_bay : FactionEntry := toy_entry 5 3 0 0 0.
Definition toy_store (i : Z) : option FactionEntry :=
  if i =? 1 then Some alliance else if i =? 2 then Some stormwind else if i =? 3 then Some ironforge
  else if i =? 4 then Some defias else if i =? 5 then Some booty_bay else None.
(** Booty Bay is an enemy of the Defias. *)
Definition toy_template (i : Z) : option RepSpilloverTemplate :=
  if i =? 5 then Some (mkSpillover [(4, f32_of_Z (-1), 3); (0, f32_of_Z 0, 0); (0, f32_of_Z 0, 0); (0, f32_of_Z 0, 0); (0, f32_of_Z 0, 0)]) else None.
#[local] Instance toy_world : RepWorld := {|
  FactionStore := toy_store;
  FactionRows := 6;
  GetRepSpilloverTemplate := toy_template;
  RATE_REPUTATION_GAIN := f32_of_Z 1;
  getRaceMask := 1;
  getClassMask := 1
|}.

Lemma toy_entries i e : toy_store i = Some e ->
  (i = 1 /\ e = alliance) \/ (i = 2 /\ e = stormwind) \/ (i = 3 /\ e = ironforge) \/ (i = 4 /\ e = defias) \/ (i = 5 /\ e = booty_bay).
Proof.
  unfold toy_store. destruct (Z.eqb_spec i 1), (Z.eqb_spec i 2), (Z.eqb_spec i 3), (Z.eqb_spec i 4), (Z.eqb_spec i 5); intros [= <-]; auto 10.
Qed.
Lemma toy_store_ok : store_ok.
Proof.
  constructor.
  - intros i e He%toy_entries. destruct He as [[-> ->]|[[-> ->]|[[-> ->]|[[-> ->]|[-> ->]]]]]; (split; [done|split; [lia|done]]).
  - by vm_compute.
  - intros i j e e' He%toy_entries He'%toy_entries Hl Heq.
    destruct He as [[-> ->]|[[-> ->]|[[-> ->]|[[-> ->]|[-> ->]]]]], He' as [[-> ->]|[[-> ->]|[[-> ->]|[[-> ->]|[-> ->]]]]]; try done; by cbn in Hl; lia.
  - intros i e He%toy_entries. destruct He as [[-> ->]|[[-> ->]|[[-> ->]|[[-> ->]|[-> ->]]]]]; (split; by vm_compute).
  - intros i e He%toy_entries. destruct He as [[-> ->]|[[-> ->]|[[-> ->]|[[-> ->]|[-> ->]]]]]; (split; by vm_compute).
  - intros i t. cbn. unfold toy_template. destruct (i =? 5); [|done]. intros [= <-]. repeat (constructor; [cbn; intros; try done; by eexists|]). constructor.
Qed.

(** A new character *)
Definition fresh : ReputationMgr := LoadFromDB (new_ReputationMgr ∅).
Lemma fresh_ok : rep_ok fresh.
Proof. by apply (LoadFromDB_spec toy_store_ok (new_ReputationMgr ∅)). Qed.

(** He helps Stormwind, attacks Booty Bay, makes peace with it all the same and
    sets it aside. *)
Definition helped : ReputationMgr := default fresh (ModifyReputation stormwind 1000 (set_m_playerLoading false fresh)).
Definition attacked : ReputationMgr := default fresh (ModifyReputation booty_bay (-5000) (HandleSetFactionAtWar 3 helped)).
Definition played : ReputationMgr := HandleSetFactionInactiveOpcode 3 1 (HandleSetFactionNotAtWar 3 attacked).

Lemma helped_eq : SetReputation stormwind 1000 true (set_m_playerLoading false fresh) = Some helped.
Proof. by vm_compute. Qed.
Lemma attacked_eq : SetReputation booty_bay (-5000) true (HandleSetFactionAtWar 3 helped) = Some attacked.
Proof. by vm_compute. Qed.
Lemma played_run : rtc rep_step fresh played.
Proof.
  exact (rtc_l rep_step _ _ _ (step_loaded fresh)
    (rtc_l rep_step _ _ _ (step_change _ 2 stormwind 1000 true helped eq_refl helped_eq)
    (rtc_l rep_step _ _ _ (step_war helped 3)
    (rtc_l rep_step _ _ _ (step_change _ 5 booty_bay (-5000) true attacked eq_refl attacked_eq)
    (rtc_l rep_step _ _ _ (step_peace attacked 3)
    (rtc_once _ _ (step_inactive (HandleSetFactionNotAtWar 3 attacked) 3 1))))))).
Qed.

Lemma reputations_safe_witness :
  rep_ok played /\ Reputation_Bottom <= GetReputation booty_bay played <= Reputation_Cap /\ is_Some (SetReputation booty_bay 9000 false played).
Proof.
  destruct (reputations_safe toy_store_ok ∅ played (map_Forall_empty _) played_run) as (Hok & Hb & Hset).
  exact (conj Hok (conj (Hb 5 booty_bay eq_refl ltac:(by vm_compute)) (Hset 5 booty_bay 9000 false eq_refl))).
Defined.

Lemma reputation_spreads_witness :
  exists m', SetReputation stormwind 1000 true fresh = Some m' /\ points 2 m' = 4100 /\ points 3 m' = 3600 /\ points 4 m' = -42000.
Proof.
  assert (template_ok 2) as Ht by (intros t; by vm_compute).
  destruct (reputation_spreads toy_store_ok fresh 2 stormwind 1000 true fresh_ok eq_refl Ht) as (m' & Hset & _ & Hpoints).
  assert (forall j x, (if j =? 2 then received true 1000 2 (points 2 fresh) else given true (share stormwind 1000 true fresh j) j (points j fresh)) = x -> points j m' = x) as Hx
    by (intros j x <-; exact (Hpoints j)).
  exists m'. split; [exact Hset|]. split; [apply (Hx 2); by vm_compute|]. split; [apply (Hx 3); by vm_compute|apply (Hx 4); by vm_compute].
Defined.

Lemma played_ok : rep_ok played.
Proof. exact (rtc_ok toy_store_ok fresh played fresh_ok played_run). Qed.

(** Peace with what is hostile lasts until the next login. *)
Lemma saved_reputations_load_witness :
  let m' := LoadFromDB (new_ReputationMgr (rep_rows (SaveToDB played))) in
  rep_ok m' /\
  (exists f f', _factions played !! 3 = Some f /\ _factions m' !! 3 = Some f' /\ Standing f' = Standing f /\ IsAtWar booty_bay played = false /\ Flags f' <> Flags f) /\
  _visibleFactionCount m' = 3.
Proof.
  destruct (saved_reputations_load toy_store_ok played played_ok) as (Hok & Hall & Hcount).
  split; [exact Hok|]. split; [|exact (eq_trans (f_equal (fun x => x.1.1.1) Hcount) (ltac:(by vm_compute) : _visibleFactionCount played = 3))].
  destruct (_factions played !! 3) as [f|] eqn:Hf; [|by vm_compute in Hf].
  destruct (Hall 5 booty_bay f eq_refl ltac:(by vm_compute) Hf) as (f' & Hf' & Hs & _ & Hsettled). exists f, f'. split; [done|]. split; [exact Hf'|]. split; [done|].
  split; [by vm_compute|]. rewrite <- Hsettled. intros [_ Hwar]. vm_compute in Hf. injection Hf as <-.
  destruct (Hwar ltac:(by vm_compute)) as [_ [Hh|Hh]]; by vm_compute in Hh.
Defined.

Lemma standing_packet_shifted_witness :
  exists b, state_packet true 0 1000 [(1, 500)] new_ByteBuffer = Ok (tt, b) /\
    all_bits (_storage b) = standing_bits false 5 (concat (dwords [1000; 0; 1; 500; 0; 0])).
Proof. exact (standing_packet_shifted true 0 1000 [(1, 500)] ltac:(cbn; lia)). Defined.

(** ** Where reputation is lost *)

(** A character that starts with all reputations is given one after the other
    with SetReputation, which sets the rest of the team to its share: whoever
    is exalted with one city is not any more when the next is set. *)
Theorem all_reputation_keeps_last :
  let m := default fresh (SetReputation stormwind 42999 false fresh) in
  let m' := default fresh (SetReputation ironforge 42999 false m) in
  GetRank stormwind m = REP_EXALTED /\ points 2 m' = 21499 /\ GetRank stormwind m' = REP_REVERED /\ GetRank ironforge m' = REP_EXALTED.
Proof. by vm_compute. Qed.
