(* ===== verification/BigNumber.v ===== *)
(** * Big numbers, digests and tokens

    shared/Cryptography/BigNumber.cpp and SHA1.cpp, and
    authserver/Authentication/TOTP.cpp.  They wrap OpenSSL, which is the class
    [OpenSSL]; [OpenSSLLaws] is what its documentation says of the functions
    used.  A BIGNUM is the number it holds, an SHA_CTX the data fed to it. *)
From S2P Require Import Prelude.
From S2P Require Import Util.
From Stdlib Require Import Morphisms.
Local Open Scope Z_scope.

(** ** OpenSSL *)

Class OpenSSL := {
  BN_add : Z -> Z -> Z;
  BN_mul : Z -> Z -> Z;
  BN_mod : Z -> Z -> Z;
  BN_mod_exp : Z -> Z -> Z -> Z;
  BN_num_bytes : Z -> nat;
  BN_bin2bn : list Z -> Z;
  BN_bn2bin : Z -> list Z;
  BN_hex2bn : Z -> text -> Z;         (* the value before the call, the string *)
  BN_bn2hex : Z -> text;
  BN_rand : nat -> Z -> Z;            (* the n-th number drawn, of so many bits, the top one set *)
  SHA1 : list Z -> list Z;
  HMAC_SHA1 : list Z -> list Z -> list Z
}.

(** Hexadecimal digits *)
Definition hex_digit (c : Z) : option Z :=
  if (48 <=? c) && (c <=? 57) then Some (c - 48)
  else if (65 <=? c) && (c <=? 70) then Some (c - 55)
  else if (97 <=? c) && (c <=? 102) then Some (c - 87)
  else None.
Definition is_hex (s : text) : Prop := s <> [] /\ Forall (fun c => is_Some (hex_digit c)) s.
Definition hex_value (s : text) : Z := foldl (fun a c => 16 * a + default 0 (hex_digit c)) 0 s.
#[export] Instance is_hex_dec s : Decision (is_hex s) := decide (s <> [] /\ _).

Class OpenSSLLaws `{OpenSSL} : Prop := {
  BN_add_spec : forall a b, 0 <= a -> 0 <= b -> BN_add a b = a + b;
  BN_mul_spec : forall a b, 0 <= a -> 0 <= b -> BN_mul a b = a * b;
  BN_mod_spec : forall a m, 0 <= a -> 0 < m -> BN_mod a m = a mod m;
  BN_mod_exp_spec : forall a p m, 0 <= a -> 0 <= p -> 1 < m -> BN_mod_exp a p m = a ^ p mod m;
  BN_num_bytes_zero : BN_num_bytes 0 = 0%nat;
  BN_num_bytes_spec : forall a, 0 < a ->
    BN_num_bytes a <> 0%nat /\ 256 ^ (Z.of_nat (BN_num_bytes a) - 1) <= a < 256 ^ Z.of_nat (BN_num_bytes a);
  BN_bin2bn_spec : forall bs, Forall is_byte bs -> BN_bin2bn bs = le_value (reverse bs);
  BN_bn2bin_spec : forall a, 0 <= a -> BN_bn2bin a = reverse (le_bytes (BN_num_bytes a) a);
  BN_hex2bn_spec : forall old s, is_hex s -> BN_hex2bn old s = hex_value s;
  BN_bn2hex_spec : forall a, 0 < a ->
    is_hex (BN_bn2hex a) /\ hex_value (BN_bn2hex a) = a /\ length (BN_bn2hex a) = (2 * BN_num_bytes a)%nat;
  BN_rand_spec : forall n bits, 0 < bits -> 2 ^ (bits - 1) <= BN_rand n bits < 2 ^ bits;
  SHA1_spec : forall d, length (SHA1 d) = 20%nat /\ Forall is_byte (SHA1 d);
  HMAC_SHA1_spec : forall k d, length (HMAC_SHA1 k d) = 20%nat /\ Forall is_byte (HMAC_SHA1 k d)
}.

(** ** BigNumber *)

Section BigNumber.
Context `{OpenSSL}.

Definition SetBinary (bytes : list Z) : Z := BN_bin2bn (reverse bytes).
Definition SetHexStr (old : Z) (str : text) : Z := BN_hex2bn old str.
Definition SetRand (draw : nat) (numbits : Z) : Z := BN_rand draw numbits.
Definition ModExp (a bn1 bn2 : Z) : Z := BN_mod_exp a bn1 bn2.
Definition GetNumBytes (a : Z) : nat := BN_num_bytes a.
Definition AsHexStr (a : Z) : text := BN_bn2hex a.
Definition isZero (a : Z) : bool := a =? 0.
(** The array is zeroed, filled from its start and turned round. *)
Definition AsByteArray (minSize : nat) (a : Z) : list Z :=
  let length := Nat.max minSize (GetNumBytes a) in
  reverse (BN_bn2bin a ++ replicate (length - GetNumBytes a) 0).

(** ** SHA1Hash *)

Definition SHA1Hash : Type := list Z.
Definition new_sha : SHA1Hash := [].
Definition UpdateData (dta : list Z) (sha : SHA1Hash) : SHA1Hash := sha ++ dta.
Definition UpdateBigNumbers (bns : list Z) (sha : SHA1Hash) : SHA1Hash :=
  foldl (fun sha bn => UpdateData (AsByteArray 0 bn) sha) sha bns.
Definition Finalize (sha : SHA1Hash) : list Z := SHA1 sha.

End BigNumber.

(** ** Tokens *)

(** [base32_decode]: spaces and dashes are passed over, three digits that are
    often mistyped stand for letters; a bad character ends it with -1, and what
    was written stays.  The first component is false for -1; the second has the
    bytes written. *)
Definition base32_skipped (ch : Z) : bool := (ch =? 32) || (ch =? 9) || (ch =? 13) || (ch =? 10) || (ch =? 45).
Definition base32_digit (ch : Z) : option Z :=
  let ch := if ch =? 48 then 79 else if ch =? 49 then 76 else if ch =? 56 then 66 else ch in
  if ((65 <=? ch) && (ch <=? 90)) || ((97 <=? ch) && (ch <=? 122)) then Some (Z.land ch 31 - 1)
  else if (50 <=? ch) && (ch <=? 55) then Some (ch - (50 - 26))
  else None.
Fixpoint base32_loop (bufSize : nat) (encoded : text) (buffer bitsLeft : Z) (result : list Z) : bool * list Z :=
  if (length result <? bufSize)%nat then
    match encoded with
    | [] => (true, result)
    | ch :: encoded =>
        if ch =? 0 then (true, result)
        else if base32_skipped ch then base32_loop bufSize encoded buffer bitsLeft result
        else
          let buffer := s32 (Z.shiftl buffer 5) in
          match base32_digit ch with
          | None => (false, result)
          | Some d =>
              let buffer := Z.lor buffer d in
              let bitsLeft := bitsLeft + 5 in
              if 8 <=? bitsLeft
              then base32_loop bufSize encoded buffer (bitsLeft - 8) (result ++ [u8 (Z.shiftr buffer (bitsLeft - 8))])
              else base32_loop bufSize encoded buffer bitsLeft result
          end
    end
  else (true, result).
Definition base32_decode (encoded : text) (bufSize : nat) : bool * list Z := base32_loop bufSize encoded 0 0 [].

Section Tokens.
Context `{OpenSSL}.

(** [TOTP::GenerateToken] at the time [now]: the key is the whole buffer, and
    what [base32_decode] returns is not looked at. *)
Definition GenerateToken (now : Z) (b32key : text) : Z :=
  let keySize := length b32key in
  let bufsize := ((keySize + 7) / 8 * 5)%nat in
  let timestamp := now / 30 in
  let challenge := reverse (le_bytes 8 timestamp) in
  let written := (base32_decode b32key bufsize).2 in
  let encoded := written ++ replicate (bufsize - length written) 0 in
  let hmacRes := HMAC_SHA1 encoded challenge in
  let at_ := fun i => nth i hmacRes 0 in
  let offset := Z.to_nat (Z.land (at_ 19%nat) 15) in
  let truncHash :=
    Z.lor (Z.lor (Z.lor (s32 (Z.shiftl (at_ offset) 24)) (Z.shiftl (at_ (offset + 1)%nat) 16))
                 (Z.shiftl (at_ (offset + 2)%nat) 8)) (at_ (offset + 3)%nat) in
  Z.land truncHash 2147483647 mod 1000000.
End Tokens.

(** ** Bytes of big numbers *)

Section Laws.
Context `{OpenSSLLaws}.

Lemma num_bytes_bound a : 0 <= a -> a < 256 ^ Z.of_nat (BN_num_bytes a).
Proof.
  intros Ha. destruct (decide (a = 0)) as [->|]; [rewrite BN_num_bytes_zero; lia|].
  pose proof (BN_num_bytes_spec a). lia.
Qed.

Lemma pow256 n : 256 ^ Z.of_nat n = 2 ^ (8 * Z.of_nat n).
Proof. change 256 with (2 ^ 8). by rewrite <- Z.pow_mul_r by lia. Qed.

Lemma le_value_app l k : le_value (l ++ k) = le_value l + 256 ^ Z.of_nat (length l) * le_value k.
Proof.
  induction l as [|x l IH]; cbn -[Z.mul Z.pow Z.of_nat]; [lia|].
  rewrite IH, Nat2Z.inj_succ, Z.pow_succ_r by lia. lia.
Qed.

Lemma le_value_zeros n : le_value (replicate n 0) = 0.
Proof. induction n as [|n IH]; cbn -[Z.mul]; [done|]. rewrite IH. lia. Qed.

Lemma le_value_bytes_of a : 0 <= a -> le_value (le_bytes (BN_num_bytes a) a) = a.
Proof.
  intros Ha. rewrite le_value_le_bytes, <- pow256. apply Z.mod_small.
  split; [done|]. by apply num_bytes_bound.
Qed.

(** Fewer bytes than that cannot hold the number. *)
Lemma num_bytes_le a n : 0 <= a < 256 ^ Z.of_nat n -> (BN_num_bytes a <= n)%nat.
Proof.
  intros Ha. destruct (decide (a = 0)) as [->|]; [rewrite BN_num_bytes_zero; lia|].
  destruct (BN_num_bytes_spec a) as [? [Hb _]]; [lia|].
  destruct (le_lt_dec (BN_num_bytes a) n) as [|Hlt]; [done|].
  assert (256 ^ Z.of_nat n <= 256 ^ (Z.of_nat (BN_num_bytes a) - 1)) by (apply Z.pow_le_mono_r; lia). lia.
Qed.

Lemma num_bytes_ge a n : 256 ^ Z.of_nat n <= a -> (S n <= BN_num_bytes a)%nat.
Proof.
  intros Ha. assert (0 < 256 ^ Z.of_nat n) by (apply Z.pow_pos_nonneg; lia).
  pose proof (num_bytes_bound a ltac:(lia)).
  destruct (le_lt_dec (S n) (BN_num_bytes a)) as [|Hlt]; [done|].
  assert (256 ^ Z.of_nat (BN_num_bytes a) <= 256 ^ Z.of_nat n) by (apply Z.pow_le_mono_r; lia). lia.
Qed.

(** What [AsByteArray] returns: the padding comes first, that is, below the
    number. *)
Lemma AsByteArray_eq n a : 0 <= a ->
  AsByteArray n a = replicate (n - BN_num_bytes a) 0 ++ le_bytes (BN_num_bytes a) a.
Proof.
  intros Ha. unfold AsByteArray, GetNumBytes.
  rewrite reverse_app, BN_bn2bin_spec, reverse_involutive, reverse_replicate by done.
  f_equal. f_equal. lia.
Qed.

Lemma AsByteArray_bytes n a : 0 <= a -> Forall is_byte (AsByteArray n a).
Proof.
  intros Ha. rewrite AsByteArray_eq by done. apply Forall_app. split; [|apply le_bytes_bytes].
  apply Forall_replicate. unfold is_byte. lia.
Qed.

Lemma length_AsByteArray n a : 0 <= a -> length (AsByteArray n a) = Nat.max n (BN_num_bytes a).
Proof.
  intros Ha. rewrite AsByteArray_eq by done. rewrite length_app, length_replicate, length_le_bytes. lia.
Qed.

Lemma SetBinary_spec bs : Forall is_byte bs -> SetBinary bs = le_value bs.
Proof.
  intros Hb. unfold SetBinary. rewrite BN_bin2bn_spec by (by rewrite Forall_reverse).
  by rewrite reverse_involutive.
Qed.

Lemma le_value_nonneg bs : Forall is_byte bs -> 0 <= le_value bs.
Proof. induction 1 as [|b bs Hb _ IH]; cbn -[Z.mul]; [done|]. unfold is_byte in *. lia. Qed.

Lemma SetBinary_nonneg bs : Forall is_byte bs -> 0 <= SetBinary bs.
Proof. intros Hb. rewrite SetBinary_spec by done. by apply le_value_nonneg. Qed.

(** A number of [n] bytes is read back. *)
Lemma SetBinary_AsByteArray n a : 256 ^ (Z.of_nat n - 1) <= a < 256 ^ Z.of_nat n -> 0 <= a ->
  AsByteArray n a = le_bytes n a /\ SetBinary (AsByteArray n a) = a.
Proof.
  intros Ha Hnn. assert (BN_num_bytes a = n) as Hn.
  { assert (0 <= a < 256 ^ Z.of_nat n) as Hle by lia. pose proof (num_bytes_le a n Hle).
    apply Nat.le_antisymm; [done|].
    destruct n as [|n]; [lia|]. apply num_bytes_ge. rewrite Nat2Z.inj_succ in Ha.
    replace (Z.succ (Z.of_nat n) - 1) with (Z.of_nat n) in Ha by lia. lia. }
  rewrite SetBinary_spec, AsByteArray_eq, Hn, Nat.sub_diag by (done || by apply AsByteArray_bytes).
  split; [done|]. cbn [replicate app]. rewrite <- Hn. by apply le_value_bytes_of.
Qed.

Lemma SetHexStr_AsHexStr old a : 0 < a -> SetHexStr old (AsHexStr a) = a.
Proof. intros Ha. destruct (BN_bn2hex_spec a Ha) as (Hh & Hv & _). unfold SetHexStr, AsHexStr. by rewrite BN_hex2bn_spec. Qed.

(** A shorter number gains a factor for every byte of padding. *)
Lemma SetBinary_padded n a : 0 <= a ->
  SetBinary (AsByteArray n a) = 256 ^ Z.of_nat (n - BN_num_bytes a) * a.
Proof.
  intros Ha. rewrite SetBinary_spec by (by apply AsByteArray_bytes).
  rewrite AsByteArray_eq, le_value_app, le_value_zeros, length_replicate, le_value_bytes_of by done. lia.
Qed.

Lemma SHA1_bytes d : Forall is_byte (SHA1 d).
Proof. apply SHA1_spec. Qed.
Lemma SHA1_length d : length (SHA1 d) = 20%nat.
Proof. apply SHA1_spec. Qed.
End Laws.
