(* ===== verification/AuthSocket.v ===== *)
(** * The authentication server

    authserver/Server/AuthSocket.cpp with the input of RealmSocket.cpp, the
    realm list (Realms/RealmList.cpp), the accepted builds
    (Authentication/AuthCodes.cpp) and the statements of
    shared/Database/Implementation/LoginDatabase.cpp they execute.  A
    connection is an [AuthSocket]; [Realmd] is what connections share.
    Statements executed asynchronously wait in [pending]; before each query the
    database thread has run some of them, as many as [db_thread] says. *)
From S2P Require Import Prelude.
From S2P Require Import Lists.
From S2P Require Import ByteBuffer.
From S2P Require Import Util.
From S2P Require Import BigNumber.
Local Open Scope Z_scope.

(** ** Constants *)

Definition AUTH_LOGON_CHALLENGE : Z := 0.
Definition AUTH_LOGON_PROOF : Z := 1.
Definition AUTH_RECONNECT_CHALLENGE : Z := 2.
Definition AUTH_RECONNECT_PROOF : Z := 3.
Definition REALM_LIST : Z := 16.
Definition XFER_ACCEPT : Z := 50.
Definition XFER_RESUME : Z := 51.
Definition XFER_CANCEL : Z := 52.

Definition WOW_SUCCESS : Z := 0.
Definition WOW_FAIL_BANNED : Z := 3.
Definition WOW_FAIL_UNKNOWN_ACCOUNT : Z := 4.
Definition WOW_FAIL_VERSION_INVALID : Z := 9.
Definition WOW_FAIL_SUSPENDED : Z := 12.
Definition WOW_FAIL_LOCKED_ENFORCED : Z := 16.
Definition WOW_FAIL_UNLOCKABLE_LOCK : Z := 25.

Definition POST_BC_EXP_FLAG : Z := 2.
Definition PRE_BC_EXP_FLAG : Z := 1.
Definition NO_VALID_EXP_FLAG : Z := 0.
Definition REALM_FLAG_OFFLINE : Z := 2.
Definition REALM_FLAG_SPECIFYBUILD : Z := 4.
Definition SEC_PLAYER : Z := 0.
Definition SEC_ADMINISTRATOR : Z := 3.
Definition s_BYTE_SIZE : nat := 32.
Definition MAX_AUTH_LOGON_CHALLENGES_IN_A_ROW : nat := 3.

(** ** Accepted builds *)

Record RealmBuildInfo := mkBuild {
  Build : Z;
  MajorVersion : Z;
  MinorVersion : Z;
  BugfixVersion : Z;
  HotfixVersion : Z
}.
Definition PostBcAcceptedClientBuilds : list RealmBuildInfo :=
  [mkBuild 18414 5 4 8 32; mkBuild 18291 5 4 8 32; mkBuild 18019 5 4 7 32; mkBuild 17956 5 4 7 32;
   mkBuild 17930 5 4 7 32; mkBuild 17898 5 4 7 32; mkBuild 17688 5 4 2 97; mkBuild 17658 5 4 2 32;
   mkBuild 17538 5 4 1 32; mkBuild 17399 5 4 0 32; mkBuild 17128 5 3 0 32; mkBuild 16769 5 2 0 32;
   mkBuild 16357 5 1 0 97; mkBuild 16309 5 1 0 32; mkBuild 16135 5 0 5 98; mkBuild 15595 4 3 4 32;
   mkBuild 14545 4 2 2 32; mkBuild 13623 4 0 6 97; mkBuild 12340 3 3 5 97; mkBuild 11723 3 3 3 97;
   mkBuild 11403 3 3 2 32; mkBuild 11159 3 3 0 97; mkBuild 10505 3 2 2 97; mkBuild 9947 3 1 3 32;
   mkBuild 8606 2 4 3 32].
Definition PreBcAcceptedClientBuilds : list RealmBuildInfo :=
  [mkBuild 6141 1 12 3 32; mkBuild 6005 1 12 2 32; mkBuild 5875 1 12 1 32].
Definition has_build (build : Z) (l : list RealmBuildInfo) : bool := existsb (fun i => Build i =? build) l.
Definition IsPreBCAcceptedClientBuild (build : Z) : bool := has_build build PreBcAcceptedClientBuilds.
Definition IsPostBCAcceptedClientBuild (build : Z) : bool := has_build build PostBcAcceptedClientBuilds.
Definition IsAcceptedClientBuild (build : Z) : bool :=
  IsPostBCAcceptedClientBuild build || IsPreBCAcceptedClientBuild build.
Definition GetBuildInfo (build : Z) : option RealmBuildInfo :=
  find (fun i => Build i =? build) (PostBcAcceptedClientBuilds ++ PreBcAcceptedClientBuilds).

(** ** Locales *)

Definition localeNames : list text :=
  [[101; 110; 85; 83]; [107; 111; 75; 82]; [102; 114; 70; 82]; [100; 101; 68; 69]; [122; 104; 67; 78];
   [122; 104; 84; 87]; [101; 115; 69; 83]; [101; 115; 77; 88]; [114; 117; 82; 85]; [105; 116; 73; 84];
   [112; 116; 66; 82]; [112; 116; 80; 84]].
Fixpoint locale_from (i : Z) (names : list text) (name : text) : Z :=
  match names with
  | [] => 0
  | n :: names => if bool_decide (name = n) then i else locale_from (i + 1) names name
  end.
Definition GetLocaleByName (name : text) : Z := locale_from 0 localeNames name.

(** ** The login database *)

Record Account := mkAccount {
  acc_id : Z;
  sha_pass_hash : text;
  sessionkey : text;
  acc_v : text;
  acc_s : text;
  token_key : text;
  last_ip : text;
  failed_logins : Z;
  locked : Z;
  lock_country : text;
  expansion : Z;
  mutetime : Z;
  locale : Z;
  acc_os : text;
  recruiter : Z
}.
Definition set_sessionkey (x : text) (r : Account) : Account :=
  mkAccount (acc_id r) (sha_pass_hash r) x (acc_v r) (acc_s r) (token_key r) (last_ip r) (failed_logins r)
    (locked r) (lock_country r) (expansion r) (mutetime r) (locale r) (acc_os r) (recruiter r).
Definition set_acc_v (x : text) (r : Account) : Account :=
  mkAccount (acc_id r) (sha_pass_hash r) (sessionkey r) x (acc_s r) (token_key r) (last_ip r) (failed_logins
    r) (locked r) (lock_country r) (expansion r) (mutetime r) (locale r) (acc_os r) (recruiter r).
Definition set_acc_s (x : text) (r : Account) : Account :=
  mkAccount (acc_id r) (sha_pass_hash r) (sessionkey r) (acc_v r) x (token_key r) (last_ip r) (failed_logins
    r) (locked r) (lock_country r) (expansion r) (mutetime r) (locale r) (acc_os r) (recruiter r).
Definition set_last_ip (x : text) (r : Account) : Account :=
  mkAccount (acc_id r) (sha_pass_hash r) (sessionkey r) (acc_v r) (acc_s r) (token_key r) x (failed_logins r)
    (locked r) (lock_country r) (expansion r) (mutetime r) (locale r) (acc_os r) (recruiter r).
Definition set_failed_logins (x : Z) (r : Account) : Account :=
  mkAccount (acc_id r) (sha_pass_hash r) (sessionkey r) (acc_v r) (acc_s r) (token_key r) (last_ip r) x
    (locked r) (lock_country r) (expansion r) (mutetime r) (locale r) (acc_os r) (recruiter r).
Definition set_mutetime (x : Z) (r : Account) : Account :=
  mkAccount (acc_id r) (sha_pass_hash r) (sessionkey r) (acc_v r) (acc_s r) (token_key r) (last_ip r)
    (failed_logins r) (locked r) (lock_country r) (expansion r) x (locale r) (acc_os r) (recruiter r).
Definition set_locale (x : Z) (r : Account) : Account :=
  mkAccount (acc_id r) (sha_pass_hash r) (sessionkey r) (acc_v r) (acc_s r) (token_key r) (last_ip r)
    (failed_logins r) (locked r) (lock_country r) (expansion r) (mutetime r) x (acc_os r) (recruiter r).
Definition set_acc_os (x : text) (r : Account) : Account :=
  mkAccount (acc_id r) (sha_pass_hash r) (sessionkey r) (acc_v r) (acc_s r) (token_key r) (last_ip r)
    (failed_logins r) (locked r) (lock_country r) (expansion r) (mutetime r) (locale r) x (recruiter r).
Record AccountBan := mkBan {
  ban_id : Z;
  bandate : Z;
  unbandate : Z;
  active : bool
}.
(** An [ACE_INET_Addr] *)
Record INET_Addr := mkAddr { ip_address : Z; port_number : Z }.
Record Realm := mkRealm {
  ExternalAddress : INET_Addr;
  LocalAddress : INET_Addr;
  LocalSubnetMask : INET_Addr;
  icon : Z;
  flag : Z;
  timezone : Z;
  m_ID : Z;
  allowedSecurityLevel : Z;
  populationLevel : Z;  (* the pattern of the float *)
  gamebuild : Z
}.
(** A row of realmlist, by its columns *)
Record RealmRow := mkRealmRow {
  rr_id : Z;
  rr_name : text;
  rr_address : text;
  rr_localAddress : text;
  rr_localSubnetMask : text;
  rr_port : Z;
  rr_icon : Z;
  rr_flag : Z;
  rr_timezone : Z;
  rr_allowedSecurityLevel : Z;
  rr_population : Z;
  rr_gamebuild : Z
}.
Record LoginDB := mkDB {
  accounts : gmap text Account;  (* by collated name *)
  account_access : list (Z * Z * Z);  (* id, gmlevel, RealmID *)
  account_banned : list AccountBan;
  ip_banned : gmap (text * Z) Z;  (* ip and bandate, to unbandate *)
  ip2nation : list (Z * text);
  realmcharacters : gmap (Z * Z) Z;  (* realm and account, to numchars *)
  realmlist : list RealmRow;
  unixtime : Z
}.
Definition set_accounts (x : gmap text Account) (r : LoginDB) : LoginDB :=
  mkDB x (account_access r) (account_banned r) (ip_banned r) (ip2nation r) (realmcharacters r) (realmlist r)
    (unixtime r).
Definition set_account_banned (x : list AccountBan) (r : LoginDB) : LoginDB :=
  mkDB (accounts r) (account_access r) x (ip_banned r) (ip2nation r) (realmcharacters r) (realmlist r)
    (unixtime r).
Definition set_ip_banned (x : gmap (text * Z) Z) (r : LoginDB) : LoginDB :=
  mkDB (accounts r) (account_access r) (account_banned r) x (ip2nation r) (realmcharacters r) (realmlist r)
    (unixtime r).
Definition set_unixtime (x : Z) (r : LoginDB) : LoginDB :=
  mkDB (accounts r) (account_access r) (account_banned r) (ip_banned r) (ip2nation r) (realmcharacters r)
    (realmlist r) x.
(** The statements that change something *)
Inductive Statement :=
| LOGIN_DEL_EXPIRED_IP_BANS
| LOGIN_UPD_EXPIRED_ACCOUNT_BANS
| LOGIN_UPD_VS (v s username : text)
| LOGIN_UPD_LOGONPROOF (key ip : text) (locale : Z) (os username : text)
| LOGIN_UPD_FAILEDLOGINS (username : text)
| LOGIN_INS_ACCOUNT_AUTO_BANNED (id duration : Z)
| LOGIN_INS_IP_AUTO_BANNED (ip : text) (duration : Z)
| LOGIN_UPD_MUTE_TIME_LOGIN (mutetime id : Z)
| LOGIN_UPD_LAST_IP (ip username : text).

(** ** The server and its connections *)

Record Realmd := mkRealmd {
  db : LoginDB;
  pending : list Statement;
  draws : nat;  (* random numbers drawn *)
  queries : nat;  (* synchronous statements so far *)
  m_realms : gmap text Realm;
  m_UpdateInterval : Z;
  m_NextUpdateTime : Z
}.
Definition set_db (x : LoginDB) (r : Realmd) : Realmd :=
  mkRealmd x (pending r) (draws r) (queries r) (m_realms r) (m_UpdateInterval r) (m_NextUpdateTime r).
Definition set_pending (x : list Statement) (r : Realmd) : Realmd :=
  mkRealmd (db r) x (draws r) (queries r) (m_realms r) (m_UpdateInterval r) (m_NextUpdateTime r).
Definition set_draws (x : nat) (r : Realmd) : Realmd :=
  mkRealmd (db r) (pending r) x (queries r) (m_realms r) (m_UpdateInterval r) (m_NextUpdateTime r).
Definition set_queries (x : nat) (r : Realmd) : Realmd :=
  mkRealmd (db r) (pending r) (draws r) x (m_realms r) (m_UpdateInterval r) (m_NextUpdateTime r).
Definition set_m_realms (x : gmap text Realm) (r : Realmd) : Realmd :=
  mkRealmd (db r) (pending r) (draws r) (queries r) x (m_UpdateInterval r) (m_NextUpdateTime r).
Definition set_m_NextUpdateTime (x : Z) (r : Realmd) : Realmd :=
  mkRealmd (db r) (pending r) (draws r) (queries r) (m_realms r) (m_UpdateInterval r) x.
Record AuthSocket := mkSocket {
  _s : Z;
  _v : Z;
  _b : Z;
  _B : Z;
  _K : Z;
  _reconnectProof : Z;
  _authed : bool;
  _login : text;
  _tokenKey : text;
  _localizationName : text;
  _os : text;
  _build : Z;
  _expversion : Z;
  _accountSecurityLevel : Z;
  remoteAddress : text;
  peer : INET_Addr;
  input : list Z;  (* input_buffer_, from its read pointer *)
  sent : list (list Z);  (* what was sent, in order *)
  closed : bool  (* shutdown was called *)
}.
Definition set__s (x : Z) (r : AuthSocket) : AuthSocket :=
  mkSocket x (_v r) (_b r) (_B r) (_K r) (_reconnectProof r) (_authed r) (_login r) (_tokenKey r)
    (_localizationName r) (_os r) (_build r) (_expversion r) (_accountSecurityLevel r) (remoteAddress r) (peer
    r) (input r) (sent r) (closed r).
Definition set__v (x : Z) (r : AuthSocket) : AuthSocket :=
  mkSocket (_s r) x (_b r) (_B r) (_K r) (_reconnectProof r) (_authed r) (_login r) (_tokenKey r)
    (_localizationName r) (_os r) (_build r) (_expversion r) (_accountSecurityLevel r) (remoteAddress r) (peer
    r) (input r) (sent r) (closed r).
Definition set__b (x : Z) (r : AuthSocket) : AuthSocket :=
  mkSocket (_s r) (_v r) x (_B r) (_K r) (_reconnectProof r) (_authed r) (_login r) (_tokenKey r)
    (_localizationName r) (_os r) (_build r) (_expversion r) (_accountSecurityLevel r) (remoteAddress r) (peer
    r) (input r) (sent r) (closed r).
Definition set__B (x : Z) (r : AuthSocket) : AuthSocket :=
  mkSocket (_s r) (_v r) (_b r) x (_K r) (_reconnectProof r) (_authed r) (_login r) (_tokenKey r)
    (_localizationName r) (_os r) (_build r) (_expversion r) (_accountSecurityLevel r) (remoteAddress r) (peer
    r) (input r) (sent r) (closed r).
Definition set__K (x : Z) (r : AuthSocket) : AuthSocket :=
  mkSocket (_s r) (_v r) (_b r) (_B r) x (_reconnectProof r) (_authed r) (_login r) (_tokenKey r)
    (_localizationName r) (_os r) (_build r) (_expversion r) (_accountSecurityLevel r) (remoteAddress r) (peer
    r) (input r) (sent r) (closed r).
Definition set__reconnectProof (x : Z) (r : AuthSocket) : AuthSocket :=
  mkSocket (_s r) (_v r) (_b r) (_B r) (_K r) x (_authed r) (_login r) (_tokenKey r) (_localizationName r)
    (_os r) (_build r) (_expversion r) (_accountSecurityLevel r) (remoteAddress r) (peer r) (input r) (sent r)
    (closed r).
Definition set__authed (x : bool) (r : AuthSocket) : AuthSocket :=
  mkSocket (_s r) (_v r) (_b r) (_B r) (_K r) (_reconnectProof r) x (_login r) (_tokenKey r)
    (_localizationName r) (_os r) (_build r) (_expversion r) (_accountSecurityLevel r) (remoteAddress r) (peer
    r) (input r) (sent r) (closed r).
Definition set__login (x : text) (r : AuthSocket) : AuthSocket :=
  mkSocket (_s r) (_v r) (_b r) (_B r) (_K r) (_reconnectProof r) (_authed r) x (_tokenKey r)
    (_localizationName r) (_os r) (_build r) (_expversion r) (_accountSecurityLevel r) (remoteAddress r) (peer
    r) (input r) (sent r) (closed r).
Definition set__tokenKey (x : text) (r : AuthSocket) : AuthSocket :=
  mkSocket (_s r) (_v r) (_b r) (_B r) (_K r) (_reconnectProof r) (_authed r) (_login r) x (_localizationName
    r) (_os r) (_build r) (_expversion r) (_accountSecurityLevel r) (remoteAddress r) (peer r) (input r) (sent
    r) (closed r).
Definition set__localizationName (x : text) (r : AuthSocket) : AuthSocket :=
  mkSocket (_s r) (_v r) (_b r) (_B r) (_K r) (_reconnectProof r) (_authed r) (_login r) (_tokenKey r) x (_os
    r) (_build r) (_expversion r) (_accountSecurityLevel r) (remoteAddress r) (peer r) (input r) (sent r)
    (closed r).
Definition set__os (x : text) (r : AuthSocket) : AuthSocket :=
  mkSocket (_s r) (_v r) (_b r) (_B r) (_K r) (_reconnectProof r) (_authed r) (_login r) (_tokenKey r)
    (_localizationName r) x (_build r) (_expversion r) (_accountSecurityLevel r) (remoteAddress r) (peer r)
    (input r) (sent r) (closed r).
Definition set__build (x : Z) (r : AuthSocket) : AuthSocket :=
  mkSocket (_s r) (_v r) (_b r) (_B r) (_K r) (_reconnectProof r) (_authed r) (_login r) (_tokenKey r)
    (_localizationName r) (_os r) x (_expversion r) (_accountSecurityLevel r) (remoteAddress r) (peer r)
    (input r) (sent r) (closed r).
Definition set__expversion (x : Z) (r : AuthSocket) : AuthSocket :=
  mkSocket (_s r) (_v r) (_b r) (_B r) (_K r) (_reconnectProof r) (_authed r) (_login r) (_tokenKey r)
    (_localizationName r) (_os r) (_build r) x (_accountSecurityLevel r) (remoteAddress r) (peer r) (input r)
    (sent r) (closed r).
Definition set__accountSecurityLevel (x : Z) (r : AuthSocket) : AuthSocket :=
  mkSocket (_s r) (_v r) (_b r) (_B r) (_K r) (_reconnectProof r) (_authed r) (_login r) (_tokenKey r)
    (_localizationName r) (_os r) (_build r) (_expversion r) x (remoteAddress r) (peer r) (input r) (sent r)
    (closed r).
Definition set_input (x : list Z) (r : AuthSocket) : AuthSocket :=
  mkSocket (_s r) (_v r) (_b r) (_B r) (_K r) (_reconnectProof r) (_authed r) (_login r) (_tokenKey r)
    (_localizationName r) (_os r) (_build r) (_expversion r) (_accountSecurityLevel r) (remoteAddress r) (peer
    r) x (sent r) (closed r).
Definition set_sent (x : list (list Z)) (r : AuthSocket) : AuthSocket :=
  mkSocket (_s r) (_v r) (_b r) (_B r) (_K r) (_reconnectProof r) (_authed r) (_login r) (_tokenKey r)
    (_localizationName r) (_os r) (_build r) (_expversion r) (_accountSecurityLevel r) (remoteAddress r) (peer
    r) (input r) x (closed r).
Definition set_closed (x : bool) (r : AuthSocket) : AuthSocket :=
  mkSocket (_s r) (_v r) (_b r) (_B r) (_K r) (_reconnectProof r) (_authed r) (_login r) (_tokenKey r)
    (_localizationName r) (_os r) (_build r) (_expversion r) (_accountSecurityLevel r) (remoteAddress r) (peer
    r) (input r) (sent r) x.

(** What comes from outside: how the database compares names ([collate]: equal
    names have equal images), the database thread, bytes of memory behind an
    array and on the stack, the functions of ACE and the C library on
    addresses, and the configuration. *)
Class AuthWorld := {
  collate : text -> text;
  db_thread : nat -> nat;
  heap : list Z -> nat -> Z;
  stack_byte : Z;
  inet_addr : text -> Z;
  make_addr : Z -> text -> INET_Addr;
  addr_to_string : INET_Addr -> text;
  is_loopback : INET_Addr -> bool;
  WrongPass_MaxCount : Z;
  WrongPass_BanTime : Z;
  WrongPass_BanType : bool
}.

Section AuthServer.
Context `{OpenSSL} `{AuthWorld}.

(** ** Statements *)

Definition upd_account (name : text) (f : Account -> Account) (d : LoginDB) : LoginDB :=
  set_accounts (alter f (collate name) (accounts d)) d.
Definition ban_expired (d : LoginDB) (from until : Z) : bool := negb (until =? from) && (until <=? unixtime d).
Definition has_ban (id date : Z) (l : list AccountBan) : bool :=
  existsb (fun r => (ban_id r =? id) && (bandate r =? date)) l.
Definition run_statement (st : Statement) (d : LoginDB) : LoginDB :=
  match st with
  | LOGIN_DEL_EXPIRED_IP_BANS =>
      set_ip_banned (filter (fun p => ban_expired d p.1.2 p.2 = false) (ip_banned d)) d
  | LOGIN_UPD_EXPIRED_ACCOUNT_BANS =>
      set_account_banned
        ((fun r => if active r && ban_expired d (bandate r) (unbandate r)
                   then mkBan (ban_id r) (bandate r) (unbandate r) false else r) <$> account_banned d) d
  | LOGIN_UPD_VS v s username => upd_account username (fun a => set_acc_v v (set_acc_s s a)) d
  | LOGIN_UPD_LOGONPROOF key ip loc os username =>
      upd_account username (fun a => set_sessionkey key (set_last_ip ip (set_locale loc (set_failed_logins 0 (set_acc_os os a))))) d
  | LOGIN_UPD_FAILEDLOGINS username => upd_account username (fun a => set_failed_logins (failed_logins a + 1) a) d
  | LOGIN_INS_ACCOUNT_AUTO_BANNED id duration =>
      if has_ban id (unixtime d) (account_banned d) then d
      else set_account_banned (account_banned d ++ [mkBan id (unixtime d) (unixtime d + duration) true]) d
  | LOGIN_INS_IP_AUTO_BANNED ip duration =>
      if decide (is_Some (ip_banned d !! (ip, unixtime d))) then d
      else set_ip_banned (<[(ip, unixtime d) := unixtime d + duration]> (ip_banned d)) d
  | LOGIN_UPD_MUTE_TIME_LOGIN mute id =>
      set_accounts ((fun a => if acc_id a =? id then set_mutetime mute a else a) <$> accounts d) d
  | LOGIN_UPD_LAST_IP ip username => upd_account username (set_last_ip ip) d
  end.
Definition run_statements (l : list Statement) (d : LoginDB) : LoginDB := foldl (fun d st => run_statement st d) d l.

(** [LoginDatabase.Execute]; the database thread; [LoginDatabase.Query] and
    [DirectExecute], which other statements may come before *)
Definition Execute (st : Statement) (rd : Realmd) : Realmd := set_pending (pending rd ++ [st]) rd.
Definition work (n : nat) (rd : Realmd) : Realmd :=
  set_db (run_statements (take n (pending rd)) (db rd)) (set_pending (drop n (pending rd)) rd).
Definition synch (rd : Realmd) : Realmd := set_queries (S (queries rd)) (work (db_thread (queries rd)) rd).
Definition DirectExecute (st : Statement) (rd : Realmd) : Realmd :=
  let rd := synch rd in set_db (run_statement st (db rd)) rd.

(** The queries *)
Definition SEL_ACCOUNT (name : text) (d : LoginDB) : option Account := accounts d !! collate name.
Definition SEL_IP_BANNED (ip : text) (d : LoginDB) : bool :=
  existsb (fun p => bool_decide (p.1.1 = ip)) (map_to_list (ip_banned d)).
Definition SEL_ACCOUNT_BANNED (id : Z) (d : LoginDB) : option AccountBan :=
  find (fun r => (ban_id r =? id) && active r) (account_banned d).
(** [LEFT JOIN account_access aa ON (a.id = aa.id)]: the first row is read, and
    a NULL reads as 0. *)
Definition SEL_gmlevel (id : Z) (d : LoginDB) : Z :=
  match find (fun r => r.1.1 =? id) (account_access d) with Some r => r.1.2 | None => 0 end.
(** [WHERE ip < ? ORDER BY ip DESC LIMIT 0,1] *)
Definition SEL_LOGON_COUNTRY (ip : Z) (d : LoginDB) : option text :=
  snd <$> foldl (fun best r =>
    if r.1 <? ip then match best with Some b => if b.1 <? r.1 then Some r else best | None => Some r end else best)
    None (ip2nation d).
Definition SEL_NUM_CHARS_ON_REALM (realm id : Z) (d : LoginDB) : Z := default 0 (realmcharacters d !! (realm, id)).

(** ** The input of a connection *)

Definition recv_len (so : AuthSocket) : nat := length (input so).
Definition recv_soft (len : nat) (so : AuthSocket) : option (list Z) :=
  if (recv_len so <? len)%nat then None else Some (take len (input so)).
Definition recv_skip (len : nat) (so : AuthSocket) : AuthSocket := set_input (drop len (input so)) so.
Definition recv (len : nat) (so : AuthSocket) : option (list Z) * AuthSocket :=
  match recv_soft len so with
  | Some l => (Some l, recv_skip len so)
  | None => (None, so)
  end.
Definition send (pkt : list Z) (so : AuthSocket) : AuthSocket :=
  if closed so then so else set_sent (sent so ++ [pkt]) so.
Definition shutdown (so : AuthSocket) : AuthSocket := set_closed true so.

(** [memcmp(array, bytes, n) == 0], when the array may be shorter than [n] *)
Definition first_bytes (n : nat) (array : list Z) : list Z :=
  take n (array ++ (heap array <$> seq (length array) (n - length array))).

(** ** SRP6 *)

Definition srp_N_hex : text :=
  [56; 57; 52; 66; 54; 52; 53; 69; 56; 57; 69; 49; 53; 51; 53; 66; 66; 68; 65; 68; 53; 66; 56; 66; 50; 57; 48; 54; 53; 48;
   53; 51; 48; 56; 48; 49; 66; 49; 56; 69; 66; 70; 66; 70; 53; 69; 56; 70; 65; 66; 51; 67; 56; 50; 56; 55; 50; 65; 51; 69;
   57; 66; 66; 55].
(** The members [N] and [g], set by the constructor *)
Definition srp_N : Z := SetHexStr 0 srp_N_hex.
Definition srp_g : Z := 7.

Definition AuthSocket_init (remote : text) (addr : INET_Addr) : AuthSocket :=
  mkSocket 0 0 0 0 0 0 false [] [] [] [] 0 0 SEC_PLAYER remote addr [] [] false.

Definition Handler : Type := Realmd -> AuthSocket -> bool * Realmd * AuthSocket.

(** The digest of the password, as [_SetVSFields] restores it from the column *)
Definition password_digest (rI : text) : list Z :=
  let I := SetHexStr 0 rI in
  let mDigest :=
    if (GetNumBytes I <=? 20)%nat then AsByteArray 0 I ++ replicate (20 - GetNumBytes I) 0 else replicate 20 0 in
  reverse mDigest.
Definition srp_x (s : Z) (mDigest : list Z) : Z :=
  SetBinary (Finalize (UpdateData mDigest (UpdateData (AsByteArray 0 s) new_sha))).
Definition _SetVSFields (rI : text) (rd : Realmd) (so : AuthSocket) : Realmd * AuthSocket :=
  let so := set__s (SetRand (draws rd) (Z.of_nat s_BYTE_SIZE * 8)) so in
  let rd := set_draws (S (draws rd)) rd in
  let x := srp_x (_s so) (password_digest rI) in
  let so := set__v (ModExp srp_g x srp_N) so in
  (Execute (LOGIN_UPD_VS (AsHexStr (_v so)) (AsHexStr (_s so)) (_login so)) rd, so).

(** ** Challenges *)

Definition expversion_of (build : Z) : Z :=
  if IsPostBCAcceptedClientBuild build then POST_BC_EXP_FLAG
  else if IsPreBCAcceptedClientBuild build then PRE_BC_EXP_FLAG else NO_VALID_EXP_FLAG.

(** The packet of both challenges, with the zero put behind it *)
Definition sizeof_challenge : nat := 35.
Definition recv_challenge (so : AuthSocket) : option (list Z) * AuthSocket :=
  if (recv_len so <? sizeof_challenge)%nat then (None, so)
  else
    let buf := take 4 (input so) in
    let so := recv_skip 4 so in
    let remaining := Z.to_nat (le_value (take 2 (drop 2 buf))) in
    if (remaining <? sizeof_challenge - 4)%nat || (recv_len so <? remaining)%nat then (None, so)
    else (Some (buf ++ take remaining (input so) ++ [0]), recv_skip remaining so).
Definition ch_build (ch : list Z) : Z := le_value (take 2 (drop 11 ch)).
Definition ch_os (ch : list Z) : text := c_string (drop 17 ch).
Definition ch_country (ch : list Z) : list Z := take 4 (drop 21 ch).
Definition ch_I (ch : list Z) : text := c_string (drop 34 ch).

(** Whether the account is locked away from this address, and the answer then *)
Definition challenge_lock (row : Account) (ip_address : text) (rd : Realmd) : option Z * Realmd :=
  if u8 (locked row) =? 1 then
    (if bool_decide (last_ip row = ip_address) then None else Some WOW_FAIL_LOCKED_ENFORCED, rd)
  else if bool_decide (lock_country row = []) || bool_decide (lock_country row = [48; 48]) then (None, rd)
  else
    let rd := synch rd in
    match SEL_LOGON_COUNTRY (le_value (reverse (le_bytes 4 (inet_addr ip_address)))) (db rd) with
    | Some loginCountry =>
        (if bool_decide (loginCountry = lock_country row) then None else Some WOW_FAIL_UNLOCKABLE_LOCK, rd)
    | None => (None, rd)
    end.

(** The verifier that is used: the stored one if both columns are full *)
Definition challenge_vs (row : Account) (rd : Realmd) (so : AuthSocket) : Realmd * AuthSocket :=
  if negb (length (acc_v row) =? s_BYTE_SIZE * 2)%nat || negb (length (acc_s row) =? s_BYTE_SIZE * 2)%nat
  then _SetVSFields (sha_pass_hash row) rd so
  else (rd, set__v (SetHexStr (_v so) (acc_v row)) (set__s (SetHexStr (_s so) (acc_s row)) so)).

(** The challenge proper; [ASSERT(gmod.GetNumBytes() <= 32)] holds, since
    [gmod] is below [N]. *)
Definition challenge_srp (row : Account) (gmlevel : Z) (ch : list Z) (rd : Realmd) (so : AuthSocket)
    : list Z * Realmd * AuthSocket :=
  let '(rd, so) := challenge_vs row rd so in
  let so := set__b (SetRand (draws rd) (19 * 8)) so in
  let gmod := ModExp srp_g (_b so) srp_N in
  let so := set__B (BN_mod (BN_add (BN_mul (_v so) 3) gmod) srp_N) so in
  let unk3 := SetRand (S (draws rd)) (16 * 8) in
  let rd := set_draws (S (S (draws rd))) rd in
  let so := set__tokenKey (token_key row) so in
  let securityFlags := if bool_decide (_tokenKey so = []) then 0 else 4 in
  let pkt :=
    [if IsAcceptedClientBuild (_build so) then WOW_SUCCESS else WOW_FAIL_VERSION_INVALID]
    ++ take 32 (AsByteArray 32 (_B so)) ++ [1] ++ first_bytes 1 (AsByteArray 0 srp_g)
    ++ [32] ++ take 32 (AsByteArray 32 srp_N) ++ AsByteArray 0 (_s so) ++ take 16 (AsByteArray 16 unk3)
    ++ [securityFlags] ++ (if has_flag securityFlags 4 then [1] else []) in
  let secLevel := u8 gmlevel in
  let so := set__accountSecurityLevel (if secLevel <=? SEC_ADMINISTRATOR then secLevel else SEC_ADMINISTRATOR) so in
  let so := set__localizationName (reverse (ch_country ch)) so in
  (pkt, rd, so).

(** An account that exists: locks, then bans, then the challenge *)
Definition challenge_account (row : Account) (gmlevel : Z) (ch : list Z) (rd : Realmd) (so : AuthSocket)
    : list Z * Realmd * AuthSocket :=
  match challenge_lock row (remoteAddress so) rd with
  | (Some code, rd) => ([code], rd, so)
  | (None, rd) =>
      let rd := DirectExecute LOGIN_UPD_EXPIRED_ACCOUNT_BANS rd in
      let rd := synch rd in
      match SEL_ACCOUNT_BANNED (acc_id row) (db rd) with
      | Some r => ([if bandate r =? unbandate r then WOW_FAIL_BANNED else WOW_FAIL_SUSPENDED], rd, so)
      | None => challenge_srp row gmlevel ch rd so
      end
  end.

Definition challenge_reply (ch : list Z) (rd : Realmd) (so : AuthSocket) : list Z * Realmd * AuthSocket :=
  let rd := synch (Execute LOGIN_DEL_EXPIRED_IP_BANS rd) in
  if SEL_IP_BANNED (remoteAddress so) (db rd) then ([WOW_FAIL_BANNED], rd, so)
  else
    let rd := synch rd in
    match SEL_ACCOUNT (_login so) (db rd) with
    | Some row => challenge_account row (SEL_gmlevel (acc_id row) (db rd)) ch rd so
    | None => ([WOW_FAIL_UNKNOWN_ACCOUNT], rd, so)
    end.

(** What a challenge says of the client *)
Definition note_client (ch : list Z) (so : AuthSocket) : AuthSocket :=
  set__os (ch_os ch) (set__expversion (expversion_of (ch_build ch)) (set__build (ch_build ch) so)).

Definition _HandleLogonChallenge : Handler := fun rd so =>
  match recv_challenge so with
  | (None, so) => (false, rd, so)
  | (Some ch, so) =>
      let so := note_client ch (set__login (ch_I ch) so) in
      if (4 <? length (_os so))%nat then (false, rd, so)
      else
        let so := set__os (reverse (_os so)) so in
        let '(reply, rd, so) := challenge_reply ch rd so in
        (true, rd, send ([AUTH_LOGON_CHALLENGE; 0] ++ reply) so)
  end.

(** ** Proofs *)

(** [S], the key made of it, and the two proofs *)
Definition srp_u (A B : Z) : Z := SetBinary (Finalize (UpdateBigNumbers [A; B] new_sha)).
Definition srp_S (A v b B : Z) : Z := ModExp (BN_mul A (ModExp v (srp_u A B) srp_N)) b srp_N.
Definition every_other (off : nat) (t : list Z) : list Z := (fun i => nth (2 * i + off)%nat t 0) <$> seq 0 16.
Definition interleave (h1 h2 : list Z) : list Z := concat (zip_with (fun x y => [x; y]) h1 h2).
Definition srp_K (t : list Z) : Z :=
  SetBinary (interleave (Finalize (UpdateData (every_other 0 t) new_sha)) (Finalize (UpdateData (every_other 1 t) new_sha))).
Definition srp_t3 : Z :=
  SetBinary (zip_with Z.lxor (Finalize (UpdateBigNumbers [srp_N] new_sha)) (Finalize (UpdateBigNumbers [srp_g] new_sha))).
Definition srp_M (login : text) (s A B K : Z) : list Z :=
  let t4 := Finalize (UpdateData login new_sha) in
  Finalize (UpdateBigNumbers [s; A; B; K] (UpdateData t4 (UpdateBigNumbers [srp_t3] new_sha))).
Definition srp_M2 (A M K : Z) : list Z := Finalize (UpdateBigNumbers [A; M; K] new_sha).

Definition sizeof_proof : nat := 75.
Definition lp_A (lp : list Z) : list Z := take 32 (drop 1 lp).
Definition lp_M1 (lp : list Z) : list Z := take 20 (drop 33 lp).
Definition lp_securityFlags (lp : list Z) : Z := nth 74 lp 0.

(** The token that follows the packet: what is not there yet is whatever the
    memory holds. *)
Definition recv_token (so : AuthSocket) : Z * AuthSocket :=
  let '(r, so) := recv 1 so in
  let size := Z.to_nat (hd 0 (default [stack_byte] r)) in
  let '(r, so) := recv size so in
  (u32 (atol (c_string (default (heap [] <$> seq 0 size) r))), so).

Definition proof_refused : list Z := [AUTH_LOGON_PROOF; WOW_FAIL_UNKNOWN_ACCOUNT; 3; 0].
Definition proof_reply (expversion : Z) (M2 : list Z) : list Z :=
  if has_flag expversion POST_BC_EXP_FLAG
  then [AUTH_LOGON_PROOF; 0] ++ M2 ++ le_bytes 4 8388608 ++ le_bytes 4 0 ++ le_bytes 2 0
  else [AUTH_LOGON_PROOF; 0] ++ M2 ++ le_bytes 4 0.

(** A wrong password is counted, and may end in a ban. *)
Definition count_failure (rd : Realmd) (so : AuthSocket) : Realmd :=
  let MaxWrongPassCount := u32 WrongPass_MaxCount in
  if 0 <? MaxWrongPassCount then
    let rd := synch (Execute (LOGIN_UPD_FAILEDLOGINS (_login so)) rd) in
    match SEL_ACCOUNT (_login so) (db rd) with
    | Some row =>
        if MaxWrongPassCount <=? failed_logins row then
          if WrongPass_BanType then Execute (LOGIN_INS_ACCOUNT_AUTO_BANNED (acc_id row) (u32 WrongPass_BanTime)) rd
          else Execute (LOGIN_INS_IP_AUTO_BANNED (remoteAddress so) (u32 WrongPass_BanTime)) rd
        else rd
    | None => rd
    end
  else rd.

(** What the proof is checked against: [K] is kept, [M] is a digest. *)
Definition proof_K (A : Z) (so : AuthSocket) : Z := srp_K (take 32 (AsByteArray 32 (srp_S A (_v so) (_b so) (_B so)))).
Definition proof_M (A : Z) (so : AuthSocket) : Z := SetBinary (srp_M (_login so) (_s so) A (_B so) (_K so)).

(** The password was right: the key is stored, then the token is checked. *)
Definition proof_accepted (lp : list Z) (A M : Z) : Handler := fun rd so =>
  let rd := DirectExecute (LOGIN_UPD_LOGONPROOF (AsHexStr (_K so)) (remoteAddress so)
              (GetLocaleByName (_localizationName so)) (_os so) (_login so)) rd in
  let M2 := srp_M2 A M (_K so) in
  let '(ok, so) :=
    if has_flag (lp_securityFlags lp) 4 || negb (bool_decide (_tokenKey so = [])) then
      let '(incomingToken, so) := recv_token so in
      (GenerateToken (unixtime (db rd)) (_tokenKey so) =? incomingToken, so)
    else (true, so) in
  if ok then (true, rd, set__authed true (send (proof_reply (_expversion so) M2) so))
  else (false, rd, send proof_refused so).

Definition _HandleLogonProof : Handler := fun rd so =>
  match recv sizeof_proof so with
  | (None, so) => (false, rd, so)
  | (Some lp, so) =>
      if _expversion so =? NO_VALID_EXP_FLAG then (true, rd, shutdown so)
      else
        let A := SetBinary (lp_A lp) in
        if isZero A then (true, rd, shutdown so)
        else
          let so := set__K (proof_K A so) so in
          let M := proof_M A so in
          if bool_decide (first_bytes 20 (AsByteArray 0 M) = lp_M1 lp) then proof_accepted lp A M rd so
          else (true, count_failure rd so, send proof_refused so)
  end.

(** ** Reconnecting *)

Definition _HandleReconnectChallenge : Handler := fun rd so =>
  match recv_challenge so with
  | (None, so) => (false, rd, so)
  | (Some ch, so) =>
      let so := set__login (ch_I ch) so in
      let rd := synch rd in
      match SEL_ACCOUNT (_login so) (db rd) with
      | None => (false, rd, shutdown so)
      | Some row =>
          let so := note_client ch so in
          if (4 <? length (_os so))%nat then (false, rd, so)
          else
            let so := set__os (reverse (_os so)) so in
            let secLevel := u8 (SEL_gmlevel (acc_id row) (db rd)) in
            let so := set__accountSecurityLevel (if secLevel <=? SEC_ADMINISTRATOR then secLevel else SEC_ADMINISTRATOR) so in
            let so := set__K (SetHexStr (_K so) (sessionkey row)) so in
            let so := set__reconnectProof (SetRand (draws rd) (16 * 8)) so in
            let rd := set_draws (S (draws rd)) rd in
            (true, rd, send ([AUTH_RECONNECT_CHALLENGE; 0] ++ take 16 (AsByteArray 16 (_reconnectProof so))
                             ++ le_bytes 8 0 ++ le_bytes 8 0) so)
      end
  end.

Definition sizeof_reconnect : nat := 58.
Definition lp_R1 (lp : list Z) : list Z := take 16 (drop 1 lp).
Definition lp_R2 (lp : list Z) : list Z := take 20 (drop 17 lp).
Definition reconnect_digest (login : text) (t1 proof K : Z) : list Z :=
  Finalize (UpdateBigNumbers [t1; proof; K] (UpdateData login new_sha)).

Definition _HandleReconnectProof : Handler := fun rd so =>
  match recv sizeof_reconnect so with
  | (None, so) => (false, rd, so)
  | (Some lp, so) =>
      if bool_decide (_login so = []) || (GetNumBytes (_reconnectProof so) =? 0)%nat || (GetNumBytes (_K so) =? 0)%nat
      then (false, rd, so)
      else if bool_decide (reconnect_digest (_login so) (SetBinary (lp_R1 lp)) (_reconnectProof so) (_K so) = lp_R2 lp)
      then (true, rd, set__authed true (send ([AUTH_RECONNECT_PROOF; 0] ++ le_bytes 2 0) so))
      else (false, rd, shutdown so)
  end.

(** ** The realm list *)

Definition UpdateRealm (name : text) (r : Realm) (rd : Realmd) : Realmd := set_m_realms (<[name := r]> (m_realms rd)) rd.
Definition realm_of_row (row : RealmRow) : Realm :=
  mkRealm (make_addr (u16 (rr_port row)) (rr_address row)) (make_addr (u16 (rr_port row)) (rr_localAddress row))
    (make_addr 0 (rr_localSubnetMask row)) (u8 (rr_icon row)) (u8 (rr_flag row)) (u8 (rr_timezone row)) (u32 (rr_id row))
    (if u8 (rr_allowedSecurityLevel row) <=? SEC_ADMINISTRATOR then u8 (rr_allowedSecurityLevel row) else SEC_ADMINISTRATOR)
    (rr_population row) (u32 (rr_gamebuild row)).
(** [WHERE flag <> 3]; the map is sorted anyway *)
Definition UpdateRealms (rd : Realmd) : Realmd :=
  let rd := synch rd in
  foldl (fun rd row => if rr_flag row =? 3 then rd else UpdateRealm (rr_name row) (realm_of_row row) rd) rd (realmlist (db rd)).
Definition UpdateIfNeed (rd : Realmd) : Realmd :=
  let now := unixtime (db rd) in
  if (m_UpdateInterval rd =? 0) || (now <? m_NextUpdateTime rd) then rd
  else UpdateRealms (set_m_realms ∅ (set_m_NextUpdateTime (now + m_UpdateInterval rd) rd)).

Definition IsIPAddrInNetwork (net addr subnetMask : INET_Addr) : bool :=
  Z.land (ip_address net) (ip_address subnetMask) =? Z.land (ip_address addr) (ip_address subnetMask).
Definition GetAddressForClient (realm : Realm) (clientAddr : INET_Addr) : INET_Addr :=
  if is_loopback clientAddr then
    if is_loopback (LocalAddress realm) || is_loopback (ExternalAddress realm) then clientAddr else LocalAddress realm
  else if IsIPAddrInNetwork (LocalAddress realm) clientAddr (LocalSubnetMask realm) then LocalAddress realm
  else ExternalAddress realm.

Definition is_pre_bc (so : AuthSocket) : bool := has_flag (_expversion so) PRE_BC_EXP_FLAG.
Definition is_post_bc (so : AuthSocket) : bool := has_flag (_expversion so) POST_BC_EXP_FLAG.
(** The flags a realm is shown with, or that it is left out *)
Definition realm_flags (realm : Realm) (so : AuthSocket) : option Z :=
  let okBuild := (is_post_bc so && (gamebuild realm =? _build so))
                 || (is_pre_bc so && negb (IsPreBCAcceptedClientBuild (gamebuild realm))) in
  match GetBuildInfo (gamebuild realm) with
  | None => if okBuild then Some (remove_flag (flag realm) REALM_FLAG_SPECIFYBUILD) else None
  | Some _ => Some (if okBuild then flag realm else add_flag (flag realm) (Z.lor REALM_FLAG_OFFLINE REALM_FLAG_SPECIFYBUILD))
  end.
(** The name an old client sees; [buildInfo] is not NULL when the flag is set. *)
Definition realm_name (name : text) (realm : Realm) (flag : Z) (so : AuthSocket) : text :=
  match GetBuildInfo (gamebuild realm) with
  | Some i =>
      if is_pre_bc so && has_flag flag REALM_FLAG_SPECIFYBUILD
      then name ++ [32; 40] ++ decimal (MajorVersion i) ++ [46] ++ decimal (MinorVersion i) ++ [46]
           ++ decimal (BugfixVersion i) ++ [41]
      else name
  | None => name
  end.
Definition realm_entry (name : text) (realm : Realm) (flag AmountOfCharacters : Z) (so : AuthSocket) : list Z :=
  let clientAddr := mkAddr (ip_address (peer so)) (port_number (ExternalAddress realm)) in
  let lock := if _accountSecurityLevel so <? allowedSecurityLevel realm then 1 else 0 in
  [icon realm] ++ (if is_post_bc so then [lock] else []) ++ [u8 flag] ++ realm_name name realm flag so ++ [0]
  ++ addr_to_string (GetAddressForClient realm clientAddr) ++ [0] ++ le_bytes 4 (populationLevel realm)
  ++ [AmountOfCharacters] ++ [timezone realm] ++ [if is_post_bc so then 44 else 0]
  ++ match GetBuildInfo (gamebuild realm) with
     | Some i =>
         if is_post_bc so && has_flag flag REALM_FLAG_SPECIFYBUILD
         then [u8 (MajorVersion i); u8 (MinorVersion i); u8 (BugfixVersion i)] ++ le_bytes 2 (Build i) else []
     | None => []
     end.

(** The realms in the order of their names *)
Fixpoint text_leb (a b : text) : bool :=
  match a, b with
  | [], _ => true
  | _, [] => false
  | x :: a, y :: b => (x <? y) || ((x =? y) && text_leb a b)
  end.
Definition name_le (x y : text * Realm) : Prop := text_leb x.1 y.1 = true.
#[export] Instance name_le_dec : RelDecision name_le := fun x y => decide (text_leb x.1 y.1 = true).
Definition realms_in_order (rd : Realmd) : list (text * Realm) := merge_sort name_le (map_to_list (m_realms rd)).

(** One round of the loop: bytes so far, realms so far *)
Definition list_realm (id : Z) (so : AuthSocket) (acc : list Z * nat * Realmd) (x : text * Realm) : list Z * nat * Realmd :=
  let '(pkt, RealmListSize, rd) := acc in
  match realm_flags x.2 so with
  | None => acc
  | Some flag =>
      let rd := synch rd in
      (pkt ++ realm_entry x.1 x.2 flag (u8 (SEL_NUM_CHARS_ON_REALM (m_ID x.2) id (db rd))) so, S RealmListSize, rd)
  end.
Definition realm_packet (so : AuthSocket) (pkt : list Z) (RealmListSize : nat) : list Z :=
  let pkt := pkt ++ (if is_post_bc so then [16; 0] else [0; 2]) in
  let sizes := le_bytes 4 0 ++ (if is_post_bc so then le_bytes 2 (Z.of_nat RealmListSize) else le_bytes 4 (Z.of_nat RealmListSize)) in
  [REALM_LIST] ++ le_bytes 2 (Z.of_nat (length pkt + length sizes)) ++ sizes ++ pkt.

Definition _HandleRealmList : Handler := fun rd so =>
  if (recv_len so <? 5)%nat then (false, rd, so)
  else
    let so := recv_skip 5 so in
    let rd := synch rd in
    match SEL_ACCOUNT (_login so) (db rd) with
    | None => (false, rd, shutdown so)
    | Some row =>
        let rd := UpdateIfNeed rd in
        let '(pkt, RealmListSize, rd) := foldl (list_realm (acc_id row) so) ([], 0%nat, rd) (realms_in_order rd) in
        (true, rd, send (realm_packet so pkt RealmListSize) so)
    end.

(** ** Patches: [pPatch] is never set. *)

Definition _HandleXferResume : Handler := fun rd so => (false, rd, so).
Definition _HandleXferCancel : Handler := fun rd so => (true, rd, shutdown (recv_skip 1 so)).
Definition _HandleXferAccept : Handler := fun rd so => (false, rd, so).

(** ** Commands *)

Definition table : list (Z * bool * Handler) :=
  [(AUTH_LOGON_CHALLENGE, false, _HandleLogonChallenge);
   (AUTH_LOGON_PROOF, false, _HandleLogonProof);
   (AUTH_RECONNECT_CHALLENGE, false, _HandleReconnectChallenge);
   (AUTH_RECONNECT_PROOF, false, _HandleReconnectProof);
   (REALM_LIST, true, _HandleRealmList);
   (XFER_ACCEPT, false, _HandleXferAccept);
   (XFER_RESUME, false, _HandleXferResume);
   (XFER_CANCEL, false, _HandleXferCancel)].
Definition find_handler (cmd : Z) (authed : bool) : option Handler :=
  snd <$> find (fun e => (e.1.1 =? cmd) && (negb e.1.2 || authed)) table.

Fixpoint OnRead_loop (fuel challengesInARow : nat) (rd : Realmd) (so : AuthSocket) : Realmd * AuthSocket :=
  match fuel with
  | O => (rd, so)
  | S fuel =>
      match recv_soft 1 so with
      | None => (rd, so)
      | Some bytes =>
          let _cmd := hd 0 bytes in
          let challengesInARow := if _cmd =? AUTH_LOGON_CHALLENGE then S challengesInARow else challengesInARow in
          if (_cmd =? AUTH_LOGON_CHALLENGE) && (challengesInARow =? MAX_AUTH_LOGON_CHALLENGES_IN_A_ROW)%nat
          then (rd, shutdown so)
          else
            match find_handler _cmd (_authed so) with
            | None => (rd, shutdown so)
            | Some handler =>
                let '(ok, rd, so) := handler rd so in
                if ok then OnRead_loop fuel challengesInARow rd so else (rd, so)
            end
      end
  end.
(** Every command that succeeds takes a byte or more. *)
Definition OnRead (rd : Realmd) (so : AuthSocket) : Realmd * AuthSocket := OnRead_loop (S (recv_len so)) 0 rd so.

(** [RealmSocket::handle_input]: the buffer has room for 4096 bytes. *)
Definition handle_input (bytes : list Z) (rd : Realmd) (so : AuthSocket) : Realmd * AuthSocket :=
  if closed so then (rd, so)
  else OnRead rd (set_input (input so ++ take (4096 - recv_len so) bytes) so).

End AuthServer.
