(* ===== verification/AuthLogin.v ===== *)
(** * Logging in

    SRP6 between AuthSocket.cpp and a client that knows the password: what the
    stored verifiers are, that both sides get the same key, and that the client
    is let in. *)
From S2P Require Import Prelude.
From S2P Require Import ByteBuffer.
From S2P Require Import BigNumber.
From S2P Require Import Util.
From S2P Require Import AuthSocket.
From Stdlib Require Import Morphisms Zpow_facts Znumtheory.
Local Open Scope Z_scope.

(** ** Congruence *)

Definition cong (m a b : Z) : Prop := a mod m = b mod m.
#[export] Instance cong_equiv m : Equivalence (cong m).
Proof. split; unfold cong; repeat intro; congruence. Qed.
#[export] Instance cong_mul m : Proper (cong m ==> cong m ==> cong m) Z.mul.
Proof. intros a a' Ha b b' Hb. unfold cong in *. by rewrite Zmult_mod, Ha, Hb, <- Zmult_mod. Qed.
#[export] Instance cong_add m : Proper (cong m ==> cong m ==> cong m) Z.add.
Proof. intros a a' Ha b b' Hb. unfold cong in *. by rewrite Zplus_mod, Ha, Hb, <- Zplus_mod. Qed.
#[export] Instance cong_sub m : Proper (cong m ==> cong m ==> cong m) Z.sub.
Proof. intros a a' Ha b b' Hb. unfold cong in *. by rewrite Zminus_mod, Ha, Hb, <- Zminus_mod. Qed.

Lemma cong_mod m a : 0 < m -> cong m (a mod m) a.
Proof. intros Hm. unfold cong. by rewrite Z.mod_mod by lia. Qed.
Lemma cong_pow m a b k : 0 < m -> cong m a b -> cong m (a ^ k) (b ^ k).
Proof. intros Hm Hab. unfold cong in *. by rewrite Zpower_mod, Hab, <- Zpower_mod by lia. Qed.

(** SRP6: the two sides raise [g] to the same power. *)
Lemma srp_agree m g x a b u : 1 < m -> 0 <= x -> 0 <= a -> 0 <= b -> 0 <= u ->
  let v := g ^ x mod m in
  let A := g ^ a mod m in
  let B := (v * 3 + g ^ b mod m) mod m in
  (B - 3 * g ^ x) ^ (a + u * x) mod m = (A * (v ^ u mod m)) ^ b mod m.
Proof.
  intros Hm Hx Ha Hb Hu v A B. change (cong m ((B - 3 * g ^ x) ^ (a + u * x)) ((A * (v ^ u mod m)) ^ b)).
  transitivity (g ^ (b * (a + u * x))).
  - rewrite Z.pow_mul_r by nia. apply cong_pow; [lia|]. unfold B, v.
    rewrite !cong_mod by lia. by replace (g ^ x * 3 + g ^ b - 3 * g ^ x) with (g ^ b) by lia.
  - replace (b * (a + u * x)) with ((a + x * u) * b) by lia. rewrite Z.pow_mul_r, Z.pow_add_r, Z.pow_mul_r by nia.
    symmetry. apply cong_pow; [lia|]. unfold A, v. rewrite !cong_mod by lia.
    f_equiv. apply cong_pow; [lia|]. by apply cong_mod; lia.
Qed.

Lemma coprime_pow_mod g m k : 1 < m -> 0 <= k -> Z.coprime m g -> g ^ k mod m <> 0.
Proof.
  intros Hm Hk Hr H0. assert (Z.coprime m (g ^ k)) as Hp by (by apply Z.coprime_pow_r).
  apply Z.mod_divide in H0; [|lia]. assert (m | 1) as Hd.
  { rewrite <- Hp. apply Z.gcd_greatest; [apply Z.divide_refl|done]. }
  apply Z.divide_1_r in Hd. lia.
Qed.

(** ** The stored verifiers *)

Section Login.
Context `{OpenSSLLaws} `{AuthWorld}.

Definition N_value : Z := 0x894B645E89E1535BBDAD5B8B290650530801B18EBFBF5E8FAB3C82872A3E9BB7.
Lemma srp_N_value : srp_N = N_value.
Proof. unfold srp_N, SetHexStr. rewrite BN_hex2bn_spec by (apply (bool_decide_unpack _); by vm_compute). by vm_compute. Qed.

Lemma srp_N_bounds : 256 ^ 31 <= srp_N < 256 ^ 32.
Proof. rewrite srp_N_value. unfold N_value. lia. Qed.

(** The columns [v] and [s] belong to the password whose digest is [P]. *)
Definition vs_ok (P : list Z) (v s : text) : Prop :=
  length v = 64%nat -> length s = 64%nat ->
  is_hex v /\ is_hex s /\ BN_num_bytes (hex_value s) = 32%nat /\ 0 < hex_value s /\
  hex_value v = srp_g ^ srp_x (hex_value s) P mod srp_N.
Record row_ok (P : list Z) (row : Account) : Prop := {
  ro_bytes : length P = 20%nat /\ Forall is_byte P;
  ro_hash : is_hex (sha_pass_hash row) /\ hex_value (sha_pass_hash row) = le_value (reverse P);
  ro_vs : vs_ok P (acc_v row) (acc_s row)
}.
(** [pw] gives the password digest of every (collated) name. *)
Definition statement_ok (pw : text -> list Z) (st : Statement) : Prop :=
  match st with LOGIN_UPD_VS v s name => vs_ok (pw (collate name)) v s | _ => True end.
Record verifiers_ok (pw : text -> list Z) (rd : Realmd) : Prop := {
  vo_rows : forall name row, accounts (db rd) !! name = Some row -> row_ok (pw name) row;
  vo_pending : Forall (statement_ok pw) (pending rd)
}.

Lemma le_bytes_zero n : le_bytes n 0 = replicate n 0.
Proof. induction n as [|n IH]; [done|]. cbn [le_bytes replicate]. change (u8 0) with 0. change (0 / 256) with 0. by rewrite IH. Qed.

(** The bytes of a number, padded above *)
Lemma le_bytes_split n k a : 0 <= a < 256 ^ Z.of_nat n -> le_bytes (n + k) a = le_bytes n a ++ replicate k 0.
Proof.
  revert a. induction n as [|n IH]; intros a Ha.
  - cbn in Ha. replace a with 0 by lia. apply le_bytes_zero.
  - cbn [Nat.add le_bytes app]. f_equal. apply IH. rewrite Nat2Z.inj_succ, Z.pow_succ_r in Ha by lia.
    split; [apply Z.div_pos; lia|]. apply Z.div_lt_upper_bound; lia.
Qed.
Lemma le_bytes_pad n a : 0 <= a < 256 ^ Z.of_nat n ->
  le_bytes n a = le_bytes (BN_num_bytes a) a ++ replicate (n - BN_num_bytes a) 0.
Proof.
  intros Ha. pose proof (num_bytes_le a n Ha) as Hle.
  replace (le_bytes n a) with (le_bytes (BN_num_bytes a + (n - BN_num_bytes a)) a) by (f_equal; lia).
  apply le_bytes_split. pose proof (num_bytes_bound a). lia.
Qed.

Lemma le_value_bound bs : Forall is_byte bs -> 0 <= le_value bs < 256 ^ Z.of_nat (length bs).
Proof.
  induction 1 as [|x bs Hx _ IH]; cbn [le_value length]; [lia|].
  rewrite Nat2Z.inj_succ, Z.pow_succ_r by lia. unfold is_byte in Hx. lia.
Qed.

(** [_SetVSFields] restores the digest from its column, leading zeros included. *)
Lemma password_digest_ok P rI : length P = 20%nat -> Forall is_byte P ->
  is_hex rI -> hex_value rI = le_value (reverse P) -> password_digest rI = P.
Proof.
  intros Hl Hb Hh Hv. unfold password_digest, SetHexStr, GetNumBytes. rewrite BN_hex2bn_spec, Hv by done.
  assert (Forall is_byte (reverse P)) as Hr by (by rewrite Forall_reverse).
  pose proof (le_value_bound _ Hr) as Hbd. rewrite length_reverse, Hl in Hbd.
  pose proof (num_bytes_le _ 20 Hbd) as Hle. apply Nat.leb_le in Hle as ->.
  rewrite AsByteArray_eq, Nat.sub_0_l by lia. cbn [replicate app].
  rewrite <- (le_bytes_pad 20) by done.
  replace 20%nat with (length (reverse P)) by (by rewrite length_reverse).
  by rewrite le_bytes_le_value, reverse_involutive.
Qed.

Lemma srp_x_nonneg s P : 0 <= srp_x s P.
Proof. apply SetBinary_nonneg, SHA1_bytes. Qed.
Lemma srp_u_nonneg A B : 0 <= srp_u A B.
Proof. apply SetBinary_nonneg, SHA1_bytes. Qed.

Lemma ModExp_spec a p : 0 <= a -> 0 <= p -> ModExp a p srp_N = a ^ p mod srp_N.
Proof. intros. unfold ModExp. apply BN_mod_exp_spec; [done..|]. pose proof srp_N_bounds. lia. Qed.

Lemma SetRand_bounds n k : 0 < k -> 2 ^ (k - 1) <= SetRand n k < 2 ^ k.
Proof. apply BN_rand_spec. Qed.

Lemma num_bytes_full n a : 256 ^ Z.of_nat n <= a < 256 ^ Z.of_nat (S n) -> BN_num_bytes a = S n.
Proof.
  intros Ha. assert (0 <= a < 256 ^ Z.of_nat (S n)) as Hle by (pose proof (Z.pow_nonneg 256 (Z.of_nat n)); lia).
  pose proof (num_bytes_le a (S n) Hle). pose proof (num_bytes_ge a n). lia.
Qed.

(** ** What a challenge leaves in the socket *)

Record srp_ready (P : list Z) (so : AuthSocket) : Prop := {
  sr_s : BN_num_bytes (_s so) = 32%nat /\ 0 < _s so;
  sr_v : _v so = srp_g ^ srp_x (_s so) P mod srp_N;
  sr_b : 0 < _b so;
  sr_B : _B so = (_v so * 3 + srp_g ^ _b so mod srp_N) mod srp_N
}.

Lemma SetVSFields_ok pw rd so rI :
  let P := pw (collate (_login so)) in
  verifiers_ok pw rd -> length P = 20%nat -> Forall is_byte P -> is_hex rI -> hex_value rI = le_value (reverse P) ->
  let '(rd', so') := _SetVSFields rI rd so in
  verifiers_ok pw rd' /\ (BN_num_bytes (_s so') = 32%nat /\ 0 < _s so') /\
  _v so' = srp_g ^ srp_x (_s so') P mod srp_N /\ exists s v, so' = set__v v (set__s s so).
Proof.
  intros P [Hr Hp] Hl Hb Hh Hv. unfold _SetVSFields. cbn [fst snd].
  rewrite (password_digest_ok P rI) by done.
  set (s0 := SetRand (draws rd) (Z.of_nat s_BYTE_SIZE * 8)).
  assert (2 ^ 255 <= s0 < 2 ^ 256) as Hs by (apply (SetRand_bounds (draws rd) 256); lia).
  assert (BN_num_bytes s0 = 32%nat) as Hn by (apply num_bytes_full; lia).
  cbn [_s set__s set__v _v].
  pose proof (srp_x_nonneg s0 P) as Hx.
  rewrite ModExp_spec by (unfold srp_g; lia).
  split; [|split; [split; [done|lia]|split; [done|by eexists _, _]]].
  split; [done|]. cbn. apply Forall_app. split; [done|]. apply Forall_singleton.
  cbn. unfold AsHexStr. intros _ _. destruct (BN_bn2hex_spec s0) as (Hh1 & Hv1 & _); [lia|].
  pose proof srp_N_bounds.
  assert (0 < srp_g ^ srp_x s0 P mod srp_N).
  { pose proof (Z.mod_pos_bound (srp_g ^ srp_x s0 P) srp_N). 
    assert (srp_g ^ srp_x s0 P mod srp_N <> 0); [|lia].
    apply coprime_pow_mod; [lia|done|]. rewrite srp_N_value. by vm_compute. }
  destruct (BN_bn2hex_spec (srp_g ^ srp_x s0 P mod srp_N)) as (Hh2 & Hv2 & _); [done|].
  rewrite Hv1, Hv2. split_and!; try done; lia.
Qed.
(** ** Nothing breaks the verifiers *)

Lemma row_ok_fields P row row' :
  sha_pass_hash row' = sha_pass_hash row -> acc_v row' = acc_v row -> acc_s row' = acc_s row ->
  row_ok P row -> row_ok P row'.
Proof. intros Hh Hv Hs [? ? ?]. constructor; by rewrite ?Hh, ?Hv, ?Hs. Qed.

Definition rows_ok (pw : text -> list Z) (d : LoginDB) : Prop :=
  forall name row, accounts d !! name = Some row -> row_ok (pw name) row.

Lemma rows_alter pw d name f :
  rows_ok pw d -> (forall row, row_ok (pw (collate name)) row -> row_ok (pw (collate name)) (f row)) ->
  rows_ok pw (upd_account name f d).
Proof.
  intros Hd Hf n row. cbn. rewrite lookup_alter_Some. intros [[<- (x & Hx & ->)]|[_ Hx]]; eauto.
Qed.

Lemma run_statement_rows pw st d : statement_ok pw st -> rows_ok pw d -> rows_ok pw (run_statement st d).
Proof.
  intros Hst Hd. destruct st; cbn [run_statement]; try done; try case_match; try done;
    try (apply rows_alter; [done|]; intros row; by apply row_ok_fields).
  - apply rows_alter; [done|]. intros row [? ? ?]. by constructor.
  - intros n row. cbn. rewrite lookup_fmap_Some. intros (x & <- & Hx%Hd). destruct (acc_id x =? id); [|done]. by apply (row_ok_fields _ x).
Qed.

Lemma run_statements_rows pw l d : Forall (statement_ok pw) l -> rows_ok pw d -> rows_ok pw (run_statements l d).
Proof. intros Hl. revert d. induction Hl as [|st l Hst _ IH]; intros d Hd; [done|]. cbn. apply IH. by apply run_statement_rows. Qed.

Lemma verifiers_work pw n rd : verifiers_ok pw rd -> verifiers_ok pw (work n rd).
Proof.
  intros [Hr Hp]. constructor; cbn; [|by apply Forall_drop]. apply run_statements_rows; [by apply Forall_take|done].
Qed.
Lemma verifiers_synch pw rd : verifiers_ok pw rd -> verifiers_ok pw (synch rd).
Proof. intros [Hr Hp]%(verifiers_work pw (db_thread (queries rd))). by constructor. Qed.
Lemma verifiers_execute pw st rd : statement_ok pw st -> verifiers_ok pw rd -> verifiers_ok pw (Execute st rd).
Proof. intros Hst [Hr Hp]. constructor; [done|]. cbn. apply Forall_app. by rewrite Forall_singleton. Qed.
Lemma verifiers_direct pw st rd : statement_ok pw st -> verifiers_ok pw rd -> verifiers_ok pw (DirectExecute st rd).
Proof. intros Hst [Hr Hp]%verifiers_synch. constructor; [|done]. cbn. by apply run_statement_rows. Qed.
#[local] Hint Resolve verifiers_synch verifiers_execute verifiers_direct : core.

Lemma verifiers_lock pw row ip rd : verifiers_ok pw rd -> verifiers_ok pw (challenge_lock row ip rd).2.
Proof. intros Hv. unfold challenge_lock. repeat case_match; cbn; auto. Qed.

(** The stored verifier is the one of the socket afterwards. *)
Lemma challenge_vs_ok pw row rd so :
  let P := pw (collate (_login so)) in
  verifiers_ok pw rd -> row_ok P row ->
  let '(rd', so') := challenge_vs row rd so in
  verifiers_ok pw rd' /\ (BN_num_bytes (_s so') = 32%nat /\ 0 < _s so') /\
  _v so' = srp_g ^ srp_x (_s so') P mod srp_N /\ exists s v, so' = set__v v (set__s s so).
Proof.
  intros P Hv [[Hl Hb] [Hh Hval] Hvs]. unfold challenge_vs. destruct (_ || _) eqn:Hlen.
  { by apply SetVSFields_ok. }
  apply orb_false_iff in Hlen as [Hlv%negb_false_iff%Nat.eqb_eq Hls%negb_false_iff%Nat.eqb_eq].
  destruct (Hvs Hlv Hls) as (Hv1 & Hv2 & Hn & Hpos & He). cbn. unfold SetHexStr. rewrite !BN_hex2bn_spec by done.
  split_and!; [done..|]. by eexists _, _.
Qed.

(** ** What the client is sent *)

Lemma le_value_last bs x : Forall is_byte bs -> x <> 0 -> is_byte x -> 256 ^ Z.of_nat (length bs) <= le_value (bs ++ [x]).
Proof.
  intros Hb Hx Hbx. rewrite le_value_app. pose proof (le_value_nonneg bs Hb). cbn [le_value]. unfold is_byte in *.
  pose proof (Z.pow_pos_nonneg 256 (Z.of_nat (length bs))). nia.
Qed.

(** A digest is read back unless its last byte is zero. *)
Lemma AsByteArray_digest d : Forall is_byte d -> last d <> Some 0 -> d <> [] -> AsByteArray 0 (SetBinary d) = d.
Proof.
  intros Hb Hl Hne. destruct (exists_last Hne) as (bs & x & ->). rewrite last_snoc in Hl.
  assert (Forall is_byte bs /\ is_byte x) as [Hbs Hx] by (by rewrite Forall_app, Forall_singleton in Hb).
  assert (x <> 0) as Hx0 by congruence.
  rewrite SetBinary_spec by done. pose proof (le_value_last bs x Hbs Hx0 Hx) as Hlow.
  pose proof (le_value_bound _ Hb) as Hup. rewrite length_app in Hup. cbn [length] in Hup.
  rewrite AsByteArray_eq, Nat.sub_0_l by lia. cbn [replicate app].
  rewrite (num_bytes_full (length bs)) by (rewrite <- Nat.add_1_r; lia).
  replace (S (length bs)) with (length (bs ++ [x])) by (rewrite length_app; cbn; lia).
  by apply le_bytes_le_value.
Qed.

Lemma AsByteArray_7 : first_bytes 1 (AsByteArray 0 srp_g) = [7].
Proof.
  unfold srp_g. rewrite AsByteArray_eq, Nat.sub_0_l by lia. rewrite (num_bytes_full 0) by lia. done.
Qed.

Lemma AsByteArray_32 a : 256 ^ 31 <= a < 256 ^ 32 -> take 32 (AsByteArray 32 a) = le_bytes 32 a.
Proof.
  intros Ha. rewrite AsByteArray_eq by lia. rewrite (num_bytes_full 31) by lia. rewrite Nat.sub_diag. cbn [replicate app].
  apply take_ge. by rewrite length_le_bytes.
Qed.

Lemma length_AsByteArray_32 a : 0 <= a < 256 ^ 32 -> length (take 32 (AsByteArray 32 a)) = 32%nat.
Proof.
  intros Ha. pose proof (num_bytes_le a 32). rewrite length_take, length_AsByteArray by lia. lia.
Qed.

(** The reply of a challenge that gives a key, as it is laid out *)
Definition offer (status : Z) (B N salt unk3 flags : list Z) : list Z :=
  [AUTH_LOGON_CHALLENGE; 0; status] ++ B ++ [1; 7; 32] ++ N ++ salt ++ unk3 ++ flags.
Lemma offer_fields status B N salt unk3 flags :
  length B = 32%nat -> length N = 32%nat -> length salt = 32%nat ->
  let r := offer status B N salt unk3 flags in
  nth 2 r 255 = status /\ take 32 (drop 3 r) = B /\ nth 36 r 0 = 7 /\ take 32 (drop 38 r) = N /\ take 32 (drop 70 r) = salt.
Proof.
  intros HB HN Hs r.
  assert (drop 3 r = B ++ [1; 7; 32] ++ N ++ salt ++ unk3 ++ flags) as H3 by done.
  assert (drop 35 r = [1; 7; 32] ++ N ++ salt ++ unk3 ++ flags) as H35.
  { replace 35%nat with (3 + 32)%nat by lia. rewrite <- drop_drop, H3. by apply drop_app_prefix. }
  assert (drop 38 r = N ++ salt ++ unk3 ++ flags) as H38.
  { replace 38%nat with (35 + 3)%nat by lia. by rewrite <- drop_drop, H35. }
  assert (drop 70 r = salt ++ unk3 ++ flags) as H70.
  { replace 70%nat with (38 + 32)%nat by lia. rewrite <- drop_drop, H38. by apply drop_app_prefix. }
  split_and!; [done|by rewrite H3, <- HB, take_app_length| |by rewrite H38, <- HN, take_app_length|by rewrite H70, <- Hs, take_app_length].
  assert (r !! 36%nat = Some 7) as Hl.
  { replace 36%nat with (35 + 1)%nat by lia. by rewrite <- lookup_drop, H35. }
  by apply nth_lookup_Some.
Qed.

(** What a challenge that is not refused sends and keeps *)
Definition offered (so : AuthSocket) (unk3 flags : list Z) : list Z :=
  [if IsAcceptedClientBuild (_build so) then WOW_SUCCESS else WOW_FAIL_VERSION_INVALID]
  ++ take 32 (AsByteArray 32 (_B so)) ++ [1; 7; 32] ++ le_bytes 32 srp_N ++ AsByteArray 0 (_s so) ++ unk3 ++ flags.
Definition same_session (so so' : AuthSocket) : Prop :=
  _login so' = _login so /\ sent so' = sent so /\ closed so' = closed so /\ _build so' = _build so /\
  _expversion so' = _expversion so /\ input so' = input so /\ _authed so' = _authed so.
Lemma challenge_srp_ok pw row gmlevel ch rd so :
  let P := pw (collate (_login so)) in
  verifiers_ok pw rd -> row_ok P row ->
  let '(pkt, rd', so') := challenge_srp row gmlevel ch rd so in
  verifiers_ok pw rd' /\ srp_ready P so' /\ same_session so so' /\ exists unk3 flags, pkt = offered so' unk3 flags.
Proof.
  intros P Hv Hrow. unfold challenge_srp. pose proof (challenge_vs_ok pw row rd so Hv Hrow) as Hvs.
  destruct (challenge_vs row rd so) as [rd1 so1]. destruct Hvs as ([Hv1 Hp1] & Hs & Hvv & (s & v & ->)).
  set (b := SetRand (draws rd1) (19 * 8)).
  assert (2 ^ 151 <= b < 2 ^ 152) as Hb by (apply (SetRand_bounds (draws rd1) 152); lia).
  pose proof srp_N_bounds as HN. cbn [_s _v _b _B _login sent closed _tokenKey _build set__v set__s set__b set__B set__tokenKey
    set__accountSecurityLevel set__localizationName] in *.
  assert (0 <= v) by (rewrite Hvv; apply Z.mod_pos_bound; lia).
  assert (0 <= srp_g ^ b mod srp_N) by (apply Z.mod_pos_bound; lia).
  split; [by constructor|]. split; [|split; [done|]].
  - constructor; cbn [_s _v _b _B set__v set__s set__b set__B set__tokenKey set__accountSecurityLevel set__localizationName];
      try done; [lia|].
    rewrite ModExp_spec, BN_mul_spec, BN_add_spec, BN_mod_spec by (lia || (unfold srp_g; lia)). done.
  - rewrite AsByteArray_7, (AsByteArray_32 srp_N) by done. unfold offered. cbn [_build _B _s set__tokenKey set__B set__b set__v set__s
      set__accountSecurityLevel set__localizationName]. by eexists _, _.
Qed.

Lemma challenge_reply_ok pw ch rd so :
  verifiers_ok pw rd ->
  let '(reply, rd', so') := challenge_reply ch rd so in
  verifiers_ok pw rd' /\ same_session so so' /\
  ((exists code, reply = [code] /\ code <> WOW_SUCCESS /\ so' = so) \/
   (srp_ready (pw (collate (_login so))) so' /\ exists unk3 flags, reply = offered so' unk3 flags)).
Proof.
  intros Hv. unfold challenge_reply. set (rd0 := synch (Execute LOGIN_DEL_EXPIRED_IP_BANS rd)).
  assert (verifiers_ok pw rd0) as Hv0 by (by apply verifiers_synch, verifiers_execute).
  clearbody rd0. assert (same_session so so) as Hsame by done.
  destruct (SEL_IP_BANNED _ _); [split; [done|split; [done|left; by eexists]]|].
  set (rd1 := synch rd0). assert (verifiers_ok pw rd1) as Hv1 by (by apply verifiers_synch). clearbody rd1.
  destruct (SEL_ACCOUNT _ _) as [row|] eqn:Hrow; [|split; [done|split; [done|left; by eexists]]].
  unfold challenge_account.
  assert (match (challenge_lock row (remoteAddress so) rd1).1 with Some c => c <> WOW_SUCCESS | None => True end) as Hc.
  { unfold challenge_lock. repeat case_match; simplify_eq/=; done. }
  pose proof (verifiers_lock pw row (remoteAddress so) rd1 Hv1) as Hv2.
  destruct (challenge_lock _ _ rd1) as [[code|] rd2]; cbn in Hc, Hv2; [split; [done|split; [done|left; by eexists]]|].
  set (rd3 := synch _). assert (verifiers_ok pw rd3) as Hv3 by (by apply verifiers_synch, verifiers_direct). clearbody rd3.
  destruct (SEL_ACCOUNT_BANNED _ _) as [r|];
    [split; [done|split; [done|left; eexists; split_and!; [done|by destruct (bandate r =? unbandate r)|done]]]|].
  pose proof (challenge_srp_ok pw row (SEL_gmlevel (acc_id row) (db rd1)) ch rd3 so Hv3 (vo_rows pw rd1 Hv1 _ _ Hrow)) as Hok.
  destruct (challenge_srp _ _ _ _ _) as [[pkt rd4] so4]. naive_solver.
Qed.

(** ** A client that knows the password *)

Record ClientProof := mkClient { cl_A : Z; cl_S : Z; cl_K : Z; cl_M : list Z; cl_M2 : list Z }.
(** The client has the name, the digest of the password and a secret [a]; the
    rest it reads in the reply. *)
Definition client (reply : list Z) (login : text) (digest : list Z) (a : Z) : ClientProof :=
  let B := le_value (take 32 (drop 3 reply)) in
  let g := nth 36 reply 0 in
  let N := le_value (take 32 (drop 38 reply)) in
  let salt := take 32 (drop 70 reply) in
  let x := le_value (SHA1 (salt ++ digest)) in
  let A := g ^ a mod N in
  let S := (B - 3 * g ^ x) ^ (a + srp_u A B * x) mod N in
  let K := srp_K (le_bytes 32 S) in
  let M := srp_M login (le_value salt) A B K in
  mkClient A S K M (srp_M2 A (le_value M) K).
Definition client_packet (c : ClientProof) : list Z :=
  [AUTH_LOGON_PROOF] ++ le_bytes 32 (cl_A c) ++ cl_M c ++ replicate 20 0 ++ [0; 0].

(** The fields of a proof packet *)
Definition proof_packet (A M1 crc : list Z) (keys flags : Z) : list Z := [AUTH_LOGON_PROOF] ++ A ++ M1 ++ crc ++ [keys; flags].
Lemma proof_packet_fields A M1 crc keys flags :
  length A = 32%nat -> length M1 = 20%nat -> length crc = 20%nat ->
  let lp := proof_packet A M1 crc keys flags in
  length lp = sizeof_proof /\ lp_A lp = A /\ lp_M1 lp = M1 /\ lp_securityFlags lp = flags.
Proof.
  intros HA HM Hc lp. unfold lp_A, lp_M1, lp_securityFlags.
  assert (drop 1 lp = A ++ M1 ++ crc ++ [keys; flags]) as Hd1 by done.
  assert (drop 33 lp = M1 ++ crc ++ [keys; flags]) as H33.
  { replace 33%nat with (1 + 32)%nat by lia. rewrite <- drop_drop, Hd1. by apply drop_app_prefix. }
  assert (drop 53 lp = crc ++ [keys; flags]) as H53.
  { replace 53%nat with (33 + 20)%nat by lia. rewrite <- drop_drop, H33. by apply drop_app_prefix. }
  assert (drop 73 lp = [keys; flags]) as H73.
  { replace 73%nat with (53 + 20)%nat by lia. rewrite <- drop_drop, H53. by apply drop_app_prefix. }
  split_and!.
  - unfold lp, proof_packet. rewrite !length_app, HA, HM, Hc. done.
  - by rewrite Hd1, <- HA, take_app_length.
  - by rewrite H33, <- HM, take_app_length.
  - apply nth_lookup_Some. replace 74%nat with (73 + 1)%nat by lia. by rewrite <- lookup_drop, H73.
Qed.

(** A refusal leaves the numbers of an earlier challenge, or the zeros of a new
    connection. *)
Definition same_keys (so so' : AuthSocket) : Prop :=
  _s so' = _s so /\ _v so' = _v so /\ _b so' = _b so /\ _B so' = _B so /\ _tokenKey so' = _tokenKey so.
Lemma HandleLogonChallenge_ok pw rd so rd' so' :
  verifiers_ok pw rd -> _HandleLogonChallenge rd so = (true, rd', so') ->
  verifiers_ok pw rd' /\ closed so' = closed so /\ _expversion so' = expversion_of (_build so') /\
  exists reply, sent so' = sent (send ([AUTH_LOGON_CHALLENGE; 0] ++ reply) so) /\
    ((exists code, reply = [code] /\ code <> WOW_SUCCESS /\ same_keys so so') \/
     (srp_ready (pw (collate (_login so'))) so' /\
      exists unk3 flags, reply = offered so' unk3 flags)).
Proof.
  intros Hv. unfold _HandleLogonChallenge. destruct (recv_challenge so) as [[ch|] so0] eqn:Hrecv; [|done].
  assert (sent so0 = sent so /\ closed so0 = closed so /\ same_keys so so0) as (Hs & Hc & Hk0).
  { unfold recv_challenge in Hrecv. repeat case_match; by simplify_eq/=. }
  set (so1 := note_client ch (set__login (ch_I ch) so0)). destruct (4 <? _)%nat; [done|].
  set (so2 := set__os _ so1).
  pose proof (challenge_reply_ok pw ch rd so2 Hv) as Hok. destruct (challenge_reply ch rd so2) as [[reply rd3] so3].
  destruct Hok as (Hv3 & (Hl & Hse & Hcl & Hb & He & Hin & Ha) & Hcase).
  intros [= <- <-]. split; [done|]. cbn in Hse, Hcl, Hl.
  assert (forall x, closed (send x so3) = closed so) as ->
    by (intros x; unfold send; case_match; cbn; by rewrite <- Hc, <- Hcl).
  split; [done|].
  assert (forall x, _login (send x so3) = _login so3 /\ _build (send x so3) = _build so3 /\
                    _expversion (send x so3) = _expversion so3 /\ same_keys so3 (send x so3) /\
                    offered (send x so3) = offered so3) as Hsend.
  { intros x. unfold send, offered. by case_match. }
  match goal with |- context [send ?x so3] => destruct (Hsend x) as (-> & -> & -> & Hk & Hof) end.
  split; [by rewrite Hb, He|]. exists reply. split.
  { unfold send. rewrite Hcl, Hc. destruct (closed so); cbn; by rewrite Hse, Hs. }
  destruct Hcase as [(code & -> & Hne & ->)|(Hr & unk3 & flags & ->)].
  - left. exists code. split; [done|]. split; [done|]. unfold same_keys in *. cbn in Hk. naive_solver congruence.
  - right. split; [|exists unk3, flags; by rewrite Hof].
    rewrite Hl. destruct Hr as [Hrs Hrv Hrb HrB]. destruct Hk as (Hks & Hkv & Hkb & HkB & _).
    constructor; by rewrite ?Hks, ?Hkv, ?Hkb, ?HkB.
Qed.

(** What is read in an offer *)
Lemma offered_fields so unk3 flags :
  let reply := [AUTH_LOGON_CHALLENGE; 0] ++ offered so unk3 flags in
  BN_num_bytes (_s so) = 32%nat -> 0 < _s so -> 256 ^ 31 <= _B so < srp_N ->
  le_value (take 32 (drop 3 reply)) = _B so /\ nth 36 reply 0 = srp_g /\ le_value (take 32 (drop 38 reply)) = srp_N /\
  take 32 (drop 70 reply) = AsByteArray 0 (_s so) /\ le_value (take 32 (drop 70 reply)) = _s so.
Proof.
  intros reply Hn Hs HB. pose proof srp_N_bounds as HN.
  assert (AsByteArray 0 (_s so) = le_bytes 32 (_s so)) as Hsa by (rewrite AsByteArray_eq, Hn by lia; done).
  assert (reply = offer (hd 0 (offered so unk3 flags)) (le_bytes 32 (_B so)) (le_bytes 32 srp_N) (le_bytes 32 (_s so)) unk3 flags)
    as -> by (unfold reply, offered, offer; by rewrite Hsa, AsByteArray_32 by lia).
  destruct (offer_fields (hd 0 (offered so unk3 flags)) (le_bytes 32 (_B so)) (le_bytes 32 srp_N) (le_bytes 32 (_s so)) unk3 flags)
    as (_ & -> & -> & -> & ->); [by rewrite length_le_bytes..|].
  split_and!; [rewrite le_value_le_bytes, Z.mod_small; [done|lia]|done|rewrite le_value_le_bytes, Z.mod_small; [done|lia]|done|].
  rewrite <- Hn. apply le_value_bytes_of. lia.
Qed.

(** The server's side of a proof, for a client that has read the offer *)
Lemma client_agrees so unk3 flags login P a :
  let reply := [AUTH_LOGON_CHALLENGE; 0] ++ offered so unk3 flags in
  let c := client reply login P a in
  srp_ready P so -> 256 ^ 31 <= _B so -> 0 <= a ->
  cl_A c = srp_g ^ a mod srp_N /\ cl_S c = srp_S (cl_A c) (_v so) (_b so) (_B so) /\
  cl_K c = srp_K (le_bytes 32 (cl_S c)) /\ cl_M c = srp_M login (_s so) (cl_A c) (_B so) (cl_K c) /\
  cl_M2 c = srp_M2 (cl_A c) (SetBinary (cl_M c)) (cl_K c).
Proof.
  intros reply c [[Hn Hs] Hv Hb HB] HBl Ha. pose proof srp_N_bounds as HN.
  assert (_B so < srp_N) as HBr by (rewrite HB; apply Z.mod_pos_bound; lia).
  destruct (offered_fields so unk3 flags Hn Hs) as (HfB & Hfg & HfN & Hfs & Hls); [lia|].
  assert (le_value (SHA1 (AsByteArray 0 (_s so) ++ P)) = srp_x (_s so) P) as Hx.
  { unfold srp_x, Finalize, UpdateData, new_sha. by rewrite SetBinary_spec by apply SHA1_bytes. }
  unfold c, client. fold reply in HfB, Hfg, HfN, Hfs, Hls. rewrite HfB, Hfg, HfN, Hls, Hfs, Hx. cbn [cl_A cl_S cl_K cl_M cl_M2].
  split; [done|]. split; [|split; [done|split; [done|]]].
  2: { unfold srp_M. by rewrite SetBinary_spec by apply SHA1_bytes. }
  unfold srp_S. set (A := srp_g ^ a mod srp_N).
  assert (0 <= A) by (apply Z.mod_pos_bound; lia).
  assert (0 <= _v so) by (rewrite Hv; apply Z.mod_pos_bound; lia).
  pose proof (srp_u_nonneg A (_B so)) as Hu. pose proof (srp_x_nonneg (_s so) P) as Hxn.
  assert (0 <= _v so ^ srp_u A (_B so) mod srp_N) by (apply Z.mod_pos_bound; lia).
  rewrite (ModExp_spec (_v so)), BN_mul_spec, ModExp_spec by (done || lia || (apply Z.mul_nonneg_nonneg; done)).
  rewrite Hv at 1. rewrite HB at 1. rewrite Hv. 
  apply (srp_agree srp_N srp_g (srp_x (_s so) P) a (_b so)); (done || lia).
Qed.

(** ** Accepted proofs *)

Definition store_key (K : Z) (so : AuthSocket) (rd : Realmd) : Realmd :=
  DirectExecute (LOGIN_UPD_LOGONPROOF (AsHexStr K) (remoteAddress so) (GetLocaleByName (_localizationName so)) (_os so) (_login so)) rd.

(** Whoever sends the digest that the socket computes is let in. *)
Lemma proof_is_accepted rd so A M1 crc keys :
  let K := srp_K (take 32 (AsByteArray 32 (srp_S (le_value A) (_v so) (_b so) (_B so)))) in
  input so = proof_packet A M1 crc keys 0 -> length A = 32%nat -> Forall is_byte A -> length crc = 20%nat ->
  M1 = srp_M (_login so) (_s so) (le_value A) (_B so) K -> last M1 <> Some 0 ->
  le_value A <> 0 -> _expversion so <> NO_VALID_EXP_FLAG -> _tokenKey so = [] ->
  _HandleLogonProof rd so =
    (true, store_key K so rd,
     set__authed true (send (proof_reply (_expversion so) (srp_M2 (le_value A) (le_value M1) K)) (set__K K (set_input [] so)))).
Proof.
  intros K Hin HlA HbA Hlc HM Hlast HA Hexp Htok.
  assert (length M1 = 20%nat /\ Forall is_byte M1) as [HlM HbM] by (rewrite HM; apply SHA1_spec).
  destruct (proof_packet_fields A M1 crc keys 0 HlA HlM Hlc) as (Hl & HfA & HfM & Hff).
  unfold _HandleLogonProof, recv, recv_soft, recv_len, recv_skip. rewrite Hin, Hl.
  rewrite Nat.ltb_irrefl, take_ge, drop_ge by (rewrite Hl; done).
  change (_expversion (set_input [] so)) with (_expversion so).
  apply Z.eqb_neq in Hexp as ->. rewrite HfA, SetBinary_spec by done. unfold isZero. apply Z.eqb_neq in HA as ->.
  assert (proof_M (le_value A) (set__K (proof_K (le_value A) (set_input [] so)) (set_input [] so)) = le_value M1) as ->.
  { unfold proof_M. rewrite <- (SetBinary_spec M1) by done. f_equal. by rewrite HM. }
  assert (first_bytes 20 (AsByteArray 0 (le_value M1)) = M1) as ->.
  { rewrite <- SetBinary_spec, AsByteArray_digest by (done || (by destruct M1)).
    unfold first_bytes. rewrite HlM. cbn [Nat.sub seq fmap list_fmap]. rewrite app_nil_r. apply take_ge. lia. }
  rewrite HfM, bool_decide_true by done. unfold proof_accepted. rewrite Hff.
  change (_tokenKey (set__K _ _)) with (_tokenKey so). rewrite Htok. done.
Qed.

Lemma srp_S_bound A v b B : 0 <= A -> 0 <= v -> 0 <= b -> 0 <= srp_S A v b B < srp_N.
Proof.
  intros HA Hv Hb. pose proof srp_N_bounds. pose proof (srp_u_nonneg A B).
  unfold srp_S. rewrite (ModExp_spec v) by done.
  assert (0 <= v ^ srp_u A B mod srp_N) by (apply Z.mod_pos_bound; lia).
  rewrite BN_mul_spec, ModExp_spec by (done || by apply Z.mul_nonneg_nonneg). apply Z.mod_pos_bound. lia.
Qed.

(** A build that is answered with success has an expansion. *)
Lemma accepted_expversion build : IsAcceptedClientBuild build = true -> expversion_of build <> NO_VALID_EXP_FLAG.
Proof. unfold IsAcceptedClientBuild, expversion_of, POST_BC_EXP_FLAG, PRE_BC_EXP_FLAG, NO_VALID_EXP_FLAG. by destruct (IsPostBCAcceptedClientBuild build), (IsPreBCAcceptedClientBuild build). Qed.

Lemma stored_key K so rd row : SEL_ACCOUNT (_login so) (db (store_key K so rd)) = Some row -> sessionkey row = AsHexStr K.
Proof. unfold SEL_ACCOUNT. cbn. rewrite lookup_alter_Some. intros [(_ & x & _ & ->)|[? _]]; [done|congruence]. Qed.

Lemma stored_ip K so rd row : SEL_ACCOUNT (_login so) (db (store_key K so rd)) = Some row -> last_ip row = remoteAddress so.
Proof. unfold SEL_ACCOUNT. cbn. rewrite lookup_alter_Some. intros [(_ & x & _ & ->)|[? _]]; [done|congruence]. Qed.

Lemma sent_reply so p q : sent (send p so) = sent so ++ [q] -> closed so = false /\ q = p.
Proof.
  unfold send. destruct (closed so); cbn; intros Hs.
  - apply (f_equal length) in Hs. rewrite length_app in Hs. cbn in Hs. lia.
  - by apply app_inv_head in Hs as [= ->].
Qed.

Lemma srp6_result pw rd so rd1 so1 reply a :
  verifiers_ok pw rd -> _HandleLogonChallenge rd so = (true, rd1, so1) ->
  sent so1 = sent so ++ [reply] -> nth 2 reply 255 = WOW_SUCCESS -> 256 ^ 31 <= _B so1 -> _tokenKey so1 = [] -> 0 <= a ->
  let c := client reply (_login so1) (pw (collate (_login so1))) a in
  256 ^ 31 <= cl_S c -> last (cl_M c) <> Some 0 ->
  forall rd2, let so2 := set_input (client_packet c) so1 in
  exists so3, _HandleLogonProof rd2 so2 = (true, store_key (cl_K c) so2 rd2, so3) /\ _authed so3 = true /\
    sent so3 = sent so1 ++ [proof_reply (_expversion so1) (cl_M2 c)].
Proof.
  intros Hv Hch Hsent Hst HB Htok Ha c HS Hlast rd2 so2.
  destruct (HandleLogonChallenge_ok pw rd so rd1 so1 Hv Hch) as (_ & Hcl & Hexp & r & Hs & Hcase).
  destruct (sent_reply _ _ _ (eq_trans (eq_sym Hs) Hsent)) as [Hopen ->].
  destruct Hcase as [(code & -> & Hne & _)|(Hready & unk3 & flags & ->)]; [by cbn in Hst|].
  destruct (client_agrees so1 unk3 flags (_login so1) _ a Hready HB Ha) as (HcA & HcS & HcK & HcM & HcM2).
  fold c in HcA, HcS, HcK, HcM, HcM2. clearbody c. pose proof srp_N_bounds as HN.
  assert (0 <= cl_A c < srp_N) as HAr by (rewrite HcA; apply Z.mod_pos_bound; lia).
  assert (le_value (le_bytes 32 (cl_A c)) = cl_A c) as HlA by (rewrite le_value_le_bytes, Z.mod_small; [done|lia]).
  destruct Hready as [[Hns Hps] Hsv Hsb HsB].
  assert (0 <= _v so1) as Hv1 by (rewrite Hsv; apply Z.mod_pos_bound; lia).
  assert (cl_S c < srp_N) as HSr by (rewrite HcS; apply srp_S_bound; lia).
  assert (srp_K (take 32 (AsByteArray 32 (srp_S (cl_A c) (_v so1) (_b so1) (_B so1)))) = cl_K c) as HK
    by (rewrite <- HcS, AsByteArray_32, HcK by lia; done).
  pose proof (proof_is_accepted rd2 so2 (le_bytes 32 (cl_A c)) (cl_M c) (replicate 20 0) 0) as Hacc. cbv zeta in Hacc.
  rewrite !HlA in Hacc. cbn [_login _s _v _b _B _expversion _tokenKey so2 set_input] in Hacc. rewrite HK in Hacc.
  eexists. split.
  { apply Hacc; [done|by rewrite length_le_bytes|apply le_bytes_bytes|done|done|done| | |done].
    - rewrite HcA. apply coprime_pow_mod; [lia|done|]. rewrite srp_N_value. by vm_compute.
    - rewrite Hexp. apply accepted_expversion. cbn in Hst. by destruct (IsAcceptedClientBuild (_build so1)). }
  split; [done|].
  cbn. unfold send. cbn. rewrite Hcl, Hopen. cbn. rewrite <- (SetBinary_spec (cl_M c)), <- HcM2 by (rewrite HcM; apply SHA1_bytes). done.
Qed.

End Login.
