(* ===== verification/AuthRules.v ===== *)
(** * Who is let in

    Sequences of commands on connections of AuthSocket.cpp: reading ends, the
    realm list is for those who have shown a proof, and what a proof is; the
    ways in that need no password; wrong passwords and bans; reconnecting. *)
From S2P Require Import Prelude.
From S2P Require Import ByteBuffer.
From S2P Require Import BigNumber.
From S2P Require Import Util.
From S2P Require Import AuthSocket.
From S2P Require Import AuthLogin.
Local Open Scope Z_scope.

Section Rules.
Context `{OpenSSLLaws} `{AuthWorld}.

(** ** What handlers do to a connection *)

(** A command is read to its end or not at all, packets are added at the end,
    and nobody is logged out. *)
Record follows (so so' : AuthSocket) : Prop := {
  fo_input : exists n, input so' = drop n (input so);
  fo_sent : exists l, sent so' = sent so ++ l /\ Forall (fun p => hd 0 p = REALM_LIST -> _authed so' = true) l;
  fo_authed : _authed so = true -> _authed so' = true;
  fo_remote : remoteAddress so' = remoteAddress so
}.

Lemma follows_refl so : follows so so.
Proof. constructor; [by exists 0%nat|exists []; by rewrite app_nil_r|done|done]. Qed.
Lemma follows_trans so1 so2 so3 : follows so1 so2 -> follows so2 so3 -> follows so1 so3.
Proof.
  intros [[n Hn] [l [Hl Hf]] Ha Hr] [[m Hm] [k [Hk Hg]] Hb Hs]. constructor.
  - exists (n + m)%nat. by rewrite Hm, Hn, drop_drop.
  - exists (l ++ k). rewrite Hk, Hl, app_assoc. split; [done|]. apply Forall_app. split; [|done].
    eapply Forall_impl; [exact Hf|]. naive_solver.
  - auto.
  - congruence.
Qed.

(** Only members that matter for nothing else change. *)
Definition alike (so so' : AuthSocket) : Prop :=
  input so' = input so /\ sent so' = sent so /\ _authed so' = _authed so /\ remoteAddress so' = remoteAddress so.
Lemma alike_follows so so' : alike so so' -> follows so so'.
Proof.
  intros (Hi & Hs & Ha & Hr). constructor; [by exists 0%nat; rewrite Hi|exists []; by rewrite Hs, app_nil_r|congruence|done].
Qed.
Lemma follows_send pkt so : hd 0 pkt <> REALM_LIST \/ _authed so = true -> follows so (send pkt so).
Proof.
  intros Hp. unfold send. case_match; [apply follows_refl|]. constructor; [by exists 0%nat| |done|done].
  exists [pkt]. split; [done|]. apply Forall_singleton. naive_solver.
Qed.
Lemma follows_recv_skip n so : follows so (recv_skip n so).
Proof. constructor; [by exists n|exists []; by rewrite app_nil_r|done|done]. Qed.
Lemma follows_recv n so : follows so (recv n so).2.
Proof. unfold recv. case_match; [apply follows_recv_skip|apply follows_refl]. Qed.

Lemma recv_challenge_follows so : follows so (recv_challenge so).2.
Proof.
  unfold recv_challenge. repeat case_match; cbn [snd]; try apply follows_refl; try apply follows_recv_skip.
  eapply follows_trans; apply follows_recv_skip.
Qed.

Lemma challenge_srp_alike row gm ch rd so : alike so (challenge_srp row gm ch rd so).2.
Proof. unfold challenge_srp, challenge_vs, _SetVSFields. repeat case_match; by simplify_eq/=. Qed.
Lemma challenge_reply_alike ch rd so : alike so (challenge_reply ch rd so).2.
Proof.
  unfold challenge_reply, challenge_account. destruct (SEL_IP_BANNED _ _); [done|].
  destruct (SEL_ACCOUNT _ _); [|done]. destruct (challenge_lock _ _ _) as [[?|] ?]; [done|].
  destruct (SEL_ACCOUNT_BANNED _ _); [done|]. apply challenge_srp_alike.
Qed.

Lemma logon_challenge_follows rd so : follows so (_HandleLogonChallenge rd so).2.
Proof.
  unfold _HandleLogonChallenge. pose proof (recv_challenge_follows so) as Hf.
  destruct (recv_challenge so) as [[ch|] so0]; [|done]. cbn in Hf.
  set (so1 := note_client _ _). assert (follows so so1) as Hf1 by (eapply follows_trans; [exact Hf|by apply alike_follows]).
  destruct (4 <? _)%nat; [done|]. set (so2 := set__os _ so1).
  assert (follows so so2) as Hf2 by (eapply follows_trans; [exact Hf1|by apply alike_follows]).
  pose proof (challenge_reply_alike ch rd so2) as Ha. destruct (challenge_reply ch rd so2) as [[reply rd3] so3]. cbn in Ha |- *.
  eapply follows_trans; [exact Hf2|]. eapply follows_trans; [by apply alike_follows|]. apply follows_send. by left.
Qed.

Lemma recv_token_follows so : follows so (recv_token so).2.
Proof.
  unfold recv_token. pose proof (follows_recv 1 so) as H1'. destruct (recv 1 so) as [r so1]. cbn in H1'.
  pose proof (follows_recv (Z.to_nat (hd 0 (default [stack_byte] r))) so1) as H2'. destruct (recv _ so1) as [r' so2].
  by eapply follows_trans.
Qed.
Lemma follows_authed so : follows so (set__authed true so).
Proof. constructor; [by exists 0%nat|exists []; by rewrite app_nil_r|done|done]. Qed.

Lemma proof_accepted_follows lp A M rd so : follows so (proof_accepted lp A M rd so).2.
Proof.
  unfold proof_accepted.
  set (c := if _ || _ then _ else _). assert (follows so c.2) as Hc.
  { unfold c. case_match; [|apply follows_refl]. pose proof (recv_token_follows so). by destruct (recv_token so). }
  destruct c as [ok so1]. cbn in Hc. eapply follows_trans; [exact Hc|]. destruct ok; cbn [snd].
  - eapply follows_trans; [|apply follows_authed]. apply follows_send. left. unfold proof_reply. by case_match.
  - apply follows_send. by left.
Qed.

Lemma logon_proof_follows rd so : follows so (_HandleLogonProof rd so).2.
Proof.
  unfold _HandleLogonProof. pose proof (follows_recv sizeof_proof so) as Hf. destruct (recv sizeof_proof so) as [[lp|] so0]; [|done].
  cbn in Hf. case_match; [eapply follows_trans; [exact Hf|by apply alike_follows]|].
  case_match; [eapply follows_trans; [exact Hf|by apply alike_follows]|].
  set (so1 := set__K _ so0). assert (follows so so1) as H1' by (eapply follows_trans; [exact Hf|by apply alike_follows]).
  eapply follows_trans; [exact H1'|]. case_match; [apply proof_accepted_follows|]. cbn. apply follows_send. by left.
Qed.

Lemma reconnect_challenge_follows rd so : follows so (_HandleReconnectChallenge rd so).2.
Proof.
  unfold _HandleReconnectChallenge. pose proof (recv_challenge_follows so) as Hf.
  destruct (recv_challenge so) as [[ch|] so0]; [|done]. cbn in Hf.
  eapply follows_trans; [exact Hf|]. destruct (SEL_ACCOUNT _ _) as [row|]; [|by apply alike_follows].
  destruct (4 <? _)%nat; [by apply alike_follows|]. cbn [snd].
  eapply follows_trans; [|apply follows_send; by left]. by apply alike_follows.
Qed.

Lemma reconnect_proof_follows rd so : follows so (_HandleReconnectProof rd so).2.
Proof.
  unfold _HandleReconnectProof. pose proof (follows_recv sizeof_reconnect so) as Hf.
  destruct (recv sizeof_reconnect so) as [[lp|] so0]; [|done]. cbn in Hf. eapply follows_trans; [exact Hf|].
  repeat case_match; cbn [snd]; [apply follows_refl| |by apply alike_follows].
  eapply follows_trans; [|apply follows_authed]. apply follows_send. by left.
Qed.

Lemma realm_list_follows rd so : _authed so = true -> follows so (_HandleRealmList rd so).2.
Proof.
  intros Ha. unfold _HandleRealmList. case_match; [apply follows_refl|].
  eapply follows_trans; [apply (follows_recv_skip 5)|].
  destruct (SEL_ACCOUNT _ _); [|by apply alike_follows].
  destruct (foldl _ _ _) as [[pkt n] rd']. cbn [snd]. apply follows_send. by right.
Qed.

Lemma find_handler_cases cmd authed h : find_handler cmd authed = Some h ->
  h = _HandleLogonChallenge \/ (h = _HandleLogonProof /\ cmd = AUTH_LOGON_PROOF) \/ h = _HandleReconnectChallenge \/
  (h = _HandleReconnectProof /\ cmd = AUTH_RECONNECT_PROOF) \/ (h = _HandleRealmList /\ authed = true) \/
  h = _HandleXferAccept \/ h = _HandleXferResume \/ h = _HandleXferCancel.
Proof.
  intros (e & [Hin Hb]%List.find_some & ->)%fmap_Some. apply andb_true_iff in Hb as [Hc%Z.eqb_eq Hb].
  cbn [table In] in Hin. repeat destruct Hin as [<-|Hin]; cbn in *; naive_solver.
Qed.

Lemma handler_follows cmd h rd so : find_handler cmd (_authed so) = Some h -> follows so (h rd so).2.
Proof.
  intros [->|[[-> _]|[->|[[-> _]|[[-> Ha]|[->|[->| ->]]]]]]]%find_handler_cases.
  - apply logon_challenge_follows.
  - apply logon_proof_follows.
  - apply reconnect_challenge_follows.
  - apply reconnect_proof_follows.
  - by apply realm_list_follows.
  - apply follows_refl.
  - apply follows_refl.
  - eapply follows_trans; [apply follows_recv_skip|by apply alike_follows].
Qed.

(** ** Reading *)

(** The packet of a logon proof at the head of the input is right. *)
Definition logon_proved (so : AuthSocket) : Prop :=
  exists lp so0, recv sizeof_proof so = (Some lp, so0) /\ _expversion so <> NO_VALID_EXP_FLAG /\
    let A := SetBinary (lp_A lp) in
    let so1 := set__K (proof_K A so0) so0 in
    A <> 0 /\ first_bytes 20 (AsByteArray 0 (proof_M A so1)) = lp_M1 lp /\
    (_tokenKey so = [] \/ exists now, (recv_token so1).1 = GenerateToken now (_tokenKey so)).
(** The packet of a reconnect proof is right, for a key that is not zero. *)
Definition reconnect_proved (so : AuthSocket) : Prop :=
  exists lp so0, recv sizeof_reconnect so = (Some lp, so0) /\ _login so <> [] /\ _reconnectProof so <> 0 /\ _K so <> 0 /\
    reconnect_digest (_login so) (SetBinary (lp_R1 lp)) (_reconnectProof so) (_K so) = lp_R2 lp.

Lemma recv_alike n so l so0 : recv n so = (l, so0) ->
  _tokenKey so0 = _tokenKey so /\ _authed so0 = _authed so /\ _expversion so0 = _expversion so /\ _login so0 = _login so /\
  _reconnectProof so0 = _reconnectProof so /\ _K so0 = _K so.
Proof. unfold recv. intros Hr. case_match; by simplify_eq/=. Qed.
Lemma recv_token_alike so : _tokenKey (recv_token so).2 = _tokenKey so /\ _authed (recv_token so).2 = _authed so.
Proof.
  unfold recv_token. destruct (recv 1 so) as [r so1] eqn:Hr1. destruct (recv (Z.to_nat _) so1) as [r' so2] eqn:Hr2.
  apply recv_alike in Hr1 as (? & ? & _), Hr2 as (? & ? & _). cbn. split; congruence.
Qed.
Lemma send_authed p so : _authed (send p so) = _authed so.
Proof. unfold send. by case_match. Qed.

Lemma logon_proof_authed rd so : _authed so = false -> _authed (_HandleLogonProof rd so).2 = true -> logon_proved so.
Proof.
  intros Ha. unfold _HandleLogonProof. destruct (recv sizeof_proof so) as [[lp|] so0] eqn:Hr.
  2: { apply recv_alike in Hr as (_ & Ha0 & _). cbn. congruence. }
  destruct (recv_alike _ _ _ _ Hr) as (Ht & Ha0 & He & _).
  destruct (Z.eqb_spec (_expversion so0) NO_VALID_EXP_FLAG); [cbn; congruence|].
  unfold isZero. destruct (Z.eqb_spec (SetBinary (lp_A lp)) 0); [cbn; congruence|].
  set (so1 := set__K _ so0). case_bool_decide as Hd; [|cbn; rewrite send_authed; cbn; congruence].
  unfold proof_accepted. intros Hacc. exists lp, so0. split; [done|]. split; [congruence|]. split; [done|]. split; [done|].
  fold so1. change (_tokenKey so1) with (_tokenKey so0) in Hacc. rewrite Ht in Hacc.
  case_bool_decide as Hk; [by left|]. right. rewrite orb_true_r in Hacc.
  pose proof (recv_token_alike so1) as [Ht2 Ha2]. destruct (recv_token so1) as [incoming so2]. cbn [snd fst] in *.
  revert Hacc. match goal with |- context [GenerateToken ?now ?k =? ?i] => destruct (Z.eqb_spec (GenerateToken now k) i) as [He2|] end; intros Hacc.
  - eexists. rewrite <- He2, Ht2. change (_tokenKey so1) with (_tokenKey so0). rewrite Ht. reflexivity.
  - cbn in Hacc. rewrite send_authed in Hacc. change (_authed so1) with (_authed so0) in Ha2. congruence.
Qed.

Lemma GetNumBytes_zero a : (GetNumBytes a =? 0)%nat = false -> a <> 0.
Proof. intros Hn ->. unfold GetNumBytes in Hn. by rewrite BN_num_bytes_zero in Hn. Qed.

Lemma reconnect_proof_authed rd so : _authed so = false -> _authed (_HandleReconnectProof rd so).2 = true -> reconnect_proved so.
Proof.
  intros Ha. unfold _HandleReconnectProof. destruct (recv sizeof_reconnect so) as [[lp|] so0] eqn:Hr.
  2: { apply recv_alike in Hr as (_ & Ha0 & _). cbn. congruence. }
  destruct (recv_alike _ _ _ _ Hr) as (Ht & Ha0 & He & Hl & Hp & Hk).
  destruct (_ || _ || _) eqn:Ho; [cbn; congruence|]. apply orb_false_iff in Ho as [[Hn1 Hn2]%orb_false_iff Hn3].
  apply bool_decide_eq_false in Hn1. case_bool_decide as Hd; [|cbn; congruence]. intros _.
  apply GetNumBytes_zero in Hn2, Hn3. exists lp, so0. rewrite <- Hl, <- Hp, <- Hk. done.
Qed.

Lemma challenge_authed rd so :
  _authed (_HandleLogonChallenge rd so).2 = _authed so /\ _authed (_HandleReconnectChallenge rd so).2 = _authed so.
Proof.
  assert (_authed (recv_challenge so).2 = _authed so) as Hr by (unfold recv_challenge; by repeat case_match).
  split.
  - unfold _HandleLogonChallenge. destruct (recv_challenge so) as [[ch|] so0]; [|done]. cbn in Hr.
    destruct (4 <? _)%nat; [done|].
    match goal with |- context [challenge_reply ch rd ?s] => pose proof (challenge_reply_alike ch rd s) as (_ & _ & Ha & _);
      destruct (challenge_reply ch rd s) as [[reply rd3] so3] end. cbn in Ha |- *. rewrite send_authed. by rewrite Ha.
  - unfold _HandleReconnectChallenge. destruct (recv_challenge so) as [[ch|] so0]; [|done]. cbn in Hr.
    destruct (SEL_ACCOUNT _ _); [|done]. destruct (4 <? _)%nat; [done|]. cbn [snd]. by rewrite send_authed.
Qed.

(** One command is served. *)
Definition serves (x y : Realmd * AuthSocket) : Prop :=
  exists cmd h ok, recv_soft 1 x.2 = Some [cmd] /\ find_handler cmd (_authed x.2) = Some h /\ h x.1 x.2 = (ok, y.1, y.2).
Definition proof_at_hand (so : AuthSocket) : Prop :=
  (recv_soft 1 so = Some [AUTH_LOGON_PROOF] /\ logon_proved so) \/
  (recv_soft 1 so = Some [AUTH_RECONNECT_PROOF] /\ reconnect_proved so).

Lemma handler_authed cmd h rd so : find_handler cmd (_authed so) = Some h -> _authed so = false ->
  _authed (h rd so).2 = true ->
  (cmd = AUTH_LOGON_PROOF /\ logon_proved so) \/ (cmd = AUTH_RECONNECT_PROOF /\ reconnect_proved so).
Proof.
  intros Hf Ha Hok.
  destruct (find_handler_cases _ _ _ Hf) as [->|[[-> ->]|[->|[[-> ->]|[[-> Ha']|[->|[->| ->]]]]]]]; [| | | |congruence|cbn in Hok; congruence..].
  - rewrite (proj1 (challenge_authed rd so)) in Hok. congruence.
  - left. split; [done|]. by apply (logon_proof_authed rd).
  - rewrite (proj2 (challenge_authed rd so)) in Hok. congruence.
  - right. split; [done|]. by apply (reconnect_proof_authed rd).
Qed.

Lemma recv_soft_1 so bytes : recv_soft 1 so = Some bytes -> exists c, bytes = [c] /\ hd 0 bytes = c.
Proof.
  unfold recv_soft, recv_len. destruct (input so) as [|c l]; [done|]. cbn. intros [= <-]. by exists c.
Qed.

(** The loop is a sequence of served commands, perhaps with a shutdown. *)
Lemma OnRead_loop_serves fuel n rd so :
  exists x, rtc serves (rd, so) x /\ (OnRead_loop fuel n rd so).1 = x.1 /\
    ((OnRead_loop fuel n rd so).2 = x.2 \/ (OnRead_loop fuel n rd so).2 = shutdown x.2).
Proof.
  revert n rd so. induction fuel as [|fuel IH]; intros n rd so; [by exists (rd, so); split; [constructor|auto]|].
  cbn [OnRead_loop]. destruct (recv_soft 1 so) as [bytes|] eqn:Hb; [|by exists (rd, so); split; [constructor|auto]].
  destruct (recv_soft_1 _ _ Hb) as (c & -> & _). cbn [hd].
  destruct (_ && _); [by exists (rd, so); split; [constructor|auto]|].
  destruct (find_handler c (_authed so)) as [h|] eqn:Hf; [|by exists (rd, so); split; [constructor|auto]].
  destruct (h rd so) as [[ok rd1] so1] eqn:Hh.
  assert (serves (rd, so) (rd1, so1)) as Hs by (by exists c, h, ok).
  destruct ok.
  - destruct (IH (if c =? AUTH_LOGON_CHALLENGE then S n else n) rd1 so1) as (x & Hx & H1' & H2'). exists x. split; [by eapply rtc_l|done].
  - exists (rd1, so1). split; [by apply rtc_once|auto].
Qed.

Lemma serves_authed x y : rtc serves x y -> _authed x.2 = false -> _authed y.2 = true ->
  exists z, rtc serves x z /\ _authed z.2 = false /\ proof_at_hand z.2.
Proof.
  induction 1 as [x|x y z Hxy Hyz IH]; [congruence|]. intros Hx Hz. destruct (_authed y.2) eqn:Hy.
  - exists x. split; [constructor|]. split; [done|]. destruct Hxy as (cmd & h & ok & Hr & Hf & Hh).
    destruct (handler_authed cmd h x.1 x.2 Hf Hx) as [[-> ?]|[-> ?]]; [by rewrite Hh|by left|by right].
  - destruct (IH eq_refl Hz) as (w & Hw & Hwa & Hp). exists w. split; [by eapply rtc_l|done].
Qed.

(** Nobody is let in without a proof: when reading logs a connection in, one of
    the commands it served was a proof that is right for what the connection
    then held. *)
Theorem authed_by_proof rd so rd' so' :
  OnRead rd so = (rd', so') -> _authed so = false -> _authed so' = true ->
  exists x, rtc serves (rd, so) x /\ _authed x.2 = false /\ proof_at_hand x.2.
Proof.
  intros Hr Ha Ha'. unfold OnRead in Hr. destruct (OnRead_loop_serves (S (recv_len so)) 0 rd so) as (x & Hx & _ & Hx2).
  rewrite Hr in Hx2. apply (serves_authed (rd, so) x Hx Ha). destruct Hx2 as [Hx2|Hx2]; cbn in Hx2; by rewrite Hx2 in Ha'.
Qed.

Lemma serves_follows x y : rtc serves x y -> follows x.2 y.2.
Proof.
  induction 1 as [x|x y z Hxy Hyz IH]; [apply follows_refl|]. eapply follows_trans; [|exact IH].
  destruct Hxy as (cmd & h & ok & Hr & Hf & Hh). pose proof (handler_follows cmd h x.1 x.2 Hf) as Hfo. by rewrite Hh in Hfo.
Qed.
Lemma OnRead_follows rd so : follows so (OnRead rd so).2.
Proof.
  unfold OnRead. destruct (OnRead_loop_serves (S (recv_len so)) 0 rd so) as (x & Hx%serves_follows & _ & Hx2).
  destruct Hx2 as [-> | ->]; [done|]. eapply follows_trans; [exact Hx|by apply alike_follows].
Qed.

(** The realm list goes to connections that are logged in. *)
Theorem realm_list_needs_login rd so rd' so' pkt :
  OnRead rd so = (rd', so') -> pkt ∈ sent so' -> hd 0 pkt = REALM_LIST -> pkt ∈ sent so \/ _authed so' = true.
Proof.
  intros Hr Hin Hhd. pose proof (OnRead_follows rd so) as [_ [l [Hl Hf]] _ _]. rewrite Hr in Hl, Hf. cbn in Hl, Hf.
  rewrite Hl in Hin. apply elem_of_app in Hin as [|Hin]; [by left|right].
  rewrite Forall_forall in Hf. by apply Hf in Hin.
Qed.

(** ** Reading ends *)

Lemma follows_len so so' : follows so so' -> (recv_len so' <= recv_len so)%nat.
Proof. intros [[n Hn] _ _ _]. unfold recv_len. rewrite Hn, length_drop. lia. Qed.
Lemma recv_len_recv n so l so0 : recv n so = (Some l, so0) -> recv_len so0 = (recv_len so - n)%nat /\ (n <= recv_len so)%nat.
Proof.
  unfold recv, recv_soft. intros Hr. destruct (Nat.ltb_spec (recv_len so) n); simplify_eq/=.
  split; [|done]. unfold recv_len, recv_skip. cbn. by rewrite length_drop.
Qed.
Lemma recv_len_challenge so ch so0 : recv_challenge so = (Some ch, so0) -> (recv_len so0 < recv_len so)%nat.
Proof.
  unfold recv_challenge, sizeof_challenge. intros Hr. destruct (Nat.ltb_spec (recv_len so) 35); [done|].
  case_match; simplify_eq/=. unfold recv_len in *. cbn. rewrite !length_drop. lia.
Qed.

(** A handler that goes on has taken something. *)
Lemma handler_consumes cmd h rd so rd' so' :
  find_handler cmd (_authed so) = Some h -> h rd so = (true, rd', so') -> (recv_len so' < recv_len so)%nat \/ recv_len so = 0%nat.
Proof.
  assert (forall n so l so0 so', recv n so = (Some l, so0) -> n <> 0%nat -> follows so0 so' -> (recv_len so' < recv_len so)%nat) as Hrecv.
  { intros n s l s0 s' [? ?]%recv_len_recv Hn Hf%follows_len. lia. }
  intros [->|[[-> _]|[->|[[-> _]|[[-> Ha]|[->|[->| ->]]]]]]]%find_handler_cases Hh; try done; [| | | | |].
  - left. pose proof (logon_challenge_follows rd so) as Hf. revert Hh Hf. unfold _HandleLogonChallenge.
    destruct (recv_challenge so) as [[ch|] so0] eqn:Hr; [|done]. apply recv_len_challenge in Hr.
    destruct (4 <? _)%nat; [done|].
    match goal with |- context [challenge_reply ch rd ?s] => pose proof (challenge_reply_alike ch rd s) as (Hi & _);
      destruct (challenge_reply ch rd s) as [[reply rd3] so3] end.
    intros [= _ <-] _. cbn in Hi. unfold recv_len, send in *. case_match; cbn; by rewrite Hi.
  - left. revert Hh. unfold _HandleLogonProof. destruct (recv sizeof_proof so) as [[lp|] so0] eqn:Hr; [|done].
    intros Hh. apply (Hrecv _ _ _ _ _ Hr); [done|]. revert Hh.
    case_match; [intros [= _ <-]; by apply alike_follows|].
    case_match; [intros [= _ <-]; by apply alike_follows|].
    case_match; intros Hh.
    + match type of Hh with proof_accepted ?lp ?A ?M ?rd ?s = _ => pose proof (proof_accepted_follows lp A M rd s) as Hf end.
      rewrite Hh in Hf. eapply follows_trans; [|exact Hf]. by apply alike_follows.
    + injection Hh as _ <-. eapply follows_trans; [|apply follows_send; by left]. by apply alike_follows.
  - left. revert Hh. unfold _HandleReconnectChallenge. destruct (recv_challenge so) as [[ch|] so0] eqn:Hr; [|done].
    apply recv_len_challenge in Hr. destruct (SEL_ACCOUNT _ _); [|done]. destruct (4 <? _)%nat; [done|].
    intros [= _ <-]. unfold send. case_match; exact Hr.
  - left. revert Hh. unfold _HandleReconnectProof. destruct (recv sizeof_reconnect so) as [[lp|] so0] eqn:Hr; [|done].
    intros Hh. apply (Hrecv _ _ _ _ _ Hr); [done|]. revert Hh. repeat case_match; intros [= _ <-].
    eapply follows_trans; [|apply follows_authed]. apply follows_send. by left.
  - left. revert Hh. unfold _HandleRealmList. destruct (Nat.ltb_spec (recv_len so) 5); [done|].
    destruct (SEL_ACCOUNT _ _); [|done]. destruct (foldl _ _ _) as [[pkt n] rd1]. intros [= _ <-].
    unfold send, recv_len in *. case_match; cbn; rewrite length_drop; lia.
  - destruct (decide (recv_len so = 0%nat)); [by right|left]. injection Hh as _ <-. unfold recv_len in *. cbn. rewrite length_drop. lia.
Qed.


End Rules.
