(* ===== verification/AuthWays.v ===== *)
(** * Ways in, wrong passwords and bans

    What AuthSocket.cpp lets pass: a proof whose number is a multiple of the
    modulus, a proof for a name whose challenge was refused, a key that is
    stored before the token is looked at.  What it stops: wrong passwords, and
    addresses that are banned for them.  Reconnecting, and commands that arrive
    in pieces. *)
From S2P Require Import Prelude.
From S2P Require Import ByteBuffer.
From S2P Require Import BigNumber.
From S2P Require Import Util.
From S2P Require Import AuthSocket.
From S2P Require Import AuthLogin.
From S2P Require Import AuthRules.
Local Open Scope Z_scope.

Section Ways.
Context `{OpenSSLLaws} `{AuthWorld}.

(** ** Proofs that need no password *)

(** With [A = N] the shared number is 0 whatever the verifier is. *)
Lemma srp_S_multiple v b B : 0 <= v -> 0 < b -> srp_S srp_N v b B = 0.
Proof.
  intros Hv Hb. pose proof srp_N_bounds as HN. pose proof (srp_u_nonneg srp_N B).
  unfold srp_S. rewrite (ModExp_spec v) by done.
  assert (0 <= v ^ srp_u srp_N B mod srp_N) by (apply Z.mod_pos_bound; lia).
  rewrite BN_mul_spec, ModExp_spec by (lia || (apply Z.mul_nonneg_nonneg; lia)).
  rewrite Zpow_facts.Zpower_mod, Z.mul_comm, Z.mod_mul, Z.pow_0_l by lia. done.
Qed.
(** Without a challenge the secret exponent is 0, and the shared number 1. *)
Lemma srp_S_unchallenged A v B : 0 <= A -> 0 <= v -> srp_S A v 0 B = 1.
Proof.
  intros HA Hv. pose proof srp_N_bounds as HN. pose proof (srp_u_nonneg A B).
  unfold srp_S. rewrite (ModExp_spec v) by done.
  assert (0 <= v ^ srp_u A B mod srp_N) by (apply Z.mod_pos_bound; lia).
  rewrite BN_mul_spec, ModExp_spec by (lia || (apply Z.mul_nonneg_nonneg; lia)).
  rewrite Z.pow_0_r. apply Z.mod_small. lia.
Qed.

Lemma AsByteArray_0 : take 32 (AsByteArray 32 0) = replicate 32 0.
Proof. rewrite AsByteArray_eq, BN_num_bytes_zero by lia. done. Qed.
(** The one of the padding is below the number: it is the last byte. *)
Lemma AsByteArray_1 : take 32 (AsByteArray 32 1) = replicate 31 0 ++ [1].
Proof. rewrite AsByteArray_eq, (num_bytes_full 0) by lia. done. Qed.

(** A proof made of the reply to a challenge and the name alone *)
Definition forged_K : Z := srp_K (replicate 32 0).
Definition forged_M (reply : list Z) (login : text) : list Z :=
  srp_M login (le_value (take 32 (drop 70 reply))) srp_N (le_value (take 32 (drop 3 reply))) forged_K.
Definition forgery (reply : list Z) (login : text) : list Z :=
  proof_packet (le_bytes 32 srp_N) (forged_M reply login) (replicate 20 0) 0 0.

(** C32: Whoever names an account without a token is let in: the number in the proof
    is only compared with 0, so a client may send the modulus, and the key is
    then known without the password.  [pw] is not used in [forgery]. *)
Theorem anyone_logs_in pw rd so rd1 so1 reply :
  verifiers_ok pw rd -> _HandleLogonChallenge rd so = (true, rd1, so1) ->
  sent so1 = sent so ++ [reply] -> nth 2 reply 255 = WOW_SUCCESS -> 256 ^ 31 <= _B so1 -> _tokenKey so1 = [] ->
  last (forged_M reply (_login so1)) <> Some 0 ->
  forall rd2, exists rd3 so3,
    _HandleLogonProof rd2 (set_input (forgery reply (_login so1)) so1) = (true, rd3, so3) /\ _authed so3 = true /\
    forall row, SEL_ACCOUNT (_login so1) (db rd3) = Some row -> sessionkey row = AsHexStr forged_K.
Proof.
  intros Hv Hch Hsent Hst HB Htok Hlast rd2. pose proof srp_N_bounds as HN.
  destruct (HandleLogonChallenge_ok pw rd so rd1 so1 Hv Hch) as (_ & Hcl & Hexp & r & Hs & Hcase).
  destruct (sent_reply _ _ _ (eq_trans (eq_sym Hs) Hsent)) as [Hopen ->].
  destruct Hcase as [(code & -> & Hne & _)|([[Hns Hps] Hsv Hsb HsB] & unk3 & flags & ->)]; [by cbn in Hst|].
  assert (_B so1 < srp_N) by (rewrite HsB; apply Z.mod_pos_bound; lia).
  assert (0 <= _v so1) as Hv1 by (rewrite Hsv; apply Z.mod_pos_bound; lia).
  destruct (offered_fields so1 unk3 flags Hns Hps) as (HfB & _ & _ & _ & Hfs); [lia|].
  assert (le_value (le_bytes 32 srp_N) = srp_N) as HlN by (rewrite le_value_le_bytes, Z.mod_small; [done|lia]).
  unfold forgery. set (M1 := forged_M _ _) in *.
  assert (M1 = srp_M (_login so1) (_s so1) srp_N (_B so1) forged_K) as HM by (unfold M1, forged_M; by rewrite HfB, Hfs).
  clearbody M1.
  set (so2 := set_input _ so1).
  assert (srp_K (take 32 (AsByteArray 32 (srp_S srp_N (_v so2) (_b so2) (_B so2)))) = forged_K) as HK
    by (unfold forged_K; rewrite srp_S_multiple, AsByteArray_0 by done; done).
  eexists _, _. split.
  - apply (proof_is_accepted rd2 so2 (le_bytes 32 srp_N) M1 (replicate 20 0) 0); rewrite ?HlN, ?HK;
      [done|by rewrite length_le_bytes|apply le_bytes_bytes|done|exact HM|done|lia| |done].
    change (_expversion so2) with (_expversion so1). rewrite Hexp. apply accepted_expversion. cbn in Hst. by destruct (IsAcceptedClientBuild _).
  - rewrite HlN, HK. split; [done|]. intros row. apply (stored_key _ so2 rd2).
Qed.

(** A proof for a name whose challenge was refused, on a connection that has
    had no other: everything in it is known. *)
Definition unchallenged_K : Z := srp_K (replicate 31 0 ++ [1]).
Definition unchallenged_M (login : text) : list Z := srp_M login 0 1 0 unchallenged_K.
Definition unchallenged_proof (login : text) : list Z :=
  proof_packet (le_bytes 32 1) (unchallenged_M login) (replicate 20 0) 0 0.

Lemma challenge_remote rd so : remoteAddress (_HandleLogonChallenge rd so).2 = remoteAddress so.
Proof. exact (fo_remote _ _ (logon_challenge_follows rd so)). Qed.

Lemma refused_name_result pw rd pkt ip addr rd1 so1 code :
  let so := set_input pkt (AuthSocket_init ip addr) in
  verifiers_ok pw rd -> _HandleLogonChallenge rd so = (true, rd1, so1) -> sent so1 = [[AUTH_LOGON_CHALLENGE; 0; code]] ->
  IsAcceptedClientBuild (_build so1) = true -> last (unchallenged_M (_login so1)) <> Some 0 ->
  forall rd2, let so2 := set_input (unchallenged_proof (_login so1)) so1 in
  exists so3, _HandleLogonProof rd2 so2 = (true, store_key unchallenged_K so2 rd2, so3) /\ _authed so3 = true /\
    _login so3 = _login so1 /\ remoteAddress so1 = ip.
Proof.
  intros so Hv Hch Hsent Hbuild Hlast rd2 so2.
  destruct (HandleLogonChallenge_ok pw rd so rd1 so1 Hv Hch) as (_ & Hcl & Hexp & r & Hs & Hcase).
  destruct (sent_reply so _ _ (eq_trans (eq_sym Hs) Hsent)) as [Hopen Hrep].
  destruct Hcase as [(c & -> & Hne & (Hks & Hkv & Hkb & HkB & Hkt))|(_ & unk3 & flags & ->)].
  2: { apply (f_equal length) in Hrep. unfold offered in Hrep. rewrite !length_app, length_le_bytes in Hrep. cbn in Hrep. lia. }
  cbn in Hks, Hkv, Hkb, HkB, Hkt.
  assert (le_value (le_bytes 32 1) = 1) as Hl1 by done.
  unfold unchallenged_proof in so2. set (M1 := unchallenged_M _) in *.
  assert (M1 = srp_M (_login so1) (_s so1) 1 (_B so1) unchallenged_K) as HM by (unfold M1, unchallenged_M; by rewrite Hks, HkB).
  clearbody M1.
  assert (srp_K (take 32 (AsByteArray 32 (srp_S 1 (_v so2) (_b so2) (_B so2)))) = unchallenged_K) as HK.
  { unfold unchallenged_K. change (_b so2) with (_b so1). change (_v so2) with (_v so1).
    rewrite Hkb, srp_S_unchallenged, AsByteArray_1; [done|done|by rewrite Hkv]. }
  eexists. split.
  - pose proof (proof_is_accepted rd2 so2 (le_bytes 32 1) M1 (replicate 20 0) 0) as Hacc. cbv zeta in Hacc.
    rewrite Hl1, HK in Hacc. apply Hacc; [done|done|apply le_bytes_bytes|done|exact HM|done|done| |done].
    change (_expversion so2) with (_expversion so1). rewrite Hexp. by apply accepted_expversion.
  - split; [done|]. split; [cbn; unfold send; by case_match|]. pose proof (challenge_remote rd so) as Hrem. rewrite Hch in Hrem. exact Hrem.
Qed.

(** A refused challenge does not keep anybody out: the name, the build and the
    expansion are kept before the checks, and the proof is taken although no
    key was agreed on. *)
Theorem refused_name_logs_in pw rd pkt ip addr rd1 so1 code :
  let so := set_input pkt (AuthSocket_init ip addr) in
  verifiers_ok pw rd -> _HandleLogonChallenge rd so = (true, rd1, so1) -> sent so1 = [[AUTH_LOGON_CHALLENGE; 0; code]] ->
  IsAcceptedClientBuild (_build so1) = true -> last (unchallenged_M (_login so1)) <> Some 0 ->
  forall rd2, exists rd3 so3,
    _HandleLogonProof rd2 (set_input (unchallenged_proof (_login so1)) so1) = (true, rd3, so3) /\ _authed so3 = true /\
    _login so3 = _login so1 /\
    forall row, SEL_ACCOUNT (_login so1) (db rd3) = Some row -> sessionkey row = AsHexStr unchallenged_K.
Proof.
  intros so Hv Hch Hsent Hbuild Hlast rd2.
  destruct (refused_name_result pw rd pkt ip addr rd1 so1 code Hv Hch Hsent Hbuild Hlast rd2) as (so3 & Hp & Ha & Hl & _).
  eexists _, so3. split; [exact Hp|]. split; [done|]. split; [done|]. intros row. apply (stored_key _ (set_input _ so1) rd2).
Qed.

(** ** The token *)

Lemma store_key_only A M K lp rd so :
  _K so = K -> (proof_accepted lp A M rd so).1.2 = store_key K so rd.
Proof. intros <-. unfold proof_accepted. set (c := if _ || _ then _ else _). destruct c as [[|] s]; done. Qed.

Lemma wrong_token_result rd so lp so0 rd' so' :
  recv sizeof_proof so = (Some lp, so0) -> _expversion so <> NO_VALID_EXP_FLAG -> SetBinary (lp_A lp) <> 0 ->
  let so1 := set__K (proof_K (SetBinary (lp_A lp)) so0) so0 in
  first_bytes 20 (AsByteArray 0 (proof_M (SetBinary (lp_A lp)) so1)) = lp_M1 lp ->
  _tokenKey so <> [] -> (forall now, (recv_token so1).1 <> GenerateToken now (_tokenKey so)) ->
  _HandleLogonProof rd so = (false, rd', so') ->
  _authed so' = _authed so /\ rd' = store_key (_K so1) so1 rd.
Proof.
  intros Hr Hexp HA so1 HM Htok Hwrong Hh.
  assert (_tokenKey so0 = _tokenKey so /\ _expversion so0 = _expversion so /\ _login so0 = _login so /\ _authed so0 = _authed so) as (Ht & He & Hl & Ha).
  { unfold recv in Hr. case_match; by simplify_eq/=. }
  unfold _HandleLogonProof in Hh. rewrite Hr, He in Hh. apply Z.eqb_neq in Hexp as Hexp'. rewrite Hexp' in Hh.
  unfold isZero in Hh. apply Z.eqb_neq in HA as HA'. rewrite HA' in Hh. fold so1 in Hh. rewrite bool_decide_true in Hh by done.
  pose proof (store_key_only (SetBinary (lp_A lp)) (proof_M (SetBinary (lp_A lp)) so1) (_K so1) lp rd so1 eq_refl) as Hst.
  rewrite Hh in Hst. cbn [fst snd] in Hst. split.
  - unfold proof_accepted in Hh. change (_tokenKey so1) with (_tokenKey so0) in Hh. rewrite Ht, (bool_decide_false _ Htok), orb_true_r in Hh.
    assert (_tokenKey (recv_token so1).2 = _tokenKey so0 /\ _authed (recv_token so1).2 = _authed so0) as [Ht2 Ha2].
    { unfold recv_token, recv. repeat case_match; by simplify_eq/=. }
    destruct (recv_token so1) as [incoming so2]. cbn [fst snd] in *. rewrite Ht2, Ht in Hh.
    match type of Hh with context [GenerateToken ?now _ =? _] => pose proof (Hwrong now) as Hn end.
    rewrite (proj2 (Z.eqb_neq _ _)) in Hh by congruence. injection Hh as _ <-.
    unfold send. case_match; cbn; congruence.
  - exact Hst.
Qed.

(** The key of a right password is stored before the token that must follow is
    looked at: a wrong token is refused, and the key stays stored. *)
Theorem wrong_token_keeps_key rd so lp so0 rd' so' :
  recv sizeof_proof so = (Some lp, so0) -> _expversion so <> NO_VALID_EXP_FLAG -> SetBinary (lp_A lp) <> 0 ->
  let so1 := set__K (proof_K (SetBinary (lp_A lp)) so0) so0 in
  first_bytes 20 (AsByteArray 0 (proof_M (SetBinary (lp_A lp)) so1)) = lp_M1 lp ->
  _tokenKey so <> [] -> (forall now, (recv_token so1).1 <> GenerateToken now (_tokenKey so)) ->
  _HandleLogonProof rd so = (false, rd', so') ->
  _authed so' = _authed so /\ (forall row, SEL_ACCOUNT (_login so) (db rd') = Some row -> sessionkey row = AsHexStr (_K so1)).
Proof.
  intros Hr Hexp HA so1 HM Htok Hwrong Hh.
  destruct (wrong_token_result rd so lp so0 rd' so' Hr Hexp HA HM Htok Hwrong Hh) as [Ha ->]. split; [done|].
  assert (_login so = _login so1) as -> by (unfold recv in Hr; case_match; by simplify_eq/=).
  intros row. apply (stored_key _ so1 rd).
Qed.

(** ** Wrong passwords *)

(** The database once the thread has caught up; queries do not change it. *)
Definition settled (rd : Realmd) : LoginDB := run_statements (pending rd) (db rd).
Lemma run_statements_app l k d : run_statements (l ++ k) d = run_statements k (run_statements l d).
Proof. apply foldl_app. Qed.
Lemma settled_work n rd : settled (work n rd) = settled rd.
Proof. unfold settled, work. cbn [pending db set_db set_pending]. by rewrite <- run_statements_app, take_drop. Qed.
Lemma settled_synch rd : settled (synch rd) = settled rd.
Proof. unfold synch. change (settled (work (db_thread (queries rd)) rd) = settled rd). apply settled_work. Qed.
Lemma settled_execute st rd : settled (Execute st rd) = run_statement st (settled rd).
Proof. unfold settled, Execute. cbn [pending db set_db set_pending]. by rewrite run_statements_app. Qed.
(** When the thread runs everything before the query, the query sees it all. *)
Lemma synch_all rd : (length (pending rd) <= db_thread (queries rd))%nat -> db (synch rd) = settled rd /\ pending (synch rd) = [].
Proof. intros Hn. unfold synch, work, settled. cbn [pending db set_db set_pending set_queries]. by rewrite take_ge, drop_ge. Qed.

(** A proof that is refused: the digest is not the one computed *)
Definition wrong_proof (rd : Realmd) (so : AuthSocket) : Prop :=
  exists lp so0, recv sizeof_proof so = (Some lp, so0) /\ _expversion so <> NO_VALID_EXP_FLAG /\ SetBinary (lp_A lp) <> 0 /\
    first_bytes 20 (AsByteArray 0 (proof_M (SetBinary (lp_A lp)) (set__K (proof_K (SetBinary (lp_A lp)) so0) so0))) <> lp_M1 lp.

Lemma wrong_proof_eq rd so : wrong_proof rd so -> exists so1,
  _HandleLogonProof rd so = (true, count_failure rd so1, send proof_refused so1) /\
  _login so1 = _login so /\ remoteAddress so1 = remoteAddress so /\ _authed so1 = _authed so /\ sent so1 = sent so /\ closed so1 = closed so.
Proof.
  intros (lp & so0 & Hr & Hexp & HA & HM). unfold _HandleLogonProof. rewrite Hr.
  assert (_expversion so0 = _expversion so /\ _login so0 = _login so /\ remoteAddress so0 = remoteAddress so /\
    _authed so0 = _authed so /\ sent so0 = sent so /\ closed so0 = closed so) as (He & Hrest).
  { unfold recv in Hr. case_match; by simplify_eq/=. }
  rewrite He. apply Z.eqb_neq in Hexp as ->. unfold isZero. apply Z.eqb_neq in HA as ->. rewrite bool_decide_false by done.
  by eexists.
Qed.

(** What [count_failure] does to the settled database *)
Lemma count_failure_settled rd so : 0 < u32 WrongPass_MaxCount ->
  let counted := run_statement (LOGIN_UPD_FAILEDLOGINS (_login so)) (settled rd) in
  settled (count_failure rd so) = counted \/
  (exists id, settled (count_failure rd so) = run_statement (LOGIN_INS_ACCOUNT_AUTO_BANNED id (u32 WrongPass_BanTime)) counted) \/
  settled (count_failure rd so) = run_statement (LOGIN_INS_IP_AUTO_BANNED (remoteAddress so) (u32 WrongPass_BanTime)) counted.
Proof.
  intros Hm. unfold count_failure. rewrite (proj2 (Z.ltb_lt _ _) Hm). set (rd1 := synch _).
  assert (settled rd1 = run_statement (LOGIN_UPD_FAILEDLOGINS (_login so)) (settled rd)) as Hs
    by (unfold rd1; by rewrite settled_synch, settled_execute).
  cbv zeta. rewrite <- Hs. clear Hs. clearbody rd1. repeat case_match; rewrite ?settled_execute; eauto.
Qed.

(** Every wrong password is counted once, whatever the database thread does
    meanwhile; nobody is let in and no key changes. *)
Theorem wrong_password_counted rd so rd' so' row :
  0 < u32 WrongPass_MaxCount -> wrong_proof rd so -> _HandleLogonProof rd so = (true, rd', so') ->
  SEL_ACCOUNT (_login so) (settled rd) = Some row ->
  _authed so' = _authed so /\ sent so' = sent (send proof_refused so) /\
  SEL_ACCOUNT (_login so) (settled rd') = Some (set_failed_logins (failed_logins row + 1) row).
Proof.
  intros Hm Hw Hh Hrow. destruct (wrong_proof_eq rd so Hw) as (so1 & Heq & Hl & _ & Ha & Hs & Hc).
  rewrite Heq in Hh. injection Hh as <- <-. split; [unfold send; case_match; cbn; congruence|].
  split; [unfold send; rewrite Hc; case_match; cbn; congruence|].
  assert (SEL_ACCOUNT (_login so) (run_statement (LOGIN_UPD_FAILEDLOGINS (_login so1)) (settled rd)) =
    Some (set_failed_logins (failed_logins row + 1) row)) as Hcounted.
  { rewrite Hl. unfold SEL_ACCOUNT in *. cbn. by rewrite lookup_alter_eq, Hrow. }
  destruct (count_failure_settled rd so1 Hm) as [->|[(id & ->)| ->]]; [done|..];
    rewrite <- Hcounted; cbn [run_statement]; by case_match.
Qed.

(** An address banned until some time *)
Definition barred (ip : text) (until : Z) (d : LoginDB) : Prop :=
  exists from, ip_banned d !! (ip, from) = Some until.

Lemma barred_refused ip until rd so rd' so' :
  barred ip until (db rd) -> unixtime (db rd) < until -> remoteAddress so = ip ->
  _HandleLogonChallenge rd so = (true, rd', so') ->
  sent so' = sent (send [AUTH_LOGON_CHALLENGE; 0; WOW_FAIL_BANNED] so) /\ _authed so' = _authed so.
Proof.
  intros Hb Ht Hip. assert (forall st d, barred ip until d /\ unixtime d < until -> barred ip until (run_statement st d) /\ unixtime (run_statement st d) < until) as Hstep.
  { intros st d [[from Hf] Hu]. destruct st; cbn [run_statement]; try case_match; (split; [|done]); exists from; try done.
    - cbn. apply map_lookup_filter_Some_2; [done|]. cbn. unfold ban_expired. apply andb_false_iff. right. apply Z.leb_gt. done.
    - cbn. rewrite lookup_insert_ne; [done|]. intros [= He1 He2]. match goal with Hn : ~ is_Some _ |- _ => apply Hn end. rewrite He1, He2. by eexists. }
  assert (forall l d, barred ip until d /\ unixtime d < until -> barred ip until (run_statements l d)) as Hsteps.
  { intros l. induction l as [|st l IH]; intros d Hd; [by destruct Hd|]. cbn. apply IH. by apply Hstep. }
  unfold _HandleLogonChallenge. destruct (recv_challenge so) as [[ch|] so0] eqn:Hr; [|done].
  assert (sent so0 = sent so /\ closed so0 = closed so /\ remoteAddress so0 = remoteAddress so /\ _authed so0 = _authed so) as (Hs & Hc & Hra & Ha).
  { unfold recv_challenge in Hr. repeat case_match; by simplify_eq/=. }
  destruct (4 <? _)%nat; [done|]. unfold challenge_reply.
  match goal with |- context [SEL_IP_BANNED ?i ?d] => assert (SEL_IP_BANNED i d = true) as -> end.
  { destruct (Hsteps (take (db_thread (queries rd)) (pending rd ++ [LOGIN_DEL_EXPIRED_IP_BANS])) (db rd) (conj Hb Ht)) as [from Hf].
    unfold SEL_IP_BANNED. apply existsb_exists. exists ((ip, from), until). split; [|cbn; apply bool_decide_eq_true; congruence].
    apply list_elem_of_In, elem_of_map_to_list. exact Hf. }
  intros [= _ <-]. unfold send. cbn. rewrite Hc. split; [|by destruct (closed so)]. destruct (closed so); cbn; by rewrite Hs.
Qed.

(** Too many wrong passwords keep an address out: when the count reaches the
    limit and bans are by address, every challenge from it is refused until the
    ban ends.  The database thread must have run the pending statements before
    the count is read, and the ban before the next challenge. *)
Theorem wrong_passwords_ban rd so rd1 so1 row :
  0 < u32 WrongPass_MaxCount <= failed_logins row + 1 -> WrongPass_BanType = false ->
  (length (pending rd) < db_thread (queries rd))%nat ->
  SEL_ACCOUNT (_login so) (settled rd) = Some row ->
  ip_banned (settled rd) !! (remoteAddress so, unixtime (settled rd)) = None ->
  wrong_proof rd so -> _HandleLogonProof rd so = (true, rd1, so1) ->
  forall t so2 rd3 so3, t < unixtime (settled rd) + u32 WrongPass_BanTime -> remoteAddress so2 = remoteAddress so ->
    let rd2 := work (length (pending rd1)) rd1 in
    _HandleLogonChallenge (set_db (set_unixtime t (db rd2)) rd2) so2 = (true, rd3, so3) ->
    sent so3 = sent (send [AUTH_LOGON_CHALLENGE; 0; WOW_FAIL_BANNED] so2) /\ _authed so3 = _authed so2.
Proof.
  intros [Hm Hmax] Htype Hthread Hrow Hnone Hw Hh t so2 rd3 so3 Ht Hip.
  destruct (wrong_proof_eq rd so Hw) as (so0 & Heq & Hl & Hr & _). rewrite Heq in Hh. injection Hh as <- _.
  set (counted := Execute (LOGIN_UPD_FAILEDLOGINS (_login so0)) rd).
  destruct (synch_all counted) as [Hdb Hpend]; [unfold counted; cbn; rewrite length_app; cbn; lia|].
  assert (db (synch counted) = run_statement (LOGIN_UPD_FAILEDLOGINS (_login so)) (settled rd)) as Hdb1
    by (rewrite Hdb; unfold counted; by rewrite settled_execute, Hl).
  assert (SEL_ACCOUNT (_login so0) (db (synch counted)) = Some (set_failed_logins (failed_logins row + 1) row)) as Hsel.
  { rewrite Hdb1, Hl. unfold SEL_ACCOUNT in *. cbn. by rewrite lookup_alter_eq, Hrow. }
  assert (count_failure rd so0 = Execute (LOGIN_INS_IP_AUTO_BANNED (remoteAddress so) (u32 WrongPass_BanTime)) (synch counted)) as ->.
  { unfold count_failure. rewrite (proj2 (Z.ltb_lt _ _) Hm), Htype. fold counted. rewrite Hsel.
    cbn [failed_logins set_failed_logins]. by rewrite (proj2 (Z.leb_le _ _) Hmax), Hr. }
  intros rd2.
  assert (db rd2 = run_statement (LOGIN_INS_IP_AUTO_BANNED (remoteAddress so) (u32 WrongPass_BanTime)) (db (synch counted))) as Hd2.
  { unfold rd2, work, Execute. cbn [pending set_pending db set_db]. by rewrite Hpend. }
  clearbody rd2. rewrite Hdb1 in Hd2. intros Hch.
  apply (barred_refused (remoteAddress so) (unixtime (settled rd) + u32 WrongPass_BanTime)) in Hch; [done| |exact Ht|exact Hip].
  exists (unixtime (settled rd)). cbn. rewrite Hd2. cbn [run_statement]. rewrite decide_False.
  - cbn. by rewrite lookup_insert_eq.
  - cbn. rewrite Hnone. by intros [? ?].
Qed.


(** ** Reconnecting *)

Definition reconnect_packet (R1 R2 : list Z) : list Z := [AUTH_RECONNECT_PROOF] ++ R1 ++ R2 ++ replicate 20 0 ++ [0].
Lemma reconnect_packet_fields R1 R2 : length R1 = 16%nat -> length R2 = 20%nat ->
  length (reconnect_packet R1 R2) = sizeof_reconnect /\ lp_R1 (reconnect_packet R1 R2) = R1 /\ lp_R2 (reconnect_packet R1 R2) = R2.
Proof.
  intros Hl1 Hl2. unfold lp_R1, lp_R2. set (lp := reconnect_packet R1 R2).
  assert (drop 1 lp = R1 ++ R2 ++ replicate 20 0 ++ [0]) as Hd1 by done.
  assert (drop 17 lp = R2 ++ replicate 20 0 ++ [0]) as Hd2.
  { replace 17%nat with (1 + 16)%nat by lia. rewrite <- drop_drop, Hd1. by apply drop_app_prefix. }
  split_and!; [unfold lp, reconnect_packet; rewrite !length_app, Hl1, Hl2; done|by rewrite Hd1, <- Hl1, take_app_length|
    by rewrite Hd2, <- Hl2, take_app_length].
Qed.

Lemma send_keys x s : _K (send x s) = _K s /\ _reconnectProof (send x s) = _reconnectProof s /\ _login (send x s) = _login s.
Proof. unfold send. by case_match. Qed.

(** Whoever holds the key that is stored for a name can come back without the
    password: the reply gives the challenge, and the digest of the name, the
    two random numbers and the key is accepted. *)
Theorem reconnect_with_key rd so rd1 so1 reply K R1 :
  _HandleReconnectChallenge rd so = (true, rd1, so1) -> sent so1 = sent so ++ [reply] -> _login so1 <> [] -> 0 < K ->
  (forall row, SEL_ACCOUNT (_login so1) (db (synch rd)) = Some row -> sessionkey row = AsHexStr K) ->
  length R1 = 16%nat -> Forall is_byte R1 ->
  let R2 := reconnect_digest (_login so1) (le_value R1) (le_value (take 16 (drop 2 reply))) K in
  forall rd2, exists so3, _HandleReconnectProof rd2 (set_input (reconnect_packet R1 R2) so1) = (true, rd2, so3) /\ _authed so3 = true.
Proof.
  intros Hch Hsent Hne HK Hkey Hl1 Hb1 R2 rd2.
  assert (_K so1 = K /\ le_value (take 16 (drop 2 reply)) = _reconnectProof so1 /\ 0 < _reconnectProof so1) as (HK1 & Hproof & Hp0).
  { revert Hch. unfold _HandleReconnectChallenge. destruct (recv_challenge so) as [[ch|] so0] eqn:Hr; [|done].
    assert (sent so0 = sent so /\ closed so0 = closed so) as [Hs Hc].
    { unfold recv_challenge in Hr. repeat case_match; by simplify_eq/=. }
    match goal with |- context [SEL_ACCOUNT ?n ?d] => destruct (SEL_ACCOUNT n d) as [row|] eqn:Hrow end; [|done].
    destruct (4 <? _)%nat; [done|]. intros [= _ <-].
    set (p := SetRand (draws (synch rd)) (16 * 8)) in *.
    assert (2 ^ 127 <= p < 2 ^ 128) as Hp by (apply (SetRand_bounds (draws (synch rd)) 128); lia).
    match type of Hsent with sent (send ?x ?s) = _ => destruct (send_keys x s) as (-> & -> & Hlg) end.
    rewrite Hlg in Hkey. cbn in Hkey, Hrow. rewrite (Hkey row Hrow). cbn [_K _reconnectProof set__K set__reconnectProof].
    split; [by apply SetHexStr_AsHexStr|]. split; [|change (0 < p); lia].
    match type of Hsent with sent (send ?x ?s) = _ => destruct (sent_reply s x reply) as [_ ->] end.
    { rewrite Hsent. cbn. by rewrite Hs. }
    assert (forall q, 2 ^ 127 <= q < 2 ^ 128 -> AsByteArray 16 q = le_bytes 16 q) as Hfull
      by (intros q Hq; rewrite AsByteArray_eq, (num_bytes_full 15) by lia; done).
    cbn [drop app]. match goal with |- context [AsByteArray 16 ?q] => change q with p end. rewrite (Hfull p Hp).
    rewrite drop_0, take_app_le, take_take, take_ge by (rewrite ?length_take, length_le_bytes; lia).
    rewrite le_value_le_bytes, Z.mod_small by lia. reflexivity. }
  assert (length R2 = 20%nat) as Hl2 by apply SHA1_length.
  destruct (reconnect_packet_fields R1 R2 Hl1 Hl2) as (Hl & Hf1 & Hf2).
  unfold _HandleReconnectProof, recv, recv_soft, recv_len, recv_skip. cbn [input set_input]. rewrite Hl, Nat.ltb_irrefl.
  rewrite take_ge, drop_ge by (rewrite Hl; done).
  cbn [_login _reconnectProof _K set_input]. rewrite (bool_decide_false _ Hne). cbn [orb].
  assert (forall a, a <> 0 -> 0 <= a -> (GetNumBytes a =? 0)%nat = false) as Hnb.
  { intros a Ha Hge. apply Nat.eqb_neq. unfold GetNumBytes. by apply (BN_num_bytes_spec a); lia. }
  rewrite !Hnb by lia. cbn [orb]. rewrite Hf1, Hf2, SetBinary_spec by done.
  rewrite bool_decide_true by (unfold R2; by rewrite Hproof, HK1). by eexists.
Qed.

(** ** Commands that arrive in pieces *)

(** A challenge whose head has arrived and whose end has not loses its head:
    four bytes are taken and nothing is done, so that the rest is read as a
    command when it arrives.  It begins with the name of the game. *)
Theorem split_challenge_is_lost rd so l : let so := set_input l so in
  hd_error l = Some AUTH_LOGON_CHALLENGE -> (35 <= length l)%nat ->
  Z.of_nat (length l) < 4 + le_value (take 2 (drop 2 l)) -> l !! 4%nat = Some 87 ->
  OnRead rd so = (rd, set_input (drop 4 l) so) /\
  forall more rd2, OnRead rd2 (set_input (drop 4 l ++ more) so) = (rd2, shutdown (set_input (drop 4 l ++ more) so)).
Proof.
  intros so' Hhd Hlen Hshort Hw. destruct l as [|c l]; [done|]. cbn in Hhd. injection Hhd as ->. split.
  - unfold OnRead. cbn [OnRead_loop]. change (recv_soft 1 so') with (Some (take 1 (AUTH_LOGON_CHALLENGE :: l))). cbn [take hd].
    change ((AUTH_LOGON_CHALLENGE =? AUTH_LOGON_CHALLENGE) && (1 =? MAX_AUTH_LOGON_CHALLENGES_IN_A_ROW)%nat) with false. cbn match.
    change (find_handler AUTH_LOGON_CHALLENGE (_authed so')) with (Some _HandleLogonChallenge). cbn match.
    assert (_HandleLogonChallenge rd so' = (false, rd, recv_skip 4 so')) as ->; [|done].
    unfold _HandleLogonChallenge, recv_challenge. unfold recv_len. cbn [input so' set_input].
    rewrite (proj2 (Nat.ltb_ge _ _)) by done.
    rewrite (proj2 (orb_true_iff _ _)); [done|]. right. apply Nat.ltb_lt. cbn [recv_skip input set_input so'].
    rewrite length_drop. set (l' := AUTH_LOGON_CHALLENGE :: l) in *.
    replace (take 2 (drop 2 (take 4 l'))) with (take 2 (drop 2 l')); [lia|].
    unfold l'. by destruct l as [|? [|? [|? ?]]].
  - intros more rd2. unfold OnRead. set (l2 := drop 4 _ ++ more).
    assert (exists l3, l2 = 87 :: l3) as [l3 ->].
    { unfold l2. rewrite (drop_S _ _ _ Hw). by eexists. }
    cbn [OnRead_loop]. done.
Qed.
End Ways.
