(* ===== verification/AuthNet.v ===== *)
(** * Connections

    The authentication server with all its connections: what clients do, what
    the database thread and the clock do, in any order.  The stored verifiers
    stay right, and a connection that is logged in has shown a proof. *)
From S2P Require Import Prelude.
From S2P Require Import ByteBuffer.
From S2P Require Import BigNumber.
From S2P Require Import Util.
From S2P Require Import AuthSocket.
From S2P Require Import AuthLogin.
From S2P Require Import AuthRules.
Local Open Scope Z_scope.

Record Net := mkNet { n_rd : Realmd; n_conns : gmap Z AuthSocket }.

(** A client connects, sends bytes, goes; the database thread runs statements;
    time passes. *)
Inductive NetAction :=
| Connect (c : Z) (ip : text) (addr : INET_Addr)
| Receive (c : Z) (bytes : list Z)
| Disconnect (c : Z)
| RunStatements (n : nat)
| Tick (seconds : Z).

Section Net.
Context `{OpenSSLLaws} `{AuthWorld}.

Definition net_step (n : Net) (a : NetAction) : Net :=
  match a with
  | Connect c ip addr => mkNet (n_rd n) (<[c := AuthSocket_init ip addr]> (n_conns n))
  | Receive c bytes =>
      match n_conns n !! c with
      | Some so => let '(rd, so) := handle_input bytes (n_rd n) so in mkNet rd (<[c := so]> (n_conns n))
      | None => n
      end
  | Disconnect c => mkNet (n_rd n) (delete c (n_conns n))
  | RunStatements k => mkNet (work k (n_rd n)) (n_conns n)
  | Tick k => mkNet (set_db (set_unixtime (unixtime (db (n_rd n)) + k) (db (n_rd n))) (n_rd n)) (n_conns n)
  end.
Definition net_run (l : list NetAction) (n : Net) : Net := foldl net_step n l.

(** ** The stored verifiers *)

#[local] Hint Resolve verifiers_synch verifiers_execute verifiers_direct : core.

Lemma verifiers_fields pw rd rd' : db rd' = db rd -> pending rd' = pending rd -> verifiers_ok pw rd -> verifiers_ok pw rd'.
Proof. intros Hd Hp [? ?]. constructor; by rewrite ?Hd, ?Hp. Qed.

Lemma logon_challenge_verifiers pw rd so : verifiers_ok pw rd -> verifiers_ok pw (_HandleLogonChallenge rd so).1.2.
Proof.
  intros Hv. unfold _HandleLogonChallenge. destruct (recv_challenge so) as [[ch|] so0]; [|done].
  destruct (4 <? _)%nat; [done|].
  match goal with |- context [challenge_reply ch rd ?s] => pose proof (challenge_reply_ok pw ch rd s Hv) as Hok;
    destruct (challenge_reply ch rd s) as [[reply rd3] so3] end. by destruct Hok.
Qed.

Lemma count_failure_verifiers pw rd so : verifiers_ok pw rd -> verifiers_ok pw (count_failure rd so).
Proof.
  intros Hv. unfold count_failure. case_match; [|done].
  assert (verifiers_ok pw (synch (Execute (LOGIN_UPD_FAILEDLOGINS (_login so)) rd))) by (by apply verifiers_synch, verifiers_execute).
  repeat case_match; try done; by apply verifiers_execute.
Qed.

Lemma logon_proof_verifiers pw rd so : verifiers_ok pw rd -> verifiers_ok pw (_HandleLogonProof rd so).1.2.
Proof.
  intros Hv. unfold _HandleLogonProof. destruct (recv sizeof_proof so) as [[lp|] so0]; [|done].
  case_match; [done|]. case_match; [done|]. case_match; [|by apply count_failure_verifiers].
  unfold proof_accepted. set (c := if _ || _ then _ else _). destruct c as [[|] s]; cbn [fst snd]; by apply verifiers_direct.
Qed.

Lemma update_realms_verifiers pw rd : verifiers_ok pw rd -> verifiers_ok pw (UpdateRealms rd).
Proof.
  intros Hv. unfold UpdateRealms. set (rd0 := synch rd). assert (verifiers_ok pw rd0) as Hv0 by (by apply verifiers_synch).
  cbv zeta. generalize (realmlist (db rd0)). intros rows. clearbody rd0. revert rd0 Hv0.
  induction rows as [|r rows IH]; intros rd0 Hv0; [done|]. cbn [foldl]. apply IH. case_match; [done|].
  by apply (verifiers_fields pw rd0).
Qed.

Lemma realm_list_verifiers pw rd so : verifiers_ok pw rd -> verifiers_ok pw (_HandleRealmList rd so).1.2.
Proof.
  intros Hv. unfold _HandleRealmList. case_match; [done|].
  assert (verifiers_ok pw (synch rd)) as Hv1 by (by apply verifiers_synch). destruct (SEL_ACCOUNT _ _) as [row|]; [|done].
  set (rd2 := UpdateIfNeed (synch rd)). assert (verifiers_ok pw rd2) as Hv2.
  { unfold rd2, UpdateIfNeed. case_match; [done|]. apply update_realms_verifiers. by apply (verifiers_fields pw (synch rd)). }
  assert (forall l acc, verifiers_ok pw acc.2 -> verifiers_ok pw (foldl (list_realm (acc_id row) (recv_skip 5 so)) acc l).2) as Hfold.
  { intros l. induction l as [|x l IH]; intros acc Hacc; [done|]. cbn [foldl]. apply IH.
    unfold list_realm. destruct acc as [[pkt k] rd3]. case_match; [|done]. by apply verifiers_synch. }
  pose proof (Hfold (realms_in_order rd2) ([], 0%nat, rd2) Hv2) as Hf. clearbody rd2.
  destruct (foldl _ _ _) as [[pkt k] rd3]. exact Hf.
Qed.

Lemma handler_verifiers pw cmd h rd so : find_handler cmd (_authed so) = Some h ->
  verifiers_ok pw rd -> verifiers_ok pw (h rd so).1.2.
Proof.
  intros [->|[[-> _]|[->|[[-> _]|[[-> Ha]|[->|[->| ->]]]]]]]%find_handler_cases Hv; try done.
  - by apply logon_challenge_verifiers.
  - by apply logon_proof_verifiers.
  - unfold _HandleReconnectChallenge. destruct (recv_challenge so) as [[ch|] so0]; [|done].
    assert (verifiers_ok pw (synch rd)) as Hv1 by (by apply verifiers_synch). destruct (SEL_ACCOUNT _ _); [|done].
    case_match; [done|]. by apply (verifiers_fields pw (synch rd)).
  - unfold _HandleReconnectProof. destruct (recv sizeof_reconnect so) as [[lp|] so0]; [|done]. by repeat case_match.
  - by apply realm_list_verifiers.
Qed.

Lemma serves_verifiers pw x y : rtc serves x y -> verifiers_ok pw x.1 -> verifiers_ok pw y.1.
Proof.
  induction 1 as [|x y z (cmd & h & ok & _ & Hf & Hh) _ IH]; [done|]. intros Hv. apply IH.
  pose proof (handler_verifiers pw cmd h x.1 x.2 Hf Hv) as Hv'. by rewrite Hh in Hv'.
Qed.

Lemma handle_input_serves bytes rd so : exists x so0,
  so0 = set_input (input so ++ take (4096 - recv_len so) bytes) so /\
  rtc serves (rd, so0) x /\ (closed so = true /\ handle_input bytes rd so = (rd, so) \/
    closed so = false /\ (handle_input bytes rd so).1 = x.1 /\
    ((handle_input bytes rd so).2 = x.2 \/ (handle_input bytes rd so).2 = shutdown x.2)).
Proof.
  unfold handle_input. set (so0 := set_input _ so). destruct (closed so).
  - exists (rd, so0), so0. split; [done|]. split; [constructor|by left].
  - destruct (OnRead_loop_serves (S (recv_len so0)) 0 rd so0) as (x & Hx & Hx1 & Hx2). exists x, so0. split; [done|]. split; [done|]. by right.
Qed.

Lemma net_step_verifiers pw n a : verifiers_ok pw (n_rd n) -> verifiers_ok pw (n_rd (net_step n a)).
Proof.
  intros Hv. destruct a as [c ip addr|c bytes|c|k|k]; cbn [net_step n_rd]; try done.
  - destruct (n_conns n !! c) as [so|]; [|done].
    destruct (handle_input_serves bytes (n_rd n) so) as (x & so0 & _ & Hx & [[_ ->]|(_ & Hx1 & _)]); [done|].
    destruct (handle_input bytes (n_rd n) so) as [rd so']. cbn in Hx1 |- *. subst rd. by apply (serves_verifiers pw (n_rd n, so0)).
  - by apply verifiers_work.
  - destruct Hv as [Hr Hp]. by constructor.
Qed.

(** C14: The stored verifiers are always those of the passwords: whatever clients
    send and in whatever order statements run, the columns [v] and [s] of an
    account are either not used, or are what its password and its salt give. *)
Theorem verifiers_stay pw l n : verifiers_ok pw (n_rd n) -> verifiers_ok pw (n_rd (net_run l n)).
Proof.
  revert n. induction l as [|a l IH]; intros n Hv; [done|]. cbn. apply IH. by apply net_step_verifiers.
Qed.

(** ** Who is logged in *)

(** A connection was served a proof in some state of the run. *)
Definition has_proved (n : Net) (l : list NetAction) (c : Z) : Prop :=
  exists l1 bytes l2 so rd so1, l = l1 ++ Receive c bytes :: l2 /\ n_conns (net_run l1 n) !! c = Some so /\
    rtc serves (n_rd (net_run l1 n), set_input (input so ++ take (4096 - recv_len so) bytes) so) (rd, so1) /\
    _authed so1 = false /\ proof_at_hand so1.

Lemma net_step_authed n a c so' : n_conns (net_step n a) !! c = Some so' -> _authed so' = true ->
  (exists so, n_conns n !! c = Some so /\ _authed so = true) \/ has_proved n [a] c.
Proof.
  intros Hc Ha. destruct a as [d ip addr|d bytes|d|k|k]; cbn [net_step n_conns] in Hc; [| | |by left; exists so'..].
  - apply lookup_insert_Some in Hc as [[<- <-]|[? ?]]; [done|by left; exists so'].
  - destruct (n_conns n !! d) as [so|] eqn:Hd; [|by left; exists so'].
    destruct (handle_input_serves bytes (n_rd n) so) as (x & so0 & Hso0 & Hx & Hcase).
    destruct (handle_input bytes (n_rd n) so) as [rd1 so2] eqn:Hin.
    cbn [n_conns] in Hc. apply lookup_insert_Some in Hc as [[-> ->]|[? ?]]; [|by left; exists so'].
    destruct (_authed so) eqn:Haso; [by left; exists so|right].
    destruct Hcase as [[_ [= _ ->]]|(_ & _ & Hx2)]; [congruence|].
    destruct (serves_authed (n_rd n, so0) x Hx) as ([rd3 so3] & Hz & Hza & Hp).
    { cbn. by rewrite Hso0. }
    { destruct Hx2 as [Hx2|Hx2]; cbn in Hx2; by rewrite Hx2 in Ha. }
    exists [], bytes, [], so, rd3, so3. rewrite <- Hso0. done.
  - apply lookup_delete_Some in Hc as [_ Hc]. by left; exists so'.
Qed.

Lemma has_proved_cons n a l c : has_proved (net_step n a) l c -> has_proved n (a :: l) c.
Proof. intros (l1 & bytes & l2 & so & rd & so1 & -> & Hrest). by exists (a :: l1), bytes, l2, so, rd, so1. Qed.

(** C13: A connection that is logged in has shown a proof: on a server that starts
    without connections, one of the commands it sent was a logon proof or a
    reconnect proof that was right for what the connection then held. *)
Theorem logged_in_has_proved l rd c so :
  n_conns (net_run l (mkNet rd ∅)) !! c = Some so -> _authed so = true -> has_proved (mkNet rd ∅) l c.
Proof.
  assert (forall l n so, n_conns (net_run l n) !! c = Some so -> _authed so = true ->
    (exists so0, n_conns n !! c = Some so0 /\ _authed so0 = true) \/ has_proved n l c) as Hgen.
  { clear l rd so. intros l. induction l as [|a l IH]; intros n so Hc Ha; [by left; exists so|].
    cbn in Hc. destruct (IH _ _ Hc Ha) as [(so0 & Hc0 & Ha0)|Hp]; [|right; by apply has_proved_cons].
    destruct (net_step_authed n a c so0 Hc0 Ha0) as [?|Hp]; [by left|right].
    destruct Hp as (l1 & bytes & l2 & s & rd & s1 & Hl & Hrest). exists l1, bytes, (l2 ++ l), s, rd, s1.
    split; [|done]. change (a :: l) with ([a] ++ l). by rewrite Hl, <- app_assoc. }
  intros Hc Ha. destruct (Hgen l _ _ Hc Ha) as [(so0 & Hso0 & _)|]; [|done]. cbn [n_conns] in Hso0. by rewrite lookup_empty in Hso0.
Qed.

End Net.
