(* ===== verification/AuthTokens.v ===== *)
(** * Tokens

    Authentication/TOTP.cpp against its specifications: [base32_decode] cuts the
    bits of the digits into bytes (RFC 4648), and never writes behind its
    buffer; [GenerateToken] is the truncation of RFC 4226 to six digits. *)
From S2P Require Import Prelude.
From S2P Require Import Util.
From S2P Require Import BigNumber.
Local Open Scope Z_scope.

(** ** Bits *)

Lemma lor_low n x y : 0 <= n -> x mod 2 ^ n = 0 -> 0 <= y < 2 ^ n -> Z.lor x y = x + y.
Proof.
  intros Hn Hx Hy. rewrite <- Z.lxor_lor, <- Z.add_nocarry_lxor; [done|..];
    (apply Z.bits_inj'; intros i Hi; rewrite Z.land_spec, Z.bits_0; destruct (Z.lt_ge_cases i n);
     [rewrite <- (Z.mod_pow2_bits_low x n), Hx, Z.bits_0 by lia; done|rewrite (bound_bits y n) by lia; apply andb_false_r]).
Qed.

Lemma s32_cong z : s32 z mod 2 ^ 32 = z mod 2 ^ 32.
Proof. unfold s32. rewrite Zminus_mod, Z.mod_mod, <- Zminus_mod by lia. f_equal. lia. Qed.

(** A congruence modulo a power of two passes to smaller powers. *)
Lemma mod_pow2_le a b m n : 0 <= n <= m -> a mod 2 ^ m = b mod 2 ^ m -> a mod 2 ^ n = b mod 2 ^ n.
Proof.
  intros Hn Hab. replace m with (n + (m - n)) in Hab by lia. rewrite Z.pow_add_r in Hab by lia.
  assert (0 < 2 ^ n /\ 0 < 2 ^ (m - n)) as [? ?] by (split; apply Z.pow_pos_nonneg; lia).
  rewrite !Z.rem_mul_r in Hab by lia.
  assert (forall x k, (x mod 2 ^ n + 2 ^ n * k) mod 2 ^ n = x mod 2 ^ n) as Hr.
  { intros x k. rewrite (Z.mul_comm (2 ^ n)), Z.mod_add, Z.mod_mod by lia. done. }
  by rewrite <- (Hr a (a / 2 ^ n mod 2 ^ (m - n))), Hab, Hr.
Qed.

(** ** base32 *)

(** The digits of a text without bad characters *)
Fixpoint base32_digits (encoded : text) : option (list Z) :=
  match encoded with
  | [] => Some []
  | ch :: rest =>
      if ch =? 0 then None
      else if base32_skipped ch then base32_digits rest
      else d ← base32_digit ch; ds ← base32_digits rest; Some (d :: ds)
  end.
(** All digits as one number, first digit highest; byte [i] of its bits *)
Definition digits_number (ds : list Z) : Z := foldl (fun a d => 32 * a + d) 0 ds.
Definition bits_byte (ds : list Z) (i : nat) : Z :=
  digits_number ds / 2 ^ (5 * Z.of_nat (length ds) - 8 * (Z.of_nat i + 1)) mod 256.
Definition base32_bytes (ds : list Z) (bufSize : nat) : list Z := bits_byte ds <$> seq 0 (Nat.min bufSize (5 * length ds / 8)).

Lemma base32_digit_range ch d : base32_digit ch = Some d -> 0 <= d < 32.
Proof.
  unfold base32_digit. cbv zeta. set (c := if ch =? 48 then _ else _). clearbody c.
  case_match eqn:E1; [|case_match; [|done]]; intros [= <-].
  - apply orb_true_iff in E1. rewrite !andb_true_iff, !Z.leb_le in E1.
    change 31 with (Z.ones 5). rewrite Z.land_ones by lia.
    assert (c mod 2 ^ 5 <> 0); [|pose proof (Z.mod_pos_bound c (2 ^ 5)); lia].
    intros H0. apply Z.mod_divide in H0 as [k Hk]; lia.
  - apply andb_true_iff in H as [?%Z.leb_le ?%Z.leb_le]. lia.
Qed.

Lemma digits_number_snoc ds d : digits_number (ds ++ [d]) = 32 * digits_number ds + d.
Proof. unfold digits_number. by rewrite foldl_app. Qed.

(** More digits do not change the bytes that are complete. *)
Lemma bits_byte_snoc ds d i : 0 <= d < 32 -> 8 * (Z.of_nat i + 1) <= 5 * Z.of_nat (length ds) ->
  bits_byte (ds ++ [d]) i = bits_byte ds i.
Proof.
  intros Hd Hi. unfold bits_byte. rewrite digits_number_snoc, length_app. cbn [length].
  set (k := 5 * Z.of_nat (length ds) - 8 * (Z.of_nat i + 1)).
  replace (5 * Z.of_nat (length ds + 1) - 8 * (Z.of_nat i + 1)) with (5 + k) by lia.
  rewrite Z.pow_add_r, <- Z.div_div by (try apply Z.pow_nonzero; try apply Z.pow_pos_nonneg; lia).
  change (2 ^ 5) with 32. rewrite (Z.mul_comm 32), Z.div_add_l, (Z.div_small d), Z.add_0_r by lia. done.
Qed.

Lemma base32_bytes_snoc ds d n : 0 <= d < 32 -> (8 * n <= 5 * length ds)%nat ->
  bits_byte (ds ++ [d]) <$> seq 0 n = bits_byte ds <$> seq 0 n.
Proof.
  intros Hd Hn. apply list_fmap_ext. intros i x [-> Hi]%lookup_seq. apply bits_byte_snoc; [done|lia].
Qed.
Lemma base32_bytes_app ds es n : Forall (fun d => 0 <= d < 32) es -> (8 * n <= 5 * length ds)%nat ->
  bits_byte (ds ++ es) <$> seq 0 n = bits_byte ds <$> seq 0 n.
Proof.
  intros Hes. revert ds. induction Hes as [|e es He _ IH]; intros ds Hn; [by rewrite app_nil_r|].
  rewrite cons_middle, app_assoc, IH by (rewrite length_app; lia). by apply base32_bytes_snoc.
Qed.

Lemma base32_digits_range encoded ds : base32_digits encoded = Some ds -> Forall (fun d => 0 <= d < 32) ds.
Proof.
  revert ds. induction encoded as [|ch rest IH]; intros ds; cbn [base32_digits]; [by intros [= <-]|].
  case_match; [done|]. case_match; [auto|].
  intros (d & Hd & (ds' & Hds & [= <-])%bind_Some)%bind_Some. constructor; [by eapply base32_digit_range|auto].
Qed.

(** The loop: [ds] are the digits read so far. *)
Lemma base32_loop_spec bufSize encoded es ds buffer :
  base32_digits encoded = Some es -> buffer mod 2 ^ 32 = digits_number ds mod 2 ^ 32 ->
  let done_ := Nat.min bufSize (5 * length ds / 8) in
  base32_loop bufSize encoded buffer (Z.of_nat (5 * length ds mod 8)) (bits_byte ds <$> seq 0 done_) =
    (true, base32_bytes (ds ++ es) bufSize).
Proof.
  revert es ds buffer. induction encoded as [|ch rest IH]; intros es ds buffer Hes Hbuf done_.
  all: assert (length (bits_byte ds <$> seq 0 done_) = done_) as Hlen by (by rewrite length_fmap, length_seq).
  all: pose proof (Nat.div_mod_eq (5 * length ds) 8) as Hdm; pose proof (Nat.mod_upper_bound (5 * length ds) 8 ltac:(lia)) as Hmod.
  all: pose proof (base32_digits_range _ _ Hes) as Hrange.
  all: cbn [base32_loop]; rewrite Hlen.
  { cbn in Hes. injection Hes as <-. rewrite app_nil_r. unfold base32_bytes. by case_match. }
  destruct (Nat.ltb_spec done_ bufSize) as [Hlt|Hge].
  2: { assert (done_ = bufSize) as Hd by lia. unfold base32_bytes. rewrite length_app.
       assert (5 * length ds / 8 <= 5 * (length ds + length es) / 8)%nat by (apply Nat.Div0.div_le_mono; lia).
       replace (Nat.min bufSize (5 * (length ds + length es) / 8)) with done_ by lia.
       rewrite base32_bytes_app; [done|done|]. lia. }
  assert (done_ = 5 * length ds / 8)%nat as Hdone by lia.
  cbn [base32_digits] in Hes. destruct (ch =? 0); [done|]. destruct (base32_skipped ch); [by apply IH|].
  apply bind_Some in Hes as (d & Hd & (es' & Hes & [= <-])%bind_Some). rewrite Hd.
  pose proof (base32_digit_range _ _ Hd) as Hdr.
  set (buffer' := Z.lor (s32 (Z.shiftl buffer 5)) d).
  assert (buffer' mod 2 ^ 32 = digits_number (ds ++ [d]) mod 2 ^ 32) as Hbuf'.
  { unfold buffer'. rewrite Z.shiftl_mul_pow2 by lia. rewrite (lor_low 5) by (try lia; rewrite (mod_pow2_le _ (buffer * 2 ^ 5) 32), Z.mod_mul by (lia || apply s32_cong); lia).
    rewrite Zplus_mod, s32_cong, <- Zplus_mod, digits_number_snoc. change (2 ^ 5) with 32.
    rewrite Zplus_mod, (Zmult_mod buffer), Hbuf, <- Zmult_mod, <- Zplus_mod. f_equal. lia. }
  rewrite (cons_middle d ds es'), app_assoc.
  assert (length (ds ++ [d]) = S (length ds)) as Hl by (rewrite length_app; cbn; lia).
  destruct (Z.leb_spec 8 (Z.of_nat (5 * length ds mod 8) + 5)) as [Hfull|Hpart].
  - assert (5 * S (length ds) / 8 = S done_ /\ 5 * S (length ds) mod 8 = 5 * length ds mod 8 + 5 - 8)%nat as [Hq Hr].
    { rewrite Hdone. split; [symmetry; apply (Nat.div_unique _ 8 _ (5 * length ds mod 8 + 5 - 8)); lia|].
      symmetry. apply (Nat.mod_unique _ 8 (S (5 * length ds / 8))); lia. }
    replace (Z.of_nat (5 * length ds mod 8) + 5 - 8) with (Z.of_nat (5 * length (ds ++ [d]) mod 8)) by (rewrite Hl, Hr; lia).
    assert ((bits_byte ds <$> seq 0 done_) ++ [u8 (Z.shiftr buffer' (Z.of_nat (5 * length (ds ++ [d]) mod 8)))] =
      bits_byte (ds ++ [d]) <$> seq 0 (Nat.min bufSize (5 * length (ds ++ [d]) / 8))) as ->; [|by apply IH].
    rewrite Hl, Hq, Hr. replace (Nat.min bufSize (S done_)) with (S done_) by lia.
    rewrite seq_S, fmap_app, base32_bytes_snoc by lia. f_equal. cbn [fmap list_fmap Nat.add]. f_equal.
    unfold bits_byte, u8. rewrite Hl, Z.shiftr_div_pow2 by lia. change 256 with (2 ^ 8).
    replace (5 * Z.of_nat (S (length ds)) - 8 * (Z.of_nat done_ + 1)) with (Z.of_nat (5 * length ds mod 8 + 5 - 8)) by lia.
    set (k := Z.of_nat (5 * length ds mod 8 + 5 - 8)).
    rewrite <- !Z.shiftr_div_pow2 by lia. apply Z.bits_inj'. intros i Hi.
    destruct (Z.lt_ge_cases i 8); [|by rewrite !Z.mod_pow2_bits_high by lia].
    rewrite !Z.mod_pow2_bits_low, !Z.shiftr_spec by lia.
    rewrite <- (Z.mod_pow2_bits_low buffer' 32), Hbuf', Z.mod_pow2_bits_low by lia. done.
  - assert (5 * S (length ds) / 8 = done_ /\ 5 * S (length ds) mod 8 = 5 * length ds mod 8 + 5)%nat as [Hq Hr].
    { rewrite Hdone. split; [symmetry; apply (Nat.div_unique _ 8 _ (5 * length ds mod 8 + 5)); lia|].
      symmetry. apply (Nat.mod_unique _ 8 (5 * length ds / 8)); lia. }
    replace (Z.of_nat (5 * length ds mod 8) + 5) with (Z.of_nat (5 * length (ds ++ [d]) mod 8)) by (rewrite Hl, Hr; lia).
    replace (bits_byte ds <$> seq 0 done_) with (bits_byte (ds ++ [d]) <$> seq 0 (Nat.min bufSize (5 * length (ds ++ [d]) / 8)));
      [by apply IH|].
    rewrite Hl, Hq. replace (Nat.min bufSize done_) with done_ by lia. apply base32_bytes_snoc; [done|lia].
Qed.

(** C34: [base32_decode] gives the bytes that the bits of the digits make, as many
    as are complete and fit; the 32-bit buffer overflows and loses nothing. *)
Theorem base32_decode_spec encoded ds bufSize :
  base32_digits encoded = Some ds -> base32_decode encoded bufSize = (true, base32_bytes ds bufSize).
Proof.
  intros Hds. pose proof (base32_loop_spec bufSize encoded ds [] 0 Hds eq_refl) as Hs. cbv zeta in Hs.
  change (5 * length (@nil Z) / 8)%nat with 0%nat in Hs. rewrite Nat.min_0_r in Hs. exact Hs.
Qed.

(** Whatever the text is, no byte is written behind the buffer. *)
Lemma base32_in_bounds encoded bufSize : (length (base32_decode encoded bufSize).2 <= bufSize)%nat.
Proof.
  assert (forall result buffer bitsLeft, (length result <= bufSize)%nat ->
    (length (base32_loop bufSize encoded buffer bitsLeft result).2 <= bufSize)%nat) as Hgen; [|apply Hgen; cbn; lia].
  induction encoded as [|ch rest IH]; intros result buffer bitsLeft Hle; cbn [base32_loop].
  - by case_match.
  - destruct (Nat.ltb_spec (length result) bufSize); [|done].
    case_match; [done|]. case_match; [by apply IH|]. case_match; [|done].
    case_match; apply IH; [rewrite length_app; cbn; lia|done].
Qed.

(** ** Six digits *)

Section Tokens.
Context `{OpenSSLLaws}.

(** The key a token is made with: the decoded bytes, and zeros up to the size of
    the buffer *)
Definition token_key_bytes (b32key : text) : list Z :=
  let bufsize := ((length b32key + 7) / 8 * 5)%nat in
  let written := (base32_decode b32key bufsize).2 in
  written ++ replicate (bufsize - length written) 0.

(** The token is the dynamic truncation of the HMAC of the number of half
    minutes, to six decimal digits. *)
Theorem token_is_truncation now b32key :
  let h := HMAC_SHA1 (token_key_bytes b32key) (reverse (le_bytes 8 (now / 30))) in
  exists last b0 b1 b2 b3,
    h !! 19%nat = Some last /\
    (let offset := Z.to_nat (last mod 16) in
     h !! offset = Some b0 /\ h !! (offset + 1)%nat = Some b1 /\ h !! (offset + 2)%nat = Some b2 /\ h !! (offset + 3)%nat = Some b3) /\
    GenerateToken now b32key = (((b0 * 256 + b1) * 256 + b2) * 256 + b3) mod 2 ^ 31 mod 1000000.
Proof.
  intros h. unfold GenerateToken. fold (token_key_bytes b32key). fold h.
  destruct (HMAC_SHA1_spec (token_key_bytes b32key) (reverse (le_bytes 8 (now / 30)))) as [Hl Hb]. fold h in Hl, Hb.
  assert (forall i, (i < 20)%nat -> exists b, h !! i = Some b /\ is_byte b /\ nth i h 0 = b) as Hget.
  { intros i Hi. destruct (lookup_lt_is_Some_2 h i) as [b Hbi]; [lia|]. exists b.
    split_and!; [done|by eapply Forall_lookup_1|by apply nth_lookup_Some]. }
  destruct (Hget 19%nat) as (la & Hla & Hbla & ->); [lia|]. unfold is_byte in Hbla.
  change 15 with (Z.ones 4). rewrite Z.land_ones by lia. change (2 ^ 4) with 16.
  assert (Z.to_nat (la mod 16) < 16)%nat as Hoff by (pose proof (Z.mod_pos_bound la 16); lia).
  set (offset := Z.to_nat (la mod 16)) in *.
  destruct (Hget offset) as (b0 & Hl0 & Hb0 & ->); [lia|]. destruct (Hget (offset + 1)%nat) as (b1 & Hl1 & Hb1 & ->); [lia|].
  destruct (Hget (offset + 2)%nat) as (b2 & Hl2 & Hb2 & ->); [lia|]. destruct (Hget (offset + 3)%nat) as (b3 & Hl3 & Hb3 & ->); [lia|].
  exists la, b0, b1, b2, b3. split; [done|]. split; [done|]. unfold is_byte in *.
  change 2147483647 with (Z.ones 31). rewrite Z.land_ones by lia. f_equal.
  rewrite !Z.shiftl_mul_pow2 by lia.
  assert (s32 (b0 * 2 ^ 24) mod 2 ^ 24 = 0) as Hs by (rewrite (mod_pow2_le _ (b0 * 2 ^ 24) 32), Z.mod_mul by (lia || apply s32_cong); lia).
  set (x := s32 (b0 * 2 ^ 24)) in *.
  assert (forall a b m, a mod 2 ^ 24 = 0 -> 0 <= m <= 24 -> (a + b) mod 2 ^ m = b mod 2 ^ m) as Hlow.
  { intros a b m Ha Hm. rewrite Zplus_mod, (mod_pow2_le a 0 24 m) by (lia || by rewrite Ha, Z.mod_0_l by lia).
    by rewrite Z.mod_0_l, Z.add_0_l, Z.mod_mod by (apply Z.pow_nonzero; lia). }
  rewrite (lor_low 24 x) by lia.
  assert ((x + b1 * 2 ^ 16) mod 2 ^ 16 = 0) as H16 by (rewrite Hlow, Z.mod_mul by lia; lia).
  rewrite (lor_low 16 (x + b1 * 2 ^ 16)) by lia.
  assert ((x + b1 * 2 ^ 16 + b2 * 2 ^ 8) mod 2 ^ 8 = 0) as H8.
  { rewrite <- Z.add_assoc, Hlow by lia. replace (b1 * 2 ^ 16 + b2 * 2 ^ 8) with ((b1 * 2 ^ 8 + b2) * 2 ^ 8) by lia. by rewrite Z.mod_mul by lia. }
  rewrite (lor_low 8) by lia.
  rewrite <- !Z.add_assoc, Zplus_mod, (mod_pow2_le x (b0 * 2 ^ 24) 32), <- Zplus_mod by (lia || apply s32_cong).
  f_equal. lia.
Qed.

Lemma token_range now b32key : 0 <= GenerateToken now b32key < 1000000.
Proof. unfold GenerateToken. apply Z.mod_pos_bound. lia. Qed.
End Tokens.
