(* ===== verification/WorldSocket.v ===== *)
(** * World sockets

    game/Server/WorldSocket.cpp: how the bytes of a client become packets, the
    packets that are handled at once (the check of the session key, pings), and
    what is sent.  The session key is the one the authentication server stored:
    the tables are those of [LoginDB].  During one call the tables do not
    change.  The session is kept in the socket that created it. *)
From S2P Require Import Prelude.
From S2P Require Import ByteBuffer.
From S2P Require Import Util.
From S2P Require Import BigNumber.
From S2P Require Import AuthSocket.
From S2P Require Import Rbac.
Local Open Scope Z_scope.

Definition AUTH_FAILED : Z := 13.
Definition AUTH_REJECT : Z := 14.
Definition AUTH_UNAVAILABLE : Z := 16.
Definition AUTH_UNKNOWN_ACCOUNT : Z := 21.
Definition AUTH_BANNED : Z := 28.
Definition MAX_OPCODE : Z := 8191.
Definition NUM_OPCODE_HANDLERS : Z := 32767.
(** The numbers of the opcodes that are handled at once or sent *)
Definition CMSG_PING : Z := 18.
Definition CMSG_AUTH_SESSION : Z := 178.
Definition CMSG_LOG_DISCONNECT : Z := 4275.
Definition MSG_VERIFY_CONNECTIVITY : Z := 20311.
Definition SMSG_AUTH_CHALLENGE : Z := 2377.
Definition SMSG_AUTH_RESPONSE : Z := 2746.
Definition SMSG_PONG : Z := 6505.
Definition TOTAL_LOCALES : Z := 12.
Definition RBAC_PERM_SKIP_CHECK_OVERSPEED_PING : Z := 23.

Record WorldSession := mkWSession {
  session_id : Z;
  session_security : Z;
  session_expansion : Z;
  session_mutetime : Z;
  session_locale : Z;
  session_recruiter : Z;
  session_isRecruiter : bool;
  m_latency : Z;
  m_clientTimeDelay : Z;
  m_timeOutTime : Z;
  _recvQueue : list (Z * list Z)  (* opcodes and contents *)
}.
Definition set_m_latency (x : Z) (r : WorldSession) : WorldSession :=
  mkWSession (session_id r) (session_security r) (session_expansion r) (session_mutetime r) (session_locale r)
    (session_recruiter r) (session_isRecruiter r) x (m_clientTimeDelay r) (m_timeOutTime r) (_recvQueue r).
Definition set_m_clientTimeDelay (x : Z) (r : WorldSession) : WorldSession :=
  mkWSession (session_id r) (session_security r) (session_expansion r) (session_mutetime r) (session_locale r)
    (session_recruiter r) (session_isRecruiter r) (m_latency r) x (m_timeOutTime r) (_recvQueue r).
Definition set_m_timeOutTime (x : Z) (r : WorldSession) : WorldSession :=
  mkWSession (session_id r) (session_security r) (session_expansion r) (session_mutetime r) (session_locale r)
    (session_recruiter r) (session_isRecruiter r) (m_latency r) (m_clientTimeDelay r) x (_recvQueue r).
Definition set__recvQueue (x : list (Z * list Z)) (r : WorldSession) : WorldSession :=
  mkWSession (session_id r) (session_security r) (session_expansion r) (session_mutetime r) (session_locale r)
    (session_recruiter r) (session_isRecruiter r) (m_latency r) (m_clientTimeDelay r) (m_timeOutTime r) x.
Record WorldSocket := mkWSocket {
  m_Address : text;
  m_Seed : Z;
  m_Crypt : option (Z * nat * nat);  (* the key; bytes decrypted and encrypted so far *)
  m_Session : option WorldSession;
  m_Header : list Z;  (* of the header not encrypted *)
  m_WorldHeader : list Z;  (* of the encrypted header *)
  m_RecvWPct : option (Z * nat);  (* opcode number and size of the packet *)
  m_RecvPct : list Z;  (* its bytes so far *)
  m_LastPingTime : Z;  (* 0 before the first ping *)
  m_OverSpeedPings : Z;
  closing_ : bool;
  out : list Z  (* bytes sent *)
}.
Definition set_m_Crypt (x : option (Z * nat * nat)) (r : WorldSocket) : WorldSocket :=
  mkWSocket (m_Address r) (m_Seed r) x (m_Session r) (m_Header r) (m_WorldHeader r) (m_RecvWPct r) (m_RecvPct
    r) (m_LastPingTime r) (m_OverSpeedPings r) (closing_ r) (out r).
Definition set_m_Session (x : option WorldSession) (r : WorldSocket) : WorldSocket :=
  mkWSocket (m_Address r) (m_Seed r) (m_Crypt r) x (m_Header r) (m_WorldHeader r) (m_RecvWPct r) (m_RecvPct r)
    (m_LastPingTime r) (m_OverSpeedPings r) (closing_ r) (out r).
Definition set_m_Header (x : list Z) (r : WorldSocket) : WorldSocket :=
  mkWSocket (m_Address r) (m_Seed r) (m_Crypt r) (m_Session r) x (m_WorldHeader r) (m_RecvWPct r) (m_RecvPct
    r) (m_LastPingTime r) (m_OverSpeedPings r) (closing_ r) (out r).
Definition set_m_WorldHeader (x : list Z) (r : WorldSocket) : WorldSocket :=
  mkWSocket (m_Address r) (m_Seed r) (m_Crypt r) (m_Session r) (m_Header r) x (m_RecvWPct r) (m_RecvPct r)
    (m_LastPingTime r) (m_OverSpeedPings r) (closing_ r) (out r).
Definition set_m_RecvWPct (x : option (Z * nat)) (r : WorldSocket) : WorldSocket :=
  mkWSocket (m_Address r) (m_Seed r) (m_Crypt r) (m_Session r) (m_Header r) (m_WorldHeader r) x (m_RecvPct r)
    (m_LastPingTime r) (m_OverSpeedPings r) (closing_ r) (out r).
Definition set_m_RecvPct (x : list Z) (r : WorldSocket) : WorldSocket :=
  mkWSocket (m_Address r) (m_Seed r) (m_Crypt r) (m_Session r) (m_Header r) (m_WorldHeader r) (m_RecvWPct r) x
    (m_LastPingTime r) (m_OverSpeedPings r) (closing_ r) (out r).
Definition set_m_LastPingTime (x : Z) (r : WorldSocket) : WorldSocket :=
  mkWSocket (m_Address r) (m_Seed r) (m_Crypt r) (m_Session r) (m_Header r) (m_WorldHeader r) (m_RecvWPct r)
    (m_RecvPct r) x (m_OverSpeedPings r) (closing_ r) (out r).
Definition set_m_OverSpeedPings (x : Z) (r : WorldSocket) : WorldSocket :=
  mkWSocket (m_Address r) (m_Seed r) (m_Crypt r) (m_Session r) (m_Header r) (m_WorldHeader r) (m_RecvWPct r)
    (m_RecvPct r) (m_LastPingTime r) x (closing_ r) (out r).
Definition set_closing_ (x : bool) (r : WorldSocket) : WorldSocket :=
  mkWSocket (m_Address r) (m_Seed r) (m_Crypt r) (m_Session r) (m_Header r) (m_WorldHeader r) (m_RecvWPct r)
    (m_RecvPct r) (m_LastPingTime r) (m_OverSpeedPings r) x (out r).
Definition set_out (x : list Z) (r : WorldSocket) : WorldSocket :=
  mkWSocket (m_Address r) (m_Seed r) (m_Crypt r) (m_Session r) (m_Header r) (m_WorldHeader r) (m_RecvWPct r)
    (m_RecvPct r) (m_LastPingTime r) (m_OverSpeedPings r) (closing_ r) x.
(** What sockets share *)
Record WorldProc := mkWorldProc {
  w_db : LoginDB;
  w_pending : list Statement;
  w_time : Z;  (* microseconds *)
  w_sessions : list Z  (* accounts given to AddSession *)
}.
Definition set_w_pending (x : list Statement) (r : WorldProc) : WorldProc :=
  mkWorldProc (w_db r) x (w_time r) (w_sessions r).
Definition set_w_sessions (x : list Z) (r : WorldProc) : WorldProc :=
  mkWorldProc (w_db r) (w_pending r) (w_time r) x.

(** The configuration, the table of opcodes, and RC4 *)
Class WorldConf := {
  world_closed : bool;
  CONFIG_EXPANSION : Z;
  CONFIG_WARDEN_ENABLED : bool;
  CONFIG_MAX_OVERSPEED_PINGS : Z;
  CONFIG_SOCKET_TIMEOUTTIME : Z;
  realmID : Z;
  GetPlayerSecurityLimit : Z;
  opcode_handled : Z -> bool;       (* a handler that is not STATUS_UNHANDLED *)
  rc4_stream : list Z -> nat -> Z   (* by key and position *)
}.

Section WorldServer.
Context `{OpenSSL} `{AuthWorld} `{WorldConf} `{Permissions WorldSession}.

(** ** Encryption of headers *)

Definition ServerEncryptionKey : list Z := [8; 241; 149; 159; 71; 229; 210; 219; 161; 61; 119; 143; 63; 62; 231; 0].
Definition ServerDecryptionKey : list Z := [64; 170; 211; 146; 38; 113; 67; 71; 58; 49; 8; 166; 231; 220; 152; 42].
Definition ARC4_UpdateData (key : list Z) (pos : nat) (data : list Z) : list Z :=
  zip_with Z.lxor data (rc4_stream key <$> seq pos (length data)).
(** [AuthCrypt::Init]: the first 1024 bytes are dropped. *)
Definition AuthCrypt_Init (K : Z) : option (Z * nat * nat) := Some (K, 1024%nat, 1024%nat).
Definition clientDecrypt (K : Z) (pos : nat) (data : list Z) : list Z :=
  ARC4_UpdateData (HMAC_SHA1 ServerDecryptionKey (AsByteArray 0 K)) pos data.
Definition serverEncrypt (K : Z) (pos : nat) (data : list Z) : list Z :=
  ARC4_UpdateData (HMAC_SHA1 ServerEncryptionKey (AsByteArray 0 K)) pos data.

(** ** Sending *)

(** [ServerPktHeader] and [SendPacket]; the first component is the result. *)
Definition SendPacket (opcodeNumber : Z) (contents : list Z) (so : WorldSocket) : Z * WorldSocket :=
  if closing_ so then (-1, so)
  else
    let size := Z.of_nat (length contents) in
    match m_Crypt so with
    | Some (K, dpos, epos) =>
        let data := u32 (Z.lor (Z.shiftl size 13) (Z.land opcodeNumber MAX_OPCODE)) in
        let so := set_out (out so ++ serverEncrypt K epos (le_bytes 4 data) ++ contents) so in
        (0, set_m_Crypt (Some (K, dpos, (epos + 4)%nat)) so)
    | None => (0, set_out (out so ++ le_bytes 2 (size + 2) ++ le_bytes 2 opcodeNumber ++ contents) so)
    end.
(** Two bits that are zero are flushed before the code. *)
Definition SendAuthResponseError (code : Z) (so : WorldSocket) : WorldSocket :=
  (SendPacket SMSG_AUTH_RESPONSE [0; code] so).2.
Definition HandleSendAuthSession (so : WorldSocket) : Z * WorldSocket :=
  SendPacket SMSG_AUTH_CHALLENGE (le_bytes 2 0 ++ replicate 32 0 ++ [1] ++ le_bytes 4 (m_Seed so)) so.

(** ** The check of the session key *)

Record AuthSessionPacket := mkAuthSession {
  as_digest : list Z;
  as_clientSeed : Z;
  as_clientBuild : Z;
  as_addons : list Z;
  as_account : text
}.
Definition read_auth_session : BB AuthSessionPacket :=
  read_skip 4;; read_skip 4;;
  d18 ← read 1; d14 ← read 1; d3 ← read 1; d4 ← read 1; d0 ← read 1;
  read_skip 4;;
  d11 ← read 1; clientSeed ← read 4; d19 ← read 1;
  read_skip 1;; read_skip 1;;
  d2 ← read 1; d9 ← read 1; d12 ← read 1;
  read_skip 8;; read_skip 4;;
  d16 ← read 1; d5 ← read 1; d6 ← read 1; d8 ← read 1;
  clientBuild ← read 2;
  d17 ← read 1; d7 ← read 1; d13 ← read 1; d15 ← read 1; d1 ← read 1; d10 ← read 1;
  addonSize ← read 4; addons ← read_bytes (Z.to_nat addonSize);
  ReadBit;;
  accountNameLength ← ReadBits 11;
  account ← ReadString (Z.to_nat accountNameLength);
  mret (mkAuthSession [d0; d1; d2; d3; d4; d5; d6; d7; d8; d9; d10; d11; d12; d13; d14; d15; d16; d17; d18; d19]
                      clientSeed clientBuild addons account).

(** The statements *)
Definition SEL_GMLEVEL_BY_REALMID (id : Z) (d : LoginDB) : Z :=
  match find (fun r => (r.1.1 =? id) && ((r.2 =? realmID) || (r.2 =? -1))) (account_access d) with
  | Some r => u8 r.1.2
  | None => 0
  end.
Definition SEL_BANS (id : Z) (ip : text) (d : LoginDB) : bool :=
  existsb (fun r => (ban_id r =? id) && active r) (account_banned d) || SEL_IP_BANNED ip d.
Definition SEL_ACCOUNT_RECRUITER (id : Z) (d : LoginDB) : bool :=
  existsb (fun p => recruiter p.2 =? id) (map_to_list (accounts d)).
Definition session_digest (account : text) (clientSeed seed K : Z) : list Z :=
  Finalize (UpdateBigNumbers [K] (UpdateData (le_bytes 4 seed) (UpdateData (le_bytes 4 clientSeed)
    (UpdateData (le_bytes 4 0) (UpdateData account new_sha))))).
Definition os_Win : text := [87; 105; 110].
Definition os_OSX : text := [79; 83; 88].

(** A client that is turned away *)
Definition deny (code : Z) (w : WorldProc) (so : WorldSocket) : Z * WorldProc * WorldSocket :=
  (-1, w, SendAuthResponseError code so).
(** From the answer to the account on *)
Definition check_session (p : AuthSessionPacket) (row : Account) (w : WorldProc) (so : WorldSocket) : Z * WorldProc * WorldSocket :=
  let d := w_db w in
  let exp := if CONFIG_EXPANSION <? u8 (expansion row) then u8 CONFIG_EXPANSION else u8 (expansion row) in
  if (u8 (locked row) =? 1) && negb (bool_decide (last_ip row = m_Address so)) then deny AUTH_FAILED w so
  else
    let id := acc_id row in
    let k := SetHexStr 0 (sessionkey row) in
    let now := w_time w / 1000000 in
    let '(mute, w) :=
      if mutetime row <? 0 then
        let mute := now + Z.abs (mutetime row) in (mute, set_w_pending (w_pending w ++ [LOGIN_UPD_MUTE_TIME_LOGIN mute id]) w)
      else (mutetime row, w) in
    let loc := if TOTAL_LOCALES <=? u8 (locale row) then 0 else u8 (locale row) in
    if CONFIG_WARDEN_ENABLED && negb (bool_decide (acc_os row = os_Win)) && negb (bool_decide (acc_os row = os_OSX))
    then deny AUTH_REJECT w so
    else
      let security := SEL_GMLEVEL_BY_REALMID id d in
      if SEL_BANS id (m_Address so) d then deny AUTH_BANNED w so
      else if (SEC_PLAYER <? GetPlayerSecurityLimit) && (security <? GetPlayerSecurityLimit) then deny AUTH_UNAVAILABLE w so
      else if negb (bool_decide (session_digest (as_account p) (as_clientSeed p) (m_Seed so) k = as_digest p))
      then deny AUTH_FAILED w so
      else
        let w := set_w_pending (w_pending w ++ [LOGIN_UPD_LAST_IP (m_Address so) (as_account p)]) w in
        let session := mkWSession id security exp mute loc (recruiter row) (SEL_ACCOUNT_RECRUITER id d) 0 0 CONFIG_SOCKET_TIMEOUTTIME [] in
        let so := set_m_Crypt (AuthCrypt_Init k) (set_m_Session (Some session) so) in
        (0, set_w_sessions (w_sessions w ++ [id]) w, so).

Definition HandleAuthSession (recvPacket : ByteBuffer) (w : WorldProc) (so : WorldSocket) : outcome BBError (Z * WorldProc * WorldSocket) :=
  match read_auth_session recvPacket with
  | Err e => Err e
  | Ok (p, _) =>
      Ok (if world_closed then deny AUTH_REJECT w so
          else match SEL_ACCOUNT (as_account p) (w_db w) with
               | None => deny AUTH_UNKNOWN_ACCOUNT w so
               | Some row => check_session p row w so
               end)
  end.

(** ** Pings *)

Definition count_ping (w : WorldProc) (so : WorldSocket) : WorldSocket :=
  if m_LastPingTime so =? 0 then set_m_LastPingTime (w_time w) so
  else
    let diff_time := w_time w - m_LastPingTime so in
    let so := set_m_LastPingTime (w_time w) so in
    if diff_time <? 27 * 1000000 then set_m_OverSpeedPings (u32 (m_OverSpeedPings so + 1)) so
    else set_m_OverSpeedPings 0 so.
(** Only a ping that comes too early is measured against the limit. *)
Definition ping_kicks (w : WorldProc) (old so : WorldSocket) : bool :=
  negb (m_LastPingTime old =? 0) && (w_time w - m_LastPingTime old <? 27 * 1000000) &&
  negb (u32 CONFIG_MAX_OVERSPEED_PINGS =? 0) && (u32 CONFIG_MAX_OVERSPEED_PINGS <? m_OverSpeedPings so) &&
  match m_Session so with Some s => negb (HasPermission s RBAC_PERM_SKIP_CHECK_OVERSPEED_PING) | None => false end.
Definition HandlePing (recvPacket : ByteBuffer) (w : WorldProc) (so : WorldSocket) : outcome BBError (Z * WorldProc * WorldSocket) :=
  match (latency ← read 4; ping ← read 4; mret (latency, ping)) recvPacket with
  | Err e => Err e
  | Ok ((latency, ping), _) =>
      Ok (let counted := count_ping w so in
          if ping_kicks w so counted then (-1, w, counted)
          else
            match m_Session counted with
            | None => (-1, w, counted)
            | Some s =>
                let so := set_m_Session (Some (set_m_clientTimeDelay 0 (set_m_latency latency s))) counted in
                let '(ret, so) := SendPacket SMSG_PONG (le_bytes 4 ping) so in (ret, w, so)
            end)
  end.

(** ** Packets *)

Definition connectivity : text :=
  [68; 32; 79; 70; 32; 87; 65; 82; 67; 82; 65; 70; 84; 32; 67; 79; 78; 78; 69; 67; 84; 73; 79; 78; 32; 45; 32; 67; 76; 73;
   69; 78; 84; 32; 84; 79; 32; 83; 69; 82; 86; 69; 82].
(** A packet that cannot be read ends the connection. *)
Definition caught (r : outcome BBError (Z * WorldProc * WorldSocket)) (w : WorldProc) (so : WorldSocket) : Z * WorldProc * WorldSocket :=
  match r with Ok x => x | Err _ => (-1, w, so) end.
Definition ProcessIncoming (opcode : Z) (contents : list Z) (w : WorldProc) (so : WorldSocket) : Z * WorldProc * WorldSocket :=
  if closing_ so then (-1, w, so)
  else if opcode =? CMSG_PING then caught (HandlePing (received contents) w so) w so
  else if opcode =? CMSG_AUTH_SESSION then
    match m_Session so with
    | Some _ => (-1, w, so)
    | None => caught (HandleAuthSession (received contents) w so) w so
    end
  else if opcode =? CMSG_LOG_DISCONNECT then (0, w, so)
  else if opcode =? MSG_VERIFY_CONNECTIVITY then
    match get_string (received contents) with
    | Err _ => (-1, w, so)
    | Ok (str, _) =>
        if negb (bool_decide (str = connectivity)) then (-1, w, so)
        else let '(ret, so) := HandleSendAuthSession so in (ret, w, so)
    end
  else
    match m_Session so with
    | None => (-1, w, so)
    | Some s =>
        if negb (opcode_handled opcode) then (0, w, so)
        else
          let s := set_m_timeOutTime CONFIG_SOCKET_TIMEOUTTIME s in
          (0, w, set_m_Session (Some (set__recvQueue (_recvQueue s ++ [(opcode, contents)]) s)) so)
    end.

(** ** From bytes to packets *)

Definition sizeof_AuthClientPktHeader : nat := 6.
Definition sizeof_WorldClientPktHeader : nat := 4.
Definition crypted (so : WorldSocket) : bool := match m_Crypt so with Some _ => true | None => false end.
(** The header that is being received *)
Definition cur_header (so : WorldSocket) : list Z := if crypted so then m_WorldHeader so else m_Header so.
Definition set_cur_header (h : list Z) (so : WorldSocket) : WorldSocket :=
  if crypted so then set_m_WorldHeader h so else set_m_Header h so.
Definition header_size (so : WorldSocket) : nat :=
  if crypted so then sizeof_WorldClientPktHeader else sizeof_AuthClientPktHeader.

Definition DropHighBytes (opcode : Z) : Z := Z.land (u16 opcode) NUM_OPCODE_HANDLERS.
(** [handle_input_header]: None is -1; the header stays decrypted in its
    buffer. *)
Definition handle_input_header (so : WorldSocket) : option WorldSocket :=
  match m_Crypt so with
  | Some (K, dpos, epos) =>
      let uintHeader := clientDecrypt K dpos (m_WorldHeader so) in
      let so := set_m_WorldHeader uintHeader (set_m_Crypt (Some (K, (dpos + 4)%nat, epos)) so) in
      let value := le_value uintHeader in
      let cmd := u16 (Z.land value MAX_OPCODE) in
      let size := u16 (Z.shiftr (Z.ldiff value MAX_OPCODE) 13) in
      if 10236 <? size then None
      else Some (set_m_RecvWPct (Some (DropHighBytes cmd, Z.to_nat size)) (set_m_RecvPct [] so))
  | None =>
      let size := le_value (take 2 (m_Header so)) in
      let cmd := le_value (drop 2 (m_Header so)) in
      if (size <? 4) || (10240 <? size) then None
      else Some (set_m_RecvWPct (Some (DropHighBytes cmd, Z.to_nat (size - 4))) (set_m_RecvPct [] so))
  end.
(** [handle_input_payload]: the header that is reset is the one the packet came
    with. *)
Definition handle_input_payload (opcode : Z) (w : WorldProc) (so : WorldSocket) : Z * WorldProc * WorldSocket :=
  let was_crypted := crypted so in
  let '(ret, w, so) := ProcessIncoming opcode (m_RecvPct so) w so in
  let so := set_m_RecvWPct None (set_m_RecvPct [] so) in
  (ret, w, if was_crypted then set_m_WorldHeader [] so else set_m_Header [] so).

(** What [handle_input_missing_data] does with the bytes it received: all taken,
    or an error. *)
Inductive InputResult := InputTaken | InputError.
(** One round of its loop: the bytes that are left when a packet was handled,
    and None when all went into a header or a packet that is not complete. *)
Definition receive_one (data : list Z) (w : WorldProc) (so : WorldSocket) : InputResult * option (list Z) * WorldProc * WorldSocket :=
  let space := (header_size so - length (cur_header so))%nat in
  let so := set_cur_header (cur_header so ++ take space data) so in
  let data := drop space data in
  if (0 <? header_size so - length (cur_header so))%nat then (InputTaken, None, w, so)
  else
    match (if (0 <? space)%nat then handle_input_header so else Some so) with
    | None => (InputError, None, w, so)
    | Some so =>
        match m_RecvWPct so with
        | None => (InputError, None, w, so)
        | Some (opcode, size) =>
            let space := (size - length (m_RecvPct so))%nat in
            let so := set_m_RecvPct (m_RecvPct so ++ take space data) so in
            let data := drop space data in
            if (0 <? size - length (m_RecvPct so))%nat then (InputTaken, None, w, so)
            else
              let '(ret, w, so) := handle_input_payload opcode w so in
              if ret =? -1 then (InputError, None, w, so) else (InputTaken, Some data, w, so)
        end
    end.
Fixpoint receive_loop (fuel : nat) (data : list Z) (w : WorldProc) (so : WorldSocket) : InputResult * WorldProc * WorldSocket :=
  match fuel with
  | O => (InputTaken, w, so)
  | S fuel =>
      if (length data =? 0)%nat then (InputTaken, w, so)
      else
        match receive_one data w so with
        | (InputTaken, Some data, w, so) => receive_loop fuel data w so
        | (r, _, w, so) => (r, w, so)
        end
  end.
(** [handle_input] and, after an error, [handle_close] *)
Definition receive (data : list Z) (w : WorldProc) (so : WorldSocket) : WorldProc * WorldSocket :=
  if closing_ so then (w, so)
  else
    match receive_loop (S (length data)) data w so with
    | (InputTaken, w, so) => (w, so)
    | (InputError, w, so) => (w, set_m_Session None (set_closing_ true so))
    end.

Definition WorldSocket_init (address : text) (seed : Z) : WorldSocket :=
  let so := mkWSocket address seed None None [] [] None [] 0 0 false [] in
  (SendPacket MSG_VERIFY_CONNECTIVITY
     ([82; 76; 68; 32; 79; 70; 32; 87; 65; 82; 67; 82; 65; 70; 84; 32; 67; 79; 78; 78; 69; 67; 84; 73; 79; 78; 32; 45; 32;
       83; 69; 82; 86; 69; 82; 32; 84; 79; 32; 67; 76; 73; 69; 78; 84] ++ [0]) so).2.

End WorldServer.
