(* ===== verification/WorldLogin.v ===== *)
(** * Entering the world

    WorldSocket.cpp: the stream of a client is cut into packets wherever it is
    cut into pieces, a session is for those who have the stored key, and what
    the authentication server lets pass leads into the world. *)
From S2P Require Import Prelude.
From S2P Require Import ByteBuffer.
From S2P Require Import Util.
From S2P Require Import BigNumber.
From S2P Require Import AuthSocket.
From S2P Require Import AuthLogin.
From S2P Require Import AuthWays.
From S2P Require Import AuthTokens.
From S2P Require Import WorldSocket.
From S2P Require Import Rbac.
Local Open Scope Z_scope.

Section World.
Context `{OpenSSLLaws} `{AuthWorld} `{WorldConf} `{Permissions WorldSession}.

(** ** The stream *)

(** Between two pieces: a header that is not complete, or a packet that is not.
    The buffer of the other header is empty once it is of use. *)
Record between (so : WorldSocket) : Prop := {
  bt_stage : ((length (cur_header so) < header_size so)%nat /\ m_RecvWPct so = None) \/
    (length (cur_header so) = header_size so /\ exists opcode size, m_RecvWPct so = Some (opcode, size) /\ (length (m_RecvPct so) < size)%nat);
  bt_world : crypted so = false -> m_WorldHeader so = []
}.

(** Handlers leave the buffers alone and never end the encryption. *)
Definition same_buffers (so so' : WorldSocket) : Prop :=
  m_Header so' = m_Header so /\ m_WorldHeader so' = m_WorldHeader so /\ m_RecvWPct so' = m_RecvWPct so /\
  m_RecvPct so' = m_RecvPct so /\ closing_ so' = closing_ so /\ (crypted so = true -> crypted so' = true).

Lemma same_buffers_refl so : same_buffers so so.
Proof. done. Qed.
Lemma same_buffers_trans a b c : same_buffers a b -> same_buffers b c -> same_buffers a c.
Proof. intros (? & ? & ? & ? & ? & ?) (? & ? & ? & ? & ? & ?). split_and!; (congruence || auto). Qed.
Lemma SendPacket_buffers op l so : same_buffers so (SendPacket op l so).2.
Proof.
  unfold SendPacket. destruct (closing_ so); [done|]. destruct (m_Crypt so) as [[[K d] e]|] eqn:Hc; [done|].
  done.
Qed.
Lemma check_session_buffers p row w so : same_buffers so (check_session p row w so).2.
Proof.
  unfold check_session, deny, SendAuthResponseError. cbv zeta. case_match; [apply SendPacket_buffers|].
  destruct (if mutetime row <? 0 then _ else _) as [mute w1].
  repeat (case_match; [cbn [snd]; apply SendPacket_buffers|]). done.
Qed.
Lemma ProcessIncoming_buffers op l w so : same_buffers so (ProcessIncoming op l w so).2.
Proof.
  unfold ProcessIncoming, caught. case_match; [done|]. case_match.
  { unfold HandlePing. match goal with |- context [?f (received l)] => destruct (f (received l)) as [[[latency ping] b]|] end; [|done].
    assert (same_buffers so (count_ping w so)) as Hc by (unfold count_ping; by repeat case_match).
    cbv zeta. case_match; [done|]. destruct (m_Session (count_ping w so)) as [s|]; [|done].
    match goal with |- context [SendPacket ?o ?l ?s] => pose proof (SendPacket_buffers o l s) as Hs; destruct (SendPacket o l s) end.
    cbn [snd] in *. eapply same_buffers_trans; [exact Hc|]. exact Hs. }
  case_match.
  { case_match; [done|]. unfold HandleAuthSession. destruct (read_auth_session (received l)) as [[p b]|]; [|done].
    case_match; [apply SendPacket_buffers|]. case_match; [apply check_session_buffers|apply SendPacket_buffers]. }
  case_match; [done|]. case_match.
  { destruct (get_string (received l)) as [[str b]|]; [|done]. case_match; [done|]. unfold HandleSendAuthSession.
    match goal with |- context [SendPacket ?o ?l ?s] => pose proof (SendPacket_buffers o l s) as Hs; by destruct (SendPacket o l s) end. }
  case_match; [|done]. by case_match.
Qed.

Lemma handle_input_payload_between op w so :
  length (cur_header so) = header_size so -> (crypted so = false -> m_WorldHeader so = []) ->
  between (handle_input_payload op w so).2 /\ closing_ (handle_input_payload op w so).2 = closing_ so.
Proof.
  intros Hh Hw. unfold handle_input_payload.
  pose proof (ProcessIncoming_buffers op (m_RecvPct so) w so) as (Hmh & Hmw & _ & _ & Hcl & Hcr).
  destruct (ProcessIncoming op (m_RecvPct so) w so) as [[ret w1] so1]. cbn [snd] in *.
  split; [|by destruct (crypted so)]. destruct (crypted so) eqn:Hc.
  - assert (crypted so1 = true) as Hc1 by auto. unfold crypted in Hc1. constructor.
    + left. unfold cur_header, header_size, crypted. cbn. destruct (m_Crypt so1); [|done]. cbn. split; [unfold sizeof_WorldClientPktHeader; lia|done].
    + unfold crypted. cbn. by destruct (m_Crypt so1).
  - constructor.
    + left. unfold cur_header, header_size, crypted. cbn. rewrite Hmw, (Hw eq_refl).
      destruct (m_Crypt so1); cbn; unfold sizeof_WorldClientPktHeader, sizeof_AuthClientPktHeader; (split; [lia|done]).
    + intros _. cbn. by rewrite Hmw, (Hw eq_refl).
Qed.


Lemma cur_header_set h so : cur_header (set_cur_header h so) = h /\ header_size (set_cur_header h so) = header_size so /\
  crypted (set_cur_header h so) = crypted so /\ m_RecvWPct (set_cur_header h so) = m_RecvWPct so /\
  m_RecvPct (set_cur_header h so) = m_RecvPct so /\ (crypted so = false -> m_WorldHeader (set_cur_header h so) = m_WorldHeader so).
Proof. unfold set_cur_header, cur_header, header_size, crypted. destruct (m_Crypt so) eqn:Hc; cbn; rewrite ?Hc; done. Qed.
Lemma set_cur_header_twice h k so : set_cur_header k (set_cur_header h so) = set_cur_header k so.
Proof. unfold set_cur_header, crypted. destruct (m_Crypt so) eqn:Hc; cbn; rewrite ?Hc; done. Qed.
Lemma set_cur_header_same so : set_cur_header (cur_header so) so = so.
Proof. unfold set_cur_header, cur_header. destruct so, (crypted _); done. Qed.

(** The header is checked when it is complete, and a packet is expected. *)
Lemma handle_input_header_ok so so' : handle_input_header so = Some so' -> length (cur_header so) = header_size so ->
  (crypted so = false -> m_WorldHeader so = []) ->
  (exists op size, m_RecvWPct so' = Some (op, size)) /\ m_RecvPct so' = [] /\ length (cur_header so') = header_size so' /\
  (crypted so' = false -> m_WorldHeader so' = []).
Proof.
  unfold handle_input_header, cur_header, header_size, crypted. destruct (m_Crypt so) as [[[K d] e]|] eqn:Hc; intros Hh Hl Hw.
  - case_match; [done|]. injection Hh as <-. cbn. split; [by eexists _, _|]. split; [done|]. split; [|done].
    unfold clientDecrypt, ARC4_UpdateData. rewrite length_zip_with, length_fmap, length_seq, Hl. done.
  - case_match; [done|]. injection Hh as <-. cbn. rewrite Hc. split; [by eexists _, _|]. split; [done|]. split; [exact Hl|]. intros _. by apply Hw.
Qed.

(** The payload of a packet whose header is complete *)
Definition receive_payload (data : list Z) (w : WorldProc) (so : WorldSocket) : InputResult * option (list Z) * WorldProc * WorldSocket :=
  match m_RecvWPct so with
  | None => (InputError, None, w, so)
  | Some (opcode, size) =>
      let space := (size - length (m_RecvPct so))%nat in
      let so := set_m_RecvPct (m_RecvPct so ++ take space data) so in
      if (0 <? size - length (m_RecvPct so))%nat then (InputTaken, None, w, so)
      else
        let '(ret, w, so) := handle_input_payload opcode w so in
        if ret =? -1 then (InputError, None, w, so) else (InputTaken, Some (drop space data), w, so)
  end.

Lemma receive_one_eq data w so : receive_one data w so =
  let space := (header_size so - length (cur_header so))%nat in
  let so1 := set_cur_header (cur_header so ++ take space data) so in
  if (length data <? space)%nat then (InputTaken, None, w, so1)
  else match (if (0 <? space)%nat then handle_input_header so1 else Some so1) with
       | None => (InputError, None, w, so1)
       | Some so2 => receive_payload (drop space data) w so2
       end.
Proof.
  unfold receive_one, receive_payload. cbv zeta. set (space := (header_size so - length (cur_header so))%nat).
  destruct (cur_header_set (cur_header so ++ take space data) so) as (-> & -> & _).
  rewrite length_app, length_take.
  destruct (Nat.ltb_spec (length data) space), (Nat.ltb_spec 0 (header_size so - (length (cur_header so) + Nat.min space (length data))));
    (done || lia).
Qed.

(** What comes after a piece, by what the piece did *)
Definition continues (r : InputResult * option (list Z) * WorldProc * WorldSocket) (a b : list Z) (w : WorldProc) (so : WorldSocket) : Prop :=
  match r with
  | (InputTaken, None, w1, so1) => between so1 /\ receive_one (a ++ b) w so = receive_one b w1 so1
  | (InputTaken, Some rest, w1, so1) =>
      between so1 /\ (length rest < length a)%nat /\ receive_one (a ++ b) w so = (InputTaken, Some (rest ++ b), w1, so1)
  | (InputError, _, w1, so1) => receive_one (a ++ b) w so = (InputError, None, w1, so1)
  end.

(** With the header complete *)
Lemma receive_payload_app op size a b w so :
  m_RecvWPct so = Some (op, size) -> (length (m_RecvPct so) <= size)%nat ->
  length (cur_header so) = header_size so -> (crypted so = false -> m_WorldHeader so = []) ->
  match receive_payload a w so with
  | (InputTaken, None, w1, so1) => w1 = w /\ between so1 /\ receive_payload (a ++ b) w so = receive_one b w so1
  | (InputTaken, Some rest, w1, so1) =>
      between so1 /\ rest = drop (size - length (m_RecvPct so)) a /\ receive_payload (a ++ b) w so = (InputTaken, Some (rest ++ b), w1, so1)
  | (InputError, _, w1, so1) => receive_payload (a ++ b) w so = (InputError, None, w1, so1)
  end.
Proof.
  intros Hp Hle Hh Hw. unfold receive_payload. rewrite Hp. cbn [m_RecvPct set_m_RecvPct]. cbv zeta.
  set (space := (size - length (m_RecvPct so))%nat).
  destruct (le_lt_dec space (length a)) as [Hfull|Hshort].
  - rewrite !length_app, !length_take, length_app. rewrite !(proj2 (Nat.ltb_ge _ _)) by (unfold space in *; lia).
    rewrite (take_app_le a b), (drop_app_le a b) by done.
    set (so2 := set_m_RecvPct _ so). pose proof (handle_input_payload_between op w so2 Hh Hw) as [Hb _].
    destruct (handle_input_payload op w so2) as [[ret w1] so1]. by destruct (ret =? -1).
  - rewrite length_app, length_take. rewrite (proj2 (Nat.ltb_lt 0 (size - (length (m_RecvPct so) + Nat.min space (length a))))) by (unfold space in *; lia).
    set (so1 := set_m_RecvPct (m_RecvPct so ++ take space a) so).
    assert (between so1) as Hb.
    { constructor; [|done]. right. split; [done|]. exists op, size. split; [done|]. cbn. rewrite length_app, length_take. unfold space in *. lia. }
    split; [done|]. split; [done|].
    rewrite receive_one_eq. cbv zeta. change (cur_header so1) with (cur_header so). change (header_size so1) with (header_size so).
    rewrite Hh, Nat.sub_diag, take_0, app_nil_r, drop_0. cbn [Nat.ltb Nat.leb].
    change (cur_header so) with (cur_header so1). rewrite set_cur_header_same. unfold receive_payload. cbn [m_RecvWPct so1 set_m_RecvPct]. rewrite Hp.
    cbn [m_RecvPct set_m_RecvPct so1]. cbv zeta. rewrite (take_ge a) by lia.
    replace (size - length (m_RecvPct so ++ a))%nat with (space - length a)%nat by (rewrite length_app; unfold space; lia).
    rewrite (take_app_ge a b), (drop_app_ge a b), app_assoc by lia. done.
Qed.

Lemma receive_one_app a b w so : between so -> a <> [] -> continues (receive_one a w so) a b w so.
Proof.
  intros [Hstage Hw] Hne. rewrite receive_one_eq. cbv zeta. set (space := (header_size so - length (cur_header so))%nat).
  destruct (Nat.ltb_spec (length a) space) as [Hshort|Hfull].
  { (* the header is not complete *)
    cbn [continues]. rewrite (take_ge a) by lia.
    destruct (cur_header_set (cur_header so ++ a) so) as (Hch & Hhs & Hcr & Hp & Hpc & Hwh).
    destruct Hstage as [[Hlt Hnone]|[Heq _]]; [|unfold space in Hshort; lia].
    split.
    { constructor; [|intros Hc; rewrite Hcr in Hc; rewrite Hwh by done; auto]. left. rewrite Hch, Hhs, Hp, length_app. split; [unfold space in Hshort; lia|done]. }
    rewrite !receive_one_eq. cbv zeta. fold space. rewrite Hch, Hhs, set_cur_header_twice.
    replace (header_size so - length (cur_header so ++ a))%nat with (space - length a)%nat by (rewrite length_app; unfold space; lia).
    rewrite (take_app_ge a b), (drop_app_ge a b), app_assoc, length_app by lia.
    rewrite !(proj2 (Nat.ltb_lt 0 _)) by lia.
    destruct (Nat.ltb_spec (length a + length b) space), (Nat.ltb_spec (length b) (space - length a)); (done || lia). }
  set (so1 := set_cur_header (cur_header so ++ take space a) so).
  destruct (cur_header_set (cur_header so ++ take space a) so) as (Hch & Hhs & Hcr & Hp & Hpc & Hwh). fold so1 in Hch, Hhs, Hcr, Hp, Hpc, Hwh.
  assert (length (cur_header so1) = header_size so1) as Hlen.
  { rewrite Hch, Hhs, length_app, length_take. destruct Hstage as [[? _]|[? _]]; unfold space in *; lia. }
  assert (crypted so1 = false -> m_WorldHeader so1 = []) as Hw1 by (intros Hc; rewrite Hcr in Hc; rewrite Hwh by done; auto).
  assert (receive_one (a ++ b) w so = match (if (0 <? space)%nat then handle_input_header so1 else Some so1) with
     | None => (InputError, None, w, so1) | Some so2 => receive_payload (drop space a ++ b) w so2 end) as Happ.
  { rewrite receive_one_eq. cbv zeta. fold space. rewrite (take_app_le a b), (drop_app_le a b), length_app by done. fold so1.
    by rewrite (proj2 (Nat.ltb_ge _ _)) by lia. }
  destruct (if (0 <? space)%nat then handle_input_header so1 else Some so1) as [so2|] eqn:Hhead; [|exact Happ].
  assert ((exists op size, m_RecvWPct so2 = Some (op, size) /\ (length (m_RecvPct so2) <= size)%nat /\
             (space = 0%nat -> (length (m_RecvPct so2) < size)%nat)) /\
          length (cur_header so2) = header_size so2 /\ (crypted so2 = false -> m_WorldHeader so2 = [])) as ((op & size & Hp2 & Hle & Hlt) & Hl2 & Hw2).
  { destruct (Nat.ltb_spec 0 space) as [Hsp|Hsp].
    - destruct (handle_input_header_ok so1 so2 Hhead Hlen Hw1) as ((op & size & Hp2) & Hpc2 & Hl2 & Hw2).
      split; [|done]. exists op, size. rewrite Hpc2. split; [done|]. cbn. split; lia.
    - injection Hhead as <-. split; [|done]. destruct Hstage as [[? _]|[_ (op & size & Hs & Hl)]]; [unfold space in Hsp; lia|].
      exists op, size. rewrite Hp, Hpc. split_and!; [done|lia|done]. }
  pose proof (receive_payload_app op size (drop space a) b w so2 Hp2 Hle Hl2 Hw2) as Hpay.
  destruct (receive_payload (drop space a) w so2) as [[[[|] [rest|]] w1] so3]; cbn [continues]; rewrite Happ; try exact Hpay.
  - destruct Hpay as (Hb & -> & Hr). split; [done|]. split; [|done]. rewrite !length_drop.
    destruct (decide (space = 0%nat)) as [He|]; [|destruct a; [done|cbn in *; lia]].
    specialize (Hlt He). destruct a; [done|cbn in *; lia].
  - destruct Hpay as (-> & Hb & Hr). by rewrite Hr.
Qed.

Lemma receive_loop_fuel f data w so : between so -> (length data < f)%nat ->
  receive_loop f data w so = receive_loop (S (length data)) data w so.
Proof.
  revert data w so. induction f as [f IH] using lt_wf_ind. intros data w so Hb Hf. destruct f as [|f]; [lia|]. cbn [receive_loop].
  destruct (Nat.eqb_spec (length data) 0) as [|Hne]; [done|].
  pose proof (receive_one_app data [] w so Hb) as Happ. destruct (receive_one data w so) as [[[[|] [rest|]] w1] so1]; try done.
  destruct Happ as (Hb1 & Hlt & _); [by intros ->|].
  rewrite (IH f) by (done || lia). destruct (decide (f = length data)) as [->|]; [by rewrite (IH (length data)) by (done || lia)|].
  by rewrite (IH (length data)) by (done || lia).
Qed.

Lemma receive_loop_app n a b w so : (length a <= n)%nat -> between so ->
  match receive_loop (S (length a)) a w so with
  | (InputTaken, w1, so1) =>
      between so1 /\ receive_loop (S (length (a ++ b))) (a ++ b) w so = receive_loop (S (length b)) b w1 so1
  | (InputError, w1, so1) => receive_loop (S (length (a ++ b))) (a ++ b) w so = (InputError, w1, so1)
  end.
Proof.
  revert a w so. induction n as [|n IH]; intros a w so Hn Hb.
  { destruct a; [|cbn in Hn; lia]. cbn [length app]. done. }
  destruct (decide (a = [])) as [->|Hne]; [done|].
  pose proof (receive_one_app a b w so Hb Hne) as Happ. cbn [receive_loop].
  rewrite (proj2 (Nat.eqb_neq (length a) 0)) by (by destruct a).
  rewrite (proj2 (Nat.eqb_neq (length (a ++ b)) 0)) by (by destruct a).
  destruct (receive_one a w so) as [[[[|] [rest|]] w1] so1] eqn:Hone; cbn [continues] in Happ.
  - destruct Happ as (Hb1 & Hlt & ->). specialize (IH rest w1 so1). rewrite (receive_loop_fuel (length a)) by done.
    rewrite (receive_loop_fuel (length (a ++ b))) by (rewrite ?length_app; (done || lia)). apply IH; [lia|done].
  - destruct Happ as (Hb1 & Heq). split; [done|]. destruct (decide (b = [])) as [->|Hbne].
    { by rewrite app_nil_r, Hone. }
    rewrite Heq. cbn [receive_loop]. rewrite (proj2 (Nat.eqb_neq (length b) 0)) by (by destruct b).
    pose proof (receive_one_app b [] w1 so1 Hb1 Hbne) as Hnext.
    destruct (receive_one b w1 so1) as [[[[|] [rest|]] w2] so2]; try done. destruct Hnext as (Hb2 & Hlt & _).
    rewrite (receive_loop_fuel (length (a ++ b))), (receive_loop_fuel (length b)) by (rewrite ?length_app; (done || lia)). done.
  - by rewrite Happ.
  - by rewrite Happ.
Qed.

Lemma receive_loop_closing f data w so : between so -> closing_ (receive_loop f data w so).2 = closing_ so.
Proof.
  assert (forall data w so, closing_ (receive_one data w so).2 = closing_ so) as Hone.
  { intros l v s. rewrite receive_one_eq. cbv zeta. set (s1 := set_cur_header _ s).
    assert (closing_ s1 = closing_ s) as Hc1 by (unfold s1, set_cur_header; by case_match).
    case_match; [done|].
    destruct (if (0 <? _)%nat then handle_input_header s1 else Some s1) as [s2|] eqn:Hh; [|done].
    assert (closing_ s2 = closing_ s) as Hc2.
    { rewrite <- Hc1. case_match; [|by injection Hh as <-]. unfold handle_input_header in Hh. repeat case_match; by simplify_eq/=. }
    unfold receive_payload. destruct (m_RecvWPct s2) as [[op size]|]; [|done]. cbv zeta. set (s3 := set_m_RecvPct _ s2).
    destruct (0 <? size - length (m_RecvPct s3))%nat; [exact Hc2|].
    unfold handle_input_payload. pose proof (ProcessIncoming_buffers op (m_RecvPct s3) v s3) as (_ & _ & _ & _ & Hc & _).
    destruct (ProcessIncoming op (m_RecvPct s3) v s3) as [[ret v1] s4]. cbn [snd] in Hc. change (closing_ s3) with (closing_ s2) in Hc.
    destruct (crypted s3), (ret =? -1); cbn; congruence. }
  intros _. revert data w so. induction f as [|f IH]; intros data w so; [done|]. cbn [receive_loop]. case_match; [done|].
  pose proof (Hone data w so) as Hc. destruct (receive_one data w so) as [[[[|] [rest|]] w1] so1]; cbn [snd] in *; try done.
  by rewrite IH.
Qed.

(** C12: How a stream is cut into pieces does not matter: receiving two pieces is
    receiving them at once. *)
Theorem pieces_do_not_matter a b w so : between so ->
  receive (a ++ b) w so = let '(w1, so1) := receive a w so in receive b w1 so1.
Proof.
  intros Hb. unfold receive. destruct (closing_ so) eqn:Hc; [by rewrite Hc|].
  pose proof (receive_loop_app (length a) a b w so ltac:(done) Hb) as Happ.
  pose proof (receive_loop_closing (S (length a)) a w so Hb) as Hcl.
  destruct (receive_loop (S (length a)) a w so) as [[[|] w1] so1]; cbn [snd] in Hcl.
  - destruct Happ as [_ ->]. by rewrite Hcl, Hc.
  - by rewrite Happ.
Qed.

Lemma receive_between a w so : between so -> closing_ (receive a w so).2 = false -> between (receive a w so).2.
Proof.
  intros Hb. unfold receive. destruct (closing_ so); [done|].
  pose proof (receive_loop_app (length a) a [] w so ltac:(done) Hb) as Happ.
  destruct (receive_loop (S (length a)) a w so) as [[[|] w1] so1]; cbn [snd]; [by destruct Happ|done].
Qed.
Lemma init_between address seed : between (WorldSocket_init address seed).
Proof. constructor; [left; cbn; unfold sizeof_AuthClientPktHeader; split; [lia|done]|done]. Qed.


(** ** Who gets a session *)

(** What is asked of the packet, the account and the address *)
Record may_enter (p : AuthSessionPacket) (row : Account) (w : WorldProc) (so : WorldSocket) : Prop := {
  me_address : u8 (locked row) = 1 -> last_ip row = m_Address so;
  me_os : CONFIG_WARDEN_ENABLED = true -> acc_os row = os_Win \/ acc_os row = os_OSX;
  me_bans : SEL_BANS (acc_id row) (m_Address so) (w_db w) = false;
  me_level : SEC_PLAYER < GetPlayerSecurityLimit -> GetPlayerSecurityLimit <= SEL_GMLEVEL_BY_REALMID (acc_id row) (w_db w);
  me_key : session_digest (as_account p) (as_clientSeed p) (m_Seed so) (SetHexStr 0 (sessionkey row)) = as_digest p
}.

Lemma deny_result code w so : exists so', deny code w so = (-1, w, so') /\ m_Session so' = m_Session so.
Proof.
  unfold deny, SendAuthResponseError. eexists. split; [done|]. unfold SendPacket. destruct (closing_ so); [done|].
  by destruct (m_Crypt so) as [[[? ?] ?]|].
Qed.

Lemma check_session_spec p row w so ret w' so' :
  check_session p row w so = (ret, w', so') -> m_Session so = None ->
  (may_enter p row w so <-> ret = 0) /\
  (ret = 0 -> exists s, m_Session so' = Some s /\ session_id s = acc_id row /\
     session_security s = SEL_GMLEVEL_BY_REALMID (acc_id row) (w_db w) /\
     m_Crypt so' = AuthCrypt_Init (SetHexStr 0 (sessionkey row)) /\ w_sessions w' = w_sessions w ++ [acc_id row] /\ out so' = out so) /\
  (ret <> 0 -> ret = -1 /\ m_Session so' = None /\ w_sessions w' = w_sessions w).
Proof.
  intros Hc Hnone.
  assert (forall code w1 P, w_sessions w1 = w_sessions w -> deny code w1 so = (ret, w', so') -> ~ P ->
    (P <-> ret = 0) /\ (ret = 0 -> exists s, m_Session so' = Some s /\ session_id s = acc_id row /\
      session_security s = SEL_GMLEVEL_BY_REALMID (acc_id row) (w_db w) /\
      m_Crypt so' = AuthCrypt_Init (SetHexStr 0 (sessionkey row)) /\ w_sessions w' = w_sessions w ++ [acc_id row] /\ out so' = out so) /\
    (ret <> 0 -> ret = -1 /\ m_Session so' = None /\ w_sessions w' = w_sessions w)) as Hdeny.
  { intros code w1 P Hw Hd HP. destruct (deny_result code w1 so) as (so1 & Hd1 & Hs1). rewrite Hd1 in Hd. injection Hd as <- <- <-.
    split; [split; [done|lia]|]. split; [lia|]. intros _. split; [done|]. split; [congruence|done]. }
  revert Hc. unfold check_session. cbv zeta.
  destruct ((u8 (locked row) =? 1) && _) eqn:Hlock; intros Hc.
  { apply (Hdeny _ _ _ eq_refl Hc). intros [Ha _ _ _ _]. apply andb_true_iff in Hlock as [Hl%Z.eqb_eq Hi%negb_true_iff%bool_decide_eq_false]. auto. }
  apply andb_false_iff in Hlock.
  set (m := if mutetime row <? 0 then _ else _) in Hc.
  assert (w_sessions m.2 = w_sessions w) as Hm by (unfold m; by destruct (mutetime row <? 0)). destruct m as [mute w1]. cbn [snd] in Hm.
  destruct (CONFIG_WARDEN_ENABLED && _ && _) eqn:Hwarden.
  { apply (Hdeny _ _ _ Hm Hc). intros [_ Ho _ _ _].
    apply andb_true_iff in Hwarden as [[Hcw H1w]%andb_true_iff H2w].
    apply negb_true_iff, bool_decide_eq_false in H1w, H2w. destruct (Ho Hcw); contradiction. }
  destruct (SEL_BANS _ _ _) eqn:Hbans; [apply (Hdeny _ _ _ Hm Hc); intros [_ _ Hb _ _]; congruence|].
  destruct ((SEC_PLAYER <? _) && _) eqn:Hlevel.
  { apply (Hdeny _ _ _ Hm Hc). intros [_ _ _ Hl _]. apply andb_true_iff in Hlevel as [H1l%Z.ltb_lt H2l%Z.ltb_lt]. specialize (Hl H1l). lia. }
  destruct (negb (bool_decide (session_digest _ _ _ _ = _))) eqn:Hkey.
  { apply (Hdeny _ _ _ Hm Hc). intros [_ _ _ _ Hk]. apply negb_true_iff, bool_decide_eq_false in Hkey. done. }
  injection Hc as <- <- <-. split; [|split; [intros _; eexists; split_and!; cbn; rewrite ?Hm; reflexivity|done]].
  split; [done|]. intros _. apply negb_false_iff, bool_decide_eq_true in Hkey. constructor; try done.
  - intros Hl. destruct Hlock as [Hl'%Z.eqb_neq|Hi%negb_false_iff%bool_decide_eq_true]; done.
  - intros Hcw. rewrite Hcw in Hwarden. cbn in Hwarden.
    apply andb_false_iff in Hwarden as [Ho%negb_false_iff%bool_decide_eq_true|Ho%negb_false_iff%bool_decide_eq_true]; [by left|by right].
  - intros Hp. apply andb_false_iff in Hlevel as [Hl%Z.ltb_ge|Hl%Z.ltb_ge]; lia.
Qed.


(** A session of a socket was entered by right. *)
Definition entered (so : WorldSocket) : Prop :=
  forall s, m_Session so = Some s -> exists p row w so0,
    SEL_ACCOUNT (as_account p) (w_db w) = Some row /\ may_enter p row w so0 /\ m_Address so0 = m_Address so /\
    m_Seed so0 = m_Seed so /\ session_id s = acc_id row.


Definition owned (so so' : WorldSocket) : Prop :=
  m_Address so' = m_Address so /\ m_Seed so' = m_Seed so /\ (entered so -> entered so').
Lemma owned_trans a b c : owned a b -> owned b c -> owned a c.
Proof. intros (? & ? & ?) (? & ? & ?). split_and!; (congruence || auto). Qed.
Lemma owned_same so so' : m_Address so' = m_Address so -> m_Seed so' = m_Seed so ->
  (forall s', m_Session so' = Some s' -> exists s, m_Session so = Some s /\ session_id s' = session_id s) -> owned so so'.
Proof.
  intros Ha Hs Hses. split; [done|]. split; [done|]. intros Hen s' Hs'. destruct (Hses s' Hs') as (s0 & Hs0 & Hid).
  destruct (Hen s0 Hs0) as (p & row & w & so0 & Hrow & Hme & Ha0 & Hse0 & Hid0). exists p, row, w, so0. split_and!; (done || congruence).
Qed.
Lemma owned_refl so so' : m_Address so' = m_Address so -> m_Seed so' = m_Seed so -> m_Session so' = m_Session so -> owned so so'.
Proof. intros Ha Hs Hses. apply owned_same; [done..|]. rewrite Hses. eauto. Qed.
Lemma SendPacket_owned op l so : owned so (SendPacket op l so).2.
Proof. unfold SendPacket. destruct (closing_ so); [by apply owned_refl|]. destruct (m_Crypt so) as [[[? ?] ?]|]; by apply owned_refl. Qed.

Lemma HandleAuthSession_owned pkt w so r : HandleAuthSession pkt w so = Ok r -> m_Session so = None -> owned so r.2.
Proof.
  unfold HandleAuthSession. destruct (read_auth_session pkt) as [[p b]|]; [|done]. intros [= <-] Hnone.
  destruct world_closed; [apply SendPacket_owned|]. destruct (SEL_ACCOUNT _ _) as [row|] eqn:Hrow; [|apply SendPacket_owned].
  destruct (check_session p row w so) as [[ret w'] so'] eqn:Hc. destruct (check_session_spec _ _ _ _ _ _ _ Hc Hnone) as (Hiff & Hok & Hno).
  assert (m_Address so' = m_Address so /\ m_Seed so' = m_Seed so) as [Ha Hs].
  { assert (forall op l s, m_Address (SendPacket op l s).2 = m_Address s /\ m_Seed (SendPacket op l s).2 = m_Seed s) as Hsend.
    { intros op l s. destruct (SendPacket_owned op l s) as (? & ? & _). done. }
    assert (so' = (check_session p row w so).2) as -> by (by rewrite Hc).
    unfold check_session, deny, SendAuthResponseError. cbv zeta. case_match; [apply Hsend|].
    destruct (if mutetime row <? 0 then _ else _) as [mute w1]. repeat (case_match; [cbn [snd]; apply Hsend|]). done. }
  split; [done|]. split; [done|]. cbn [snd]. intros _ s Hses. destruct (decide (ret = 0)) as [Hr|Hr].
  - destruct (Hok Hr) as (s1 & Hs1 & Hid & _). exists p, row, w, so. split_and!; try done; [by apply Hiff|congruence].
  - destruct (Hno Hr) as (_ & Hn & _). congruence.
Qed.

Lemma ProcessIncoming_owned op l w so : owned so (ProcessIncoming op l w so).2.
Proof.
  unfold ProcessIncoming, caught. case_match; [by apply owned_refl|]. case_match.
  { unfold HandlePing. match goal with |- context [?f (received l)] => destruct (f (received l)) as [[[latency ping] b]|] end; [|by apply owned_refl].
    assert (owned so (count_ping w so)) as Hc by (unfold count_ping; repeat case_match; by apply owned_refl).
    cbv zeta. case_match; [done|]. destruct (m_Session (count_ping w so)) as [s|] eqn:Hs; [|done].
    match goal with |- context [SendPacket ?o ?l ?s] => pose proof (SendPacket_owned o l s) as Hsp; destruct (SendPacket o l s) end.
    cbn [snd] in *. eapply owned_trans; [exact Hc|]. eapply owned_trans; [|exact Hsp].
    apply owned_same; [done..|]. cbn. intros s' [= <-]. by exists s. }
  case_match.
  { destruct (m_Session so) as [s|] eqn:Hs; [by apply owned_refl|].
    destruct (HandleAuthSession (received l) w so) as [r|] eqn:Ha; [|by apply owned_refl]. by eapply HandleAuthSession_owned. }
  case_match; [by apply owned_refl|]. case_match.
  { destruct (get_string (received l)) as [[str b]|]; [|by apply owned_refl]. case_match; [by apply owned_refl|]. unfold HandleSendAuthSession.
    match goal with |- context [SendPacket ?o ?l ?s] => pose proof (SendPacket_owned o l s) as Hsp; by destruct (SendPacket o l s) end. }
  destruct (m_Session so) as [s|] eqn:Hs; [|by apply owned_refl]. case_match; [by apply owned_refl|].
  apply owned_same; [done..|]. cbn. intros s' [= <-]. by exists s.
Qed.

Lemma receive_one_owned data w so : owned so (receive_one data w so).2.
Proof.
  rewrite receive_one_eq. cbv zeta. set (s1 := set_cur_header _ so).
  assert (owned so s1) as H1o by (unfold s1, set_cur_header; case_match; by apply owned_refl).
  destruct (length data <? _)%nat; [done|].
  destruct (if (0 <? _)%nat then handle_input_header s1 else Some s1) as [s2|] eqn:Hh; [|done].
  eapply owned_trans; [exact H1o|]. clearbody s1.
  assert (owned s1 s2) as H2o.
  { destruct (0 <? _)%nat; [|injection Hh as <-; by apply owned_refl].
    unfold handle_input_header in Hh. repeat case_match; simplify_eq/=; by apply owned_refl. }
  eapply owned_trans; [exact H2o|]. clear Hh.
  unfold receive_payload. destruct (m_RecvWPct s2) as [[op size]|]; [|by apply owned_refl]. cbv zeta. set (s3 := set_m_RecvPct _ s2).
  assert (owned s2 s3) as H3o by (by apply owned_refl). eapply owned_trans; [exact H3o|]. clearbody s3.
  destruct (0 <? _)%nat; [by apply owned_refl|].
  unfold handle_input_payload. pose proof (ProcessIncoming_owned op (m_RecvPct s3) w s3) as Hp.
  destruct (ProcessIncoming op (m_RecvPct s3) w s3) as [[ret w1] s4]. cbn [snd] in Hp.
  destruct (crypted s3), (ret =? -1); (eapply owned_trans; [exact Hp|by apply owned_refl]).
Qed.

Lemma receive_owned data w so : owned so (receive data w so).2.
Proof.
  assert (forall f data w so, owned so (receive_loop f data w so).2) as Hloop.
  { intros f. induction f as [|f IH]; intros l v s; [by apply owned_refl|]. cbn [receive_loop]. case_match; [by apply owned_refl|].
    pose proof (receive_one_owned l v s) as Ho. destruct (receive_one l v s) as [[[[|] [rest|]] w1] so1]; cbn [snd] in *; try done.
    eapply owned_trans; [exact Ho|]. apply IH. }
  unfold receive. case_match; [by apply owned_refl|].
  pose proof (Hloop (S (length data)) data w so) as Ho. destruct (receive_loop _ _ _ _) as [[[|] w1] so1]; cbn [snd] in *; [done|].
  eapply owned_trans; [exact Ho|]. by apply owned_same.
Qed.


(** ** Opcode numbers *)

(** The table of opcodes has [NUM_OPCODE_HANDLERS] places.  Encrypted headers
    select among the first of them; before a session, a header may select the
    place behind the last. *)
Theorem opcode_place so so' op size :
  handle_input_header so = Some so' -> m_RecvWPct so' = Some (op, size) ->
  0 <= op <= NUM_OPCODE_HANDLERS /\ (crypted so = true -> op <= MAX_OPCODE) /\
  (crypted so = false -> (op = NUM_OPCODE_HANDLERS <-> le_value (drop 2 (m_Header so)) mod 2 ^ 15 = NUM_OPCODE_HANDLERS)).
Proof.
  assert (forall x, DropHighBytes x = x mod 2 ^ 15) as Hd.
  { intros x. unfold DropHighBytes, u16. change NUM_OPCODE_HANDLERS with (Z.ones 15). rewrite Z.land_ones by lia.
    change (2 ^ 16) with (2 ^ 15 * 2). by rewrite Z.rem_mul_r, Z.mul_comm, Z.mod_add, Z.mod_mod by lia. }
  unfold handle_input_header, crypted. destruct (m_Crypt so) as [[[K d] e]|]; intros Hh Hp; case_match; try done;
    injection Hh as <-; cbn in Hp; injection Hp as <- _; rewrite Hd; unfold NUM_OPCODE_HANDLERS.
  - change MAX_OPCODE with (Z.ones 13). rewrite Z.land_ones by lia. unfold u16.
    set (v := le_value _ mod 2 ^ 13). assert (0 <= v < 2 ^ 13) as Hv by (apply Z.mod_pos_bound; lia).
    rewrite (Z.mod_small v (2 ^ 16)), (Z.mod_small v (2 ^ 15)) by lia. change (Z.ones 13) with 8191. split; [lia|]. split; [lia|done].
  - pose proof (Z.mod_pos_bound (le_value (drop 2 (m_Header so))) (2 ^ 15)). split; [lia|]. done.
Qed.

(** ** From the authentication server into the world *)

(** A client that holds a key, from an address *)
Definition holds_key (login ip : text) (K : Z) (p : AuthSessionPacket) (wso : WorldSocket) : Prop :=
  as_account p = login /\ m_Address wso = ip /\ m_Session wso = None /\
  as_digest p = session_digest login (as_clientSeed p) (m_Seed wso) K.
(** What the world asks besides the key and the address *)
Definition welcome (row : Account) (w : WorldProc) (ip : text) : Prop :=
  SEL_BANS (acc_id row) ip (w_db w) = false /\ (CONFIG_WARDEN_ENABLED = true -> acc_os row = os_Win \/ acc_os row = os_OSX) /\
  (SEC_PLAYER < GetPlayerSecurityLimit -> GetPlayerSecurityLimit <= SEL_GMLEVEL_BY_REALMID (acc_id row) (w_db w)).

(** The key that a connection has stored opens the world to its address, locked
    or not: with the key the address was stored as well. *)
Lemma stored_key_admits K so rd row p w wso :
  0 < K -> SEL_ACCOUNT (_login so) (db (store_key K so rd)) = Some row -> welcome row w (remoteAddress so) ->
  holds_key (_login so) (remoteAddress so) K p wso -> (check_session p row w wso).1.1 = 0.
Proof.
  intros HK Hrow (Hb & Ho & Hl) (Hacc & Hip & Hnone & Hdig).
  pose proof (stored_key K so rd row Hrow) as Hkey. pose proof (stored_ip K so rd row Hrow) as Hlast.
  destruct (check_session p row w wso) as [[ret w'] so'] eqn:Hc. destruct (check_session_spec _ _ _ _ _ _ _ Hc Hnone) as (Hiff & _).
  apply Hiff. constructor; [congruence|done|by rewrite Hip|done|].
  by rewrite Hkey, SetHexStr_AsHexStr, Hacc, Hdig.
Qed.

(** An account is not protected by its lock: a client that knows the name alone
    sends a challenge from anywhere, is refused, sends a proof all the same, and
    is given a session of that account by the world server. *)
Theorem locked_account_is_entered pw rd pkt ip addr rd1 so1 code :
  let so := set_input pkt (AuthSocket_init ip addr) in
  verifiers_ok pw rd -> _HandleLogonChallenge rd so = (true, rd1, so1) ->
  sent so1 = [[AUTH_LOGON_CHALLENGE; 0; code]] -> IsAcceptedClientBuild (_build so1) = true ->
  last (unchallenged_M (_login so1)) <> Some 0 -> 0 < unchallenged_K ->
  forall rd2, exists rd3 so3,
    _HandleLogonProof rd2 (set_input (unchallenged_proof (_login so1)) so1) = (true, rd3, so3) /\
    forall row w p wso, SEL_ACCOUNT (_login so1) (db rd3) = Some row -> welcome row w ip ->
      holds_key (_login so1) ip unchallenged_K p wso -> (check_session p row w wso).1.1 = 0.
Proof.
  intros so Hv Hch Hsent Hbuild Hlast HK rd2.
  destruct (refused_name_result pw rd pkt ip addr rd1 so1 code Hv Hch Hsent Hbuild Hlast rd2) as (so3 & Hp & _ & _ & Hip).
  eexists _, so3. split; [exact Hp|]. intros row w p wso Hrow Hw Hh.
  apply (stored_key_admits unchallenged_K (set_input (unchallenged_proof (_login so1)) so1) rd2); [done|exact Hrow|..]; cbn; by rewrite Hip.
Qed.

(** The token is not needed: after a proof with the right password and a wrong
    token, which is refused, the key it made opens the world. *)
Theorem token_is_not_needed rd so lp so0 rd' so' :
  recv sizeof_proof so = (Some lp, so0) -> _expversion so <> NO_VALID_EXP_FLAG -> SetBinary (lp_A lp) <> 0 ->
  let so1 := set__K (proof_K (SetBinary (lp_A lp)) so0) so0 in
  first_bytes 20 (AsByteArray 0 (proof_M (SetBinary (lp_A lp)) so1)) = lp_M1 lp ->
  _tokenKey so <> [] -> (forall now, (recv_token so1).1 <> GenerateToken now (_tokenKey so)) ->
  _HandleLogonProof rd so = (false, rd', so') -> 0 < _K so1 ->
  _authed so' = _authed so /\
  forall row w p wso, SEL_ACCOUNT (_login so) (db rd') = Some row -> welcome row w (remoteAddress so) ->
    holds_key (_login so) (remoteAddress so) (_K so1) p wso -> (check_session p row w wso).1.1 = 0.
Proof.
  intros Hr Hexp HA so1 HM Htok Hwrong Hh HK.
  destruct (wrong_token_result rd so lp so0 rd' so' Hr Hexp HA HM Htok Hwrong Hh) as [Ha ->]. split; [done|].
  assert (_login so = _login so1 /\ remoteAddress so = remoteAddress so1) as [-> ->] by (unfold recv in Hr; case_match; by simplify_eq/=).
  intros row w p wso. by apply stored_key_admits.
Qed.

(** C31: A login at the authentication server leads into the world: the password
    gives the key, the key gives the session. *)
Theorem login_leads_into_world pw rd so rd1 so1 reply a :
  verifiers_ok pw rd -> _HandleLogonChallenge rd so = (true, rd1, so1) ->
  sent so1 = sent so ++ [reply] -> nth 2 reply 255 = WOW_SUCCESS -> 256 ^ 31 <= _B so1 -> _tokenKey so1 = [] -> 0 <= a ->
  let c := client reply (_login so1) (pw (collate (_login so1))) a in
  256 ^ 31 <= cl_S c -> last (cl_M c) <> Some 0 -> 0 < cl_K c ->
  forall rd2, exists rd3 so3, _HandleLogonProof rd2 (set_input (client_packet c) so1) = (true, rd3, so3) /\
    forall row w p wso, SEL_ACCOUNT (_login so1) (db rd3) = Some row -> welcome row w (remoteAddress so1) ->
      holds_key (_login so1) (remoteAddress so1) (cl_K c) p wso -> (check_session p row w wso).1.1 = 0.
Proof.
  intros Hv Hch Hsent Hst HB Htok Ha c HS Hlast HK rd2.
  destruct (srp6_result pw rd so rd1 so1 reply a Hv Hch Hsent Hst HB Htok Ha HS Hlast rd2) as (so3 & Hp & _).
  eexists _, so3. split; [exact Hp|]. intros row w p wso Hrow Hw Hh.
  by apply (stored_key_admits (cl_K c) (set_input (client_packet c) so1) rd2).
Qed.

(** ** What clients decode *)

Lemma ARC4_twice key pos data : ARC4_UpdateData key pos (ARC4_UpdateData key pos data) = data.
Proof.
  unfold ARC4_UpdateData. rewrite length_zip_with, length_fmap, length_seq, Nat.min_id.
  generalize pos. induction data as [|x data IH]; intros k; [done|]. cbn. by rewrite IH, Z.lxor_assoc, Z.lxor_nilpotent, Z.lxor_0_r.
Qed.

(** The header of an encrypted packet tells its size and its opcode, up to the
    nineteen bits that are left for the size. *)
Theorem sent_header_decodes op contents so K dpos epos ret so' :
  m_Crypt so = Some (K, dpos, epos) -> closing_ so = false -> 0 <= op <= MAX_OPCODE -> Z.of_nat (length contents) < 2 ^ 19 ->
  SendPacket op contents so = (ret, so') ->
  ret = 0 /\ m_Crypt so' = Some (K, dpos, (epos + 4)%nat) /\
  exists header, out so' = out so ++ header ++ contents /\ length header = 4%nat /\
    let value := le_value (serverEncrypt K epos header) in
    value mod 2 ^ 13 = op /\ value / 2 ^ 13 = Z.of_nat (length contents).
Proof.
  intros Hc Hcl Hop Hlen. unfold SendPacket. rewrite Hcl, Hc. intros [= <- <-]. cbn. split; [done|]. split; [done|].
  set (data := u32 _). exists (serverEncrypt K epos (le_bytes 4 data)). split; [done|]. split.
  { unfold serverEncrypt, ARC4_UpdateData. by rewrite length_zip_with, length_fmap, length_seq, length_le_bytes. }
  unfold serverEncrypt. rewrite ARC4_twice, le_value_le_bytes. change (8 * Z.of_nat 4) with 32.
  unfold MAX_OPCODE in *. assert (data = Z.of_nat (length contents) * 2 ^ 13 + op) as ->.
  { unfold data, u32. change 8191 with (Z.ones 13). rewrite Z.land_ones, (Z.mod_small op), Z.shiftl_mul_pow2 by lia.
    rewrite (lor_low 13) by (lia || (rewrite Z.mod_mul; lia)). apply Z.mod_small. lia. }
  cbn zeta. rewrite (Z.mod_small _ (2 ^ 32)) by lia. split.
  - rewrite Z.add_comm, Z.mod_add by lia. apply Z.mod_small. lia.
  - rewrite Z.div_add_l, Z.div_small by lia. lia.
Qed.
End World.
