(* ===== verification/AuthRuns.v ===== *)
(** * Logins that happen

    OpenSSL, the world around the servers and a database as concrete functions
    and values, on which the theorems about logins are applied.  The numbers
    drawn are always the same, and digests are short numbers. *)
From S2P Require Import Prelude.
From S2P Require Import ByteBuffer.
From S2P Require Import Util.
From S2P Require Import BigNumber.
From S2P Require Import AuthSocket.
From S2P Require Import AuthLogin.
From S2P Require Import AuthRules.
From S2P Require Import AuthWays.
From S2P Require Import AuthNet.
From S2P Require Import AuthTokens.
From S2P Require Import Rbac.
From S2P Require Import WorldSocket.
From S2P Require Import WorldLogin.
From Stdlib Require Import Zpow_facts.
Local Open Scope Z_scope.

(** ** OpenSSL *)

Definition toy_num_bytes (a : Z) : nat := if a <=? 0 then 0%nat else Z.to_nat (Z.log2 a / 8 + 1).
Definition hex_char (d : Z) : Z := if d <? 10 then 48 + d else 55 + d.
Definition hex_text (bytes : list Z) : text := concat ((fun b => [hex_char (b / 16); hex_char (b mod 16)]) <$> bytes).
(** The power of 7 that challenges take, and the powers of its powers *)
Definition toy_b : Z := 2 ^ 151 + 5.
Definition toy_gmod : Z := 17186346467661599106391585360225179071857504737340865779389996872530570008131.
Definition toy_mod_exp (a p m : Z) : Z :=
  match (if (p =? toy_b) && (m =? N_value) then find (fun k => 7 ^ k =? a) [1; 2; 3; 4; 5; 6; 7; 8; 9; 10] else None) with
  | Some k => toy_gmod ^ k mod N_value
  | None => Zpow_mod a p m
  end.
(** A digest says little of the data. *)
Definition toy_SHA1 (d : list Z) : list Z :=
  [1 + foldl Z.add 0 d mod 3] ++ replicate 18 0 ++ [if (22 <=? length d mod 32)%nat then 5 else 0].
Definition toy_HMAC (k d : list Z) : list Z := replicate 16 7 ++ [foldl Z.add 0 (k ++ d) mod 256; 1; 2; 3].

#[local] Instance toy_ssl : OpenSSL := {
  BN_add := Z.add;
  BN_mul := Z.mul;
  BN_mod := Z.modulo;
  BN_mod_exp := toy_mod_exp;
  BN_num_bytes := toy_num_bytes;
  BN_bin2bn := fun bs => le_value (reverse bs);
  BN_bn2bin := fun a => reverse (le_bytes (toy_num_bytes a) a);
  BN_hex2bn := fun old s => if bool_decide (s = []) then old else hex_value s;
  BN_bn2hex := fun a => hex_text (reverse (le_bytes (toy_num_bytes a) a));
  BN_rand := fun _ bits => if bits <=? 3 then 2 ^ bits - 1 else 2 ^ (bits - 1) + 5;
  SHA1 := toy_SHA1;
  HMAC_SHA1 := toy_HMAC
}.

Lemma toy_gmod_spec : 7 ^ toy_b mod N_value = toy_gmod.
Proof. rewrite <- Zpow_mod_correct by done. by vm_compute. Qed.

Lemma toy_mod_exp_spec a p m : 0 <= a -> 0 <= p -> 1 < m -> toy_mod_exp a p m = a ^ p mod m.
Proof.
  intros Ha Hp Hm. unfold toy_mod_exp.
  assert (Zpow_mod a p m = a ^ p mod m) as Hgen by (apply Zpow_mod_correct; lia).
  destruct ((p =? toy_b) && (m =? N_value)) eqn:Hb; [|done].
  apply andb_true_iff in Hb as [->%Z.eqb_eq ->%Z.eqb_eq]. destruct (find _ _) as [k|] eqn:Hk; [|done].
  apply find_some in Hk as [Hin <-%Z.eqb_eq].
  assert (0 <= k) by (by repeat (destruct Hin as [<-|Hin]; [done|])).
  rewrite <- toy_gmod_spec, <- Zpower_mod by done. rewrite <- !Z.pow_mul_r by (done || lia). by rewrite Z.mul_comm.
Qed.

Lemma toy_num_bytes_spec a : 0 < a ->
  toy_num_bytes a <> 0%nat /\ 256 ^ (Z.of_nat (toy_num_bytes a) - 1) <= a < 256 ^ Z.of_nat (toy_num_bytes a).
Proof.
  intros Ha. unfold toy_num_bytes. rewrite (proj2 (Z.leb_gt _ _)) by done.
  pose proof (Z.log2_nonneg a). pose proof (Z.log2_spec a Ha) as [Hl Hu].
  assert (0 <= Z.log2 a / 8) by (apply Z.div_pos; lia). rewrite Z2Nat.id by lia. split; [lia|].
  change 256 with (2 ^ 8). rewrite <- !Z.pow_mul_r by lia. split.
  - etransitivity; [|exact Hl]. apply Z.pow_le_mono_r; [lia|]. pose proof (Z.mul_div_le (Z.log2 a) 8). lia.
  - eapply Z.lt_le_trans; [exact Hu|]. apply Z.pow_le_mono_r; [lia|]. pose proof (Z.mul_succ_div_gt (Z.log2 a) 8). lia.
Qed.

Lemma hex_char_digit d : 0 <= d < 16 -> hex_digit (hex_char d) = Some d.
Proof.
  intros Hd. unfold hex_digit, hex_char. destruct (Z.ltb_spec d 10).
  - rewrite (proj2 (Z.leb_le 48 _)), (proj2 (Z.leb_le _ 57)) by lia. cbn [andb]. f_equal. lia.
  - rewrite (proj2 (Z.leb_gt (55 + d) 57)), andb_false_r, (proj2 (Z.leb_le 65 _)), (proj2 (Z.leb_le _ 70)) by lia. cbn [andb]. f_equal. lia.
Qed.

Lemma nibbles b : is_byte b -> 0 <= b / 16 < 16 /\ 0 <= b mod 16 < 16 /\ b = 16 * (b / 16) + b mod 16.
Proof.
  unfold is_byte. intros Hb. pose proof (Z.mod_pos_bound b 16). pose proof (Z.div_mod b 16).
  assert (0 <= b / 16) by (apply Z.div_pos; lia). lia.
Qed.

Lemma hex_text_spec bs : Forall is_byte bs ->
  Forall (fun c => is_Some (hex_digit c)) (hex_text (reverse bs)) /\ hex_value (hex_text (reverse bs)) = le_value bs /\
  length (hex_text (reverse bs)) = (2 * length bs)%nat.
Proof.
  induction 1 as [|b bs Hb _ (IHf & IHv & IHl)]; [done|]. destruct (nibbles b Hb) as (Hh & Hl & Heq).
  assert (hex_text (reverse (b :: bs)) = hex_text (reverse bs) ++ [hex_char (b / 16); hex_char (b mod 16)]) as ->.
  { unfold hex_text. by rewrite reverse_cons, fmap_app, concat_app. }
  split; [|split].
  - apply Forall_app. split; [done|]. repeat constructor; rewrite hex_char_digit by done; by eexists.
  - unfold hex_value in *. rewrite foldl_app, IHv. cbn [foldl]. rewrite !hex_char_digit by done. cbn [le_value from_option]. unfold id. lia.
  - rewrite length_app, IHl. cbn. lia.
Qed.

#[local] Instance toy_laws : OpenSSLLaws.
Proof.
  constructor; cbn [BN_add BN_mul BN_mod BN_mod_exp BN_num_bytes BN_bin2bn BN_bn2bin BN_hex2bn BN_bn2hex BN_rand SHA1 HMAC_SHA1 toy_ssl]; try done.
  - apply toy_mod_exp_spec.
  - apply toy_num_bytes_spec.
  - intros old s [Hne _]. by rewrite bool_decide_false.
  - intros a Ha. destruct (toy_num_bytes_spec a Ha) as [Hn [_ Hlt]].
    destruct (hex_text_spec (le_bytes (toy_num_bytes a) a) (le_bytes_bytes _ _)) as (Hf & Hv & Hl). rewrite length_le_bytes in Hl.
    split; [split; [|done]|split; [|done]].
    + intros He. rewrite He in Hl. cbn in Hl. lia.
    + rewrite Hv, le_value_le_bytes, <- pow256. apply Z.mod_small. lia.
  - intros n bits Hb. assert (2 ^ bits = 2 * 2 ^ (bits - 1)) as Hd by (rewrite <- Z.pow_succ_r by lia; f_equal; lia).
    pose proof (Z.pow_pos_nonneg 2 (bits - 1)). destruct (Z.leb_spec bits 3); [lia|].
    assert (2 ^ 3 <= 2 ^ (bits - 1)) by (apply Z.pow_le_mono_r; lia). lia.
  - intros d. split; [done|]. unfold toy_SHA1. pose proof (Z.mod_pos_bound (foldl Z.add 0 d) 3).
    apply Forall_app. split; [repeat constructor; unfold is_byte; lia|]. apply Forall_app. split.
    + apply Forall_replicate. unfold is_byte. lia.
    + repeat constructor; unfold is_byte; case_match; lia.
  - intros k d. split; [done|]. unfold toy_HMAC. pose proof (Z.mod_pos_bound (foldl Z.add 0 (k ++ d)) 256).
    apply Forall_app. split; [apply Forall_replicate; unfold is_byte; lia|]. repeat constructor; unfold is_byte; lia.
Qed.

(** ** The world, and two accounts *)

#[local] Instance toy_world : AuthWorld := {
  collate := id;
  db_thread := fun _ => 100%nat;
  heap := fun _ _ => 0;
  stack_byte := 0;
  inet_addr := fun _ => 16777343;
  make_addr := fun port name => mkAddr (le_value name) port;
  addr_to_string := fun a => decimal (ip_address a);
  is_loopback := fun a => ip_address a =? 2130706433;
  WrongPass_MaxCount := 3;
  WrongPass_BanTime := 600;
  WrongPass_BanType := false
}.
#[local] Instance toy_conf : WorldConf := {
  world_closed := false;
  CONFIG_EXPANSION := 4;
  CONFIG_WARDEN_ENABLED := true;
  CONFIG_MAX_OVERSPEED_PINGS := 2;
  CONFIG_SOCKET_TIMEOUTTIME := 900000;
  realmID := 1;
  GetPlayerSecurityLimit := 0;
  opcode_handled := fun _ => true;
  rc4_stream := fun key pos => (foldl Z.add 0 key + Z.of_nat pos) mod 256
}.
#[local] Instance toy_permissions : Permissions WorldSession := fun _ _ => false.

(** The digest of everybody's password; BOB, and ANN, whose account is locked
    to an address *)
Definition toy_pw (name : text) : list Z := seqZ 1 20.
Definition name_bob : text := [66; 79; 66].
Definition name_ann : text := [65; 78; 78].
Definition ip_home : text := [49; 46; 49].
Definition ip_away : text := [57; 46; 57].
Definition toy_account (id lock : Z) : Account :=
  mkAccount id (AsHexStr (le_value (reverse (toy_pw [])))) [] [] [] [] ip_home 0 lock [] 4 0 0 os_Win 0.
Definition toy_db : LoginDB :=
  mkDB (<[name_bob := toy_account 1 0]> (<[name_ann := toy_account 2 1]> ∅)) [(1, 3, -1)] [] ∅ [] ∅ [] 1000000.
Definition toy_realmd : Realmd := mkRealmd toy_db [] 0 0 ∅ 0 0.

(** The head of a challenge and of a connection *)
Definition challenge_packet (login : text) : list Z :=
  let body := [87; 111; 87; 0; 5; 4; 8] ++ le_bytes 2 18414 ++ [54; 56; 120; 0; 110; 105; 87; 0; 83; 85; 110; 101]
              ++ replicate 4 0 ++ [127; 0; 0; 1] ++ [Z.of_nat (length login)] ++ login in
  [AUTH_LOGON_CHALLENGE; 8] ++ le_bytes 2 (Z.of_nat (length body)) ++ body.
Definition caller (ip login : text) : AuthSocket := set_input (challenge_packet login) (AuthSocket_init ip (mkAddr 1 2)).

Lemma toy_verifiers : verifiers_ok toy_pw toy_realmd.
Proof.
  constructor; [|constructor]. intros name row. cbn. intros [[<- <-]|[_ [[<- <-]|[_ []%lookup_empty_Some]]%lookup_insert_Some]]%lookup_insert_Some;
    (constructor; [split; [done|]|split|done]); (apply (bool_decide_unpack _); by vm_compute).
Qed.

(** BOB is given a challenge. *)
Definition bob_challenged : bool * Realmd * AuthSocket := _HandleLogonChallenge toy_realmd (caller ip_away name_bob).
Definition bob : AuthSocket := bob_challenged.2.
Definition bob_reply : list Z := default [] (last (sent bob)).
Definition bob_client : ClientProof := client bob_reply (_login bob) (toy_pw (collate (_login bob))) 1.

Lemma bob_is_challenged : _HandleLogonChallenge toy_realmd (caller ip_away name_bob) = (true, bob_challenged.1.2, bob).
Proof.
  assert (bob_challenged.1.1 = true) as Hok by (by vm_compute). unfold bob, bob_challenged in *.
  destruct (_HandleLogonChallenge _ _) as [[ok rd] so]. cbn in *. by rewrite Hok.
Qed.

Lemma bob_facts : (sent bob = sent (caller ip_away name_bob) ++ [bob_reply] /\ nth 2 bob_reply 255 = WOW_SUCCESS) /\
  (256 ^ 31 <= _B bob /\ _tokenKey bob = []) /\ 256 ^ 31 <= cl_S bob_client /\ last (cl_M bob_client) <> Some 0.
Proof. apply (bool_decide_unpack _). by vm_compute. Qed.

(** ** Logging in *)


(** Nobody has to be BOB. *)
Definition bob_forged : AuthSocket := set_input (forgery bob_reply (_login bob)) bob.
Lemma anyone_logs_in_witness : exists rd3 so3,
  _HandleLogonProof bob_challenged.1.2 bob_forged = (true, rd3, so3) /\ _authed so3 = true /\
  forall row, SEL_ACCOUNT (_login bob) (db rd3) = Some row -> sessionkey row = AsHexStr forged_K.
Proof.
  destruct bob_facts as ([Hsent Hst] & [HB Htok] & _).
  apply (anyone_logs_in toy_pw toy_realmd (caller ip_away name_bob) bob_challenged.1.2 bob bob_reply);
    [exact toy_verifiers|exact bob_is_challenged|exact Hsent|exact Hst|exact HB|exact Htok|].
  apply (bool_decide_unpack _). by vm_compute.
Defined.

(** ** Connections *)

Definition bob_logs_in : list NetAction :=
  [Connect 1 ip_away (mkAddr 1 2); Receive 1 (challenge_packet name_bob); Tick 1; RunStatements 1;
   Receive 1 (client_packet bob_client); RunStatements 5].
Definition bob_in : AuthSocket := default bob (n_conns (net_run bob_logs_in (mkNet toy_realmd ∅)) !! 1).

Lemma bob_is_in : n_conns (net_run bob_logs_in (mkNet toy_realmd ∅)) !! 1 = Some bob_in /\ _authed bob_in = true.
Proof.
  assert (bool_decide (is_Some (n_conns (net_run bob_logs_in (mkNet toy_realmd ∅)) !! 1)) && _authed bob_in = true) as Hok by (by vm_compute).
  apply andb_true_iff in Hok as [Hs%bool_decide_eq_true Ha]. split; [|done]. unfold bob_in. by destruct Hs as [so ->].
Qed.

Lemma logged_in_has_proved_witness : has_proved (mkNet toy_realmd ∅) bob_logs_in 1.
Proof. apply (logged_in_has_proved bob_logs_in toy_realmd 1 bob_in); apply bob_is_in. Defined.

Lemma verifiers_stay_witness : verifiers_ok toy_pw (n_rd (net_run bob_logs_in (mkNet toy_realmd ∅))).
Proof. apply (verifiers_stay toy_pw bob_logs_in (mkNet toy_realmd ∅)). exact toy_verifiers. Defined.

Definition bob_twice : AuthSocket := set_input (challenge_packet name_bob ++ challenge_packet name_ann) (AuthSocket_init ip_away (mkAddr 1 2)).

(** ** Into the world *)

(** What a client with a key sends to a world socket that has sent [seed] *)
Definition key_packet (login : text) (seed K : Z) : AuthSessionPacket :=
  mkAuthSession (session_digest login 7 seed K) 7 18414 [] login.
Definition world_with (d : LoginDB) : WorldProc := mkWorldProc d [] 5000000 [].
Definition caller_in_world (ip : text) : WorldSocket := WorldSocket_init ip 99.

Lemma key_is_held login ip K : holds_key login ip K (key_packet login 99 K) (caller_in_world ip).
Proof. done. Qed.

(** An account that is welcome, found by computation *)
Definition has_welcome (name : text) (d : LoginDB) (ip : text) : bool :=
  match SEL_ACCOUNT name d with
  | Some row => negb (SEL_BANS (acc_id row) ip d) && bool_decide (acc_os row = os_Win)
  | None => false
  end.
Lemma has_welcome_row name d ip : has_welcome name d ip = true ->
  exists row, SEL_ACCOUNT name d = Some row /\ welcome row (world_with d) ip.
Proof.
  unfold has_welcome. destruct (SEL_ACCOUNT name d) as [row|]; [|done].
  intros [Hb%negb_true_iff Ho%bool_decide_eq_true]%andb_true_iff. exists row. split; [done|].
  split; [done|]. split; [by left|]. intros Hl. change (0 < 0) in Hl. lia.
Qed.

(** The tables after BOB's proof *)
Definition bob_proof : bool * Realmd * AuthSocket :=
  _HandleLogonProof bob_challenged.1.2 (set_input (client_packet bob_client) bob).
Lemma bob_row : exists row, SEL_ACCOUNT (_login bob) (db bob_proof.1.2) = Some row /\
  welcome row (world_with (db bob_proof.1.2)) (remoteAddress bob).
Proof. apply has_welcome_row. by vm_compute. Qed.

Lemma login_leads_into_world_witness :
  bob_proof.1.1 = true /\ exists row, SEL_ACCOUNT (_login bob) (db bob_proof.1.2) = Some row /\
    (check_session (key_packet (_login bob) 99 (cl_K bob_client)) row (world_with (db bob_proof.1.2)) (caller_in_world (remoteAddress bob))).1.1 = 0.
Proof.
  destruct bob_facts as ([Hsent Hst] & [HB Htok] & HS & Hlast). assert (0 < cl_K bob_client) as HK by (by vm_compute).
  destruct (login_leads_into_world toy_pw toy_realmd (caller ip_away name_bob) bob_challenged.1.2 bob bob_reply 1
           toy_verifiers bob_is_challenged Hsent Hst HB Htok Z.le_0_1 HS Hlast HK bob_challenged.1.2) as (rd3 & so3 & Hp & Hall).
  assert (bob_proof = (true, rd3, so3)) as He by exact Hp. destruct bob_row as (row & Hrow & Hw). rewrite He in Hrow, Hw |- *.
  split; [reflexivity|]. exists row. split; [exact Hrow|].
  exact (Hall row _ _ _ Hrow Hw (key_is_held _ _ _)).
Defined.

(** ANN's account is locked to another address; it is entered from here without
    her password. *)
Definition ann_refused : bool * Realmd * AuthSocket := _HandleLogonChallenge toy_realmd (caller ip_away name_ann).
Definition ann : AuthSocket := ann_refused.2.
Definition ann_proof : bool * Realmd * AuthSocket :=
  _HandleLogonProof ann_refused.1.2 (set_input (unchallenged_proof (_login ann)) ann).
Lemma ann_is_refused : _HandleLogonChallenge toy_realmd (caller ip_away name_ann) = (true, ann_refused.1.2, ann).
Proof.
  assert (ann_refused.1.1 = true) as Hok by (by vm_compute). unfold ann, ann_refused in *.
  destruct (_HandleLogonChallenge _ _) as [[ok rd] so]. cbn in *. by rewrite Hok.
Qed.
Lemma ann_row : exists row, SEL_ACCOUNT (_login ann) (db ann_proof.1.2) = Some row /\
  welcome row (world_with (db ann_proof.1.2)) ip_away.
Proof. apply has_welcome_row. by vm_compute. Qed.

Lemma locked_account_is_entered_witness :
  sent ann = [[AUTH_LOGON_CHALLENGE; 0; WOW_FAIL_LOCKED_ENFORCED]] /\
  ann_proof.1.1 = true /\ exists row, SEL_ACCOUNT (_login ann) (db ann_proof.1.2) = Some row /\
    (check_session (key_packet (_login ann) 99 unchallenged_K) row (world_with (db ann_proof.1.2)) (caller_in_world ip_away)).1.1 = 0.
Proof.
  assert (sent ann = [[AUTH_LOGON_CHALLENGE; 0; WOW_FAIL_LOCKED_ENFORCED]]) as Hsent by (by vm_compute).
  assert (IsAcceptedClientBuild (_build ann) = true) as Hbuild by (by vm_compute).
  assert (last (unchallenged_M (_login ann)) <> Some 0) as Hlast by (apply (bool_decide_unpack _); by vm_compute).
  assert (0 < unchallenged_K) as HK by (by vm_compute). split; [exact Hsent|].
  destruct (locked_account_is_entered toy_pw toy_realmd (challenge_packet name_ann) ip_away (mkAddr 1 2) ann_refused.1.2 ann
           WOW_FAIL_LOCKED_ENFORCED toy_verifiers ann_is_refused Hsent Hbuild Hlast HK ann_refused.1.2) as (rd3 & so3 & Hp & Hall).
  assert (ann_proof = (true, rd3, so3)) as He by exact Hp. destruct ann_row as (row & Hrow & Hw). rewrite He in Hrow, Hw |- *.
  split; [reflexivity|]. exists row. split; [exact Hrow|].
  exact (Hall row _ _ _ Hrow Hw (key_is_held _ _ _)).
Defined.

(** A session that starts *)
Definition bob_at_world : Z * WorldProc * WorldSocket :=
  check_session (key_packet name_bob 99 5) (set_sessionkey [53] (toy_account 1 0)) (world_with toy_db) (caller_in_world ip_away).

(** A packet that arrives in two pieces *)
Definition hello_head : list Z := le_bytes 2 51 ++ le_bytes 2 MSG_VERIFY_CONNECTIVITY ++ [0; 0] ++ take 10 connectivity.
Definition hello_tail : list Z := drop 10 connectivity ++ [0].
Lemma pieces_do_not_matter_witness :
  receive (hello_head ++ hello_tail) (world_with toy_db) (caller_in_world ip_home) =
    (let '(w1, so1) := receive hello_head (world_with toy_db) (caller_in_world ip_home) in receive hello_tail w1 so1) /\
  closing_ (receive (hello_head ++ hello_tail) (world_with toy_db) (caller_in_world ip_home)).2 = false.
Proof.
  split; [|by vm_compute].
  apply (pieces_do_not_matter hello_head hello_tail (world_with toy_db) (caller_in_world ip_home)). exact (init_between ip_home 99).
Defined.

(** ** Tokens *)

Definition hello_base32 : text := [74; 66; 83; 87; 45; 89; 51; 68; 80].
Lemma base32_decode_spec_witness :
  base32_decode hello_base32 10 = (true, base32_bytes [9; 1; 18; 22; 24; 27; 3; 15] 10) /\
  base32_bytes [9; 1; 18; 22; 24; 27; 3; 15] 10 = [72; 101; 108; 108; 111].
Proof. split; [|by vm_compute]. apply (base32_decode_spec hello_base32 [9; 1; 18; 22; 24; 27; 3; 15] 10). by vm_compute. Defined.
